(* ===== verification/_CoqProject ===== *)
-Q . S2P
Prelude.v
CxxString.v
Asn1Utils.v
Asn1Node.v
Asn1Builder.v
Apdu.v
TelEventQueue.v
IccOperatorRule.v
TagService.v
SimNumberDecode.v
SimUtils.v
SimFileParse.v
Parcel.v
CellInformation.v
Parcelables.v
OperatorConfig.v
NetworkState.v
SignalInformation.v
SignalInfo.v
CoreServiceApi.v
NetworkSearchState.v
NetworkRegister.v
OperatorName.v
CoreServiceProxy.v
CoreServiceStub.v
CoreServiceIpc.v
CoreServiceRefinement.v
TelephonyPermission.v
CoreManagers.v
RawParcelCallback.v
CoreService.v
CoreServiceTypes.v
CoreServiceAccess.v
CoreServiceClient.v
CoreServiceCallback.v
CoreServiceLifecycle.v
RadioProtocol.v
NitzUpdate.v
EsimSlot.v
SimStateHandle.v
StrConvert.v
EsimData.v
EsimRequest.v
EsimResponse.v
EsimFile.v
EsimBench.v
EsimChannel.v
Tlv.v
EsimProfiles.v
EsimProfileList.v
TelRilBase.v
IccFileController.v
CardFiles.v
CardReading.v
DiallingNumbers.v
ContactRecord.v
DiallingRequests.v
