(* ===== verification/Prelude.v ===== *)
(** * The telephony core service: a verification library

    ** The program

    The core service is the part of OpenHarmony that owns the cards (SIM, eSIM) and the radio of a phone. Applications call it over IPC
    ([frameworks/native], [services/core]); it keeps the state of each slot ([services/sim], [services/network_search]), talks to the modem through
    [services/tel_ril], and runs each component on an event queue of its own ([utils/common]). [utils/codec] has the ASN.1 and APDU
    code that the eSIM support is built on. All paths below are relative to [src/].

    ** The files

    Foundations
    - Prelude.v: machine integers ([u8], [u32], [i32], ... and their ranges), the [outcome] of code that can throw ([Exn]) or be undefined ([Undef]),
      vectors with checked indices, hint databases and tactics.
    - CxxString.v: C++ strings as lists of characters, and the parts of the C and C++ libraries that parse and print numbers.

    The codec ([utils/codec])
    - Asn1Utils.v, Asn1Node.v, Asn1Builder.v: bytes and hexadecimal, nodes and the decoder, building of nodes ([asn1_utils.cpp],
      [asn1_node.cpp], [asn1_decoder.cpp], [asn1_builder.cpp]).
    - Apdu.v: STORE DATA commands and the answer to reset ([request_apdu_build.cpp], [reset_response.cpp]).

    Events ([utils/common])
    - TelEventQueue.v: the event queue with its pending task as a transition system ([tel_event_queue.cpp], [tel_event_handler.cpp]).

    Cards ([services/sim])
    - IccOperatorRule.v, TagService.v, SimNumberDecode.v, SimUtils.v, SimFileParse.v: the readers of what is stored on a card.
    - EsimSlot.v: which slot holds the eSIM ([multi_sim_helper.cpp]), on top of Apdu.v.
    - SimStateHandle.v: the state of the card in a slot and its observers ([sim_state_handle.cpp]), on top of EsimSlot.v.
    - RadioProtocol.v: the exchange of the radio protocols of the slots ([radio_protocol_controller.cpp]).

    The eSIM of a slot ([services/sim/src/esim_file.cpp])
    - StrConvert.v: UTF-8 and UTF-16 strings ([str_convert.cpp]).
    - EsimData.v: the object of a slot, its flags and results, and the interface [EsimPlatform] of what it runs on: the radio, the event thread, the
      bounded waits and the libraries. Its operations are written over [EsimPlatform].
    - EsimRequest.v: the commands that are sent to the card, with the logical channel they are sent on.
    - EsimResponse.v: what is done with the answers of the card.
    - EsimFile.v: each operation of the class as request, wait and result, and the event handler.
    - EsimBench.v: two platforms that run: one with a scripted card ([bench]), one that never answers ([deaf]).
    - EsimChannel.v: whatever happens, an operation gives back the channel it opened.
    - Tlv.v, EsimProfiles.v, EsimProfileList.v: answers as trees of tags, the profile list that a card may hold, and that the caller is given this list.

    Requests to the modem and the files of a card ([services/tel_ril], [services/sim/src/icc_file_controller.cpp])
    - TelRilBase.v: serial numbers, the requests that wait, and what answers and errors become ([tel_ril_base.h], [tel_ril_base.cpp]).
    - IccFileController.v: the controller that reads and updates files, and where the files are on each kind of card.
    - CardFiles.v, CardReading.v: callers, controller, driver and card as a step relation, in which files are read concurrently and requests can fail.
    - DiallingNumbers.v: the phone book, its records and the requests for them ([icc_dialling_numbers_handler.cpp], [sim_char_decode.h]), on top of IccFileController.v.
    - ContactRecord.v, DiallingRequests.v: what is stored is read back, and whoever asks is answered once.

    Objects that travel between processes ([frameworks/native], [interfaces/innerkits])
    - Parcel.v: the interface [ParcelOps] of the IPC buffer, which is not part of the repository, its laws [ParcelLaws], the steps that marshalling code
      is made of, and [list item] as an instance.
    - NetworkState.v, SignalInformation.v, CellInformation.v, Parcelables.v, OperatorConfig.v: the objects, their methods and their parcel forms.

    The radio ([services/network_search])
    - SignalInfo.v: the signals of a slot and their way over IPC ([signal_info.cpp]).
    - NetworkSearchState.v: the registration of a slot and who is told of it ([network_search_state.cpp]).
    - NetworkRegister.v: the modem's registration results, and which technology is shown ([network_register.cpp]).
    - OperatorName.v: the name of the network, broadcast and kept in the registration ([operator_name.cpp], [operator_name_utils.cpp]); the search manager with it is
      an instance of what NetworkSearchState.v needs.
    - NitzUpdate.v: the time sent by the network ([nitz_update.cpp]).

    The IPC of the core service
    - CoreServiceApi.v: the methods of [ICoreService] as the type [coreE], the codes, the error codes, and the monad of code that works on two parcels.
    - CoreServiceProxy.v ([core_service_proxy.cpp]) and CoreServiceStub.v ([core_service_stub.cpp]): the client and the server side of the 112 methods.
    - CoreServiceIpc.v: what a client sees ([spec]), and rules to follow the parcels through the code.
    - CoreServiceRefinement.v: proxy, parcels and stub together implement [spec].

    The core service itself
    - TelephonyPermission.v: who may call ([telephony_permission.cpp], [multi_sims_capability_manager.cpp]).
    - CoreManagers.v: the managers behind the service as three types of calls ([i_network_search.h], [i_sim_manager.h], [i_esim_manager.h]).
    - RawParcelCallback.v: answers that come later, through a callback object ([raw_parcel_callback_proxy.cpp], [raw_parcel_callback_stub.cpp]).
    - CoreService.v: the methods, the tasks they post, start and stop ([core_service.cpp], [core_service_sim.cpp]).
    - CoreServiceTypes.v: every method answers with values of its type; a process as an instance of all parameters.
    - CoreServiceAccess.v: the rights that each method needs, and that they are enforced.
    - CoreServiceClient.v: the client that finds the service, calls its proxy and waits for answers ([core_service_client.cpp]).
    - CoreServiceCallback.v: client, service, task queues and messages together, as a step relation.
    - CoreServiceLifecycle.v: the states of the process from its creation on, with starts, stops, requests and tasks.

    ** How the model relates to the code

    Definitions have the names of the functions they translate. A member function of a class takes the object as its last argument and returns
    the new one; constants, enumerations and structs have the names and values of the source. Values of integer types are [Z] with every
    conversion and wrap-around written out. Code that can throw or whose behaviour can be undefined returns an [outcome], so that
    theorems say where it does not. Loops are structural recursions, or recursions on fuel that is computed from the input (the number of bytes that
    are left, the number of elements): the theorems named [.._total] show that it is enough. Log messages are left out.

    Calls out of the repository are parameters: the parcel ([ParcelOps]), the transport of a request ([ClientSystem], with the hypotheses
    [Transport]), string conversion ([StringEx]), error code bases ([ErrorCodes]), the access token service ([AccessToken]), the managers behind the core service ([Managers]), the search manager as the slots see it ([SearchManager], [RegisterManager]), the eSIM's radio and threads ([EsimPlatform]), the card and the device as sources of names ([NameSources]), vendor libraries, the clock and the parameter service. Their hypotheses are
    named where they are used, and the witnesses instantiate them.

    ** What the theorems show

    - Codec and card files: what is built is decoded ([build_decode_roundtrip], [CreateFromTLV_rules], [TagService_roundtrip], [bcd_roundtrip],
      [ParseOpl_entries], ...), decoders stay inside their input and end on every input ([decoder_total], [CreateFromTLV_total], [ParseSpdi_total],
      [ParsePnn_safe]), and optimised loops agree with a reference ([Gsm7bit_septets], [AnalysisAtrData_groups]).
    - Events: in every reachable state a waiting event has a task that will pop it ([no_lost_wakeup], [queue_drains]), not before its time
      ([events_on_time]), and none is lost ([events_conserved]).
    - State machines: a running session of the radio protocols has exactly its own timeout queued ([session_timeout]); every operation of a slot's state
      refines a small card machine ([card_refines]) and the observers have been told of its state ([observers_told]).
    - The eSIM: an operation that returns has closed the channel it used, on every path, if the platform keeps to a named condition
      ([channel_released]; the downloads in several parts and their cancelling are outside of it); the list of profiles that a caller is given is the list that the card
      sent, in however many parts the answer came ([profiles_listed]), for nicknames and names that can be converted. The runs in EsimBench.v show an
      answer that overtakes the wait for it, and what is lost then.
    - Files of a card: however loads interleave and whatever fails, every caller is told once, of the contents of its file or of the error ([callers_told]), and
      reading ends ([reading_ends]). The card is assumed to answer as its standard says ([serves]). A contact is read back as it was stored, for names in plain
      ASCII or in Chinese and well-formed numbers ([contact_roundtrip], with examples of what is lost otherwise); a load of the phone book is answered at most
      once, and until then its request is kept ([loads_answered_once]).
    - Registration: whoever only hears notices knows the registration of a slot as it is ([registration_told]), and that of the services over IP
      ([ims_subscribers_know]); what the modem reports reaches them ([registration_reaches_observers]), from every reachable state ([registration_never_fails]);
      and a phone shows 5G exactly where [shows_5g] says. The names of the network keep to the interface ([operator_name_refines]), [one_name_is_shown],
      and those of the operator's configuration are found ([configured_name_found]).
    - Parcels: every object is received as it was sent, or the theorem says what is lost ([cell_parcel_roundtrip], [nr_ssb_short_list], [operator_config_too_large]).
    - IPC: a call through proxy and stub is a call of the service behind the stated checks ([core_service_refinement]); a request that is not for the core
      service does not reach it ([request_dispatch]).
    - The service: a table says for each method which rights its caller needs; a caller without one is refused before anything is done
      ([access_control]), also through proxy, parcels and stub ([client_access_control]); all answers have their types ([answers_typed]).
      A client that waits for an answer ends with the manager's own or with a timeout ([answer_is_managers]), however requests, tasks and messages interleave,
      and the answer is never lost ([answer_is_not_lost]). A service that says that it is running has all its managers ([running_has_managers]).

    ** Not modelled, and the plan

    Language bindings, the HDI driver calls of [tel_ril], settings and database access, notifications to applications and logging are I/O whose
    other side is not in the repository. Locks are not modelled: each operation is a step of its own. Requests sent with TF_ASYNC are served at once; answers through callback objects are not.
    The managers of the eSIM, the SIM and the search ([esim_manager.cpp], [sim_manager.cpp], [network_search_manager.cpp]) enter as parameters of the
    core service ([Managers]). The remaining parts are listed, with the reason, in the manifest. *)

From Stdlib Require Export ZArith Lia Ascii String.
From stdpp Require Export base numbers list strings gmap.
#[export] Set Default Goal Selector "!".
Open Scope Z_scope.

(* ------------------------------------------------------------------ *)
(** ** Machine integers *)

(** Values of the C++ unsigned and signed integer types are integers kept in
    range by the conversions below; every conversion the source performs
    ([static_cast], implicit narrowing, unsigned wrap-around) is written out. *)
Definition u8 (z : Z) : Z := z mod 2 ^ 8.
Definition u16 (z : Z) : Z := z mod 2 ^ 16.
Definition u32 (z : Z) : Z := z mod 2 ^ 32.
Definition u64 (z : Z) : Z := z mod 2 ^ 64.
Definition i32 (z : Z) : Z := (z + 2 ^ 31) mod 2 ^ 32 - 2 ^ 31.

Definition is_u8 (z : Z) : Prop := 0 <= z < 2 ^ 8.
Definition is_u16 (z : Z) : Prop := 0 <= z < 2 ^ 16.
Definition is_u32 (z : Z) : Prop := 0 <= z < 2 ^ 32.
Definition is_i32 (z : Z) : Prop := - 2 ^ 31 <= z < 2 ^ 31.

#[export] Instance is_u8_dec z : Decision (is_u8 z) := _.
#[export] Instance is_u16_dec z : Decision (is_u16 z) := _.
#[export] Instance is_u32_dec z : Decision (is_u32 z) := _.
#[export] Instance is_i32_dec z : Decision (is_i32 z) := _.

Create HintDb telephony discriminated.
#[export] Hint Constants Transparent : telephony.
Create Rewrite HintDb telephony_rw.

Lemma u8_range z : is_u8 (u8 z).
Proof. apply Z.mod_pos_bound; lia. Qed.
Lemma u16_range z : is_u16 (u16 z).
Proof. apply Z.mod_pos_bound; lia. Qed.
Lemma u32_range z : is_u32 (u32 z).
Proof. apply Z.mod_pos_bound; lia. Qed.
Lemma i32_range z : is_i32 (i32 z).
Proof. unfold i32, is_i32. pose proof (Z.mod_pos_bound (z + 2 ^ 31) (2 ^ 32)). lia. Qed.

Lemma u8_small z : is_u8 z -> u8 z = z.
Proof. apply Z.mod_small. Qed.
Lemma u16_small z : is_u16 z -> u16 z = z.
Proof. apply Z.mod_small. Qed.
Lemma u32_small z : is_u32 z -> u32 z = z.
Proof. apply Z.mod_small. Qed.
Lemma u64_small z : 0 <= z < 2 ^ 64 -> u64 z = z.
Proof. apply Z.mod_small. Qed.
Lemma i32_small z : is_i32 z -> i32 z = z.
Proof. unfold i32, is_i32. intros H. rewrite Z.mod_small; lia. Qed.

(** Converting to [int32_t] and back to [uint32_t] loses nothing. *)
Lemma u32_i32 z : u32 (i32 z) = u32 z.
Proof.
  unfold u32, i32. rewrite Zminus_mod_idemp_l. f_equal. lia.
Qed.
Lemma i32_u32 z : i32 (u32 z) = i32 z.
Proof. unfold u32, i32. by rewrite Zplus_mod_idemp_l. Qed.

#[export] Hint Resolve u8_range u16_range u32_range i32_range : telephony.
#[export] Hint Rewrite u32_i32 i32_u32 : telephony_rw.

(** Bits of truncated values. *)
Lemma u32_testbit z i : 0 <= i < 32 -> Z.testbit (u32 z) i = Z.testbit z i.
Proof. intros. unfold u32. apply Z.mod_pow2_bits_low. lia. Qed.
Lemma u32_testbit_high z i : 32 <= i -> Z.testbit (u32 z) i = false.
Proof. intros. unfold u32. apply Z.mod_pow2_bits_high. lia. Qed.
Lemma testbit_high n w i : 0 <= n < 2 ^ w -> 0 <= w <= i -> Z.testbit n i = false.
Proof.
  intros Hn Hi. rewrite <- (Z.mod_small n (2 ^ w)) by done.
  apply Z.mod_pow2_bits_high. lia.
Qed.

(** Two [w]-bit values agree when their low [w] bits do. *)
Lemma bits_ext w a b :
  0 <= w -> 0 <= a < 2 ^ w -> 0 <= b < 2 ^ w ->
  (forall i, 0 <= i < w -> Z.testbit a i = Z.testbit b i) -> a = b.
Proof.
  intros Hw Ha Hb H. apply Z.bits_inj'. intros i Hi.
  destruct (decide (i < w)) as [Hl|Hl]; [by apply H|].
  rewrite (testbit_high a w), (testbit_high b w); auto with lia.
Qed.

(** A property of every integer of a finite interval, by enumeration. *)
Lemma seqZ_forall (P : Z -> Prop) (lo n : Z) :
  Forall P (seqZ lo n) -> forall i, lo <= i < lo + n -> P i.
Proof.
  intros H i Hi. rewrite Forall_forall in H. apply H, elem_of_seqZ. lia.
Qed.

(** [enum_Z i] replaces a goal about [i] in a bounded interval by one goal per
    value of the interval. *)
Ltac enum_Z i :=
  lazymatch goal with
  | H : ?lo <= i < ?hi |- _ =>
      revert i H;
      let n := eval vm_compute in (hi - lo) in
      let P := lazymatch goal with |- forall j, _ <= j < _ -> @?P j => P end in
      apply (seqZ_forall P lo n);
      let l := eval vm_compute in (seqZ lo n) in
      change (Forall P l); repeat constructor
  end.

(** Decide a closed statement over all values of a finite interval by
    evaluating a boolean test on each. *)
Lemma forallb_seqZ (f : Z -> bool) (lo n : Z) :
  forallb f (seqZ lo n) = true -> forall i, lo <= i < lo + n -> f i = true.
Proof.
  intros H i Hi. rewrite forallb_forall in H. apply H.
  apply list_elem_of_In, elem_of_seqZ. lia.
Qed.

(* ------------------------------------------------------------------ *)
(** ** Outcomes of C++ code *)

(** [Ret]: the code returns; [Exn]: it throws (the standard library's
    [std::out_of_range] or [std::invalid_argument]); [Undef]: it has undefined
    behaviour (an access outside a buffer). *)
Inductive outcome (A : Type) : Type :=
| Ret (a : A)
| Exn
| Undef.
Arguments Ret {A} a.
Arguments Exn {A}.
Arguments Undef {A}.

#[export] Instance outcome_ret : MRet outcome := @Ret.
#[export] Instance outcome_bind : MBind outcome := fun A B f m =>
  match m with Ret a => f a | Exn => Exn | Undef => Undef end.

Lemma outcome_bind_assoc {A B C} (m : outcome A) (f : A -> outcome B) (g : B -> outcome C) :
  ((m ≫= f) ≫= g) = (m ≫= fun a => f a ≫= g).
Proof. by destruct m. Qed.

(** Code that reads and changes a state. *)
Definition stateful (S A : Type) : Type := S -> A * S.
#[export] Instance stateful_ret {S} : MRet (stateful S) := fun A a s => (a, s).
#[export] Instance stateful_bind {S} : MBind (stateful S) := fun A B f m s => let '(a, s) := m s in f a s.
Definition gets {S A} (f : S -> A) : stateful S A := fun s => (f s, s).
Definition modifies {S} (f : S -> S) : stateful S unit := fun s => (tt, f s).

(** The same for code that can throw or be undefined. *)
Definition partial (S A : Type) : Type := S -> outcome (A * S).
#[export] Instance partial_ret {S} : MRet (partial S) := fun A a s => Ret (a, s).
#[export] Instance partial_bind {S} : MBind (partial S) := fun A B f m s => match m s with Ret (a, s) => f a s | Exn => Exn | Undef => Undef end.
Definition pure {S A} (m : stateful S A) : partial S A := fun s => Ret (m s).
Definition attempt {S A} (f : S -> outcome A) : partial S A := fun s => a ← f s; Ret (a, s).
(** [*p] or [p->] on a pointer: undefined when it is null. *)
Definition the {A} (p : option A) : outcome A := match p with Some a => Ret a | None => Undef end.

(** [v\[i\]] on a vector or buffer: undefined outside. *)
Definition vec_get {A} (v : list A) (i : Z) : outcome A :=
  if decide (i < 0) then Undef else
  match v !! Z.to_nat i with Some a => Ret a | None => Undef end.

(** [v.at(i)]: throws outside. *)
Definition vec_at {A} (v : list A) (i : Z) : outcome A :=
  if decide (i < 0) then Exn else
  match v !! Z.to_nat i with Some a => Ret a | None => Exn end.

Definition zlen {A} (l : list A) : Z := Z.of_nat (length l).
Arguments zlen : simpl never.

Lemma zlen_nonneg {A} (l : list A) : 0 <= zlen l.
Proof. unfold zlen. lia. Qed.
Lemma zlen_app {A} (l k : list A) : zlen (l ++ k) = zlen l + zlen k.
Proof. unfold zlen. rewrite length_app. lia. Qed.
Lemma zlen_cons {A} (x : A) l : zlen (x :: l) = 1 + zlen l.
Proof. unfold zlen. rewrite length_cons. lia. Qed.
Lemma zlen_0_nil {A} (l : list A) : zlen l = 0 -> l = [].
Proof. unfold zlen. destruct l; [done|]. rewrite length_cons. lia. Qed.
#[export] Hint Rewrite @zlen_app @zlen_cons : telephony_rw.

(** Push [zlen] through the list structure, in the goal and the hypotheses. *)
Ltac zlen_simpl :=
  repeat match goal with
  | |- context [zlen (?l ++ ?k)] => rewrite (zlen_app l k)
  | |- context [zlen (?x :: ?l)] => rewrite (zlen_cons x l)
  | |- context [zlen (@nil ?A)] => change (zlen (@nil A)) with 0
  | H : context [zlen (?l ++ ?k)] |- _ => rewrite (zlen_app l k) in H
  | H : context [zlen (?x :: ?l)] |- _ => rewrite (zlen_cons x l) in H
  | H : context [zlen (@nil ?A)] |- _ => change (zlen (@nil A)) with 0 in H
  end.
#[export] Hint Resolve @zlen_nonneg : telephony.

Lemma vec_get_Ret {A} (v : list A) i a :
  vec_get v i = Ret a <-> 0 <= i /\ v !! Z.to_nat i = Some a.
Proof.
  unfold vec_get. destruct (decide (i < 0)); [split; [done|lia]|].
  destruct (v !! Z.to_nat i); naive_solver lia.
Qed.

Lemma vec_get_in {A} (v : list A) i :
  0 <= i < zlen v -> exists a, vec_get v i = Ret a /\ v !! Z.to_nat i = Some a.
Proof.
  unfold zlen. intros Hi.
  destruct (lookup_lt_is_Some_2 v (Z.to_nat i)) as [a Ha]; [lia|].
  exists a. split; [|done]. apply vec_get_Ret. split; [lia|done].
Qed.

Lemma vec_at_Ret {A} (v : list A) i a :
  vec_at v i = Ret a <-> 0 <= i /\ v !! Z.to_nat i = Some a.
Proof.
  unfold vec_at. destruct (decide (i < 0)); [split; [done|lia]|].
  destruct (v !! Z.to_nat i); naive_solver lia.
Qed.

Lemma vec_at_in {A} (v : list A) i :
  0 <= i < zlen v -> exists a, vec_at v i = Ret a /\ v !! Z.to_nat i = Some a.
Proof.
  unfold zlen. intros Hi.
  destruct (lookup_lt_is_Some_2 v (Z.to_nat i)) as [a Ha]; [lia|].
  exists a. split; [|done]. apply vec_at_Ret. split; [lia|done].
Qed.

(** The sub-vector [v.begin()+from .. v.begin()+to): undefined unless
    [0 <= from <= to <= size]. *)
Definition vec_slice {A} (v : list A) (from to : Z) : outcome (list A) :=
  if decide (0 <= from /\ from <= to /\ to <= zlen v)
  then Ret (take (Z.to_nat (to - from)) (drop (Z.to_nat from) v))
  else Undef.

(* ------------------------------------------------------------------ *)
(** ** Error codes ([interfaces/innerkits/include/telephony_errors.h])

    The codes the modelled functions return, as an enumeration: their numeric
    values are offsets from a base computed by the operating system's error
    library. *)
Inductive TelErr : Type :=
| TELEPHONY_ERR_SUCCESS
| TELEPHONY_ERR_FAIL
| TELEPHONY_ERR_ARGUMENT_INVALID
| TELEPHONY_ERR_LOCAL_PTR_NULL.
#[export] Instance TelErr_eq_dec : EqDecision TelErr.
Proof. solve_decision. Defined.

(* ------------------------------------------------------------------ *)
(** ** Reading a vector given as a concatenation *)

Lemma vec_get_app {A} (pre : list A) x post : vec_get (pre ++ x :: post) (zlen pre) = Ret x.
Proof.
  apply vec_get_Ret. split; [apply zlen_nonneg|].
  unfold zlen. rewrite Nat2Z.id, lookup_app_r by lia. by rewrite Nat.sub_diag.
Qed.

Lemma vec_slice_app {A} (pre mid post : list A) :
  vec_slice (pre ++ mid ++ post) (zlen pre) (zlen pre + zlen mid) = Ret mid.
Proof.
  unfold vec_slice. pose proof (zlen_nonneg pre). pose proof (zlen_nonneg mid). pose proof (zlen_nonneg post).
  rewrite decide_True by (zlen_simpl; lia). unfold zlen. rewrite Nat2Z.id, drop_app_length.
  replace (Z.to_nat _) with (length mid) by lia. by rewrite take_app_length.
Qed.

(** The same with the position given by an equation, so that the splitting of
    the vector need not be syntactic. *)
Lemma vec_get_at {A} (src pre : list A) x post i :
  src = pre ++ x :: post -> i = zlen pre -> vec_get src i = Ret x.
Proof. intros -> ->. apply vec_get_app. Qed.

Lemma vec_slice_at {A} (src pre mid post : list A) i j :
  src = pre ++ mid ++ post -> i = zlen pre -> j = zlen pre + zlen mid -> vec_slice src i j = Ret mid.
Proof. intros -> -> ->. apply vec_slice_app. Qed.

Ltac by_assoc := rewrite <- ?app_assoc; reflexivity.
Ltac by_zlen := zlen_simpl; lia.

Lemma vec_slice_in {A} (v : list A) from to :
  0 <= from <= to -> to <= zlen v -> exists s, vec_slice v from to = Ret s /\ zlen s = to - from.
Proof.
  intros H1 H2. unfold vec_slice. rewrite decide_True by lia. eexists. split; [done|].
  unfold zlen in *. rewrite length_take, length_drop. lia.
Qed.

(** Split a goal on the first boolean comparison it tests, keeping the
    arithmetic fact. *)
Ltac case_bool :=
  match goal with
  | |- context [?a <? ?b] => destruct (Z.ltb_spec a b)
  | |- context [?a <=? ?b] => destruct (Z.leb_spec a b)
  | |- context [?a =? ?b] => destruct (Z.eqb_spec a b)
  end.

(** [lia] on goals with quotients and remainders. *)
Ltac divmod_lia := Z.to_euclidean_division_equations; lia.
