(* ===== verification/CxxString.v ===== *)
(** * C++ strings and number formatting

    [std::string] as a list of characters, with the parts of the C and C++
    standard library the modelled code relies on: hexadecimal stream output
    ([std::hex], [std::setw], [std::setfill]), [strtol], [std::from_chars],
    [std::to_chars], [find], [substr]; and positional (big-endian) notation in
    an arbitrary base, which the codecs are specified with. *)

From S2P Require Import Prelude.

Abbreviation cstring := (list ascii).
Definition str (s : string) : cstring := list_ascii_of_string s.

(** ** Characters *)

Definition code (c : ascii) : Z := Z.of_N (N_of_ascii c).
Definition chr (z : Z) : ascii := ascii_of_N (Z.to_N z).

Lemma code_range c : is_u8 (code c).
Proof. unfold code, is_u8. pose proof (N_ascii_bounded c). lia. Qed.
Lemma code_chr z : is_u8 z -> code (chr z) = z.
Proof. unfold code, chr, is_u8. intros Hz. rewrite N_ascii_embedding; lia. Qed.
Lemma chr_code c : chr (code c) = c.
Proof. unfold code, chr. rewrite N2Z.id. apply ascii_N_embedding. Qed.
#[export] Hint Resolve code_range : telephony.

Lemma code_inj c d : code c = code d -> c = d.
Proof. intros H. by rewrite <- (chr_code c), H, chr_code. Qed.

(** ** Positional notation, most significant digit first *)

Fixpoint be_digits (B : Z) (n : nat) (v : Z) : list Z :=
  match n with
  | O => []
  | S n' => be_digits B n' (v / B) ++ [v mod B]
  end.

Definition be_value (B : Z) (ds : list Z) : Z := foldl (fun acc d => acc * B + d) 0 ds.

Arguments be_value : simpl never.

Section positional.
Context (B : Z) (HB : 2 <= B).

Lemma be_digits_length n v : length (be_digits B n v) = n.
Proof. revert v; induction n as [|n IH]; intros v; simpl; [done|]. rewrite length_app, IH. simpl. lia. Qed.

Lemma be_digits_range n v : Forall (fun d => 0 <= d < B) (be_digits B n v).
Proof.
  revert v; induction n as [|n IH]; intros v; simpl; [constructor|].
  apply Forall_app. split; [apply IH|]. repeat constructor; apply Z.mod_pos_bound; lia.
Qed.

Lemma be_value_snoc ds d : be_value B (ds ++ [d]) = be_value B ds * B + d.
Proof. unfold be_value. by rewrite foldl_app. Qed.

Lemma be_value_app ds es :
  be_value B (ds ++ es) = be_value B ds * B ^ zlen es + be_value B es.
Proof.
  induction es as [|d es IH] using rev_ind.
  - rewrite app_nil_r. unfold be_value, zlen. simpl. lia.
  - rewrite app_assoc, !be_value_snoc, IH. zlen_simpl.
    rewrite Z.add_0_r, Z.pow_add_r, Z.pow_1_r by (pose proof (zlen_nonneg es); lia). lia.
Qed.

Lemma be_value_cons d ds : be_value B (d :: ds) = d * B ^ zlen ds + be_value B ds.
Proof. change (d :: ds) with ([d] ++ ds). rewrite be_value_app. unfold be_value at 1. simpl. lia. Qed.

Lemma be_value_range ds :
  Forall (fun d => 0 <= d < B) ds -> 0 <= be_value B ds < B ^ zlen ds.
Proof.
  induction ds as [|d ds IH] using rev_ind; intros H.
  - unfold be_value, zlen. simpl. lia.
  - apply Forall_app in H as [Hs Hd]. apply Forall_inv in Hd. specialize (IH Hs).
    rewrite be_value_snoc. zlen_simpl.
    rewrite Z.add_0_r, Z.pow_add_r, Z.pow_1_r by (pose proof (zlen_nonneg ds); lia). nia.
Qed.

Lemma be_value_digits n v : be_value B (be_digits B n v) = v mod B ^ Z.of_nat n.
Proof.
  revert v; induction n as [|n IH]; intros v.
  - simpl. rewrite Z.mod_1_r. done.
  - cbn [be_digits]. rewrite be_value_snoc, IH.
    rewrite Nat2Z.inj_succ, Z.pow_succ_r by lia.
    rewrite (Z.rem_mul_r v B (B ^ Z.of_nat n)) by (try apply Z.pow_nonzero; nia). lia.
Qed.

Lemma be_value_digits_small n v :
  0 <= v < B ^ Z.of_nat n -> be_value B (be_digits B n v) = v.
Proof. intros. rewrite be_value_digits. by apply Z.mod_small. Qed.

Lemma be_digits_value ds :
  Forall (fun d => 0 <= d < B) ds -> be_digits B (length ds) (be_value B ds) = ds.
Proof.
  induction ds as [|d ds IH] using rev_ind; intros H; [done|].
  apply Forall_app in H as [Hs Hd]. apply Forall_inv in Hd.
  rewrite length_app, Nat.add_comm. cbn [length Nat.add be_digits].
  rewrite be_value_snoc, Z.div_add_l, Z.div_small, Z.add_0_r, IH by (done || lia).
  f_equal. f_equal. rewrite Z.add_comm, Z.mod_add, Z.mod_small; lia.
Qed.

Lemma be_digits_zero n : be_digits B n 0 = replicate n 0.
Proof.
  induction n as [|n IH]; [done|]. cbn [be_digits].
  rewrite Z.div_0_l, Z.mod_0_l, IH by lia. by rewrite <- replicate_S_end.
Qed.
End positional.

(** Splitting every base-256 digit into two base-16 digits. *)
Definition nibbles (b : Z) : list Z := [b / 16; b mod 16].

Lemma be_digits_nibbles n v :
  be_digits 16 (2 * n) v = be_digits 256 n v ≫= nibbles.
Proof.
  revert v; induction n as [|n IH]; intros v; [done|].
  replace (2 * S n)%nat with (S (S (2 * n))) by lia. cbn [be_digits].
  rewrite bind_app, Z.div_div by lia. change (16 * 16) with 256. rewrite IH.
  rewrite <- app_assoc. f_equal. unfold nibbles. cbn. f_equal; [|f_equal].
  - change 256 with (16 * 16). rewrite Z.rem_mul_r by lia.
    rewrite (Z.mul_comm 16 (_ mod 16)), Z.div_add by lia.
    rewrite (Z.div_small (v mod 16)); [done|]. apply Z.mod_pos_bound. lia.
  - change 256 with (16 * 16). rewrite Z.rem_mul_r by lia.
    rewrite (Z.mul_comm 16 (_ mod 16)), Z.mod_add, Z.mod_mod by lia. done.
Qed.

(** ** Hexadecimal digits *)

Definition hex_upper (d : Z) : ascii := nth (Z.to_nat d) (str "0123456789ABCDEF") "0"%char.
Definition hex_lower (d : Z) : ascii := nth (Z.to_nat d) (str "0123456789abcdef") "0"%char.

Definition hex_value (c : ascii) : option Z :=
  let n := code c in
  if (48 <=? n) && (n <=? 57) then Some (n - 48)
  else if (65 <=? n) && (n <=? 70) then Some (n - 55)
  else if (97 <=? n) && (n <=? 102) then Some (n - 87)
  else None.

Lemma hex_value_upper d : 0 <= d < 16 -> hex_value (hex_upper d) = Some d.
Proof. intros Hd. enum_Z d. Qed.
Lemma hex_value_lower d : 0 <= d < 16 -> hex_value (hex_lower d) = Some d.
Proof. intros Hd. enum_Z d. Qed.
Lemma hex_value_range c d : hex_value c = Some d -> 0 <= d < 16.
Proof. unfold hex_value. repeat case_match; naive_solver lia. Qed.

(** [std::hex << value] of a non-negative value: no leading zeros. The fuel is
    the number of digits of the widest type printed (64 bits). *)
Fixpoint hex_digits (fuel : nat) (n : Z) : list Z :=
  match fuel with
  | O => []
  | S f => if n <? 16 then [n] else hex_digits f (n / 16) ++ [n mod 16]
  end.

Definition pad_left {A} (w : nat) (fill : A) (s : list A) : list A :=
  replicate (w - length s) fill ++ s.

(** [std::uppercase << std::hex << std::setw(w) << std::setfill('0') << n]. *)
Definition put_hex (w : Z) (n : Z) : cstring :=
  pad_left (Z.to_nat w) "0"%char (hex_upper <$> hex_digits 16 n).

Lemma hex_digits_pad w f v :
  (0 < w <= f)%nat -> 0 <= v < 16 ^ Z.of_nat w ->
  pad_left w 0 (hex_digits f v) = be_digits 16 w v.
Proof.
  revert f v; induction w as [|w IH]; intros f v Hw Hv; [lia|].
  destruct f as [|f]; [lia|]. cbn [hex_digits be_digits].
  destruct (Z.ltb_spec v 16) as [Hs|Hs].
  - unfold pad_left. rewrite Z.div_small, Z.mod_small, be_digits_zero by lia.
    cbn. by rewrite Nat.sub_0_r.
  - assert (0 <= v / 16 < 16 ^ Z.of_nat w) as Hd.
    { rewrite Nat2Z.inj_succ, Z.pow_succ_r in Hv by lia.
      split; [apply Z.div_pos; lia|]. apply Z.div_lt_upper_bound; lia. }
    assert (0 < w)%nat.
    { destruct w; [|lia]. cbn in Hd. pose proof (Z.div_le_lower_bound v 16 1). lia. }
    rewrite <- (IH f) by lia. unfold pad_left. rewrite length_app, app_assoc.
    cbn [length]. do 3 f_equal. lia.
Qed.

Lemma put_hex_digits w n :
  0 < w <= 16 -> 0 <= n < 16 ^ w ->
  put_hex w n = hex_upper <$> be_digits 16 (Z.to_nat w) n.
Proof.
  intros Hw Hn. rewrite <- (hex_digits_pad _ 16) by (try rewrite Z2Nat.id; lia).
  unfold put_hex, pad_left. rewrite fmap_app, fmap_replicate, length_fmap. done.
Qed.

(** ** [strtol(s, nullptr, 16)]

    White space, an optional sign, an optional [0x], then hexadecimal digits up
    to the first other character; the result is clamped to [long] (64 bits: the
    code is modelled for an LP64 platform). *)
Definition is_space (c : ascii) : bool :=
  let n := code c in (n =? 32) || ((9 <=? n) && (n <=? 13)).

Fixpoint skip_space (s : cstring) : cstring :=
  match s with
  | c :: t => if is_space c then skip_space t else s
  | [] => []
  end.

Fixpoint hex_prefix (acc : Z) (s : cstring) : Z :=
  match s with
  | c :: t => match hex_value c with Some d => hex_prefix (acc * 16 + d) t | None => acc end
  | [] => acc
  end.

Definition skip_0x (s : cstring) : cstring :=
  match s with
  | "0"%char :: "x"%char :: t | "0"%char :: "X"%char :: t => t
  | _ => s
  end.

Definition clamp_long (z : Z) : Z := Z.max (- 2 ^ 63) (Z.min (2 ^ 63 - 1) z).

Definition strtol16 (s : cstring) : Z :=
  match skip_space s with
  | "-"%char :: t => clamp_long (- hex_prefix 0 (skip_0x t))
  | "+"%char :: t => clamp_long (hex_prefix 0 (skip_0x t))
  | t => clamp_long (hex_prefix 0 (skip_0x t))
  end.

(** A string of hexadecimal digits, and the digits it denotes. *)
Definition hex_digits_of (s : cstring) : option (list Z) := mapM hex_value s.

Lemma hex_prefix_digits s ds acc :
  hex_digits_of s = Some ds -> hex_prefix acc s = foldl (fun a d => a * 16 + d) acc ds.
Proof.
  unfold hex_digits_of. revert ds acc; induction s as [|c s IH]; intros ds acc; simpl.
  { intros [= <-]. done. }
  destruct (hex_value c) as [d|] eqn:Hc; simpl; [|done].
  destruct (mapM hex_value s) as [ds'|]; simpl; [|done]. intros [= <-]. simpl. by apply IH.
Qed.

(** Characters that are hexadecimal digits are neither white space nor signs. *)
Lemma hex_value_not_special c d :
  hex_value c = Some d ->
  is_space c = false /\ c <> "-"%char /\ c <> "+"%char /\ c <> "x"%char /\ c <> "X"%char.
Proof.
  intros H. unfold is_space. assert (48 <= code c <= 57 \/ 65 <= code c <= 70 \/ 97 <= code c <= 102) as Hr.
  { unfold hex_value in H. repeat case_match; naive_solver lia. }
  split; [lia|]. repeat split; intros ->; vm_compute in Hr; naive_solver.
Qed.

Lemma strtol16_digits s ds :
  hex_digits_of s = Some ds -> be_value 16 ds < 2 ^ 63 -> strtol16 s = be_value 16 ds.
Proof.
  intros Hs Hb.
  assert (Forall (fun d => 0 <= d < 16) ds) as Hr.
  { unfold hex_digits_of in Hs. apply mapM_Some in Hs.
    clear Hb. induction Hs; constructor; eauto using hex_value_range. }
  pose proof (be_value_range 16 ltac:(lia) ds Hr) as Hv.
  assert (hex_prefix 0 s = be_value 16 ds) as Hp by (by apply hex_prefix_digits).
  assert (clamp_long (hex_prefix 0 s) = be_value 16 ds) as Hc.
  { rewrite Hp. unfold clamp_long. lia. }
  destruct s as [|c s]; [done|]. unfold hex_digits_of in Hs. simpl in Hs.
  destruct (hex_value c) as [d|] eqn:Hd; simpl in Hs; [|done].
  apply hex_value_not_special in Hd as (Hsp & Hm & Hpl & _).
  assert (skip_0x (c :: s) = c :: s) as H0.
  { destruct s as [|c' s]; [by destruct c as [[] [] [] [] [] [] [] []]|].
    simpl in Hs. destruct (hex_value c') as [d'|] eqn:Hd'; simpl in Hs; [|done].
    apply hex_value_not_special in Hd' as (_ & _ & _ & ? & ?).
    unfold skip_0x. repeat case_match; congruence. }
  unfold strtol16. cbn [skip_space]. rewrite Hsp.
  repeat case_match; simplify_eq; congruence.
Qed.

Lemma hex_digits_of_upper ds :
  Forall (fun d => 0 <= d < 16) ds -> hex_digits_of (hex_upper <$> ds) = Some ds.
Proof.
  intros H. unfold hex_digits_of. induction H as [|d ds Hd _ IH]; [done|].
  rewrite fmap_cons. cbn [mapM]. by rewrite hex_value_upper, IH.
Qed.

(** ** Substrings *)

(** [s.substr(pos, n)] throws when [pos > size]; [s.substr(pos)] is the rest. *)
Definition substr (s : cstring) (pos n : Z) : outcome cstring :=
  if zlen s <? pos then Exn else Ret (take (Z.to_nat n) (drop (Z.to_nat pos) s)).
Definition substr_from (s : cstring) (pos : Z) : outcome cstring :=
  if zlen s <? pos then Exn else Ret (drop (Z.to_nat pos) s).

(** Items with a separator between them. *)
Fixpoint join (c : ascii) (parts : list cstring) : cstring :=
  match parts with [] => [] | [p] => p | p :: t => p ++ c :: join c t end.

(** ** Decimal numbers *)

Definition digit_char (d : Z) : ascii := chr (48 + d).
Definition is_dec (d : Z) : Prop := 0 <= d < 10.

Definition digit_value (c : ascii) : option Z :=
  let d := code c - 48 in if (0 <=? d) && (d <? 10) then Some d else None.
Fixpoint digits_prefix (s : cstring) : list Z :=
  match s with
  | [] => []
  | c :: t => match digit_value c with Some d => d :: digits_prefix t | None => [] end
  end.

Lemma digit_char_facts d : is_dec d -> is_space (digit_char d) = false /\ digit_value (digit_char d) = Some d /\ code (digit_char d) = 48 + d.
Proof.
  unfold is_dec. intros Hd. split; [by enum_Z d|].
  assert (is_u8 (48 + d)) as Hu by (unfold is_u8; lia). unfold digit_value, digit_char. rewrite (code_chr _ Hu).
  replace (48 + d - 48) with d by lia. destruct (Z.leb_spec 0 d); [|lia]. by destruct (Z.ltb_spec d 10); [|lia].
Qed.

Lemma digits_prefix_num ds s :
  Forall is_dec ds -> match s with [] => True | c :: _ => digit_value c = None end -> digits_prefix ((digit_char <$> ds) ++ s) = ds.
Proof.
  intros Hd Hs. induction Hd as [|d ds Hd _ IH]; [destruct s as [|c s]; [done|]; cbn; by rewrite Hs|].
  cbn. destruct (digit_char_facts d Hd) as (_ & E & _). rewrite E. f_equal. exact IH.
Qed.

(** [strtol(s, &end, 10)]: the value, and what [end] points to; without a digit [end]
    is the start of the string. [errno] is [ERANGE] when the value does not fit. *)
Definition strtol10 (s : cstring) : Z * cstring * bool :=
  let t := skip_space s in
  let '(neg, t) := match t with
                   | c :: t' => if decide (c = "-"%char) then (true, t') else if decide (c = "+"%char) then (false, t') else (false, t)
                   | [] => (false, [])
                   end in
  let ds := digits_prefix t in
  match ds with
  | [] => (0, s, false)
  | _ =>
      let v := if neg : bool then - be_value 10 ds else be_value 10 ds in
      (clamp_long v, drop (length ds) t, negb (clamp_long v =? v))
  end.

Lemma strtol10_num ds :
  ds <> [] -> Forall is_dec ds -> be_value 10 ds < 2 ^ 63 -> strtol10 (digit_char <$> ds) = (be_value 10 ds, [], false).
Proof.
  intros Hne Hd Hb. pose proof (be_value_range 10 ltac:(lia) _ Hd) as Hr.
  pose proof (digits_prefix_num ds [] Hd I) as P. rewrite app_nil_r in P.
  unfold strtol10. destruct ds as [|d ds]; [done|]. pose proof Hd as Hd'. apply Forall_cons in Hd' as [Hd1 _].
  destruct (digit_char_facts d Hd1) as (E1 & _ & E3). unfold is_dec in Hd1.
  assert (code "-" = 45 /\ code "+" = 43) as [? ?] by done.
  change (digit_char <$> d :: ds) with (digit_char d :: (digit_char <$> ds)) in *. cbn [skip_space]. rewrite E1.
  rewrite !decide_False by (intros E; rewrite E in E3; lia). rewrite P.
  assert (clamp_long (be_value 10 (d :: ds)) = be_value 10 (d :: ds)) as -> by (unfold clamp_long; lia).
  rewrite Z.eqb_refl. cbn [negb]. repeat f_equal. cbn [length drop]. apply skipn_all2. by rewrite length_fmap.
Qed.

(** What a C function sees of [s.c_str()]: the characters before the first null character. *)
Fixpoint c_str (s : cstring) : cstring :=
  match s with [] => [] | c :: t => if decide (c = zero) then [] else c :: c_str t end.
