(* ===== verification/Asn1Utils.v ===== *)
(** * [utils/codec/src/asn1_utils.cpp]: byte, hexadecimal and bit conversions

    The definitions carry the names of the static methods of [Asn1Utils].
    [uint32_t] and [uint8_t] values are integers in range; vectors of bytes are
    lists of them. An output parameter that the source leaves untouched on
    failure is an [option] here. *)

From S2P Require Import Prelude CxxString.

(** ** Constants ([asn1_constants.h] and the anonymous namespace) *)

Definition BYTE_TO_HEX_LEN : Z := 2.
Definition OFFSET_EIGHT_BIT : Z := 8.
Definition BIT6_MASK : Z := 0x20.
Definition BIT8_MASK : Z := 0x80.
Definition MAX_UINT8 : Z := 255.
Definition MAX_UINT16 : Z := 65535.
Definition MAX_UINT24 : Z := 16777215.
Definition MAX_BPP_LENGTH : Z := 245760.
Definition MAX_INT8 : Z := 127.
Definition MAX_INT16 : Z := 32767.
Definition MAX_INT24 : Z := 8388607.
Definition HEX_STR_MAX_LENGTH : Z := 4.

Definition ByteCountForInt (value : Z) (isSigned : bool) : Z :=
  if isSigned then
    if value <=? MAX_INT8 then 1
    else if value <=? MAX_INT16 then 2
    else if value <=? MAX_INT24 then 3
    else 4
  else
    if value <=? MAX_UINT8 then 1
    else if value <=? MAX_UINT16 then 2
    else if value <=? MAX_UINT24 then 3
    else 4.

Definition ByteCountForUint (value : Z) : Z := ByteCountForInt value false.
Arguments ByteCountForInt : simpl never.
Arguments ByteCountForUint : simpl never.

Definition CalculateEncodedBytesNumForLength (length : Z) : Z :=
  if MAX_INT8 <? length then u32 (1 + ByteCountForUint length) else 1.

(** ** Bytes and hexadecimal strings *)

Definition BytesToHexStr (bytes : list Z) : cstring :=
  if MAX_BPP_LENGTH <? zlen bytes then []
  else bytes ≫= fun b => put_hex BYTE_TO_HEX_LEN (Z.land b MAX_UINT8).

(** Returns the length and the string. *)
Definition ByteToHexStr (src : Z) : Z * cstring :=
  let dest := put_hex BYTE_TO_HEX_LEN (Z.land src MAX_UINT8) in
  (u32 (zlen dest), dest).

(** The loop of [HexStrToBytes] over [hexStr.substr(i, 2)], [i += 2]. *)
Fixpoint hex_pairs (s : cstring) : list Z :=
  match s with
  | a :: b :: t => u8 (strtol16 [a; b]) :: hex_pairs t
  | [a] => [u8 (strtol16 [a])]
  | [] => []
  end.

Definition HexStrToBytes (hexStr : cstring) : list Z :=
  if MAX_BPP_LENGTH * BYTE_TO_HEX_LEN <? zlen hexStr then []
  else if negb (zlen hexStr mod BYTE_TO_HEX_LEN =? 0) then []
  else hex_pairs hexStr.

(** [None]: returns false and leaves [valInt] untouched. *)
Definition BytesToInt (src : list Z) (offset length : Z) : option Z :=
  if (HEX_STR_MAX_LENGTH <? length) || (zlen src <=? offset) || (zlen src - offset <? length)
  then None
  else
    let subByteStream := take (Z.to_nat length) (drop (Z.to_nat offset) src) in
    let hexStr := BytesToHexStr subByteStream in
    Some (i32 (strtol16 hexStr)).

(** Returns the length and the bytes. *)
Definition UintToBytes (value : Z) : Z * list Z :=
  let len := ByteCountForInt value false in
  let hexStr := put_hex (len * BYTE_TO_HEX_LEN) value in
  (len, HexStrToBytes hexStr).

Arguments UintToBytes : simpl never.

(** [oss << std::hex << value] prints a negative [int32_t] as its unsigned
    two's complement. *)
Definition IntToBytes (value : Z) : Z * list Z :=
  let len := ByteCountForInt (u32 value) true in
  let hexStr := put_hex (len * BYTE_TO_HEX_LEN) (u32 value) in
  (len, HexStrToBytes hexStr).

Definition IsConstructedTag (tag : Z) : bool :=
  let '(bytesLen, tagBytes) := UintToBytes tag in
  match tagBytes with
  | [] => false
  | b0 :: _ => if bytesLen =? 0 then false else negb (Z.land b0 BIT6_MASK =? 0)
  end.

(** ** Strings *)

Definition StrToHexStr (s : cstring) : cstring := BytesToHexStr (code <$> s).

Definition HexStrToString (hexStr : cstring) : cstring := chr <$> HexStrToBytes hexStr.

Definition StringToBytes (src : cstring) : list Z := HexStrToBytes (StrToHexStr src).

Definition BytesToString (src : list Z) : cstring := HexStrToString (BytesToHexStr src).

(** [substr(i + 1, 1)] then [substr(i, 1)] for each pair. *)
Fixpoint swap_pairs (s : cstring) : cstring :=
  match s with
  | a :: b :: t => b :: a :: swap_pairs t
  | _ => []
  end.

Definition SwapHexCharPair (hexStr : cstring) : cstring :=
  if MAX_UINT8 * BYTE_TO_HEX_LEN <? zlen hexStr then []
  else swap_pairs (if negb (zlen hexStr mod BYTE_TO_HEX_LEN =? 0)
                   then hexStr ++ str "0" else hexStr).

Definition BchToString (src : list Z) : cstring := SwapHexCharPair (BytesToHexStr src).
Definition BcdToBytes (bcd : cstring) : list Z := HexStrToBytes (SwapHexCharPair bcd).

(** ** Bit tricks *)

Definition shl32 (x n : Z) : Z := u32 (Z.shiftl x n).

(** One exchange step of [ReverseInt]:
    [((v & mask) << k) | ((v >> k) & mask)]. *)
Definition swap_blocks (mask k v : Z) : Z :=
  Z.lor (shl32 (Z.land v mask) k) (Z.land (Z.shiftr v k) mask).

Definition swap_bytes (v : Z) : Z :=
  Z.lor (Z.lor (Z.lor (shl32 v 24) (shl32 (Z.land v 0xff00) OFFSET_EIGHT_BIT))
               (Z.land (Z.shiftr v OFFSET_EIGHT_BIT) 0xff00))
        (Z.shiftr v 24).

Definition ReverseInt (value : Z) : Z :=
  let valueTemp := swap_blocks 0x55555555 1 value in
  let valueTemp := swap_blocks 0x33333333 2 valueTemp in
  let valueTemp := swap_blocks 0x0f0f0f0f 4 valueTemp in
  swap_bytes valueTemp.

Definition CountTrailingZeros (value : Z) : Z :=
  if value =? 0 then 8
  else
    let valueTemp := Z.land value MAX_UINT8 in
    (* valueTemp &= (~valueTemp) + 1, on uint32_t *)
    let valueTemp := Z.land valueTemp (u32 (u32 (Z.lnot valueTemp) + 1)) in
    let n := 7 in
    let n := if negb (Z.land valueTemp 0x0F =? 0) then u8 (n - 4) else n in
    let n := if negb (Z.land valueTemp 0x33 =? 0) then u8 (n - 2) else n in
    let n := if negb (Z.land valueTemp 0x55 =? 0) then u8 (n - 1) else n in
    n.

Example UintToBytes_ex : UintToBytes 0xBF2D = (2, [0xBF; 0x2D]).
Proof. reflexivity. Qed.
Example IntToBytes_ex : IntToBytes (-1) = (4, [255; 255; 255; 255]).
Proof. vm_compute. reflexivity. Qed.
Example ReverseInt_ex : ReverseInt 1 = 2147483648.
Proof. reflexivity. Qed.

(** ** Bytes and hexadecimal strings: lemmas *)

Abbreviation bytes_ok := (Forall is_u8).

Lemma nibbles_range b : is_u8 b -> Forall (fun d => 0 <= d < 16) (nibbles b).
Proof.
  unfold is_u8. intros Hb. repeat constructor; try (apply Z.mod_pos_bound; lia).
  - apply Z.div_pos; lia.
  - apply Z.div_lt_upper_bound; lia.
Qed.

Lemma nibbles_value b : be_value 16 (nibbles b) = b.
Proof. unfold be_value, nibbles. cbn. pose proof (Z.div_mod b 16). lia. Qed.

Lemma land_u8 b : is_u8 b -> Z.land b MAX_UINT8 = b.
Proof. intros Hb. change MAX_UINT8 with (Z.ones 8). rewrite Z.land_ones by lia. by apply u8_small. Qed.

Lemma put_hex_byte b : is_u8 b -> put_hex BYTE_TO_HEX_LEN (Z.land b MAX_UINT8) = hex_upper <$> nibbles b.
Proof.
  intros Hb. rewrite land_u8, put_hex_digits by (done || unfold BYTE_TO_HEX_LEN, is_u8 in *; lia).
  change (Z.to_nat BYTE_TO_HEX_LEN) with (2 * 1)%nat. rewrite be_digits_nibbles.
  cbn. by rewrite (Z.mod_small b 256) by apply Hb.
Qed.

Lemma BytesToHexStr_nibbles bs :
  bytes_ok bs -> zlen bs <= MAX_BPP_LENGTH -> BytesToHexStr bs = hex_upper <$> (bs ≫= nibbles).
Proof.
  intros Hbs Hlen. unfold BytesToHexStr.
  destruct (Z.ltb_spec MAX_BPP_LENGTH (zlen bs)) as [?|_]; [lia|].
  clear Hlen. induction Hbs as [|b bs Hb _ IH]; [done|].
  rewrite !bind_cons, fmap_app, IH, put_hex_byte; done.
Qed.

Lemma nibbles_bind_length bs : length (bs ≫= nibbles) = (2 * length bs)%nat.
Proof. induction bs as [|b bs IH]; [done|]. rewrite bind_cons, length_app, IH. simpl. lia. Qed.

Lemma BytesToHexStr_zlen bs :
  bytes_ok bs -> zlen bs <= MAX_BPP_LENGTH -> zlen (BytesToHexStr bs) = 2 * zlen bs.
Proof.
  intros. rewrite BytesToHexStr_nibbles by done. unfold zlen. rewrite length_fmap, nibbles_bind_length. lia.
Qed.

Lemma strtol16_nibbles b : is_u8 b -> strtol16 (hex_upper <$> nibbles b) = b.
Proof.
  intros Hb. rewrite (strtol16_digits _ (nibbles b)).
  - apply nibbles_value.
  - by apply hex_digits_of_upper, nibbles_range.
  - rewrite nibbles_value. unfold is_u8 in Hb. lia.
Qed.

Lemma hex_pairs_nibbles bs : bytes_ok bs -> hex_pairs (hex_upper <$> (bs ≫= nibbles)) = bs.
Proof.
  induction 1 as [|b bs Hb _ IH]; [done|].
  rewrite bind_cons, fmap_app. change (hex_upper <$> nibbles b) with [hex_upper (b / 16); hex_upper (b mod 16)].
  cbn [app hex_pairs]. rewrite IH. f_equal.
  change [hex_upper (b / 16); hex_upper (b mod 16)] with (hex_upper <$> nibbles b).
  rewrite strtol16_nibbles, u8_small; done.
Qed.

Lemma HexStrToBytes_pairs ds :
  zlen ds <= MAX_BPP_LENGTH ->
  HexStrToBytes (hex_upper <$> (ds ≫= nibbles)) = hex_pairs (hex_upper <$> (ds ≫= nibbles)).
Proof.
  intros Hlen. unfold HexStrToBytes.
  assert (zlen (hex_upper <$> (ds ≫= nibbles)) = 2 * zlen ds) as ->.
  { unfold zlen. rewrite length_fmap, nibbles_bind_length. lia. }
  unfold BYTE_TO_HEX_LEN. rewrite (Z.mul_comm 2), Z.mod_mul by lia. cbn [negb Z.eqb].
  destruct (Z.ltb_spec (MAX_BPP_LENGTH * 2) (zlen ds * 2)); [lia|done].
Qed.

Lemma hex_bytes_roundtrip bs :
  bytes_ok bs -> zlen bs <= MAX_BPP_LENGTH -> HexStrToBytes (BytesToHexStr bs) = bs.
Proof.
  intros. rewrite BytesToHexStr_nibbles, HexStrToBytes_pairs, hex_pairs_nibbles; done.
Qed.

Lemma hex_pairs_bytes s : bytes_ok (hex_pairs s).
Proof.
  revert s. fix IH 1. intros [|a [|b t]]; cbn [hex_pairs]; constructor; try apply u8_range.
  - constructor.
  - apply IH.
Qed.

Lemma HexStrToBytes_bytes s : bytes_ok (HexStrToBytes s).
Proof. unfold HexStrToBytes. repeat case_match; [constructor..|]. apply hex_pairs_bytes. Qed.

Lemma hex_pairs_length s : (length (hex_pairs s) <= length s)%nat.
Proof. revert s. fix IH 1. intros [|a [|b t]]; cbn; [lia..|]. specialize (IH t). lia. Qed.

Lemma HexStrToBytes_zlen s : zlen (HexStrToBytes s) <= zlen s.
Proof.
  pose proof (zlen_nonneg s). unfold HexStrToBytes. repeat case_match; try (change (zlen []) with 0; lia).
  pose proof (hex_pairs_length s). unfold zlen. lia.
Qed.

(** ** Integers *)

Lemma ByteCountForInt_bounds v sg : 1 <= ByteCountForInt v sg <= 4.
Proof. unfold ByteCountForInt. repeat case_match; lia. Qed.

Lemma ByteCountForUint_bounds v : 1 <= ByteCountForUint v <= 4.
Proof. apply ByteCountForInt_bounds. Qed.

Lemma ByteCountForUint_fits v :
  is_u32 v -> v < 256 ^ ByteCountForUint v /\
              (1 < ByteCountForUint v -> 256 ^ (ByteCountForUint v - 1) <= v).
Proof.
  unfold is_u32, ByteCountForUint, ByteCountForInt, MAX_UINT8, MAX_UINT16, MAX_UINT24. intros Hv.
  repeat match goal with |- context [?a <=? ?b] => destruct (Z.leb_spec a b) end; simpl; lia.
Qed.

(** Printing a value on [2 * n] hexadecimal digits and parsing the digits by
    pairs gives its [n] base-256 digits. *)
Lemma hex_of_uint n v :
  0 < n <= 8 -> 0 <= v < 256 ^ n ->
  HexStrToBytes (put_hex (n * BYTE_TO_HEX_LEN) v) = be_digits 256 (Z.to_nat n) v.
Proof.
  intros Hn Hv. unfold BYTE_TO_HEX_LEN. rewrite put_hex_digits.
  - replace (Z.to_nat (n * 2)) with (2 * Z.to_nat n)%nat by lia. rewrite be_digits_nibbles.
    pose proof (be_digits_range 256 ltac:(lia) (Z.to_nat n) v) as Hr.
    rewrite HexStrToBytes_pairs; [by apply hex_pairs_nibbles|].
    unfold zlen. rewrite be_digits_length. unfold MAX_BPP_LENGTH. lia.
  - lia.
  - rewrite Z.mul_comm, Z.pow_mul_r by lia. done.
Qed.

Lemma UintToBytes_eq v :
  is_u32 v ->
  UintToBytes v = (ByteCountForUint v, be_digits 256 (Z.to_nat (ByteCountForUint v)) v).
Proof.
  intros Hv. unfold UintToBytes. change (ByteCountForInt v false) with (ByteCountForUint v).
  rewrite hex_of_uint; [done|..].
  - pose proof (ByteCountForUint_bounds v). lia.
  - apply ByteCountForUint_fits in Hv as Hf. unfold is_u32 in Hv. lia.
Qed.

Lemma UintToBytes_bytes_ok v : bytes_ok (UintToBytes v).2.
Proof. apply HexStrToBytes_bytes. Qed.

Lemma UintToBytes_pair v : UintToBytes v = (ByteCountForUint v, (UintToBytes v).2).
Proof. reflexivity. Qed.

#[global] Opaque UintToBytes.


Lemma UintToBytes_zlen v : is_u32 v -> zlen (UintToBytes v).2 = ByteCountForUint v.
Proof.
  intros Hv. rewrite UintToBytes_eq by done. cbn. unfold zlen. rewrite be_digits_length.
  pose proof (ByteCountForUint_bounds v). lia.
Qed.

Lemma UintToBytes_value v : is_u32 v -> be_value 256 (UintToBytes v).2 = v.
Proof.
  intros Hv. rewrite UintToBytes_eq by done. cbn. apply be_value_digits_small; [lia|].
  pose proof (ByteCountForUint_bounds v).
  rewrite Z2Nat.id by lia. apply ByteCountForUint_fits in Hv as Hf.
  unfold is_u32, ByteCountForUint in *. lia.
Qed.

Lemma UintToBytes_nonempty v : is_u32 v -> (UintToBytes v).2 <> [].
Proof.
  intros Hv H. apply (f_equal zlen) in H. rewrite UintToBytes_zlen in H by done.
  pose proof (ByteCountForUint_bounds v).
  change (zlen []) with 0 in H. lia.
Qed.

Lemma strtol16_BytesToHexStr bs :
  bytes_ok bs -> zlen bs <= 4 -> strtol16 (BytesToHexStr bs) = be_value 256 bs.
Proof.
  intros Hbs Hlen.
  assert (Forall (fun d => 0 <= d < 16) (bs ≫= nibbles)) as Hn.
  { clear Hlen. induction Hbs; [constructor|]. rewrite bind_cons. apply Forall_app.
    split; [by apply nibbles_range|done]. }
  assert (be_value 16 (bs ≫= nibbles) = be_value 256 bs) as Hv.
  { clear Hlen Hn. induction bs as [|b bs IH] using rev_ind; [done|].
    apply Forall_app in Hbs as [Hbs _].
    rewrite bind_app, be_value_app, be_value_snoc, IH by (done || lia).
    cbn [mbind list_bind]. rewrite app_nil_r, nibbles_value.
    replace (16 ^ zlen (nibbles b)) with 256 by done. done. }
  rewrite BytesToHexStr_nibbles by (done || unfold MAX_BPP_LENGTH; lia).
  rewrite (strtol16_digits _ _ (hex_digits_of_upper _ Hn)); [done|].
  rewrite Hv. pose proof (be_value_range 256 ltac:(lia) bs Hbs).
  pose proof (Z.pow_le_mono_r 256 (zlen bs) 4 ltac:(lia) ltac:(lia)). simpl in *. lia.
Qed.

Lemma BytesToInt_slice pre mid post :
  bytes_ok mid -> 0 < zlen mid <= 4 ->
  BytesToInt (pre ++ mid ++ post) (zlen pre) (zlen mid) = Some (i32 (be_value 256 mid)).
Proof.
  intros Hmid Hlen. unfold BytesToInt, HEX_STR_MAX_LENGTH. zlen_simpl.
  pose proof (zlen_nonneg post). pose proof (zlen_nonneg pre).
  replace (_ || _ || _) with false by lia.
  unfold zlen at 1 2. rewrite !Nat2Z.id, drop_app_length, take_app_length.
  by rewrite strtol16_BytesToHexStr by (done || lia).
Qed.

Lemma BytesToInt_at src pre mid post i l :
  src = pre ++ mid ++ post -> i = zlen pre -> l = zlen mid ->
  bytes_ok mid -> 0 < zlen mid <= 4 -> BytesToInt src i l = Some (i32 (be_value 256 mid)).
Proof. intros -> -> ->. apply BytesToInt_slice. Qed.

(** ** Bit reversal *)

Lemma is_u32_bits x : 0 <= x -> (forall i, 32 <= i -> Z.testbit x i = false) -> is_u32 x.
Proof.
  intros Hx H. assert (x = u32 x) as ->; [|apply u32_range].
  apply Z.bits_inj'. intros i Hi. destruct (decide (i < 32)).
  - by rewrite u32_testbit.
  - rewrite u32_testbit_high by lia. apply H. lia.
Qed.

Lemma swap_blocks_spec mask k v i :
  0 <= k -> 0 <= i < 32 ->
  Z.testbit (swap_blocks mask k v) i =
  (Z.testbit v (i - k) && Z.testbit mask (i - k)) || (Z.testbit v (i + k) && Z.testbit mask i).
Proof.
  intros Hk Hi. unfold swap_blocks, shl32.
  rewrite Z.lor_spec, u32_testbit, Z.shiftl_spec, !Z.land_spec, Z.shiftr_spec; done || lia.
Qed.

(** [mask] selects, of each pair of positions [i] and [i xor k], the lower. *)
Definition exchange_mask (mask k : Z) : bool :=
  forallb (fun i => (Z.testbit mask (i - k) && negb (Z.testbit mask i) && (Z.lxor i k =? i - k)) ||
                    (negb (Z.testbit mask (i - k)) && Z.testbit mask i && (Z.lxor i k =? i + k)))
          (seqZ 0 32).

Lemma swap_blocks_exchanges mask k v i :
  0 <= k -> exchange_mask mask k = true -> 0 <= i < 32 ->
  Z.testbit (swap_blocks mask k v) i = Z.testbit v (Z.lxor i k).
Proof.
  intros Hk Hm Hi. pose proof (forallb_seqZ _ 0 32 Hm i ltac:(lia)) as H. cbv beta in H.
  rewrite swap_blocks_spec by done.
  destruct (Z.testbit mask (i - k)), (Z.testbit mask i); simpl in H; try done.
  - apply orb_prop in H as [H|H]; [|done]. apply Z.eqb_eq in H. rewrite H.
    by rewrite andb_true_r, andb_false_r, orb_false_r.
  - apply Z.eqb_eq in H. by rewrite H, andb_false_r, andb_true_r.
Qed.

Lemma swap_blocks_u32 mask k v : is_u32 mask -> is_u32 (swap_blocks mask k v).
Proof.
  intros Hm. unfold swap_blocks. apply is_u32_bits.
  - apply Z.lor_nonneg. split; [apply u32_range|]. apply Z.land_nonneg. right. apply Hm.
  - intros i Hi. unfold shl32. rewrite Z.lor_spec, u32_testbit_high, Z.land_spec by lia.
    rewrite (testbit_high mask 32 i) by (done || lia). by rewrite andb_false_r.
Qed.

(** Evaluate the bits of a constant at constant positions. *)
Ltac eval_testbit c :=
  repeat match goal with
  | |- context [Z.testbit c ?i] =>
      let b := eval vm_compute in (Z.testbit c i) in change (Z.testbit c i) with b
  end.

Lemma swap_bytes_exchanges v i :
  is_u32 v -> 0 <= i < 32 -> Z.testbit (swap_bytes v) i = Z.testbit v (Z.lxor i 24).
Proof.
  intros Hv Hi. unfold swap_bytes, shl32, OFFSET_EIGHT_BIT.
  rewrite !Z.lor_spec, !u32_testbit, !Z.shiftl_spec, !Z.land_spec, !Z.shiftr_spec by lia.
  enum_Z i; intros; cbn [Z.add Z.sub].
  all: eval_testbit 0xff00; rewrite ?andb_false_r, ?andb_true_r, ?orb_false_l, ?orb_false_r.
  all: repeat match goal with
    | |- context [Z.testbit ?v ?k] =>
        let n := eval vm_compute in (k <? 0) in
        lazymatch n with true => rewrite (Z.testbit_neg_r v k) by lia end
    | |- context [Z.testbit ?v ?k] =>
        let n := eval vm_compute in (32 <=? k) in
        lazymatch n with true => rewrite (testbit_high v 32 k) by (done || lia) end
    end.
  all: rewrite ?orb_false_l, ?orb_false_r; reflexivity.
Qed.

Lemma swap_bytes_u32 v : is_u32 v -> is_u32 (swap_bytes v).
Proof.
  intros Hv. unfold swap_bytes, shl32. apply is_u32_bits.
  - repeat (apply Z.lor_nonneg; split); try apply u32_range.
    + apply Z.land_nonneg. by right.
    + apply Z.shiftr_nonneg, Hv.
  - intros i Hi. rewrite !Z.lor_spec, !u32_testbit_high, Z.land_spec, !Z.shiftr_spec by lia.
    rewrite (testbit_high 0xff00 32 i), (testbit_high v 32 (i + 24)) by (done || lia).
    by rewrite andb_false_r.
Qed.

Lemma ReverseInt_u32 v : is_u32 (ReverseInt v).
Proof. unfold ReverseInt. by apply swap_bytes_u32, swap_blocks_u32. Qed.

Lemma lxor_range i k : 0 <= i < 32 -> 0 <= k < 32 -> 0 <= Z.lxor i k < 32.
Proof.
  intros Hi Hk. split; [apply Z.lxor_nonneg; lia|].
  destruct (decide (Z.lxor i k = 0)) as [->|]; [lia|].
  apply Z.log2_lt_cancel. pose proof (Z.log2_lxor i k ltac:(lia) ltac:(lia)).
  pose proof (Z.log2_le_mono i 31). pose proof (Z.log2_le_mono k 31). change (Z.log2 32) with 5.
  change (Z.log2 31) with 4 in *. lia.
Qed.

Lemma ReverseInt_bits v i :
  0 <= i < 32 -> Z.testbit (ReverseInt v) i = Z.testbit v (31 - i).
Proof.
  intros Hi. unfold ReverseInt.
  rewrite swap_bytes_exchanges by first [assumption | by apply swap_blocks_u32].
  pose proof (lxor_range i 24 Hi ltac:(lia)) as H24.
  pose proof (lxor_range _ 4 H24 ltac:(lia)) as H4. pose proof (lxor_range _ 2 H4 ltac:(lia)) as H2.
  rewrite !swap_blocks_exchanges by first [assumption | reflexivity | lia].
  f_equal. clear H24 H4 H2. enum_Z i.
Qed.

Lemma ReverseInt_involutive_lemma v : is_u32 v -> ReverseInt (ReverseInt v) = v.
Proof.
  intros Hv. apply (bits_ext 32); [lia|apply ReverseInt_u32|done|].
  intros i Hi. rewrite !ReverseInt_bits by lia. f_equal. lia.
Qed.

(** [n] is the position of the lowest set bit of [v]. *)
Definition lowest_set_bit (v n : Z) : Prop :=
  Z.testbit v n = true /\ forall j, 0 <= j < n -> Z.testbit v j = false.

Lemma CountTrailingZeros_bits v :
  0 < v < 256 -> 0 <= CountTrailingZeros v < 8 /\ lowest_set_bit v (CountTrailingZeros v).
Proof.
  intros Hv.
  pose (f := fun v => (0 <=? CountTrailingZeros v) && (CountTrailingZeros v <? 8) &&
     Z.testbit v (CountTrailingZeros v) &&
     forallb (fun j => negb (Z.testbit v j)) (seqZ 0 (CountTrailingZeros v))).
  assert (f v = true) as H by (apply (forallb_seqZ f 1 255); [vm_compute; reflexivity|lia]).
  unfold f in H. apply andb_prop in H as [H Hl]. apply andb_prop in H as [H Ht].
  split; [lia|]. split; [done|]. intros j Hj.
  apply (forallb_seqZ _ 0 _ Hl) in Hj. by apply negb_true_iff.
Qed.

(** ** Properties *)

(** converting bytes to their hexadecimal string and back gives the bytes,
    for any vector up to the profile-package limit of 240K bytes. *)
Theorem HexStrToBytes_BytesToHexStr bs :
  bytes_ok bs -> zlen bs <= MAX_BPP_LENGTH -> HexStrToBytes (BytesToHexStr bs) = bs.
Proof. apply hex_bytes_roundtrip. Qed.

Lemma HexStrToBytes_BytesToHexStr_witness :
  bytes_ok [0xBF; 0x2D; 0] /\ HexStrToBytes (BytesToHexStr [0xBF; 0x2D; 0]) = [0xBF; 0x2D; 0].
Proof.
  assert (bytes_ok [0xBF; 0x2D; 0]) as H by (repeat constructor; vm_compute; congruence).
  split; [exact H|]. apply (HexStrToBytes_BytesToHexStr _ H). vm_compute. congruence.
Defined.

(** [UintToBytes] writes the minimal big-endian representation: the bytes
    denote the value, there are [ByteCountForUint] of them, and the first is not
    zero when there are several. *)
Theorem UintToBytes_minimal v :
  is_u32 v ->
  let '(len, bytes) := UintToBytes v in
  be_value 256 bytes = v /\ zlen bytes = len /\ bytes_ok bytes /\
  (1 < len -> exists b t, bytes = b :: t /\ b <> 0).
Proof.
  intros Hv. pose proof (UintToBytes_value v Hv) as Hval. pose proof (UintToBytes_zlen v Hv) as Hlen.
  pose proof (UintToBytes_bytes_ok v) as Hok. pose proof (UintToBytes_eq v Hv) as He.
  apply (f_equal fst) in He. destruct (UintToBytes v) as [len bytes]. cbn in *. subst len.
  split_and!; [done..|]. intros Hl. destruct bytes as [|b t].
  - change (zlen []) with 0 in Hlen. pose proof (ByteCountForUint_bounds v). lia.
  - exists b, t. split; [done|]. intros ->. apply ByteCountForUint_fits in Hv as [_ Hge].
    specialize (Hge Hl). apply Forall_inv_tail in Hok. rewrite be_value_cons in Hval.
    pose proof (be_value_range 256 ltac:(lia) t Hok). zlen_simpl.
    replace (ByteCountForUint v - 1) with (zlen t) in Hge by lia. lia.
Qed.

Lemma UintToBytes_minimal_witness :
  is_u32 0xBF2D /\ (let '(len, bytes) := UintToBytes 0xBF2D in
  be_value 256 bytes = 0xBF2D /\ zlen bytes = len /\ bytes_ok bytes /\
  (1 < len -> exists b t, bytes = b :: t /\ b <> 0)).
Proof. assert (is_u32 0xBF2D) as H by done. split; [exact H|]. apply (UintToBytes_minimal _ H). Defined.

(** [ReverseInt] reverses the 32 bits of its argument, and is its own
    inverse on [uint32_t]. *)
Theorem ReverseInt_reverses v :
  is_u32 v ->
  is_u32 (ReverseInt v) /\ ReverseInt (ReverseInt v) = v /\
  forall i, 0 <= i < 32 -> Z.testbit (ReverseInt v) i = Z.testbit v (31 - i).
Proof.
  intros Hv. split_and!; [apply ReverseInt_u32|by apply ReverseInt_involutive_lemma|].
  intros. by apply ReverseInt_bits.
Qed.

Lemma ReverseInt_reverses_witness :
  is_u32 6 /\ ReverseInt 6 = 0x60000000 /\ ReverseInt (ReverseInt 6) = 6.
Proof.
  assert (is_u32 6) as H by done. split; [exact H|]. split; [reflexivity|].
  apply (ReverseInt_reverses 6 H).
Defined.
