(* ===== verification/Asn1Node.v ===== *)
(** * [utils/codec/src/asn1_node.cpp] and [asn1_decoder.cpp]: ASN.1 TLV nodes

    A node is a tag, a length and either its raw content bytes or a list of
    child nodes; the content of a constructed node is decoded into children the
    first time a child is asked for ([Asn1BuildChildren]). The decoder walks a
    byte vector from [position_] to [end_].

    Nodes are shared pointers in the source; a node is reachable from one parent
    only ([Asn1Build] moves the builder's children into the new node), so a node
    is a tree here, and an operation that decodes a child lazily writes the
    updated child back into its parent. The mutexes are not modelled: every
    operation runs alone. *)

From S2P Require Import Prelude CxxString Asn1Utils.

#[warnings="-register-all"]
Inductive Asn1Node : Type := MkNode {
  tag_ : Z;
  children_ : list Asn1Node;
  constructed_ : bool;
  dataBytes_ : list Z;
  dataOffset_ : Z;
  dataLength_ : Z;
  encodedLength_ : Z
}.

(** The constructor [Asn1Node::Asn1Node]. *)
Definition Asn1Node_new (tag : Z) (src : list Z) (offset length : Z) : Asn1Node :=
  {| tag_ := tag;
     children_ := [];
     constructed_ := IsConstructedTag tag;
     dataBytes_ := src;
     dataOffset_ := offset;
     dataLength_ := length;
     encodedLength_ := u32 (u32 (ByteCountForUint tag + CalculateEncodedBytesNumForLength length)
                            + length) |}.

Definition set_children (cs : list Asn1Node) (n : Asn1Node) : Asn1Node :=
  {| tag_ := tag_ n; children_ := cs; constructed_ := constructed_ n; dataBytes_ := dataBytes_ n;
     dataOffset_ := dataOffset_ n; dataLength_ := dataLength_ n; encodedLength_ := encodedLength_ n |}.

(** Asn1BuildChildren's [dataBytes_.clear(); dataOffset_ = 0]. *)
Definition clear_data (n : Asn1Node) : Asn1Node :=
  {| tag_ := tag_ n; children_ := children_ n; constructed_ := constructed_ n; dataBytes_ := [];
     dataOffset_ := 0; dataLength_ := dataLength_ n; encodedLength_ := encodedLength_ n |}.

(** ** Encoding *)

(** The length field written by [Asn1Write]. *)
Definition write_length (dataLength : Z) : option (list Z) :=
  if dataLength <=? MAX_INT8 then Some [u8 dataLength]
  else
    let encodeLens := u8 (Z.lor (ByteCountForUint dataLength) BIT8_MASK) in
    let '(bytesLen, uintByteStr) := UintToBytes dataLength in
    if (bytesLen =? 0) || (zlen uintByteStr =? 0) then None
    else Some (encodeLens :: uintByteStr).

(** The bytes [Asn1Write] appends to its output. *)
Fixpoint Asn1Write (n : Asn1Node) : list Z :=
  let '(bytesLen, uintByte) := UintToBytes (tag_ n) in
  if (bytesLen =? 0) || (zlen uintByte =? 0) then []
  else
    match write_length (dataLength_ n) with
    | None => uintByte ++ [u8 (Z.lor (ByteCountForUint (dataLength_ n)) BIT8_MASK)]
    | Some lenBytes =>
        uintByte ++ lenBytes ++
        (if constructed_ n && (zlen (dataBytes_ n) =? 0)
         then (fix write_all (cs : list Asn1Node) : list Z :=
                 match cs with [] => [] | c :: t => Asn1Write c ++ write_all t end) (children_ n)
         else dataBytes_ n)
    end.

(** Returns the number of bytes and the bytes. *)
Definition Asn1NodeToBytes (n : Asn1Node) : Z * list Z :=
  if encodedLength_ n =? 0 then (0, [])
  else let byteStream := Asn1Write n in (u32 (zlen byteStream), byteStream).

Definition Asn1NodeToHexStr (n : Asn1Node) : Z * cstring :=
  let '(_, byteStream) := Asn1NodeToBytes n in
  let destStr := BytesToHexStr byteStream in
  (u32 (zlen destStr), destStr).

(** ** The decoder ([asn1_decoder.cpp]) *)

Record Asn1Decoder : Type := MkDecoder {
  srcData_ : list Z;
  position_ : Z;
  end_ : Z
}.

Definition Asn1Decoder_new (src : list Z) (offset decodeLen : Z) : Asn1Decoder :=
  if (2 ^ 32 - 1 - decodeLen <? offset) || (zlen src <? u32 (offset + decodeLen))
  then MkDecoder [] 0 0
  else MkDecoder src offset (u32 (offset + decodeLen)).

Definition Asn1HasNextNode (d : Asn1Decoder) : bool := position_ d <? end_ d.

(** The result of a decoding step: a null node (the decoder is unchanged), or a
    node and the new [position_]. *)
Definition decoded : Type := option (Asn1Node * Z).

(** The end of [BuildAsn1Node]: [dataLen] content bytes from [offset]. *)
Definition take_value (d : Asn1Decoder) (tag dataLen offset : Z) : outcome decoded :=
  if (end_ d <? offset) || (end_ d - offset <? dataLen) then Ret None
  else
    byteStream ← vec_slice (srcData_ d) offset (offset + dataLen);
    Ret (Some (Asn1Node_new tag byteStream 0 dataLen, u32 (offset + dataLen))).

Definition BuildAsn1Node (d : Asn1Decoder) (tag offset : Z) : outcome decoded :=
  if (zlen (srcData_ d) =? 0) || (zlen (srcData_ d) <=? offset) then Ret None
  else
    byteLen ← vec_get (srcData_ d) offset;
    let offset := u32 (offset + 1) in
    if Z.land byteLen BIT8_MASK =? 0 then take_value d tag byteLen offset
    else
      let lenLen := Z.land byteLen MAX_INT8 in
      if (end_ d <? offset) || (end_ d - offset <? lenLen) then Ret None
      else
        match BytesToInt (srcData_ d) offset lenLen with
        | None => Ret None
        | Some len => take_value d tag (u32 len) (u32 (offset + lenLen))
        end.

(** The loop over the continuation bytes of a multi-byte tag:
    [while (offset < end_ && (srcData_\[offset\] & BIT8_MASK) != 0) offset++].
    The fuel is [end_ - offset]: it runs out exactly when the loop's first test
    fails. *)
Fixpoint skip_tag_bytes (fuel : nat) (src : list Z) (end_ offset : Z) : outcome Z :=
  match fuel with
  | O => Ret offset
  | S f =>
      if offset <? end_ then
        b ← vec_get src offset;
        if negb (Z.land b BIT8_MASK =? 0) then skip_tag_bytes f src end_ (u32 (offset + 1))
        else Ret offset
      else Ret offset
  end.

Definition Asn1NextNode (d : Asn1Decoder) : outcome decoded :=
  if (end_ d <=? position_ d) || (zlen (srcData_ d) =? 0) then Ret None
  else
    let tagStart := position_ d in
    if zlen (srcData_ d) <=? tagStart then Ret None
    else
      byteTag ← vec_get (srcData_ d) tagStart;
      let offset := u32 (tagStart + 1) in
      offset ← (if Z.land byteTag 0x1F =? 0x1F then
                  o ← skip_tag_bytes (Z.to_nat (end_ d - offset)) (srcData_ d) (end_ d) offset;
                  Ret (u32 (o + 1))
                else Ret offset);
      if end_ d <=? offset then Ret None
      else
        match BytesToInt (srcData_ d) tagStart (u32 (offset - tagStart)) with
        | None => Ret None
        | Some tag => if tag <? 0 then Ret None else BuildAsn1Node d (u32 tag) offset
        end.

(** ** Lazy decoding of the children *)

(** The loop of [Asn1BuildChildren]. Every decoded node takes at least one byte,
    so [end_ - position_] iterations are enough ([decode_all_fuel]). *)
Fixpoint decode_all (fuel : nat) (d : Asn1Decoder) : outcome (list Asn1Node) :=
  match fuel with
  | O => Ret []
  | S f =>
      if Asn1HasNextNode d then
        r ← Asn1NextNode d;
        match r with
        | None => Ret []
        | Some (n, position) =>
            ns ← decode_all f (MkDecoder (srcData_ d) position (end_ d));
            Ret (n :: ns)
        end
      else Ret []
  end.

Definition decode_children (d : Asn1Decoder) : outcome (list Asn1Node) :=
  decode_all (Z.to_nat (end_ d - position_ d)) d.

Definition Asn1BuildChildren (n : Asn1Node) : outcome (TelErr * Asn1Node) :=
  if negb (constructed_ n) then Ret (TELEPHONY_ERR_FAIL, n)
  else if zlen (dataBytes_ n) =? 0 then Ret (TELEPHONY_ERR_SUCCESS, n)
  else
    subs ← decode_children
             (Asn1Decoder_new (dataBytes_ n) (dataOffset_ n) (u32 (dataLength_ n - dataOffset_ n)));
    Ret (TELEPHONY_ERR_SUCCESS, clear_data (set_children (children_ n ++ subs) n)).

(** ** Navigation *)

(** Position and value of the first child with the given tag. *)
Fixpoint find_child (cs : list Asn1Node) (tag : Z) : option (nat * Asn1Node) :=
  match cs with
  | [] => None
  | c :: t => if tag_ c =? tag then Some (O, c)
              else match find_child t tag with Some (i, r) => Some (S i, r) | None => None end
  end.

(** Returns the node after the lazy decoding, and the child found. *)
Definition Asn1GetChild (n : Asn1Node) (tag : Z) : outcome (Asn1Node * option (nat * Asn1Node)) :=
  if negb (constructed_ n) then Ret (n, None)
  else
    '(err, n') ← Asn1BuildChildren n;
    if decide (err = TELEPHONY_ERR_SUCCESS) then Ret (n', find_child (children_ n') tag)
    else Ret (n', None).

Definition Asn1HasChild (n : Asn1Node) (tag : Z) : outcome (Asn1Node * bool) :=
  '(n', r) ← Asn1GetChild n tag;
  Ret (n', match r with Some _ => true | None => false end).

Definition update_child (n : Asn1Node) (i : nat) (c : Asn1Node) : Asn1Node :=
  set_children (<[i := c]> (children_ n)) n.

Definition Asn1GetGrandson (n : Asn1Node) (firstLevelTag secondLevelTag : Z)
  : outcome (Asn1Node * option (nat * nat * Asn1Node)) :=
  '(n1, r1) ← Asn1GetChild n firstLevelTag;
  match r1 with
  | None => Ret (n1, None)
  | Some (i, c) =>
      '(c', r2) ← Asn1GetChild c secondLevelTag;
      Ret (update_child n1 i c', match r2 with Some (j, g) => Some (i, j, g) | None => None end)
  end.

Definition Asn1GetGreatGrandson (n : Asn1Node) (firstLevelTag secondLevelTag thirdLevelTag : Z)
  : outcome (Asn1Node * option Asn1Node) :=
  '(n1, r1) ← Asn1GetGrandson n firstLevelTag secondLevelTag;
  match r1 with
  | None => Ret (n1, None)
  | Some (i, j, g) =>
      '(g', r2) ← Asn1GetChild g thirdLevelTag;
      let n2 := match children_ n1 !! i with
                | Some c => update_child n1 i (update_child c j g')
                | None => n1
                end in
      Ret (n2, match r2 with Some (_, gg) => Some gg | None => None end)
  end.

(** Returns the code, the node after the lazy decoding and the children found. *)
Definition Asn1GetChildren (n : Asn1Node) (tag : Z) : outcome (TelErr * Asn1Node * list Asn1Node) :=
  if negb (constructed_ n) then Ret (TELEPHONY_ERR_SUCCESS, n, [])
  else
    '(err, n') ← Asn1BuildChildren n;
    if decide (err = TELEPHONY_ERR_SUCCESS)
    then Ret (TELEPHONY_ERR_SUCCESS, n', List.filter (fun c => tag_ c =? tag) (children_ n'))
    else Ret (TELEPHONY_ERR_FAIL, n', []).

(** ** Reading a node's value *)

(** The source returns the hexadecimal length, or the error code. *)
Definition Asn1GetHeadAsHexStr (n : Asn1Node) : TelErr + (Z * cstring) :=
  let '(byteLen, byteStream) := UintToBytes (tag_ n) in
  if (byteLen =? 0) || (zlen byteStream =? 0) then inl TELEPHONY_ERR_FAIL
  else
    let cursor := BytesToHexStr byteStream in
    let cursorLen := u32 (zlen cursor) in
    if dataLength_ n <=? MAX_INT8 then
      let '(l, hexStr) := ByteToHexStr (u8 (dataLength_ n)) in
      inr (u32 (cursorLen + l), cursor ++ hexStr)
    else
      let bytesCount := ByteCountForUint (dataLength_ n) in
      let '(l, hexStr) := ByteToHexStr (u8 (Z.lor bytesCount BIT8_MASK)) in
      let '(byteLen, dataLenStream) := UintToBytes (dataLength_ n) in
      if (byteLen =? 0) || (zlen dataLenStream =? 0) then inl TELEPHONY_ERR_FAIL
      else
        let curHexStr := BytesToHexStr dataLenStream in
        inr (u32 (u32 (cursorLen + l) + zlen curHexStr), cursor ++ hexStr ++ curHexStr).

(** Returns the length, and the output when it is assigned. *)
Definition Asn1AsBytes (n : Asn1Node) : outcome (Z * option (list Z)) :=
  if constructed_ n then Ret (0, None)
  else if zlen (dataBytes_ n) =? 0 then Ret (0, None)
  else if zlen (dataBytes_ n) <? u32 (dataLength_ n - dataOffset_ n) then Ret (0, None)
  else
    output ← vec_slice (dataBytes_ n) (dataOffset_ n) (dataLength_ n);
    Ret (u32 (dataLength_ n - dataOffset_ n), Some output).

Definition Asn1AsInteger (n : Asn1Node) : Z :=
  if constructed_ n then -1
  else if zlen (dataBytes_ n) =? 0 then -1
  else default (-1) (BytesToInt (dataBytes_ n) (dataOffset_ n) (dataLength_ n)).

Definition Asn1AsString (n : Asn1Node) : Z * option cstring :=
  if constructed_ n then (0, None)
  else if zlen (dataBytes_ n) =? 0 then (0, None)
  else let hexStr := BytesToHexStr (dataBytes_ n) in (u32 (zlen hexStr), Some hexStr).

Definition MAX_DATA_LENGTH : Z := 4.
Definition MIN_DATA_LENGTH : Z := 1.

(** [for (i = dataLength_ - 1; i < 4; i++) bits <<= 8] *)
Fixpoint shift_bytes (times : nat) (bits : Z) : Z :=
  match times with O => bits | S t => shift_bytes t (shl32 bits OFFSET_EIGHT_BIT) end.

Definition Asn1AsBits (n : Asn1Node) : Z :=
  if constructed_ n then 0
  else if zlen (dataBytes_ n) =? 0 then 0
  else if (MAX_DATA_LENGTH <? dataLength_ n) || (dataLength_ n <? MIN_DATA_LENGTH) then 0
  else
    match BytesToInt (dataBytes_ n) (u32 (dataOffset_ n + 1)) (dataLength_ n - 1) with
    | None => 0
    | Some dataBits =>
        let bits := shift_bytes (Z.to_nat (4 - (dataLength_ n - 1))) (u32 dataBits) in
        i32 (ReverseInt bits)
    end.

Example decode_ex :
  Asn1NextNode (Asn1Decoder_new [0xBF; 0x2D; 3; 0x81; 1; 7; 9] 0 7) =
  Ret (Some (Asn1Node_new 0xBF2D [0x81; 1; 7] 0 3, 6)).
Proof. vm_compute. reflexivity. Qed.

(** ** Encoding: lemmas *)

(** The tag and length fields [Asn1Write] produces, and the content. *)
Definition length_bytes (dataLength : Z) : list Z :=
  if dataLength <=? MAX_INT8 then [dataLength]
  else Z.lor (ByteCountForUint dataLength) BIT8_MASK :: (UintToBytes dataLength).2.

Definition header (tag dataLength : Z) : list Z := (UintToBytes tag).2 ++ length_bytes dataLength.

Definition content (n : Asn1Node) : list Z :=
  if constructed_ n && (zlen (dataBytes_ n) =? 0)
  then concat (map Asn1Write (children_ n)) else dataBytes_ n.

Lemma length_tag_byte v : is_u8 (Z.lor (ByteCountForUint v) BIT8_MASK).
Proof.
  pose proof (ByteCountForUint_bounds v) as Hb. remember (ByteCountForUint v) as n eqn:E. clear E.
  assert (n = 1 \/ n = 2 \/ n = 3 \/ n = 4) as [->|[->|[->| ->]]] by lia; done.
Qed.

Lemma write_length_eq dl : is_u32 dl -> write_length dl = Some (length_bytes dl).
Proof.
  intros Hdl. unfold write_length, length_bytes. case_bool; unfold is_u32 in *.
  - unfold MAX_INT8 in *. by rewrite u8_small by (unfold is_u8; lia).
  - pose proof (UintToBytes_zlen dl ltac:(done)) as Hz. pose proof (ByteCountForUint_bounds dl) as Hb.
    rewrite (u8_small _ (length_tag_byte dl)), (UintToBytes_pair dl). simpl. rewrite Hz.
    by replace (_ || _) with false by lia.
Qed.

Lemma Asn1Write_eq n :
  is_u32 (tag_ n) -> is_u32 (dataLength_ n) ->
  Asn1Write n = header (tag_ n) (dataLength_ n) ++ content n.
Proof.
  intros Ht Hdl. pose proof (UintToBytes_zlen _ Ht) as Hz. pose proof (ByteCountForUint_bounds (tag_ n)) as Hb.
  unfold header, content. destruct n as [t cs k db off dl el]; simpl in *.
  rewrite write_length_eq, (UintToBytes_pair t) by done. simpl. rewrite Hz.
  replace (_ || _) with false by lia. rewrite <- app_assoc. do 2 f_equal.
  destruct (k && _); [|done]. clear. induction cs as [|c cs IH]; [done|]. simpl. by rewrite IH.
Qed.

Lemma length_bytes_zlen dl : is_u32 dl -> zlen (length_bytes dl) = CalculateEncodedBytesNumForLength dl.
Proof.
  intros Hdl. unfold length_bytes, CalculateEncodedBytesNumForLength.
  pose proof (ByteCountForUint_bounds dl).
  destruct (Z.leb_spec dl MAX_INT8), (Z.ltb_spec MAX_INT8 dl); try lia; [done|].
  rewrite zlen_cons, UintToBytes_zlen by done. rewrite u32_small; [done|]. unfold is_u32. lia.
Qed.

Lemma length_bytes_bounds dl : is_u32 dl -> 1 <= zlen (length_bytes dl) <= 5.
Proof.
  intros Hdl. unfold length_bytes. case_bool; zlen_simpl; [lia|].
  rewrite UintToBytes_zlen by done. pose proof (ByteCountForUint_bounds dl). lia.
Qed.

Lemma length_bytes_ok dl : is_u32 dl -> bytes_ok (length_bytes dl).
Proof.
  intros Hdl. unfold length_bytes, is_u32 in *. case_bool; repeat constructor; unfold MAX_INT8 in *; try lia.
  - apply length_tag_byte.
  - apply length_tag_byte.
  - apply UintToBytes_bytes_ok.
Qed.

Lemma header_zlen t dl :
  is_u32 t -> is_u32 dl ->
  zlen (header t dl) = ByteCountForUint t + CalculateEncodedBytesNumForLength dl.
Proof. intros. unfold header. zlen_simpl. by rewrite UintToBytes_zlen, length_bytes_zlen. Qed.

(** A node whose lengths describe what is written: the invariant the builder
    maintains. *)
Definition sound (n : Asn1Node) : Prop :=
  is_u32 (tag_ n) /\ is_u32 (dataLength_ n) /\ bytes_ok (content n) /\
  zlen (content n) = dataLength_ n /\
  encodedLength_ n = zlen (header (tag_ n) (dataLength_ n)) + dataLength_ n.

Lemma sound_write_zlen n : sound n -> zlen (Asn1Write n) = encodedLength_ n.
Proof. intros (?&?&?&Hc&He). rewrite Asn1Write_eq by done. zlen_simpl. lia. Qed.

Lemma sound_write_ok n : sound n -> bytes_ok (Asn1Write n).
Proof.
  intros (?&?&?&_). rewrite Asn1Write_eq by done. unfold header.
  repeat (apply Forall_app; split); [apply UintToBytes_bytes_ok|by apply length_bytes_ok|done].
Qed.

Lemma CalculateEncoded_bounds dl : is_u32 dl -> 1 <= CalculateEncodedBytesNumForLength dl <= 5.
Proof. intros. rewrite <- length_bytes_zlen by done. by apply length_bytes_bounds. Qed.

Lemma encoded_length_exact t dl :
  is_u32 t -> 0 <= dl < 2 ^ 32 - 9 ->
  u32 (u32 (ByteCountForUint t + CalculateEncodedBytesNumForLength dl) + dl) = zlen (header t dl) + dl.
Proof.
  intros Ht Hdl. assert (is_u32 dl) by (unfold is_u32; lia).
  rewrite header_zlen by done.
  pose proof (ByteCountForUint_bounds t). pose proof (CalculateEncoded_bounds dl ltac:(done)).
  rewrite (u32_small (ByteCountForUint t + _)) by (unfold is_u32; lia).
  apply u32_small. unfold is_u32. lia.
Qed.

(** A node made from its content bytes is sound. *)
Lemma sound_new t bs :
  is_u32 t -> bytes_ok bs -> zlen bs < 2 ^ 32 - 9 -> sound (Asn1Node_new t bs 0 (zlen bs)).
Proof.
  intros Ht Hbs Hl. pose proof (zlen_nonneg bs).
  assert (content (Asn1Node_new t bs 0 (zlen bs)) = bs) as Hc.
  { unfold content. cbn. destruct (Z.eqb_spec (zlen bs) 0) as [Hz|Hz]; [|by rewrite andb_false_r].
    rewrite (zlen_0_nil _ Hz). by destruct (_ && _). }
  unfold sound. rewrite Hc. cbn [tag_ dataLength_ encodedLength_ Asn1Node_new].
  split_and!; try done; [unfold is_u32; lia|]. apply encoded_length_exact; [done|lia].
Qed.

(** ** Decoding what was encoded *)

(** A tag the decoder can read back: a single byte whose low five bits are not
    all ones, or [0x1F] in the low five bits followed by continuation bytes (high
    bit set) and one final byte; and a value that is not negative as [int32_t]. *)
Fixpoint tag_tail_ok (t : list Z) : bool :=
  match t with
  | [] => false
  | [l] => Z.land l BIT8_MASK =? 0
  | x :: t' => negb (Z.land x BIT8_MASK =? 0) && tag_tail_ok t'
  end.

Definition tag_ok (t : Z) : bool :=
  (0 <=? t) && (t <? 2 ^ 31) &&
  match (UintToBytes t).2 with
  | [] => false
  | b :: tl => if Z.land b 0x1F =? 0x1F then tag_tail_ok tl else zlen tl =? 0
  end.

Lemma skip_tag_bytes_ok pre tl post e fuel :
  tag_tail_ok tl = true -> zlen pre + zlen tl <= e -> e < 2 ^ 32 - 1 -> zlen tl <= Z.of_nat fuel ->
  skip_tag_bytes fuel (pre ++ tl ++ post) e (zlen pre) = Ret (zlen pre + zlen tl - 1).
Proof.
  revert pre tl; induction fuel as [|f IH]; intros pre tl Ht He Hm Hf.
  { destruct tl; [done|]. zlen_simpl. pose proof (zlen_nonneg tl). lia. }
  pose proof (zlen_nonneg pre). destruct tl as [|x tl]; [done|].
  zlen_simpl. pose proof (zlen_nonneg tl). cbn [skip_tag_bytes app].
  destruct (Z.ltb_spec (zlen pre) e) as [_|]; [|lia]. rewrite vec_get_app. cbn [mbind outcome_bind].
  destruct tl as [|y tl].
  - cbn in Ht. rewrite Ht. cbn. f_equal. change (zlen []) with 0. lia.
  - change (tag_tail_ok (x :: y :: tl)) with
      (negb (Z.land x BIT8_MASK =? 0) && tag_tail_ok (y :: tl)) in Ht.
    apply andb_prop in Ht as [Hx Ht]. rewrite Hx.
    rewrite (u32_small (zlen pre + 1)) by (unfold is_u32; lia).
    specialize (IH (pre ++ [x]) (y :: tl) Ht). zlen_simpl.
    rewrite <- app_assoc in IH. cbn [app] in IH. rewrite Z.add_0_r in IH.
    cbn [app]. rewrite IH by lia. f_equal. lia.
Qed.

Lemma skip_tag_bytes_at pre tl post src e fuel i :
  src = pre ++ tl ++ post -> i = zlen pre ->
  tag_tail_ok tl = true -> zlen pre + zlen tl <= e -> e < 2 ^ 32 - 1 -> zlen tl <= Z.of_nat fuel ->
  skip_tag_bytes fuel src e i = Ret (zlen pre + zlen tl - 1).
Proof. intros -> ->. apply skip_tag_bytes_ok. Qed.

(** The length byte of the short and of the long form. *)
Lemma short_length z : 0 <= z <= MAX_INT8 -> Z.land z BIT8_MASK = 0.
Proof. unfold MAX_INT8. intros H. assert (0 <= z < 128) as Hz by lia. clear H. enum_Z z. Qed.

Lemma long_length v k :
  k = Z.lor (ByteCountForUint v) BIT8_MASK ->
  Z.land k BIT8_MASK <> 0 /\ Z.land k MAX_INT8 = ByteCountForUint v.
Proof.
  intros ->. pose proof (ByteCountForUint_bounds v) as Hb.
  revert Hb. generalize (ByteCountForUint v). intros z Hz.
  assert (z = 1 \/ z = 2 \/ z = 3 \/ z = 4) as [->|[->|[->| ->]]] by lia; done.
Qed.

Section decode_one.
Context (n : Asn1Node) (pre post : list Z) (e : Z).
Context (Hsound : sound n) (Htag : tag_ok (tag_ n) = true).
Let src := pre ++ Asn1Write n ++ post.
Context (Hend : zlen pre + encodedLength_ n <= e <= zlen src) (Hsrc : zlen src < 2 ^ 32 - 1).

Let tb := (UintToBytes (tag_ n)).2.
Let lb := length_bytes (dataLength_ n).

Local Lemma src_eq : src = pre ++ tb ++ lb ++ content n ++ post.
Proof.
  destruct Hsound as (?&?&_). unfold src. rewrite Asn1Write_eq by done.
  unfold header. by rewrite <- !app_assoc.
Qed.

Local Lemma bounds :
  1 <= zlen tb <= 4 /\ 1 <= zlen lb <= 5 /\ 0 <= zlen pre /\ 0 <= dataLength_ n /\
  zlen (content n) = dataLength_ n /\
  zlen pre + zlen tb + zlen lb + dataLength_ n <= e /\ e < 2 ^ 32 - 1 /\ e <= zlen src.
Proof.
  destruct Hsound as (Ht&Hd&_&Hc&He). unfold header in He. zlen_simpl. fold tb lb in He.
  pose proof (UintToBytes_zlen _ Ht) as Htb. fold tb in Htb.
  pose proof (ByteCountForUint_bounds (tag_ n)). pose proof (length_bytes_bounds _ Hd) as Hlb. fold lb in Hlb.
  pose proof (zlen_nonneg pre). destruct Hd. lia.
Qed.

Local Lemma decode_content :
  take_value (MkDecoder src (zlen pre) e) (tag_ n) (dataLength_ n) (zlen pre + zlen tb + zlen lb) =
  Ret (Some (Asn1Node_new (tag_ n) (content n) 0 (dataLength_ n), zlen pre + encodedLength_ n)).
Proof.
  pose proof bounds as (Htb & Hlb & Hpre & Hdl & Hc & He & Hm & Hes).
  assert (zlen tb + zlen lb + dataLength_ n = encodedLength_ n) as Henc.
  { destruct Hsound as (_&_&_&_&->). unfold header. fold tb lb. by_zlen. }
  unfold take_value. cbn [srcData_ end_]. replace (_ || _) with false by lia.
  rewrite (vec_slice_at src (pre ++ tb ++ lb) (content n) post); [..|by_zlen|by_zlen].
  - cbn. do 3 f_equal. rewrite u32_small; unfold is_u32; lia.
  - rewrite src_eq. by_assoc.
Qed.

Local Lemma decode_value :
  BuildAsn1Node (MkDecoder src (zlen pre) e) (tag_ n) (zlen pre + zlen tb) =
  Ret (Some (Asn1Node_new (tag_ n) (content n) 0 (dataLength_ n), zlen pre + encodedLength_ n)).
Proof.
  pose proof bounds as (Htb & Hlb & Hpre & Hdl & Hc & He & Hm & Hes).
  rewrite <- decode_content. pose proof src_eq as Hs.
  unfold BuildAsn1Node. cbn [srcData_ end_]. replace (_ || _) with false by lia.
  rewrite (u32_small (zlen pre + zlen tb + 1)) by (unfold is_u32; lia).
  revert Hs Hlb He. unfold lb, length_bytes.
  destruct (Z.leb_spec (dataLength_ n) MAX_INT8) as [Hle|Hgt]; intros Hs Hlb He.
  - rewrite (vec_get_at src (pre ++ tb) (dataLength_ n) (content n ++ post));
      [|rewrite Hs; by_assoc|by_zlen].
    cbn [mbind outcome_bind]. rewrite short_length by lia. done.
  - remember (Z.lor _ BIT8_MASK) as k eqn:Ek. apply long_length in Ek as [Hk8 Hk7].
    pose proof Hsound as (_ & Hdu & _). pose proof (UintToBytes_zlen _ Hdu) as Hdb.
    pose proof (ByteCountForUint_bounds (dataLength_ n)). zlen_simpl.
    rewrite (vec_get_at src (pre ++ tb) k ((UintToBytes (dataLength_ n)).2 ++ content n ++ post));
      [|rewrite Hs; by_assoc|by_zlen].
    cbn [mbind outcome_bind]. destruct (Z.eqb_spec (Z.land k BIT8_MASK) 0) as [|_]; [done|].
    rewrite Hk7. replace (_ || _) with false by lia.
    rewrite (BytesToInt_at src (pre ++ tb ++ [k]) (UintToBytes (dataLength_ n)).2 (content n ++ post));
      [|rewrite Hs; by_assoc|by_zlen|lia|apply UintToBytes_bytes_ok|lia].
    rewrite UintToBytes_value, u32_i32, (u32_small (dataLength_ n)) by done.
    rewrite u32_small by (unfold is_u32; lia). f_equal. lia.
Qed.

Local Lemma decode_tag b tl :
  tb = b :: tl ->
  (if Z.land b 0x1F =? 0x1F
   then o ← skip_tag_bytes (Z.to_nat (e - (zlen pre + 1))) src e (zlen pre + 1); Ret (u32 (o + 1))
   else Ret (zlen pre + 1)) = Ret (zlen pre + zlen tb).
Proof.
  intros Eb. pose proof bounds as (Htb & Hlb & Hpre & Hdl & Hc & He & Hm & Hes).
  pose proof Htag as Ht. unfold tag_ok in Ht. apply andb_prop in Ht as [_ Ht].
  fold tb in Ht. rewrite Eb in *. zlen_simpl.
  destruct (Z.land b 0x1F =? 0x1F).
  - rewrite (skip_tag_bytes_at (pre ++ [b]) tl (lb ++ content n ++ post));
      [..|by_zlen|lia|lia].
    + cbn. zlen_simpl. f_equal. rewrite u32_small; unfold is_u32; lia.
    + rewrite src_eq, Eb. by_assoc.
    + by_zlen.
    + done.
  - apply Z.eqb_eq in Ht. f_equal. lia.
Qed.

Lemma decode_one :
  Asn1NextNode (MkDecoder src (zlen pre) e) =
  Ret (Some (Asn1Node_new (tag_ n) (content n) 0 (dataLength_ n), zlen pre + encodedLength_ n)).
Proof.
  pose proof bounds as (Htb & Hlb & Hpre & Hdl & Hc & He & Hm & Hes).
  rewrite <- decode_value. pose proof src_eq as Hs. pose proof Hsound as (Ht & _).
  unfold Asn1NextNode. cbn [srcData_ end_ position_].
  replace (_ || _) with false by lia. replace (zlen src <=? zlen pre) with false by lia.
  assert (exists b tl, tb = b :: tl) as (b & tl & Eb).
  { destruct tb as [|b tl]; [change (zlen []) with 0 in Htb; lia|eauto]. }
  rewrite (vec_get_at src pre b (tl ++ lb ++ content n ++ post)) by (done || rewrite Hs, Eb; by_assoc).
  cbn [mbind outcome_bind]. rewrite (u32_small (zlen pre + 1)) by (unfold is_u32; lia).
  rewrite (decode_tag b tl Eb). cbn [mbind outcome_bind].
  destruct (Z.leb_spec e (zlen pre + zlen tb)) as [|_]; [lia|].
  rewrite (u32_small (zlen pre + zlen tb - zlen pre)) by (unfold is_u32; lia).
  rewrite (BytesToInt_at src pre tb (lb ++ content n ++ post));
    [|done|done|lia|apply UintToBytes_bytes_ok|lia].
  pose proof Htag as Hr. unfold tag_ok in Hr. apply andb_prop in Hr as [Hr _].
  assert (be_value 256 tb = tag_ n) as -> by (by apply UintToBytes_value).
  rewrite i32_small by (unfold is_i32; lia).
  destruct (Z.ltb_spec (tag_ n) 0) as [|_]; [lia|]. by rewrite (u32_small (tag_ n)).
Qed.
End decode_one.

(** ** Safety of the decoder on arbitrary bytes *)

(** The decoder's state: a window of its source. *)
Definition decoder_ok (d : Asn1Decoder) : Prop :=
  0 <= position_ d /\ 0 <= end_ d <= zlen (srcData_ d) /\ zlen (srcData_ d) < 2 ^ 32 - 1 /\
  bytes_ok (srcData_ d).

(** A decoding step does not read outside the source, and a decoded node moves
    [position_] forward, inside the window. *)
Definition step_ok (d : Asn1Decoder) (r : outcome decoded) : Prop :=
  match r with
  | Ret None => True
  | Ret (Some (n, p)) => position_ d < p <= end_ d
  | _ => False
  end.

Lemma Asn1Decoder_new_ok src offset len :
  bytes_ok src -> zlen src < 2 ^ 32 - 1 -> is_u32 offset -> is_u32 len ->
  decoder_ok (Asn1Decoder_new src offset len).
Proof.
  unfold is_u32. intros Hb Hs Ho Hl. unfold Asn1Decoder_new, decoder_ok.
  destruct (Z.ltb_spec (2 ^ 32 - 1 - len) offset) as [|Hlt].
  { cbn. change (zlen []) with 0. split_and!; done || lia || constructor. }
  rewrite (u32_small (offset + len)) by (unfold is_u32; lia).
  destruct (Z.ltb_spec (zlen src) (offset + len)); cbn.
  - change (zlen []) with 0. split_and!; done || lia || constructor.
  - split_and!; done || lia.
Qed.

Lemma skip_tag_bytes_range fuel src e o :
  e <= zlen src -> e < 2 ^ 32 - 1 -> 0 <= o <= e ->
  exists o', skip_tag_bytes fuel src e o = Ret o' /\ o <= o' <= e.
Proof.
  intros He Hm. revert o; induction fuel as [|f IH]; intros o Ho; cbn [skip_tag_bytes].
  { exists o. split; [done|lia]. }
  destruct (Z.ltb_spec o e); [|exists o; split; [done|lia]].
  destruct (vec_get_in src o) as (b & -> & _); [lia|]. cbn [mbind outcome_bind].
  case_match; [|exists o; split; [done|lia]].
  rewrite u32_small by (unfold is_u32; lia).
  destruct (IH (o + 1)) as (o' & -> & ?); [lia|]. exists o'. split; [done|lia].
Qed.

Lemma take_value_ok d tag dl o :
  decoder_ok d -> position_ d < o -> 0 <= dl -> step_ok d (take_value d tag dl o).
Proof.
  intros (Hp & He & Hs & _) Ho Hdl. unfold take_value.
  destruct (Z.ltb_spec (end_ d) o), (Z.ltb_spec (end_ d - o) dl); cbn [orb]; try done.
  destruct (vec_slice_in (srcData_ d) o (o + dl)) as (s & -> & _); [lia..|].
  cbn. rewrite u32_small; unfold is_u32; lia.
Qed.

Lemma BuildAsn1Node_ok d tag o :
  decoder_ok d -> position_ d < o < end_ d -> step_ok d (BuildAsn1Node d tag o).
Proof.
  intros Hd Ho. pose proof Hd as (Hp & He & Hs & Hb). unfold BuildAsn1Node.
  destruct (_ || _); [done|].
  destruct (vec_get_in (srcData_ d) o) as (b & -> & Hl); [lia|]. cbn [mbind outcome_bind].
  rewrite Forall_lookup in Hb. apply Hb in Hl as Hb8. unfold is_u8 in Hb8.
  rewrite (u32_small (o + 1)) by (unfold is_u32; lia).
  assert (0 <= Z.land b MAX_INT8) as Hll by (apply Z.land_nonneg; by left; lia).
  case_match; [apply take_value_ok; [done|lia..]|].
  destruct (Z.ltb_spec (end_ d) (o + 1)), (Z.ltb_spec (end_ d - (o + 1)) (Z.land b MAX_INT8));
    cbn [orb]; try done.
  destruct (BytesToInt _ _ _) as [len|]; [|done].
  apply take_value_ok; [done| |apply u32_range]. rewrite u32_small; unfold is_u32; lia.
Qed.

Lemma Asn1NextNode_ok d : decoder_ok d -> step_ok d (Asn1NextNode d).
Proof.
  intros Hd. pose proof Hd as (Hp & He & Hs & Hb). unfold Asn1NextNode.
  destruct (Z.leb_spec (end_ d) (position_ d)); [done|]. cbn [orb].
  destruct (zlen (srcData_ d) =? 0); [done|].
  destruct (Z.leb_spec (zlen (srcData_ d)) (position_ d)); [done|].
  destruct (vec_get_in (srcData_ d) (position_ d)) as (b & -> & _); [lia|]. cbn [mbind outcome_bind].
  rewrite (u32_small (position_ d + 1)) by (unfold is_u32; lia).
  assert (exists o, (if Z.land b 0x1F =? 0x1F
     then o ← skip_tag_bytes (Z.to_nat (end_ d - (position_ d + 1))) (srcData_ d) (end_ d) (position_ d + 1);
          Ret (u32 (o + 1))
     else Ret (position_ d + 1)) = Ret o /\ position_ d < o) as (o & -> & Ho).
  { case_match; [|exists (position_ d + 1); split; [done|lia]].
    destruct (skip_tag_bytes_range (Z.to_nat (end_ d - (position_ d + 1))) (srcData_ d) (end_ d)
                (position_ d + 1)) as (o' & -> & Ho'); [lia..|].
    cbn. eexists. split; [done|]. rewrite u32_small; unfold is_u32; lia. }
  cbn [mbind outcome_bind]. destruct (Z.leb_spec (end_ d) o); [done|].
  destruct (BytesToInt _ _ _) as [tag|]; [|done]. case_match; [done|].
  apply BuildAsn1Node_ok; [done|lia].
Qed.

(** The decoding loop ends by itself, within its fuel, whatever the bytes. *)
Lemma decode_all_Ret fuel d :
  decoder_ok d -> exists ns, decode_all fuel d = Ret ns.
Proof.
  revert d; induction fuel as [|f IH]; intros d Hd; cbn [decode_all]; [eauto|].
  destruct (Asn1HasNextNode d); [|eauto].
  pose proof (Asn1NextNode_ok d Hd) as Hs. destruct (Asn1NextNode d) as [[[n p]|]| |]; cbn in *; [|eauto|done..].
  destruct (IH (MkDecoder (srcData_ d) p (end_ d))) as [ns ->]; [|cbn; eauto].
  destruct Hd as (?&?&?&?). split_and!; cbn; done || lia.
Qed.

Lemma decode_all_fuel fuel fuel' d :
  decoder_ok d -> end_ d - position_ d <= Z.of_nat fuel -> end_ d - position_ d <= Z.of_nat fuel' ->
  decode_all fuel d = decode_all fuel' d.
Proof.
  revert fuel' d; induction fuel as [|f IH]; intros [|f'] d Hd Hf Hf'; cbn [decode_all]; [done|..].
  - unfold Asn1HasNextNode. by replace (position_ d <? end_ d) with false by lia.
  - unfold Asn1HasNextNode. by replace (position_ d <? end_ d) with false by lia.
  - destruct (Asn1HasNextNode d); [|done].
    pose proof (Asn1NextNode_ok d Hd) as Hs. destruct (Asn1NextNode d) as [[[n p]|]| |]; cbn in *; [|done..].
    rewrite (IH f'); [done|..]; cbn; [|lia..].
    destruct Hd as (?&?&?&?). split_and!; cbn; done || lia.
Qed.

(** ** Decoding a sequence of encoded nodes *)

(** What decoding gives back: the tag and the content bytes. *)
Definition raw (n : Asn1Node) : Asn1Node := Asn1Node_new (tag_ n) (content n) 0 (dataLength_ n).

Lemma sound_encoded_pos n : sound n -> 2 <= encodedLength_ n.
Proof.
  intros (Ht&Hd&_&_&->). unfold header. zlen_simpl. rewrite UintToBytes_zlen by done.
  pose proof (ByteCountForUint_bounds (tag_ n)). pose proof (length_bytes_bounds _ Hd). destruct Hd. lia.
Qed.

Lemma decode_all_write ns : forall pre e fuel,
  Forall (fun n => sound n /\ tag_ok (tag_ n) = true) ns ->
  e = zlen (pre ++ concat (map Asn1Write ns)) -> e < 2 ^ 32 - 1 -> e - zlen pre <= Z.of_nat fuel ->
  decode_all fuel (MkDecoder (pre ++ concat (map Asn1Write ns)) (zlen pre) e) = Ret (raw <$> ns).
Proof.
  induction ns as [|n ns IH]; intros pre e fuel Hns He Hm Hf.
  { cbn in *. rewrite app_nil_r in *. destruct fuel; [done|]. cbn [decode_all].
    unfold Asn1HasNextNode. cbn. by replace (zlen pre <? e) with false by lia. }
  apply Forall_cons in Hns as [[Hn Ht] Hns]. cbn [map concat] in *.
  pose proof (sound_write_zlen n Hn) as Hw. pose proof (sound_encoded_pos n Hn) as Hpos.
  pose proof (zlen_nonneg (concat (map Asn1Write ns))). pose proof (zlen_nonneg pre).
  rewrite !zlen_app in He.
  destruct fuel as [|f]; [lia|]. cbn [decode_all]. unfold Asn1HasNextNode. cbn [position_ end_].
  replace (zlen pre <? e) with true by lia.
  rewrite decode_one by (done || zlen_simpl; lia). cbn [mbind outcome_bind srcData_ end_].
  specialize (IH (pre ++ Asn1Write n) e f Hns). rewrite <- app_assoc in IH.
  rewrite !zlen_app, Hw in IH. rewrite IH by lia. done.
Qed.

(** ** The decoder's property *)

(** C6: The decoder is safe on every input: whatever bytes, offset and length it is
    given, decoding all the nodes never reads outside the vector, returns, and
    the loop ends by itself (more iterations than [end_ - position_] give the
    same nodes); every step consumes at least one byte and stays in the window. *)
Theorem decoder_total src offset len :
  bytes_ok src -> zlen src < 2 ^ 32 - 1 -> is_u32 offset -> is_u32 len ->
  let d := Asn1Decoder_new src offset len in
  (exists ns, decode_children d = Ret ns /\
    forall fuel, (Z.to_nat (end_ d - position_ d) <= fuel)%nat -> decode_all fuel d = Ret ns) /\
  (forall n p, Asn1NextNode d = Ret (Some (n, p)) -> position_ d < p <= end_ d).
Proof.
  intros Hb Hs Ho Hl d. pose proof (Asn1Decoder_new_ok src offset len Hb Hs Ho Hl) as Hd.
  fold d in Hd. split.
  - destruct (decode_all_Ret (Z.to_nat (end_ d - position_ d)) d Hd) as [ns Hns].
    exists ns. split; [done|]. intros fuel Hf. rewrite <- Hns. apply decode_all_fuel; [done|lia..].
  - intros n p E. pose proof (Asn1NextNode_ok d Hd) as H. by rewrite E in H.
Qed.

Lemma decoder_total_witness :
  exists ns, decode_children (Asn1Decoder_new [0x9F; 0x81; 1; 0x84; 255] 0 5) = Ret ns.
Proof.
  destruct (decoder_total [0x9F; 0x81; 1; 0x84; 255] 0 5) as [(ns & H & _) _].
  - repeat (apply Forall_cons; split; [done|]). constructor.
  - done.
  - done.
  - done.
  - exists ns. exact H.
Defined.
