(* ===== verification/Asn1Builder.v ===== *)
(** * [utils/codec/src/asn1_builder.cpp]: building constructed nodes

    A builder holds a tag and a list of child nodes; children are added from
    bytes, strings, integers, bit strings and booleans, and [Asn1Build] moves
    them into a new constructed node. A null child pointer is [None]. *)

From S2P Require Import Prelude CxxString Asn1Utils Asn1Node.

Definition MAX_ENCODE_DATA_LENGTH : Z := 10240.

Record Asn1Builder : Type := MkBuilder {
  builder_tag_ : Z;
  builder_children_ : list (option Asn1Node)
}.

Definition Asn1AddChild (node : option Asn1Node) (b : Asn1Builder) : Asn1Builder :=
  MkBuilder (builder_tag_ b) (builder_children_ b ++ [node]).

Definition Asn1AddChildAsBytes (tag : Z) (childByte : list Z) (byteLen : Z) (b : Asn1Builder)
  : TelErr * Asn1Builder :=
  if IsConstructedTag tag then (TELEPHONY_ERR_FAIL, b)
  else (TELEPHONY_ERR_SUCCESS, Asn1AddChild (Some (Asn1Node_new tag childByte 0 byteLen)) b).

Definition Asn1AddChildAsString (tag : Z) (childStr : cstring) (b : Asn1Builder)
  : TelErr * Asn1Builder :=
  let bytes := StringToBytes childStr in
  Asn1AddChildAsBytes tag bytes (u32 (zlen bytes)) b.

Definition Asn1AddChildAsInteger (tag childInt : Z) (b : Asn1Builder) : TelErr * Asn1Builder :=
  if IsConstructedTag tag then (TELEPHONY_ERR_FAIL, b)
  else
    let '(bytesLen, intBytes) := UintToBytes childInt in
    if (bytesLen =? 0) || (zlen intBytes =? 0) then (TELEPHONY_ERR_FAIL, b)
    else (TELEPHONY_ERR_SUCCESS, Asn1AddChild (Some (Asn1Node_new tag intBytes 0 bytesLen)) b).

Definition Asn1AddChildAsSignedInteger (tag childSignedInt : Z) (b : Asn1Builder)
  : TelErr * Asn1Builder :=
  if IsConstructedTag tag then (TELEPHONY_ERR_FAIL, b)
  else
    let '(bytesLen, intBytes) := IntToBytes childSignedInt in
    (TELEPHONY_ERR_SUCCESS, Asn1AddChild (Some (Asn1Node_new tag intBytes 0 bytesLen)) b).

(** The loop of [Asn1AddChildAsBits] over [i = 1 .. 4]: writes byte [4 - i] of
    the reversed integer and remembers the last non-zero one. *)
Definition bits_loop (reverseInt : Z) : list Z * Z :=
  foldl (fun (st : list Z * Z) (i : Z) =>
           let v := u8 (Z.shiftr reverseInt ((4 - i) * 8)) in
           (<[Z.to_nat i := v]> st.1, if v =? 0 then st.2 else i))
        (replicate 5 0, 0) [1; 2; 3; 4].

Definition bits_bytes (childBits : Z) : list Z :=
  let '(childByte, dataLength) := bits_loop (ReverseInt (u32 childBits)) in
  let dataLength := dataLength + 1 in
  let childByte := <[0%nat := CountTrailingZeros (nth (Z.to_nat (dataLength - 1)) childByte 0)]> childByte in
  take (Z.to_nat dataLength) childByte.

Definition Asn1AddChildAsBits (tag childBits : Z) (b : Asn1Builder) : TelErr * Asn1Builder :=
  if IsConstructedTag tag then (TELEPHONY_ERR_FAIL, b)
  else
    let newChildByte := bits_bytes childBits in
    (TELEPHONY_ERR_SUCCESS,
     Asn1AddChild (Some (Asn1Node_new tag newChildByte 0 (zlen newChildByte))) b).

Definition Asn1AddChildAsBoolean (tag : Z) (flag : bool) (b : Asn1Builder) : TelErr * Asn1Builder :=
  let boolByteVec := if flag then [u8 MAX_UINT8] else [0] in
  Asn1AddChildAsBytes tag boolByteVec (zlen boolByteVec) b.

(** The loop of [Asn1Build]: collects the children up to the first null one and
    adds up their encoded lengths; [None] when a child is too long. *)
Fixpoint build_children (cs : list (option Asn1Node)) (dataLen : Z) : option (list Asn1Node * Z) :=
  match cs with
  | [] | None :: _ => Some ([], dataLen)
  | Some c :: t =>
      if MAX_ENCODE_DATA_LENGTH <? encodedLength_ c then None
      else match build_children t (u32 (dataLen + encodedLength_ c)) with
           | Some (ns, len) => Some (c :: ns, len)
           | None => None
           end
  end.

Definition built_node (tag : Z) (cs : list Asn1Node) (dataLen : Z) : Asn1Node :=
  let newNode := Asn1Node_new tag [] 0 0 in
  {| tag_ := tag_ newNode;
     children_ := cs;
     constructed_ := true;
     dataBytes_ := dataBytes_ newNode;
     dataOffset_ := dataOffset_ newNode;
     dataLength_ := dataLen;
     encodedLength_ := u32 (u32 (ByteCountForUint tag + CalculateEncodedBytesNumForLength dataLen)
                            + dataLen) |}.

(** Returns the node, if any, and the builder, emptied when a node is built. *)
Definition Asn1Build (b : Asn1Builder) : option Asn1Node * Asn1Builder :=
  if MAX_UINT8 <? zlen (builder_children_ b) then (None, b)
  else
    match build_children (builder_children_ b) 0 with
    | None => (None, b)
    | Some (cs, dataLen) =>
        (Some (built_node (builder_tag_ b) cs dataLen), MkBuilder (builder_tag_ b) [])
    end.

Definition Asn1BuilderToHexStr (b : Asn1Builder) : Z * option cstring * Asn1Builder :=
  match Asn1Build b with
  | (None, b') => (0, None, b')
  | (Some node, b') => let '(strLen, destStr) := Asn1NodeToHexStr node in (strLen, Some destStr, b')
  end.

Example build_ex :
  let b := MkBuilder 0xBF2D [] in
  let '(_, b) := Asn1AddChildAsInteger 0x81 300 b in
  let '(_, b) := Asn1AddChildAsBoolean 0x82 true b in
  (Asn1BuilderToHexStr b).1.2 = Some (str "BF2D078102012C8201FF").
Proof. vm_compute. reflexivity. Qed.

(** ** Building: lemmas *)

(** A child the builder can hold and the decoder read back. *)
Definition child_ok (n : Asn1Node) : Prop := sound n /\ tag_ok (tag_ n) = true.

Fixpoint total_length (cs : list Asn1Node) : Z :=
  match cs with [] => 0 | c :: t => encodedLength_ c + total_length t end.

Lemma total_length_nonneg cs : Forall child_ok cs -> 0 <= total_length cs.
Proof. induction 1 as [|c cs [Hc _] _ IH]; cbn; [lia|]. pose proof (sound_encoded_pos c Hc). lia. Qed.

Lemma concat_write_zlen cs :
  Forall child_ok cs -> zlen (concat (map Asn1Write cs)) = total_length cs.
Proof.
  induction 1 as [|c cs [Hc _] _ IH]; cbn; [done|]. by rewrite zlen_app, IH, sound_write_zlen.
Qed.

Lemma concat_write_ok cs : Forall child_ok cs -> bytes_ok (concat (map Asn1Write cs)).
Proof.
  induction 1 as [|c cs [Hc _] _ IH]; cbn; [constructor|].
  apply Forall_app. split; [by apply sound_write_ok|done].
Qed.

Lemma build_children_spec cs dl ns len :
  Forall child_ok cs -> 0 <= dl -> dl + MAX_ENCODE_DATA_LENGTH * zlen cs < 2 ^ 32 ->
  build_children (Some <$> cs) dl = Some (ns, len) ->
  ns = cs /\ len = dl + total_length cs /\ total_length cs <= MAX_ENCODE_DATA_LENGTH * zlen cs.
Proof.
  intros Hcs. revert dl ns len; induction Hcs as [|c cs [Hc _] Hcs IH]; intros dl ns len Hdl Hmax.
  { cbn. intros [= <- <-]. split_and!; try done. lia. }
  rewrite fmap_cons. cbn [build_children total_length].
  zlen_simpl. pose proof (zlen_nonneg cs). pose proof (sound_encoded_pos c Hc).
  unfold MAX_ENCODE_DATA_LENGTH in *. case_bool; [done|].
  rewrite u32_small by (unfold is_u32; lia).
  destruct (build_children _ _) as [[ns' len']|] eqn:E; [|done]. intros [= <- <-].
  apply IH in E as (-> & -> & ?); [|lia..]. split_and!; [done|lia..].
Qed.

Lemma built_node_sound tag cs :
  is_u32 tag -> Forall child_ok cs -> total_length cs < 2 ^ 32 - 9 ->
  sound (built_node tag cs (total_length cs)).
Proof.
  intros Ht Hcs Hl. pose proof (total_length_nonneg cs Hcs).
  assert (content (built_node tag cs (total_length cs)) = concat (map Asn1Write cs)) as Hc by done.
  unfold sound. rewrite Hc. cbn [tag_ dataLength_ encodedLength_ built_node Asn1Node_new].
  split_and!; [done|unfold is_u32; lia|by apply concat_write_ok|by apply concat_write_zlen|].
  apply encoded_length_exact; [done|lia].
Qed.

Lemma Asn1Build_spec tag cs n b' :
  is_u32 tag -> Forall child_ok cs ->
  Asn1Build (MkBuilder tag (Some <$> cs)) = (Some n, b') ->
  n = built_node tag cs (total_length cs) /\ sound n /\ total_length cs <= 10240 * 255.
Proof.
  intros Ht Hcs. unfold Asn1Build. cbn [builder_children_ builder_tag_].
  unfold MAX_UINT8. case_bool; [done|].
  assert (zlen cs <= 255) as Hlen by (unfold zlen in *; rewrite length_fmap in *; lia).
  destruct (build_children _ 0) as [[ns len]|] eqn:E; [|done]. intros [= <- <-].
  apply build_children_spec in E as (-> & -> & Htot);
    [|done|lia|unfold MAX_ENCODE_DATA_LENGTH; lia].
  unfold MAX_ENCODE_DATA_LENGTH in *. cbn [Z.add]. split_and!; [done| |lia].
  apply built_node_sound; [done..|lia].
Qed.

Lemma raw_content n : content (raw n) = content n.
Proof.
  unfold raw, content at 1. cbn.
  destruct (Z.eqb_spec (zlen (content n)) 0) as [Hz|Hz]; [|by rewrite andb_false_r].
  rewrite (zlen_0_nil _ Hz). by destruct (_ && _).
Qed.

Lemma raw_write n : sound n -> Asn1Write (raw n) = Asn1Write n.
Proof.
  intros (Ht & Hd & Hb & Hc & _). rewrite !Asn1Write_eq by done. f_equal. apply raw_content.
Qed.

Lemma concat_write_raw cs :
  Forall child_ok cs -> concat (map Asn1Write (raw <$> cs)) = concat (map Asn1Write cs).
Proof.
  induction 1 as [|c cs [Hc _] _ IH]; [done|]. rewrite fmap_cons. cbn [map concat].
  by rewrite IH, raw_write.
Qed.

(** Decoding the content of a built node gives its children back. *)
Lemma decode_children_write cs len :
  Forall child_ok cs -> len = zlen (concat (map Asn1Write cs)) -> len < 2 ^ 32 - 1 ->
  decode_children (Asn1Decoder_new (concat (map Asn1Write cs)) 0 len) = Ret (raw <$> cs).
Proof.
  intros Hcs -> Hlen. pose proof (zlen_nonneg (concat (map Asn1Write cs))).
  unfold Asn1Decoder_new. rewrite Z.add_0_l, u32_small by (unfold is_u32; lia).
  replace (_ || _) with false by lia. unfold decode_children. cbn [end_ position_].
  apply (decode_all_write cs []); [done|done|lia|change (zlen []) with 0; lia].
Qed.

Lemma BuildChildren_raw tag cs n :
  IsConstructedTag tag = true -> Forall child_ok cs -> total_length cs < 2 ^ 32 - 9 ->
  n = built_node tag cs (total_length cs) ->
  exists r', Asn1BuildChildren (raw n) = Ret (TELEPHONY_ERR_SUCCESS, r') /\
    tag_ r' = tag /\ constructed_ r' = true /\ dataBytes_ r' = [] /\
    dataLength_ r' = dataLength_ n /\ encodedLength_ r' = encodedLength_ (raw n) /\
    children_ r' = raw <$> cs.
Proof.
  intros Hk Hcs Hl ->. pose proof (total_length_nonneg cs Hcs).
  pose proof (concat_write_zlen cs Hcs) as Hz.
  unfold Asn1BuildChildren, raw.
  replace (content (built_node tag cs (total_length cs))) with (concat (map Asn1Write cs)) by done.
  cbn [tag_ dataLength_ constructed_ dataBytes_ dataOffset_ children_ Asn1Node_new built_node].
  rewrite Hk. cbn [negb]. case_bool.
  - eexists. split; [done|]. cbn. rewrite Hk. split_and!; try done.
    + apply zlen_0_nil. done.
    + destruct Hcs as [|c cs Hc Hcs]; [done|]. cbn in *. destruct Hc as [Hc _].
      pose proof (sound_encoded_pos c Hc). pose proof (total_length_nonneg cs Hcs). lia.
  - rewrite Z.sub_0_r, u32_small by (unfold is_u32; lia).
    rewrite decode_children_write by (done || lia). cbn [mbind outcome_bind app].
    eexists. split; [done|]. cbn. rewrite Hk. done.
Qed.

(** ** Integers and bit strings: lemmas *)

Lemma IntToBytes_eq v :
  is_i32 v ->
  exists n, 1 <= n <= 4 /\ IntToBytes v = (n, be_digits 256 (Z.to_nat n) (u32 v)) /\ u32 v < 256 ^ n.
Proof.
  intros Hv. pose proof (u32_range v) as Hu.
  assert (1 <= ByteCountForInt (u32 v) true <= 4 /\ u32 v < 256 ^ ByteCountForInt (u32 v) true) as [Hb Hf].
  { unfold is_u32, ByteCountForInt, MAX_INT8, MAX_INT16, MAX_INT24 in *.
    repeat case_bool; lia. }
  exists (ByteCountForInt (u32 v) true). split; [done|]. split; [|done].
  unfold IntToBytes. rewrite hex_of_uint; [done|lia|]. unfold is_u32 in Hu. lia.
Qed.

(** Reading the whole content as an integer. *)
Lemma BytesToInt_all bs :
  bytes_ok bs -> 0 < zlen bs <= 4 -> BytesToInt bs 0 (zlen bs) = Some (i32 (be_value 256 bs)).
Proof. intros. apply (BytesToInt_at bs [] bs []); [by rewrite app_nil_r|done..]. Qed.

Lemma AsInteger_new tag bs :
  IsConstructedTag tag = false -> bytes_ok bs -> 0 < zlen bs <= 4 ->
  Asn1AsInteger (Asn1Node_new tag bs 0 (zlen bs)) = i32 (be_value 256 bs).
Proof.
  intros Ht Hbs Hl. unfold Asn1AsInteger. cbn. rewrite Ht.
  destruct (Z.eqb_spec (zlen bs) 0); [lia|]. by rewrite BytesToInt_all.
Qed.

Lemma be_digits_256_ok n v : bytes_ok (be_digits 256 n v).
Proof. apply be_digits_range. lia. Qed.

(** The four bytes of a 32-bit value. *)
Definition byte_of (r i : Z) : Z := u8 (Z.shiftr r ((4 - i) * 8)).

Lemma byte_of_spec r :
  is_u32 r ->
  is_u8 (byte_of r 1) /\ is_u8 (byte_of r 2) /\ is_u8 (byte_of r 3) /\ is_u8 (byte_of r 4) /\
  r = byte_of r 1 * 2 ^ 24 + byte_of r 2 * 2 ^ 16 + byte_of r 3 * 2 ^ 8 + byte_of r 4.
Proof.
  intros Hr. split_and!; try apply u8_range.
  unfold byte_of, u8, is_u32 in *. rewrite !Z.shiftr_div_pow2 by lia.
  change (2 ^ ((4 - 1) * 8)) with 16777216. change (2 ^ ((4 - 2) * 8)) with 65536.
  change (2 ^ ((4 - 3) * 8)) with 256. change (2 ^ ((4 - 4) * 8)) with 1.
  change (2 ^ 8) with 256. change (2 ^ 24) with 16777216. change (2 ^ 16) with 65536.
  change (2 ^ 32) with 4294967296 in *. rewrite Z.div_1_r.
  change 16777216 with (256 * 256 * 256). change 65536 with (256 * 256). rewrite <- !Z.div_div by lia.
  pose proof (Z.div_mod r 256). pose proof (Z.div_mod (r / 256) 256).
  pose proof (Z.div_mod (r / 256 / 256) 256).
  rewrite (Z.mod_small (r / 256 / 256 / 256)); [lia|].
  rewrite !Z.div_div by lia. split; [apply Z.div_pos; lia|]. apply Z.div_lt_upper_bound; lia.
Qed.

Lemma low_byte_reverse x :
  is_u32 x -> byte_of (ReverseInt x) 4 = 0 <-> x < 2 ^ 24.
Proof.
  intros Hx. unfold byte_of. change ((4 - 4) * 8) with 0. rewrite Z.shiftr_0_r. split.
  - intros H. destruct (decide (x = 0)) as [->|Hnz]; [lia|].
    apply Z.log2_lt_pow2; [unfold is_u32 in Hx; lia|]. pose proof (Z.bit_log2 x ltac:(unfold is_u32 in Hx; lia)) as Hb.
    assert (Z.log2 x < 32) by (apply Z.log2_lt_pow2; unfold is_u32 in Hx; lia).
    destruct (decide (Z.log2 x < 24)) as [|Hge]; [done|].
    assert (Z.testbit (u8 (ReverseInt x)) (31 - Z.log2 x) = true) as Ht.
    { unfold u8. rewrite Z.mod_pow2_bits_low by lia. rewrite ReverseInt_bits by lia.
      by replace (31 - (31 - Z.log2 x)) with (Z.log2 x) by lia. }
    rewrite H, Z.bits_0 in Ht. done.
  - intros Hl. apply Z.bits_inj'. intros i Hi. rewrite Z.bits_0. unfold u8.
    destruct (decide (i < 8)).
    + rewrite Z.mod_pow2_bits_low, ReverseInt_bits by lia.
      apply (testbit_high x 24); [unfold is_u32 in Hx; lia|lia].
    + apply Z.mod_pow2_bits_high. lia.
Qed.

Lemma bits_loop_eq r :
  bits_loop r =
  ([0; byte_of r 1; byte_of r 2; byte_of r 3; byte_of r 4],
   if byte_of r 4 =? 0 then
     if byte_of r 3 =? 0 then
       if byte_of r 2 =? 0 then
         if byte_of r 1 =? 0 then 0 else 1
       else 2
     else 3
   else 4).
Proof. reflexivity. Qed.

Lemma bits_bytes_zlen x : zlen (bits_bytes x) <= 5.
Proof.
  unfold bits_bytes. rewrite bits_loop_eq. unfold zlen. rewrite length_take, length_insert.
  cbn [length]. lia.
Qed.

Lemma AsBits_new tag c bs :
  IsConstructedTag tag = false -> bytes_ok bs -> 0 < zlen bs <= 3 ->
  Asn1AsBits (Asn1Node_new tag (c :: bs) 0 (zlen (c :: bs))) =
  i32 (ReverseInt (shift_bytes (Z.to_nat (4 - zlen bs)) (be_value 256 bs))).
Proof.
  intros Ht Hbs Hl. unfold Asn1AsBits. cbn [constructed_ dataBytes_ dataLength_ dataOffset_ Asn1Node_new].
  rewrite Ht. zlen_simpl. unfold MAX_DATA_LENGTH, MIN_DATA_LENGTH.
  destruct (Z.eqb_spec (1 + zlen bs) 0); [lia|]. replace (_ || _) with false by lia.
  rewrite (BytesToInt_at (c :: bs) [c] bs []);
    [|by rewrite app_nil_r|done|lia|done|lia].
  rewrite u32_i32. pose proof (be_value_range 256 ltac:(lia) bs Hbs).
  pose proof (Z.pow_le_mono_r 256 (zlen bs) 3 ltac:(lia) ltac:(lia)).
  rewrite u32_small by (unfold is_u32; simpl in *; lia). do 3 f_equal. lia.
Qed.

Lemma shift_bytes_eq n v :
  0 <= v -> v * 256 ^ Z.of_nat n < 2 ^ 32 -> shift_bytes n v = v * 256 ^ Z.of_nat n.
Proof.
  revert v; induction n as [|n IH]; intros v Hv Hl; cbn [shift_bytes]; [simpl; lia|].
  rewrite Nat2Z.inj_succ, Z.pow_succ_r in * by lia.
  assert (0 < 256 ^ Z.of_nat n) by (apply Z.pow_pos_nonneg; lia).
  unfold shl32, OFFSET_EIGHT_BIT. rewrite Z.shiftl_mul_pow2 by lia. change (2 ^ 8) with 256.
  rewrite u32_small by (unfold is_u32; nia). rewrite IH; [lia|nia|lia].
Qed.

Lemma AsBits_bits_bytes tag x :
  IsConstructedTag tag = false -> is_u32 x ->
  Asn1AsBits (Asn1Node_new tag (bits_bytes x) 0 (zlen (bits_bytes x))) = if x <? 2 ^ 24 then x else 0.
Proof.
  intros Ht Hx. unfold bits_bytes. rewrite (u32_small x) by done. rewrite bits_loop_eq.
  pose proof (byte_of_spec (ReverseInt x) (ReverseInt_u32 x)) as (H1 & H2 & H3 & H4 & Hr).
  pose proof (low_byte_reverse x Hx) as Hlow.
  set (b1 := byte_of _ 1) in *. set (b2 := byte_of _ 2) in *.
  set (b3 := byte_of _ 3) in *. set (b4 := byte_of _ 4) in *.
  assert (forall bs, bytes_ok bs -> 0 < zlen bs <= 3 ->
    shift_bytes (Z.to_nat (4 - zlen bs)) (be_value 256 bs) = ReverseInt x -> x < 2 ^ 24 -> forall c,
    Asn1AsBits (Asn1Node_new tag (c :: bs) 0 (zlen (c :: bs))) = x) as Hread.
  { intros bs Hbs Hl Hs Hlt c. rewrite AsBits_new, Hs, ReverseInt_involutive_lemma by done.
    apply i32_small. unfold is_i32, is_u32 in *. lia. }
  destruct (Z.ltb_spec x (2 ^ 24)) as [Hlt|Hge].
  - assert (b4 = 0) as E4 by (by apply Hlow). rewrite E4 in *. cbn [Z.eqb].
    destruct (Z.eqb_spec b3 0) as [E3|E3]; [destruct (Z.eqb_spec b2 0) as [E2|E2];
      [destruct (Z.eqb_spec b1 0) as [E1|E1]|]|].
    + assert (x = 0) as ->; [|unfold Asn1AsBits; cbn; by rewrite Ht].
      rewrite <- (ReverseInt_involutive_lemma x Hx), Hr, E1, E2, E3. reflexivity.
    + apply (Hread [b1]); [repeat (apply Forall_cons; split; [assumption|]); constructor|done| |done].
      unfold be_value, is_u8 in *. cbn [foldl].
      change (Z.to_nat (4 - zlen [b1])) with 3%nat.
      rewrite shift_bytes_eq by (change (256 ^ Z.of_nat 3) with 16777216; lia).
      change (256 ^ Z.of_nat 3) with 16777216; lia.
    + apply (Hread [b1; b2]); [repeat (apply Forall_cons; split; [assumption|]); constructor|done| |done].
      unfold be_value, is_u8 in *. cbn [foldl].
      change (Z.to_nat (4 - zlen [b1; b2])) with 2%nat.
      rewrite shift_bytes_eq by (change (256 ^ Z.of_nat 2) with 65536; lia).
      change (256 ^ Z.of_nat 2) with 65536; lia.
    + apply (Hread [b1; b2; b3]); [repeat (apply Forall_cons; split; [assumption|]); constructor|done| |done].
      unfold be_value, is_u8 in *. cbn [foldl].
      change (Z.to_nat (4 - zlen [b1; b2; b3])) with 1%nat.
      rewrite shift_bytes_eq by (change (256 ^ Z.of_nat 1) with 256; lia).
      change (256 ^ Z.of_nat 1) with 256; lia.
  - destruct (Z.eqb_spec b4 0) as [E4|E4]; [apply Hlow in E4; lia|].
    unfold Asn1AsBits. cbn. by rewrite Ht.
Qed.

(** ** The codec's properties *)

(** C3: Encoding and decoding are inverse. The node built from well-formed children
    encodes to exactly [encodedLength_] bytes; decoding those bytes consumes
    all of them and gives a node of the same tag whose lazily decoded children
    are the builder's, with their tags and contents; and re-encoding the decoded
    node gives the same bytes, before and after its children were decoded. *)
Theorem build_decode_roundtrip tag cs n b' :
  is_u32 tag -> tag_ok tag = true -> IsConstructedTag tag = true -> Forall child_ok cs ->
  Asn1Build (MkBuilder tag (Some <$> cs)) = (Some n, b') ->
  let bytes := (Asn1NodeToBytes n).2 in
  zlen bytes = encodedLength_ n /\
  exists r r',
    Asn1NextNode (Asn1Decoder_new bytes 0 (zlen bytes)) = Ret (Some (r, zlen bytes)) /\
    tag_ r = tag /\ Asn1BuildChildren r = Ret (TELEPHONY_ERR_SUCCESS, r') /\
    children_ r' = raw <$> cs /\
    (Asn1NodeToBytes r).2 = bytes /\ (Asn1NodeToBytes r').2 = bytes.
Proof.
  intros Ht Htag Hk Hcs Hb bytes.
  apply Asn1Build_spec in Hb as (-> & Hn & Hl); [|done..].
  set (n := built_node tag cs (total_length cs)) in *.
  pose proof (sound_encoded_pos n Hn) as Hp. pose proof (sound_write_zlen n Hn) as Hz.
  assert (encodedLength_ n < 2 ^ 32 - 1) as Hsmall.
  { destruct Hn as (_ & Hd & _ & _ & ->). rewrite header_zlen by done.
    pose proof (ByteCountForUint_bounds (tag_ n)). pose proof (CalculateEncoded_bounds _ Hd).
    change (dataLength_ n) with (total_length cs) in *. lia. }
  assert (bytes = Asn1Write n) as Eb.
  { unfold bytes, Asn1NodeToBytes. by destruct (Z.eqb_spec (encodedLength_ n) 0); [lia|]. }
  rewrite Eb, Hz. split; [done|].
  destruct (BuildChildren_raw tag cs n Hk Hcs ltac:(lia) eq_refl) as (r' & Hr & E1 & E2 & E3 & E4 & E5 & E6).
  exists (raw n), r'.
  assert (encodedLength_ (raw n) = encodedLength_ n) as Er.
  { destruct Hn as (_ & _ & _ & _ & ->). cbn [encodedLength_ raw Asn1Node_new dataLength_ tag_ n built_node].
    apply encoded_length_exact; [done|]. pose proof (total_length_nonneg cs Hcs). lia. }
  split_and!; [| done | exact Hr | done | |].
  - pose proof (decode_one n [] [] (encodedLength_ n) Hn Htag) as H.
    unfold Asn1Decoder_new. rewrite Z.add_0_l, Hz, u32_small by (unfold is_u32; lia).
    replace (_ || _) with false by lia. rewrite app_nil_r in H. cbn [app] in H.
    change (zlen []) with 0 in H. apply H; lia.
  - unfold Asn1NodeToBytes. rewrite Er. destruct (Z.eqb_spec (encodedLength_ n) 0); [lia|].
    by apply raw_write.
  - unfold Asn1NodeToBytes. rewrite E5, Er. destruct (Z.eqb_spec (encodedLength_ n) 0); [lia|].
    destruct Hn as (_ & Hd & _). cbn [snd].
    rewrite (Asn1Write_eq n) by done. rewrite (Asn1Write_eq r') by (rewrite ?E1, ?E4; done).
    rewrite E1, E4. change (tag_ n) with tag. f_equal.
    unfold content at 1. rewrite E2, E3, E6. cbn [andb]. change (zlen [] =? 0) with true.
    by apply concat_write_raw.
Qed.

Lemma build_decode_roundtrip_witness :
  let cs := [Asn1Node_new 0x81 [1; 44] 0 2; Asn1Node_new 0x9F70 [255] 0 1] in
  let n := built_node 0xBF2D cs 8 in
  exists r r', Asn1NextNode (Asn1Decoder_new (Asn1NodeToBytes n).2 0 11) = Ret (Some (r, 11)) /\
    Asn1BuildChildren r = Ret (TELEPHONY_ERR_SUCCESS, r') /\ children_ r' = raw <$> cs.
Proof.
  intros cs n.
  destruct (build_decode_roundtrip 0xBF2D cs n (MkBuilder 0xBF2D []))
    as [_ (r & r' & H1 & _ & H2 & H3 & _)].
  - done.
  - vm_compute. reflexivity.
  - vm_compute. reflexivity.
  - repeat (apply Forall_cons; split); [..|constructor].
    + split; [|vm_compute; reflexivity]. apply (sound_new 0x81 [1; 44]); [done| |done].
      repeat (apply Forall_cons; split; [done|]). constructor.
    + split; [|vm_compute; reflexivity]. apply (sound_new 0x9F70 [255]); [done| |done].
      repeat (apply Forall_cons; split; [done|]). constructor.
  - vm_compute. reflexivity.
  - exists r, r'. split; [|split; assumption].
    replace (zlen (Asn1NodeToBytes n).2) with 11 in H1 by (vm_compute; reflexivity). exact H1.
Defined.

(** Every [int32_t] survives [Asn1AddChildAsSignedInteger] followed by
    [Asn1AsInteger] on the child, the negative ones included, and on a
    constructed tag the builder is left as it was. *)
Theorem signed_integer_roundtrip tag v b :
  is_i32 v ->
  match Asn1AddChildAsSignedInteger tag v b with
  | (TELEPHONY_ERR_SUCCESS, b') =>
      exists n, builder_children_ b' = builder_children_ b ++ [Some n] /\
        tag_ n = tag /\ Asn1AsInteger n = v
  | (_, b') => IsConstructedTag tag = true /\ b' = b
  end.
Proof.
  intros Hv. unfold Asn1AddChildAsSignedInteger. destruct (IsConstructedTag tag) eqn:Hk; [done|].
  destruct (IntToBytes_eq v Hv) as (k & Hk4 & -> & Hfit). cbn.
  assert (zlen (be_digits 256 (Z.to_nat k) (u32 v)) = k) as Hlen
    by (unfold zlen; rewrite be_digits_length; lia).
  eexists. split; [done|]. split; [done|]. rewrite <- Hlen at 2.
  rewrite AsInteger_new; [|done|apply be_digits_256_ok|lia].
  rewrite be_value_digits_small by (rewrite ?Z2Nat.id by lia; pose proof (u32_range v); unfold is_u32 in *; lia).
  rewrite i32_u32. by apply i32_small.
Qed.

Lemma signed_integer_roundtrip_witness :
  exists n, builder_children_ (Asn1AddChildAsSignedInteger 0x82 (-129) (MkBuilder 0xA0 [])).2 =
    [Some n] /\ Asn1AsInteger n = -129.
Proof.
  pose proof (signed_integer_roundtrip 0x82 (-129) (MkBuilder 0xA0 []) ltac:(done)) as H.
  replace (Asn1AddChildAsSignedInteger 0x82 (-129) (MkBuilder 0xA0 [])) with
    (TELEPHONY_ERR_SUCCESS, (Asn1AddChildAsSignedInteger 0x82 (-129) (MkBuilder 0xA0 [])).2)
    in H by (vm_compute; reflexivity).
  destruct H as (n & H1 & _ & H2). exists n. split; [exact H1|exact H2].
Defined.

(** Reading back a bit string: the bits written by [Asn1AddChildAsBits] are read
    by [Asn1AsBits] as the same integer when they fit in 24 bits. A wider bit
    string takes five content bytes (the count of unused bits, then four), which
    [Asn1AsBits] refuses, and it reads as 0. *)
Theorem bits_roundtrip tag v b :
  IsConstructedTag tag = false -> is_i32 v ->
  exists n, Asn1AddChildAsBits tag v b = (TELEPHONY_ERR_SUCCESS, Asn1AddChild (Some n) b) /\
    tag_ n = tag /\ dataLength_ n <= 5 /\
    (0 <= v < 2 ^ 24 -> Asn1AsBits n = v) /\
    (v < 0 \/ 2 ^ 24 <= v -> Asn1AsBits n = 0).
Proof.
  intros Hk Hv. unfold Asn1AddChildAsBits. rewrite Hk. eexists. split; [done|].
  pose proof (u32_range v) as Hu.
  assert (bits_bytes v = bits_bytes (u32 v)) as E.
  { unfold bits_bytes. by rewrite (u32_small (u32 v)). }
  pose proof (AsBits_bits_bytes tag (u32 v) Hk Hu) as H. rewrite <- E in H.
  split_and!; [done| | |].
  - cbn [dataLength_ Asn1Node_new]. apply bits_bytes_zlen.
  - intros Hr. rewrite H, u32_small by (unfold is_u32; lia). by replace (v <? 2 ^ 24) with true by lia.
  - intros Hr. rewrite H. replace (u32 v <? 2 ^ 24) with false; [done|].
    symmetry. apply Z.ltb_ge. unfold is_i32 in Hv. unfold u32. change (2 ^ 32) with 4294967296 in *.
    change (2 ^ 31) with 2147483648 in *. change (2 ^ 24) with 16777216 in *.
    destruct Hr as [Hneg|Hbig]; [|rewrite Z.mod_small; lia].
    rewrite <- (Z.mod_add v 1), Z.mod_small; lia.
Qed.

Lemma bits_roundtrip_witness :
  exists n, Asn1AddChildAsBits 0x83 0xC00001 (MkBuilder 0xA0 []) =
    (TELEPHONY_ERR_SUCCESS, MkBuilder 0xA0 [Some n]) /\ Asn1AsBits n = 0xC00001.
Proof.
  destruct (bits_roundtrip 0x83 0xC00001 (MkBuilder 0xA0 [])) as (n & H1 & _ & _ & H2 & _).
  - vm_compute. reflexivity.
  - done.
  - exists n. split; [exact H1|apply H2; lia].
Defined.
