(* ===== verification/Apdu.v ===== *)
(** * [utils/codec/src/request_apdu_build.cpp] and [reset_response.cpp]

    The STORE DATA command sequence for a hexadecimal payload (the payload is cut
    into blocks of 255 bytes), and the analysis of a card's answer to reset,
    which finds out whether the card is an eUICC. *)

From S2P Require Import Prelude CxxString Asn1Utils.

(** ** Building STORE DATA commands *)

Definition CLA_STORE_DATA : Z := 0x80.
Definition INS_STORE_DATA : Z := 0xE2.
Definition P1_STORE_DATA_INTERM : Z := 0x11.
Definition P1_STORE_DATA_END : Z := 0x91.

Record ApduData : Type := MkApduData {
  cla : Z; ins : Z; p1 : Z; p2 : Z; p3 : Z; cmdHex : cstring
}.
Record ApduCommand : Type := MkApduCommand { channel : Z; apdu : ApduData }.

Record RequestApduBuild : Type := MkRequest {
  channelId_ : Z;
  apduCommandLst_ : list ApduCommand
}.

(** Returns the commands and leaves the list empty. *)
Definition GetCommands (r : RequestApduBuild) : list ApduCommand * RequestApduBuild :=
  (apduCommandLst_ r, MkRequest (channelId_ r) []).

Definition AddApdu (d : ApduData) (r : RequestApduBuild) : RequestApduBuild :=
  MkRequest (channelId_ r) (apduCommandLst_ r ++ [MkApduCommand (u32 (channelId_ r)) d]).

Definition ConstructApduData (packetTag packetIndex packetLen : Z) (cmdHex : cstring) : ApduData :=
  MkApduData CLA_STORE_DATA INS_STORE_DATA packetTag packetIndex packetLen cmdHex.

(** Signed addition on [int32_t]: overflow is undefined. *)
Definition add_int32 (a b : Z) : outcome Z :=
  if decide (is_i32 (a + b)) then Ret (a + b) else Undef.

(** The loop over the full blocks, [n] iterations from index [i]; returns the
    builder, [startPos] and [leastLen]. *)
Fixpoint store_blocks (n : nat) (cmdHex : cstring) (i startPos leastLen : Z) (r : RequestApduBuild)
  : outcome (RequestApduBuild * Z * Z) :=
  match n with
  | O => Ret (r, startPos, leastLen)
  | S k =>
      let cmdLen := MAX_UINT8 * BYTE_TO_HEX_LEN in
      data ← substr cmdHex startPos cmdLen;
      let r := AddApdu (ConstructApduData P1_STORE_DATA_INTERM (i - 1) MAX_UINT8 data) r in
      startPos ← add_int32 startPos cmdLen;
      store_blocks k cmdHex (i + 1) startPos (u32 (leastLen - MAX_UINT8)) r
  end.

Definition BuildStoreData (cmdHex : cstring) (r : RequestApduBuild) : outcome RequestApduBuild :=
  let totalLen := u32 (zlen cmdHex / BYTE_TO_HEX_LEN) in
  let totalSubCmds := if totalLen =? 0 then 1 else u32 (u32 (totalLen + MAX_UINT8) - 1) / MAX_UINT8 in
  '(r, startPos, leastLen) ← store_blocks (Z.to_nat (totalSubCmds - 1)) cmdHex 1 0 totalLen r;
  lastData ← substr_from cmdHex startPos;
  Ret (AddApdu (ConstructApduData P1_STORE_DATA_END (totalSubCmds - 1) leastLen lastData) r).

(** ** Analysing the answer to reset *)

Definition BIT2_MASK : Z := 0x02.
Definition BIT5_MASK : Z := 0x10.
Definition BIT7_MASK : Z := 0x40.
Definition HIGH_BITS_MASK : Z := 0xF0.
Definition LOW_BITS_MASK : Z := 0x0F.
Definition MIN_ATR_DATA_LENGTH : Z := 4.
Definition MAX_INTERFACE_VALUE : Z := 0x0F.
Definition REVERSED_AGREEMENT : Z := 0x3B.
Definition POSITIVE_AGREEMENT : Z := 0x3F.

Record ResetResponse : Type := MkReset { isEuiccAvailable_ : bool; formatByte_ : Z }.

Definition IsEuiccAvailable (r : ResetResponse) : bool := isEuiccAvailable_ r.

Definition CheckOperationRes (chr tMask comparedVal : Z) : bool := Z.land chr tMask =? comparedVal.

(** Returns the answer and the member [isEuiccAvailable_] after the call. *)
Definition CheckIsEuiccAvailable (charB charD : Z) (isEuiccAvailable : bool) : bool * bool :=
  if negb (charB =? 0) && negb (charD =? 0) && CheckOperationRes charD LOW_BITS_MASK MAX_INTERFACE_VALUE
  then
    if negb (CheckOperationRes charB BIT8_MASK 0) && negb (CheckOperationRes charB BIT2_MASK 0)
    then (true, true) else (false, isEuiccAvailable)
  else (false, isEuiccAvailable).

(** The [while] loop of [AnalysisInterfaceData]: an iteration that goes on reads
    at least one byte, so [atrDataLen + 1] iterations are enough; running out is
    [Undef], which [AnalysisAtrData_total] excludes. Returns the result and
    [isEuiccAvailable_]. *)
Fixpoint interface_loop (fuel : nat) (atrData : list Z) (atrDataLen : Z)
    (lastByteD charD index : Z) (avail : bool) : outcome (bool * bool) :=
  match fuel with
  | O => Undef
  | S k =>
      if CheckOperationRes lastByteD HIGH_BITS_MASK 0 then Ret (true, avail) else
      let hasA := negb (CheckOperationRes lastByteD BIT5_MASK 0) in
      if hasA && (atrDataLen <=? index) then Ret (false, avail) else
      let index := if hasA then index + 1 else index in
      let hasB := negb (CheckOperationRes lastByteD BIT6_MASK 0) in
      if hasB && (atrDataLen <=? index) then Ret (false, avail) else
      charB ← (if hasB then vec_get atrData index else Ret 0);
      let index := if hasB then index + 1 else index in
      let '(found, avail) :=
        if hasB && negb (charD =? 0) then CheckIsEuiccAvailable charB charD avail else (false, avail) in
      if found then Ret (true, avail) else
      let hasC := negb (CheckOperationRes lastByteD BIT7_MASK 0) in
      if hasC && (atrDataLen <=? index) then Ret (false, avail) else
      let index := if hasC then index + 1 else index in
      if CheckOperationRes lastByteD BIT8_MASK 0 then Ret (true, avail) else
      if atrDataLen <=? index then Ret (false, avail) else
      charD ← vec_get atrData index;
      let index := index + 1 in
      if charD =? 0 then Ret (true, avail) else
      interface_loop k atrData atrDataLen charD charD index avail
  end.

Definition AnalysisInterfaceData (atrData : list Z) (atrDataLen index : Z) (r : ResetResponse)
  : outcome (bool * ResetResponse) :=
  '(res, avail) ← interface_loop (S (Z.to_nat atrDataLen)) atrData atrDataLen (formatByte_ r) 0 index
                    (isEuiccAvailable_ r);
  Ret (res, MkReset avail (formatByte_ r)).

Definition CheckAtrDataParam (atr : cstring) : bool :=
  if (zlen atr =? 0) || negb (zlen atr mod BYTE_TO_HEX_LEN =? 0) then false
  else negb (zlen atr <? MIN_ATR_DATA_LENGTH).

Definition AnalysisAtrData (atr : cstring) (r : ResetResponse) : outcome (bool * ResetResponse) :=
  if negb (CheckAtrDataParam atr) then Ret (false, r) else
  let atrData := HexStrToBytes atr in
  let atrDataLen := u32 (zlen atrData) in
  if atrDataLen =? 0 then Ret (false, r) else
  let index := 0 in
  convention ← vec_get atrData index;
  if negb (convention =? POSITIVE_AGREEMENT) && negb (convention =? REVERSED_AGREEMENT)
  then Ret (false, r) else
  let index := index + 1 in
  if atrDataLen <=? index then Ret (false, r) else
  formatByte ← vec_get atrData index;
  let r := MkReset (isEuiccAvailable_ r) formatByte in
  let index := index + 1 in
  if atrDataLen <=? index then Ret (false, r) else
  AnalysisInterfaceData atrData atrDataLen index r.

Example atr_ex :
  (* an eUICC answer: TD2 announces T=15, TB3 has bits 8 and 2 *)
  AnalysisAtrData (str "3B9F96803FC7828031E073FE2111633F10000A01") (MkReset false 0) =
  Ret (true, MkReset true 0x9F).
Proof. vm_compute. reflexivity. Qed.

(** ** STORE DATA: lemmas and properties *)

Definition hex_of (c : ApduCommand) : cstring := cmdHex (apdu c).

(** Block [k] of a sequence: an intermediate command with 255 bytes. *)
Definition full_block (ch idx : Z) (c : ApduCommand) : Prop :=
  c = MkApduCommand (u32 ch) (MkApduData CLA_STORE_DATA INS_STORE_DATA P1_STORE_DATA_INTERM idx 255 (hex_of c)) /\
  zlen (hex_of c) = 510.

Lemma store_blocks_ok n cmdHex : forall i startPos leastLen r,
  0 <= startPos -> startPos + 510 * Z.of_nat n <= zlen cmdHex -> zlen cmdHex < 2 ^ 31 ->
  255 * Z.of_nat n <= leastLen < 2 ^ 32 ->
  exists new,
    store_blocks n cmdHex i startPos leastLen r =
    Ret (MkRequest (channelId_ r) (apduCommandLst_ r ++ new),
         startPos + 510 * Z.of_nat n, leastLen - 255 * Z.of_nat n) /\
    length new = n /\
    take (Z.to_nat startPos) cmdHex ++ concat (hex_of <$> new) =
    take (Z.to_nat (startPos + 510 * Z.of_nat n)) cmdHex /\
    forall k c, new !! k = Some c -> full_block (channelId_ r) (i - 1 + Z.of_nat k) c.
Proof.
  induction n as [|n IH]; intros i start least r Hs Hn Hz Hl.
  - exists []. cbn. rewrite Z.mul_0_r, Z.add_0_r, Z.sub_0_r, !app_nil_r. destruct r. done.
  - cbn [store_blocks]. unfold substr. change (MAX_UINT8 * BYTE_TO_HEX_LEN) with 510.
    replace (zlen cmdHex <? start) with false by lia. cbn [mbind outcome_bind].
    unfold add_int32. rewrite decide_True by (unfold is_i32; lia). cbn [mbind outcome_bind].
    change MAX_UINT8 with 255. rewrite u32_small by (unfold is_u32; lia).
    set (data := take _ (drop _ _)). set (r1 := AddApdu _ _).
    destruct (IH (i + 1) (start + 510) (least - 255) r1) as (new & E & Hlen & Hcat & Hall); [lia..|].
    exists (MkApduCommand (u32 (channelId_ r)) (ConstructApduData P1_STORE_DATA_INTERM (i - 1) 255 data) :: new).
    rewrite E. split_and!.
    + cbn [channelId_ apduCommandLst_ r1 AddApdu]. rewrite <- app_assoc.
      do 2 f_equal; [f_equal; lia|lia].
    + cbn. lia.
    + rewrite fmap_cons. cbn [concat]. rewrite app_assoc.
      replace (start + 510 * Z.of_nat (S n)) with (start + 510 + 510 * Z.of_nat n) by lia.
      rewrite <- Hcat. f_equal. unfold hex_of, data. cbn.
      rewrite take_take_drop. f_equal. lia.
    + intros [|k] c; cbn.
      * intros [= <-]. replace (i - 1 + Z.of_nat 0) with (i - 1) by lia. split; [done|].
        unfold hex_of, data. cbn. unfold zlen in *. rewrite length_take, length_drop. lia.
      * intros Hk. apply Hall in Hk. cbn in Hk. by replace (i - 1 + Z.of_nat (S k)) with (i + 1 - 1 + Z.of_nat k) by lia.
Qed.

(** The commands that [BuildStoreData] appends. *)
Lemma store_data_chain cmd r :
  zlen cmd < 2 ^ 31 ->
  exists blocks last,
    BuildStoreData cmd r = Ret (MkRequest (channelId_ r) (apduCommandLst_ r ++ blocks ++ [last])) /\
    concat (hex_of <$> (blocks ++ [last])) = cmd /\
    (forall k c, blocks !! k = Some c -> full_block (channelId_ r) (Z.of_nat k) c) /\
    last = MkApduCommand (u32 (channelId_ r))
             (MkApduData CLA_STORE_DATA INS_STORE_DATA P1_STORE_DATA_END (zlen blocks)
                         (zlen (hex_of last) / 2) (hex_of last)) /\
    zlen (hex_of last) <= 511 /\ (2 <= zlen cmd -> 2 <= zlen (hex_of last)).
Proof.
  intros Hz. pose proof (zlen_nonneg cmd) as H0. unfold BuildStoreData.
  unfold BYTE_TO_HEX_LEN. set (bytes := zlen cmd / 2).
  assert (0 <= bytes /\ 2 * bytes <= zlen cmd < 2 * bytes + 2) as [Hb0 Hb].
  { unfold bytes. pose proof (Z.div_mod (zlen cmd) 2). pose proof (Z.mod_pos_bound (zlen cmd) 2). lia. }
  rewrite u32_small by (unfold is_u32; lia).
  set (subs := if bytes =? 0 then 1 else _).
  assert (1 <= subs /\ 255 * (subs - 1) <= bytes <= 255 * subs /\ (0 < bytes -> 255 * (subs - 1) < bytes)) as Hsubs.
  { unfold subs. case_bool; [lia|]. unfold MAX_UINT8.
    rewrite (u32_small (bytes + 255)) by (unfold is_u32; lia). rewrite u32_small by (unfold is_u32; lia).
    pose proof (Z.div_mod (bytes + 255 - 1) 255). pose proof (Z.mod_pos_bound (bytes + 255 - 1) 255). lia. }
  clearbody subs bytes.
  destruct (store_blocks_ok (Z.to_nat (subs - 1)) cmd 1 0 bytes r) as (new & -> & Hlen & Hcat & Hall);
    [lia..|].
  rewrite !Z2Nat.id in * by lia. rewrite Z.add_0_l in *. cbn [mbind outcome_bind].
  unfold substr_from. replace (zlen cmd <? 510 * (subs - 1)) with false by lia. cbn [mbind outcome_bind].
  set (last := drop _ _).
  assert (zlen last = zlen cmd - 510 * (subs - 1)) as Hlast.
  { unfold last, zlen in *. rewrite length_drop. lia. }
  exists new, (MkApduCommand (u32 (channelId_ r)) (ConstructApduData P1_STORE_DATA_END (subs - 1)
                 (bytes - 255 * (subs - 1)) last)).
  unfold hex_of at 2 3 4 5. cbn [apdu cmdHex ConstructApduData]. rewrite Hlast. split_and!; [| |exact Hall| |lia|lia].
  - unfold AddApdu. cbn. by rewrite <- app_assoc.
  - rewrite fmap_app, concat_app. change (take (Z.to_nat 0) cmd) with (@nil ascii) in Hcat. cbn [app] in Hcat.
    rewrite Hcat. cbn. rewrite app_nil_r. apply take_drop.
  - unfold ConstructApduData. do 2 f_equal.
    + unfold zlen. lia.
    + replace (zlen cmd - 510 * (subs - 1)) with (zlen cmd - 2 * (255 * (subs - 1))) by lia.
      apply Z.div_unique with (r := zlen cmd - 2 * bytes); lia.
Qed.

(** C25: A payload is cut into STORE DATA commands without loss: [BuildStoreData]
    always returns, keeps the commands already there, and appends commands
    whose payloads concatenate to the given one. They are numbered from 0 in
    [p2]; all but the last carry P1 = 0x11 and 255 bytes, the last one P1 = 0x91,
    at most 255 bytes, with [p3] its length in bytes; there is at least one
    command, and no empty last command unless the payload is empty. *)
Theorem BuildStoreData_chain cmd r :
  zlen cmd < 2 ^ 31 ->
  exists blocks last,
    BuildStoreData cmd r = Ret (MkRequest (channelId_ r) (apduCommandLst_ r ++ blocks ++ [last])) /\
    concat (hex_of <$> (blocks ++ [last])) = cmd /\
    (forall k c, blocks !! k = Some c -> full_block (channelId_ r) (Z.of_nat k) c) /\
    last = MkApduCommand (u32 (channelId_ r))
             (MkApduData CLA_STORE_DATA INS_STORE_DATA P1_STORE_DATA_END (zlen blocks)
                         (zlen (hex_of last) / 2) (hex_of last)) /\
    zlen (hex_of last) <= 511 /\ (2 <= zlen cmd -> 2 <= zlen (hex_of last)).
Proof. apply store_data_chain. Qed.

Lemma BuildStoreData_chain_witness :
  exists blocks last, BuildStoreData (str "BF2D00") (MkRequest 1 []) = Ret (MkRequest 1 ([] ++ blocks ++ [last])) /\
    concat (hex_of <$> (blocks ++ [last])) = str "BF2D00".
Proof.
  destruct (BuildStoreData_chain (str "BF2D00") (MkRequest 1 [])) as (blocks & last & H1 & H2 & _).
  - vm_compute. reflexivity.
  - exists blocks, last. split; [exact H1|exact H2].
Defined.

(** ** Answer to reset: lemmas and properties *)

Lemma interface_loop_safe fuel atr : forall lastD charD index avail,
  0 <= index <= zlen atr -> zlen atr - index < Z.of_nat fuel ->
  exists r, interface_loop fuel atr (zlen atr) lastD charD index avail = Ret r.
Proof.
  induction fuel as [|k IH]; intros lastD charD index avail Hi Hf; [lia|]. cbn [interface_loop].
  destruct (CheckOperationRes lastD HIGH_BITS_MASK 0); [eauto|].
  set (hasA := negb (CheckOperationRes lastD BIT5_MASK 0)).
  destruct (hasA && (zlen atr <=? index)) eqn:EA; [eauto|].
  set (i1 := if hasA then index + 1 else index).
  assert (index <= i1 <= zlen atr) as H1 by (unfold i1; destruct hasA; cbn in EA; lia).
  set (hasB := negb (CheckOperationRes lastD BIT6_MASK 0)).
  destruct (hasB && (zlen atr <=? i1)) eqn:EB; [eauto|].
  assert (exists b, (if hasB then vec_get atr i1 else Ret 0) = Ret b) as [b ->].
  { destruct hasB; [|eauto]. destruct (vec_get_in atr i1) as (b & -> & _); [cbn in EB; lia|eauto]. }
  cbn [mbind outcome_bind]. set (i2 := if hasB then i1 + 1 else i1).
  assert (i1 <= i2 <= zlen atr) as H2 by (unfold i2; destruct hasB; cbn in EB; lia).
  destruct (if hasB && negb (charD =? 0) then _ else _) as [found avail']. destruct found; [eauto|].
  set (hasC := negb (CheckOperationRes lastD BIT7_MASK 0)).
  destruct (hasC && (zlen atr <=? i2)) eqn:EC; [eauto|].
  set (i3 := if hasC then i2 + 1 else i2).
  assert (i2 <= i3 <= zlen atr) as H3 by (unfold i3; destruct hasC; cbn in EC; lia).
  destruct (CheckOperationRes lastD BIT8_MASK 0); [eauto|].
  destruct (Z.leb_spec (zlen atr) i3); [eauto|].
  destruct (vec_get_in atr i3) as (d & -> & _); [lia|]. cbn [mbind outcome_bind].
  destruct (d =? 0); [eauto|]. apply IH; lia.
Qed.

(** The analysis of an answer to reset never reads outside the decoded bytes,
    and its loop ends, whatever string the modem reports. *)
Lemma AnalysisAtrData_total atr r :
  zlen atr < 2 ^ 31 -> exists res, AnalysisAtrData atr r = Ret res.
Proof.
  intros Hz. unfold AnalysisAtrData. destruct (CheckAtrDataParam atr); cbn [negb]; [|eauto].
  pose proof (HexStrToBytes_zlen atr) as Hl. pose proof (zlen_nonneg (HexStrToBytes atr)).
  rewrite u32_small by (unfold is_u32; lia).
  set (data := HexStrToBytes atr) in *. destruct (Z.eqb_spec (zlen data) 0); [eauto|].
  destruct (vec_get_in data 0) as (c & -> & _); [lia|]. cbn [mbind outcome_bind].
  destruct (negb _ && negb _); [eauto|]. change (0 + 1) with 1. destruct (Z.leb_spec (zlen data) 1); [eauto|].
  destruct (vec_get_in data 1) as (f & -> & _); [lia|]. cbn [mbind outcome_bind].
  change (1 + 1) with 2. destruct (Z.leb_spec (zlen data) 2); [eauto|].
  unfold AnalysisInterfaceData. cbn [formatByte_ isEuiccAvailable_].
  destruct (interface_loop_safe (S (Z.to_nat (zlen data))) data f 0 2 (isEuiccAvailable_ r))
    as ([res av] & ->); [lia..|]. cbn. eauto.
Qed.

(** An answer to reset by its structure (ISO/IEC 7816-3): groups of optional
    interface bytes; the byte TD of a group, present when another group follows,
    holds that group's indicator and a protocol number. *)
Record Group : Type := MkGroup { TA : option Z; TB : option Z; TC : option Z; proto : Z }.

Definition opt_byte (b : option Z) : list Z := match b with Some x => [x] | None => [] end.

Definition has (b : option Z) : bool := match b with Some _ => true | None => false end.

Definition indicator (g : Group) (more : bool) : Z :=
  (if has (TA g) then 0x10 else 0) + (if has (TB g) then 0x20 else 0) +
  (if has (TC g) then 0x40 else 0) + (if more then 0x80 else 0).

Definition more_groups (gs : list Group) : bool := match gs with [] => false | _ => true end.

Fixpoint interface_bytes (g : Group) (gs : list Group) : list Z :=
  opt_byte (TA g) ++ opt_byte (TB g) ++ opt_byte (TC g) ++
  match gs with
  | [] => []
  | g' :: gs' => indicator g' (more_groups gs') + proto g :: interface_bytes g' gs'
  end.

(** Some group announces T = 15 and the next one's TB has bits 8 and 2 set. *)
Definition euicc_TB (b : option Z) : bool :=
  match b with Some b => Z.testbit b 7 && Z.testbit b 1 | None => false end.

Fixpoint announces_euicc (g : Group) (gs : list Group) : bool :=
  match gs with
  | [] => false
  | g' :: gs' => ((proto g =? 15) && euicc_TB (TB g')) || announces_euicc g' gs'
  end.

Definition group_ok (g : Group) : Prop :=
  bytes_ok (opt_byte (TA g) ++ opt_byte (TB g) ++ opt_byte (TC g)) /\ 0 <= proto g < 16.

Lemma indicator_bits g more low :
  0 <= low < 16 ->
  let d := indicator g more + low in
  CheckOperationRes d BIT5_MASK 0 = negb (has (TA g)) /\
  CheckOperationRes d BIT6_MASK 0 = negb (has (TB g)) /\
  CheckOperationRes d BIT7_MASK 0 = negb (has (TC g)) /\
  CheckOperationRes d BIT8_MASK 0 = negb more /\
  CheckOperationRes d HIGH_BITS_MASK 0 = negb (has (TA g) || has (TB g) || has (TC g) || more) /\
  CheckOperationRes d LOW_BITS_MASK MAX_INTERFACE_VALUE = (low =? 15) /\
  (d =? 0) = negb (has (TA g) || has (TB g) || has (TC g) || more) && (low =? 0) /\ is_u8 d.
Proof.
  unfold indicator. intros H.
  destruct (TA g), (TB g), (TC g), more; cbn [has negb andb orb]; enum_Z low;
    vm_compute; repeat split; congruence.
Qed.

Lemma euicc_TB_bits b :
  is_u8 b ->
  negb (b =? 0) && negb (CheckOperationRes b BIT8_MASK 0) && negb (CheckOperationRes b BIT2_MASK 0) =
  euicc_TB (Some b).
Proof. unfold is_u8. change (2 ^ 8) with 256. intros Hb. enum_Z b. Qed.

Lemma CheckIsEuiccAvailable_eq b d avail :
  is_u8 b -> CheckIsEuiccAvailable b d avail =
  let found := negb (d =? 0) && CheckOperationRes d LOW_BITS_MASK MAX_INTERFACE_VALUE && euicc_TB (Some b) in
  (found, avail || found).
Proof.
  intros Hb. rewrite <- euicc_TB_bits by done. unfold CheckIsEuiccAvailable.
  destruct (b =? 0), (d =? 0), (CheckOperationRes d _ _), (CheckOperationRes b BIT8_MASK 0),
    (CheckOperationRes b BIT2_MASK 0), avail; done.
Qed.

Lemma interface_bytes_ok gs : forall g, group_ok g -> Forall group_ok gs -> bytes_ok (interface_bytes g gs).
Proof.
  induction gs as [|g' gs IH]; intros g [Hb Hp] Hgs; cbn [interface_bytes];
    rewrite !app_assoc; apply Forall_app; (split; [by rewrite <- app_assoc|]); [constructor|].
  apply Forall_cons in Hgs as [Hg' Hgs]. apply Forall_cons.
  split; [by apply indicator_bits|by apply IH].
Qed.

Lemma interface_bytes_zlen g gs : zlen gs <= zlen (interface_bytes g gs).
Proof.
  revert g; induction gs as [|g' gs IH]; intros g; [apply zlen_nonneg|]. cbn. zlen_simpl.
  specialize (IH g'). pose proof (zlen_nonneg (opt_byte (TA g))).
  pose proof (zlen_nonneg (opt_byte (TB g))). pose proof (zlen_nonneg (opt_byte (TC g))). lia.
Qed.

(** What [CheckIsEuiccAvailable] finds in group [g], with [charD] the last TD. *)
Definition found_in (charD : Z) (g : Group) : bool :=
  negb (charD =? 0) && CheckOperationRes charD LOW_BITS_MASK MAX_INTERFACE_VALUE && euicc_TB (TB g).

(** One iteration of the loop over a group whose bytes are all there. *)
Lemma interface_loop_step k atr pre g more low charD avail rest :
  atr = pre ++ (opt_byte (TA g) ++ opt_byte (TB g) ++ opt_byte (TC g)) ++ rest ->
  group_ok g -> 0 <= low < 16 -> (more = true -> exists d t, rest = d :: t) ->
  interface_loop (S k) atr (zlen atr) (indicator g more + low) charD (zlen pre) avail =
  if found_in charD g then Ret (true, true)
  else if negb more then Ret (true, avail)
  else match rest with
       | [] => Undef
       | d :: _ =>
           if d =? 0 then Ret (true, avail)
           else interface_loop k atr (zlen atr) d d
                  (zlen pre + zlen (opt_byte (TA g) ++ opt_byte (TB g) ++ opt_byte (TC g)) + 1) avail
       end.
Proof.
  intros Hatr [Hg _] Hlow Hrest. cbn [interface_loop].
  pose proof (zlen_nonneg pre). pose proof (zlen_nonneg rest).
  destruct (indicator_bits g more low Hlow) as (-> & -> & -> & -> & -> & _ & _ & _).
  assert (zlen atr = zlen pre + zlen (opt_byte (TA g)) + zlen (opt_byte (TB g)) + zlen (opt_byte (TC g))
          + zlen rest) as Hlen by (rewrite Hatr; by_zlen).
  assert (forall b i, TB g = Some b -> i = zlen pre + zlen (opt_byte (TA g)) -> vec_get atr i = Ret b) as HB.
  { intros b i Eb ->. apply (vec_get_at _ (pre ++ opt_byte (TA g)) b (opt_byte (TC g) ++ rest)); [|by_zlen].
    rewrite Hatr, Eb. cbn. by_assoc. }
  assert (forall d t i, rest = d :: t ->
    i = zlen pre + zlen (opt_byte (TA g)) + zlen (opt_byte (TB g)) + zlen (opt_byte (TC g)) ->
    vec_get atr i = Ret d) as HD.
  { intros d t i Ed ->. rewrite Ed in Hatr.
    apply (vec_get_at _ (pre ++ opt_byte (TA g) ++ opt_byte (TB g) ++ opt_byte (TC g)) d t); [|by_zlen].
    rewrite Hatr. by_assoc. }
  clear Hatr. unfold found_in.
  assert (forall b, TB g = Some b -> is_u8 b) as Hb8.
  { intros b E. rewrite E in Hg. apply Forall_app in Hg as [_ Hg]. by apply Forall_inv in Hg. }
  set (n := zlen (opt_byte (TA g) ++ opt_byte (TB g) ++ opt_byte (TC g))).
  assert (forall i j av, i = zlen pre + n -> j = i + 1 ->
    (if negb more then Ret (true, av) else if zlen atr <=? i then Ret (false, av)
     else d ← vec_get atr i; if d =? 0 then Ret (true, av) else interface_loop k atr (zlen atr) d d j av) =
    (if negb more then Ret (true, av)
     else match rest with
          | [] => Undef
          | d :: _ => if d =? 0 then Ret (true, av)
                      else interface_loop k atr (zlen atr) d d (zlen pre + n + 1) av
          end)) as Htail.
  { intros i j av Hi Hj. destruct more; [|done]. destruct Hrest as (d & t & E); [done|]. cbn [negb].
    unfold n in Hi. zlen_simpl. rewrite E in Hlen. zlen_simpl. pose proof (zlen_nonneg t).
    replace (zlen atr <=? i) with false by lia. rewrite (HD d t) by (done || lia). cbn [mbind outcome_bind].
    rewrite E. destruct (d =? 0); [done|]. f_equal. unfold n. zlen_simpl. lia. }
  unfold n in *. clear n HD Hrest.
  destruct (TB g) as [b|]; [specialize (HB b (zlen pre + zlen (opt_byte (TA g))) eq_refl eq_refl); specialize (Hb8 b eq_refl)|];
    destruct (TA g), (TC g); cbn [has negb andb orb opt_byte app] in *; zlen_simpl;
    repeat match goal with |- context [zlen atr <=? ?i] => replace (zlen atr <=? i) with false by lia end;
    rewrite ?Z.add_0_r in HB; try rewrite HB;
    cbn [mbind outcome_bind]; rewrite ?CheckIsEuiccAvailable_eq by done; rewrite ?andb_false_r; cbn zeta beta;
    try (destruct (negb (charD =? 0)); cbn [andb];
         [destruct (_ && _); [by rewrite orb_true_r|rewrite orb_false_r]|]);
    try (apply Htail; lia).
  specialize (Htail (zlen pre) (zlen pre + 1) avail ltac:(lia) eq_refl).
  destruct more; [exact Htail|done].
Qed.

Lemma interface_loop_groups gs : forall fuel g pre hist low charD avail atr,
  atr = pre ++ interface_bytes g gs ++ hist -> (length gs < fuel)%nat ->
  group_ok g -> Forall group_ok gs -> 0 <= low < 16 ->
  interface_loop fuel atr (zlen atr) (indicator g (more_groups gs) + low) charD (zlen pre) avail =
  Ret (true, avail || found_in charD g || announces_euicc g gs).
Proof.
  induction gs as [|g' gs IH]; intros [|k] g pre hist low charD avail atr Hatr Hf Hg Hgs Hlow;
    cbn [length] in Hf; [lia| |lia|].
  - rewrite (interface_loop_step k atr pre g _ low charD avail hist);
      [|by rewrite Hatr; cbn; by_assoc|done..].
    cbn. rewrite orb_false_r. destruct (found_in charD g); by rewrite ?orb_true_r, ?orb_false_r.
  - apply Forall_cons in Hgs as [Hg' Hgs]. pose proof Hg as [_ Hproto].
    set (td := indicator g' (more_groups gs) + proto g).
    rewrite (interface_loop_step k atr pre g _ low charD avail (td :: interface_bytes g' gs ++ hist));
      [|by rewrite Hatr; cbn; by_assoc|done..|by eauto].
    cbn [negb more_groups announces_euicc].
    destruct (found_in charD g); [by rewrite orb_true_r|]. rewrite orb_false_r.
    destruct (indicator_bits g' (more_groups gs) (proto g) Hproto) as (_&_&_&_&Hhigh&Hlo&Hz&_).
    assert (found_in td g' = (proto g =? 15) && euicc_TB (TB g')) as Hfound.
    { unfold found_in. fold td in Hz, Hlo. rewrite Hz, Hlo.
      destruct (TB g'); [|cbn; by rewrite !andb_false_r]. cbn [has]. by rewrite !orb_true_r, !orb_true_l. }
    fold td in Hz. destruct (Z.eqb_spec td 0) as [E|E].
    + symmetry in Hz. apply andb_prop in Hz as [Hn Hp]. rewrite <- Hfound.
      destruct (TA g'), (TB g'), (TC g'), gs; try done. unfold found_in. rewrite E. by rewrite orb_false_r.
    + rewrite <- Hfound, orb_assoc.
      specialize (IH k g' (pre ++ (opt_byte (TA g) ++ opt_byte (TB g) ++ opt_byte (TC g)) ++ [td]) hist
                    (proto g) td avail atr).
      fold td in IH. rewrite <- IH; [f_equal; by_zlen| |lia|done..].
      rewrite Hatr. cbn. by_assoc.
Qed.

(** C30: The analysis of an answer to reset computes what ISO/IEC 7816-3 says of its
    interface bytes: on an answer made of TS, T0, any groups of optional TA, TB,
    TC and TD bytes and historical bytes, it succeeds, and finds an eUICC exactly
    when a TB that follows an indication of protocol T = 15 has bits 8 and 2
    set (an eUICC already found stays found). *)
Theorem AnalysisAtrData_groups ts k g gs hist r :
  ts = POSITIVE_AGREEMENT \/ ts = REVERSED_AGREEMENT -> 0 <= k < 16 ->
  group_ok g -> Forall group_ok gs -> bytes_ok hist -> interface_bytes g gs ++ hist <> [] ->
  let t0 := indicator g (more_groups gs) + k in
  let atr := ts :: t0 :: interface_bytes g gs ++ hist in
  zlen atr <= MAX_BPP_LENGTH ->
  AnalysisAtrData (BytesToHexStr atr) r =
  Ret (true, MkReset (isEuiccAvailable_ r || announces_euicc g gs) t0).
Proof.
  intros Hts Hk Hg Hgs Hhist Hne t0 atr Hmax.
  assert (bytes_ok atr) as Hok.
  { unfold atr. apply Forall_cons. split; [by destruct Hts as [-> | ->]|]. apply Forall_cons.
    split; [by apply indicator_bits|]. apply Forall_app. split; [by apply interface_bytes_ok|done]. }
  assert (2 < zlen atr) as Hlen.
  { unfold atr. destruct (interface_bytes g gs ++ hist) as [|x l]; [done|]. zlen_simpl.
    pose proof (zlen_nonneg l). lia. }
  unfold AnalysisAtrData, CheckAtrDataParam. rewrite (BytesToHexStr_zlen atr) by done.
  pose proof Hmax as Hm. unfold MAX_BPP_LENGTH in Hm. unfold BYTE_TO_HEX_LEN, MIN_ATR_DATA_LENGTH.
  rewrite (Z.mul_comm 2), Z.mod_mul by lia.
  replace (zlen atr * 2 =? 0) with false by lia. replace (zlen atr * 2 <? 4) with false by lia.
  cbn [negb orb]. rewrite hex_bytes_roundtrip by done.
  rewrite u32_small by (unfold is_u32; lia). replace (zlen atr =? 0) with false by lia.
  rewrite (vec_get_at atr [] ts (t0 :: interface_bytes g gs ++ hist) 0) by reflexivity. cbn [mbind outcome_bind].
  replace (negb (ts =? POSITIVE_AGREEMENT) && negb (ts =? REVERSED_AGREEMENT)) with false
    by (by destruct Hts as [-> | ->]).
  change (0 + 1) with 1. replace (zlen atr <=? 1) with false by lia.
  rewrite (vec_get_at atr [ts] t0 (interface_bytes g gs ++ hist) 1) by reflexivity. cbn [mbind outcome_bind].
  change (1 + 1) with 2. replace (zlen atr <=? 2) with false by lia.
  unfold AnalysisInterfaceData. cbn [formatByte_ isEuiccAvailable_].
  rewrite (interface_loop_groups gs (S (Z.to_nat (zlen atr))) g [ts; t0] hist k 0 _ atr);
    [|done| |done..].
  - cbn. by rewrite orb_false_r.
  - assert (zlen gs <= zlen atr); [|unfold zlen in *; lia]. unfold atr. zlen_simpl.
    pose proof (interface_bytes_zlen g gs). pose proof (zlen_nonneg hist). lia.
Qed.

Lemma AnalysisAtrData_groups_witness :
  let g := MkGroup (Some 0x96) None None 0 in
  let g2 := MkGroup None None None 15 in
  let g3 := MkGroup (Some 0xC7) (Some 0x82) None 0 in
  AnalysisAtrData (BytesToHexStr (0x3B :: (0x90 + 5) :: interface_bytes g [g2; g3] ++ [0x31; 0xE0]))
    (MkReset false 0) = Ret (true, MkReset true 0x95).
Proof.
  intros g g2 g3.
  apply (AnalysisAtrData_groups 0x3B 5 g [g2; g3] [0x31; 0xE0] (MkReset false 0)).
  - right. reflexivity.
  - lia.
  - split; [repeat constructor; done|cbn; lia].
  - repeat (apply Forall_cons; split; [split; [repeat constructor; done|cbn; lia]|]). constructor.
  - repeat constructor; done.
  - done.
  - vm_compute. discriminate.
Defined.
