(* ===== verification/TelEventQueue.v ===== *)
(** * [utils/common/src/tel_event_queue.cpp] and [tel_event_handler.cpp]

    The event queue every telephony handler owns. Events wait in three lists, one
    per priority, each ordered by handle time; at most one FFRT task is meant to
    be pending, at the time the next event is due; when it runs, it pops one
    event, has it processed and submits the next task. [queueId_] is a generation
    number: a submission that needs an earlier task takes a new number, and a
    task of an older generation neither pops nor resubmits.

    FFRT is an interface (the class [FFRTQueue] with its laws [FFRTLaws]); the
    clock is read once per operation; the source's locks make each function
    below one step. *)

From Stdlib Require Import Sorted Permutation.
From S2P Require Import Prelude.

(** ** Time: [InnerEvent::TimePoint], nanoseconds in 64 bits *)

Definition TIME_MAX : Z := 2 ^ 63 - 1.
Definition TIME_MIN : Z := - 2 ^ 63.
Definition NS_PER_US : Z := 1000.
Definition NS_PER_MS : Z := 1000000.

(** ** Data *)

(** The parts of [AppExecFwk::InnerEvent] the queue uses. *)
Record Event : Type := MkEvent { innerEventId : Z; handleTime : Z }.
#[export] Instance Event_eq_dec : EqDecision Event.
Proof. solve_decision. Defined.

Inductive Priority : Type := VIP | IMMEDIATE | HIGH | LOW | IDLE.

Definition EVENT_QUEUE_NUM : nat := 3.

(** The lambda given to FFRT: the generation it captures and when its delay ends. *)
Record Task : Type := MkTask { task_queueId : Z; task_due : Z }.

Class FFRTQueue (Q : Type) : Type := {
  Handle : Type;
  pending : Q -> list (Handle * Task);
  submit_h : Q -> Task -> Q * Handle;
  cancel : Q -> Handle -> Q;
  (** a worker takes a pending task to run it *)
  fetch : Q -> Handle -> Q
}.

Class FFRTLaws (Q : Type) `{FFRTQueue Q} : Prop := {
  pending_submit q t x :
    x ∈ pending (submit_h q t).1 <-> x ∈ pending q \/ x = ((submit_h q t).2, t);
  pending_unique q h t t' : (h, t) ∈ pending q -> (h, t') ∈ pending q -> t = t';
  submit_fresh q t t' : ((submit_h q t).2, t') ∉ pending q;
  pending_cancel q h x : x ∈ pending (cancel q h) <-> x ∈ pending q /\ x.1 <> h;
  pending_fetch q h x : x ∈ pending (fetch q h) <-> x ∈ pending q /\ x.1 <> h
}.

Record EventStats : Type := MkStats {
  totalHandledEvents : Z;
  currentQueueEvents : Z;
  submitedToFFRTEvents : Z;
  executedEvents : Z;
  removedEvents : Z
}.

Definition CalculationInsertQueueEvents (s : EventStats) : EventStats :=
  MkStats (u64 (totalHandledEvents s + 1)) (u64 (currentQueueEvents s + 1))
          (submitedToFFRTEvents s) (executedEvents s) (removedEvents s).

Definition CalculationSubmitToFFRTEvents (s : EventStats) : EventStats :=
  let current := if currentQueueEvents s <=? 0 then 1 else currentQueueEvents s in
  MkStats (totalHandledEvents s) (u64 (current - 1)) (u64 (submitedToFFRTEvents s + 1))
          (executedEvents s) (removedEvents s).

Definition CalculationExecutedEvents (s : EventStats) : EventStats :=
  MkStats (totalHandledEvents s) (currentQueueEvents s) (submitedToFFRTEvents s)
          (u64 (executedEvents s + 1)) (removedEvents s).

Definition CalculationRemovedEvents (count : Z) (s : EventStats) : EventStats :=
  MkStats (totalHandledEvents s) (currentQueueEvents s) (submitedToFFRTEvents s)
          (executedEvents s) (u64 (removedEvents s + count)).

(** ** Lists of events *)

(** [events.insert(std::upper_bound(...), event)]: before the first event with a
    later handle time. *)
Fixpoint insert_event (e : Event) (l : list Event) : list Event :=
  match l with
  | [] => [e]
  | x :: t => if handleTime e <? handleTime x then e :: x :: t else x :: insert_event e t
  end.

Definition ToTelPriority (p : Priority) : nat :=
  match p with IMMEDIATE => 0 | HIGH => 1 | _ => 2 end%nat.

(** The loop of [GetPriorityIndex] from list [i] on. *)
Fixpoint priority_scan (now : Z) (i : nat) (ls : list (list Event)) (needWakeUpTime : Z) (index : nat) : nat :=
  match ls with
  | [] => index
  | [] :: t => priority_scan now (S i) t needWakeUpTime index
  | (e :: _) :: t =>
      if handleTime e <=? now then i
      else if handleTime e <? needWakeUpTime then priority_scan now (S i) t (handleTime e) i
      else priority_scan now (S i) t needWakeUpTime index
  end.

Section Queue.
Context {Q : Type} `{FQ : FFRTQueue Q}.

Record TelEventQueue : Type := MkQueue {
  eventLists_ : list (list Event);
  curHandleTime_ : Z;
  queueId_ : Z;
  curTask_ : option Handle;
  queue_ : option Q;
  eventStats_ : EventStats
}.

Definition TelEventQueue_new (ffrt : Q) : TelEventQueue :=
  MkQueue (replicate EVENT_QUEUE_NUM []) TIME_MAX 0 None (Some ffrt) (MkStats 0 0 0 0 0).

Definition set_lists (ls : list (list Event)) (q : TelEventQueue) : TelEventQueue :=
  MkQueue ls (curHandleTime_ q) (queueId_ q) (curTask_ q) (queue_ q) (eventStats_ q).
Definition SetCurHandleTime (t : Z) (q : TelEventQueue) : TelEventQueue :=
  MkQueue (eventLists_ q) t (queueId_ q) (curTask_ q) (queue_ q) (eventStats_ q).
Definition set_task (h : option Handle) (f : option Q) (q : TelEventQueue) : TelEventQueue :=
  MkQueue (eventLists_ q) (curHandleTime_ q) (queueId_ q) h f (eventStats_ q).
Definition with_stats (f : EventStats -> EventStats) (q : TelEventQueue) : TelEventQueue :=
  MkQueue (eventLists_ q) (curHandleTime_ q) (queueId_ q) (curTask_ q) (queue_ q) (f (eventStats_ q)).

Definition IsEmpty (q : TelEventQueue) : bool :=
  forallb (fun l => match l with [] => true | _ => false end) (eventLists_ q).

Definition GetPriorityIndex (now : Z) (q : TelEventQueue) : nat :=
  priority_scan now 0 (eventLists_ q) TIME_MAX 0.

Definition GetHandleTime (now : Z) (q : TelEventQueue) : Z :=
  if IsEmpty q then TIME_MAX
  else match nth (GetPriorityIndex now q) (eventLists_ q) [] with
       | e :: _ => handleTime e
       | [] => TIME_MAX
       end.

Definition InsertEventsInner (event : option Event) (p : Priority) (q : TelEventQueue) : TelEventQueue :=
  match event with
  | None => q
  | Some e =>
      let i := ToTelPriority p in
      with_stats CalculationInsertQueueEvents
        (set_lists (<[i := insert_event e (nth i (eventLists_ q) [])]> (eventLists_ q)) q)
  end.

(** The number returned by [queueId_++] is not used by any caller. *)
Definition GetNextQueueId (q : TelEventQueue) : TelEventQueue :=
  let id := if 2 ^ 31 - 1 <=? queueId_ q then 1 else queueId_ q in
  MkQueue (eventLists_ q) (curHandleTime_ q) (id + 1) (curTask_ q) (queue_ q) (eventStats_ q).

Definition ClearCurrentTask (isNeedEnd : bool) (q : TelEventQueue) : TelEventQueue :=
  match curTask_ q, queue_ q with
  | Some h, Some f =>
      let q := set_task (curTask_ q) (Some (cancel f h)) q in
      if isNeedEnd then GetNextQueueId q else set_task None (queue_ q) q
  | _, _ => q
  end.

Definition SubmitToFFRT (queueId handleTime delayTime now : Z) (q : TelEventQueue) : TelEventQueue :=
  if negb (queueId =? queueId_ q) then SetCurHandleTime TIME_MAX q
  else
    match queue_ q with
    | None => q
    | Some f =>
        let q := SetCurHandleTime handleTime q in
        let '(f', h) := submit_h f (MkTask queueId (now + delayTime * NS_PER_US)) in
        with_stats CalculationSubmitToFFRTEvents (set_task (Some h) (Some f') q)
    end.

(** The delay is in microseconds, truncated. *)
Definition SubmitInner (queueId now : Z) (q : TelEventQueue) : TelEventQueue :=
  match queue_ q with
  | None => q
  | Some _ =>
      let handleTime := GetHandleTime now q in
      if handleTime =? TIME_MAX then q
      else
        let delayTime := if now <? handleTime then Z.quot (handleTime - now) NS_PER_US else 0 in
        SubmitToFFRT queueId handleTime delayTime now q
  end.

Definition Submit (event : option Event) (p : Priority) (now : Z) (q : TelEventQueue) : TelEventQueue :=
  let q := InsertEventsInner event p q in
  if GetHandleTime now q <? curHandleTime_ q
  then
    let q := GetNextQueueId q in
    let q := ClearCurrentTask false q in
    SubmitInner (queueId_ q) now q
  else q.

(** Returns the event, if any, [isNeedSubmit], and the queue. The front of the
    list [GetPriorityIndex] chooses is read without a test: [priority_index_front]
    shows that the list has one when a queue that is not empty holds handle
    times below [TIME_MAX], so the branch for an empty list is not reached. *)
Definition PopEvent (queueId now : Z) (q : TelEventQueue) : option Event * bool * TelEventQueue :=
  if IsEmpty q || negb (queueId =? queueId_ q) then (None, false, SetCurHandleTime TIME_MAX q)
  else
    let i := GetPriorityIndex now q in
    match nth i (eventLists_ q) [] with
    | [] => (None, true, q)
    | e :: t =>
        let q := set_lists (<[i := t]> (eventLists_ q)) q in
        if IsEmpty q then (Some e, false, SetCurHandleTime TIME_MAX q) else (Some e, true, q)
    end.

(** The task given to FFRT, in its two halves around [ProcessEvent]: what it pops,
    and what it does when the handler returns ([alive]: the event's owner, a weak
    pointer, still exists). *)
Definition task_begin (queueId now : Z) (q : TelEventQueue) : option Event * bool * TelEventQueue :=
  PopEvent queueId now q.

Definition task_end (queueId now : Z) (event : option Event) (alive isNeedSubmit : bool) (q : TelEventQueue)
  : TelEventQueue :=
  let q := match event with
           | Some _ => if alive then with_stats CalculationExecutedEvents q else q
           | None => q
           end in
  if isNeedSubmit then SubmitInner queueId now q else q.

Definition RemoveEvent (innerId : Z) (q : TelEventQueue) : TelEventQueue :=
  let q := set_lists (List.filter (fun e => negb (innerEventId e =? innerId)) <$> eventLists_ q) q in
  let q := if IsEmpty q then SetCurHandleTime TIME_MAX q else q in
  with_stats (CalculationRemovedEvents 1) q.

Definition HasInnerEvent (innerId : Z) (q : TelEventQueue) : bool :=
  existsb (existsb (fun e => innerEventId e =? innerId)) (eventLists_ q).

Definition RemoveAllEvents (q : TelEventQueue) : TelEventQueue :=
  let removeCount := u32 (foldr (fun l n => zlen l + n) 0 (eventLists_ q)) in
  with_stats (CalculationRemovedEvents (i32 removeCount))
    (SetCurHandleTime TIME_MAX (set_lists ((fun _ => []) <$> eventLists_ q) q)).

(** The destructor, up to its wait for the running task. *)
Definition TelEventQueue_destroy (q : TelEventQueue) : TelEventQueue :=
  let q := ClearCurrentTask true (RemoveAllEvents q) in
  match queue_ q, curTask_ q with
  | Some _, Some _ => set_task None None q
  | _, _ => q
  end.

(** ** [TelEventHandler] *)

(** A handler whose [queue_] is null refuses to send. *)
Definition SendEvent (event : option Z) (delayTime : Z) (p : Priority) (now : Z)
    (queue : option TelEventQueue) : bool * option TelEventQueue :=
  match event with
  | None => (false, queue)
  | Some id =>
      let t := if 0 <? delayTime then now + delayTime * NS_PER_MS else now in
      match queue with
      | None => (false, None)
      | Some q => (true, Some (Submit (Some (MkEvent id t)) p now q))
      end
  end.

Definition SendExecuteNowEvent (event : option Z) (now : Z) (queue : option TelEventQueue)
  : bool * option TelEventQueue :=
  match event with
  | None => (false, queue)
  | Some id =>
      match queue with
      | None => (false, None)
      | Some q => (true, Some (Submit (Some (MkEvent id TIME_MIN)) IMMEDIATE now q))
      end
  end.

Definition ClearFfrt (isNeedEnd : bool) (q : TelEventQueue) : TelEventQueue := ClearCurrentTask isNeedEnd q.

(** ** The queue with its environment: a transition system

    [running] is the task a worker runs: its generation, the event it popped and
    whether it will resubmit; the queue is serial, so one at a time runs.
    [popped] is the history of the popped events with their times, [sent] and
    [dropped] those of the events given and removed. *)
Record Sys : Type := MkSys {
  tq : TelEventQueue;
  now_ : Z;
  running : option (Z * option Event * bool);
  popped : list (Event * Z);
  sent : list Event;
  dropped : list Event
}.

Inductive action : Type :=
| ASend (id delayTime : Z) (p : Priority)
| ASendNow (id : Z)
| ARemove (id : Z)
| ARemoveAll
| ATick (d : Z)
| AStart (h : Handle) (t : Task)
| AFinish (alive : bool).

Definition all_events (q : TelEventQueue) : list Event := concat (eventLists_ q).

(** The event [SendEvent] makes. *)
Definition sent_event (id delayTime now : Z) : Event :=
  MkEvent id (if 0 <? delayTime then now + delayTime * NS_PER_MS else now).

Inductive step : Sys -> action -> Sys -> Prop :=
| step_send s id d p q' :
    SendEvent (Some id) d p (now_ s) (Some (tq s)) = (true, Some q') ->
    now_ s + d * NS_PER_MS < TIME_MAX ->
    step s (ASend id d p)
      (MkSys q' (now_ s) (running s) (popped s) (sent s ++ [sent_event id d (now_ s)]) (dropped s))
| step_send_now s id q' :
    SendExecuteNowEvent (Some id) (now_ s) (Some (tq s)) = (true, Some q') ->
    step s (ASendNow id)
      (MkSys q' (now_ s) (running s) (popped s) (sent s ++ [MkEvent id TIME_MIN]) (dropped s))
| step_remove s id :
    step s (ARemove id)
      (MkSys (RemoveEvent id (tq s)) (now_ s) (running s) (popped s) (sent s)
             (dropped s ++ List.filter (fun e => innerEventId e =? id) (all_events (tq s))))
| step_remove_all s :
    step s ARemoveAll
      (MkSys (RemoveAllEvents (tq s)) (now_ s) (running s) (popped s) (sent s)
             (dropped s ++ all_events (tq s)))
| step_tick s d :
    0 <= d -> now_ s + d < TIME_MAX ->
    step s (ATick d) (MkSys (tq s) (now_ s + d) (running s) (popped s) (sent s) (dropped s))
| step_start s f h t e need q' :
    running s = None -> queue_ (tq s) = Some f -> (h, t) ∈ pending f -> task_due t <= now_ s ->
    task_begin (task_queueId t) (now_ s) (set_task (curTask_ (tq s)) (Some (fetch f h)) (tq s)) =
      (e, need, q') ->
    step s (AStart h t)
      (MkSys q' (now_ s) (Some (task_queueId t, e, need))
             (popped s ++ match e with Some e => [(e, now_ s)] | None => [] end) (sent s) (dropped s))
| step_finish s id e need alive :
    running s = Some (id, e, need) ->
    step s (AFinish alive)
      (MkSys (task_end id (now_ s) e alive need (tq s)) (now_ s) None (popped s) (sent s) (dropped s)).

Definition init (ffrt : Q) (now : Z) : Sys := MkSys (TelEventQueue_new ffrt) now None [] [] [].

Inductive steps : Sys -> list action -> Sys -> Prop :=
| steps_nil s : steps s [] s
| steps_snoc s s1 s2 acts a : steps s acts s1 -> step s1 a s2 -> steps s (acts ++ [a]) s2.
End Queue.
Arguments TelEventQueue Q {FQ}.
Arguments Sys Q {FQ}.
Arguments action Q {FQ}.

(** ** Lists of events: lemmas *)

Definition earlier (a b : Event) : Prop := handleTime a <= handleTime b.
Definition time_ok (e : Event) : Prop := TIME_MIN <= handleTime e < TIME_MAX.

Lemma insert_event_perm e l : insert_event e l ≡ₚ e :: l.
Proof.
  induction l as [|x l IH]; cbn; [done|]. case_bool; [done|].
  rewrite IH. apply Permutation_swap.
Qed.

Lemma insert_event_sorted e l : StronglySorted earlier l -> StronglySorted earlier (insert_event e l).
Proof.
  induction 1 as [|x l Hl IH Hx]; cbn; [repeat constructor|]. case_bool.
  - repeat constructor; [done..|unfold earlier; lia|].
    eapply Forall_impl; [exact Hx|]. unfold earlier. cbn. lia.
  - constructor; [done|]. rewrite insert_event_perm. constructor; [unfold earlier; lia|done].
Qed.

(** Events with the same handle time leave in the order they came. *)
Lemma insert_event_stable e l t :
  StronglySorted earlier l ->
  List.filter (fun x => handleTime x =? t) (insert_event e l) =
  List.filter (fun x => handleTime x =? t) l ++ (if handleTime e =? t then [e] else []).
Proof.
  induction 1 as [|x l Hl IH Hx]; cbn; [done|].
  destruct (Z.ltb_spec (handleTime e) (handleTime x)) as [Hlt|Hge]; cbn.
  - destruct (Z.eqb_spec (handleTime e) t) as [Et|]; [|by rewrite app_nil_r].
    assert (forall k, Forall (earlier x) k -> List.filter (fun y => handleTime y =? t) k = []) as Hnone.
    { induction 1 as [|y k Hy _ IHk]; [done|]. cbn. unfold earlier in Hy.
      by destruct (Z.eqb_spec (handleTime y) t); [lia|]. }
    rewrite Hnone by done. by destruct (Z.eqb_spec (handleTime x) t); [lia|].
  - rewrite IH. by destruct (handleTime x =? t).
Qed.

Lemma concat_insert (ls : list (list Event)) i l' es :
  (i < length ls)%nat -> l' ≡ₚ es ++ nth i ls [] -> concat (<[i := l']> ls) ≡ₚ es ++ concat ls.
Proof.
  revert i; induction ls as [|l ls IH]; intros [|i] Hi Hp; cbn in *; [lia..| |].
  - rewrite Hp. by rewrite app_assoc.
  - rewrite IH by (done || lia). rewrite !app_assoc. apply Permutation_app_tail, Permutation_app_comm.
Qed.

(** [e], the front of list [i], is the event to handle next: the front of the
    first list whose front is due, or, when none is, the earliest front (of the
    first list that has it). *)
Definition chosen (now : Z) (ls : list (list Event)) (i : nat) (e : Event) : Prop :=
  (exists t, ls !! i = Some (e :: t)) /\
  ((handleTime e <= now /\
    forall k e' t', (k < i)%nat -> ls !! k = Some (e' :: t') -> now < handleTime e') \/
   (forall k e' t', ls !! k = Some (e' :: t') ->
      now < handleTime e' /\ handleTime e <= handleTime e' /\ ((k < i)%nat -> handleTime e < handleTime e'))).

Lemma priority_scan_spec now ls : forall i wake idx,
  (exists k e, priority_scan now i ls wake idx = (i + k)%nat /\ chosen now ls k e /\
     (now < handleTime e -> handleTime e < wake)) \/
  (priority_scan now i ls wake idx = idx /\
   forall k e t, ls !! k = Some (e :: t) -> now < handleTime e /\ wake <= handleTime e).
Proof.
  induction ls as [|[|e t] ls IH]; intros i wake idx; cbn [priority_scan].
  - right. split; [done|]. intros k e t Hk. by rewrite lookup_nil in Hk.
  - destruct (IH (S i) wake idx) as [(k & e & E & [(t & Hk) Hc] & Hw)|[E Hall]].
    + left. exists (S k), e. split; [lia|]. split; [|done]. split; [by exists t|].
      destruct Hc as [[Hd Hb]|Hb]; [left; split; [done|]|right].
      * intros [|k'] e' t' Hlt Hk'; [done|]. apply (Hb k' e' t'); [lia|done].
      * intros [|k'] e' t' Hk'; [done|]. destruct (Hb k' e' t' Hk') as (?&?&Hs).
        split_and!; [done..|]. intros ?. apply Hs. lia.
    + right. split; [done|]. intros [|k] e t Hk; [done|]. by apply (Hall k e t).
  - destruct (Z.leb_spec (handleTime e) now) as [Hd|Hnd].
    + left. exists 0%nat, e. split; [lia|]. split; [|lia]. split; [by exists t|]. left. split; [done|]. lia.
    + destruct (Z.ltb_spec (handleTime e) wake) as [Hlt|Hge].
      * destruct (IH (S i) (handleTime e) i) as [(k & e1 & E & [(t1 & Hk) Hc] & Hw)|[E Hall]].
        -- left. exists (S k), e1. split; [lia|]. split; [|lia]. split; [by exists t1|].
           destruct Hc as [[Hd Hb]|Hb]; [left; split; [done|]|right].
           ++ intros [|k'] e' t' Hlt' Hk'; [by injection Hk' as <- <-|]. apply (Hb k' e' t'); [lia|done].
           ++ destruct (Hb k e1 t1 Hk) as (? & _). intros [|k'] e' t' Hk'.
              { injection Hk' as <- <-. specialize (Hw ltac:(done)). split_and!; [done|lia|lia]. }
              destruct (Hb k' e' t' Hk') as (?&?&Hs). split_and!; [done..|]. intros ?. apply Hs. lia.
        -- left. exists 0%nat, e. split; [lia|]. split; [|lia]. split; [by exists t|]. right.
           intros [|k'] e' t' Hk'; [injection Hk' as <- <-; split_and!; lia|].
           destruct (Hall k' e' t' Hk') as [? ?]. split_and!; [done|done|lia].
      * destruct (IH (S i) wake idx) as [(k & e1 & E & [(t1 & Hk) Hc] & Hw)|[E Hall]].
        -- left. exists (S k), e1. split; [lia|]. split; [|done]. split; [by exists t1|].
           destruct Hc as [[Hd Hb]|Hb]; [left; split; [done|]|right].
           ++ intros [|k'] e' t' Hlt' Hk'; [by injection Hk' as <- <-|]. apply (Hb k' e' t'); [lia|done].
           ++ destruct (Hb k e1 t1 Hk) as (? & _). intros [|k'] e' t' Hk'.
              { injection Hk' as <- <-. specialize (Hw ltac:(done)). split_and!; [done|lia|lia]. }
              destruct (Hb k' e' t' Hk') as (?&?&Hs). split_and!; [done..|]. intros ?. apply Hs. lia.
        -- right. split; [done|]. intros [|k'] e' t' Hk'; [by injection Hk' as <- <-|]. by apply (Hall k' e' t').
Qed.

Lemma chosen_exists now ls :
  concat ls <> [] -> Forall (Forall time_ok) ls ->
  exists e, chosen now ls (priority_scan now 0 ls TIME_MAX 0) e.
Proof.
  intros Hne Hok. destruct (priority_scan_spec now ls 0 TIME_MAX 0) as [(k & e & -> & H & _)|[_ Hall]].
  - by exists e.
  - exfalso. apply Hne. clear Hne. induction ls as [|[|e t] ls IH]; [done|..].
    + apply IH; [by apply Forall_cons in Hok as []|]. intros k. apply (Hall (S k)).
    + destruct (Hall 0%nat e t eq_refl) as [_ H]. apply Forall_cons in Hok as [Hok _].
      apply Forall_cons in Hok as [[_ ?] _]. lia.
Qed.

(** ** The queue: lemmas *)

Section QueueLemmas.
Context {Q : Type} `{FQ : FFRTQueue Q} `{!FFRTLaws Q}.
Implicit Types (q : TelEventQueue Q) (s : Sys Q).

(** The three lists, each ordered by handle time. *)
Definition lists_ok (ls : list (list Event)) : Prop :=
  length ls = EVENT_QUEUE_NUM /\ Forall (Forall time_ok) ls /\ Forall (StronglySorted earlier) ls.

Lemma IsEmpty_spec q : IsEmpty q = true <-> all_events q = [].
Proof.
  unfold IsEmpty, all_events. induction (eventLists_ q) as [|[|e l] ls IH]; cbn; [done|exact IH|done].
Qed.

Lemma IsEmpty_false q : IsEmpty q = false <-> all_events q <> [].
Proof. rewrite <- IsEmpty_spec. by destruct (IsEmpty q). Qed.

Lemma nth_lookup_Some {A} (ls : list A) i x d : ls !! i = Some x -> nth i ls d = x.
Proof. revert i; induction ls as [|y ls IH]; intros [|i]; cbn; try done; [congruence|apply IH]. Qed.

Lemma chosen_front now ls i e : chosen now ls i e -> exists t, nth i ls [] = e :: t /\ (i < length ls)%nat.
Proof.
  intros [[t Hi] _]. exists t. split; [by apply nth_lookup_Some|]. by eapply lookup_lt_Some.
Qed.

(** The list chosen by [GetPriorityIndex] has a front. *)
Lemma priority_index_front now q :
  lists_ok (eventLists_ q) -> all_events q <> [] ->
  exists e t, nth (GetPriorityIndex now q) (eventLists_ q) [] = e :: t /\
    (GetPriorityIndex now q < length (eventLists_ q))%nat /\
    chosen now (eventLists_ q) (GetPriorityIndex now q) e /\ time_ok e /\ e ∈ all_events q.
Proof.
  intros (Hlen & Hok & _) Hne. destruct (chosen_exists now (eventLists_ q) Hne Hok) as [e He].
  fold (GetPriorityIndex now q) in He. destruct (chosen_front _ _ _ _ He) as (t & Ht & Hi).
  exists e, t. split_and!; [done..| |].
  - destruct He as [[t' Hl] _]. rewrite Forall_lookup in Hok. specialize (Hok _ _ Hl).
    by apply Forall_cons in Hok as [].
  - destruct He as [[t' Hl] _]. unfold all_events. apply list_elem_of_In, in_concat.
    exists (e :: t'). split; [|by left]. apply list_elem_of_In. by eapply list_elem_of_lookup_2.
Qed.

(** No event is earlier than the chosen one by more than what is already due. *)
Lemma chosen_min now ls i e x :
  chosen now ls i e -> Forall (StronglySorted earlier) ls -> x ∈ concat ls ->
  handleTime e <= now \/ handleTime e <= handleTime x.
Proof.
  intros [_ [[Hd _]|Hmin]] Hs Hx; [by left|right].
  apply list_elem_of_In, in_concat in Hx as (l & Hl & Hx).
  apply list_elem_of_In, list_elem_of_lookup in Hl as [k Hk].
  rewrite Forall_lookup in Hs. specialize (Hs _ _ Hk). destruct l as [|y l]; [done|].
  destruct (Hmin k y l Hk) as (_ & Hle & _). destruct Hx as [->|Hx]; [done|].
  apply StronglySorted_inv in Hs as [_ Hall]. rewrite Forall_forall in Hall.
  specialize (Hall x ltac:(by apply list_elem_of_In)). unfold earlier in Hall. lia.
Qed.

Lemma GetHandleTime_chosen now q :
  lists_ok (eventLists_ q) -> all_events q <> [] ->
  exists e, chosen now (eventLists_ q) (GetPriorityIndex now q) e /\
    GetHandleTime now q = handleTime e /\ time_ok e /\ e ∈ all_events q.
Proof.
  intros Hok Hne. destruct (priority_index_front now q Hok Hne) as (e & t & Hn & _ & He & ? & ?).
  exists e. split_and!; [done| |done..]. unfold GetHandleTime. rewrite Hn.
  by apply IsEmpty_false in Hne as ->.
Qed.

Lemma GetHandleTime_empty now q : all_events q = [] -> GetHandleTime now q = TIME_MAX.
Proof. unfold GetHandleTime. intros H. by apply IsEmpty_spec in H as ->. Qed.

(** [SubmitInner] for the current generation: one task, due at the handle time
    of the next event, to the microsecond. *)
Lemma SubmitInner_current now q f :
  lists_ok (eventLists_ q) -> all_events q <> [] -> queue_ q = Some f ->
  exists t h f', SubmitInner (queueId_ q) now q =
      with_stats CalculationSubmitToFFRTEvents
        (set_task (Some h) (Some f') (SetCurHandleTime (GetHandleTime now q) q)) /\
    submit_h f t = (f', h) /\ task_queueId t = queueId_ q /\
    GetHandleTime now q - 999 <= task_due t /\ (now <= task_due t <= now \/ task_due t <= GetHandleTime now q).
Proof.
  intros Hok Hne Hf. unfold SubmitInner. rewrite Hf.
  destruct (GetHandleTime_chosen now q Hok Hne) as (e & _ & Ht & [Hlo Hhi] & _).
  destruct (Z.eqb_spec (GetHandleTime now q) TIME_MAX) as [|_]; [lia|].
  unfold SubmitToFFRT. rewrite Z.eqb_refl, Hf. cbn [negb].
  set (delay := if now <? _ then _ else _).
  destruct (submit_h f (MkTask (queueId_ q) (now + delay * NS_PER_US))) as [f' h] eqn:E.
  exists (MkTask (queueId_ q) (now + delay * NS_PER_US)), h, f'. split_and!; [done..| |]; cbn [task_due].
  - unfold delay, NS_PER_US. case_bool; [|lia].
    pose proof (Z.quot_rem (GetHandleTime now q - now) 1000).
    pose proof (Z.rem_bound_pos (GetHandleTime now q - now) 1000). lia.
  - unfold delay, NS_PER_US. case_bool; [right|left; lia].
    pose proof (Z.quot_rem (GetHandleTime now q - now) 1000).
    pose proof (Z.rem_bound_pos (GetHandleTime now q - now) 1000). lia.
Qed.

Lemma SubmitInner_empty id now q : all_events q = [] -> SubmitInner id now q = q.
Proof.
  intros H. unfold SubmitInner. rewrite GetHandleTime_empty by done. by destruct (queue_ q).
Qed.

Lemma SubmitInner_stale id now q f :
  lists_ok (eventLists_ q) -> all_events q <> [] -> queue_ q = Some f -> id <> queueId_ q ->
  SubmitInner id now q = SetCurHandleTime TIME_MAX q.
Proof.
  intros Hok Hne Hf Hid. unfold SubmitInner. rewrite Hf.
  destruct (GetHandleTime_chosen now q Hok Hne) as (e & _ & Ht & [Hlo Hhi] & _).
  destruct (Z.eqb_spec (GetHandleTime now q) TIME_MAX) as [|_]; [lia|].
  unfold SubmitToFFRT. by destruct (Z.eqb_spec id (queueId_ q)).
Qed.

(** Insertion: the event is added to its list, in order. *)
Lemma InsertEventsInner_ok e p q :
  lists_ok (eventLists_ q) -> time_ok e ->
  let q' := InsertEventsInner (Some e) p q in
  lists_ok (eventLists_ q') /\ all_events q' ≡ₚ e :: all_events q /\
  curHandleTime_ q' = curHandleTime_ q /\ queueId_ q' = queueId_ q /\
  curTask_ q' = curTask_ q /\ queue_ q' = queue_ q.
Proof.
  intros (Hlen & Ht & Hs) He. cbn. set (i := ToTelPriority p).
  assert (i < length (eventLists_ q))%nat as Hi by (rewrite Hlen; unfold i, EVENT_QUEUE_NUM; destruct p; cbn; lia).
  destruct (lookup_lt_is_Some_2 _ _ Hi) as [l Hl]. rewrite (nth_lookup_Some _ _ _ _ Hl).
  split_and!; try done.
  - split_and!; [by rewrite length_insert|..]; apply Forall_insert; try done.
    + rewrite Forall_lookup in Ht. specialize (Ht _ _ Hl). rewrite insert_event_perm. by constructor.
    + apply insert_event_sorted. rewrite Forall_lookup in Hs. by apply (Hs _ _ Hl).
  - unfold all_events. cbn. apply (concat_insert _ _ _ [e]); [done|].
    rewrite (nth_lookup_Some _ _ _ _ Hl). apply insert_event_perm.
Qed.

(** What [Submit] does: it inserts the event; and when the next event is now
    earlier than what the current task was made for, a task of a new generation
    replaces it. *)
Lemma Submit_spec e p now q f :
  lists_ok (eventLists_ q) -> time_ok e -> queue_ q = Some f ->
  let q1 := InsertEventsInner (Some e) p q in
  let q' := Submit (Some e) p now q in
  eventLists_ q' = eventLists_ q1 /\
  ((curHandleTime_ q <= GetHandleTime now q1 /\ q' = q1) \/
   (exists t h f1 f',
      (f1 = f \/ exists h0, curTask_ q = Some h0 /\ f1 = cancel f h0) /\ submit_h f1 t = (f', h) /\
      queue_ q' = Some f' /\ queueId_ q' = queueId_ (GetNextQueueId q) /\ curTask_ q' = Some h /\
      curHandleTime_ q' = GetHandleTime now q1 /\
      task_queueId t = queueId_ q' /\ GetHandleTime now q1 - 999 <= task_due t /\
      (task_due t = now \/ task_due t <= GetHandleTime now q1))).
Proof.
  intros Hok He Hf q1 q'. unfold q', Submit. fold q1.
  destruct (InsertEventsInner_ok e p q Hok He) as (Hok1 & Hperm & Hc1 & Hi1 & Ht1 & Hf1). fold q1 in Hok1, Hperm, Hc1, Hi1, Ht1, Hf1.
  assert (all_events q1 <> []) as Hne by (intros E; rewrite E in Hperm; by apply Permutation_nil_cons in Hperm).
  destruct (Z.ltb_spec (GetHandleTime now q1) (curHandleTime_ q1)) as [Hlt|Hge]; [|by split; [|left; split; [lia|]]].
  set (q2 := GetNextQueueId q1). set (q3 := ClearCurrentTask false q2).
  assert (exists f1, queue_ q3 = Some f1 /\ (f1 = f \/ exists h0, curTask_ q = Some h0 /\ f1 = cancel f h0) /\
    eventLists_ q3 = eventLists_ q1 /\ queueId_ q3 = queueId_ q2) as (f1 & Hq3 & Hcase & Hls & Hid).
  { unfold q3, ClearCurrentTask, q2. cbn [curTask_ queue_ GetNextQueueId]. rewrite Ht1, Hf1, Hf.
    destruct (curTask_ q) as [h0|]; cbn; rewrite ?Hf1, ?Hf; eauto 10. }
  assert (lists_ok (eventLists_ q3)) as Hok3 by (by rewrite Hls).
  assert (all_events q3 <> []) as Hne3 by (by unfold all_events; rewrite Hls).
  assert (GetHandleTime now q3 = GetHandleTime now q1) as Hgt.
  { unfold GetHandleTime, GetPriorityIndex, IsEmpty. by rewrite Hls. }
  destruct (SubmitInner_current now q3 f1 Hok3 Hne3 Hq3) as (t & h & f' & -> & Hsub & Htid & Hdue & Hdue').
  rewrite Hgt in *. split; [done|]. right. exists t, h, f1, f'.
  assert (task_due t = now \/ task_due t <= GetHandleTime now q1) as Hd by (destruct Hdue'; [left; lia|by right]).
  clearbody q1. cbn. split_and!; try done. rewrite Hid. unfold q2. cbn. by rewrite Hi1.
Qed.

Lemma lists_ok_pop ls i x t :
  lists_ok ls -> ls !! i = Some (x :: t) -> lists_ok (<[i := t]> ls) /\ concat ls ≡ₚ x :: concat (<[i := t]> ls).
Proof.
  intros (Hlen & Ht & Hs) Hi. pose proof (lookup_lt_Some _ _ _ Hi) as Hlt. split.
  - split; [by rewrite length_insert|].
    pose proof (proj1 (Forall_lookup _ _) Ht _ _ Hi) as Htl. pose proof (proj1 (Forall_lookup _ _) Hs _ _ Hi) as Hsl.
    split; apply Forall_insert; [done| |done|].
    + by apply Forall_cons in Htl as [].
    + by apply StronglySorted_inv in Hsl as [].
  - rewrite <- (list_insert_id ls i (x :: t)) at 1 by done. rewrite <- (list_insert_insert_eq ls i (x :: t) t) at 1.
    apply (concat_insert _ _ _ [x]); [by rewrite length_insert|].
    by rewrite (nth_lookup_Some _ i t) by (by apply list_lookup_insert_eq).
Qed.

(** What [PopEvent] does. *)
Lemma PopEvent_spec id now q e need q' :
  lists_ok (eventLists_ q) -> PopEvent id now q = (e, need, q') ->
  (e = None /\ need = false /\ q' = SetCurHandleTime TIME_MAX q /\ (all_events q = [] \/ id <> queueId_ q)) \/
  (id = queueId_ q /\ exists x i t, e = Some x /\ chosen now (eventLists_ q) i x /\
     eventLists_ q !! i = Some (x :: t) /\ eventLists_ q' = <[i := t]> (eventLists_ q) /\
     lists_ok (eventLists_ q') /\ all_events q ≡ₚ x :: all_events q' /\
     queueId_ q' = queueId_ q /\ queue_ q' = queue_ q /\ curTask_ q' = curTask_ q /\
     (all_events q' = [] /\ need = false /\ curHandleTime_ q' = TIME_MAX \/
      all_events q' <> [] /\ need = true /\ curHandleTime_ q' = curHandleTime_ q)).
Proof.
  intros Hok. unfold PopEvent. destruct (IsEmpty q) eqn:Em; cbn [orb].
  { apply IsEmpty_spec in Em. intros [= <- <- <-]. left. by split_and!; [..|left]. }
  apply IsEmpty_false in Em. destruct (Z.eqb_spec id (queueId_ q)) as [->|Hid]; cbn [negb].
  2: { intros [= <- <- <-]. left. by split_and!; [..|right]. }
  destruct (priority_index_front now q Hok Em) as (x & t & Hn & Hi & Hc & _ & _). rewrite Hn.
  destruct Hc as [[t' Hl] Hc]. pose proof (nth_lookup_Some _ _ _ [] Hl) as Hn'. rewrite Hn in Hn'. injection Hn' as <-.
  destruct (lists_ok_pop _ _ _ _ Hok Hl) as [Hok' Hperm].
  set (q1 := set_lists _ q). intros H. right. split; [done|]. exists x, (GetPriorityIndex now q), t.
  destruct (IsEmpty q1) eqn:E1; injection H as <- <- <-.
  - apply IsEmpty_spec in E1. split_and!; try done; [split; [by exists t|done]|]. by left.
  - apply IsEmpty_false in E1. split_and!; try done; [split; [by exists t|done]|]. by right.
Qed.

(** ** The invariant *)

(** Some task of the current generation is pending, or running and will resubmit. *)
Definition live q (run : option (Z * option Event * bool)) : Prop :=
  (exists f h t, queue_ q = Some f /\ (h, t) ∈ pending f /\ task_queueId t = queueId_ q) \/
  (exists e, run = Some (queueId_ q, e, true)).

Definition queue_inv q (run : option (Z * option Event * bool)) : Prop :=
  lists_ok (eventLists_ q) /\ (exists f, queue_ q = Some f) /\
  (all_events q <> [] -> live q run) /\ (all_events q = [] -> curHandleTime_ q = TIME_MAX).

Lemma inv_new f : queue_inv (TelEventQueue_new f) None.
Proof.
  split_and!; [| |done..].
  - split_and!; [done|..]; repeat constructor.
  - by exists f.
Qed.

Lemma inv_submit e p now q run :
  queue_inv q run -> time_ok e -> queue_inv (Submit (Some e) p now q) run.
Proof.
  intros (Hok & [f Hf] & Hlive & Hcur) He.
  destruct (InsertEventsInner_ok e p q Hok He) as (Hok1 & Hperm & Hc1 & Hi1 & Ht1 & Hf1).
  destruct (Submit_spec e p now q f Hok He Hf) as [Hls Hcase].
  set (q1 := InsertEventsInner (Some e) p q) in *. set (q' := Submit (Some e) p now q) in *.
  assert (all_events q1 <> []) as Hne by (intros E; rewrite E in Hperm; by apply Permutation_nil_cons in Hperm).
  assert (all_events q' <> []) as Hne' by (by unfold all_events; rewrite Hls).
  unfold queue_inv. rewrite Hls. split; [done|].
  destruct Hcase as [[Hge E]|(t & h & f1 & f' & _ & Hsub & Hq' & _ & _ & _ & Htid & _)].
  - rewrite E, Hf1. split; [eauto|]. split; [|done]. intros _.
    destruct (GetHandleTime_chosen now q1 Hok1 Hne) as (e' & _ & Ht & [_ Hhi] & _).
    assert (all_events q <> []) as Hq by (intros En; specialize (Hcur En); lia).
    destruct (Hlive Hq) as [(f0 & h & t & ? & ? & ?)|[e0 ->]].
    + left. exists f0, h, t. by rewrite Hf1, Hi1.
    + right. exists e0. by rewrite Hi1.
  - split; [eauto|]. split; [|done]. intros _. left. exists f', h, t. split; [done|]. split; [|done].
    pose proof (pending_submit f1 t (h, t)) as Hp. rewrite Hsub in Hp. cbn in Hp. apply Hp. by right.
Qed.

Lemma inv_start f h t now q e need q' :
  queue_inv q None -> queue_ q = Some f -> (h, t) ∈ pending f ->
  task_begin (task_queueId t) now (set_task (curTask_ q) (Some (fetch f h)) q) = (e, need, q') ->
  queue_inv q' (Some (task_queueId t, e, need)).
Proof.
  intros (Hok & _ & Hlive & Hcur) Hf Hin Hpop. unfold task_begin in Hpop.
  apply PopEvent_spec in Hpop; [|done]. cbn [queueId_ queue_ set_task eventLists_ curTask_ curHandleTime_] in Hpop.
  destruct Hpop as [(-> & -> & -> & Hcase)|(Hid & x & i & l & -> & _ & _ & _ & Hok' & Hperm & Hi & Hq & _ & Hcase)].
  - split_and!; [done|by eexists| |done]. intros Hne. destruct Hcase as [Hem|Hid]; [done|].
    destruct (Hlive Hne) as [(f0 & h0 & t0 & Hf0 & Hin0 & Ht0)|[e0 He0]]; [|done].
    left. rewrite Hf in Hf0. injection Hf0 as <-. exists (fetch f h), h0, t0. split; [done|]. split; [|done].
    apply pending_fetch. split; [done|]. cbn. intros ->. apply Hid.
    by rewrite (pending_unique f h t t0).
  - split_and!; [done|by eexists| |].
    + intros Hne. destruct Hcase as [(? & _)|(_ & -> & _)]; [done|]. right. exists (Some x). by rewrite Hi, Hid.
    + intros Hem. by destruct Hcase as [(_ & _ & ?)|(? & _)].
Qed.

Lemma live_stats_like q1 q2 run :
  queue_ q1 = queue_ q2 -> queueId_ q1 = queueId_ q2 -> live q2 run -> live q1 run.
Proof. unfold live. by intros -> ->. Qed.

Lemma inv_finish id e need alive now q :
  queue_inv q (Some (id, e, need)) -> queue_inv (task_end id now e alive need q) None.
Proof.
  intros Hinv. unfold task_end. set (q0 := match e with Some _ => _ | None => q end).
  assert (queue_inv q0 (Some (id, e, need))) as (Hok & [f Hf] & Hlive & Hcur).
  { unfold q0. destruct e, alive; exact Hinv. }
  clearbody q0. clear Hinv q. destruct need.
  - destruct (decide (all_events q0 = [])) as [Hem|Hne].
    { rewrite SubmitInner_empty by done. split_and!; [done|by exists f|done|done]. }
    destruct (decide (id = queueId_ q0)) as [->|Hid].
    + destruct (SubmitInner_current now q0 f Hok Hne Hf) as (t & h & f' & -> & Hsub & Htid & _).
      split_and!; [done|by exists f'| |done]. intros _. left. exists f', h, t. split; [done|]. split; [|done].
      pose proof (pending_submit f t (h, t)) as Hp. rewrite Hsub in Hp. apply Hp. by right.
    + rewrite (SubmitInner_stale id now q0 f) by done. split_and!; [done|by exists f| |done].
      intros _. destruct (Hlive Hne) as [?|[e0 [= ? _]]]; [by left|done].
  - split_and!; [done|by exists f| |done]. intros Hne.
    destruct (Hlive Hne) as [?|[e0 [=]]]. by left.
Qed.

Lemma filter_sorted (P : Event -> bool) l : StronglySorted earlier l -> StronglySorted earlier (List.filter P l).
Proof.
  induction 1 as [|x l Hl IH Hx]; cbn; [constructor|]. destruct (P x); [|done]. constructor; [done|].
  rewrite Forall_forall in *. intros y Hy. apply Hx. apply list_elem_of_In in Hy. apply filter_In in Hy as [Hy _].
  by apply list_elem_of_In.
Qed.

Lemma filter_times (P : Event -> bool) l : Forall time_ok l -> Forall time_ok (List.filter P l).
Proof. induction 1; cbn; [constructor|]. destruct (P x); [by constructor|done]. Qed.

Lemma inv_remove id q run : queue_inv q run -> queue_inv (RemoveEvent id q) run.
Proof.
  intros ((Hlen & Ht & Hs) & [f Hf] & Hlive & Hcur). unfold RemoveEvent.
  set (keep := fun e => negb (innerEventId e =? id)). set (q1 := set_lists _ q).
  assert (lists_ok (eventLists_ q1)) as Hok1.
  { cbn. split; [by rewrite length_fmap|]. rewrite !Forall_fmap. split.
    - eapply Forall_impl; [exact Ht|]. intros l. apply filter_times.
    - eapply Forall_impl; [exact Hs|]. intros l. apply filter_sorted. }
  assert (all_events q1 <> [] -> all_events q <> []) as Hne.
  { unfold all_events. cbn. intros H1 H0. apply H1. clear - H0. induction (eventLists_ q) as [|l ls IH]; [done|].
    cbn in *. apply app_eq_nil in H0 as [-> H0]. by rewrite IH. }
  destruct (IsEmpty q1) eqn:E.
  - apply IsEmpty_spec in E. split_and!; [done|by exists f| |done]. intros H. by destruct H.
  - apply IsEmpty_false in E. split_and!; [done|by exists f| |]; [|by intros H; destruct E]. intros _.
    apply (live_stats_like _ q); [done..|]. by apply Hlive, Hne.
Qed.

Lemma remove_all_events q : all_events (RemoveAllEvents q) = [].
Proof. unfold all_events. cbn. induction (eventLists_ q); [done|]. done. Qed.

Lemma inv_remove_all q run : queue_inv q run -> queue_inv (RemoveAllEvents q) run.
Proof.
  intros ((Hlen & _ & _) & [f Hf] & _ & _). split_and!; [|by exists f| |done].
  - cbn. split; [by rewrite length_fmap|]. rewrite !Forall_fmap.
    split; apply Forall_true; intros l; cbn; constructor.
  - by rewrite remove_all_events.
Qed.

Definition sys_inv s : Prop :=
  queue_inv (tq s) (running s) /\ TIME_MIN <= now_ s < TIME_MAX.

Lemma sent_time_ok id d now :
  TIME_MIN <= now < TIME_MAX -> now + d * NS_PER_MS < TIME_MAX -> time_ok (sent_event id d now).
Proof. unfold time_ok, sent_event, NS_PER_MS. cbn. intros. case_bool; lia. Qed.

Lemma sys_inv_step s a s' : sys_inv s -> step s a s' -> sys_inv s'.
Proof.
  intros [Hq Hn] Hstep. destruct Hstep as [s id d p q' [= <-] Hd|s id q' [= <-]|s id|s|s d ? ?|s f h t e need q' Hr Hf Hin Hdue Hpop|s id e need alive Hr];
    (split; cbn [tq running now_]; [|done || lia]).
  - apply inv_submit; [done|by apply sent_time_ok].
  - apply inv_submit; [done|]. unfold time_ok, TIME_MIN, TIME_MAX. cbn. lia.
  - by apply inv_remove.
  - by apply inv_remove_all.
  - done.
  - rewrite Hr in Hq. by eapply inv_start.
  - rewrite Hr in Hq. by apply inv_finish.
Qed.

Lemma sys_inv_steps s acts s' : sys_inv s -> steps s acts s' -> sys_inv s'.
Proof. intros H Hs. induction Hs; [done|]. eapply sys_inv_step; [|done]. auto. Qed.

Lemma sys_inv_init f now : TIME_MIN <= now < TIME_MAX -> sys_inv (init f now).
Proof. split; [apply inv_new|done]. Qed.

(** ** Timing: the invariant of the executions without removals *)

Definition is_removal (a : action Q) : bool :=
  match a with ARemove _ | ARemoveAll => true | _ => false end.

Fixpoint sends (acts : list (action Q)) : Z :=
  match acts with
  | [] => 0
  | (ASend _ _ _ | ASendNow _) :: t => 1 + sends t
  | _ :: t => sends t
  end.

Lemma sends_app a1 a2 : sends (a1 ++ a2) = sends a1 + sends a2.
Proof. induction a1 as [|a a1 IH]; [done|]. destruct a; cbn [app sends]; rewrite IH; lia. Qed.

Lemma sends_nonneg acts : 0 <= sends acts.
Proof. induction acts as [|a acts IH]; cbn; [done|]. destruct a; lia. Qed.

(** At most one task of the current generation, no task of a later one, and the
    current task is not due before the handle time of some waiting event. *)
Definition timed q (run : option (Z * option Event * bool)) : Prop :=
  forall f, queue_ q = Some f ->
  (forall h t, (h, t) ∈ pending f -> task_queueId t <= queueId_ q) /\
  (forall id e need, run = Some (id, e, need) -> id <= queueId_ q) /\
  (forall h t h' t', (h, t) ∈ pending f -> (h', t') ∈ pending f ->
     task_queueId t = queueId_ q -> task_queueId t' = queueId_ q -> h = h') /\
  (forall e need h t, run = Some (queueId_ q, e, need) -> (h, t) ∈ pending f -> task_queueId t < queueId_ q) /\
  (forall h t, (h, t) ∈ pending f -> task_queueId t = queueId_ q ->
     exists e, e ∈ all_events q /\ handleTime e - 999 <= task_due t).

Lemma timed_submit e p now q run :
  queue_inv q run -> time_ok e -> 0 <= queueId_ q < 2 ^ 31 - 1 -> timed q run ->
  timed (Submit (Some e) p now q) run /\
  queueId_ q <= queueId_ (Submit (Some e) p now q) <= queueId_ q + 1.
Proof.
  intros (Hok & [f Hf] & _ & _) He Hid Htimed. destruct (Htimed f Hf) as (H1 & H2 & H3 & H4 & H5).
  destruct (InsertEventsInner_ok e p q Hok He) as (Hok1 & Hperm & Hc1 & Hi1 & Ht1 & Hf1).
  destruct (Submit_spec e p now q f Hok He Hf) as [Hls Hcase].
  set (q1 := InsertEventsInner (Some e) p q) in *. set (q' := Submit (Some e) p now q) in *.
  assert (all_events q1 <> []) as Hne by (intros E; rewrite E in Hperm; by apply Permutation_nil_cons in Hperm).
  destruct Hcase as [[Hge E]|(t & h & f1 & f' & Hf1c & Hsub & Hq' & Hid' & _ & _ & Htid & Hdue & _)].
  - rewrite E. split; [|rewrite Hi1; lia]. intros f0. rewrite Hf1, Hi1, Hf. intros [= <-].
    split_and!; try done. intros h t Hin Ht. destruct (H5 h t Hin Ht) as (x & Hx & Hd).
    exists x. split; [|done]. rewrite Hperm. by right.
  - cbn [queueId_ GetNextQueueId] in Hid'. replace (2 ^ 31 - 1 <=? queueId_ q) with false in Hid' by lia.
    split; [|lia]. intros f0. rewrite Hq'. intros [= <-].
    assert (forall h0 t0, (h0, t0) ∈ pending f' -> (h0 = h /\ t0 = t) \/ task_queueId t0 < queueId_ q') as Hp.
    { intros h0 t0 Hin. pose proof (pending_submit f1 t (h0, t0)) as Hp. rewrite Hsub in Hp. apply Hp in Hin.
      destruct Hin as [Hin|[= -> ->]]; [right|by left].
      assert ((h0, t0) ∈ pending f) as Hin0.
      { destruct Hf1c as [->|(hc & _ & ->)]; [done|]. by apply pending_cancel in Hin as []. }
      specialize (H1 _ _ Hin0). lia. }
    split_and!.
    + intros h0 t0 Hin. destruct (Hp _ _ Hin) as [[-> ->]|?]; lia.
    + intros id e0 need Hr. specialize (H2 _ _ _ Hr). lia.
    + intros h0 t0 h2 t2 Ha Hb Hta Htb. destruct (Hp _ _ Ha) as [[-> ->]|?], (Hp _ _ Hb) as [[-> ->]|?]; done || lia.
    + intros e0 need h0 t0 Hr. specialize (H2 _ _ _ Hr). lia.
    + intros h0 t0 Hin Ht0. destruct (Hp _ _ Hin) as [[-> ->]|?]; [|lia].
      destruct (GetHandleTime_chosen now q1 Hok1 Hne) as (x & _ & Hx & _ & Hin1). exists x.
      split; [by unfold all_events; rewrite Hls|lia].
Qed.

Lemma timed_start f h t now q e need q' :
  queue_inv q None -> timed q None -> queue_ q = Some f -> (h, t) ∈ pending f -> task_due t <= now ->
  task_begin (task_queueId t) now (set_task (curTask_ q) (Some (fetch f h)) q) = (e, need, q') ->
  timed q' (Some (task_queueId t, e, need)) /\ queueId_ q' = queueId_ q /\
  forall x, e = Some x -> handleTime x <= now + 999.
Proof.
  intros (Hok & _) Htimed Hf Hin Hdue Hpop. destruct (Htimed f Hf) as (H1 & _ & H3 & _ & H5).
  assert (task_queueId t = queueId_ q -> forall h0 t0, (h0, t0) ∈ pending (fetch f h) -> task_queueId t0 < queueId_ q) as Hnone.
  { intros Ht h0 t0 Hin0. apply pending_fetch in Hin0 as [Hin0 Hne]. specialize (H1 _ _ Hin0).
    destruct (decide (task_queueId t0 = queueId_ q)) as [Ht0|]; [|lia]. cbn in Hne. by destruct Hne; eapply H3. }
  pose proof (H1 _ _ Hin) as Hle. apply PopEvent_spec in Hpop; [|done].
  cbn [queueId_ queue_ set_task eventLists_ curTask_ curHandleTime_] in Hpop.
  destruct Hpop as [(-> & -> & -> & Hcase)|(Hid & x & i & l & -> & Hch & Hl & Hls & Hok' & Hperm & Hi & Hq & _ & Hcase)].
  - split; [|done]. intros f0. cbn. intros [= <-]. split_and!.
    + intros h0 t0 Hin0. apply pending_fetch in Hin0 as [Hin0 _]. eauto.
    + by intros id e need [= <- <- <-].
    + intros h0 t0 h2 t2 Ha Hb. apply pending_fetch in Ha as [Ha _], Hb as [Hb _]. eauto.
    + intros e need h0 t0 [= Hid _ _]. by apply Hnone.
    + intros h0 t0 Hin0. apply pending_fetch in Hin0 as [Hin0 _]. eauto.
  - split; [|split; [done|]].
    + intros f0. rewrite Hq, Hi. intros [= <-]. specialize (Hnone Hid). split_and!.
      * intros h0 t0 Hin0. specialize (Hnone _ _ Hin0). lia.
      * intros id e need0 [= <- <- <-]. lia.
      * intros h0 t0 h2 t2 Ha _ Hta. specialize (Hnone _ _ Ha). lia.
      * intros e0 need0 h0 t0 _ Hin0. by apply Hnone in Hin0.
      * intros h0 t0 Ha Hta. specialize (Hnone _ _ Ha). lia.
    + intros y [= <-]. destruct (H5 h t Hin Hid) as (w & Hw & Hwd). destruct Hok as (_ & _ & Hs).
      destruct (chosen_min now _ _ _ w Hch Hs Hw); lia.
Qed.

Lemma timed_finish id e need alive now q :
  queue_inv q (Some (id, e, need)) -> timed q (Some (id, e, need)) ->
  timed (task_end id now e alive need q) None /\ queueId_ (task_end id now e alive need q) = queueId_ q.
Proof.
  intros Hinv Ht. unfold task_end. set (q0 := match e with Some _ => _ | None => q end).
  assert (queue_inv q0 (Some (id, e, need)) /\ timed q0 (Some (id, e, need)) /\ queueId_ q0 = queueId_ q)
    as ((Hok & [f Hf] & _) & Htimed & Hid0).
  { unfold q0. destruct e, alive; (split_and!; [exact Hinv|exact Ht|done]). }
  rewrite <- Hid0. clearbody q0. clear Hinv Ht Hid0 q. destruct (Htimed f Hf) as (H1 & H2 & H3 & H4 & H5).
  assert (forall q', queue_ q' = queue_ q0 -> queueId_ q' = queueId_ q0 -> all_events q' = all_events q0 -> timed q' None) as Hsame.
  { intros q' E1 E2 E3 f0. rewrite E1, E2, E3, Hf. intros [= <-]. by split_and!. }
  destruct need; [|by split; [apply Hsame|]].
  destruct (decide (all_events q0 = [])) as [Hem|Hne].
  { rewrite SubmitInner_empty by done. by split; [apply Hsame|]. }
  destruct (decide (id = queueId_ q0)) as [->|Hid].
  - destruct (SubmitInner_current now q0 f Hok Hne Hf) as (t & h & f' & -> & Hsub & Htid & Hdue & _).
    split; [|done]. intros f0. cbn. intros [= <-].
    assert (forall h0 t0, (h0, t0) ∈ pending f' -> (h0 = h /\ t0 = t) \/ task_queueId t0 < queueId_ q0) as Hp.
    { intros h0 t0 Hin. pose proof (pending_submit f t (h0, t0)) as Hp. rewrite Hsub in Hp. apply Hp in Hin.
      destruct Hin as [Hin|[= -> ->]]; [right|by left]. by eapply H4. }
    split_and!; [|done| |done|].
    + intros h0 t0 Hin. destruct (Hp _ _ Hin) as [[-> ->]|?]; lia.
    + intros h0 t0 h2 t2 Ha Hb Hta Htb. destruct (Hp _ _ Ha) as [[-> ->]|?], (Hp _ _ Hb) as [[-> ->]|?]; done || lia.
    + intros h0 t0 Hin Ht0. destruct (Hp _ _ Hin) as [[-> ->]|?]; [|lia].
      destruct (GetHandleTime_chosen now q0 Hok Hne) as (x & _ & Hx & _ & Hin1). exists x. split; [done|lia].
  - rewrite (SubmitInner_stale id now q0 f) by done. by split; [apply Hsame|].
Qed.

Definition on_time (p : Event * Z) : Prop := handleTime p.1 <= p.2 + 999.

Lemma timed_step s a s' n :
  sys_inv s -> timed (tq s) (running s) -> Forall on_time (popped s) -> 0 <= queueId_ (tq s) <= n ->
  is_removal a = false -> n + sends [a] < 2 ^ 31 -> step s a s' ->
  timed (tq s') (running s') /\ Forall on_time (popped s') /\ 0 <= queueId_ (tq s') <= n + sends [a].
Proof.
  intros [Hq Hn] Ht Hpop Hid Hr Hmax Hstep.
  destruct Hstep as [s id d p q' [= <-] Hd|s id q' [= <-]|s id|s|s d ? ?|s f h t e need q' Hrun Hf Hin Hdue Hp|s id e need alive Hrun];
    cbn [is_removal sends] in *; try done; cbn [tq running now_ popped] in *.
  - destruct (timed_submit (sent_event id d (now_ s)) p (now_ s) (tq s) (running s)) as [? ?];
      [done|by apply sent_time_ok|lia|done|]. unfold sent_event in *. split_and!; [done|done|lia|lia].
  - destruct (timed_submit (MkEvent id TIME_MIN) IMMEDIATE (now_ s) (tq s) (running s)) as [? ?];
      [done|unfold time_ok, TIME_MIN, TIME_MAX; cbn; lia|lia|done|]. split_and!; [done|done|lia|lia].
  - split_and!; [done|done|lia|lia].
  - rewrite Hrun in *. destruct (timed_start f h t (now_ s) (tq s) e need q') as (? & -> & Hx); [done..|].
    split_and!; [done| |lia|lia]. apply Forall_app. split; [done|]. destruct e as [x|]; [|constructor].
    repeat constructor. unfold on_time. cbn. auto.
  - rewrite Hrun in *. destruct (timed_finish id e need alive (now_ s) (tq s)) as [? ->]; [done..|].
    split_and!; [done|done|lia|lia].
Qed.

Lemma timed_steps s0 acts s :
  steps s0 acts s -> sys_inv s0 -> timed (tq s0) (running s0) -> popped s0 = [] -> queueId_ (tq s0) = 0 ->
  forallb (fun a => negb (is_removal a)) acts = true -> sends acts < 2 ^ 31 ->
  timed (tq s) (running s) /\ Forall on_time (popped s) /\ 0 <= queueId_ (tq s) <= sends acts.
Proof.
  intros Hs Hinv Ht Hp Hid. induction Hs as [s|s s1 s2 acts a Hs IH Hstep]; intros Hr Hmax.
  - cbn. rewrite Hp, Hid. by split_and!.
  - rewrite forallb_app in Hr. apply andb_prop in Hr as [Hr1 Hr2]. cbn in Hr2. rewrite andb_true_r in Hr2.
    rewrite sends_app in *. pose proof (sends_nonneg [a]).
    destruct IH as (IH1 & IH2 & IH3); [done..|lia|].
    apply (timed_step s1 a s2 (sends acts)); try done.
    + by eapply sys_inv_steps.
    + by apply negb_true_iff.
Qed.

(** ** Conservation and progress *)

Lemma filter_partition (P : Event -> bool) l :
  l ≡ₚ List.filter (fun e => negb (P e)) l ++ List.filter P l.
Proof.
  induction l as [|x l IH]; cbn; [done|]. destruct (P x); cbn.
  - rewrite <- Permutation_middle. by constructor.
  - by constructor.
Qed.

Lemma concat_filter (P : Event -> bool) (ls : list (list Event)) :
  concat (List.filter P <$> ls) = List.filter P (concat ls).
Proof. induction ls as [|l ls IH]; [done|]. rewrite fmap_cons. cbn. by rewrite List.filter_app, IH. Qed.

Definition conserved s : Prop :=
  sent s ≡ₚ all_events (tq s) ++ (fst <$> popped s) ++ dropped s.

Lemma task_end_events id now e alive need q : all_events (task_end id now e alive need q) = all_events q.
Proof.
  unfold task_end. set (q0 := match e with Some _ => _ | None => q end).
  assert (all_events q0 = all_events q) as <- by (unfold q0; by destruct e, alive).
  destruct need; [|done]. unfold SubmitInner, SubmitToFFRT. destruct (queue_ q0); [|done].
  repeat (case_match; try done).
Qed.

Lemma submit_events e p now q f :
  lists_ok (eventLists_ q) -> time_ok e -> queue_ q = Some f ->
  all_events (Submit (Some e) p now q) ≡ₚ e :: all_events q.
Proof.
  intros Hok Ht Hf. destruct (InsertEventsInner_ok e p q Hok Ht) as (_ & Hperm & _).
  destruct (Submit_spec e p now q f Hok Ht Hf) as [Hls _].
  rewrite <- Hperm. unfold all_events. by rewrite Hls.
Qed.

Lemma conserved_step s a s' : sys_inv s -> conserved s -> step s a s' -> conserved s'.
Proof.
  unfold conserved. intros [(Hok & [f0 Hf0] & _) Hn] Hc Hstep.
  destruct Hstep as [s id d p q' [= <-] Hd|s id q' [= <-]|s id|s|s d ? ?|s f h t e need q' Hr Hf Hin Hdue Hpop|s id e need alive Hr];
    cbn [tq popped dropped sent].
  - pose proof (submit_events _ p (now_ s) (tq s) f0 Hok (sent_time_ok id d (now_ s) Hn Hd) Hf0) as E.
    unfold sent_event in *. rewrite E, Hc. cbn [app]. by rewrite Permutation_app_comm.
  - assert (time_ok (MkEvent id TIME_MIN)) as Ht by (unfold time_ok, TIME_MIN, TIME_MAX; cbn; lia).
    rewrite (submit_events _ IMMEDIATE (now_ s) (tq s) f0 Hok Ht Hf0), Hc. cbn [app].
    by rewrite Permutation_app_comm.
  - assert (all_events (RemoveEvent id (tq s)) =
            List.filter (fun e => negb (innerEventId e =? id)) (all_events (tq s))) as ->.
    { unfold RemoveEvent. destruct (IsEmpty _); apply concat_filter. }
    rewrite Hc. rewrite (filter_partition (fun e => innerEventId e =? id) (all_events (tq s))) at 1.
    rewrite <- !app_assoc. apply Permutation_app_head.
    rewrite (Permutation_app_comm (List.filter _ _)), <- app_assoc. by rewrite !app_assoc.
  - rewrite remove_all_events, Hc. cbn [app]. rewrite Permutation_app_comm. by rewrite app_assoc.
  - done.
  - unfold task_begin in Hpop. apply PopEvent_spec in Hpop; [|done]. rewrite fmap_app.
    destruct Hpop as [(-> & -> & -> & _)|(_ & x & i & l & -> & _ & _ & _ & _ & Hperm & _)].
    + cbn. by rewrite app_nil_r.
    + rewrite Hc. unfold all_events in Hperm at 1. cbn in Hperm. unfold all_events at 1. rewrite Hperm.
      cbn. rewrite <- !app_assoc. cbn. by rewrite <- !Permutation_middle.
  - by rewrite task_end_events.
Qed.

Lemma conserved_steps s acts s' : sys_inv s -> conserved s -> steps s acts s' -> conserved s'.
Proof.
  intros Hi Hc Hs. induction Hs as [|s s1 s2 acts a Hs IH Hstep]; [done|].
  eapply conserved_step; [|by apply IH|done]. by eapply sys_inv_steps.
Qed.

(** Tasks are due in the clock's range. *)
Definition due_ok q : Prop :=
  forall f h t, queue_ q = Some f -> (h, t) ∈ pending f -> task_due t < TIME_MAX.

Lemma due_ok_submit e p now q :
  queue_inv q None \/ (exists r, queue_inv q (Some r)) -> time_ok e -> now < TIME_MAX -> due_ok q ->
  due_ok (Submit (Some e) p now q).
Proof.
  intros Hinv He Hn Hd.
  assert (lists_ok (eventLists_ q) /\ exists f, queue_ q = Some f) as [Hok [f Hf]].
  { destruct Hinv as [(?&?&_)|[r (?&?&_)]]; done. }
  destruct (InsertEventsInner_ok e p q Hok He) as (Hok1 & Hperm & _ & _ & _ & Hf1).
  destruct (Submit_spec e p now q f Hok He Hf) as [_ Hcase].
  assert (all_events (InsertEventsInner (Some e) p q) <> []) as Hne
    by (intros E; rewrite E in Hperm; by apply Permutation_nil_cons in Hperm).
  destruct (GetHandleTime_chosen now _ Hok1 Hne) as (x & _ & Hx & [_ Hhi] & _).
  destruct Hcase as [[_ ->]|(t & h & f1 & f' & Hf1c & Hsub & Hq' & _ & _ & _ & _ & _ & Hdue)].
  - intros f0 h t. rewrite Hf1. apply Hd.
  - intros f0 h0 t0. rewrite Hq'. intros [= <-] Hin.
    pose proof (pending_submit f1 t (h0, t0)) as Hp. rewrite Hsub in Hp. apply Hp in Hin.
    destruct Hin as [Hin|[= -> ->]]; [|destruct Hdue; lia].
    destruct Hf1c as [->|(hc & _ & ->)]; [by eapply Hd|]. apply pending_cancel in Hin as [Hin _]. by eapply Hd.
Qed.

Lemma due_ok_finish id e need alive now q run :
  queue_inv q run -> now < TIME_MAX -> due_ok q -> due_ok (task_end id now e alive need q).
Proof.
  intros Hinv Hn Hd. unfold task_end. set (q0 := match e with Some _ => _ | None => q end).
  assert (queue_inv q0 run /\ due_ok q0) as [(Hok & [f Hf] & _) Hd0].
  { unfold q0. destruct e, alive; (split; [exact Hinv|exact Hd]). }
  clearbody q0. destruct need; [|done].
  destruct (decide (all_events q0 = [])) as [Hem|Hne]; [by rewrite SubmitInner_empty|].
  destruct (decide (id = queueId_ q0)) as [->|Hid]; [|by rewrite (SubmitInner_stale id now q0 f)].
  destruct (GetHandleTime_chosen now q0 Hok Hne) as (x & _ & Hx & [_ Hhi] & _).
  destruct (SubmitInner_current now q0 f Hok Hne Hf) as (t & h & f' & -> & Hsub & _ & _ & Hdue).
  intros f0 h0 t0. cbn. intros [= <-] Hin. pose proof (pending_submit f t (h0, t0)) as Hp.
  rewrite Hsub in Hp. apply Hp in Hin. destruct Hin as [Hin|[= -> ->]]; [by eapply Hd0|lia].
Qed.

Lemma due_ok_step s a s' : sys_inv s -> due_ok (tq s) -> step s a s' -> due_ok (tq s').
Proof.
  intros [Hq Hn] Hd Hstep.
  assert (queue_inv (tq s) None \/ exists r, queue_inv (tq s) (Some r)) as Hq' by (destruct (running s); eauto).
  destruct Hstep as [s id d p q' [= <-] Hd'|s id q' [= <-]|s id|s|s d ? ?|s f h t e need q' Hr Hf Hin Hdue Hpop|s id e need alive Hr];
    cbn [tq].
  - apply due_ok_submit; [done|by apply sent_time_ok|lia|done].
  - apply due_ok_submit; [done| |lia|done]. unfold time_ok, TIME_MIN, TIME_MAX. cbn. lia.
  - unfold RemoveEvent. by destruct (IsEmpty _).
  - done.
  - done.
  - destruct Hq as (Hok & _). unfold task_begin in Hpop. apply PopEvent_spec in Hpop; [|done].
    assert (queue_ q' = Some (fetch f h)) as Hf'.
    { by destruct Hpop as [(_ & _ & -> & _)|(_ & x & i & l & _ & _ & _ & _ & _ & _ & _ & -> & _)]. }
    intros f0 h0 t0. rewrite Hf'. intros [= <-] Hin0. apply pending_fetch in Hin0 as [Hin0 _]. by eapply Hd.
  - by eapply due_ok_finish; [exact Hq|lia|].
Qed.

Lemma due_ok_steps s acts s' : sys_inv s -> due_ok (tq s) -> steps s acts s' -> due_ok (tq s').
Proof.
  intros Hi Hc Hs. induction Hs as [|s s1 s2 acts a Hs IH Hstep]; [done|].
  eapply due_ok_step; [|by apply IH|done]. by eapply sys_inv_steps.
Qed.

Lemma steps_trans s a1 s1 a2 s2 : steps s a1 s1 -> steps s1 a2 s2 -> steps s (a1 ++ a2) s2.
Proof.
  intros H1 H2. induction H2 as [|s1 s2 s3 acts a _ IH Hstep]; [by rewrite app_nil_r|].
  rewrite app_assoc. econstructor; [by apply IH|done].
Qed.

Lemma steps_one s a s' : step s a s' -> steps s [a] s'.
Proof. intros H. apply (steps_snoc _ s _ [] a); [constructor|done]. Qed.

(** The actions of the clock and the worker alone. *)
Definition is_worker (a : action Q) : bool :=
  match a with ATick _ | AStart _ _ | AFinish _ => true | _ => false end.

Lemma worker_pops s :
  sys_inv s -> due_ok (tq s) -> running s = None -> all_events (tq s) <> [] ->
  exists acts s', steps s acts s' /\ forallb is_worker acts = true /\
    (length (all_events (tq s')) < length (all_events (tq s)))%nat.
Proof.
  intros [Hq Hn] Hd Hr Hne. pose proof Hq as (Hok & _ & Hlive & _). rewrite Hr in Hlive.
  destruct (Hlive Hne) as [(f & h & t & Hf & Hin & Ht)|[e [=]]].
  set (d := Z.max 0 (task_due t - now_ s)). specialize (Hd f h t Hf Hin).
  set (s1 := MkSys (tq s) (now_ s + d) (running s) (popped s) (sent s) (dropped s)).
  assert (step s (ATick d) s1) as H1 by (constructor; lia).
  destruct (task_begin (task_queueId t) (now_ s1) (set_task (curTask_ (tq s)) (Some (fetch f h)) (tq s)))
    as [[e need] q'] eqn:Hb.
  pose proof (step_start s1 f h t e need q' Hr Hf Hin ltac:(cbn; lia) Hb) as H2.
  eexists _, _. split; [exact (steps_trans _ _ _ _ _ (steps_one _ _ _ H1) (steps_one _ _ _ H2))|].
  split; [done|]. cbn [tq]. unfold task_begin in Hb. apply PopEvent_spec in Hb; [|done].
  destruct Hb as [(_ & _ & _ & [?|?])|(_ & x & i & l & _ & _ & _ & _ & _ & Hperm & _)]; [done|done|].
  apply Permutation_length in Hperm. cbn in Hperm. unfold all_events in *. cbn in *. lia.
Qed.

Lemma worker_drains n : forall s,
  sys_inv s -> due_ok (tq s) -> (length (all_events (tq s)) <= n)%nat ->
  exists acts s', steps s acts s' /\ forallb is_worker acts = true /\ all_events (tq s') = [].
Proof.
  induction n as [|n IH]; intros s Hi Hd Hlen.
  { exists [], s. split_and!; [constructor|done|]. destruct (all_events (tq s)); [done|cbn in Hlen; lia]. }
  destruct (decide (all_events (tq s) = [])) as [Hem|Hne]; [exists [], s; by split_and!; [constructor|..]|].
  assert (exists a1 s1, steps s a1 s1 /\ forallb is_worker a1 = true /\ running s1 = None /\
            all_events (tq s1) = all_events (tq s)) as (a1 & s1 & H1 & Hw1 & Hr1 & He1).
  { destruct (running s) as [[[id e] need]|] eqn:Hr.
    - eexists _, _. split; [apply steps_one, (step_finish s id e need true Hr)|]. split_and!; [done..|].
      cbn. apply task_end_events.
    - exists [], s. split_and!; [constructor|done..]. }
  pose proof (sys_inv_steps _ _ _ Hi H1) as Hi1. pose proof (due_ok_steps _ _ _ Hi Hd H1) as Hd1.
  rewrite <- He1 in Hne. destruct (worker_pops s1 Hi1 Hd1 Hr1 Hne) as (a2 & s2 & H2 & Hw2 & Hlt).
  destruct (IH s2) as (a3 & s3 & H3 & Hw3 & He3);
    [by eapply sys_inv_steps|by eapply due_ok_steps|rewrite He1 in Hlt; lia|].
  exists (a1 ++ a2 ++ a3), s3. split_and!; [by eapply steps_trans, steps_trans| |done].
  by rewrite !forallb_app, Hw1, Hw2, Hw3.
Qed.

Lemma worker_keeps s acts s' :
  steps s acts s' -> forallb is_worker acts = true -> sent s' = sent s /\ dropped s' = dropped s.
Proof.
  intros Hs. induction Hs as [|s s1 s2 acts a Hs IH Hstep]; [done|].
  rewrite forallb_app. intros [H1 H2]%andb_prop. destruct (IH H1) as [<- <-].
  by destruct Hstep.
Qed.

Lemma init_due_ok f now : pending f = [] -> due_ok (tq (init f now)).
Proof. intros Hf f0 h t. cbn. intros [= <-]. rewrite Hf. intros H. by apply elem_of_nil in H. Qed.
End QueueLemmas.

(** ** An implementation of the interface: the pending tasks as a finite map *)

Abbreviation MapFFRT := (gmap nat Task).

Definition next_handle (m : MapFFRT) : nat := S (foldr Nat.max 0%nat (fst <$> map_to_list m)).

#[export] Instance MapFFRT_queue : FFRTQueue MapFFRT := {
  Handle := nat;
  pending m := map_to_list m;
  submit_h m t := (<[next_handle m := t]> m, next_handle m);
  cancel m h := delete h m;
  fetch m h := delete h m
}.

Lemma next_handle_fresh (m : MapFFRT) : m !! next_handle m = None.
Proof.
  destruct (m !! next_handle m) as [t|] eqn:E; [exfalso|done].
  apply elem_of_map_to_list in E. unfold next_handle in E.
  assert (forall l : list nat, forall k, k ∈ l -> (k <= foldr Nat.max 0 l)%nat) as Hmax.
  { induction l as [|x l IH]; intros k Hk; [by apply elem_of_nil in Hk|].
    cbn. apply elem_of_cons in Hk as [->|Hk]; [lia|]. specialize (IH k Hk). lia. }
  apply (list_elem_of_fmap_2 fst) in E. apply Hmax in E. exact (Nat.nle_succ_diag_l _ E).
Qed.

#[export] Instance MapFFRT_laws : FFRTLaws MapFFRT.
Proof.
  split; cbn.
  - intros m t [h t']. rewrite !elem_of_map_to_list, lookup_insert_Some. pose proof (next_handle_fresh m). split.
    + intros [[-> ->]|[? ?]]; [by right|by left].
    + intros [Hh|[= -> ->]]; [right|by left]. split; [|done]. intros <-. congruence.
  - intros m h t t'. rewrite !elem_of_map_to_list. congruence.
  - intros m t t'. rewrite elem_of_map_to_list, next_handle_fresh. done.
  - intros m h [h' t]. rewrite !elem_of_map_to_list, lookup_delete_Some. cbn. intuition congruence.
  - intros m h [h' t]. rewrite !elem_of_map_to_list, lookup_delete_Some. cbn. intuition congruence.
Qed.

Definition start_task (n : nat) (t : Task) : action MapFFRT := @AStart MapFFRT MapFFRT_queue n t.

(** The transitions, executed. *)
Definition exec (s : Sys MapFFRT) (a : action MapFFRT) : option (Sys MapFFRT) :=
  match a with
  | ASend id d p =>
      if now_ s + d * NS_PER_MS <? TIME_MAX
      then Some (MkSys (Submit (Some (sent_event id d (now_ s))) p (now_ s) (tq s)) (now_ s) (running s)
                       (popped s) (sent s ++ [sent_event id d (now_ s)]) (dropped s))
      else None
  | ASendNow id =>
      Some (MkSys (Submit (Some (MkEvent id TIME_MIN)) IMMEDIATE (now_ s) (tq s)) (now_ s) (running s)
                  (popped s) (sent s ++ [MkEvent id TIME_MIN]) (dropped s))
  | ARemove id =>
      Some (MkSys (RemoveEvent id (tq s)) (now_ s) (running s) (popped s) (sent s)
                  (dropped s ++ List.filter (fun e => innerEventId e =? id) (all_events (tq s))))
  | ARemoveAll =>
      Some (MkSys (RemoveAllEvents (tq s)) (now_ s) (running s) (popped s) (sent s)
                  (dropped s ++ all_events (tq s)))
  | ATick d =>
      if (0 <=? d) && (now_ s + d <? TIME_MAX)
      then Some (MkSys (tq s) (now_ s + d) (running s) (popped s) (sent s) (dropped s)) else None
  | AStart h t =>
      match running s, queue_ (tq s) with
      | None, Some f =>
          match (f : MapFFRT) !! (h : nat) with
          | Some t' =>
              if (task_queueId t' =? task_queueId t) && (task_due t' =? task_due t) && (task_due t <=? now_ s)
              then
                let '(e, need, q') :=
                  task_begin (task_queueId t) (now_ s) (set_task (curTask_ (tq s)) (Some (fetch f h)) (tq s)) in
                Some (MkSys q' (now_ s) (Some (task_queueId t, e, need))
                        (popped s ++ match e with Some e => [(e, now_ s)] | None => [] end) (sent s) (dropped s))
              else None
          | None => None
          end
      | _, _ => None
      end
  | AFinish alive =>
      match running s with
      | Some (id, e, need) =>
          Some (MkSys (task_end id (now_ s) e alive need (tq s)) (now_ s) None (popped s) (sent s) (dropped s))
      | None => None
      end
  end.

Lemma exec_step s a s' : exec s a = Some s' -> step s a s'.
Proof.
  destruct a as [id d p|id|id| |d|h t|alive]; cbn [exec].
  - case_bool; [|done]. intros [= <-]. by apply (step_send s).
  - intros [= <-]. by apply (step_send_now s).
  - intros [= <-]. constructor.
  - intros [= <-]. constructor.
  - destruct (_ && _) eqn:E; [|done]. intros [= <-]. constructor; lia.
  - destruct (running s) as [|] eqn:Hr; [done|]. destruct (queue_ (tq s)) as [f|] eqn:Hf; [|done].
    destruct ((f : MapFFRT) !! (h : nat)) as [t'|] eqn:Hh; [|done]. destruct (_ && _) eqn:E; [|done].
    assert (t' = t) as -> by (destruct t, t'; cbn in E; f_equal; lia).
    destruct (task_begin _ _ _) as [[e need] q'] eqn:Hb. intros [= <-].
    eapply step_start; [done|exact Hf|by apply elem_of_map_to_list|lia|done].
  - destruct (running s) as [[[id e] need]|] eqn:Hr; [|done]. intros [= <-]. by constructor.
Qed.

Fixpoint exec_all (s : Sys MapFFRT) (acts : list (action MapFFRT)) : option (Sys MapFFRT) :=
  match acts with
  | [] => Some s
  | a :: t => match exec s a with Some s1 => exec_all s1 t | None => None end
  end.

Lemma exec_all_steps acts : forall s s', exec_all s acts = Some s' -> steps s acts s'.
Proof.
  induction acts as [|a acts IH]; intros s s'; cbn; [intros [= <-]; constructor|].
  destruct (exec s a) as [s1|] eqn:E; [|done]. intros H.
  apply (steps_trans s [a] s1); [by apply steps_one, exec_step|auto].
Qed.

(** ** Properties *)


Lemma zero_time : TIME_MIN <= 0 < TIME_MAX.
Proof. unfold TIME_MIN, TIME_MAX. lia. Qed.

(** The state after the actions, from an empty queue at time 0. *)
Definition after (acts : list (action MapFFRT)) : Sys MapFFRT :=
  default (init (∅ : MapFFRT) 0) (exec_all (init (∅ : MapFFRT) 0) acts).

Lemma after_steps acts :
  is_Some (exec_all (init (∅ : MapFFRT) 0) acts) ->
  steps (init (∅ : MapFFRT) 0) acts (after acts).
Proof.
  unfold after. destruct (exec_all _ acts) as [s|] eqn:E; [|by intros [? ?]]. intros _. by apply exec_all_steps.
Qed.

Lemma after_lists_ok acts :
  is_Some (exec_all (init (∅ : MapFFRT) 0) acts) -> lists_ok (eventLists_ (tq (after acts))).
Proof.
  intros H. by destruct (sys_inv_steps _ _ _ (sys_inv_init (∅ : MapFFRT) 0 zero_time) (after_steps acts H)) as [[? _] _].
Qed.






(** After a removal an event can be handled long before its time: [RemoveEvent]
    leaves the task of the removed event pending, and the task pops the next
    event without testing that it is due. Here event 2, sent with a delay of
    100 ms, is popped after 10 ms, when the removed event 1 would have been. *)
Theorem remove_makes_early :
  exists acts s, steps (init (∅ : MapFFRT) 0) acts s /\
    (MkEvent 2 100000000, 10000000%Z) ∈ popped s.
Proof.
  set (acts := [ASend 1 10 LOW; ASend 2 100 LOW; ARemove 1; ATick 10000000; start_task 1 (MkTask 1 10000000)]).
  exists acts, (after acts).
  split; [apply after_steps; eexists; reflexivity|]. vm_compute. left.
Qed.

(** C22: Nothing is lost or duplicated: in every reachable state the events sent are
    exactly those that wait, those popped (each once) and those removed. *)
Theorem events_conserved {Q} `{FQ : FFRTQueue Q} `{!FFRTLaws Q} (ffrt : Q) (now : Z) acts s :
  TIME_MIN <= now < TIME_MAX -> steps (init ffrt now) acts s ->
  sent s ≡ₚ all_events (tq s) ++ (fst <$> popped s) ++ dropped s.
Proof.
  intros Hn Hs. apply (conserved_steps (init ffrt now) acts s); [by apply sys_inv_init| |done].
  exact (perm_nil _).
Qed.

Lemma events_conserved_witness :
  let s := after [ASend 7 20 HIGH; ASendNow 3; ARemove 7] in
  sent s ≡ₚ all_events (tq s) ++ (fst <$> popped s) ++ dropped s.
Proof.
  apply (events_conserved (∅ : MapFFRT) 0 [ASend 7 20 HIGH; ASendNow 3; ARemove 7]).
  - exact zero_time.
  - apply after_steps. eexists. reflexivity.
Defined.

(** C33: What a task pops. For the current generation, on a queue that is not empty,
    [PopEvent] takes the front of the first list (in the order of the
    priorities) whose front is due, or when none is due the earliest event; only
    that list changes, and [isNeedSubmit] tells whether events are left. A task of
    another generation pops nothing. *)
Theorem PopEvent_takes_next {Q} `{FQ : FFRTQueue Q} (q : TelEventQueue Q) now id :
  lists_ok (eventLists_ q) -> all_events q <> [] ->
  (exists i e l need q',
     PopEvent (queueId_ q) now q = (Some e, need, q') /\ chosen now (eventLists_ q) i e /\
    eventLists_ q !! i = Some (e :: l) /\ eventLists_ q' = <[i := l]> (eventLists_ q) /\
    need = negb (IsEmpty q') /\
    forall x, x ∈ all_events q -> handleTime e <= Z.max now (handleTime x)) /\
    (id <> queueId_ q -> PopEvent id now q = (None, false, SetCurHandleTime TIME_MAX q)).
Proof.
  intros Hok Hne. split.
  - destruct (PopEvent (queueId_ q) now q) as [[e need] q'] eqn:E.
    apply PopEvent_spec in E; [|done].
    destruct E as [(_ & _ & _ & [?|?])|(_ & x & i & l & -> & Hc & Hi & Hls & _ & _ & _ & _ & _ & Hneed)]; [done|done|].
    exists i, x, l, need, q'. split_and!; [done..| |].
    + destruct Hneed as [(E & -> & _)|(E & -> & _)];
        [apply IsEmpty_spec in E as ->|apply IsEmpty_false in E as ->]; done.
    + intros y Hy. destruct Hok as (_ & _ & Hs). destruct (chosen_min now _ _ _ y Hc Hs Hy); lia.
  - intros Hid. unfold PopEvent. destruct (Z.eqb_spec id (queueId_ q)); [done|]. by rewrite orb_true_r.
Qed.

Lemma PopEvent_takes_next_witness :
  let q := tq (after [ASend 1 5 HIGH; ASend 2 0 LOW]) in
  exists i e l need q', PopEvent (queueId_ q) 0 q = (Some e, need, q') /\ chosen 0 (eventLists_ q) i e /\
    eventLists_ q !! i = Some (e :: l) /\ eventLists_ q' = <[i := l]> (eventLists_ q) /\
    need = negb (IsEmpty q') /\
    forall x, x ∈ all_events q -> handleTime e <= Z.max 0 (handleTime x).
Proof.
  apply (PopEvent_takes_next (tq (after [ASend 1 5 HIGH; ASend 2 0 LOW])) 0 0).
  - apply after_lists_ok. eexists. reflexivity.
  - vm_compute. discriminate.
Defined.

(** An event inserted in its list keeps the list ordered by handle time and
    leaves behind the events that wait there with the same time: events of one
    priority and time are handled first in, first out. The other lists and the
    scheduling state do not change. *)
Theorem InsertEventsInner_fifo {Q} `{FQ : FFRTQueue Q} (q : TelEventQueue Q) e p :
  lists_ok (eventLists_ q) -> time_ok e ->
  let q' := InsertEventsInner (Some e) p q in
  lists_ok (eventLists_ q') /\ all_events q' ≡ₚ e :: all_events q /\
    (forall i, i <> ToTelPriority p -> eventLists_ q' !! i = eventLists_ q !! i) /\
    (forall l t, eventLists_ q !! ToTelPriority p = Some l ->
     exists l', eventLists_ q' !! ToTelPriority p = Some l' /\
    List.filter (fun x => handleTime x =? t) l' =
       List.filter (fun x => handleTime x =? t) l ++ (if handleTime e =? t then [e] else [])) /\
    curHandleTime_ q' = curHandleTime_ q /\ queueId_ q' = queueId_ q.
Proof.
  intros Hok He q'. destruct (InsertEventsInner_ok e p q Hok He) as (? & ? & ? & ? & _).
  split_and!; [done..| | |done|done].
  - intros i Hi. cbn. by rewrite list_lookup_insert_ne.
  - intros l t Hl. cbn. rewrite (nth_lookup_Some _ _ _ _ Hl). eexists. split.
    + apply list_lookup_insert_eq. by eapply lookup_lt_Some.
    + apply insert_event_stable. destruct Hok as (_ & _ & Hs). rewrite Forall_lookup in Hs. by apply (Hs _ _ Hl).
Qed.

Lemma InsertEventsInner_fifo_witness :
  let q := tq (after [ASend 1 0 HIGH; ASend 2 0 HIGH]) in
  lists_ok (eventLists_ (InsertEventsInner (Some (MkEvent 3 0)) HIGH q)).
Proof.
  apply (InsertEventsInner_fifo (tq (after [ASend 1 0 HIGH; ASend 2 0 HIGH])) (MkEvent 3 0) HIGH).
  - apply after_lists_ok. eexists. reflexivity.
  - vm_compute. split; [discriminate|reflexivity].
Defined.

(** An event sent by [SendExecuteNowEvent] is the next one popped, before every
    waiting event of any priority, due or not (unless another such event of the
    IMMEDIATE list came before it). *)
Theorem SendExecuteNow_next {Q} `{FQ : FFRTQueue Q} `{!FFRTLaws Q} (q : TelEventQueue Q) f id now now' :
  lists_ok (eventLists_ q) -> queue_ q = Some f -> TIME_MIN <= now' ->
  Forall (fun x => TIME_MIN < handleTime x) (nth 0 (eventLists_ q) []) ->
  exists q', SendExecuteNowEvent (Some id) now (Some q) = (true, Some q') /\
    (PopEvent (queueId_ q') now' q').1.1 = Some (MkEvent id TIME_MIN).
Proof.
  intros Hok Hf Hn Hlater. eexists. split; [reflexivity|].
  set (e := MkEvent id TIME_MIN). set (q' := Submit (Some e) IMMEDIATE now q).
  assert (time_ok e) as He by (unfold e, time_ok, TIME_MIN, TIME_MAX; cbn; lia).
  destruct (Submit_spec e IMMEDIATE now q f Hok He Hf) as [Hls _]. fold q' in Hls. cbn in Hls.
  destruct Hok as (Hlen & _). destruct (eventLists_ q) as [|l0 ls] eqn:El; [done|].
  assert (insert_event e l0 = e :: l0) as Hins.
  { cbn in Hlater. destruct Hlater as [|x l0 Hx _]; [done|]. cbn. by destruct (Z.ltb_spec TIME_MIN (handleTime x)); [|lia]. }
  assert (eventLists_ q' = (e :: l0) :: ls) as Els.
  { rewrite Hls. cbn. by rewrite Hins. }
  clearbody q'. unfold PopEvent, IsEmpty, GetPriorityIndex. rewrite Els, Z.eqb_refl. cbn [forallb orb negb andb priority_scan].
  replace (handleTime e <=? now') with true by (unfold e; cbn [handleTime]; lia). cbn [nth].
  by destruct (forallb _ _).
Qed.

Lemma SendExecuteNow_next_witness :
  let q := tq (after [ASend 1 0 HIGH; ASend 2 3 IMMEDIATE]) in
  exists q', SendExecuteNowEvent (Some 9) 5 (Some q) = (true, Some q') /\
    (PopEvent (queueId_ q') 5 q').1.1 = Some (MkEvent 9 TIME_MIN).
Proof.
  refine (SendExecuteNow_next (tq (after [ASend 1 0 HIGH; ASend 2 3 IMMEDIATE])) _ 9 5 5 _ _ _ _).
  - apply after_lists_ok. eexists. reflexivity.
  - reflexivity.
  - discriminate.
  - repeat constructor.
Defined.
