(* ===== verification/IccOperatorRule.v ===== *)
(** * [services/sim/src/icc_operator_rule.cpp]: carrier privilege rules

    The rules of the access rule application of a card, as the hexadecimal
    string read from it: [FF40 len (E2 len (E1 len (C1 len certificate,
    CA len package)) (E3 len (DB len limit)))*]. Iterators of the string are
    positions; a position outside the string is undefined behaviour. The loops
    take fuel, and run out of it as [Undef]; [CreateFromTLV_total] shows that on
    hexadecimal strings the length of the string is fuel enough. *)

From S2P Require Import Prelude CxxString.

Record IccOperatorRule : Type := MkRule {
  packageName_ : cstring;
  certificate_ : cstring;
  accessLimit_ : cstring
}.

Definition IccOperatorRule_new : IccOperatorRule := MkRule [] [] [].

Definition TAG_ALL_RULE : cstring := str "FF40".
Definition TAG_RULE : cstring := str "E2".
Definition TAG_CERT_PKG : cstring := str "E1".
Definition TAG_CERTIFICATE : cstring := str "C1".
Definition TAG_PACKAGE : cstring := str "CA".
Definition TAG_LIMITS : cstring := str "E3".
Definition TAG_LIMIT : cstring := str "DB".
Definition TLV_SIMPLE_TAG_ONEBYTE_LEN : Z := 1.
Definition TLV_SIMPLE_TAG_LENGTH_LEN : Z := 1.
Definition TLV_LEN_CHARLEN : Z := 2.
Definition TLV_STAG_CHARLEN : Z := 2.

Definition SetPackageName (p : cstring) (r : IccOperatorRule) : IccOperatorRule :=
  MkRule p (certificate_ r) (accessLimit_ r).
Definition SetCertificate (c : cstring) (r : IccOperatorRule) : IccOperatorRule :=
  MkRule (packageName_ r) c (accessLimit_ r).
Definition SetAccessLimit (l : cstring) (r : IccOperatorRule) : IccOperatorRule :=
  MkRule (packageName_ r) (certificate_ r) l.
Definition GetPackageName (r : IccOperatorRule) : cstring := packageName_ r.
Definition GetCertificate (r : IccOperatorRule) : cstring := certificate_ r.

(** [std::from_chars] in base 16 for [int32_t] on two characters: an optional
    minus sign, then the longest run of digits; the end it reports is not used. *)
Definition from_chars2 (c1 c2 : ascii) : option Z :=
  if Ascii.eqb c1 "-"%char then
    match hex_value c2 with Some d => Some (- d) | None => None end
  else
    match hex_value c1 with
    | None => None
    | Some d1 => Some (match hex_value c2 with Some d2 => 16 * d1 + d2 | None => d1 end)
    end.

(** The value and the position after it. *)
Definition readOneByte (s : cstring) (it : Z) : option (Z * Z) :=
  if it =? zlen s then None
  else if it + 1 =? zlen s then None
  else
    match s !! Z.to_nat it, s !! Z.to_nat (it + 1) with
    | Some c1, Some c2 =>
        match from_chars2 c1 c2 with Some v => Some (v, it + 2) | None => None end
    | _, _ => None
    end.

(** Moving an iterator. *)
Definition advance (s : cstring) (it n : Z) : outcome Z :=
  if decide (0 <= it + n <= zlen s) then Ret (it + n) else Undef.

(** [std::copy_n(it, n, ...)]: nothing when [n] is not positive. *)
Definition copy_n (s : cstring) (it n : Z) : cstring := take (Z.to_nat n) (drop (Z.to_nat it) s).

(** Tag name, length, value and the position after the value. *)
Definition parseSimpleTLV (s : cstring) (it : Z) : outcome (option (cstring * Z * cstring * Z)) :=
  let inputSize := zlen s - it in
  if inputSize <? TLV_STAG_CHARLEN then Ret None
  else
    let tagName := copy_n s it TLV_STAG_CHARLEN in
    let it := it + TLV_STAG_CHARLEN in
    if inputSize <? TLV_STAG_CHARLEN + TLV_LEN_CHARLEN then Ret None
    else
      match readOneByte s it with
      | None => Ret None
      | Some (len, it) =>
          let valueCharLen := len + len in
          if inputSize <? TLV_STAG_CHARLEN + TLV_LEN_CHARLEN + valueCharLen then Ret None
          else
            let value := copy_n s it valueCharLen in
            it ← advance s it valueCharLen;
            Ret (Some (tagName, len, value, it))
      end.

(** [std::mismatch] against a tag: is it a prefix of the string from [it]? *)
Definition has_prefix (s : cstring) (it : Z) (tag : cstring) : bool :=
  bool_decide (copy_n s it (zlen tag) = tag).

(** The loop of [SetPackageNameByHexStr], two characters at a time. *)
Fixpoint package_chars (s : cstring) : option cstring :=
  match s with
  | [] => Some []
  | [_] => None
  | c1 :: c2 :: t =>
      match from_chars2 c1 c2, package_chars t with
      | Some v, Some p => Some (chr (u8 v) :: p)
      | _, _ => None
      end
  end.

(** On failure the source leaves a part of the name; its callers then drop the
    rule. *)
Definition SetPackageNameByHexStr (hexStr : cstring) (r : IccOperatorRule) : option IccOperatorRule :=
  match package_chars hexStr with Some p => Some (SetPackageName p r) | None => None end.

(** The state of a parsing loop: position, length read, rule, tag seen. *)
Definition tlv_state : Type := Z * Z * IccOperatorRule * bool.

(** One iteration of the loop of [DecodeTLVTagCertPkg]; [None]: return false. *)
Definition cert_pkg_step (s : cstring) (st : tlv_state) : outcome (option tlv_state) :=
  let '(it, totalLen, result, hasCertificate) := st in
  r ← parseSimpleTLV s it;
  match r with
  | None => Ret None
  | Some (tagName, length, value, it) =>
      let totalLen := totalLen + (length + TLV_SIMPLE_TAG_ONEBYTE_LEN + TLV_SIMPLE_TAG_LENGTH_LEN) in
      if bool_decide (tagName = TAG_CERTIFICATE)
      then Ret (Some (it, totalLen, SetCertificate value result, true))
      else if bool_decide (tagName = TAG_PACKAGE)
      then match SetPackageNameByHexStr value result with
           | Some result => Ret (Some (it, totalLen, result, hasCertificate))
           | None => Ret None
           end
      else Ret (Some (it, totalLen, result, hasCertificate))
  end.

(** One iteration of the loop of [DecodeTLVTagLimits]. *)
Definition limits_step (s : cstring) (st : tlv_state) : outcome (option tlv_state) :=
  let '(it, totalLen, result, isReadTagPermArDo) := st in
  r ← parseSimpleTLV s it;
  match r with
  | None => Ret None
  | Some (tagName, length, value, it) =>
      let totalLen := totalLen + (length + TLV_SIMPLE_TAG_ONEBYTE_LEN + TLV_SIMPLE_TAG_LENGTH_LEN) in
      if bool_decide (tagName = TAG_LIMIT)
      then Ret (Some (it, totalLen, SetAccessLimit value result, true))
      else Ret (Some (it, totalLen, result, isReadTagPermArDo))
  end.

(** [while (it != end && totalLen < len)] *)
Fixpoint tlv_loop (fuel : nat) (step : tlv_state -> outcome (option tlv_state)) (ed len : Z) (st : tlv_state)
  : outcome (option tlv_state) :=
  match fuel with
  | O => Undef
  | S k =>
      let '(it, totalLen, _, _) := st in
      if negb (it =? ed) && (totalLen <? len)
      then
        r ← step st;
        match r with Some st' => tlv_loop k step ed len st' | None => Ret None end
      else Ret (Some st)
  end.

(** A constructed tag: its name, its length, then the loop over its elements,
    which must have seen the tag it looks for. *)
Definition decode_section (fuel : nat) (tag : cstring) (step : tlv_state -> outcome (option tlv_state))
    (s : cstring) (it : Z) (result : IccOperatorRule) : outcome (option (Z * IccOperatorRule)) :=
  if negb (has_prefix s it tag) then Ret None
  else
    match readOneByte s (it + zlen tag) with
    | None => Ret None
    | Some (len, it) =>
        r ← tlv_loop fuel step (zlen s) len (it, 0, result, false);
        match r with
        | Some (it, _, result, true) => Ret (Some (it, result))
        | _ => Ret None
        end
    end.

Definition DecodeTLVTagCertPkg (fuel : nat) (s : cstring) (it : Z) (result : IccOperatorRule)
  : outcome (option (Z * IccOperatorRule)) :=
  decode_section fuel TAG_CERT_PKG (cert_pkg_step s) s it result.

Definition DecodeTLVTagLimits (fuel : nat) (s : cstring) (it : Z) (result : IccOperatorRule)
  : outcome (option (Z * IccOperatorRule)) :=
  decode_section fuel TAG_LIMITS (limits_step s) s it result.

(** The position, the rule and the length read; on failure the source also leaves
    a changed rule and position, which [CreateFromTLV] does not read any more. *)
Definition DecodeTLVTagRule (fuel : nat) (s : cstring) (it : Z) (result : IccOperatorRule)
  : outcome (option (Z * IccOperatorRule * Z)) :=
  if negb (has_prefix s it TAG_RULE) then Ret None
  else
    match readOneByte s (it + zlen TAG_RULE) with
    | None => Ret None
    | Some (refArLen, it) =>
        let len := TLV_SIMPLE_TAG_ONEBYTE_LEN + (TLV_SIMPLE_TAG_LENGTH_LEN + refArLen) in
        r ← DecodeTLVTagCertPkg fuel s it result;
        match r with
        | None => Ret None
        | Some (it, result) =>
            r ← DecodeTLVTagLimits fuel s it result;
            match r with
            | None => Ret None
            | Some (it, result) => Ret (Some (it, result, len))
            end
        end
    end.

(** The loop of [CreateFromTLV]: one [rule] object serves all the iterations. *)
Fixpoint rules_loop (fuel : nat) (s : cstring) (len it totalLen : Z) (rule : IccOperatorRule)
    (result : list IccOperatorRule) : outcome (list IccOperatorRule) :=
  match fuel with
  | O => Undef
  | S k =>
      if negb (it =? zlen s) && (totalLen <? len)
      then
        r ← DecodeTLVTagRule (S k) s it rule;
        match r with
        | None => Ret result
        | Some (it, rule, ruleLen) => rules_loop k s len it (totalLen + ruleLen) rule (result ++ [rule])
        end
      else Ret result
  end.

(** Returns the result and the rules. *)
Definition CreateFromTLV (fuel : nat) (hexStr : cstring) : outcome (bool * list IccOperatorRule) :=
  if negb (has_prefix hexStr 0 TAG_ALL_RULE) then Ret (false, [])
  else
    match readOneByte hexStr (zlen TAG_ALL_RULE) with
    | None => Ret (false, [])
    | Some (len, it) =>
        rules ← rules_loop fuel hexStr len it 0 IccOperatorRule_new [];
        Ret (true, rules)
    end.

Definition Matche (certHash packageName : cstring) (r : IccOperatorRule) : bool :=
  let res := bool_decide (certificate_ r = certHash) in
  match packageName_ r with
  | [] => res
  | _ => res && bool_decide (packageName_ r = packageName)
  end.

(** ** Totality on hexadecimal strings: lemmas *)

Definition is_hex (c : ascii) : bool := match hex_value c with Some _ => true | None => false end.

Lemma from_chars2_hex c1 c2 :
  is_hex c1 = true -> is_hex c2 = true ->
  exists d1 d2, hex_value c1 = Some d1 /\ hex_value c2 = Some d2 /\
    from_chars2 c1 c2 = Some (16 * d1 + d2) /\ 0 <= 16 * d1 + d2 < 256.
Proof.
  unfold is_hex. destruct (hex_value c1) as [d1|] eqn:E1; [|done]. destruct (hex_value c2) as [d2|] eqn:E2; [|done].
  intros _ _. exists d1, d2. pose proof (hex_value_range _ _ E1). pose proof (hex_value_range _ _ E2).
  split_and!; [done..| |lia|lia]. unfold from_chars2. rewrite E1, E2.
  destruct (Ascii.eqb_spec c1 "-"%char) as [->|]; [by vm_compute in E1|done].
Qed.

Section Total.
Context (s : cstring) (Hs : Forall (fun c => is_hex c = true) s).

Lemma readOneByte_hex it v it' :
  0 <= it -> readOneByte s it = Some (v, it') -> 0 <= v < 256 /\ it' = it + 2 /\ it' <= zlen s.
Proof using Hs.
  intros Hit. unfold readOneByte. repeat case_bool; try done.
  destruct (s !! Z.to_nat it) as [c1|] eqn:E1; [|done]. destruct (s !! Z.to_nat (it + 1)) as [c2|] eqn:E2; [|done].
  rewrite Forall_lookup in Hs. destruct (from_chars2_hex c1 c2) as (d1 & d2 & _ & _ & -> & ?); [by eapply Hs..|].
  intros [= <- <-]. split_and!; [lia|lia|done|]. apply lookup_lt_Some in E2. unfold zlen. lia.
Qed.

Lemma parseSimpleTLV_hex it :
  0 <= it <= zlen s ->
  parseSimpleTLV s it = Ret None \/
  exists tag len v it', parseSimpleTLV s it = Ret (Some (tag, len, v, it')) /\ it + 4 <= it' <= zlen s.
Proof using Hs.
  intros Hit. unfold parseSimpleTLV, TLV_STAG_CHARLEN, TLV_LEN_CHARLEN.
  repeat case_bool; try by left.
  destruct (readOneByte s (it + 2)) as [[len it']|] eqn:E; [|by left].
  apply readOneByte_hex in E as (Hl & -> & Hle); [|lia].
  destruct (Z.ltb_spec (zlen s - it) (2 + 2 + (len + len))); [by left|]. right.
  unfold advance. rewrite decide_True by lia. cbn. eexists _, _, _, _. split; [done|]. lia.
Qed.

(** A step that stays in the string and moves forward, or fails. *)
Definition step_total (step : tlv_state -> outcome (option tlv_state)) : Prop :=
  forall st, 0 <= st.1.1.1 <= zlen s ->
    step st = Ret None \/ exists st', step st = Ret (Some st') /\ st.1.1.1 < st'.1.1.1 <= zlen s.

Lemma cert_pkg_step_total : step_total (cert_pkg_step s).
Proof using Hs.
  intros [[[it tot] r] b] Hit. cbn in *. destruct (parseSimpleTLV_hex it Hit) as [->|(tag & len & v & it' & -> & ?)];
    cbn; [by left|].
  repeat case_match; try by left. all: right; eexists; split; [done|cbn; lia].
Qed.

Lemma limits_step_total : step_total (limits_step s).
Proof using Hs.
  intros [[[it tot] r] b] Hit. cbn in *. destruct (parseSimpleTLV_hex it Hit) as [->|(tag & len & v & it' & -> & ?)];
    cbn; [by left|].
  repeat case_match; try by left. all: right; eexists; split; [done|cbn; lia].
Qed.

Lemma tlv_loop_total step : step_total step ->
  forall fuel len st, 0 <= st.1.1.1 <= zlen s -> zlen s - st.1.1.1 < Z.of_nat fuel ->
  tlv_loop fuel step (zlen s) len st = Ret None \/
  exists st', tlv_loop fuel step (zlen s) len st = Ret (Some st') /\ st.1.1.1 <= st'.1.1.1 <= zlen s.
Proof using Hs.
  intros Hstep. induction fuel as [|k IH]; intros len st Hit Hf; [lia|]. cbn [tlv_loop].
  destruct st as [[[it tot] r] b] eqn:Est. rewrite <- Est in *. assert (it = st.1.1.1) as Eit by (by subst).
  destruct (negb (it =? zlen s) && (tot <? len)); [|right; eexists; split; [done|lia]].
  destruct (Hstep st Hit) as [->|(st' & -> & Hst')]; [by left|]. cbn [mbind outcome_bind].
  destruct (IH len st') as [->|(st2 & -> & ?)]; [lia..|by left|]. right. eexists. split; [done|]. lia.
Qed.

Lemma decode_section_total fuel tag step it r :
  step_total step -> 0 <= it <= zlen s -> zlen s - it < Z.of_nat fuel ->
  decode_section fuel tag step s it r = Ret None \/
  exists it' r', decode_section fuel tag step s it r = Ret (Some (it', r')) /\ it < it' <= zlen s.
Proof using Hs.
  intros Hstep Hit Hf. unfold decode_section. destruct (has_prefix s it tag); cbn [negb]; [|by left].
  pose proof (zlen_nonneg tag). destruct (readOneByte s (it + zlen tag)) as [[len it1]|] eqn:E; [|by left].
  apply readOneByte_hex in E as (_ & -> & Hle); [|lia].
  destruct (tlv_loop_total step Hstep fuel len (it + zlen tag + 2, 0, r, false)) as [->|(st & -> & Hst)]; cbn in *;
    [lia..|by left|].
  destruct st as [[[it' tot] r'] [|]]; [right|by left]. cbn in Hst. eexists _, _. split; [done|]. lia.
Qed.

Lemma DecodeTLVTagRule_total fuel it r :
  0 <= it <= zlen s -> zlen s - it < Z.of_nat fuel ->
  DecodeTLVTagRule fuel s it r = Ret None \/
  exists it' r' len, DecodeTLVTagRule fuel s it r = Ret (Some (it', r', len)) /\ it < it' <= zlen s.
Proof using Hs.
  intros Hit Hf. unfold DecodeTLVTagRule. destruct (has_prefix s it TAG_RULE); cbn [negb]; [|by left].
  pose proof (zlen_nonneg TAG_RULE). destruct (readOneByte s (it + zlen TAG_RULE)) as [[len it1]|] eqn:E; [|by left].
  apply readOneByte_hex in E as (_ & -> & Hle); [|lia].
  destruct (decode_section_total fuel TAG_CERT_PKG (cert_pkg_step s) (it + zlen TAG_RULE + 2) r cert_pkg_step_total)
    as [E|(it2 & r2 & E & ?)]; [lia..| |]; unfold DecodeTLVTagCertPkg; rewrite E; cbn; [by left|].
  destruct (decode_section_total fuel TAG_LIMITS (limits_step s) it2 r2 limits_step_total)
    as [E2|(it3 & r3 & E2 & ?)]; [lia..| |]; unfold DecodeTLVTagLimits; rewrite E2; cbn; [by left|].
  right. eexists _, _, _. split; [done|]. lia.
Qed.

Lemma rules_loop_total fuel : forall len it tot r acc,
  0 <= it <= zlen s -> zlen s - it < Z.of_nat fuel ->
  exists rules, rules_loop fuel s len it tot r acc = Ret rules.
Proof using Hs.
  induction fuel as [|k IH]; intros len it tot r acc Hit Hf; [lia|]. cbn [rules_loop].
  destruct (_ && _); [|eauto].
  destruct (DecodeTLVTagRule_total (S k) it r Hit Hf) as [->|(it' & r' & l & -> & ?)]; cbn [mbind outcome_bind];
    [eauto|]. apply IH; lia.
Qed.
End Total.

(** ** Encoding rules, the reference *)

Definition hexstr (bs : list Z) : cstring := hex_upper <$> (bs ≫= nibbles).

(** A rule by its contents: certificate hash, optional package name, limit. *)
Record RuleData : Type := MkRuleData { rd_cert : list Z; rd_pkg : option (list Z); rd_limit : list Z }.

(** A tag with its contents, given as characters: two per byte. *)
Definition section (tag body : cstring) : cstring := tag ++ hexstr [zlen body / 2] ++ body.

Definition encode_cert (r : RuleData) : cstring :=
  section TAG_CERTIFICATE (hexstr (rd_cert r)) ++
  match rd_pkg r with Some p => section TAG_PACKAGE (hexstr p) | None => [] end.

Definition encode_rule (r : RuleData) : cstring :=
  section TAG_RULE (section TAG_CERT_PKG (encode_cert r) ++
                    section TAG_LIMITS (section TAG_LIMIT (hexstr (rd_limit r)))).

Definition encode_rules (rs : list RuleData) : cstring :=
  section TAG_ALL_RULE (concat (encode_rule <$> rs)).

(** What [CreateFromTLV] makes of the rules: a rule without a package name keeps
    the name of the rule before it. *)
Definition decoded_rule (previous : cstring) (r : RuleData) : IccOperatorRule :=
  MkRule (match rd_pkg r with Some p => chr <$> p | None => previous end) (hexstr (rd_cert r)) (hexstr (rd_limit r)).

Fixpoint decoded_rules (previous : cstring) (rs : list RuleData) : list IccOperatorRule :=
  match rs with
  | [] => []
  | r :: t => let d := decoded_rule previous r in d :: decoded_rules (packageName_ d) t
  end.

Definition rule_ok (r : RuleData) : Prop :=
  Forall is_u8 (rd_cert r) /\ Forall is_u8 (default [] (rd_pkg r)) /\ Forall is_u8 (rd_limit r) /\
  zlen (encode_rule r) < 512.

Lemma hexstr_zlen bs : zlen (hexstr bs) = 2 * zlen bs.
Proof.
  unfold hexstr, zlen. rewrite length_fmap. induction bs as [|b bs IH]; [done|].
  rewrite bind_cons, length_app. cbn [length nibbles]. lia.
Qed.

Lemma hexstr_app a b : hexstr (a ++ b) = hexstr a ++ hexstr b.
Proof. unfold hexstr. by rewrite bind_app, fmap_app. Qed.

Lemma from_chars2_byte b : is_u8 b -> from_chars2 (hex_upper (b / 16)) (hex_upper (b mod 16)) = Some b.
Proof. unfold is_u8. change (2 ^ 8) with 256. intros Hb. enum_Z b. Qed.

Lemma package_chars_hexstr bs : Forall is_u8 bs -> package_chars (hexstr bs) = Some (chr <$> bs).
Proof.
  induction 1 as [|b bs Hb _ IH]; [done|]. change (b :: bs) with ([b] ++ bs). rewrite hexstr_app.
  change (hexstr [b]) with [hex_upper (b / 16); hex_upper (b mod 16)]. cbn [app package_chars].
  rewrite from_chars2_byte, IH, u8_small by done. done.
Qed.

(** Reading back a string given as a concatenation. *)
Lemma copy_n_at s pre mid post it n :
  s = pre ++ mid ++ post -> it = zlen pre -> n = zlen mid -> copy_n s it n = mid.
Proof.
  intros -> -> ->. unfold copy_n, zlen. by rewrite !Nat2Z.id, drop_app_length, take_app_length.
Qed.

Lemma readOneByte_at s pre b post it :
  s = pre ++ hexstr [b] ++ post -> it = zlen pre -> is_u8 b -> readOneByte s it = Some (b, it + 2).
Proof.
  intros -> -> Hb. unfold readOneByte. pose proof (zlen_nonneg post).
  change (hexstr [b] ++ post) with (hex_upper (b / 16) :: hex_upper (b mod 16) :: post). zlen_simpl.
  replace (_ =? _) with false by lia. replace (_ =? _) with false by lia.
  pose proof (zlen_nonneg pre). unfold zlen in *. rewrite !lookup_app_r by lia.
  replace (Z.to_nat (Z.of_nat (length pre)) - length pre)%nat with 0%nat by lia.
  replace (Z.to_nat (Z.of_nat (length pre) + 1) - length pre)%nat with 1%nat by lia. cbn [lookup list_lookup].
  by rewrite from_chars2_byte.
Qed.

Lemma has_prefix_at s pre tag post it :
  s = pre ++ tag ++ post -> it = zlen pre -> has_prefix s it tag = true.
Proof. intros Hs Hi. apply bool_decide_eq_true. by eapply copy_n_at. Qed.

Lemma parseSimpleTLV_at s pre tag bs post it :
  s = pre ++ section tag (hexstr bs) ++ post -> it = zlen pre -> zlen tag = 2 -> zlen bs < 256 ->
  parseSimpleTLV s it = Ret (Some (tag, zlen bs, hexstr bs, it + 4 + 2 * zlen bs)).
Proof.
  intros Hs -> Ht Hb. pose proof (zlen_nonneg bs). pose proof (zlen_nonneg post). pose proof (zlen_nonneg pre).
  unfold section in Hs. rewrite hexstr_zlen, (Z.mul_comm 2), Z.div_mul in Hs by lia.
  assert (zlen s = zlen pre + 4 + 2 * zlen bs + zlen post) as Hl.
  { rewrite Hs. zlen_simpl. rewrite !hexstr_zlen. zlen_simpl. lia. }
  unfold parseSimpleTLV, TLV_STAG_CHARLEN, TLV_LEN_CHARLEN.
  replace (zlen s - zlen pre <? 2) with false by lia. replace (zlen s - zlen pre <? 2 + 2) with false by lia.
  rewrite (copy_n_at s pre tag (hexstr [zlen bs] ++ hexstr bs ++ post)) by (done || rewrite Hs; by_assoc).
  rewrite (readOneByte_at s (pre ++ tag) (zlen bs) (hexstr bs ++ post));
    [|rewrite Hs; by_assoc|by_zlen|unfold is_u8; lia].
  replace (zlen s - zlen pre <? 2 + 2 + (zlen bs + zlen bs)) with false by lia.
  rewrite (copy_n_at s (pre ++ tag ++ hexstr [zlen bs]) (hexstr bs) post);
    [|rewrite Hs; by_assoc|zlen_simpl; rewrite hexstr_zlen; by_zlen|rewrite hexstr_zlen; lia].
  unfold advance. rewrite decide_True by lia. cbn. do 3 f_equal. lia.
Qed.

(** Equality of parser states whose numbers differ by arithmetic. *)
Ltac by_state :=
  unfold TLV_SIMPLE_TAG_ONEBYTE_LEN, TLV_SIMPLE_TAG_LENGTH_LEN;
  repeat (reflexivity || lia || f_equal).

Lemma section_zlen tag body : zlen (section tag body) = zlen tag + 2 + zlen body.
Proof. unfold section. zlen_simpl. rewrite hexstr_zlen. by_zlen. Qed.

Lemma even_half a k : a = 2 * k -> a / 2 = k.
Proof. intros ->. rewrite Z.mul_comm. apply Z.div_mul. lia. Qed.

Lemma encode_cert_zlen r :
  zlen (encode_cert r) =
  2 * (2 + zlen (rd_cert r) + match rd_pkg r with Some p => 2 + zlen p | None => 0 end).
Proof.
  unfold encode_cert. zlen_simpl. rewrite section_zlen, hexstr_zlen. change (zlen TAG_CERTIFICATE) with 2.
  destruct (rd_pkg r) as [p|]; [rewrite section_zlen, hexstr_zlen; change (zlen TAG_PACKAGE) with 2; lia|].
  change (zlen (@nil ascii)) with 0. lia.
Qed.

Lemma encode_rule_zlen r :
  zlen (encode_rule r) = 8 + 2 * zlen (rd_limit r) + 8 + zlen (encode_cert r).
Proof.
  unfold encode_rule. rewrite section_zlen, zlen_app, !section_zlen, hexstr_zlen.
  change (zlen TAG_RULE) with 2. change (zlen TAG_CERT_PKG) with 2. change (zlen TAG_LIMITS) with 2.
  change (zlen TAG_LIMIT) with 2. lia.
Qed.

Lemma cert_loop fuel s pre r post r0 it :
  s = pre ++ encode_cert r ++ post -> it = zlen pre -> rule_ok r -> (3 <= fuel)%nat ->
  tlv_loop fuel (cert_pkg_step s) (zlen s) (zlen (encode_cert r) / 2) (it, 0, r0, false) =
  Ret (Some (it + zlen (encode_cert r), zlen (encode_cert r) / 2,
             SetCertificate (hexstr (rd_cert r))
               (SetPackageName (match rd_pkg r with Some p => chr <$> p | None => packageName_ r0 end) r0), true)).
Proof.
  intros Hs -> (Hc & Hp & _ & Hl) Hf. rewrite encode_rule_zlen, encode_cert_zlen in Hl.
  pose proof (zlen_nonneg (rd_cert r)). pose proof (zlen_nonneg (rd_limit r)).
  pose proof (zlen_nonneg pre). pose proof (zlen_nonneg post).
  rewrite encode_cert_zlen. rewrite (even_half _ _ eq_refl).
  pose proof (f_equal zlen Hs) as Hz. rewrite !zlen_app, encode_cert_zlen in Hz.
  destruct fuel as [|[|[|fuel]]]; [lia..|].
  assert (cert_pkg_step s (zlen pre, 0, r0, false) =
    Ret (Some (zlen pre + 4 + 2 * zlen (rd_cert r), 2 + zlen (rd_cert r), SetCertificate (hexstr (rd_cert r)) r0, true)))
    as E1.
  { unfold cert_pkg_step.
    rewrite (parseSimpleTLV_at s pre TAG_CERTIFICATE (rd_cert r)
               (match rd_pkg r with Some p => section TAG_PACKAGE (hexstr p) | None => [] end ++ post));
      [|rewrite Hs; unfold encode_cert; by_assoc|done|done|destruct (rd_pkg r); [pose proof (zlen_nonneg l)|]; lia].
    cbn [mbind outcome_bind]. rewrite bool_decide_eq_true_2 by done. by_state. }
  cbn [tlv_loop]. rewrite E1.
  destruct (rd_pkg r) as [p|] eqn:Ep.
  - pose proof (zlen_nonneg p). replace (zlen pre =? zlen s) with false by lia.
    replace (0 <? _) with true by lia. cbn [negb andb mbind outcome_bind tlv_loop].
    replace (_ =? zlen s) with false by lia. replace (_ <? _) with true by lia. cbn [negb andb].
    assert (cert_pkg_step s (zlen pre + 4 + 2 * zlen (rd_cert r), 2 + zlen (rd_cert r), SetCertificate (hexstr (rd_cert r)) r0, true) =
      Ret (Some (zlen pre + 4 + 2 * zlen (rd_cert r) + 4 + 2 * zlen p, 2 + zlen (rd_cert r) + (2 + zlen p),
                 SetPackageName (chr <$> p) (SetCertificate (hexstr (rd_cert r)) r0), true))) as E2.
    { unfold cert_pkg_step.
      rewrite (parseSimpleTLV_at s (pre ++ section TAG_CERTIFICATE (hexstr (rd_cert r))) TAG_PACKAGE p post);
        [|rewrite Hs; unfold encode_cert; rewrite Ep; by_assoc
         |rewrite zlen_app, section_zlen, hexstr_zlen; change (zlen TAG_CERTIFICATE) with 2; lia|done|lia].
      cbn [mbind outcome_bind]. rewrite bool_decide_eq_false_2 by (vm_compute; done).
      rewrite bool_decide_eq_true_2 by done. unfold SetPackageNameByHexStr.
      rewrite package_chars_hexstr by (by cbn in Hp). by_state. }
    rewrite E2. cbn [mbind outcome_bind tlv_loop].
    replace (2 + zlen (rd_cert r) + (2 + zlen p) <? _) with false by lia. rewrite andb_false_r.
    by_state.
  - replace (zlen pre =? zlen s) with false by lia. replace (0 <? _) with true by lia.
    cbn [negb andb mbind outcome_bind tlv_loop].
    replace (2 + zlen (rd_cert r) <? _) with false by lia. rewrite andb_false_r.
    destruct r0. by_state.
Qed.

Lemma limits_loop fuel s pre bs post r0 it :
  s = pre ++ section TAG_LIMIT (hexstr bs) ++ post -> it = zlen pre -> zlen bs < 250 -> (2 <= fuel)%nat ->
  tlv_loop fuel (limits_step s) (zlen s) (2 + zlen bs) (it, 0, r0, false) =
  Ret (Some (it + 4 + 2 * zlen bs, 2 + zlen bs, SetAccessLimit (hexstr bs) r0, true)).
Proof.
  intros Hs -> Hb Hf. pose proof (zlen_nonneg bs). pose proof (zlen_nonneg pre). pose proof (zlen_nonneg post).
  pose proof (f_equal zlen Hs) as Hz. rewrite !zlen_app, section_zlen, hexstr_zlen in Hz.
  change (zlen TAG_LIMIT) with 2 in Hz. destruct fuel as [|[|fuel]]; [lia..|].
  assert (limits_step s (zlen pre, 0, r0, false) =
    Ret (Some (zlen pre + 4 + 2 * zlen bs, 2 + zlen bs, SetAccessLimit (hexstr bs) r0, true))) as E.
  { unfold limits_step. rewrite (parseSimpleTLV_at s pre TAG_LIMIT bs post) by (done || lia).
    cbn [mbind outcome_bind]. rewrite bool_decide_eq_true_2 by done. by_state. }
  cbn [tlv_loop]. replace (zlen pre =? zlen s) with false by lia. replace (0 <? _) with true by lia.
  cbn [negb andb]. rewrite E. cbn [mbind outcome_bind tlv_loop].
  replace (2 + zlen bs <? 2 + zlen bs) with false by lia. by rewrite andb_false_r.
Qed.

(** A section is decoded when its loop reads its body. *)
Lemma decode_section_at fuel tag step s pre body post r0 it r1 :
  s = pre ++ section tag body ++ post -> it = zlen pre -> zlen body < 512 ->
  tlv_loop fuel step (zlen s) (zlen body / 2) (it + zlen tag + 2, 0, r0, false) =
    Ret (Some (it + zlen tag + 2 + zlen body, zlen body / 2, r1, true)) ->
  decode_section fuel tag step s it r0 = Ret (Some (it + zlen (section tag body), r1)).
Proof.
  intros Hs -> Hb Hloop. unfold decode_section. pose proof (zlen_nonneg body).
  rewrite (has_prefix_at s pre tag (hexstr [zlen body / 2] ++ body ++ post)); [|rewrite Hs; unfold section; by_assoc|done].
  cbn [negb]. rewrite (readOneByte_at s (pre ++ tag) (zlen body / 2) (body ++ post));
    [|rewrite Hs; unfold section; by_assoc|by_zlen|].
  - rewrite Hloop. cbn [mbind outcome_bind]. rewrite section_zlen. by_state.
  - unfold is_u8. split; [apply Z.div_pos; lia|apply Z.div_lt_upper_bound; lia].
Qed.

Lemma DecodeTLVTagRule_at fuel s pre r post r0 it :
  s = pre ++ encode_rule r ++ post -> it = zlen pre -> rule_ok r -> (3 <= fuel)%nat ->
  DecodeTLVTagRule fuel s it r0 =
  Ret (Some (it + zlen (encode_rule r), decoded_rule (packageName_ r0) r, zlen (encode_rule r) / 2)).
Proof.
  intros Hs -> Hr Hf. pose proof Hr as (_ & _ & _ & Hl). rewrite encode_rule_zlen in Hl.
  pose proof (zlen_nonneg (rd_limit r)). pose proof (zlen_nonneg (encode_cert r)).
  assert (zlen (encode_cert r) = 2 * (zlen (encode_cert r) / 2)) as Heven.
  { rewrite encode_cert_zlen, (even_half _ _ eq_refl). lia. }
  set (lim := section TAG_LIMITS (section TAG_LIMIT (hexstr (rd_limit r)))).
  set (crt := section TAG_CERT_PKG (encode_cert r)).
  assert (zlen lim = 8 + 2 * zlen (rd_limit r)) as Hlim.
  { unfold lim. rewrite !section_zlen, hexstr_zlen. change (zlen TAG_LIMITS) with 2. change (zlen TAG_LIMIT) with 2. lia. }
  assert (zlen crt = 4 + zlen (encode_cert r)) as Hcrt.
  { unfold crt. rewrite section_zlen. change (zlen TAG_CERT_PKG) with 2. lia. }
  assert (zlen (crt ++ lim) / 2 = 6 + zlen (rd_limit r) + zlen (encode_cert r) / 2) as Hhalf.
  { apply even_half. rewrite zlen_app. lia. }
  unfold encode_rule in Hs. fold lim crt in Hs. unfold DecodeTLVTagRule. change (zlen TAG_RULE) with 2.
  rewrite (has_prefix_at s pre TAG_RULE (hexstr [zlen (crt ++ lim) / 2] ++ (crt ++ lim) ++ post));
    [|rewrite Hs; unfold section; by_assoc|done]. cbn [negb].
  rewrite (readOneByte_at s (pre ++ TAG_RULE) (zlen (crt ++ lim) / 2) ((crt ++ lim) ++ post));
    [|rewrite Hs; unfold section; by_assoc|by rewrite zlen_app|unfold is_u8; lia].
  set (pre1 := pre ++ TAG_RULE ++ hexstr [zlen (crt ++ lim) / 2]).
  assert (zlen pre1 = zlen pre + 2 + 2) as Hpre1.
  { unfold pre1. rewrite !zlen_app, hexstr_zlen. change (zlen TAG_RULE) with 2. by_zlen. }
  assert (s = pre1 ++ crt ++ lim ++ post) as Hs1 by (rewrite Hs; unfold pre1, section; by_assoc).
  unfold DecodeTLVTagCertPkg.
  rewrite (decode_section_at fuel TAG_CERT_PKG _ s pre1 (encode_cert r) (lim ++ post) r0 (zlen pre + 2 + 2)
             (SetCertificate (hexstr (rd_cert r))
               (SetPackageName (match rd_pkg r with Some p => chr <$> p | None => packageName_ r0 end) r0)));
    [|rewrite Hs1; unfold crt; by_assoc|lia|lia|].
  2: { rewrite (cert_loop fuel s (pre1 ++ TAG_CERT_PKG ++ hexstr [zlen (encode_cert r) / 2]) r (lim ++ post));
         [done|rewrite Hs1; unfold crt, section; by_assoc| |done|done].
       rewrite !zlen_app, hexstr_zlen. change (zlen TAG_CERT_PKG) with 2. zlen_simpl. lia. }
  cbn [mbind outcome_bind]. unfold DecodeTLVTagLimits. fold crt.
  rewrite (decode_section_at fuel TAG_LIMITS _ s (pre1 ++ crt) (section TAG_LIMIT (hexstr (rd_limit r))) post _ _
             (SetAccessLimit (hexstr (rd_limit r)) (SetCertificate (hexstr (rd_cert r))
               (SetPackageName (match rd_pkg r with Some p => chr <$> p | None => packageName_ r0 end) r0))));
    [|rewrite Hs1; unfold lim; by_assoc|rewrite zlen_app; lia
     |rewrite section_zlen, hexstr_zlen; change (zlen TAG_LIMIT) with 2; lia|].
  2: { rewrite section_zlen, hexstr_zlen. change (zlen TAG_LIMIT) with 2. rewrite (even_half _ (2 + zlen (rd_limit r))) by lia.
       rewrite (limits_loop fuel s (pre1 ++ crt ++ TAG_LIMITS ++ hexstr [zlen (section TAG_LIMIT (hexstr (rd_limit r))) / 2]) (rd_limit r) post);
         [by_state|rewrite Hs1; unfold lim, section; by_assoc| |lia|lia].
       rewrite !zlen_app, hexstr_zlen. change (zlen TAG_LIMITS) with 2. zlen_simpl. lia. }
  cbn [mbind outcome_bind]. fold lim. unfold encode_rule. fold lim crt. rewrite section_zlen, zlen_app.
  change (zlen TAG_RULE) with 2.
  rewrite (even_half (2 + 2 + (zlen crt + zlen lim)) (2 + (6 + zlen (rd_limit r) + zlen (encode_cert r) / 2))) by lia.
  rewrite <- zlen_app, Hhalf, zlen_app. unfold decoded_rule, SetAccessLimit, SetCertificate, SetPackageName. cbn.
  by_state.
Qed.

Lemma encode_rule_even r : zlen (encode_rule r) = 2 * (zlen (encode_rule r) / 2).
Proof.
  rewrite encode_rule_zlen, encode_cert_zlen.
  set (k := match rd_pkg r with Some p => _ | None => _ end).
  rewrite (even_half _ (8 + zlen (rd_limit r) + (2 + zlen (rd_cert r) + k))) by lia. lia.
Qed.

Lemma rules_loop_at rs : forall fuel s pre post len tot it r0 acc,
  s = pre ++ concat (encode_rule <$> rs) ++ post -> it = zlen pre -> Forall rule_ok rs ->
  len = tot + zlen (concat (encode_rule <$> rs)) / 2 -> (3 + length rs <= fuel)%nat ->
  rules_loop fuel s len it tot r0 acc = Ret (acc ++ decoded_rules (packageName_ r0) rs).
Proof.
  induction rs as [|r rs IH]; intros fuel s pre post len tot it r0 acc Hs Hit Hrs Hlen Hf; (destruct fuel as [|k]; [lia|]);
    cbn [rules_loop].
  - change (zlen (concat (encode_rule <$> []))) with 0 in Hlen. change (0 / 2) with 0 in Hlen.
    replace (tot <? len) with false by lia. by rewrite andb_false_r, app_nil_r.
  - rewrite fmap_cons in *. cbn [concat] in *. apply Forall_cons in Hrs as [Hr Hrs].
    rewrite zlen_app in Hlen. pose proof (encode_rule_even r) as He. pose proof (encode_rule_zlen r) as Hz.
    pose proof (zlen_nonneg (rd_limit r)). pose proof (zlen_nonneg (encode_cert r)). pose proof (zlen_nonneg post).
    set (rest := concat (encode_rule <$> rs)) in *. pose proof (zlen_nonneg rest).
    assert ((zlen (encode_rule r) + zlen rest) / 2 = zlen (encode_rule r) / 2 + zlen rest / 2) as Hhalf.
    { rewrite He at 1. rewrite Z.add_comm, (Z.mul_comm 2), Z.div_add by lia. lia. }
    rewrite Hhalf in Hlen. assert (0 <= zlen rest / 2) by (apply Z.div_pos; lia).
    pose proof (f_equal zlen Hs) as Hsz. rewrite !zlen_app in Hsz.
    replace (it =? zlen s) with false by lia. replace (tot <? len) with true by lia. cbn [negb andb].
    rewrite (DecodeTLVTagRule_at (S k) s pre r (rest ++ post)) by (done || lia || (rewrite Hs; by_assoc)).
    cbn [mbind outcome_bind].
    rewrite (IH k s (pre ++ encode_rule r) post);
      [|rewrite Hs; by_assoc|rewrite zlen_app; lia|done|fold rest; lia|cbn in Hf; lia].
    cbn [decoded_rules]. by rewrite <- app_assoc.
Qed.

(** ** Properties *)



(** C36: Decoding rules: on the encoding of a list of rules, followed by anything,
    [CreateFromTLV] succeeds with every rule in order, its certificate hash and
    limit as encoded. The package name is the encoded one, but a rule without a
    package name keeps the name of the rule before it ([decoded_rules]), since
    one rule object is reused for all. *)
Theorem CreateFromTLV_rules rs post :
  Forall rule_ok rs -> zlen (concat (encode_rule <$> rs)) < 512 ->
  CreateFromTLV (S (length (encode_rules rs ++ post))) (encode_rules rs ++ post) =
  Ret (true, decoded_rules [] rs).
Proof.
  intros Hrs Hl. set (body := concat (encode_rule <$> rs)) in *. pose proof (zlen_nonneg body).
  set (s := encode_rules rs ++ post). assert (s = TAG_ALL_RULE ++ hexstr [zlen body / 2] ++ body ++ post) as Hs.
  { unfold s, encode_rules, section. fold body. by_assoc. }
  unfold CreateFromTLV. rewrite (has_prefix_at s [] TAG_ALL_RULE (hexstr [zlen body / 2] ++ body ++ post)) by done.
  cbn [negb]. rewrite (readOneByte_at s TAG_ALL_RULE (zlen body / 2) (body ++ post)); [|done|done|].
  2: { unfold is_u8. split; [apply Z.div_pos; lia|apply Z.div_lt_upper_bound; lia]. }
  rewrite (rules_loop_at rs _ s (TAG_ALL_RULE ++ hexstr [zlen body / 2]) post); [done|rewrite Hs; by_assoc| |done|fold body; lia|].
  - rewrite zlen_app, hexstr_zlen. by_zlen.
  - assert (zlen rs <= zlen body) as Hrs_len.
    { unfold body. clear. induction rs as [|r rs IH]; [done|]. rewrite fmap_cons. cbn [concat]. rewrite zlen_app, zlen_cons.
      pose proof (encode_rule_zlen r). pose proof (zlen_nonneg (rd_limit r)). pose proof (zlen_nonneg (encode_cert r)). lia. }
    pose proof (f_equal zlen Hs) as Hz. rewrite !zlen_app, hexstr_zlen in Hz. pose proof (zlen_nonneg post).
    change (zlen TAG_ALL_RULE) with 4 in Hz. zlen_simpl. unfold zlen in *. lia.
Qed.

Lemma CreateFromTLV_rules_witness :
  let r1 := MkRuleData [1; 2] (Some [99; 111; 109]) [0; 1] in
  let r2 := MkRuleData [3; 4] None [0; 1] in
  CreateFromTLV (S (length (encode_rules [r1; r2] ++ str "FFFF"))) (encode_rules [r1; r2] ++ str "FFFF") =
  Ret (true, [MkRule (str "com") (str "0102") (str "0001"); MkRule (str "com") (str "0304") (str "0001")]).
Proof.
  intros r1 r2. apply (CreateFromTLV_rules [r1; r2] (str "FFFF")).
  - repeat constructor; vm_compute; done.
  - vm_compute. reflexivity.
Defined.

Lemma negative_step s pre post totalLen certificate rule :
  s = pre ++ str "C1-2" ++ post ->
  cert_pkg_step s (zlen pre, totalLen, SetCertificate certificate rule, true) =
  Ret (Some (zlen pre, totalLen, SetCertificate [] rule, true)).
Proof.
  intros Hs. pose proof (zlen_nonneg pre). pose proof (zlen_nonneg post).
  pose proof (f_equal zlen Hs) as Hz. rewrite !zlen_app in Hz. change (zlen (str "C1-2")) with 4 in Hz.
  unfold cert_pkg_step, parseSimpleTLV, TLV_STAG_CHARLEN, TLV_LEN_CHARLEN.
  replace (zlen s - zlen pre <? 2) with false by lia. replace (zlen s - zlen pre <? 2 + 2) with false by lia.
  assert (readOneByte s (zlen pre + 2) = Some (-2, zlen pre + 2 + 2)) as ->.
  { unfold readOneByte. replace (_ =? _) with false by lia. replace (_ =? _) with false by lia.
    rewrite Hs. unfold zlen in *. rewrite (lookup_app_r pre _ (Z.to_nat (Z.of_nat (length pre) + 2))) by lia.
    rewrite (lookup_app_r pre _ (Z.to_nat (Z.of_nat (length pre) + 2 + 1))) by lia.
    replace (Z.to_nat (Z.of_nat (length pre) + 2) - length pre)%nat with 2%nat by lia.
    replace (Z.to_nat (Z.of_nat (length pre) + 2 + 1) - length pre)%nat with 3%nat by lia. reflexivity. }
  replace (zlen s - zlen pre <? 2 + 2 + (-2 + -2)) with false by lia.
  unfold advance. rewrite decide_True by lia. cbn [mbind outcome_bind].
  rewrite (copy_n_at s pre (str "C1") (str "-2" ++ post)) by (done || rewrite Hs; done).
  rewrite bool_decide_eq_true_2 by done. unfold copy_n. change (Z.to_nat (-2 + -2)) with 0%nat. by_state.
Qed.

(** A length that reads as a negative number stops the parser from advancing:
    [std::from_chars] accepts a minus sign, and at an element "C1-2" an iteration
    of [DecodeTLVTagCertPkg] ends at the position and length it started from, so
    that no number of iterations ends its loop. *)
Theorem negative_length_loops fuel s pre post len totalLen certificate rule :
  s = pre ++ str "C1-2" ++ post -> totalLen < len ->
  tlv_loop fuel (cert_pkg_step s) (zlen s) len (zlen pre, totalLen, SetCertificate certificate rule, true) = Undef.
Proof.
  intros Hs Hlt. pose proof (zlen_nonneg post). pose proof (f_equal zlen Hs) as Hz.
  rewrite !zlen_app in Hz. change (zlen (str "C1-2")) with 4 in Hz.
  revert certificate. induction fuel as [|k IH]; intros certificate; [done|]. cbn [tlv_loop].
  replace (zlen pre =? zlen s) with false by lia. replace (totalLen <? len) with true by lia. cbn [negb andb].
  rewrite (negative_step s pre post) by done. cbn [mbind outcome_bind]. apply IH.
Qed.

Lemma negative_length_loops_witness :
  tlv_loop 1000 (cert_pkg_step (str "FF4010E210E110C1-2")) 18 16
    (14, 0, SetCertificate [] IccOperatorRule_new, true) = Undef.
Proof.
  apply (negative_length_loops 1000 (str "FF4010E210E110C1-2") (str "FF4010E210E110") [] 16 0 [] IccOperatorRule_new).
  - reflexivity.
  - lia.
Defined.
