(* ===== verification/TagService.v ===== *)
(** * [services/sim/src/tag_service.cpp]: iterating over TLV data

    [TagService] walks over tag-length-value elements: [Next] parses the next tag
    and length, [GetTagCode] and [GetValue] read the element it stopped at. The
    tag is kept as a C string of hexadecimal digits, with its terminating NULs,
    and converted back ([IsValidHexValue] is of
    [utils/common/src/telephony_common_utils.cpp]). *)

From S2P Require Import Prelude CxxString.

Definition CONTINUE : Z := 0.
Definition FINISH : Z := 1.
Definition ERROR : Z := -1.
Definition ERR : Z := -1.
Definition CHINESE_FLAG : Z := 0x80.
Definition UCS_FLAG : Z := 0x81.
Definition CHINESE_POS : Z := 2.

Record TagService : Type := MkTag {
  length_ : Z;
  tag_ : cstring;
  offset_ : Z;
  data_ : list Z;
  dataOffset_ : Z;
  hasNext_ : bool
}.

Definition TagService_new (data : list Z) : TagService := MkTag 0 [] 0 data 0 true.

(** [std::from_chars] in base 16 for [uint8_t] on two characters: no sign; 0 when
    the first character is not a digit. *)
Definition from_chars_u8 (c1 c2 : ascii) : Z :=
  match hex_value c1 with
  | None => 0
  | Some d1 => match hex_value c2 with Some d2 => 16 * d1 + d2 | None => d1 end
  end.

Fixpoint hex_pairs_u8 (s : cstring) : list Z :=
  match s with c1 :: c2 :: t => from_chars_u8 c1 c2 :: hex_pairs_u8 t | _ => [] end.

Definition TagService_new_hex (data : cstring) : TagService :=
  if (zlen data =? 0) || negb (zlen data mod CHINESE_POS =? 0) then TagService_new []
  else TagService_new (hex_pairs_u8 data).

(** ** [telephony_common_utils.cpp] *)

Definition INPUT_VALUE_LENGTH : Z := 10.

(** The regular expression [(0\[xX\]\[0-9a-fA-F\]+)|(\[0-9a-fA-F\]+)]. *)
Definition all_hex (s : cstring) : bool :=
  match s with
  | [] => false
  | _ => forallb (fun c => match hex_value c with Some _ => true | None => false end) s
  end.

Definition hex_regex (s : cstring) : bool :=
  match s with
  | "0"%char :: "x"%char :: t | "0"%char :: "X"%char :: t => all_hex t || all_hex s
  | _ => all_hex s
  end.

(** [ConvertStrToLong] in base 16 for at most ten digits: [std::from_chars] must
    read the whole string (it takes no [0x]). *)
Definition ConvertStrToLong16 (s : cstring) : option Z :=
  match s with
  | "-"%char :: t => if all_hex t then Some (- default 0 (be_value 16 <$> hex_digits_of t)) else None
  | _ => if all_hex s then be_value 16 <$> hex_digits_of s else None
  end.

Definition IsValidHexValue (inputValue : cstring) : bool :=
  if INPUT_VALUE_LENGTH <? zlen inputValue then false
  else if hex_regex inputValue then
    match ConvertStrToLong16 inputValue with
    | Some numberValue => (- 2 ^ 31 <=? numberValue) && (numberValue <=? 2 ^ 31 - 1)
    | None => false
    end
  else false.

(** ** The iterator *)

(** [std::stoi(tag_, nullptr, 16)] on a tag that passed [IsValidHexValue]. *)
Definition GetTagCode (t : TagService) : Z :=
  let tagTemp := c_str (tag_ t) in
  if negb (IsValidHexValue tagTemp) then ERR else strtol16 tagTemp.

Definition GetLength (t : TagService) : Z := length_ t.

(** [data_.at(dataOffset_ + i)] for [i] below [length_]: throws outside. *)
Definition GetValue (t : TagService) : outcome (list Z) :=
  foldr (fun i r => v ← vec_at (data_ t) (dataOffset_ t + i); vs ← r; Ret (v :: vs)) (Ret [])
        (seqZ 0 (length_ t)).

(** [std::to_chars] writes one or two lower-case digits in a buffer of three NULs. *)
Definition tag_chars (arg : Z) : cstring :=
  let digits := hex_lower <$> hex_digits 2 arg in
  digits ++ replicate (3 - length digits) (chr 0).

(** Returns the status and the tag. *)
Definition TagFunc (arg : Z) (order : nat) (tag : cstring) : Z * cstring :=
  match order with
  | O => if (arg =? 0) || (arg =? 255) then (ERROR, tag) else (FINISH, tag ++ tag_chars arg)
  | _ => (ERROR, tag)
  end.

Definition LengthFunc (arg : Z) (order : nat) (len : Z) : Z * Z :=
  match order with
  | O => if arg <? CHINESE_FLAG then (FINISH, arg)
         else if arg =? UCS_FLAG then (CONTINUE, 0)
         else (ERROR, len)
  | 1%nat => (FINISH, arg)
  | _ => (ERROR, len)
  end.

(** The loops of [Next]: [f] returns a status and a new value; negative ends the
    loop with an error, positive ends it after the byte, zero goes on. Returns
    whether it failed, the value and the offset. The fuel is the number of bytes
    left. *)
Fixpoint field_loop {A} (fuel : nat) (f : Z -> nat -> A -> Z * A) (data : list Z) (offset : Z) (order : nat) (acc : A)
  : outcome (bool * A * Z) :=
  match fuel with
  | O => Ret (false, acc, offset)
  | S k =>
      if offset <? zlen data then
        b ← vec_at data offset;
        let '(res, acc) := f b order acc in
        if res <? 0 then Ret (true, acc, offset)
        else if 0 <? res then Ret (false, acc, offset + 1)
        else field_loop k f data (offset + 1) (S order) acc
      else Ret (false, acc, offset)
  end.

Definition no_next (t : TagService) : TagService :=
  MkTag (length_ t) (tag_ t) (offset_ t) (data_ t) (dataOffset_ t) false.

Definition Next (t : TagService) : outcome (bool * TagService) :=
  let size := zlen (data_ t) in
  if negb (hasNext_ t) || (size <=? offset_ t) then Ret (false, no_next t)
  else
    '(failed, tag, offset) ← field_loop (Z.to_nat (size - offset_ t)) TagFunc (data_ t) (offset_ t) 0 [];
    let t := MkTag (length_ t) tag offset (data_ t) (dataOffset_ t) (hasNext_ t) in
    if (failed : bool) then Ret (false, no_next t)
    else if size <=? offset then Ret (false, no_next t)
    else
      '(failed, length, offset) ← field_loop (Z.to_nat (size - offset)) LengthFunc (data_ t) offset 0 0;
      let t := MkTag length (tag_ t) offset (data_ t) (dataOffset_ t) (hasNext_ t) in
      if (failed : bool) then Ret (false, no_next t)
      else
        let t := MkTag length (tag_ t) (offset + length) (data_ t) offset (hasNext_ t) in
        let t := if size <? offset_ t then no_next t else t in
        Ret (hasNext_ t, t).

(** How the callers use it: every element until [Next] fails. *)
Fixpoint read_all (fuel : nat) (t : TagService) : outcome (list (Z * list Z)) :=
  match fuel with
  | O => Ret []
  | S k =>
      '(more, t) ← Next t;
      if negb more then Ret []
      else v ← GetValue t; vs ← read_all k t; Ret ((GetTagCode t, v) :: vs)
  end.

Example read_all_ex :
  read_all 10 (TagService_new_hex (str "8A0105E303A4012283026F40")) =
  Ret [(0x8A, [5]); (0xE3, [0xA4; 1; 0x22]); (0x83, [0x6F; 0x40])].
Proof. vm_compute. reflexivity. Qed.

(** ** Lemmas *)

Lemma tag_chars_code b :
  0 <= b < 256 ->
  IsValidHexValue (c_str (tag_chars b)) && (strtol16 (c_str (tag_chars b)) =? b) = true.
Proof.
  apply (forallb_seqZ (fun b => IsValidHexValue (c_str (tag_chars b)) && (strtol16 (c_str (tag_chars b)) =? b)) 0 256).
  vm_compute. reflexivity.
Qed.

Lemma GetTagCode_chars t b : 0 <= b < 256 -> tag_ t = tag_chars b -> GetTagCode t = b.
Proof.
  intros Hb Ht. unfold GetTagCode. rewrite Ht. pose proof (tag_chars_code b Hb) as [Hv Hc]%andb_prop.
  rewrite Hv. cbn [negb]. by apply Z.eqb_eq.
Qed.

Lemma vec_at_app {A} (pre : list A) x post : vec_at (pre ++ x :: post) (zlen pre) = Ret x.
Proof.
  apply vec_at_Ret. split; [apply zlen_nonneg|].
  unfold zlen. rewrite Nat2Z.id, lookup_app_r by lia. by rewrite Nat.sub_diag.
Qed.

Lemma vec_at_at {A} (src pre : list A) x post i : src = pre ++ x :: post -> i = zlen pre -> vec_at src i = Ret x.
Proof. intros -> ->. apply vec_at_app. Qed.

Lemma GetValue_at t pre v post :
  data_ t = pre ++ v ++ post -> dataOffset_ t = zlen pre -> length_ t = zlen v -> GetValue t = Ret v.
Proof.
  unfold GetValue. intros Hd Ho Hl. rewrite Hd, Ho, Hl. clear.
  assert (forall k v, foldr (fun i r => x ← vec_at (pre ++ v ++ post) (zlen pre + i); vs ← r; Ret (x :: vs)) (Ret [])
            (seqZ k (zlen v - k)) = Ret (drop (Z.to_nat k) v) \/ k < 0 \/ zlen v < k) as H.
  { clear v. intros k v. destruct (decide (0 <= k <= zlen v)) as [Hk|]; [left|lia].
    assert (exists n, k + Z.of_nat n = zlen v) as [n Hn] by (exists (Z.to_nat (zlen v - k)); lia).
    revert k Hk Hn; induction n as [|n IH]; intros k Hk Hn.
    - replace (zlen v - k) with 0 by lia. cbn. unfold zlen in *. by rewrite drop_ge by lia.
    - rewrite seqZ_cons by lia. replace (Z.succ k) with (k + 1) by lia. replace (Z.pred (zlen v - k)) with (zlen v - (k + 1)) by lia.
      cbn [foldr]. rewrite IH by lia. destruct (lookup_lt_is_Some_2 v (Z.to_nat k)) as [x Hx]; [unfold zlen in *; lia|].
      rewrite (vec_at_at _ (pre ++ take (Z.to_nat k) v) x (drop (S (Z.to_nat k)) v ++ post)).
      + cbn. f_equal. rewrite (drop_S v x (Z.to_nat k)) by done. replace (Z.to_nat (k + 1)) with (S (Z.to_nat k)) by lia. done.
      + rewrite <- (take_drop_middle v (Z.to_nat k) x) at 1 by done. by_assoc.
      + rewrite zlen_app. unfold zlen in *. rewrite length_take. lia. }
  pose proof (zlen_nonneg v). destruct (H 0 v) as [Hz|]; [|lia]. rewrite Z.sub_0_r in Hz. exact Hz.
Qed.

Lemma field_loop_safe {A} fuel (f : Z -> nat -> A -> Z * A) data : forall offset order acc,
  0 <= offset -> exists failed acc' offset',
    field_loop fuel f data offset order acc = Ret (failed, acc', offset') /\ offset <= offset' /\
    (offset <= zlen data -> offset' <= zlen data).
Proof.
  induction fuel as [|k IH]; intros offset order acc Ho; cbn [field_loop]; [eauto 10 with lia|].
  destruct (Z.ltb_spec offset (zlen data)); [|by eexists _, _, _; split; [done|lia]].
  destruct (vec_at_in data offset) as (b & -> & _); [lia|]. cbn [mbind outcome_bind].
  destruct (f b order acc) as [res acc']. repeat case_bool; try (eexists _, _, _; split; [done|lia]).
  destruct (IH (offset + 1) (S order) acc') as (fl & a & o & -> & ? & ?); [lia|].
  eexists _, _, _. split; [done|lia].
Qed.

(** The tag field: one byte, which is neither 0 nor 255. *)
Lemma tag_field data offset k :
  0 <= offset < zlen data -> (0 < k)%nat -> Forall is_u8 data ->
  exists b, data !! Z.to_nat offset = Some b /\ is_u8 b /\
    field_loop k TagFunc data offset 0 [] =
    if (b =? 0) || (b =? 255) then Ret (true, [], offset) else Ret (false, tag_chars b, offset + 1).
Proof.
  intros Ho Hk Hd. destruct k as [|k]; [lia|]. cbn [field_loop].
  destruct (Z.ltb_spec offset (zlen data)); [|lia].
  destruct (vec_at_in data offset Ho) as (b & -> & Hb). exists b. split; [done|].
  split; [rewrite Forall_lookup in Hd; by eapply Hd|]. cbn. by destruct (_ || _).
Qed.

(** The length field: what it fails on, or how many bytes it takes. *)
Lemma length_field data offset k :
  0 <= offset < zlen data -> (1 < k)%nat -> Forall is_u8 data ->
  exists failed len offset',
    field_loop k LengthFunc data offset 0 0 = Ret (failed, len, offset') /\ 0 <= len < 256 /\
    (failed = false -> offset < offset' <= zlen data).
Proof.
  intros Ho Hk Hd. destruct k as [|[|k]]; [lia..|]. cbn [field_loop].
  destruct (Z.ltb_spec offset (zlen data)); [|lia].
  destruct (vec_at_in data offset Ho) as (b & -> & Hb). rewrite Forall_lookup in Hd.
  pose proof (Hd _ _ Hb) as Hu. unfold is_u8 in Hu. cbn [mbind outcome_bind LengthFunc].
  unfold CHINESE_FLAG, UCS_FLAG, FINISH, CONTINUE, ERROR.
  destruct (Z.ltb_spec b 128); cbn; [eexists _, _, _; split; [done|lia]|].
  destruct (Z.eqb_spec b 129); cbn; [|by eexists _, _, _; split; [done|lia]].
  destruct (Z.ltb_spec (offset + 1) (zlen data)); [|eexists _, _, _; split; [done|lia]].
  destruct (vec_at_in data (offset + 1)) as (c & -> & Hc); [lia|]. pose proof (Hd _ _ Hc) as Hcu. unfold is_u8 in Hcu.
  cbn. eexists _, _, _. split; [done|lia].
Qed.

(** The state of a walk. *)
Definition walk_ok (t : TagService) : Prop := 0 <= offset_ t /\ Forall is_u8 (data_ t).

Lemma GetValue_in t :
  0 <= dataOffset_ t -> 0 <= length_ t -> dataOffset_ t + length_ t <= zlen (data_ t) ->
  exists v, GetValue t = Ret v /\ zlen v = length_ t.
Proof.
  intros Ho Hl Hz. set (pre := take (Z.to_nat (dataOffset_ t)) (data_ t)).
  set (rest := drop (Z.to_nat (dataOffset_ t)) (data_ t)).
  exists (take (Z.to_nat (length_ t)) rest).
  assert (zlen (take (Z.to_nat (length_ t)) rest) = length_ t) as Hv.
  { unfold rest, zlen in *. rewrite length_take, length_drop. lia. }
  split; [|done]. apply (GetValue_at t pre _ (drop (Z.to_nat (length_ t)) rest)); [|unfold pre, zlen in *; rewrite length_take; lia|done].
  rewrite take_drop. unfold pre, rest. by rewrite take_drop.
Qed.

Lemma Next_walk t :
  walk_ok t ->
  exists more t', Next t = Ret (more, t') /\ walk_ok t' /\ data_ t' = data_ t /\
    (more = true ->
       offset_ t < offset_ t' <= zlen (data_ t) /\ offset_ t' = dataOffset_ t' + length_ t' /\
       offset_ t < dataOffset_ t' /\ 0 <= length_ t' < 256 /\ 0 < GetTagCode t' < 255).
Proof.
  intros [Ho Hd]. unfold Next. destruct (negb (hasNext_ t) || (zlen (data_ t) <=? offset_ t)) eqn:E.
  { eexists _, _. split; [done|]. by split_and!. }
  assert (offset_ t < zlen (data_ t)) as Hlt by (destruct (hasNext_ t); cbn in E; lia).
  destruct (tag_field (data_ t) (offset_ t) (Z.to_nat (zlen (data_ t) - offset_ t))) as (b & _ & Hb & ->); [lia..|done|].
  destruct ((b =? 0) || (b =? 255)) eqn:Eb; cbn [mbind outcome_bind].
  { eexists _, _. split; [done|]. by split_and!. }
  cbn [data_]. destruct (Z.leb_spec (zlen (data_ t)) (offset_ t + 1)).
  { eexists _, _. split; [done|]. split_and!; [split; cbn; [lia|done]|done|done]. }
  set (k := Z.to_nat (zlen (data_ t) - (offset_ t + 1))).
  assert (exists failed len o, field_loop k LengthFunc (data_ t) (offset_ t + 1) 0 0 = Ret (failed, len, o) /\
            0 <= len < 256 /\ offset_ t + 1 <= o /\ (failed = false -> offset_ t + 1 < o <= zlen (data_ t)))
    as (failed & len & o & -> & Hlen & Hoo & Hof).
  { destruct (decide (k = 1%nat)) as [->|Hk].
    - cbn [field_loop]. destruct (Z.ltb_spec (offset_ t + 1) (zlen (data_ t))); [|lia].
      destruct (vec_at_in (data_ t) (offset_ t + 1)) as (c & -> & Hc); [lia|]. rewrite Forall_lookup in Hd.
      pose proof (Hd _ _ Hc) as Hu. unfold is_u8 in Hu. cbn [mbind outcome_bind LengthFunc].
      unfold CHINESE_FLAG, UCS_FLAG, FINISH, CONTINUE, ERROR.
      destruct (Z.ltb_spec c 128), (Z.eqb_spec c 129); cbn; eexists _, _, _; split; try done; lia.
    - destruct (length_field (data_ t) (offset_ t + 1) k) as (failed & len & o & E1 & ? & ?); [lia|lia|done|].
      destruct (field_loop_safe k LengthFunc (data_ t) (offset_ t + 1) 0 0) as (f2 & l2 & o2 & E2 & ? & ?); [lia|].
      rewrite E1 in E2. injection E2 as <- <- <-. exists failed, len, o. repeat (split; [assumption|]); assumption. }
  cbn [mbind outcome_bind tag_ hasNext_]. destruct failed.
  { eexists _, _. split; [done|]. split_and!; [split; cbn; [lia|done]|done|done]. }
  specialize (Hof eq_refl). cbn [offset_].
  assert (forall t', tag_ t' = tag_chars b -> 0 < GetTagCode t' < 255) as Htag.
  { intros t' Ht'. unfold is_u8 in Hb. rewrite (GetTagCode_chars t' b) by (done || lia). lia. }
  destruct (Z.ltb_spec (zlen (data_ t)) (o + len)).
  - eexists _, _. split; [done|]. split_and!; [split; cbn; [lia|done]|done|done].
  - eexists _, _. split; [done|]. split_and!; [split; cbn; [lia|done]|done|].
    intros _. cbn. split_and!; try lia. all: by apply Htag.
Qed.

Lemma read_all_walk n : forall t,
  walk_ok t -> zlen (data_ t) - offset_ t < Z.of_nat n /\ (0 < n)%nat ->
  exists l, forall fuel, (n <= fuel)%nat -> read_all fuel t = Ret l.
Proof.
  induction n as [|n IH]; intros t Ht Hn; [lia|].
  destruct (Next_walk t Ht) as (more & t' & E & Ht' & Hd & Hm). destruct more.
  - destruct (Hm eq_refl) as (Hlt & Hoff & Hdo & Hl & _).
    destruct (GetValue_in t') as (v & Hv & _); [destruct Ht; lia|lia|rewrite Hd; lia|].
    destruct (IH t' Ht') as [l Hrec]; [rewrite Hd; lia|].
    exists ((GetTagCode t', v) :: l). intros [|fuel] Hf; [lia|]. cbn [read_all]. rewrite E. cbn.
    rewrite Hv. cbn. by rewrite Hrec by lia.
  - exists []. intros [|fuel] Hf; [lia|]. cbn [read_all]. by rewrite E.
Qed.

(** An element as it is laid out: the tag, the length in one byte below 128 or
    after 0x81, the value. *)
Definition encode_element (e : Z * list Z) : list Z :=
  e.1 :: (if zlen e.2 <? CHINESE_FLAG then [zlen e.2] else [UCS_FLAG; zlen e.2]) ++ e.2.

Definition element_ok (e : Z * list Z) : Prop := 0 < e.1 < 255 /\ zlen e.2 < 256.

Lemma Next_element data pre e post o :
  data = pre ++ encode_element e ++ post -> element_ok e -> o = zlen pre ->
  exists off, forall l g d,
    Next (MkTag l g o data d true) =
    Ret (true, MkTag (zlen e.2) (tag_chars e.1) (zlen (pre ++ encode_element e)) data off true) /\
    GetValue (MkTag (zlen e.2) (tag_chars e.1) (zlen (pre ++ encode_element e)) data off true) = Ret e.2.
Proof.
  intros Hdata [Ht Hl] ->. destruct e as [tag v]. cbn [fst snd] in *. unfold encode_element in *. cbn [fst snd] in *.
  set (lb := if zlen v <? CHINESE_FLAG then [zlen v] else [UCS_FLAG; zlen v]) in *.
  pose proof (zlen_nonneg pre). pose proof (zlen_nonneg v). pose proof (zlen_nonneg post).
  exists (zlen (pre ++ tag :: lb)). intros l g d.
  assert (zlen data = zlen pre + 1 + zlen lb + zlen v + zlen post) as Hz by (rewrite Hdata; by_zlen).
  assert (1 <= zlen lb) as Hlb by (unfold lb; case_bool; zlen_simpl; lia).
  assert (vec_at data (zlen pre) = Ret tag) as E1.
  { apply (vec_at_at _ pre tag (lb ++ v ++ post)); [rewrite Hdata; cbn; by_assoc|done]. }
  assert (field_loop (Z.to_nat (zlen data - zlen pre)) TagFunc data (zlen pre) 0 [] =
          Ret (false, tag_chars tag, zlen pre + 1)) as E2.
  { destruct (Z.to_nat (zlen data - zlen pre)) eqn:En; [lia|]. cbn [field_loop].
    destruct (Z.ltb_spec (zlen pre) (zlen data)); [|lia]. rewrite E1. cbn [mbind outcome_bind TagFunc].
    replace ((tag =? 0) || (tag =? 255)) with false by lia. done. }
  assert (field_loop (Z.to_nat (zlen data - (zlen pre + 1))) LengthFunc data (zlen pre + 1) 0 0 =
          Ret (false, zlen v, zlen pre + 1 + zlen lb)) as E3.
  { destruct (Z.to_nat (zlen data - (zlen pre + 1))) as [|k] eqn:En; [lia|]. cbn [field_loop].
    destruct (Z.ltb_spec (zlen pre + 1) (zlen data)); [|lia]. unfold lb in *. clear lb.
    destruct (Z.ltb_spec (zlen v) CHINESE_FLAG) as [Hs|Hs].
    - rewrite (vec_at_at data (pre ++ [tag]) (zlen v) (v ++ post)); [|rewrite Hdata; cbn; by_assoc|by_zlen].
      cbn [mbind outcome_bind LengthFunc]. destruct (Z.ltb_spec (zlen v) CHINESE_FLAG); [|lia]. done.
    - rewrite (vec_at_at data (pre ++ [tag]) UCS_FLAG (zlen v :: v ++ post)); [|rewrite Hdata; cbn; by_assoc|by_zlen].
      cbn [mbind outcome_bind LengthFunc]. change (UCS_FLAG <? CHINESE_FLAG) with false. change (UCS_FLAG =? UCS_FLAG) with true.
      cbn. zlen_simpl. destruct k as [|k]; [lia|]. cbn [field_loop].
      destruct (Z.ltb_spec (zlen pre + 1 + 1) (zlen data)); [|lia].
      rewrite (vec_at_at data (pre ++ [tag; UCS_FLAG]) (zlen v) (v ++ post)); [|rewrite Hdata; cbn; by_assoc|by_zlen].
      cbn. do 2 f_equal. lia. }
  assert (zlen (pre ++ tag :: lb ++ v) = zlen pre + 1 + zlen lb + zlen v) as Hend by by_zlen.
  split.
  - unfold Next. cbn [data_ hasNext_ offset_ negb orb length_ dataOffset_].
    destruct (Z.leb_spec (zlen data) (zlen pre)); [lia|]. rewrite E2. cbn [mbind outcome_bind tag_ hasNext_].
    destruct (Z.leb_spec (zlen data) (zlen pre + 1)); [lia|]. rewrite E3. cbn [mbind outcome_bind tag_ hasNext_ offset_].
    destruct (Z.ltb_spec (zlen data) (zlen pre + 1 + zlen lb + zlen v)); [lia|]. cbn [hasNext_].
    rewrite Hend. do 3 f_equal. by_zlen.
  - apply (GetValue_at _ (pre ++ tag :: lb) v post); [cbn; rewrite Hdata; cbn; by_assoc|done|done].
Qed.

(** At the end of the data, or on padding, [Next] fails. *)
Lemma Next_end data pre post l g d :
  data = pre ++ post -> match post with [] => True | b :: _ => b = 0 \/ b = 255 end ->
  exists t', Next (MkTag l g (zlen pre) data d true) = Ret (false, t').
Proof.
  intros Hdata Hpost. unfold Next. cbn [data_ hasNext_ offset_ negb orb].
  destruct (Z.leb_spec (zlen data) (zlen pre)) as [|Hlt]; [by eexists|].
  destruct post as [|b post]; [rewrite Hdata, app_nil_r in Hlt; lia|].
  destruct (Z.to_nat (zlen data - zlen pre)) eqn:En; [lia|]. cbn [field_loop].
  destruct (Z.ltb_spec (zlen pre) (zlen data)); [|lia].
  rewrite (vec_at_at data pre b post) by done. cbn [mbind outcome_bind TagFunc].
  destruct Hpost as [-> | ->]; by eexists.
Qed.

Lemma read_all_elements es : forall pre post l g d fuel data,
  data = pre ++ concat (encode_element <$> es) ++ post ->
  Forall element_ok es -> match post with [] => True | b :: _ => b = 0 \/ b = 255 end ->
  (length es < fuel)%nat ->
  read_all fuel (MkTag l g (zlen pre) data d true) = Ret es.
Proof.
  induction es as [|e es IH]; intros pre post l g d fuel data Hdata Hes Hpost Hf; (destruct fuel as [|k]; [lia|]);
    cbn [read_all].
  - cbn in Hdata. by destruct (Next_end data pre post l g d Hdata Hpost) as [t' ->].
  - rewrite fmap_cons in Hdata. cbn [concat] in Hdata. apply Forall_cons in Hes as [He Hes].
    destruct (Next_element data pre e (concat (encode_element <$> es) ++ post) (zlen pre)) as [off Hn];
      [rewrite Hdata; by_assoc|done|done|].
    destruct (Hn l g d) as [-> Hv]. cbn [mbind outcome_bind negb]. rewrite Hv. cbn [mbind outcome_bind].
    rewrite (IH (pre ++ encode_element e) post _ _ _ k data); [|rewrite Hdata; by_assoc|done|done|cbn in Hf; lia].
    cbn. rewrite (GetTagCode_chars _ e.1) by (destruct He; done || lia). by destruct e.
Qed.

(** ** Properties *)

(** Walking over TLV data is safe and ends: on any bytes, no [at] throws while
    every element is read, each [Next] that succeeds moves forward to an element
    that lies in the data and has a tag code between 1 and 254, and the walk
    ends within one step per byte. *)
Theorem TagService_walk data :
  Forall is_u8 data ->
  (exists l, forall fuel, (length data < fuel)%nat -> read_all fuel (TagService_new data) = Ret l) /\
  (forall t more t', walk_ok t -> Next t = Ret (more, t') -> more = true ->
     offset_ t < offset_ t' <= zlen (data_ t') /\ 0 < GetTagCode t' < 255 /\
     exists v, GetValue t' = Ret v /\ zlen v = GetLength t').
Proof.
  intros Hd. split.
  - destruct (read_all_walk (S (length data)) (TagService_new data)) as [l Hl].
    + split; [done|exact Hd].
    + cbn. unfold zlen. lia.
    + exists l. intros fuel Hf. apply Hl. lia.
  - intros t more t' Ht E Hm. destruct (Next_walk t Ht) as (m & t2 & E2 & _ & Hdata & H).
    rewrite E in E2. injection E2 as <- <-. destruct (H Hm) as (? & ? & ? & ? & ?).
    destruct Ht. rewrite Hdata. split_and!; try lia. apply GetValue_in; [lia..|rewrite Hdata; lia].
Qed.

Lemma TagService_walk_witness :
  exists l, forall fuel, (5 < fuel)%nat -> read_all fuel (TagService_new [0x8A; 0x81; 200; 5; 255]) = Ret l.
Proof.
  destruct (TagService_walk [0x8A; 0x81; 200; 5; 255]) as [[l Hl] _].
  - repeat (apply Forall_cons; split; [done|]). constructor.
  - exists l. exact Hl.
Defined.

(** Elements laid out one after the other (tags 1 to 254, values of at most 255
    bytes), followed by nothing or by padding (0 or 255), are read back exactly,
    in order. *)
Theorem TagService_roundtrip es post fuel :
  Forall element_ok es -> match post with [] => True | b :: _ => b = 0 \/ b = 255 end ->
  (length es < fuel)%nat ->
  read_all fuel (TagService_new (concat (encode_element <$> es) ++ post)) = Ret es.
Proof.
  intros Hes Hpost Hf. apply (read_all_elements es [] post); done.
Qed.

Lemma TagService_roundtrip_witness :
  read_all 3 (TagService_new (concat (encode_element <$> [(0x80, [1; 2]); (0x82, replicate 130 7)]) ++ [255; 255])) =
  Ret [(0x80, [1; 2]); (0x82, replicate 130 7)].
Proof.
  apply (TagService_roundtrip [(0x80, [1; 2]); (0x82, replicate 130 7)] [255; 255] 3).
  - repeat (apply Forall_cons; split; [split; [split; reflexivity|vm_compute; reflexivity]|]). constructor.
  - right. reflexivity.
  - cbn. lia.
Defined.
