(* ===== verification/SimNumberDecode.v ===== *)
(** * [services/sim/src/sim_number_decode.cpp]: phone numbers in BCD

    Dialling numbers are stored two digits per byte, low half first, after a type
    byte (0x91 international, 0x81 unknown); values from 10 on stand for the
    characters of an extension alphabet, and 0xF in the last high half fills the
    byte. *)

From S2P Require Import Prelude CxxString.

Definition BCD_TYPE_ADN : Z := 1.
Definition BCD_TYPE_CALLER : Z := 2.
Definition FLAG_INTERNATIONAL : Z := 0x91.
Definition FLAG_UNKNOWN : Z := 0x81.
Definition BCD_ADN_EXTENTION : cstring := str "*#,N;".
Definition BCD_CALLER_EXTENTION : cstring := str "*#abc".
Definition CHAR_START : Z := 0xa.
Definition HALF_BYTE : Z := 0xf.
Definition HI_FOUR : Z := 0xf0.
Definition LO_FOUR : Z := 0x0f.
Definition FOUR_BIT : Z := 4.

Definition IsNumber (num : ascii) : bool := (48 <=? code num) && (code num <=? 57).
Definition IsPlusNumber (num : ascii) : bool := IsNumber num || Ascii.eqb num "+"%char.
Definition IsSharpStar (num : ascii) : bool := Ascii.eqb num "#"%char || Ascii.eqb num "*"%char.
Definition IsValidNumberChar (num : ascii) : bool := IsPlusNumber num || IsSharpStar num.
Definition IsValidNumberString (number : cstring) : bool := forallb IsValidNumberChar number.

Definition chooseExtendedByType (bcdExtType : Z) : option cstring :=
  if bcdExtType =? BCD_TYPE_ADN then Some BCD_ADN_EXTENTION
  else if bcdExtType =? BCD_TYPE_CALLER then Some BCD_CALLER_EXTENTION
  else None.

(** [extended.find(c)] *)
Fixpoint find_char (c : ascii) (s : cstring) (i : Z) : option Z :=
  match s with
  | [] => None
  | x :: t => if Ascii.eqb x c then Some i else find_char c t (i + 1)
  end.

Definition CharToBCD (c : ascii) (bcdExtType : Z) : option Z :=
  if IsNumber c then Some (code c - 48)
  else
    match chooseExtendedByType bcdExtType with
    | None => None
    | Some extended =>
        match find_char c extended 0 with
        | None => None
        | Some chrIdx => Some (u8 (chrIdx + CHAR_START))
        end
    end.

Definition BcdToChar (bcdCode : Z) (bcdExtType : Z) : option ascii :=
  let surplus := bcdCode - CHAR_START in
  if surplus <? 0 then Some (chr (48 + bcdCode))
  else
    match chooseExtendedByType bcdExtType with
    | None => None
    | Some extended => if zlen extended <=? surplus then None else extended !! Z.to_nat surplus
    end.

(** [bcdCodes.back() |= v] *)
Definition or_back (bcdCodes : list Z) (v : Z) : list Z :=
  removelast bcdCodes ++ [u8 (Z.lor (List.last bcdCodes 0) v)].

(** The loop over the characters; returns whether it went through, the bytes and
    the count. *)
Fixpoint bcd_loop (number : cstring) (bcdExtType : Z) (bcdCodes : list Z) (count : Z) : bool * list Z * Z :=
  match number with
  | [] => (true, bcdCodes, count)
  | num :: t =>
      if Ascii.eqb num "+"%char then bcd_loop t bcdExtType bcdCodes count
      else
        match CharToBCD num bcdExtType with
        | None => (false, bcdCodes, count)
        | Some c =>
            if count mod 2 =? 1 then bcd_loop t bcdExtType (or_back bcdCodes (Z.shiftl c FOUR_BIT)) (count + 1)
            else bcd_loop t bcdExtType (bcdCodes ++ [c]) (count + 1)
        end
  end.

Definition has_plus (number : cstring) : bool := existsb (fun c => Ascii.eqb c "+"%char) number.

Definition NumberConvertToBCD (number : cstring) (bcdCodes : list Z) (includeLen : bool) (bcdExtType : Z)
  : bool * list Z :=
  let hasPlus := has_plus number in
  let length := u8 (zlen number) in
  let length := if hasPlus then u8 (length - 1) else length in
  let bcdCodes := if includeLen then bcdCodes ++ [length] else bcdCodes in
  let bcdCodes := bcdCodes ++ [if hasPlus then FLAG_INTERNATIONAL else FLAG_UNKNOWN] in
  let '(ok, bcdCodes, count) := bcd_loop number bcdExtType bcdCodes 0 in
  if negb ok then (false, bcdCodes)
  else (true, if count mod 2 =? 1 then or_back bcdCodes HI_FOUR else bcdCodes).

(** Returns whether every digit was valid, and the number so far. *)
Fixpoint BCDSectionConvertToString (codes : list Z) (number : cstring) (bcdExtType : Z) : bool * cstring :=
  match codes with
  | [] => (true, number)
  | b :: t =>
      match BcdToChar (Z.land b LO_FOUR) bcdExtType with
      | None => (false, number)
      | Some c =>
          let number := number ++ [c] in
          let hiFourBit := Z.land (Z.shiftr b 4) HALF_BYTE in
          if (hiFourBit =? HALF_BYTE) && (match t with [] => true | _ => false end) then (true, number)
          else
            match BcdToChar hiFourBit bcdExtType with
            | None => (false, number)
            | Some c => BCDSectionConvertToString t (number ++ [c]) bcdExtType
            end
      end
  end.

(** [while ((numIt != number.end()) && IsPlusNumber( *numIt)) ++numIt] from
    position [i]. *)
Fixpoint skip_plus_number (s : cstring) (i : nat) : nat :=
  match s with
  | c :: t => if IsPlusNumber c then skip_plus_number t (S i) else i
  | [] => i
  end.

(** Reading [*numIt] at the end of the string is undefined. *)
Definition BCDConvertToString (codes : list Z) (number : cstring) (bcdExtType : Z) : outcome (bool * cstring) :=
  match codes with
  | [] => Ret (false, number)
  | b :: t =>
      let prependPlus := b =? FLAG_INTERNATIONAL in
      let number := (BCDSectionConvertToString t number bcdExtType).2 in
      if negb prependPlus then Ret (true, number)
      else
        match number with
        | [] => Ret (false, number)
        | front :: _ =>
            if negb (IsValidNumberString number) then Ret (false, number)
            else if negb (IsSharpStar front) then Ret (true, "+"%char :: number)
            else
              c ← vec_get number 1;
              if IsSharpStar c && Ascii.eqb (List.last number "0"%char) "#"%char
              then Ret (true, number ++ ["+"%char])
              else
                let i := skip_plus_number (drop 1 number) 1 in
                match number !! i, number !! S i with
                | Some c, Some _ =>
                    if IsSharpStar c then Ret (true, take (S i) number ++ ["+"%char] ++ drop (S i) number)
                    else Ret (true, number)
                | _, _ => Ret (true, number)
                end
        end
  end.

(** The overloads on a buffer of [dataLength] bytes. *)
Definition BCDConvertToString_buf (arr : list Z) (dataLength offset length bcdExtType : Z) : outcome cstring :=
  if dataLength <? offset + length then Ret []
  else
    codes ← (if length <=? 0 then Ret [] else vec_slice arr offset (offset + length));
    '(_, res) ← BCDConvertToString codes [] bcdExtType;
    Ret res.

Definition ExtensionBCDConvertToString (arr : list Z) (dataLength offset length bcdExtType : Z) : outcome cstring :=
  if dataLength <? offset + length then Ret []
  else
    codes ← (if length <=? 0 then Ret [] else vec_slice arr offset (offset + length));
    Ret (BCDSectionConvertToString codes [] bcdExtType).2.

Example bcd_ex :
  NumberConvertToBCD (str "+8613800") [] true BCD_TYPE_ADN = (true, [7; 0x91; 0x68; 0x31; 0x08; 0xF0]).
Proof. vm_compute. reflexivity. Qed.
Example bcd_ex2 :
  BCDConvertToString [0x91; 0x2A; 0xB1; 0x43; 0xF5] [] BCD_TYPE_ADN = Ret (true, str "*21#+345").
Proof. vm_compute. reflexivity. Qed.

(** ** Lemmas *)

Definition alphabet (bcdExtType : Z) (c : ascii) : bool :=
  match CharToBCD c bcdExtType with Some _ => true | None => false end.

Definition known_type (t : Z) : Prop := t = BCD_TYPE_ADN \/ t = BCD_TYPE_CALLER.

(** Every character of the alphabet is a value below 15, and comes back. *)
Lemma CharToBCD_inv t c :
  known_type t -> alphabet t c = true ->
  exists v, CharToBCD c t = Some v /\ 0 <= v < 15 /\ BcdToChar v t = Some c /\ c <> "+"%char.
Proof.
  intros Ht Hc.
  assert (match CharToBCD c t with
          | Some v => (0 <=? v) && (v <? 15) && (if BcdToChar v t is Some d then Ascii.eqb c d else false)
                      && negb (Ascii.eqb c "+"%char)
          | None => true end = true) as H.
  { destruct Ht as [-> | ->]; destruct c as [[] [] [] [] [] [] [] []]; vm_compute; reflexivity. }
  unfold alphabet in Hc. destruct (CharToBCD c t) as [v|]; [|done]. exists v. split; [done|].
  destruct (BcdToChar v t) as [d|]; [|by rewrite andb_false_r in H].
  apply andb_prop in H as [H Hp], H as [H Hd]. apply Ascii.eqb_eq in Hd as ->.
  apply negb_true_iff, Ascii.eqb_neq in Hp. split_and!; [lia|lia|done|done].
Qed.

(** Two digits per byte, the last byte filled with 0xF. *)
Fixpoint pack (ds : list Z) : list Z :=
  match ds with
  | [] => []
  | [a] => [Z.lor a HI_FOUR]
  | a :: b :: t => Z.lor a (Z.shiftl b 4) :: pack t
  end.

Lemma or_back_snoc l a v : 0 <= a < 16 -> 0 <= v < 16 -> or_back (l ++ [a]) (Z.shiftl v 4) = l ++ [Z.lor a (Z.shiftl v 4)].
Proof.
  intros Ha Hv. unfold or_back. rewrite removelast_last, last_last. do 2 f_equal. apply u8_small.
  assert (0 <= a * 16 + v < 256) as Hz by lia.
  pose proof (forallb_seqZ (fun z => let x := Z.lor (z / 16) (Z.shiftl (z mod 16) 4) in (0 <=? x) && (x <? 256)) 0 256
                ltac:(vm_compute; reflexivity) (a * 16 + v) Hz) as H. cbv zeta in H.
  rewrite (Z.add_comm (a * 16)), Z.div_add, Z.mod_add, Z.div_small, Z.mod_small, Z.add_0_l in H by lia.
  unfold is_u8. change (2 ^ 8) with 256. lia.
Qed.

Lemma pair_halves a b :
  0 <= a < 16 -> 0 <= b < 16 ->
  Z.land (Z.lor a (Z.shiftl b 4)) LO_FOUR = a /\ Z.land (Z.shiftr (Z.lor a (Z.shiftl b 4)) 4) HALF_BYTE = b.
Proof.
  intros Ha Hb. assert (0 <= a * 16 + b < 256) as Hz by lia.
  pose proof (forallb_seqZ (fun z => let x := Z.lor (z / 16) (Z.shiftl (z mod 16) 4) in
    (Z.land x LO_FOUR =? z / 16) && (Z.land (Z.shiftr x 4) HALF_BYTE =? z mod 16)) 0 256
                ltac:(vm_compute; reflexivity) (a * 16 + b) Hz) as H. cbv zeta in H.
  rewrite (Z.add_comm (a * 16)), Z.div_add, Z.mod_add, Z.div_small, Z.mod_small, Z.add_0_l in H by lia.
  apply andb_prop in H as [H1 H2]. split; by apply Z.eqb_eq.
Qed.

(** The loop, two characters at a time, then the filling. *)
Lemma bcd_loop_pack t ds : forall number bytes count,
  mapM (fun c => CharToBCD c t) number = Some ds -> Forall (fun c => c <> "+"%char) number ->
  Forall (fun d => 0 <= d < 15) ds -> count mod 2 = 0 -> 0 <= count ->
  exists bytes' count', bcd_loop number t bytes count = (true, bytes', count') /\
    (if count' mod 2 =? 1 then or_back bytes' HI_FOUR else bytes') = bytes ++ pack ds.
Proof.
  assert (forall n ds, (length ds <= n)%nat -> forall number bytes count,
    mapM (fun c => CharToBCD c t) number = Some ds -> Forall (fun c => c <> "+"%char) number ->
    Forall (fun d => 0 <= d < 15) ds -> count mod 2 = 0 -> 0 <= count ->
    exists bytes' count', bcd_loop number t bytes count = (true, bytes', count') /\
      (if count' mod 2 =? 1 then or_back bytes' HI_FOUR else bytes') = bytes ++ pack ds) as H;
    [|intros number; by apply (H (length ds))].
  clear ds. induction n as [|n IH]; intros ds Hn number bytes count Hm Hp Hd Hc Hc0.
  - destruct ds; [|cbn in Hn; lia]. apply mapM_Some in Hm. apply Forall2_nil_inv_r in Hm as ->.
    exists bytes, count. split; [done|]. by rewrite Hc, app_nil_r.
  - destruct number as [|c1 number]; cbn in Hm.
    { injection Hm as <-. exists bytes, count. split; [done|]. by rewrite Hc, app_nil_r. }
    destruct (CharToBCD c1 t) as [d1|] eqn:E1; [|done]. cbn in Hm.
    destruct (mapM (fun c => CharToBCD c t) number) as [ds'|] eqn:Em; [|done]. cbn in Hm. injection Hm as <-.
    apply Forall_cons in Hp as [Hp1 Hp], Hd as [Hd1 Hd].
    cbn [bcd_loop]. destruct (Ascii.eqb_spec c1 "+"%char); [done|]. rewrite E1, Hc. cbn [Z.eqb].
    assert ((count + 1) mod 2 = 1) as Hodd by (rewrite Z.add_mod, Hc by lia; done).
    destruct number as [|c2 number]; cbn in Em.
    + injection Em as <-. exists (bytes ++ [d1]), (count + 1). split; [done|]. rewrite Hodd. cbn [Z.eqb pack].
      change HI_FOUR with (Z.shiftl 15 4). by rewrite or_back_snoc by lia.
    + destruct (CharToBCD c2 t) as [d2|] eqn:E2; [|done]. cbn in Em.
      destruct (mapM (fun c => CharToBCD c t) number) as [ds2|] eqn:Em2; [|done]. cbn in Em. injection Em as <-.
      apply Forall_cons in Hp as [Hp2 Hp], Hd as [Hd2 Hd]. cbn [bcd_loop].
      destruct (Ascii.eqb_spec c2 "+"%char); [done|]. rewrite E2, Hodd. cbn [Z.eqb]. unfold FOUR_BIT.
      rewrite or_back_snoc by lia.
      destruct (IH ds2 ltac:(cbn in Hn; lia) number (bytes ++ [Z.lor d1 (Z.shiftl d2 4)]) (count + 1 + 1))
        as (b' & c' & -> & E); [done..| |lia|].
      { replace (count + 1 + 1) with (count + 1 * 2) by lia. by rewrite Z.mod_add by lia. }
      exists b', c'. split; [done|]. rewrite E. cbn [pack]. by rewrite <- app_assoc.
Qed.

Lemma section_pack t : forall n ds number acc,
  (length ds <= n)%nat -> Forall2 (fun d c => BcdToChar d t = Some c) ds number -> Forall (fun d => 0 <= d < 15) ds ->
  BCDSectionConvertToString (pack ds) acc t = (true, acc ++ number).
Proof.
  induction n as [|n IH]; intros ds number acc Hn H Hd.
  - destruct ds; [|cbn in Hn; lia]. apply Forall2_nil_inv_l in H as ->. cbn. by rewrite app_nil_r.
  - destruct ds as [|d1 [|d2 ds]].
    + apply Forall2_nil_inv_l in H as ->. cbn. by rewrite app_nil_r.
    + apply Forall2_cons_inv_l in H as (c & l & Hc & Hl & ->). apply Forall2_nil_inv_l in Hl as ->.
      apply Forall_cons in Hd as [Hd _]. cbn [pack BCDSectionConvertToString].
      change HI_FOUR with (Z.shiftl 15 4). destruct (pair_halves d1 15) as [-> ->]; [lia..|]. by rewrite Hc.
    + apply Forall2_cons_inv_l in H as (c1 & l & Hc1 & Hl & ->). apply Forall2_cons_inv_l in Hl as (c2 & l2 & Hc2 & Hl2 & ->).
      apply Forall_cons in Hd as [Hd1 Hd], Hd as [Hd2 Hd]. cbn [pack BCDSectionConvertToString].
      destruct (pair_halves d1 d2) as [-> ->]; [lia..|]. rewrite Hc1.
      destruct (Z.eqb_spec d2 HALF_BYTE) as [E|_]; [unfold HALF_BYTE in E; lia|]. cbn [andb]. rewrite Hc2.
      rewrite (IH ds l2) by (done || (cbn in Hn; lia)). by rewrite <- !app_assoc.
Qed.

Lemma number_digits t number :
  known_type t -> forallb (alphabet t) number = true ->
  exists ds, mapM (fun c => CharToBCD c t) number = Some ds /\ Forall (fun d => 0 <= d < 15) ds /\
    Forall2 (fun d c => BcdToChar d t = Some c) ds number /\ Forall (fun c => c <> "+"%char) number /\
    length ds = length number.
Proof.
  intros Ht. induction number as [|c number IH]; cbn; [intros _; exists []; by split_and!; [done|constructor..|done]|].
  intros [Hc Hn]%andb_prop. destruct (CharToBCD_inv t c Ht Hc) as (v & -> & Hv & Hb & Hp).
  destruct (IH Hn) as (ds & -> & Hds & Hf & Hps & Hl). exists (v :: ds). cbn. rewrite Hl.
  split_and!; [done|by constructor..|done].
Qed.

Lemma no_plus number : Forall (fun c => c <> "+"%char) number -> has_plus number = false.
Proof.
  induction 1 as [|c number Hc _ IH]; [done|]. unfold has_plus in *. cbn. rewrite IH.
  by destruct (Ascii.eqb_spec c "+"%char).
Qed.

Lemma pack_zlen ds : zlen (pack ds) = (zlen ds + 1) / 2.
Proof.
  assert (forall n ds, (length ds <= n)%nat -> zlen (pack ds) = (zlen ds + 1) / 2) as H; [|by apply (H (length ds))].
  clear ds. induction n as [|n IH]; intros ds Hn; [by destruct ds; [|cbn in Hn; lia]|].
  destruct ds as [|a [|b ds]]; [done|done|]. cbn [pack]. zlen_simpl. rewrite IH by (cbn in Hn; lia).
  replace (1 + (1 + zlen ds) + 1) with (zlen ds + 1 + 1 * 2) by lia. rewrite Z.div_add by lia. lia.
Qed.

(** A number of the alphabet, with or without a plus sign before it, and its BCD form. *)
Lemma convert_number t number plus :
  known_type t -> forallb (alphabet t) number = true ->
  exists ds,
    NumberConvertToBCD (if (plus : bool) then "+"%char :: number else number) [] false t =
      (true, (if plus then FLAG_INTERNATIONAL else FLAG_UNKNOWN) :: pack ds) /\
    length ds = length number /\
    BCDSectionConvertToString (pack ds) [] t = (true, number).
Proof.
  intros Ht Hn. destruct (number_digits t number Ht Hn) as (ds & Hm & Hd & Hf & Hp & Hl).
  exists ds. split; [|split; [done|by rewrite (section_pack t (length ds) ds number)]].
  unfold NumberConvertToBCD. cbn [app].
  assert (has_plus (if plus then "+"%char :: number else number) = plus) as ->.
  { destruct plus; [done|by apply no_plus]. }
  set (flag := if plus then FLAG_INTERNATIONAL else FLAG_UNKNOWN).
  destruct (bcd_loop_pack t ds number [flag] 0 Hm Hp Hd) as (b & c & E1 & E2); [done|lia|].
  assert (bcd_loop (if plus then "+"%char :: number else number) t [flag] 0 = (true, b, c)) as ->.
  { by destruct plus. }
  cbn [negb]. by rewrite E2.
Qed.

(** ** Properties *)

(** A number written with the characters of its alphabet (digits and the
    extension of the ADN or caller type) is stored in one type byte and half as
    many bytes as characters, rounded up, and read back unchanged. *)
Theorem bcd_roundtrip t number :
  known_type t -> forallb (alphabet t) number = true ->
  exists body, NumberConvertToBCD number [] false t = (true, FLAG_UNKNOWN :: body) /\
    zlen body = (zlen number + 1) / 2 /\
    BCDConvertToString (FLAG_UNKNOWN :: body) [] t = Ret (true, number).
Proof.
  intros Ht Hn. destruct (convert_number t number false Ht Hn) as (ds & E & Hl & Hs).
  exists (pack ds). split; [done|]. split; [rewrite pack_zlen; unfold zlen; by rewrite Hl|].
  unfold BCDConvertToString. by rewrite Hs.
Qed.

Lemma bcd_roundtrip_witness :
  exists body, NumberConvertToBCD (str "*13800#,12") [] false BCD_TYPE_ADN = (true, FLAG_UNKNOWN :: body) /\
    zlen body = 5 /\ BCDConvertToString (FLAG_UNKNOWN :: body) [] BCD_TYPE_ADN = Ret (true, str "*13800#,12").
Proof.
  apply (bcd_roundtrip BCD_TYPE_ADN (str "*13800#,12")).
  - left. reflexivity.
  - vm_compute. reflexivity.
Defined.

(** An international number: a plus sign before a number that starts with
    neither '#' nor '*' is stored in the type byte and put back when the number
    is read, but only if every character is a digit, '#' or '*'. When the number
    has a character of the extension alphabet that [IsValidNumberString] does not
    know (',', 'N', ';', 'a', 'b', 'c'), the reading fails and leaves the number
    without its plus sign. *)
Theorem bcd_international t c number :
  known_type t -> forallb (alphabet t) (c :: number) = true -> IsSharpStar c = false ->
  exists body, NumberConvertToBCD ("+"%char :: c :: number) [] false t = (true, FLAG_INTERNATIONAL :: body) /\
    BCDConvertToString (FLAG_INTERNATIONAL :: body) [] t =
    Ret (if IsValidNumberString (c :: number) then (true, "+"%char :: c :: number) else (false, c :: number)).
Proof.
  intros Ht Hn Hc. destruct (convert_number t (c :: number) true Ht Hn) as (ds & E & _ & Hs).
  exists (pack ds). split; [exact E|]. unfold BCDConvertToString. rewrite Hs. cbn [snd negb Z.eqb].
  change (FLAG_INTERNATIONAL =? FLAG_INTERNATIONAL) with true. cbn [negb].
  destruct (IsValidNumberString (c :: number)); cbn [negb]; [|done]. by rewrite Hc.
Qed.

Lemma bcd_international_witness :
  exists body, NumberConvertToBCD (str "+86138,1") [] false BCD_TYPE_ADN = (true, FLAG_INTERNATIONAL :: body) /\
    BCDConvertToString (FLAG_INTERNATIONAL :: body) [] BCD_TYPE_ADN = Ret (false, str "86138,1").
Proof.
  apply (bcd_international BCD_TYPE_ADN "8"%char (str "6138,1")).
  - left. reflexivity.
  - vm_compute. reflexivity.
  - reflexivity.
Defined.
