(* ===== verification/SimUtils.v ===== *)
(** * [services/sim/src/sim_utils.cpp]: reading the text fields of a card

    Hexadecimal strings and bytes, PLMN codes, the GSM 7-bit alphabet packed in
    bytes or one character per byte, the UCS-2 encodings of dialling number names.
    A buffer is a list of bytes; a read outside it is undefined. Wide strings are
    lists of code points, UTF-16 strings lists of code units, UTF-8 strings are
    characters. [Str16ToStr8] is of another repository (c_utils): a parameter. *)

From S2P Require Import Prelude CxxString.

Definition DECIMAL_MAX : Z := 10.
Definition HALF_LEN : Z := 2.
Definition HALF_BYTE_LEN : Z := 4.
Definition SEVENF_DATA : Z := 0x7F.
Definition F0_DATA : Z := 0x80.
Definition FF_DATA : Z := 0xFF.
Definition CHINESE_FLAG : Z := 0x80.
Definition UCS_FLAG : Z := 0x81.
Definition UCS_WIDE_FLAG : Z := 0x82.
Definition HEX_HUNDRE : Z := 0x100.
Definition UCS_OFFSET : Z := 3.
Definition UCS_WIDE_OFFSET : Z := 4.
Definition CHAR_GSM_7BIT : Z := 7.
Definition UCS_BASE_POS : Z := 2.
Definition START_POS : Z := 3.
Definition END_POS : Z := 4.
Definition EXTRA_7BIT : Z := 7.
Definition BYTE_LENGTH : Z := 8.
Definition BYTE_VALUE : Z := 0xFF.
Definition BYTE_BIT : Z := 8.
Definition BYTE_LESS : Z := 7.

(** GSM 03.38 *)
Definition LANGUAGE_TABLE : list Z :=
  [64; 163; 36; 165; 232; 233; 249; 236; 242; 199; 10; 216; 248; 13; 197; 229;
   916; 95; 934; 915; 923; 937; 928; 936; 931; 920; 926; 65535; 198; 230; 223; 201;
   32; 33; 34; 35; 164; 37; 38; 39; 40; 41; 42; 43; 44; 45; 46; 47;
   48; 49; 50; 51; 52; 53; 54; 55; 56; 57; 58; 59; 60; 61; 62; 63;
   161; 65; 66; 67; 68; 69; 70; 71; 72; 73; 74; 75; 76; 77; 78; 79;
   80; 81; 82; 83; 84; 85; 86; 87; 88; 89; 90; 196; 214; 209; 220; 167;
   191; 97; 98; 99; 100; 101; 102; 103; 104; 105; 106; 107; 108; 109; 110; 111;
   112; 113; 114; 115; 116; 117; 118; 119; 120; 121; 122; 228; 246; 241; 252; 224].

Definition LANGUAGE_EXT_TABLE_MAP : list (Z * Z) :=
  [(0x0A, 12); (0x14, 94); (0x28, 123); (0x29, 125); (0x2F, 92); (0x3C, 91); (0x3D, 126);
   (0x3E, 93); (0x40, 124); (0x65, 172)].

(** ** Hexadecimal *)

Definition HexCharConvertToInt (c : ascii) : Z :=
  let n := code c in
  if (48 <=? n) && (n <=? 57) then n - 48
  else if (65 <=? n) && (n <=? 70) then n - 65 + DECIMAL_MAX
  else if (97 <=? n) && (n <=? 102) then n - 97 + DECIMAL_MAX
  else 0.

Fixpoint hex_bytes (s : cstring) : list Z :=
  match s with
  | a :: b :: t => u8 (Z.lor (Z.shiftl (HexCharConvertToInt a) HALF_BYTE_LEN) (HexCharConvertToInt b)) :: hex_bytes t
  | _ => []
  end.

(** The buffer, which ends with a zero byte, and [byteslen] (left as it was when
    the string is refused). *)
Definition HexStringConvertToBytes (s : cstring) (byteslen : Z) : option (list Z) * Z :=
  if zlen s =? 0 then (None, byteslen)
  else if negb (zlen s mod HALF_LEN =? 0) then (None, byteslen)
  else (Some (hex_bytes s ++ [0]), zlen s / HALF_LEN).

Definition HEX_CHARS : cstring := str "0123456789ABCDEF".

Definition hex_chars (b : Z) : cstring :=
  [nth (Z.to_nat (Z.land 0x0f (Z.shiftr b HALF_BYTE_LEN))) HEX_CHARS "0"%char;
   nth (Z.to_nat (Z.land 0x0f b)) HEX_CHARS "0"%char].

Definition BytesConvertToHexString (bytes : option (list Z)) (byteLen : Z) : outcome cstring :=
  match bytes with
  | None => Ret []
  | Some bytes =>
      foldr (fun i r => b ← vec_get bytes i; s ← r; Ret (hex_chars b ++ s)) (Ret []) (seqZ 0 byteLen)
  end.

Definition HexVecToHexStr (arr : list Z) : cstring := arr ≫= (fun b => put_hex 2 b).

(** [dest] after the copy; the pointers are [src + srcPos] and [dest + destPos]. *)
Definition ArrayCopy (src : option (list Z)) (srcPos : Z) (dest : option (list Z)) (destPos length : Z)
  : outcome (option (list Z)) :=
  match src, dest with
  | Some s, Some d =>
      if (length <=? 0) || (srcPos <? 0) || (destPos <? 0) then Ret dest
      else
        vs ← vec_slice s srcPos (srcPos + length);
        if destPos + length <=? zlen d
        then Ret (Some (take (Z.to_nat destPos) d ++ vs ++ drop (Z.to_nat (destPos + length)) d))
        else Undef
  | _, _ => Ret dest
  end.

Definition IsShowableAscii (c : ascii) : bool :=
  ((0x20 <=? code c) && (code c <=? 0x7E)) || (code c =? 13) || (code c =? 10).

Definition IsShowableAsciiOnly (s : cstring) : bool := forallb IsShowableAscii s.

(** ** PLMN codes (TS 31.102 4.2.59): the positions of the digits *)

Definition BCD_PLMN_MCC2 : Z := 0.
Definition BCD_PLMN_MCC1 : Z := 1.
Definition BCD_PLMN_MNC3 : Z := 2.
Definition BCD_PLMN_MCC3 : Z := 3.
Definition BCD_PLMN_MNC2 : Z := 4.
Definition BCD_PLMN_MNC1 : Z := 5.
Definition MCCMNC_LEN : Z := 6.

Definition BcdPlmnConvertToString (data : cstring) (offset : Z) : outcome cstring :=
  if zlen data <? offset + MCCMNC_LEN then Ret []
  else
    first ← vec_at data offset;
    if Ascii.eqb first "F"%char then Ret []
    else
      mcc1 ← vec_get data (offset + BCD_PLMN_MCC1);
      mcc2 ← vec_get data (offset + BCD_PLMN_MCC2);
      mcc3 ← vec_get data (offset + BCD_PLMN_MCC3);
      mnc1 ← vec_get data (offset + BCD_PLMN_MNC1);
      mnc2 ← vec_get data (offset + BCD_PLMN_MNC2);
      mnc3 ← vec_at data (offset + BCD_PLMN_MNC3);
      Ret ([mcc1; mcc2; mcc3; mnc1; mnc2] ++ if Ascii.eqb mnc3 "F"%char then [] else [mnc3]).

(** ** Wide strings to UTF-8 ([utils/common/src/str_convert.cpp], [std::codecvt_utf8]) *)

Definition utf8_char (c : Z) : cstring :=
  chr <$>
  (if c <? 0x80 then [c]
   else if c <? 0x800 then [Z.lor 0xC0 (Z.shiftr c 6); Z.lor 0x80 (Z.land c 0x3F)]
   else if c <? 0x10000 then
     [Z.lor 0xE0 (Z.shiftr c 12); Z.lor 0x80 (Z.land (Z.shiftr c 6) 0x3F); Z.lor 0x80 (Z.land c 0x3F)]
   else [Z.lor 0xF0 (Z.shiftr c 18); Z.lor 0x80 (Z.land (Z.shiftr c 12) 0x3F);
         Z.lor 0x80 (Z.land (Z.shiftr c 6) 0x3F); Z.lor 0x80 (Z.land c 0x3F)]).

Definition ToUtf8 (wide : list Z) : cstring := wide ≫= utf8_char.

(** ** GSM 7-bit, eight characters in seven bytes *)

(** One iteration: the value read, and [pos] and [left] after it. [left] is the
    number of bits of the current byte that are not read yet. *)
Definition gsm_step (bytes : list Z) (pos left : Z) : outcome (Z * Z * Z) :=
  if left =? BYTE_LENGTH then
    b ← vec_get bytes pos;
    Ret (u8 (Z.land b (Z.lnot (Z.shiftl 0xFF CHAR_GSM_7BIT))), pos, left - CHAR_GSM_7BIT)
  else if left =? CHAR_GSM_7BIT then
    b ← vec_get bytes pos;
    Ret (u8 (Z.shiftr (Z.land b (Z.shiftl 0xFF (BYTE_LENGTH - left))) (BYTE_LENGTH - left)), pos + 1, BYTE_LENGTH)
  else
    b0 ← vec_get bytes pos;
    b1 ← vec_get bytes (pos + 1);
    let low := u8 (Z.shiftr (Z.land b0 (u8 (Z.shiftl 0xFF (BYTE_LENGTH - left)))) (BYTE_LENGTH - left)) in
    let high := u8 (Z.shiftl (Z.land b1 (u8 (Z.lnot (Z.shiftl 0xFF (CHAR_GSM_7BIT - left))))) left) in
    Ret (u8 (Z.lor low high), pos + 1, BYTE_LENGTH - (CHAR_GSM_7BIT - left)).

(** The loop: [n] values. *)
Fixpoint gsm_values (n : nat) (bytes : list Z) (pos left : Z) : outcome (list Z) :=
  match n with
  | O => Ret []
  | S k =>
      '(v, pos, left) ← gsm_step bytes pos left;
      vs ← gsm_values k bytes pos left;
      Ret (v :: vs)
  end.

(** [continue] on a value outside the table. *)
Definition gsm_char (v : Z) : list Z :=
  if (v <? 0) || (129 <=? v) then [] else [nth (Z.to_nat v) LANGUAGE_TABLE 0].

Definition Gsm7bitConvertToString (bytes : list Z) (byteLen state : Z) : outcome cstring :=
  let n := Z.quot (byteLen * BYTE_LENGTH) CHAR_GSM_7BIT in
  vs ← gsm_values (Z.to_nat n) bytes 0 BYTE_LENGTH;
  let wide_str := vs ≫= gsm_char in
  let extraBit := Z.land state 0x0F in
  (* [substr(0, n - 1)]: a negative count is converted to a huge one *)
  let wide_str := if extraBit =? EXTRA_7BIT
                  then if n - 1 <? 0 then wide_str else take (Z.to_nat (n - 1)) wide_str
                  else wide_str in
  Ret (ToUtf8 wide_str).

(** ** GSM 7-bit, one character per byte, as hexadecimal *)

Definition ext_char (v : Z) : option Z :=
  (fix go (m : list (Z * Z)) :=
     match m with [] => None | (k, c) :: t => if k =? v then Some c else go t end) LANGUAGE_EXT_TABLE_MAP.

(** The characters from [bytes], and [escTag]. *)
Fixpoint cphs_loop (bytes : cstring) (escTag : bool) : list Z :=
  match bytes with
  | lo :: hi :: t =>
      let gsmVal := HexCharConvertToInt lo * 16 + HexCharConvertToInt hi in
      if (gsmVal <? 0) || (zlen LANGUAGE_TABLE <=? gsmVal) then cphs_loop t escTag
      else if negb escTag && (gsmVal =? 0x1B) then cphs_loop t true
      else if escTag && (gsmVal =? 0x1B) then 32 :: cphs_loop t false
      else if escTag then
        match ext_char gsmVal with
        | Some c => c :: cphs_loop t false
        | None => nth (Z.to_nat gsmVal) LANGUAGE_TABLE 0 :: cphs_loop t false
        end
      else nth (Z.to_nat gsmVal) LANGUAGE_TABLE 0 :: cphs_loop t escTag
  | _ => []
  end.

(** [strlen] stops at the first NUL. *)
Fixpoint until_nul (s : cstring) : cstring :=
  match s with [] => [] | c :: t => if code c =? 0 then [] else c :: until_nul t end.

Definition Cphs7bitConvertToString (rawData : cstring) : cstring :=
  match rawData with
  | [] => []
  | _ => ToUtf8 (cphs_loop (until_nul rawData) false)
  end.

(** ** UCS-2 *)

(** The code units, or null. *)
Definition CharsConvertToChar16 (charBytes : list Z) (charBytesLen : Z) (bigEndian : bool) : outcome (option (list Z)) :=
  if charBytesLen =? 0 then Ret None
  else if negb (Z.rem charBytesLen HALF_LEN =? 0) then Ret None
  else
    units ← foldr (fun i r =>
                     high ← vec_get charBytes (2 * i);
                     low ← vec_get charBytes (2 * i + 1);
                     us ← r;
                     Ret ((if bigEndian then u16 (Z.lor (Z.shiftl high BYTE_LENGTH) low)
                           else u16 (Z.lor (Z.shiftl low BYTE_LENGTH) high)) :: us))
                  (Ret []) (seqZ 0 (Z.quot charBytesLen HALF_LEN));
    Ret (Some units).

(** [std::u16string(p, 0, n)]: the characters up to the first zero, at most [n];
    undefined on a null pointer. *)
Fixpoint until_zero (us : list Z) : list Z :=
  match us with [] => [] | u :: t => if u =? 0 then [] else u :: until_zero t end.

Definition u16string_of (cs : option (list Z)) : outcome (list Z) :=
  match cs with None => Undef | Some us => Ret (until_zero us) end.

(** The loops of [UcsConvertToString] and [UcsWideConvertToString]: [chars] gives
    the two bytes stored at [index] and [index + 1] for a character of [data]. The
    loop ends after at most [len] turns. *)
Fixpoint ucs_loop (chars : Z -> outcome (Z * Z)) (fuel : nat) (data : list Z)
    (length offset len dataOffset index : Z) (dataUsc : list Z) : outcome (list Z) :=
  match fuel with
  | O => Ret dataUsc
  | S k =>
      if (index <? len * HALF_LEN) && (offset + dataOffset <? length) then
        d ← vec_get data (offset + dataOffset);
        '(hi, lo) ← chars d;
        let dataUsc := <[Z.to_nat (index + 1) := lo]> (<[Z.to_nat index := hi]> dataUsc) in
        ucs_loop chars k data length offset len (dataOffset + 1) (index + HALF_LEN) dataUsc
      else Ret dataUsc
  end.

Definition ucs_chars (data : list Z) (offset d : Z) : outcome (Z * Z) :=
  base ← (if 0 <? Z.land d F0_DATA then
            b ← vec_get data (offset + UCS_BASE_POS);
            Ret (Z.shiftl (Z.land b BYTE_VALUE) BYTE_LESS)
          else Ret 0);
  let dataDouble := base + Z.land d SEVENF_DATA in
  Ret (u8 (dataDouble / HEX_HUNDRE), u8 (dataDouble mod HEX_HUNDRE)).

Definition ucs_wide_chars (base d : Z) : outcome (Z * Z) :=
  if 0 <? Z.land d F0_DATA then
    let dataDouble := base + Z.land d SEVENF_DATA in
    Ret (u8 (dataDouble / HEX_HUNDRE), u8 (dataDouble mod HEX_HUNDRE))
  else Ret (0, d).

(** [new unsigned char\[n\]{ FF_DATA }]: only the first byte is 0xFF. *)
Definition new_ucs (len : Z) : list Z := FF_DATA :: replicate (Z.to_nat (len * HALF_LEN) - 1) 0.

Definition UcsConvertToString (data : list Z) (length offset : Z) : outcome (list Z) :=
  if length <=? offset + 1 then Ret []
  else
    l ← vec_get data (offset + 1);
    let len := Z.land l BYTE_VALUE in
    let len := if length - START_POS <? len then length - START_POS else len in
    if len <=? 0 then Ret []
    else
      dataUsc ← ucs_loop (ucs_chars data offset) (Z.to_nat len) data length offset len UCS_OFFSET 0 (new_ucs len);
      cs ← CharsConvertToChar16 dataUsc (len * HALF_LEN) true;
      match cs with None => Ret [] | Some _ => u16string_of cs end.

Definition UcsWideConvertToString (data : list Z) (length offset : Z) : outcome (list Z) :=
  if length <=? offset + 1 then Ret []
  else
    l ← vec_get data (offset + 1);
    let len := Z.land l BYTE_VALUE in
    let len := if length - END_POS <? len then length - END_POS else len in
    if len <=? 0 then Ret []
    else
      b0 ← vec_get data (offset + UCS_BASE_POS);
      b1 ← vec_get data (offset + UCS_BASE_POS + 1);
      let base := Z.shiftl b0 BYTE_BIT + b1 in
      dataUsc ← ucs_loop (ucs_wide_chars base) (Z.to_nat len) data length offset len UCS_WIDE_OFFSET 0 (new_ucs len);
      cs ← CharsConvertToChar16 dataUsc (len * HALF_LEN) true;
      match cs with None => Ret [] | Some _ => u16string_of cs end.

(** [while (ucslen > 0 && hs.at(ucslen - 1) == 0xFFFF) ucslen--], then the prefix. *)
Definition trim_ffff (hs : list Z) : list Z :=
  rev ((fix go (l : list Z) := match l with u :: t => if u =? 0xFFFF then go t else l | [] => [] end) (rev hs)).

Section Dialling.
Context (Str16ToStr8 : list Z -> cstring).

Definition DiallingNumberStringFieldConvertToString (array : option (list Z)) (offset length offPos : Z)
  : outcome cstring :=
  match array with
  | None => Ret []
  | Some data =>
      if (length <=? offset) || (offset <? 0) then Ret []
      else
        flag ← vec_get data offset;
        hs ← (if flag =? CHINESE_FLAG then
                let ucslen := Z.quot (length - 1) HALF_LEN in
                cs ← CharsConvertToChar16 (drop 1 data) (ucslen * HALF_LEN) true;
                u16string_of cs
              else Ret []);
        hs ← (if (START_POS <=? length) && (flag =? UCS_FLAG) then UcsConvertToString data length offset else Ret hs);
        hs ← (if (END_POS <=? length) && (flag =? UCS_WIDE_FLAG) then UcsWideConvertToString data length offset else Ret hs);
        match hs with
        | _ :: _ => Ret (Str16ToStr8 (trim_ffff hs))
        | [] =>
            tempData ← BytesConvertToHexString (Some data) length;
            Ret (Cphs7bitConvertToString tempData)
        end
  end.
End Dialling.

(** [std::string(data, offset, i)]: the bytes up to the first zero (undefined when
    the buffer has none), from [offset], at most [i]; throws when [offset] is past them. *)
Fixpoint scan_8bit (l : list Z) (n : nat) : nat :=
  match n, l with S k, b :: t => if Z.land b BYTE_VALUE =? BYTE_VALUE then O else S (scan_8bit t k) | _, _ => O end.

Definition Decode8BitConvertToString (data : option (list Z)) (length offset : Z) : outcome cstring :=
  match data with
  | None => Ret []
  | Some data =>
      if (length <=? offset + 1) || (offset <? 0) then Ret []
      else if (zlen data <? length) || negb (existsb (Z.eqb 0) data) then Undef
      else
        let i := scan_8bit (drop (Z.to_nat offset) data) (Z.to_nat (length - offset)) in
        s ← substr (chr <$> until_zero data) offset (Z.of_nat i);
        Ret s
  end.

(** [Trim] erases the spaces at both ends. *)
Definition is_blank (c : ascii) : bool := Ascii.eqb c " "%char.
Fixpoint drop_blanks (s : cstring) : cstring :=
  match s with c :: t => if is_blank c then drop_blanks t else s | [] => [] end.

Definition Trim (s : cstring) : cstring :=
  let no_end := rev (drop_blanks (rev s)) in
  match no_end with [] => [] | _ => drop_blanks no_end end.

Example gsm7_ex :
  Gsm7bitConvertToString [0xC8; 0x32; 0x9B; 0xFD; 0x06] 5 0 = Ret (str "Hello").
Proof. vm_compute. reflexivity. Qed.
Example cphs_ex : Cphs7bitConvertToString (str "48691B28") = str "Hi{".
Proof. vm_compute. reflexivity. Qed.
Example plmn_ex : BcdPlmnConvertToString (str "64F010") 0 = Ret (str "46001").
Proof. vm_compute. reflexivity. Qed.

(** ** GSM 7-bit: the values are the consecutive septets of the little-endian number *)

Definition le_value (bytes : list Z) : Z := foldr (fun b acc => b + 256 * acc) 0 bytes.

Definition septet (bytes : list Z) (i : Z) : Z := Z.land (Z.shiftr (le_value bytes) (7 * i)) 127.

Lemma le_value_nonneg bytes : Forall is_u8 bytes -> 0 <= le_value bytes.
Proof.
  induction 1 as [|b l Hb Hl IH]; [done|].
  change (le_value (b :: l)) with (b + 256 * le_value l). unfold is_u8 in Hb. lia.
Qed.

Lemma le_testbit bytes k b :
  Forall is_u8 bytes -> 0 <= k -> bytes !! Z.to_nat (k / 8) = Some b ->
  Z.testbit (le_value bytes) k = Z.testbit b (k mod 8).
Proof.
  intros H. revert k. induction H as [|a l Ha Hl IH]; intros k Hk Hb; [done|].
  change (le_value (a :: l)) with (a + 256 * le_value l).
  assert (E : a + 256 * le_value l = Z.lor a (Z.shiftl (le_value l) 8)).
  { rewrite Z.shiftl_mul_pow2, (Z.mul_comm 256) by lia. apply Z.add_nocarry_lor, Z.bits_inj'. intros i Hi. rewrite Z.land_spec, Z.bits_0.
    destruct (decide (i < 8)) as [L|L].
    - rewrite Z.mul_pow2_bits_low by lia. apply andb_false_r.
    - rewrite (testbit_high a 8) by (unfold is_u8 in Ha; lia). done. }
  rewrite E, Z.lor_spec, Z.shiftl_spec by lia.
  destruct (decide (k < 8)) as [L|L].
  - rewrite Z.div_small in Hb by lia. injection Hb as ->.
    rewrite (Z.testbit_neg_r _ (k - 8)) by lia. rewrite Z.mod_small by lia. apply orb_false_r.
  - rewrite (testbit_high a 8) by (unfold is_u8 in Ha; lia). rewrite orb_false_l.
    replace (Z.to_nat (k / 8)) with (S (Z.to_nat ((k - 8) / 8))) in Hb.
    2: { replace k with ((k - 8) + 1 * 8) at 2 by lia. rewrite Z.div_add by lia.
         assert (0 <= (k - 8) / 8) by (apply Z.div_pos; lia). lia. }
    rewrite (IH (k - 8)) by (done || lia). f_equal.
    replace k with ((k - 8) + 1 * 8) at 2 by lia. by rewrite Z.mod_add by lia.
Qed.

Lemma septet_testbit bytes i j :
  0 <= i -> 0 <= j < 7 -> Z.testbit (septet bytes i) j = Z.testbit (le_value bytes) (7 * i + j).
Proof.
  intros Hi Hj. unfold septet. rewrite Z.land_spec, Z.shiftr_spec by lia.
  replace (Z.testbit 127 j) with true; [|enum_Z j].
  rewrite andb_true_r. f_equal. lia.
Qed.

Lemma septet_range bytes i : 0 <= septet bytes i < 128.
Proof. unfold septet. change 127 with (Z.ones 7). rewrite Z.land_ones by lia. apply Z.mod_pos_bound. lia. Qed.

(** The bits of the value put together from two bytes. *)
Definition septet_bit (b0 b1 left j : Z) : bool :=
  if j =? 7 then false else if j <? left then Z.testbit b0 (8 - left + j) else Z.testbit b1 (j - left).

Ltac bit_step :=
  first
  [ rewrite Z.mod_pow2_bits_low by lia
  | rewrite Z.lor_spec
  | rewrite Z.land_spec
  | rewrite Z.shiftr_spec by lia
  | rewrite Z.shiftl_spec by lia
  | match goal with
    | |- context [Z.testbit ?c ?i] =>
        is_closed_bit c; is_closed_bit i; let r := eval vm_compute in (Z.testbit c i) in
        change (Z.testbit c i) with r
    end
  | rewrite andb_true_r | rewrite andb_false_r | rewrite orb_false_r | rewrite orb_false_l
  | rewrite Z.testbit_neg_r by lia ]
with is_closed_bit c :=
  let r := eval vm_compute in c in
  match r with Z0 => idtac | Zpos _ => idtac | Zneg _ => idtac end.

Lemma bits_first b0 j : 0 <= j < 8 ->
  Z.testbit (u8 (Z.land b0 (Z.lnot (Z.shiftl 0xFF CHAR_GSM_7BIT)))) j = septet_bit b0 0 8 j.
Proof. intros Hj. unfold u8, septet_bit. enum_Z j; repeat bit_step; reflexivity. Qed.

Lemma bits_last b0 j : is_u8 b0 -> 0 <= j < 8 ->
  Z.testbit (u8 (Z.shiftr (Z.land b0 (Z.shiftl 0xFF (BYTE_LENGTH - 7))) (BYTE_LENGTH - 7))) j = septet_bit b0 0 7 j.
Proof.
  intros Hb Hj. unfold u8, septet_bit. enum_Z j.
  all: repeat bit_step; first [reflexivity | by apply (testbit_high b0 8)].
Qed.

Lemma bits_split b0 b1 left j : 1 <= left < 7 -> 0 <= j < 8 ->
  Z.testbit (u8 (Z.lor
    (u8 (Z.shiftr (Z.land b0 (u8 (Z.shiftl 0xFF (BYTE_LENGTH - left)))) (BYTE_LENGTH - left)))
    (u8 (Z.shiftl (Z.land b1 (u8 (Z.lnot (Z.shiftl 0xFF (CHAR_GSM_7BIT - left))))) left)))) j
  = septet_bit b0 b1 left j.
Proof.
  intros Hl Hj. unfold septet_bit. revert j Hj. enum_Z left; intros j Hj; enum_Z j.
  all: unfold u8 at 1 2 4; repeat bit_step; reflexivity.
Qed.

(** One step reads the septet at bit [8 * pos + 8 - left]. *)
Lemma gsm_step_septet bytes pos left i :
  Forall is_u8 bytes -> 0 <= pos -> 1 <= left <= 8 -> 0 <= i ->
  8 * pos + 8 - left = 7 * i -> 7 * i + 7 <= 8 * zlen bytes ->
  exists pos' left', gsm_step bytes pos left = Ret (septet bytes i, pos', left') /\
    0 <= pos' /\ 1 <= left' <= 8 /\ 8 * pos' + 8 - left' = 7 * (i + 1).
Proof.
  intros HB Hp Hl Hi E Hb.
  assert (G : forall k, 0 <= k < zlen bytes -> exists b, vec_get bytes k = Ret b /\ bytes !! Z.to_nat k = Some b /\ is_u8 b).
  { intros k Hk. destruct (vec_get_in bytes k Hk) as (b & ? & L). exists b.
    split; [done|]. split; [done|]. by eapply Forall_lookup_1 in L. }
  destruct (G pos) as (b0 & R0 & L0 & U0); [lia|].
  assert (V : forall v b1, is_u8 v -> (left < 7 -> bytes !! Z.to_nat (pos + 1) = Some b1) ->
    (forall j, 0 <= j < 8 -> Z.testbit v j = septet_bit b0 b1 left j) -> v = septet bytes i).
  { intros v b1 Hv H1 Hj. apply (bits_ext 8); [lia|done|pose proof (septet_range bytes i); lia|].
    intros j Rj. rewrite (Hj j Rj). unfold septet_bit. destruct (Z.eqb_spec j 7) as [->|].
    { symmetry. apply (testbit_high _ 7); [apply septet_range|lia]. }
    rewrite septet_testbit by lia. rewrite <- E. symmetry. destruct (Z.ltb_spec j left).
    - rewrite (le_testbit _ _ b0); [f_equal; divmod_lia|done|lia|].
      replace ((8 * pos + 8 - left + j) / 8) with pos by divmod_lia. done.
    - rewrite (le_testbit _ _ b1); [f_equal; divmod_lia|done|lia|].
      replace ((8 * pos + 8 - left + j) / 8) with (pos + 1) by divmod_lia. apply H1. lia. }
  unfold gsm_step, BYTE_LENGTH, CHAR_GSM_7BIT.
  destruct (Z.eqb_spec left 8) as [->|]; [|destruct (Z.eqb_spec left 7) as [->|]].
  - rewrite R0. simpl. exists pos, (8 - 7). split; [|lia]. do 3 f_equal.
    apply (V _ 0); [apply u8_range|lia|]. intros. by apply bits_first.
  - rewrite R0. simpl. exists (pos + 1), 8. split; [|lia]. do 3 f_equal.
    apply (V _ 0); [apply u8_range|lia|]. intros. by apply bits_last.
  - destruct (G (pos + 1)) as (b1 & R1 & L1 & U1); [lia|].
    rewrite R0. simpl. rewrite R1. simpl. exists (pos + 1), (8 - (7 - left)). split; [|lia]. do 3 f_equal.
    apply (V _ b1); [apply u8_range|done|]. intros. apply bits_split; lia.
Qed.

Lemma gsm_values_septets n bytes pos left i :
  Forall is_u8 bytes -> 0 <= pos -> 1 <= left <= 8 -> 0 <= i ->
  8 * pos + 8 - left = 7 * i -> 7 * (i + Z.of_nat n) <= 8 * zlen bytes ->
  gsm_values n bytes pos left = Ret (septet bytes <$> seqZ i (Z.of_nat n)).
Proof.
  intros HB. revert pos left i. induction n as [|n IH]; intros pos left i Hp Hl Hi E Hb; [done|].
  destruct (gsm_step_septet bytes pos left i) as (pos' & left' & G & Hp' & Hl' & E'); try lia; [done|].
  change (gsm_values (S n) bytes pos left) with
    ('(v, p, l) ← gsm_step bytes pos left; vs ← gsm_values n bytes p l; Ret (v :: vs)).
  rewrite G. simpl. rewrite (IH pos' left' (i + 1)) by lia. simpl.
  rewrite (seqZ_cons i (Z.of_nat (S n))) by lia. rewrite fmap_cons. unfold Z.succ. do 4 f_equal; lia.
Qed.

Lemma gsm_char_septet bytes i : gsm_char (septet bytes i) = [nth (Z.to_nat (septet bytes i)) LANGUAGE_TABLE 0].
Proof.
  pose proof (septet_range bytes i). unfold gsm_char.
  destruct (Z.ltb_spec (septet bytes i) 0); [lia|]. destruct (Z.leb_spec 129 (septet bytes i)); [lia|]. done.
Qed.

Lemma bind_singletons {A B} (f : A -> list B) (g : A -> B) l : (forall a, f a = [g a]) -> l ≫= f = g <$> l.
Proof. intros H. induction l as [|a l IH]; [done|]. rewrite bind_cons, H, IH. done. Qed.

(** The text of a packed buffer. *)
Definition gsm_text (bytes : list Z) (byteLen state : Z) : cstring :=
  let n := 8 * byteLen / 7 in
  let text := (fun i => nth (Z.to_nat (septet bytes i)) LANGUAGE_TABLE 0) <$> seqZ 0 n in
  ToUtf8 (if Z.land state 0x0F =? 7 then take (Z.to_nat (n - 1)) text else text).

Lemma Gsm7bit_text bytes byteLen state :
  Forall is_u8 bytes -> 0 <= byteLen <= zlen bytes ->
  Gsm7bitConvertToString bytes byteLen state = Ret (gsm_text bytes byteLen state).
Proof.
  intros HB Hl. unfold gsm_text. set (n := 8 * byteLen / 7). set (text := _ <$> seqZ 0 n).
  unfold Gsm7bitConvertToString, BYTE_LENGTH, CHAR_GSM_7BIT, EXTRA_7BIT.
  rewrite Z.quot_div_nonneg, (Z.mul_comm byteLen) by lia. fold n.
  assert (0 <= n /\ 7 * n <= 8 * byteLen) as [Hn Hn'] by (subst n; divmod_lia).
  rewrite (gsm_values_septets _ _ _ _ 0) by (done || lia). rewrite Z2Nat.id by lia. simpl.
  rewrite list_fmap_bind. rewrite (bind_singletons _ (fun i => nth (Z.to_nat (septet bytes i)) LANGUAGE_TABLE 0)).
  2: { intros i. apply gsm_char_septet. }
  fold text. destruct (_ =? 7); [|done]. destruct (Z.ltb_spec (n - 1) 0); [|done].
  subst text. by replace n with 0 by lia.
Qed.

(** Only the first [byteLen] bytes count. *)
Lemma septet_prefix bytes rest i :
  Forall is_u8 bytes -> Forall is_u8 rest -> 0 <= i -> 7 * i + 7 <= 8 * zlen bytes ->
  septet (bytes ++ rest) i = septet bytes i.
Proof.
  intros HB HR Hi Hl. apply (bits_ext 7); [lia|apply septet_range..|]. intros j Hj.
  rewrite !septet_testbit by lia.
  destruct (lookup_lt_is_Some_2 bytes (Z.to_nat ((7 * i + j) / 8))) as [b Hb].
  { unfold zlen in Hl. divmod_lia. }
  rewrite (le_testbit bytes _ b), (le_testbit (bytes ++ rest) _ b); try done; try lia.
  - by apply Forall_app_2. - by apply lookup_app_l_Some.
Qed.

Lemma gsm_text_prefix bytes rest state :
  Forall is_u8 bytes -> Forall is_u8 rest -> gsm_text (bytes ++ rest) (zlen bytes) state = gsm_text bytes (zlen bytes) state.
Proof.
  intros HB HR. unfold gsm_text.
  assert (E : (fun i => nth (Z.to_nat (septet (bytes ++ rest) i)) LANGUAGE_TABLE 0) <$> seqZ 0 (8 * zlen bytes / 7)
            = (fun i => nth (Z.to_nat (septet bytes i)) LANGUAGE_TABLE 0) <$> seqZ 0 (8 * zlen bytes / 7)); [|by rewrite E].
  apply list_fmap_ext. intros k i Hk. apply lookup_seqZ in Hk. rewrite septet_prefix; try done; divmod_lia.
Qed.

(** C31: [SIMUtils::Gsm7bitConvertToString] reads a packed GSM 7-bit text as the
    specification of the alphabet has it: the [i]-th character is the table's entry
    for the seven bits from bit [7 * i] of the bytes taken as one little-endian
    number, for the [8 * byteLen / 7] characters that fit, without the last one when
    the low half of [state] says that it is padding. It reads neither outside the
    buffer nor outside the table. *)
Theorem Gsm7bit_septets bytes byteLen state :
  Forall is_u8 bytes -> 0 <= byteLen <= zlen bytes ->
  let n := 8 * byteLen / 7 in
  let text := (fun i => nth (Z.to_nat (septet bytes i)) LANGUAGE_TABLE 0) <$> seqZ 0 n in
  Gsm7bitConvertToString bytes byteLen state =
    Ret (ToUtf8 (if Z.land state 0x0F =? 7 then take (Z.to_nat (n - 1)) text else text)) /\
  (forall i, 0 <= septet bytes i < zlen LANGUAGE_TABLE).
Proof. intros HB Hl n text. split; [by apply Gsm7bit_text|apply septet_range]. Qed.

Ltac by_u8 := repeat (apply Forall_cons_2; [unfold is_u8; lia|]); apply Forall_nil_2.

Lemma Gsm7bit_septets_witness :
  exists b, Gsm7bitConvertToString [0xC8; 0x32; 0x9B; 0xFD; 0x06] 5 0 = Ret (ToUtf8 b) /\ ToUtf8 b = str "Hello".
Proof.
  pose proof (Gsm7bit_septets [0xC8; 0x32; 0x9B; 0xFD; 0x06] 5 0) as H.
  destruct H as [H _]; [by_u8|unfold zlen; simpl; lia|].
  eexists. split; [exact H|]. vm_compute. reflexivity.
Defined.

(** ** Hexadecimal *)

Lemma hex_chars_back b : is_u8 b ->
  match hex_chars b with
  | [hi; lo] => u8 (Z.lor (Z.shiftl (HexCharConvertToInt hi) HALF_BYTE_LEN) (HexCharConvertToInt lo)) = b
  | _ => False
  end.
Proof.
  intros Hb. set (f := fun b => u8 (Z.lor (Z.shiftl (HexCharConvertToInt (nth (Z.to_nat (Z.land 0x0f (Z.shiftr b HALF_BYTE_LEN))) HEX_CHARS "0"%char)) HALF_BYTE_LEN)
    (HexCharConvertToInt (nth (Z.to_nat (Z.land 0x0f b)) HEX_CHARS "0"%char))) =? b).
  apply Z.eqb_eq. change (f b = true). apply (forallb_seqZ f 0 256); [vm_compute; reflexivity|exact Hb].
Qed.

Lemma hex_bytes_app bytes s : Forall is_u8 bytes -> hex_bytes ((bytes ≫= hex_chars) ++ s) = bytes ++ hex_bytes s.
Proof.
  induction 1 as [|b l Hb Hl IH]; [done|]. rewrite bind_cons, <- app_assoc.
  pose proof (hex_chars_back b Hb) as H. unfold hex_chars in *. cbn [app hex_bytes]. by rewrite H, IH.
Qed.

Lemma BytesConvertToHexString_bind bytes n : 0 <= n <= zlen bytes ->
  BytesConvertToHexString (Some bytes) n = Ret (take (Z.to_nat n) bytes ≫= hex_chars).
Proof.
  intros Hn. simpl.
  assert (G : forall pre rest k, bytes = pre ++ rest -> (k <= length rest)%nat ->
    foldr (fun i r => b ← vec_get bytes i; s ← r; Ret (hex_chars b ++ s)) (Ret []) (seqZ (zlen pre) (Z.of_nat k))
    = Ret (take k rest ≫= hex_chars)).
  { intros pre rest k. revert pre rest. induction k as [|k IH]; intros pre rest E Hk; [done|].
    destruct rest as [|b rest]; [simpl in Hk; lia|].
    rewrite seqZ_cons by lia. cbn [foldr]. rewrite (vec_get_at _ pre b rest) by done. cbn [mbind outcome_bind].
    specialize (IH (pre ++ [b]) rest). replace (zlen (pre ++ [b])) with (Z.succ (zlen pre)) in IH by by_zlen.
    replace (Z.pred (Z.of_nat (S k))) with (Z.of_nat k) by lia.
    rewrite IH; [done| |simpl in Hk; lia]. rewrite E. by_assoc. }
  unfold zlen in Hn. rewrite <- (G [] bytes (Z.to_nat n)); [|done|lia]. by rewrite Z2Nat.id by lia.
Qed.

(** the two hexadecimal conversions of the card files are inverse: the bytes
    of a buffer, printed and parsed, come back with their number and the
    terminating zero, an empty buffer being refused. *)
Theorem hex_buffer_roundtrip bytes byteslen :
  Forall is_u8 bytes ->
  (s ← BytesConvertToHexString (Some bytes) (zlen bytes); Ret (HexStringConvertToBytes s byteslen)) =
  Ret (match bytes with [] => (None, byteslen) | _ => (Some (bytes ++ [0]), zlen bytes) end).
Proof.
  intros HB. pose proof (zlen_nonneg bytes).
  rewrite BytesConvertToHexString_bind by lia. unfold zlen at 1. rewrite Nat2Z.id, firstn_all. simpl. f_equal.
  assert (L : zlen (bytes ≫= hex_chars) = 2 * zlen bytes).
  { clear. induction bytes as [|b l IH]; [done|]. rewrite bind_cons. unfold hex_chars at 1. zlen_simpl. lia. }
  unfold HexStringConvertToBytes, HALF_LEN. rewrite L.
  destruct bytes as [|b l]; [done|]. pose proof (zlen_nonneg l).
  destruct (Z.eqb_spec (2 * zlen (b :: l)) 0); [zlen_simpl; lia|].
  rewrite (Z.mul_comm 2), Z.mod_mul, Z.div_mul by lia. change (negb (0 =? 0)) with false. cbv iota.
  pose proof (hex_bytes_app (b :: l) [] HB) as E. rewrite app_nil_r in E. by rewrite E, app_nil_r.
Qed.

Lemma hex_buffer_roundtrip_witness :
  (s ← BytesConvertToHexString (Some [0x3F; 0; 0xA5]) 3; Ret (HexStringConvertToBytes s 0)) = Ret (Some [0x3F; 0; 0xA5; 0], 3).
Proof. apply (hex_buffer_roundtrip [0x3F; 0; 0xA5] 0). by_u8. Defined.

(** ** UCS-2 fields *)

Definition pair_bytes (p : Z * Z) : list Z := [p.1; p.2].
Definition pair_unit (p : Z * Z) : Z := u16 (Z.lor (Z.shiftl p.1 BYTE_LENGTH) p.2).

Lemma pair_bytes_length ps : zlen (ps ≫= pair_bytes) = 2 * zlen ps.
Proof. induction ps as [|p ps IH]; [done|]. rewrite bind_cons. unfold pair_bytes at 1. zlen_simpl. lia. Qed.

(** The loop stores the pairs of the characters one after the other. *)
Lemma ucs_loop_pairs chars f data length offset len :
  forall cs dataOffset stored slots pre rest,
  data = pre ++ cs ++ rest -> zlen pre = offset + dataOffset -> length = zlen data ->
  (forall c, c ∈ cs -> chars c = Ret (f c)) ->
  zlen slots = 2 * zlen cs -> 2 * len = zlen stored + zlen slots ->
  ucs_loop chars (List.length cs) data length offset len dataOffset (zlen stored) (stored ++ slots) =
  Ret (stored ++ (f <$> cs) ≫= pair_bytes).
Proof.
  induction cs as [|c cs IH]; intros dataOffset stored slots pre rest E Hp Hl Hc Hs Hlen.
  { rewrite (zlen_0_nil slots) by by_zlen. done. }
  pose proof (zlen_nonneg cs). pose proof (zlen_nonneg rest). pose proof (zlen_nonneg stored).
  cbn [List.length ucs_loop]. unfold HALF_LEN.
  destruct (Z.ltb_spec (zlen stored) (len * 2)); [|zlen_simpl; lia].
  destruct (Z.ltb_spec (offset + dataOffset) length); [|subst data; zlen_simpl; lia]. cbn [andb].
  rewrite (vec_get_at data pre c (cs ++ rest)) by (done || lia). cbn [mbind outcome_bind].
  rewrite Hc by left. cbn [mbind outcome_bind]. destruct (f c) as [hi lo] eqn:F.
  destruct slots as [|x [|y slots]]; [zlen_simpl; lia|zlen_simpl; lia|].
  rewrite !insert_app_r_alt by (unfold zlen; lia).
  replace (Z.to_nat (zlen stored) - List.length stored)%nat with 0%nat by (unfold zlen; lia).
  replace (Z.to_nat (zlen stored + 1) - List.length stored)%nat with 1%nat by (unfold zlen; lia).
  change (<[1%nat := lo]> (<[0%nat := hi]> (x :: y :: slots))) with ([hi; lo] ++ slots).
  rewrite (app_assoc stored [hi; lo] slots).
  replace (zlen stored + 2) with (zlen (stored ++ [hi; lo])) by by_zlen.
  rewrite (IH (dataOffset + 1) (stored ++ [hi; lo]) slots (pre ++ [c]) rest).
  - f_equal. rewrite fmap_cons, bind_cons, F. unfold pair_bytes at 2. by_assoc.
  - rewrite E. by_assoc.
  - by_zlen.
  - done.
  - intros. apply Hc. by right.
  - by_zlen.
  - by_zlen.
Qed.

Lemma CharsConvertToChar16_pairs ps : ps <> [] ->
  CharsConvertToChar16 (ps ≫= pair_bytes) (zlen ps * HALF_LEN) true = Ret (Some (pair_unit <$> ps)).
Proof.
  intros Hne. unfold CharsConvertToChar16, HALF_LEN.
  assert (0 < zlen ps) by (destruct ps; [done|zlen_simpl; pose proof (zlen_nonneg ps); lia]).
  destruct (Z.eqb_spec (zlen ps * 2) 0); [lia|].
  rewrite Z.rem_mul, Z.quot_mul by lia. change (negb (0 =? 0)) with false. cbv iota.
  assert (G : forall pre rest, ps = pre ++ rest ->
    foldr (fun i r => high ← vec_get (ps ≫= pair_bytes) (2 * i); low ← vec_get (ps ≫= pair_bytes) (2 * i + 1);
                      us ← r; Ret (u16 (Z.lor (Z.shiftl high BYTE_LENGTH) low) :: us))
      (Ret []) (seqZ (zlen pre) (zlen rest)) = Ret (pair_unit <$> rest)).
  { intros pre rest. revert pre. induction rest as [|[hi lo] rest IH]; intros pre E; [done|].
    pose proof (zlen_nonneg rest). rewrite seqZ_cons by by_zlen. cbn [foldr].
    assert (S : ps ≫= pair_bytes = (pre ≫= pair_bytes) ++ hi :: lo :: (rest ≫= pair_bytes)).
    { by rewrite E, bind_app, bind_cons. }
    pose proof (pair_bytes_length pre).
    rewrite (vec_get_at _ _ hi _ (2 * zlen pre) S) by lia. cbn [mbind outcome_bind].
    rewrite (vec_get_at (ps ≫= pair_bytes) ((pre ≫= pair_bytes) ++ [hi]) lo (rest ≫= pair_bytes)); cycle 1.
    { rewrite S. by_assoc. } { by_zlen. }
    cbn [mbind outcome_bind].
    specialize (IH (pre ++ [(hi, lo)])). replace (zlen (pre ++ [(hi, lo)])) with (Z.succ (zlen pre)) in IH by by_zlen.
    replace (Z.pred (zlen ((hi, lo) :: rest))) with (zlen rest) by by_zlen.
    rewrite IH; [done|]. rewrite E. by_assoc. }
  specialize (G [] ps eq_refl). change (zlen (@nil (Z * Z))) with 0 in G. cbv zeta. by rewrite G.
Qed.

Lemma new_ucs_length len : 0 < len -> zlen (new_ucs len) = 2 * len.
Proof. intros. unfold new_ucs, HALF_LEN, zlen. rewrite length_cons, length_replicate. lia. Qed.

Lemma high_bit c : is_u8 c -> (0 <? Z.land c F0_DATA) = (128 <=? c).
Proof.
  intros Hc. apply eqb_prop.
  apply (forallb_seqZ (fun c => eqb (0 <? Z.land c F0_DATA) (128 <=? c)) 0 256); [vm_compute; reflexivity|exact Hc].
Qed.

Lemma low_bits c : Z.land c SEVENF_DATA = c mod 128.
Proof. change SEVENF_DATA with (Z.ones 7). by rewrite Z.land_ones by lia. Qed.

Lemma pair_unit_divmod d : 0 <= d -> pair_unit (u8 (d / HEX_HUNDRE), u8 (d mod HEX_HUNDRE)) = u16 d.
Proof.
  intros Hd. unfold pair_unit, HEX_HUNDRE, BYTE_LENGTH. cbn [fst snd].
  assert (E : Z.lor (Z.shiftl (u8 (d / 256)) 8) (u8 (d mod 256)) = u8 (d / 256) * 256 + d mod 256).
  { rewrite (u8_small (d mod 256)) by (apply Z.mod_pos_bound; lia).
    rewrite Z.shiftl_mul_pow2 by lia. symmetry. apply Z.add_nocarry_lor, Z.bits_inj'. intros i Hi.
    rewrite Z.land_spec, Z.bits_0. destruct (decide (i < 8)).
    - by rewrite Z.mul_pow2_bits_low by lia.
    - rewrite (testbit_high (d mod 256) 8); [apply andb_false_r|apply Z.mod_pos_bound; lia|lia]. }
  change 0x100 with 256. rewrite E. unfold u16, u8. change (2 ^ 8) with 256. change (2 ^ 16) with (256 * 256).
  rewrite (Z.rem_mul_r d 256 256) by lia. pose proof (Z.mod_pos_bound d 256). pose proof (Z.mod_pos_bound (d / 256) 256).
  rewrite (Z.mod_small ((d / 256) mod 256 * 256 + d mod 256)) by lia. lia.
Qed.

(** The code units of a character in the two compact codings (ETSI TS 102 221, annex A). *)
Definition narrow_unit (base c : Z) : Z := if c <? 128 then c else base * 128 + (c - 128).
Definition wide_unit (base c : Z) : Z := if c <? 128 then c else u16 (base + (c - 128)).

Lemma ucs_chars_unit data offset base c :
  is_u8 c -> is_u8 base -> vec_get data (offset + UCS_BASE_POS) = Ret base ->
  exists p, ucs_chars data offset c = Ret p /\ pair_unit p = narrow_unit base c.
Proof.
  intros Hc Hb G. unfold ucs_chars, narrow_unit. rewrite high_bit, low_bits by done.
  unfold is_u8 in *. destruct (Z.leb_spec 128 c), (Z.ltb_spec c 128); try lia.
  - rewrite G. cbn [mbind outcome_bind]. eexists. split; [reflexivity|].
    change BYTE_VALUE with (Z.ones 8). unfold BYTE_LESS.
    rewrite Z.land_ones, (Z.mod_small base), Z.shiftl_mul_pow2 by lia. change (2 ^ 7) with 128. rewrite pair_unit_divmod by divmod_lia.
    replace (c mod 128) with (c - 128) by divmod_lia. apply u16_small. unfold is_u16. lia.
  - cbn [mbind outcome_bind]. eexists. split; [reflexivity|]. rewrite pair_unit_divmod by divmod_lia.
    rewrite Z.mod_small by lia. apply u16_small. unfold is_u16. lia.
Qed.

Lemma ucs_wide_chars_unit base c :
  is_u8 c -> 0 <= base -> exists p, ucs_wide_chars base c = Ret p /\ pair_unit p = wide_unit base c.
Proof.
  intros Hc Hb. unfold ucs_wide_chars, wide_unit. rewrite high_bit, low_bits by done.
  unfold is_u8 in *. destruct (Z.leb_spec 128 c), (Z.ltb_spec c 128); try lia.
  - eexists. split; [reflexivity|]. rewrite pair_unit_divmod by divmod_lia. f_equal. divmod_lia.
  - eexists. split; [reflexivity|]. unfold pair_unit. cbn [fst snd]. rewrite Z.shiftl_0_l, Z.lor_0_l.
    apply u16_small. unfold is_u16. lia.
Qed.

(** From the loop to the string, for both codings. *)
Lemma ucs_field chars unit data offset cs pre rest o :
  (forall c, c ∈ cs -> exists p, chars c = Ret p /\ pair_unit p = unit c) ->
  data = pre ++ cs ++ rest -> zlen pre = offset + o -> cs <> [] ->
  (dataUsc ← ucs_loop chars (Z.to_nat (zlen cs)) data (zlen data) offset (zlen cs) o 0 (new_ucs (zlen cs));
   cs ← CharsConvertToChar16 dataUsc (zlen cs * HALF_LEN) true;
   match cs with None => Ret [] | Some _ => u16string_of cs end) = Ret (until_zero (unit <$> cs)).
Proof.
  intros Hc E Hp Hne.
  set (f := fun c => match chars c with Ret p => p | _ => (0, 0) end).
  assert (F : forall c, c ∈ cs -> chars c = Ret (f c) /\ pair_unit (f c) = unit c).
  { intros c H. destruct (Hc c H) as (p & R & U). unfold f. by rewrite R. }
  assert (L : 0 < zlen cs) by (destruct cs; [done|zlen_simpl; pose proof (zlen_nonneg cs); lia]).
  replace (Z.to_nat (zlen cs)) with (List.length cs) by (unfold zlen; lia).
  pose proof (ucs_loop_pairs chars f data (zlen data) offset (zlen cs) cs o [] (new_ucs (zlen cs)) pre rest) as G.
  change (zlen (@nil Z)) with 0 in G. cbn [app] in G. rewrite G; try done.
  - cbn [mbind outcome_bind].
    replace (zlen cs * HALF_LEN) with (zlen (f <$> cs) * HALF_LEN) by (unfold zlen; by rewrite length_fmap).
    rewrite CharsConvertToChar16_pairs by (by destruct cs). cbn [mbind outcome_bind u16string_of].
    do 2 f_equal. rewrite <- list_fmap_compose. apply list_fmap_ext. intros i c Hi.
    apply F. by eapply list_elem_of_lookup_2.
  - intros c H. by apply F.
  - by apply new_ucs_length.
  - rewrite new_ucs_length by done. lia.
Qed.

Lemma until_zero_all us : Forall (fun u => 0 < u) us -> until_zero us = us.
Proof.
  induction 1 as [|u l Hu Hl IH]; [done|]. simpl. destruct (Z.eqb_spec u 0); [lia|]. by rewrite IH.
Qed.

Lemma unit_pair_bytes u : is_u16 u -> pair_unit (u / 256, u mod 256) = u.
Proof.
  unfold is_u16. intros Hu. pose proof (pair_unit_divmod u) as H. unfold HEX_HUNDRE in H.
  rewrite !u8_small in H by (unfold is_u8; divmod_lia). rewrite H by lia. by apply u16_small.
Qed.

Section DiallingFacts.
Context (Str16ToStr8 : list Z -> cstring).

Lemma dialling_chinese hs :
  hs <> [] -> Forall (fun u => 0 < u < 2 ^ 16) hs ->
  DiallingNumberStringFieldConvertToString Str16ToStr8
    (Some (CHINESE_FLAG :: (hs ≫= fun u => [u / 256; u mod 256]))) 0 (1 + 2 * zlen hs) 0
  = Ret (Str16ToStr8 (trim_ffff hs)).
Proof.
  intros Hne Hu. set (ps := (fun u => (u / 256, u mod 256)) <$> hs).
  assert (Eb : hs ≫= (fun u => [u / 256; u mod 256]) = ps ≫= pair_bytes).
  { unfold ps. by rewrite list_fmap_bind. }
  assert (Eu : pair_unit <$> ps = hs).
  { unfold ps. rewrite <- list_fmap_compose. rewrite <- (list_fmap_id hs) at 2.
    apply list_fmap_ext. intros i u Hi. apply unit_pair_bytes.
    eapply Forall_lookup_1 in Hi; [|exact Hu]. simpl in Hi. unfold is_u16, id. lia. }
  assert (El : zlen ps = zlen hs) by (unfold ps, zlen; by rewrite length_fmap).
  assert (L : 0 < zlen hs) by (destruct hs; [done|zlen_simpl; pose proof (zlen_nonneg hs); lia]).
  unfold DiallingNumberStringFieldConvertToString.
  destruct (Z.leb_spec (1 + 2 * zlen hs) 0); [lia|]. cbn [orb Z.ltb Z.compare].
  rewrite (vec_get_at _ [] CHINESE_FLAG _) by done. cbn [mbind outcome_bind].
  change (CHINESE_FLAG =? CHINESE_FLAG) with true. change (CHINESE_FLAG =? UCS_FLAG) with false.
  change (CHINESE_FLAG =? UCS_WIDE_FLAG) with false. cbn [drop]. rewrite drop_0, Eb. rewrite !andb_false_r.
  replace (Z.quot (1 + 2 * zlen hs - 1) HALF_LEN) with (zlen ps)
    by (unfold HALF_LEN; rewrite Z.quot_div_nonneg by lia; divmod_lia).
  rewrite CharsConvertToChar16_pairs by (unfold ps; by destruct hs). cbn [mbind outcome_bind u16string_of].
  rewrite Eu, until_zero_all by (eapply Forall_impl; [exact Hu|simpl; lia]).
  by destruct hs.
Qed.

Lemma dialling_narrow base cs rest :
  is_u8 base -> Forall is_u8 cs -> cs <> [] -> zlen cs < 256 ->
  Forall (fun u => 0 < u) (narrow_unit base <$> cs) ->
  let data := UCS_FLAG :: zlen cs :: base :: cs ++ rest in
  DiallingNumberStringFieldConvertToString Str16ToStr8 (Some data) 0 (zlen data) 0
  = Ret (Str16ToStr8 (trim_ffff (narrow_unit base <$> cs))).
Proof.
  intros Hb Hc Hne Hl Hz data.
  assert (L : 0 < zlen cs) by (destruct cs; [done|zlen_simpl; pose proof (zlen_nonneg cs); lia]).
  pose proof (zlen_nonneg rest). assert (Ld : zlen data = 3 + zlen cs + zlen rest) by (unfold data; by_zlen).
  unfold DiallingNumberStringFieldConvertToString.
  destruct (Z.leb_spec (zlen data) 0); [lia|]. cbn [orb Z.ltb Z.compare].
  rewrite (vec_get_at data [] UCS_FLAG _ 0 eq_refl eq_refl). cbn [mbind outcome_bind].
  change (UCS_FLAG =? CHINESE_FLAG) with false. change (UCS_FLAG =? UCS_FLAG) with true.
  change (UCS_FLAG =? UCS_WIDE_FLAG) with false. rewrite andb_false_r, andb_true_r. unfold START_POS.
  destruct (Z.leb_spec 3 (zlen data)); [|lia]. cbn [mbind outcome_bind].
  unfold UcsConvertToString, START_POS. destruct (Z.leb_spec (zlen data) (0 + 1)); [lia|].
  rewrite (vec_get_at data [UCS_FLAG] (zlen cs) (base :: cs ++ rest)) by done. cbn [mbind outcome_bind].
  change BYTE_VALUE with (Z.ones 8). rewrite Z.land_ones, Z.mod_small by lia.
  destruct (Z.ltb_spec (zlen data - 3) (zlen cs)); [lia|]. destruct (Z.leb_spec (zlen cs) 0); [lia|].
  unfold UCS_OFFSET.
  pose proof (ucs_field (ucs_chars data 0) (narrow_unit base) data 0 cs [UCS_FLAG; zlen cs; base] rest 3) as F.
  cbn [mbind outcome_bind] in F. rewrite F; [|..].
  - rewrite until_zero_all by done. cbn [mbind outcome_bind]. by destruct cs.
  - intros c Hin. apply ucs_chars_unit; [by eapply list.Forall_forall in Hin|done|].
    by apply (vec_get_at data [UCS_FLAG; zlen cs] base (cs ++ rest)).
  - done.
  - done.
  - done.
Qed.

Lemma dialling_wide b0 b1 cs rest :
  is_u8 b0 -> is_u8 b1 -> Forall is_u8 cs -> cs <> [] -> zlen cs < 256 ->
  Forall (fun u => 0 < u) (wide_unit (256 * b0 + b1) <$> cs) ->
  let data := UCS_WIDE_FLAG :: zlen cs :: b0 :: b1 :: cs ++ rest in
  DiallingNumberStringFieldConvertToString Str16ToStr8 (Some data) 0 (zlen data) 0
  = Ret (Str16ToStr8 (trim_ffff (wide_unit (256 * b0 + b1) <$> cs))).
Proof.
  intros Hb0 Hb1 Hc Hne Hl Hz data. unfold is_u8 in Hb0, Hb1.
  assert (L : 0 < zlen cs) by (destruct cs; [done|zlen_simpl; pose proof (zlen_nonneg cs); lia]).
  pose proof (zlen_nonneg rest). assert (Ld : zlen data = 4 + zlen cs + zlen rest) by (unfold data; by_zlen).
  unfold DiallingNumberStringFieldConvertToString.
  destruct (Z.leb_spec (zlen data) 0); [lia|]. cbn [orb Z.ltb Z.compare].
  rewrite (vec_get_at data [] UCS_WIDE_FLAG _ 0 eq_refl eq_refl). cbn [mbind outcome_bind].
  change (UCS_WIDE_FLAG =? CHINESE_FLAG) with false. change (UCS_WIDE_FLAG =? UCS_FLAG) with false.
  change (UCS_WIDE_FLAG =? UCS_WIDE_FLAG) with true. rewrite andb_false_r, andb_true_r. unfold END_POS.
  destruct (Z.leb_spec 4 (zlen data)); [|lia]. cbn [mbind outcome_bind].
  unfold UcsWideConvertToString, END_POS. destruct (Z.leb_spec (zlen data) (0 + 1)); [lia|].
  rewrite (vec_get_at data [UCS_WIDE_FLAG] (zlen cs) (b0 :: b1 :: cs ++ rest) (0 + 1) eq_refl eq_refl). cbn [mbind outcome_bind].
  change BYTE_VALUE with (Z.ones 8). rewrite Z.land_ones, Z.mod_small by lia.
  destruct (Z.ltb_spec (zlen data - 4) (zlen cs)); [lia|]. destruct (Z.leb_spec (zlen cs) 0); [lia|].
  rewrite (vec_get_at data [UCS_WIDE_FLAG; zlen cs] b0 (b1 :: cs ++ rest) (0 + UCS_BASE_POS) eq_refl eq_refl). cbn [mbind outcome_bind].
  rewrite (vec_get_at data [UCS_WIDE_FLAG; zlen cs; b0] b1 (cs ++ rest) (0 + UCS_BASE_POS + 1) eq_refl eq_refl). cbn [mbind outcome_bind].
  unfold UCS_WIDE_OFFSET, BYTE_BIT. rewrite Z.shiftl_mul_pow2 by lia. change (2 ^ 8) with 256.
  rewrite (Z.mul_comm b0 256).
  pose proof (ucs_field (ucs_wide_chars (256 * b0 + b1)) (wide_unit (256 * b0 + b1)) data 0 cs [UCS_WIDE_FLAG; zlen cs; b0; b1] rest 4) as F.
  cbn [mbind outcome_bind] in F. rewrite F; [|..].
  - rewrite until_zero_all by done. cbn [mbind outcome_bind]. by destruct cs.
  - intros c Hin. apply ucs_wide_chars_unit; [by eapply list.Forall_forall in Hin|lia].
  - done.
  - done.
  - done.
Qed.

(** the name of a dialling number in each of the three UCS-2 codings of a card
    (ETSI TS 102 221 annex A) is decoded to the text it stands for: 0x80 and
    big-endian code units; 0x81 with a one-byte half-page base; 0x82 with a two-byte
    base; the padding after the characters is ignored, and 0xFFFF units at the end
    are dropped. No character may be NUL. *)
Theorem dialling_name_decoded hs base b0 b1 cs rest :
  hs <> [] -> Forall (fun u => 0 < u < 2 ^ 16) hs ->
  is_u8 base -> is_u8 b0 -> is_u8 b1 -> Forall is_u8 cs -> cs <> [] -> zlen cs < 256 ->
  Forall (fun c => 0 < narrow_unit base c /\ 0 < wide_unit (256 * b0 + b1) c) cs ->
  let read data := DiallingNumberStringFieldConvertToString Str16ToStr8 (Some data) 0 (zlen data) 0 in
  read (CHINESE_FLAG :: (hs ≫= fun u => [u / 256; u mod 256])) = Ret (Str16ToStr8 (trim_ffff hs)) /\
  read (UCS_FLAG :: zlen cs :: base :: cs ++ rest) = Ret (Str16ToStr8 (trim_ffff (narrow_unit base <$> cs))) /\
  read (UCS_WIDE_FLAG :: zlen cs :: b0 :: b1 :: cs ++ rest) =
    Ret (Str16ToStr8 (trim_ffff (wide_unit (256 * b0 + b1) <$> cs))).
Proof.
  intros Hh Hu Hb H0 H1 Hc Hne Hl Hz read. split; [|split].
  - unfold read. rewrite <- dialling_chinese by done. f_equal.
    assert (zlen (hs ≫= fun u => [u / 256; u mod 256]) = 2 * zlen hs); [|by_zlen].
    clear. induction hs as [|u l IH]; [done|]. rewrite bind_cons. zlen_simpl. lia.
  - apply dialling_narrow; try done. apply Forall_fmap. eapply Forall_impl; [exact Hz|]. by intros c [? _].
  - apply dialling_wide; try done. apply Forall_fmap. eapply Forall_impl; [exact Hz|]. by intros c [_ ?].
Qed.
End DiallingFacts.

Lemma dialling_name_decoded_witness :
  DiallingNumberStringFieldConvertToString (fmap chr) (Some [UCS_FLAG; 2; 0; 72; 105; 255; 255]) 0 7 0 = Ret (str "Hi").
Proof.
  pose proof (dialling_name_decoded (fmap chr) [72] 0 0 0 [72; 105] [255; 255]) as H.
  destruct H as (_ & H & _); [done|by repeat constructor|done|done|done|by_u8|done|done| |exact H].
  repeat constructor; vm_compute; reflexivity.
Defined.

(** [DiallingNumberStringFieldConvertToString] is undefined on a name field of one
    or two bytes that starts with 0x80: no code unit fits, [CharsConvertToChar16]
    returns null, and the null pointer is made a string. *)
Theorem short_chinese_field_undefined Str16ToStr8 pad length offPos :
  1 <= length <= 2 ->
  DiallingNumberStringFieldConvertToString Str16ToStr8 (Some (CHINESE_FLAG :: pad)) 0 length offPos = Undef.
Proof.
  intros Hl. unfold DiallingNumberStringFieldConvertToString. destruct (Z.leb_spec length 0); [lia|].
  rewrite (vec_get_at _ [] CHINESE_FLAG pad) by done. cbn [orb mbind outcome_bind].
  replace (Z.quot (length - 1) HALF_LEN) with 0; [done|].
  unfold HALF_LEN. rewrite Z.quot_div_nonneg by lia. divmod_lia.
Qed.

Lemma short_chinese_field_undefined_witness :
  DiallingNumberStringFieldConvertToString (fmap chr) (Some [0x80; 0xFF]) 0 2 0 = Undef.
Proof. apply (short_chinese_field_undefined (fmap chr) [0xFF] 2 0). lia. Defined.

(** ** PLMN codes and blanks *)

(** What six characters [a..f] of a record give: nibbles swapped, the third digit of
    the MNC in the middle, 'F' when it has two digits. *)
Definition plmn_chunk (a b c d e f : ascii) : cstring :=
  if Ascii.eqb a "F"%char then [] else [b; a; d; f; e] ++ if Ascii.eqb c "F"%char then [] else [c].

Lemma BcdPlmn_chunk pre a b c d e f rest :
  BcdPlmnConvertToString (pre ++ a :: b :: c :: d :: e :: f :: rest) (zlen pre) = Ret (plmn_chunk a b c d e f).
Proof.
  pose proof (zlen_nonneg pre). pose proof (zlen_nonneg rest).
  set (data := pre ++ _ :: _).
  assert (G : forall k x, 0 <= k < 6 -> [a; b; c; d; e; f] !! Z.to_nat k = Some x ->
    vec_get data (zlen pre + k) = Ret x /\ vec_at data (zlen pre + k) = Ret x).
  { intros k x Hk L.
    assert (data !! Z.to_nat (zlen pre + k) = Some x).
    { unfold data, zlen. rewrite lookup_app_r by lia.
      replace (Z.to_nat (Z.of_nat (length pre) + k) - length pre)%nat with (Z.to_nat k) by lia.
      by apply (lookup_app_l_Some [a; b; c; d; e; f] rest). }
    split; [apply vec_get_Ret|apply vec_at_Ret]; (split; [lia|done]). }
  unfold BcdPlmnConvertToString, plmn_chunk.
  destruct (Z.ltb_spec (zlen data) (zlen pre + MCCMNC_LEN)); [unfold data, MCCMNC_LEN in *; zlen_simpl; lia|].
  pose proof (proj2 (G BCD_PLMN_MCC2 a ltac:(done) eq_refl)) as A. unfold BCD_PLMN_MCC2 in A at 1. rewrite Z.add_0_r in A.
  rewrite A. cbn [mbind outcome_bind]. destruct (Ascii.eqb a "F"%char); [done|].
  rewrite (proj1 (G BCD_PLMN_MCC1 b ltac:(done) eq_refl)). cbn [mbind outcome_bind].
  rewrite (proj1 (G BCD_PLMN_MCC2 a ltac:(done) eq_refl)). cbn [mbind outcome_bind].
  rewrite (proj1 (G BCD_PLMN_MCC3 d ltac:(done) eq_refl)). cbn [mbind outcome_bind].
  rewrite (proj1 (G BCD_PLMN_MNC1 f ltac:(done) eq_refl)). cbn [mbind outcome_bind].
  rewrite (proj1 (G BCD_PLMN_MNC2 e ltac:(done) eq_refl)). cbn [mbind outcome_bind].
  by rewrite (proj2 (G BCD_PLMN_MNC3 c ltac:(done) eq_refl)).
Qed.
