(* ===== verification/SimFileParse.v ===== *)
(** * [services/sim/src/sim_file_parse.cpp]: the operator files of a card

    The service provider name, the network names (EF_PNN), the operator PLMN lists
    (EF_OPL, EF_OPL5G), the equivalent home PLMNs (EF_EHPLMN) and the display PLMNs
    (EF_SPDI), read into the vectors and sets that [IccFile] keeps. *)

From S2P Require Import Prelude CxxString TagService SimUtils.

Definition HEXADECIMAL : Z := 16.
Definition OPL_5G_LENGTH : Z := 10.
Definition TAG_SPDI : Z := 0xA3.
Definition TAG_SPDI_PLMN_LIST : Z := 0x80.
Definition MCC_MNC_LEN : Z := 6.
Definition INVALID_BYTES_NUM : Z := 1.
Definition SPN_CHAR_POS : Z := 0.
Definition OBTAIN_SPN_GENERAL : Z := 2.
Definition OBTAIN_OPERATOR_NAMESTRING : Z := 3.
Definition OBTAIN_OPERATOR_NAME_SHORTFORM : Z := 4.
Definition NETWORK_NAME_IEI : Z := 0.
Definition NETWORK_NAME_LENGTH : Z := 1.
Definition NETWORK_NAME_CODING_SCHEME : Z := 2.
Definition NETWORK_NAME_TEXT_STRING : Z := 3.
Definition LONG_NAME_FLAG : Z := 0x43.
Definition SHORT_NAME_FLAG : Z := 0x45.
Definition LAC_RANGE_LEN : Z := 6.

Record PlmnNetworkName : Type := MkPnn { longName : cstring; shortName : cstring }.

Record OperatorPlmnInfo : Type := MkOpl {
  plmnNumeric : cstring;
  lacStart : Z;
  lacEnd : Z;
  pnnRecordId : Z
}.

(** ** Service provider name *)

Section Spn.
Context (Str16ToStr8 : list Z -> cstring).

Definition ParseSpn (rawData : cstring) (spnStatus : Z) : outcome cstring :=
  match HexStringConvertToBytes rawData 0 with
  | (None, _) => Ret []
  | (Some bytesRaw, length) =>
      if spnStatus =? OBTAIN_SPN_GENERAL then
        let length := length - INVALID_BYTES_NUM in
        let bytesNew := drop (Z.to_nat INVALID_BYTES_NUM) bytesRaw in
        DiallingNumberStringFieldConvertToString Str16ToStr8 (Some bytesNew) 0 length SPN_CHAR_POS
      else if (spnStatus =? OBTAIN_OPERATOR_NAMESTRING) || (spnStatus =? OBTAIN_OPERATOR_NAME_SHORTFORM)
      then Ret (Cphs7bitConvertToString rawData)
      else Ret []
  end.
End Spn.

(** ** Network names *)

(** One record: nothing when it is skipped. *)
Definition pnn_record (dataPnn : cstring) : outcome (option PlmnNetworkName) :=
  match dataPnn with
  | [] => Ret None
  | _ =>
    match HexStringConvertToBytes dataPnn 0 with
    | (None, _) => Ret None
    | (Some tlv, recordLen) =>
        let tagAndLength := NETWORK_NAME_LENGTH + 1 in
        if recordLen <=? tagAndLength then Ret None
        else
          len ← vec_get tlv NETWORK_NAME_LENGTH;
          iei ← vec_get tlv NETWORK_NAME_IEI;
          longName ←
            (if (tagAndLength + len <=? recordLen) && (iei =? LONG_NAME_FLAG) then
               scheme ← vec_get tlv NETWORK_NAME_CODING_SCHEME;
               Gsm7bitConvertToString (drop (Z.to_nat NETWORK_NAME_TEXT_STRING) tlv) (len - 1) scheme
             else Ret []);
          let shortNameOffset := tagAndLength + len in
          shortName ←
            (if shortNameOffset + tagAndLength <? recordLen then
               slen ← vec_get tlv (shortNameOffset + NETWORK_NAME_LENGTH);
               if shortNameOffset + tagAndLength + slen <=? recordLen then
                 siei ← vec_get tlv (shortNameOffset + NETWORK_NAME_IEI);
                 if siei =? SHORT_NAME_FLAG then
                   scheme ← vec_get tlv (shortNameOffset + NETWORK_NAME_CODING_SCHEME);
                   Gsm7bitConvertToString (drop (Z.to_nat (shortNameOffset + NETWORK_NAME_TEXT_STRING)) tlv) (slen - 1) scheme
                 else Ret []
               else Ret []
             else Ret []);
          Ret (Some (MkPnn longName shortName))
    end
  end.

(** The loops over records that append what a record gives. *)
Fixpoint parse_records {A} (record : cstring -> outcome (option A)) (records : list cstring) : outcome (list A) :=
  match records with
  | [] => Ret []
  | r :: rs =>
      o ← record r;
      files ← parse_records record rs;
      Ret (option_list o ++ files)
  end.

(** [pnnFiles_] after the call. *)
Definition ParsePnn (records : list cstring) : outcome (list PlmnNetworkName) := parse_records pnn_record records.

(** ** Operator PLMN lists *)

(** One record of [2 * recordLength] digits with location area codes of [lac]
    digits; [regex_match] of [\[0-9a-fA-F\]+] is [all_hex]. *)
Definition opl_record (recordLength lac : Z) (dataOpl : cstring) : outcome (option OperatorPlmnInfo) :=
  match dataOpl with
  | [] => Ret None
  | _ =>
      if negb (zlen dataOpl =? recordLength + recordLength) then Ret None
      else if negb (all_hex dataOpl) then Ret None
      else
        plmn ← BcdPlmnConvertToString dataOpl 0;
        match plmn with
        | [] => Ret None
        | _ =>
            s1 ← substr dataOpl MCCMNC_LEN lac;
            s2 ← substr dataOpl (MCCMNC_LEN + lac) lac;
            s3 ← substr dataOpl (MCCMNC_LEN + lac + lac) HALF_LEN;
            Ret (Some (MkOpl plmn (i32 (strtol16 s1)) (i32 (strtol16 s2)) (i32 (strtol16 s3))))
        end
  end.

(** [oplFiles_] and [opl5gFiles_] after the calls; [BYTE_LENGTH] is
    [HALF_BYTE_LEN + HALF_BYTE_LEN]. *)
Definition ParseOpl (records : list cstring) : outcome (list OperatorPlmnInfo) :=
  parse_records (opl_record BYTE_LENGTH HALF_BYTE_LEN) records.
Definition ParseOpl5g (records : list cstring) : outcome (list OperatorPlmnInfo) :=
  parse_records (opl_record OPL_5G_LENGTH LAC_RANGE_LEN) records.

(** ** Sets of PLMNs *)

(** The loops of [ParseEhplmn] and [ParseSpdi] over records of six characters. *)
Fixpoint plmn_loop (fuel : nat) (data : cstring) (i : Z) (plmns : gset cstring) : outcome (gset cstring) :=
  match fuel with
  | O => Ret plmns
  | S k =>
      if i + MCC_MNC_LEN <=? zlen data then
        plmnCode ← BcdPlmnConvertToString data i;
        plmn_loop k data (i + MCC_MNC_LEN) (match plmnCode with [] => plmns | _ => {[plmnCode]} ∪ plmns end)
      else Ret plmns
  end.

(** [ehplmns_] after the call. *)
Definition ParseEhplmn (data : cstring) : outcome (gset cstring) :=
  if (zlen data <? MCC_MNC_LEN) || (65535 <? zlen data) then Ret ∅
  else plmn_loop (length data) data 0 ∅.

(** The loop of [ParseSpdi]: [datav] at its end, [None] when the fuel runs out. *)
Fixpoint spdi_loop (fuel : nat) (recTlv : TagService) (datav : list Z) : outcome (option (list Z)) :=
  match fuel with
  | O => Ret None
  | S k =>
      '(more, recTlv) ← Next recTlv;
      if negb more then Ret (Some datav)
      else
        let tag := GetTagCode recTlv in
        '(recTlv, datav) ←
          (if tag =? TAG_SPDI then v ← GetValue recTlv; Ret (TagService_new v, v) else Ret (recTlv, datav));
        datav ← (if tag =? TAG_SPDI_PLMN_LIST then GetValue recTlv else Ret datav);
        spdi_loop k recTlv datav
  end.

(** [spdiPlmns_] after the call; [None] when the loop does not end in [fuel] steps. *)
Definition ParseSpdi (fuel : nat) (data : cstring) : outcome (option (gset cstring)) :=
  match data with
  | [] => Ret (Some ∅)
  | _ =>
      datav ← spdi_loop fuel (TagService_new_hex data) [];
      match datav with
      | None => Ret None
      | Some [] => Ret (Some ∅)
      | Some datav =>
          let plmnRawData := HexVecToHexStr datav in
          if zlen plmnRawData <? 6 then Ret (Some ∅)
          else plmns ← plmn_loop (length plmnRawData) plmnRawData 0 ∅; Ret (Some plmns)
      end
  end.

Example opl_ex : ParseOpl [str "64F0000000FFFE01"; str "xx"] = Ret [MkOpl (str "46000") 0 0xFFFE 1].
Proof. vm_compute. reflexivity. Qed.
Example pnn_ex : ParsePnn [str "430680C8329BFD06450480C8B40BFF"] = Ret [MkPnn (str "Hello") (str "Hi.")].
Proof. vm_compute. reflexivity. Qed.

(** ** PLMN records *)

(** Reference: the non-empty codes of consecutive records of six characters. *)
Fixpoint plmn_records (data : cstring) : list cstring :=
  match data with
  | a :: b :: c :: d :: e :: f :: t =>
      match plmn_chunk a b c d e f with [] => plmn_records t | code => code :: plmn_records t end
  | _ => []
  end.

Lemma plmn_records_short data : zlen data < 6 -> plmn_records data = [].
Proof.
  intros H. do 6 (destruct data as [|? data]; [done|]). zlen_simpl. pose proof (zlen_nonneg data). lia.
Qed.

Lemma plmn_loop_records fuel : forall pre rest plmns,
  (length rest <= fuel)%nat ->
  plmn_loop fuel (pre ++ rest) (zlen pre) plmns = Ret (list_to_set (plmn_records rest) ∪ plmns).
Proof.
  induction fuel as [|k IH]; intros pre rest plmns Hf.
  { destruct rest; [|cbn in Hf; lia]. cbn. f_equal. set_solver. }
  cbn [plmn_loop]. unfold MCC_MNC_LEN.
  destruct (Z.leb_spec (zlen pre + 6) (zlen (pre ++ rest))) as [L|L]; zlen_simpl.
  - destruct rest as [|a [|b [|c [|d [|e [|f rest]]]]]]; zlen_simpl; try lia.
    rewrite BcdPlmn_chunk. cbn [mbind outcome_bind].
    specialize (IH (pre ++ [a; b; c; d; e; f]) rest). rewrite <- app_assoc in IH. cbn [app] in IH.
    replace (zlen (pre ++ [a; b; c; d; e; f])) with (zlen pre + 6) in IH by by_zlen.
    rewrite IH by (cbn in Hf; lia). cbn [plmn_records]. f_equal.
    destruct (plmn_chunk a b c d e f); [done|]. set_solver.
  - rewrite plmn_records_short by lia. f_equal. set_solver.
Qed.

Lemma plmn_loop_all data : plmn_loop (length data) data 0 ∅ = Ret (list_to_set (plmn_records data)).
Proof.
  pose proof (plmn_loop_records (length data) [] data ∅ (le_n _)) as H.
  change (zlen (@nil ascii)) with 0 in H. cbn [app] in H. rewrite H. f_equal. set_solver.
Qed.

(** A PLMN: three digits of MCC, two or three of MNC; and its record. *)
Record Plmn : Type := MkPlmn { mcc1 : ascii; mcc2 : ascii; mcc3 : ascii; mnc1 : ascii; mnc2 : ascii; mnc3 : option ascii }.

Definition is_digit (c : ascii) : Prop := 48 <= code c <= 57.
Definition plmn_ok (p : Plmn) : Prop :=
  is_digit (mcc1 p) /\ is_digit (mcc2 p) /\ is_digit (mcc3 p) /\ is_digit (mnc1 p) /\ is_digit (mnc2 p) /\
  match mnc3 p with Some c => is_digit c | None => True end.
Definition plmn_text (p : Plmn) : cstring := [mcc1 p; mcc2 p; mcc3 p; mnc1 p; mnc2 p] ++ option_list (mnc3 p).
(** [None] is an unused record. *)
Definition plmn_bcd (p : option Plmn) : cstring :=
  match p with
  | Some p => [mcc2 p; mcc1 p; default "F"%char (mnc3 p); mcc3 p; mnc2 p; mnc1 p]
  | None => str "FFFFFF"
  end.

Lemma digit_not_F c : is_digit c -> Ascii.eqb c "F"%char = false.
Proof. intros H. destruct (Ascii.eqb_spec c "F"%char) as [->|]; [|done]. destruct H as [_ H]. change (code "F"%char) with 70 in H. lia. Qed.

Lemma plmn_chunk_bcd p : plmn_ok p ->
  plmn_chunk (mcc2 p) (mcc1 p) (default "F"%char (mnc3 p)) (mcc3 p) (mnc2 p) (mnc1 p) = plmn_text p.
Proof.
  intros (_ & H2 & _ & _ & _ & H3). unfold plmn_chunk, plmn_text. rewrite digit_not_F by done.
  destruct (mnc3 p) as [c|]; [|done]. change (default "F"%char (Some c)) with c. by rewrite digit_not_F.
Qed.

Lemma plmn_records_bcd ps junk :
  Forall (fun p => match p with Some p => plmn_ok p | None => True end) ps -> zlen junk < 6 ->
  plmn_records ((ps ≫= plmn_bcd) ++ junk) = plmn_text <$> omap id ps.
Proof.
  intros H Hj. induction H as [|p ps Hp _ IH].
  { by apply plmn_records_short. }
  rewrite bind_cons, <- app_assoc. destruct p as [p|]; [|exact IH].
  cbn [plmn_bcd app plmn_records]. rewrite plmn_chunk_bcd by done. rewrite IH. done.
Qed.

(** [ParseEhplmn] gives exactly the set of the PLMNs stored in EF_EHPLMN,
    unused records (FFFFFF) and an incomplete record at the end left out. *)
Theorem ParseEhplmn_set ps junk :
  Forall (fun p => match p with Some p => plmn_ok p | None => True end) ps -> zlen junk < 6 ->
  ps <> [] -> zlen ((ps ≫= plmn_bcd) ++ junk) <= 65535 ->
  ParseEhplmn ((ps ≫= plmn_bcd) ++ junk) = Ret (list_to_set (plmn_text <$> omap id ps)).
Proof.
  intros Hp Hj Hne Hl. unfold ParseEhplmn, MCC_MNC_LEN.
  assert (6 <= zlen ((ps ≫= plmn_bcd) ++ junk)).
  { destruct ps as [|p ps]; [done|]. rewrite bind_cons.
    assert (zlen (plmn_bcd p) = 6) by (by destruct p). zlen_simpl.
    pose proof (zlen_nonneg (ps ≫= plmn_bcd)). pose proof (zlen_nonneg junk). lia. }
  repeat (case_bool; [lia|]). cbn [orb].
  by rewrite plmn_loop_all, plmn_records_bcd.
Qed.

Lemma ParseEhplmn_set_witness :
  ParseEhplmn (str "64F000FFFFFF13006264") =
  Ret (list_to_set [str "46000"; str "310260"]).
Proof.
  apply (ParseEhplmn_set
    [Some (MkPlmn "4" "6" "0" "0" "0" None); None; Some (MkPlmn "3" "1" "0" "2" "6" (Some "0"))]%char (str "64")).
  - repeat (apply Forall_cons_2; [done|]). apply Forall_nil_2.
  - done.
  - done.
  - done.
Defined.

(** ** Display PLMNs *)

Lemma hex_value_u8 c1 c2 : is_u8 (from_chars_u8 c1 c2).
Proof.
  unfold from_chars_u8, is_u8. destruct (hex_value c1) as [d1|] eqn:E1; [|lia].
  apply hex_value_range in E1. destruct (hex_value c2) as [d2|] eqn:E2; [apply hex_value_range in E2|]; lia.
Qed.

Lemma hex_pairs_u8_range s : Forall is_u8 (hex_pairs_u8 s).
Proof.
  remember (length s) as n eqn:E. revert s E. induction n as [n IH] using lt_wf_ind. intros s ->.
  destruct s as [|a [|b s]]; [apply Forall_nil_2..|]. apply Forall_cons_2; [apply hex_value_u8|].
  apply (IH (length s)); [cbn; lia|done].
Qed.

Lemma hex_pairs_u8_length s : (length (hex_pairs_u8 s) <= length s)%nat.
Proof.
  remember (length s) as n eqn:E. revert s E. induction n as [n IH] using lt_wf_ind. intros s ->.
  destruct s as [|a [|b s]]; [cbn; lia..|]. cbn [hex_pairs_u8 length]. specialize (IH (length s) ltac:(cbn; lia) s eq_refl). lia.
Qed.

Lemma spdi_loop_total n : forall t datav,
  walk_ok t -> zlen (data_ t) - offset_ t < Z.of_nat n /\ (0 < n)%nat ->
  exists r, forall fuel, (n <= fuel)%nat -> spdi_loop fuel t datav = Ret (Some r).
Proof.
  induction n as [|n IH]; intros t datav Ht Hn; [lia|].
  destruct (Next_walk t Ht) as (more & t' & E & Ht' & Hd & Hm). destruct more; cycle 1.
  { exists datav. intros [|fuel] Hf; [lia|]. cbn [spdi_loop]. by rewrite E. }
  destruct (Hm eq_refl) as (Hlt & Hoff & Hdo & Hl & _). destruct Ht as [Ho Hu].
  destruct (GetValue_in t') as (v & Hv & Lv); [lia..|rewrite Hd; lia|].
  assert (Hvu : Forall is_u8 v).
  { assert (v = take (Z.to_nat (length_ t')) (drop (Z.to_nat (dataOffset_ t')) (data_ t'))) as ->.
    { assert (GetValue t' = Ret (take (Z.to_nat (length_ t')) (drop (Z.to_nat (dataOffset_ t')) (data_ t')))) as G; [|congruence].
      apply (GetValue_at t' (take (Z.to_nat (dataOffset_ t')) (data_ t')) _ (drop (Z.to_nat (length_ t')) (drop (Z.to_nat (dataOffset_ t')) (data_ t')))).
      - by rewrite !take_drop.
      - rewrite Hd in *. unfold zlen in *. rewrite length_take. lia.
      - rewrite Hd in *. unfold zlen in *. rewrite length_take, length_drop. lia. }
    apply Forall_take, Forall_drop. rewrite Hd. exact Hu. }
  destruct (Z.eqb_spec (GetTagCode t') TAG_SPDI) as [E1|E1].
  - destruct (IH (TagService_new v) v) as [r Hr]; [by split|cbn; rewrite Lv; lia|].
    exists r. intros [|fuel] Hf; [lia|]. cbn [spdi_loop]. rewrite E. cbn [mbind outcome_bind negb].
    rewrite E1. change (TAG_SPDI =? TAG_SPDI) with true. cbv iota. rewrite Hv. cbn [mbind outcome_bind].
    change (TAG_SPDI =? TAG_SPDI_PLMN_LIST) with false. cbn [mbind outcome_bind]. apply Hr. lia.
  - destruct (IH t' (if GetTagCode t' =? TAG_SPDI_PLMN_LIST then v else datav)) as [r Hr]; [done|rewrite Hd; lia|].
    exists r. intros [|fuel] Hf; [lia|]. cbn [spdi_loop]. rewrite E. cbn [mbind outcome_bind negb].
    destruct (Z.eqb_spec (GetTagCode t') TAG_SPDI); [done|]. cbn [mbind outcome_bind].
    destruct (GetTagCode t' =? TAG_SPDI_PLMN_LIST); [rewrite Hv|]; cbn [mbind outcome_bind]; apply Hr; lia.
Qed.

(** [ParseSpdi] ends on every string of the card, with one turn of its loop per
    byte at most (the element it descends into is shorter than what is left), and
    neither throws nor reads outside the data. *)
Theorem ParseSpdi_total data :
  exists plmns, forall fuel, (length data < fuel)%nat -> ParseSpdi fuel data = Ret (Some plmns).
Proof.
  destruct data as [|a s] eqn:Es; [by eexists|]. rewrite <- Es. cbn [ParseSpdi].
  assert (exists bytes, TagService_new_hex data = TagService_new bytes /\ Forall is_u8 bytes /\ (length bytes <= length data)%nat)
    as (bytes & E & Hu & Hl).
  { unfold TagService_new_hex. destruct (_ || _); eexists; split; try reflexivity.
    - split; [apply Forall_nil_2|cbn; lia].
    - split; [apply hex_pairs_u8_range|apply hex_pairs_u8_length]. }
  destruct (spdi_loop_total (S (length bytes)) (TagService_new bytes) []) as [r Hr].
  { by split. } { cbn. unfold zlen. lia. }
  exists (match r with [] => ∅ | _ => if zlen (HexVecToHexStr r) <? 6 then ∅ else list_to_set (plmn_records (HexVecToHexStr r)) end).
  intros fuel Hf. rewrite Es. cbn [ParseSpdi]. rewrite <- Es, E, Hr by lia. cbn [mbind outcome_bind].
  destruct r as [|b r]; [done|].
  case_bool; [done|]. by rewrite plmn_loop_all.
Qed.

Definition hex_pair_test (b : Z) : bool :=
  bool_decide (put_hex 2 b = hex_chars b) &&
  (from_chars_u8 (nth 0 (hex_chars b) "0"%char) (nth 1 (hex_chars b) "0"%char) =? b).

Lemma HexVecToHexStr_pairs bytes : Forall is_u8 bytes ->
  HexVecToHexStr bytes = bytes ≫= hex_chars /\ hex_pairs_u8 (HexVecToHexStr bytes) = bytes.
Proof.
  assert (P : forall b, is_u8 b -> put_hex 2 b = hex_chars b /\ from_chars_u8 (nth 0 (hex_chars b) "0"%char) (nth 1 (hex_chars b) "0"%char) = b).
  { intros b Hb. pose proof (forallb_seqZ hex_pair_test 0 256 ltac:(vm_compute; reflexivity) b Hb) as G.
    apply andb_prop in G as [G1 G2]. split; [by apply bool_decide_eq_true in G1|by apply Z.eqb_eq]. }
  unfold HexVecToHexStr. induction 1 as [|b l Hb Hl [IH1 IH2]]; [done|]. rewrite !bind_cons.
  destruct (P b Hb) as [P1 P2]. rewrite P1. split; [by rewrite IH1|].
  unfold hex_chars in *. cbn [app hex_pairs_u8 nth] in *. by rewrite P2, IH2.
Qed.

(** What the loop leaves in [datav] on a list of elements without SPDI tag. *)
Definition last_list (datav : list Z) (es : list (Z * list Z)) : list Z :=
  foldl (fun acc e => if e.1 =? TAG_SPDI_PLMN_LIST then e.2 else acc) datav es.

Definition padding (post : list Z) : Prop := match post with [] => True | b :: _ => b = 0 \/ b = 255 end.

Lemma spdi_loop_elements es : forall pre post l g d fuel data datav,
  data = pre ++ concat (encode_element <$> es) ++ post ->
  Forall (fun e => element_ok e /\ e.1 <> TAG_SPDI) es -> padding post -> (length es < fuel)%nat ->
  spdi_loop fuel (MkTag l g (zlen pre) data d true) datav = Ret (Some (last_list datav es)).
Proof.
  induction es as [|e es IH]; intros pre post l g d fuel data datav Hdata Hes Hpost Hf; (destruct fuel as [|k]; [lia|]);
    cbn [spdi_loop].
  - by destruct (Next_end data pre post l g d Hdata Hpost) as [t' ->].
  - rewrite fmap_cons in Hdata. cbn [concat] in Hdata. apply Forall_cons in Hes as [[He Hn] Hes].
    destruct (Next_element data pre e (concat (encode_element <$> es) ++ post) (zlen pre)) as [off HN];
      [rewrite Hdata; by_assoc|done|done|].
    destruct (HN l g d) as [-> Hv]. cbn [mbind outcome_bind negb].
    rewrite (GetTagCode_chars _ e.1) by (destruct He; done || lia).
    destruct (Z.eqb_spec e.1 TAG_SPDI); [done|]. cbn [mbind outcome_bind].
    assert (R : forall dv, spdi_loop k (MkTag (zlen e.2) (tag_chars e.1) (zlen (pre ++ encode_element e)) data off true) dv
                = Ret (Some (last_list dv es))).
    { intros dv. apply (IH _ post); [rewrite Hdata; by_assoc|done|done|cbn in Hf; lia]. }
    unfold last_list in *. cbn [foldl]. destruct (e.1 =? TAG_SPDI_PLMN_LIST); [rewrite Hv|]; cbn [mbind outcome_bind]; apply R.
Qed.

Lemma encode_element_u8 e : element_ok e -> Forall is_u8 e.2 -> Forall is_u8 (encode_element e).
Proof.
  intros [Ht Hl] Hu. pose proof (zlen_nonneg e.2). unfold encode_element, TagService.CHINESE_FLAG, TagService.UCS_FLAG.
  apply Forall_cons_2; [unfold is_u8; lia|]. apply Forall_app_2; [|done].
  case_bool; repeat (apply Forall_cons_2; [unfold is_u8; lia|]); apply Forall_nil_2.
Qed.

(** [ParseSpdi] on an SPDI element (0xA3) whose content is a list of elements
    gives the PLMNs of the last PLMN list (tag 0x80) among them, as a set; when there
    is none, it takes the whole content of the SPDI element for a PLMN list. *)
Theorem ParseSpdi_plmns es post fuel :
  Forall (fun e => element_ok e /\ e.1 <> TAG_SPDI) es -> Forall (fun e => Forall is_u8 e.2) es ->
  let content := concat (encode_element <$> es) in
  zlen content < 256 -> padding post -> Forall is_u8 post -> (length es + 1 < fuel)%nat ->
  let datav := last_list content es in
  ParseSpdi fuel (HexVecToHexStr (encode_element (TAG_SPDI, content) ++ post)) =
  Ret (Some (list_to_set (plmn_records (datav ≫= hex_chars)))).
Proof.
  intros Hes Hu content Hc Hpost Hpu Hf datav. set (bytes := encode_element (TAG_SPDI, content) ++ post).
  assert (Hcu : Forall is_u8 content).
  { apply Forall_concat, Forall_fmap, Forall_forall. intros e He. rewrite list.Forall_forall in Hes, Hu.
    by apply encode_element_u8; [apply Hes|apply Hu]. }
  assert (Hbu : Forall is_u8 bytes).
  { apply Forall_app_2; [|done]. apply encode_element_u8; [|done]. split; [done|exact Hc]. }
  destruct (HexVecToHexStr_pairs bytes Hbu) as [E1 E2].
  assert (Hlen : zlen (HexVecToHexStr bytes) = 2 * zlen bytes).
  { rewrite E1. clear. induction bytes as [|b l IH]; [done|]. rewrite bind_cons. unfold hex_chars at 1. zlen_simpl. lia. }
  assert (Hb1 : 0 < zlen bytes).
  { unfold bytes, encode_element. zlen_simpl. pose proof (zlen_nonneg post). pose proof (zlen_nonneg content).
    destruct (zlen _ <? _); zlen_simpl; cbn [snd]; lia. }
  assert (Hnew : TagService_new_hex (HexVecToHexStr bytes) = MkTag 0 [] (zlen (@nil Z)) bytes 0 true).
  { unfold TagService_new_hex. rewrite Hlen, E2. unfold CHINESE_POS. rewrite (Z.mul_comm 2), Z.mod_mul by lia.
    destruct (Z.eqb_spec (zlen bytes * 2) 0); [lia|]. done. }
  assert (Hloop : spdi_loop fuel (TagService_new_hex (HexVecToHexStr bytes)) [] = Ret (Some datav)).
  { rewrite Hnew. destruct fuel as [|k]; [lia|]. cbn [spdi_loop].
    destruct (Next_element bytes [] (TAG_SPDI, content) post 0) as [off HN]; [done|split; [done|exact Hc]|done|].
    destruct (HN 0 [] 0) as [N V]. change (zlen (@nil Z)) with 0. rewrite N. cbn [mbind outcome_bind negb].
    rewrite (GetTagCode_chars _ TAG_SPDI) by done. change (TAG_SPDI =? TAG_SPDI) with true. cbv iota. rewrite V.
    cbn [mbind outcome_bind]. change (TAG_SPDI =? TAG_SPDI_PLMN_LIST) with false. cbn [mbind outcome_bind snd].
    apply (spdi_loop_elements es [] []); [by rewrite app_nil_r|done|done|lia]. }
  destruct (HexVecToHexStr bytes) as [|c0 s0] eqn:Es; [change (zlen (@nil ascii)) with 0 in Hlen; lia|].
  cbn [ParseSpdi]. rewrite Hloop. cbn [mbind outcome_bind].
  assert (Hdu : Forall is_u8 datav).
  { clear - Hcu Hu. unfold datav, last_list. revert Hcu. generalize content as c. clear content datav.
    induction Hu as [|e es He _ IH]; intros c Hc; [done|]. cbn [foldl]. apply IH. by destruct (_ =? _). }
  destruct (HexVecToHexStr_pairs datav Hdu) as [E3 _]. rewrite <- E3.
  destruct datav as [|x dv]; [done|]. case_bool; [by rewrite plmn_records_short|]. by rewrite plmn_loop_all.
Qed.

Lemma ParseSpdi_plmns_witness :
  ParseSpdi 5 (str "A308800664F00064F010FFFF") = Ret (Some (list_to_set [str "46000"; str "46001"])).
Proof.
  apply (ParseSpdi_plmns [(0x80, [0x64; 0xF0; 0x00; 0x64; 0xF0; 0x10])] [255; 255] 5).
  - apply Forall_cons_2; [|apply Forall_nil_2]. done.
  - apply Forall_cons_2; [by_u8|apply Forall_nil_2].
  - done.
  - by right.
  - by_u8.
  - cbn. lia.
Defined.

(** ** Operator PLMN lists *)

Definition hex_field (w : nat) (v : Z) : cstring := hex_upper <$> be_digits 16 w v.

(** An entry of EF_OPL as a record, [lac] digits for each location area code. *)
Definition opl_encode (lac : nat) (p : Plmn) (start end_ id : Z) : cstring :=
  plmn_bcd (Some p) ++ hex_field lac start ++ hex_field lac end_ ++ hex_field 2 id.

Lemma hex_field_length w v : zlen (hex_field w v) = Z.of_nat w.
Proof. unfold hex_field, zlen. by rewrite length_fmap, be_digits_length. Qed.

Lemma hex_field_digits w v : hex_digits_of (hex_field w v) = Some (be_digits 16 w v).
Proof. apply hex_digits_of_upper, be_digits_range. lia. Qed.

Lemma hex_field_value w v : (w <= 7)%nat -> 0 <= v < 16 ^ Z.of_nat w -> i32 (strtol16 (hex_field w v)) = v.
Proof.
  intros Hw Hv. assert (16 ^ Z.of_nat w <= 16 ^ 7) by (apply Z.pow_le_mono_r; lia).
  assert (be_value 16 (be_digits 16 w v) = v) as E by (apply be_value_digits_small; lia).
  rewrite (strtol16_digits _ _ (hex_field_digits w v)); rewrite E; [|lia]. apply i32_small. unfold is_i32. lia.
Qed.

Definition hex_char (c : ascii) : bool := match hex_value c with Some _ => true | None => false end.

Lemma all_hex_forallb s : s <> [] -> all_hex s = forallb hex_char s.
Proof. by destruct s. Qed.

Lemma forallb_digits_of s ds : hex_digits_of s = Some ds -> forallb hex_char s = true.
Proof.
  unfold hex_digits_of, hex_char. revert ds. induction s as [|c s IH]; intros ds H; [done|]. cbn in *.
  destruct (hex_value c) as [d|]; [|done]. cbn in *. destruct (mapM hex_value s) as [t|]; [|done]. by eapply IH.
Qed.

Lemma digit_hex_char c : is_digit c -> hex_char c = true.
Proof.
  unfold is_digit, hex_char, hex_value. intros H. by replace ((48 <=? code c) && (code c <=? 57)) with true by lia.
Qed.

Lemma plmn_bcd_hex p : plmn_ok p -> forallb hex_char (plmn_bcd (Some p)) = true.
Proof.
  intros (? & ? & ? & ? & ? & H3). cbn [plmn_bcd forallb]. rewrite (digit_hex_char (mcc1 p)), (digit_hex_char (mcc2 p)), (digit_hex_char (mcc3 p)),
    (digit_hex_char (mnc1 p)), (digit_hex_char (mnc2 p)) by done.
  destruct (mnc3 p) as [c|]; [|done]. change (default "F"%char (Some c)) with c. by rewrite digit_hex_char.
Qed.

Lemma substr_at pre s rest pos n : pos = zlen pre -> n = zlen s -> substr (pre ++ s ++ rest) pos n = Ret s.
Proof.
  intros -> ->. unfold substr. pose proof (zlen_nonneg s). pose proof (zlen_nonneg rest).
  case_bool; [zlen_simpl; lia|]. unfold zlen. rewrite !Nat2Z.id, drop_app_length. by rewrite take_app_length.
Qed.

Lemma opl_record_encode lac p start end_ id :
  (0 < lac <= 7)%nat -> plmn_ok p -> 0 <= start < 16 ^ Z.of_nat lac -> 0 <= end_ < 16 ^ Z.of_nat lac -> 0 <= id < 256 ->
  opl_record (4 + Z.of_nat lac) (Z.of_nat lac) (opl_encode lac p start end_ id) = Ret (Some (MkOpl (plmn_text p) start end_ id)).
Proof.
  intros Hlac Hp Hs He Hi.
  assert (Hl : zlen (opl_encode lac p start end_ id) = 8 + 2 * Z.of_nat lac).
  { unfold opl_encode. rewrite !zlen_app, !hex_field_length. change (zlen (plmn_bcd (Some p))) with 6. lia. }
  assert (Hh : all_hex (opl_encode lac p start end_ id) = true).
  { rewrite all_hex_forallb by done. unfold opl_encode. rewrite !forallb_app, plmn_bcd_hex by done.
    by rewrite !(forallb_digits_of _ _ (hex_field_digits _ _)). }
  assert (Hb : BcdPlmnConvertToString (opl_encode lac p start end_ id) 0 = Ret (plmn_text p)).
  { rewrite <- plmn_chunk_bcd by done. apply (BcdPlmn_chunk []). }
  unfold opl_record. destruct (opl_encode lac p start end_ id) as [|c s] eqn:E; [done|]. rewrite <- E in *.
  rewrite Hl, Hh. replace (8 + 2 * Z.of_nat lac =? 4 + Z.of_nat lac + (4 + Z.of_nat lac)) with true by lia.
  cbn [negb]. rewrite Hb. cbn [mbind outcome_bind plmn_text app]. clear c s E Hb Hh.
  unfold opl_encode. change MCCMNC_LEN with (zlen (plmn_bcd (Some p))).
  assert (F1 : forall rest, substr (plmn_bcd (Some p) ++ hex_field lac start ++ rest) (zlen (plmn_bcd (Some p))) (Z.of_nat lac)
    = Ret (hex_field lac start)) by (intros; apply substr_at; by rewrite ?hex_field_length).
  assert (F2 : forall rest, substr (plmn_bcd (Some p) ++ hex_field lac start ++ hex_field lac end_ ++ rest)
    (zlen (plmn_bcd (Some p)) + Z.of_nat lac) (Z.of_nat lac) = Ret (hex_field lac end_)).
  { intros. rewrite app_assoc. apply substr_at; by rewrite ?zlen_app, ?hex_field_length. }
  assert (F3 : substr (plmn_bcd (Some p) ++ hex_field lac start ++ hex_field lac end_ ++ hex_field 2 id)
    (zlen (plmn_bcd (Some p)) + Z.of_nat lac + Z.of_nat lac) HALF_LEN = Ret (hex_field 2 id)).
  { rewrite <- (app_nil_r (hex_field 2 id)) at 1. rewrite (app_assoc (hex_field lac start)), app_assoc.
    apply substr_at; rewrite ?zlen_app, ?hex_field_length; [lia|done]. }
  rewrite F1. cbn [mbind outcome_bind]. rewrite F2. cbn [mbind outcome_bind]. rewrite F3. cbn [mbind outcome_bind].
  rewrite !hex_field_value by (done || lia). done.
Qed.

(** A record that is not one: of another length, or with another character. *)
Definition opl_junk (lac : nat) (s : cstring) : Prop := zlen s <> 8 + 2 * Z.of_nat lac \/ all_hex s = false.

Lemma opl_record_junk lac s : opl_junk lac s -> opl_record (4 + Z.of_nat lac) (Z.of_nat lac) s = Ret None.
Proof.
  intros H. unfold opl_record. destruct s as [|c s]; [done|].
  destruct (Z.eqb_spec (zlen (c :: s)) (4 + Z.of_nat lac + (4 + Z.of_nat lac))); [|done]. cbn [negb].
  destruct H as [|H]; [lia|]. by rewrite H.
Qed.

Inductive opl_item := Entry (p : Plmn) (start end_ id : Z) | Junk (s : cstring).

Definition item_ok (lac : nat) (i : opl_item) : Prop :=
  match i with
  | Entry p start end_ id =>
      plmn_ok p /\ 0 <= start < 16 ^ Z.of_nat lac /\ 0 <= end_ < 16 ^ Z.of_nat lac /\ 0 <= id < 256
  | Junk s => opl_junk lac s
  end.
Definition item_record (lac : nat) (i : opl_item) : cstring :=
  match i with Entry p s e id => opl_encode lac p s e id | Junk s => s end.
Definition item_info (i : opl_item) : option OperatorPlmnInfo :=
  match i with Entry p s e id => Some (MkOpl (plmn_text p) s e id) | Junk _ => None end.

Lemma parse_records_items {A B} (record : cstring -> outcome (option A)) (enc : B -> cstring) (info : B -> option A) l :
  Forall (fun b => record (enc b) = Ret (info b)) l -> parse_records record (enc <$> l) = Ret (omap info l).
Proof.
  induction 1 as [|b l Hb _ IH]; [done|]. rewrite fmap_cons. cbn [parse_records]. rewrite Hb. cbn [mbind outcome_bind].
  rewrite IH. cbn. by destruct (info b).
Qed.

Lemma opl_items lac l : (0 < lac <= 7)%nat -> Forall (item_ok lac) l ->
  parse_records (opl_record (4 + Z.of_nat lac) (Z.of_nat lac)) (item_record lac <$> l) = Ret (omap item_info l).
Proof.
  intros Hl H. apply parse_records_items. eapply Forall_impl; [exact H|]. intros [p s e id|s] Hi; cbn in *.
  - destruct Hi as (? & ? & ? & ?). by apply opl_record_encode.
  - by apply opl_record_junk.
Qed.

(** [ParseOpl] and [ParseOpl5g] read the operator PLMN lists: each record of 16
    (20 for 5G) digits gives its PLMN, the bounds of its location area range (four,
    six digits) and its record number, in the order of the records; records of
    another length or with other characters are left out, and nothing throws. *)
Theorem ParseOpl_entries l l5 :
  Forall (item_ok 4) l -> Forall (item_ok 6) l5 ->
  ParseOpl (item_record 4 <$> l) = Ret (omap item_info l) /\
  ParseOpl5g (item_record 6 <$> l5) = Ret (omap item_info l5).
Proof. intros H4 H6. split; [apply (opl_items 4)|apply (opl_items 6)]; done || lia. Qed.

Lemma ParseOpl_entries_witness :
  ParseOpl [str "64F0000000FFFE01"; str "xx"] = Ret [MkOpl (str "46000") 0 0xFFFE 1].
Proof.
  apply (ParseOpl_entries [Entry (MkPlmn "4" "6" "0" "0" "0" None)%char 0 0xFFFE 1; Junk (str "xx")] []).
  - apply Forall_cons_2; [done|]. apply Forall_cons_2; [by left|apply Forall_nil_2].
  - apply Forall_nil_2.
Defined.

(** ** Network names *)

Lemma hex_bytes_u8 s : Forall is_u8 (hex_bytes s).
Proof.
  remember (length s) as n eqn:E. revert s E. induction n as [n IH] using lt_wf_ind. intros s ->.
  destruct s as [|a [|b s]]; [apply Forall_nil_2..|]. apply Forall_cons_2; [apply u8_range|].
  apply (IH (length s)); [cbn; lia|done].
Qed.

Lemma hex_bytes_length s : zlen s mod 2 = 0 -> zlen (hex_bytes s) = zlen s / 2.
Proof.
  remember (length s) as n eqn:E. revert s E. induction n as [n IH] using lt_wf_ind. intros s -> H.
  destruct s as [|a [|b s]]; [done|done|]. cbn [hex_bytes].
  assert (zlen (a :: b :: s) = zlen s + 1 * 2) as L by by_zlen. rewrite L in *.
  rewrite Z.mod_add in H by lia. rewrite Z.div_add by lia. rewrite zlen_cons, (IH (length s)); [lia|cbn; lia|done|done].
Qed.

Lemma HexString_buffer s tlv n : HexStringConvertToBytes s 0 = (Some tlv, n) -> Forall is_u8 tlv /\ zlen tlv = n + 1.
Proof.
  unfold HexStringConvertToBytes, HALF_LEN. destruct (_ =? 0); [done|].
  destruct (Z.eqb_spec (zlen s mod 2) 0) as [E|]; [|done]. intros [= <- <-]. split.
  - apply Forall_app_2; [apply hex_bytes_u8|by_u8].
  - rewrite zlen_app, hex_bytes_length by done. done.
Qed.

(** Reading a text inside the buffer, an empty field ([byteLen] = -1) included. *)
Lemma Gsm7bit_inside tlv pos byteLen state :
  Forall is_u8 tlv -> 0 <= pos -> -1 <= byteLen -> pos + byteLen <= zlen tlv ->
  exists s, Gsm7bitConvertToString (drop (Z.to_nat pos) tlv) byteLen state = Ret s.
Proof.
  intros Hu Hp Hb Hl. destruct (decide (byteLen = -1)) as [->|].
  - unfold Gsm7bitConvertToString. change (Z.quot _ _) with (-1). cbn. eauto.
  - eexists. apply Gsm7bit_text; [by apply Forall_drop|]. unfold zlen in *. rewrite length_drop. lia.
Qed.

Lemma pnn_record_safe s : exists o, pnn_record s = Ret o.
Proof.
  unfold pnn_record. destruct s as [|c s']; [by eexists|]. set (s := c :: s').
  destruct (HexStringConvertToBytes s 0) as [[tlv|] n] eqn:E; [|by eexists].
  destruct (HexString_buffer s tlv n E) as [Hu Hl].
  unfold NETWORK_NAME_LENGTH, NETWORK_NAME_IEI, NETWORK_NAME_CODING_SCHEME, NETWORK_NAME_TEXT_STRING.
  destruct (Z.leb_spec n (1 + 1)); [by eexists|].
  assert (G : forall i, 0 <= i < n -> exists b, vec_get tlv i = Ret b /\ is_u8 b).
  { intros i Hi. destruct (vec_get_in tlv i) as (b & R & L); [lia|]. exists b. split; [done|]. by eapply Forall_lookup_1 in L. }
  destruct (G 1) as (len & -> & Hlen); [lia|]. destruct (G 0) as (iei & -> & _); [lia|]. cbn [mbind outcome_bind].
  unfold is_u8 in Hlen.
  assert (exists a, (if (1 + 1 + len <=? n) && (iei =? LONG_NAME_FLAG) then
      scheme ← vec_get tlv 2; Gsm7bitConvertToString (drop (Z.to_nat 3) tlv) (len - 1) scheme else Ret []) = Ret a) as [a Ha].
  { destruct (Z.leb_spec (1 + 1 + len) n); [|by eexists]. destruct (iei =? LONG_NAME_FLAG); [|by eexists].
    destruct (G 2) as (sc & -> & _); [lia|]. apply Gsm7bit_inside; done || lia. }
  rewrite Ha. cbn [mbind outcome_bind].
  destruct (Z.ltb_spec (1 + 1 + len + (1 + 1)) n); [|by eexists].
  destruct (G (1 + 1 + len + 1)) as (slen & -> & Hslen); [lia|]. cbn [mbind outcome_bind]. unfold is_u8 in Hslen.
  destruct (Z.leb_spec (1 + 1 + len + (1 + 1) + slen) n); [|by eexists].
  destruct (G (1 + 1 + len + 0)) as (siei & -> & _); [lia|]. cbn [mbind outcome_bind].
  destruct (siei =? SHORT_NAME_FLAG); [|by eexists].
  destruct (G (1 + 1 + len + 2)) as (sc & -> & _); [lia|]. cbn [mbind outcome_bind].
  destruct (Gsm7bit_inside tlv (1 + 1 + len + 3) (slen - 1) sc) as [b ->]; [done|lia..|]. by eexists.
Qed.

(** [ParsePnn] reads inside its buffers whatever the records contain: the
    declared lengths of the names, which come from the card, are checked against
    the record before they are used. *)
Theorem ParsePnn_safe records : exists files, ParsePnn records = Ret files /\ (length files <= length records)%nat.
Proof.
  unfold ParsePnn. induction records as [|r rs (fs & IH & L)]; [by exists []|].
  destruct (pnn_record_safe r) as [o Ho]. cbn [parse_records]. rewrite Ho. cbn [mbind outcome_bind]. rewrite IH.
  eexists. split; [reflexivity|]. destruct o; cbn; lia.
Qed.

(** A record with a long and a short name in the GSM alphabet, and padding. *)
Definition pnn_tlv (long : list Z) (ls : Z) (short : list Z) (ss : Z) (pad : list Z) : list Z :=
  [LONG_NAME_FLAG; 1 + zlen long; ls] ++ long ++ [SHORT_NAME_FLAG; 1 + zlen short; ss] ++ short ++ pad.

(** What the hexadecimal form of bytes is converted to, with the terminator. *)
Lemma HexStringConvertToBytes_encoded tlv :
  Forall is_u8 tlv -> 0 < zlen tlv -> HexStringConvertToBytes (HexVecToHexStr tlv) 0 = (Some (tlv ++ [0]), zlen tlv).
Proof.
  intros Hu Hpos. destruct (HexVecToHexStr_pairs tlv Hu) as [E _]. rewrite E. unfold HexStringConvertToBytes, HALF_LEN.
  pose proof (hex_bytes_app tlv [] Hu) as A. rewrite app_nil_r in A. rewrite A, app_nil_r.
  assert (zlen (tlv ≫= hex_chars) = 2 * zlen tlv) as ->.
  { clear. induction tlv as [|b l IH]; [done|]. rewrite bind_cons. unfold hex_chars at 1. zlen_simpl. lia. }
  destruct (Z.eqb_spec (2 * zlen tlv) 0); [lia|]. by rewrite (Z.mul_comm 2), Z.mod_mul, Z.div_mul by lia.
Qed.

(** A text at the front of a buffer, its length given with the coding scheme's byte. *)
Lemma Gsm7bit_front text rest st :
  Forall is_u8 text -> Forall is_u8 rest ->
  Gsm7bitConvertToString (text ++ rest) (1 + zlen text - 1) st = Ret (gsm_text text (zlen text) st).
Proof.
  intros H1 H2. replace (1 + zlen text - 1) with (zlen text) by lia. pose proof (zlen_nonneg rest). pose proof (zlen_nonneg text).
  rewrite Gsm7bit_text by (zlen_simpl; (by apply Forall_app_2) || lia). by rewrite gsm_text_prefix.
Qed.

(** [ParsePnn] on a record with a long and a short name gives both texts, each
    decoded from its own bytes with its own coding scheme. *)
Theorem ParsePnn_names long ls short ss pad :
  Forall is_u8 (pnn_tlv long ls short ss pad) ->
  ParsePnn [HexVecToHexStr (pnn_tlv long ls short ss pad)] =
  Ret [MkPnn (gsm_text long (zlen long) ls) (gsm_text short (zlen short) ss)].
Proof.
  intros Hu. set (tlv := pnn_tlv long ls short ss pad) in *.
  pose proof (zlen_nonneg long). pose proof (zlen_nonneg short). pose proof (zlen_nonneg pad).
  assert (Lt : zlen tlv = 6 + zlen long + zlen short + zlen pad) by (unfold tlv, pnn_tlv; by_zlen).
  pose proof (HexStringConvertToBytes_encoded tlv Hu ltac:(lia)) as Hb.
  unfold ParsePnn. cbn [parse_records]. unfold pnn_record.
  destruct (HexVecToHexStr tlv) as [|c s] eqn:Es; [done|]. rewrite Hb. clear c s Es Hb.
  unfold NETWORK_NAME_LENGTH, NETWORK_NAME_IEI, NETWORK_NAME_CODING_SCHEME, NETWORK_NAME_TEXT_STRING.
  destruct (Z.leb_spec (zlen tlv) (1 + 1)); [lia|].
  set (short_part := [SHORT_NAME_FLAG; 1 + zlen short; ss] ++ short ++ pad).
  assert (S1 : tlv ++ [0] = [LONG_NAME_FLAG; 1 + zlen long; ls] ++ long ++ short_part ++ [0])
    by (unfold tlv, pnn_tlv, short_part; by_assoc).
  assert (S2 : tlv ++ [0] = ([LONG_NAME_FLAG; 1 + zlen long; ls] ++ long ++ [SHORT_NAME_FLAG; 1 + zlen short; ss]) ++ short ++ pad ++ [0])
    by (unfold tlv, pnn_tlv; by_assoc).
  rewrite (vec_get_at _ [LONG_NAME_FLAG] (1 + zlen long) (ls :: long ++ short_part ++ [0]) 1 S1 eq_refl). cbn [mbind outcome_bind].
  rewrite (vec_get_at _ [] LONG_NAME_FLAG _ 0 S1 eq_refl). cbn [mbind outcome_bind].
  destruct (Z.leb_spec (1 + 1 + (1 + zlen long)) (zlen tlv)); [|lia]. change (LONG_NAME_FLAG =? LONG_NAME_FLAG) with true. cbn [andb].
  rewrite (vec_get_at _ [LONG_NAME_FLAG; 1 + zlen long] ls _ 2 S1 eq_refl). cbn [mbind outcome_bind].
  apply Forall_app in Hu as [Hu1 [Hlong [Hu2 [Hshort Hpad]%Forall_app]%Forall_app]%Forall_app].
  assert (Hz : Forall is_u8 [0]) by by_u8.
  rewrite S1 at 1. change (drop (Z.to_nat 3) _) with (long ++ short_part ++ [0]).
  rewrite Gsm7bit_front by (unfold short_part; rewrite ?Forall_app; done). cbn [mbind outcome_bind].
  destruct (Z.ltb_spec (1 + 1 + (1 + zlen long) + (1 + 1)) (zlen tlv)); [|lia].
  rewrite (vec_get_at _ ([LONG_NAME_FLAG; 1 + zlen long; ls] ++ long ++ [SHORT_NAME_FLAG]) (1 + zlen short) (ss :: short ++ pad ++ [0]) (1 + 1 + (1 + zlen long) + 1));
    [|rewrite S2; by_assoc|by_zlen]. cbn [mbind outcome_bind].
  destruct (Z.leb_spec (1 + 1 + (1 + zlen long) + (1 + 1) + (1 + zlen short)) (zlen tlv)); [|lia].
  rewrite (vec_get_at _ ([LONG_NAME_FLAG; 1 + zlen long; ls] ++ long) SHORT_NAME_FLAG (1 + zlen short :: ss :: short ++ pad ++ [0]) (1 + 1 + (1 + zlen long) + 0));
    [|rewrite S2; by_assoc|by_zlen]. cbn [mbind outcome_bind].
  change (SHORT_NAME_FLAG =? SHORT_NAME_FLAG) with true. cbv iota.
  rewrite (vec_get_at _ ([LONG_NAME_FLAG; 1 + zlen long; ls] ++ long ++ [SHORT_NAME_FLAG; 1 + zlen short]) ss (short ++ pad ++ [0]) (1 + 1 + (1 + zlen long) + 2));
    [|rewrite S2; by_assoc|by_zlen]. cbn [mbind outcome_bind].
  rewrite S2. set (front := _ ++ _ ++ [_; _; _]).
  replace (Z.to_nat (1 + 1 + (1 + zlen long) + 3)) with (length front)
    by (unfold front, zlen; rewrite !length_app; cbn; lia).
  rewrite drop_app_length, Gsm7bit_front by (rewrite ?Forall_app; done). done.
Qed.

Lemma ParsePnn_names_witness :
  ParsePnn [str "430680C8329BFD06450480C8B40BFF"] = Ret [MkPnn (str "Hello") (str "Hi.")].
Proof.
  pose proof (ParsePnn_names [0xC8; 0x32; 0x9B; 0xFD; 0x06] 0x80 [0xC8; 0xB4; 0x0B] 0x80 [0xFF]) as H.
  assert (Hu : Forall is_u8 (pnn_tlv [0xC8; 0x32; 0x9B; 0xFD; 0x06] 0x80 [0xC8; 0xB4; 0x0B] 0x80 [0xFF])).
  { unfold pnn_tlv, LONG_NAME_FLAG, SHORT_NAME_FLAG. zlen_simpl. cbn [app]. by_u8. }
  exact (H Hu).
Defined.
