(* ===== verification/Parcel.v ===== *)
(** * Parcels: the interface to the IPC buffer

    [Parcel] of c_utils and [MessageParcel] of the IPC library are not part of this
    repository. Objects are written to them value by value (which may fail when the buffer
    cannot grow) and read back in order. The class [ParcelOps] has the operations, by the
    kind of value, [ParcelLaws] what they are documented to do:
    values come out first in, first out, and reading past the end fails. [list item]
    is an instance. Marshalling and unmarshalling code is composed of steps that
    stop at the first failure, and the combinators below keep what such code has
    done up to that point. *)

From S2P Require Import Prelude CxxString.

(** ** What is in a parcel and not yet read *)

(** [std::u16string], as UTF-16 code units. *)
Definition u16string : Type := list Z.
(** An object of another process, by identity. *)
Definition remote : Type := positive.

(** A signed and an unsigned integer of the same width are the same bytes. *)
Inductive item : Type :=
| IBool (b : bool)
| IInt32 (z : Z)
| IWord64 (z : Z)
| IString (s : cstring)
| IString16 (s : u16string)
| IRemote (r : remote)
| IToken (s : u16string)
| IString16Vector (l : list u16string)
| IStringVector (l : list cstring)
| IInt32Vector (l : list Z)
| IInt64Vector (l : list Z).

#[export] Instance item_eq_dec : EqDecision item.
Proof. solve_decision. Defined.

Inductive kind : Type :=
| KBool | KInt32 | KWord64 | KString | KString16 | KRemote | KToken | KString16Vector | KStringVector | KInt32Vector | KInt64Vector.

Definition carrier (k : kind) : Type :=
  match k with
  | KBool => bool | KInt32 | KWord64 => Z | KString => cstring | KString16 | KToken => u16string | KRemote => remote
  | KString16Vector => list u16string | KStringVector => list cstring | KInt32Vector | KInt64Vector => list Z
  end.
Definition inject (k : kind) : carrier k -> item :=
  match k with
  | KBool => IBool | KInt32 => IInt32 | KWord64 => IWord64 | KString => IString | KString16 => IString16 | KToken => IToken
  | KRemote => IRemote | KString16Vector => IString16Vector | KStringVector => IStringVector | KInt32Vector => IInt32Vector
  | KInt64Vector => IInt64Vector
  end.

(** The values that can be written. *)
Definition item_ok (i : item) : Prop :=
  match i with
  | IInt32 z => is_i32 z
  | IWord64 z => 0 <= z < 2 ^ 64
  | IInt32Vector l => Forall is_i32 l
  | IInt64Vector l => Forall (fun z => - 2 ^ 63 <= z < 2 ^ 63) l
  | _ => True
  end.

Class ParcelOps (P : Type) : Type := {
  new_parcel : P;
  Write : item -> P -> bool * P;
  Read : forall k, P -> option (carrier k) * P;
  content : P -> list item
}.

Class ParcelLaws (P : Type) `{ParcelOps P} : Prop := {
  new_law : content new_parcel = [];
  write_law i p p' : item_ok i -> Write i p = (true, p') -> content p' = content p ++ [i];
  read_law k (v : carrier k) rest p : content p = inject k v :: rest -> exists p', Read k p = (Some v, p') /\ content p' = rest;
  read_end k p : content p = [] -> fst (Read k p) = None;
  read_end_content k p : content p = [] -> content (snd (Read k p)) = []
}.

(** Memory suffices: no write fails. *)
Class Roomy (P : Type) `{ParcelOps P} : Prop := roomy i p : fst (Write i p) = true.

(** The two's complement reading of eight bytes. *)
Definition signed64 (z : Z) : Z := if z <? 2 ^ 63 then z else z - 2 ^ 64.

(** The methods of [Parcel] and [MessageParcel]. Arguments are converted to the parameter's integer type. *)
Section Methods.
Context {P : Type} `{ParcelOps P}.

Definition WriteBool (b : bool) : P -> bool * P := Write (IBool b).
Definition WriteInt32 (z : Z) : P -> bool * P := Write (IInt32 (i32 z)).
Definition WriteUint32 (z : Z) : P -> bool * P := Write (IInt32 (i32 z)).
Definition WriteInt64 (z : Z) : P -> bool * P := Write (IWord64 (u64 z)).
Definition WriteUint64 (z : Z) : P -> bool * P := Write (IWord64 (u64 z)).
Definition WriteString (s : cstring) : P -> bool * P := Write (IString s).
Definition WriteString16 (s : u16string) : P -> bool * P := Write (IString16 s).
Definition WriteRemoteObject (r : remote) : P -> bool * P := Write (IRemote r).
Definition WriteInterfaceToken (s : u16string) : P -> bool * P := Write (IToken s).
Definition WriteString16Vector (l : list u16string) : P -> bool * P := Write (IString16Vector l).
Definition WriteStringVector (l : list cstring) : P -> bool * P := Write (IStringVector l).
Definition WriteInt32Vector (l : list Z) : P -> bool * P := Write (IInt32Vector (i32 <$> l)).
Definition WriteInt64Vector (l : list Z) : P -> bool * P := Write (IInt64Vector (signed64 ∘ u64 <$> l)).

Definition ReadBool : P -> option bool * P := Read KBool.
Definition ReadInt32 : P -> option Z * P := Read KInt32.
Definition ReadUint32 (p : P) : option Z * P := let '(v, p) := Read KInt32 p in (u32 <$> v, p).
Definition ReadInt64 (p : P) : option Z * P := let '(v, p) := Read KWord64 p in (signed64 <$> v, p).
Definition ReadUint64 : P -> option Z * P := Read KWord64.
Definition ReadString : P -> option cstring * P := Read KString.
Definition ReadString16 : P -> option u16string * P := Read KString16.
Definition ReadRemoteObject : P -> option remote * P := Read KRemote.
Definition ReadInterfaceToken : P -> option u16string * P := Read KToken.
Definition ReadString16Vector : P -> option (list u16string) * P := Read KString16Vector.
Definition ReadStringVector : P -> option (list cstring) * P := Read KStringVector.
Definition ReadInt32Vector : P -> option (list Z) * P := Read KInt32Vector.
Definition ReadInt64Vector : P -> option (list Z) * P := Read KInt64Vector.
End Methods.

Lemma signed64_u64 z : - 2 ^ 63 <= z < 2 ^ 63 -> signed64 (u64 z) = z.
Proof.
  intros Hz. unfold signed64, u64. destruct (Z.ltb_spec (z mod 2 ^ 64) (2 ^ 63)) as [L|L].
  - destruct (decide (0 <= z)); [apply Z.mod_small; lia|]. rewrite <- (Z.mod_unique z (2 ^ 64) (-1) (z + 2 ^ 64)) in L; lia.
  - destruct (decide (0 <= z)); [rewrite Z.mod_small in L; lia|]. rewrite <- (Z.mod_unique z (2 ^ 64) (-1) (z + 2 ^ 64)); lia.
Qed.

Section MethodLaws.
Context {P : Type} `{ParcelLaws P}.

Lemma write_bool_law b (p p' : P) : WriteBool b p = (true, p') -> content p' = content p ++ [IBool b].
Proof. by apply write_law. Qed.
Lemma write_int32_law z (p p' : P) : is_i32 z -> WriteInt32 z p = (true, p') -> content p' = content p ++ [IInt32 z].
Proof. intros Hz W. unfold WriteInt32 in W. rewrite (i32_small z Hz) in W. by apply write_law in W. Qed.
Lemma write_string_law s (p p' : P) : WriteString s p = (true, p') -> content p' = content p ++ [IString s].
Proof. by apply write_law. Qed.
Lemma read_bool_law b rest (p : P) : content p = IBool b :: rest -> exists p', ReadBool p = (Some b, p') /\ content p' = rest.
Proof. apply (read_law KBool b). Qed.
Lemma read_int32_law z rest (p : P) : content p = IInt32 z :: rest -> exists p', ReadInt32 p = (Some z, p') /\ content p' = rest.
Proof. apply (read_law KInt32 z). Qed.
Lemma read_string_law s rest (p : P) : content p = IString s :: rest -> exists p', ReadString p = (Some s, p') /\ content p' = rest.
Proof. apply (read_law KString s). Qed.
Lemma read_bool_end (p : P) : content p = [] -> fst (ReadBool p) = None.
Proof. apply (read_end KBool). Qed.
Lemma read_int32_end (p : P) : content p = [] -> fst (ReadInt32 p) = None.
Proof. apply (read_end KInt32). Qed.
Lemma read_string_end (p : P) : content p = [] -> fst (ReadString p) = None.
Proof. apply (read_end KString). Qed.
Lemma read_uint32_law z rest (p : P) : is_u32 z -> content p = IInt32 (i32 z) :: rest -> exists p', ReadUint32 p = (Some z, p') /\ content p' = rest.
Proof.
  intros Hz C. destruct (read_law KInt32 (i32 z) rest p C) as (p' & E & C'). exists p'. unfold ReadUint32. rewrite E. split; [|done].
  cbn. by rewrite u32_i32, u32_small.
Qed.
Lemma read_uint32_end (p : P) : content p = [] -> fst (ReadUint32 p) = None.
Proof. intros C. unfold ReadUint32. pose proof (read_end KInt32 p C). destruct (Read KInt32 p) as [v q]. cbn in *. by subst v. Qed.
Lemma read_int64_law z rest (p : P) :
  - 2 ^ 63 <= z < 2 ^ 63 -> content p = IWord64 (u64 z) :: rest -> exists p', ReadInt64 p = (Some z, p') /\ content p' = rest.
Proof.
  intros Hz C. destruct (read_law KWord64 (u64 z) rest p C) as (p' & E & C'). exists p'. unfold ReadInt64. rewrite E. split; [|done].
  cbn. by rewrite signed64_u64.
Qed.
Lemma read_int64_end (p : P) : content p = [] -> fst (ReadInt64 p) = None.
Proof. intros C. unfold ReadInt64. pose proof (read_end KWord64 p C). destruct (Read KWord64 p) as [v q]. cbn in *. by subst v. Qed.
End MethodLaws.

(** ** Steps *)

(** [if (!parcel.Write...(v)) { return false; }] in sequence. *)
Definition wstep (P : Type) : Type := P -> bool * P.

Definition wdone {P} : wstep P := fun p => (true, p).
Definition wseq {P} (f g : wstep P) : wstep P := fun p => let '(ok, p) := f p in if ok then g p else (false, p).

(** Reading steps also update the object [S]. *)
Definition rstep (P S : Type) : Type := S -> P -> bool * S * P.

Definition rdone {P S} : rstep P S := fun s p => (true, s, p).
Definition rseq {P S} (f g : rstep P S) : rstep P S :=
  fun s p => let '(ok, s, p) := f s p in if (ok : bool) then g s p else (false, s, p).

(** [if (!parcel.Read...(x)) { return false; }] then the assignment [set]. *)
Definition read_into {P S A} (read : P -> option A * P) (set : A -> S -> S) : rstep P S :=
  fun s p => match read p with (Some a, p) => (true, set a s, p) | (None, p) => (false, s, p) end.

(** [x = parcel.Read...()], which gives the default [d] on failure, and [parcel.Read...(x)] with the result ignored. *)
Definition read_or {P S A} (read : P -> option A * P) (d : A) (set : A -> S -> S) : rstep P S :=
  fun s p => let '(v, p) := read p in (true, set (default d v) s, p).
Definition read_if {P S A} (read : P -> option A * P) (set : A -> S -> S) : rstep P S :=
  fun s p => let '(v, p) := read p in (true, from_option (fun a => set a s) s v, p).

(** Loops: over the elements of a vector, ending at the first failure or ignoring failures; and reading [n] times. *)
Fixpoint write_all {P A} (f : A -> wstep P) (l : list A) : wstep P :=
  match l with [] => wdone | a :: t => wseq (f a) (write_all f t) end.
Definition wlax {P} (f g : wstep P) : wstep P := fun p => let '(_, p) := f p in g p.
Fixpoint write_each {P A} (f : A -> wstep P) (l : list A) : wstep P :=
  match l with [] => wdone | a :: t => wlax (f a) (write_each f t) end.
Fixpoint read_times {P S} (n : nat) (f : rstep P S) : rstep P S :=
  match n with O => rdone | S m => rseq f (read_times m f) end.

Declare Scope parcel_scope.
Delimit Scope parcel_scope with parcel.
Infix ";;w" := wseq (at level 60, right associativity) : parcel_scope.
Infix ";;r" := rseq (at level 60, right associativity) : parcel_scope.
Open Scope parcel_scope.

(** ** What steps do to the content *)

Section Steps.
Context {P : Type} `{ParcelLaws P}.

(** [f] appends [items] when it succeeds. *)
Definition writes (f : wstep P) (items : list item) : Prop :=
  forall p p', f p = (true, p') -> content p' = content p ++ items.

(** On a parcel that starts with [items], [f] succeeds, takes them and does [upd];
    on one that ends before, it fails. *)
Definition reads {S} (f : rstep P S) (items : list item) (upd : S -> S) : Prop :=
  (forall s p rest, content p = items ++ rest -> exists p', f s p = (true, upd s, p') /\ content p' = rest) /\
  (forall s p k, (k < length items)%nat -> content p = take k items -> fst (fst (f s p)) = false).

Lemma writes_done : writes wdone [].
Proof. intros p p' [= <-]. by rewrite app_nil_r. Qed.

Lemma writes_seq f g i j : writes f i -> writes g j -> writes (f ;;w g) (i ++ j).
Proof.
  intros Hf Hg p p'. unfold wseq. destruct (f p) as [[] q] eqn:E; [|done]. intros G.
  by rewrite (Hg _ _ G), (Hf _ _ E), app_assoc.
Qed.

Lemma writes_bool b : writes (WriteBool b) [IBool b].
Proof. intros p p'. apply write_bool_law. Qed.
Lemma writes_int32 z : is_i32 z -> writes (WriteInt32 z) [IInt32 z].
Proof. intros Hz p p'. by apply write_int32_law. Qed.
Lemma writes_string s : writes (WriteString s) [IString s].
Proof. intros p p'. apply write_string_law. Qed.
Lemma writes_item i : item_ok i -> writes (Write i) [i].
Proof. intros Hi p p'. by apply write_law. Qed.
Lemma writes_uint64 z : 0 <= z < 2 ^ 64 -> writes (WriteUint64 z) [IWord64 z].
Proof. intros Hz. unfold WriteUint64. rewrite (u64_small z Hz). by apply (writes_item (IWord64 z)). Qed.
Lemma writes_int64 z : writes (WriteInt64 z) [IWord64 (u64 z)].
Proof. apply (writes_item (IWord64 (u64 z))). apply Z.mod_pos_bound. lia. Qed.

Lemma reads_done {S} : reads (@rdone P S) [] id.
Proof. split; [intros s p rest E; by exists p|]. intros s p k Hk. cbn in Hk. lia. Qed.

Lemma reads_seq {S} (f g : rstep P S) i j u v :
  reads f i u -> reads g j v -> reads (f ;;r g) (i ++ j) (fun s => v (u s)).
Proof.
  intros [F1 F2] [G1 G2]. split.
  - intros s p rest E. rewrite <- app_assoc in E. destruct (F1 s _ _ E) as (q & Ef & Eq).
    destruct (G1 (u s) _ _ Eq) as (q' & Eg & Eq'). exists q'. unfold rseq. by rewrite Ef.
  - intros s p k Hk E. unfold rseq. rewrite length_app in Hk.
    destruct (decide (k < length i)%nat) as [L|L].
    + rewrite take_app_le in E by lia. specialize (F2 s p k L E). by destruct (f s p) as [[[] ?] ?].
    + rewrite take_app_ge in E by lia. destruct (F1 s _ _ E) as (q & Ef & Eq). rewrite Ef.
      apply (G2 (u s) q (k - length i)%nat); [lia|done].
Qed.

Lemma reads_const {S} (f : rstep P S) i u v : reads f i u -> (forall s, u s = v) -> reads f i (fun _ => v).
Proof. intros [F1 F2] E. split; [|exact F2]. intros s p rest C. rewrite <- (E s). by apply F1. Qed.

Lemma reads_ext {S} (f : rstep P S) i u v : reads f i u -> (forall s, u s = v s) -> reads f i v.
Proof. intros [F1 F2] E. split; [|exact F2]. intros s p rest C. rewrite <- (E s). by apply F1. Qed.

Lemma reads_one {S A} (read : P -> option A * P) (set : A -> S -> S) it a :
  (forall rest p, content p = it :: rest -> exists p', read p = (Some a, p') /\ content p' = rest) ->
  (forall p, content p = [] -> fst (read p) = None) ->
  reads (read_into read set) [it] (set a).
Proof.
  intros R E. split.
  - intros s p rest C. destruct (R rest p C) as (p' & G & C'). exists p'. unfold read_into. by rewrite G.
  - intros s p k Hk C. cbn in Hk. assert (k = 0%nat) as -> by lia. specialize (E p C). unfold read_into.
    destruct (read p) as [[?|] ?]; [done|]. done.
Qed.

Lemma reads_bool {S} (set : bool -> S -> S) b : reads (read_into ReadBool set) [IBool b] (set b).
Proof. apply reads_one; [apply read_bool_law|apply read_bool_end]. Qed.
Lemma reads_int32 {S} (set : Z -> S -> S) z : reads (read_into ReadInt32 set) [IInt32 z] (set z).
Proof. apply reads_one; [apply read_int32_law|apply read_int32_end]. Qed.
Lemma reads_string {S} (set : cstring -> S -> S) s : reads (read_into ReadString set) [IString s] (set s).
Proof. apply reads_one; [apply read_string_law|apply read_string_end]. Qed.
Lemma reads_uint64 {S} (set : Z -> S -> S) z : reads (read_into ReadUint64 set) [IWord64 z] (set z).
Proof. apply reads_one; [apply (read_law KWord64)|apply (read_end KWord64)]. Qed.
Lemma reads_int64 {S} (set : Z -> S -> S) z : - 2 ^ 63 <= z < 2 ^ 63 -> reads (read_into ReadInt64 set) [IWord64 (u64 z)] (set z).
Proof. intros Hz. apply reads_one; [intros rest p; by apply read_int64_law|apply read_int64_end]. Qed.

End Steps.

(** A sequence of writes of single values, and of reads of them. *)
Ltac writes_one := first [apply writes_bool|apply writes_string|apply writes_int32|apply writes_int64|apply writes_uint64|apply writes_item].
Ltac writes_items := repeat (apply (writes_seq _ _ [_]); [writes_one|]); try writes_one.
Ltac reads_one := first [apply reads_bool|apply reads_string|apply reads_int32|apply reads_uint64|apply reads_int64].
Ltac reads_items := eapply reads_const; [repeat (apply (reads_seq _ _ [_]); [reads_one|]); reads_one|].

(** ** Steps that succeed

    [appends f items]: [f] succeeds and adds [items]. [takes f items upd]: the first half of [reads]. *)

Section Success.
Context {P : Type} `{ParcelLaws P}.

Definition appends (f : wstep P) (items : list item) : Prop :=
  forall p, exists p', f p = (true, p') /\ content p' = content p ++ items.
Definition takes {S} (f : rstep P S) (items : list item) (upd : S -> S) : Prop :=
  forall s p rest, content p = items ++ rest -> exists p', f s p = (true, upd s, p') /\ content p' = rest.
(** [rd] reads the value [a] off the item [i]. *)
Definition reads_off {A} (rd : P -> option A * P) (i : item) (a : A) : Prop :=
  forall rest p, content p = i :: rest -> exists p', rd p = (Some a, p') /\ content p' = rest.

Lemma appends_done : appends wdone [].
Proof. intros p. exists p. by rewrite app_nil_r. Qed.
Lemma appends_seq f g i j : appends f i -> appends g j -> appends (f ;;w g) (i ++ j).
Proof.
  intros Hf Hg p. destruct (Hf p) as (q & Ef & Cf). destruct (Hg q) as (r & Eg & Cg). exists r. unfold wseq. rewrite Ef.
  split; [done|]. by rewrite Cg, Cf, app_assoc.
Qed.
Lemma appends_lax f g i j : appends f i -> appends g j -> appends (wlax f g) (i ++ j).
Proof.
  intros Hf Hg p. destruct (Hf p) as (q & Ef & Cf). destruct (Hg q) as (r & Eg & Cg). exists r. unfold wlax. rewrite Ef.
  split; [done|]. by rewrite Cg, Cf, app_assoc.
Qed.
Lemma appends_all {A} (f : A -> wstep P) items l : Forall (fun a => appends (f a) (items a)) l -> appends (write_all f l) (l ≫= items).
Proof. induction 1; [apply appends_done|]. rewrite bind_cons. by apply appends_seq. Qed.
Lemma appends_each {A} (f : A -> wstep P) items l : Forall (fun a => appends (f a) (items a)) l -> appends (write_each f l) (l ≫= items).
Proof. induction 1; [apply appends_done|]. rewrite bind_cons. by apply appends_lax. Qed.
Lemma appends_writes f i : appends f i -> writes f i.
Proof. intros Hf p p' E. destruct (Hf p) as (q & Eq & C). rewrite E in Eq. by injection Eq as <-. Qed.
Lemma appends_eq f i j : appends f i -> i = j -> appends f j.
Proof. by intros ? ->. Qed.

Lemma appends_item `{!Roomy P} i : item_ok i -> appends (Write i) [i].
Proof.
  intros Hi p. pose proof (roomy i p) as R. destruct (Write i p) as [ok p'] eqn:E. cbn in R. subst ok. exists p'.
  split; [done|]. by apply write_law.
Qed.

(** [f] does not fail. *)
Definition fine (f : wstep P) : Prop := forall p, (f p).1 = true.
Lemma writes_appends f i : writes f i -> fine f -> appends f i.
Proof. intros Hw Hf p. specialize (Hf p). destruct (f p) as [ok p'] eqn:E. cbn in Hf. subst ok. exists p'. split; [done|]. by apply Hw. Qed.
Lemma fine_seq f g : fine f -> fine g -> fine (f ;;w g).
Proof. intros Hf Hg p. unfold wseq. specialize (Hf p). destruct (f p) as [[] q]; [apply Hg|done]. Qed.
Lemma fine_write `{!Roomy P} i : fine (Write i).
Proof. intros p. apply roomy. Qed.

Lemma takes_done {S} : takes (@rdone P S) [] id.
Proof. intros s p rest E. by exists p. Qed.
Lemma takes_seq {S} (f g : rstep P S) i j u v : takes f i u -> takes g j v -> takes (f ;;r g) (i ++ j) (fun s => v (u s)).
Proof.
  intros Hf Hg s p rest E. rewrite <- app_assoc in E. destruct (Hf s _ _ E) as (q & Ef & Eq).
  destruct (Hg (u s) _ _ Eq) as (q' & Eg & Eq'). exists q'. unfold rseq. by rewrite Ef.
Qed.
Lemma takes_const {S} (f : rstep P S) i u v : takes f i u -> (forall s, u s = v) -> takes f i (fun _ => v).
Proof. intros Hf E s p rest C. rewrite <- (E s). by apply Hf. Qed.
Lemma takes_ext {S} (f : rstep P S) i u v : takes f i u -> (forall s, u s = v s) -> takes f i v.
Proof. intros Hf E s p rest C. rewrite <- (E s). by apply Hf. Qed.
Lemma reads_takes {S} (f : rstep P S) i u : reads f i u -> takes f i u.
Proof. by intros []. Qed.
Lemma takes_into {S A} (rd : P -> option A * P) (set : A -> S -> S) i a : reads_off rd i a -> takes (read_into rd set) [i] (set a).
Proof. intros R s p rest C. destruct (R rest p C) as (p' & E & C'). exists p'. unfold read_into. by rewrite E. Qed.
Lemma takes_or {S A} (rd : P -> option A * P) d (set : A -> S -> S) i a : reads_off rd i a -> takes (read_or rd d set) [i] (set a).
Proof. intros R s p rest C. destruct (R rest p C) as (p' & E & C'). exists p'. unfold read_or. by rewrite E. Qed.
Lemma takes_if {S A} (rd : P -> option A * P) (set : A -> S -> S) i a : reads_off rd i a -> takes (read_if rd set) [i] (set a).
Proof. intros R s p rest C. destruct (R rest p C) as (p' & E & C'). exists p'. unfold read_if. by rewrite E. Qed.
(** Reading [l] back element by element. *)
Lemma takes_times {S A} (f : rstep P S) (items : A -> list item) (upd : A -> S -> S) l :
  Forall (fun a => takes f (items a) (upd a)) l -> takes (read_times (length l) f) (l ≫= items) (fun s => foldl (fun s a => upd a s) s l).
Proof. induction 1; [apply takes_done|]. rewrite bind_cons. exact (takes_seq f (read_times (length l) f) _ _ (upd x) _ H1 IHForall). Qed.

Lemma reads_off_bool b : reads_off ReadBool (IBool b) b.
Proof. intros rest p. apply read_bool_law. Qed.
Lemma reads_off_int32 z : reads_off ReadInt32 (IInt32 z) z.
Proof. intros rest p. apply read_int32_law. Qed.
Lemma reads_off_uint32 z : is_u32 z -> reads_off ReadUint32 (IInt32 (i32 z)) z.
Proof. intros Hz rest p. by apply read_uint32_law. Qed.
Lemma reads_off_int64 z : - 2 ^ 63 <= z < 2 ^ 63 -> reads_off ReadInt64 (IWord64 (u64 z)) z.
Proof. intros Hz rest p. by apply read_int64_law. Qed.
Lemma reads_off_uint64 z : reads_off ReadUint64 (IWord64 z) z.
Proof. intros rest p. apply (read_law KWord64). Qed.
Lemma reads_off_string z : reads_off ReadString (IString z) z.
Proof. intros rest p. apply read_string_law. Qed.
Lemma reads_off_string16 z : reads_off ReadString16 (IString16 z) z.
Proof. intros rest p. apply (read_law KString16). Qed.
Lemma reads_off_remote z : reads_off ReadRemoteObject (IRemote z) z.
Proof. intros rest p. apply (read_law KRemote). Qed.
Lemma reads_off_token z : reads_off ReadInterfaceToken (IToken z) z.
Proof. intros rest p. apply (read_law KToken). Qed.
Lemma reads_off_string16_vector z : reads_off ReadString16Vector (IString16Vector z) z.
Proof. intros rest p. apply (read_law KString16Vector). Qed.
Lemma reads_off_string_vector z : reads_off ReadStringVector (IStringVector z) z.
Proof. intros rest p. apply (read_law KStringVector). Qed.
Lemma reads_off_int32_vector z : reads_off ReadInt32Vector (IInt32Vector z) z.
Proof. intros rest p. apply (read_law KInt32Vector). Qed.
Lemma reads_off_int64_vector z : reads_off ReadInt64Vector (IInt64Vector z) z.
Proof. intros rest p. apply (read_law KInt64Vector). Qed.

Context `{!Roomy P}.
Lemma appends_bool b : appends (WriteBool b) [IBool b].
Proof. by apply appends_item. Qed.
Lemma appends_int32 z : appends (WriteInt32 z) [IInt32 (i32 z)].
Proof. apply appends_item, i32_range. Qed.
Lemma appends_int32_ok z : is_i32 z -> appends (WriteInt32 z) [IInt32 z].
Proof. intros Hz. eapply appends_eq; [apply appends_int32|]. by rewrite i32_small. Qed.
Lemma appends_uint32 z : appends (WriteUint32 z) [IInt32 (i32 z)].
Proof. apply appends_item, i32_range. Qed.
Lemma appends_int64 z : appends (WriteInt64 z) [IWord64 (u64 z)].
Proof. apply appends_item, Z.mod_pos_bound. lia. Qed.
Lemma appends_uint64 z : appends (WriteUint64 z) [IWord64 (u64 z)].
Proof. apply appends_item, Z.mod_pos_bound. lia. Qed.
Lemma appends_string z : appends (WriteString z) [IString z].
Proof. by apply appends_item. Qed.
Lemma appends_string16 z : appends (WriteString16 z) [IString16 z].
Proof. by apply appends_item. Qed.
Lemma appends_remote z : appends (WriteRemoteObject z) [IRemote z].
Proof. by apply appends_item. Qed.
Lemma appends_token z : appends (WriteInterfaceToken z) [IToken z].
Proof. by apply appends_item. Qed.
Lemma appends_string16_vector z : appends (WriteString16Vector z) [IString16Vector z].
Proof. by apply appends_item. Qed.
Lemma appends_string_vector z : appends (WriteStringVector z) [IStringVector z].
Proof. by apply appends_item. Qed.
Lemma appends_int32_vector z : Forall is_i32 z -> appends (WriteInt32Vector z) [IInt32Vector z].
Proof.
  intros Hz. unfold WriteInt32Vector. replace (i32 <$> z) with z; [by apply appends_item|].
  induction Hz; [done|]. rewrite fmap_cons. f_equal; [by rewrite i32_small|done].
Qed.
Lemma appends_int64_vector z : Forall (fun z => - 2 ^ 63 <= z < 2 ^ 63) z -> appends (WriteInt64Vector z) [IInt64Vector z].
Proof.
  intros Hz. unfold WriteInt64Vector. replace (signed64 ∘ u64 <$> z) with z; [by apply appends_item|].
  induction Hz; [done|]. rewrite fmap_cons. f_equal; [cbn; by rewrite signed64_u64|done].
Qed.
End Success.

Create HintDb parcel.
#[export] Hint Resolve reads_off_bool reads_off_int32 reads_off_uint32 reads_off_int64 reads_off_uint64 reads_off_string
  reads_off_string16 reads_off_remote reads_off_token reads_off_string16_vector reads_off_string_vector reads_off_int32_vector
  reads_off_int64_vector appends_bool appends_int32 appends_int32_ok appends_uint32 appends_int64 appends_uint64 appends_string appends_string16
  appends_remote appends_token appends_string16_vector appends_string_vector appends_int32_vector appends_int64_vector
  appends_done takes_done takes_into takes_or takes_if : parcel.

(** A sequence of single values written, and read back. *)
Ltac appends_items := repeat first [eapply (appends_seq _ _ [_]); [solve [eauto with parcel]|]]; try solve [eauto with parcel].
Ltac takes_items := repeat first [eapply (takes_seq _ _ [_]); [solve [eauto with parcel]|]]; try solve [eauto with parcel].

#[export] Hint Resolve writes_done writes_seq writes_bool writes_int32 writes_string
  reads_done reads_seq reads_bool reads_int32 reads_string writes_item writes_uint64 writes_int64 reads_uint64 reads_int64 : telephony.

(** ** An instance: the list of items *)

Definition project (k : kind) (i : item) : option (carrier k) :=
  match k, i with
  | KBool, IBool v => Some v | KInt32, IInt32 v => Some v | KWord64, IWord64 v => Some v | KString, IString v => Some v
  | KString16, IString16 v => Some v | KRemote, IRemote v => Some v | KToken, IToken v => Some v
  | KString16Vector, IString16Vector v => Some v | KStringVector, IStringVector v => Some v
  | KInt32Vector, IInt32Vector v => Some v | KInt64Vector, IInt64Vector v => Some v
  | _, _ => None
  end.

#[export] Instance list_parcel : ParcelOps (list item) := {
  new_parcel := [];
  Write i p := (true, p ++ [i]);
  Read k p := match p with i :: t => match project k i with Some v => (Some v, t) | None => (None, p) end | [] => (None, p) end;
  content p := p
}.

#[export] Instance list_parcel_laws : ParcelLaws (list item).
Proof.
  split.
  - done.
  - by intros i p p' _ [= <-].
  - intros k v rest p E. cbn in E. subst p. exists rest. by destruct k.
  - intros k p E. cbn in E. by subst p.
  - intros k p E. cbn in E. by subst p.
Qed.

#[export] Instance list_parcel_roomy : Roomy (list item).
Proof. done. Qed.
