(* ===== verification/CellInformation.v ===== *)
(** * [frameworks/native/src/cell_information.cpp]: the cells a phone sees

    One class per radio technology over the common [CellInformation]. Methods that
    change a cell stamp it with the boot time in milliseconds, the argument [now] of
    the definitions. Every class writes its technology before its members, which the receiver
    reads to choose the class to unmarshal; [Cell] is a pointer to the base class. *)

From S2P Require Import Prelude CxxString Parcel.
From stdpp Require Import pretty.
Open Scope Z_scope.

(** [enum class CellType] *)
Definition CELL_TYPE_NONE : Z := 0.
Definition CELL_TYPE_GSM : Z := 1.
Definition CELL_TYPE_CDMA : Z := 2.
Definition CELL_TYPE_WCDMA : Z := 3.
Definition CELL_TYPE_TDSCDMA : Z := 4.
Definition CELL_TYPE_LTE : Z := 5.
Definition CELL_TYPE_NR : Z := 6.
Definition MAX_CELL_NUM : Z := 10.

Definition MNC_INT_MAX : Z := 999.
Definition MNC_DIGIT_OFFSET : Z := 28.
Definition MNC_VALID_BIT : Z := 0x0FFFFFFF.

Definition to_string (z : Z) : cstring := str (pretty z).

(** ** CellInformation *)

Record CellInformation : Type := MkCell {
  mcc_ : cstring;
  mnc_ : cstring;
  cellId_ : Z;
  timeStamp_ : Z;
  signalIntensity_ : Z;
  signalLevel_ : Z;
  isCamped_ : bool
}.
#[export] Instance CellInformation_eq_dec : EqDecision CellInformation.
Proof. solve_decision. Defined.

Definition CellInformation_new : CellInformation := MkCell [] [] 0 0 0 0 false.
Definition set_mcc (v : cstring) (c : CellInformation) : CellInformation :=
  MkCell v (mnc_ c) (cellId_ c) (timeStamp_ c) (signalIntensity_ c) (signalLevel_ c) (isCamped_ c).
Definition set_mnc (v : cstring) (c : CellInformation) : CellInformation :=
  MkCell (mcc_ c) v (cellId_ c) (timeStamp_ c) (signalIntensity_ c) (signalLevel_ c) (isCamped_ c).
Definition set_cellId (v : Z) (c : CellInformation) : CellInformation :=
  MkCell (mcc_ c) (mnc_ c) v (timeStamp_ c) (signalIntensity_ c) (signalLevel_ c) (isCamped_ c).
Definition set_timeStamp (v : Z) (c : CellInformation) : CellInformation :=
  MkCell (mcc_ c) (mnc_ c) (cellId_ c) v (signalIntensity_ c) (signalLevel_ c) (isCamped_ c).
Definition set_signalIntensity (v : Z) (c : CellInformation) : CellInformation :=
  MkCell (mcc_ c) (mnc_ c) (cellId_ c) (timeStamp_ c) v (signalLevel_ c) (isCamped_ c).
Definition set_signalLevel (v : Z) (c : CellInformation) : CellInformation :=
  MkCell (mcc_ c) (mnc_ c) (cellId_ c) (timeStamp_ c) (signalIntensity_ c) v (isCamped_ c).
Definition set_isCamped (v : bool) (c : CellInformation) : CellInformation :=
  MkCell (mcc_ c) (mnc_ c) (cellId_ c) (timeStamp_ c) (signalIntensity_ c) (signalLevel_ c) v.

(** [static_cast<uint64_t>(GetBootTimeMs())] *)
Definition stamp (now : Z) : CellInformation -> CellInformation := set_timeStamp (u64 now).

(** [snprintf_s(mnc_str, digits + 1, digits, "%0<digits>d", value)] for [value >= 0]:
    zero-padded to [digits] characters; -1 when it does not fit, here [None]. *)
Definition snprintf_padded (digits value : Z) : option cstring :=
  let s := to_string value in
  if zlen s <=? digits then Some (replicate (Z.to_nat digits - length s) "0"%char ++ s) else None.

Definition Init_mnc (mnc : Z) (c : CellInformation) : CellInformation :=
  if mnc >? MNC_INT_MAX then
    let mnc_digit := Z.shiftr mnc MNC_DIGIT_OFFSET in
    let mnc := i32 (Z.land (u32 mnc) MNC_VALID_BIT) in
    match snprintf_padded mnc_digit mnc with Some mnc_str => set_mnc mnc_str c | None => c end
  else set_mnc (to_string mnc) c.
(** [Init] with the codes as numbers, and as strings. *)
Definition Init (now mcc mnc cellId : Z) (c : CellInformation) : CellInformation :=
  stamp now (set_cellId cellId (set_mcc (to_string mcc) (Init_mnc mnc c))).
Definition Init_strings (now : Z) (mcc mnc : cstring) (cellId : Z) (c : CellInformation) : CellInformation :=
  stamp now (set_cellId cellId (set_mcc mcc (set_mnc mnc c))).

Definition GetCellId (c : CellInformation) : Z := cellId_ c.
Definition GetMcc (c : CellInformation) : cstring := mcc_ c.
Definition GetMnc (c : CellInformation) : cstring := mnc_ c.
Definition GetTimeStamp (c : CellInformation) : Z := timeStamp_ c.
Definition GetSignalIntensity (c : CellInformation) : Z := signalIntensity_ c.
Definition SetSignalIntensity (now signalIntensity : Z) (c : CellInformation) : CellInformation :=
  stamp now (set_signalIntensity signalIntensity c).
Definition GetSignalLevel (c : CellInformation) : Z := signalLevel_ c.
Definition SetSignalLevel (now signalLevel : Z) (c : CellInformation) : CellInformation :=
  stamp now (set_signalLevel signalLevel c).
Definition GetIsCamped (c : CellInformation) : bool := isCamped_ c.
Definition SetIsCamped (now : Z) (isCamped : bool) (c : CellInformation) : CellInformation :=
  stamp now (set_isCamped isCamped c).
(** [CellInformation::Unmarshalling] returns [nullptr]. *)
Definition CellInformation_Unmarshalling {P} (p : P) : option CellInformation * P := (None, p).

(** ** GsmCellInformation *)

Record GsmCellInformation : Type := MkGsmCell {
  gsmCell_base : CellInformation;
  gsmCell_lac_ : Z;
  gsmCell_bsic_ : Z;
  gsmCell_arfcn_ : Z
}.

Definition GsmCell_new : GsmCellInformation := MkGsmCell CellInformation_new 0 0 0.
Definition GsmCell_on_base (f : CellInformation -> CellInformation) (s : GsmCellInformation) : GsmCellInformation :=
  MkGsmCell (f (gsmCell_base s)) (gsmCell_lac_ s) (gsmCell_bsic_ s) (gsmCell_arfcn_ s).
Definition GsmCell_set_lac (v : Z) (s : GsmCellInformation) : GsmCellInformation :=
  MkGsmCell (gsmCell_base s) v (gsmCell_bsic_ s) (gsmCell_arfcn_ s).
Definition GsmCell_set_bsic (v : Z) (s : GsmCellInformation) : GsmCellInformation :=
  MkGsmCell (gsmCell_base s) (gsmCell_lac_ s) v (gsmCell_arfcn_ s).
Definition GsmCell_set_arfcn (v : Z) (s : GsmCellInformation) : GsmCellInformation :=
  MkGsmCell (gsmCell_base s) (gsmCell_lac_ s) (gsmCell_bsic_ s) v.
Definition SetGsmParam (bsic lac arfcn : Z) (s : GsmCellInformation) : GsmCellInformation :=
  MkGsmCell (gsmCell_base s) lac bsic arfcn.
(** Copy constructor and assignment copy every member. *)
Definition GsmCell_copy (s : GsmCellInformation) : GsmCellInformation :=
  MkGsmCell (MkCell (mcc_ (gsmCell_base s)) (mnc_ (gsmCell_base s)) (cellId_ (gsmCell_base s)) (timeStamp_ (gsmCell_base s)) (signalIntensity_ (gsmCell_base s)) (signalLevel_ (gsmCell_base s)) (isCamped_ (gsmCell_base s))) (gsmCell_lac_ s) (gsmCell_bsic_ s) (gsmCell_arfcn_ s).
Definition GsmCell_eq (a b : GsmCellInformation) : bool :=
  bool_decide (mcc_ (gsmCell_base a) = mcc_ (gsmCell_base b)) && bool_decide (mnc_ (gsmCell_base a) = mnc_ (gsmCell_base b)) &&
  (gsmCell_arfcn_ a =? gsmCell_arfcn_ b) && (cellId_ (gsmCell_base a) =? cellId_ (gsmCell_base b)) && (gsmCell_bsic_ a =? gsmCell_bsic_ b) &&
  (gsmCell_lac_ a =? gsmCell_lac_ b) && (signalLevel_ (gsmCell_base a) =? signalLevel_ (gsmCell_base b)) &&
  (signalIntensity_ (gsmCell_base a) =? signalIntensity_ (gsmCell_base b)) && bool_decide (isCamped_ (gsmCell_base a) = isCamped_ (gsmCell_base b)).
Definition GsmCell_GetNetworkType (s : GsmCellInformation) : Z := CELL_TYPE_GSM.
Definition GsmCell_GetLac (s : GsmCellInformation) : Z := gsmCell_lac_ s.
Definition GsmCell_GetBsic (s : GsmCellInformation) : Z := gsmCell_bsic_ s.
Definition GsmCell_GetArfcn (s : GsmCellInformation) : Z := gsmCell_arfcn_ s.
Definition GsmCell_UpdateLocation (now cellId lac : Z) (s : GsmCellInformation) : GsmCellInformation :=
  MkGsmCell (stamp now (set_cellId cellId (gsmCell_base s))) lac (gsmCell_bsic_ s) (gsmCell_arfcn_ s).
Definition GsmCell_ToString (s : GsmCellInformation) : cstring :=
  let T := to_string in
  str "netWorkType:" ++ T CELL_TYPE_GSM ++ str ",mcc:" ++ mcc_ (gsmCell_base s) ++ str ",mnc:" ++ mnc_ (gsmCell_base s) ++ str ",arfcn:" ++
  T (gsmCell_arfcn_ s) ++ str ",cellId:" ++ T (cellId_ (gsmCell_base s)) ++ str ",timeStamp:" ++ T (timeStamp_ (gsmCell_base s)) ++
  str ",signalLevel:" ++ T (signalLevel_ (gsmCell_base s)) ++ str ",signalIntensity_:" ++ T (signalIntensity_ (gsmCell_base s)) ++ str ",bsic:" ++
  T (gsmCell_bsic_ s) ++ str ",lac:" ++ T (gsmCell_lac_ s).
Section GsmCellParcel.
Context {P : Type} `{ParcelOps P}.
Definition GsmCell_Marshalling (s : GsmCellInformation) : wstep P :=
  WriteInt32 CELL_TYPE_GSM ;;w WriteString (mcc_ (gsmCell_base s)) ;;w WriteString (mnc_ (gsmCell_base s)) ;;w WriteInt32 (gsmCell_arfcn_ s) ;;w
  WriteInt32 (cellId_ (gsmCell_base s)) ;;w WriteInt32 (gsmCell_bsic_ s) ;;w WriteInt32 (gsmCell_lac_ s) ;;w
  WriteUint64 (timeStamp_ (gsmCell_base s)) ;;w WriteInt32 (signalLevel_ (gsmCell_base s)) ;;w WriteInt32 (signalIntensity_ (gsmCell_base s)) ;;w
  WriteBool (isCamped_ (gsmCell_base s)).
Definition GsmCell_ReadFromParcel : rstep P GsmCellInformation :=
  read_into ReadString (fun v => GsmCell_on_base (set_mcc v)) ;;r
  read_into ReadString (fun v => GsmCell_on_base (set_mnc v)) ;;r
  read_into ReadInt32 GsmCell_set_arfcn ;;r
  read_into ReadInt32 (fun v => GsmCell_on_base (set_cellId v)) ;;r
  read_into ReadInt32 GsmCell_set_bsic ;;r
  read_into ReadInt32 GsmCell_set_lac ;;r
  read_into ReadUint64 (fun v => GsmCell_on_base (set_timeStamp v)) ;;r
  read_into ReadInt32 (fun v => GsmCell_on_base (set_signalLevel v)) ;;r
  read_into ReadInt32 (fun v => GsmCell_on_base (set_signalIntensity v)) ;;r
  read_into ReadBool (fun v => GsmCell_on_base (set_isCamped v)).
Definition GsmCell_Unmarshalling (p : P) : option GsmCellInformation * P :=
  let '(ok, s, p) := GsmCell_ReadFromParcel GsmCell_new p in if (ok : bool) then (Some s, p) else (None, p).
End GsmCellParcel.

(** ** LteCellInformation *)

Record LteCellInformation : Type := MkLteCell {
  lteCell_base : CellInformation;
  lteCell_pci_ : Z;
  lteCell_tac_ : Z;
  lteCell_earfcn_ : Z
}.

Definition LteCell_new : LteCellInformation := MkLteCell CellInformation_new 0 0 0.
Definition LteCell_on_base (f : CellInformation -> CellInformation) (s : LteCellInformation) : LteCellInformation :=
  MkLteCell (f (lteCell_base s)) (lteCell_pci_ s) (lteCell_tac_ s) (lteCell_earfcn_ s).
Definition LteCell_set_pci (v : Z) (s : LteCellInformation) : LteCellInformation :=
  MkLteCell (lteCell_base s) v (lteCell_tac_ s) (lteCell_earfcn_ s).
Definition LteCell_set_tac (v : Z) (s : LteCellInformation) : LteCellInformation :=
  MkLteCell (lteCell_base s) (lteCell_pci_ s) v (lteCell_earfcn_ s).
Definition LteCell_set_earfcn (v : Z) (s : LteCellInformation) : LteCellInformation :=
  MkLteCell (lteCell_base s) (lteCell_pci_ s) (lteCell_tac_ s) v.
Definition SetLteParam (pci tac arfcn : Z) (s : LteCellInformation) : LteCellInformation :=
  MkLteCell (lteCell_base s) pci tac arfcn.
(** Copy constructor and assignment copy every member. *)
Definition LteCell_copy (s : LteCellInformation) : LteCellInformation :=
  MkLteCell (MkCell (mcc_ (lteCell_base s)) (mnc_ (lteCell_base s)) (cellId_ (lteCell_base s)) (timeStamp_ (lteCell_base s)) (signalIntensity_ (lteCell_base s)) (signalLevel_ (lteCell_base s)) (isCamped_ (lteCell_base s))) (lteCell_pci_ s) (lteCell_tac_ s) (lteCell_earfcn_ s).
Definition LteCell_eq (a b : LteCellInformation) : bool :=
  bool_decide (mcc_ (lteCell_base a) = mcc_ (lteCell_base b)) && bool_decide (mnc_ (lteCell_base a) = mnc_ (lteCell_base b)) &&
  (lteCell_earfcn_ a =? lteCell_earfcn_ b) && (cellId_ (lteCell_base a) =? cellId_ (lteCell_base b)) && (lteCell_pci_ a =? lteCell_pci_ b) &&
  (lteCell_tac_ a =? lteCell_tac_ b) && (signalLevel_ (lteCell_base a) =? signalLevel_ (lteCell_base b)) &&
  (signalIntensity_ (lteCell_base a) =? signalIntensity_ (lteCell_base b)) && bool_decide (isCamped_ (lteCell_base a) = isCamped_ (lteCell_base b)).
Definition LteCell_GetNetworkType (s : LteCellInformation) : Z := CELL_TYPE_LTE.
Definition LteCell_GetPci (s : LteCellInformation) : Z := lteCell_pci_ s.
Definition LteCell_GetTac (s : LteCellInformation) : Z := lteCell_tac_ s.
Definition LteCell_GetArfcn (s : LteCellInformation) : Z := lteCell_earfcn_ s.
Definition LteCell_UpdateLocation (now cellId tac : Z) (s : LteCellInformation) : LteCellInformation :=
  MkLteCell (stamp now (set_cellId cellId (lteCell_base s))) (lteCell_pci_ s) tac (lteCell_earfcn_ s).
Definition LteCell_ToString (s : LteCellInformation) : cstring :=
  let T := to_string in
  str "netWorkType:" ++ T CELL_TYPE_LTE ++ str ",mcc:" ++ mcc_ (lteCell_base s) ++ str ",mnc:" ++ mnc_ (lteCell_base s) ++ str ",earfcn:" ++
  T (lteCell_earfcn_ s) ++ str ",cellId:" ++ T (cellId_ (lteCell_base s)) ++ str ",timeStamp:" ++ T (timeStamp_ (lteCell_base s)) ++
  str ",signalLevel:" ++ T (signalLevel_ (lteCell_base s)) ++ str ",signalIntensity:" ++ T (signalIntensity_ (lteCell_base s)) ++ str ",pci:" ++
  T (lteCell_pci_ s) ++ str ",pci:" ++ T (lteCell_pci_ s) ++ str ",tac:" ++ T (lteCell_tac_ s).
Section LteCellParcel.
Context {P : Type} `{ParcelOps P}.
Definition LteCell_Marshalling (s : LteCellInformation) : wstep P :=
  WriteInt32 CELL_TYPE_LTE ;;w WriteString (mcc_ (lteCell_base s)) ;;w WriteString (mnc_ (lteCell_base s)) ;;w WriteInt32 (lteCell_earfcn_ s) ;;w
  WriteInt32 (cellId_ (lteCell_base s)) ;;w WriteInt32 (lteCell_pci_ s) ;;w WriteInt32 (lteCell_tac_ s) ;;w
  WriteUint64 (timeStamp_ (lteCell_base s)) ;;w WriteInt32 (signalLevel_ (lteCell_base s)) ;;w WriteInt32 (signalIntensity_ (lteCell_base s)) ;;w
  WriteBool (isCamped_ (lteCell_base s)).
Definition LteCell_ReadFromParcel : rstep P LteCellInformation :=
  read_into ReadString (fun v => LteCell_on_base (set_mcc v)) ;;r
  read_into ReadString (fun v => LteCell_on_base (set_mnc v)) ;;r
  read_into ReadInt32 LteCell_set_earfcn ;;r
  read_into ReadInt32 (fun v => LteCell_on_base (set_cellId v)) ;;r
  read_into ReadInt32 LteCell_set_pci ;;r
  read_into ReadInt32 LteCell_set_tac ;;r
  read_into ReadUint64 (fun v => LteCell_on_base (set_timeStamp v)) ;;r
  read_into ReadInt32 (fun v => LteCell_on_base (set_signalLevel v)) ;;r
  read_into ReadInt32 (fun v => LteCell_on_base (set_signalIntensity v)) ;;r
  read_into ReadBool (fun v => LteCell_on_base (set_isCamped v)).
Definition LteCell_Unmarshalling (p : P) : option LteCellInformation * P :=
  let '(ok, s, p) := LteCell_ReadFromParcel LteCell_new p in if (ok : bool) then (Some s, p) else (None, p).
End LteCellParcel.

(** ** WcdmaCellInformation *)

Record WcdmaCellInformation : Type := MkWcdmaCell {
  wcdmaCell_base : CellInformation;
  wcdmaCell_lac_ : Z;
  wcdmaCell_psc_ : Z;
  wcdmaCell_uarfcn_ : Z
}.

Definition WcdmaCell_new : WcdmaCellInformation := MkWcdmaCell CellInformation_new 0 0 0.
Definition WcdmaCell_on_base (f : CellInformation -> CellInformation) (s : WcdmaCellInformation) : WcdmaCellInformation :=
  MkWcdmaCell (f (wcdmaCell_base s)) (wcdmaCell_lac_ s) (wcdmaCell_psc_ s) (wcdmaCell_uarfcn_ s).
Definition WcdmaCell_set_lac (v : Z) (s : WcdmaCellInformation) : WcdmaCellInformation :=
  MkWcdmaCell (wcdmaCell_base s) v (wcdmaCell_psc_ s) (wcdmaCell_uarfcn_ s).
Definition WcdmaCell_set_psc (v : Z) (s : WcdmaCellInformation) : WcdmaCellInformation :=
  MkWcdmaCell (wcdmaCell_base s) (wcdmaCell_lac_ s) v (wcdmaCell_uarfcn_ s).
Definition WcdmaCell_set_uarfcn (v : Z) (s : WcdmaCellInformation) : WcdmaCellInformation :=
  MkWcdmaCell (wcdmaCell_base s) (wcdmaCell_lac_ s) (wcdmaCell_psc_ s) v.
Definition SetWcdmaParam (psc lac arfcn : Z) (s : WcdmaCellInformation) : WcdmaCellInformation :=
  MkWcdmaCell (wcdmaCell_base s) lac psc arfcn.
(** Copy constructor and assignment copy every member. *)
Definition WcdmaCell_copy (s : WcdmaCellInformation) : WcdmaCellInformation :=
  MkWcdmaCell (MkCell (mcc_ (wcdmaCell_base s)) (mnc_ (wcdmaCell_base s)) (cellId_ (wcdmaCell_base s)) (timeStamp_ (wcdmaCell_base s)) (signalIntensity_ (wcdmaCell_base s)) (signalLevel_ (wcdmaCell_base s)) (isCamped_ (wcdmaCell_base s))) (wcdmaCell_lac_ s) (wcdmaCell_psc_ s) (wcdmaCell_uarfcn_ s).
Definition WcdmaCell_eq (a b : WcdmaCellInformation) : bool :=
  bool_decide (mcc_ (wcdmaCell_base a) = mcc_ (wcdmaCell_base b)) && bool_decide (mnc_ (wcdmaCell_base a) = mnc_ (wcdmaCell_base b)) &&
  (wcdmaCell_uarfcn_ a =? wcdmaCell_uarfcn_ b) && (cellId_ (wcdmaCell_base a) =? cellId_ (wcdmaCell_base b)) &&
  (wcdmaCell_psc_ a =? wcdmaCell_psc_ b) && (wcdmaCell_lac_ a =? wcdmaCell_lac_ b) &&
  (signalLevel_ (wcdmaCell_base a) =? signalLevel_ (wcdmaCell_base b)) &&
  (signalIntensity_ (wcdmaCell_base a) =? signalIntensity_ (wcdmaCell_base b)) &&
  bool_decide (isCamped_ (wcdmaCell_base a) = isCamped_ (wcdmaCell_base b)).
Definition WcdmaCell_GetNetworkType (s : WcdmaCellInformation) : Z := CELL_TYPE_WCDMA.
Definition WcdmaCell_GetPsc (s : WcdmaCellInformation) : Z := wcdmaCell_psc_ s.
Definition WcdmaCell_GetLac (s : WcdmaCellInformation) : Z := wcdmaCell_lac_ s.
Definition WcdmaCell_GetArfcn (s : WcdmaCellInformation) : Z := wcdmaCell_uarfcn_ s.
Definition WcdmaCell_UpdateLocation (now cellId lac : Z) (s : WcdmaCellInformation) : WcdmaCellInformation :=
  MkWcdmaCell (stamp now (set_cellId cellId (wcdmaCell_base s))) lac (wcdmaCell_psc_ s) (wcdmaCell_uarfcn_ s).
Definition WcdmaCell_ToString (s : WcdmaCellInformation) : cstring :=
  let T := to_string in
  str "netWorkType:" ++ T CELL_TYPE_WCDMA ++ str ",mcc:" ++ mcc_ (wcdmaCell_base s) ++ str ",mnc:" ++ mnc_ (wcdmaCell_base s) ++ str ",uarfcn:" ++
  T (wcdmaCell_uarfcn_ s) ++ str ",cellId:" ++ T (cellId_ (wcdmaCell_base s)) ++ str ",timeStamp:" ++ T (timeStamp_ (wcdmaCell_base s)) ++
  str ",signalLevel:" ++ T (signalLevel_ (wcdmaCell_base s)) ++ str ",signalIntensity:" ++ T (signalIntensity_ (wcdmaCell_base s)) ++ str ",psc:" ++
  T (wcdmaCell_psc_ s) ++ str ",lac:" ++ T (wcdmaCell_lac_ s).
Section WcdmaCellParcel.
Context {P : Type} `{ParcelOps P}.
Definition WcdmaCell_Marshalling (s : WcdmaCellInformation) : wstep P :=
  WriteInt32 CELL_TYPE_WCDMA ;;w WriteString (mcc_ (wcdmaCell_base s)) ;;w WriteString (mnc_ (wcdmaCell_base s)) ;;w
  WriteInt32 (wcdmaCell_uarfcn_ s) ;;w WriteInt32 (cellId_ (wcdmaCell_base s)) ;;w WriteInt32 (wcdmaCell_psc_ s) ;;w WriteInt32 (wcdmaCell_lac_ s) ;;w
  WriteUint64 (timeStamp_ (wcdmaCell_base s)) ;;w WriteInt32 (signalLevel_ (wcdmaCell_base s)) ;;w WriteInt32 (signalIntensity_ (wcdmaCell_base s)) ;;w
  WriteBool (isCamped_ (wcdmaCell_base s)).
Definition WcdmaCell_ReadFromParcel : rstep P WcdmaCellInformation :=
  read_into ReadString (fun v => WcdmaCell_on_base (set_mcc v)) ;;r
  read_into ReadString (fun v => WcdmaCell_on_base (set_mnc v)) ;;r
  read_into ReadInt32 WcdmaCell_set_uarfcn ;;r
  read_into ReadInt32 (fun v => WcdmaCell_on_base (set_cellId v)) ;;r
  read_into ReadInt32 WcdmaCell_set_psc ;;r
  read_into ReadInt32 WcdmaCell_set_lac ;;r
  read_into ReadUint64 (fun v => WcdmaCell_on_base (set_timeStamp v)) ;;r
  read_into ReadInt32 (fun v => WcdmaCell_on_base (set_signalLevel v)) ;;r
  read_into ReadInt32 (fun v => WcdmaCell_on_base (set_signalIntensity v)) ;;r
  read_into ReadBool (fun v => WcdmaCell_on_base (set_isCamped v)).
Definition WcdmaCell_Unmarshalling (p : P) : option WcdmaCellInformation * P :=
  let '(ok, s, p) := WcdmaCell_ReadFromParcel WcdmaCell_new p in if (ok : bool) then (Some s, p) else (None, p).
End WcdmaCellParcel.

(** ** TdscdmaCellInformation *)

Record TdscdmaCellInformation : Type := MkTdscdmaCell {
  tdscdmaCell_base : CellInformation;
  tdscdmaCell_lac_ : Z;
  tdscdmaCell_cpid_ : Z;
  tdscdmaCell_uarfcn_ : Z
}.

Definition TdscdmaCell_new : TdscdmaCellInformation := MkTdscdmaCell CellInformation_new 0 0 0.
Definition TdscdmaCell_on_base (f : CellInformation -> CellInformation) (s : TdscdmaCellInformation) : TdscdmaCellInformation :=
  MkTdscdmaCell (f (tdscdmaCell_base s)) (tdscdmaCell_lac_ s) (tdscdmaCell_cpid_ s) (tdscdmaCell_uarfcn_ s).
Definition TdscdmaCell_set_lac (v : Z) (s : TdscdmaCellInformation) : TdscdmaCellInformation :=
  MkTdscdmaCell (tdscdmaCell_base s) v (tdscdmaCell_cpid_ s) (tdscdmaCell_uarfcn_ s).
Definition TdscdmaCell_set_cpid (v : Z) (s : TdscdmaCellInformation) : TdscdmaCellInformation :=
  MkTdscdmaCell (tdscdmaCell_base s) (tdscdmaCell_lac_ s) v (tdscdmaCell_uarfcn_ s).
Definition TdscdmaCell_set_uarfcn (v : Z) (s : TdscdmaCellInformation) : TdscdmaCellInformation :=
  MkTdscdmaCell (tdscdmaCell_base s) (tdscdmaCell_lac_ s) (tdscdmaCell_cpid_ s) v.
Definition SetTdscdmaParam (cpid lac arfcn : Z) (s : TdscdmaCellInformation) : TdscdmaCellInformation :=
  MkTdscdmaCell (tdscdmaCell_base s) lac cpid arfcn.
(** Copy constructor and assignment copy every member. *)
Definition TdscdmaCell_copy (s : TdscdmaCellInformation) : TdscdmaCellInformation :=
  MkTdscdmaCell (MkCell (mcc_ (tdscdmaCell_base s)) (mnc_ (tdscdmaCell_base s)) (cellId_ (tdscdmaCell_base s)) (timeStamp_ (tdscdmaCell_base s)) (signalIntensity_ (tdscdmaCell_base s)) (signalLevel_ (tdscdmaCell_base s)) (isCamped_ (tdscdmaCell_base s))) (tdscdmaCell_lac_ s) (tdscdmaCell_cpid_ s) (tdscdmaCell_uarfcn_ s).
Definition TdscdmaCell_eq (a b : TdscdmaCellInformation) : bool :=
  bool_decide (mcc_ (tdscdmaCell_base a) = mcc_ (tdscdmaCell_base b)) && bool_decide (mnc_ (tdscdmaCell_base a) = mnc_ (tdscdmaCell_base b)) &&
  (tdscdmaCell_uarfcn_ a =? tdscdmaCell_uarfcn_ b) && (cellId_ (tdscdmaCell_base a) =? cellId_ (tdscdmaCell_base b)) &&
  (tdscdmaCell_cpid_ a =? tdscdmaCell_cpid_ b) && (tdscdmaCell_lac_ a =? tdscdmaCell_lac_ b) &&
  (signalLevel_ (tdscdmaCell_base a) =? signalLevel_ (tdscdmaCell_base b)) &&
  (signalIntensity_ (tdscdmaCell_base a) =? signalIntensity_ (tdscdmaCell_base b)) &&
  bool_decide (isCamped_ (tdscdmaCell_base a) = isCamped_ (tdscdmaCell_base b)).
Definition TdscdmaCell_GetNetworkType (s : TdscdmaCellInformation) : Z := CELL_TYPE_TDSCDMA.
Definition TdscdmaCell_GetCpid (s : TdscdmaCellInformation) : Z := tdscdmaCell_cpid_ s.
Definition TdscdmaCell_GetLac (s : TdscdmaCellInformation) : Z := tdscdmaCell_lac_ s.
Definition TdscdmaCell_GetArfcn (s : TdscdmaCellInformation) : Z := tdscdmaCell_uarfcn_ s.
Definition TdscdmaCell_UpdateLocation (now cellId lac : Z) (s : TdscdmaCellInformation) : TdscdmaCellInformation :=
  MkTdscdmaCell (stamp now (set_cellId cellId (tdscdmaCell_base s))) lac (tdscdmaCell_cpid_ s) (tdscdmaCell_uarfcn_ s).
Definition TdscdmaCell_ToString (s : TdscdmaCellInformation) : cstring :=
  let T := to_string in
  str "netWorkType:" ++ T CELL_TYPE_TDSCDMA ++ str ",mcc:" ++ mcc_ (tdscdmaCell_base s) ++ str ",mnc:" ++ mnc_ (tdscdmaCell_base s) ++ str ",uarfcn:" ++
  T (tdscdmaCell_uarfcn_ s) ++ str ",cellId:" ++ T (cellId_ (tdscdmaCell_base s)) ++ str ",timeStamp:" ++ T (timeStamp_ (tdscdmaCell_base s)) ++
  str ",signalLevel:" ++ T (signalLevel_ (tdscdmaCell_base s)) ++ str ",signalIntensity:" ++ T (signalIntensity_ (tdscdmaCell_base s)) ++
  str ",cpid:" ++ T (tdscdmaCell_cpid_ s) ++ str ",lac:" ++ T (tdscdmaCell_lac_ s).
Section TdscdmaCellParcel.
Context {P : Type} `{ParcelOps P}.
Definition TdscdmaCell_Marshalling (s : TdscdmaCellInformation) : wstep P :=
  WriteInt32 CELL_TYPE_TDSCDMA ;;w WriteString (mcc_ (tdscdmaCell_base s)) ;;w WriteString (mnc_ (tdscdmaCell_base s)) ;;w
  WriteInt32 (tdscdmaCell_uarfcn_ s) ;;w WriteInt32 (cellId_ (tdscdmaCell_base s)) ;;w WriteInt32 (tdscdmaCell_cpid_ s) ;;w
  WriteInt32 (tdscdmaCell_lac_ s) ;;w WriteUint64 (timeStamp_ (tdscdmaCell_base s)) ;;w WriteInt32 (signalLevel_ (tdscdmaCell_base s)) ;;w
  WriteInt32 (signalIntensity_ (tdscdmaCell_base s)) ;;w WriteBool (isCamped_ (tdscdmaCell_base s)).
Definition TdscdmaCell_ReadFromParcel : rstep P TdscdmaCellInformation :=
  read_into ReadString (fun v => TdscdmaCell_on_base (set_mcc v)) ;;r
  read_into ReadString (fun v => TdscdmaCell_on_base (set_mnc v)) ;;r
  read_into ReadInt32 TdscdmaCell_set_uarfcn ;;r
  read_into ReadInt32 (fun v => TdscdmaCell_on_base (set_cellId v)) ;;r
  read_into ReadInt32 TdscdmaCell_set_cpid ;;r
  read_into ReadInt32 TdscdmaCell_set_lac ;;r
  read_into ReadUint64 (fun v => TdscdmaCell_on_base (set_timeStamp v)) ;;r
  read_into ReadInt32 (fun v => TdscdmaCell_on_base (set_signalLevel v)) ;;r
  read_into ReadInt32 (fun v => TdscdmaCell_on_base (set_signalIntensity v)) ;;r
  read_into ReadBool (fun v => TdscdmaCell_on_base (set_isCamped v)).
Definition TdscdmaCell_Unmarshalling (p : P) : option TdscdmaCellInformation * P :=
  let '(ok, s, p) := TdscdmaCell_ReadFromParcel TdscdmaCell_new p in if (ok : bool) then (Some s, p) else (None, p).
End TdscdmaCellParcel.

(** ** CdmaCellInformation *)

Record CdmaCellInformation : Type := MkCdmaCell {
  cdmaCell_base : CellInformation;
  cdmaCell_baseId_ : Z;
  cdmaCell_latitude_ : Z;
  cdmaCell_longitude_ : Z;
  cdmaCell_nid_ : Z;
  cdmaCell_sid_ : Z
}.

Definition CdmaCell_new : CdmaCellInformation := MkCdmaCell CellInformation_new 0 0 0 0 0.
Definition CdmaCell_on_base (f : CellInformation -> CellInformation) (s : CdmaCellInformation) : CdmaCellInformation :=
  MkCdmaCell (f (cdmaCell_base s)) (cdmaCell_baseId_ s) (cdmaCell_latitude_ s) (cdmaCell_longitude_ s) (cdmaCell_nid_ s) (cdmaCell_sid_ s).
Definition CdmaCell_set_baseId (v : Z) (s : CdmaCellInformation) : CdmaCellInformation :=
  MkCdmaCell (cdmaCell_base s) v (cdmaCell_latitude_ s) (cdmaCell_longitude_ s) (cdmaCell_nid_ s) (cdmaCell_sid_ s).
Definition CdmaCell_set_latitude (v : Z) (s : CdmaCellInformation) : CdmaCellInformation :=
  MkCdmaCell (cdmaCell_base s) (cdmaCell_baseId_ s) v (cdmaCell_longitude_ s) (cdmaCell_nid_ s) (cdmaCell_sid_ s).
Definition CdmaCell_set_longitude (v : Z) (s : CdmaCellInformation) : CdmaCellInformation :=
  MkCdmaCell (cdmaCell_base s) (cdmaCell_baseId_ s) (cdmaCell_latitude_ s) v (cdmaCell_nid_ s) (cdmaCell_sid_ s).
Definition CdmaCell_set_nid (v : Z) (s : CdmaCellInformation) : CdmaCellInformation :=
  MkCdmaCell (cdmaCell_base s) (cdmaCell_baseId_ s) (cdmaCell_latitude_ s) (cdmaCell_longitude_ s) v (cdmaCell_sid_ s).
Definition CdmaCell_set_sid (v : Z) (s : CdmaCellInformation) : CdmaCellInformation :=
  MkCdmaCell (cdmaCell_base s) (cdmaCell_baseId_ s) (cdmaCell_latitude_ s) (cdmaCell_longitude_ s) (cdmaCell_nid_ s) v.
Definition SetCdmaParam (baseId latitude longitude nid sid : Z) (s : CdmaCellInformation) : CdmaCellInformation :=
  MkCdmaCell (cdmaCell_base s) baseId latitude longitude nid sid.
(** The copy constructor and the assignment leave out the codes and the cell's number. *)
Definition CdmaCell_copy_to (target : CellInformation) (s : CdmaCellInformation) : CdmaCellInformation :=
  let b := cdmaCell_base s in
  MkCdmaCell (MkCell (mcc_ target) (mnc_ target) (cellId_ target) (timeStamp_ b) (signalIntensity_ b) (signalLevel_ b) (isCamped_ b))
    (cdmaCell_baseId_ s) (cdmaCell_latitude_ s) (cdmaCell_longitude_ s) (cdmaCell_nid_ s) (cdmaCell_sid_ s).
Definition CdmaCell_copy : CdmaCellInformation -> CdmaCellInformation := CdmaCell_copy_to CellInformation_new.
Definition CdmaCell_assign (target : CdmaCellInformation) : CdmaCellInformation -> CdmaCellInformation :=
  CdmaCell_copy_to (cdmaCell_base target).
Definition CdmaCell_eq (a b : CdmaCellInformation) : bool :=
  (cdmaCell_baseId_ a =? cdmaCell_baseId_ b) && (cdmaCell_latitude_ a =? cdmaCell_latitude_ b) && (cdmaCell_longitude_ a =? cdmaCell_longitude_ b) &&
  (cdmaCell_nid_ a =? cdmaCell_nid_ b) && (cdmaCell_sid_ a =? cdmaCell_sid_ b) && (signalLevel_ (cdmaCell_base a) =? signalLevel_ (cdmaCell_base b)) &&
  (signalIntensity_ (cdmaCell_base a) =? signalIntensity_ (cdmaCell_base b)) && bool_decide (isCamped_ (cdmaCell_base a) = isCamped_ (cdmaCell_base b)).
Definition CdmaCell_GetNetworkType (s : CdmaCellInformation) : Z := CELL_TYPE_CDMA.
Definition CdmaCell_GetBaseId (s : CdmaCellInformation) : Z := cdmaCell_baseId_ s.
Definition CdmaCell_GetLatitude (s : CdmaCellInformation) : Z := cdmaCell_latitude_ s.
Definition CdmaCell_GetLongitude (s : CdmaCellInformation) : Z := cdmaCell_longitude_ s.
Definition CdmaCell_GetNid (s : CdmaCellInformation) : Z := cdmaCell_nid_ s.
Definition CdmaCell_GetSid (s : CdmaCellInformation) : Z := cdmaCell_sid_ s.
Definition CdmaCell_UpdateLocation (now baseId latitude longitude : Z) (s : CdmaCellInformation) : CdmaCellInformation :=
  MkCdmaCell (stamp now (cdmaCell_base s)) baseId latitude longitude (cdmaCell_nid_ s) (cdmaCell_sid_ s).
Definition CdmaCell_ToString (s : CdmaCellInformation) : cstring :=
  let T := to_string in
  str "netWorkType:" ++ T CELL_TYPE_CDMA ++ str ",baseId:" ++ T (cdmaCell_baseId_ s) ++ str ",latitude:" ++ T (cdmaCell_latitude_ s) ++
  str ",longitude:" ++ T (cdmaCell_longitude_ s) ++ str ",nid:" ++ T (cdmaCell_nid_ s) ++ str ",timeStamp:" ++ T (timeStamp_ (cdmaCell_base s)) ++
  str ",signalLevel:" ++ T (signalLevel_ (cdmaCell_base s)) ++ str ",signalIntensity:" ++ T (signalIntensity_ (cdmaCell_base s)) ++ str ",sid:" ++
  T (cdmaCell_sid_ s).
Section CdmaCellParcel.
Context {P : Type} `{ParcelOps P}.
Definition CdmaCell_Marshalling (s : CdmaCellInformation) : wstep P :=
  WriteInt32 CELL_TYPE_CDMA ;;w WriteInt32 (cdmaCell_baseId_ s) ;;w WriteInt32 (cdmaCell_latitude_ s) ;;w WriteInt32 (cdmaCell_longitude_ s) ;;w
  WriteInt32 (cdmaCell_nid_ s) ;;w WriteInt32 (cdmaCell_sid_ s) ;;w WriteUint64 (timeStamp_ (cdmaCell_base s)) ;;w
  WriteInt32 (signalLevel_ (cdmaCell_base s)) ;;w WriteInt32 (signalIntensity_ (cdmaCell_base s)) ;;w WriteBool (isCamped_ (cdmaCell_base s)).
Definition CdmaCell_ReadFromParcel : rstep P CdmaCellInformation :=
  read_into ReadInt32 CdmaCell_set_baseId ;;r
  read_into ReadInt32 CdmaCell_set_latitude ;;r
  read_into ReadInt32 CdmaCell_set_longitude ;;r
  read_into ReadInt32 CdmaCell_set_nid ;;r
  read_into ReadInt32 CdmaCell_set_sid ;;r
  read_into ReadUint64 (fun v => CdmaCell_on_base (set_timeStamp v)) ;;r
  read_into ReadInt32 (fun v => CdmaCell_on_base (set_signalLevel v)) ;;r
  read_into ReadInt32 (fun v => CdmaCell_on_base (set_signalIntensity v)) ;;r
  read_into ReadBool (fun v => CdmaCell_on_base (set_isCamped v)).
Definition CdmaCell_Unmarshalling (p : P) : option CdmaCellInformation * P :=
  let '(ok, s, p) := CdmaCell_ReadFromParcel CdmaCell_new p in if (ok : bool) then (Some s, p) else (None, p).
End CdmaCellParcel.

(** ** NrCellInformation *)

Record NrCellInformation : Type := MkNrCell {
  nrCell_base : CellInformation;
  nrCell_nrArfcn_ : Z;
  nrCell_pci_ : Z;
  nrCell_tac_ : Z;
  nrCell_nci_ : Z;
  nrCell_rsrp_ : Z;
  nrCell_rsrq_ : Z
}.

Definition NrCell_new : NrCellInformation := MkNrCell CellInformation_new 0 0 0 0 0 0.
Definition NrCell_on_base (f : CellInformation -> CellInformation) (s : NrCellInformation) : NrCellInformation :=
  MkNrCell (f (nrCell_base s)) (nrCell_nrArfcn_ s) (nrCell_pci_ s) (nrCell_tac_ s) (nrCell_nci_ s) (nrCell_rsrp_ s) (nrCell_rsrq_ s).
Definition NrCell_set_nrArfcn (v : Z) (s : NrCellInformation) : NrCellInformation :=
  MkNrCell (nrCell_base s) v (nrCell_pci_ s) (nrCell_tac_ s) (nrCell_nci_ s) (nrCell_rsrp_ s) (nrCell_rsrq_ s).
Definition NrCell_set_pci (v : Z) (s : NrCellInformation) : NrCellInformation :=
  MkNrCell (nrCell_base s) (nrCell_nrArfcn_ s) v (nrCell_tac_ s) (nrCell_nci_ s) (nrCell_rsrp_ s) (nrCell_rsrq_ s).
Definition NrCell_set_tac (v : Z) (s : NrCellInformation) : NrCellInformation :=
  MkNrCell (nrCell_base s) (nrCell_nrArfcn_ s) (nrCell_pci_ s) v (nrCell_nci_ s) (nrCell_rsrp_ s) (nrCell_rsrq_ s).
Definition NrCell_set_nci (v : Z) (s : NrCellInformation) : NrCellInformation :=
  MkNrCell (nrCell_base s) (nrCell_nrArfcn_ s) (nrCell_pci_ s) (nrCell_tac_ s) v (nrCell_rsrp_ s) (nrCell_rsrq_ s).
Definition NrCell_set_rsrp (v : Z) (s : NrCellInformation) : NrCellInformation :=
  MkNrCell (nrCell_base s) (nrCell_nrArfcn_ s) (nrCell_pci_ s) (nrCell_tac_ s) (nrCell_nci_ s) v (nrCell_rsrq_ s).
Definition NrCell_set_rsrq (v : Z) (s : NrCellInformation) : NrCellInformation :=
  MkNrCell (nrCell_base s) (nrCell_nrArfcn_ s) (nrCell_pci_ s) (nrCell_tac_ s) (nrCell_nci_ s) (nrCell_rsrp_ s) v.
Definition SetNrParam (nrArfcn pci tac nci : Z) (s : NrCellInformation) : NrCellInformation :=
  MkNrCell (nrCell_base s) nrArfcn pci tac nci (nrCell_rsrp_ s) (nrCell_rsrq_ s).
Definition SetNrSignalParam (rsrp rsrq : Z) (s : NrCellInformation) : NrCellInformation :=
  MkNrCell (nrCell_base s) (nrCell_nrArfcn_ s) (nrCell_pci_ s) (nrCell_tac_ s) (nrCell_nci_ s) rsrp rsrq.
(** Copy constructor and assignment copy every member. *)
Definition NrCell_copy (s : NrCellInformation) : NrCellInformation :=
  MkNrCell (MkCell (mcc_ (nrCell_base s)) (mnc_ (nrCell_base s)) (cellId_ (nrCell_base s)) (timeStamp_ (nrCell_base s)) (signalIntensity_ (nrCell_base s)) (signalLevel_ (nrCell_base s)) (isCamped_ (nrCell_base s))) (nrCell_nrArfcn_ s) (nrCell_pci_ s) (nrCell_tac_ s) (nrCell_nci_ s) (nrCell_rsrp_ s) (nrCell_rsrq_ s).
Definition NrCell_eq (a b : NrCellInformation) : bool :=
  bool_decide (mcc_ (nrCell_base a) = mcc_ (nrCell_base b)) && bool_decide (mnc_ (nrCell_base a) = mnc_ (nrCell_base b)) &&
  (cellId_ (nrCell_base a) =? cellId_ (nrCell_base b)) && (nrCell_nrArfcn_ a =? nrCell_nrArfcn_ b) && (nrCell_pci_ a =? nrCell_pci_ b) &&
  (nrCell_tac_ a =? nrCell_tac_ b) && (nrCell_nci_ a =? nrCell_nci_ b) && (nrCell_rsrp_ a =? nrCell_rsrp_ b) && (nrCell_rsrq_ a =? nrCell_rsrq_ b) &&
  (timeStamp_ (nrCell_base a) =? timeStamp_ (nrCell_base b)) && (signalLevel_ (nrCell_base a) =? signalLevel_ (nrCell_base b)) &&
  (signalIntensity_ (nrCell_base a) =? signalIntensity_ (nrCell_base b)) && bool_decide (isCamped_ (nrCell_base a) = isCamped_ (nrCell_base b)).
Definition NrCell_GetNetworkType (s : NrCellInformation) : Z := CELL_TYPE_NR.
Definition NrCell_GetArfcn (s : NrCellInformation) : Z := nrCell_nrArfcn_ s.
Definition NrCell_GetPci (s : NrCellInformation) : Z := nrCell_pci_ s.
Definition NrCell_GetTac (s : NrCellInformation) : Z := nrCell_tac_ s.
Definition NrCell_GetNci (s : NrCellInformation) : Z := nrCell_nci_ s.
Definition NrCell_UpdateLocation (now pci tac : Z) (s : NrCellInformation) : NrCellInformation :=
  MkNrCell (stamp now (nrCell_base s)) (nrCell_nrArfcn_ s) pci tac (nrCell_nci_ s) (nrCell_rsrp_ s) (nrCell_rsrq_ s).
Definition NrCell_ToString (s : NrCellInformation) : cstring :=
  let T := to_string in
  str "netWorkType:" ++ T CELL_TYPE_NR ++ str ",mcc:" ++ mcc_ (nrCell_base s) ++ str ",mnc:" ++ mnc_ (nrCell_base s) ++ str ",earfcn:" ++
  T (nrCell_nrArfcn_ s) ++ str ",cellId:" ++ T (cellId_ (nrCell_base s)) ++ str ",timeStamp:" ++ T (timeStamp_ (nrCell_base s)) ++
  str ",signalLevel:" ++ T (signalLevel_ (nrCell_base s)) ++ str ",signalIntensity:" ++ T (signalIntensity_ (nrCell_base s)) ++ str ",pci:" ++
  T (nrCell_pci_ s) ++ str ",tac:" ++ T (nrCell_tac_ s) ++ str ",nci:" ++ T (nrCell_nci_ s) ++ str ",rsrp:" ++ T (nrCell_rsrp_ s) ++ str ",rsrq:" ++
  T (nrCell_rsrq_ s).
Section NrCellParcel.
Context {P : Type} `{ParcelOps P}.
Definition NrCell_Marshalling (s : NrCellInformation) : wstep P :=
  WriteInt32 CELL_TYPE_NR ;;w WriteString (mcc_ (nrCell_base s)) ;;w WriteString (mnc_ (nrCell_base s)) ;;w WriteInt32 (cellId_ (nrCell_base s)) ;;w
  WriteInt32 (nrCell_nrArfcn_ s) ;;w WriteInt32 (nrCell_pci_ s) ;;w WriteInt32 (nrCell_tac_ s) ;;w WriteInt64 (nrCell_nci_ s) ;;w
  WriteInt32 (nrCell_rsrp_ s) ;;w WriteInt32 (nrCell_rsrq_ s) ;;w WriteUint64 (timeStamp_ (nrCell_base s)) ;;w
  WriteInt32 (signalLevel_ (nrCell_base s)) ;;w WriteInt32 (signalIntensity_ (nrCell_base s)) ;;w WriteBool (isCamped_ (nrCell_base s)).
Definition NrCell_ReadIntFromParcel : rstep P NrCellInformation :=
  read_into ReadInt32 (fun v => NrCell_on_base (set_cellId v)) ;;r
  read_into ReadInt32 NrCell_set_nrArfcn ;;r
  read_into ReadInt32 NrCell_set_pci ;;r
  read_into ReadInt32 NrCell_set_tac ;;r
  read_into ReadInt64 NrCell_set_nci ;;r
  read_into ReadInt32 NrCell_set_rsrp ;;r
  read_into ReadInt32 NrCell_set_rsrq.
Definition NrCell_ReadFromParcel : rstep P NrCellInformation :=
  read_into ReadString (fun v => NrCell_on_base (set_mcc v)) ;;r
  read_into ReadString (fun v => NrCell_on_base (set_mnc v)) ;;r
  NrCell_ReadIntFromParcel ;;r
  read_into ReadUint64 (fun v => NrCell_on_base (set_timeStamp v)) ;;r
  read_into ReadInt32 (fun v => NrCell_on_base (set_signalLevel v)) ;;r
  read_into ReadInt32 (fun v => NrCell_on_base (set_signalIntensity v)) ;;r
  read_into ReadBool (fun v => NrCell_on_base (set_isCamped v)).
Definition NrCell_Unmarshalling (p : P) : option NrCellInformation * P :=
  let '(ok, s, p) := NrCell_ReadFromParcel NrCell_new p in if (ok : bool) then (Some s, p) else (None, p).
End NrCellParcel.

(** ** [sptr<CellInformation>]: the virtual methods *)

Inductive Cell : Type :=
| GsmCell (c : GsmCellInformation)
| CdmaCell (c : CdmaCellInformation)
| LteCell (c : LteCellInformation)
| WcdmaCell (c : WcdmaCellInformation)
| TdscdmaCell (c : TdscdmaCellInformation)
| NrCell (c : NrCellInformation).

Definition base (c : Cell) : CellInformation :=
  match c with
  | GsmCell c => gsmCell_base c
  | CdmaCell c => cdmaCell_base c
  | LteCell c => lteCell_base c
  | WcdmaCell c => wcdmaCell_base c
  | TdscdmaCell c => tdscdmaCell_base c
  | NrCell c => nrCell_base c
  end.
Definition on_base (f : CellInformation -> CellInformation) (c : Cell) : Cell :=
  match c with
  | GsmCell c => GsmCell (GsmCell_on_base f c)
  | CdmaCell c => CdmaCell (CdmaCell_on_base f c)
  | LteCell c => LteCell (LteCell_on_base f c)
  | WcdmaCell c => WcdmaCell (WcdmaCell_on_base f c)
  | TdscdmaCell c => TdscdmaCell (TdscdmaCell_on_base f c)
  | NrCell c => NrCell (NrCell_on_base f c)
  end.
Definition GetNetworkType (c : Cell) : Z :=
  match c with
  | GsmCell c => GsmCell_GetNetworkType c
  | CdmaCell c => CdmaCell_GetNetworkType c
  | LteCell c => LteCell_GetNetworkType c
  | WcdmaCell c => WcdmaCell_GetNetworkType c
  | TdscdmaCell c => TdscdmaCell_GetNetworkType c
  | NrCell c => NrCell_GetNetworkType c
  end.
Definition ToString (c : Cell) : cstring :=
  match c with
  | GsmCell c => GsmCell_ToString c
  | CdmaCell c => CdmaCell_ToString c
  | LteCell c => LteCell_ToString c
  | WcdmaCell c => WcdmaCell_ToString c
  | TdscdmaCell c => TdscdmaCell_ToString c
  | NrCell c => NrCell_ToString c
  end.
Section CellParcel.
Context {P : Type} `{ParcelOps P}.
Definition Marshalling (c : Cell) : wstep P :=
  match c with
  | GsmCell c => GsmCell_Marshalling c
  | CdmaCell c => CdmaCell_Marshalling c
  | LteCell c => LteCell_Marshalling c
  | WcdmaCell c => WcdmaCell_Marshalling c
  | TdscdmaCell c => TdscdmaCell_Marshalling c
  | NrCell c => NrCell_Marshalling c
  end.
Definition ReadFromParcel : rstep P Cell := fun c p =>
  match c with
  | GsmCell c => let '(ok, c, p) := GsmCell_ReadFromParcel c p in (ok, GsmCell c, p)
  | CdmaCell c => let '(ok, c, p) := CdmaCell_ReadFromParcel c p in (ok, CdmaCell c, p)
  | LteCell c => let '(ok, c, p) := LteCell_ReadFromParcel c p in (ok, LteCell c, p)
  | WcdmaCell c => let '(ok, c, p) := WcdmaCell_ReadFromParcel c p in (ok, WcdmaCell c, p)
  | TdscdmaCell c => let '(ok, c, p) := TdscdmaCell_ReadFromParcel c p in (ok, TdscdmaCell c, p)
  | NrCell c => let '(ok, c, p) := NrCell_ReadFromParcel c p in (ok, NrCell c, p)
  end.
(** The static [Unmarshalling] of the class of [c]. *)
Definition Unmarshalling (c : Cell) (p : P) : option Cell * P :=
  match c with
  | GsmCell _ => let '(r, p) := GsmCell_Unmarshalling p in (GsmCell <$> r, p)
  | CdmaCell _ => let '(r, p) := CdmaCell_Unmarshalling p in (CdmaCell <$> r, p)
  | LteCell _ => let '(r, p) := LteCell_Unmarshalling p in (LteCell <$> r, p)
  | WcdmaCell _ => let '(r, p) := WcdmaCell_Unmarshalling p in (WcdmaCell <$> r, p)
  | TdscdmaCell _ => let '(r, p) := TdscdmaCell_Unmarshalling p in (TdscdmaCell <$> r, p)
  | NrCell _ => let '(r, p) := NrCell_Unmarshalling p in (NrCell <$> r, p)
  end.
End CellParcel.

(** * Theorems *)

(** ** The parcel form *)

(** The ranges of the members' C++ types. *)
Definition base_ok (c : CellInformation) : Prop :=
  is_i32 (cellId_ c) /\ 0 <= timeStamp_ c < 2 ^ 64 /\ is_i32 (signalIntensity_ c) /\ is_i32 (signalLevel_ c).
Definition cell_ok (c : Cell) : Prop :=
  base_ok (base c) /\
  match c with
  | GsmCell c => is_i32 (gsmCell_lac_ c) /\ is_i32 (gsmCell_bsic_ c) /\ is_i32 (gsmCell_arfcn_ c)
  | CdmaCell c => is_i32 (cdmaCell_baseId_ c) /\ is_i32 (cdmaCell_latitude_ c) /\ is_i32 (cdmaCell_longitude_ c) /\ is_i32 (cdmaCell_nid_ c) /\ is_i32 (cdmaCell_sid_ c)
  | LteCell c => is_i32 (lteCell_pci_ c) /\ is_i32 (lteCell_tac_ c) /\ is_i32 (lteCell_earfcn_ c)
  | WcdmaCell c => is_i32 (wcdmaCell_lac_ c) /\ is_i32 (wcdmaCell_psc_ c) /\ is_i32 (wcdmaCell_uarfcn_ c)
  | TdscdmaCell c => is_i32 (tdscdmaCell_lac_ c) /\ is_i32 (tdscdmaCell_cpid_ c) /\ is_i32 (tdscdmaCell_uarfcn_ c)
  | NrCell c => is_i32 (nrCell_nrArfcn_ c) /\ is_i32 (nrCell_pci_ c) /\ is_i32 (nrCell_tac_ c) /\ - 2 ^ 63 <= nrCell_nci_ c < 2 ^ 63 /\ is_i32 (nrCell_rsrp_ c) /\ is_i32 (nrCell_rsrq_ c)
  end.

Definition GsmCell_items (s : GsmCellInformation) : list item :=
  [IString (mcc_ (gsmCell_base s)); IString (mnc_ (gsmCell_base s)); IInt32 (gsmCell_arfcn_ s); IInt32 (cellId_ (gsmCell_base s));
  IInt32 (gsmCell_bsic_ s); IInt32 (gsmCell_lac_ s); IWord64 (timeStamp_ (gsmCell_base s)); IInt32 (signalLevel_ (gsmCell_base s));
  IInt32 (signalIntensity_ (gsmCell_base s)); IBool (isCamped_ (gsmCell_base s))].
Definition LteCell_items (s : LteCellInformation) : list item :=
  [IString (mcc_ (lteCell_base s)); IString (mnc_ (lteCell_base s)); IInt32 (lteCell_earfcn_ s); IInt32 (cellId_ (lteCell_base s));
  IInt32 (lteCell_pci_ s); IInt32 (lteCell_tac_ s); IWord64 (timeStamp_ (lteCell_base s)); IInt32 (signalLevel_ (lteCell_base s));
  IInt32 (signalIntensity_ (lteCell_base s)); IBool (isCamped_ (lteCell_base s))].
Definition WcdmaCell_items (s : WcdmaCellInformation) : list item :=
  [IString (mcc_ (wcdmaCell_base s)); IString (mnc_ (wcdmaCell_base s)); IInt32 (wcdmaCell_uarfcn_ s); IInt32 (cellId_ (wcdmaCell_base s));
  IInt32 (wcdmaCell_psc_ s); IInt32 (wcdmaCell_lac_ s); IWord64 (timeStamp_ (wcdmaCell_base s)); IInt32 (signalLevel_ (wcdmaCell_base s));
  IInt32 (signalIntensity_ (wcdmaCell_base s)); IBool (isCamped_ (wcdmaCell_base s))].
Definition TdscdmaCell_items (s : TdscdmaCellInformation) : list item :=
  [IString (mcc_ (tdscdmaCell_base s)); IString (mnc_ (tdscdmaCell_base s)); IInt32 (tdscdmaCell_uarfcn_ s); IInt32 (cellId_ (tdscdmaCell_base s));
  IInt32 (tdscdmaCell_cpid_ s); IInt32 (tdscdmaCell_lac_ s); IWord64 (timeStamp_ (tdscdmaCell_base s)); IInt32 (signalLevel_ (tdscdmaCell_base s));
  IInt32 (signalIntensity_ (tdscdmaCell_base s)); IBool (isCamped_ (tdscdmaCell_base s))].
Definition CdmaCell_items (s : CdmaCellInformation) : list item :=
  [IInt32 (cdmaCell_baseId_ s); IInt32 (cdmaCell_latitude_ s); IInt32 (cdmaCell_longitude_ s); IInt32 (cdmaCell_nid_ s); IInt32 (cdmaCell_sid_ s);
  IWord64 (timeStamp_ (cdmaCell_base s)); IInt32 (signalLevel_ (cdmaCell_base s)); IInt32 (signalIntensity_ (cdmaCell_base s));
  IBool (isCamped_ (cdmaCell_base s))].
Definition NrCell_items (s : NrCellInformation) : list item :=
  [IString (mcc_ (nrCell_base s)); IString (mnc_ (nrCell_base s)); IInt32 (cellId_ (nrCell_base s)); IInt32 (nrCell_nrArfcn_ s); IInt32 (nrCell_pci_ s);
  IInt32 (nrCell_tac_ s); IWord64 (u64 (nrCell_nci_ s)); IInt32 (nrCell_rsrp_ s); IInt32 (nrCell_rsrq_ s); IWord64 (timeStamp_ (nrCell_base s));
  IInt32 (signalLevel_ (nrCell_base s)); IInt32 (signalIntensity_ (nrCell_base s)); IBool (isCamped_ (nrCell_base s))].
Definition cell_items (c : Cell) : list item :=
  IInt32 (GetNetworkType c) ::
  match c with
  | GsmCell c => GsmCell_items c
  | CdmaCell c => CdmaCell_items c
  | LteCell c => LteCell_items c
  | WcdmaCell c => WcdmaCell_items c
  | TdscdmaCell c => TdscdmaCell_items c
  | NrCell c => NrCell_items c
  end.

(** What reaches the other side: a CDMA cell loses the codes and the cell's number. *)
Definition received (c : Cell) : Cell :=
  match c with CdmaCell c => CdmaCell (CdmaCell_copy c) | c => c end.

(** [operator==] of the class, on two cells of the same class. *)
Definition cell_eq (a b : Cell) : bool :=
  match a, b with
  | GsmCell a, GsmCell b => GsmCell_eq a b
  | CdmaCell a, CdmaCell b => CdmaCell_eq a b
  | LteCell a, LteCell b => LteCell_eq a b
  | WcdmaCell a, WcdmaCell b => WcdmaCell_eq a b
  | TdscdmaCell a, TdscdmaCell b => TdscdmaCell_eq a b
  | NrCell a, NrCell b => NrCell_eq a b
  | _, _ => false
  end.

Section Parcels.
Context {P : Type} `{ParcelLaws P}.

Lemma Cell_writes (c : Cell) : cell_ok c -> writes (Marshalling c) (cell_items c).
Proof.
  unfold cell_ok, base_ok, is_i32. intros [(? & ? & ? & ?) Hc]. destruct c; cbn in *; unfold cell_items, is_i32 in *; destruct_and?;
    writes_items; done.
Qed.
Lemma GsmCell_reads c : reads (S := GsmCellInformation) GsmCell_ReadFromParcel (GsmCell_items c) (fun _ => c).
Proof. destruct c as [[] ]. reads_items; done. Qed.
Lemma CdmaCell_reads c : reads (S := CdmaCellInformation) CdmaCell_ReadFromParcel (CdmaCell_items c) (fun s => CdmaCell_assign s c).
Proof.
  destruct c as [[] ]. eapply reads_ext; [repeat (apply (reads_seq _ _ [_]); [reads_one|]); reads_one|]. intros [[] ]. done.
Qed.
Lemma LteCell_reads c : reads (S := LteCellInformation) LteCell_ReadFromParcel (LteCell_items c) (fun _ => c).
Proof. destruct c as [[] ]. reads_items; done. Qed.
Lemma WcdmaCell_reads c : reads (S := WcdmaCellInformation) WcdmaCell_ReadFromParcel (WcdmaCell_items c) (fun _ => c).
Proof. destruct c as [[] ]. reads_items; done. Qed.
Lemma TdscdmaCell_reads c : reads (S := TdscdmaCellInformation) TdscdmaCell_ReadFromParcel (TdscdmaCell_items c) (fun _ => c).
Proof. destruct c as [[] ]. reads_items; done. Qed.
Lemma NrCell_reads c : - 2 ^ 63 <= nrCell_nci_ c < 2 ^ 63 -> reads (S := NrCellInformation) NrCell_ReadFromParcel (NrCell_items c) (fun _ => c).
Proof.
  intros Hn. destruct c as [[] ]. cbn in Hn. eapply reads_const; [do 2 (apply (reads_seq _ _ [_]); [reads_one|])|].
  - apply (reads_seq _ _ [_; _; _; _; _; _; _]).
    + unfold NrCell_ReadIntFromParcel. repeat (apply (reads_seq _ _ [_]); [by reads_one|]). reads_one.
    + repeat (apply (reads_seq _ _ [_]); [reads_one|]). reads_one.
  - done.
Qed.


(** An object of the same class with its default members. *)
Definition default_like (c : Cell) : Cell :=
  match c with
  | GsmCell _ => GsmCell GsmCell_new
  | CdmaCell _ => CdmaCell CdmaCell_new
  | LteCell _ => LteCell LteCell_new
  | WcdmaCell _ => WcdmaCell WcdmaCell_new
  | TdscdmaCell _ => TdscdmaCell TdscdmaCell_new
  | NrCell _ => NrCell NrCell_new
  end.

Lemma reads_as {S T} (f : rstep P S) i u (wrap : S -> T) (g : rstep P T) :
  (forall s p, g (wrap s) p = let '(ok, s, p) := f s p in (ok, wrap s, p)) -> reads f i u ->
  forall s, (forall p rest, content p = i ++ rest -> exists p', g (wrap s) p = (true, wrap (u s), p') /\ content p' = rest) /\
    (forall p k, (k < length i)%nat -> content p = take k i -> (g (wrap s) p).1.1 = false).
Proof.
  intros G [F1 F2] s. split.
  - intros p rest C. destruct (F1 s p rest C) as (p' & E & C'). exists p'. by rewrite G, E.
  - intros p k Hk C. specialize (F2 s p k Hk C). rewrite G. by destruct (f s p) as [[[] ?] ?].
Qed.

Definition body_items (c : Cell) : list item := drop 1 (cell_items c).

(** Reading into a fresh object of the same class. *)
Lemma ReadFromParcel_default c : cell_ok c ->
  (forall p rest, content p = body_items c ++ rest ->
     exists p', ReadFromParcel (default_like c) p = (true, received c, p') /\ content p' = rest) /\
  (forall p k, (k < length (body_items c))%nat -> content p = take k (body_items c) -> (ReadFromParcel (default_like c) p).1.1 = false).
Proof.
  intros [_ Hc]. destruct c as [c|c|c|c|c|c].
  - exact (reads_as _ _ _ GsmCell _ (fun _ _ => eq_refl) (GsmCell_reads c) GsmCell_new).
  - exact (reads_as _ _ _ CdmaCell _ (fun _ _ => eq_refl) (CdmaCell_reads c) CdmaCell_new).
  - exact (reads_as _ _ _ LteCell _ (fun _ _ => eq_refl) (LteCell_reads c) LteCell_new).
  - exact (reads_as _ _ _ WcdmaCell _ (fun _ _ => eq_refl) (WcdmaCell_reads c) WcdmaCell_new).
  - exact (reads_as _ _ _ TdscdmaCell _ (fun _ _ => eq_refl) (TdscdmaCell_reads c) TdscdmaCell_new).
  - refine (reads_as _ _ _ NrCell _ (fun _ _ => eq_refl) (NrCell_reads c _) NrCell_new). cbn in Hc. tauto.
Qed.

Lemma Unmarshalling_reads c p :
  Unmarshalling c p = let '(ok, s, p) := ReadFromParcel (default_like c) p in if (ok : bool) then (Some s, p) else (None, p).
Proof.
  destruct c; cbn [Unmarshalling default_like ReadFromParcel].
  - unfold GsmCell_Unmarshalling. by destruct (GsmCell_ReadFromParcel GsmCell_new p) as [[[] ?] ?].
  - unfold CdmaCell_Unmarshalling. by destruct (CdmaCell_ReadFromParcel CdmaCell_new p) as [[[] ?] ?].
  - unfold LteCell_Unmarshalling. by destruct (LteCell_ReadFromParcel LteCell_new p) as [[[] ?] ?].
  - unfold WcdmaCell_Unmarshalling. by destruct (WcdmaCell_ReadFromParcel WcdmaCell_new p) as [[[] ?] ?].
  - unfold TdscdmaCell_Unmarshalling. by destruct (TdscdmaCell_ReadFromParcel TdscdmaCell_new p) as [[[] ?] ?].
  - unfold NrCell_Unmarshalling. by destruct (NrCell_ReadFromParcel NrCell_new p) as [[[] ?] ?].
Qed.

Lemma cell_eq_received c : cell_eq (received c) c = true.
Proof.
  destruct c; cbn [received cell_eq];
    unfold GsmCell_eq, CdmaCell_eq, LteCell_eq, WcdmaCell_eq, TdscdmaCell_eq, NrCell_eq, CdmaCell_copy, CdmaCell_copy_to; cbn;
    rewrite ?Z.eqb_refl; repeat (rewrite bool_decide_eq_true_2 by done); done.
Qed.

(** C38: a cell of any technology that was written to a parcel is read back by the class that the number in front of
    it names: the received cell is the cell that was sent, except that a CDMA cell arrives without its codes and
    its number, and compares equal to it by the class's [operator==]; the parcel is used up. A
    parcel that was cut short gives a null pointer. *)
Theorem cell_parcel_roundtrip c (p p' : P) :
  cell_ok c -> content p = [] -> Marshalling c p = (true, p') ->
  (exists q q', ReadInt32 p' = (Some (GetNetworkType c), q) /\ Unmarshalling c q = (Some (received c), q') /\ content q' = []) /\
  cell_eq (received c) c = true /\
  (forall q k, (S k < length (cell_items c))%nat -> content q = take k (drop 1 (content p')) -> (Unmarshalling c q).1 = None).
Proof.
  intros Hc E M. pose proof (Cell_writes c Hc p p' M) as C. rewrite E in C. cbn [app] in C.
  destruct (ReadFromParcel_default c Hc) as [R1 R2]. split; [|split; [apply cell_eq_received|]].
  - destruct (read_int32_law (GetNetworkType c) (body_items c) p') as (q & Eq & Cq); [by rewrite C|].
    destruct (R1 q []) as (q' & Er & Cr); [by rewrite Cq, app_nil_r|]. exists q, q'. by rewrite Unmarshalling_reads, Er.
  - intros q k Hk Cq. rewrite C in Cq. rewrite Unmarshalling_reads.
    assert (length (cell_items c) = S (length (body_items c))) as L by done.
    specialize (R2 q k ltac:(lia) Cq). by destruct (ReadFromParcel (default_like c) q) as [[[] ?] ?].
Qed.

End Parcels.

Lemma cell_parcel_roundtrip_witness :
  exists q q', ReadInt32 (P := list item) (cell_items (GsmCell (MkGsmCell (MkCell (str "460") (str "01") 77 5 (-80) 3 true) 9 2 512))) = (Some 1, q) /\
    Unmarshalling (GsmCell GsmCell_new) q =
      (Some (GsmCell (MkGsmCell (MkCell (str "460") (str "01") 77 5 (-80) 3 true) 9 2 512)), q') /\ content q' = [].
Proof.
  apply (cell_parcel_roundtrip (GsmCell (MkGsmCell (MkCell (str "460") (str "01") 77 5 (-80) 3 true) 9 2 512)) ([] : list item)).
  - vm_compute. intuition congruence.
  - reflexivity.
  - reflexivity.
Defined.

(** ** Network codes and comparison *)

Lemma mnc_encoding digits value :
  0 <= value < 2 ^ 28 -> 0 <= digits < 8 ->
  Z.shiftr (digits * 2 ^ 28 + value) MNC_DIGIT_OFFSET = digits /\
  i32 (Z.land (u32 (digits * 2 ^ 28 + value)) MNC_VALID_BIT) = value.
Proof.
  intros Hv Hd. unfold MNC_DIGIT_OFFSET, MNC_VALID_BIT. split.
  - rewrite Z.shiftr_div_pow2 by lia. symmetry. apply Z.div_unique with value; lia.
  - rewrite u32_small by (unfold is_u32; lia). change 0x0FFFFFFF with (Z.ones 28). rewrite Z.land_ones by lia.
    rewrite <- (Z.mod_unique _ (2 ^ 28) digits value) by lia. apply i32_small. unfold is_i32. lia.
Qed.

(** [Init] keeps the number of digits of a network code. A code of [digits] digits, encoded with the number of digits in
    the top four bits, is stored with exactly that many digits, leading zeros included, and when the
    value does not fit the previous code stays; a plain number up to 999 is printed as it is.
    The country code and the number of the cell are stored in each case. *)
Theorem Init_mnc_digits now mcc mnc cellId digits value c :
  (mnc <= 999 -> mnc_ (Init now mcc mnc cellId c) = to_string mnc) /\
  (mnc = digits * 2 ^ 28 + value -> 1 <= digits < 8 -> 0 <= value < 2 ^ 28 ->
     (zlen (to_string value) <= digits ->
        zlen (mnc_ (Init now mcc mnc cellId c)) = digits /\
        exists zeros, mnc_ (Init now mcc mnc cellId c) = replicate zeros "0"%char ++ to_string value) /\
     (digits < zlen (to_string value) -> mnc_ (Init now mcc mnc cellId c) = mnc_ c)) /\
  mcc_ (Init now mcc mnc cellId c) = to_string mcc /\ cellId_ (Init now mcc mnc cellId c) = cellId.
Proof.
  unfold Init, Init_mnc, MNC_INT_MAX. cbn [mnc_ mcc_ cellId_ stamp set_timeStamp set_cellId set_mcc]. split; [|split; [|done]].
  - intros Hm. destruct (Z.gtb_spec mnc 999); [lia|done].
  - intros -> Hd Hv. destruct (mnc_encoding digits value Hv ltac:(lia)) as [-> ->].
    destruct (Z.gtb_spec (digits * 2 ^ 28 + value) 999) as [_|]; [|lia]. unfold snprintf_padded.
    destruct (Z.leb_spec (zlen (to_string value)) digits); (split; [|try lia; done]); [|lia].
    intros _. cbn [mnc_ set_mnc]. split; [|by eexists]. unfold zlen in *. rewrite length_app, length_replicate. lia.
Qed.

Lemma Init_mnc_digits_witness : mnc_ (Init 0 460 (2 * 2 ^ 28 + 1) 7 CellInformation_new) = str "01".
Proof.
  destruct (Init_mnc_digits 0 460 (2 * 2 ^ 28 + 1) 7 2 1 CellInformation_new) as (_ & H & _).
  destruct (H eq_refl) as [H' _]; [lia|lia|]. destruct H' as [_ [zeros E]]; [vm_compute; discriminate|].
  reflexivity.
Defined.

(** a cell is equal to itself at another time: [operator==] leaves out the time stamp, except in the NR class, where two
    reports of the same cell at different times are different cells. *)
Theorem cell_eq_time c time :
  cell_eq (on_base (set_timeStamp time) c) c =
  match c with NrCell c => time =? timeStamp_ (nrCell_base c) | _ => true end.
Proof.
  destruct c as [[[] ]|[[] ]|[[] ]|[[] ]|[[] ]|[[] ]]; cbn [on_base cell_eq];
    unfold GsmCell_eq, CdmaCell_eq, LteCell_eq, WcdmaCell_eq, TdscdmaCell_eq, NrCell_eq; cbn;
    rewrite ?Z.eqb_refl; repeat (rewrite bool_decide_eq_true_2 by done); try done.
  cbn. by rewrite !andb_true_r.
Qed.
