(* ===== verification/Parcelables.v ===== *)
(** * Objects that travel between processes

    [frameworks/native/src/network_information.cpp], [nr_ssb_information.cpp], [cell_location.cpp],
    and [IccAccountInfo] and [DiallingNumbersInfo] of [interfaces/innerkits/include]: their members, accessors and parcel forms.
    Each has a lemma that says which items it appends and one that says that reading takes exactly those items. *)

From S2P Require Import Prelude CxxString Parcel.
Open Scope Z_scope.

(** [Str8ToStr16] and [Str16ToStr8] of c_utils. *)
Class StringEx : Type := { Str8ToStr16 : cstring -> u16string; Str16ToStr8 : u16string -> cstring }.

(** [unmarshalling read new]: the object if reading succeeded, otherwise a null pointer. *)
Definition unmarshalling {P S} (read : rstep P S) (new : S) (p : P) : option S * P :=
  let '(ok, s, p) := read new p in if (ok : bool) then (Some s, p) else (None, p).

(** ** NetworkInformation *)

Definition NETWORK_PLMN_STATE_UNKNOWN : Z := 0.
Definition NETWORK_GSM_OR_GPRS : Z := 0.

Record NetworkInformation : Type := MkNetworkInformation {
  networkPlmnState_ : Z;
  operatorShortName_ : cstring;
  operatorLongName_ : cstring;
  operatorNumeric_ : cstring;
  rat_ : Z;
  rscp_ : Z
}.
#[export] Instance NetworkInformation_eq_dec : EqDecision NetworkInformation.
Proof. solve_decision. Defined.
Definition NetworkInformation_new : NetworkInformation := MkNetworkInformation NETWORK_PLMN_STATE_UNKNOWN [] [] [] NETWORK_GSM_OR_GPRS 0.
Definition set_networkPlmnState_ (v : Z) (s : NetworkInformation) : NetworkInformation := MkNetworkInformation v (operatorShortName_ s) (operatorLongName_ s) (operatorNumeric_ s) (rat_ s) (rscp_ s).
Definition set_operatorShortName_ (v : cstring) (s : NetworkInformation) : NetworkInformation := MkNetworkInformation (networkPlmnState_ s) v (operatorLongName_ s) (operatorNumeric_ s) (rat_ s) (rscp_ s).
Definition set_operatorLongName_ (v : cstring) (s : NetworkInformation) : NetworkInformation := MkNetworkInformation (networkPlmnState_ s) (operatorShortName_ s) v (operatorNumeric_ s) (rat_ s) (rscp_ s).
Definition set_operatorNumeric_ (v : cstring) (s : NetworkInformation) : NetworkInformation := MkNetworkInformation (networkPlmnState_ s) (operatorShortName_ s) (operatorLongName_ s) v (rat_ s) (rscp_ s).
Definition set_rat_ (v : Z) (s : NetworkInformation) : NetworkInformation := MkNetworkInformation (networkPlmnState_ s) (operatorShortName_ s) (operatorLongName_ s) (operatorNumeric_ s) v (rscp_ s).
Definition set_rscp_ (v : Z) (s : NetworkInformation) : NetworkInformation := MkNetworkInformation (networkPlmnState_ s) (operatorShortName_ s) (operatorLongName_ s) (operatorNumeric_ s) (rat_ s) v.

Section NetworkInformation.
Context {P : Type} `{ParcelOps P} `{StringEx}.
Definition SetOperateInformation (operatorLongName operatorShortName operatorNumeric : cstring) (state rat : Z) (s : NetworkInformation) : NetworkInformation :=
  MkNetworkInformation state operatorShortName operatorLongName operatorNumeric rat (rscp_ s).
Definition SetOperateInformation_rscp (operatorLongName operatorShortName operatorNumeric : cstring) (state rat rscp : Z) (s : NetworkInformation) : NetworkInformation :=
  set_rscp_ rscp (SetOperateInformation operatorLongName operatorShortName operatorNumeric state rat s).
Definition GetNetworkState (s : NetworkInformation) : Z := networkPlmnState_ s.
Definition GetOperatorShortName (s : NetworkInformation) : cstring := operatorShortName_ s.
Definition GetOperatorLongName (s : NetworkInformation) : cstring := operatorLongName_ s.
Definition GetOperatorNumeric (s : NetworkInformation) : cstring := operatorNumeric_ s.
Definition GetRadioTech (s : NetworkInformation) : Z := rat_ s.
Definition GetSignalStrength (s : NetworkInformation) : Z := rscp_ s.
Definition NetworkInformation_ReadFromParcel : rstep P NetworkInformation :=
  read_or ReadString16 [] (fun v => set_operatorLongName_ (Str16ToStr8 v)) ;;r
  read_or ReadString16 [] (fun v => set_operatorShortName_ (Str16ToStr8 v)) ;;r
  read_or ReadString16 [] (fun v => set_operatorNumeric_ (Str16ToStr8 v)) ;;r
  read_into ReadInt32 set_networkPlmnState_ ;;r read_into ReadInt32 set_rat_ ;;r read_into ReadInt32 set_rscp_.
Definition NetworkInformation_Marshalling (s : NetworkInformation) : wstep P :=
  WriteString16 (Str8ToStr16 (operatorLongName_ s)) ;;w WriteString16 (Str8ToStr16 (operatorShortName_ s)) ;;w
  WriteString16 (Str8ToStr16 (operatorNumeric_ s)) ;;w WriteInt32 (networkPlmnState_ s) ;;w WriteInt32 (rat_ s) ;;w WriteInt32 (rscp_ s).
Definition NetworkInformation_Unmarshalling : P -> option NetworkInformation * P :=
  unmarshalling NetworkInformation_ReadFromParcel NetworkInformation_new.
End NetworkInformation.

(** ** IccAccountInfo *)

Record IccAccountInfo : Type := MkAccount {
  simId : Z;
  slotIndex : Z;
  isEsim : bool;
  isActive : bool;
  iccId : u16string;
  showName : u16string;
  showNumber : u16string;
  simLabelIndex : Z;
  operatorName : cstring
}.
#[export] Instance IccAccountInfo_eq_dec : EqDecision IccAccountInfo.
Proof. solve_decision. Defined.
Definition IccAccountInfo_new : IccAccountInfo := MkAccount 0 0 false false [] [] [] 0 [].
Definition set_simId (v : Z) (s : IccAccountInfo) : IccAccountInfo := MkAccount v (slotIndex s) (isEsim s) (isActive s) (iccId s) (showName s) (showNumber s) (simLabelIndex s) (operatorName s).
Definition set_slotIndex (v : Z) (s : IccAccountInfo) : IccAccountInfo := MkAccount (simId s) v (isEsim s) (isActive s) (iccId s) (showName s) (showNumber s) (simLabelIndex s) (operatorName s).
Definition set_isEsim (v : bool) (s : IccAccountInfo) : IccAccountInfo := MkAccount (simId s) (slotIndex s) v (isActive s) (iccId s) (showName s) (showNumber s) (simLabelIndex s) (operatorName s).
Definition set_isActive (v : bool) (s : IccAccountInfo) : IccAccountInfo := MkAccount (simId s) (slotIndex s) (isEsim s) v (iccId s) (showName s) (showNumber s) (simLabelIndex s) (operatorName s).
Definition set_iccId (v : u16string) (s : IccAccountInfo) : IccAccountInfo := MkAccount (simId s) (slotIndex s) (isEsim s) (isActive s) v (showName s) (showNumber s) (simLabelIndex s) (operatorName s).
Definition set_showName (v : u16string) (s : IccAccountInfo) : IccAccountInfo := MkAccount (simId s) (slotIndex s) (isEsim s) (isActive s) (iccId s) v (showNumber s) (simLabelIndex s) (operatorName s).
Definition set_showNumber (v : u16string) (s : IccAccountInfo) : IccAccountInfo := MkAccount (simId s) (slotIndex s) (isEsim s) (isActive s) (iccId s) (showName s) v (simLabelIndex s) (operatorName s).
Definition set_simLabelIndex (v : Z) (s : IccAccountInfo) : IccAccountInfo := MkAccount (simId s) (slotIndex s) (isEsim s) (isActive s) (iccId s) (showName s) (showNumber s) v (operatorName s).
Definition set_operatorName (v : cstring) (s : IccAccountInfo) : IccAccountInfo := MkAccount (simId s) (slotIndex s) (isEsim s) (isActive s) (iccId s) (showName s) (showNumber s) (simLabelIndex s) v.

Definition DEFAULT_SHOW_NAME : u16string := code <$> str "Card".
Definition DEFAULT_SHOW_NUMBER : u16string := [].
Definition DEFAULT_ICC_ID : u16string := [].

Section IccAccountInfo.
Context {P : Type} `{ParcelOps P}.
Definition IccAccountInfo_Init (simCardId slotId : Z) (s : IccAccountInfo) : IccAccountInfo :=
  MkAccount simCardId slotId false true DEFAULT_ICC_ID DEFAULT_SHOW_NAME DEFAULT_SHOW_NUMBER (simLabelIndex s) (operatorName s).
Definition SetIsEsim : bool -> IccAccountInfo -> IccAccountInfo := set_isEsim.
Definition SetIsActive : bool -> IccAccountInfo -> IccAccountInfo := set_isActive.
Definition SetIccId : u16string -> IccAccountInfo -> IccAccountInfo := set_iccId.
Definition SetShowName : u16string -> IccAccountInfo -> IccAccountInfo := set_showName.
Definition SetShowNumber : u16string -> IccAccountInfo -> IccAccountInfo := set_showNumber.
Definition SetSimLabelIndex : Z -> IccAccountInfo -> IccAccountInfo := set_simLabelIndex.
Definition SetOpoeratorName : cstring -> IccAccountInfo -> IccAccountInfo := set_operatorName.
Definition IccAccountInfo_Marshalling (s : IccAccountInfo) : wstep P :=
  WriteInt32 (simId s) ;;w WriteInt32 (slotIndex s) ;;w WriteBool (isEsim s) ;;w WriteBool (isActive s) ;;w WriteString16 (iccId s) ;;w
  WriteString16 (showName s) ;;w WriteString16 (showNumber s) ;;w WriteInt32 (simLabelIndex s) ;;w WriteString (operatorName s).
Definition IccAccountInfo_ReadFromParcel : rstep P IccAccountInfo :=
  read_if ReadInt32 set_simId ;;r read_if ReadInt32 set_slotIndex ;;r read_if ReadBool set_isEsim ;;r read_if ReadBool set_isActive ;;r
  read_if ReadString16 set_iccId ;;r read_if ReadString16 set_showName ;;r read_if ReadString16 set_showNumber ;;r
  read_if ReadInt32 set_simLabelIndex ;;r read_if ReadString set_operatorName.
Definition IccAccountInfo_UnMarshalling : P -> option IccAccountInfo * P :=
  unmarshalling IccAccountInfo_ReadFromParcel IccAccountInfo_new.
Definition IccAccountInfo_eq (a b : IccAccountInfo) : bool := (slotIndex a =? slotIndex b) && (simId a =? simId b).
End IccAccountInfo.

(** ** DiallingNumbersInfo *)

Definition EMPTY_INDEX : Z := 0.

Record DiallingNumbersInfo : Type := MkDialling {
  elementaryFileId_ : Z;
  index_ : Z;
  name_ : u16string;
  number_ : u16string;
  emails_ : list u16string;
  pin2_ : u16string
}.
#[export] Instance DiallingNumbersInfo_eq_dec : EqDecision DiallingNumbersInfo.
Proof. solve_decision. Defined.
Definition DiallingNumbersInfo_new : DiallingNumbersInfo := MkDialling 0 EMPTY_INDEX [] [] [] [].
Definition set_elementaryFileId_ (v : Z) (s : DiallingNumbersInfo) : DiallingNumbersInfo := MkDialling v (index_ s) (name_ s) (number_ s) (emails_ s) (pin2_ s).
Definition set_index_ (v : Z) (s : DiallingNumbersInfo) : DiallingNumbersInfo := MkDialling (elementaryFileId_ s) v (name_ s) (number_ s) (emails_ s) (pin2_ s).
Definition set_name_ (v : u16string) (s : DiallingNumbersInfo) : DiallingNumbersInfo := MkDialling (elementaryFileId_ s) (index_ s) v (number_ s) (emails_ s) (pin2_ s).
Definition set_number_ (v : u16string) (s : DiallingNumbersInfo) : DiallingNumbersInfo := MkDialling (elementaryFileId_ s) (index_ s) (name_ s) v (emails_ s) (pin2_ s).
Definition set_emails_ (v : list u16string) (s : DiallingNumbersInfo) : DiallingNumbersInfo := MkDialling (elementaryFileId_ s) (index_ s) (name_ s) (number_ s) v (pin2_ s).
Definition set_pin2_ (v : u16string) (s : DiallingNumbersInfo) : DiallingNumbersInfo := MkDialling (elementaryFileId_ s) (index_ s) (name_ s) (number_ s) (emails_ s) v.

Section DiallingNumbersInfo.
Context {P : Type} `{ParcelOps P}.
Definition DiallingNumbersInfo_record (efid recordNumber : Z) : DiallingNumbersInfo := MkDialling efid recordNumber [] [] [] [].
Definition DiallingNumbersInfo_full (efid recordNumber : Z) (alphaTag number : u16string) (emails : list u16string) : DiallingNumbersInfo :=
  MkDialling efid recordNumber alphaTag number emails [].
Definition DiallingNumbersInfo_named (efid recordNumber : Z) (alphaTag number : u16string) : DiallingNumbersInfo :=
  MkDialling efid recordNumber alphaTag number [] [].
(** The constructors from a name and a number build another, unnamed object and drop it. *)
Definition DiallingNumbersInfo_name (alphaTag number : u16string) : DiallingNumbersInfo :=
  let _ := DiallingNumbersInfo_named 0 0 alphaTag number in DiallingNumbersInfo_new.
Definition DiallingNumbersInfo_name_emails (alphaTag number : u16string) (emails : list u16string) : DiallingNumbersInfo :=
  let _ := DiallingNumbersInfo_full 0 0 alphaTag number emails in DiallingNumbersInfo_new.
Definition DiallingNumbersInfo_ReadFromParcel : rstep P DiallingNumbersInfo :=
  read_into ReadInt32 set_elementaryFileId_ ;;r read_into ReadInt32 set_index_ ;;r read_into ReadString16 set_name_ ;;r
  read_into ReadString16 set_number_ ;;r read_into ReadString16 set_pin2_ ;;r read_into ReadString16Vector set_emails_.
Definition DiallingNumbersInfo_Marshalling (s : DiallingNumbersInfo) : wstep P :=
  WriteInt32 (elementaryFileId_ s) ;;w WriteInt32 (index_ s) ;;w WriteString16 (name_ s) ;;w WriteString16 (number_ s) ;;w
  WriteString16 (pin2_ s) ;;w WriteString16Vector (emails_ s).
Definition DiallingNumbersInfo_UnMarshalling : P -> option DiallingNumbersInfo * P :=
  unmarshalling DiallingNumbersInfo_ReadFromParcel DiallingNumbersInfo_new.
Definition GetName (s : DiallingNumbersInfo) : u16string := name_ s.
Definition GetFileId (s : DiallingNumbersInfo) : Z := elementaryFileId_ s.
Definition GetIndex (s : DiallingNumbersInfo) : Z := index_ s.
Definition GetNumber (s : DiallingNumbersInfo) : u16string := number_ s.
Definition UpdateNumber (number : u16string) (s : DiallingNumbersInfo) : DiallingNumbersInfo := set_number_ number s.
Definition GetEmails (s : DiallingNumbersInfo) : list u16string := emails_ s.
Definition UpdateEmails (emails : list u16string) (s : DiallingNumbersInfo) : DiallingNumbersInfo := set_emails_ emails s.
Definition IsEmpty (s : DiallingNumbersInfo) : bool :=
  bool_decide (name_ s = []) && bool_decide (number_ s = []) && bool_decide (emails_ s = []).
End DiallingNumbersInfo.

(** ** NrSsbInformation *)

Definition SCELL_SSB_LIST : Z := 8.
Definition NBCELL_SSB_LIST : Z := 4.
Definition MAX_NBCELL_COUNT : Z := 4.

Record SsbInfo : Type := MkSsb {
  ssbId : Z;
  ssb_rsrp : Z
}.
#[export] Instance SsbInfo_eq_dec : EqDecision SsbInfo.
Proof. solve_decision. Defined.
Definition SsbInfo_new : SsbInfo := MkSsb 0 0.
Definition set_ssbId (v : Z) (s : SsbInfo) : SsbInfo := MkSsb v (ssb_rsrp s).
Definition set_ssb_rsrp (v : Z) (s : SsbInfo) : SsbInfo := MkSsb (ssbId s) v.

Record NeighboringCellSsbInformation : Type := MkNbCell {
  nb_pci : Z;
  nb_arfcn : Z;
  nb_rsrp : Z;
  nb_sinr : Z;
  ssbList : list SsbInfo
}.
#[export] Instance NeighboringCellSsbInformation_eq_dec : EqDecision NeighboringCellSsbInformation.
Proof. solve_decision. Defined.
Definition NeighboringCellSsbInformation_new : NeighboringCellSsbInformation := MkNbCell 0 0 0 0 [].
Definition set_nb_pci (v : Z) (s : NeighboringCellSsbInformation) : NeighboringCellSsbInformation := MkNbCell v (nb_arfcn s) (nb_rsrp s) (nb_sinr s) (ssbList s).
Definition set_nb_arfcn (v : Z) (s : NeighboringCellSsbInformation) : NeighboringCellSsbInformation := MkNbCell (nb_pci s) v (nb_rsrp s) (nb_sinr s) (ssbList s).
Definition set_nb_rsrp (v : Z) (s : NeighboringCellSsbInformation) : NeighboringCellSsbInformation := MkNbCell (nb_pci s) (nb_arfcn s) v (nb_sinr s) (ssbList s).
Definition set_nb_sinr (v : Z) (s : NeighboringCellSsbInformation) : NeighboringCellSsbInformation := MkNbCell (nb_pci s) (nb_arfcn s) (nb_rsrp s) v (ssbList s).
Definition set_ssbList (v : list SsbInfo) (s : NeighboringCellSsbInformation) : NeighboringCellSsbInformation := MkNbCell (nb_pci s) (nb_arfcn s) (nb_rsrp s) (nb_sinr s) v.

Record NrSsbInformation : Type := MkNrSsb {
  arfcn_ : Z;
  cid_ : Z;
  pci_ : Z;
  rsrp_ : Z;
  sinr_ : Z;
  timeAdvance_ : Z;
  sCellSsbList_ : list SsbInfo;
  nbCellCount_ : Z;
  nbCellSsbList_ : list NeighboringCellSsbInformation
}.
#[export] Instance NrSsbInformation_eq_dec : EqDecision NrSsbInformation.
Proof. solve_decision. Defined.
Definition NrSsbInformation_new : NrSsbInformation := MkNrSsb 0 0 0 0 0 0 [] 0 [].
Definition set_arfcn_ (v : Z) (s : NrSsbInformation) : NrSsbInformation := MkNrSsb v (cid_ s) (pci_ s) (rsrp_ s) (sinr_ s) (timeAdvance_ s) (sCellSsbList_ s) (nbCellCount_ s) (nbCellSsbList_ s).
Definition set_cid_ (v : Z) (s : NrSsbInformation) : NrSsbInformation := MkNrSsb (arfcn_ s) v (pci_ s) (rsrp_ s) (sinr_ s) (timeAdvance_ s) (sCellSsbList_ s) (nbCellCount_ s) (nbCellSsbList_ s).
Definition set_pci_ (v : Z) (s : NrSsbInformation) : NrSsbInformation := MkNrSsb (arfcn_ s) (cid_ s) v (rsrp_ s) (sinr_ s) (timeAdvance_ s) (sCellSsbList_ s) (nbCellCount_ s) (nbCellSsbList_ s).
Definition set_rsrp_ (v : Z) (s : NrSsbInformation) : NrSsbInformation := MkNrSsb (arfcn_ s) (cid_ s) (pci_ s) v (sinr_ s) (timeAdvance_ s) (sCellSsbList_ s) (nbCellCount_ s) (nbCellSsbList_ s).
Definition set_sinr_ (v : Z) (s : NrSsbInformation) : NrSsbInformation := MkNrSsb (arfcn_ s) (cid_ s) (pci_ s) (rsrp_ s) v (timeAdvance_ s) (sCellSsbList_ s) (nbCellCount_ s) (nbCellSsbList_ s).
Definition set_timeAdvance_ (v : Z) (s : NrSsbInformation) : NrSsbInformation := MkNrSsb (arfcn_ s) (cid_ s) (pci_ s) (rsrp_ s) (sinr_ s) v (sCellSsbList_ s) (nbCellCount_ s) (nbCellSsbList_ s).
Definition set_sCellSsbList_ (v : list SsbInfo) (s : NrSsbInformation) : NrSsbInformation := MkNrSsb (arfcn_ s) (cid_ s) (pci_ s) (rsrp_ s) (sinr_ s) (timeAdvance_ s) v (nbCellCount_ s) (nbCellSsbList_ s).
Definition set_nbCellCount_ (v : Z) (s : NrSsbInformation) : NrSsbInformation := MkNrSsb (arfcn_ s) (cid_ s) (pci_ s) (rsrp_ s) (sinr_ s) (timeAdvance_ s) (sCellSsbList_ s) v (nbCellSsbList_ s).
Definition set_nbCellSsbList_ (v : list NeighboringCellSsbInformation) (s : NrSsbInformation) : NrSsbInformation := MkNrSsb (arfcn_ s) (cid_ s) (pci_ s) (rsrp_ s) (sinr_ s) (timeAdvance_ s) (sCellSsbList_ s) (nbCellCount_ s) v.

Section NrSsbInformation.
Context {P : Type} `{ParcelOps P}.

(** Writing steps that index vectors: undefined when an index is outside. *)
Definition owstep : Type := P -> outcome (bool * P).
Definition ow (f : wstep P) : owstep := fun p => Ret (f p).
Definition oseq (f g : owstep) : owstep := fun p => '(ok, p) ← f p; if (ok : bool) then g p else Ret (false, p).
Definition ow_get {A} (v : list A) (i : Z) (f : A -> owstep) : owstep := fun p => a ← vec_get v i; f a p.
Fixpoint ow_for (n : nat) (i : Z) (f : Z -> owstep) : owstep :=
  match n with O => ow wdone | S m => oseq (f i) (ow_for m (i + 1) f) end.

Definition write_ssb (s : SsbInfo) : wstep P := WriteInt32 (ssbId s) ;;w WriteInt32 (ssb_rsrp s).
Definition MarshallingNbCellSsbId (s : NrSsbInformation) : owstep :=
  if nbCellCount_ s >? MAX_NBCELL_COUNT then fun p => Ret (false, p) else
  oseq (ow (WriteInt32 (nbCellCount_ s))) (ow_for (Z.to_nat (nbCellCount_ s)) 0 (fun i =>
    ow_get (nbCellSsbList_ s) i (fun c =>
      oseq (ow (WriteInt32 (nb_pci c) ;;w WriteInt32 (nb_arfcn c) ;;w WriteInt32 (nb_rsrp c) ;;w WriteInt32 (nb_sinr c)))
        (ow_for (Z.to_nat NBCELL_SSB_LIST) 0 (fun j => ow_get (ssbList c) j (fun b => ow (write_ssb b))))))).
Definition NrSsb_Marshalling (s : NrSsbInformation) : owstep :=
  oseq (ow (WriteInt32 (arfcn_ s) ;;w WriteInt64 (cid_ s) ;;w WriteInt32 (pci_ s) ;;w WriteInt32 (rsrp_ s) ;;w WriteInt32 (sinr_ s) ;;w
      WriteInt32 (timeAdvance_ s)))
    (oseq (ow (write_all write_ssb (take (Z.to_nat SCELL_SSB_LIST) (sCellSsbList_ s)))) (MarshallingNbCellSsbId s)).

Definition read_ssb : rstep P SsbInfo := read_into ReadInt32 set_ssbId ;;r read_into ReadInt32 set_ssb_rsrp.
(** Read a local object from its default, then use it. *)
Definition read_local {L S} (new : L) (read : rstep P L) (use : L -> S -> S) : rstep P S :=
  fun s p => let '(ok, l, p) := read new p in if (ok : bool) then (true, use l s, p) else (false, s, p).
Definition read_nb_cell : rstep P NeighboringCellSsbInformation :=
  read_into ReadInt32 set_nb_pci ;;r read_into ReadInt32 set_nb_arfcn ;;r read_into ReadInt32 set_nb_rsrp ;;r read_into ReadInt32 set_nb_sinr ;;r
  read_times (Z.to_nat NBCELL_SSB_LIST) (read_local SsbInfo_new read_ssb (fun b c => set_ssbList (ssbList c ++ [b]) c)).
Definition ReadFromParcelForNbCell : rstep P NrSsbInformation :=
  read_into ReadInt32 (fun v => set_nbCellCount_ (if v >? MAX_NBCELL_COUNT then MAX_NBCELL_COUNT else v)) ;;r
  (fun s => read_times (Z.to_nat (nbCellCount_ s))
    (read_local NeighboringCellSsbInformation_new read_nb_cell (fun c s => set_nbCellSsbList_ (nbCellSsbList_ s ++ [c]) s)) s).
Definition NrSsb_ReadFromParcel : rstep P NrSsbInformation :=
  read_into ReadInt32 set_arfcn_ ;;r read_into ReadInt64 set_cid_ ;;r read_into ReadInt32 set_pci_ ;;r read_into ReadInt32 set_rsrp_ ;;r
  read_into ReadInt32 set_sinr_ ;;r read_into ReadInt32 set_timeAdvance_ ;;r
  read_times (Z.to_nat SCELL_SSB_LIST) (read_local SsbInfo_new read_ssb (fun b s => set_sCellSsbList_ (sCellSsbList_ s ++ [b]) s)) ;;r
  ReadFromParcelForNbCell.

Definition SetSsbBaseParam (arfcn cid pci rsrp sinr timeAdvance : Z) (s : NrSsbInformation) : NrSsbInformation :=
  MkNrSsb arfcn cid pci rsrp sinr timeAdvance (sCellSsbList_ s) (nbCellCount_ s) (nbCellSsbList_ s).
Definition SetSCellSsbList (l : list SsbInfo) (s : NrSsbInformation) : NrSsbInformation :=
  set_sCellSsbList_ ((fun info => MkSsb (ssbId info) (ssb_rsrp info)) <$> l) s.
(** The first [n] elements from index [i], copied one by one. *)
Fixpoint copy_nb_cells (n : nat) (i : Z) (l : list NeighboringCellSsbInformation) : outcome (list NeighboringCellSsbInformation) :=
  match n with
  | O => Ret []
  | S m =>
      c ← vec_get l i; t ← copy_nb_cells m (i + 1) l;
      Ret (MkNbCell (nb_pci c) (nb_arfcn c) (nb_rsrp c) (nb_sinr c) ((fun info => MkSsb (ssbId info) (ssb_rsrp info)) <$> ssbList c) :: t)
  end.
Definition SetNbCellSsbList (nbCellCount : Z) (l : list NeighboringCellSsbInformation) (s : NrSsbInformation) : outcome NrSsbInformation :=
  let count := if nbCellCount >? MAX_NBCELL_COUNT then MAX_NBCELL_COUNT else nbCellCount in
  cells ← copy_nb_cells (Z.to_nat count) 0 l; Ret (set_nbCellSsbList_ cells (set_nbCellCount_ count s)).
Definition GetArfcn (s : NrSsbInformation) : Z := arfcn_ s.
Definition GetCid (s : NrSsbInformation) : Z := cid_ s.
Definition GetPci (s : NrSsbInformation) : Z := pci_ s.
Definition GetRsrp (s : NrSsbInformation) : Z := rsrp_ s.
Definition GetSinr (s : NrSsbInformation) : Z := sinr_ s.
Definition GetTimeAdvance (s : NrSsbInformation) : Z := timeAdvance_ s.
Definition GetNbCellCount (s : NrSsbInformation) : Z := nbCellCount_ s.
Definition GetSCellSsbIdList (s : NrSsbInformation) (out : list SsbInfo) : list SsbInfo :=
  out ++ ((fun info => MkSsb (ssbId info) (ssb_rsrp info)) <$> sCellSsbList_ s).
Definition GetNbCellSsbIdList (s : NrSsbInformation) (out : list NeighboringCellSsbInformation) : outcome (list NeighboringCellSsbInformation) :=
  cells ← copy_nb_cells (Z.to_nat (nbCellCount_ s)) 0 (nbCellSsbList_ s); Ret (out ++ cells).
End NrSsbInformation.

(** ** CellLocation *)

Definition LOCATION_TYPE_GSM : Z := 1.
Definition LOCATION_TYPE_CDMA : Z := 2.

Record GsmCellLocation : Type := MkGsmLocation {
  gsm_timeStamp_ : Z;
  gsm_cellId_ : Z;
  gsm_lac_ : Z;
  gsm_psc_ : Z
}.
#[export] Instance GsmCellLocation_eq_dec : EqDecision GsmCellLocation.
Proof. solve_decision. Defined.
Definition GsmCellLocation_new : GsmCellLocation := MkGsmLocation 0 0 0 0.
Definition set_gsm_timeStamp_ (v : Z) (s : GsmCellLocation) : GsmCellLocation := MkGsmLocation v (gsm_cellId_ s) (gsm_lac_ s) (gsm_psc_ s).
Definition set_gsm_cellId_ (v : Z) (s : GsmCellLocation) : GsmCellLocation := MkGsmLocation (gsm_timeStamp_ s) v (gsm_lac_ s) (gsm_psc_ s).
Definition set_gsm_lac_ (v : Z) (s : GsmCellLocation) : GsmCellLocation := MkGsmLocation (gsm_timeStamp_ s) (gsm_cellId_ s) v (gsm_psc_ s).
Definition set_gsm_psc_ (v : Z) (s : GsmCellLocation) : GsmCellLocation := MkGsmLocation (gsm_timeStamp_ s) (gsm_cellId_ s) (gsm_lac_ s) v.

Record CdmaCellLocation : Type := MkCdmaLocation {
  cdma_timeStamp_ : Z;
  cdma_baseId_ : Z;
  cdma_latitude_ : Z;
  cdma_longitude_ : Z;
  cdma_nid_ : Z;
  cdma_sid_ : Z
}.
#[export] Instance CdmaCellLocation_eq_dec : EqDecision CdmaCellLocation.
Proof. solve_decision. Defined.
Definition CdmaCellLocation_new : CdmaCellLocation := MkCdmaLocation 0 0 0 0 0 0.
Definition set_cdma_timeStamp_ (v : Z) (s : CdmaCellLocation) : CdmaCellLocation := MkCdmaLocation v (cdma_baseId_ s) (cdma_latitude_ s) (cdma_longitude_ s) (cdma_nid_ s) (cdma_sid_ s).
Definition set_cdma_baseId_ (v : Z) (s : CdmaCellLocation) : CdmaCellLocation := MkCdmaLocation (cdma_timeStamp_ s) v (cdma_latitude_ s) (cdma_longitude_ s) (cdma_nid_ s) (cdma_sid_ s).
Definition set_cdma_latitude_ (v : Z) (s : CdmaCellLocation) : CdmaCellLocation := MkCdmaLocation (cdma_timeStamp_ s) (cdma_baseId_ s) v (cdma_longitude_ s) (cdma_nid_ s) (cdma_sid_ s).
Definition set_cdma_longitude_ (v : Z) (s : CdmaCellLocation) : CdmaCellLocation := MkCdmaLocation (cdma_timeStamp_ s) (cdma_baseId_ s) (cdma_latitude_ s) v (cdma_nid_ s) (cdma_sid_ s).
Definition set_cdma_nid_ (v : Z) (s : CdmaCellLocation) : CdmaCellLocation := MkCdmaLocation (cdma_timeStamp_ s) (cdma_baseId_ s) (cdma_latitude_ s) (cdma_longitude_ s) v (cdma_sid_ s).
Definition set_cdma_sid_ (v : Z) (s : CdmaCellLocation) : CdmaCellLocation := MkCdmaLocation (cdma_timeStamp_ s) (cdma_baseId_ s) (cdma_latitude_ s) (cdma_longitude_ s) (cdma_nid_ s) v.

Section CellLocation.
Context {P : Type} `{ParcelOps P}.
Definition GsmCellLocation_Marshalling (s : GsmCellLocation) : wstep P :=
  WriteInt32 LOCATION_TYPE_GSM ;;w WriteInt32 (gsm_cellId_ s) ;;w WriteInt32 (gsm_lac_ s) ;;w WriteInt32 (gsm_psc_ s) ;;w WriteInt64 (gsm_timeStamp_ s).
Definition GsmCellLocation_ReadFromParcel : rstep P GsmCellLocation :=
  read_into ReadInt32 set_gsm_cellId_ ;;r read_into ReadInt32 set_gsm_lac_ ;;r read_into ReadInt32 set_gsm_psc_ ;;r read_into ReadUint64 set_gsm_timeStamp_.
Definition GsmCellLocation_Unmarshalling : P -> option GsmCellLocation * P := unmarshalling GsmCellLocation_ReadFromParcel GsmCellLocation_new.
(** [now] is [time(0)]. *)
Definition GsmCellLocation_SetGsmParam (now cellId lac psc : Z) (s : GsmCellLocation) : GsmCellLocation := MkGsmLocation (u64 now) cellId lac psc.
Definition CdmaCellLocation_Marshalling (s : CdmaCellLocation) : wstep P :=
  WriteInt32 LOCATION_TYPE_CDMA ;;w WriteInt32 (cdma_baseId_ s) ;;w WriteInt32 (cdma_latitude_ s) ;;w WriteInt32 (cdma_longitude_ s) ;;w
  WriteInt32 (cdma_nid_ s) ;;w WriteInt32 (cdma_sid_ s) ;;w WriteUint64 (cdma_timeStamp_ s).
Definition CdmaCellLocation_ReadFromParcel : rstep P CdmaCellLocation :=
  read_into ReadInt32 set_cdma_baseId_ ;;r read_into ReadInt32 set_cdma_latitude_ ;;r read_into ReadInt32 set_cdma_longitude_ ;;r
  read_into ReadInt32 set_cdma_nid_ ;;r read_into ReadInt32 set_cdma_sid_ ;;r read_into ReadUint64 set_cdma_timeStamp_.
Definition CdmaCellLocation_Unmarshalling : P -> option CdmaCellLocation * P := unmarshalling CdmaCellLocation_ReadFromParcel CdmaCellLocation_new.
Definition CdmaCellLocation_SetCdmaParam (now baseId latitude longitude nid sid : Z) (s : CdmaCellLocation) : CdmaCellLocation :=
  MkCdmaLocation (u64 now) baseId latitude longitude nid sid.
End CellLocation.

(** * Theorems *)

(** ** What is written and what reading takes *)

Section Forms.
Context {P : Type} `{ParcelLaws P} `{!Roomy P}.

Lemma unmarshalling_takes {S} (read : rstep P S) new items v (p : P) rest :
  takes read items (fun _ => v) -> content p = items ++ rest ->
  exists p', unmarshalling read new p = (Some v, p') /\ content p' = rest.
Proof. intros T C. destruct (T new p rest C) as (p' & E & C'). exists p'. unfold unmarshalling. by rewrite E. Qed.

Context `{StringEx}.
Definition NetworkInformation_items (s : NetworkInformation) : list item :=
  [IString16 (Str8ToStr16 (operatorLongName_ s)); IString16 (Str8ToStr16 (operatorShortName_ s)); IString16 (Str8ToStr16 (operatorNumeric_ s));
   IInt32 (i32 (networkPlmnState_ s)); IInt32 (i32 (rat_ s)); IInt32 (i32 (rscp_ s))].
(** Integers in range, names that survive the conversion to UTF-16 and back. *)
Definition NetworkInformation_ok (s : NetworkInformation) : Prop :=
  is_i32 (networkPlmnState_ s) /\ is_i32 (rat_ s) /\ is_i32 (rscp_ s) /\
  Str16ToStr8 (Str8ToStr16 (operatorLongName_ s)) = operatorLongName_ s /\
  Str16ToStr8 (Str8ToStr16 (operatorShortName_ s)) = operatorShortName_ s /\
  Str16ToStr8 (Str8ToStr16 (operatorNumeric_ s)) = operatorNumeric_ s.
Lemma NetworkInformation_appends s : appends (NetworkInformation_Marshalling s) (NetworkInformation_items s).
Proof. unfold NetworkInformation_Marshalling, NetworkInformation_items. appends_items. Qed.
Lemma NetworkInformation_takes s :
  NetworkInformation_ok s -> takes (S := NetworkInformation) NetworkInformation_ReadFromParcel (NetworkInformation_items s) (fun _ => s).
Proof.
  intros (? & ? & ? & E1 & E2 & E3). eapply takes_const; [unfold NetworkInformation_ReadFromParcel, NetworkInformation_items; takes_items|].
  intros []. destruct s. cbn in *. rewrite E1, E2, E3, !i32_small by done. done.
Qed.

Definition IccAccountInfo_items (s : IccAccountInfo) : list item :=
  [IInt32 (i32 (simId s)); IInt32 (i32 (slotIndex s)); IBool (isEsim s); IBool (isActive s); IString16 (iccId s); IString16 (showName s);
   IString16 (showNumber s); IInt32 (i32 (simLabelIndex s)); IString (operatorName s)].
Definition IccAccountInfo_ok (s : IccAccountInfo) : Prop := is_i32 (simId s) /\ is_i32 (slotIndex s) /\ is_i32 (simLabelIndex s).
Lemma IccAccountInfo_appends s : appends (IccAccountInfo_Marshalling s) (IccAccountInfo_items s).
Proof. unfold IccAccountInfo_Marshalling, IccAccountInfo_items. appends_items. Qed.
Lemma IccAccountInfo_takes s :
  IccAccountInfo_ok s -> takes (S := IccAccountInfo) IccAccountInfo_ReadFromParcel (IccAccountInfo_items s) (fun _ => s).
Proof.
  intros (? & ? & ?). eapply takes_const; [unfold IccAccountInfo_ReadFromParcel, IccAccountInfo_items; takes_items|].
  intros []. destruct s. cbn in *. rewrite !i32_small by done. done.
Qed.

Definition DiallingNumbersInfo_items (s : DiallingNumbersInfo) : list item :=
  [IInt32 (i32 (elementaryFileId_ s)); IInt32 (i32 (index_ s)); IString16 (name_ s); IString16 (number_ s); IString16 (pin2_ s);
   IString16Vector (emails_ s)].
Definition DiallingNumbersInfo_ok (s : DiallingNumbersInfo) : Prop := is_i32 (elementaryFileId_ s) /\ is_i32 (index_ s).
Lemma DiallingNumbersInfo_appends s : appends (DiallingNumbersInfo_Marshalling s) (DiallingNumbersInfo_items s).
Proof. unfold DiallingNumbersInfo_Marshalling, DiallingNumbersInfo_items. appends_items. Qed.
Lemma DiallingNumbersInfo_takes s :
  DiallingNumbersInfo_ok s -> takes (S := DiallingNumbersInfo) DiallingNumbersInfo_ReadFromParcel (DiallingNumbersInfo_items s) (fun _ => s).
Proof.
  intros (? & ?). eapply takes_const; [unfold DiallingNumbersInfo_ReadFromParcel, DiallingNumbersInfo_items; takes_items|].
  intros []. destruct s. cbn in *. rewrite !i32_small by done. done.
Qed.

(** *** NrSsbInformation *)

Definition ssb_items (b : SsbInfo) : list item := [IInt32 (i32 (ssbId b)); IInt32 (i32 (ssb_rsrp b))].
Definition nb_items (c : NeighboringCellSsbInformation) : list item :=
  [IInt32 (i32 (nb_pci c)); IInt32 (i32 (nb_arfcn c)); IInt32 (i32 (nb_rsrp c)); IInt32 (i32 (nb_sinr c))] ++ (ssbList c ≫= ssb_items).
Definition NrSsb_items (s : NrSsbInformation) : list item :=
  [IInt32 (i32 (arfcn_ s)); IWord64 (u64 (cid_ s)); IInt32 (i32 (pci_ s)); IInt32 (i32 (rsrp_ s)); IInt32 (i32 (sinr_ s)); IInt32 (i32 (timeAdvance_ s))] ++
  (sCellSsbList_ s ≫= ssb_items) ++ [IInt32 (nbCellCount_ s)] ++ (nbCellSsbList_ s ≫= nb_items).

Definition ssb_ok (b : SsbInfo) : Prop := is_i32 (ssbId b) /\ is_i32 (ssb_rsrp b).
Definition nb_ok (c : NeighboringCellSsbInformation) : Prop :=
  is_i32 (nb_pci c) /\ is_i32 (nb_arfcn c) /\ is_i32 (nb_rsrp c) /\ is_i32 (nb_sinr c) /\ Forall ssb_ok (ssbList c) /\ zlen (ssbList c) = NBCELL_SSB_LIST.
(** The lists are as long as the fixed counts say; integers in range. *)
Definition NrSsb_ok (s : NrSsbInformation) : Prop :=
  (is_i32 (arfcn_ s) /\ - 2 ^ 63 <= cid_ s < 2 ^ 63 /\ is_i32 (pci_ s) /\ is_i32 (rsrp_ s) /\ is_i32 (sinr_ s) /\ is_i32 (timeAdvance_ s)) /\
  (Forall ssb_ok (sCellSsbList_ s) /\ zlen (sCellSsbList_ s) = SCELL_SSB_LIST) /\
  (Forall nb_ok (nbCellSsbList_ s) /\ zlen (nbCellSsbList_ s) = nbCellCount_ s /\ nbCellCount_ s <= MAX_NBCELL_COUNT).

Definition oappends (f : owstep (P := P)) (items : list item) : Prop :=
  forall p, exists p', f p = Ret (true, p') /\ content p' = content p ++ items.

Lemma oappends_ow f i : appends f i -> oappends (ow f) i.
Proof. intros Hf p. destruct (Hf p) as (p' & E & C). exists p'. unfold ow. by rewrite E. Qed.
Lemma oappends_seq f g i j : oappends f i -> oappends g j -> oappends (oseq f g) (i ++ j).
Proof.
  intros Hf Hg p. destruct (Hf p) as (q & Ef & Cf). destruct (Hg q) as (r & Eg & Cg). exists r. unfold oseq. rewrite Ef.
  cbn [mbind outcome_bind]. split; [done|]. by rewrite Cg, Cf, app_assoc.
Qed.
Lemma oappends_for {A} (F : A -> owstep) items (l pre : list A) :
  Forall (fun a => oappends (F a) (items a)) l ->
  oappends (ow_for (length l) (zlen pre) (fun i => ow_get (pre ++ l) i F)) (l ≫= items).
Proof.
  intros Hl. revert pre. induction Hl as [|a l Ha Hl IH]; intros pre; [apply oappends_ow, appends_done|].
  rewrite bind_cons. cbn [ow_for length]. apply oappends_seq.
  - intros p. unfold ow_get. rewrite vec_get_app. cbn [mbind outcome_bind]. apply Ha.
  - specialize (IH (pre ++ [a])). rewrite <- app_assoc in IH. cbn [app] in IH.
    replace (zlen pre + 1) with (zlen (pre ++ [a])) by by_zlen. exact IH.
Qed.

Lemma write_ssb_appends b : appends (write_ssb b) (ssb_items b).
Proof. unfold write_ssb, ssb_items. appends_items. Qed.

Lemma NrSsb_appends s : NrSsb_ok s -> oappends (NrSsb_Marshalling s) (NrSsb_items s).
Proof.
  intros (Hi & [Hb Lb] & Hn & Ln & Hc). unfold NrSsb_Marshalling, NrSsb_items. apply oappends_seq; [|apply oappends_seq].
  - apply oappends_ow. appends_items.
  - apply oappends_ow. rewrite take_ge by (unfold SCELL_SSB_LIST, zlen in *; lia). apply appends_all.
    eapply Forall_impl; [exact Hb|]. intros b _. apply write_ssb_appends.
  - unfold MarshallingNbCellSsbId. destruct (Z.gtb_spec (nbCellCount_ s) MAX_NBCELL_COUNT); [lia|]. apply oappends_seq.
    + apply oappends_ow. eapply appends_eq; [apply appends_int32|]. rewrite i32_small; [done|].
      unfold is_i32, MAX_NBCELL_COUNT, zlen in *. lia.
    + replace (Z.to_nat (nbCellCount_ s)) with (length (nbCellSsbList_ s)) by (unfold zlen in Ln; lia).
      apply (oappends_for _ nb_items _ []). eapply Forall_impl; [exact Hn|].
      intros c (_ & _ & _ & _ & Hs & Ls). unfold nb_items. apply oappends_seq; [apply oappends_ow; appends_items|].
      replace (Z.to_nat NBCELL_SSB_LIST) with (length (ssbList c)) by (unfold zlen in Ls; lia).
      apply (oappends_for _ ssb_items _ []). eapply Forall_impl; [exact Hs|]. intros b _. apply oappends_ow, write_ssb_appends.
Qed.

Definition takes_from {L} (new : L) (read : rstep P L) (items : list item) (l : L) : Prop :=
  forall p rest, content p = items ++ rest -> exists p', read new p = (true, l, p') /\ content p' = rest.
Lemma takes_takes_from {L} (new : L) (read : rstep P L) items u l : takes read items u -> u new = l -> takes_from new read items l.
Proof. intros T <- p rest. apply T. Qed.
Lemma takes_local {L S} (new : L) (read : rstep P L) (use : L -> S -> S) items l :
  takes_from new read items l -> takes (read_local new read use) items (use l).
Proof. intros T s p rest C. destruct (T p rest C) as (p' & E & C'). exists p'. unfold read_local. by rewrite E. Qed.

(** Reading a vector into a member, element by element at the end. *)
Lemma takes_vector {L S} (new : L) (read : rstep P L) (get : S -> list L) (set : list L -> S -> S) items l :
  (forall s, set (get s) s = s) -> (forall v s, get (set v s) = v) -> (forall v w s, set v (set w s) = set v s) ->
  Forall (fun a => takes_from new read (items a) a) l ->
  takes (read_times (length l) (read_local new read (fun a s => set (get s ++ [a]) s))) (l ≫= items) (fun s => set (get s ++ l) s).
Proof.
  intros G1 G2 G3 Hl. eapply takes_ext; [apply (takes_times _ items (fun a s => set (get s ++ [a]) s))|].
  - eapply Forall_impl; [exact Hl|]. intros a T. exact (takes_local new read (fun a s => set (get s ++ [a]) s) _ a T).
  - intros s. revert s. clear Hl. induction l as [|a l IH]; intros s; cbn; [by rewrite app_nil_r, G1|].
    by rewrite IH, G2, G3, <- app_assoc.
Qed.

Lemma read_ssb_takes b : ssb_ok b -> takes_from SsbInfo_new read_ssb (ssb_items b) b.
Proof.
  intros [? ?]. apply (takes_takes_from _ _ _ (fun _ => b)); [|done]. eapply takes_const; [unfold read_ssb, ssb_items; takes_items|]. intros []. destruct b. cbn in *. by rewrite !i32_small.
Qed.
Lemma read_nb_cell_takes c : nb_ok c -> takes_from NeighboringCellSsbInformation_new read_nb_cell (nb_items c) c.
Proof.
  intros (? & ? & ? & ? & Hs & Ls).
  apply (takes_takes_from _ _ _ (fun s => MkNbCell (nb_pci c) (nb_arfcn c) (nb_rsrp c) (nb_sinr c) (ssbList s ++ ssbList c))); [|by destruct c].
  unfold read_nb_cell, nb_items. eapply takes_ext.
  - do 4 (apply (takes_seq _ _ [_]); [solve [eauto with parcel]|]).
    replace (Z.to_nat NBCELL_SSB_LIST) with (length (ssbList c)) by (unfold zlen in Ls; lia).
    apply (takes_vector SsbInfo_new read_ssb ssbList set_ssbList ssb_items); [by intros []|done|done|].
    eapply Forall_impl; [exact Hs|]. apply read_ssb_takes.
  - intros []. destruct c. cbn in *. by rewrite !i32_small.
Qed.

Lemma ReadFromParcelForNbCell_takes s : Forall nb_ok (nbCellSsbList_ s) -> zlen (nbCellSsbList_ s) = nbCellCount_ s -> nbCellCount_ s <= MAX_NBCELL_COUNT ->
  takes ReadFromParcelForNbCell ([IInt32 (nbCellCount_ s)] ++ (nbCellSsbList_ s ≫= nb_items))
    (fun s0 => set_nbCellSsbList_ (nbCellSsbList_ s0 ++ nbCellSsbList_ s) (set_nbCellCount_ (nbCellCount_ s) s0)).
Proof.
  intros Hn Ln Hc s0 p rest C. unfold ReadFromParcelForNbCell, rseq, read_into.
  destruct (read_int32_law (nbCellCount_ s) _ p C) as (q & -> & Cq). destruct (Z.gtb_spec (nbCellCount_ s) MAX_NBCELL_COUNT); [lia|].
  cbn [nbCellCount_ set_nbCellCount_]. replace (Z.to_nat (nbCellCount_ s)) with (length (nbCellSsbList_ s)) by (unfold zlen in Ln; lia).
  assert (takes (read_times (length (nbCellSsbList_ s)) (read_local NeighboringCellSsbInformation_new read_nb_cell
    (fun c s => set_nbCellSsbList_ (nbCellSsbList_ s ++ [c]) s))) (nbCellSsbList_ s ≫= nb_items)
    (fun s0 => set_nbCellSsbList_ (nbCellSsbList_ s0 ++ nbCellSsbList_ s) s0)) as T.
  { apply (takes_vector _ _ nbCellSsbList_ set_nbCellSsbList_); [by intros []|done|done|]. eapply Forall_impl; [exact Hn|]. apply read_nb_cell_takes. }
  exact (T (set_nbCellCount_ (nbCellCount_ s) s0) q rest Cq).
Qed.

(** Reading into an object that is not fresh keeps its lists in front. *)
Lemma NrSsb_takes s : NrSsb_ok s -> takes (S := NrSsbInformation) NrSsb_ReadFromParcel (NrSsb_items s)
  (fun s0 => MkNrSsb (arfcn_ s) (cid_ s) (pci_ s) (rsrp_ s) (sinr_ s) (timeAdvance_ s) (sCellSsbList_ s0 ++ sCellSsbList_ s) (nbCellCount_ s)
     (nbCellSsbList_ s0 ++ nbCellSsbList_ s)).
Proof.
  intros ((? & ? & ? & ? & ? & ?) & [Hb Lb] & Hn & Ln & Hc). unfold NrSsb_ReadFromParcel, NrSsb_items. eapply takes_ext.
  - do 6 (apply (takes_seq _ _ [_]); [solve [eauto with parcel]|]). apply takes_seq.
    + replace (Z.to_nat SCELL_SSB_LIST) with (length (sCellSsbList_ s)) by (unfold zlen in Lb; lia).
      apply (takes_vector SsbInfo_new read_ssb sCellSsbList_ set_sCellSsbList_ ssb_items); [by intros []|done|done|].
      eapply Forall_impl; [exact Hb|]. apply read_ssb_takes.
    + by apply ReadFromParcelForNbCell_takes.
  - intros []. destruct s. cbn in *. by rewrite !i32_small.
Qed.

(** *** A serving cell with fewer beams than the fixed number *)

Lemma reads_local {L S} (new : L) (read : rstep P L) (use : L -> S -> S) items u :
  reads read items u -> reads (read_local new read use) items (use (u new)).
Proof.
  intros [R1 R2]. split.
  - intros s p rest C. destruct (R1 new p rest C) as (p' & E & C'). exists p'. unfold read_local. by rewrite E.
  - intros s p k Hk C. specialize (R2 new p k Hk C). unfold read_local. by destruct (read new p) as [[[] ?] ?].
Qed.
Lemma reads_times {A S} (f : rstep P S) (items : A -> list item) upd l :
  (forall a, reads f (items a) (upd a)) -> reads (read_times (length l) f) (l ≫= items) (fun s => foldl (fun s a => upd a s) s l).
Proof.
  intros R. induction l as [|a l IH]; [apply reads_done|]. rewrite bind_cons. exact (reads_seq f (read_times (length l) f) _ _ (upd a) _ (R a) IH).
Qed.
Lemma read_ssb_reads b : reads read_ssb (ssb_items b) (fun _ => MkSsb (i32 (ssbId b)) (i32 (ssb_rsrp b))).
Proof. unfold read_ssb, ssb_items. eapply reads_const; [apply (reads_seq _ _ [_]); apply reads_int32|]. by intros []. Qed.
Lemma ssb_items_length l : length (l ≫= ssb_items) = (2 * length l)%nat.
Proof. induction l as [|b l IH]; [done|]. rewrite bind_cons, length_app, IH. cbn. lia. Qed.

(** the number of beams of the serving cell is not sent: [Marshalling] writes as many as there are, up to eight, and the receiver
    always reads eight. A report without neighbours and with fewer than eight beams is sent, but never received. *)
Theorem nr_ssb_short_list s s0 p :
  (zlen (sCellSsbList_ s) < SCELL_SSB_LIST)%Z -> nbCellCount_ s = 0 -> content p = [] -> - 2 ^ 63 <= cid_ s < 2 ^ 63 ->
  exists p', NrSsb_Marshalling s p = Ret (true, p') /\ (NrSsb_ReadFromParcel s0 p').1.1 = false.
Proof.
  intros L N C Hcid.
  assert (oappends (NrSsb_Marshalling s)
    ([IInt32 (i32 (arfcn_ s)); IWord64 (u64 (cid_ s)); IInt32 (i32 (pci_ s)); IInt32 (i32 (rsrp_ s)); IInt32 (i32 (sinr_ s)); IInt32 (i32 (timeAdvance_ s))] ++
     (sCellSsbList_ s ≫= ssb_items) ++ [IInt32 0])) as A.
  { unfold NrSsb_Marshalling. apply oappends_seq; [apply oappends_ow; appends_items|apply oappends_seq].
    - apply oappends_ow. rewrite take_ge by (unfold SCELL_SSB_LIST, zlen in *; lia). apply appends_all, Forall_true, write_ssb_appends.
    - unfold MarshallingNbCellSsbId. rewrite N. apply (oappends_seq _ _ [_] []); [apply oappends_ow, appends_int32|apply oappends_ow, appends_done]. }
  destruct (A p) as (p' & E & C'). exists p'. split; [exact E|]. rewrite C in C'. cbn [app] in C'.
  set (zeros := replicate (8 - length (sCellSsbList_ s)) (MkSsb 0 0)).
  assert (length (sCellSsbList_ s) < 8)%nat as L8 by (unfold SCELL_SSB_LIST, zlen in L; lia).
  pose proof (reads_times (S := NrSsbInformation) (read_local SsbInfo_new read_ssb (fun b s => set_sCellSsbList_ (sCellSsbList_ s ++ [b]) s)) ssb_items _
    (sCellSsbList_ s ++ zeros) (fun b => reads_local _ _ _ _ _ (read_ssb_reads b))) as [_ F].
  assert (length (sCellSsbList_ s ++ zeros) = 8%nat) as L9 by (unfold zeros; rewrite length_app, length_replicate; lia). rewrite L9 in F.
  unfold NrSsb_ReadFromParcel. unfold rseq at 1 2 3 4 5 6. unfold read_into at 1 2 3 4 5 6.
  destruct (read_int32_law _ _ p' C') as (q1 & -> & C1). destruct (read_int64_law _ _ q1 Hcid C1) as (q2 & -> & C2).
  destruct (read_int32_law _ _ q2 C2) as (q3 & -> & C3). destruct (read_int32_law _ _ q3 C3) as (q4 & -> & C4).
  destruct (read_int32_law _ _ q4 C4) as (q5 & -> & C5). destruct (read_int32_law _ _ q5 C5) as (q6 & -> & C6).
  unfold rseq at 1. match goal with |- context [read_times _ _ ?st q6] => specialize (F st q6 (2 * length (sCellSsbList_ s) + 1)%nat) end.
  change (Z.to_nat SCELL_SSB_LIST) with 8%nat.
  match goal with |- context [read_times 8 ?f ?st q6] => destruct (read_times 8 f st q6) as [[ok st'] q7] eqn:E7 end.
  cbn [fst] in F. rewrite F; [done| |].
  - rewrite ssb_items_length, length_app. unfold zeros. rewrite length_replicate. lia.
  - rewrite C6, bind_app, take_app_ge by (rewrite ssb_items_length; lia). rewrite ssb_items_length. f_equal.
    replace (2 * length (sCellSsbList_ s) + 1 - 2 * length (sCellSsbList_ s))%nat with 1%nat by lia. unfold zeros.
    by replace (8 - length (sCellSsbList_ s))%nat with (S (7 - length (sCellSsbList_ s))) by lia.
Qed.

(** a report of a serving cell with exactly eight beams and up to four neighbours with four beams each is received as it was sent, by a fresh
    object; sending never reads outside the vectors. *)
Theorem nr_ssb_roundtrip s p :
  NrSsb_ok s -> content p = [] ->
  exists p' p'', NrSsb_Marshalling s p = Ret (true, p') /\ NrSsb_ReadFromParcel NrSsbInformation_new p' = (true, s, p'') /\ content p'' = [].
Proof.
  intros Hs C. destruct (NrSsb_appends s Hs p) as (p' & E & C'). rewrite C in C'. cbn [app] in C'.
  destruct (NrSsb_takes s Hs NrSsbInformation_new p' []) as (p'' & E' & C''); [by rewrite app_nil_r|]. exists p', p''. split; [done|].
  split; [|done]. rewrite E'. by destruct s.
Qed.

(** accounts, dialling numbers and found networks arrive as they were sent and leave the parcel empty. *)
Theorem parcelables_roundtrip a d n (p : P) :
  IccAccountInfo_ok a -> DiallingNumbersInfo_ok d -> NetworkInformation_ok n -> content p = [] ->
  (exists q r, IccAccountInfo_Marshalling a p = (true, q) /\ IccAccountInfo_UnMarshalling q = (Some a, r) /\ content r = []) /\
  (exists q r, DiallingNumbersInfo_Marshalling d p = (true, q) /\ DiallingNumbersInfo_UnMarshalling q = (Some d, r) /\ content r = []) /\
  (exists q r, NetworkInformation_Marshalling n p = (true, q) /\ NetworkInformation_Unmarshalling q = (Some n, r) /\ content r = []).
Proof.
  intros Ha Hd Hn C.
  assert (forall S (f : wstep P) (read : rstep P S) new items v, appends f items -> takes read items (fun _ => v) ->
    exists q r, f p = (true, q) /\ unmarshalling read new q = (Some v, r) /\ content r = []) as G.
  { intros S f read new items v A T. destruct (A p) as (q & E & Cq). rewrite C in Cq. cbn [app] in Cq.
    destruct (unmarshalling_takes read new items v q [] T) as (r & Er & Cr); [by rewrite app_nil_r|]. by exists q, r. }
  split; [|split].
  - exact (G _ _ _ _ _ _ (IccAccountInfo_appends a) (IccAccountInfo_takes a Ha)).
  - exact (G _ _ _ _ _ _ (DiallingNumbersInfo_appends d) (DiallingNumbersInfo_takes d Hd)).
  - exact (G _ _ _ _ _ _ (NetworkInformation_appends n) (NetworkInformation_takes n Hn)).
Qed.
End Forms.

Lemma nr_ssb_short_list_witness :
  exists p', NrSsb_Marshalling (P := list item) (MkNrSsb 1 2 3 4 5 6 [MkSsb 1 (-80)] 0 []) [] = Ret (true, p') /\
    (NrSsb_ReadFromParcel NrSsbInformation_new p').1.1 = false.
Proof. apply nr_ssb_short_list; [reflexivity|reflexivity|reflexivity|split; [discriminate|reflexivity]]. Defined.

Lemma nr_ssb_roundtrip_witness :
  let s := MkNrSsb 1 2 3 4 5 6 (replicate 8 (MkSsb 1 (-80))) 1 [MkNbCell 1 2 3 4 (replicate 4 (MkSsb 2 (-90)))] in
  exists p' p'', NrSsb_Marshalling (P := list item) s [] = Ret (true, p') /\ NrSsb_ReadFromParcel NrSsbInformation_new p' = (true, s, p'') /\ content p'' = [].
Proof.
  apply nr_ssb_roundtrip; [|reflexivity]. unfold NrSsb_ok, nb_ok, ssb_ok, is_i32, MAX_NBCELL_COUNT. cbn.
  repeat match goal with |- _ /\ _ => split | |- Forall _ _ => constructor | |- zlen _ = _ => reflexivity | |- _ => cbn; lia end.
Defined.

Lemma parcelables_roundtrip_witness :
  let H := {| Str8ToStr16 := fun s => code <$> s; Str16ToStr8 := fun l => chr <$> l |} in
  exists q r, NetworkInformation_Marshalling (P := list item) (MkNetworkInformation 1 (str "CM") (str "China Mobile") (str "46000") 7 (-90)) [] = (true, q) /\
    NetworkInformation_Unmarshalling q = (Some (MkNetworkInformation 1 (str "CM") (str "China Mobile") (str "46000") 7 (-90)), r) /\ content r = [].
Proof.
  intros H. apply (parcelables_roundtrip IccAccountInfo_new DiallingNumbersInfo_new (MkNetworkInformation 1 (str "CM") (str "China Mobile") (str "46000") 7 (-90)) ([] : list item));
    [vm_compute; intuition congruence|vm_compute; intuition congruence|vm_compute; intuition congruence|reflexivity].
Defined.
