(* ===== verification/OperatorConfig.v ===== *)
(** * [frameworks/native/src/operator_config_types.cpp]: the configuration of an operator

    Eight [std::map]s, written one after the other, each with its size in front. A [std::map] is the list of its entries in the order of
    the keys; [emplace] keeps an entry that is already there, [operator\[\]] replaces it. *)

From S2P Require Import Prelude CxxString Parcel.
From Stdlib Require Import Sorted.
Open Scope Z_scope.

(** ** [std::map] with strings as keys *)

(** The order of [std::string] and [std::u16string]: by code units, a prefix first. *)
Fixpoint lex_lt (a b : list Z) : bool :=
  match a, b with
  | [], [] => false
  | [], _ :: _ => true
  | _ :: _, [] => false
  | x :: s, y :: t => (x <? y) || ((x =? y) && lex_lt s t)
  end.
Class Key (K : Type) : Type := key_units : K -> list Z.
#[export] Instance cstring_key : Key cstring := fun s => code <$> s.
#[export] Instance u16string_key : Key u16string := fun s => s.
Definition key_lt {K} `{Key K} (a b : K) : bool := lex_lt (key_units a) (key_units b).

Definition std_map (K V : Type) : Type := list (K * V).
Fixpoint emplace {K V} `{Key K} (k : K) (v : V) (m : std_map K V) : std_map K V :=
  match m with
  | [] => [(k, v)]
  | (k', v') :: t => if key_lt k k' then (k, v) :: m else if key_lt k' k then (k', v') :: emplace k v t else m
  end.
Fixpoint assign {K V} `{Key K} (k : K) (v : V) (m : std_map K V) : std_map K V :=
  match m with
  | [] => [(k, v)]
  | (k', v') :: t => if key_lt k k' then (k, v) :: m else if key_lt k' k then (k', v') :: assign k v t else (k', v) :: t
  end.

(** ** OperatorConfig *)

Definition MAX_CONFIG_SIZE : Z := 10000.

Record OperatorConfig : Type := MkConfig {
  configValue : std_map u16string (u16string);
  stringValue : std_map cstring (cstring);
  stringArrayValue : std_map cstring (list cstring);
  intValue : std_map cstring (Z);
  intArrayValue : std_map cstring (list Z);
  longValue : std_map cstring (Z);
  longArrayValue : std_map cstring (list Z);
  boolValue : std_map cstring (bool)
}.
Definition OperatorConfig_new : OperatorConfig := MkConfig [] [] [] [] [] [] [] [].
Definition set_configValue (v : std_map u16string (u16string)) (c : OperatorConfig) : OperatorConfig :=
  MkConfig v (stringValue c) (stringArrayValue c) (intValue c) (intArrayValue c) (longValue c) (longArrayValue c) (boolValue c).
Definition set_stringValue (v : std_map cstring (cstring)) (c : OperatorConfig) : OperatorConfig :=
  MkConfig (configValue c) v (stringArrayValue c) (intValue c) (intArrayValue c) (longValue c) (longArrayValue c) (boolValue c).
Definition set_stringArrayValue (v : std_map cstring (list cstring)) (c : OperatorConfig) : OperatorConfig :=
  MkConfig (configValue c) (stringValue c) v (intValue c) (intArrayValue c) (longValue c) (longArrayValue c) (boolValue c).
Definition set_intValue (v : std_map cstring (Z)) (c : OperatorConfig) : OperatorConfig :=
  MkConfig (configValue c) (stringValue c) (stringArrayValue c) v (intArrayValue c) (longValue c) (longArrayValue c) (boolValue c).
Definition set_intArrayValue (v : std_map cstring (list Z)) (c : OperatorConfig) : OperatorConfig :=
  MkConfig (configValue c) (stringValue c) (stringArrayValue c) (intValue c) v (longValue c) (longArrayValue c) (boolValue c).
Definition set_longValue (v : std_map cstring (Z)) (c : OperatorConfig) : OperatorConfig :=
  MkConfig (configValue c) (stringValue c) (stringArrayValue c) (intValue c) (intArrayValue c) v (longArrayValue c) (boolValue c).
Definition set_longArrayValue (v : std_map cstring (list Z)) (c : OperatorConfig) : OperatorConfig :=
  MkConfig (configValue c) (stringValue c) (stringArrayValue c) (intValue c) (intArrayValue c) (longValue c) v (boolValue c).
Definition set_boolValue (v : std_map cstring (bool)) (c : OperatorConfig) : OperatorConfig :=
  MkConfig (configValue c) (stringValue c) (stringArrayValue c) (intValue c) (intArrayValue c) (longValue c) (longArrayValue c) v.

Section OperatorConfig.
Context {P : Type} `{ParcelOps P}.

(** The common body of the eight [Marshalling...Map] functions. *)
Definition MarshallingMap {K V} (writeK : K -> wstep P) (writeV : V -> wstep P) (m : std_map K V) : wstep P :=
  WriteInt32 (zlen m) ;;w write_all (fun '(k, v) => writeK k ;;w writeV v) m.
(** ... and of the eight [ReadFrom...Map] functions; [get] and [set] access the map. *)
Definition ReadFromMap {K V} (readK : P -> option K * P) (dK : K) (readV : P -> option V * P) (dV : V)
    (insert : K -> V -> std_map K V -> std_map K V) (get : OperatorConfig -> std_map K V) (set : std_map K V -> OperatorConfig -> OperatorConfig) :
    rstep P OperatorConfig := fun c p =>
  let c := set [] c in
  let '(size, p) := ReadInt32 p in
  let valueSize := default 0 size in
  if (valueSize >? MAX_CONFIG_SIZE) || (valueSize <? 0) then (false, c, p) else
  read_times (Z.to_nat valueSize) (fun c p =>
    let '(k, p) := readK p in let '(v, p) := readV p in (true, set (insert (default dK k) (default dV v) (get c)) c, p)) c p.

Definition MarshallingU16StringMap (c : OperatorConfig) : wstep P := MarshallingMap WriteString16 WriteString16 (configValue c).
Definition MarshallingBoolMap (c : OperatorConfig) : wstep P := MarshallingMap WriteString WriteBool (boolValue c).
Definition MarshallingStringMap (c : OperatorConfig) : wstep P := MarshallingMap WriteString WriteString (stringValue c).
Definition MarshallingStringArrayMap (c : OperatorConfig) : wstep P := MarshallingMap WriteString WriteStringVector (stringArrayValue c).
Definition MarshallingIntMap (c : OperatorConfig) : wstep P := MarshallingMap WriteString WriteInt32 (intValue c).
Definition MarshallingIntArrayMap (c : OperatorConfig) : wstep P := MarshallingMap WriteString WriteInt32Vector (intArrayValue c).
Definition MarshallingLongMap (c : OperatorConfig) : wstep P := MarshallingMap WriteString WriteInt64 (longValue c).
Definition MarshallingLongArrayMap (c : OperatorConfig) : wstep P := MarshallingMap WriteString WriteInt64Vector (longArrayValue c).
Definition Marshalling (c : OperatorConfig) : wstep P :=
  MarshallingU16StringMap c ;;w MarshallingBoolMap c ;;w MarshallingStringMap c ;;w MarshallingStringArrayMap c ;;w
  MarshallingIntMap c ;;w MarshallingIntArrayMap c ;;w MarshallingLongMap c ;;w MarshallingLongArrayMap c.

Definition ReadFromU16StringMap : rstep P OperatorConfig :=
  ReadFromMap ReadString16 [] ReadString16 [] emplace configValue set_configValue.
Definition ReadFromBoolMap : rstep P OperatorConfig :=
  ReadFromMap ReadString [] ReadBool false assign boolValue set_boolValue.
Definition ReadFromStringMap : rstep P OperatorConfig :=
  ReadFromMap ReadString [] ReadString [] emplace stringValue set_stringValue.
Definition ReadFromStringArrayMap : rstep P OperatorConfig :=
  ReadFromMap ReadString [] ReadStringVector [] assign stringArrayValue set_stringArrayValue.
Definition ReadFromIntMap : rstep P OperatorConfig :=
  ReadFromMap ReadString [] ReadInt32 0 assign intValue set_intValue.
Definition ReadFromIntArrayMap : rstep P OperatorConfig :=
  ReadFromMap ReadString [] ReadInt32Vector [] assign intArrayValue set_intArrayValue.
Definition ReadFromLongMap : rstep P OperatorConfig :=
  ReadFromMap ReadString [] ReadInt64 0 assign longValue set_longValue.
Definition ReadFromLongArrayMap : rstep P OperatorConfig :=
  ReadFromMap ReadString [] ReadInt64Vector [] assign longArrayValue set_longArrayValue.
Definition ReadFromParcel : rstep P OperatorConfig :=
  ReadFromU16StringMap ;;r ReadFromBoolMap ;;r ReadFromStringMap ;;r ReadFromStringArrayMap ;;r
  ReadFromIntMap ;;r ReadFromIntArrayMap ;;r ReadFromLongMap ;;r ReadFromLongArrayMap.
Definition UnMarshalling (p : P) : option OperatorConfig * P :=
  let '(ok, c, p) := ReadFromParcel OperatorConfig_new p in if (ok : bool) then (Some c, p) else (None, p).
End OperatorConfig.

(** * Theorems *)

Lemma lex_lt_asym a b : lex_lt a b = true -> lex_lt b a = false.
Proof.
  revert b. induction a as [|x a IH]; intros [|y b]; cbn; try done.
  destruct (Z.ltb_spec x y), (Z.ltb_spec y x), (Z.eqb_spec x y), (Z.eqb_spec y x); cbn; try lia; try done. apply IH.
Qed.
Lemma lex_lt_trans a b c : lex_lt a b = true -> lex_lt b c = true -> lex_lt a c = true.
Proof.
  revert b c. induction a as [|x a IH]; intros [|y b] [|z c]; cbn; try done.
  destruct (Z.ltb_spec x y), (Z.ltb_spec y z), (Z.ltb_spec x z), (Z.eqb_spec x y), (Z.eqb_spec y z), (Z.eqb_spec x z); cbn; try lia; try done.
  apply IH.
Qed.

(** The keys are in order, so each occurs once. *)
Definition ordered {K V} `{Key K} (m : std_map K V) : Prop := StronglySorted (fun a b => key_lt a.1 b.1 = true) m.

(** A way to insert that puts a key that is greater than all others at the end. *)
Definition inserts_last {K V} `{Key K} (insert : K -> V -> std_map K V -> std_map K V) : Prop :=
  forall k v m, Forall (fun e => key_lt e.1 k = true) m -> insert k v m = m ++ [(k, v)].
Lemma emplace_last {K V} `{Key K} : inserts_last (@emplace K V _).
Proof.
  intros k v m. induction 1 as [|[k' v'] m L Hm IH]; [done|]. cbn in *. unfold key_lt in *. by rewrite (lex_lt_asym _ _ L), L, IH.
Qed.
Lemma assign_last {K V} `{Key K} : inserts_last (@assign K V _).
Proof.
  intros k v m. induction 1 as [|[k' v'] m L Hm IH]; [done|]. cbn in *. unfold key_lt in *. by rewrite (lex_lt_asym _ _ L), L, IH.
Qed.
#[export] Hint Resolve emplace_last assign_last : parcel.

Lemma StronglySorted_middle {A} (R : A -> A -> Prop) l a r : StronglySorted R (l ++ a :: r) -> Forall (fun b => R b a) l.
Proof.
  induction l as [|b l IH]; [constructor|]. cbn. intros S. inversion S as [|? ? S' F]. subst. constructor; [|by apply IH].
  rewrite Forall_app in F. destruct F as [_ F]. by inversion F.
Qed.

(** Inserting the entries of an ordered map one by one rebuilds it. *)
Lemma insert_all {K V} `{Key K} insert (m : std_map K V) : inserts_last insert -> ordered m ->
  forall acc r, m = acc ++ r -> foldl (fun acc '(k, v) => insert k v acc) acc r = m.
Proof.
  intros I O acc r. revert acc. induction r as [|[k v] r IH]; intros acc E; cbn; [by rewrite E, app_nil_r|].
  rewrite I; [apply IH; by rewrite <- app_assoc|]. unfold ordered in O. rewrite E in O.
  exact (StronglySorted_middle _ _ _ _ O).
Qed.

Definition is_i64 (z : Z) : Prop := - 2 ^ 63 <= z < 2 ^ 63.
Definition map_items {K V} (ik : K -> item) (iv : V -> item) (m : std_map K V) : list item := IInt32 (zlen m) :: (m ≫= fun '(k, v) => [ik k; iv v]).
Definition map_ok {K V} `{Key K} (ok : V -> Prop) (m : std_map K V) : Prop := ordered m /\ Forall (fun e => ok e.2) m /\ zlen m <= MAX_CONFIG_SIZE.

Definition config_items (c : OperatorConfig) : list item :=
  map_items (fun k => IString16 k) (fun v => IString16 v) (configValue c) ++
  map_items (fun k => IString k) (fun v => IBool v) (boolValue c) ++
  map_items (fun k => IString k) (fun v => IString v) (stringValue c) ++
  map_items (fun k => IString k) (fun v => IStringVector v) (stringArrayValue c) ++
  map_items (fun k => IString k) (fun v => IInt32 v) (intValue c) ++
  map_items (fun k => IString k) (fun v => IInt32Vector v) (intArrayValue c) ++
  map_items (fun k => IString k) (fun v => IWord64 (u64 v)) (longValue c) ++
  map_items (fun k => IString k) (fun v => IInt64Vector v) (longArrayValue c).
(** Maps in order of their keys and not larger than the limit; integers in range. *)
Definition config_ok (c : OperatorConfig) : Prop :=
  map_ok (fun _ => True) (configValue c) /\
  map_ok (fun _ => True) (boolValue c) /\
  map_ok (fun _ => True) (stringValue c) /\
  map_ok (fun _ => True) (stringArrayValue c) /\
  map_ok is_i32 (intValue c) /\
  map_ok (Forall is_i32) (intArrayValue c) /\
  map_ok is_i64 (longValue c) /\
  map_ok (Forall is_i64) (longArrayValue c).

Section Parcels.
Context {P : Type} `{ParcelLaws P} `{!Roomy P}.

Lemma MarshallingMap_appends {K V} `{Key K} (writeK : K -> wstep P) (writeV : V -> wstep P) ik iv ok m :
  map_ok ok m -> (forall k, appends (writeK k) [ik k]) -> (forall v, ok v -> appends (writeV v) [iv v]) ->
  appends (MarshallingMap writeK writeV m) (map_items ik iv m).
Proof.
  intros (_ & F & L) Wk Wv. unfold MarshallingMap, map_items. apply (appends_seq _ _ [_]).
  - eapply appends_eq; [apply appends_int32|]. rewrite i32_small; [done|]. unfold is_i32, MAX_CONFIG_SIZE in *. pose proof (zlen_nonneg m). lia.
  - apply appends_all. eapply Forall_impl; [exact F|]. intros [k v] Hv. apply (appends_seq _ _ [_]); [apply Wk|by apply Wv].
Qed.

Lemma ReadFromMap_takes {K V} `{Key K} (readK : P -> option K * P) dK (readV : P -> option V * P) dV insert get set ik iv ok m :
  map_ok ok m -> inserts_last insert -> (forall k, reads_off readK (ik k) k) -> (forall v, ok v -> reads_off readV (iv v) v) ->
  (forall v c, get (set v c) = v) -> (forall v w c, set v (set w c) = set v c) ->
  takes (ReadFromMap readK dK readV dV insert get set) (map_items ik iv m) (set m).
Proof.
  intros (O & F & L) I Rk Rv G1 G2 c p rest C. unfold ReadFromMap.
  destruct (read_int32_law (zlen m) _ p C) as (q & -> & Cq). change (default 0 (Some (zlen m))) with (zlen m). cbv zeta. pose proof (zlen_nonneg m).
  destruct (Z.gtb_spec (zlen m) MAX_CONFIG_SIZE); [lia|]. destruct (Z.ltb_spec (zlen m) 0); [lia|]. cbn [orb].
  replace (Z.to_nat (zlen m)) with (length m) by (unfold zlen; lia).
  eassert (takes (S := OperatorConfig) (read_times (length m) _) _ _) as T; [apply (takes_times _ (fun '(k, v) => [ik k; iv v]) (fun '(k, v) c => set (insert k v (get c)) c))|].
  - eapply Forall_impl; [exact F|]. intros [k v] Hv. cbn in Hv. intros c0 p0 rest0 C0.
    destruct (Rk k (iv v :: rest0) p0 C0) as (p1 & E1 & C1). destruct (Rv v Hv rest0 p1 C1) as (p2 & E2 & C2).
    exists p2. instantiate (1 := fun c p => let '(k, p) := readK p in let '(v, p) := readV p in (true, set (insert (default dK k) (default dV v) (get c)) c, p)).
    cbn beta. by rewrite E1, E2.
  - destruct (T (set [] c) q rest Cq) as (q' & Eq & Cq'). exists q'. rewrite Eq. split; [|done]. do 2 f_equal.
    assert (forall r acc, m = acc ++ r -> foldl (fun s a => (let '(k, v) := a in fun c => set (insert k v (get c)) c) s) (set acc c) r = set m c) as W.
    { clear T Eq Cq'. induction r as [|[k v] r IH]; intros acc E; cbn; [by rewrite E, app_nil_r|]. rewrite G1, G2.
      rewrite I; [apply IH; by rewrite <- app_assoc|]. unfold ordered in O. rewrite E in O. exact (StronglySorted_middle _ _ _ _ O). }
    by apply W.
Qed.

Lemma Marshalling_appends c : config_ok c -> appends (Marshalling c) (config_items c).
Proof.
  unfold config_ok, Marshalling, config_items. intros Hc. destruct_and! Hc.
  repeat first [apply appends_seq|eapply MarshallingMap_appends; [eassumption|eauto with parcel..]].
Qed.

Lemma ReadFromParcel_takes c : config_ok c -> takes ReadFromParcel (config_items c) (fun _ => c).
Proof.
  unfold config_ok, ReadFromParcel, config_items. intros Hc. destruct_and! Hc. eapply takes_const.
  - repeat first [eapply takes_seq|eapply ReadFromMap_takes; [eassumption|eauto with parcel..]; fail]. all: eapply ReadFromMap_takes; [eassumption|eauto with parcel..].
  - intros s. by destruct c.
Qed.

(** an operator's configuration within the size limit arrives as it was sent, whatever the receiving object held before, and uses up the
    parcel: the eight maps keep their entries, in the order of their keys. *)
Theorem operator_config_roundtrip c c0 (p : P) :
  config_ok c -> content p = [] ->
  exists p' p'', Marshalling c p = (true, p') /\ ReadFromParcel c0 p' = (true, c, p'') /\ content p'' = [].
Proof.
  intros Hc C. destruct (Marshalling_appends c Hc p) as (p' & E & C'). rewrite C in C'. cbn [app] in C'.
  destruct (ReadFromParcel_takes c Hc c0 p' []) as (p'' & E' & C''); [by rewrite app_nil_r|]. by exists p', p''.
Qed.

(** the sender does not check the limit of 10000 entries per map that the receiver has: a configuration with a larger first map is sent
    without an error and refused by every receiver, which keeps the other maps of its object and empties the first. *)
Theorem operator_config_too_large c c0 (p : P) :
  MAX_CONFIG_SIZE < zlen (configValue c) < 2 ^ 31 -> content p = [] -> 
  exists p', MarshallingU16StringMap c p = (true, p') /\
    exists p'', ReadFromParcel c0 p' = (false, set_configValue [] c0, p'').
Proof.
  intros L C. unfold MAX_CONFIG_SIZE in L.
  assert (appends (MarshallingU16StringMap c) ([IInt32 (zlen (configValue c))] ++ (configValue c ≫= fun '(k, v) => [IString16 k; IString16 v]))) as A.
  { apply appends_seq.
    - eapply appends_eq; [apply appends_int32|]. rewrite i32_small; [done|]. unfold is_i32. lia.
    - apply appends_all, Forall_true. intros [k v]. apply (appends_seq _ _ [_]); eauto with parcel. }
  destruct (A p) as (p' & E & C'). exists p'. split; [exact E|]. rewrite C in C'.
  unfold ReadFromParcel, rseq, ReadFromU16StringMap, ReadFromMap.
  destruct (read_int32_law _ _ p' C') as (q & -> & _). exists q. change (default 0 (Some (zlen (configValue c)))) with (zlen (configValue c)). cbv zeta.
  unfold MAX_CONFIG_SIZE. by destruct (Z.gtb_spec (zlen (configValue c)) 10000); [|lia].
Qed.
End Parcels.

Lemma operator_config_roundtrip_witness :
  let c := MkConfig [] [(str "a", str "x")] [] [(str "spn", -1); (str "spo", 7)] [] [] [] [(str "volte", true)] in
  exists p' p'', Marshalling (P := list item) c [] = (true, p') /\ ReadFromParcel OperatorConfig_new p' = (true, c, p'') /\ content p'' = [].
Proof.
  apply operator_config_roundtrip; [|reflexivity]. unfold config_ok, map_ok, ordered, MAX_CONFIG_SIZE, is_i32. cbn.
  repeat match goal with |- _ /\ _ => split | |- StronglySorted _ _ => constructor | |- Forall _ _ => constructor | |- True => exact I
    | |- _ = true => reflexivity | |- zlen _ <= _ => cbv; discriminate | |- _ => cbn; lia end.
Defined.

Lemma operator_config_too_large_witness :
  let c := set_configValue (replicate 10001 ([], [])) OperatorConfig_new in
  exists p', MarshallingU16StringMap (P := list item) c [] = (true, p') /\
    exists p'', ReadFromParcel OperatorConfig_new p' = (false, set_configValue [] OperatorConfig_new, p'').
Proof.
  apply operator_config_too_large; [|reflexivity]. change (10000 < zlen (replicate 10001 (@nil Z, @nil Z)) < 2 ^ 31).
  unfold zlen. rewrite length_replicate. split; reflexivity.
Defined.
