(* ===== verification/NetworkState.v ===== *)
(** * [frameworks/native/src/network_state.cpp]: the registration state

    The state of registration in the packet (PS) and circuit (CS) switched domains:
    operator, roaming, registration and radio technology, with the technology before
    the last change. It travels between processes in a parcel. Values of the enum
    classes are integers, since [static_cast] from the parcel lets any [int32_t] in. *)

From S2P Require Import Prelude CxxString Parcel.
From stdpp Require Import pretty.
Open Scope Z_scope.

Definition DOMAIN_TYPE_PS : Z := 0.
Definition DOMAIN_TYPE_CS : Z := 1.
Definition REG_STATE_UNKNOWN : Z := 0.
Definition REG_STATE_IN_SERVICE : Z := 1.
Definition ROAMING_STATE_UNKNOWN : Z := 0.
Definition NR_STATE_NOT_SUPPORT : Z := 1.
Definition RADIO_TECHNOLOGY_UNKNOWN : Z := 0.
Definition RADIO_TECHNOLOGY_GSM : Z := 1.
Definition RADIO_TECHNOLOGY_1XRTT : Z := 2.
Definition RADIO_TECHNOLOGY_WCDMA : Z := 3.
Definition RADIO_TECHNOLOGY_HSPA : Z := 4.
Definition RADIO_TECHNOLOGY_HSPAP : Z := 5.
Definition RADIO_TECHNOLOGY_TD_SCDMA : Z := 6.
Definition RADIO_TECHNOLOGY_EVDO : Z := 7.
Definition RADIO_TECHNOLOGY_EHRPD : Z := 8.
Definition RADIO_TECHNOLOGY_LTE : Z := 9.
Definition RADIO_TECHNOLOGY_LTE_CA : Z := 10.
Definition RADIO_TECHNOLOGY_IWLAN : Z := 11.

Record OperatorInformation : Type := MkOperator {
  operatorNumeric : cstring;
  fullName : cstring;
  shortName : cstring
}.

Record NetworkState : Type := MkNetworkState {
  isEmergency_ : bool;
  psOperatorInfo_ : OperatorInformation;
  csOperatorInfo_ : OperatorInformation;
  csRoaming_ : Z;
  psRoaming_ : Z;
  psRegStatus_ : Z;
  csRegStatus_ : Z;
  psRadioTech_ : Z;
  lastPsRadioTech_ : Z;
  lastCfgTech_ : Z;
  csRadioTech_ : Z;
  cfgTech_ : Z;
  nrState_ : Z;
  psRadioTechV2_ : Z;
  lastPsRadioTechV2_ : Z;
  lastCfgTechV2_ : Z;
  csRadioTechV2_ : Z;
  cfgTechV2_ : Z
}.

Definition set_emergency (v : bool) (n : NetworkState) : NetworkState :=
  let '(MkNetworkState _ po co cr pr ps cs pt lp lc ct ft nr p2 lp2 lc2 c2 f2) := n in
  MkNetworkState v po co cr pr ps cs pt lp lc ct ft nr p2 lp2 lc2 c2 f2.
Definition set_ps_operator (f : OperatorInformation -> OperatorInformation) (n : NetworkState) : NetworkState :=
  let '(MkNetworkState e po co cr pr ps cs pt lp lc ct ft nr p2 lp2 lc2 c2 f2) := n in
  MkNetworkState e (f po) co cr pr ps cs pt lp lc ct ft nr p2 lp2 lc2 c2 f2.
Definition set_cs_operator (f : OperatorInformation -> OperatorInformation) (n : NetworkState) : NetworkState :=
  let '(MkNetworkState e po co cr pr ps cs pt lp lc ct ft nr p2 lp2 lc2 c2 f2) := n in
  MkNetworkState e po (f co) cr pr ps cs pt lp lc ct ft nr p2 lp2 lc2 c2 f2.

(** The integer fields, in the order they are declared. *)
Inductive field : Type :=
| FcsRoaming | FpsRoaming | FpsRegStatus | FcsRegStatus | FpsRadioTech | FlastPsRadioTech | FlastCfgTech
| FcsRadioTech | FcfgTech | FnrState | FpsRadioTechV2 | FlastPsRadioTechV2 | FlastCfgTechV2 | FcsRadioTechV2
| FcfgTechV2.

Definition set_field (f : field) (v : Z) (n : NetworkState) : NetworkState :=
  let '(MkNetworkState e po co cr pr ps cs pt lp lc ct ft nr p2 lp2 lc2 c2 f2) := n in
  match f with
  | FcsRoaming => MkNetworkState e po co v pr ps cs pt lp lc ct ft nr p2 lp2 lc2 c2 f2
  | FpsRoaming => MkNetworkState e po co cr v ps cs pt lp lc ct ft nr p2 lp2 lc2 c2 f2
  | FpsRegStatus => MkNetworkState e po co cr pr v cs pt lp lc ct ft nr p2 lp2 lc2 c2 f2
  | FcsRegStatus => MkNetworkState e po co cr pr ps v pt lp lc ct ft nr p2 lp2 lc2 c2 f2
  | FpsRadioTech => MkNetworkState e po co cr pr ps cs v lp lc ct ft nr p2 lp2 lc2 c2 f2
  | FlastPsRadioTech => MkNetworkState e po co cr pr ps cs pt v lc ct ft nr p2 lp2 lc2 c2 f2
  | FlastCfgTech => MkNetworkState e po co cr pr ps cs pt lp v ct ft nr p2 lp2 lc2 c2 f2
  | FcsRadioTech => MkNetworkState e po co cr pr ps cs pt lp lc v ft nr p2 lp2 lc2 c2 f2
  | FcfgTech => MkNetworkState e po co cr pr ps cs pt lp lc ct v nr p2 lp2 lc2 c2 f2
  | FnrState => MkNetworkState e po co cr pr ps cs pt lp lc ct ft v p2 lp2 lc2 c2 f2
  | FpsRadioTechV2 => MkNetworkState e po co cr pr ps cs pt lp lc ct ft nr v lp2 lc2 c2 f2
  | FlastPsRadioTechV2 => MkNetworkState e po co cr pr ps cs pt lp lc ct ft nr p2 v lc2 c2 f2
  | FlastCfgTechV2 => MkNetworkState e po co cr pr ps cs pt lp lc ct ft nr p2 lp2 v c2 f2
  | FcsRadioTechV2 => MkNetworkState e po co cr pr ps cs pt lp lc ct ft nr p2 lp2 lc2 v f2
  | FcfgTechV2 => MkNetworkState e po co cr pr ps cs pt lp lc ct ft nr p2 lp2 lc2 c2 v
  end.

Definition Init : NetworkState :=
  let none := MkOperator [] [] [] in
  MkNetworkState false none none ROAMING_STATE_UNKNOWN ROAMING_STATE_UNKNOWN REG_STATE_UNKNOWN REG_STATE_UNKNOWN
    RADIO_TECHNOLOGY_UNKNOWN RADIO_TECHNOLOGY_UNKNOWN RADIO_TECHNOLOGY_UNKNOWN RADIO_TECHNOLOGY_UNKNOWN
    RADIO_TECHNOLOGY_UNKNOWN NR_STATE_NOT_SUPPORT RADIO_TECHNOLOGY_UNKNOWN RADIO_TECHNOLOGY_UNKNOWN
    RADIO_TECHNOLOGY_UNKNOWN RADIO_TECHNOLOGY_UNKNOWN RADIO_TECHNOLOGY_UNKNOWN.

Definition set_fullName (s : cstring) (o : OperatorInformation) := MkOperator (operatorNumeric o) s (shortName o).
Definition set_shortName (s : cstring) (o : OperatorInformation) := MkOperator (operatorNumeric o) (fullName o) s.
Definition set_operatorNumeric (s : cstring) (o : OperatorInformation) := MkOperator s (fullName o) (shortName o).

(** ** Marshalling *)

Section Marshal.
Context {P : Type} `{ParcelOps P}.

(** [ReadParcelToRoamingType] and the like: all read an [int32_t]. *)
Definition ReadParcelTo (f : field) : rstep P NetworkState := read_into ReadInt32 (set_field f).

Definition ReadParcelString : rstep P NetworkState :=
  read_into ReadString (fun s => set_ps_operator (set_fullName s)) ;;r
  read_into ReadString (fun s => set_ps_operator (set_shortName s)) ;;r
  read_into ReadString (fun s => set_ps_operator (set_operatorNumeric s)) ;;r
  read_into ReadString (fun s => set_cs_operator (set_fullName s)) ;;r
  read_into ReadString (fun s => set_cs_operator (set_shortName s)) ;;r
  read_into ReadString (fun s => set_cs_operator (set_operatorNumeric s)).

Definition ReadParcelInt : rstep P NetworkState :=
  ReadParcelTo FcsRoaming ;;r ReadParcelTo FpsRoaming ;;r ReadParcelTo FpsRegStatus ;;r ReadParcelTo FcsRegStatus ;;r
  ReadParcelTo FpsRadioTech ;;r ReadParcelTo FcsRadioTech ;;r ReadParcelTo FcfgTech ;;r ReadParcelTo FnrState ;;r
  ReadParcelTo FlastPsRadioTech ;;r ReadParcelTo FlastCfgTech ;;r ReadParcelTo FpsRadioTechV2 ;;r
  ReadParcelTo FcsRadioTechV2 ;;r ReadParcelTo FcfgTechV2 ;;r ReadParcelTo FlastPsRadioTechV2 ;;r
  ReadParcelTo FlastCfgTechV2.

Definition ReadFromParcel : rstep P NetworkState :=
  read_into ReadBool set_emergency ;;r ReadParcelString ;;r ReadParcelInt.

Definition MarshallingString (n : NetworkState) : wstep P :=
  WriteString (fullName (psOperatorInfo_ n)) ;;w WriteString (shortName (psOperatorInfo_ n)) ;;w
  WriteString (operatorNumeric (psOperatorInfo_ n)) ;;w WriteString (fullName (csOperatorInfo_ n)) ;;w
  WriteString (shortName (csOperatorInfo_ n)) ;;w WriteString (operatorNumeric (csOperatorInfo_ n)).

Definition MarshallingInt (n : NetworkState) : wstep P :=
  WriteInt32 (csRoaming_ n) ;;w WriteInt32 (psRoaming_ n) ;;w WriteInt32 (psRegStatus_ n) ;;w
  WriteInt32 (csRegStatus_ n) ;;w WriteInt32 (psRadioTech_ n) ;;w WriteInt32 (csRadioTech_ n) ;;w
  WriteInt32 (cfgTech_ n) ;;w WriteInt32 (nrState_ n) ;;w WriteInt32 (lastPsRadioTech_ n) ;;w
  WriteInt32 (lastCfgTech_ n) ;;w WriteInt32 (psRadioTechV2_ n) ;;w WriteInt32 (csRadioTechV2_ n) ;;w
  WriteInt32 (cfgTechV2_ n) ;;w WriteInt32 (lastPsRadioTechV2_ n) ;;w WriteInt32 (lastCfgTechV2_ n).

Definition Marshalling (n : NetworkState) : wstep P :=
  WriteBool (isEmergency_ n) ;;w MarshallingString n ;;w MarshallingInt n.

(** The object, or null, and the parcel. *)
Definition Unmarshalling (p : P) : option NetworkState * P :=
  let '(ok, n, p) := ReadFromParcel Init p in
  if (ok : bool) then (Some n, p) else (None, p).
End Marshal.

(** ** Accessors *)

Definition GetLongOperatorName (n : NetworkState) : cstring :=
  match fullName (psOperatorInfo_ n) with [] => fullName (csOperatorInfo_ n) | s => s end.
Definition GetShortOperatorName (n : NetworkState) : cstring :=
  match shortName (psOperatorInfo_ n) with [] => shortName (csOperatorInfo_ n) | s => s end.
Definition GetPlmnNumeric (n : NetworkState) : cstring :=
  match operatorNumeric (psOperatorInfo_ n) with [] => operatorNumeric (csOperatorInfo_ n) | s => s end.
Definition GetRegStatus (n : NetworkState) : Z :=
  if psRegStatus_ n =? REG_STATE_IN_SERVICE then psRegStatus_ n else csRegStatus_ n.
Definition IsEmergency (n : NetworkState) : bool := isEmergency_ n.
Definition IsRoaming (n : NetworkState) : bool :=
  if ROAMING_STATE_UNKNOWN <? psRoaming_ n then true
  else if ROAMING_STATE_UNKNOWN <? csRoaming_ n then true
  else false.
Definition GetPsRadioTech (n : NetworkState) : Z := psRadioTech_ n.
Definition GetLastPsRadioTech (n : NetworkState) : Z := lastPsRadioTech_ n.
Definition GetCsRadioTech (n : NetworkState) : Z := csRadioTech_ n.
Definition GetPsRadioTechV2 (n : NetworkState) : Z := psRadioTechV2_ n.
Definition GetLastPsRadioTechV2 (n : NetworkState) : Z := lastPsRadioTechV2_ n.
Definition GetCsRadioTechV2 (n : NetworkState) : Z := csRadioTechV2_ n.
Definition GetPsRegStatus (n : NetworkState) : Z := psRegStatus_ n.
Definition GetCsRegStatus (n : NetworkState) : Z := csRegStatus_ n.
Definition GetPsRoamingStatus (n : NetworkState) : Z := psRoaming_ n.
Definition GetCsRoamingStatus (n : NetworkState) : Z := csRoaming_ n.
Definition GetCfgTech (n : NetworkState) : Z := cfgTech_ n.
Definition GetLastCfgTech (n : NetworkState) : Z := lastCfgTech_ n.
Definition GetCfgTechV2 (n : NetworkState) : Z := cfgTechV2_ n.
Definition GetLastCfgTechV2 (n : NetworkState) : Z := lastCfgTechV2_ n.
Definition GetNrState (n : NetworkState) : Z := nrState_ n.

Definition SetOperatorInfo (longName shortName numeric : cstring) (domainType : Z) (n : NetworkState) : NetworkState :=
  if domainType =? DOMAIN_TYPE_PS then set_ps_operator (fun _ => MkOperator numeric longName shortName) n
  else set_cs_operator (fun _ => MkOperator numeric longName shortName) n.
Definition SetEmergency (isEmergency : bool) (n : NetworkState) : NetworkState := set_emergency isEmergency n.
Definition SetNetworkType (tech domainType : Z) (n : NetworkState) : NetworkState :=
  if domainType =? DOMAIN_TYPE_CS then set_field FcsRadioTech tech n
  else set_field FpsRadioTech tech (set_field FlastPsRadioTech (psRadioTech_ n) n).
Definition SetNetworkTypeV2 (tech domainType : Z) (n : NetworkState) : NetworkState :=
  if domainType =? DOMAIN_TYPE_CS then set_field FcsRadioTechV2 tech n
  else set_field FpsRadioTechV2 tech (set_field FlastPsRadioTechV2 (psRadioTechV2_ n) n).
Definition SetNetworkState (state domainType : Z) (n : NetworkState) : NetworkState :=
  if domainType =? DOMAIN_TYPE_CS then set_field FcsRegStatus state n else set_field FpsRegStatus state n.
Definition SetRoaming (roamingType domainType : Z) (n : NetworkState) : NetworkState :=
  if domainType =? DOMAIN_TYPE_CS then set_field FcsRoaming roamingType n else set_field FpsRoaming roamingType n.
Definition SetCfgTech (tech : Z) (n : NetworkState) : NetworkState :=
  set_field FcfgTech tech (set_field FlastCfgTech (cfgTech_ n) n).
Definition SetCfgTechV2 (tech : Z) (n : NetworkState) : NetworkState :=
  set_field FcfgTechV2 tech (set_field FlastCfgTechV2 (cfgTechV2_ n) n).
Definition SetNrState (state : Z) (n : NetworkState) : NetworkState := set_field FnrState state n.
Definition SetLongOperatorName (longName : cstring) (domainType : Z) (n : NetworkState) : NetworkState :=
  if domainType =? DOMAIN_TYPE_PS then set_ps_operator (set_fullName longName) n
  else set_cs_operator (set_fullName longName) n.

Definition IsGsm (n : NetworkState) : bool :=
  existsb (Z.eqb (psRadioTech_ n))
    [RADIO_TECHNOLOGY_GSM; RADIO_TECHNOLOGY_WCDMA; RADIO_TECHNOLOGY_HSPA; RADIO_TECHNOLOGY_HSPAP;
     RADIO_TECHNOLOGY_TD_SCDMA; RADIO_TECHNOLOGY_LTE; RADIO_TECHNOLOGY_LTE_CA; RADIO_TECHNOLOGY_IWLAN].
Definition IsCdma (n : NetworkState) : bool :=
  existsb (Z.eqb (psRadioTech_ n)) [RADIO_TECHNOLOGY_1XRTT; RADIO_TECHNOLOGY_EVDO; RADIO_TECHNOLOGY_EHRPD].

(** ** Printing *)

(** [std::to_string] *)
Definition to_string (z : Z) : cstring := str (pretty z).

Definition ToString (n : NetworkState) : cstring :=
  let info o := fullName o ++ str "|" ++ operatorNumeric o ++ str "|" ++ shortName o in
  str "isEmergency_:" ++ to_string (if isEmergency_ n then 0 else 1) ++
  str ",psOperatorInfo:" ++ info (psOperatorInfo_ n) ++ str ",csOperatorInfo:" ++ info (csOperatorInfo_ n) ++
  str ",csRoaming:" ++ to_string (csRoaming_ n) ++ str ",psRoaming:" ++ to_string (psRoaming_ n) ++
  str ",psRegStatus:" ++ to_string (psRegStatus_ n) ++ str ",csRegStatus:" ++ to_string (csRegStatus_ n) ++
  str ",cfgTech:" ++ to_string (cfgTech_ n) ++ str ",nrState:" ++ to_string (nrState_ n) ++
  str ",psRadioTech:" ++ to_string (psRadioTech_ n) ++ str ",csRadioTech:" ++ to_string (csRadioTech_ n) ++
  str ",cfgTechV2:" ++ to_string (cfgTechV2_ n) ++ str ",psRadioTechV2:" ++ to_string (psRadioTechV2_ n) ++
  str ",csRadioTechV2:" ++ to_string (csRadioTechV2_ n).

(** ** Comparison *)

#[export] Instance OperatorInformation_eq_dec : EqDecision OperatorInformation.
Proof. solve_decision. Defined.
#[export] Instance NetworkState_eq_dec : EqDecision NetworkState.
Proof. solve_decision. Defined.

Definition operator_eq (a b : NetworkState) : bool :=
  Bool.eqb (isEmergency_ a) (isEmergency_ b) && (csRoaming_ a =? csRoaming_ b) && (psRoaming_ a =? psRoaming_ b) &&
  (psRegStatus_ a =? psRegStatus_ b) && (csRegStatus_ a =? csRegStatus_ b) && (psRadioTech_ a =? psRadioTech_ b) &&
  (csRadioTech_ a =? csRadioTech_ b) && (cfgTech_ a =? cfgTech_ b) && (psRadioTechV2_ a =? psRadioTechV2_ b) &&
  (csRadioTechV2_ a =? csRadioTechV2_ b) && (cfgTechV2_ a =? cfgTechV2_ b) && (nrState_ a =? nrState_ b) &&
  bool_decide (operatorNumeric (psOperatorInfo_ a) = operatorNumeric (psOperatorInfo_ b)) &&
  bool_decide (fullName (psOperatorInfo_ a) = fullName (psOperatorInfo_ b)) &&
  bool_decide (shortName (psOperatorInfo_ a) = shortName (psOperatorInfo_ b)) &&
  bool_decide (operatorNumeric (csOperatorInfo_ a) = operatorNumeric (csOperatorInfo_ b)) &&
  bool_decide (fullName (csOperatorInfo_ a) = fullName (csOperatorInfo_ b)) &&
  bool_decide (shortName (csOperatorInfo_ a) = shortName (csOperatorInfo_ b)).

(** ** The parcel round trip *)

(** Every enumeration value is an [int32_t]. *)
Definition int_fields (n : NetworkState) : list Z :=
  [csRoaming_ n; psRoaming_ n; psRegStatus_ n; csRegStatus_ n; psRadioTech_ n; csRadioTech_ n; cfgTech_ n; nrState_ n;
   lastPsRadioTech_ n; lastCfgTech_ n; psRadioTechV2_ n; csRadioTechV2_ n; cfgTechV2_ n; lastPsRadioTechV2_ n;
   lastCfgTechV2_ n].

Definition wf (n : NetworkState) : Prop := Forall is_i32 (int_fields n).
#[export] Instance wf_dec n : Decision (wf n) := _.

Definition string_fields (n : NetworkState) : list cstring :=
  [fullName (psOperatorInfo_ n); shortName (psOperatorInfo_ n); operatorNumeric (psOperatorInfo_ n);
   fullName (csOperatorInfo_ n); shortName (csOperatorInfo_ n); operatorNumeric (csOperatorInfo_ n)].

Definition items (n : NetworkState) : list item :=
  IBool (isEmergency_ n) :: (IString <$> string_fields n) ++ (IInt32 <$> int_fields n).

Section Roundtrip.
Context {P : Type} `{ParcelLaws P}.

Lemma Marshalling_writes n : wf n -> writes (P := P) (Marshalling n) (items n).
Proof.
  unfold wf, int_fields. rewrite !Forall_cons. intros W. destruct_and! W.
  apply (writes_seq _ _ [_]); [apply writes_bool|].
  apply (writes_seq _ _ (IString <$> string_fields n)).
  - repeat (apply (writes_seq _ _ [_]); [apply writes_string|]). apply writes_string.
  - repeat (apply (writes_seq _ _ [_]); [by apply writes_int32|]). by apply writes_int32.
Qed.

Lemma ReadFromParcel_reads n : reads (P := P) ReadFromParcel (items n) (fun _ => n).
Proof.
  eapply reads_const.
  - apply (reads_seq _ _ [_]); [apply reads_bool|].
    apply (reads_seq _ _ (IString <$> string_fields n)).
    + repeat (apply (reads_seq _ _ [_]); [apply reads_string|]). apply reads_string.
    + repeat (apply (reads_seq _ _ [_]); [apply reads_int32|]). apply reads_int32.
  - intros s. by destruct s, n as [e [? ? ?] [? ? ?]].
Qed.

(** C34: a network state written to an empty parcel is read back unchanged by
    [Unmarshalling], which takes exactly what [Marshalling] wrote; and on a parcel
    that was cut anywhere before its end it returns null. *)
Theorem network_state_parcel_roundtrip n p p' :
  wf n -> content p = [] -> Marshalling n p = (true, p') ->
  (exists p'', Unmarshalling p' = (Some n, p'') /\ content p'' = []) /\
  (forall q k, (k < length (items n))%nat -> content q = take k (content p') -> fst (Unmarshalling q) = None).
Proof.
  intros W C M. apply (Marshalling_writes n W) in M. rewrite C in M. cbn [app] in M.
  destruct (ReadFromParcel_reads n) as [R1 R2]. split.
  - destruct (R1 Init p' []) as (p'' & E & C''); [by rewrite app_nil_r|]. exists p''. unfold Unmarshalling. by rewrite E.
  - intros q k Hk Cq. rewrite M in Cq. specialize (R2 Init q k Hk Cq). unfold Unmarshalling.
    by destruct (ReadFromParcel Init q) as [[[] ?] ?].
Qed.
End Roundtrip.

Definition sample_state : NetworkState :=
  SetNetworkType RADIO_TECHNOLOGY_LTE DOMAIN_TYPE_PS (SetOperatorInfo (str "Op") (str "O") (str "46000") DOMAIN_TYPE_PS Init).

Lemma network_state_parcel_roundtrip_witness :
  fst (Unmarshalling (snd (Marshalling sample_state ([] : list item)))) = Some sample_state.
Proof.
  destruct (network_state_parcel_roundtrip sample_state ([] : list item) (snd (Marshalling sample_state ([] : list item))))
    as [(p'' & E & _) _].
  - repeat (apply Forall_cons_2; [split; vm_compute; (reflexivity || discriminate)|]). apply Forall_nil_2.
  - reflexivity.
  - vm_compute. reflexivity.
  - rewrite E. reflexivity.
Defined.

(** ** Comparison and what it identifies *)

(** Two states that differ only in the technologies before the last change. *)
Definition same_now (a b : NetworkState) : Prop :=
  exists lp lc lp2 lc2,
    b = set_field FlastPsRadioTech lp (set_field FlastCfgTech lc (set_field FlastPsRadioTechV2 lp2 (set_field FlastCfgTechV2 lc2 a))).

#[export] Instance same_now_equiv : Equivalence same_now.
Proof.
  split.
  - intros []. repeat eexists.
  - intros [] b (? & ? & ? & ? & ->). repeat eexists.
  - intros [] b c (? & ? & ? & ? & ->) (? & ? & ? & ? & ->). repeat eexists.
Qed.

#[export] Instance IsRoaming_proper : Proper (same_now ==> eq) IsRoaming.
Proof. by intros [] ? (? & ? & ? & ? & ->). Qed.
#[export] Instance GetRegStatus_proper : Proper (same_now ==> eq) GetRegStatus.
Proof. by intros [] ? (? & ? & ? & ? & ->). Qed.
#[export] Instance GetPlmnNumeric_proper : Proper (same_now ==> eq) GetPlmnNumeric.
Proof. by intros [] ? (? & ? & ? & ? & ->). Qed.
#[export] Instance ToString_proper : Proper (same_now ==> eq) ToString.
Proof. by intros [] ? (? & ? & ? & ? & ->). Qed.
#[export] Instance SetNrState_proper s : Proper (same_now ==> same_now) (SetNrState s).
Proof. intros [] ? (? & ? & ? & ? & ->). repeat eexists. Qed.

Lemma operator_eq_same a b : operator_eq a b = true <-> same_now a b.
Proof.
  unfold operator_eq. rewrite !andb_true_iff, !bool_decide_eq_true, eqb_true_iff, !Z.eqb_eq. split.
  - intros E. destruct a as [? [] []], b as [? [] []]. cbn in E. destruct_and! E. subst. repeat eexists.
  - destruct a as [? [] []]. intros (? & ? & ? & ? & ->). done.
Qed.

(** [operator==] is an equivalence relation: it holds exactly between states that
    differ in nothing but the previous technologies; everything such states answer
    (roaming, registration, operator, printed form) is then the same, although
    [GetLastPsRadioTech] and [GetLastCfgTech] may differ. *)
Theorem network_state_equality a b c :
  operator_eq a a = true /\ (operator_eq a b = true -> operator_eq b a = true) /\
  (operator_eq a b = true -> operator_eq b c = true -> operator_eq a c = true) /\
  (operator_eq a b = true <-> same_now a b) /\
  (operator_eq a b = true ->
     IsRoaming a = IsRoaming b /\ GetRegStatus a = GetRegStatus b /\ GetPlmnNumeric a = GetPlmnNumeric b /\
     ToString a = ToString b) /\
  (exists d, operator_eq a d = true /\ GetLastPsRadioTech d <> GetLastPsRadioTech a).
Proof.
  rewrite !operator_eq_same. split_and!.
  - reflexivity.
  - by symmetry.
  - by etransitivity.
  - done.
  - intros E. by rewrite E.
  - exists (set_field FlastPsRadioTech (lastPsRadioTech_ a + 1) a).
    rewrite operator_eq_same. destruct a; cbn. split; [repeat eexists|lia].
Qed.

(** ** Setters *)

(** changing the technology of a domain keeps the previous one: after
    [SetNetworkType] on the PS domain [GetPsRadioTech] is the new technology and
    [GetLastPsRadioTech] the one before, and the CS domain is untouched; on the CS
    domain only the CS technology changes; [SetCfgTech] and the V2 setters likewise,
    independently of each other. *)
Theorem network_type_history tech domain n :
  let n' := SetNetworkType tech domain n in
  let n2 := SetNetworkTypeV2 tech domain n in
  let nc := SetCfgTech tech n in
  (domain = DOMAIN_TYPE_CS ->
     GetCsRadioTech n' = tech /\ GetPsRadioTech n' = GetPsRadioTech n /\ GetLastPsRadioTech n' = GetLastPsRadioTech n /\
     GetCsRadioTechV2 n2 = tech /\ GetPsRadioTechV2 n2 = GetPsRadioTechV2 n /\ GetLastPsRadioTechV2 n2 = GetLastPsRadioTechV2 n) /\
  (domain <> DOMAIN_TYPE_CS ->
     GetPsRadioTech n' = tech /\ GetLastPsRadioTech n' = GetPsRadioTech n /\ GetCsRadioTech n' = GetCsRadioTech n /\
     GetPsRadioTechV2 n2 = tech /\ GetLastPsRadioTechV2 n2 = GetPsRadioTechV2 n /\ GetCsRadioTechV2 n2 = GetCsRadioTechV2 n) /\
  GetCfgTech nc = tech /\ GetLastCfgTech nc = GetCfgTech n /\
  GetPsRadioTech n2 = GetPsRadioTech n /\ GetPsRadioTechV2 n' = GetPsRadioTechV2 n.
Proof.
  unfold SetNetworkType, SetNetworkTypeV2, SetCfgTech, GetCsRadioTech, GetPsRadioTech, GetLastPsRadioTech,
    GetCsRadioTechV2, GetPsRadioTechV2, GetLastPsRadioTechV2, GetCfgTech, GetLastCfgTech.
  destruct n; cbn. destruct (Z.eqb_spec domain DOMAIN_TYPE_CS); cbn; split_and!; try done; intros; split_and!; done.
Qed.

(** [ToString] prints 1 after [isEmergency_] for a state that is not an emergency
    state, and 0 for one that is. *)
Theorem ToString_emergency_inverted n :
  exists rest, ToString n = str "isEmergency_:" ++ str (if IsEmergency n then "0" else "1") ++ rest.
Proof.
  unfold ToString, IsEmergency. destruct (isEmergency_ n); eexists; f_equal.
Qed.
