(* ===== verification/SignalInformation.v ===== *)
(** * [frameworks/native/src/signal_information.cpp]: signal strengths

    One class per radio technology holds the measured values and, when it was set
    explicitly, a signal level; otherwise the level is the number of bars, found by
    comparing the strength with a table of thresholds. The tables and the number of
    bars are global variables, passed here as [SignalGlobals]; every constructor
    calls [InitSignalBar], so constructors return them too. *)

From S2P Require Import Prelude CxxString Parcel.
From stdpp Require Import pretty.
Open Scope Z_scope.

Definition SIGNAL_RSSI_MAXIMUM : Z := -1.
Definition SIGNAL_INTENSITY_INVALID : Z := 0.
Definition SIGNAL_LEVEL_INVALID : Z := 0.
Definition SIGNAL_LEVEL_UNSET : Z := -1.
Definition SIGNAL_FIVE_BARS : Z := 5.
Definition SIGNAL_FOUR_BARS : Z := 4.

(** [enum class NetworkType] *)
Definition NT_UNKNOWN : Z := 0.
Definition NT_GSM : Z := 1.
Definition NT_CDMA : Z := 2.
Definition NT_WCDMA : Z := 3.
Definition NT_TDSCDMA : Z := 4.
Definition NT_LTE : Z := 5.
Definition NT_NR : Z := 6.

Definition GSM_SIGNAL_THRESHOLD_5BAR : list Z := [-110; -109; -103; -97; -91; -85].
Definition CDMA_SIGNAL_THRESHOLD_5BAR : list Z := [-113; -112; -106; -99; -92; -85].
Definition LTE_SIGNAL_THRESHOLD_5BAR : list Z := [-121; -120; -115; -110; -105; -97].
Definition WCDMA_SIGNAL_THRESHOLD_5BAR : list Z := [-113; -112; -105; -99; -93; -87].
Definition TD_SCDMA_SIGNAL_THRESHOLD_5BAR : list Z := [-112; -111; -105; -99; -93; -87].
Definition NR_SIGNAL_THRESHOLD_5BAR : list Z := [-121; -120; -115; -110; -105; -97].
Definition GSM_SIGNAL_THRESHOLD_4BAR : list Z := [-110; -103; -97; -91; -85].
Definition CDMA_SIGNAL_THRESHOLD_4BAR : list Z := [-113; -106; -99; -92; -85].
Definition LTE_SIGNAL_THRESHOLD_4BAR : list Z := [-121; -115; -109; -103; -97].
Definition WCDMA_SIGNAL_THRESHOLD_4BAR : list Z := [-113; -105; -99; -93; -87].
Definition TD_SCDMA_SIGNAL_THRESHOLD_4BAR : list Z := [-112; -105; -99; -93; -87].
Definition NR_SIGNAL_THRESHOLD_4BAR : list Z := [-121; -115; -109; -103; -97].

(** The global variables. *)
Record SignalGlobals : Type := MkGlobals {
  GSM_SIGNAL_THRESHOLD : list Z;
  CDMA_SIGNAL_THRESHOLD : list Z;
  LTE_SIGNAL_THRESHOLD : list Z;
  WCDMA_SIGNAL_THRESHOLD : list Z;
  TD_SCDMA_SIGNAL_THRESHOLD : list Z;
  NR_SIGNAL_THRESHOLD : list Z;
  signalBar_ : Z
}.

Definition InitSignalBar (bar : Z) : SignalGlobals :=
  if bar =? SIGNAL_FOUR_BARS then
    MkGlobals GSM_SIGNAL_THRESHOLD_4BAR CDMA_SIGNAL_THRESHOLD_4BAR LTE_SIGNAL_THRESHOLD_4BAR
      WCDMA_SIGNAL_THRESHOLD_4BAR TD_SCDMA_SIGNAL_THRESHOLD_4BAR NR_SIGNAL_THRESHOLD_4BAR SIGNAL_FOUR_BARS
  else
    MkGlobals GSM_SIGNAL_THRESHOLD_5BAR CDMA_SIGNAL_THRESHOLD_5BAR LTE_SIGNAL_THRESHOLD_5BAR
      WCDMA_SIGNAL_THRESHOLD_5BAR TD_SCDMA_SIGNAL_THRESHOLD_5BAR NR_SIGNAL_THRESHOLD_5BAR SIGNAL_FIVE_BARS.

(** [for (i = signalBar_; i >= 0; --i) if (value >= THRESHOLD\[i\]) { level = i; break; }] *)
Fixpoint level_loop (i : nat) (threshold : list Z) (value : Z) : outcome Z :=
  t ← vec_get threshold (Z.of_nat i);
  if t <=? value then Ret (Z.of_nat i)
  else match i with O => Ret SIGNAL_LEVEL_INVALID | S k => level_loop k threshold value end.

(** [std::to_string] *)
Definition to_string (z : Z) : cstring := str (pretty z).

(** ** GsmSignalInformation *)

Record GsmSignalInformation : Type := MkGsm {
  gsmRxlev_ : Z;
  gsmBer_ : Z;
  gsm_signalLevel_ : Z
}.

Definition Gsm_new (_ : SignalGlobals) : GsmSignalInformation * SignalGlobals := (MkGsm 0 0 SIGNAL_LEVEL_UNSET, InitSignalBar SIGNAL_FIVE_BARS).
Definition Gsm_SetSignalLevel (level : Z) (s : GsmSignalInformation) : GsmSignalInformation := MkGsm (gsmRxlev_ s) (gsmBer_ s) level.
Definition Gsm_assign (s : GsmSignalInformation) : GsmSignalInformation := MkGsm (gsmRxlev_ s) (gsmBer_ s) (gsm_signalLevel_ s).
Definition Gsm_eq (a b : GsmSignalInformation) : bool := (gsmRxlev_ a =? gsmRxlev_ b) && (gsmBer_ a =? gsmBer_ b).
Definition Gsm_SetValue (gsmRssi gsmBer : Z) (s : GsmSignalInformation) : GsmSignalInformation := MkGsm gsmRssi gsmBer (gsm_signalLevel_ s).
Definition Gsm_GetRssi (s : GsmSignalInformation) : Z := gsmRxlev_ s.
Definition Gsm_GetGsmBer (s : GsmSignalInformation) : Z := gsmBer_ s.
Definition ValidateGsmValue (s : GsmSignalInformation) : bool := gsmRxlev_ s <? SIGNAL_RSSI_MAXIMUM.
Definition Gsm_GetSignalIntensity (s : GsmSignalInformation) : Z :=
  if ValidateGsmValue s then Gsm_GetRssi s else SIGNAL_INTENSITY_INVALID.
Definition Gsm_GetSignalLevel (g : SignalGlobals) (s : GsmSignalInformation) : outcome Z :=
  if negb (gsm_signalLevel_ s =? SIGNAL_LEVEL_UNSET) then Ret (gsm_signalLevel_ s)
  else if ValidateGsmValue s then level_loop (Z.to_nat (signalBar_ g)) (GSM_SIGNAL_THRESHOLD g) (Gsm_GetRssi s)
  else Ret SIGNAL_LEVEL_INVALID.
Definition Gsm_GetNetworkType (s : GsmSignalInformation) : Z := NT_GSM.
Definition Gsm_ToString (g : SignalGlobals) (s : GsmSignalInformation) : outcome cstring :=
  let T := to_string in
  level ← Gsm_GetSignalLevel g s;
  Ret
  (str "networkType:" ++ T NT_GSM ++ str ",gsmRxlev:" ++ T (gsmRxlev_ s) ++ str ",signalLevel:" ++ T level ++ str ",gsmBer:" ++ T (gsmBer_ s)).
Definition Gsm_NewInstance (s : GsmSignalInformation) (g : SignalGlobals) : GsmSignalInformation * SignalGlobals :=
  let '(n, g) := Gsm_new g in (Gsm_SetValue (gsmRxlev_ s) (gsmBer_ s) n, g).
Section GsmParcel.
Context {P : Type} `{ParcelOps P}.
Definition Gsm_Marshalling (s : GsmSignalInformation) : wstep P :=
  WriteInt32 NT_GSM ;;w WriteInt32 (gsmRxlev_ s) ;;w WriteInt32 (gsmBer_ s) ;;w WriteInt32 (gsm_signalLevel_ s).
Definition Gsm_ReadFromParcel : rstep P GsmSignalInformation :=
  read_into ReadInt32 (fun v s => MkGsm v (gsmBer_ s) (gsm_signalLevel_ s)) ;;r
  read_into ReadInt32 (fun v s => MkGsm (gsmRxlev_ s) v (gsm_signalLevel_ s)) ;;r
  read_into ReadInt32 Gsm_SetSignalLevel.
Definition Gsm_Unmarshalling (g : SignalGlobals) (p : P) : option GsmSignalInformation * SignalGlobals * P :=
  let '(s, g) := Gsm_new g in
  let '(ok, s, p) := Gsm_ReadFromParcel s p in
  if (ok : bool) then (Some s, g, p) else (None, g, p).
End GsmParcel.

(** ** CdmaSignalInformation *)

Record CdmaSignalInformation : Type := MkCdma {
  cdmaRssi_ : Z;
  cdmaEcno_ : Z;
  cdma_signalLevel_ : Z
}.

Definition Cdma_new (_ : SignalGlobals) : CdmaSignalInformation * SignalGlobals := (MkCdma (-1) (-1) SIGNAL_LEVEL_UNSET, InitSignalBar SIGNAL_FIVE_BARS).
Definition Cdma_SetSignalLevel (level : Z) (s : CdmaSignalInformation) : CdmaSignalInformation := MkCdma (cdmaRssi_ s) (cdmaEcno_ s) level.
Definition Cdma_assign (s : CdmaSignalInformation) : CdmaSignalInformation := MkCdma (cdmaRssi_ s) (cdmaEcno_ s) (cdma_signalLevel_ s).
Definition Cdma_eq (a b : CdmaSignalInformation) : bool := (cdmaRssi_ a =? cdmaRssi_ b) && (cdmaEcno_ a =? cdmaEcno_ b).
Definition Cdma_SetValue (cdmaRssi cdmaEcno : Z) (s : CdmaSignalInformation) : CdmaSignalInformation := MkCdma cdmaRssi cdmaEcno (cdma_signalLevel_ s).
Definition Cdma_GetCdmaRssi (s : CdmaSignalInformation) : Z := cdmaRssi_ s.
Definition ValidateCdmaValue (s : CdmaSignalInformation) : bool := cdmaRssi_ s <? SIGNAL_RSSI_MAXIMUM.
Definition Cdma_GetSignalIntensity (s : CdmaSignalInformation) : Z :=
  if ValidateCdmaValue s then Cdma_GetCdmaRssi s else SIGNAL_INTENSITY_INVALID.
Definition Cdma_GetSignalLevel (g : SignalGlobals) (s : CdmaSignalInformation) : outcome Z :=
  if negb (cdma_signalLevel_ s =? SIGNAL_LEVEL_UNSET) then Ret (cdma_signalLevel_ s)
  else if ValidateCdmaValue s then level_loop (Z.to_nat (signalBar_ g)) (CDMA_SIGNAL_THRESHOLD g) (Cdma_GetCdmaRssi s)
  else Ret SIGNAL_LEVEL_INVALID.
Definition Cdma_GetNetworkType (s : CdmaSignalInformation) : Z := NT_CDMA.
Definition Cdma_ToString (g : SignalGlobals) (s : CdmaSignalInformation) : outcome cstring :=
  let T := to_string in
  level ← Cdma_GetSignalLevel g s;
  Ret
  (str ",networkType:" ++ T NT_CDMA ++ str ",cdmaRssi:" ++ T (cdmaRssi_ s) ++ str ",cdmaEcno:" ++ T (cdmaEcno_ s) ++ str ",signalLevel:" ++ T level).
Definition Cdma_NewInstance (s : CdmaSignalInformation) (g : SignalGlobals) : CdmaSignalInformation * SignalGlobals :=
  let '(n, g) := Cdma_new g in (Cdma_SetValue (cdmaRssi_ s) (cdmaEcno_ s) n, g).
Section CdmaParcel.
Context {P : Type} `{ParcelOps P}.
Definition Cdma_Marshalling (s : CdmaSignalInformation) : wstep P :=
  WriteInt32 NT_CDMA ;;w WriteInt32 (cdmaRssi_ s) ;;w WriteInt32 (cdmaEcno_ s) ;;w WriteInt32 (cdma_signalLevel_ s).
Definition Cdma_ReadFromParcel : rstep P CdmaSignalInformation :=
  read_into ReadInt32 (fun v s => MkCdma v (cdmaEcno_ s) (cdma_signalLevel_ s)) ;;r
  read_into ReadInt32 (fun v s => MkCdma (cdmaRssi_ s) v (cdma_signalLevel_ s)) ;;r
  read_into ReadInt32 Cdma_SetSignalLevel.
Definition Cdma_Unmarshalling (g : SignalGlobals) (p : P) : option CdmaSignalInformation * SignalGlobals * P :=
  let '(s, g) := Cdma_new g in
  let '(ok, s, p) := Cdma_ReadFromParcel s p in
  if (ok : bool) then (Some s, g, p) else (None, g, p).
End CdmaParcel.

(** ** LteSignalInformation *)

Record LteSignalInformation : Type := MkLte {
  rxlev_ : Z;
  lteRsrp_ : Z;
  lteRsrq_ : Z;
  lteSnr_ : Z;
  lte_signalLevel_ : Z
}.

Definition Lte_new (_ : SignalGlobals) : LteSignalInformation * SignalGlobals := (MkLte 0 0 0 0 SIGNAL_LEVEL_UNSET, InitSignalBar SIGNAL_FIVE_BARS).
Definition Lte_SetSignalLevel (level : Z) (s : LteSignalInformation) : LteSignalInformation := MkLte (rxlev_ s) (lteRsrp_ s) (lteRsrq_ s) (lteSnr_ s) level.
Definition Lte_assign (s : LteSignalInformation) : LteSignalInformation := MkLte (rxlev_ s) (lteRsrp_ s) (lteRsrq_ s) (lteSnr_ s) (lte_signalLevel_ s).
Definition Lte_eq (a b : LteSignalInformation) : bool := (rxlev_ a =? rxlev_ b) && (lteRsrp_ a =? lteRsrp_ b) && (lteRsrq_ a =? lteRsrq_ b) && (lteSnr_ a =? lteSnr_ b).
Definition Lte_SetValue (rxlev lteRsrp lteRsrq lteSnr : Z) (s : LteSignalInformation) : LteSignalInformation := MkLte rxlev lteRsrp lteRsrq lteSnr (lte_signalLevel_ s).
Definition Lte_GetRxlev (s : LteSignalInformation) : Z := rxlev_ s.
Definition Lte_GetRsrp (s : LteSignalInformation) : Z := lteRsrp_ s.
Definition Lte_GetRsrq (s : LteSignalInformation) : Z := lteRsrq_ s.
Definition Lte_GetSnr (s : LteSignalInformation) : Z := lteSnr_ s.
Definition ValidateLteValue (s : LteSignalInformation) : bool := lteRsrp_ s <? SIGNAL_RSSI_MAXIMUM.
Definition Lte_GetSignalIntensity (s : LteSignalInformation) : Z :=
  if ValidateLteValue s then Lte_GetRsrp s else SIGNAL_INTENSITY_INVALID.
Definition Lte_GetSignalLevel (g : SignalGlobals) (s : LteSignalInformation) : outcome Z :=
  if negb (lte_signalLevel_ s =? SIGNAL_LEVEL_UNSET) then Ret (lte_signalLevel_ s)
  else if ValidateLteValue s then level_loop (Z.to_nat (signalBar_ g)) (LTE_SIGNAL_THRESHOLD g) (Lte_GetRsrp s)
  else Ret SIGNAL_LEVEL_INVALID.
Definition Lte_GetNetworkType (s : LteSignalInformation) : Z := NT_LTE.
Definition Lte_ToString (g : SignalGlobals) (s : LteSignalInformation) : outcome cstring :=
  let T := to_string in
  level ← Lte_GetSignalLevel g s;
  Ret
  (str "networkType:" ++ T NT_LTE ++ str ",lteRsrp:" ++ T (lteRsrp_ s) ++ str ",lteRsrq:" ++ T (lteRsrq_ s) ++ str ",lteSnr:" ++ T (lteSnr_ s) ++
   str ",lteRxlev:" ++ T (rxlev_ s) ++ str ",signalLevel:" ++ T level).
Definition Lte_NewInstance (s : LteSignalInformation) (g : SignalGlobals) : LteSignalInformation * SignalGlobals :=
  let '(n, g) := Lte_new g in (Lte_SetValue (rxlev_ s) (lteRsrp_ s) (lteRsrq_ s) (lteSnr_ s) n, g).
Section LteParcel.
Context {P : Type} `{ParcelOps P}.
Definition Lte_Marshalling (s : LteSignalInformation) : wstep P :=
  WriteInt32 NT_LTE ;;w WriteInt32 (rxlev_ s) ;;w WriteInt32 (lteRsrp_ s) ;;w WriteInt32 (lteRsrq_ s) ;;w WriteInt32 (lteSnr_ s) ;;w WriteInt32 (lte_signalLevel_ s).
Definition Lte_ReadFromParcel : rstep P LteSignalInformation :=
  read_into ReadInt32 (fun v s => MkLte v (lteRsrp_ s) (lteRsrq_ s) (lteSnr_ s) (lte_signalLevel_ s)) ;;r
  read_into ReadInt32 (fun v s => MkLte (rxlev_ s) v (lteRsrq_ s) (lteSnr_ s) (lte_signalLevel_ s)) ;;r
  read_into ReadInt32 (fun v s => MkLte (rxlev_ s) (lteRsrp_ s) v (lteSnr_ s) (lte_signalLevel_ s)) ;;r
  read_into ReadInt32 (fun v s => MkLte (rxlev_ s) (lteRsrp_ s) (lteRsrq_ s) v (lte_signalLevel_ s)) ;;r
  read_into ReadInt32 Lte_SetSignalLevel.
Definition Lte_Unmarshalling (g : SignalGlobals) (p : P) : option LteSignalInformation * SignalGlobals * P :=
  let '(s, g) := Lte_new g in
  let '(ok, s, p) := Lte_ReadFromParcel s p in
  if (ok : bool) then (Some s, g, p) else (None, g, p).
End LteParcel.

(** ** WcdmaSignalInformation *)

Record WcdmaSignalInformation : Type := MkWcdma {
  wcdmaRxlev_ : Z;
  wcdmaRscp_ : Z;
  wcdmaEcio_ : Z;
  wcdmaBer_ : Z;
  wcdma_signalLevel_ : Z
}.

Definition Wcdma_new (_ : SignalGlobals) : WcdmaSignalInformation * SignalGlobals := (MkWcdma 0 0 0 0 SIGNAL_LEVEL_UNSET, InitSignalBar SIGNAL_FIVE_BARS).
Definition Wcdma_SetSignalLevel (level : Z) (s : WcdmaSignalInformation) : WcdmaSignalInformation := MkWcdma (wcdmaRxlev_ s) (wcdmaRscp_ s) (wcdmaEcio_ s) (wcdmaBer_ s) level.
Definition Wcdma_assign (s : WcdmaSignalInformation) : WcdmaSignalInformation := MkWcdma (wcdmaRxlev_ s) (wcdmaRscp_ s) (wcdmaEcio_ s) (wcdmaBer_ s) (wcdma_signalLevel_ s).
Definition Wcdma_eq (a b : WcdmaSignalInformation) : bool := (wcdmaRxlev_ a =? wcdmaRxlev_ b) && (wcdmaRscp_ a =? wcdmaRscp_ b) && (wcdmaEcio_ a =? wcdmaEcio_ b) && (wcdmaBer_ a =? wcdmaBer_ b).
Definition Wcdma_SetValue (wcdmaRxlev wcdmaRscp wcdmaEcio wcdmaBer : Z) (s : WcdmaSignalInformation) : WcdmaSignalInformation := MkWcdma wcdmaRxlev wcdmaRscp wcdmaEcio wcdmaBer (wcdma_signalLevel_ s).
Definition Wcdma_GetRxlev (s : WcdmaSignalInformation) : Z := wcdmaRxlev_ s.
Definition Wcdma_GetRscp (s : WcdmaSignalInformation) : Z := wcdmaRscp_ s.
Definition Wcdma_GetEcno (s : WcdmaSignalInformation) : Z := wcdmaEcio_ s.
Definition Wcdma_GetBer (s : WcdmaSignalInformation) : Z := wcdmaBer_ s.
Definition ValidateWcdmaValue (s : WcdmaSignalInformation) : bool := wcdmaRscp_ s <? SIGNAL_RSSI_MAXIMUM.
Definition Wcdma_GetSignalIntensity (s : WcdmaSignalInformation) : Z :=
  if ValidateWcdmaValue s then Wcdma_GetRscp s else SIGNAL_INTENSITY_INVALID.
Definition Wcdma_GetSignalLevel (g : SignalGlobals) (s : WcdmaSignalInformation) : outcome Z :=
  if negb (wcdma_signalLevel_ s =? SIGNAL_LEVEL_UNSET) then Ret (wcdma_signalLevel_ s)
  else if ValidateWcdmaValue s then level_loop (Z.to_nat (signalBar_ g)) (WCDMA_SIGNAL_THRESHOLD g) (Wcdma_GetRscp s)
  else Ret SIGNAL_LEVEL_INVALID.
Definition Wcdma_GetNetworkType (s : WcdmaSignalInformation) : Z := NT_WCDMA.
Definition Wcdma_ToString (g : SignalGlobals) (s : WcdmaSignalInformation) : outcome cstring :=
  let T := to_string in
  level ← Wcdma_GetSignalLevel g s;
  Ret
  (str "networkType:" ++ T NT_WCDMA ++ str ",wcdmaRscp:" ++ T (wcdmaRscp_ s) ++ str ",wcdmaEcio:" ++ T (wcdmaEcio_ s) ++ str ",wcdmaBer:" ++ T (wcdmaBer_ s) ++
   str ",wcdmaRxlev:" ++ T (wcdmaRxlev_ s) ++ str ",signalLevel:" ++ T level).
Definition Wcdma_NewInstance (s : WcdmaSignalInformation) (g : SignalGlobals) : WcdmaSignalInformation * SignalGlobals :=
  let '(n, g) := Wcdma_new g in (Wcdma_SetValue (wcdmaRxlev_ s) (wcdmaRscp_ s) (wcdmaEcio_ s) (wcdmaBer_ s) n, g).
Section WcdmaParcel.
Context {P : Type} `{ParcelOps P}.
Definition Wcdma_Marshalling (s : WcdmaSignalInformation) : wstep P :=
  WriteInt32 NT_WCDMA ;;w WriteInt32 (wcdmaRxlev_ s) ;;w WriteInt32 (wcdmaRscp_ s) ;;w WriteInt32 (wcdmaEcio_ s) ;;w WriteInt32 (wcdmaBer_ s) ;;w WriteInt32 (wcdma_signalLevel_ s).
Definition Wcdma_ReadFromParcel : rstep P WcdmaSignalInformation :=
  read_into ReadInt32 (fun v s => MkWcdma v (wcdmaRscp_ s) (wcdmaEcio_ s) (wcdmaBer_ s) (wcdma_signalLevel_ s)) ;;r
  read_into ReadInt32 (fun v s => MkWcdma (wcdmaRxlev_ s) v (wcdmaEcio_ s) (wcdmaBer_ s) (wcdma_signalLevel_ s)) ;;r
  read_into ReadInt32 (fun v s => MkWcdma (wcdmaRxlev_ s) (wcdmaRscp_ s) v (wcdmaBer_ s) (wcdma_signalLevel_ s)) ;;r
  read_into ReadInt32 (fun v s => MkWcdma (wcdmaRxlev_ s) (wcdmaRscp_ s) (wcdmaEcio_ s) v (wcdma_signalLevel_ s)) ;;r
  read_into ReadInt32 Wcdma_SetSignalLevel.
Definition Wcdma_Unmarshalling (g : SignalGlobals) (p : P) : option WcdmaSignalInformation * SignalGlobals * P :=
  let '(s, g) := Wcdma_new g in
  let '(ok, s, p) := Wcdma_ReadFromParcel s p in
  if (ok : bool) then (Some s, g, p) else (None, g, p).
End WcdmaParcel.

(** ** TdScdmaSignalInformation *)

Record TdScdmaSignalInformation : Type := MkTdScdma {
  tdScdmaRscp_ : Z;
  tdScdma_signalLevel_ : Z
}.

Definition TdScdma_new (_ : SignalGlobals) : TdScdmaSignalInformation * SignalGlobals := (MkTdScdma 0 SIGNAL_LEVEL_UNSET, InitSignalBar SIGNAL_FIVE_BARS).
Definition TdScdma_SetSignalLevel (level : Z) (s : TdScdmaSignalInformation) : TdScdmaSignalInformation := MkTdScdma (tdScdmaRscp_ s) level.
Definition TdScdma_assign (s : TdScdmaSignalInformation) : TdScdmaSignalInformation := MkTdScdma (tdScdmaRscp_ s) (tdScdma_signalLevel_ s).
Definition TdScdma_eq (a b : TdScdmaSignalInformation) : bool := (tdScdmaRscp_ a =? tdScdmaRscp_ b).
Definition TdScdma_SetValue (tdScdmaRscp : Z) (s : TdScdmaSignalInformation) : TdScdmaSignalInformation := MkTdScdma tdScdmaRscp (tdScdma_signalLevel_ s).
Definition TdScdma_GetRscp (s : TdScdmaSignalInformation) : Z := tdScdmaRscp_ s.
Definition ValidateTdScdmaValue (s : TdScdmaSignalInformation) : bool := tdScdmaRscp_ s <? SIGNAL_RSSI_MAXIMUM.
Definition TdScdma_GetSignalIntensity (s : TdScdmaSignalInformation) : Z :=
  if ValidateTdScdmaValue s then TdScdma_GetRscp s else SIGNAL_INTENSITY_INVALID.
Definition TdScdma_GetSignalLevel (g : SignalGlobals) (s : TdScdmaSignalInformation) : outcome Z :=
  if negb (tdScdma_signalLevel_ s =? SIGNAL_LEVEL_UNSET) then Ret (tdScdma_signalLevel_ s)
  else if ValidateTdScdmaValue s then level_loop (Z.to_nat (signalBar_ g)) (TD_SCDMA_SIGNAL_THRESHOLD g) (TdScdma_GetRscp s)
  else Ret SIGNAL_LEVEL_INVALID.
Definition TdScdma_GetNetworkType (s : TdScdmaSignalInformation) : Z := NT_TDSCDMA.
Definition TdScdma_ToString (g : SignalGlobals) (s : TdScdmaSignalInformation) : outcome cstring :=
  let T := to_string in
  level ← TdScdma_GetSignalLevel g s;
  Ret
  (str "networkType:" ++ T NT_TDSCDMA ++ str ",tdScdmaRscp:" ++ T (tdScdmaRscp_ s) ++ str ",signalLevel:" ++ T level).
Definition TdScdma_NewInstance (s : TdScdmaSignalInformation) (g : SignalGlobals) : TdScdmaSignalInformation * SignalGlobals :=
  let '(n, g) := TdScdma_new g in (TdScdma_SetValue (tdScdmaRscp_ s) n, g).
Section TdScdmaParcel.
Context {P : Type} `{ParcelOps P}.
Definition TdScdma_Marshalling (s : TdScdmaSignalInformation) : wstep P :=
  WriteInt32 NT_TDSCDMA ;;w WriteInt32 (tdScdmaRscp_ s) ;;w WriteInt32 (tdScdma_signalLevel_ s).
Definition TdScdma_ReadFromParcel : rstep P TdScdmaSignalInformation :=
  read_into ReadInt32 (fun v s => MkTdScdma v (tdScdma_signalLevel_ s)) ;;r
  read_into ReadInt32 TdScdma_SetSignalLevel.
Definition TdScdma_Unmarshalling (g : SignalGlobals) (p : P) : option TdScdmaSignalInformation * SignalGlobals * P :=
  let '(s, g) := TdScdma_new g in
  let '(ok, s, p) := TdScdma_ReadFromParcel s p in
  if (ok : bool) then (Some s, g, p) else (None, g, p).
End TdScdmaParcel.

(** ** NrSignalInformation *)

Record NrSignalInformation : Type := MkNr {
  nrRsrp_ : Z;
  nrRsrq_ : Z;
  nrSinr_ : Z;
  nr_signalLevel_ : Z
}.

Definition Nr_new (_ : SignalGlobals) : NrSignalInformation * SignalGlobals := (MkNr 0 0 0 SIGNAL_LEVEL_UNSET, InitSignalBar SIGNAL_FIVE_BARS).
Definition Nr_SetSignalLevel (level : Z) (s : NrSignalInformation) : NrSignalInformation := MkNr (nrRsrp_ s) (nrRsrq_ s) (nrSinr_ s) level.
Definition Nr_assign (s : NrSignalInformation) : NrSignalInformation := MkNr (nrRsrp_ s) (nrRsrq_ s) (nrSinr_ s) (nr_signalLevel_ s).
Definition Nr_eq (a b : NrSignalInformation) : bool := (nrRsrp_ a =? nrRsrp_ b) && (nrRsrq_ a =? nrRsrq_ b) && (nrSinr_ a =? nrSinr_ b).
Definition Nr_SetValue (rsrp rsrq sinr : Z) (s : NrSignalInformation) : NrSignalInformation := MkNr rsrp rsrq sinr (nr_signalLevel_ s).
Definition Nr_GetRsrp (s : NrSignalInformation) : Z := nrRsrp_ s.
Definition Nr_GetRsrq (s : NrSignalInformation) : Z := nrRsrq_ s.
Definition Nr_GetSinr (s : NrSignalInformation) : Z := nrSinr_ s.
Definition ValidateNrValue (s : NrSignalInformation) : bool := nrRsrp_ s <? SIGNAL_RSSI_MAXIMUM.
Definition Nr_GetSignalIntensity (s : NrSignalInformation) : Z :=
  if ValidateNrValue s then Nr_GetRsrp s else SIGNAL_INTENSITY_INVALID.
Definition Nr_GetSignalLevel (g : SignalGlobals) (s : NrSignalInformation) : outcome Z :=
  if negb (nr_signalLevel_ s =? SIGNAL_LEVEL_UNSET) then Ret (nr_signalLevel_ s)
  else if ValidateNrValue s then level_loop (Z.to_nat (signalBar_ g)) (NR_SIGNAL_THRESHOLD g) (Nr_GetRsrp s)
  else Ret SIGNAL_LEVEL_INVALID.
Definition Nr_GetNetworkType (s : NrSignalInformation) : Z := NT_NR.
Definition Nr_ToString (g : SignalGlobals) (s : NrSignalInformation) : outcome cstring :=
  let T := to_string in
  level ← Nr_GetSignalLevel g s;
  Ret
  (str "networkType:" ++ T NT_NR ++ str ",nrRsrp:" ++ T (nrRsrp_ s) ++ str ",nrRsrq:" ++ T (nrRsrq_ s) ++ str ",nrSinr:" ++ T (nrSinr_ s) ++
   str ",signalLevel:" ++ T level).
Definition Nr_NewInstance (s : NrSignalInformation) (g : SignalGlobals) : NrSignalInformation * SignalGlobals :=
  let '(n, g) := Nr_new g in (Nr_SetValue (nrRsrp_ s) (nrRsrq_ s) (nrSinr_ s) n, g).
Section NrParcel.
Context {P : Type} `{ParcelOps P}.
Definition Nr_Marshalling (s : NrSignalInformation) : wstep P :=
  WriteInt32 NT_NR ;;w WriteInt32 (nrRsrp_ s) ;;w WriteInt32 (nrRsrq_ s) ;;w WriteInt32 (nrSinr_ s) ;;w WriteInt32 (nr_signalLevel_ s).
Definition Nr_ReadFromParcel : rstep P NrSignalInformation :=
  read_into ReadInt32 (fun v s => MkNr v (nrRsrq_ s) (nrSinr_ s) (nr_signalLevel_ s)) ;;r
  read_into ReadInt32 (fun v s => MkNr (nrRsrp_ s) v (nrSinr_ s) (nr_signalLevel_ s)) ;;r
  read_into ReadInt32 (fun v s => MkNr (nrRsrp_ s) (nrRsrq_ s) v (nr_signalLevel_ s)) ;;r
  read_into ReadInt32 Nr_SetSignalLevel.
Definition Nr_Unmarshalling (g : SignalGlobals) (p : P) : option NrSignalInformation * SignalGlobals * P :=
  let '(s, g) := Nr_new g in
  let '(ok, s, p) := Nr_ReadFromParcel s p in
  if (ok : bool) then (Some s, g, p) else (None, g, p).
End NrParcel.
(** ** The base class: dynamic dispatch *)

Inductive SignalInformation : Type :=
| SGsm (s : GsmSignalInformation)
| SCdma (s : CdmaSignalInformation)
| SLte (s : LteSignalInformation)
| SWcdma (s : WcdmaSignalInformation)
| STdScdma (s : TdScdmaSignalInformation)
| SNr (s : NrSignalInformation).

Definition GetNetworkType (s : SignalInformation) : Z :=
  match s with
  | SGsm s => Gsm_GetNetworkType s | SCdma s => Cdma_GetNetworkType s | SLte s => Lte_GetNetworkType s
  | SWcdma s => Wcdma_GetNetworkType s | STdScdma s => TdScdma_GetNetworkType s | SNr s => Nr_GetNetworkType s
  end.

Definition GetSignalIntensity (s : SignalInformation) : Z :=
  match s with
  | SGsm s => Gsm_GetSignalIntensity s | SCdma s => Cdma_GetSignalIntensity s | SLte s => Lte_GetSignalIntensity s
  | SWcdma s => Wcdma_GetSignalIntensity s | STdScdma s => TdScdma_GetSignalIntensity s | SNr s => Nr_GetSignalIntensity s
  end.

Definition GetSignalLevel (g : SignalGlobals) (s : SignalInformation) : outcome Z :=
  match s with
  | SGsm s => Gsm_GetSignalLevel g s | SCdma s => Cdma_GetSignalLevel g s | SLte s => Lte_GetSignalLevel g s
  | SWcdma s => Wcdma_GetSignalLevel g s | STdScdma s => TdScdma_GetSignalLevel g s | SNr s => Nr_GetSignalLevel g s
  end.

Definition SetSignalLevel (level : Z) (s : SignalInformation) : SignalInformation :=
  match s with
  | SGsm s => SGsm (Gsm_SetSignalLevel level s) | SCdma s => SCdma (Cdma_SetSignalLevel level s)
  | SLte s => SLte (Lte_SetSignalLevel level s) | SWcdma s => SWcdma (Wcdma_SetSignalLevel level s)
  | STdScdma s => STdScdma (TdScdma_SetSignalLevel level s) | SNr s => SNr (Nr_SetSignalLevel level s)
  end.

Definition NewInstance (s : SignalInformation) (g : SignalGlobals) : SignalInformation * SignalGlobals :=
  match s with
  | SGsm s => let '(n, g) := Gsm_NewInstance s g in (SGsm n, g)
  | SCdma s => let '(n, g) := Cdma_NewInstance s g in (SCdma n, g)
  | SLte s => let '(n, g) := Lte_NewInstance s g in (SLte n, g)
  | SWcdma s => let '(n, g) := Wcdma_NewInstance s g in (SWcdma n, g)
  | STdScdma s => let '(n, g) := TdScdma_NewInstance s g in (STdScdma n, g)
  | SNr s => let '(n, g) := Nr_NewInstance s g in (SNr n, g)
  end.

Definition Marshalling {P} `{ParcelOps P} (s : SignalInformation) : wstep P :=
  match s with
  | SGsm s => Gsm_Marshalling s | SCdma s => Cdma_Marshalling s | SLte s => Lte_Marshalling s
  | SWcdma s => Wcdma_Marshalling s | STdScdma s => TdScdma_Marshalling s | SNr s => Nr_Marshalling s
  end.

Definition ToString (g : SignalGlobals) (s : SignalInformation) : outcome cstring :=
  match s with
  | SGsm s => Gsm_ToString g s | SCdma s => Cdma_ToString g s | SLte s => Lte_ToString g s
  | SWcdma s => Wcdma_ToString g s | STdScdma s => TdScdma_ToString g s | SNr s => Nr_ToString g s
  end.

Example lte_level_ex :
  GetSignalLevel (InitSignalBar 4) (SLte (MkLte 0 (-104) 0 0 SIGNAL_LEVEL_UNSET)) = Ret 2.
Proof. reflexivity. Qed.
Example nr_string_ex :
  ToString (InitSignalBar 5) (SNr (MkNr (-100) (-10) 12 SIGNAL_LEVEL_UNSET)) =
  Ret (str "networkType:6,nrRsrp:-100,nrRsrq:-10,nrSinr:12,signalLevel:4").
Proof. reflexivity. Qed.

(** ** Bars *)

Definition strength (s : SignalInformation) : Z :=
  match s with
  | SGsm s => gsmRxlev_ s | SCdma s => cdmaRssi_ s | SLte s => lteRsrp_ s
  | SWcdma s => wcdmaRscp_ s | STdScdma s => tdScdmaRscp_ s | SNr s => nrRsrp_ s
  end.
Definition thresholds (g : SignalGlobals) (s : SignalInformation) : list Z :=
  match s with
  | SGsm _ => GSM_SIGNAL_THRESHOLD g | SCdma _ => CDMA_SIGNAL_THRESHOLD g | SLte _ => LTE_SIGNAL_THRESHOLD g
  | SWcdma _ => WCDMA_SIGNAL_THRESHOLD g | STdScdma _ => TD_SCDMA_SIGNAL_THRESHOLD g | SNr _ => NR_SIGNAL_THRESHOLD g
  end.
Definition set_level (s : SignalInformation) : Z :=
  match s with
  | SGsm s => gsm_signalLevel_ s | SCdma s => cdma_signalLevel_ s | SLte s => lte_signalLevel_ s
  | SWcdma s => wcdma_signalLevel_ s | STdScdma s => tdScdma_signalLevel_ s | SNr s => nr_signalLevel_ s
  end.

(** Every class computes its level in the same way. *)
Lemma GetSignalLevel_uniform g s :
  GetSignalLevel g s =
  if negb (set_level s =? SIGNAL_LEVEL_UNSET) then Ret (set_level s)
  else if strength s <? SIGNAL_RSSI_MAXIMUM then level_loop (Z.to_nat (signalBar_ g)) (thresholds g s) (strength s)
  else Ret SIGNAL_LEVEL_INVALID.
Proof. by destruct s. Qed.

(** Thresholds that increase. *)
Definition increasing (T : list Z) : Prop :=
  forall i j a b, (i < j)%nat -> T !! i = Some a -> T !! j = Some b -> a < b.

Lemma increasing_cons a b T : a < b -> increasing (b :: T) -> increasing (a :: b :: T).
Proof.
  intros L H [|i] [|j] x y Hij Hx Hy; try lia.
  - cbn in Hx. injection Hx as <-. destruct j as [|j]; cbn in Hy; [injection Hy as <-; lia|].
    pose proof (H 0%nat (S j) b y ltac:(lia) eq_refl Hy). lia.
  - apply (H i j x y); [lia|done|done].
Qed.

Lemma increasing_one a : increasing [a].
Proof. intros [|i] [|j] x y Hij Hx Hy; try lia; by destruct j. Qed.

Lemma level_loop_bars T v i : increasing T -> (i < length T)%nat ->
  exists level, level_loop i T v = Ret level /\ 0 <= level <= Z.of_nat i /\
    forall k t, (1 <= k <= i)%nat -> T !! k = Some t -> (Z.of_nat k <= level <-> t <= v).
Proof.
  intros HT. induction i as [|i IH]; intros Hi.
  - destruct (vec_get_in T 0) as (t & G & _); [unfold zlen; lia|]. cbn [level_loop]. change (Z.of_nat 0) with 0. rewrite G.
    cbn [mbind outcome_bind]. exists 0. split; [by destruct (t <=? v)|]. split; [lia|]. intros; lia.
  - destruct (vec_get_in T (Z.of_nat (S i))) as (t & G & L); [unfold zlen; lia|]. cbn [level_loop]. rewrite G.
    cbn [mbind outcome_bind]. rewrite Nat2Z.id in L. destruct (Z.leb_spec t v).
    + exists (Z.of_nat (S i)). split; [done|]. split; [lia|]. intros k x Hk Hx. split; [|lia]. intros _.
      destruct (decide (k = S i)) as [->|]; [rewrite L in Hx; injection Hx as <-; lia|].
      pose proof (HT k (S i) x t ltac:(lia) Hx L). lia.
    + destruct IH as (level & E & R & B); [lia|]. exists level. split; [done|]. split; [lia|]. intros k x Hk Hx.
      destruct (decide (k = S i)) as [->|]; [rewrite L in Hx; injection Hx as <-; lia|]. apply B; [lia|done].
Qed.

Lemma thresholds_increasing bar s :
  increasing (thresholds (InitSignalBar bar) s) /\
  Z.of_nat (length (thresholds (InitSignalBar bar) s)) = signalBar_ (InitSignalBar bar) + 1.
Proof.
  unfold InitSignalBar. destruct (bar =? SIGNAL_FOUR_BARS); destruct s; (split; [|done]); cbn [thresholds];
    repeat (apply increasing_cons; [lia|]); apply increasing_one.
Qed.

(** for every technology and both configurations, [GetSignalLevel] reads inside
    the threshold table and, for a signal whose level was not set, shows between 0 and
    [signalBar_] bars, bar [k] exactly when the strength reaches the [k]-th threshold;
    a strength of -1 or more is invalid and shows none; a level that was set is
    returned as it is. A stronger signal never shows fewer bars. *)
Theorem signal_bars bar s s' :
  let g := InitSignalBar bar in
  (set_level s <> SIGNAL_LEVEL_UNSET -> GetSignalLevel g s = Ret (set_level s)) /\
  (set_level s = SIGNAL_LEVEL_UNSET -> SIGNAL_RSSI_MAXIMUM <= strength s -> GetSignalLevel g s = Ret 0) /\
  (set_level s = SIGNAL_LEVEL_UNSET -> strength s < SIGNAL_RSSI_MAXIMUM ->
   exists level, GetSignalLevel g s = Ret level /\ 0 <= level <= signalBar_ g /\
     (forall k t, 1 <= k <= signalBar_ g -> thresholds g s !! Z.to_nat k = Some t -> (k <= level <-> t <= strength s)) /\
     (GetNetworkType s' = GetNetworkType s -> set_level s' = SIGNAL_LEVEL_UNSET ->
      strength s <= strength s' < SIGNAL_RSSI_MAXIMUM -> exists level', GetSignalLevel g s' = Ret level' /\ level <= level')).
Proof.
  intros g. rewrite !GetSignalLevel_uniform. split; [|split].
  - intros H. by destruct (Z.eqb_spec (set_level s) SIGNAL_LEVEL_UNSET).
  - intros -> H. change (_ =? _) with true at 1. cbn [negb]. by destruct (Z.ltb_spec (strength s) SIGNAL_RSSI_MAXIMUM); [lia|].
  - intros -> H. change (SIGNAL_LEVEL_UNSET =? SIGNAL_LEVEL_UNSET) with true. cbn [negb].
    destruct (Z.ltb_spec (strength s) SIGNAL_RSSI_MAXIMUM); [|lia].
    destruct (thresholds_increasing bar s) as [HT HL]. fold g in HT, HL.
    assert (0 <= signalBar_ g) by (unfold g, InitSignalBar; by destruct (_ =? _)).
    destruct (level_loop_bars (thresholds g s) (strength s) (Z.to_nat (signalBar_ g)) HT) as (level & E & R & B); [lia|].
    exists level. split; [exact E|]. split; [lia|]. split.
    + intros k t Hk Ht. rewrite <- (Z2Nat.id k) at 1 by lia. apply B; [lia|done].
    + intros HN HU HV.
      assert (thresholds g s' = thresholds g s) as ET by (by destruct s, s').
      rewrite HU. change (SIGNAL_LEVEL_UNSET =? SIGNAL_LEVEL_UNSET) with true. cbn [negb].
      destruct (Z.ltb_spec (strength s') SIGNAL_RSSI_MAXIMUM); [|lia]. rewrite ET.
      destruct (level_loop_bars (thresholds g s) (strength s') (Z.to_nat (signalBar_ g)) HT) as (level' & E' & R' & B'); [lia|].
      exists level'. split; [done|]. destruct (decide (level <= level')) as [|L]; [done|].
      destruct (lookup_lt_is_Some_2 (thresholds g s) (Z.to_nat level)) as [t Ht]; [lia|].
      pose proof (B (Z.to_nat level) t ltac:(lia) Ht). pose proof (B' (Z.to_nat level) t ltac:(lia) Ht). lia.
Qed.

Lemma signal_bars_witness :
  exists level level', GetSignalLevel (InitSignalBar 5) (SLte (MkLte 0 (-110) 0 0 (-1))) = Ret level /\
    GetSignalLevel (InitSignalBar 5) (SLte (MkLte 0 (-98) 0 0 (-1))) = Ret level' /\ level <= level'.
Proof.
  destruct (signal_bars 5 (SLte (MkLte 0 (-110) 0 0 (-1))) (SLte (MkLte 0 (-98) 0 0 (-1)))) as (_ & _ & H).
  destruct H as (level & E & _ & _ & M); [reflexivity|reflexivity|].
  destruct M as (level' & E' & L); [reflexivity|reflexivity|vm_compute; split; [discriminate|reflexivity]|].
  exists level, level'. split; [exact E|]. split; [exact E'|exact L].
Defined.

(** ** Copies *)

(** [NewInstance] copies the measured values but not a level that was set, which
    becomes unset in the copy, and puts the whole process back to five bars, because
    the constructor of the base class calls [InitSignalBar] with its default. *)
Theorem NewInstance_copy g s :
  let '(n, g') := NewInstance s g in
  n = SetSignalLevel SIGNAL_LEVEL_UNSET s /\ g' = InitSignalBar SIGNAL_FIVE_BARS.
Proof. by destruct s as [[]|[]|[]|[]|[]|[]]. Qed.
