(* ===== verification/SignalInfo.v ===== *)
(** * Signal strengths in the service and over IPC

    [services/network_search/src/signal_info.cpp]: [SignalInfo] keeps the last
    measurements of a slot and notifies when one of them changes. The functions
    [processSignalInfos_] and [sortSignalInfoListExt_] come from an optional vendor
    library and are parameters. [services/core/src/core_service_stub.cpp] writes the
    list of signals to the reply, [frameworks/native/src/core_service_proxy.cpp] reads
    it back in the client. *)

From S2P Require Import Prelude CxxString Parcel SignalInformation.

(** ** Reports of the modem *)

Record GsmRssi : Type := MkGsmRssi { gsm_rxlev : Z; gsm_ber : Z }.
Record CdmaRssi : Type := MkCdmaRssi { cdma_absoluteRssi : Z; cdma_ecno : Z }.
Record WCdmaRssi : Type := MkWCdmaRssi { wcdma_rxlev : Z; wcdma_ecio : Z; wcdma_rscp : Z; wcdma_ber : Z }.
Record LteRssi : Type := MkLteRssi { lte_rxlev : Z; lte_rsrq : Z; lte_rsrp : Z; lte_snr : Z }.
Record TdScdmaRssi : Type := MkTdScdmaRssi { tdScdma_rscp : Z }.
Record NrRssi : Type := MkNrRssi { nr_rsrp : Z; nr_rsrq : Z; nr_sinr : Z }.
Record Rssi : Type := MkRssi {
  r_gw : GsmRssi; r_cdma : CdmaRssi; r_wcdma : WCdmaRssi; r_lte : LteRssi; r_tdScdma : TdScdmaRssi; r_nr : NrRssi
}.

(** ** The state of a slot *)

Record SignalInformations : Type := MkSignals {
  gsm : GsmSignalInformation;
  cdma : CdmaSignalInformation;
  lte : LteSignalInformation;
  wcdma : WcdmaSignalInformation;
  tdScdma : TdScdmaSignalInformation;
  nr : NrSignalInformation
}.

Definition SignalInformations_Init (s : SignalInformations) : SignalInformations :=
  MkSignals (Gsm_SetValue 0 0 (gsm s)) (Cdma_SetValue 0 0 (cdma s)) (Lte_SetValue 0 0 0 0 (lte s))
    (Wcdma_SetValue 0 0 0 0 (wcdma s)) (TdScdma_SetValue 0 (tdScdma s)) (Nr_SetValue 0 0 0 (nr s)).

Definition SignalInformations_new (g : SignalGlobals) : SignalInformations * SignalGlobals :=
  let '(a, g) := Gsm_new g in
  let '(b, g) := Cdma_new g in
  let '(c, g) := Lte_new g in
  let '(d, g) := Wcdma_new g in
  let '(e, g) := TdScdma_new g in
  let '(f, g) := Nr_new g in
  (SignalInformations_Init (MkSignals a b c d e f), g).

Record SignalInfo : Type := MkSignalInfo { cache_ : SignalInformations; cur_ : SignalInformations }.

Definition SignalInfo_new (g : SignalGlobals) : SignalInfo * SignalGlobals :=
  let '(a, g) := SignalInformations_new g in
  let '(b, g) := SignalInformations_new g in
  (MkSignalInfo a b, g).

Definition Reset (s : SignalInfo) : SignalInfo :=
  MkSignalInfo (SignalInformations_Init (cache_ s)) (SignalInformations_Init (cur_ s)).

Definition set_gsm v s := MkSignals v (cdma s) (lte s) (wcdma s) (tdScdma s) (nr s).
Definition set_cdma v s := MkSignals (gsm s) v (lte s) (wcdma s) (tdScdma s) (nr s).
Definition set_lte v s := MkSignals (gsm s) (cdma s) v (wcdma s) (tdScdma s) (nr s).
Definition set_wcdma v s := MkSignals (gsm s) (cdma s) (lte s) v (tdScdma s) (nr s).
Definition set_tdScdma v s := MkSignals (gsm s) (cdma s) (lte s) (wcdma s) v (nr s).
Definition set_nr v s := MkSignals (gsm s) (cdma s) (lte s) (wcdma s) (tdScdma s) v.

(** Each returns whether the value is the same as before. *)
Definition ProcessGsm (gsmSignal : GsmRssi) (s : SignalInfo) : bool * SignalInfo :=
  let v := Gsm_SetValue (gsm_rxlev gsmSignal) (gsm_ber gsmSignal) (gsm (cur_ s)) in
  let ret := Gsm_eq v (gsm (cache_ s)) in
  (ret, MkSignalInfo (set_gsm (Gsm_assign v) (cache_ s)) (set_gsm v (cur_ s))).
Definition ProcessCdma (cdmaSignal : CdmaRssi) (s : SignalInfo) : bool * SignalInfo :=
  let v := Cdma_SetValue (cdma_absoluteRssi cdmaSignal) (cdma_ecno cdmaSignal) (cdma (cur_ s)) in
  let ret := Cdma_eq v (cdma (cache_ s)) in
  (ret, MkSignalInfo (set_cdma (Cdma_assign v) (cache_ s)) (set_cdma v (cur_ s))).
Definition ProcessLte (lteSignal : LteRssi) (s : SignalInfo) : bool * SignalInfo :=
  let v := Lte_SetValue (lte_rxlev lteSignal) (lte_rsrp lteSignal) (lte_rsrq lteSignal) (lte_snr lteSignal) (lte (cur_ s)) in
  let ret := Lte_eq v (lte (cache_ s)) in
  (ret, MkSignalInfo (set_lte (Lte_assign v) (cache_ s)) (set_lte v (cur_ s))).
Definition ProcessWcdma (wcdmaSignal : WCdmaRssi) (s : SignalInfo) : bool * SignalInfo :=
  let v := Wcdma_SetValue (wcdma_rxlev wcdmaSignal) (wcdma_rscp wcdmaSignal) (wcdma_ecio wcdmaSignal) (wcdma_ber wcdmaSignal) (wcdma (cur_ s)) in
  let ret := Wcdma_eq v (wcdma (cache_ s)) in
  (ret, MkSignalInfo (set_wcdma (Wcdma_assign v) (cache_ s)) (set_wcdma v (cur_ s))).
Definition ProcessTdScdma (tdScdmaSignal : TdScdmaRssi) (s : SignalInfo) : bool * SignalInfo :=
  let v := TdScdma_SetValue (tdScdma_rscp tdScdmaSignal) (tdScdma (cur_ s)) in
  let ret := TdScdma_eq v (tdScdma (cache_ s)) in
  (ret, MkSignalInfo (set_tdScdma (TdScdma_assign v) (cache_ s)) (set_tdScdma v (cur_ s))).
Definition ProcessNr (nrSignal : NrRssi) (s : SignalInfo) : bool * SignalInfo :=
  let v := Nr_SetValue (nr_rsrp nrSignal) (nr_rsrq nrSignal) (nr_sinr nrSignal) (nr (cur_ s)) in
  let ret := Nr_eq v (nr (cache_ s)) in
  (ret, MkSignalInfo (set_nr (Nr_assign v) (cache_ s)) (set_nr v (cur_ s))).

(** [signals.emplace_back(x.NewInstance())] when [valid]. *)
Definition add_valid (valid : bool) (s : SignalInformation) (acc : list SignalInformation * SignalGlobals)
  : list SignalInformation * SignalGlobals :=
  let '(signals, g) := acc in
  if valid then let '(n, g) := NewInstance s g in (signals ++ [n], g) else (signals, g).

Definition GetSignalInfoList (s : SignalInfo) (g : SignalGlobals) (signals : list SignalInformation)
  : list SignalInformation * SignalGlobals :=
  let c := cur_ s in
  add_valid (ValidateGsmValue (gsm c)) (SGsm (gsm c))
  (add_valid (ValidateWcdmaValue (wcdma c)) (SWcdma (wcdma c))
  (add_valid (ValidateTdScdmaValue (tdScdma c)) (STdScdma (tdScdma c))
  (add_valid (ValidateCdmaValue (cdma c)) (SCdma (cdma c))
  (add_valid (ValidateNrValue (nr c)) (SNr (nr c))
  (add_valid (ValidateLteValue (lte c)) (SLte (lte c)) (signals, g)))))).

(** What the service sends. *)
Inductive output : Type :=
| NotifySignalInfoUpdated (slotId : Z) (signals : list SignalInformation)
| WriteSignalLevelBehaviorEvent (slotId level : Z).

Section Process.
Context (processSignalInfos_ : option (Z -> Rssi -> bool * Rssi)).
Context (sortSignalInfoListExt_ : option (Z -> list SignalInformation -> list SignalInformation)).

Definition ProcessSignalIntensity_rssi (slotId : Z) (rssi : Rssi) (s : SignalInfo) (g : SignalGlobals)
  : outcome (SignalInfo * SignalGlobals * list output) :=
  let '(gsmUpdate, s) := ProcessGsm (r_gw rssi) s in
  let '(cdmaUpdate, s) := ProcessCdma (r_cdma rssi) s in
  let '(lteUpdate, s) := ProcessLte (r_lte rssi) s in
  let '(wcdmaUpdate, s) := ProcessWcdma (r_wcdma rssi) s in
  let '(tdScdmaUpdate, s) := ProcessTdScdma (r_tdScdma rssi) s in
  let '(nrUpdate, s) := ProcessNr (r_nr rssi) s in
  if negb gsmUpdate || negb cdmaUpdate || negb lteUpdate || negb wcdmaUpdate || negb tdScdmaUpdate || negb nrUpdate then
    let '(signals, g) := GetSignalInfoList s g [] in
    let signals := match sortSignalInfoListExt_ with Some f => f slotId signals | None => signals end in
    level ← (match signals with [] => Ret 0 | first :: _ => GetSignalLevel g first end);
    Ret (s, g, [NotifySignalInfoUpdated slotId signals; WriteSignalLevelBehaviorEvent slotId level])
  else Ret (s, g, []).

(** The event carries a pointer to the report, or null. *)
Definition ProcessSignalIntensity (slotId : Z) (event : option Rssi) (s : SignalInfo) (g : SignalGlobals)
  : outcome (SignalInfo * SignalGlobals * list output) :=
  match event with
  | None => Ret (s, g, [])
  | Some rssi =>
      let '(isUpdate, rssi) := match processSignalInfos_ with Some f => f slotId rssi | None => (true, rssi) end in
      if negb isUpdate then Ret (s, g, []) else ProcessSignalIntensity_rssi slotId rssi s g
  end.
End Process.

(** ** The list over IPC *)

Definition MAX_SIZE : Z := 1000.
Definition SUCCESS_CODE : Z := 0.

Section Ipc.
Context {P : Type} `{ParcelOps P}.

(** [reply.ReadInt32()]: 0 when it fails. *)
Definition read_int32 (p : P) : Z * P := match ReadInt32 p with (Some z, p) => (z, p) | (None, p) => (0, p) end.

(** The reply that [OnGetSignalInfoList] writes for the answer of the service:
    whether it could write the result, and the reply; the results of the other
    writes are not looked at. *)
Definition OnGetSignalInfoList (result : Z) (signals : list SignalInformation) (reply : P) : bool * P :=
  let '(ok, reply) := WriteInt32 result reply in
  if negb ok then (false, reply)
  else if result =? SUCCESS_CODE then
    let reply := snd (WriteInt32 (zlen signals) reply) in
    (true, foldl (fun reply v => snd (Marshalling v reply)) reply signals)
  else (true, reply).

(** [ProcessSignalInfoGsm] and the like: the object is added whether or not the
    whole of it could be read. *)
Definition ProcessSignalInfoOf (type : Z) (g : SignalGlobals) (reply : P) (result : list SignalInformation)
  : list SignalInformation * SignalGlobals * P :=
  if type =? NT_GSM then
    let '(s, g) := Gsm_new g in let '(_, s, reply) := Gsm_ReadFromParcel s reply in (result ++ [SGsm s], g, reply)
  else if type =? NT_CDMA then
    let '(s, g) := Cdma_new g in let '(_, s, reply) := Cdma_ReadFromParcel s reply in (result ++ [SCdma s], g, reply)
  else if type =? NT_LTE then
    let '(s, g) := Lte_new g in let '(_, s, reply) := Lte_ReadFromParcel s reply in (result ++ [SLte s], g, reply)
  else if type =? NT_WCDMA then
    let '(s, g) := Wcdma_new g in let '(_, s, reply) := Wcdma_ReadFromParcel s reply in (result ++ [SWcdma s], g, reply)
  else if type =? NT_TDSCDMA then
    let '(s, g) := TdScdma_new g in let '(_, s, reply) := TdScdma_ReadFromParcel s reply in (result ++ [STdScdma s], g, reply)
  else if type =? NT_NR then
    let '(s, g) := Nr_new g in let '(_, s, reply) := Nr_ReadFromParcel s reply in (result ++ [SNr s], g, reply)
  else (result, g, reply).

Fixpoint process_signals (n : nat) (g : SignalGlobals) (reply : P) (result : list SignalInformation)
  : list SignalInformation * SignalGlobals * P :=
  match n with
  | O => (result, g, reply)
  | S k =>
      let '(type, reply) := read_int32 reply in
      let '(result, g, reply) := ProcessSignalInfoOf type g reply result in
      process_signals k g reply result
  end.

Definition ProcessSignalInfo (g : SignalGlobals) (reply : P) (result : list SignalInformation)
  : list SignalInformation * SignalGlobals * P :=
  let '(size, reply) := read_int32 reply in
  if MAX_SIZE <=? size then (result, g, reply) else process_signals (Z.to_nat size) g reply result.

(** The end of [CoreServiceProxy::GetSignalInfoList]: the result code and the list. *)
Definition Proxy_GetSignalInfoList (g : SignalGlobals) (reply : P) (signals : list SignalInformation)
  : Z * list SignalInformation :=
  let '(result, reply) := read_int32 reply in
  if result =? SUCCESS_CODE then (result, fst (fst (ProcessSignalInfo g reply signals))) else (result, signals).
End Ipc.

(** ** Change detection *)

(** The report that a set of values stands for. *)
Definition reported (s : SignalInformations) : Rssi :=
  MkRssi (MkGsmRssi (gsmRxlev_ (gsm s)) (gsmBer_ (gsm s)))
    (MkCdmaRssi (cdmaRssi_ (cdma s)) (cdmaEcno_ (cdma s)))
    (MkWCdmaRssi (wcdmaRxlev_ (wcdma s)) (wcdmaEcio_ (wcdma s)) (wcdmaRscp_ (wcdma s)) (wcdmaBer_ (wcdma s)))
    (MkLteRssi (rxlev_ (lte s)) (lteRsrq_ (lte s)) (lteRsrp_ (lte s)) (lteSnr_ (lte s)))
    (MkTdScdmaRssi (tdScdmaRscp_ (tdScdma s)))
    (MkNrRssi (nrRsrp_ (nr s)) (nrRsrq_ (nr s)) (nrSinr_ (nr s))).

(** The cache holds the last report. *)
Definition cached (s : SignalInfo) : Prop := reported (cache_ s) = reported (cur_ s).

(** The valid signals of a slot, with unset level, in the order of the list. *)
Definition valid_signals (s : SignalInfo) : list SignalInformation :=
  let c := cur_ s in
  SetSignalLevel SIGNAL_LEVEL_UNSET <$>
  filter (fun x => strength x < SIGNAL_RSSI_MAXIMUM)
    [SLte (lte c); SNr (nr c); SCdma (cdma c); STdScdma (tdScdma c); SWcdma (wcdma c); SGsm (gsm c)].

Lemma add_valid_list valid s l g :
  fst (add_valid valid s (l, g)) = l ++ (if valid then [SetSignalLevel SIGNAL_LEVEL_UNSET s] else []) /\
  (snd (add_valid valid s (l, g)) = g \/ snd (add_valid valid s (l, g)) = InitSignalBar SIGNAL_FIVE_BARS).
Proof.
  unfold add_valid. destruct valid; [|by rewrite app_nil_r; auto].
  destruct s as [[]|[]|[]|[]|[]|[]]; cbn; auto.
Qed.

Lemma GetSignalInfoList_valid s g :
  fst (GetSignalInfoList s g []) = valid_signals s /\
  (snd (GetSignalInfoList s g []) = g \/ snd (GetSignalInfoList s g []) = InitSignalBar SIGNAL_FIVE_BARS).
Proof.
  unfold GetSignalInfoList, valid_signals.
  do 6 match goal with
  | |- context [add_valid ?v ?x (?l, ?h)] =>
      let E := fresh "E" in let D := fresh "D" in
      destruct (add_valid_list v x l h) as [E D]; destruct (add_valid v x (l, h)); cbn [fst snd] in E, D; subst
  end.
  cbn [fst snd app].
  split.
  - unfold ValidateLteValue, ValidateNrValue, ValidateCdmaValue, ValidateTdScdmaValue, ValidateWcdmaValue, ValidateGsmValue.
    rewrite !filter_cons, filter_nil. cbn [strength].
    repeat match goal with |- context [decide (?a < ?b)] => destruct (decide (a < b)), (Z.ltb_spec a b); try lia end.
    all: reflexivity.
  - naive_solver.
Qed.

Lemma GetSignalLevel_total bar s : exists level, GetSignalLevel (InitSignalBar bar) s = Ret level.
Proof.
  rewrite GetSignalLevel_uniform. destruct (negb _); [by eexists|]. destruct (_ <? _); [|by eexists].
  destruct (thresholds_increasing bar s) as [HT HL].
  destruct (level_loop_bars (thresholds (InitSignalBar bar) s) (strength s) (Z.to_nat (signalBar_ (InitSignalBar bar))) HT) as (level & E & _); [|by eexists].
  assert (0 <= signalBar_ (InitSignalBar bar)) by (unfold InitSignalBar; by destruct (_ =? _)). lia.
Qed.

(** The six comparisons together compare the whole report. *)
Lemma updates_changed rssi s :
  cached s ->
  let v := cur_ s in
  let w := cache_ s in
  negb (Gsm_eq (Gsm_SetValue (gsm_rxlev (r_gw rssi)) (gsm_ber (r_gw rssi)) (gsm v)) (gsm w)) ||
  negb (Cdma_eq (Cdma_SetValue (cdma_absoluteRssi (r_cdma rssi)) (cdma_ecno (r_cdma rssi)) (cdma v)) (cdma w)) ||
  negb (Lte_eq (Lte_SetValue (lte_rxlev (r_lte rssi)) (lte_rsrp (r_lte rssi)) (lte_rsrq (r_lte rssi)) (lte_snr (r_lte rssi)) (lte v)) (lte w)) ||
  negb (Wcdma_eq (Wcdma_SetValue (wcdma_rxlev (r_wcdma rssi)) (wcdma_rscp (r_wcdma rssi)) (wcdma_ecio (r_wcdma rssi)) (wcdma_ber (r_wcdma rssi)) (wcdma v)) (wcdma w)) ||
  negb (TdScdma_eq (TdScdma_SetValue (tdScdma_rscp (r_tdScdma rssi)) (tdScdma v)) (tdScdma w)) ||
  negb (Nr_eq (Nr_SetValue (nr_rsrp (r_nr rssi)) (nr_rsrq (r_nr rssi)) (nr_sinr (r_nr rssi)) (nr v)) (nr w)) = false
  <-> reported (cur_ s) = rssi.
Proof.
  intros HC v w. rewrite <- HC. fold w. clearbody w. clear HC.
  unfold Gsm_eq, Cdma_eq, Lte_eq, Wcdma_eq, TdScdma_eq, Nr_eq, Gsm_SetValue, Cdma_SetValue, Lte_SetValue, Wcdma_SetValue, TdScdma_SetValue, Nr_SetValue.
  destruct rssi as [[] [] [] [] [] []], w as [[] [] [] [] [] []]. unfold reported. cbn.
  rewrite !orb_false_iff, !negb_false_iff, !andb_true_iff, !Z.eqb_eq. split.
  - intros E. destruct_and! E. by subst.
  - intros [= ]. by subst.
Qed.


Definition sample_rssi : Rssi :=
  MkRssi (MkGsmRssi 0 0) (MkCdmaRssi 0 0) (MkWCdmaRssi 0 0 0 0) (MkLteRssi 0 0 (-100) 0) (MkTdScdmaRssi 0) (MkNrRssi 0 0 0).


(** ** The list over IPC *)

(** The fields of a signal, as they are written; all are [int32_t]. *)
Definition signal_fields (s : SignalInformation) : list Z :=
  match s with
  | SGsm s => [gsmRxlev_ s; gsmBer_ s; gsm_signalLevel_ s]
  | SCdma s => [cdmaRssi_ s; cdmaEcno_ s; cdma_signalLevel_ s]
  | SLte s => [rxlev_ s; lteRsrp_ s; lteRsrq_ s; lteSnr_ s; lte_signalLevel_ s]
  | SWcdma s => [wcdmaRxlev_ s; wcdmaRscp_ s; wcdmaEcio_ s; wcdmaBer_ s; wcdma_signalLevel_ s]
  | STdScdma s => [tdScdmaRscp_ s; tdScdma_signalLevel_ s]
  | SNr s => [nrRsrp_ s; nrRsrq_ s; nrSinr_ s; nr_signalLevel_ s]
  end.
Definition signal_items (s : SignalInformation) : list item := IInt32 <$> (GetNetworkType s :: signal_fields s).
Definition signal_ok (s : SignalInformation) : Prop := Forall is_i32 (signal_fields s).

Section IpcFacts.
Context {P : Type} `{ParcelLaws P}.
Context (reliable : forall z (p : P), fst (WriteInt32 z p) = true).

Lemma write_reliable z p : is_i32 z -> content (snd (WriteInt32 z p)) = content p ++ [IInt32 z].
Proof.
  intros Hz. pose proof (reliable z p) as R. destruct (WriteInt32 z p) as [ok q] eqn:E. cbn in *. subst ok.
  by apply (writes_int32 z Hz).
Qed.

(** A sequence of integer writes never fails. *)
Fixpoint write_all (zs : list Z) : wstep P :=
  match zs with [] => wdone | z :: t => match t with [] => WriteInt32 z | _ => WriteInt32 z ;;w write_all t end end.

Lemma write_all_content zs p : Forall is_i32 zs ->
  exists q, write_all zs p = (true, q) /\ content q = content p ++ (IInt32 <$> zs).
Proof.
  intros Hz. revert p. induction Hz as [|z zs Hz _ IH]; intros p; [exists p; by rewrite app_nil_r|].
  pose proof (reliable z p) as R. pose proof (write_reliable z p Hz) as C. cbn [write_all].
  destruct zs as [|y zs]; unfold wseq; destruct (WriteInt32 z p) as [ok q]; cbn [fst snd] in R, C; subst ok.
  { by exists q. }
  destruct (IH q) as (q' & E & C'). exists q'. split; [done|]. rewrite C', C, <- app_assoc. done.
Qed.

Lemma Marshalling_write_all s p : Marshalling s p = write_all (GetNetworkType s :: signal_fields s) p.
Proof. by destruct s. Qed.

Lemma Marshalling_content s p : signal_ok s -> content (snd (Marshalling s p)) = content p ++ signal_items s.
Proof.
  intros Hs. rewrite Marshalling_write_all. destruct (write_all_content (GetNetworkType s :: signal_fields s) p) as (q & E & C); [|by rewrite E].
  apply Forall_cons_2; [|exact Hs]. by destruct s.
Qed.

Lemma read_int32_item z rest (p : P) : content p = IInt32 z :: rest ->
  exists q, read_int32 p = (z, q) /\ content q = rest.
Proof. intros C. destruct (read_int32_law z rest p C) as (q & E & C'). exists q. unfold read_int32. by rewrite E. Qed.

(** Reading the fields of one signal gives the signal. *)
Ltac reads_ints := eapply reads_const; [repeat (apply (reads_seq _ _ [_]); [apply reads_int32|]); apply reads_int32|done].

Lemma reads_gsm s : reads (P := P) Gsm_ReadFromParcel (IInt32 <$> signal_fields (SGsm s)) (fun _ => s).
Proof. destruct s. reads_ints. Qed.
Lemma reads_cdma s : reads (P := P) Cdma_ReadFromParcel (IInt32 <$> signal_fields (SCdma s)) (fun _ => s).
Proof. destruct s. reads_ints. Qed.
Lemma reads_lte s : reads (P := P) Lte_ReadFromParcel (IInt32 <$> signal_fields (SLte s)) (fun _ => s).
Proof. destruct s. reads_ints. Qed.
Lemma reads_wcdma s : reads (P := P) Wcdma_ReadFromParcel (IInt32 <$> signal_fields (SWcdma s)) (fun _ => s).
Proof. destruct s. reads_ints. Qed.
Lemma reads_tdScdma s : reads (P := P) TdScdma_ReadFromParcel (IInt32 <$> signal_fields (STdScdma s)) (fun _ => s).
Proof. destruct s. reads_ints. Qed.
Lemma reads_nr s : reads (P := P) Nr_ReadFromParcel (IInt32 <$> signal_fields (SNr s)) (fun _ => s).
Proof. destruct s. reads_ints. Qed.

Lemma ProcessSignalInfoOf_item s rest g (p : P) acc :
  content p = (IInt32 <$> signal_fields s) ++ rest ->
  exists q g', ProcessSignalInfoOf (GetNetworkType s) g p acc = (acc ++ [s], g', q) /\ content q = rest.
Proof.
  intros C. destruct s as [s|s|s|s|s|s]; unfold ProcessSignalInfoOf; cbn.
  - destruct (proj1 (reads_gsm s) (fst (Gsm_new g)) p rest C) as (q & E & C'). cbn in E. rewrite E. by eexists _, _.
  - destruct (proj1 (reads_cdma s) (fst (Cdma_new g)) p rest C) as (q & E & C'). cbn in E. rewrite E. by eexists _, _.
  - destruct (proj1 (reads_lte s) (fst (Lte_new g)) p rest C) as (q & E & C'). cbn in E. rewrite E. by eexists _, _.
  - destruct (proj1 (reads_wcdma s) (fst (Wcdma_new g)) p rest C) as (q & E & C'). cbn in E. rewrite E. by eexists _, _.
  - destruct (proj1 (reads_tdScdma s) (fst (TdScdma_new g)) p rest C) as (q & E & C'). cbn in E. rewrite E. by eexists _, _.
  - destruct (proj1 (reads_nr s) (fst (Nr_new g)) p rest C) as (q & E & C'). cbn in E. rewrite E. by eexists _, _.
Qed.

Lemma process_signals_items signals : forall rest g (p : P) acc,
  content p = (signals ≫= signal_items) ++ rest ->
  exists q g', process_signals (length signals) g p acc = (acc ++ signals, g', q) /\ content q = rest.
Proof.
  induction signals as [|s l IH]; intros rest g p acc C.
  { exists p, g. by rewrite app_nil_r. }
  rewrite bind_cons in C. unfold signal_items at 1 in C. rewrite fmap_cons, <- app_assoc in C. cbn [app] in C.
  cbn [length process_signals].
  destruct (read_int32_item _ _ p C) as (q & -> & Cq).
  destruct (ProcessSignalInfoOf_item s _ g q acc Cq) as (q' & g' & -> & Cq').
  destruct (IH rest g' q' (acc ++ [s]) Cq') as (q'' & g'' & E & C''). exists q'', g''. split; [|done].
  rewrite E. by rewrite <- app_assoc.
Qed.

Lemma foldl_Marshalling_content signals : forall p : P, Forall signal_ok signals ->
  content (foldl (fun reply v => snd (Marshalling v reply)) p signals) = content p ++ (signals ≫= signal_items).
Proof.
  induction signals as [|s l IH]; intros p Hs; [by rewrite app_nil_r|]. apply Forall_cons in Hs as [Hs Hl].
  cbn [foldl]. rewrite IH, Marshalling_content, bind_cons by done. by rewrite app_assoc.
Qed.

(** C37: the list of signals crosses the process boundary unchanged: what the proxy
    reads from the reply that the stub writes is the list the service answered, with
    the six kinds of signal recognised by their type, for fewer than 1000 signals and
    a parcel whose writes succeed; an error code comes back with no signals. *)
Theorem signal_list_over_ipc result signals g (reply : P) :
  content reply = [] -> is_i32 result -> Forall signal_ok signals -> zlen signals < MAX_SIZE ->
  exists reply', OnGetSignalInfoList result signals reply = (true, reply') /\
    Proxy_GetSignalInfoList g reply' [] = (result, if result =? SUCCESS_CODE then signals else []).
Proof.
  intros C Hr Hs Hl. unfold OnGetSignalInfoList, Proxy_GetSignalInfoList.
  pose proof (reliable result reply) as R. pose proof (write_reliable result reply Hr) as W.
  destruct (WriteInt32 result reply) as [ok p]. cbn [fst snd] in R, W. subst ok. rewrite C in W. cbn [app negb] in W |- *.
  pose proof (zlen_nonneg signals). unfold MAX_SIZE in Hl.
  destruct (Z.eqb_spec result SUCCESS_CODE) as [E|N].
  - eexists. split; [reflexivity|].
    assert (is_i32 (zlen signals)) as Hz by (unfold is_i32; lia).
    pose proof (foldl_Marshalling_content signals (snd (WriteInt32 (zlen signals) p)) Hs) as F.
    rewrite (write_reliable _ _ Hz), W in F. cbn [app] in F.
    destruct (read_int32_item _ _ _ F) as (q & -> & Cq). destruct (Z.eqb_spec result SUCCESS_CODE); [|done].
    unfold ProcessSignalInfo. destruct (read_int32_item _ _ _ Cq) as (q' & -> & Cq').
    unfold MAX_SIZE. destruct (Z.leb_spec 1000 (zlen signals)); [lia|].
    destruct (process_signals_items signals [] g q' []) as (q'' & g'' & Ep & _); [by rewrite app_nil_r|].
    replace (Z.to_nat (zlen signals)) with (length signals) by (unfold zlen; lia). by rewrite Ep.
  - eexists. split; [reflexivity|]. destruct (read_int32_item _ _ _ W) as (q & -> & _).
    by destruct (Z.eqb_spec result SUCCESS_CODE).
Qed.
End IpcFacts.

Definition sample_signals : list SignalInformation := [SLte (MkLte (-80) (-100) (-10) 5 (-1)); SGsm (MkGsm (-90) 0 3)].

Lemma signal_list_over_ipc_witness :
  exists reply', OnGetSignalInfoList 0 sample_signals ([] : list item) = (true, reply') /\
    Proxy_GetSignalInfoList (InitSignalBar 5) reply' [] = (0, sample_signals).
Proof.
  apply (signal_list_over_ipc (P := list item)).
  - intros z p. reflexivity.
  - reflexivity.
  - split; vm_compute; (discriminate || reflexivity).
  - repeat constructor; vm_compute; discriminate.
  - reflexivity.
Defined.
