(* ===== verification/CoreServiceApi.v ===== *)
(** * The interface of the core service

    [ICoreService] ([interfaces/innerkits/include/i_core_service.h]): one constructor of [coreE] per method that client processes
    can call, with its arguments as parameters and its result and output argument as index; the service that answers the
    calls is a parameter of the files that use it. The file also has the structures the methods exchange, the codes of the IPC requests, the error codes, and
    the monad of code that works on a [data] and a [reply] parcel. *)

From S2P Require Import Prelude CxxString Parcel Parcelables OperatorConfig CellInformation NetworkState SignalInformation.
Open Scope Z_scope.

(** ** Structures ([sim_state_type.h], [ims_reg_types.h], [esim_state_type.h], [response_esim_result.h]) *)

Record LockInfo : Type := MkLockInfo { lockType : Z; password : u16string; lockState : Z }.
Record PersoLockInfo : Type := MkPersoLock { perso_lockType : Z; perso_password : u16string }.
Record LockStatusResponse : Type := MkLockStatus { lock_result : Z; lock_remain : Z }.
Record ImsRegInfo : Type := MkImsRegInfo { imsRegState : Z; imsRegTech : Z }.
Record SimAuthenticationResponse : Type := MkSimAuth { auth_sw1 : Z; auth_sw2 : Z; auth_response : cstring }.
Record SimLabel : Type := MkSimLabel { simType : Z; label_index : Z }.
Record EsimApduData : Type := MkEsimApdu {
  closeChannelFlag_ : bool; unusedDefaultReqHeadFlag_ : bool; data_ : u16string; instructionType_ : Z; instruction_ : Z; p1_ : Z; p2_ : Z; p3_ : Z
}.
Record ResponseEsimResult : Type := MkEsimResult { resultCode_ : Z; response_ : u16string; sw1_ : Z; sw2_ : Z }.
Record HiddenCameraDetectionConfig : Type := MkHiddenCamera { period : Z }.

(** ** Codes *)

(** [enum class CoreServiceInterfaceCode] *)
Definition GET_PS_RADIO_TECH : Z := 0.
Definition GET_CS_RADIO_TECH : Z := 1.
Definition GET_OPERATOR_NUMERIC : Z := 2.
Definition GET_OPERATOR_NAME : Z := 3.
Definition GET_SIGNAL_INFO_LIST : Z := 4.
Definition GET_NETWORK_STATE : Z := 5.
Definition GET_CELL_INFO_LIST : Z := 6.
Definition GET_NEIGHBORING_CELL_INFO_LIST : Z := 7.
Definition SET_RADIO_STATE : Z := 8.
Definition GET_RADIO_STATE : Z := 9.
Definition GET_IMEI : Z := 10.
Definition GET_IMEISV : Z := 11.
Definition GET_MEID : Z := 12.
Definition GET_UNIQUE_DEVICE_ID : Z := 13.
Definition HAS_SIM_CARD : Z := 14.
Definition GET_SIM_STATE : Z := 15.
Definition GET_ISO_COUNTRY_CODE : Z := 16.
Definition GET_ISO_COUNTRY_CODE_FOR_NETWORK : Z := 17.
Definition SET_PS_ATTACH_STATUS : Z := 18.
Definition GET_SPN : Z := 19.
Definition GET_ICCID : Z := 20.
Definition GET_IMSI : Z := 21.
Definition IS_CT_SIM_CARD : Z := 22.
Definition IS_SIM_ACTIVE : Z := 23.
Definition UNLOCK_PIN : Z := 24.
Definition UNLOCK_PUK : Z := 25.
Definition ALTER_PIN : Z := 26.
Definition CHECK_LOCK : Z := 27.
Definition SWITCH_LOCK : Z := 28.
Definition UNLOCK_PIN2 : Z := 29.
Definition UNLOCK_PUK2 : Z := 30.
Definition ALTER_PIN2 : Z := 31.
Definition GET_SIM_OPERATOR_NUMERIC : Z := 32.
Definition GET_NETWORK_SEARCH_RESULT : Z := 33.
Definition GET_NETWORK_SELECTION_MODE : Z := 34.
Definition GET_SIM_LANGUAGE : Z := 35.
Definition GET_SIM_GID1 : Z := 36.
Definition GET_SIM_GID2 : Z := 37.
Definition SET_NETWORK_SELECTION_MODE : Z := 38.
Definition GET_CELL_LOCATION : Z := 39.
Definition GET_SIM_SUB_INFO : Z := 40.
Definition SET_DEFAULT_VOICE_SLOTID : Z := 41.
Definition GET_DEFAULT_VOICE_SLOTID : Z := 42.
Definition GET_DEFAULT_VOICE_SIMID : Z := 43.
Definition SET_PRIMARY_SLOTID : Z := 44.
Definition GET_PRIMARY_SLOTID : Z := 45.
Definition SET_DEFAULT_DATA_SLOTID : Z := 46.
Definition GET_DEFAULT_DATA_SLOTID : Z := 47.
Definition SET_SHOW_NUMBER : Z := 48.
Definition GET_SHOW_NUMBER : Z := 49.
Definition SET_SHOW_NAME : Z := 50.
Definition GET_SHOW_NAME : Z := 51.
Definition GET_ACTIVE_ACCOUNT_INFO_LIST : Z := 52.
Definition GET_OPERATOR_CONFIG : Z := 53.
Definition REFRESH_SIM_STATE : Z := 54.
Definition SET_SIM_ACTIVE : Z := 55.
Definition SET_SIM_ACTIVE_SATELLITE : Z := 56.
Definition GET_PREFERRED_NETWORK_MODE : Z := 57.
Definition SET_PREFERRED_NETWORK_MODE : Z := 58.
Definition GET_NETWORK_CAPABILITY : Z := 59.
Definition SET_NETWORK_CAPABILITY : Z := 60.
Definition GET_SIM_PHONE_NUMBER : Z := 61.
Definition GET_SIM_TELENUMBER_IDENTIFIER : Z := 62.
Definition GET_VOICE_MAIL_TAG : Z := 63.
Definition GET_VOICE_MAIL_NUMBER : Z := 64.
Definition ICC_DIALLING_NUMBERS_GET : Z := 65.
Definition ICC_DIALLING_NUMBERS_DELETE : Z := 66.
Definition ICC_DIALLING_NUMBERS_INSERT : Z := 67.
Definition ICC_DIALLING_NUMBERS_UPDATE : Z := 68.
Definition SET_VOICE_MAIL : Z := 69.
Definition GET_MAX_SIM_COUNT : Z := 70.
Definition GET_OPKEY : Z := 71.
Definition GET_OPKEY_EXT : Z := 72.
Definition GET_OPNAME : Z := 73.
Definition GET_IMS_REG_STATUS : Z := 74.
Definition STK_CMD_FROM_APP_ENVELOPE : Z := 75.
Definition STK_CMD_FROM_APP_TERMINAL_RESPONSE : Z := 76.
Definition STK_RESULT_FROM_APP_CALL_SETUP_REQUEST : Z := 77.
Definition GET_CARD_TYPE : Z := 78.
Definition UNLOCK_SIMLOCK : Z := 79.
Definition HAS_OPERATOR_PRIVILEGES : Z := 80.
Definition SIM_AUTHENTICATION : Z := 81.
Definition IS_NR_SUPPORTED : Z := 82.
Definition SET_NR_OPTION_MODE : Z := 83.
Definition GET_NR_OPTION_MODE : Z := 84.
Definition REG_IMS_CALLBACK : Z := 85.
Definition UN_REG_IMS_CALLBACK : Z := 86.
Definition GET_SIM_EONS : Z := 87.
Definition GET_SIM_SLOTID : Z := 88.
Definition GET_SIM_SIMID : Z := 89.
Definition GET_VOICE_MAIL_COUNT : Z := 90.
Definition SET_VOICE_MAIL_COUNT : Z := 91.
Definition SET_VOICE_CALL_FORWARDING : Z := 92.
Definition GET_BASEBAND_VERSION : Z := 93.
Definition GET_DSDS_MODE : Z := 94.
Definition FACTORY_RESET : Z := 95.
Definition GET_NR_SSB_ID_INFO : Z := 96.
Definition IS_ALLOWED_INSERT_APN : Z := 97.
Definition GET_TARGET_OPKEY : Z := 98.
Definition GET_OPKEY_VERSION : Z := 99.
Definition GET_RESIDENT_NETWORK_NUMERIC : Z := 100.
Definition GET_SIM_IO_DONE : Z := 101.
Definition GET_ALL_ACCOUNT_INFO_LIST : Z := 102.
Definition GET_SIM_LABEL : Z := 103.
Definition GET_EID : Z := 104.
Definition GET_EUICC_PROFILE_INFO_LIST : Z := 105.
Definition GET_EUICC_INFO : Z := 106.
Definition DELETE_PROFILE : Z := 107.
Definition SWITCH_TO_PROFILE : Z := 108.
Definition UPDATE_PROFILE_NICKNAME : Z := 109.
Definition RESET_MEMORY : Z := 110.
Definition SET_DEFAULT_SMDP_ADDRESS : Z := 111.
Definition REQUEST_DEFAULT_SMDP_ADDRESS : Z := 112.
Definition CANCEL_SESSION : Z := 113.
Definition GET_PROFILE : Z := 114.
Definition DISABLE_PROFILE : Z := 115.
Definition GET_SMDSADDRESS : Z := 116.
Definition GET_RULES_AUTH_TABLE : Z := 117.
Definition GET_EUICC_CHALLENGE : Z := 118.
Definition GET_EUICC_INFO2 : Z := 119.
Definition AUTHENTICATE_SERVER : Z := 120.
Definition PREPARE_DOWNLOAD : Z := 121.
Definition LOAD_BOUND_PROFILE_PACKAGE : Z := 122.
Definition LIST_NOTIFICATIONS : Z := 123.
Definition RETRIEVE_NOTIFICATION_LIST : Z := 124.
Definition RETRIEVE_NOTIFICATION : Z := 125.
Definition REMOVE_NOTIFICATION : Z := 126.
Definition IS_ESIM_SUPPORTED : Z := 127.
Definition SEND_APDU_DATA : Z := 128.
Definition GET_OPNAME_VERSION : Z := 129.
Definition GET_REAL_SIM_COUNT : Z := 130.
Definition GET_MANUAL_NETWORK_SCAN_STATE : Z := 131.
Definition STOP_MANUAL_NETWORK_SCAN : Z := 132.
Definition START_MANUAL_NETWORK_SCAN : Z := 133.
Definition SET_SIM_LABEL_INDEX : Z := 134.
Definition IS_MULTI_SIMS_CAPABILITY_SUPPORTED : Z := 135.
Definition START_HIDDEN_CAMERA_DETECTION : Z := 136.
Definition STOP_HIDDEN_CAMERA_DETECTION : Z := 137.
Definition KEEP_HIDDEN_CAMERA_DETECTION : Z := 138.

(** [telephony_errors.h]: the codes follow [COMMON_ERR_OFFSET], which the operating system's error library computes. *)
Class ErrorCodes : Type := { COMMON_ERR_OFFSET : Z; ERR_FLATTEN_OBJECT : Z }.
Definition TELEPHONY_ERR_SUCCESS : Z := 0.
Definition TELEPHONY_SUCCESS : Z := 0.
Definition TELEPHONY_ERROR : Z := -1.
Definition ERROR : Z := -1.
Section Errors.
Context `{ErrorCodes}.
Definition TELEPHONY_ERR_FAIL : Z := COMMON_ERR_OFFSET.
Definition TELEPHONY_ERR_ARGUMENT_INVALID : Z := COMMON_ERR_OFFSET + 2.
Definition TELEPHONY_ERR_ARGUMENT_NULL : Z := COMMON_ERR_OFFSET + 3.
Definition TELEPHONY_ERR_LOCAL_PTR_NULL : Z := COMMON_ERR_OFFSET + 7.
Definition TELEPHONY_ERR_PERMISSION_ERR : Z := COMMON_ERR_OFFSET + 8.
Definition TELEPHONY_ERR_DESCRIPTOR_MISMATCH : Z := COMMON_ERR_OFFSET + 9.
Definition TELEPHONY_ERR_WRITE_DESCRIPTOR_TOKEN_FAIL : Z := COMMON_ERR_OFFSET + 10.
Definition TELEPHONY_ERR_WRITE_DATA_FAIL : Z := COMMON_ERR_OFFSET + 11.
Definition TELEPHONY_ERR_WRITE_REPLY_FAIL : Z := COMMON_ERR_OFFSET + 12.
Definition TELEPHONY_ERR_READ_DATA_FAIL : Z := COMMON_ERR_OFFSET + 13.
Definition TELEPHONY_ERR_IPC_CONNECT_STUB_FAIL : Z := COMMON_ERR_OFFSET + 14.
Definition TELEPHONY_ERR_UNINIT : Z := COMMON_ERR_OFFSET + 18.
Definition TELEPHONY_ERR_SLOTID_INVALID : Z := COMMON_ERR_OFFSET + 20.
Definition TELEPHONY_ERR_NO_SIM_CARD : Z := COMMON_ERR_OFFSET + 24.
Definition TELEPHONY_ERR_ILLEGAL_USE_OF_SYSTEM_API : Z := COMMON_ERR_OFFSET + 29.
End Errors.
(** [ERR_NONE] and [NO_ERROR] of the IPC library. *)
Definition ERR_NONE : Z := 0.
Definition NO_ERROR : Z := 0.

(** [u"ohos.telephony.ICoreService"] *)
Definition Descriptor : u16string := code <$> str "ohos.telephony.ICoreService".

(** ** Methods *)

Module ICoreService.
Inductive coreE : Type -> Type :=
| GetPsRadioTech (slotId : Z) : coreE (Z * Z)
| GetCsRadioTech (slotId : Z) : coreE (Z * Z)
| GetOperatorNumeric (slotId : Z) : coreE u16string
| GetResidentNetworkNumeric (slotId : Z) : coreE cstring
| GetOperatorName (slotId : Z) : coreE (Z * u16string)
| GetBasebandVersion (slotId : Z) : coreE (Z * cstring)
| GetNetworkSearchInformation (slotId : Z) (callback : option remote) : coreE Z
| GetNetworkState (slotId : Z) : coreE (Z * option NetworkState)
| GetSignalInfoList (slotId : Z) : coreE (Z * list SignalInformation)
| SetRadioState (slotId : Z) (isOn : bool) (callback : option remote) : coreE Z
| GetRadioState (slotId : Z) (callback : option remote) : coreE Z
| GetIsoCountryCodeForNetwork (slotId : Z) : coreE (Z * u16string)
| GetImei (slotId : Z) (callback : option remote) : coreE Z
| GetImeiSv (slotId : Z) (callback : option remote) : coreE Z
| GetMeid (slotId : Z) : coreE (Z * u16string)
| GetUniqueDeviceId (slotId : Z) : coreE (Z * u16string)
| HasSimCard (slotId : Z) (callback : option remote) : coreE Z
| GetSimState (slotId : Z) (callback : option remote) : coreE Z
| GetDsdsMode : coreE (Z * Z)
| GetCardType (slotId : Z) : coreE (Z * Z)
| GetISOCountryCodeForSim (slotId : Z) : coreE (Z * u16string)
| GetSimOperatorNumeric (slotId : Z) : coreE (Z * u16string)
| GetSimSpn (slotId : Z) : coreE (Z * u16string)
| GetSimIccId (slotId : Z) : coreE (Z * u16string)
| GetIMSI (slotId : Z) : coreE (Z * u16string)
| IsCTSimCard (slotId : Z) (callback : option remote) : coreE Z
| IsSimActive (slotId : Z) (callback : option remote) : coreE bool
| GetSlotId (simId : Z) : coreE Z
| GetSimId (slotId : Z) : coreE Z
| GetNetworkSelectionMode (slotId : Z) (callback : option remote) : coreE Z
| SetNetworkSelectionMode (slotId selectMode : Z) (networkInformation : option NetworkInformation) (resumeSelection : bool) (callback : option remote) : coreE Z
| GetLocaleFromDefaultSim : coreE u16string
| GetSimGid1 (slotId : Z) : coreE (Z * u16string)
| GetSimGid2 (slotId : Z) : coreE u16string
| GetSimEons (slotId : Z) (plmn : cstring) (lac : Z) (longNameRequired : bool) : coreE u16string
| GetSimAccountInfo (slotId : Z) : coreE (Z * IccAccountInfo)
| SetDefaultVoiceSlotId (slotId : Z) : coreE Z
| GetDefaultVoiceSlotId : coreE Z
| GetDefaultVoiceSimId (callback : option remote) : coreE Z
| SetPrimarySlotId (slotId : Z) : coreE Z
| GetPrimarySlotId : coreE (Z * Z)
| SetShowNumber (slotId : Z) (number : u16string) (callback : option remote) : coreE Z
| GetShowNumber (slotId : Z) (callback : option remote) : coreE Z
| SetShowName (slotId : Z) (name : u16string) (callback : option remote) : coreE Z
| GetActiveSimAccountInfoList : coreE (Z * list IccAccountInfo)
| GetOperatorConfigs (slotId : Z) : coreE (Z * OperatorConfig)
| UnlockPin (slotId : Z) (pin : u16string) (callback : option remote) : coreE Z
| UnlockPuk (slotId : Z) (newPin puk : u16string) (callback : option remote) : coreE Z
| AlterPin (slotId : Z) (newPin oldPin : u16string) (callback : option remote) : coreE Z
| UnlockPin2 (slotId : Z) (pin2 : u16string) (callback : option remote) : coreE Z
| UnlockPuk2 (slotId : Z) (newPin2 puk2 : u16string) (callback : option remote) : coreE Z
| AlterPin2 (slotId : Z) (newPin2 oldPin2 : u16string) (callback : option remote) : coreE Z
| SetLockState (slotId : Z) (options : LockInfo) (callback : option remote) : coreE Z
| GetLockState (slotId lockType : Z) (callback : option remote) : coreE Z
| RefreshSimState (slotId : Z) : coreE Z
| SetActiveSim (slotId enable : Z) : coreE Z
| SetActiveSimSatellite (slotId enable : Z) : coreE Z
| GetPreferredNetwork (slotId : Z) (callback : option remote) : coreE Z
| SetPreferredNetwork (slotId networkMode : Z) (callback : option remote) : coreE Z
| GetNetworkCapability (slotId networkCapabilityType : Z) : coreE (Z * Z)
| SetNetworkCapability (slotId networkCapabilityType networkCapabilityState : Z) : coreE Z
| GetSimTelephoneNumber (slotId : Z) : coreE (Z * u16string)
| GetSimTeleNumberIdentifier (slotId : Z) : coreE u16string
| GetVoiceMailIdentifier (slotId : Z) : coreE (Z * u16string)
| GetVoiceMailNumber (slotId : Z) : coreE (Z * u16string)
| GetVoiceMailCount (slotId : Z) : coreE (Z * Z)
| SetVoiceMailCount (slotId voiceMailCount : Z) : coreE Z
| SetVoiceCallForwarding (slotId : Z) (enable : bool) (number : cstring) : coreE Z
| QueryIccDiallingNumbers (slotId type : Z) : coreE (Z * list DiallingNumbersInfo)
| AddIccDiallingNumbers (slotId type : Z) (diallingNumber : option DiallingNumbersInfo) : coreE Z
| DelIccDiallingNumbers (slotId type : Z) (diallingNumber : option DiallingNumbersInfo) : coreE Z
| UpdateIccDiallingNumbers (slotId type : Z) (diallingNumber : option DiallingNumbersInfo) : coreE Z
| SetVoiceMailInfo (slotId : Z) (mailName mailNumber : u16string) : coreE Z
| GetOpKey (slotId : Z) : coreE (Z * u16string)
| GetOpKeyExt (slotId : Z) : coreE (Z * u16string)
| GetOpName (slotId : Z) : coreE (Z * u16string)
| GetMaxSimCount : coreE Z
| GetRealSimCount : coreE Z
| SendEnvelopeCmd (slotId : Z) (cmd : cstring) : coreE Z
| SendTerminalResponseCmd (slotId : Z) (cmd : cstring) : coreE Z
| SendCallSetupRequestResult (slotId : Z) (accept : bool) : coreE Z
| UnlockSimLock (slotId : Z) (lockInfo : PersoLockInfo) : coreE (Z * LockStatusResponse)
| GetImsRegStatus (slotId imsSrvType : Z) : coreE (Z * ImsRegInfo)
| GetCellInfoList (slotId : Z) : coreE (Z * list Cell)
| GetNeighboringCellInfoList (slotId : Z) : coreE (Z * list Cell)
| SendUpdateCellLocationRequest (slotId : Z) : coreE Z
| HasOperatorPrivileges (slotId : Z) (callback : option remote) : coreE Z
| SimAuthentication (slotId authType : Z) (authData : cstring) : coreE (Z * SimAuthenticationResponse)
| IsNrSupported (slotId : Z) : coreE bool
| SetNrOptionMode (slotId mode : Z) (callback : option remote) : coreE Z
| GetNrOptionMode (slotId : Z) (callback : option remote) : coreE Z
| RegisterImsRegInfoCallback (slotId imsSrvType : Z) (callback : option remote) : coreE Z
| UnregisterImsRegInfoCallback (slotId imsSrvType : Z) : coreE Z
| GetNrSsbIdInfo (slotId : Z) : coreE (Z * NrSsbInformation)
| FactoryReset (slotId : Z) : coreE Z
| IsAllowedInsertApn (value : cstring) : coreE bool
| GetTargetOpkey (slotId : Z) : coreE (Z * u16string)
| GetOpkeyVersion : coreE (Z * cstring)
| GetOpnameVersion : coreE (Z * cstring)
| GetSimIO (slotId command fileId : Z) (dataStr path : cstring) : coreE (Z * SimAuthenticationResponse)
| GetShowName (slotId : Z) (callback : option remote) : coreE Z
| GetAllSimAccountInfoList : coreE (Z * list IccAccountInfo)
| GetSimLabel (slotId : Z) (callback : option remote) : coreE (Z * SimLabel)
| SendApduData (slotId : Z) (aid : u16string) (apduData : EsimApduData) : coreE (Z * ResponseEsimResult)
| GetManualNetworkScanState (slotId : Z) (callback : option remote) : coreE Z
| StartManualNetworkScanCallback (slotId : Z) (callback : option remote) : coreE Z
| StopManualNetworkScanCallback (slotId : Z) : coreE Z
| StartHiddenCameraDetection (callback : option remote) (config : HiddenCameraDetectionConfig) (rawCallback : option remote) : coreE Z
| StopHiddenCameraDetection (rawCallback : option remote) : coreE Z
| KeepHiddenCameraDetection (rawCallback : option remote) : coreE Z
| SetSimLabelIndex (simId simLabelIndex : Z) (callback : option remote) : coreE Z
| IsMultiSimsCapabilitySupported (slotId : Z) : coreE bool.
End ICoreService.
Export ICoreService (coreE).

(** ** Code that works on two parcels *)

Record ipc (P W : Type) : Type := MkIpc { data : P; reply : P; world : W }.
Arguments MkIpc {P W}. Arguments data {P W}. Arguments reply {P W}. Arguments world {P W}.

Definition M (P W A : Type) : Type := ipc P W -> outcome (A * ipc P W).
#[export] Instance M_ret {P W} : MRet (M P W) := fun A a s => Ret (a, s).
#[export] Instance M_bind {P W} : MBind (M P W) := fun A B k m s => match m s with Ret (a, s) => k a s | Exn => Exn | Undef => Undef end.

Section Operations.
Context {P W : Type} `{ParcelOps P}.

(** [data.Write...(v)] and [reply.Write...(v)]. *)
Definition write_data (f : wstep P) : M P W bool := fun s => let '(ok, p) := f (data s) in Ret (ok, MkIpc p (reply s) (world s)).
Definition write_reply (f : wstep P) : M P W bool := fun s => let '(ok, p) := f (reply s) in Ret (ok, MkIpc (data s) p (world s)).
Definition write_reply_o (f : P -> outcome (bool * P)) : M P W bool :=
  fun s => '(ok, p) ← f (reply s); Ret (ok, MkIpc (data s) p (world s)).
(** [data.Read...()] and [reply.Read...()], with the default on failure. *)
Definition read_data {A} (rd : P -> option A * P) (d : A) : M P W A :=
  fun s => let '(v, p) := rd (data s) in Ret (default d v, MkIpc p (reply s) (world s)).
Definition read_reply {A} (rd : P -> option A * P) (d : A) : M P W A :=
  fun s => let '(v, p) := rd (reply s) in Ret (default d v, MkIpc (data s) p (world s)).
Definition read_data_opt {A} (rd : P -> option A * P) : M P W (option A) :=
  fun s => let '(v, p) := rd (data s) in Ret (v, MkIpc p (reply s) (world s)).
Definition read_reply_opt {A} (rd : P -> option A * P) : M P W (option A) :=
  fun s => let '(v, p) := rd (reply s) in Ret (v, MkIpc (data s) p (world s)).
(** [o.ReadFromParcel(reply)]: the result and the object. *)
Definition read_object {A} (rd : rstep P A) (o : A) : M P W (bool * A) :=
  fun s => let '(ok, o, p) := rd o (reply s) in Ret ((ok, o), MkIpc (data s) p (world s)).
(** [ret = ret && reply.Write...(v)] *)
Definition and_write (ret : bool) (f : wstep P) : M P W bool := if ret then write_reply f else mret false.
(** A call made with parcels of its own. *)
Definition with_parcels {A} (m : M P W A) : M P W A :=
  fun s => '(a, t) ← m (MkIpc new_parcel new_parcel (world s)); Ret (a, MkIpc (data s) (reply s) (world t)).
End Operations.

Declare Scope ipc_scope.
(** [if (!b) { return r; }] *)
Notation "'require' b 'or' r ';;' k" := (if (b : bool) then k else mret r) (at level 10, b at level 99, r at level 99, k at level 200, format "'require'  b  'or'  r  ';;' '//' k") : ipc_scope.
(** The same where the condition is a call. *)
Notation "'ensure' m 'or' r ';;' k" := (mbind (fun ok : bool => if ok then k else mret r) m) (at level 10, m at level 99, r at level 99, k at level 200, format "'ensure'  m  'or'  r  ';;' '//' k") : ipc_scope.
(** [if (x == nullptr) { return r; }] *)
Notation "'nonnull' x ':=' e 'or' r ';;' k" := (match e with Some x => k | None => mret r end) (at level 10, x name, e at level 99, r at level 99, k at level 200, format "'nonnull'  x  ':='  e  'or'  r  ';;' '//' k") : ipc_scope.
(** [if (x != nullptr) { f(x); }] *)
Definition if_nonnull {P W A} (x : option A) (f : A -> M P W bool) : M P W unit := match x with Some a => _ ← f a; mret tt | None => mret tt end.
