(* ===== verification/NetworkSearchState.v ===== *)
(** * [services/network_search/src/network_search_state.cpp]: the registration of a slot and who is told of it

    A [NetworkSearchState] holds the registration of a slot ([networkState_], file NetworkState.v) as it is, as it was when the rest of the system was last told
    ([networkStateOld_]), and the registration for calls over IP. Setters change the former; [NotifyStateChange] compares the two, tells the search manager
    and the applications what has changed, and makes them equal. The search manager is the interface [SearchManager]; the vendor extension, which can postpone
    the notification, is [SearchExt]. *)

From S2P Require Import Prelude CxxString Parcel Parcelables OperatorConfig CellInformation NetworkState SignalInformation CoreServiceApi.
Open Scope Z_scope.

(** ** Registration for calls over IP ([ims_reg_types.h], [ims_core_service_types.h]) *)

Definition IMS_UNREGISTERED : Z := 0.
Definition IMS_REGISTERED : Z := 1.
Definition IMS_REG_TECH_NONE : Z := 0.
Definition TYPE_VOICE : Z := 0.
Definition TYPE_VIDEO : Z := 1.
Definition TYPE_UT : Z := 2.
Definition TYPE_SMS : Z := 3.
Definition ImsRegInfo_new : ImsRegInfo := MkImsRegInfo IMS_UNREGISTERED IMS_REG_TECH_NONE.
Record ImsServiceStatus : Type := MkImsServiceStatus {
  supportImsVoice : bool;
  supportImsVideo : bool;
  supportImsUt : bool;
  supportImsSms : bool;
  serviceRegTech : Z
}.
Definition ImsServiceStatus_new : ImsServiceStatus := MkImsServiceStatus false false false false IMS_REG_TECH_NONE.

Definition ROAMING_STATE : cstring := str "telephony.roaming_state".

(** ** What is told *)

(** The calls that tell the rest of the system: of the search manager, of the state registry, and of the parameter service. *)
Inductive notice : Type :=
| NotifyPsConnectionAttachedChanged (slotId : Z)
| NotifyPsConnectionDetachedChanged (slotId : Z)
| NotifyPsRoamingOpenChanged (slotId : Z)
| NotifyPsRoamingCloseChanged (slotId : Z)
| UpdatePhone (slotId csRadioTech psRadioTech : Z)
| SendUpdateCellLocationRequest (slotId : Z)
| NotifyPsRatChanged (slotId : Z)
| NotifyEmergencyOpenChanged (slotId : Z)
| NotifyEmergencyCloseChanged (slotId : Z)
| NotifyNrStateChanged (slotId : Z)
| NotifyImsRegInfoChanged (slotId imsSrvType : Z) (info : ImsRegInfo)
| NotifyNetworkStateUpdated (slotId : Z) (networkState : NetworkState)
| SetParameter (key value : cstring).

Record network_search_state : Type := MkSearchState {
  networkState_ : option NetworkState;
  networkStateOld_ : option NetworkState;
  imsRegStatus_ : bool;
  slotId_ : Z;
  imsServiceStatus_ : option ImsServiceStatus;
  processNetworkState_ : bool
}.
(** The object, the string of all slots ([GetRoamingString]), and everything else. *)
Record slot (W : Type) : Type := MkSlot { search : network_search_state; roamingStr : cstring; outside : W }.
Arguments MkSlot {W}. Arguments search {W}. Arguments roamingStr {W}. Arguments outside {W}.

(** The search manager: whether it still exists, and what it does; [UpdateOperatorName] changes this object. *)
Class SearchManager (W : Type) : Type := {
  manager_alive : W -> bool;
  tell : notice -> W -> W;
  UpdateOperatorName : Z -> partial (slot W) Z
}.
Class SearchExt (W : Type) : Type := {
  updateNetworkStateExt_ : option (Z -> option NetworkState -> W -> option NetworkState * W);
  processStateChangeExt_ : option (Z -> NetworkState -> W -> bool * option NetworkState * W)
}.

Module NetworkSearchState.
Section Members.
Context {P W : Type} `{ParcelOps P} `{ErrorCodes} `{!SearchManager W} `{!SearchExt W} (SIM_SLOT_COUNT : Z).
Definition NS : Type -> Type := partial (slot W).
Implicit Types o : network_search_state.

Definition set_networkState_ (n : option NetworkState) o := MkSearchState n (networkStateOld_ o) (imsRegStatus_ o) (slotId_ o) (imsServiceStatus_ o) (processNetworkState_ o).
Definition set_networkStateOld_ (n : option NetworkState) o := MkSearchState (networkState_ o) n (imsRegStatus_ o) (slotId_ o) (imsServiceStatus_ o) (processNetworkState_ o).
Definition set_imsRegStatus_ (b : bool) o := MkSearchState (networkState_ o) (networkStateOld_ o) b (slotId_ o) (imsServiceStatus_ o) (processNetworkState_ o).
Definition set_imsServiceStatus_ (s : option ImsServiceStatus) o := MkSearchState (networkState_ o) (networkStateOld_ o) (imsRegStatus_ o) (slotId_ o) s (processNetworkState_ o).
Definition set_processNetworkState_ (b : bool) o := MkSearchState (networkState_ o) (networkStateOld_ o) (imsRegStatus_ o) (slotId_ o) (imsServiceStatus_ o) b.

Definition member {A} (f : network_search_state -> A) : NS A := pure (gets (fun s => f (search s))).
Definition assign (f : network_search_state -> network_search_state) : NS unit := pure (modifies (fun s => MkSlot (f (search s)) (roamingStr s) (outside s))).
(** [p->f(...)] on an object of this one. *)
Definition deref {A B} (p : network_search_state -> option A) (f : A -> B) : NS B := attempt (fun s => a ← the (p (search s)); Ret (f a)).
Definition elsewhere {A} (m : stateful W A) : NS A := pure (fun s => let '(a, w) := m (outside s) in (a, MkSlot (search s) (roamingStr s) w)).
Definition told (n : notice) : NS unit := elsewhere (modifies (tell n)).
Definition manager_exists : NS bool := elsewhere (gets manager_alive).
Definition not_null {A} (p : option A) : bool := match p with Some _ => true | None => false end.

Definition NetworkSearchState_new (slotId : Z) : network_search_state := MkSearchState None None false slotId None false.
Definition Init : NS bool :=
  assign (set_networkStateOld_ (Some NetworkState.Init)) ;;
  assign (set_networkState_ (Some NetworkState.Init)) ;;
  assign (set_imsServiceStatus_ (Some ImsServiceStatus_new)) ;;
  mret true.

(** [if (networkState_ != nullptr) { networkState_->f(...); }] *)
Definition on_state (f : NetworkState -> NetworkState) : NS unit := assign (fun o => set_networkState_ (f <$> networkState_ o) o).
Definition SetOperatorInfo (longName shortName numeric : cstring) (domainType : Z) : NS unit := on_state (NetworkState.SetOperatorInfo longName shortName numeric domainType).
Definition SetEmergency (isEmergency : bool) : NS unit := on_state (NetworkState.SetEmergency isEmergency).
Definition IsEmergency : NS bool := member (fun o => from_option NetworkState.IsEmergency false (networkState_ o)).
Definition SetNetworkType (tech domainType : Z) : NS unit := on_state (NetworkState.SetNetworkType tech domainType).
Definition SetNetworkTypeV2 (tech domainType : Z) : NS unit := on_state (NetworkState.SetNetworkTypeV2 tech domainType).
Definition SetNetworkState (state domainType : Z) : NS unit := on_state (NetworkState.SetNetworkState state domainType).
Definition SetNetworkStateToRoaming (roamingType domainType : Z) : NS unit := on_state (NetworkState.SetRoaming roamingType domainType).
Definition SetInitial : NS unit := on_state (fun _ => NetworkState.Init).
Definition SetCfgTech (tech : Z) : NS unit := on_state (NetworkState.SetCfgTech tech).
Definition SetCfgTechV2 (tech : Z) : NS unit := on_state (NetworkState.SetCfgTechV2 tech).
Definition SetNrState (state : Z) : NS unit := on_state (NetworkState.SetNrState state).
Definition SetLongOperatorName (longName : cstring) (domainType : Z) : NS unit := on_state (NetworkState.SetLongOperatorName longName domainType).

(** The result, and the output argument, that was [tech] before. *)
Definition last_tech (f : NetworkState -> Z) (tech : Z) : NS (Z * Z) :=
  member (fun o => match networkState_ o with None => (TELEPHONY_ERR_LOCAL_PTR_NULL, tech) | Some n => (TELEPHONY_ERR_SUCCESS, f n) end).
Definition GetLastCfgTech : Z -> NS (Z * Z) := last_tech NetworkState.GetLastCfgTech.
Definition GetLastPsRadioTech : Z -> NS (Z * Z) := last_tech NetworkState.GetLastPsRadioTech.
Definition GetLastCfgTechV2 : Z -> NS (Z * Z) := last_tech NetworkState.GetLastCfgTechV2.
Definition GetLastPsRadioTechV2 : Z -> NS (Z * Z) := last_tech NetworkState.GetLastPsRadioTechV2.

(** Copies are made through a parcel: [from] is written, and read into [into]. *)
Definition copy (from into : NetworkState) (data : P) : NetworkState * P :=
  let '(_, data) := NetworkState.Marshalling from data in
  let '(_, n, data) := NetworkState.ReadFromParcel into data in (n, data).
Definition GetNetworkStatus : NS (option NetworkState) :=
  member (fun o => (fun n => (copy n NetworkState.Init new_parcel).1) <$> networkState_ o).

(** *** IP services *)

Definition GetImsStatus (imsSrvType : Z) (info : ImsRegInfo) : NS (Z * ImsRegInfo) :=
  member (fun o =>
    match imsServiceStatus_ o with
    | None => (TELEPHONY_ERR_LOCAL_PTR_NULL, info)
    | Some st =>
        let answer (isRegister : bool) := (TELEPHONY_SUCCESS, MkImsRegInfo (if isRegister then IMS_REGISTERED else IMS_UNREGISTERED) (serviceRegTech st)) in
        if imsSrvType =? TYPE_VOICE then answer (imsRegStatus_ o && supportImsVoice st)
        else if imsSrvType =? TYPE_VIDEO then answer (imsRegStatus_ o && supportImsVideo st)
        else if imsSrvType =? TYPE_UT then answer (supportImsUt st)
        else if imsSrvType =? TYPE_SMS then answer (imsRegStatus_ o && supportImsSms st)
        else (TELEPHONY_ERR_ARGUMENT_INVALID, info)
    end).
Definition NotifyImsStateChange (imsSrvType : Z) (info : ImsRegInfo) : NS unit :=
  alive ← manager_exists;
  if negb alive then mret tt else
  n ← member networkState_;
  if negb (not_null n) then mret tt else
  slotId ← member slotId_;
  told (NotifyImsRegInfoChanged slotId imsSrvType info).
(** One of the four [if (imsServiceStatus_->support...)] of [SetImsStatus]. *)
Definition notify_if_supported (support : ImsServiceStatus -> bool) (imsSrvType : Z) : NS unit :=
  tech ← deref imsServiceStatus_ serviceRegTech;
  supported ← deref imsServiceStatus_ support;
  if (supported : bool) then
    reg ← member imsRegStatus_;
    NotifyImsStateChange imsSrvType (MkImsRegInfo (if reg && supported then IMS_REGISTERED else IMS_UNREGISTERED) tech)
  else mret tt.
Definition SetImsStatus (imsRegStatus : bool) : NS unit :=
  reg ← member imsRegStatus_;
  if Bool.eqb reg imsRegStatus then mret tt else
  assign (set_imsRegStatus_ imsRegStatus) ;;
  notify_if_supported supportImsVoice TYPE_VOICE ;;
  notify_if_supported supportImsVideo TYPE_VIDEO ;;
  notify_if_supported supportImsUt TYPE_UT ;;
  notify_if_supported supportImsSms TYPE_SMS.
Definition GetImsRegState (type : Z) : NS Z :=
  reg ← member imsRegStatus_;
  isRegister ← (
    if type =? TYPE_VOICE then if (reg : bool) then deref imsServiceStatus_ supportImsVoice else mret false
    else if type =? TYPE_VIDEO then if (reg : bool) then deref imsServiceStatus_ supportImsVideo else mret false
    else if type =? TYPE_UT then if (reg : bool) then deref imsServiceStatus_ supportImsUt else mret false
    else if type =? TYPE_SMS then if (reg : bool) then deref imsServiceStatus_ supportImsSms else mret false
    else mret false);
  mret (if (isRegister : bool) then IMS_REGISTERED else IMS_UNREGISTERED).
(** One of the four notifications of [SetImsServiceStatus]. *)
Definition notify_if_changed (changed radioTechChanged : bool) (support : ImsServiceStatus -> bool) (imsSrvType tech : Z) : NS unit :=
  supported ← (if changed then mret true else if radioTechChanged then deref imsServiceStatus_ support else mret false);
  if (supported : bool) then
    state ← GetImsRegState imsSrvType;
    NotifyImsStateChange imsSrvType (MkImsRegInfo state tech)
  else mret tt.
Definition SetImsServiceStatus (imsServiceStatus : ImsServiceStatus) : NS unit :=
  let differs f := deref imsServiceStatus_ (fun st => negb (Bool.eqb (f st) (f imsServiceStatus))) in
  voiceChanged ← differs supportImsVoice;
  videoChanged ← differs supportImsVideo;
  utChanged ← differs supportImsUt;
  smsChanged ← differs supportImsSms;
  radioTechChanged ← deref imsServiceStatus_ (fun st => negb (serviceRegTech st =? serviceRegTech imsServiceStatus));
  if negb voiceChanged && negb videoChanged && negb utChanged && negb smsChanged && negb radioTechChanged then mret tt else
  assign (set_imsServiceStatus_ (Some imsServiceStatus)) ;;
  reg ← member imsRegStatus_;
  if negb reg then mret tt else
  notify_if_changed voiceChanged radioTechChanged supportImsVoice TYPE_VOICE (serviceRegTech imsServiceStatus) ;;
  notify_if_changed videoChanged radioTechChanged supportImsVideo TYPE_VIDEO (serviceRegTech imsServiceStatus) ;;
  notify_if_changed utChanged radioTechChanged supportImsUt TYPE_UT (serviceRegTech imsServiceStatus) ;;
  notify_if_changed smsChanged radioTechChanged supportImsSms TYPE_SMS (serviceRegTech imsServiceStatus).

(** *** What has changed *)

(** [k n old] with the two states, after the checks for null pointers: the manager, and [networkState_]. *)
Definition if_exist (k : Z -> bool -> NetworkState -> NS unit) : NS unit :=
  alive ← manager_exists;
  if negb alive then mret tt else
  n ← member networkState_;
  match n with
  | None => mret tt
  | Some n => slotId ← member slotId_; process ← member processNetworkState_; k slotId process n
  end.
Definition NotifyPsRegStatusChange : NS unit :=
  if_exist (fun slotId process n =>
    (if GetPsRegStatus n =? REG_STATE_IN_SERVICE then
      changed ← (if process then mret true else deref networkStateOld_ (fun old => negb (GetPsRegStatus old =? REG_STATE_IN_SERVICE)));
      if (changed : bool) then told (NotifyPsConnectionAttachedChanged slotId) else mret tt
     else mret tt) ;;
    if negb (GetPsRegStatus n =? REG_STATE_IN_SERVICE) then
      changed ← (if process then mret true else deref networkStateOld_ (fun old => GetPsRegStatus old =? REG_STATE_IN_SERVICE));
      if (changed : bool) then told (NotifyPsConnectionDetachedChanged slotId) else mret tt
    else mret tt).
(** [roamingStr\[slotId_\] = '0' + status] where the string is long enough, and the parameter is set: its value ends at the first null character. *)
Definition GetRoamingString_new : cstring := repeat "0"%char (Z.to_nat (if 0 <? SIM_SLOT_COUNT then SIM_SLOT_COUNT else 0)).
Definition set_roaming (slotId status : Z) : NS unit :=
  pure (modifies (fun s =>
    let str := roamingStr s in
    MkSlot (search s) (if (0 <=? slotId) && (slotId <? zlen str) then <[Z.to_nat slotId := ascii_of_N (Z.to_N (u8 (48 + status)))]> str else str) (outside s))) ;;
  value ← pure (gets roamingStr);
  told (SetParameter ROAMING_STATE (c_str value)).
Definition NotifyPsRoamingStatusChange : NS unit :=
  if_exist (fun slotId _ n =>
    (if ROAMING_STATE_UNKNOWN <? GetPsRoamingStatus n then
      home ← deref networkStateOld_ (fun old => GetPsRoamingStatus old =? ROAMING_STATE_UNKNOWN);
      if (home : bool) then told (NotifyPsRoamingOpenChanged slotId) ;; set_roaming slotId (GetPsRoamingStatus n) else mret tt
     else mret tt) ;;
    roaming ← deref networkStateOld_ (fun old => ROAMING_STATE_UNKNOWN <? GetPsRoamingStatus old);
    if (roaming : bool) && (GetPsRoamingStatus n =? ROAMING_STATE_UNKNOWN) then told (NotifyPsRoamingCloseChanged slotId) ;; set_roaming slotId (GetPsRoamingStatus n) else mret tt).
Definition NotifyPsRadioTechChange : NS unit :=
  if_exist (fun slotId process n =>
    changed ← (if process then mret true else deref networkStateOld_ (fun old => negb (GetPsRadioTech n =? GetPsRadioTech old)));
    if (changed : bool) then
      told (UpdatePhone slotId (GetCsRadioTech n) (GetPsRadioTech n)) ;; told (SendUpdateCellLocationRequest slotId) ;; told (NotifyPsRatChanged slotId)
    else mret tt).
Definition NotifyEmergencyChange : NS unit :=
  if_exist (fun slotId process n =>
    changed ← (if process then mret true else deref networkStateOld_ (fun old => negb (Bool.eqb (NetworkState.IsEmergency n) (NetworkState.IsEmergency old))));
    if (changed : bool) then told (if NetworkState.IsEmergency n then NotifyEmergencyOpenChanged slotId else NotifyEmergencyCloseChanged slotId) else mret tt).
Definition NotifyNrStateChange : NS unit :=
  if_exist (fun slotId process n =>
    changed ← (if process then mret true else deref networkStateOld_ (fun old => negb (GetNrState n =? GetNrState old)));
    if (changed : bool) then told (NotifyNrStateChanged slotId) else mret tt).
Definition CsRadioTechChange : NS unit :=
  if_exist (fun slotId process n =>
    old ← member networkStateOld_;
    match old with
    | None => mret tt
    | Some old => if process || negb (GetCsRadioTech n =? GetCsRadioTech old) then told (UpdatePhone slotId (GetCsRadioTech n) (GetPsRadioTech n)) else mret tt
    end).

Definition update_ext : NS unit :=
  match updateNetworkStateExt_ with
  | None => mret tt
  | Some f => pure (fun s => let o := search s in let '(n, w) := f (slotId_ o) (networkState_ o) (outside s) in (tt, MkSlot (set_networkState_ n o) (roamingStr s) w))
  end.
(** Whether the extension takes over, and the copy that it may have changed. *)
Definition process_ext (ns : NetworkState) : NS (bool * option NetworkState) :=
  match processStateChangeExt_ with
  | None => mret (false, Some ns)
  | Some f => slotId ← member slotId_; elsewhere (f slotId ns)
  end.
Definition NotifyStateChange : NS unit :=
  n ← member networkState_;
  if negb (not_null n) then mret tt else
  update_ext ;;
  process ← member processNetworkState_;
  changed ← (if (process : bool) then mret true else n ← deref networkState_ id; old ← deref networkStateOld_ id; mret (negb (operator_eq n old)));
  if (changed : bool) then
    n ← deref networkState_ id;
    let '(ns, data) := copy n NetworkState.Init new_parcel in
    '(delayed, ns) ← process_ext ns;
    if (delayed : bool) then
      old ← deref networkStateOld_ id;
      n ← deref networkState_ id;
      assign (set_networkState_ (Some (copy old n data).1)) ;;
      assign (set_processNetworkState_ true)
    else
      CsRadioTechChange ;;
      NotifyPsRadioTechChange ;;
      NotifyPsRegStatusChange ;;
      NotifyPsRoamingStatusChange ;;
      NotifyEmergencyChange ;;
      NotifyNrStateChange ;;
      alive ← manager_exists;
      slotId ← member slotId_;
      (if (alive : bool) then _ ← UpdateOperatorName slotId; mret tt else mret tt) ;;
      match ns with Some ns => told (NotifyNetworkStateUpdated slotId ns) | None => mret tt end ;;
      n ← deref networkState_ id;
      old ← deref networkStateOld_ id;
      assign (set_networkStateOld_ (Some (copy n old data).1)) ;;
      assign (set_processNetworkState_ false)
  else assign (set_processNetworkState_ false).
End Members.
End NetworkSearchState.

(** ** What the others know

    [belief] is what somebody knows of a slot who only listens to the notices: the search manager's observers of attachment, roaming, radio technology and
    emergency service, and the applications. *)
Record belief : Type := MkBelief { attached : bool; roaming : bool; phone : Z * Z; emergency : bool; app : NetworkState; ims : Z -> ImsRegInfo }.
Definition learn (slot : Z) (n : notice) (b : belief) : belief :=
  let '(MkBelief at_ ro ph em ap im) := b in
  match n with
  | NotifyPsConnectionAttachedChanged i => if i =? slot then MkBelief true ro ph em ap im else b
  | NotifyPsConnectionDetachedChanged i => if i =? slot then MkBelief false ro ph em ap im else b
  | NotifyPsRoamingOpenChanged i => if i =? slot then MkBelief at_ true ph em ap im else b
  | NotifyPsRoamingCloseChanged i => if i =? slot then MkBelief at_ false ph em ap im else b
  | UpdatePhone i cs ps => if i =? slot then MkBelief at_ ro (cs, ps) em ap im else b
  | NotifyEmergencyOpenChanged i => if i =? slot then MkBelief at_ ro ph true ap im else b
  | NotifyEmergencyCloseChanged i => if i =? slot then MkBelief at_ ro ph false ap im else b
  | NotifyNetworkStateUpdated i ns => if i =? slot then MkBelief at_ ro ph em ns im else b
  | NotifyImsRegInfoChanged i type info => if i =? slot then MkBelief at_ ro ph em ap (fun t => if t =? type then info else im t) else b
  | _ => b
  end.
Definition belief_new : belief := MkBelief false false (RADIO_TECHNOLOGY_UNKNOWN, RADIO_TECHNOLOGY_UNKNOWN) false NetworkState.Init (fun _ => ImsRegInfo_new).

(** A state but for the long names of the operators. *)
Definition unnamed (n : NetworkState) : NetworkState := set_ps_operator (set_fullName []) (set_cs_operator (set_fullName []) n).
Definition proper (n : NetworkState) : Prop := NetworkState.wf n /\ 0 <= psRoaming_ n.

(** Whoever has the belief [b] knows the state [n]: the applications may have other operator names. *)
Definition knows (b : belief) (n : NetworkState) : Prop :=
  attached b = (GetPsRegStatus n =? REG_STATE_IN_SERVICE) /\ roaming b = (ROAMING_STATE_UNKNOWN <? GetPsRoamingStatus n) /\
  phone b = (GetCsRadioTech n, GetPsRadioTech n) /\ emergency b = NetworkState.IsEmergency n /\ operator_eq (unnamed (app b)) (unnamed n) = true.
(** What subscribers of a service know of its registration, and the technology where it is registered. *)
Definition support_of (type : Z) (st : ImsServiceStatus) : bool :=
  if type =? TYPE_VOICE then supportImsVoice st else if type =? TYPE_VIDEO then supportImsVideo st else if type =? TYPE_UT then supportImsUt st else supportImsSms st.
Definition ims_types : list Z := [TYPE_VOICE; TYPE_VIDEO; TYPE_UT; TYPE_SMS].
Definition ims_state (registered : bool) : Z := if registered then IMS_REGISTERED else IMS_UNREGISTERED.
Definition ims_known (b : belief) (o : network_search_state) (st : ImsServiceStatus) : Prop :=
  forall type, In type ims_types -> let registered := imsRegStatus_ o && support_of type st in
  imsRegState (ims b type) = ims_state registered /\ (registered = true -> imsRegTech (ims b type) = serviceRegTech st).

(** The search manager exists as long as its slots, others can listen to all notices, and updating the operator name changes nothing but the name. *)
Class SearchLaws (W : Type) `{!SearchManager W} `{!SearchExt W} (slot_ : Z) (view : W -> belief) : Prop := {
  always_alive w : manager_alive w = true;
  view_tell n w : view (tell n w) = learn slot_ n (view w);
  update_name (s : slot W) n : slotId_ (search s) = slot_ -> networkState_ (search s) = Some n -> proper n ->
    exists r n' s', UpdateOperatorName slot_ s = Ret (r, s') /\ search s' = NetworkSearchState.set_networkState_ (Some n') (search s) /\ view (outside s') = view (outside s) /\
      proper n' /\ unnamed n' = unnamed n;
  update_state f n w : updateNetworkStateExt_ = Some f -> proper n ->
    exists n', (f slot_ (Some n) w).1 = Some n' /\ proper n' /\ view (f slot_ (Some n) w).2 = view w;
  process_state f ns w : processStateChangeExt_ = Some f -> (f slot_ ns w).1.2 = Some ns /\ view (f slot_ ns w).2 = view w
}.

Lemma set_proper f v n : is_i32 v -> (f = FpsRoaming -> 0 <= v) -> proper n -> proper (set_field f v n).
Proof.
  unfold proper, NetworkState.wf, int_fields. rewrite !Forall_cons. intros Hv Hf. destruct n as [e [] []]. cbn [NetworkState.csRoaming_].
  intros [Wn Rn]. destruct f; cbn in *; rewrite ?Forall_cons in *; destruct_and! Wn; split_and!; auto.
Qed.

(** The setters that registrations use. *)
Lemma SetNetworkState_proper st d n : is_i32 st -> proper n -> proper (NetworkState.SetNetworkState st d n).
Proof. intros. unfold NetworkState.SetNetworkState. case_match; by apply set_proper. Qed.
Lemma SetRoaming_proper r d n : is_i32 r -> 0 <= r -> proper n -> proper (NetworkState.SetRoaming r d n).
Proof. intros. unfold NetworkState.SetRoaming. case_match; by apply set_proper. Qed.
Lemma fields_i32 n : proper n -> is_i32 (psRadioTech_ n) /\ is_i32 (psRadioTechV2_ n) /\ is_i32 (cfgTech_ n) /\ is_i32 (cfgTechV2_ n).
Proof. intros [Wn _]. unfold NetworkState.wf, int_fields in Wn. rewrite !Forall_cons in Wn. tauto. Qed.
Lemma SetNetworkType_proper t d n : is_i32 t -> proper n -> proper (NetworkState.SetNetworkType t d n).
Proof. intros Ht Pn. unfold NetworkState.SetNetworkType. pose proof (fields_i32 n Pn). case_match; repeat apply set_proper; done || tauto. Qed.
Lemma SetNetworkTypeV2_proper t d n : is_i32 t -> proper n -> proper (NetworkState.SetNetworkTypeV2 t d n).
Proof. intros Ht Pn. unfold NetworkState.SetNetworkTypeV2. pose proof (fields_i32 n Pn). case_match; repeat apply set_proper; done || tauto. Qed.
Lemma SetCfgTech_proper t n : is_i32 t -> proper n -> proper (NetworkState.SetCfgTech t n).
Proof. intros Ht Pn. unfold NetworkState.SetCfgTech. pose proof (fields_i32 n Pn). repeat apply set_proper; done || tauto. Qed.
Lemma SetCfgTechV2_proper t n : is_i32 t -> proper n -> proper (NetworkState.SetCfgTechV2 t n).
Proof. intros Ht Pn. unfold NetworkState.SetCfgTechV2. pose proof (fields_i32 n Pn). repeat apply set_proper; done || tauto. Qed.
Lemma SetNrState_proper t n : is_i32 t -> proper n -> proper (NetworkState.SetNrState t n).
Proof. intros. by apply set_proper. Qed.
Lemma SetEmergency_proper b n : proper n -> proper (NetworkState.SetEmergency b n).
Proof. by destruct n as [? [] []]. Qed.
#[export] Hint Resolve SetNetworkState_proper SetRoaming_proper SetNetworkType_proper SetNetworkTypeV2_proper SetCfgTech_proper SetCfgTechV2_proper SetNrState_proper SetEmergency_proper : telephony.

Section Known.
Context {P W : Type} `{ParcelLaws P} `{!Roomy P} `{ErrorCodes} `{!SearchManager W} `{!SearchExt W} (slot_ : Z) (view : W -> belief) `{!SearchLaws W slot_ view}.
Import NetworkSearchState.

Lemma Marshalling_fine n : fine (P := P) (NetworkState.Marshalling n).
Proof. unfold NetworkState.Marshalling, MarshallingString, MarshallingInt. repeat first [apply fine_write|apply fine_seq]. Qed.
Lemma copy_equal n into data : NetworkState.wf n -> content data = [] -> exists data', copy (P := P) n into data = (n, data') /\ content data' = [].
Proof.
  intros Wn C. unfold copy. destruct (writes_appends _ _ (Marshalling_writes n Wn) (Marshalling_fine n) data) as (p' & -> & C').
  rewrite C in C'. destruct (ReadFromParcel_reads n) as [R _]. destruct (R into p' []) as (p'' & -> & C''); [by rewrite app_nil_r|]. by exists p''.
Qed.

(** [m], started in [s], ends with the same members and the belief [b]. *)
Definition leads (m : NS (W := W) unit) (s : slot W) (b : belief) : Prop := exists s', m s = Ret (tt, s') /\ search s' = search s /\ view (outside s') = b.
Lemma leads_ret s : leads (mret tt) s (view (outside s)).
Proof. by exists s. Qed.
Lemma leads_told n s : leads (told n) s (learn slot_ n (view (outside s))).
Proof. eexists. split; [reflexivity|]. split; [done|]. apply view_tell. Qed.
Lemma leads_seq (m k : NS (W := W) unit) s b b' : leads m s b -> (forall s', search s' = search s -> view (outside s') = b -> leads k s' b') -> leads (m ;; k) s b'.
Proof.
  intros (s1 & E1 & S1 & V1) Hk. destruct (Hk s1 S1 V1) as (s2 & E2 & S2 & V2). exists s2. unfold mbind, partial_bind. rewrite E1.
  split; [done|]. split; [by rewrite S2|done].
Qed.
Lemma leads_roaming slotId status s : leads (set_roaming slotId status) s (view (outside s)).
Proof.
  eexists. split; [reflexivity|]. split; [done|]. cbn. by rewrite view_tell; destruct (view (outside s)).
Qed.
Lemma leads_if_exist k s n b : networkState_ (search s) = Some n -> leads (k (slotId_ (search s)) (processNetworkState_ (search s)) n) s b -> leads (if_exist k) s b.
Proof.
  intros En (s' & E & L). exists s'. split; [|done]. unfold if_exist, manager_exists, member, elsewhere, pure, gets, mbind, partial_bind. cbn.
  rewrite always_alive. cbn. rewrite En. by destruct s.
Qed.
Lemma deref_ret {A B} (p : network_search_state -> option A) (f : A -> B) a (s : slot W) : p (search s) = Some a -> deref p f s = Ret (f a, s).
Proof. intros E. unfold deref, attempt. by rewrite E. Qed.

Context (s : slot W) (n old : NetworkState).
Hypotheses (Hslot : slotId_ (search s) = slot_) (Hn : networkState_ (search s) = Some n) (Hold : networkStateOld_ (search s) = Some old).

Definition attach (v : bool) (b : belief) : belief := MkBelief v (roaming b) (phone b) (emergency b) (app b) (ims b).
Definition roam (v : bool) (b : belief) : belief := MkBelief (attached b) v (phone b) (emergency b) (app b) (ims b).
Definition ring (v : Z * Z) (b : belief) : belief := MkBelief (attached b) (roaming b) v (emergency b) (app b) (ims b).
Definition alarm (v : bool) (b : belief) : belief := MkBelief (attached b) (roaming b) (phone b) v (app b) (ims b).


(** Follow one of the notifications: null checks, comparisons, calls. *)
Ltac expose := eapply leads_if_exist; [exact Hn|]; rewrite Hslot.
Ltac follow :=
  unfold leads, deref, attempt, member, set_roaming, told, elsewhere, pure, modifies, gets; unfold mbind, partial_bind, outcome_bind; repeat (cbn -[learn] in *; rewrite ?Hold; repeat match goal with E : ?b = _ :> bool |- context [?b] => rewrite E end);
  (eexists; split; [reflexivity|]; split; [by destruct s|]; cbn -[learn]; rewrite ?view_tell; destruct (view (outside s)); cbn in *; rewrite ?Z.eqb_refl; cbn; subst; try done).
Lemma leads_attached : attached (view (outside s)) = (GetPsRegStatus old =? REG_STATE_IN_SERVICE) ->
  leads NotifyPsRegStatusChange s (attach (GetPsRegStatus n =? REG_STATE_IN_SERVICE) (view (outside s))).
Proof.
  intros K. unfold NotifyPsRegStatusChange. expose.
  destruct (GetPsRegStatus n =? _), (processNetworkState_ (search s)), (GetPsRegStatus old =? _) eqn:?; follow; try (by rewrite Heqb in *).
Qed.
Lemma leads_emergency : emergency (view (outside s)) = NetworkState.IsEmergency old ->
  leads NotifyEmergencyChange s (alarm (NetworkState.IsEmergency n) (view (outside s))).
Proof. intros K. unfold NotifyEmergencyChange. expose. destruct (processNetworkState_ (search s)), (NetworkState.IsEmergency n), (NetworkState.IsEmergency old) eqn:?; follow. Qed.
Lemma leads_nr : leads NotifyNrStateChange s (view (outside s)).
Proof. unfold NotifyNrStateChange. expose. destruct (processNetworkState_ (search s)), (GetNrState n =? GetNrState old) eqn:?; follow. Qed.
Lemma leads_roaming_change : 0 <= GetPsRoamingStatus n -> 0 <= GetPsRoamingStatus old -> roaming (view (outside s)) = (ROAMING_STATE_UNKNOWN <? GetPsRoamingStatus old) ->
  leads (NotifyPsRoamingStatusChange (W := W)) s (roam (ROAMING_STATE_UNKNOWN <? GetPsRoamingStatus n) (view (outside s))).
Proof.
  assert (forall x, 0 <= x -> (ROAMING_STATE_UNKNOWN <? x) = negb (x =? ROAMING_STATE_UNKNOWN)) as S.
  { intros x Hx. unfold ROAMING_STATE_UNKNOWN. destruct (Z.ltb_spec 0 x), (Z.eqb_spec x 0); (done || lia). }
  intros Ln Lo K. apply S in Ln, Lo. clear S. unfold NotifyPsRoamingStatusChange. expose. rewrite !Ln. rewrite Lo in K.
  destruct (GetPsRoamingStatus n =? _) eqn:?, (GetPsRoamingStatus old =? _) eqn:?; follow.
Qed.
Lemma leads_cs : leads CsRadioTechChange s
  (if processNetworkState_ (search s) || negb (GetCsRadioTech n =? GetCsRadioTech old) then ring (GetCsRadioTech n, GetPsRadioTech n) (view (outside s)) else view (outside s)).
Proof. unfold CsRadioTechChange. expose. destruct (processNetworkState_ (search s)), (GetCsRadioTech n =? GetCsRadioTech old) eqn:?; follow. Qed.
Lemma leads_ps : leads NotifyPsRadioTechChange s
  (if processNetworkState_ (search s) || negb (GetPsRadioTech n =? GetPsRadioTech old) then ring (GetCsRadioTech n, GetPsRadioTech n) (view (outside s)) else view (outside s)).
Proof. unfold NotifyPsRadioTechChange. expose. destruct (processNetworkState_ (search s)), (GetPsRadioTech n =? GetPsRadioTech old) eqn:?; follow. Qed.
End Known.

Section Told.
Context {P W : Type} `{ParcelLaws P} `{!Roomy P} `{ErrorCodes} `{!SearchManager W} `{!SearchExt W} (slot_ : Z) (view : W -> belief) `{!SearchLaws W slot_ view}.
Import NetworkSearchState.
#[local] Abbreviation leads := (leads view).

(** The six notifications together: those who listen know the new registration, but for the copy that the applications have. *)
Definition updated (n : NetworkState) (b : belief) : belief :=
  MkBelief (GetPsRegStatus n =? REG_STATE_IN_SERVICE) (ROAMING_STATE_UNKNOWN <? GetPsRoamingStatus n) (GetCsRadioTech n, GetPsRadioTech n) (NetworkState.IsEmergency n) (app b) (ims b).
Lemma leads_all (s : slot W) n old :
  slotId_ (search s) = slot_ -> networkState_ (search s) = Some n -> networkStateOld_ (search s) = Some old -> proper n -> proper old -> knows (view (outside s)) old ->
  exists s', (forall k : NS (W := W) unit, (CsRadioTechChange ;; NotifyPsRadioTechChange ;; NotifyPsRegStatusChange ;; NotifyPsRoamingStatusChange ;; NotifyEmergencyChange ;; NotifyNrStateChange ;; k) s = k s') /\ search s' = search s /\ view (outside s') = updated n (view (outside s)).
Proof.
  intros Hs Hn Ho [_ Rn] [_ Ro] (Ka & Kr & Kp & Ke & _).
  destruct (leads_cs slot_ view s n old Hs Hn Ho) as (s1 & E1 & S1 & V1).
  destruct (leads_ps slot_ view s1 n old) as (s2 & E2 & S2 & V2); [congruence..|].
  assert (view (outside s2) = ring (GetCsRadioTech n, GetPsRadioTech n) (view (outside s))) as V2'.
  { rewrite V2, V1, S1. destruct (view (outside s)). cbn in Kp. subst. destruct (processNetworkState_ (search s)); [done|]. cbn [orb].
    destruct (Z.eqb_spec (GetCsRadioTech n) (GetCsRadioTech old)) as [->|]; cbn [negb]; destruct (Z.eqb_spec (GetPsRadioTech n) (GetPsRadioTech old)) as [->|]; done. }
  destruct (leads_attached slot_ view s2 n old) as (s3 & E3 & S3 & V3); [congruence..|by rewrite V2'|].
  destruct (leads_roaming_change slot_ view s3 n old) as (s4 & E4 & S4 & V4); [congruence..|done|done|by rewrite V3, V2'|].
  destruct (leads_emergency slot_ view s4 n old) as (s5 & E5 & S5 & V5); [congruence..|by rewrite V4, V3, V2'|].
  destruct (leads_nr slot_ view s5 n old) as (s6 & E6 & S6 & V6); [congruence..|].
  exists s6. split; [|split; [congruence|by rewrite V6, V5, V4, V3, V2']].
  intros k. unfold mbind, partial_bind. by rewrite E1, E2, E3, E4, E5, E6.
Qed.

(** The object with the given registrations. *)
Definition with_states (n old : NetworkState) (process : bool) (o : network_search_state) : network_search_state :=
  MkSearchState (Some n) (Some old) (imsRegStatus_ o) (slotId_ o) (imsServiceStatus_ o) process.
Lemma then_ {A B} (m : NS (W := W) A) (k : A -> NS (W := W) B) s a s' : m s = Ret (a, s') -> (m ≫= k) s = k a s'.
Proof. intros E. unfold mbind, partial_bind. by rewrite E. Qed.
Lemma deref_old {A} (f : NetworkState -> A) (s : slot W) old : networkStateOld_ (search s) = Some old -> deref networkStateOld_ f s = Ret (f old, s).
Proof. apply deref_ret. Qed.
Lemma deref_now {A} (f : NetworkState -> A) (s : slot W) n : networkState_ (search s) = Some n -> deref networkState_ f s = Ret (f n, s).
Proof. apply deref_ret. Qed.
Lemma update_ext_ends (s : slot W) n : slotId_ (search s) = slot_ -> networkState_ (search s) = Some n -> proper n ->
  exists n' s', update_ext s = Ret (tt, s') /\ proper n' /\ search s' = set_networkState_ (Some n') (search s) /\ view (outside s') = view (outside s) /\ (updateNetworkStateExt_ = None -> n' = n).
Proof.
  intros Hs Hn Pn. unfold update_ext. destruct updateNetworkStateExt_ as [f|] eqn:Ef.
  - destruct (update_state f n (outside s) Ef Pn) as (n' & En & Pn' & V). destruct (f slot_ (Some n) (outside s)) as [m w] eqn:E. cbn in En, V. subst m.
    eexists n', _. split; [unfold pure; rewrite Hs, Hn, E; reflexivity|]. done.
  - exists n, s. split_and!; [done..|by destruct s as [[]]; cbn in *; subst|done|done].
Qed.
Lemma process_ext_ends (s : slot W) ns : slotId_ (search s) = slot_ ->
  exists delayed s', process_ext ns s = Ret ((delayed, Some ns), s') /\ search s' = search s /\ view (outside s') = view (outside s) /\
    (processStateChangeExt_ = None -> delayed = false).
Proof.
  intros Hs. unfold process_ext. destruct processStateChangeExt_ as [f|] eqn:Ef; [|by exists false, s].
  destruct (process_state f ns (outside s) Ef) as [E V]. destruct (f slot_ ns (outside s)) as [[delayed ns'] w] eqn:Ef'. cbn in E, V. subst ns'.
  exists delayed, (MkSlot (search s) (roamingStr s) w). split; [|by split].
  unfold mbind, partial_bind, member, elsewhere, pure, gets. by rewrite Hs, Ef'.
Qed.
Lemma unnamed_same n n' : unnamed n' = unnamed n ->
  GetPsRegStatus n' = GetPsRegStatus n /\ GetPsRoamingStatus n' = GetPsRoamingStatus n /\ GetCsRadioTech n' = GetCsRadioTech n /\ GetPsRadioTech n' = GetPsRadioTech n /\
  NetworkState.IsEmergency n' = NetworkState.IsEmergency n.
Proof. destruct n as [? [] []], n' as [? [] []]. intros E. by inversion E. Qed.
Lemma operator_eq_refl n : operator_eq n n = true.
Proof. by apply operator_eq_same. Qed.

Lemma NotifyStateChange_ends (s : slot W) n old :
  slotId_ (search s) = slot_ -> networkState_ (search s) = Some n -> networkStateOld_ (search s) = Some old -> proper n -> proper old -> knows (view (outside s)) old ->
  exists s' n' old' process, NotifyStateChange (P := P) s = Ret (tt, s') /\ search s' = with_states n' old' process (search s) /\ proper n' /\ proper old' /\
    knows (view (outside s')) old' /\ ims (view (outside s')) = ims (view (outside s)) /\ operator_eq n' old' = true /\
    (updateNetworkStateExt_ = None -> processStateChangeExt_ = None -> unnamed n' = unnamed n).
Proof.
  intros Hs Hn Ho Pn Po K. unfold NotifyStateChange.
  erewrite then_ by reflexivity. rewrite Hn. cbn [not_null negb].
  destruct (update_ext_ends s n Hs Hn Pn) as (n1 & s1 & E1 & P1 & S1 & V1 & X1). rewrite (then_ _ _ _ _ _ E1). clear E1.
  erewrite then_ by reflexivity.
  assert (Hs1 : slotId_ (search s1) = slot_) by by rewrite S1.
  assert (Hn1 : networkState_ (search s1) = Some n1) by by rewrite S1.
  assert (Ho1 : networkStateOld_ (search s1) = Some old) by by rewrite S1.
  rewrite <- V1 in K |- *.
  assert (Ec : exists c, (if processNetworkState_ (search s1) then mret true else n ← deref networkState_ id; old ← deref networkStateOld_ id; mret (negb (operator_eq n old))) s1 = Ret (c, s1) /\
     (c = false -> operator_eq n1 old = true)).
  { destruct (processNetworkState_ (search s1)); [by exists true|]. rewrite (then_ _ _ _ _ _ (deref_now id s1 n1 Hn1)). cbn [id].
    rewrite (then_ _ _ _ _ _ (deref_old id s1 old Ho1)). eexists. split; [reflexivity|]. by intros ?%negb_false_iff. }
  destruct Ec as (c & Ec & Hc). rewrite (then_ _ _ _ _ _ Ec). clear Ec. destruct c.
  - (* changed *)
    clear Hc. rewrite (then_ _ _ _ _ _ (deref_now id s1 n1 Hn1)). cbn [id].
    destruct (copy_equal n1 NetworkState.Init new_parcel (proj1 P1) new_law) as (data & -> & Cd).
    destruct (process_ext_ends s1 n1 Hs1) as (delayed & s2 & E2 & S2 & V2 & X2). rewrite (then_ _ _ _ _ _ E2). clear E2. rewrite <- V2 in K |- *. rewrite <- S2 in Hs1, Hn1, Ho1. destruct delayed.
    + rewrite (then_ _ _ _ _ _ (deref_old id s2 old Ho1)), (then_ _ _ _ _ _ (deref_now id s2 n1 Hn1)). cbn [id].
      destruct (copy_equal old n1 data (proj1 Po) Cd) as (data' & -> & _). eexists _, old, old, true. split; [reflexivity|]. cbn.
      rewrite S2, S1. split_and!; try done; [|apply operator_eq_refl|by intros _ ?%X2]. unfold with_states, set_processNetworkState_, set_networkState_. cbn. congruence.
    + destruct (leads_all s2 n1 old Hs1 Hn1 Ho1 P1 Po K) as (s3 & E3 & S3 & V3). rewrite E3. clear E3. rewrite <- S3 in Hs1, Hn1, Ho1.
      erewrite then_ by reflexivity. rewrite always_alive. erewrite then_ by reflexivity. cbn [search outside].
      destruct (update_name (MkSlot (search s3) (roamingStr s3) (outside s3)) n1 Hs1 Hn1 P1) as (r & n2 & s4 & E4 & S4 & V4 & P2 & U2). cbn [search outside] in *.
      rewrite Hs1. erewrite then_ by (rewrite (then_ _ _ _ _ _ E4); reflexivity).
      erewrite then_ by reflexivity.
      assert (Hn4 : networkState_ (search s4) = Some n2) by by rewrite S4.
      assert (Ho4 : networkStateOld_ (search s4) = Some old) by by rewrite S4.
      erewrite then_ by (apply deref_now; exact Hn4). erewrite then_ by (apply deref_old; exact Ho4). cbn [id].
      destruct (copy_equal n2 old data (proj1 P2) Cd) as (data' & -> & _). eexists _, n2, n2, false. split; [reflexivity|]. cbn -[learn].
      rewrite view_tell, V4, V3, S4, S3, S2, S1. cbn. rewrite Z.eqb_refl. split_and!; try done; [|apply operator_eq_refl|by intros <-%X1].
      destruct (unnamed_same _ _ U2) as (A & B & C & D & E). cbn in A, B, C, D, E. unfold knows. cbn. rewrite A, B, C, D, E, U2. split_and!; try done. apply operator_eq_refl.
  - (* unchanged *)
    eexists _, n1, old, false. split; [reflexivity|]. cbn. rewrite S1. split_and!; try done; [|by apply Hc|by intros ->%X1].
    unfold with_states, set_processNetworkState_, set_networkState_. cbn. congruence.
Qed.

(** *** IP services *)

Definition hear (type : Z) (info : ImsRegInfo) (b : belief) : belief :=
  MkBelief (attached b) (roaming b) (phone b) (emergency b) (app b) (fun t => if t =? type then info else ims b t).
Lemma leads_ims (s : slot W) n type info : slotId_ (search s) = slot_ -> networkState_ (search s) = Some n ->
  leads (NotifyImsStateChange type info) s (hear type info (view (outside s))).
Proof.
  intros Hs Hn. unfold leads, NotifyImsStateChange, manager_exists, told, member, elsewhere, pure, gets, modifies, mbind, partial_bind. cbn -[learn].
  rewrite always_alive. cbn -[learn]. rewrite Hn. cbn -[learn]. eexists. split; [reflexivity|]. split; [by destruct s|]. cbn -[learn].
  rewrite view_tell, Hs. unfold learn, hear. rewrite Z.eqb_refl. by destruct (view (outside s)).
Qed.
Lemma leads_supported (s : slot W) n st support type : slotId_ (search s) = slot_ -> networkState_ (search s) = Some n -> imsServiceStatus_ (search s) = Some st ->
  leads (notify_if_supported support type) s
    (if support st then hear type (MkImsRegInfo (ims_state (imsRegStatus_ (search s) && true)) (serviceRegTech st)) (view (outside s)) else view (outside s)).
Proof.
  intros Hs Hn Hst. unfold notify_if_supported, leads.
  do 2 erewrite then_ by (apply deref_ret; exact Hst). destruct (support st); [|by exists s].
  erewrite then_ by reflexivity. by apply leads_ims with (n := n).
Qed.
Lemma GetImsRegState_ends (s : slot W) st type : In type ims_types -> imsServiceStatus_ (search s) = Some st ->
  GetImsRegState type s = Ret (ims_state (imsRegStatus_ (search s) && support_of type st), s).
Proof.
  intros T Hst. unfold GetImsRegState. erewrite then_ by reflexivity. destruct T as [<-|[<-|[<-|[<-|[]]]]]; cbn [Z.eqb].
  all: destruct s as [o r w]; cbn in *; destruct (imsRegStatus_ o); cbn; [by erewrite then_ by (apply deref_ret; exact Hst)|reflexivity].
Qed.
Lemma leads_changed_ims (s : slot W) n st type (changed techc : bool) tech :
  In type ims_types -> slotId_ (search s) = slot_ -> networkState_ (search s) = Some n -> imsServiceStatus_ (search s) = Some st ->
  leads (notify_if_changed changed techc (support_of type) type tech) s
    (if changed || techc && support_of type st then hear type (MkImsRegInfo (ims_state (imsRegStatus_ (search s) && support_of type st)) tech) (view (outside s)) else view (outside s)).
Proof.
  intros T Hs Hn Hst. unfold notify_if_changed, leads.
  assert (E : (if changed then mret true else if techc then deref imsServiceStatus_ (support_of type) else mret false) s = Ret (changed || techc && support_of type st, s)).
  { destruct changed, techc; try done. cbn. by apply deref_ret. }
  rewrite (then_ _ _ _ _ _ E). destruct (changed || techc && support_of type st); [|by exists s].
  rewrite (then_ _ _ _ _ _ (GetImsRegState_ends s st type T Hst)). by apply leads_ims with (n := n).
Qed.

(** The four services one after the other. *)
Lemma leads_four (m1 m2 m3 m4 : NS (W := W) unit) (s : slot W) b (c : Z -> bool) (info : Z -> ImsRegInfo) :
  b = view (outside s) ->
  (forall type m s', In (type, m) [(TYPE_VOICE, m1); (TYPE_VIDEO, m2); (TYPE_UT, m3); (TYPE_SMS, m4)] -> search s' = search s ->
     leads m s' (if c type then hear type (info type) (view (outside s')) else view (outside s'))) ->
  exists b', leads (m1 ;; m2 ;; m3 ;; m4) s b' /\ (forall n, knows b n -> knows b' n) /\
    forall type, In type ims_types -> ims b' type = (if c type then info type else ims b type).
Proof.
  intros -> L. destruct (L _ _ s (or_introl eq_refl) eq_refl) as (s1 & E1 & S1 & V1).
  destruct (L _ _ s1 (or_intror (or_introl eq_refl)) S1) as (s2 & E2 & S2 & V2). rewrite S1 in S2.
  destruct (L _ _ s2 (or_intror (or_intror (or_introl eq_refl))) S2) as (s3 & E3 & S3 & V3). rewrite S2 in S3.
  destruct (L _ _ s3 (or_intror (or_intror (or_intror (or_introl eq_refl)))) S3) as (s4 & E4 & S4 & V4). rewrite S3 in S4.
  exists (view (outside s4)). split; [|split].
  - exists s4. split_and!; [|done|done]. unfold mbind, partial_bind. by rewrite E1, E2, E3, E4.
  - intros n. rewrite V4, V3, V2, V1. by destruct (c TYPE_VOICE), (c TYPE_VIDEO), (c TYPE_UT), (c TYPE_SMS).
  - rewrite V4, V3, V2, V1. intros type [<-|[<-|[<-|[<-|[]]]]]; by destruct (c TYPE_VOICE), (c TYPE_VIDEO), (c TYPE_UT), (c TYPE_SMS).
Qed.

Lemma SetImsStatus_ends (s : slot W) n st reg : slotId_ (search s) = slot_ -> networkState_ (search s) = Some n -> imsServiceStatus_ (search s) = Some st ->
  ims_known (view (outside s)) (search s) st ->
  exists s', SetImsStatus reg s = Ret (tt, s') /\ search s' = set_imsRegStatus_ reg (search s) /\ (forall n, knows (view (outside s)) n -> knows (view (outside s')) n) /\
    ims_known (view (outside s')) (search s') st.
Proof.
  intros Hs Hn Hst K. unfold SetImsStatus. erewrite then_ by reflexivity.
  destruct (Bool.eqb (imsRegStatus_ (search s)) reg) eqn:E.
  - apply eqb_true_iff in E as <-. eexists. split; [reflexivity|]. cbn. split_and!; try done. by destruct s as [[]].
  - erewrite then_ by reflexivity. set (s1 := MkSlot _ _ _).
    destruct (leads_four (notify_if_supported supportImsVoice TYPE_VOICE) (notify_if_supported supportImsVideo TYPE_VIDEO) (notify_if_supported supportImsUt TYPE_UT) (notify_if_supported supportImsSms TYPE_SMS)
      s1 _ (fun type => support_of type st) (fun _ => MkImsRegInfo (ims_state reg) (serviceRegTech st)) eq_refl) as (b' & (s' & Es & S & V) & Kn & Ki).
    { intros type m s' T S. assert (networkState_ (search s') = Some n /\ slotId_ (search s') = slot_ /\ imsServiceStatus_ (search s') = Some st /\ imsRegStatus_ (search s') && true = reg) as (A & B & C & D).
      { rewrite S. cbn. by rewrite andb_true_r. }
      destruct T as [[= <- <-]|[[= <- <-]|[[= <- <-]|[[= <- <-]|[]]]]]; rewrite <- D; by apply leads_supported with (n := n). }
    exists s'. split_and!; [done|done|by rewrite V|]. rewrite S, V. intros type T. specialize (Ki type T). specialize (K type T) as [K1 K2]. cbn. rewrite Ki.
    destruct (support_of type st); cbn; [by rewrite andb_true_r|]. cbn in K1. rewrite andb_false_r in *. done.
Qed.
Lemma SetImsServiceStatus_ends (s : slot W) n st st' : slotId_ (search s) = slot_ -> networkState_ (search s) = Some n -> imsServiceStatus_ (search s) = Some st ->
  ims_known (view (outside s)) (search s) st ->
  exists s', SetImsServiceStatus st' s = Ret (tt, s') /\ search s' = set_imsServiceStatus_ (Some st') (search s) /\ (forall n, knows (view (outside s)) n -> knows (view (outside s')) n) /\
    ims_known (view (outside s')) (search s') st'.
Proof.
  intros Hs Hn Hst K. unfold SetImsServiceStatus. do 5 erewrite then_ by (apply deref_ret; exact Hst).
  set (c := fun type => negb (Bool.eqb (support_of type st) (support_of type st'))). set (tc := negb (serviceRegTech st =? serviceRegTech st')).
  change (negb (Bool.eqb (supportImsVoice st) _)) with (c TYPE_VOICE). change (negb (Bool.eqb (supportImsVideo st) _)) with (c TYPE_VIDEO).
  change (negb (Bool.eqb (supportImsUt st) _)) with (c TYPE_UT). change (negb (Bool.eqb (supportImsSms st) _)) with (c TYPE_SMS).
  destruct (negb (c TYPE_VOICE) && negb (c TYPE_VIDEO) && negb (c TYPE_UT) && negb (c TYPE_SMS) && negb tc) eqn:E.
  - rewrite !andb_true_iff, !negb_true_iff in E. destruct E as ((((Ev & Evi) & Eu) & Es) & Et). unfold c, tc in *. rewrite !negb_false_iff, ?eqb_true_iff, ?Z.eqb_eq in *.
    assert (st' = st) as -> by (destruct st, st'; cbn in *; by subst). eexists. split; [reflexivity|]. split_and!; try done. by destruct s as [[]]; cbn in *; subst.
  - clear E. erewrite then_ by reflexivity. set (s1 := MkSlot _ _ _). erewrite then_ by reflexivity.
    destruct (imsRegStatus_ (search s)) eqn:Er.
    + replace (negb (imsRegStatus_ (search s1))) with false by (cbn; by rewrite Er).
      destruct (leads_four (notify_if_changed (c TYPE_VOICE) tc supportImsVoice TYPE_VOICE (serviceRegTech st')) (notify_if_changed (c TYPE_VIDEO) tc supportImsVideo TYPE_VIDEO (serviceRegTech st'))
        (notify_if_changed (c TYPE_UT) tc supportImsUt TYPE_UT (serviceRegTech st')) (notify_if_changed (c TYPE_SMS) tc supportImsSms TYPE_SMS (serviceRegTech st'))
        (MkSlot (search s1) (roamingStr s1) (outside s1)) _ (fun type => c type || tc && support_of type st') (fun type => MkImsRegInfo (ims_state (support_of type st')) (serviceRegTech st')) eq_refl)
        as (b' & (s' & Es & S & V) & Kn & Ki).
      { intros type m s' T S. assert (networkState_ (search s') = Some n /\ slotId_ (search s') = slot_ /\ imsServiceStatus_ (search s') = Some st' /\ forall x, imsRegStatus_ (search s') && x = x) as (A & B & C & D).
        { rewrite S. cbn. by rewrite Er. }
        rewrite <- (D (support_of type st')).
        destruct T as [[= <- <-]|[[= <- <-]|[[= <- <-]|[[= <- <-]|[]]]]]; rewrite (D _) at 1;
          lazymatch goal with |- leads (notify_if_changed (c ?t) _ _ _ _) _ _ => exact (leads_changed_ims s' n st' t (c t) tc (serviceRegTech st') ltac:(cbn; tauto) B A C) end. }
      exists s'. split_and!; [done|done|by rewrite V|]. rewrite S, V. intros type T. specialize (Ki type T). specialize (K type T) as [K1 K2]. cbn. rewrite Ki. cbn in K1, K2. rewrite Er in *.
      unfold c, tc. destruct (support_of type st), (support_of type st'); cbn in *; rewrite ?andb_false_r; try done. destruct (Z.eqb_spec (serviceRegTech st) (serviceRegTech st')) as [<-|]; cbn; [by split; [|apply K2]|done].
    + replace (negb (imsRegStatus_ (search s1))) with true by (cbn; by rewrite Er). eexists. split; [reflexivity|]. split_and!; try done.
      intros type T. specialize (K type T) as [K1 _]. cbn in *. rewrite Er in *. done.
Qed.

(** ** Every state of a slot *)

Inductive search_can_be : slot W -> Prop :=
| initialised str w s : view w = belief_new -> Init (MkSlot (NetworkSearchState_new slot_) str w) = Ret (true, s) -> search_can_be s
| set f s s' : (forall n, proper n -> proper (f n)) -> on_state f s = Ret (tt, s') -> search_can_be s -> search_can_be s'
| notified s s' : NotifyStateChange (P := P) s = Ret (tt, s') -> search_can_be s -> search_can_be s'
| ims_registration reg s s' : SetImsStatus reg s = Ret (tt, s') -> search_can_be s -> search_can_be s'
| ims_services st s s' : SetImsServiceStatus st s = Ret (tt, s') -> search_can_be s -> search_can_be s'
| others_act str w s : view w = view (outside s) -> search_can_be s -> search_can_be (MkSlot (search s) str w).

Definition known (s : slot W) : Prop :=
  slotId_ (search s) = slot_ /\ exists n old st, networkState_ (search s) = Some n /\ networkStateOld_ (search s) = Some old /\ imsServiceStatus_ (search s) = Some st /\
  proper n /\ proper old /\ knows (view (outside s)) old /\ ims_known (view (outside s)) (search s) st.
Lemma Init_proper : proper NetworkState.Init.
Proof. split; [|done]. repeat (apply Forall_cons_2; [split; vm_compute; (reflexivity || discriminate)|]). apply Forall_nil_2. Qed.
Lemma search_known s : search_can_be s -> known s.
Proof.
  induction 1 as [str w s V E|f s s' Hf E _ IH|s s' E _ IH|reg s s' E _ IH|st s s' E _ IH|str w s V _ IH].
  - unfold Init in E. injection E as <-. split; [done|]. exists NetworkState.Init, NetworkState.Init, ImsServiceStatus_new. cbn. rewrite V.
    split_and!; done || apply Init_proper.
  - destruct IH as (Hs & n & old & st & Hn & Ho & Hst & Pn & Po & K & Ki). injection E as <-. split; [done|]. exists (f n), old, st. cbn. rewrite Hn. split_and!; auto.
  - destruct IH as (Hs & n & old & st & Hn & Ho & Hst & Pn & Po & K & Ki).
    destruct (NotifyStateChange_ends s n old Hs Hn Ho Pn Po K) as (s1 & n1 & old1 & process & E1 & S1 & P1 & Q1 & K1 & I1 & _ & _).
    rewrite E1 in E. injection E as ->. unfold known. rewrite S1. split; [done|]. exists n1, old1, st. split_and!; try done. unfold ims_known. by rewrite I1.
  - destruct IH as (Hs & n & old & st & Hn & Ho & Hst & Pn & Po & K & Ki).
    destruct (SetImsStatus_ends s n st reg Hs Hn Hst Ki) as (s1 & E1 & S1 & K1 & I1). rewrite E1 in E. injection E as ->. split; [by rewrite S1|].
    exists n, old, st. rewrite S1 in *. split_and!; auto.
  - destruct IH as (Hs & n & old & st0 & Hn & Ho & Hst & Pn & Po & K & Ki).
    destruct (SetImsServiceStatus_ends s n st0 st Hs Hn Hst Ki) as (s1 & E1 & S1 & K1 & I1). rewrite E1 in E. injection E as ->. split; [by rewrite S1|].
    exists n, old, st. rewrite S1 in *. split_and!; auto.
  - destruct IH as (Hs & n & old & st & Hn & Ho & Hst & Pn & Po & K & Ki). split; [done|]. exists n, old, st. cbn. by rewrite V.
Qed.
#[export] Instance knows_proper b : Proper (same_now ==> iff) (knows b).
Proof.
  intros [? [] []] ? (lp & lc & lp2 & lc2 & ->). unfold knows. cbn -[operator_eq]. split; intros (? & ? & ? & ? & E); split_and!; try done.
  all: rewrite operator_eq_same in *; etransitivity; [exact E|]; repeat eexists.
Qed.


(** C39: In every state, who subscribed to the registration for calls, video calls or messages over IP knows what [GetImsStatus] answers, and the technology where it is registered;
    for supplementary services ([TYPE_UT]) this holds while the slot is registered. *)
Theorem ims_subscribers_know s type info : search_can_be s -> In type ims_types -> (type = TYPE_UT -> imsRegStatus_ (search s) = true) ->
  exists answer, GetImsStatus type info s = Ret ((TELEPHONY_SUCCESS, answer), s) /\
    imsRegState (ims (view (outside s)) type) = imsRegState answer /\
    (imsRegState answer = IMS_REGISTERED -> imsRegTech (ims (view (outside s)) type) = imsRegTech answer).
Proof.
  intros (_ & n & old & st & _ & _ & Hst & _ & _ & _ & Ki)%search_known T U. specialize (Ki type T) as [A B].
  exists (MkImsRegInfo (ims_state (imsRegStatus_ (search s) && support_of type st)) (serviceRegTech st)). split; [|split; [exact A|]].
  - unfold GetImsStatus, member, pure, gets. rewrite Hst. destruct T as [<-|[<-|[<-|[<-|[]]]]]; cbn; try done. by rewrite U.
  - cbn. intros R. apply B. by destruct (imsRegStatus_ (search s) && support_of type st).
Qed.
End Told.

(** ** A slot and a listener *)

Module NetworkSearchStateExample.
Import NetworkSearchState.
(** The world keeps the notices, and the operator name of the network is replaced by another one. *)
#[export] Instance manager : SearchManager (list notice) := {
  manager_alive _ := true;
  tell n l := l ++ [n];
  UpdateOperatorName _ s := Ret (0, MkSlot (set_networkState_ (NetworkState.SetLongOperatorName (str "Name of the card") DOMAIN_TYPE_PS <$> networkState_ (search s)) (search s)) (roamingStr s) (outside s))
}.
#[export] Instance no_extension : SearchExt (list notice) := { updateNetworkStateExt_ := None; processStateChangeExt_ := None }.
#[export] Instance search_errors : ErrorCodes := { COMMON_ERR_OFFSET := 0x7D00000; ERR_FLATTEN_OBJECT := 3 }.
Definition listen (l : list notice) : belief := foldl (fun b n => learn 0 n b) belief_new l.
#[export] Instance laws : SearchLaws (list notice) 0 listen.
Proof.
  split; [done|intros n w; cbn; unfold listen; by rewrite foldl_app| |done..].
  intros s n Hs Hn Pn. eexists 0, _, _. split; [reflexivity|]. cbn. rewrite Hn. split_and!; try done; by destruct n as [? [] []].
Qed.

Definition after {A} (m : NS (W := list notice) A) (s : slot (list notice)) : slot (list notice) := match m s with Ret (_, s) => s | _ => s end.
Definition at_first : slot (list notice) := MkSlot (NetworkSearchState_new 0) (str "00") [].
Definition initial := after Init at_first.
Definition registered := after (SetNetworkStateToRoaming 1 DOMAIN_TYPE_PS) (after (SetNetworkType RADIO_TECHNOLOGY_LTE DOMAIN_TYPE_PS) (after (SetNetworkState REG_STATE_IN_SERVICE DOMAIN_TYPE_PS) initial)).
Definition telling := after (NotifyStateChange (P := list item)) registered.
Definition lost := after (SetNetworkState 2 DOMAIN_TYPE_PS) telling.
Definition offered := after (SetImsServiceStatus (MkImsServiceStatus true false true false 1)) lost.
Definition ready := after (SetImsServiceStatus (MkImsServiceStatus true false true false 1)) initial.
Definition reachable_by_ims := after (SetImsStatus true) ready.

(** What is told when a slot registers in a foreign network. *)
Example telling_notices : outside telling =
  [UpdatePhone 0 0 9; SendUpdateCellLocationRequest 0; NotifyPsRatChanged 0; NotifyPsConnectionAttachedChanged 0; NotifyPsRoamingOpenChanged 0; SetParameter ROAMING_STATE (str "10");
   NotifyNetworkStateUpdated 0 (default NetworkState.Init (networkState_ (search registered)))].
Proof. vm_compute. reflexivity. Qed.
(** Nothing is told again. *)
Example nothing_new : outside (after (NotifyStateChange (P := list item)) telling) = outside telling.
Proof. vm_compute. reflexivity. Qed.
(** The applications have the registration with the operator name that it had before [UpdateOperatorName], and are not told of the new one. *)
Example applications_keep_old_name :
  GetLongOperatorName (app (listen (outside (after (NotifyStateChange (P := list item)) telling)))) = [] /\
  GetLongOperatorName (default NetworkState.Init (networkState_ (search telling))) = str "Name of the card".
Proof. split; vm_compute; reflexivity. Qed.
(** A slot that is not registered for calls over IP: the answer for supplementary services is that it is. *)
Example ut_without_registration :
  GetImsStatus TYPE_UT ImsRegInfo_new offered = Ret ((0, MkImsRegInfo IMS_REGISTERED 1), offered) /\ ims (listen (outside offered)) TYPE_UT = ImsRegInfo_new /\
  GetImsRegState TYPE_UT offered = Ret (IMS_UNREGISTERED, offered).
Proof. split_and!; vm_compute; reflexivity. Qed.
End NetworkSearchStateExample.
Import NetworkSearchStateExample.


Lemma ims_subscribers_know_witness :
  exists answer, NetworkSearchState.GetImsStatus TYPE_VOICE ImsRegInfo_new reachable_by_ims = Ret ((TELEPHONY_SUCCESS, answer), reachable_by_ims) /\
    imsRegState (ims (listen (outside reachable_by_ims)) TYPE_VOICE) = imsRegState answer /\
    (imsRegState answer = IMS_REGISTERED -> imsRegTech (ims (listen (outside reachable_by_ims)) TYPE_VOICE) = imsRegTech answer).
Proof.
  apply (ims_subscribers_know (P := list item) 0 listen); [|by left|discriminate].
  apply (ims_registration (P := list item) 0 listen true ready); [reflexivity|].
  apply (ims_services (P := list item) 0 listen (MkImsServiceStatus true false true false 1) initial); [reflexivity|].
  by apply (initialised (P := list item) 0 listen (str "00") [] initial).
Defined.
