(* ===== verification/NetworkRegister.v ===== *)
(** * [services/network_search/src/network_register.cpp]: registration results of the modem

    [NetworkRegister] translates the modem's registration results into the registration of the slot (file NetworkSearchState.v), and decides which technology is shown: a phone on
    LTE that may use 5G as well shows 5G depending on what is known of 5G in the cell ([nrState_]) and on a configuration, "ConfigA" to "ConfigD" and "ConfigAD".
    What the class uses of the search manager, its callbacks, the parameter service and the vendor extension is the interface [RegisterManager]. *)

From S2P Require Import Prelude CxxString Parcel Parcelables OperatorConfig CellInformation NetworkState SignalInformation CoreServiceApi NetworkSearchState.
Open Scope Z_scope.

(** ** Values of the modem ([tel_ril_enum.h], [tel_ril_network_parcel.h]) and of the program ([network_search_types.h]) *)

Definition TELEPHONY_NR_CONVERSION_CONFIG : cstring := str "persist.telephony.nr.config".
Definition TELEPHONY_NR_CONFIG_A : cstring := str "ConfigA".
Definition TELEPHONY_NR_CONFIG_B : cstring := str "ConfigB".
Definition TELEPHONY_NR_CONFIG_C : cstring := str "ConfigC".
Definition TELEPHONY_NR_CONFIG_D : cstring := str "ConfigD".
Definition TELEPHONY_NR_CONFIG_AD : cstring := str "ConfigAD".
Definition MAX_SIZE : Z := 100.
Definition CS_TYPE : Z := 0.
Definition IMS_TYPE : Z := 1.

Definition RRC_CONNECTED_STATUS : Z := 1.
Definition REG_STATE_NO_SERVICE : Z := 2.
Definition REG_STATE_EMERGENCY_ONLY : Z := 3.
Definition REG_STATE_SEARCH : Z := 4.
Definition ROAMING_STATE_UNSPEC : Z := 1.
Definition RADIO_TECHNOLOGY_NR : Z := 12.
Definition RADIO_TECHNOLOGY_GPRS : Z := 14.
Definition RADIO_TECHNOLOGY_EDGE : Z := 15.
Definition RADIO_TECHNOLOGY_UMTS : Z := 16.
Definition RADIO_TECHNOLOGY_HSDPA : Z := 17.
Definition RADIO_TECHNOLOGY_HSUPA : Z := 18.
Definition NR_NSA_STATE_NO_DETECT : Z := 2.
Definition NR_NSA_STATE_CONNECTED_DETECT : Z := 3.
Definition NR_NSA_STATE_IDLE_DETECT : Z := 4.
Definition NR_NSA_STATE_DUAL_CONNECTED : Z := 5.
Definition NR_NSA_STATE_SA_ATTACHED : Z := 6.
Definition FREQ_TYPE_UNKNOWN : Z := 0.
Definition CONNECTION_SECONDARY_CELL : Z := 2.

(** [NetworkRegister::RilRegister] *)
Module RilRegister.
Definition REG_STATE_NOT_REG : Z := 0.
Definition REG_STATE_HOME_ONLY : Z := 1.
Definition REG_STATE_SEARCH : Z := 2.
Definition REG_STATE_NO_SERVICE : Z := 3.
Definition REG_STATE_INVALID : Z := 4.
Definition REG_STATE_ROAMING : Z := 5.
Definition REG_STATE_EMERGENCY_ONLY : Z := 6.
End RilRegister.

Record CsRegStatusInfo : Type := MkCsRegStatusInfo {
  cs_notifyType : Z; cs_regStatus : Z; cs_lacCode : Z; cs_cellId : Z; cs_radioTechnology : Z; cs_radioTechnologyV2 : Z; cs_flag : Z
}.
Record PsRegStatusResultInfo : Type := MkPsRegStatusResultInfo {
  ps_notifyType : Z; ps_regStatus : Z; ps_lacCode : Z; ps_cellId : Z; ps_radioTechnology : Z; ps_radioTechnologyV2 : Z;
  isNrAvailable : bool; isEnDcAvailable : bool; isDcNrRestricted : bool; ps_flag : Z
}.
Record PhysicalChannelConfig : Type := MkPhysicalChannelConfig {
  cellConnStatus : Z; ratType : Z; cellBandwidthDownlinkKhz : Z; cellBandwidthUplinkKhz : Z; freqRange : Z; downlinkChannelNum : Z; uplinkChannelNum : Z;
  physicalCellId : Z; contextIdNum : Z; contextIds : list Z
}.
Record ChannelConfigInfoList : Type := MkChannelConfigInfoList { itemNum : Z; channelConfigInfos : list PhysicalChannelConfig; channel_flag : Z }.

(** ** The interface *)

Class RegisterManager (W : Type) : Type := {
  (** [GetCellularCallCallBack], [GetCellularDataCallBack]: whether there is one, and its methods *)
  has_cellular_call : W -> bool;
  SetReadyToCall : Z -> Z -> bool -> W -> W;
  has_cellular_data : W -> bool;
  HasInternetCapability : Z -> Z -> W -> bool * W;
  NotifyNrFrequencyChanged : Z -> W -> W;
  SetFrequencyType : Z -> Z -> W -> W;
  ProcessNotifyStateChangeEvent : Z -> W -> W;
  (** the list of cells; null pointers are not among them *)
  GetCellInfoList : Z -> W -> list Cell;
  (** the result, and the output argument, given its value before *)
  UpdateRrcConnectionState : Z -> Z -> W -> Z * Z;
  (** the result, and the string in the buffer *)
  GetParameter : cstring -> cstring -> W -> Z * cstring;
  updateNsaStateExt_ : option (Z -> Z -> bool -> bool -> Z -> W -> Z * W)
}.

Module NetworkRegister.
Record network_register : Type := MkNetworkRegister {
  networkSearchState_ : bool; (** the pointer is not null: it points to the slot's object *)
  endcSupport_ : bool;
  dcNrRestricted_ : bool;
  nrSupport_ : bool;
  freqType_ : Z;
  isNrSecondaryCell_ : bool;
  isPhysicalLinkActive_ : bool;
  nrState_ : Z;
  channelConfigInfos_ : list PhysicalChannelConfig;
  slotId_ : Z;
  isCsCapable_ : bool;
  currentNrConfig_ : cstring;
  systemPropertiesConfig_ : cstring
}.
(** The object, and the slot with everything else. *)
Record registering (W : Type) : Type := MkRegistering { reg : network_register; slot_of : slot W }.
Arguments MkRegistering {W}. Arguments reg {W}. Arguments slot_of {W}.

Definition set_endc (endc restricted nr : bool) (r : network_register) : network_register :=
  let '(MkNetworkRegister s _ _ _ f c p n l i cs cur sys) := r in MkNetworkRegister s endc restricted nr f c p n l i cs cur sys.
Definition set_freqType_ (f : Z) (r : network_register) : network_register :=
  let '(MkNetworkRegister s e d a _ c p n l i cs cur sys) := r in MkNetworkRegister s e d a f c p n l i cs cur sys.
Definition set_isNrSecondaryCell_ (c : bool) (r : network_register) : network_register :=
  let '(MkNetworkRegister s e d a f _ p n l i cs cur sys) := r in MkNetworkRegister s e d a f c p n l i cs cur sys.
Definition set_isPhysicalLinkActive_ (p : bool) (r : network_register) : network_register :=
  let '(MkNetworkRegister s e d a f c _ n l i cs cur sys) := r in MkNetworkRegister s e d a f c p n l i cs cur sys.
Definition set_nrState_ (n : Z) (r : network_register) : network_register :=
  let '(MkNetworkRegister s e d a f c p _ l i cs cur sys) := r in MkNetworkRegister s e d a f c p n l i cs cur sys.
Definition set_channelConfigInfos_ (l : list PhysicalChannelConfig) (r : network_register) : network_register :=
  let '(MkNetworkRegister s e d a f c p n _ i cs cur sys) := r in MkNetworkRegister s e d a f c p n l i cs cur sys.
Definition set_currentNrConfig_ (cur : cstring) (r : network_register) : network_register :=
  let '(MkNetworkRegister s e d a f c p n l i cs _ sys) := r in MkNetworkRegister s e d a f c p n l i cs cur sys.
Definition set_systemPropertiesConfig_ (sys : cstring) (r : network_register) : network_register :=
  let '(MkNetworkRegister s e d a f c p n l i cs cur _) := r in MkNetworkRegister s e d a f c p n l i cs cur sys.

(** [isCsCapable] is the resource [IS_CS_CAPABLE], if there is one. *)
Definition NetworkRegister_new (networkSearchState : bool) (slotId : Z) (isCsCapable : option bool) : network_register :=
  MkNetworkRegister networkSearchState false false false FREQ_TYPE_UNKNOWN false false NR_STATE_NOT_SUPPORT [] slotId (default true isCsCapable) [] TELEPHONY_NR_CONFIG_D.

Definition ConvertRegFromRil (code : Z) : Z :=
  if code =? RilRegister.REG_STATE_SEARCH then REG_STATE_SEARCH
  else if (code =? RilRegister.REG_STATE_NOT_REG) || (code =? RilRegister.REG_STATE_NO_SERVICE) then REG_STATE_NO_SERVICE
  else if code =? RilRegister.REG_STATE_INVALID then REG_STATE_UNKNOWN
  else if (code =? RilRegister.REG_STATE_ROAMING) || (code =? RilRegister.REG_STATE_HOME_ONLY) then REG_STATE_IN_SERVICE
  else if code =? RilRegister.REG_STATE_EMERGENCY_ONLY then REG_STATE_EMERGENCY_ONLY
  else REG_STATE_NO_SERVICE.
(** The technologies of the modem that are known have the same numbers in the program. *)
Definition ConvertTechFromRil (code : Z) : Z :=
  if bool_decide (code ∈ [RADIO_TECHNOLOGY_GSM; RADIO_TECHNOLOGY_1XRTT; RADIO_TECHNOLOGY_HSPA; RADIO_TECHNOLOGY_HSPAP; RADIO_TECHNOLOGY_WCDMA; RADIO_TECHNOLOGY_LTE; RADIO_TECHNOLOGY_EVDO;
    RADIO_TECHNOLOGY_EHRPD; RADIO_TECHNOLOGY_TD_SCDMA; RADIO_TECHNOLOGY_LTE_CA; RADIO_TECHNOLOGY_NR; RADIO_TECHNOLOGY_GPRS; RADIO_TECHNOLOGY_EDGE; RADIO_TECHNOLOGY_UMTS;
    RADIO_TECHNOLOGY_HSDPA; RADIO_TECHNOLOGY_HSUPA])
  then code else RADIO_TECHNOLOGY_UNKNOWN.
Definition IsValidConfig (config : cstring) : bool :=
  bool_decide (config ∈ [TELEPHONY_NR_CONFIG_A; TELEPHONY_NR_CONFIG_B; TELEPHONY_NR_CONFIG_C; TELEPHONY_NR_CONFIG_D; TELEPHONY_NR_CONFIG_AD]).

Section Members.
Context {P W : Type} `{ParcelOps P} `{ErrorCodes} `{!SearchManager W} `{!SearchExt W} `{!RegisterManager W}.
Definition NR : Type -> Type := partial (registering W).

Definition member {A} (f : network_register -> A) : NR A := pure (gets (fun s => f (reg s))).
Definition assign (f : network_register -> network_register) : NR unit := pure (modifies (fun s => MkRegistering (f (reg s)) (slot_of s))).
(** [networkSearchState_->...]: undefined when the pointer is null. *)
Definition state {A} (m : NetworkSearchState.NS (W := W) A) : NR A := fun s =>
  if networkSearchState_ (reg s) then match m (slot_of s) with Ret (a, t) => Ret (a, MkRegistering (reg s) t) | Exn => Exn | Undef => Undef end else Undef.
Definition elsewhere {A} (m : stateful W A) : NR A := pure (fun s =>
  let '(a, w) := m (outside (slot_of s)) in (a, MkRegistering (reg s) (MkSlot (search (slot_of s)) (roamingStr (slot_of s)) w))).
Definition manager_exists : NR bool := elsewhere (gets manager_alive).

Definition GetRrcConnectionState (rrcState : Z) : NR (Z * Z) :=
  alive ← manager_exists;
  if negb alive then mret (TELEPHONY_ERR_LOCAL_PTR_NULL, rrcState) else
  slotId ← member slotId_;
  elsewhere (gets (UpdateRrcConnectionState slotId rrcState)).
(** The configuration for both kinds of connection: A while connected, D otherwise. *)
Definition config_by_rrc (rrcState : Z) : cstring := if rrcState =? RRC_CONNECTED_STATUS then TELEPHONY_NR_CONFIG_A else TELEPHONY_NR_CONFIG_D.
Definition GetSystemPropertiesConfig : NR Z :=
  '(code, param) ← elsewhere (gets (GetParameter TELEPHONY_NR_CONVERSION_CONFIG TELEPHONY_NR_CONFIG_D));
  assign (set_systemPropertiesConfig_ (if (code <=? 0) || negb (IsValidConfig param) then TELEPHONY_NR_CONFIG_D else param)) ;;
  mret TELEPHONY_ERR_SUCCESS.
Definition InitNrConversionConfig : NR unit :=
  GetSystemPropertiesConfig ;;
  config ← member systemPropertiesConfig_;
  if bool_decide (config = TELEPHONY_NR_CONFIG_AD) then
    '(_, rrcState) ← GetRrcConnectionState 0;
    assign (set_currentNrConfig_ (config_by_rrc rrcState))
  else assign (set_currentNrConfig_ config).

Definition UpdateNetworkSearchState (regStatus tech techV2 roam type : Z) : NR unit :=
  state (NetworkSearchState.SetNetworkState regStatus type) ;;
  isCsCapable ← member isCsCapable_;
  state (NetworkSearchState.SetEmergency ((regStatus =? REG_STATE_EMERGENCY_ONLY) && isCsCapable)) ;;
  state (NetworkSearchState.SetNetworkType tech type) ;;
  state (NetworkSearchState.SetNetworkTypeV2 techV2 type) ;;
  state (NetworkSearchState.SetNetworkStateToRoaming roam type).
Definition UpdateCellularCall (regStatus callType : Z) : NR unit :=
  alive ← manager_exists;
  if negb alive then mret tt else
  if (regStatus =? REG_STATE_IN_SERVICE) || (regStatus =? REG_STATE_EMERGENCY_ONLY) then
    cellularCall ← elsewhere (gets has_cellular_call);
    if (cellularCall : bool) then slotId ← member slotId_; elsewhere (modifies (SetReadyToCall slotId callType true)) else mret tt
  else mret tt.
Definition roaming_of (registrationStatus : Z) : Z := if registrationStatus =? RilRegister.REG_STATE_ROAMING then ROAMING_STATE_UNSPEC else ROAMING_STATE_UNKNOWN.
Definition ProcessCsRegister (csRegStateResult : option CsRegStatusInfo) : NR unit :=
  alive ← manager_exists;
  if negb alive then mret tt else
  match csRegStateResult with
  | None => mret tt
  | Some info =>
      let regStatus := ConvertRegFromRil (cs_regStatus info) in
      present ← member networkSearchState_;
      if negb present then mret tt else
      UpdateCellularCall regStatus CS_TYPE ;;
      UpdateNetworkSearchState regStatus (ConvertTechFromRil (cs_radioTechnology info)) (ConvertTechFromRil (cs_radioTechnologyV2 info)) (roaming_of (cs_regStatus info)) DOMAIN_TYPE_CS
  end.

(** The identity of the first LTE cell, 0 if there is none. *)
Fixpoint first_lte (cellInfo : list Cell) : Z :=
  match cellInfo with
  | [] => 0
  | c :: cellInfo => if CellInformation.GetNetworkType c =? CELL_TYPE_LTE then GetCellId (base c) else first_lte cellInfo
  end.
Definition UpdateNsaState (nsaState : Z) : NR Z :=
  alive ← manager_exists;
  present ← member networkSearchState_;
  if negb alive || negb present then mret nsaState else
  slotId ← member slotId_;
  cellInfo ← elsewhere (gets (GetCellInfoList slotId));
  let cellId := first_lte cellInfo in
  networkState ← state (NetworkSearchState.GetNetworkStatus (P := P));
  match networkState with
  | None => mret nsaState
  | Some networkState =>
      let psRegTech := GetPsRadioTech networkState in
      if negb (GetRegStatus networkState =? REG_STATE_IN_SERVICE) || (negb (psRegTech =? RADIO_TECHNOLOGY_LTE) && negb (psRegTech =? RADIO_TECHNOLOGY_LTE_CA)) then mret nsaState else
      match updateNsaStateExt_ with
      | None => mret nsaState
      | Some f => nrSupport ← member nrSupport_; restricted ← member dcNrRestricted_; elsewhere (f slotId cellId nrSupport restricted nsaState)
      end
  end.
Definition UpdateNrState : NR unit :=
  present ← member networkSearchState_;
  if negb present then mret tt else
  networkState ← state (NetworkSearchState.GetNetworkStatus (P := P));
  match networkState with
  | None => mret tt
  | Some _ =>
      assign (set_nrState_ NR_STATE_NOT_SUPPORT) ;;
      networkState ← state (NetworkSearchState.GetNetworkStatus (P := P));
      networkState ← attempt (fun _ => the networkState);
      secondary ← member isNrSecondaryCell_;
      endc ← member endcSupport_;
      restricted ← member dcNrRestricted_;
      (if GetPsRadioTech networkState =? RADIO_TECHNOLOGY_NR then assign (set_nrState_ NR_NSA_STATE_SA_ATTACHED)
       else if (secondary : bool) then assign (set_nrState_ NR_NSA_STATE_DUAL_CONNECTED)
       else if (endc : bool) then assign (set_nrState_ (if (restricted : bool) then NR_STATE_NOT_SUPPORT else NR_NSA_STATE_NO_DETECT))
       else mret tt) ;;
      nsaState ← member nrState_;
      nsaState ← UpdateNsaState nsaState;
      assign (set_nrState_ nsaState) ;;
      state (NetworkSearchState.SetNrState nsaState)
  end.
Definition GetTechnologyByNrConfig (tech : Z) : NR Z :=
  if negb (tech =? RADIO_TECHNOLOGY_LTE_CA) && negb (tech =? RADIO_TECHNOLOGY_LTE) then mret tech else
  config ← member systemPropertiesConfig_;
  (if bool_decide (config = TELEPHONY_NR_CONFIG_AD) then
    '(_, rrcState) ← GetRrcConnectionState 0;
    assign (set_currentNrConfig_ (config_by_rrc rrcState))
   else mret tt) ;;
  nrState ← member nrState_;
  config ← member currentNrConfig_;
  mret (
    if nrState =? NR_NSA_STATE_NO_DETECT then if bool_decide (config = TELEPHONY_NR_CONFIG_D) then RADIO_TECHNOLOGY_NR else tech
    else if nrState =? NR_NSA_STATE_CONNECTED_DETECT then if bool_decide (config ∈ [TELEPHONY_NR_CONFIG_C; TELEPHONY_NR_CONFIG_D]) then RADIO_TECHNOLOGY_NR else tech
    else if nrState =? NR_NSA_STATE_IDLE_DETECT then if bool_decide (config ∈ [TELEPHONY_NR_CONFIG_B; TELEPHONY_NR_CONFIG_C; TELEPHONY_NR_CONFIG_D]) then RADIO_TECHNOLOGY_NR else tech
    else if nrState =? NR_NSA_STATE_DUAL_CONNECTED then RADIO_TECHNOLOGY_NR
    else tech).
Definition UpdateCfgTech : NR unit :=
  present ← member networkSearchState_;
  if negb present then mret tt else
  networkState ← state (NetworkSearchState.GetNetworkStatus (P := P));
  match networkState with
  | None => mret tt
  | Some _ =>
      networkState ← state (NetworkSearchState.GetNetworkStatus (P := P));
      n ← attempt (fun _ => the networkState);
      let tech := if negb (GetPsRadioTech n =? RADIO_TECHNOLOGY_UNKNOWN) then GetPsRadioTech n else GetCsRadioTech n in
      let techV2 := if negb (GetPsRadioTechV2 n =? RADIO_TECHNOLOGY_UNKNOWN) then GetPsRadioTechV2 n else GetCsRadioTechV2 n in
      cfgTech ← GetTechnologyByNrConfig tech;
      cfgTechV2 ← GetTechnologyByNrConfig techV2;
      state (NetworkSearchState.SetCfgTech cfgTech) ;;
      state (NetworkSearchState.SetCfgTechV2 cfgTechV2)
  end.
Definition ProcessPsRegister (psRegStatusResult : option PsRegStatusResultInfo) : NR unit :=
  alive ← manager_exists;
  if negb alive then mret tt else
  match psRegStatusResult with
  | None => mret tt
  | Some info =>
      let regStatus := ConvertRegFromRil (ps_regStatus info) in
      present ← member networkSearchState_;
      if negb present then mret tt else
      UpdateCellularCall regStatus IMS_TYPE ;;
      UpdateNetworkSearchState regStatus (ConvertTechFromRil (ps_radioTechnology info)) (ConvertTechFromRil (ps_radioTechnologyV2 info)) (roaming_of (ps_regStatus info)) DOMAIN_TYPE_PS ;;
      assign (set_endc (isEnDcAvailable info) (isDcNrRestricted info) (isNrAvailable info)) ;;
      UpdateNrState ;;
      UpdateCfgTech
  end.
Definition NotifyStateChange : NR Z :=
  present ← member networkSearchState_;
  if negb present then mret TELEPHONY_ERR_LOCAL_PTR_NULL else
  state (NetworkSearchState.NotifyStateChange (P := P)) ;;
  mret TELEPHONY_ERR_SUCCESS.

(** The first context of a channel that has access to the internet. *)
Fixpoint has_internet (slotId : Z) (cids : list Z) : NR bool :=
  match cids with
  | [] => mret false
  | cid :: cids => capable ← elsewhere (HasInternetCapability slotId cid); if (capable : bool) then mret true else has_internet slotId cids
  end.
Fixpoint frequency (slotId : Z) (configs : list PhysicalChannelConfig) : NR Z :=
  match configs with
  | [] => mret FREQ_TYPE_UNKNOWN
  | c :: configs => found ← has_internet slotId (contextIds c); if (found : bool) then mret (freqRange c) else frequency slotId configs
  end.
Definition NotifyNrFrequencyChanged : NR unit :=
  alive ← manager_exists;
  if negb alive then mret tt else
  cellularData ← elsewhere (gets has_cellular_data);
  if negb cellularData then mret tt else
  configs ← member channelConfigInfos_;
  if MAX_SIZE <=? zlen configs then mret tt else
  slotId ← member slotId_;
  curFreqType ← frequency slotId configs;
  freqType ← member freqType_;
  if freqType =? curFreqType then mret tt else
  assign (set_freqType_ curFreqType) ;;
  elsewhere (modifies (NotifyNrFrequencyChanged slotId)) ;;
  elsewhere (modifies (SetFrequencyType slotId curFreqType)).
Definition nr_secondary (c : PhysicalChannelConfig) : bool := (ratType c =? RADIO_TECHNOLOGY_NR) && (cellConnStatus c =? CONNECTION_SECONDARY_CELL).
Definition ProcessChannelConfigInfo (channelConfigInfoList : option ChannelConfigInfoList) : NR unit :=
  match channelConfigInfoList with
  | None => mret tt
  | Some l =>
      if MAX_SIZE <=? itemNum l then mret tt else
      if negb ((0 <? zlen (channelConfigInfos l)) && (i32 (zlen (channelConfigInfos l)) =? itemNum l)) then mret tt else
      assign (set_channelConfigInfos_ (channelConfigInfos l)) ;;
      let isNrSecondaryCell := existsb nr_secondary (take (Z.to_nat (itemNum l)) (channelConfigInfos l)) in
      NotifyNrFrequencyChanged ;;
      secondary ← member isNrSecondaryCell_;
      if Bool.eqb secondary isNrSecondaryCell then mret tt else
      assign (set_isNrSecondaryCell_ isNrSecondaryCell) ;;
      UpdateNrState ;;
      UpdateCfgTech ;;
      alive ← manager_exists;
      if negb alive then mret tt else
      slotId ← member slotId_;
      elsewhere (modifies (ProcessNotifyStateChangeEvent slotId))
  end.
Definition DcPhysicalLinkActiveUpdate (isActive : bool) : NR unit :=
  assign (set_isPhysicalLinkActive_ isActive) ;;
  UpdateNrState.
Definition HandleRrcStateChanged (status : Z) : NR Z :=
  config ← member systemPropertiesConfig_;
  (if bool_decide (config = TELEPHONY_NR_CONFIG_AD) then assign (set_currentNrConfig_ (config_by_rrc status)) else mret tt) ;;
  UpdateNrState ;;
  UpdateCfgTech ;;
  mret TELEPHONY_ERR_SUCCESS.
End Members.
End NetworkRegister.

(** ** What the registration becomes *)

(** The state of 5G, from the technology, the secondary cell, and what the LTE cell allows. *)
Definition nr_state_of (psTech : Z) (secondary endc restricted : bool) : Z :=
  if psTech =? RADIO_TECHNOLOGY_NR then NR_NSA_STATE_SA_ATTACHED
  else if secondary then NR_NSA_STATE_DUAL_CONNECTED
  else if endc && negb restricted then NR_NSA_STATE_NO_DETECT
  else NR_STATE_NOT_SUPPORT.
(** The states of 5G for which a configuration shows 5G instead of LTE: each configuration shows it where the one before does. *)
Definition shows (config : cstring) : list Z :=
  if bool_decide (config = TELEPHONY_NR_CONFIG_D) then [NR_NSA_STATE_DUAL_CONNECTED; NR_NSA_STATE_IDLE_DETECT; NR_NSA_STATE_CONNECTED_DETECT; NR_NSA_STATE_NO_DETECT]
  else if bool_decide (config = TELEPHONY_NR_CONFIG_C) then [NR_NSA_STATE_DUAL_CONNECTED; NR_NSA_STATE_IDLE_DETECT; NR_NSA_STATE_CONNECTED_DETECT]
  else if bool_decide (config = TELEPHONY_NR_CONFIG_B) then [NR_NSA_STATE_DUAL_CONNECTED; NR_NSA_STATE_IDLE_DETECT]
  else [NR_NSA_STATE_DUAL_CONNECTED].
Definition is_lte (tech : Z) : bool := bool_decide (tech ∈ [RADIO_TECHNOLOGY_LTE; RADIO_TECHNOLOGY_LTE_CA]).
Definition shown (config : cstring) (nrState tech : Z) : Z := if is_lte tech && bool_decide (nrState ∈ shows config) then RADIO_TECHNOLOGY_NR else tech.
(** The technology of either domain, of the packet switched one where it is known. *)
Definition best_tech (ps cs : Z) : Z := if ps =? RADIO_TECHNOLOGY_UNKNOWN then cs else ps.

(** The calls of this class tell the others nothing about the registration. *)
Class RegisterLaws (W : Type) `{!RegisterManager W} (view : W -> belief) : Prop := {
  view_ready i type b w : view (SetReadyToCall i type b w) = view w;
  view_internet i cid w : view (HasInternetCapability i cid w).2 = view w;
  view_frequency i w : view (NotifyNrFrequencyChanged i w) = view w;
  view_frequency_type i f w : view (SetFrequencyType i f w) = view w;
  view_event i w : view (ProcessNotifyStateChangeEvent i w) = view w;
  view_nsa f i cell nr restricted nsa w : updateNsaStateExt_ = Some f -> is_i32 nsa -> is_i32 (f i cell nr restricted nsa w).1 /\ view (f i cell nr restricted nsa w).2 = view w
}.

Section Runs.
Context {P W : Type} `{ParcelLaws P} `{!Roomy P} `{ErrorCodes} `{!SearchManager W} `{!SearchExt W} `{!RegisterManager W} (slot_ : Z) (view : W -> belief) `{!SearchLaws W slot_ view} `{!RegisterLaws W view}.
Import NetworkRegister.
Implicit Types r : registering W.

(** [m] returns from [r], with a result and a state for which [Q] holds. *)
Definition runs {A} (m : NR (W := W) A) r (Q : A -> registering W -> Prop) : Prop := exists a r', m r = Ret (a, r') /\ Q a r'.
Lemma runs_ret {A} (a : A) r (Q : A -> registering W -> Prop) : Q a r -> runs (mret a) r Q.
Proof. intros HQ. by exists a, r. Qed.
Lemma runs_bind {A B} (m : NR (W := W) A) (k : A -> NR (W := W) B) r Q : runs m r (fun a r' => runs (k a) r' Q) -> runs (m ≫= k) r Q.
Proof. intros (a & r1 & E & b & r2 & E2 & HQ). exists b, r2. split; [|done]. unfold mbind, partial_bind. by rewrite E. Qed.
Lemma runs_mono {A} (m : NR (W := W) A) r (Q Q' : A -> registering W -> Prop) : runs m r Q -> (forall a r', Q a r' -> Q' a r') -> runs m r Q'.
Proof. intros (a & r' & E & HQ) HQ'. exists a, r'. auto. Qed.
Lemma runs_member {A} (f : network_register -> A) r (Q : A -> registering W -> Prop) : Q (f (reg r)) r -> runs (member f) r Q.
Proof. intros HQ. by exists (f (reg r)), r. Qed.
Lemma runs_assign f r (Q : unit -> registering W -> Prop) : Q tt (MkRegistering (f (reg r)) (slot_of r)) -> runs (assign f) r Q.
Proof. intros HQ. by eexists tt, _. Qed.
Lemma runs_alive r (Q : bool -> registering W -> Prop) : Q true r -> runs manager_exists r Q.
Proof. intros HQ. exists true, r. split; [|done]. unfold manager_exists, elsewhere, pure, gets. rewrite (always_alive (slot_ := slot_) (view := view)). by destruct r as [? []]. Qed.

(** The result of a run: this object, the registration, and that the others know what they knew before. *)
Definition becomes r r' (g : network_register) (n : NetworkState) : Prop :=
  reg r' = g /\ search (slot_of r') = NetworkSearchState.set_networkState_ (Some n) (search (slot_of r)) /\ view (outside (slot_of r')) = view (outside (slot_of r)).
Definition has r (n : NetworkState) : Prop := networkSearchState_ (reg r) = true /\ NetworkSearchState.networkState_ (search (slot_of r)) = Some n.

Lemma becomes_trans r r1 r2 g1 g2 n1 n2 : becomes r r1 g1 n1 -> becomes r1 r2 g2 n2 -> becomes r r2 g2 n2.
Proof. intros (R1 & S1 & V1) (R2 & S2 & V2). split; [done|]. split; [by rewrite S2, S1|congruence]. Qed.
Lemma becomes_has r r' g n : becomes r r' g n -> networkSearchState_ g = true -> has r' n.
Proof. intros (R & S & _) E. split; [by rewrite R|by rewrite S]. Qed.
Lemma becomes_same r n : has r n -> becomes r r (reg r) n.
Proof. intros [_ E]. split_and!; try done. destruct (slot_of r) as [[]]. cbn in *. by subst. Qed.
(** Assignments to this object. *)
Lemma becomes_assign r r' f g n : becomes (MkRegistering (f (reg r)) (slot_of r)) r' g n -> becomes r r' g n.
Proof. done. Qed.
Lemma has_assign r n f : has r n -> networkSearchState_ (f (reg r)) = true -> has (MkRegistering (f (reg r)) (slot_of r)) n.
Proof. intros [_ E] F. by split. Qed.

Lemma runs_set f r n (Q : unit -> registering W -> Prop) : has r n -> (forall r', becomes r r' (reg r) (f n) -> Q tt r') -> runs (state (NetworkSearchState.on_state f)) r Q.
Proof.
  intros [E Hn] HQ. eexists tt, _. split; [unfold state; rewrite E; reflexivity|]. apply HQ. split; [done|]. cbn. by rewrite Hn.
Qed.
Lemma runs_status r n (Q : option NetworkState -> registering W -> Prop) : has r n -> NetworkState.wf n -> Q (Some n) r -> runs (state (NetworkSearchState.GetNetworkStatus (P := P))) r Q.
Proof.
  intros [E Hn] Wn HQ. exists (Some n), r. split; [|done]. unfold state, NetworkSearchState.GetNetworkStatus, NetworkSearchState.member, pure, gets. rewrite E, Hn. cbn.
  destruct (copy_equal n NetworkState.Init new_parcel Wn new_law) as (d & -> & _). by destruct r.
Qed.
Lemma runs_elsewhere {A} (m : stateful W A) r n (Q : A -> registering W -> Prop) : has r n -> (forall w, view (m w).2 = view w) ->
  (forall a r', a = (m (outside (slot_of r))).1 -> becomes r r' (reg r) n -> Q a r') -> runs (elsewhere m) r Q.
Proof.
  intros Hn V HQ. specialize (V (outside (slot_of r))). destruct (m (outside (slot_of r))) as [a w] eqn:E. eexists a, _. split; [unfold elsewhere, pure; rewrite E; reflexivity|].
  apply HQ; [done|]. destruct (becomes_same r n Hn) as (_ & S & _). by split.
Qed.
Lemma runs_rrc r n rrc (Q : Z * Z -> registering W -> Prop) : has r n -> (forall a r', becomes r r' (reg r) n -> Q a r') -> runs (GetRrcConnectionState rrc) r Q.
Proof.
  intros Hn HQ. unfold GetRrcConnectionState. apply runs_bind, runs_alive. cbn [negb]. apply runs_bind, runs_member. apply runs_elsewhere with (n := n); [done|done|]. auto.
Qed.

(** A registration result of one domain. *)
Definition register_as (regStatus tech techV2 roam type : Z) (isCsCapable : bool) (n : NetworkState) : NetworkState :=
  NetworkState.SetRoaming roam type (NetworkState.SetNetworkTypeV2 techV2 type (NetworkState.SetNetworkType tech type
    (NetworkState.SetEmergency ((regStatus =? REG_STATE_EMERGENCY_ONLY) && isCsCapable) (NetworkState.SetNetworkState regStatus type n)))).
Lemma UpdateNetworkSearchState_runs r n regStatus tech techV2 roam type (Q : unit -> registering W -> Prop) : has r n ->
  (forall r', becomes r r' (reg r) (register_as regStatus tech techV2 roam type (isCsCapable_ (reg r)) n) -> Q tt r') -> runs (UpdateNetworkSearchState regStatus tech techV2 roam type) r Q.
Proof.
  intros Hn HQ. unfold UpdateNetworkSearchState. apply runs_bind, (runs_set _ _ n _ Hn). intros r1 B1. pose proof (becomes_has _ _ _ _ B1 (proj1 Hn)) as Hr1.
  apply runs_bind, runs_member. replace (isCsCapable_ (reg r1)) with (isCsCapable_ (reg r)) by by rewrite (proj1 B1).
  assert (F : forall r' m, becomes r r' (reg r) m -> has r' m) by (intros r' m B; exact (becomes_has _ _ _ _ B (proj1 Hn))).
  assert (T : forall r' r'' m m', becomes r r' (reg r) m -> becomes r' r'' (reg r') m' -> becomes r r'' (reg r) m').
  { intros r' r'' m m' B B'. rewrite (proj1 B) in B'. exact (becomes_trans _ _ _ _ _ _ _ B B'). }
  apply runs_bind, (runs_set _ _ _ _ Hr1). intros r2 B2. apply (T _ _ _ _ B1) in B2. apply runs_bind, (runs_set _ _ _ _ (F _ _ B2)). intros r3 B3. apply (T _ _ _ _ B2) in B3.
  apply runs_bind, (runs_set _ _ _ _ (F _ _ B3)). intros r4 B4. apply (T _ _ _ _ B3) in B4. apply (runs_set _ _ _ _ (F _ _ B4)). intros r5 B5. apply (T _ _ _ _ B4) in B5. by apply HQ.
Qed.
Lemma UpdateCellularCall_runs r n regStatus type (Q : unit -> registering W -> Prop) : has r n -> (forall r', becomes r r' (reg r) n -> Q tt r') -> runs (UpdateCellularCall regStatus type) r Q.
Proof.
  intros Hn HQ. unfold UpdateCellularCall. apply runs_bind, runs_alive. cbn [negb]. destruct (_ || _); [|by apply runs_ret, HQ, becomes_same].
  apply runs_bind, (runs_elsewhere _ _ n); [done|done|]. intros a r1 _ B1. pose proof (becomes_has _ _ _ _ B1 (proj1 Hn)) as Hr1. destruct a.
  - apply runs_bind, runs_member. apply (runs_elsewhere _ _ n); [done|intros w; apply view_ready|]. intros [] r2 _ B2. apply HQ. rewrite (proj1 B1) in B2. exact (becomes_trans _ _ _ _ _ _ _ B1 B2).
  - by apply runs_ret, HQ.
Qed.

(** Join two runs. *)
Ltac chain B B' := rewrite (proj1 B) in B'; let C := fresh in pose proof (becomes_trans _ _ _ _ _ _ _ B B') as C; clear B B'; rename C into B.
Lemma UpdateNsaState_runs r n nsa (Q : Z -> registering W -> Prop) : has r n -> NetworkState.wf n -> is_i32 nsa ->
  (forall v r', is_i32 v -> (updateNsaStateExt_ = None -> v = nsa) -> becomes r r' (reg r) n -> Q v r') -> runs (UpdateNsaState (P := P) nsa) r Q.
Proof.
  intros Hn Wn In HQ. unfold UpdateNsaState. apply runs_bind, runs_alive. apply runs_bind, runs_member. rewrite (proj1 Hn). cbn [negb orb].
  apply runs_bind, runs_member. apply runs_bind, (runs_elsewhere _ _ n); [done|done|]. intros cells r1 _ B. pose proof (becomes_has _ _ _ _ B (proj1 Hn)) as Hr1.
  apply runs_bind, (runs_status _ n); [done|done|]. destruct (_ || _); [by apply runs_ret, HQ|]. destruct updateNsaStateExt_ as [f|] eqn:Ef; [|by apply runs_ret, HQ].
  do 2 apply runs_bind, runs_member. apply (runs_elsewhere _ _ n); [done|intros w; by apply view_nsa|]. intros v r2 -> B2. chain B B2.
  apply HQ; [by apply (view_nsa (view := view))|done|done].
Qed.
Lemma UpdateNrState_runs r n (Q : unit -> registering W -> Prop) : has r n -> proper n ->
  (forall v r', is_i32 v -> (updateNsaStateExt_ = None -> v = nr_state_of (GetPsRadioTech n) (isNrSecondaryCell_ (reg r)) (endcSupport_ (reg r)) (dcNrRestricted_ (reg r))) ->
     becomes r r' (set_nrState_ v (reg r)) (NetworkState.SetNrState v n) -> Q tt r') -> runs (UpdateNrState (P := P)) r Q.
Proof.
  intros Hn [Wn _] HQ. unfold UpdateNrState. apply runs_bind, runs_member. rewrite (proj1 Hn). cbn [negb].
  apply runs_bind, (runs_status _ n); [done|done|]. apply runs_bind, runs_assign. set (r1 := MkRegistering _ _).
  assert (Hr1 : has r1 n) by (destruct r as [[] ?]; exact Hn).
  apply runs_bind, (runs_status _ n); [done|done|]. apply runs_bind. exists n, r1. split; [done|]. do 3 apply runs_bind, runs_member.
  set (v := nr_state_of (GetPsRadioTech n) (isNrSecondaryCell_ (reg r)) (endcSupport_ (reg r)) (dcNrRestricted_ (reg r))).
  apply runs_bind. apply runs_mono with (Q := fun _ r2 => r2 = MkRegistering (set_nrState_ v (reg r)) (slot_of r)).
  { unfold v, nr_state_of, r1. destruct r as [[] sl]; cbn. destruct (_ =? RADIO_TECHNOLOGY_NR); [by apply runs_assign|]. destruct isNrSecondaryCell_0; [by apply runs_assign|].
    destruct endcSupport_0; [|by apply runs_ret]. destruct dcNrRestricted_0; by apply runs_assign. }
  intros [] r2 ->. set (r2 := MkRegistering _ _). assert (Hr2 : has r2 n) by (destruct r as [[] ?]; exact Hn).
  apply runs_bind, runs_member. replace (nrState_ (reg r2)) with v by (by destruct r as [[] ?]).
  assert (Iv : is_i32 v). { unfold v, nr_state_of. repeat case_match; split; (discriminate || reflexivity). }
  apply runs_bind, (UpdateNsaState_runs _ n); [done..|]. intros u r3 Iu Eu B. apply runs_bind, runs_assign.
  assert (Hr3 : has (MkRegistering (set_nrState_ u (reg r3)) (slot_of r3)) n) by (rewrite (proj1 B); destruct B as (E & S & _); destruct r as [[] ?]; split; [apply Hn|cbn; by rewrite S]).
  apply (runs_set _ _ n _ Hr3). intros r4 B4. apply (HQ u); [done|done|].
  destruct B as (E & S & V), B4 as (E4 & S4 & V4). split; [rewrite E4; cbn; rewrite E; by destruct r as [[] ?]|]. cbn in *. split; [by rewrite S4, S|by rewrite V4, V].
Qed.

(** *** The technology that is shown *)

(** The configuration that applies: with "ConfigAD" it depends on the connection. *)
Definition config_now r : cstring :=
  if bool_decide (systemPropertiesConfig_ (reg r) = TELEPHONY_NR_CONFIG_AD)
  then config_by_rrc (UpdateRrcConnectionState (slotId_ (reg r)) 0 (outside (slot_of r))).2 else currentNrConfig_ (reg r).
Definition with_config r : registering W := MkRegistering (set_currentNrConfig_ (config_now r) (reg r)) (slot_of r).
Lemma set_config_same g : set_currentNrConfig_ (currentNrConfig_ g) g = g.
Proof. by destruct g. Qed.
Lemma config_now_again r : config_now (with_config r) = config_now r.
Proof. unfold with_config, config_now. destruct r as [[] ?]. cbn. by case_bool_decide. Qed.
Lemma shown_by_config config nrState tech : is_lte tech = true ->
  shown config nrState tech =
    if nrState =? NR_NSA_STATE_NO_DETECT then if bool_decide (config = TELEPHONY_NR_CONFIG_D) then RADIO_TECHNOLOGY_NR else tech
    else if nrState =? NR_NSA_STATE_CONNECTED_DETECT then if bool_decide (config ∈ [TELEPHONY_NR_CONFIG_C; TELEPHONY_NR_CONFIG_D]) then RADIO_TECHNOLOGY_NR else tech
    else if nrState =? NR_NSA_STATE_IDLE_DETECT then if bool_decide (config ∈ [TELEPHONY_NR_CONFIG_B; TELEPHONY_NR_CONFIG_C; TELEPHONY_NR_CONFIG_D]) then RADIO_TECHNOLOGY_NR else tech
    else if nrState =? NR_NSA_STATE_DUAL_CONNECTED then RADIO_TECHNOLOGY_NR
    else tech.
Proof.
  intros E. unfold shown. rewrite E. cbn [andb].
  assert (N : nrState ∉ [NR_NSA_STATE_NO_DETECT; NR_NSA_STATE_CONNECTED_DETECT; NR_NSA_STATE_IDLE_DETECT; NR_NSA_STATE_DUAL_CONNECTED] -> bool_decide (nrState ∈ shows config) = false).
  { intros N. apply bool_decide_false. intros M. apply N. unfold shows in M. repeat case_bool_decide; set_solver. }
  destruct (decide (config ∈ [TELEPHONY_NR_CONFIG_B; TELEPHONY_NR_CONFIG_C; TELEPHONY_NR_CONFIG_D])) as [M|M].
  - repeat (apply elem_of_cons in M as [->|M]); [..|by apply not_elem_of_nil in M].
    all: destruct (Z.eqb_spec nrState NR_NSA_STATE_NO_DETECT) as [->|]; [done|]; destruct (Z.eqb_spec nrState NR_NSA_STATE_CONNECTED_DETECT) as [->|]; [done|];
      destruct (Z.eqb_spec nrState NR_NSA_STATE_IDLE_DETECT) as [->|]; [done|]; destruct (Z.eqb_spec nrState NR_NSA_STATE_DUAL_CONNECTED) as [->|]; [done|]; rewrite N; set_solver.
  - rewrite (bool_decide_false (config = TELEPHONY_NR_CONFIG_D)), (bool_decide_false (config ∈ _)), (bool_decide_false _ M) by set_solver.
    unfold shows. rewrite !bool_decide_false with (P := config = _) by set_solver.
    destruct (Z.eqb_spec nrState NR_NSA_STATE_NO_DETECT) as [->|]; [done|]; destruct (Z.eqb_spec nrState NR_NSA_STATE_CONNECTED_DETECT) as [->|]; [done|];
      destruct (Z.eqb_spec nrState NR_NSA_STATE_IDLE_DETECT) as [->|]; [done|]. 
    destruct (Z.eqb_spec nrState NR_NSA_STATE_DUAL_CONNECTED) as [->|]; [done|]. rewrite bool_decide_false; set_solver.
Qed.
Lemma GetRrcConnectionState_runs r rrc (Q : Z * Z -> registering W -> Prop) :
  Q (UpdateRrcConnectionState (slotId_ (reg r)) rrc (outside (slot_of r))) r -> runs (GetRrcConnectionState rrc) r Q.
Proof.
  intros HQ. unfold GetRrcConnectionState. apply runs_bind, runs_alive. cbn [negb]. apply runs_bind, runs_member.
  eexists _, r. split; [|exact HQ]. unfold elsewhere, pure, gets. by destruct r as [? []].
Qed.
Lemma GetTechnologyByNrConfig_runs r tech (Q : Z -> registering W -> Prop) :
  Q (shown (config_now r) (nrState_ (reg r)) tech) (if is_lte tech then with_config r else r) -> runs (GetTechnologyByNrConfig tech) r Q.
Proof.
  intros HQ. unfold GetTechnologyByNrConfig.
  assert (E : negb (tech =? RADIO_TECHNOLOGY_LTE_CA) && negb (tech =? RADIO_TECHNOLOGY_LTE) = negb (is_lte tech)).
  { unfold is_lte. destruct (Z.eqb_spec tech RADIO_TECHNOLOGY_LTE_CA) as [->|]; [done|]. destruct (Z.eqb_spec tech RADIO_TECHNOLOGY_LTE) as [->|]; [done|]. cbn. rewrite bool_decide_false; set_solver. }
  rewrite E. clear E. destruct (is_lte tech) eqn:L; [|unfold shown in HQ; rewrite L in HQ; by apply runs_ret]. cbn [negb].
  apply runs_bind, runs_member. apply runs_bind.
  assert (K : forall Q : unit -> registering W -> Prop, Q tt (with_config r) ->
    runs (if bool_decide (systemPropertiesConfig_ (reg r) = TELEPHONY_NR_CONFIG_AD) then '(_, rrcState) ← GetRrcConnectionState 0; assign (set_currentNrConfig_ (config_by_rrc rrcState)) else mret tt) r Q).
  { intros Q0. unfold with_config, config_now. case_bool_decide.
    - intros HQ0. apply runs_bind, GetRrcConnectionState_runs. destruct (UpdateRrcConnectionState _ _ _) as [c rrc]. cbn in *. by apply runs_assign.
    - rewrite set_config_same. intros HQ0. apply runs_ret. by destruct r. }
  apply K. do 2 apply runs_bind, runs_member. apply runs_ret. rewrite (shown_by_config _ _ _ L) in HQ. destruct r as [[] ?]. exact HQ.
Qed.

(** The registration with the technologies that are shown. *)
Definition configured (config : cstring) (nrState : Z) (n : NetworkState) : NetworkState :=
  NetworkState.SetCfgTechV2 (shown config nrState (best_tech (GetPsRadioTechV2 n) (GetCsRadioTechV2 n)))
    (NetworkState.SetCfgTech (shown config nrState (best_tech (GetPsRadioTech n) (GetCsRadioTech n))) n).
Lemma shown_not_lte config nrState tech : is_lte tech = false -> shown config nrState tech = tech.
Proof. unfold shown. by intros ->. Qed.
Lemma UpdateCfgTech_runs r n (Q : unit -> registering W -> Prop) : has r n -> proper n ->
  (forall r' config, config = currentNrConfig_ (reg r) \/ config = config_now r -> becomes r r' (set_currentNrConfig_ config (reg r)) (configured config (nrState_ (reg r)) n) -> Q tt r') ->
  runs (UpdateCfgTech (P := P)) r Q.
Proof.
  intros Hn [Wn _] HQ. unfold UpdateCfgTech. apply runs_bind, runs_member. rewrite (proj1 Hn). cbn [negb].
  apply runs_bind, (runs_status _ n); [done|done|]. apply runs_bind, (runs_status _ n); [done|done|]. apply runs_bind. exists n, r. split; [done|].
  assert (B : forall ps cs, (if negb (ps =? RADIO_TECHNOLOGY_UNKNOWN) then ps else cs) = best_tech ps cs) by (intros ps cs; unfold best_tech; by destruct (ps =? _)).
  rewrite !B. clear B. unfold configured in HQ. set (t1 := best_tech (GetPsRadioTech n) _) in *. set (t2 := best_tech (GetPsRadioTechV2 n) _) in *.
  apply runs_bind, GetTechnologyByNrConfig_runs. set (r1 := if is_lte _ then _ else _). apply runs_bind, GetTechnologyByNrConfig_runs. set (r2 := if is_lte _ then with_config r1 else r1).
  assert (E1 : r1 = r \/ r1 = with_config r) by (unfold r1; destruct is_lte; auto).
  assert (C1 : config_now r1 = config_now r) by (destruct E1 as [->| ->]; [done|apply config_now_again]).
  assert (N1 : nrState_ (reg r1) = nrState_ (reg r)) by (destruct E1 as [->| ->]; [done|by destruct r as [[] ?]]).
  rewrite C1, N1. clear C1 N1.
  assert (E2 : exists config, (config = currentNrConfig_ (reg r) \/ config = config_now r) /\ r2 = MkRegistering (set_currentNrConfig_ config (reg r)) (slot_of r) /\
     shown (config_now r) (nrState_ (reg r)) t1 = shown config (nrState_ (reg r)) t1 /\ shown (config_now r) (nrState_ (reg r)) t2 = shown config (nrState_ (reg r)) t2).
  { unfold r2, r1. destruct (is_lte t1) eqn:L1, (is_lte t2) eqn:L2; [exists (config_now r)..|exists (currentNrConfig_ (reg r))].
    - split_and!; auto. unfold with_config at 1. rewrite config_now_again. by destruct r as [[] ?].
    - split_and!; auto.
    - split_and!; auto.
    - rewrite !shown_not_lte by done. split_and!; auto. by destruct r as [[] ?]. }
  clearbody r2. destruct E2 as (config & Ec & -> & -> & ->). set (r2 := MkRegistering _ _).
  assert (Hr2 : has r2 n) by (destruct r as [[] ?]; exact Hn).
  apply runs_bind, (runs_set _ _ n _ Hr2). intros r3 B3. assert (Hr3 : has r3 _) by exact (becomes_has _ _ _ _ B3 (proj1 Hr2)).
  apply (runs_set _ _ _ _ Hr3). intros r4 B4. rewrite (proj1 B3) in B4. pose proof (becomes_trans _ _ _ _ _ _ _ B3 B4) as (G & S & V). by apply (HQ r4 config).
Qed.

(** *** The members *)

(** Numbers of the program fit into 32 bits. *)
Lemma ConvertRegFromRil_i32 code : is_i32 (ConvertRegFromRil code).
Proof. unfold ConvertRegFromRil. repeat case_match; split; (discriminate || reflexivity). Qed.
Lemma ConvertTechFromRil_i32 code : is_i32 (ConvertTechFromRil code).
Proof.
  unfold ConvertTechFromRil. case_bool_decide as M; [|split; (discriminate || reflexivity)].
  repeat (apply elem_of_cons in M as [->|M]; [split; (discriminate || reflexivity)|]). by apply not_elem_of_nil in M.
Qed.
Lemma roaming_of_i32 status : is_i32 (roaming_of status) /\ 0 <= roaming_of status.
Proof. unfold roaming_of. by case_match. Qed.
Lemma register_as_proper regStatus tech techV2 roam type cs n : is_i32 regStatus -> is_i32 tech -> is_i32 techV2 -> is_i32 roam /\ 0 <= roam -> proper n ->
  proper (register_as regStatus tech techV2 roam type cs n).
Proof. intros ? ? ? [? ?] ?. unfold register_as. auto 6 with telephony. Qed.
Lemma shown_i32 config nrState tech : is_i32 tech -> is_i32 (shown config nrState tech).
Proof. intros. unfold shown. case_match; [split; (discriminate || reflexivity)|done]. Qed.
Lemma best_tech_i32 ps cs : is_i32 ps -> is_i32 cs -> is_i32 (best_tech ps cs).
Proof. intros. unfold best_tech. by case_match. Qed.
Lemma configured_proper config nrState n : proper n -> proper (configured config nrState n).
Proof.
  intros Pn. pose proof (proj1 Pn) as Wn. unfold NetworkState.wf, int_fields in Wn. rewrite !Forall_cons in Wn. destruct_and! Wn.
  apply SetCfgTechV2_proper; [by apply shown_i32, best_tech_i32|]. apply SetCfgTech_proper; [by apply shown_i32, best_tech_i32|done].
Qed.
Hint Resolve ConvertRegFromRil_i32 ConvertTechFromRil_i32 roaming_of_i32 register_as_proper configured_proper : telephony.

(** After an operation: the slot has a registration that it can have, and this object still points to it. *)
Definition goes_on r r' : Prop := exists n, proper n /\ becomes r r' (reg r') n /\ networkSearchState_ (reg r') = true.
Definition well r : Prop := exists n, proper n /\ has r n.
Lemma goes_on_refl r : well r -> goes_on r r.
Proof. intros (n & Pn & Hn). exists n. split_and!; [done|by apply becomes_same|apply Hn]. Qed.
Lemma goes_on_trans r r1 r2 : goes_on r r1 -> goes_on r1 r2 -> goes_on r r2.
Proof. intros (n1 & P1 & B1 & E1) (n2 & P2 & B2 & E2). exists n2. split_and!; [done|exact (becomes_trans _ _ _ _ _ _ _ B1 B2)|done]. Qed.
Lemma goes_on_well r r' : goes_on r r' -> well r'.
Proof. intros (n & Pn & B & E). exists n. split; [done|exact (becomes_has _ _ _ _ B E)]. Qed.
Lemma becomes_goes_on r r' g n : becomes r r' g n -> proper n -> networkSearchState_ g = true -> goes_on r r'.
Proof. intros B Pn E. exists n. split_and!; [done|destruct B as (_ & ? & ?); by split|by rewrite (proj1 B)]. Qed.
Definition safe {A} (m : NR (W := W) A) r : Prop := runs m r (fun _ r' => goes_on r r').
Lemma safe_ret {A} (a : A) r : well r -> safe (mret a) r.
Proof. intros. by apply runs_ret, goes_on_refl. Qed.
Lemma safe_bind {A B} (m : NR (W := W) A) (k : A -> NR (W := W) B) r : safe m r -> (forall a r', goes_on r r' -> safe (k a) r') -> safe (m ≫= k) r.
Proof.
  intros Hm Hk. apply runs_bind. apply (runs_mono _ _ _ _ Hm). intros a r1 G. apply (runs_mono _ _ _ _ (Hk a r1 G)). intros b r2. exact (goes_on_trans _ _ _ G).
Qed.
Lemma safe_member {A} (f : network_register -> A) r : well r -> safe (member f) r.
Proof. intros. by apply runs_member, goes_on_refl. Qed.
Lemma safe_alive r : well r -> safe manager_exists r.
Proof. intros. by apply runs_alive, goes_on_refl. Qed.
Lemma safe_assign f r : well r -> networkSearchState_ (f (reg r)) = networkSearchState_ (reg r) -> safe (assign f) r.
Proof.
  intros (n & Pn & Hn) E. apply runs_assign. exists n. split_and!; [done| |cbn; rewrite E; apply Hn]. destruct (becomes_same r n Hn) as (_ & S & V). by split.
Qed.
Lemma safe_elsewhere {A} (m : stateful W A) r : well r -> (forall w, view (m w).2 = view w) -> safe (elsewhere m) r.
Proof. intros (n & Pn & Hn) V. apply (runs_elsewhere _ _ n); [done|done|]. intros a r' _ B. exact (becomes_goes_on _ _ _ _ B Pn (proj1 Hn)). Qed.
Lemma safe_if {A} (b : bool) (m k : NR (W := W) A) r : safe m r -> safe k r -> safe (if b then m else k) r.
Proof. by destruct b. Qed.
Lemma safe_UpdateNrState r : well r -> safe (UpdateNrState (P := P)) r.
Proof.
  intros (n & Pn & Hn). apply (UpdateNrState_runs _ n); [done|done|]. intros v r' Iv _ B.
  apply (becomes_goes_on _ _ _ _ B); [by apply SetNrState_proper|destruct r as [[] ?]; apply Hn].
Qed.
Lemma safe_UpdateCfgTech r : well r -> safe (UpdateCfgTech (P := P)) r.
Proof.
  intros (n & Pn & Hn). apply (UpdateCfgTech_runs _ n); [done|done|]. intros r' config _ B.
  apply (becomes_goes_on _ _ _ _ B); [by apply configured_proper|destruct r as [[] ?]; apply Hn].
Qed.
Lemma safe_UpdateCellularCall st type r : well r -> safe (UpdateCellularCall st type) r.
Proof. intros (n & Pn & Hn). apply (UpdateCellularCall_runs _ n); [done|]. intros r' B. exact (becomes_goes_on _ _ _ _ B Pn (proj1 Hn)). Qed.
Lemma safe_UpdateNetworkSearchState st tech techV2 roam type r : well r -> is_i32 st -> is_i32 tech -> is_i32 techV2 -> is_i32 roam /\ 0 <= roam ->
  safe (UpdateNetworkSearchState st tech techV2 roam type) r.
Proof.
  intros (n & Pn & Hn) ? ? ? ?. apply (UpdateNetworkSearchState_runs _ n); [done|]. intros r' B.
  apply (becomes_goes_on _ _ _ _ B); [by apply register_as_proper|apply Hn].
Qed.
Lemma safe_rrc rrc r : well r -> safe (GetRrcConnectionState rrc) r.
Proof. intros. by apply GetRrcConnectionState_runs, goes_on_refl. Qed.

(** One step of a member, or of a branch of it. *)
Ltac safely := repeat first
  [ assumption | apply safe_ret | apply safe_UpdateNrState | apply safe_UpdateCfgTech | apply safe_UpdateCellularCall | apply safe_rrc | apply safe_if | apply safe_member | apply safe_alive
  | apply safe_assign; [|by destruct (reg _)] | apply safe_elsewhere; [|first [done|intros w; apply view_ready|intros w; apply view_internet|intros w; apply view_frequency|intros w; apply view_frequency_type|intros w; apply view_event]]
  | apply safe_UpdateNetworkSearchState; [|by auto with telephony..]
  | apply safe_bind; [|let G := fresh in intros ? ? G; apply goes_on_well in G] | match goal with |- safe (match ?x with _ => _ end) _ => destruct x end ].
Lemma safe_GetSystemPropertiesConfig r : well r -> safe GetSystemPropertiesConfig r.
Proof. intros. unfold GetSystemPropertiesConfig. safely. Qed.
Lemma safe_InitNrConversionConfig r : well r -> safe InitNrConversionConfig r.
Proof. intros. unfold InitNrConversionConfig. apply safe_bind; [by apply safe_GetSystemPropertiesConfig|]. intros ? ? G%goes_on_well. safely. Qed.
Lemma safe_ProcessCsRegister info r : well r -> safe (ProcessCsRegister info) r.
Proof. intros. unfold ProcessCsRegister. safely. Qed.
Lemma safe_ProcessPsRegister info r : well r -> safe (ProcessPsRegister (P := P) info) r.
Proof. intros. unfold ProcessPsRegister. safely. Qed.
Lemma safe_has_internet slotId cids r : well r -> safe (has_internet slotId cids) r.
Proof. revert r. induction cids as [|c cids IH]; intros r Wr; cbn [has_internet]; safely. by apply IH. Qed.
Lemma safe_frequency slotId configs r : well r -> safe (frequency slotId configs) r.
Proof. revert r. induction configs as [|c configs IH]; intros r Wr; cbn [frequency]; [safely|]. apply safe_bind; [by apply safe_has_internet|]. intros ? ? G%goes_on_well. safely. by apply IH. Qed.
Lemma safe_ProcessChannelConfigInfo l r : well r -> safe (ProcessChannelConfigInfo (P := P) l) r.
Proof. intros. unfold ProcessChannelConfigInfo. safely. by apply safe_frequency. Qed.
Lemma safe_DcPhysicalLinkActiveUpdate b r : well r -> safe (DcPhysicalLinkActiveUpdate (P := P) b) r.
Proof. intros. unfold DcPhysicalLinkActiveUpdate. safely. Qed.
Lemma safe_HandleRrcStateChanged status r : well r -> safe (HandleRrcStateChanged (P := P) status) r.
Proof. intros. unfold HandleRrcStateChanged. safely. Qed.

(** ** Every state of the object and its slot *)

Inductive operation : Type :=
| Init_config
| Cs_result (info : option CsRegStatusInfo)
| Ps_result (info : option PsRegStatusResultInfo)
| Channels (l : option ChannelConfigInfoList)
| Link_active (isActive : bool)
| Rrc_changed (status : Z)
| Notify.
Definition perform (op : operation) : NR (W := W) unit :=
  match op with
  | Init_config => InitNrConversionConfig
  | Cs_result info => ProcessCsRegister info
  | Ps_result info => ProcessPsRegister (P := P) info
  | Channels l => ProcessChannelConfigInfo (P := P) l
  | Link_active b => DcPhysicalLinkActiveUpdate (P := P) b
  | Rrc_changed status => _ ← HandleRrcStateChanged (P := P) status; mret tt
  | Notify => _ ← NotifyStateChange (P := P); mret tt
  end.
(** The object is created for a slot; both act, the slot also through calls of others. *)
Inductive register_can_be : registering W -> Prop :=
| created slotId cs t : search_can_be (P := P) slot_ view t -> register_can_be (MkRegistering (NetworkRegister_new true slotId cs) t)
| performed op r r' : perform op r = Ret (tt, r') -> register_can_be r -> register_can_be r'
| slot_acts t r : search_can_be (P := P) slot_ view t -> register_can_be r -> register_can_be (MkRegistering (reg r) t).

Definition alive r : Prop := networkSearchState_ (reg r) = true /\ search_can_be (P := P) slot_ view (slot_of r).
Lemma alive_well r : alive r -> well r.
Proof. intros [E S]. destruct (search_known (P := P) _ _ _ S) as (_ & n & old & st & Hn & _ & _ & Pn & _). by exists n. Qed.
Lemma goes_on_alive r r' : alive r -> goes_on r r' -> alive r'.
Proof.
  intros [E S] (n & Pn & (_ & Es & V) & E'). split; [done|]. destruct (slot_of r') as [o' str' w'] eqn:Er. cbn in Es, V. subst o'.
  apply (others_act (P := P) slot_ view str' w' (MkSlot (NetworkSearchState.set_networkState_ (Some n) (search (slot_of r))) (roamingStr (slot_of r)) (outside (slot_of r)))); [done|].
  destruct (search_known (P := P) _ _ _ S) as (_ & m & _ & _ & Hm & _).
  apply (set (P := P) slot_ view (fun _ => n) (slot_of r)); [done| |done].
  unfold NetworkSearchState.on_state, NetworkSearchState.assign, pure, modifies. cbn [fst snd]. by rewrite Hm.
Qed.
Lemma alive_notify r : alive r -> exists r', NotifyStateChange (P := P) r = Ret (TELEPHONY_ERR_SUCCESS, r') /\ reg r' = reg r /\ alive r' /\
  NetworkSearchState.NotifyStateChange (P := P) (slot_of r) = Ret (tt, slot_of r').
Proof.
  intros [E S]. destruct (search_known (P := P) _ _ _ S) as (Hs & n & old & st & Hn & Ho & _ & Pn & Po & K & _).
  destruct (NotifyStateChange_ends (P := P) slot_ view (slot_of r) n old Hs Hn Ho Pn Po K) as (t & n' & old' & process & Et & _).
  exists (MkRegistering (reg r) t). split_and!; [|done| |done].
  - unfold NotifyStateChange, member, pure, gets, state, mbind, partial_bind. cbn. rewrite E. cbn. rewrite E, Et. done.
  - split; [done|]. by apply (notified (P := P) slot_ view (slot_of r)).
Qed.
Lemma runs_unit {A} (m : NR (W := W) A) r (Q : A -> registering W -> Prop) : runs m r Q -> runs (_ ← m; mret tt) r (fun _ r' => exists a, Q a r').
Proof. intros Hm. apply runs_bind, (runs_mono _ _ _ _ Hm). intros a r' HQ. apply runs_ret. by exists a. Qed.
Lemma perform_alive op r : alive r -> runs (perform op) r (fun _ r' => alive r').
Proof.
  intros A. pose proof (alive_well r A) as Wr.
  destruct op as [|info|info|l|b|status|]; cbn [perform].
  1-5: eapply runs_mono; [|intros ? ?; exact (goes_on_alive _ _ A)].
  - by apply safe_InitNrConversionConfig.
  - by apply safe_ProcessCsRegister.
  - by apply safe_ProcessPsRegister.
  - by apply safe_ProcessChannelConfigInfo.
  - by apply safe_DcPhysicalLinkActiveUpdate.
  - eapply runs_mono; [apply runs_unit, safe_HandleRrcStateChanged, Wr|]. intros ? r' [_ G]. exact (goes_on_alive _ _ A G).
  - destruct (alive_notify r A) as (r' & E & _ & A' & _). apply runs_bind. exists TELEPHONY_ERR_SUCCESS, r'. split; [exact E|]. by apply runs_ret.
Qed.
Lemma can_be_alive r : register_can_be r -> alive r.
Proof.
  induction 1 as [i cs t S|op r r' E _ IH|t r S _ [IH _]]; [done| |done].
  destruct (perform_alive op r IH) as (a & r1 & E1 & A1). congruence.
Qed.

(** *** Registration results *)

Definition cs_registered (info : CsRegStatusInfo) (isCsCapable : bool) : NetworkState -> NetworkState :=
  register_as (ConvertRegFromRil (cs_regStatus info)) (ConvertTechFromRil (cs_radioTechnology info)) (ConvertTechFromRil (cs_radioTechnologyV2 info)) (roaming_of (cs_regStatus info)) DOMAIN_TYPE_CS isCsCapable.
Definition ps_registered (info : PsRegStatusResultInfo) (isCsCapable : bool) : NetworkState -> NetworkState :=
  register_as (ConvertRegFromRil (ps_regStatus info)) (ConvertTechFromRil (ps_radioTechnology info)) (ConvertTechFromRil (ps_radioTechnologyV2 info)) (roaming_of (ps_regStatus info)) DOMAIN_TYPE_PS isCsCapable.
Lemma cs_registered_proper info b n : proper n -> proper (cs_registered info b n).
Proof. intros. by apply register_as_proper; auto with telephony. Qed.
Lemma ps_registered_proper info b n : proper n -> proper (ps_registered info b n).
Proof. intros. by apply register_as_proper; auto with telephony. Qed.
Lemma becomes_eq r r' g n : becomes r r' g n -> forall g' n', g' = g -> n' = n -> becomes r r' g' n'.
Proof. by intros ? ? ? -> ->. Qed.
Lemma ProcessCsRegister_runs r n info (Q : unit -> registering W -> Prop) : has r n ->
  (forall r', becomes r r' (reg r) (cs_registered info (isCsCapable_ (reg r)) n) -> Q tt r') -> runs (ProcessCsRegister (Some info)) r Q.
Proof.
  intros Hn HQ. unfold ProcessCsRegister. apply runs_bind, runs_alive. apply runs_bind, runs_member. rewrite (proj1 Hn). cbn [negb].
  apply runs_bind, (UpdateCellularCall_runs _ n); [done|]. intros r1 B. pose proof (becomes_has _ _ _ _ B (proj1 Hn)) as Hr1.
  apply (UpdateNetworkSearchState_runs _ n); [done|]. intros r2 B2. chain B B2. by apply HQ.
Qed.
Lemma ProcessPsRegister_runs r n info (Q : unit -> registering W -> Prop) : has r n -> proper n ->
  (forall r' v config, is_i32 v ->
     (updateNsaStateExt_ = None -> v = nr_state_of (ConvertTechFromRil (ps_radioTechnology info)) (isNrSecondaryCell_ (reg r)) (isEnDcAvailable info) (isDcNrRestricted info)) ->
     (systemPropertiesConfig_ (reg r) <> TELEPHONY_NR_CONFIG_AD -> config = currentNrConfig_ (reg r)) ->
     becomes r r' (set_currentNrConfig_ config (set_nrState_ v (set_endc (isEnDcAvailable info) (isDcNrRestricted info) (isNrAvailable info) (reg r))))
       (configured config v (NetworkState.SetNrState v (ps_registered info (isCsCapable_ (reg r)) n))) -> Q tt r') ->
  runs (ProcessPsRegister (P := P) (Some info)) r Q.
Proof.
  intros Hn Pn HQ. unfold ProcessPsRegister. apply runs_bind, runs_alive. apply runs_bind, runs_member. rewrite (proj1 Hn). cbn [negb].
  apply runs_bind, (UpdateCellularCall_runs _ n); [done|]. intros r1 B. pose proof (becomes_has _ _ _ _ B (proj1 Hn)) as Hr1.
  apply runs_bind, (UpdateNetworkSearchState_runs _ n); [done|]. intros r2 B2. chain B B2. fold (ps_registered info (isCsCapable_ (reg r)) n) in B. set (m := ps_registered _ _ _) in *.
  apply runs_bind, runs_assign. set (r3 := MkRegistering _ _). set (g := set_endc (isEnDcAvailable info) (isDcNrRestricted info) (isNrAvailable info) (reg r)).
  assert (Eg : networkSearchState_ g = true) by (unfold g; rewrite <- (proj1 Hn); by destruct (reg r)).
  assert (Pm : proper m) by by apply ps_registered_proper.
  assert (B3 : becomes r r3 g m) by (destruct B as (E & S & V); split_and!; [cbn; by rewrite E|done|done]).
  assert (Hr3 : has r3 m) by exact (becomes_has _ _ _ _ B3 Eg).
  assert (T : GetPsRadioTech m = ConvertTechFromRil (ps_radioTechnology info)) by by destruct n.
  apply runs_bind, (UpdateNrState_runs _ m); [done|done|]. intros v r4 Iv Ev B4. rewrite (proj1 B3), T in Ev. chain B3 B4.
  assert (Hr4 : has r4 (NetworkState.SetNrState v m)) by (apply (becomes_has _ _ _ _ B3); rewrite <- Eg; by destruct g).
  apply (UpdateCfgTech_runs _ (NetworkState.SetNrState v m)); [done|by apply SetNrState_proper|]. intros r5 config Ec B5. rewrite (proj1 B3) in Ec.
  assert (C : systemPropertiesConfig_ (reg r) <> TELEPHONY_NR_CONFIG_AD -> config = currentNrConfig_ (reg r)).
  { intros NAD. destruct Ec as [->| ->]; [unfold g; by destruct (reg r)|]. unfold config_now. rewrite (proj1 B3), bool_decide_false; unfold g; by destruct (reg r). }
  chain B3 B5. apply (HQ r5 v config); [done| |done|].
  - intros N. rewrite (Ev N). unfold g. by destruct (reg r).
  - apply (becomes_eq _ _ _ _ B3); [done|]. f_equal. unfold g. by destruct (reg r).
Qed.

(** Whatever the modem reports, and in whatever order, every operation returns: no null pointer is used; and the slot is in a state in which
    observers are told what it is (NetworkSearchState.v). *)
Theorem registration_never_fails op r : register_can_be r -> exists r', perform op r = Ret (tt, r') /\ register_can_be r' /\ search_can_be (P := P) slot_ view (slot_of r').
Proof.
  intros R. destruct (perform_alive op r (can_be_alive r R)) as ([] & r' & E & A). exists r'. split_and!; [done|exact (performed _ _ _ E R)|apply A].
Qed.

Lemma nr_state_shown config ps cs secondary endc restricted : is_lte (best_tech ps cs) = true ->
  (nr_state_of ps secondary endc restricted ∈ shows config <-> secondary = true \/ endc = true /\ restricted = false /\ config = TELEPHONY_NR_CONFIG_D).
Proof.
  intros L. unfold nr_state_of. destruct (Z.eqb_spec ps RADIO_TECHNOLOGY_NR) as [->|_]; [done|].
  assert (D : NR_NSA_STATE_DUAL_CONNECTED ∈ shows config) by (unfold shows; repeat case_bool_decide; set_solver).
  assert (U : NR_STATE_NOT_SUPPORT ∉ shows config) by (unfold shows; repeat case_bool_decide; rewrite !elem_of_cons; intros X; by destruct_or! X; apply not_elem_of_nil in X || discriminate X).
  assert (N : NR_NSA_STATE_NO_DETECT ∈ shows config <-> config = TELEPHONY_NR_CONFIG_D).
  { unfold shows. split; [|intros ->; rewrite bool_decide_true by done; set_solver]. repeat case_bool_decide; [done|..]; rewrite !elem_of_cons; intros X; by destruct_or! X; apply not_elem_of_nil in X || discriminate X. }
  destruct secondary, endc, restricted; cbn [andb negb]; naive_solver.
Qed.
Lemma shown_iff config nrState tech : shown config nrState tech = RADIO_TECHNOLOGY_NR <-> tech = RADIO_TECHNOLOGY_NR \/ is_lte tech = true /\ nrState ∈ shows config.
Proof. unfold shown. destruct (is_lte tech); cbn [andb]; [case_bool_decide|]; naive_solver. Qed.
Lemma is_lte_true tech : is_lte tech = true <-> tech = RADIO_TECHNOLOGY_LTE \/ tech = RADIO_TECHNOLOGY_LTE_CA.
Proof. unfold is_lte. rewrite bool_decide_eq_true. set_solver. Qed.

(** C28: When a phone shows 5G. Without vendor extension and with a configuration that does not depend on the connection, after a result of the packet switched domain:
    5G is shown exactly if the phone is registered with 5G (or, where the technology of this domain is unknown, its calls are); or if it is registered with LTE, and a secondary
    cell is 5G, or the configuration is "ConfigD" and the LTE cell allows 5G besides. *)
Theorem shows_5g r n info : register_can_be r -> networkState_ (search (slot_of r)) = Some n -> updateNsaStateExt_ = None ->
  systemPropertiesConfig_ (reg r) <> TELEPHONY_NR_CONFIG_AD ->
  exists r' n', ProcessPsRegister (P := P) (Some info) r = Ret (tt, r') /\ networkState_ (search (slot_of r')) = Some n' /\
    let tech := best_tech (ConvertTechFromRil (ps_radioTechnology info)) (GetCsRadioTech n) in
    (GetCfgTech n' = RADIO_TECHNOLOGY_NR <->
       tech = RADIO_TECHNOLOGY_NR \/
       (tech = RADIO_TECHNOLOGY_LTE \/ tech = RADIO_TECHNOLOGY_LTE_CA) /\
         (isNrSecondaryCell_ (reg r) = true \/ isEnDcAvailable info = true /\ isDcNrRestricted info = false /\ currentNrConfig_ (reg r) = TELEPHONY_NR_CONFIG_D)) /\
    (GetCfgTech n' <> RADIO_TECHNOLOGY_NR -> GetCfgTech n' = tech).
Proof.
  intros R Hn Ex C. destruct (can_be_alive r R) as [E S]. destruct (search_known (P := P) _ _ _ S) as (_ & m & _ & _ & Hm & _ & _ & Pn & _). replace m with n in Pn by congruence. clear Hm m.
  destruct (ProcessPsRegister_runs r n info (fun _ r' => exists config, config = currentNrConfig_ (reg r) /\ becomes r r' (reg r')
    (configured config (nr_state_of (ConvertTechFromRil (ps_radioTechnology info)) (isNrSecondaryCell_ (reg r)) (isEnDcAvailable info) (isDcNrRestricted info))
       (NetworkState.SetNrState (nr_state_of (ConvertTechFromRil (ps_radioTechnology info)) (isNrSecondaryCell_ (reg r)) (isEnDcAvailable info) (isDcNrRestricted info))
         (ps_registered info (isCsCapable_ (reg r)) n)))) (conj E Hn) Pn) as ([] & r' & Er & config & -> & B).
  { intros r' v config _ Ev Ec B. rewrite (Ev Ex) in B. exists config. split; [by apply Ec|]. by destruct B as (? & ? & ?). }
  eexists r', _. split; [exact Er|]. destruct B as (_ & -> & _). split; [reflexivity|]. cbv zeta.
  set (v := nr_state_of _ _ _ _). replace (GetCfgTech _) with (shown (currentNrConfig_ (reg r)) v (best_tech (ConvertTechFromRil (ps_radioTechnology info)) (GetCsRadioTech n))) by by destruct n.
  split.
  - rewrite shown_iff, <- is_lte_true. split; (intros [?|[L M]]; [by left|right; split; [done|by apply (nr_state_shown _ _ _ _ _ _ L)]]).
  - unfold shown. case_match; by intros.
Qed.

Lemma applications_have a n : operator_eq (unnamed a) (unnamed n) = true ->
  GetPsRegStatus a = GetPsRegStatus n /\ GetCsRegStatus a = GetCsRegStatus n /\ GetNrState a = GetNrState n /\ GetCfgTech a = GetCfgTech n.
Proof. rewrite operator_eq_same. destruct a as [? [] []], n as [? [] []]. cbn. intros (? & ? & ? & ? & E). by inversion E. Qed.
Lemma in_service_iff code : ConvertRegFromRil code = REG_STATE_IN_SERVICE <-> code = RilRegister.REG_STATE_HOME_ONLY \/ code = RilRegister.REG_STATE_ROAMING.
Proof.
  unfold ConvertRegFromRil. split; [|by intros [->| ->]]. do 3 (case_match; [done|]).
  destruct (Z.eqb_spec code RilRegister.REG_STATE_ROAMING); [by right|]. destruct (Z.eqb_spec code RilRegister.REG_STATE_HOME_ONLY); [by left|]. cbn [orb]. by case_match.
Qed.
Lemma emergency_only_iff code : ConvertRegFromRil code = REG_STATE_EMERGENCY_ONLY <-> code = RilRegister.REG_STATE_EMERGENCY_ONLY.
Proof. unfold ConvertRegFromRil. split; [|by intros ->]. do 4 (case_match; [done|]). case_match; [|done]. intros _. by apply Z.eqb_eq. Qed.

End Runs.

(** ** A phone *)

Module NetworkRegisterExample.
Import NetworkRegister NetworkSearchState.NetworkSearchState NetworkSearchStateExample.
(** A phone with a service for calls, one context that leads to the internet, and the configuration "ConfigD". *)
#[export] Instance phone : RegisterManager (list notice) := {
  has_cellular_call _ := true;
  SetReadyToCall _ _ _ l := l;
  has_cellular_data _ := true;
  HasInternetCapability _ cid l := (cid =? 1, l);
  NotifyNrFrequencyChanged _ l := l;
  SetFrequencyType _ _ l := l;
  ProcessNotifyStateChangeEvent _ l := l;
  GetCellInfoList _ _ := [];
  UpdateRrcConnectionState _ _ _ := (0, RRC_CONNECTED_STATUS);
  GetParameter _ value _ := (7, value);
  updateNsaStateExt_ := None
}.
#[export] Instance phone_laws : RegisterLaws (list notice) listen.
Proof. by split. Qed.

Definition started (cs_capable : bool) : registering (list notice) := MkRegistering (NetworkRegister_new true 0 (Some cs_capable)) initial.
Definition then_do {A} (m : NR (W := list notice) A) (r : registering (list notice)) : registering (list notice) := match m r with Ret (_, r) => r | _ => r end.
Definition configured_phone : registering (list notice) := then_do InitNrConversionConfig (started true).
Definition cs_result (status : Z) : CsRegStatusInfo := MkCsRegStatusInfo 0 status 0 0 RADIO_TECHNOLOGY_UMTS 0 0.
(** LTE in a cell that allows 5G besides. *)
Definition ps_result (status : Z) : PsRegStatusResultInfo := MkPsRegStatusResultInfo 0 status 0 0 RADIO_TECHNOLOGY_LTE 0 true true false 0.

Lemma started_can_be cs : register_can_be (P := list item) 0 listen (started cs).
Proof. apply created. by apply (initialised (P := list item) 0 listen (str "00") [] initial). Qed.
Lemma configured_phone_can_be : register_can_be (P := list item) 0 listen configured_phone.
Proof. apply (performed (P := list item) 0 listen Init_config (started true)); [reflexivity|apply started_can_be]. Qed.

(** Before [InitNrConversionConfig] there is no configuration, and LTE is shown; after it, 5G. *)
Example shown_technology :
  let tech r := GetCfgTech (default NetworkState.Init (networkState_ (search (slot_of (then_do (ProcessPsRegister (P := list item) (Some (ps_result 1))) r))))) in
  tech (started true) = RADIO_TECHNOLOGY_LTE /\ tech configured_phone = RADIO_TECHNOLOGY_NR.
Proof. by vm_compute. Qed.
(** The circuit switched domain is there for emergencies, the packet switched one has no service: the result of the latter ends the emergency. *)
Example emergency_ends :
  let r := then_do (ProcessCsRegister (Some (cs_result RilRegister.REG_STATE_EMERGENCY_ONLY))) configured_phone in
  let emergency r := NetworkState.IsEmergency (default NetworkState.Init (networkState_ (search (slot_of r)))) in
  emergency r = true /\ emergency (then_do (ProcessPsRegister (P := list item) (Some (ps_result RilRegister.REG_STATE_NO_SERVICE))) r) = false.
Proof. by vm_compute. Qed.
End NetworkRegisterExample.
Import NetworkRegister NetworkRegisterExample NetworkSearchStateExample.

Lemma registration_never_fails_witness :
  exists r', perform (P := list item) (Ps_result (Some (ps_result 5))) configured_phone = Ret (tt, r') /\ register_can_be (P := list item) 0 listen r' /\ search_can_be (P := list item) 0 listen (slot_of r').
Proof. apply (registration_never_fails (P := list item) 0 listen (Ps_result (Some (ps_result 5)))). exact configured_phone_can_be. Defined.
Lemma shows_5g_witness :
  exists r' n', ProcessPsRegister (P := list item) (Some (ps_result 1)) configured_phone = Ret (tt, r') /\ networkState_ (search (slot_of r')) = Some n' /\
    let tech := best_tech (ConvertTechFromRil RADIO_TECHNOLOGY_LTE) (GetCsRadioTech NetworkState.Init) in
    (GetCfgTech n' = RADIO_TECHNOLOGY_NR <->
       tech = RADIO_TECHNOLOGY_NR \/
       (tech = RADIO_TECHNOLOGY_LTE \/ tech = RADIO_TECHNOLOGY_LTE_CA) /\
         (isNrSecondaryCell_ (reg configured_phone) = true \/ true = true /\ false = false /\ currentNrConfig_ (reg configured_phone) = TELEPHONY_NR_CONFIG_D)) /\
    (GetCfgTech n' <> RADIO_TECHNOLOGY_NR -> GetCfgTech n' = tech).
Proof. exact (shows_5g (P := list item) 0 listen configured_phone NetworkState.Init (ps_result 1) configured_phone_can_be eq_refl eq_refl ltac:(discriminate)). Defined.
