(* ===== verification/OperatorName.v ===== *)
(** * [services/network_search/src/operator_name.cpp]: the name of the network

    The name that is shown to the user is that of the network (PLMN) or that of the card's issuer (SPN). [NotifySpnChanged] finds both, and a rule of the card says which
    of them is displayed; the result is broadcast, and kept as the long name of the registration. The card, the search manager, the event service and the vendor extension are the
    interface [NameSources]; the table of names of the device is [operator_name_utils.cpp] (Module OperatorNameUtils). *)

From S2P Require Import Prelude CxxString Parcel Parcelables OperatorConfig CellInformation NetworkState SimFileParse SignalInformation CoreServiceApi NetworkSearchState.
Open Scope Z_scope.

Definition FORMAT_IDX_SPN_CS : Z := 0.
Definition PNN_CUST_STRING_SIZE : Z := 2.
Definition OPL_CUST_STRING_SIZE : Z := 4.
Definition REAL_SIM_MAX_COUNT : Z := 3.
Definition CFG_DISPLAY_RULE_USE_ROAMING_FROM_NETWORK_STATE_BOOL : cstring := str "persist.radio.cfg.display_rule_use_roaming_from_network_state".
Definition TTS_SPEC_PLMN : cstring := str "46004496".
Definition TTS_SPEC_OPNAME : cstring := ascii_of_N <$> [0xE4; 0xB8; 0xAD; 0xE5; 0x9B; 0xBD; 0xE7; 0x94; 0xB5; 0xE4; 0xBF; 0xA1]%N.
Definition SPN_INVALID : Z := -1.
Definition SPN_COND_PLMN : Z := 1.
Definition SPN_COND : Z := 2.
Definition SPN_CONDITION_DISPLAY_SPN : Z := 1.
Definition SPN_CONDITION_DISPLAY_PLMN : Z := 2.
Definition INVALID_SLOT_ID : Z := -1.
Definition VSIM_SLOT_ID : Z := 2.
Definition CELL_LOCATION_GSM : Z := 1.
Definition REG_STATE_POWER_OFF : Z := 5.
Definition KEY_ENABLE_OPERATOR_NAME_CUST_BOOL : cstring := str "enable_operator_name_cust_bool".
Definition KEY_OPERATOR_NAME_CUST_STRING : cstring := str "operator_name_cust_string".
Definition KEY_SPN_DISPLAY_CONDITION_CUST_INT : cstring := str "spn_display_condition_cust_int".
Definition KEY_PNN_CUST_STRING_ARRAY : cstring := str "pnn_cust_string_array".
Definition KEY_OPL_CUST_STRING_ARRAY : cstring := str "opl_cust_string_array".

Record OperatorNameParams : Type := MkParams { showPlmn : bool; plmn : cstring; showSpn : bool; spn : cstring; spnRule : Z }.
Record OperatorInfoResult : Type := MkOperatorInfo { info_longName : cstring; info_shortName : cstring; info_numeric : cstring; info_flag : Z }.
(** The parameters of the event [COMMON_EVENT_SPN_INFO_CHANGED]. *)
Record spn_event : Type := MkSpnEvent { ev_slotId : Z; ev_showPlmn : bool; ev_plmn : cstring; ev_showSpn : bool; ev_spn : cstring; ev_domesticSpn : cstring }.

(** ** Strings *)

(** [NetworkUtils::SplitString] with a separator of one character: the pieces between separators, an empty one at the end left out. *)
Fixpoint split_from (sep : ascii) (piece : cstring) (s : cstring) : list cstring :=
  match s with
  | [] => match piece with [] => [] | _ => [piece] end
  | c :: s => if decide (c = sep) then piece :: split_from sep [] s else split_from sep (piece ++ [c]) s
  end.
Definition SplitString (s : cstring) (sep : ascii) : list cstring := split_from sep [] s.
(** [ConvertStrToInt(str, value, 16)]: [std::from_chars] reads a sign and digits, and has to reach the end. *)
Definition ConvertStrToInt16 (s : cstring) : option Z :=
  let '(negative, digits) := match s with c :: t => if decide (c = "-"%char) then (true, t) else (false, s) | [] => (false, []) end in
  match hex_digits_of digits with
  | Some (d :: ds) =>
      let v := if negative : bool then - be_value 16 (d :: ds) else be_value 16 (d :: ds) in
      if bool_decide (is_i32 v) then Some v else None
  | _ => None
  end.
Definition config_find {V} (k : cstring) (m : std_map cstring V) : option V := (fun e => e.2) <$> find (fun e => bool_decide (e.1 = k)) m.

(** ** The sources of names *)

Class NameSources (V : Type) : Type := {
  search_manager_alive : V -> bool;
  notify : notice -> V -> V;
  StartRadioOnState : Z -> V -> V;
  TriggerTimezoneRefresh : Z -> V -> V;
  CheckIsNeedNotify : Z -> V -> bool;
  ProcessNotifyStateChange : Z -> V -> V;
  (** the type of the location, and its area code if it is a GSM location *)
  GetCellLocation : Z -> V -> option (Z * Z);
  (** the card: result codes, and output arguments *)
  GetSimOperatorNumeric : Z -> V -> Z * u16string;
  GetSimSpn : Z -> V -> u16string;
  GetSimEons : Z -> cstring -> Z -> bool -> V -> u16string;
  ObtainSpnCondition : Z -> bool -> cstring -> V -> Z;
  GetEhPlmns : Z -> V -> list cstring;
  GetSpdiPlmns : Z -> V -> list cstring;
  GetOperatorConfigs : Z -> V -> OperatorConfig;
  GetIMSI : Z -> V -> u16string;
  IsSatelliteEnabled : V -> bool;
  GetBoolParameter : cstring -> bool -> V -> bool;
  (** resources: [None] if there is none *)
  spn_formats : V -> option (list cstring);
  out_of_service_name : V -> option cstring;
  (** the table of names of the device, loaded when it is first used *)
  custom_name : cstring -> V -> cstring * V;
  (** [snprintf_s] with one argument, into a buffer of so many characters: [None] on failure *)
  snprintf_s : Z -> cstring -> cstring -> option cstring;
  PublishCommonEvent : spn_event -> V -> bool * V;
  isInDelayProcessForOperatorName_ : option (Z -> V -> bool);
  updateOperatorNameParamsExt_ : option (Z -> NetworkState -> OperatorNameParams -> V -> OperatorNameParams * V);
  getVSimSlotId_ : option (Z -> V -> Z);
  changeSpnAndRuleExt_ : option (cstring -> Z -> bool -> V -> (cstring * Z * bool) * V);
  publishSpnInfoChangedExt_ : option (spn_event -> V -> V);
  processOperatorName_ : option (Z -> cstring -> cstring -> V -> (bool * cstring) * V)
}.

Module OperatorName.
Record operator_name : Type := MkOperatorName {
  networkSearchState_ : bool; (** not null *)
  simManager_ : bool;
  curParams_ : OperatorNameParams;
  curRegState_ : Z;
  slotId_ : Z;
  csSpnFormat_ : cstring;
  enableCust_ : bool;
  netPriCust_ : bool;
  spnCust_ : cstring;
  displayConditionCust_ : Z;
  pnnCust_ : list PlmnNetworkName;
  oplCust_ : list OperatorPlmnInfo;
  longName_ : cstring
}.
Definition cmMccMnc_ : list cstring := str <$> ["46000"; "46002"; "46004"; "46007"; "46008"; "46013"]%string.
Definition cuMccMnc_ : list cstring := str <$> ["46001"; "46006"; "46009"; "46030"]%string.
Definition ctMccMnc_ : list cstring := str <$> ["46003"; "46011"]%string.
Definition cbnMccMnc_ : list cstring := str <$> ["46015"]%string.
Definition cmDomesticMccMnc_ : list cstring := str <$> ["46031"; "46050"; "46059"]%string.
Definition cuDomesticMccMnc_ : list cstring := str <$> ["46022"; "46061"; "46059"]%string.
Definition ctDomesticMccMnc_ : list cstring := str <$> ["46021"; "46060"]%string.
Definition cbDomesticnMccMnc_ : list cstring := str <$> ["46032"; "46051"]%string.

(** The object, and everything else but the slot. *)
Record named (V : Type) : Type := MkNamed { name : operator_name; beyond : V }.
Arguments MkNamed {V}. Arguments name {V}. Arguments beyond {V}.

Definition set_cur (p : OperatorNameParams) (st : Z) (o : operator_name) : operator_name :=
  let '(MkOperatorName n s _ _ i f e pr sc d pn op l) := o in MkOperatorName n s p st i f e pr sc d pn op l.
Definition set_enableCust_ (e : bool) (o : operator_name) : operator_name :=
  let '(MkOperatorName n s p st i f _ pr sc d pn op l) := o in MkOperatorName n s p st i f e pr sc d pn op l.
Definition set_netPriCust_ (pr : bool) (o : operator_name) : operator_name :=
  let '(MkOperatorName n s p st i f e _ sc d pn op l) := o in MkOperatorName n s p st i f e pr sc d pn op l.
Definition set_spnCust_ (sc : cstring) (o : operator_name) : operator_name :=
  let '(MkOperatorName n s p st i f e pr _ d pn op l) := o in MkOperatorName n s p st i f e pr sc d pn op l.
Definition set_displayConditionCust_ (d : Z) (o : operator_name) : operator_name :=
  let '(MkOperatorName n s p st i f e pr sc _ pn op l) := o in MkOperatorName n s p st i f e pr sc d pn op l.
Definition set_pnnCust_ (pn : list PlmnNetworkName) (o : operator_name) : operator_name :=
  let '(MkOperatorName n s p st i f e pr sc d _ op l) := o in MkOperatorName n s p st i f e pr sc d pn op l.
Definition set_oplCust_ (op : list OperatorPlmnInfo) (o : operator_name) : operator_name :=
  let '(MkOperatorName n s p st i f e pr sc d pn _ l) := o in MkOperatorName n s p st i f e pr sc d pn op l.
Definition set_longName_ (l : cstring) (o : operator_name) : operator_name :=
  let '(MkOperatorName n s p st i f e pr sc d pn op _) := o in MkOperatorName n s p st i f e pr sc d pn op l.

(** ** Pure parts *)

Definition is_one_of (l : list cstring) (numeric : cstring) : bool := match numeric with [] => false | _ => bool_decide (numeric ∈ l) end.
Definition isCMCard : cstring -> bool := is_one_of cmMccMnc_.
Definition isCUCard : cstring -> bool := is_one_of cuMccMnc_.
Definition isCTCard : cstring -> bool := is_one_of ctMccMnc_.
Definition isCBCard : cstring -> bool := is_one_of cbnMccMnc_.
Definition isCMDomestic : cstring -> bool := is_one_of cmDomesticMccMnc_.
Definition isCUDomestic : cstring -> bool := is_one_of cuDomesticMccMnc_.
Definition isCTDomestic : cstring -> bool := is_one_of ctDomesticMccMnc_.
Definition isCBDomestic : cstring -> bool := is_one_of cbDomesticnMccMnc_.
Definition isDomesticRoaming (simPlmn netPlmn : cstring) : bool :=
  if isCMCard simPlmn && isCMDomestic netPlmn then true
  else if isCUCard simPlmn && isCUDomestic netPlmn then true
  else if isCTCard simPlmn && isCTDomestic netPlmn then true
  else if isCBCard simPlmn && isCBDomestic netPlmn then true
  else false.

(** One record of the configuration "long name,short name". *)
Definition pnn_cust (data : cstring) : option PlmnNetworkName :=
  match SplitString data ","%char with
  | [long; short] => if bool_decide (long <> [] \/ short <> []) then Some (MkPnn long short) else None
  | _ => None
  end.
Definition UpdatePnnCust (pnnCust : list cstring) (o : operator_name) : operator_name := set_pnnCust_ (omap pnn_cust pnnCust) o.
(** "plmn,start of the area codes,end,index of the name", the numbers in hexadecimal. *)
Definition opl_cust (data : cstring) : option OperatorPlmnInfo :=
  match SplitString data ","%char with
  | [numeric; start; end_; record] =>
      if bool_decide (record = []) then None else
      pnnRecordId ← ConvertStrToInt16 record;
      if bool_decide (end_ = []) then None else
      lacEnd ← ConvertStrToInt16 end_;
      if bool_decide (start = []) then None else
      lacStart ← ConvertStrToInt16 start;
      if bool_decide (numeric = []) then None else Some (MkOpl numeric lacStart lacEnd pnnRecordId)
  | _ => None
  end.
Definition UpdateOplCust (oplCust : list cstring) (o : operator_name) : operator_name := set_oplCust_ (omap opl_cust oplCust) o.
Definition UpdateOperatorConfig (operatorConfig : OperatorConfig) (o : operator_name) : operator_name :=
  let o := match config_find KEY_ENABLE_OPERATOR_NAME_CUST_BOOL (boolValue operatorConfig) with Some b => set_enableCust_ b o | None => o end in
  let o := match config_find KEY_OPERATOR_NAME_CUST_STRING (stringValue operatorConfig) with Some s => set_spnCust_ s o | None => o end in
  let o := match config_find KEY_SPN_DISPLAY_CONDITION_CUST_INT (intValue operatorConfig) with Some d => set_displayConditionCust_ d o | None => o end in
  let o := match config_find KEY_PNN_CUST_STRING_ARRAY (stringArrayValue operatorConfig) with Some l => UpdatePnnCust l o | None => o end in
  match config_find KEY_OPL_CUST_STRING_ARRAY (stringArrayValue operatorConfig) with Some l => UpdateOplCust l o | None => o end.

Definition GetCustSpnRule (roaming : bool) (o : operator_name) : Z :=
  let d := displayConditionCust_ o in
  if d <=? SPN_INVALID then 0
  else if roaming then
    if Z.land (u32 d) SPN_COND =? 0 then Z.lor SPN_CONDITION_DISPLAY_PLMN SPN_CONDITION_DISPLAY_SPN else SPN_CONDITION_DISPLAY_PLMN
  else
    if Z.land (u32 d) SPN_COND_PLMN =? SPN_COND_PLMN then Z.lor SPN_CONDITION_DISPLAY_SPN SPN_CONDITION_DISPLAY_PLMN else SPN_CONDITION_DISPLAY_SPN.
(** Whether a record is for the network and the area. *)
Definition opl_matches (numeric : cstring) (lac : Z) (opl : OperatorPlmnInfo) : bool :=
  bool_decide (numeric = plmnNumeric opl) &&
  ((lacStart opl =? 0) && (lacEnd opl =? 0xfffe) || (lacStart opl <=? lac) && (lac <=? lacEnd opl)).
(** The index of the loop over the records: that of the first that matches, -1 if none does, [pnnIndex] if there are none. *)
Fixpoint opl_loop (numeric : cstring) (lac pnnIndex : Z) (l : list OperatorPlmnInfo) : Z :=
  match l with
  | [] => pnnIndex
  | opl :: l => if opl_matches numeric lac opl then pnnRecordId opl else opl_loop numeric lac (-1) l
  end.
Definition GetCustEons (numeric : cstring) (lac : Z) (roaming longNameRequired : bool) (o : operator_name) : outcome cstring :=
  if negb (enableCust_ o) || bool_decide (numeric = []) || bool_decide (pnnCust_ o = []) || bool_decide (oplCust_ o = []) && roaming then Ret [] else
  let pnnIndex := opl_loop numeric lac 1 (oplCust_ o) in
  if (1 <=? pnnIndex) && (pnnIndex <=? i32 (zlen (pnnCust_ o))) then
    pnn ← vec_at (pnnCust_ o) (u64 (pnnIndex - 1));
    Ret (if longNameRequired then longName pnn else shortName pnn)
  else Ret [].

Section Members.
Context {P V : Type} `{ParcelOps P} `{ErrorCodes} `{StringEx} `{!NameSources V}.
Definition ON : Type -> Type := partial (slot (named V)).

Definition member {A} (f : operator_name -> A) : ON A := pure (gets (fun s => f (name (outside s)))).
Definition assign (f : operator_name -> operator_name) : ON unit :=
  pure (modifies (fun s => MkSlot (search s) (roamingStr s) (MkNamed (f (name (outside s))) (beyond (outside s))))).
Definition elsewhere {A} (m : stateful V A) : ON A := pure (fun s =>
  let '(a, v) := m (beyond (outside s)) in (a, MkSlot (search s) (roamingStr s) (MkNamed (name (outside s)) v))).
Definition manager_exists : ON bool := elsewhere (gets search_manager_alive).

(** [networkSearchState_->...], after the check for null. *)
Definition GetNetworkStatus : ON (option NetworkState) :=
  present ← member networkSearchState_;
  if (present : bool) then NetworkSearchState.GetNetworkStatus (P := P) else mret None.
Definition SetOperatorInfo (longName shortName numeric : cstring) : ON unit :=
  present ← member networkSearchState_;
  if (present : bool) then
    NetworkSearchState.SetOperatorInfo longName shortName numeric DOMAIN_TYPE_CS ;;
    NetworkSearchState.SetOperatorInfo longName shortName numeric DOMAIN_TYPE_PS
  else mret tt.
Definition SetOperatorName (operatorName : cstring) : ON unit :=
  present ← member networkSearchState_;
  if (present : bool) then
    NetworkSearchState.SetLongOperatorName operatorName DOMAIN_TYPE_CS ;;
    NetworkSearchState.SetLongOperatorName operatorName DOMAIN_TYPE_PS
  else mret tt.
Definition SetOperatorNameByParams (params : OperatorNameParams) : ON unit :=
  let showName := if showPlmn params then plmn params else if showSpn params then spn params else [] in
  if bool_decide (showName = []) then mret tt else SetOperatorName showName.

Definition GetCustomName (numeric : cstring) : ON cstring := elsewhere (custom_name numeric).
(** The extension changes the name and says whether it takes precedence; without one nothing changes. *)
Definition process_name (name numeric : cstring) : ON cstring :=
  match processOperatorName_ with
  | None => mret name
  | Some f =>
      slotId ← member slotId_;
      '(netPriCust, name) ← elsewhere (f slotId name numeric);
      assign (set_netPriCust_ netPriCust) ;;
      mret name
  end.
Definition UpdateOperatorLongName (operatorLongName numeric : cstring) : ON cstring :=
  networkState ← GetNetworkStatus;
  match networkState with
  | None => mret operatorLongName
  | Some n =>
      if negb (GetRegStatus n =? REG_STATE_IN_SERVICE) then mret operatorLongName else
      operatorLongName ← member longName_;
      operatorLongName ← process_name operatorLongName numeric;
      customizedOperatorLongName ← GetCustomName numeric;
      netPriCust ← member netPriCust_;
      mret (if negb (bool_decide (customizedOperatorLongName = [])) && negb netPriCust then customizedOperatorLongName else operatorLongName)
  end.
Definition TrySetLongOperatorNameWithTranslation : ON unit :=
  networkState ← GetNetworkStatus;
  present ← member networkSearchState_;
  match networkState with
  | Some n =>
      if negb present then mret tt else
      longOperatorName ← UpdateOperatorLongName (GetLongOperatorName n) (GetPlmnNumeric n);
      SetOperatorName longOperatorName
  | None => mret tt
  end.
Definition GsmOperatorInfo (operatorInfoResult : option OperatorInfoResult) : ON unit :=
  match operatorInfoResult with
  | None => SetOperatorInfo [] [] []
  | Some info =>
      assign (set_longName_ (info_longName info)) ;;
      longName ← UpdateOperatorLongName (info_longName info) (info_numeric info);
      SetOperatorInfo longName (info_shortName info) (info_numeric info)
  end.
(** The same steps. *)
Definition CdmaOperatorInfo (operatorInfoResult : option OperatorInfoResult) : ON unit :=
  match operatorInfoResult with
  | None => SetOperatorInfo [] [] []
  | Some info =>
      assign (set_longName_ (info_longName info)) ;;
      longName ← UpdateOperatorLongName (info_longName info) (info_numeric info);
      SetOperatorInfo longName (info_shortName info) (info_numeric info)
  end.
Definition HandleOperatorInfo (operatorInfoResult : option OperatorInfoResult) : ON unit :=
  alive ← manager_exists;
  if negb alive then mret tt else
  match operatorInfoResult with
  | None => mret tt
  | Some _ =>
      GsmOperatorInfo operatorInfoResult ;;
      slotId ← member slotId_;
      elsewhere (modifies (TriggerTimezoneRefresh slotId))
  end.

(** *** The two names *)

Definition GetCurrentLac : ON Z :=
  alive ← manager_exists;
  if negb alive then mret 0 else
  slotId ← member slotId_;
  location ← elsewhere (gets (GetCellLocation slotId));
  mret (match location with Some (type, lac) => if type =? CELL_LOCATION_GSM then lac else 0 | None => 0 end).
Definition GetEons (numeric : cstring) (lac : Z) (longNameRequired : bool) : ON cstring :=
  present ← member simManager_;
  if negb present then mret [] else
  slotId ← member slotId_;
  eons ← elsewhere (gets (GetSimEons slotId numeric lac longNameRequired));
  mret (Str16ToStr8 eons).
(** The first that is not empty. *)
Definition or_else (name : cstring) (m : ON cstring) : ON cstring := match name with [] => m | _ => mret name end.
Definition GetPlmn (n : NetworkState) (longNameRequired : bool) : ON cstring :=
  let numeric := GetPlmnNumeric n in
  let roaming := NetworkState.IsRoaming n in
  lac ← GetCurrentLac;
  plmn ← GetCustomName numeric;
  plmn ← or_else plmn (o ← member id; attempt (fun _ => GetCustEons numeric lac roaming longNameRequired o));
  plmn ← or_else plmn (GetEons numeric lac longNameRequired);
  let plmn := match plmn with [] => GetLongOperatorName n | _ => plmn end in
  operatorLongName ← member longName_;
  operatorLongName ← process_name operatorLongName numeric;
  netPriCust ← member netPriCust_;
  mret (if (netPriCust : bool) then operatorLongName else plmn).
Definition FormatString (format arg : cstring) : cstring := match snprintf_s 100 (c_str format) (c_str arg) with Some s => c_str s | None => [] end.
Definition displays (rule flag : Z) : bool := Z.land (u32 rule) flag =? flag.
Definition UpdatePlmn (regStatus : Z) (n : NetworkState) (params : OperatorNameParams) : ON OperatorNameParams :=
  if regStatus =? REG_STATE_IN_SERVICE then
    plmn ← GetPlmn n true;
    mret (MkParams (negb (bool_decide (plmn = [])) && displays (spnRule params) SPN_CONDITION_DISPLAY_PLMN) plmn (showSpn params) (spn params) (spnRule params))
  else mret (MkParams true (plmn params) (showSpn params) (spn params) (spnRule params)).
Definition UpdateSpn (regStatus : Z) (params : OperatorNameParams) : ON OperatorNameParams :=
  if regStatus =? REG_STATE_IN_SERVICE then
    o ← member id;
    let name := if enableCust_ o && negb (bool_decide (spnCust_ o = [])) then spnCust_ o else spn params in
    name ← or_else name (
      result ← (if simManager_ o then elsewhere (gets (GetSimSpn (slotId_ o))) else mret (Str8ToStr16 []));
      mret (Str16ToStr8 result));
    let name := if bool_decide (csSpnFormat_ o = []) then name else FormatString (csSpnFormat_ o) name in
    mret (MkParams (showPlmn params) (plmn params) (negb (bool_decide (name = [])) && displays (spnRule params) SPN_CONDITION_DISPLAY_SPN) name (spnRule params))
  else mret (MkParams (showPlmn params) (plmn params) false [] (spnRule params)).
Definition sim_numeric : ON cstring :=
  o ← member id;
  if simManager_ o then '(_, numeric) ← elsewhere (gets (GetSimOperatorNumeric (slotId_ o))); mret (Str16ToStr8 numeric) else mret [].
Definition IsChinaCard : ON bool :=
  simPlmn ← sim_numeric;
  mret (isCMCard simPlmn || isCTCard simPlmn || isCBCard simPlmn).
Definition GetRoamStateBySimFile (netPlmn : cstring) : ON bool :=
  o ← member id;
  if bool_decide (netPlmn = []) || negb (simManager_ o) then mret false else
  '(errorCode, operatorNumeric) ← elsewhere (gets (GetSimOperatorNumeric (slotId_ o)));
  if negb (errorCode =? 0) || bool_decide (operatorNumeric = []) then mret false else
  if bool_decide (Str16ToStr8 operatorNumeric = netPlmn) then mret false else
  ehPlmns ← elsewhere (gets (GetEhPlmns (slotId_ o)));
  if bool_decide (netPlmn ∈ ehPlmns) then mret false else
  spdiPlmns ← elsewhere (gets (GetSpdiPlmns (slotId_ o)));
  mret (negb (bool_decide (netPlmn ∈ spdiPlmns))).
Definition GetSpnRule (n : NetworkState) : ON Z :=
  useRoamingFromNetworkState ← elsewhere (gets (GetBoolParameter CFG_DISPLAY_RULE_USE_ROAMING_FROM_NETWORK_STATE_BOOL false));
  roaming ← (if (useRoamingFromNetworkState : bool) then mret (NetworkState.IsRoaming n) else GetRoamStateBySimFile (GetPlmnNumeric n));
  o ← member id;
  if enableCust_ o && negb (displayConditionCust_ o =? SPN_INVALID) then mret (GetCustSpnRule roaming o) else
  china ← (if negb (NetworkState.IsRoaming n) then IsChinaCard else mret false);
  if (china : bool) then mret SPN_CONDITION_DISPLAY_PLMN
  else if simManager_ o then elsewhere (gets (ObtainSpnCondition (slotId_ o) roaming (GetPlmnNumeric n))) else mret 0.
Definition UpdateVSimSpn (params : OperatorNameParams) : ON OperatorNameParams :=
  match getVSimSlotId_, changeSpnAndRuleExt_ with
  | Some slot_id, Some change =>
      vSimSlotId ← elsewhere (gets (slot_id INVALID_SLOT_ID));
      if vSimSlotId =? VSIM_SLOT_ID then
        '(spn, rule, showSpn) ← elsewhere (change (spn params) (spnRule params) (showSpn params));
        mret (MkParams (showPlmn params) (plmn params) showSpn spn rule)
      else mret params
  | _, _ => mret params
  end.

(** *** The event *)

Definition PublishEvent (params : OperatorNameParams) (state : Z) (domesticSpn : cstring) : ON unit :=
  slotId ← member slotId_;
  let want := MkSpnEvent slotId (showPlmn params) (plmn params) (showSpn params) (spn params) domesticSpn in
  publishResult ← (if slotId <? REAL_SIM_MAX_COUNT then elsewhere (PublishCommonEvent want) else mret true);
  match publishSpnInfoChangedExt_ with Some f => elsewhere (modifies (f want)) | None => mret tt end ;;
  if (publishResult : bool) then assign (set_cur params state) else mret tt.
Definition is_news (isForce : bool) (regStatus : Z) (params : OperatorNameParams) (o : operator_name) : bool :=
  let cur := curParams_ o in
  isForce || negb (spnRule cur =? spnRule params) || negb (curRegState_ o =? regStatus) || negb (Bool.eqb (showSpn cur) (showSpn params)) ||
  negb (Bool.eqb (showPlmn cur) (showPlmn params)) || negb (bool_decide (spn cur = spn params)) || negb (bool_decide (plmn cur = plmn params)).
Definition IsTtsSpecOpName : ON bool :=
  slotId ← member slotId_;
  imsi ← elsewhere (gets (GetIMSI slotId));
  mret (bool_decide (take 8 (Str16ToStr8 imsi) = TTS_SPEC_PLMN)).
(** Where one name says it all, only one is shown. *)
Definition tidy (params : OperatorNameParams) : OperatorNameParams :=
  let params := if bool_decide (spn params = []) && negb (bool_decide (plmn params = [])) then MkParams true (plmn params) (showSpn params) (spn params) (spnRule params) else params in
  if showPlmn params && bool_decide (spn params = plmn params) then MkParams (showPlmn params) (plmn params) false (spn params) (spnRule params) else params.
(** Its first half: both names and what is displayed. *)
Definition gsm_params (regStatus : Z) (n : NetworkState) : ON OperatorNameParams :=
  spnRule ← GetSpnRule n;
  let params := MkParams false [] false [] (i32 (u32 spnRule)) in
  slotId ← member slotId_;
  params ← (if slotId =? VSIM_SLOT_ID then UpdateVSimSpn params else mret params);
  params ← UpdatePlmn regStatus n params;
  params ← UpdateSpn regStatus params;
  match updateOperatorNameParamsExt_ with Some f => elsewhere (f slotId n params) | None => mret params end.
Definition NotifyGsmSpnChanged (regStatus : Z) (networkState : option NetworkState) (domesticSpn : cstring) (isForce : bool) : ON unit :=
  match networkState with
  | None => mret tt
  | Some n =>
      params ← gsm_params regStatus n;
      let params := tidy params in
      SetOperatorNameByParams params ;;
      o ← member id;
      if is_news isForce regStatus params o then
        isSatelliteOn ← elsewhere (gets IsSatelliteEnabled);
        if (isSatelliteOn : bool) && negb (bool_decide (domesticSpn = [])) then
          tts ← IsTtsSpecOpName;
          PublishEvent (MkParams (showPlmn params) (if (tts : bool) then TTS_SPEC_OPNAME else domesticSpn) false (spn params) (spnRule params)) regStatus []
        else PublishEvent params regStatus domesticSpn
      else mret tt
  end.
Definition NotifyCdmaSpnChanged (regStatus : Z) (networkState : option NetworkState) (domesticSpn : cstring) (isForce : bool) : ON unit :=
  match networkState with
  | None => mret tt
  | Some n =>
      o ← member id;
      plmn ← (
        if regStatus =? REG_STATE_IN_SERVICE then
          plmn ← GetCustomName (GetPlmnNumeric n);
          let plmn := match plmn with [] => GetLongOperatorName n | _ => plmn end in
          mret (if bool_decide (csSpnFormat_ o = []) then plmn else FormatString (csSpnFormat_ o) plmn)
        else if negb (regStatus =? REG_STATE_POWER_OFF) then
          name ← elsewhere (gets out_of_service_name); mret (default [] name)
        else mret []);
      let params := MkParams (negb (bool_decide (plmn = []))) plmn false [] 0 in
      SetOperatorNameByParams params ;;
      o ← member id;
      if is_news isForce regStatus params o then PublishEvent params regStatus domesticSpn else mret tt
  end.
Definition NotifySpnChanged (isForce : bool) : ON unit :=
  alive ← manager_exists;
  if negb alive then mret tt else
  networkState ← GetNetworkStatus;
  let regStatus := from_option GetRegStatus REG_STATE_UNKNOWN networkState in
  let netPlmn := from_option GetPlmnNumeric [] networkState in
  simPlmn ← sim_numeric;
  domesticSpn ← (if isDomesticRoaming simPlmn netPlmn then GetCustomName simPlmn else mret []);
  slotId ← member slotId_;
  delayed ← match isInDelayProcessForOperatorName_ with Some f => elsewhere (gets (f slotId)) | None => mret false end;
  if (delayed : bool) then mret tt else
  NotifyGsmSpnChanged regStatus networkState domesticSpn isForce.

(** *** Start, and changes of the configuration and the language *)

Definition update_config : ON unit := slotId ← member slotId_; config ← elsewhere (gets (GetOperatorConfigs slotId)); assign (UpdateOperatorConfig config).
Definition OperatorName_new (networkSearchState simManager : bool) (slotId : Z) (v : V) : operator_name :=
  let format := match spn_formats v with Some l => match l !! Z.to_nat FORMAT_IDX_SPN_CS with Some f => f | None => [] end | None => [] end in
  UpdateOperatorConfig (GetOperatorConfigs slotId v)
    (MkOperatorName networkSearchState simManager (MkParams false [] false [] 0) REG_STATE_UNKNOWN slotId format false false [] SPN_INVALID [] [] []).
Definition OnOperatorConfigChanged (slotId state : Z) : ON unit :=
  mine ← member slotId_;
  if negb (mine =? slotId) then mret tt else
  update_config ;;
  networkState ← GetNetworkStatus;
  match networkState with
  | Some n =>
      if GetRegStatus n =? REG_STATE_IN_SERVICE then
        alive ← manager_exists;
        if negb alive then mret tt else elsewhere (modifies (StartRadioOnState mine))
      else mret tt
  | None => mret tt
  end.
Definition OnLocaleChanged : ON unit :=
  TrySetLongOperatorNameWithTranslation ;;
  alive ← manager_exists;
  if negb alive then mret tt else
  slotId ← member slotId_;
  need ← elsewhere (gets (CheckIsNeedNotify slotId));
  if (need : bool) then elsewhere (modifies (ProcessNotifyStateChange slotId)) else mret tt.
End Members.
End OperatorName.

(** ** [services/network_search/src/operator_name_utils.cpp]: the table of names *)

Module OperatorNameUtils.
Definition PATH : cstring := str "/etc/telephony/operator_name.json".
Definition ITEM_OPERATOR_NAMES : cstring := str "operator_names".
Definition ITEM_PLMN : cstring := str "mcc_mnc_array".
Definition ITEM_ZH_CN : cstring := str "zh_CN".
Definition ITEM_EN_US : cstring := str "en_US".
Definition ITEM_ZH_TW : cstring := str "zh_TW".
Definition ITEM_ZH_HK : cstring := str "zh_HK".
Definition ITEM_ZH_HANS : cstring := str "zh_Hans".
Definition ITEM_ZH_HANT : cstring := str "zh_Hant".
Definition MAX_BYTE_LEN : Z := 10 * 1024 * 1024.

Record OperatorNameCust : Type := MkCust { mccMnc : list cstring; zhCN : cstring; enUS : cstring; zhTW : cstring; zhHK : cstring; zhHans : cstring; zhHant : cstring }.
Record operator_name_utils : Type := MkUtils { isInit_ : bool; nameArray_ : list OperatorNameCust }.
Definition operatorNameUtils_ : operator_name_utils := MkUtils false [].

(** cJSON. A number that does not fit is undefined when it is converted to [int32_t]. *)
Class CJson (J : Type) : Type := {
  cJSON_Parse : cstring -> option J;
  cJSON_GetObjectItem : J -> cstring -> option J;
  cJSON_IsArray : J -> bool;
  cJSON_GetArraySize : J -> Z;
  cJSON_GetArrayItem : J -> Z -> option J;
  cJSON_IsNumber : J -> bool;
  number_int32 : J -> option Z;
  valuestring : J -> option cstring
}.
(** A file as the C library shows it: the results of the two [fseek], of [ftell], the bytes that [fread] reads, the result of [fclose]. *)
Record file : Type := MkFile { seek_end : bool; file_len : Z; seek_set : bool; file_bytes : cstring; closes : bool }.
(** The files, and the language, script and region of the system. *)
Record device : Type := MkDevice { GetOneCfgFile : cstring -> option cstring; realpath : cstring -> option cstring; fopen : cstring -> option file; locale : cstring * cstring * cstring }.

Section Utils.
Context {J : Type} `{ErrorCodes} `{!CJson J}.

Definition CloseFile (f : file) : Z := if closes f then TELEPHONY_SUCCESS else TELEPHONY_ERR_READ_DATA_FAIL.
(** The result, and the content: a C string in a buffer that ends with a null character. *)
Definition LoaderJsonFile (content : option cstring) (path : cstring) (d : device) : Z * option cstring :=
  match realpath d path with
  | None => (TELEPHONY_ERR_READ_DATA_FAIL, content)
  | Some realPath =>
      match fopen d realPath with
      | None => (TELEPHONY_ERR_READ_DATA_FAIL, content)
      | Some f =>
          if negb (seek_end f) then (TELEPHONY_ERR_READ_DATA_FAIL, content)
          else if negb (seek_set f) then (TELEPHONY_ERR_READ_DATA_FAIL, content)
          else if (file_len f =? 0) || (MAX_BYTE_LEN <? file_len f) then (TELEPHONY_ERR_READ_DATA_FAIL, content)
          else if negb (zlen (file_bytes f) =? file_len f) then (TELEPHONY_ERR_READ_DATA_FAIL, None)
          else (CloseFile f, Some (c_str (file_bytes f)))
      end
  end.
Definition ParseString (value : option J) : cstring := default [] (value ≫= valuestring).
(** [for (i = 0; i < n; i++) f(i)], collecting. *)
Fixpoint collect {A} (f : Z -> outcome (list A)) (i : Z) (n : nat) : outcome (list A) :=
  match n with O => Ret [] | S n => l ← f i; k ← collect f (i + 1) n; Ret (l ++ k) end.
Definition mcc_mnc (plmnArray : J) (j : Z) : outcome (list cstring) :=
  match cJSON_GetArrayItem plmnArray j with
  | Some v => if cJSON_IsNumber v then i ← the (number_int32 v); Ret [to_string i] else Ret []
  | None => Ret []
  end.
Definition name_cust (itemRoots : J) (i : Z) : outcome (list OperatorNameCust) :=
  match cJSON_GetArrayItem itemRoots i with
  | None => Ret []
  | Some itemRoot =>
      match cJSON_GetObjectItem itemRoot ITEM_PLMN with
      | None => Ret []
      | Some plmnArray =>
          if negb (cJSON_IsArray plmnArray) then Ret [] else
          codes ← collect (mcc_mnc plmnArray) 0 (Z.to_nat (cJSON_GetArraySize plmnArray));
          let item k := ParseString (cJSON_GetObjectItem itemRoot k) in
          Ret [MkCust codes (item ITEM_ZH_CN) (item ITEM_EN_US) (item ITEM_ZH_TW) (item ITEM_ZH_HK) (item ITEM_ZH_HANS) (item ITEM_ZH_HANT)]
      end
  end.
Definition ParserOperatorNames (itemRoots : J) : outcome (list OperatorNameCust) :=
  collect (name_cust itemRoots) 0 (Z.to_nat (cJSON_GetArraySize itemRoots)).
Definition ParserOperatorNameCustJson (d : device) : outcome (Z * list OperatorNameCust) :=
  let '(ret, content) :=
    match GetOneCfgFile d PATH with Some (c :: path) => LoaderJsonFile None (c :: path) d | _ => (TELEPHONY_SUCCESS, None) end in
  if negb (ret =? TELEPHONY_SUCCESS) then Ret (ret, []) else
  match content with
  | None => Ret (TELEPHONY_ERR_READ_DATA_FAIL, [])
  | Some content =>
      match cJSON_Parse content with
      | None => Ret (TELEPHONY_ERR_READ_DATA_FAIL, [])
      | Some root =>
          match cJSON_GetObjectItem root ITEM_OPERATOR_NAMES with
          | None => Ret (TELEPHONY_ERR_READ_DATA_FAIL, [])
          | Some itemRoots =>
              if negb (cJSON_IsArray itemRoots) || (cJSON_GetArraySize itemRoots =? 0) then Ret (TELEPHONY_ERR_READ_DATA_FAIL, []) else
              vec ← ParserOperatorNames itemRoots;
              Ret (TELEPHONY_SUCCESS, vec)
          end
      end
  end.
(** The result of the loading is not looked at. *)
Definition Init (d : device) (u : operator_name_utils) : outcome operator_name_utils :=
  if isInit_ u then Ret u else
  '(_, nameArray) ← ParserOperatorNameCustJson d;
  Ret (MkUtils true nameArray).
Definition IsInit (u : operator_name_utils) : bool := isInit_ u.
Definition language_code (l : cstring * cstring * cstring) : cstring :=
  let '(language, script, region) := l in
  let languageCode := language ++ str "_" ++ region in
  let countryCodeTempScript := if bool_decide (script = []) then [] else language ++ str "_" ++ script in
  let languageCode := if bool_decide (countryCodeTempScript = ITEM_ZH_HANS) then ITEM_ZH_HANS else languageCode in
  if bool_decide (countryCodeTempScript = ITEM_ZH_HANT) then ITEM_ZH_HANT else languageCode.
Definition GetNameByLocale (value : OperatorNameCust) (l : cstring * cstring * cstring) : cstring :=
  let languageCode := language_code l in
  if bool_decide (languageCode = ITEM_ZH_CN) then zhCN value
  else if bool_decide (languageCode = ITEM_ZH_TW) then zhTW value
  else if bool_decide (languageCode = ITEM_ZH_HK) then zhHK value
  else if bool_decide (languageCode = ITEM_ZH_HANS) then zhHans value
  else if bool_decide (languageCode = ITEM_ZH_HANT) then zhHant value
  else if bool_decide (languageCode = ITEM_EN_US) then enUS value
  else enUS value.
Definition GetCustomName (numeric : cstring) (d : device) (u : operator_name_utils) : outcome (cstring * operator_name_utils) :=
  u ← (if negb (IsInit u) then Init d u else Ret u);
  Ret (match find (fun value => bool_decide (numeric ∈ mccMnc value)) (nameArray_ u) with Some value => GetNameByLocale value (locale d) | None => [] end, u).
End Utils.
End OperatorNameUtils.

(** ** What a new name changes *)

(** What the sources of names do for others is that they forward notices; publishing a name, or asking for one, is none. *)
Class NameLaws (V : Type) `{!NameSources V} (slot_ : Z) (view : V -> belief) : Prop := {
  name_alive v : search_manager_alive v = true;
  view_notify n v : view (notify n v) = learn slot_ n (view v);
  view_custom numeric v : view (custom_name numeric v).2 = view v;
  view_publish e v : view (PublishCommonEvent e v).2 = view v;
  view_publish_ext f e v : publishSpnInfoChangedExt_ = Some f -> view (f e v) = view v;
  view_params f i n p v : updateOperatorNameParamsExt_ = Some f -> view (f i n p v).2 = view v;
  view_change f sp r b v : changeSpnAndRuleExt_ = Some f -> view (f sp r b v).2 = view v;
  view_process f i long numeric v : processOperatorName_ = Some f -> view (f i long numeric v).2 = view v
}.

Section Names.
Context {P V : Type} `{ParcelLaws P} `{!Roomy P} `{ErrorCodes} `{StringEx} `{!NameSources V} (slot_ : Z) (view : V -> belief) `{!NameLaws V slot_ view}.
Import OperatorName.
Implicit Types s : slot (named V).

(** The slot and what others know are as before, and so is this object but for the precedence of the network's name. *)
Definition same s s' : Prop :=
  search s' = search s /\ view (beyond (outside s')) = view (beyond (outside s)) /\ exists b, name (outside s') = set_netPriCust_ b (name (outside s)).
Lemma same_as_before s : same s s.
Proof. split_and!; [done..|]. exists (netPriCust_ (name (outside s))). by destruct (name (outside s)). Qed.
Lemma same_trans s s1 s2 : same s s1 -> same s1 s2 -> same s s2.
Proof. intros (S1 & V1 & b1 & N1) (S2 & V2 & b2 & N2). split_and!; [congruence..|]. exists b2. rewrite N2, N1. by destruct (name (outside s)). Qed.
(** [m] returns a result with [Q] and changes nothing else. *)
Definition asks {A} (m : ON (V := V) A) s (Q : A -> Prop) : Prop := exists a s', m s = Ret (a, s') /\ same s s' /\ Q a.
Lemma asks_ret {A} (a : A) s (Q : A -> Prop) : Q a -> asks (mret a) s Q.
Proof. intros. exists a, s. split_and!; [done|apply same_as_before|done]. Qed.
Lemma asks_bind {A B} (m : ON (V := V) A) (k : A -> ON (V := V) B) s (R : A -> Prop) (Q : B -> Prop) :
  asks m s R -> (forall a s', same s s' -> R a -> asks (k a) s' Q) -> asks (m ≫= k) s Q.
Proof.
  intros (a & s1 & E & S & HR) Hk. destruct (Hk a s1 S HR) as (b & s2 & E2 & S2 & HQ). exists b, s2. split_and!; [|exact (same_trans _ _ _ S S2)|done].
  unfold mbind, partial_bind. by rewrite E.
Qed.
Lemma asks_mono {A} (m : ON (V := V) A) s (Q Q' : A -> Prop) : asks m s Q -> (forall a, Q a -> Q' a) -> asks m s Q'.
Proof. intros (a & s' & E & S & HQ) HQ'. exists a, s'. auto. Qed.
Lemma asks_member {A} (f : operator_name -> A) s (Q : A -> Prop) : Q (f (name (outside s))) -> asks (member f) s Q.
Proof. intros. eexists _, s. split_and!; [reflexivity|apply same_as_before|done]. Qed.
Lemma asks_elsewhere {A} (m : stateful V A) s (Q : A -> Prop) : (forall v, view (m v).2 = view v) -> Q (m (beyond (outside s))).1 -> asks (elsewhere m) s Q.
Proof.
  intros HV HQ. specialize (HV (beyond (outside s))). unfold asks, elsewhere, pure. destruct (m (beyond (outside s))) as [a v]. eexists a, _. split; [reflexivity|].
  split; [|done]. split_and!; [done..|]. exists (netPriCust_ (name (outside s))). cbn. by destruct (name (outside s)).
Qed.
Lemma status_known s n : networkState_ (search s) = Some n -> NetworkState.wf n ->
  GetNetworkStatus (P := P) s = Ret (if networkSearchState_ (name (outside s)) then Some n else None, s).
Proof.
  intros Hn Wn. unfold GetNetworkStatus, member, pure, gets, mbind, partial_bind. destruct (networkSearchState_ (name (outside s))); [|done].
  unfold NetworkSearchState.GetNetworkStatus, NetworkSearchState.member, pure, gets. rewrite Hn. cbn. by destruct (copy_equal n NetworkState.Init new_parcel Wn new_law) as (d & -> & _).
Qed.
Lemma asks_known s n : networkState_ (search s) = Some n -> NetworkState.wf n ->
  asks (GetNetworkStatus (P := P)) s (fun o => o = if networkSearchState_ (name (outside s)) then Some n else None).
Proof. intros Hn Wn. eexists _, s. split_and!; [by apply status_known|apply same_as_before|done]. Qed.

(** *** The members that only ask *)

(** Take one step; what is asked does not matter. *)
Definition any {A} (_ : A) : Prop := True.
Lemma asks_any_bind {A B} (m : ON (V := V) A) (k : A -> ON (V := V) B) s (Q : B -> Prop) : asks m s any -> (forall a s', same s s' -> asks (k a) s' Q) -> asks (m ≫= k) s Q.
Proof. intros Hm Hk. eapply asks_bind; [exact Hm|]. auto. Qed.
Lemma asks_if {A} (b : bool) (m k : ON (V := V) A) s Q : (b = true -> asks m s Q) -> (b = false -> asks k s Q) -> asks (if b then m else k) s Q.
Proof. destruct b; auto. Qed.
Ltac ask := repeat first
  [ apply asks_ret | apply asks_member | apply asks_elsewhere; [first [done|intros ?; apply view_custom|intros ?; apply view_publish]|] | apply asks_if; [intros ?|intros ?] | eapply asks_any_bind; [|intros ? ? ?] | exact I
  | match goal with |- asks (match ?x with _ => _ end) _ _ => destruct x eqn:? | |- asks (let '(_, _) := ?x in _) _ _ => destruct x | |- any _ => exact I end ].
Lemma asks_GetCustomName numeric s : asks (GetCustomName numeric) s any.
Proof. unfold GetCustomName. ask. Qed.
Lemma asks_process_name long numeric s : asks (process_name long numeric) s any.
Proof.
  unfold process_name. destruct processOperatorName_ as [f|] eqn:E; [|ask]. eapply asks_any_bind; [ask|]. intros i s1 S1.
  eapply asks_any_bind; [apply asks_elsewhere; [intros v; by apply view_process|done]|]. intros [b name] s2 S2.
  eexists _, _. split; [reflexivity|]. split; [|done]. split_and!; [done..|]. by exists b.
Qed.
Lemma GetCustEons_returns numeric lac roaming long o : exists name, GetCustEons numeric lac roaming long o = Ret name.
Proof.
  unfold GetCustEons. destruct (_ || _); [by eexists|]. set (i := opl_loop _ _ _ _). destruct (Z.leb_spec 1 i); [|by eexists]. cbn [andb].
  destruct (Z.leb_spec i (i32 (zlen (pnnCust_ o)))); [|by eexists].
  assert (i32 (zlen (pnnCust_ o)) <= zlen (pnnCust_ o)). { unfold i32. pose proof (zlen_nonneg (pnnCust_ o)). pose proof (Z.mod_le (zlen (pnnCust_ o) + 2 ^ 31) (2 ^ 32)). lia. }
  pose proof (i32_range (zlen (pnnCust_ o))) as R. unfold is_i32 in R. rewrite u64_small by lia.
  destruct (vec_at_in (pnnCust_ o) (i - 1)) as (p & -> & _); [lia|]. by eexists.
Qed.
Lemma asks_GetCurrentLac s : asks GetCurrentLac s any.
Proof. unfold GetCurrentLac, manager_exists. ask. Qed.
Lemma asks_GetEons numeric lac long s : asks (GetEons numeric lac long) s any.
Proof. unfold GetEons. ask. Qed.
Lemma asks_or_else name m s : (forall s, asks m s any) -> asks (or_else name m) s any.
Proof. intros Hm. unfold or_else. destruct name; [apply Hm|ask]. Qed.
Lemma asks_GetPlmn n long s : asks (GetPlmn n long) s any.
Proof.
  unfold GetPlmn. eapply asks_any_bind; [apply asks_GetCurrentLac|]. intros lac s1 _. eapply asks_any_bind; [apply asks_GetCustomName|]. intros p s2 _.
  eapply asks_any_bind.
  { apply asks_or_else. intros s'. eapply asks_any_bind; [ask|]. intros o s3 _. destruct (GetCustEons_returns (GetPlmnNumeric n) lac (NetworkState.IsRoaming n) long o) as [eons E].
    exists eons, s3. split_and!; [unfold attempt; by rewrite E|apply same_as_before|done]. }
  intros p' s3 _. eapply asks_any_bind; [apply asks_or_else; intros; apply asks_GetEons|]. intros p'' s4 _.
  eapply asks_any_bind; [ask|]. intros l s5 _. eapply asks_any_bind; [apply asks_process_name|]. intros l' s6 _. ask.
Qed.
Lemma asks_sim_numeric s : asks sim_numeric s any.
Proof. unfold sim_numeric. ask. Qed.
Lemma asks_IsChinaCard s : asks IsChinaCard s any.
Proof. unfold IsChinaCard. eapply asks_any_bind; [apply asks_sim_numeric|]. intros ? ? _. ask. Qed.
Lemma asks_roam netPlmn s : asks (GetRoamStateBySimFile netPlmn) s any.
Proof. unfold GetRoamStateBySimFile. ask. Qed.
Lemma asks_GetSpnRule n s : asks (GetSpnRule n) s any.
Proof.
  unfold GetSpnRule. eapply asks_any_bind; [ask|]. intros use s1 _. eapply asks_any_bind; [apply asks_if; intros _; [ask|apply asks_roam]|]. intros roaming s2 _.
  eapply asks_any_bind; [ask|]. intros o s3 _. apply asks_if; intros _; [ask|]. eapply asks_any_bind; [apply asks_if; intros _; [apply asks_IsChinaCard|ask]|]. intros china s4 _. ask.
Qed.
Lemma asks_UpdateVSimSpn p s : asks (UpdateVSimSpn p) s any.
Proof.
  unfold UpdateVSimSpn. destruct getVSimSlotId_, changeSpnAndRuleExt_ as [f|] eqn:E; try by ask. eapply asks_any_bind; [ask|]. intros v s1 _.
  apply asks_if; intros _; [|ask]. eapply asks_any_bind; [apply asks_elsewhere; [intros; by apply view_change|done]|]. intros [[] ?] s2 _. ask.
Qed.
(** The parameters of one of the names, given the other. *)
Definition plmn_decided (regStatus : Z) (p p' : OperatorNameParams) : Prop :=
  showSpn p' = showSpn p /\ spn p' = spn p /\ spnRule p' = spnRule p /\
  if regStatus =? REG_STATE_IN_SERVICE then showPlmn p' = negb (bool_decide (plmn p' = [])) && displays (spnRule p) SPN_CONDITION_DISPLAY_PLMN else showPlmn p' = true /\ plmn p' = plmn p.
Lemma asks_UpdatePlmn regStatus n p s : asks (UpdatePlmn regStatus n p) s (plmn_decided regStatus p).
Proof.
  unfold UpdatePlmn, plmn_decided. destruct (regStatus =? REG_STATE_IN_SERVICE); [|by apply asks_ret]. eapply asks_any_bind; [apply asks_GetPlmn|]. intros name s1 _. by apply asks_ret.
Qed.
Definition spn_decided (regStatus : Z) (p p' : OperatorNameParams) : Prop :=
  showPlmn p' = showPlmn p /\ plmn p' = plmn p /\ spnRule p' = spnRule p /\
  if regStatus =? REG_STATE_IN_SERVICE then showSpn p' = negb (bool_decide (spn p' = [])) && displays (spnRule p) SPN_CONDITION_DISPLAY_SPN else showSpn p' = false /\ spn p' = [].
Lemma asks_UpdateSpn regStatus p s : asks (UpdateSpn regStatus p) s (spn_decided regStatus p).
Proof.
  unfold UpdateSpn, spn_decided. destruct (regStatus =? REG_STATE_IN_SERVICE); [|by apply asks_ret]. eapply asks_any_bind; [ask|]. intros o s1 _.
  eapply asks_any_bind; [apply asks_or_else; intros s2; ask|]. intros name s3 _. by apply asks_ret.
Qed.

(** *** The members that set the name *)

(** The registration [n] of the slot becomes [n'], which differs in names only. *)
Definition renames s n s' n' : Prop :=
  search s' = NetworkSearchState.set_networkState_ (Some n') (search s) /\ view (beyond (outside s')) = view (beyond (outside s)) /\ proper n' /\ unnamed n' = unnamed n.
Lemma same_renames s s' n : same s s' -> networkState_ (search s) = Some n -> proper n -> renames s n s' n.
Proof. intros (S & V' & _) Hn Pn. split_and!; [|done..]. rewrite S. destruct (search s). cbn in *. by subst. Qed.
Lemma renames_same s n s1 n1 s2 : renames s n s1 n1 -> same s1 s2 -> renames s n s2 n1.
Proof. intros (S & V1 & P1 & U) (S2 & V2 & _). split_and!; [congruence..|done|done]. Qed.
Lemma same_renames_trans s n s1 s2 n2 : same s s1 -> renames s1 n s2 n2 -> renames s n s2 n2.
Proof. intros (S & V1 & _) (S2 & V2 & P2 & U). split_and!; [congruence..|done|done]. Qed.
Lemma same_state s s' n : same s s' -> networkState_ (search s) = Some n -> networkState_ (search s') = Some n.
Proof. intros (S & _) Hn. by rewrite S. Qed.
Lemma same_name {A} (f : operator_name -> A) s s' : (forall b o, f (set_netPriCust_ b o) = f o) -> same s s' -> f (name (outside s')) = f (name (outside s)).
Proof. intros Hf (_ & _ & b & ->). apply Hf. Qed.

(** The name that is shown, if one is. *)
Definition shown_name (p : OperatorNameParams) : cstring := if showPlmn p then plmn p else if showSpn p then spn p else [].
Definition or_before (new old : cstring) : cstring := match new with [] => old | _ => new end.
Lemma SetOperatorNameByParams_runs p s n : networkState_ (search s) = Some n -> proper n -> exists s' n', SetOperatorNameByParams p s = Ret (tt, s') /\ renames s n s' n' /\ outside s' = outside s /\
  (networkSearchState_ (name (outside s)) = true -> GetLongOperatorName n' = or_before (shown_name p) (GetLongOperatorName n)).
Proof.
  intros Hn Pn. unfold SetOperatorNameByParams. fold (shown_name p). case_bool_decide as E.
  { rewrite E. exists s, n. split_and!; [done|by apply same_renames, Pn; [apply same_as_before|]|done|done]. }
  unfold SetOperatorName, mbind, partial_bind, member, pure, gets. destruct (networkSearchState_ (name (outside s))) eqn:Ep.
  - eexists _, _. split; [unfold NetworkSearchState.SetLongOperatorName, NetworkSearchState.on_state, NetworkSearchState.assign, pure, modifies; cbn; rewrite Hn; reflexivity|].
    split; [|split; [done|]].
    + split_and!; try done; by destruct n as [? [] []].
    + intros _. destruct n as [? [] []]. unfold GetLongOperatorName, or_before. cbn. by destruct (shown_name p).
  - exists s, n. split_and!; [done|by apply same_renames, Pn; [apply same_as_before|]|done|done].
Qed.
Lemma continue_ {A B} (m : ON (V := V) A) (k : A -> ON (V := V) B) s a s' : m s = Ret (a, s') -> (m ≫= k) s = k a s'.
Proof. intros E. unfold mbind, partial_bind. by rewrite E. Qed.
(** Publishing: what is kept if the event service took it. *)
Lemma PublishEvent_runs p st domestic s : exists s', PublishEvent p st domestic s = Ret (tt, s') /\ search s' = search s /\ view (beyond (outside s')) = view (beyond (outside s)) /\
  (name (outside s') = name (outside s) \/ name (outside s') = set_cur p st (name (outside s))) /\
  ((forall e v, (PublishCommonEvent e v).1 = true) -> name (outside s') = set_cur p st (name (outside s))).
Proof.
  unfold PublishEvent, mbind, partial_bind, member, elsewhere, assign, pure, gets, modifies. cbn. set (e := MkSpnEvent _ _ _ _ _ _).
  destruct (slotId_ (name (outside s)) <? REAL_SIM_MAX_COUNT).
  - pose proof (view_publish e (beyond (outside s))) as Vp. destruct (PublishCommonEvent e (beyond (outside s))) as [ok v] eqn:Ee. cbn in Vp.
    destruct publishSpnInfoChangedExt_ as [f|] eqn:Ef, ok; cbn; eexists; (split; [reflexivity|]); cbn; rewrite ?(view_publish_ext _ _ _ Ef); split_and!; auto; intros T; specialize (T e (beyond (outside s))); by rewrite Ee in T.
  - destruct publishSpnInfoChangedExt_ as [f|] eqn:Ef; cbn; eexists; (split; [reflexivity|]); cbn; rewrite ?(view_publish_ext _ _ _ Ef); split_and!; auto.
Qed.

(** The parameters before they are tidied up. *)
Definition decided (regStatus : Z) (p : OperatorNameParams) : Prop :=
  if regStatus =? REG_STATE_IN_SERVICE then
    showPlmn p = negb (bool_decide (plmn p = [])) && displays (spnRule p) SPN_CONDITION_DISPLAY_PLMN /\
    showSpn p = negb (bool_decide (spn p = [])) && displays (spnRule p) SPN_CONDITION_DISPLAY_SPN
  else showPlmn p = true /\ plmn p = [] /\ showSpn p = false /\ spn p = [].
Lemma asks_gsm_params regStatus n s : asks (gsm_params regStatus n) s
  (fun p => updateOperatorNameParamsExt_ = None -> slotId_ (name (outside s)) <> VSIM_SLOT_ID -> decided regStatus p).
Proof.
  unfold gsm_params. eapply asks_any_bind; [apply asks_GetSpnRule|]. intros rule s1 S1. cbv zeta. eapply asks_bind; [by apply (asks_member slotId_ s1 (fun i => i = slotId_ (name (outside s1))))|].
    intros i s2 S2 ->. rewrite (same_name slotId_ s s1) by (done || by intros ? []). set (i := slotId_ (name (outside s))). set (p0 := MkParams _ _ _ _ _).
    eapply (asks_bind _ _ _ (fun p => i <> VSIM_SLOT_ID -> p = p0)).
    { destruct (Z.eqb_spec i VSIM_SLOT_ID); [eapply asks_mono; [apply asks_UpdateVSimSpn|done]|by apply asks_ret]. }
    intros p1 s3 S3 E1. eapply asks_bind; [apply asks_UpdatePlmn|]. intros p2 s4 S4 D2. eapply asks_bind; [apply asks_UpdateSpn|]. intros p3 s5 S5 D3.
    assert (D : i <> VSIM_SLOT_ID -> decided regStatus p3).
    { intros Ni. specialize (E1 Ni). subst p1. destruct D2 as (A1 & A2 & A3 & A4), D3 as (B1 & B2 & B3 & B4). unfold decided. destruct (regStatus =? REG_STATE_IN_SERVICE).
      - rewrite B1, B2, B3, A3. split; [by rewrite A4|by rewrite B4, A3].
      - destruct A4, B4. rewrite B1, B2. by split_and!. }
    destruct updateOperatorNameParamsExt_ as [f|] eqn:Ef; [apply asks_elsewhere; [intros v; by apply view_params|done]|by apply asks_ret].
Qed.
Lemma asks_tts s : asks IsTtsSpecOpName s any.
Proof. unfold IsTtsSpecOpName. ask. Qed.
Lemma NotifyGsmSpnChanged_runs regStatus n domestic force s : networkState_ (search s) = Some n -> proper n ->
  exists s' n' p, NotifyGsmSpnChanged regStatus (Some n) domestic force s = Ret (tt, s') /\ renames s n s' n' /\
    (networkSearchState_ (name (outside s)) = true -> GetLongOperatorName n' = or_before (shown_name (tidy p)) (GetLongOperatorName n)) /\
    (updateOperatorNameParamsExt_ = None -> slotId_ (name (outside s)) <> VSIM_SLOT_ID -> decided regStatus p) /\
    (force = true -> (forall v, IsSatelliteEnabled v = false) -> (forall e v, (PublishCommonEvent e v).1 = true) -> curParams_ (name (outside s')) = tidy p).
Proof.
  intros Hn Pn. unfold NotifyGsmSpnChanged. destruct (asks_gsm_params regStatus n s) as (p & s1 & E1 & S1 & D1).
  rewrite (continue_ _ _ _ _ _ E1). clear E1. cbv zeta. pose proof (same_state _ _ _ S1 Hn) as Hn1.
  destruct (SetOperatorNameByParams_runs (tidy p) s1 n Hn1 Pn) as (s2 & n' & E2 & R2 & O2 & L2). rewrite (continue_ _ _ _ _ _ E2). clear E2.
  pose proof (same_renames_trans _ _ _ _ _ S1 R2) as R. erewrite continue_ by reflexivity.
  assert (F : forall {A} (f : operator_name -> A), (forall b o, f (set_netPriCust_ b o) = f o) -> f (name (outside s2)) = f (name (outside s))).
  { intros A f Hf. rewrite O2. by apply same_name. }
  assert (W : forall s3, search s3 = search s2 -> view (beyond (outside s3)) = view (beyond (outside s2)) -> renames s n s3 n').
  { intros s3 S3 V3. destruct R as (? & ? & ? & ?). split_and!; [congruence..|done|done]. }
  assert (Ln : networkSearchState_ (name (outside s)) = true -> GetLongOperatorName n' = or_before (shown_name (tidy p)) (GetLongOperatorName n)).
  { intros E. apply L2. rewrite <- E. apply same_name; [by intros ? []|done]. }
  destruct (is_news force regStatus (tidy p) (id (name (outside s2)))) eqn:En.
  - erewrite continue_ by reflexivity. cbn [outside beyond]. set (s3 := MkSlot _ _ _). destruct (IsSatelliteEnabled (beyond (outside s2)) && _) eqn:Es.
    + assert (Et : exists tts s4, IsTtsSpecOpName s3 = Ret (tts, s4) /\ same s3 s4) by (destruct (asks_mono _ _ _ (fun _ => True) (asks_tts s3)) as (tts & s4 & ? & ? & _); eauto).
      destruct Et as (tts & s4 & E4 & S4). rewrite (continue_ _ _ _ _ _ E4). edestruct PublishEvent_runs as (s5 & E5 & S5 & V5 & _).
      exists s5, n', p. split; [refine E5|]. destruct S4 as (S4 & V4 & _). split_and!; [apply W; [by rewrite S5, S4|by rewrite V5, V4]|done|done|].
      intros _ Sat. by rewrite Sat in Es.
    + destruct (PublishEvent_runs (tidy p) regStatus domestic s3) as (s5 & E5 & S5 & V5 & _ & K). exists s5, n', p. split; [exact E5|].
      split_and!; [by apply W|done|done|]. intros _ _ Pub. rewrite (K Pub). by destruct (name (outside s3)).
  - exists s2, n', p. split; [reflexivity|]. split_and!; [done..|]. intros ->. by unfold is_news in En.
Qed.

(** *** [NotifySpnChanged] *)

Lemma NotifySpnChanged_runs force s n : networkState_ (search s) = Some n -> proper n ->
  exists s' n' p, NotifySpnChanged (P := P) force s = Ret (tt, s') /\ renames s n s' n' /\
    (networkSearchState_ (name (outside s)) = true -> isInDelayProcessForOperatorName_ = None ->
       GetLongOperatorName n' = or_before (shown_name (tidy p)) (GetLongOperatorName n) /\
       (updateOperatorNameParamsExt_ = None -> slotId_ (name (outside s)) <> VSIM_SLOT_ID -> decided (GetRegStatus n) p) /\
       (force = true -> (forall v, IsSatelliteEnabled v = false) -> (forall e v, (PublishCommonEvent e v).1 = true) -> curParams_ (name (outside s')) = tidy p)).
Proof.
  intros Hn Pn. unfold NotifySpnChanged. set (r := if networkSearchState_ (name (outside s)) then Some n else None).
  erewrite continue_ by reflexivity. cbn [beyond]. rewrite name_alive. cbn [negb]. set (s0 := MkSlot _ _ _).
  assert (S0 : same s s0) by (split_and!; [done..|]; exists (netPriCust_ (name (outside s))); cbn; by destruct (name (outside s))).
  rewrite (continue_ _ _ _ _ _ (status_known s0 n Hn (proj1 Pn))). change (name (outside s0)) with (name (outside s)). fold r.
  destruct (asks_sim_numeric s0) as (simPlmn & s1 & E1 & S1 & _). rewrite (continue_ _ _ _ _ _ E1). clear E1.
  assert (A : asks (if isDomesticRoaming simPlmn (from_option GetPlmnNumeric [] r) then GetCustomName simPlmn else mret []) s1 any) by (apply asks_if; intros _; [apply asks_GetCustomName|ask]).
  destruct A as (domestic & s2 & E2 & S2 & _). rewrite (continue_ _ _ _ _ _ E2). clear E2. erewrite continue_ by reflexivity.
  assert (A : asks (match isInDelayProcessForOperatorName_ with Some f => elsewhere (gets (f (slotId_ (name (outside s2))))) | None => mret false end) s2
    (fun d => isInDelayProcessForOperatorName_ = None -> d = false)) by (destruct isInDelayProcessForOperatorName_; ask; done).
  destruct A as (d & s3 & E3 & S3 & D). rewrite (continue_ _ _ _ _ _ E3). clear E3.
  pose proof (same_trans _ _ _ (same_trans _ _ _ (same_trans _ _ _ S0 S1) S2) S3) as S. clear S0 S1 S2 S3. pose proof (same_state _ _ _ S Hn) as Hn3.
  destruct d.
  { exists s3, n, (MkParams false [] false [] 0). split; [done|]. split; [by apply same_renames|]. intros _ N. by specialize (D N). }
  unfold r. destruct (networkSearchState_ (name (outside s))) eqn:Ep; cbn [from_option].
  - destruct (NotifyGsmSpnChanged_runs (GetRegStatus n) n domestic force s3 Hn3 Pn) as (s4 & n' & p & E4 & R & L & D4 & K). exists s4, n', p. split; [exact E4|].
    split; [exact (same_renames_trans _ _ _ _ _ S R)|]. intros _ _. rewrite (same_name networkSearchState_ _ _ ltac:(by intros ? []) S) in L. rewrite (same_name slotId_ _ _ ltac:(by intros ? []) S) in D4. auto.
  - exists s3, n, (MkParams false [] false [] 0). split; [done|]. split; [by apply same_renames|]. done.
Qed.

(** ** The search manager with this object *)

(** [NetworkSearchManager::UpdateOperatorName]: the object of the slot, if there is one. *)
Definition manager_UpdateOperatorName (slotId : Z) : ON (V := V) Z :=
  mine ← member slotId_;
  if mine =? slotId then NotifySpnChanged (P := P) true ;; mret TELEPHONY_ERR_SUCCESS else mret TELEPHONY_ERR_LOCAL_PTR_NULL.
#[local] Instance name_manager : SearchManager (named V) := {
  manager_alive w := search_manager_alive (beyond w);
  tell n w := MkNamed (name w) (notify n (beyond w));
  UpdateOperatorName := manager_UpdateOperatorName
}.

(** C29: The name of the operator is what file NetworkSearchState.v takes it for: updating it always returns, changes nothing of the registration but the long names, and tells nobody
    anything about it. So what is proved there holds for a search manager with this class. *)
Theorem operator_name_refines `{!SearchExt (named V)} :
  (forall f n w, updateNetworkStateExt_ = Some f -> proper n -> exists n', (f slot_ (Some n) w).1 = Some n' /\ proper n' /\ view (beyond (f slot_ (Some n) w).2) = view (beyond w)) ->
  (forall f ns w, processStateChangeExt_ = Some f -> (f slot_ ns w).1.2 = Some ns /\ view (beyond (f slot_ ns w).2) = view (beyond w)) ->
  SearchLaws (named V) slot_ (fun w => view (beyond w)).
Proof.
  intros Hu Hp. split; [intros w; apply name_alive|intros m w; apply view_notify| |exact Hu|exact Hp].
  intros s n Hs Hn Pn. cbn. unfold manager_UpdateOperatorName. unfold member, pure, gets, mbind, partial_bind. destruct (_ =? slot_).
  - destruct (NotifySpnChanged_runs true s n Hn Pn) as (s' & n' & p & E & (S & V' & P' & U) & _). rewrite E. exists TELEPHONY_ERR_SUCCESS, n', s'. by split_and!.
  - exists TELEPHONY_ERR_LOCAL_PTR_NULL, n, s. split_and!; [done| |done..]. destruct (search s). cbn in *. by subst.
Qed.

End Names.

(** ** Configured names *)

Lemma split_from_piece sep piece s : Forall (fun c => c <> sep) s -> split_from sep piece s = match piece ++ s with [] => [] | p => [p] end.
Proof.
  revert piece. induction s as [|c s IH]; intros piece Hs; cbn; [rewrite app_nil_r; by destruct piece|]. apply Forall_cons in Hs as [Hc Hs].
  rewrite decide_False by done. rewrite IH by done. by rewrite <- app_assoc.
Qed.
Lemma split_from_last sep s : Forall (fun c => c <> sep) s -> s <> [] -> split_from sep [] s = [s].
Proof. intros Hs Hn. rewrite split_from_piece by done. by destruct s. Qed.
Lemma split_from_sep sep piece s t : Forall (fun c => c <> sep) s -> split_from sep piece (s ++ [sep] ++ t) = (piece ++ s) :: SplitString t sep.
Proof.
  revert piece. induction s as [|c s IH]; intros piece Hs; cbn; [rewrite decide_True by done; by rewrite app_nil_r|]. apply Forall_cons in Hs as [Hc Hs].
  rewrite decide_False by done. rewrite IH by done. by rewrite <- app_assoc.
Qed.

(** Characters of hexadecimal numbers are neither commas nor signs. *)
Lemma hex_field_chars w v : Forall (fun c => c <> ","%char /\ c <> "-"%char) (hex_field w v).
Proof.
  pose proof (hex_field_digits w v) as E. unfold hex_digits_of in E. apply mapM_Some in E. induction E as [|c d s ds Hc _ IH]; constructor; [|done].
  apply hex_value_not_special in Hc as Hs. split; [|tauto]. intros ->. by vm_compute in Hc.
Qed.
Lemma ConvertStrToInt16_field w v : (0 < w)%nat -> 0 <= v < 16 ^ Z.of_nat w -> v < 2 ^ 31 -> ConvertStrToInt16 (hex_field w v) = Some v.
Proof.
  intros Hw Hv Hi. pose proof (hex_field_digits w v) as E. pose proof (hex_field_chars w v) as C. unfold ConvertStrToInt16.
  destruct (hex_field w v) as [|c t] eqn:Ef.
  { injection E as E. apply (f_equal length) in E. rewrite be_digits_length in E. cbn in E. lia. }
  apply Forall_cons in C as [[_ C] _]. rewrite decide_False by done. rewrite E.
  destruct (be_digits 16 w v) as [|d ds] eqn:Ed; [apply (f_equal length) in Ed; rewrite be_digits_length in Ed; cbn in Ed; lia|].
  rewrite <- Ed, be_value_digits_small by lia. rewrite bool_decide_true; [done|unfold is_i32; lia].
Qed.
(** A configured record and a configured name, as the configuration writes them. *)
Definition opl_text (w : nat) (r : OperatorPlmnInfo) : cstring :=
  plmnNumeric r ++ str "," ++ hex_field w (lacStart r) ++ str "," ++ hex_field w (lacEnd r) ++ str "," ++ hex_field w (pnnRecordId r).
Definition pnn_text (p : PlmnNetworkName) : cstring := longName p ++ str "," ++ shortName p.
Definition opl_ok (w : nat) (r : OperatorPlmnInfo) : Prop :=
  plmnNumeric r <> [] /\ Forall (fun c => c <> ","%char) (plmnNumeric r) /\ Forall (fun v => 0 <= v < 16 ^ Z.of_nat w /\ v < 2 ^ 31) [lacStart r; lacEnd r; pnnRecordId r].
Definition pnn_ok (p : PlmnNetworkName) : Prop := Forall (fun c => c <> ","%char) (longName p) /\ Forall (fun c => c <> ","%char) (shortName p) /\ shortName p <> [].
Lemma hex_field_nonempty w v : (0 < w)%nat -> hex_field w v <> [].
Proof. intros Hw E. pose proof (hex_field_digits w v) as D. rewrite E in D. injection D as D. apply (f_equal length) in D. rewrite be_digits_length in D. cbn in D. lia. Qed.
Lemma opl_cust_text w r : (0 < w)%nat -> opl_ok w r -> OperatorName.opl_cust (opl_text w r) = Some r.
Proof.
  intros Hw (Hne & Hc & Hv). rewrite !Forall_cons in Hv. destruct Hv as (V1 & V2 & V3 & _). unfold OperatorName.opl_cust, opl_text, SplitString.
  assert (C : forall v, Forall (fun c => c <> ","%char) (hex_field w v)) by (intros v; eapply Forall_impl; [apply hex_field_chars|tauto]).
  change (str ",") with [","%char]. cbn [app]. rewrite split_from_sep by done. unfold SplitString. rewrite split_from_sep by done. unfold SplitString. rewrite split_from_sep by done. unfold SplitString.
  rewrite split_from_last by (done || by apply hex_field_nonempty). cbn [app].
  rewrite !(bool_decide_false (_ = [])) by (done || by apply hex_field_nonempty). do 3 (rewrite ConvertStrToInt16_field by lia; cbn -[ConvertStrToInt16]). by destruct r.
Qed.
Lemma pnn_cust_text p : pnn_ok p -> OperatorName.pnn_cust (pnn_text p) = Some p.
Proof.
  intros (C1 & C2 & N). unfold OperatorName.pnn_cust, pnn_text, SplitString. change (str ",") with [","%char]. cbn [app]. rewrite split_from_sep by done. unfold SplitString. rewrite split_from_last by done. cbn [app].
  rewrite bool_decide_true by by right. by destruct p.
Qed.
Lemma omap_all {A B} (f : A -> option B) (g : B -> A) l : Forall (fun b => f (g b) = Some b) l -> omap f (g <$> l) = l.
Proof. induction 1 as [|b l E _ IH]; cbn; [done|]. rewrite E. cbn. by f_equal. Qed.
Lemma opl_loop_find numeric lac i l : OperatorName.opl_loop numeric lac i l =
  match find (OperatorName.opl_matches numeric lac) l with Some r => pnnRecordId r | None => match l with [] => i | _ => -1 end end.
Proof. revert i. induction l as [|r l IH]; intros i; cbn; [done|]. destruct (OperatorName.opl_matches numeric lac r); [done|]. rewrite IH. destruct (find _ l); [done|]. by destruct l. Qed.

(** Names that are configured are found. After the records and names of a configuration have been read, as text, the name of a network in an area is the one, long or short, that the first
    record for it points to; there is none if no record matches or it points nowhere. *)
Theorem configured_name_found w numeric lac roaming long o names records : (0 < w)%nat ->
  OperatorName.enableCust_ o = true -> numeric <> [] -> names <> [] -> records <> [] -> Forall pnn_ok names -> Forall (opl_ok w) records -> zlen names < 2 ^ 31 ->
  OperatorName.GetCustEons numeric lac roaming long (OperatorName.UpdateOplCust (opl_text w <$> records) (OperatorName.UpdatePnnCust (pnn_text <$> names) o)) =
  Ret (match find (OperatorName.opl_matches numeric lac) records with
       | Some r => match (if decide (1 <= pnnRecordId r) then names !! Z.to_nat (pnnRecordId r - 1) else None) with Some p => if (long : bool) then longName p else shortName p | None => [] end
       | None => [] end).
Proof.
  intros Hw He Hn Hna Hr Wn Wr Hl. unfold OperatorName.UpdateOplCust, OperatorName.UpdatePnnCust.
  rewrite (omap_all _ pnn_text names) by (eapply Forall_impl; [exact Wn|apply pnn_cust_text]). rewrite (omap_all _ (opl_text w) records) by (eapply Forall_impl; [exact Wr|intros; by apply opl_cust_text]).
  unfold OperatorName.GetCustEons. destruct o. cbn in *. subst. rewrite !bool_decide_false by done. cbn [negb orb andb]. rewrite opl_loop_find.
  destruct (find _ records) as [r|] eqn:Ef; [|by destruct records].
  rewrite i32_small by (pose proof (zlen_nonneg names); unfold is_i32; lia).
  case_decide as H1; [|by rewrite (proj2 (Z.leb_gt 1 _)) by lia]. rewrite (proj2 (Z.leb_le 1 _)) by lia. cbn [andb].
  assert (is_i32 (pnnRecordId r)) as Ri.
  { apply find_some in Ef as [Ef _]. rewrite Forall_forall in Wr. destruct (Wr r ltac:(by apply list_elem_of_In)) as (_ & _ & Hv). rewrite !Forall_cons in Hv. unfold is_i32. lia. }
  unfold is_i32 in Ri. rewrite u64_small by lia. destruct (Z.leb_spec (pnnRecordId r) (zlen names)) as [L|L].
  - destruct (vec_at_in names (pnnRecordId r - 1)) as (p & E & E'); [lia|]. rewrite E, E'. done.
  - rewrite lookup_ge_None_2; [done|]. unfold zlen in L. lia.
Qed.

(** ** A slot with names *)

Module OperatorNameExample.
Import OperatorName NetworkSearchStateExample.
#[export] Instance strings : StringEx := { Str8ToStr16 := fun s => code <$> s; Str16ToStr8 := fun l => chr <$> l }.
(** The card of an issuer whose name is displayed alone. *)
#[export] Instance sources : NameSources (list notice) := {
  search_manager_alive _ := true;
  notify n l := l ++ [n];
  StartRadioOnState _ l := l;
  TriggerTimezoneRefresh _ l := l;
  CheckIsNeedNotify _ _ := false;
  ProcessNotifyStateChange _ l := l;
  GetCellLocation _ _ := Some (CELL_LOCATION_GSM, 17);
  GetSimOperatorNumeric _ _ := (0, code <$> str "26201");
  GetSimSpn _ _ := code <$> str "Issuer";
  GetSimEons _ _ _ _ _ := [];
  ObtainSpnCondition _ _ _ _ := SPN_CONDITION_DISPLAY_SPN;
  GetEhPlmns _ _ := [];
  GetSpdiPlmns _ _ := [];
  GetOperatorConfigs _ _ := MkConfig [] [] [] [] [] [] [] [];
  GetIMSI _ _ := [];
  IsSatelliteEnabled _ := false;
  GetBoolParameter _ b _ := b;
  spn_formats _ := None;
  out_of_service_name _ := None;
  custom_name _ l := ([], l);
  snprintf_s _ _ arg := Some arg;
  PublishCommonEvent _ l := (true, l);
  isInDelayProcessForOperatorName_ := None;
  updateOperatorNameParamsExt_ := None;
  getVSimSlotId_ := None;
  changeSpnAndRuleExt_ := None;
  publishSpnInfoChangedExt_ := None;
  processOperatorName_ := None
}.
#[export] Instance name_laws : NameLaws (list notice) 0 listen.
Proof. split; try done. intros n v. unfold listen. cbn. by rewrite foldl_app. Qed.
#[export] Instance no_search_ext : SearchExt (named (list notice)) := { updateNetworkStateExt_ := None; processStateChangeExt_ := None }.

(** A slot that is registered in "Network". *)
Definition visited : NetworkState := NetworkState.SetOperatorInfo (str "Network") (str "Net") (str "26202") DOMAIN_TYPE_PS (NetworkState.SetNetworkState REG_STATE_IN_SERVICE DOMAIN_TYPE_PS NetworkState.Init).
Definition there : slot (named (list notice)) :=
  MkSlot (MkSearchState (Some visited) (Some NetworkState.Init) false 0 None false) (str "00") (MkNamed (OperatorName_new true true 0 []) []).
Definition after_update (s : slot (named (list notice))) : slot (named (list notice)) := match NotifySpnChanged (P := list item) true s with Ret (_, s) => s | _ => s end.
Definition names_of (s : slot (named (list notice))) : cstring * cstring := (plmn (curParams_ (name (outside s))), spn (curParams_ (name (outside s)))).
(** Where only the name of the issuer is displayed it becomes the name of the registration; the next update takes it for the name of the network, which is lost. *)
Example network_name_lost : names_of (after_update there) = (str "Network", str "Issuer") /\ names_of (after_update (after_update there)) = (str "Issuer", str "Issuer").
Proof. by vm_compute. Qed.
(** A configured name with nothing after the comma is left out. *)
Example name_without_short_name : pnn_cust (str "Network,") = None /\ pnn_cust (str ",Net") = Some (MkPnn [] (str "Net")).
Proof. by vm_compute. Qed.
End OperatorNameExample.
Import OperatorName OperatorNameExample NetworkSearchStateExample.

Lemma operator_name_refines_witness : SearchLaws (named (list notice)) 0 (fun w => listen (beyond w)) (SearchManager0 := name_manager (P := list item)).
Proof. apply (operator_name_refines (P := list item) 0 listen); by intros. Defined.
Definition two_areas : list OperatorPlmnInfo := [MkOpl (str "26202") 0x10 0x20 2; MkOpl (str "26202") 0 0xfffe 1].
Lemma configured_name_found_witness :
  GetCustEons (str "26202") 17 true false (UpdateOplCust (opl_text 4 <$> two_areas) (UpdatePnnCust (pnn_text <$> [MkPnn (str "Network") (str "Net"); MkPnn (str "City") (str "C")]) (set_enableCust_ true (OperatorName_new true true 0 [])))) =
  Ret (str "C").
Proof.
  rewrite (configured_name_found 4); [reflexivity|lia|reflexivity|discriminate..| | |reflexivity].
  - repeat constructor; discriminate.
  - repeat constructor; (discriminate || lia).
Defined.
