(* ===== verification/CoreServiceProxy.v ===== *)
(** * [frameworks/native/src/core_service_proxy.cpp]: the client side of the core service

    Every method writes its arguments to a parcel, sends the request with its code and reads the answer. Methods with output
    arguments take their initial values and return them with the result, changed or not. [SendRequest], [Remote] and
    [GetParameter] are the IPC library and the parameter service of the operating system. The lock around some requests is not modelled. *)

From S2P Require Import Prelude CxxString Parcel Parcelables OperatorConfig CellInformation NetworkState SignalInformation SignalInfo CoreServiceApi.
Open Scope Z_scope.
Open Scope ipc_scope.

(** [SendRequest code async data w]: the error code, the reply, and the state of the rest of the system after the request. *)
Class ClientSystem (P W : Type) : Type := {
  SendRequest_ : Z -> bool -> P -> W -> Z * P * W;
  Remote : bool;
  GetParameter : cstring -> cstring -> cstring
}.

Definition DEFAULT_SIM_SLOT_ID : Z := 0.
Definition DEFAULT_SIM_SLOT_ID_REMOVE : Z := -1.
Definition MAX_VECTOR : Z := 500.
Definition MAX_NUMBERS_SIZE : Z := 2000.
Definition MIN_STRING_LE : Z := 0.
Definition MAX_STRING_LE : Z := 36.
Definition DISABLE : Z := 0.
Definition ENABLE : Z := 1.
Definition TYPE_VOICE : Z := 0.
Definition TYPE_SMS : Z := 3.
Definition DISTRIBUTEMODEM_MULTIDEVICE_ENABLE : cstring := str "persist.distributedmodem.multidevice.enable".
Definition DISTRIBUTEMODEM_MULTIDEVICE_ENABLE_DEFAULT : cstring := str "false".
Definition ENABLE_TRUE : cstring := str "true".

Module CoreServiceProxy.
Section Proxy.
Context {P W : Type} `{ParcelOps P} `{ErrorCodes} `{StringEx} `{!ClientSystem P W}.

Definition SendRequest (code : Z) (async : bool) : M P W Z :=
  fun s => let '(st, p, w) := SendRequest_ code async (data s) (world s) in Ret (st, MkIpc (data s) p w).
Notation "'request' c 'or' st '=>' r ';;' k" := (mbind (fun st => if st =? ERR_NONE then k else mret r) (SendRequest c false)) (at level 10, c at level 99, st name, r at level 99, k at level 200).
Notation "'request_async' c 'or' st '=>' r ';;' k" := (mbind (fun st => if st =? ERR_NONE then k else mret r) (SendRequest c true)) (at level 10, c at level 99, st name, r at level 99, k at level 200).

Definition WriteInterfaceToken : M P W bool := write_data (Parcel.WriteInterfaceToken Descriptor).

(** ** Checks before a request *)

Definition GetMaxSimCountExt : M P W Z :=
  with_parcels (
    ensure WriteInterfaceToken or TELEPHONY_ERROR ;;
    require Remote or TELEPHONY_ERROR ;;
    request GET_MAX_SIM_COUNT or st => TELEPHONY_ERROR ;;
    read_reply ReadInt32 0).
Definition GetRealSimCount : M P W Z :=
  with_parcels (
    ensure WriteInterfaceToken or TELEPHONY_ERR_WRITE_DESCRIPTOR_TOKEN_FAIL ;;
    require Remote or TELEPHONY_ERR_IPC_CONNECT_STUB_FAIL ;;
    request GET_REAL_SIM_COUNT or st => TELEPHONY_ERR_IPC_CONNECT_STUB_FAIL ;;
    read_reply ReadInt32 0).
Definition GetMaxSimCount : M P W Z := GetRealSimCount.
Definition GetDistributeModemMultiDeviceSwitch : bool :=
  bool_decide (GetParameter DISTRIBUTEMODEM_MULTIDEVICE_ENABLE DISTRIBUTEMODEM_MULTIDEVICE_ENABLE_DEFAULT = ENABLE_TRUE).
Definition GetCurMaxSimCount : M P W Z :=
  count ← GetMaxSimCount;
  if GetDistributeModemMultiDeviceSwitch then ret ← GetMaxSimCountExt; mret (if negb (ret =? TELEPHONY_ERROR) then ret else count) else mret count.
Definition IsValidSlotId (slotId : Z) : M P W bool :=
  count ← GetCurMaxSimCount; mret ((DEFAULT_SIM_SLOT_ID <=? slotId) && (slotId <? count)).
Definition IsValidSlotIdEx (slotId : Z) : M P W bool :=
  count ← GetCurMaxSimCount; mret ((DEFAULT_SIM_SLOT_ID <=? slotId) && (slotId <? count + 1)).
Definition IsValidSlotIdForDefault (slotId : Z) : M P W bool :=
  count ← GetCurMaxSimCount; mret ((DEFAULT_SIM_SLOT_ID_REMOVE <=? slotId) && (slotId <? count)).
Definition IsValidStringLength (s : u16string) : bool := (MIN_STRING_LE <=? zlen s) && (zlen s <=? MAX_STRING_LE).
Definition IsValidServiceType (serviceType : Z) : bool := negb ((serviceType <? TYPE_VOICE) || (serviceType >? TYPE_SMS)).

(** ** Requests *)

Definition GetPsRadioTech (slotId psRadioTech : Z) : M P W (Z * Z) :=
  with_parcels (
    ensure WriteInterfaceToken or (TELEPHONY_ERR_WRITE_DESCRIPTOR_TOKEN_FAIL, psRadioTech) ;;
    write_data (WriteInt32 slotId) ;;
    require Remote or (TELEPHONY_ERR_IPC_CONNECT_STUB_FAIL, psRadioTech) ;;
    request GET_PS_RADIO_TECH or st => (TELEPHONY_ERR_IPC_CONNECT_STUB_FAIL, psRadioTech) ;;
    result ← read_reply ReadInt32 0;
    psRadioTech ← (if result =? TELEPHONY_ERR_SUCCESS then read_reply ReadInt32 0 else mret psRadioTech);
    mret (result, psRadioTech)).
Definition GetCsRadioTech (slotId csRadioTech : Z) : M P W (Z * Z) :=
  with_parcels (
    ensure WriteInterfaceToken or (TELEPHONY_ERR_WRITE_DESCRIPTOR_TOKEN_FAIL, csRadioTech) ;;
    write_data (WriteInt32 slotId) ;;
    require Remote or (TELEPHONY_ERR_IPC_CONNECT_STUB_FAIL, csRadioTech) ;;
    request GET_CS_RADIO_TECH or st => (TELEPHONY_ERR_IPC_CONNECT_STUB_FAIL, csRadioTech) ;;
    result ← read_reply ReadInt32 0;
    csRadioTech ← (if result =? TELEPHONY_ERR_SUCCESS then read_reply ReadInt32 0 else mret csRadioTech);
    mret (result, csRadioTech)).
Definition GetOperatorNumeric (slotId : Z) : M P W u16string :=
  with_parcels (
    ensure WriteInterfaceToken or [] ;;
    write_data (WriteInt32 slotId) ;;
    require Remote or [] ;;
    request GET_OPERATOR_NUMERIC or st => [] ;;
    result ← read_reply ReadString16 [];
    mret result).
Definition GetResidentNetworkNumeric (slotId : Z) : M P W cstring :=
  with_parcels (
    ensure WriteInterfaceToken or [] ;;
    write_data (WriteInt32 slotId) ;;
    require Remote or [] ;;
    request GET_RESIDENT_NETWORK_NUMERIC or st => [] ;;
    result ← read_reply ReadString [];
    mret result).
Definition GetOperatorName (slotId : Z) (operatorName : u16string) : M P W (Z * u16string) :=
  with_parcels (
    ensure WriteInterfaceToken or (TELEPHONY_ERR_WRITE_DESCRIPTOR_TOKEN_FAIL, operatorName) ;;
    write_data (WriteInt32 slotId) ;;
    require Remote or (TELEPHONY_ERR_IPC_CONNECT_STUB_FAIL, operatorName) ;;
    request GET_OPERATOR_NAME or st => (TELEPHONY_ERR_IPC_CONNECT_STUB_FAIL, operatorName) ;;
    result ← read_reply ReadInt32 0;
    operatorName ← (if result =? TELEPHONY_ERR_SUCCESS then read_reply ReadString16 [] else mret operatorName);
    mret (result, operatorName)).
Definition GetBasebandVersion (slotId : Z) (version : cstring) : M P W (Z * cstring) :=
  with_parcels (
    ensure WriteInterfaceToken or (TELEPHONY_ERR_WRITE_DESCRIPTOR_TOKEN_FAIL, version) ;;
    write_data (WriteInt32 slotId) ;;
    require Remote or (TELEPHONY_ERR_IPC_CONNECT_STUB_FAIL, version) ;;
    request GET_BASEBAND_VERSION or st => (TELEPHONY_ERR_IPC_CONNECT_STUB_FAIL, version) ;;
    result ← read_reply ReadInt32 0;
    version ← (if result =? TELEPHONY_ERR_SUCCESS then read_reply ReadString [] else mret version);
    mret (result, version)).
Definition GetNetworkSearchInformation (slotId : Z) (callback : option remote) : M P W Z :=
  with_parcels (
    ensure WriteInterfaceToken or TELEPHONY_ERR_WRITE_DESCRIPTOR_TOKEN_FAIL ;;
    ensure write_data (WriteInt32 slotId) or TELEPHONY_ERR_WRITE_REPLY_FAIL ;;
    if_nonnull callback (fun callback => write_data (WriteRemoteObject callback)) ;;
    require Remote or TELEPHONY_ERR_IPC_CONNECT_STUB_FAIL ;;
    request GET_NETWORK_SEARCH_RESULT or st => TELEPHONY_ERR_IPC_CONNECT_STUB_FAIL ;;
    read_reply ReadInt32 0).
(** [X::Unmarshalling(reply)] *)
Definition reply_unmarshal {A} (u : P -> option A * P) : M P W (option A) :=
  fun s => let '(v, p) := u (reply s) in Ret (v, MkIpc (data s) p (world s)).
Definition GetNetworkState (slotId : Z) (networkState : option NetworkState) : M P W (Z * option NetworkState) :=
  with_parcels (
    ensure WriteInterfaceToken or (TELEPHONY_ERR_WRITE_DESCRIPTOR_TOKEN_FAIL, networkState) ;;
    write_data (WriteInt32 slotId) ;;
    require Remote or (TELEPHONY_ERR_IPC_CONNECT_STUB_FAIL, networkState) ;;
    request GET_NETWORK_STATE or st => (TELEPHONY_ERR_IPC_CONNECT_STUB_FAIL, networkState) ;;
    result ← read_reply ReadInt32 0;
    networkState ← (if result =? TELEPHONY_ERR_SUCCESS then reply_unmarshal NetworkState.Unmarshalling else mret networkState);
    mret (result, networkState)).
(** [ProcessSignalInfo(reply, signals)] of SignalInfo.v; [g] are the global variables of signal_information.cpp in the client's process, whose changes are left
    out here. *)
Definition process_signal_info (g : SignalGlobals) (signals : list SignalInformation) : M P W (list SignalInformation) :=
  fun s => let '(signals, _, p) := ProcessSignalInfo g (reply s) signals in Ret (signals, MkIpc (data s) p (world s)).
Definition GetSignalInfoList (g : SignalGlobals) (slotId : Z) (signals : list SignalInformation) : M P W (Z * list SignalInformation) :=
  with_parcels (
    ensure WriteInterfaceToken or (TELEPHONY_ERR_WRITE_DESCRIPTOR_TOKEN_FAIL, signals) ;;
    write_data (WriteInt32 slotId) ;;
    require Remote or (TELEPHONY_ERR_IPC_CONNECT_STUB_FAIL, signals) ;;
    request GET_SIGNAL_INFO_LIST or st => (TELEPHONY_ERR_IPC_CONNECT_STUB_FAIL, signals) ;;
    result ← read_reply ReadInt32 0;
    signals ← (if result =? TELEPHONY_ERR_SUCCESS then process_signal_info g signals else mret signals);
    mret (result, signals)).
Definition SetRadioState (slotId : Z) (isOn : bool) (callback : option remote) : M P W Z :=
  with_parcels (
    ensure WriteInterfaceToken or TELEPHONY_ERR_WRITE_DESCRIPTOR_TOKEN_FAIL ;;
    write_data (WriteInt32 slotId) ;;
    if_nonnull callback (fun callback => write_data (WriteRemoteObject callback)) ;;
    write_data (WriteBool isOn) ;;
    require Remote or TELEPHONY_ERR_IPC_CONNECT_STUB_FAIL ;;
    request SET_RADIO_STATE or st => TELEPHONY_ERR_IPC_CONNECT_STUB_FAIL ;;
    read_reply ReadInt32 0).
Definition GetRadioState (slotId : Z) (callback : option remote) : M P W Z :=
  with_parcels (
    ensure WriteInterfaceToken or TELEPHONY_ERR_WRITE_DESCRIPTOR_TOKEN_FAIL ;;
    write_data (WriteInt32 slotId) ;;
    if_nonnull callback (fun callback => write_data (WriteRemoteObject callback)) ;;
    require Remote or TELEPHONY_ERR_IPC_CONNECT_STUB_FAIL ;;
    request GET_RADIO_STATE or st => TELEPHONY_ERR_IPC_CONNECT_STUB_FAIL ;;
    read_reply ReadInt32 0).
Definition GetIsoCountryCodeForNetwork (slotId : Z) (countryCode : u16string) : M P W (Z * u16string) :=
  with_parcels (
    ensure WriteInterfaceToken or (TELEPHONY_ERR_WRITE_DATA_FAIL, countryCode) ;;
    write_data (WriteInt32 slotId) ;;
    require Remote or (TELEPHONY_ERR_IPC_CONNECT_STUB_FAIL, countryCode) ;;
    request GET_ISO_COUNTRY_CODE_FOR_NETWORK or st => (TELEPHONY_ERR_IPC_CONNECT_STUB_FAIL, countryCode) ;;
    result ← read_reply ReadInt32 0;
    countryCode ← (if result =? TELEPHONY_ERR_SUCCESS then read_reply ReadString16 [] else mret countryCode);
    mret (result, countryCode)).
Definition GetImei (slotId : Z) (callback : option remote) : M P W Z :=
  with_parcels (
    ensure WriteInterfaceToken or TELEPHONY_ERR_WRITE_DESCRIPTOR_TOKEN_FAIL ;;
    write_data (WriteInt32 slotId) ;;
    nonnull callback := callback or TELEPHONY_ERR_IPC_CONNECT_STUB_FAIL ;;
    write_data (WriteRemoteObject callback) ;;
    require Remote or TELEPHONY_ERR_IPC_CONNECT_STUB_FAIL ;;
    request GET_IMEI or st => TELEPHONY_ERR_IPC_CONNECT_STUB_FAIL ;;
    read_reply ReadInt32 0).
Definition GetImeiSv (slotId : Z) (callback : option remote) : M P W Z :=
  with_parcels (
    ensure WriteInterfaceToken or TELEPHONY_ERR_WRITE_DESCRIPTOR_TOKEN_FAIL ;;
    write_data (WriteInt32 slotId) ;;
    nonnull callback := callback or TELEPHONY_ERR_IPC_CONNECT_STUB_FAIL ;;
    write_data (WriteRemoteObject callback) ;;
    require Remote or TELEPHONY_ERR_IPC_CONNECT_STUB_FAIL ;;
    request GET_IMEISV or st => TELEPHONY_ERR_IPC_CONNECT_STUB_FAIL ;;
    read_reply ReadInt32 0).
Definition GetMeid (slotId : Z) (meid : u16string) : M P W (Z * u16string) :=
  with_parcels (
    ensure WriteInterfaceToken or (TELEPHONY_ERR_WRITE_DESCRIPTOR_TOKEN_FAIL, meid) ;;
    write_data (WriteInt32 slotId) ;;
    require Remote or (TELEPHONY_ERR_IPC_CONNECT_STUB_FAIL, meid) ;;
    request GET_MEID or st => (TELEPHONY_ERR_IPC_CONNECT_STUB_FAIL, meid) ;;
    result ← read_reply ReadInt32 0;
    meid ← (if result =? TELEPHONY_ERR_SUCCESS then read_reply ReadString16 [] else mret meid);
    mret (result, meid)).
Definition GetUniqueDeviceId (slotId : Z) (deviceId : u16string) : M P W (Z * u16string) :=
  with_parcels (
    ensure WriteInterfaceToken or (TELEPHONY_ERR_WRITE_DESCRIPTOR_TOKEN_FAIL, deviceId) ;;
    write_data (WriteInt32 slotId) ;;
    require Remote or (TELEPHONY_ERR_IPC_CONNECT_STUB_FAIL, deviceId) ;;
    request GET_UNIQUE_DEVICE_ID or st => (TELEPHONY_ERR_IPC_CONNECT_STUB_FAIL, deviceId) ;;
    result ← read_reply ReadInt32 0;
    deviceId ← (if result =? TELEPHONY_ERR_SUCCESS then read_reply ReadString16 [] else mret deviceId);
    mret (result, deviceId)).
Definition HasSimCard (slotId : Z) (callback : option remote) : M P W Z :=
  with_parcels (
    ensure WriteInterfaceToken or TELEPHONY_ERR_WRITE_DESCRIPTOR_TOKEN_FAIL ;;
    write_data (WriteInt32 slotId) ;;
    nonnull callback := callback or TELEPHONY_ERR_IPC_CONNECT_STUB_FAIL ;;
    write_data (WriteRemoteObject callback) ;;
    require Remote or TELEPHONY_ERR_IPC_CONNECT_STUB_FAIL ;;
    request HAS_SIM_CARD or st => TELEPHONY_ERR_IPC_CONNECT_STUB_FAIL ;;
    read_reply ReadInt32 0).
Definition GetSimState (slotId : Z) (callback : option remote) : M P W Z :=
  with_parcels (
    ensure IsValidSlotId slotId or TELEPHONY_ERR_SLOTID_INVALID ;;
    ensure WriteInterfaceToken or TELEPHONY_ERR_WRITE_DESCRIPTOR_TOKEN_FAIL ;;
    write_data (WriteInt32 slotId) ;;
    nonnull callback := callback or TELEPHONY_ERR_IPC_CONNECT_STUB_FAIL ;;
    write_data (WriteRemoteObject callback) ;;
    require Remote or TELEPHONY_ERR_IPC_CONNECT_STUB_FAIL ;;
    request GET_SIM_STATE or st => TELEPHONY_ERR_IPC_CONNECT_STUB_FAIL ;;
    read_reply ReadInt32 0).
Definition GetDsdsMode (dsdsMode : Z) : M P W (Z * Z) :=
  with_parcels (
    ensure WriteInterfaceToken or (TELEPHONY_ERR_WRITE_DESCRIPTOR_TOKEN_FAIL, dsdsMode) ;;
    require Remote or (TELEPHONY_ERR_IPC_CONNECT_STUB_FAIL, dsdsMode) ;;
    request GET_DSDS_MODE or st => (TELEPHONY_ERR_IPC_CONNECT_STUB_FAIL, dsdsMode) ;;
    result ← read_reply ReadInt32 0;
    dsdsMode ← (if result =? TELEPHONY_ERR_SUCCESS then read_reply ReadInt32 0 else mret dsdsMode);
    mret (result, dsdsMode)).
Definition GetCardType (slotId cardType : Z) : M P W (Z * Z) :=
  with_parcels (
    ensure WriteInterfaceToken or (TELEPHONY_ERR_WRITE_DESCRIPTOR_TOKEN_FAIL, cardType) ;;
    write_data (WriteInt32 slotId) ;;
    require Remote or (TELEPHONY_ERR_IPC_CONNECT_STUB_FAIL, cardType) ;;
    request GET_CARD_TYPE or st => (TELEPHONY_ERR_IPC_CONNECT_STUB_FAIL, cardType) ;;
    result ← read_reply ReadInt32 0;
    cardType ← (if result =? TELEPHONY_ERR_SUCCESS then read_reply ReadInt32 0 else mret cardType);
    mret (result, cardType)).
Definition GetISOCountryCodeForSim (slotId : Z) (countryCode : u16string) : M P W (Z * u16string) :=
  with_parcels (
    ensure IsValidSlotId slotId or (TELEPHONY_ERR_SLOTID_INVALID, countryCode) ;;
    ensure WriteInterfaceToken or (TELEPHONY_ERR_WRITE_DESCRIPTOR_TOKEN_FAIL, countryCode) ;;
    write_data (WriteInt32 slotId) ;;
    require Remote or (TELEPHONY_ERR_IPC_CONNECT_STUB_FAIL, countryCode) ;;
    request GET_ISO_COUNTRY_CODE or st => (TELEPHONY_ERR_IPC_CONNECT_STUB_FAIL, countryCode) ;;
    result ← read_reply ReadInt32 0;
    countryCode ← (if result =? TELEPHONY_ERR_SUCCESS then read_reply ReadString16 [] else mret countryCode);
    mret (result, countryCode)).
Definition GetSimOperatorNumeric (slotId : Z) (operatorNumeric : u16string) : M P W (Z * u16string) :=
  with_parcels (
    ensure IsValidSlotIdEx slotId or (TELEPHONY_ERR_SLOTID_INVALID, operatorNumeric) ;;
    ensure WriteInterfaceToken or (TELEPHONY_ERR_WRITE_DESCRIPTOR_TOKEN_FAIL, operatorNumeric) ;;
    write_data (WriteInt32 slotId) ;;
    require Remote or (TELEPHONY_ERR_IPC_CONNECT_STUB_FAIL, operatorNumeric) ;;
    request GET_SIM_OPERATOR_NUMERIC or st => (TELEPHONY_ERR_IPC_CONNECT_STUB_FAIL, operatorNumeric) ;;
    result ← read_reply ReadInt32 0;
    operatorNumeric ← (if result =? TELEPHONY_ERR_SUCCESS then read_reply ReadString16 [] else mret operatorNumeric);
    mret (result, operatorNumeric)).
Definition GetSimSpn (slotId : Z) (spn : u16string) : M P W (Z * u16string) :=
  with_parcels (
    ensure IsValidSlotId slotId or (TELEPHONY_ERR_SLOTID_INVALID, spn) ;;
    ensure WriteInterfaceToken or (TELEPHONY_ERR_WRITE_DESCRIPTOR_TOKEN_FAIL, spn) ;;
    write_data (WriteInt32 slotId) ;;
    require Remote or (TELEPHONY_ERR_IPC_CONNECT_STUB_FAIL, spn) ;;
    request GET_SPN or st => (TELEPHONY_ERR_IPC_CONNECT_STUB_FAIL, spn) ;;
    result ← read_reply ReadInt32 0;
    spn ← (if result =? TELEPHONY_ERR_SUCCESS then read_reply ReadString16 [] else mret spn);
    mret (result, spn)).
Definition GetSimIccId (slotId : Z) (iccId : u16string) : M P W (Z * u16string) :=
  with_parcels (
    ensure IsValidSlotId slotId or (TELEPHONY_ERR_SLOTID_INVALID, iccId) ;;
    ensure WriteInterfaceToken or (TELEPHONY_ERR_WRITE_DESCRIPTOR_TOKEN_FAIL, iccId) ;;
    write_data (WriteInt32 slotId) ;;
    require Remote or (TELEPHONY_ERR_IPC_CONNECT_STUB_FAIL, iccId) ;;
    request GET_ICCID or st => (TELEPHONY_ERR_IPC_CONNECT_STUB_FAIL, iccId) ;;
    result ← read_reply ReadInt32 0;
    iccId ← (if result =? TELEPHONY_ERR_SUCCESS then read_reply ReadString16 [] else mret iccId);
    mret (result, iccId)).
Definition GetIMSI (slotId : Z) (imsi : u16string) : M P W (Z * u16string) :=
  with_parcels (
    ensure IsValidSlotId slotId or (TELEPHONY_ERR_SLOTID_INVALID, imsi) ;;
    ensure WriteInterfaceToken or (TELEPHONY_ERR_WRITE_DESCRIPTOR_TOKEN_FAIL, imsi) ;;
    write_data (WriteInt32 slotId) ;;
    require Remote or (TELEPHONY_ERR_IPC_CONNECT_STUB_FAIL, imsi) ;;
    request GET_IMSI or st => (TELEPHONY_ERR_IPC_CONNECT_STUB_FAIL, imsi) ;;
    result ← read_reply ReadInt32 0;
    imsi ← (if result =? TELEPHONY_ERR_SUCCESS then read_reply ReadString16 [] else mret imsi);
    mret (result, imsi)).
Definition IsCTSimCard (slotId : Z) (callback : option remote) : M P W Z :=
  with_parcels (
    ensure IsValidSlotId slotId or TELEPHONY_ERR_SLOTID_INVALID ;;
    ensure WriteInterfaceToken or TELEPHONY_ERR_WRITE_DESCRIPTOR_TOKEN_FAIL ;;
    write_data (WriteInt32 slotId) ;;
    nonnull callback := callback or TELEPHONY_ERR_IPC_CONNECT_STUB_FAIL ;;
    write_data (WriteRemoteObject callback) ;;
    require Remote or TELEPHONY_ERR_IPC_CONNECT_STUB_FAIL ;;
    request IS_CT_SIM_CARD or st => TELEPHONY_ERR_IPC_CONNECT_STUB_FAIL ;;
    read_reply ReadInt32 0).
Definition IsSimActive (slotId : Z) (callback : option remote) : M P W bool :=
  with_parcels (
    ensure IsValidSlotId slotId or false ;;
    ensure WriteInterfaceToken or false ;;
    write_data (WriteInt32 slotId) ;;
    nonnull callback := callback or false ;;
    write_data (WriteRemoteObject callback) ;;
    require Remote or false ;;
    request IS_SIM_ACTIVE or st => false ;;
    read_reply ReadBool false).
Definition GetSlotId (simId : Z) : M P W Z :=
  with_parcels (
    require negb (simId <=? 0) or ERROR ;;
    ensure WriteInterfaceToken or ERROR ;;
    write_data (WriteInt32 simId) ;;
    require Remote or ERROR ;;
    request GET_SIM_SLOTID or st => ERROR ;;
    read_reply ReadInt32 0).
Definition GetSimId (slotId : Z) : M P W Z :=
  with_parcels (
    ensure IsValidSlotId slotId or ERROR ;;
    ensure WriteInterfaceToken or ERROR ;;
    write_data (WriteInt32 slotId) ;;
    require Remote or ERROR ;;
    request GET_SIM_SIMID or st => ERROR ;;
    read_reply ReadInt32 0).
Definition GetNetworkSelectionMode (slotId : Z) (callback : option remote) : M P W Z :=
  with_parcels (
    ensure WriteInterfaceToken or TELEPHONY_ERR_WRITE_DESCRIPTOR_TOKEN_FAIL ;;
    ensure write_data (WriteInt32 slotId) or TELEPHONY_ERR_WRITE_DATA_FAIL ;;
    if_nonnull callback (fun callback => write_data (WriteRemoteObject callback)) ;;
    require Remote or TELEPHONY_ERR_IPC_CONNECT_STUB_FAIL ;;
    request GET_NETWORK_SELECTION_MODE or st => TELEPHONY_ERR_IPC_CONNECT_STUB_FAIL ;;
    read_reply ReadInt32 0).
Definition SetNetworkSelectionMode (slotId selectMode : Z) (networkInformation : option NetworkInformation) (resumeSelection : bool) (callback : option remote) : M P W Z :=
  with_parcels (
    ensure WriteInterfaceToken or TELEPHONY_ERR_WRITE_DESCRIPTOR_TOKEN_FAIL ;;
    ensure write_data (WriteInt32 slotId) or TELEPHONY_ERR_WRITE_REPLY_FAIL ;;
    ensure write_data (WriteInt32 selectMode) or TELEPHONY_ERR_WRITE_REPLY_FAIL ;;
    ensure write_data (WriteBool resumeSelection) or TELEPHONY_ERR_WRITE_REPLY_FAIL ;;
    if_nonnull callback (fun callback => write_data (WriteRemoteObject callback)) ;;
    if_nonnull networkInformation (fun networkInformation => write_data (NetworkInformation_Marshalling networkInformation)) ;;
    require Remote or TELEPHONY_ERR_WRITE_REPLY_FAIL ;;
    request SET_NETWORK_SELECTION_MODE or st => TELEPHONY_ERR_WRITE_REPLY_FAIL ;;
    read_reply ReadInt32 0).
Definition GetLocaleFromDefaultSim : M P W u16string :=
  with_parcels (
    ensure WriteInterfaceToken or [] ;;
    write_data (WriteInt32 DEFAULT_SIM_SLOT_ID) ;;
    require Remote or [] ;;
    request GET_SIM_LANGUAGE or st => [] ;;
    result ← read_reply ReadString16 [];
    mret result).
Definition GetSimGid1 (slotId : Z) (gid1 : u16string) : M P W (Z * u16string) :=
  with_parcels (
    ensure IsValidSlotId slotId or (TELEPHONY_ERR_SLOTID_INVALID, gid1) ;;
    ensure WriteInterfaceToken or (TELEPHONY_ERR_WRITE_DESCRIPTOR_TOKEN_FAIL, gid1) ;;
    write_data (WriteInt32 slotId) ;;
    require Remote or (TELEPHONY_ERR_IPC_CONNECT_STUB_FAIL, gid1) ;;
    request GET_SIM_GID1 or st => (TELEPHONY_ERR_IPC_CONNECT_STUB_FAIL, gid1) ;;
    result ← read_reply ReadInt32 0;
    gid1 ← (if result =? TELEPHONY_ERR_SUCCESS then read_reply ReadString16 [] else mret gid1);
    mret (result, gid1)).
Definition GetSimGid2 (slotId : Z) : M P W u16string :=
  with_parcels (
    ensure IsValidSlotId slotId or [] ;;
    ensure WriteInterfaceToken or [] ;;
    write_data (WriteInt32 slotId) ;;
    require Remote or [] ;;
    request GET_SIM_GID2 or st => [] ;;
    result ← read_reply ReadString16 [];
    mret result).
Definition GetSimEons (slotId : Z) (plmn : cstring) (lac : Z) (longNameRequired : bool) : M P W u16string :=
  with_parcels (
    ensure IsValidSlotId slotId or [] ;;
    ensure WriteInterfaceToken or [] ;;
    write_data (WriteInt32 slotId) ;;
    write_data (WriteString plmn) ;;
    write_data (WriteInt32 lac) ;;
    write_data (WriteBool longNameRequired) ;;
    require Remote or [] ;;
    request GET_SIM_EONS or st => [] ;;
    read_reply ReadString16 []).
Definition GetSimAccountInfo (slotId : Z) (info : IccAccountInfo) : M P W (Z * IccAccountInfo) :=
  with_parcels (
    ensure IsValidSlotIdEx slotId or (TELEPHONY_ERR_SLOTID_INVALID, info) ;;
    ensure WriteInterfaceToken or (TELEPHONY_ERR_WRITE_DESCRIPTOR_TOKEN_FAIL, info) ;;
    write_data (WriteInt32 slotId) ;;
    require Remote or (TELEPHONY_ERR_IPC_CONNECT_STUB_FAIL, info) ;;
    request GET_SIM_SUB_INFO or st => (TELEPHONY_ERR_IPC_CONNECT_STUB_FAIL, info) ;;
    result ← read_reply ReadInt32 0;
    '(_, info) ← (if result =? TELEPHONY_ERR_SUCCESS then read_object IccAccountInfo_ReadFromParcel info else mret (true, info));
    mret (result, info)).
Definition SetDefaultVoiceSlotId (slotId : Z) : M P W Z :=
  with_parcels (
    ensure IsValidSlotIdForDefault slotId or TELEPHONY_ERR_SLOTID_INVALID ;;
    ensure WriteInterfaceToken or TELEPHONY_ERR_WRITE_DESCRIPTOR_TOKEN_FAIL ;;
    write_data (WriteInt32 slotId) ;;
    require Remote or TELEPHONY_ERR_IPC_CONNECT_STUB_FAIL ;;
    request SET_DEFAULT_VOICE_SLOTID or st => TELEPHONY_ERR_IPC_CONNECT_STUB_FAIL ;;
    read_reply ReadInt32 0).
Definition GetDefaultVoiceSlotId : M P W Z :=
  with_parcels (
    ensure WriteInterfaceToken or ERROR ;;
    require Remote or ERROR ;;
    request GET_DEFAULT_VOICE_SLOTID or st => ERROR ;;
    result ← read_reply ReadInt32 0;
    mret result).
Definition GetDefaultVoiceSimId (callback : option remote) : M P W Z :=
  with_parcels (
    ensure WriteInterfaceToken or TELEPHONY_ERR_WRITE_DESCRIPTOR_TOKEN_FAIL ;;
    nonnull callback := callback or TELEPHONY_ERR_IPC_CONNECT_STUB_FAIL ;;
    write_data (WriteRemoteObject callback) ;;
    require Remote or TELEPHONY_ERR_IPC_CONNECT_STUB_FAIL ;;
    request GET_DEFAULT_VOICE_SIMID or st => TELEPHONY_ERR_IPC_CONNECT_STUB_FAIL ;;
    read_reply ReadInt32 0).
Definition SetPrimarySlotId (slotId : Z) : M P W Z :=
  with_parcels (
    ensure IsValidSlotId slotId or TELEPHONY_ERR_SLOTID_INVALID ;;
    ensure WriteInterfaceToken or TELEPHONY_ERR_WRITE_DESCRIPTOR_TOKEN_FAIL ;;
    write_data (WriteInt32 slotId) ;;
    require Remote or TELEPHONY_ERR_IPC_CONNECT_STUB_FAIL ;;
    request SET_PRIMARY_SLOTID or st => TELEPHONY_ERR_IPC_CONNECT_STUB_FAIL ;;
    read_reply ReadInt32 0).
Definition GetPrimarySlotId (slotId : Z) : M P W (Z * Z) :=
  with_parcels (
    ensure WriteInterfaceToken or (TELEPHONY_ERR_WRITE_DESCRIPTOR_TOKEN_FAIL, slotId) ;;
    require Remote or (TELEPHONY_ERR_IPC_CONNECT_STUB_FAIL, slotId) ;;
    request GET_PRIMARY_SLOTID or st => (TELEPHONY_ERR_IPC_CONNECT_STUB_FAIL, slotId) ;;
    result ← read_reply ReadInt32 0;
    slotId ← (if result =? TELEPHONY_ERR_SUCCESS then read_reply ReadInt32 0 else mret slotId);
    mret (result, slotId)).
Definition SetShowNumber (slotId : Z) (number : u16string) (callback : option remote) : M P W Z :=
  with_parcels (
    ensure IsValidSlotId slotId or TELEPHONY_ERR_SLOTID_INVALID ;;
    require IsValidStringLength number or TELEPHONY_ERR_ARGUMENT_INVALID ;;
    ensure WriteInterfaceToken or TELEPHONY_ERR_WRITE_DESCRIPTOR_TOKEN_FAIL ;;
    write_data (WriteInt32 slotId) ;;
    write_data (WriteString16 number) ;;
    nonnull callback := callback or TELEPHONY_ERR_IPC_CONNECT_STUB_FAIL ;;
    write_data (WriteRemoteObject callback) ;;
    require Remote or TELEPHONY_ERR_IPC_CONNECT_STUB_FAIL ;;
    request SET_SHOW_NUMBER or st => TELEPHONY_ERR_IPC_CONNECT_STUB_FAIL ;;
    read_reply ReadInt32 0).
Definition GetShowNumber (slotId : Z) (callback : option remote) : M P W Z :=
  with_parcels (
    ensure IsValidSlotId slotId or TELEPHONY_ERR_SLOTID_INVALID ;;
    ensure WriteInterfaceToken or TELEPHONY_ERR_WRITE_DESCRIPTOR_TOKEN_FAIL ;;
    write_data (WriteInt32 slotId) ;;
    nonnull callback := callback or TELEPHONY_ERR_IPC_CONNECT_STUB_FAIL ;;
    write_data (WriteRemoteObject callback) ;;
    require Remote or TELEPHONY_ERR_IPC_CONNECT_STUB_FAIL ;;
    request GET_SHOW_NUMBER or st => TELEPHONY_ERR_IPC_CONNECT_STUB_FAIL ;;
    read_reply ReadInt32 0).
Definition SetShowName (slotId : Z) (name : u16string) (callback : option remote) : M P W Z :=
  with_parcels (
    ensure IsValidSlotId slotId or TELEPHONY_ERR_SLOTID_INVALID ;;
    require IsValidStringLength name or TELEPHONY_ERR_ARGUMENT_INVALID ;;
    ensure WriteInterfaceToken or TELEPHONY_ERR_WRITE_DESCRIPTOR_TOKEN_FAIL ;;
    write_data (WriteInt32 slotId) ;;
    write_data (WriteString16 name) ;;
    nonnull callback := callback or TELEPHONY_ERR_IPC_CONNECT_STUB_FAIL ;;
    write_data (WriteRemoteObject callback) ;;
    require Remote or TELEPHONY_ERR_IPC_CONNECT_STUB_FAIL ;;
    request SET_SHOW_NAME or st => TELEPHONY_ERR_IPC_CONNECT_STUB_FAIL ;;
    read_reply ReadInt32 0).
(** The loop of [GetActiveSimAccountInfoList], which ends when an account cannot be read. *)
Fixpoint read_accounts (n : nat) (acc : list IccAccountInfo) : M P W (bool * list IccAccountInfo) :=
  match n with
  | O => mret (true, acc)
  | S m => '(ok, a) ← read_object IccAccountInfo_ReadFromParcel IccAccountInfo_new; if (ok : bool) then read_accounts m (acc ++ [a]) else mret (false, acc)
  end.
Definition GetActiveSimAccountInfoList (iccAccountInfoList : list IccAccountInfo) : M P W (Z * list IccAccountInfo) :=
  with_parcels (
    ensure WriteInterfaceToken or (TELEPHONY_ERR_WRITE_DESCRIPTOR_TOKEN_FAIL, iccAccountInfoList) ;;
    require Remote or (TELEPHONY_ERR_IPC_CONNECT_STUB_FAIL, iccAccountInfoList) ;;
    request GET_ACTIVE_ACCOUNT_INFO_LIST or st => (TELEPHONY_ERR_IPC_CONNECT_STUB_FAIL, iccAccountInfoList) ;;
    result ← read_reply ReadInt32 0;
    if result =? TELEPHONY_ERR_SUCCESS then
      size ← read_reply ReadInt32 0;
      require negb ((size >? MAX_VECTOR) || (size <? 0)) or (TELEPHONY_ERR_IPC_CONNECT_STUB_FAIL, iccAccountInfoList) ;;
      '(ok, iccAccountInfoList) ← read_accounts (Z.to_nat size) [];
      require (ok : bool) or (TELEPHONY_ERR_READ_DATA_FAIL, iccAccountInfoList) ;;
      mret (result, iccAccountInfoList)
    else mret (result, iccAccountInfoList)).
Definition GetOperatorConfigs (slotId : Z) (poc : OperatorConfig) : M P W (Z * OperatorConfig) :=
  with_parcels (
    ensure IsValidSlotId slotId or (TELEPHONY_ERR_SLOTID_INVALID, poc) ;;
    ensure WriteInterfaceToken or (TELEPHONY_ERR_WRITE_DESCRIPTOR_TOKEN_FAIL, poc) ;;
    write_data (WriteInt32 slotId) ;;
    require Remote or (TELEPHONY_ERR_IPC_CONNECT_STUB_FAIL, poc) ;;
    request GET_OPERATOR_CONFIG or st => (TELEPHONY_ERR_IPC_CONNECT_STUB_FAIL, poc) ;;
    result ← read_reply ReadInt32 0;
    '(_, poc) ← (if result =? TELEPHONY_ERR_SUCCESS then read_object OperatorConfig.ReadFromParcel poc else mret (true, poc));
    mret (result, poc)).
Definition UnlockPin (slotId : Z) (pin : u16string) (callback : option remote) : M P W Z :=
  with_parcels (
    ensure WriteInterfaceToken or TELEPHONY_ERR_WRITE_DESCRIPTOR_TOKEN_FAIL ;;
    write_data (WriteInt32 slotId) ;;
    write_data (WriteString16 pin) ;;
    nonnull callback := callback or TELEPHONY_ERR_IPC_CONNECT_STUB_FAIL ;;
    write_data (WriteRemoteObject callback) ;;
    require Remote or TELEPHONY_ERR_IPC_CONNECT_STUB_FAIL ;;
    request UNLOCK_PIN or st => TELEPHONY_ERR_IPC_CONNECT_STUB_FAIL ;;
    read_reply ReadInt32 0).
Definition UnlockPuk (slotId : Z) (newPin puk : u16string) (callback : option remote) : M P W Z :=
  with_parcels (
    ensure WriteInterfaceToken or TELEPHONY_ERR_WRITE_DESCRIPTOR_TOKEN_FAIL ;;
    write_data (WriteInt32 slotId) ;;
    write_data (WriteString16 newPin) ;;
    write_data (WriteString16 puk) ;;
    nonnull callback := callback or TELEPHONY_ERR_IPC_CONNECT_STUB_FAIL ;;
    write_data (WriteRemoteObject callback) ;;
    require Remote or TELEPHONY_ERR_IPC_CONNECT_STUB_FAIL ;;
    request UNLOCK_PUK or st => TELEPHONY_ERR_IPC_CONNECT_STUB_FAIL ;;
    read_reply ReadInt32 0).
Definition AlterPin (slotId : Z) (newPin oldPin : u16string) (callback : option remote) : M P W Z :=
  with_parcels (
    ensure WriteInterfaceToken or TELEPHONY_ERR_WRITE_DESCRIPTOR_TOKEN_FAIL ;;
    write_data (WriteInt32 slotId) ;;
    write_data (WriteString16 newPin) ;;
    write_data (WriteString16 oldPin) ;;
    nonnull callback := callback or TELEPHONY_ERR_IPC_CONNECT_STUB_FAIL ;;
    write_data (WriteRemoteObject callback) ;;
    require Remote or TELEPHONY_ERR_IPC_CONNECT_STUB_FAIL ;;
    request ALTER_PIN or st => TELEPHONY_ERR_IPC_CONNECT_STUB_FAIL ;;
    read_reply ReadInt32 0).
Definition UnlockPin2 (slotId : Z) (pin2 : u16string) (callback : option remote) : M P W Z :=
  with_parcels (
    ensure WriteInterfaceToken or TELEPHONY_ERR_WRITE_DESCRIPTOR_TOKEN_FAIL ;;
    write_data (WriteInt32 slotId) ;;
    write_data (WriteString16 pin2) ;;
    nonnull callback := callback or TELEPHONY_ERR_IPC_CONNECT_STUB_FAIL ;;
    write_data (WriteRemoteObject callback) ;;
    require Remote or TELEPHONY_ERR_IPC_CONNECT_STUB_FAIL ;;
    request UNLOCK_PIN2 or st => TELEPHONY_ERR_IPC_CONNECT_STUB_FAIL ;;
    read_reply ReadInt32 0).
Definition UnlockPuk2 (slotId : Z) (newPin2 puk2 : u16string) (callback : option remote) : M P W Z :=
  with_parcels (
    ensure WriteInterfaceToken or TELEPHONY_ERR_WRITE_DESCRIPTOR_TOKEN_FAIL ;;
    write_data (WriteInt32 slotId) ;;
    write_data (WriteString16 newPin2) ;;
    write_data (WriteString16 puk2) ;;
    nonnull callback := callback or TELEPHONY_ERR_IPC_CONNECT_STUB_FAIL ;;
    write_data (WriteRemoteObject callback) ;;
    require Remote or TELEPHONY_ERR_IPC_CONNECT_STUB_FAIL ;;
    request UNLOCK_PUK2 or st => TELEPHONY_ERR_IPC_CONNECT_STUB_FAIL ;;
    read_reply ReadInt32 0).
Definition AlterPin2 (slotId : Z) (newPin2 oldPin2 : u16string) (callback : option remote) : M P W Z :=
  with_parcels (
    ensure WriteInterfaceToken or TELEPHONY_ERR_WRITE_DESCRIPTOR_TOKEN_FAIL ;;
    write_data (WriteInt32 slotId) ;;
    write_data (WriteString16 newPin2) ;;
    write_data (WriteString16 oldPin2) ;;
    nonnull callback := callback or TELEPHONY_ERR_IPC_CONNECT_STUB_FAIL ;;
    write_data (WriteRemoteObject callback) ;;
    require Remote or TELEPHONY_ERR_IPC_CONNECT_STUB_FAIL ;;
    request ALTER_PIN2 or st => TELEPHONY_ERR_IPC_CONNECT_STUB_FAIL ;;
    read_reply ReadInt32 0).
Definition SetLockState (slotId : Z) (options : LockInfo) (callback : option remote) : M P W Z :=
  with_parcels (
    ensure WriteInterfaceToken or TELEPHONY_ERR_WRITE_DESCRIPTOR_TOKEN_FAIL ;;
    write_data (WriteInt32 slotId) ;;
    write_data (WriteInt32 (lockType options)) ;;
    write_data (WriteInt32 (lockState options)) ;;
    write_data (WriteString16 (password options)) ;;
    nonnull callback := callback or TELEPHONY_ERR_IPC_CONNECT_STUB_FAIL ;;
    write_data (WriteRemoteObject callback) ;;
    require Remote or TELEPHONY_ERR_IPC_CONNECT_STUB_FAIL ;;
    request SWITCH_LOCK or st => TELEPHONY_ERR_IPC_CONNECT_STUB_FAIL ;;
    read_reply ReadInt32 0).
Definition GetLockState (slotId lockType : Z) (callback : option remote) : M P W Z :=
  with_parcels (
    ensure WriteInterfaceToken or TELEPHONY_ERR_WRITE_DESCRIPTOR_TOKEN_FAIL ;;
    write_data (WriteInt32 slotId) ;;
    write_data (WriteInt32 lockType) ;;
    nonnull callback := callback or TELEPHONY_ERR_IPC_CONNECT_STUB_FAIL ;;
    write_data (WriteRemoteObject callback) ;;
    require Remote or TELEPHONY_ERR_IPC_CONNECT_STUB_FAIL ;;
    request CHECK_LOCK or st => TELEPHONY_ERR_IPC_CONNECT_STUB_FAIL ;;
    read_reply ReadInt32 0).
Definition RefreshSimState (slotId : Z) : M P W Z :=
  with_parcels (
    ensure WriteInterfaceToken or TELEPHONY_ERROR ;;
    write_data (WriteInt32 slotId) ;;
    require Remote or TELEPHONY_ERROR ;;
    request REFRESH_SIM_STATE or st => TELEPHONY_ERROR ;;
    result ← read_reply ReadInt32 0;
    mret result).
Definition SetActiveSim (slotId enable : Z) : M P W Z :=
  with_parcels (
    ensure IsValidSlotId slotId or TELEPHONY_ERR_SLOTID_INVALID ;;
    require (enable =? DISABLE) || (enable =? ENABLE) or TELEPHONY_ERR_ARGUMENT_INVALID ;;
    ensure WriteInterfaceToken or TELEPHONY_ERR_WRITE_DESCRIPTOR_TOKEN_FAIL ;;
    write_data (WriteInt32 slotId) ;;
    write_data (WriteInt32 enable) ;;
    require Remote or TELEPHONY_ERR_IPC_CONNECT_STUB_FAIL ;;
    request SET_SIM_ACTIVE or st => TELEPHONY_ERR_IPC_CONNECT_STUB_FAIL ;;
    result ← read_reply ReadInt32 0;
    mret result).
Definition SetActiveSimSatellite (slotId enable : Z) : M P W Z :=
  with_parcels (
    ensure IsValidSlotId slotId or TELEPHONY_ERR_SLOTID_INVALID ;;
    require (enable =? DISABLE) || (enable =? ENABLE) or TELEPHONY_ERR_ARGUMENT_INVALID ;;
    ensure WriteInterfaceToken or TELEPHONY_ERR_WRITE_DESCRIPTOR_TOKEN_FAIL ;;
    write_data (WriteInt32 slotId) ;;
    write_data (WriteInt32 enable) ;;
    require Remote or TELEPHONY_ERR_IPC_CONNECT_STUB_FAIL ;;
    request SET_SIM_ACTIVE_SATELLITE or st => TELEPHONY_ERR_IPC_CONNECT_STUB_FAIL ;;
    result ← read_reply ReadInt32 0;
    mret result).
Definition GetPreferredNetwork (slotId : Z) (callback : option remote) : M P W Z :=
  with_parcels (
    ensure WriteInterfaceToken or TELEPHONY_ERR_WRITE_DESCRIPTOR_TOKEN_FAIL ;;
    ensure write_data (WriteInt32 slotId) or TELEPHONY_ERR_WRITE_REPLY_FAIL ;;
    if_nonnull callback (fun callback => write_data (WriteRemoteObject callback)) ;;
    require Remote or TELEPHONY_ERR_IPC_CONNECT_STUB_FAIL ;;
    request GET_PREFERRED_NETWORK_MODE or st => TELEPHONY_ERR_IPC_CONNECT_STUB_FAIL ;;
    read_reply ReadInt32 0).
Definition SetPreferredNetwork (slotId networkMode : Z) (callback : option remote) : M P W Z :=
  with_parcels (
    ensure WriteInterfaceToken or TELEPHONY_ERR_WRITE_DESCRIPTOR_TOKEN_FAIL ;;
    ensure write_data (WriteInt32 slotId) or TELEPHONY_ERR_WRITE_REPLY_FAIL ;;
    ensure write_data (WriteInt32 networkMode) or TELEPHONY_ERR_WRITE_REPLY_FAIL ;;
    if_nonnull callback (fun callback => write_data (WriteRemoteObject callback)) ;;
    require Remote or TELEPHONY_ERR_IPC_CONNECT_STUB_FAIL ;;
    request SET_PREFERRED_NETWORK_MODE or st => TELEPHONY_ERR_IPC_CONNECT_STUB_FAIL ;;
    read_reply ReadInt32 0).
Definition GetNetworkCapability (slotId networkCapabilityType networkCapabilityState : Z) : M P W (Z * Z) :=
  with_parcels (
    ensure WriteInterfaceToken or (TELEPHONY_ERR_WRITE_DESCRIPTOR_TOKEN_FAIL, networkCapabilityState) ;;
    ensure write_data (WriteInt32 slotId) or (TELEPHONY_ERR_WRITE_DATA_FAIL, networkCapabilityState) ;;
    ensure write_data (WriteInt32 networkCapabilityType) or (TELEPHONY_ERR_WRITE_DATA_FAIL, networkCapabilityState) ;;
    require Remote or (TELEPHONY_ERR_IPC_CONNECT_STUB_FAIL, networkCapabilityState) ;;
    request GET_NETWORK_CAPABILITY or st => (TELEPHONY_ERR_IPC_CONNECT_STUB_FAIL, networkCapabilityState) ;;
    ret ← read_reply ReadInt32 0;
    require ret =? TELEPHONY_ERR_SUCCESS or (ret, networkCapabilityState) ;;
    networkCapabilityState ← read_reply ReadInt32 0;
    mret (TELEPHONY_ERR_SUCCESS, networkCapabilityState)).
Definition SetNetworkCapability (slotId networkCapabilityType networkCapabilityState : Z) : M P W Z :=
  with_parcels (
    ensure WriteInterfaceToken or TELEPHONY_ERR_WRITE_DESCRIPTOR_TOKEN_FAIL ;;
    ensure write_data (WriteInt32 slotId) or TELEPHONY_ERR_WRITE_DATA_FAIL ;;
    ensure write_data (WriteInt32 networkCapabilityType) or TELEPHONY_ERR_WRITE_DATA_FAIL ;;
    ensure write_data (WriteInt32 networkCapabilityState) or TELEPHONY_ERR_WRITE_DATA_FAIL ;;
    require Remote or TELEPHONY_ERR_IPC_CONNECT_STUB_FAIL ;;
    request SET_NETWORK_CAPABILITY or st => TELEPHONY_ERR_IPC_CONNECT_STUB_FAIL ;;
    read_reply ReadInt32 0).
Definition GetSimTelephoneNumber (slotId : Z) (telephoneNumber : u16string) : M P W (Z * u16string) :=
  with_parcels (
    ensure IsValidSlotId slotId or (TELEPHONY_ERR_SLOTID_INVALID, telephoneNumber) ;;
    ensure WriteInterfaceToken or (TELEPHONY_ERR_WRITE_DESCRIPTOR_TOKEN_FAIL, telephoneNumber) ;;
    write_data (WriteInt32 slotId) ;;
    require Remote or (TELEPHONY_ERR_IPC_CONNECT_STUB_FAIL, telephoneNumber) ;;
    request GET_SIM_PHONE_NUMBER or st => (TELEPHONY_ERR_IPC_CONNECT_STUB_FAIL, telephoneNumber) ;;
    result ← read_reply ReadInt32 0;
    telephoneNumber ← (if result =? TELEPHONY_ERR_SUCCESS then read_reply ReadString16 [] else mret telephoneNumber);
    mret (result, telephoneNumber)).
Definition GetSimTeleNumberIdentifier (slotId : Z) : M P W u16string :=
  with_parcels (
    ensure IsValidSlotId slotId or [] ;;
    ensure WriteInterfaceToken or [] ;;
    write_data (WriteInt32 slotId) ;;
    require Remote or [] ;;
    request GET_SIM_TELENUMBER_IDENTIFIER or st => [] ;;
    result ← read_reply ReadString16 [];
    mret result).
Definition GetVoiceMailIdentifier (slotId : Z) (voiceMailIdentifier : u16string) : M P W (Z * u16string) :=
  with_parcels (
    ensure IsValidSlotId slotId or (TELEPHONY_ERR_SLOTID_INVALID, voiceMailIdentifier) ;;
    ensure WriteInterfaceToken or (TELEPHONY_ERR_WRITE_DESCRIPTOR_TOKEN_FAIL, voiceMailIdentifier) ;;
    write_data (WriteInt32 slotId) ;;
    require Remote or (TELEPHONY_ERR_IPC_CONNECT_STUB_FAIL, voiceMailIdentifier) ;;
    request GET_VOICE_MAIL_TAG or st => (TELEPHONY_ERR_IPC_CONNECT_STUB_FAIL, voiceMailIdentifier) ;;
    result ← read_reply ReadInt32 0;
    voiceMailIdentifier ← (if result =? TELEPHONY_ERR_SUCCESS then read_reply ReadString16 [] else mret voiceMailIdentifier);
    mret (result, voiceMailIdentifier)).
Definition GetVoiceMailNumber (slotId : Z) (voiceMailNumber : u16string) : M P W (Z * u16string) :=
  with_parcels (
    ensure IsValidSlotId slotId or (TELEPHONY_ERR_SLOTID_INVALID, voiceMailNumber) ;;
    ensure WriteInterfaceToken or (TELEPHONY_ERR_WRITE_DESCRIPTOR_TOKEN_FAIL, voiceMailNumber) ;;
    write_data (WriteInt32 slotId) ;;
    require Remote or (TELEPHONY_ERR_IPC_CONNECT_STUB_FAIL, voiceMailNumber) ;;
    request GET_VOICE_MAIL_NUMBER or st => (TELEPHONY_ERR_IPC_CONNECT_STUB_FAIL, voiceMailNumber) ;;
    result ← read_reply ReadInt32 0;
    voiceMailNumber ← (if result =? TELEPHONY_ERR_SUCCESS then read_reply ReadString16 [] else mret voiceMailNumber);
    mret (result, voiceMailNumber)).
Definition GetVoiceMailCount (slotId voiceMailCount : Z) : M P W (Z * Z) :=
  with_parcels (
    ensure IsValidSlotId slotId or (TELEPHONY_ERR_SLOTID_INVALID, voiceMailCount) ;;
    ensure WriteInterfaceToken or (TELEPHONY_ERR_WRITE_DESCRIPTOR_TOKEN_FAIL, voiceMailCount) ;;
    write_data (WriteInt32 slotId) ;;
    require Remote or (TELEPHONY_ERR_IPC_CONNECT_STUB_FAIL, voiceMailCount) ;;
    request GET_VOICE_MAIL_COUNT or st => (TELEPHONY_ERR_IPC_CONNECT_STUB_FAIL, voiceMailCount) ;;
    result ← read_reply ReadInt32 0;
    voiceMailCount ← (if result =? TELEPHONY_ERR_SUCCESS then read_reply ReadInt32 0 else mret voiceMailCount);
    mret (result, voiceMailCount)).
Definition SetVoiceMailCount (slotId voiceMailCount : Z) : M P W Z :=
  with_parcels (
    ensure IsValidSlotId slotId or TELEPHONY_ERR_SLOTID_INVALID ;;
    ensure WriteInterfaceToken or TELEPHONY_ERR_WRITE_DESCRIPTOR_TOKEN_FAIL ;;
    write_data (WriteInt32 slotId) ;;
    write_data (WriteInt32 voiceMailCount) ;;
    require Remote or TELEPHONY_ERR_IPC_CONNECT_STUB_FAIL ;;
    request SET_VOICE_MAIL_COUNT or st => TELEPHONY_ERR_IPC_CONNECT_STUB_FAIL ;;
    read_reply ReadInt32 0).
Definition SetVoiceCallForwarding (slotId : Z) (enable : bool) (number : cstring) : M P W Z :=
  with_parcels (
    ensure IsValidSlotId slotId or TELEPHONY_ERR_SLOTID_INVALID ;;
    ensure WriteInterfaceToken or TELEPHONY_ERR_WRITE_DESCRIPTOR_TOKEN_FAIL ;;
    write_data (WriteInt32 slotId) ;;
    write_data (WriteBool enable) ;;
    write_data (WriteString number) ;;
    require Remote or TELEPHONY_ERR_IPC_CONNECT_STUB_FAIL ;;
    request SET_VOICE_CALL_FORWARDING or st => TELEPHONY_ERR_IPC_CONNECT_STUB_FAIL ;;
    read_reply ReadInt32 0).
(** The loop of [QueryIccDiallingNumbers]. *)
Fixpoint read_numbers (n : nat) (acc : list DiallingNumbersInfo) : M P W (list DiallingNumbersInfo) :=
  match n with
  | O => mret acc
  | S m => d ← reply_unmarshal DiallingNumbersInfo_UnMarshalling; read_numbers m (match d with Some d => acc ++ [d] | None => acc end)
  end.
Definition QueryIccDiallingNumbers (slotId type : Z) (result : list DiallingNumbersInfo) : M P W (Z * list DiallingNumbersInfo) :=
  with_parcels (
    ensure IsValidSlotId slotId or (TELEPHONY_ERR_SLOTID_INVALID, result) ;;
    ensure WriteInterfaceToken or (TELEPHONY_ERR_WRITE_DESCRIPTOR_TOKEN_FAIL, result) ;;
    ensure write_data (WriteInt32 slotId) or (TELEPHONY_ERR_WRITE_DATA_FAIL, result) ;;
    ensure write_data (WriteInt32 type) or (TELEPHONY_ERR_WRITE_DATA_FAIL, result) ;;
    require Remote or (TELEPHONY_ERR_IPC_CONNECT_STUB_FAIL, result) ;;
    request ICC_DIALLING_NUMBERS_GET or st => (TELEPHONY_ERR_IPC_CONNECT_STUB_FAIL, result) ;;
    errorCode ← read_reply ReadInt32 0;
    require errorCode =? TELEPHONY_ERR_SUCCESS or (errorCode, result) ;;
    size ← read_reply ReadInt32 0;
    require negb (MAX_NUMBERS_SIZE <=? size) or (TELEPHONY_ERR_READ_DATA_FAIL, result) ;;
    result ← read_numbers (Z.to_nat size) result;
    mret (TELEPHONY_ERR_SUCCESS, result)).
Definition AddIccDiallingNumbers (slotId type : Z) (diallingNumber : option DiallingNumbersInfo) : M P W Z :=
  with_parcels (
    ensure IsValidSlotId slotId or TELEPHONY_ERR_SLOTID_INVALID ;;
    ensure WriteInterfaceToken or TELEPHONY_ERR_WRITE_DESCRIPTOR_TOKEN_FAIL ;;
    ensure write_data (WriteInt32 slotId) or TELEPHONY_ERR_WRITE_DATA_FAIL ;;
    ensure write_data (WriteInt32 type) or TELEPHONY_ERR_WRITE_DATA_FAIL ;;
    if_nonnull diallingNumber (fun diallingNumber => write_data (DiallingNumbersInfo_Marshalling diallingNumber)) ;;
    require Remote or TELEPHONY_ERR_IPC_CONNECT_STUB_FAIL ;;
    request ICC_DIALLING_NUMBERS_INSERT or st => TELEPHONY_ERR_IPC_CONNECT_STUB_FAIL ;;
    read_reply ReadInt32 0).
Definition DelIccDiallingNumbers (slotId type : Z) (diallingNumber : option DiallingNumbersInfo) : M P W Z :=
  with_parcels (
    ensure IsValidSlotId slotId or TELEPHONY_ERR_SLOTID_INVALID ;;
    ensure WriteInterfaceToken or TELEPHONY_ERR_WRITE_DESCRIPTOR_TOKEN_FAIL ;;
    ensure write_data (WriteInt32 slotId) or TELEPHONY_ERR_WRITE_DATA_FAIL ;;
    ensure write_data (WriteInt32 type) or TELEPHONY_ERR_WRITE_DATA_FAIL ;;
    if_nonnull diallingNumber (fun diallingNumber => write_data (DiallingNumbersInfo_Marshalling diallingNumber)) ;;
    require Remote or TELEPHONY_ERR_IPC_CONNECT_STUB_FAIL ;;
    request ICC_DIALLING_NUMBERS_DELETE or st => TELEPHONY_ERR_IPC_CONNECT_STUB_FAIL ;;
    read_reply ReadInt32 0).
Definition UpdateIccDiallingNumbers (slotId type : Z) (diallingNumber : option DiallingNumbersInfo) : M P W Z :=
  with_parcels (
    ensure IsValidSlotId slotId or TELEPHONY_ERR_SLOTID_INVALID ;;
    ensure WriteInterfaceToken or TELEPHONY_ERR_WRITE_DESCRIPTOR_TOKEN_FAIL ;;
    ensure write_data (WriteInt32 slotId) or TELEPHONY_ERR_WRITE_DATA_FAIL ;;
    ensure write_data (WriteInt32 type) or TELEPHONY_ERR_WRITE_DATA_FAIL ;;
    if_nonnull diallingNumber (fun diallingNumber => write_data (DiallingNumbersInfo_Marshalling diallingNumber)) ;;
    require Remote or TELEPHONY_ERR_IPC_CONNECT_STUB_FAIL ;;
    request ICC_DIALLING_NUMBERS_UPDATE or st => TELEPHONY_ERR_IPC_CONNECT_STUB_FAIL ;;
    read_reply ReadInt32 0).
Definition SetVoiceMailInfo (slotId : Z) (mailName mailNumber : u16string) : M P W Z :=
  with_parcels (
    ensure IsValidSlotId slotId or TELEPHONY_ERR_SLOTID_INVALID ;;
    require IsValidStringLength mailName && IsValidStringLength mailNumber or TELEPHONY_ERR_ARGUMENT_INVALID ;;
    ensure WriteInterfaceToken or TELEPHONY_ERR_WRITE_DESCRIPTOR_TOKEN_FAIL ;;
    ensure write_data (WriteInt32 slotId) or TELEPHONY_ERR_WRITE_DATA_FAIL ;;
    ensure write_data (WriteString16 mailName) or TELEPHONY_ERR_WRITE_DATA_FAIL ;;
    ensure write_data (WriteString16 mailNumber) or TELEPHONY_ERR_WRITE_DATA_FAIL ;;
    require Remote or TELEPHONY_ERR_IPC_CONNECT_STUB_FAIL ;;
    request SET_VOICE_MAIL or st => TELEPHONY_ERR_IPC_CONNECT_STUB_FAIL ;;
    read_reply ReadInt32 0).
Definition GetOpKey (slotId : Z) (opkey : u16string) : M P W (Z * u16string) :=
  with_parcels (
    ensure IsValidSlotId slotId or (TELEPHONY_ERR_SLOTID_INVALID, opkey) ;;
    ensure WriteInterfaceToken or (TELEPHONY_ERR_WRITE_DESCRIPTOR_TOKEN_FAIL, opkey) ;;
    write_data (WriteInt32 slotId) ;;
    require Remote or (TELEPHONY_ERR_IPC_CONNECT_STUB_FAIL, opkey) ;;
    request GET_OPKEY or st => (TELEPHONY_ERR_IPC_CONNECT_STUB_FAIL, opkey) ;;
    result ← read_reply ReadInt32 0;
    opkey ← (if result =? TELEPHONY_ERR_SUCCESS then read_reply ReadString16 [] else mret opkey);
    mret (result, opkey)).
Definition GetOpKeyExt (slotId : Z) (opkeyExt : u16string) : M P W (Z * u16string) :=
  with_parcels (
    ensure IsValidSlotId slotId or (TELEPHONY_ERR_SLOTID_INVALID, opkeyExt) ;;
    ensure WriteInterfaceToken or (TELEPHONY_ERR_WRITE_DESCRIPTOR_TOKEN_FAIL, opkeyExt) ;;
    write_data (WriteInt32 slotId) ;;
    require Remote or (TELEPHONY_ERR_IPC_CONNECT_STUB_FAIL, opkeyExt) ;;
    request GET_OPKEY_EXT or st => (TELEPHONY_ERR_IPC_CONNECT_STUB_FAIL, opkeyExt) ;;
    result ← read_reply ReadInt32 0;
    opkeyExt ← (if result =? TELEPHONY_ERR_SUCCESS then read_reply ReadString16 [] else mret opkeyExt);
    mret (result, opkeyExt)).
Definition GetOpName (slotId : Z) (opname : u16string) : M P W (Z * u16string) :=
  with_parcels (
    ensure IsValidSlotId slotId or (TELEPHONY_ERR_SLOTID_INVALID, opname) ;;
    ensure WriteInterfaceToken or (TELEPHONY_ERR_WRITE_DESCRIPTOR_TOKEN_FAIL, opname) ;;
    write_data (WriteInt32 slotId) ;;
    require Remote or (TELEPHONY_ERR_IPC_CONNECT_STUB_FAIL, opname) ;;
    request GET_OPNAME or st => (TELEPHONY_ERR_IPC_CONNECT_STUB_FAIL, opname) ;;
    result ← read_reply ReadInt32 0;
    opname ← (if result =? TELEPHONY_ERR_SUCCESS then read_reply ReadString16 [] else mret opname);
    mret (result, opname)).
Definition SendEnvelopeCmd (slotId : Z) (cmd : cstring) : M P W Z :=
  with_parcels (
    ensure IsValidSlotId slotId or TELEPHONY_ERR_SLOTID_INVALID ;;
    require negb (bool_decide (cmd = [])) or TELEPHONY_ERR_ARGUMENT_INVALID ;;
    ensure WriteInterfaceToken or TELEPHONY_ERR_WRITE_DESCRIPTOR_TOKEN_FAIL ;;
    write_data (WriteInt32 slotId) ;;
    write_data (WriteString cmd) ;;
    require Remote or TELEPHONY_ERR_IPC_CONNECT_STUB_FAIL ;;
    request STK_CMD_FROM_APP_ENVELOPE or st => TELEPHONY_ERR_IPC_CONNECT_STUB_FAIL ;;
    result ← read_reply ReadInt32 0;
    mret result).
Definition SendTerminalResponseCmd (slotId : Z) (cmd : cstring) : M P W Z :=
  with_parcels (
    ensure IsValidSlotId slotId or TELEPHONY_ERR_SLOTID_INVALID ;;
    require negb (bool_decide (cmd = [])) or TELEPHONY_ERR_ARGUMENT_INVALID ;;
    ensure WriteInterfaceToken or TELEPHONY_ERR_WRITE_DESCRIPTOR_TOKEN_FAIL ;;
    write_data (WriteInt32 slotId) ;;
    write_data (WriteString cmd) ;;
    require Remote or TELEPHONY_ERR_IPC_CONNECT_STUB_FAIL ;;
    request STK_CMD_FROM_APP_TERMINAL_RESPONSE or st => TELEPHONY_ERR_IPC_CONNECT_STUB_FAIL ;;
    result ← read_reply ReadInt32 0;
    mret result).
Definition SendCallSetupRequestResult (slotId : Z) (accept : bool) : M P W Z :=
  with_parcels (
    ensure WriteInterfaceToken or TELEPHONY_ERR_WRITE_DESCRIPTOR_TOKEN_FAIL ;;
    write_data (WriteInt32 slotId) ;;
    write_data (WriteInt32 (Z.b2z accept)) ;;
    require Remote or TELEPHONY_ERR_IPC_CONNECT_STUB_FAIL ;;
    request STK_RESULT_FROM_APP_CALL_SETUP_REQUEST or st => TELEPHONY_ERR_IPC_CONNECT_STUB_FAIL ;;
    result ← read_reply ReadInt32 0;
    mret result).
Definition UnlockSimLock (slotId : Z) (lockInfo : PersoLockInfo) (response : LockStatusResponse) : M P W (Z * LockStatusResponse) :=
  with_parcels (
    ensure IsValidSlotId slotId or (TELEPHONY_ERR_SLOTID_INVALID, response) ;;
    ensure WriteInterfaceToken or (TELEPHONY_ERR_WRITE_DESCRIPTOR_TOKEN_FAIL, response) ;;
    write_data (WriteInt32 slotId) ;;
    write_data (WriteInt32 (perso_lockType lockInfo)) ;;
    write_data (WriteString16 (perso_password lockInfo)) ;;
    require Remote or (TELEPHONY_ERR_IPC_CONNECT_STUB_FAIL, response) ;;
    request UNLOCK_SIMLOCK or st => (TELEPHONY_ERR_IPC_CONNECT_STUB_FAIL, response) ;;
    result ← read_reply ReadInt32 0;
    if result =? TELEPHONY_ERR_SUCCESS then
      r ← read_reply ReadInt32 0;
      n ← read_reply ReadInt32 0;
      mret (result, MkLockStatus r n)
    else mret (result, response)).
Definition GetImsRegStatus (slotId imsSrvType : Z) (info : ImsRegInfo) : M P W (Z * ImsRegInfo) :=
  with_parcels (
    ensure IsValidSlotId slotId or (TELEPHONY_ERR_SLOTID_INVALID, info) ;;
    ensure WriteInterfaceToken or (TELEPHONY_ERR_WRITE_DESCRIPTOR_TOKEN_FAIL, info) ;;
    ensure write_data (WriteInt32 slotId) or (TELEPHONY_ERR_WRITE_DATA_FAIL, info) ;;
    ensure write_data (WriteInt32 imsSrvType) or (TELEPHONY_ERR_WRITE_DATA_FAIL, info) ;;
    require Remote or (TELEPHONY_ERR_WRITE_DATA_FAIL, info) ;;
    request GET_IMS_REG_STATUS or st => (st, info) ;;
    ret ← read_reply ReadInt32 0;
    state ← read_reply ReadInt32 0;
    tech ← read_reply ReadInt32 0;
    mret (ret, MkImsRegInfo state tech)).
(** [ProcessReply<T>]: the cell is added whether or not the whole of it could be read. *)
Definition ProcessReply (cell : Cell) (cells : list Cell) : M P W (list Cell) :=
  '(_, cell) ← read_object CellInformation.ReadFromParcel cell; mret (cells ++ [cell]).
(** One round of the loop: a cell of the class that the number names. *)
Definition process_cell (cells : list Cell) : M P W (list Cell) :=
  type ← read_reply ReadInt32 0;
  if type =? CELL_TYPE_GSM then ProcessReply (GsmCell GsmCell_new) cells
  else if type =? CELL_TYPE_LTE then ProcessReply (LteCell LteCell_new) cells
  else if type =? CELL_TYPE_WCDMA then ProcessReply (WcdmaCell WcdmaCell_new) cells
  else if type =? CELL_TYPE_CDMA then ProcessReply (CdmaCell CdmaCell_new) cells
  else if type =? CELL_TYPE_TDSCDMA then ProcessReply (TdscdmaCell TdscdmaCell_new) cells
  else if type =? CELL_TYPE_NR then ProcessReply (NrCell NrCell_new) cells
  else mret cells.
Fixpoint process_cells (n : nat) (cells : list Cell) : M P W (list Cell) :=
  match n with O => mret cells | S m => cells ← process_cell cells; process_cells m cells end.
Definition ProcessCellInfo (cells : list Cell) : M P W (list Cell) :=
  size ← read_reply ReadInt32 0;
  if MAX_SIZE <=? size then mret cells else process_cells (Z.to_nat size) cells.
Definition GetCellInfoList (slotId : Z) (cellInfo : list Cell) : M P W (Z * list Cell) :=
  with_parcels (
    ensure WriteInterfaceToken or (TELEPHONY_ERR_WRITE_DESCRIPTOR_TOKEN_FAIL, cellInfo) ;;
    ensure write_data (WriteInt32 slotId) or (TELEPHONY_ERR_WRITE_DATA_FAIL, cellInfo) ;;
    require Remote or (TELEPHONY_ERR_IPC_CONNECT_STUB_FAIL, cellInfo) ;;
    request GET_CELL_INFO_LIST or st => (TELEPHONY_ERR_IPC_CONNECT_STUB_FAIL, cellInfo) ;;
    result ← read_reply ReadInt32 0;
    cellInfo ← (if result =? TELEPHONY_ERR_SUCCESS then ProcessCellInfo cellInfo else mret cellInfo);
    mret (result, cellInfo)).
Definition GetNeighboringCellInfoList (slotId : Z) (cellInfo : list Cell) : M P W (Z * list Cell) :=
  with_parcels (
    ensure WriteInterfaceToken or (TELEPHONY_ERR_WRITE_DESCRIPTOR_TOKEN_FAIL, cellInfo) ;;
    ensure write_data (WriteInt32 slotId) or (TELEPHONY_ERR_WRITE_DATA_FAIL, cellInfo) ;;
    require Remote or (TELEPHONY_ERR_IPC_CONNECT_STUB_FAIL, cellInfo) ;;
    request GET_NEIGHBORING_CELL_INFO_LIST or st => (TELEPHONY_ERR_IPC_CONNECT_STUB_FAIL, cellInfo) ;;
    result ← read_reply ReadInt32 0;
    cellInfo ← (if result =? TELEPHONY_ERR_SUCCESS then ProcessCellInfo cellInfo else mret cellInfo);
    mret (result, cellInfo)).
Definition SendUpdateCellLocationRequest (slotId : Z) : M P W Z :=
  with_parcels (
    ensure WriteInterfaceToken or TELEPHONY_ERR_WRITE_DESCRIPTOR_TOKEN_FAIL ;;
    require Remote or TELEPHONY_ERR_IPC_CONNECT_STUB_FAIL ;;
    write_data (WriteInt32 slotId) ;;
    request GET_CELL_LOCATION or st => TELEPHONY_ERR_IPC_CONNECT_STUB_FAIL ;;
    read_reply ReadInt32 0).
Definition HasOperatorPrivileges (slotId : Z) (callback : option remote) : M P W Z :=
  with_parcels (
    ensure WriteInterfaceToken or TELEPHONY_ERR_WRITE_DESCRIPTOR_TOKEN_FAIL ;;
    write_data (WriteInt32 slotId) ;;
    nonnull callback := callback or TELEPHONY_ERR_IPC_CONNECT_STUB_FAIL ;;
    write_data (WriteRemoteObject callback) ;;
    require Remote or TELEPHONY_ERR_IPC_CONNECT_STUB_FAIL ;;
    request HAS_OPERATOR_PRIVILEGES or st => TELEPHONY_ERR_IPC_CONNECT_STUB_FAIL ;;
    read_reply ReadInt32 0).
Definition SimAuthentication (slotId authType : Z) (authData : cstring) (response : SimAuthenticationResponse) : M P W (Z * SimAuthenticationResponse) :=
  with_parcels (
    ensure WriteInterfaceToken or (ERROR, response) ;;
    write_data (WriteInt32 slotId) ;;
    write_data (WriteInt32 authType) ;;
    write_data (WriteString authData) ;;
    require Remote or (ERROR, response) ;;
    request SIM_AUTHENTICATION or st => (ERROR, response) ;;
    ret ← read_reply ReadInt32 0;
    sw1 ← read_reply ReadInt32 0;
    sw2 ← read_reply ReadInt32 0;
    text ← read_reply ReadString [];
    mret (ret, MkSimAuth sw1 sw2 text)).
Definition IsNrSupported (slotId : Z) : M P W bool :=
  with_parcels (
    ensure WriteInterfaceToken or false ;;
    ensure write_data (WriteInt32 slotId) or false ;;
    require Remote or false ;;
    request IS_NR_SUPPORTED or st => false ;;
    result ← read_reply_opt ReadBool;
    nonnull result := result or false ;;
    mret result).
Definition SetNrOptionMode (slotId mode : Z) (callback : option remote) : M P W Z :=
  with_parcels (
    ensure WriteInterfaceToken or TELEPHONY_ERR_WRITE_DESCRIPTOR_TOKEN_FAIL ;;
    ensure write_data (WriteInt32 slotId) or TELEPHONY_ERR_WRITE_REPLY_FAIL ;;
    ensure write_data (WriteInt32 mode) or TELEPHONY_ERR_WRITE_REPLY_FAIL ;;
    if_nonnull callback (fun callback => write_data (WriteRemoteObject callback)) ;;
    require Remote or TELEPHONY_ERR_IPC_CONNECT_STUB_FAIL ;;
    request SET_NR_OPTION_MODE or st => TELEPHONY_ERR_IPC_CONNECT_STUB_FAIL ;;
    read_reply ReadInt32 0).
Definition GetNrOptionMode (slotId : Z) (callback : option remote) : M P W Z :=
  with_parcels (
    ensure WriteInterfaceToken or TELEPHONY_ERR_WRITE_DESCRIPTOR_TOKEN_FAIL ;;
    write_data (WriteInt32 slotId) ;;
    if_nonnull callback (fun callback => write_data (WriteRemoteObject callback)) ;;
    require Remote or TELEPHONY_ERR_IPC_CONNECT_STUB_FAIL ;;
    request GET_NR_OPTION_MODE or st => TELEPHONY_ERR_IPC_CONNECT_STUB_FAIL ;;
    read_reply ReadInt32 0).
Definition SerializeImsRegInfoData (slotId imsSrvType : Z) : M P W Z :=
  ensure IsValidSlotId slotId or TELEPHONY_ERR_SLOTID_INVALID ;;
  require IsValidServiceType imsSrvType or TELEPHONY_ERR_ARGUMENT_INVALID ;;
  ensure WriteInterfaceToken or TELEPHONY_ERR_WRITE_DESCRIPTOR_TOKEN_FAIL ;;
  ensure write_data (WriteInt32 slotId) or TELEPHONY_ERR_WRITE_DATA_FAIL ;;
  ensure write_data (WriteInt32 imsSrvType) or TELEPHONY_ERR_WRITE_DATA_FAIL ;;
  mret TELEPHONY_SUCCESS.
Definition RegisterImsRegInfoCallback (slotId imsSrvType : Z) (callback : option remote) : M P W Z :=
  with_parcels (
    nonnull callback := callback or TELEPHONY_ERR_ARGUMENT_NULL ;;
    ret ← SerializeImsRegInfoData slotId imsSrvType;
    require ret =? TELEPHONY_SUCCESS or ret ;;
    ensure write_data (WriteRemoteObject callback) or TELEPHONY_ERR_WRITE_DATA_FAIL ;;
    require Remote or TELEPHONY_ERR_IPC_CONNECT_STUB_FAIL ;;
    request REG_IMS_CALLBACK or error => error ;;
    read_reply ReadInt32 0).
Definition UnregisterImsRegInfoCallback (slotId imsSrvType : Z) : M P W Z :=
  with_parcels (
    ret ← SerializeImsRegInfoData slotId imsSrvType;
    require ret =? TELEPHONY_SUCCESS or ret ;;
    require Remote or TELEPHONY_ERR_IPC_CONNECT_STUB_FAIL ;;
    request UN_REG_IMS_CALLBACK or error => error ;;
    read_reply ReadInt32 0).
Definition GetNrSsbIdInfo (slotId : Z) (nrSsbInformation : option NrSsbInformation) : M P W (Z * option NrSsbInformation) :=
  with_parcels (
    ensure WriteInterfaceToken or (TELEPHONY_ERR_WRITE_DESCRIPTOR_TOKEN_FAIL, nrSsbInformation) ;;
    ensure write_data (WriteInt32 slotId) or (TELEPHONY_ERR_WRITE_DATA_FAIL, nrSsbInformation) ;;
    require Remote or (TELEPHONY_ERR_IPC_CONNECT_STUB_FAIL, nrSsbInformation) ;;
    nonnull info := nrSsbInformation or (TELEPHONY_ERR_ARGUMENT_NULL, nrSsbInformation) ;;
    request GET_NR_SSB_ID_INFO or error => (error, nrSsbInformation) ;;
    result ← read_reply ReadInt32 0;
    if result =? TELEPHONY_ERR_SUCCESS then
      '(ok, info) ← read_object NrSsb_ReadFromParcel info;
      require (ok : bool) or (TELEPHONY_ERR_READ_DATA_FAIL, Some info) ;;
      mret (result, Some info)
    else mret (result, nrSsbInformation)).
Definition FactoryReset (slotId : Z) : M P W Z :=
  with_parcels (
    ensure WriteInterfaceToken or TELEPHONY_ERR_WRITE_DESCRIPTOR_TOKEN_FAIL ;;
    require Remote or TELEPHONY_ERR_IPC_CONNECT_STUB_FAIL ;;
    write_data (WriteInt32 slotId) ;;
    request FACTORY_RESET or st => TELEPHONY_ERR_IPC_CONNECT_STUB_FAIL ;;
    read_reply ReadInt32 0).
Definition IsAllowedInsertApn (value : cstring) : M P W bool :=
  with_parcels (
    ensure WriteInterfaceToken or true ;;
    ensure write_data (WriteString value) or true ;;
    require Remote or true ;;
    request IS_ALLOWED_INSERT_APN or st => true ;;
    read_reply ReadBool false).
Definition GetTargetOpkey (slotId : Z) (opkey : u16string) : M P W (Z * u16string) :=
  with_parcels (
    ensure WriteInterfaceToken or (TELEPHONY_ERR_WRITE_DESCRIPTOR_TOKEN_FAIL, opkey) ;;
    ensure write_data (WriteInt32 slotId) or (TELEPHONY_ERR_WRITE_DATA_FAIL, opkey) ;;
    require Remote or (TELEPHONY_ERR_IPC_CONNECT_STUB_FAIL, opkey) ;;
    request GET_TARGET_OPKEY or st => (TELEPHONY_ERR_IPC_CONNECT_STUB_FAIL, opkey) ;;
    opkey ← read_reply ReadString16 [];
    result ← read_reply ReadInt32 0;
    mret (result, opkey)).
Definition GetOpkeyVersion (versionInfo : cstring) : M P W (Z * cstring) :=
  with_parcels (
    ensure WriteInterfaceToken or (TELEPHONY_ERR_WRITE_DESCRIPTOR_TOKEN_FAIL, versionInfo) ;;
    require Remote or (TELEPHONY_ERR_IPC_CONNECT_STUB_FAIL, versionInfo) ;;
    request GET_OPKEY_VERSION or st => (TELEPHONY_ERR_IPC_CONNECT_STUB_FAIL, versionInfo) ;;
    versionInfo ← read_reply ReadString [];
    result ← read_reply ReadInt32 0;
    mret (result, versionInfo)).
Definition GetOpnameVersion (versionInfo : cstring) : M P W (Z * cstring) :=
  with_parcels (
    ensure WriteInterfaceToken or (TELEPHONY_ERR_WRITE_DESCRIPTOR_TOKEN_FAIL, versionInfo) ;;
    require Remote or (TELEPHONY_ERR_IPC_CONNECT_STUB_FAIL, versionInfo) ;;
    request GET_OPNAME_VERSION or st => (TELEPHONY_ERR_IPC_CONNECT_STUB_FAIL, versionInfo) ;;
    versionInfo ← read_reply ReadString [];
    result ← read_reply ReadInt32 0;
    mret (result, versionInfo)).
Definition GetSimIO (slotId command fileId : Z) (dataStr path : cstring) (response : SimAuthenticationResponse) : M P W (Z * SimAuthenticationResponse) :=
  with_parcels (
    ensure WriteInterfaceToken or (ERROR, response) ;;
    write_data (WriteInt32 slotId) ;;
    write_data (WriteInt32 command) ;;
    write_data (WriteInt32 fileId) ;;
    write_data (WriteString dataStr) ;;
    write_data (WriteString path) ;;
    require Remote or (ERROR, response) ;;
    request GET_SIM_IO_DONE or st => (ERROR, response) ;;
    ret ← read_reply ReadInt32 0;
    sw1 ← read_reply ReadInt32 0;
    sw2 ← read_reply ReadInt32 0;
    text ← read_reply ReadString [];
    mret (ret, MkSimAuth sw1 sw2 text)).
Definition GetShowName (slotId : Z) (callback : option remote) : M P W Z :=
  with_parcels (
    ensure IsValidSlotId slotId or TELEPHONY_ERR_SLOTID_INVALID ;;
    ensure WriteInterfaceToken or TELEPHONY_ERR_WRITE_DESCRIPTOR_TOKEN_FAIL ;;
    write_data (WriteInt32 slotId) ;;
    nonnull callback := callback or TELEPHONY_ERR_IPC_CONNECT_STUB_FAIL ;;
    write_data (WriteRemoteObject callback) ;;
    require Remote or TELEPHONY_ERR_IPC_CONNECT_STUB_FAIL ;;
    request GET_SHOW_NAME or st => TELEPHONY_ERR_IPC_CONNECT_STUB_FAIL ;;
    read_reply ReadInt32 0).
(** The loop of [GetAllSimAccountInfoList]. *)
Fixpoint read_accounts_lax (n : nat) (acc : list IccAccountInfo) : M P W (list IccAccountInfo) :=
  match n with
  | O => mret acc
  | S m => '(_, a) ← read_object IccAccountInfo_ReadFromParcel IccAccountInfo_new; read_accounts_lax m (acc ++ [a])
  end.
Definition GetAllSimAccountInfoList (iccAccountInfoList : list IccAccountInfo) : M P W (Z * list IccAccountInfo) :=
  with_parcels (
    ensure WriteInterfaceToken or (TELEPHONY_ERR_IPC_CONNECT_STUB_FAIL, iccAccountInfoList) ;;
    require Remote or (TELEPHONY_ERR_IPC_CONNECT_STUB_FAIL, iccAccountInfoList) ;;
    request GET_ALL_ACCOUNT_INFO_LIST or st => (TELEPHONY_ERR_IPC_CONNECT_STUB_FAIL, iccAccountInfoList) ;;
    result ← read_reply ReadInt32 0;
    if result =? TELEPHONY_ERR_SUCCESS then
      size ← read_reply ReadInt32 0;
      require negb ((size >? MAX_VECTOR) || (size <? 0)) or (TELEPHONY_ERR_IPC_CONNECT_STUB_FAIL, iccAccountInfoList) ;;
      iccAccountInfoList ← read_accounts_lax (Z.to_nat size) [];
      mret (result, iccAccountInfoList)
    else mret (result, iccAccountInfoList)).
Definition GetSimLabel (slotId : Z) (callback : option remote) (simLabel : SimLabel) : M P W (Z * SimLabel) :=
  with_parcels (
    ensure WriteInterfaceToken or (TELEPHONY_ERR_IPC_CONNECT_STUB_FAIL, simLabel) ;;
    write_data (WriteInt32 slotId) ;;
    nonnull callback := callback or (TELEPHONY_ERR_IPC_CONNECT_STUB_FAIL, simLabel) ;;
    write_data (WriteRemoteObject callback) ;;
    require Remote or (TELEPHONY_ERR_IPC_CONNECT_STUB_FAIL, simLabel) ;;
    request GET_SIM_LABEL or st => (TELEPHONY_ERR_IPC_CONNECT_STUB_FAIL, simLabel) ;;
    result ← read_reply ReadInt32 0;
    if result =? TELEPHONY_ERR_SUCCESS then
      t ← read_reply ReadInt32 0;
      i ← read_reply ReadInt32 0;
      mret (result, MkSimLabel t i)
    else mret (result, simLabel)).
Definition WriteEsimApduData (d : EsimApduData) : wstep P :=
  WriteBool (closeChannelFlag_ d) ;;w WriteBool (unusedDefaultReqHeadFlag_ d) ;;w WriteString16 (data_ d) ;;w WriteInt32 (instructionType_ d) ;;w
  WriteInt32 (instruction_ d) ;;w WriteInt32 (p1_ d) ;;w WriteInt32 (p2_ d) ;;w WriteInt32 (p3_ d).
Definition SendApduData (slotId : Z) (aid : u16string) (apduData : EsimApduData) (responseResult : ResponseEsimResult) : M P W (Z * ResponseEsimResult) :=
  with_parcels (
    ensure WriteInterfaceToken or (TELEPHONY_ERR_IPC_CONNECT_STUB_FAIL, responseResult) ;;
    ensure write_data (WriteInt32 slotId) or (TELEPHONY_ERR_WRITE_DATA_FAIL, responseResult) ;;
    ensure write_data (WriteString16 aid) or (TELEPHONY_ERR_WRITE_DATA_FAIL, responseResult) ;;
    ensure write_data (WriteEsimApduData apduData) or (TELEPHONY_ERR_WRITE_DATA_FAIL, responseResult) ;;
    require Remote or (TELEPHONY_ERR_IPC_CONNECT_STUB_FAIL, responseResult) ;;
    request SEND_APDU_DATA or st => (TELEPHONY_ERR_IPC_CONNECT_STUB_FAIL, responseResult) ;;
    result ← read_reply ReadInt32 0;
    if result =? TELEPHONY_ERR_SUCCESS then
      code ← read_reply ReadInt32 0;
      text ← read_reply ReadString16 [];
      sw1 ← read_reply ReadInt32 0;
      sw2 ← read_reply ReadInt32 0;
      mret (result, MkEsimResult code text sw1 sw2)
    else mret (result, responseResult)).
Definition GetManualNetworkScanState (slotId : Z) (callback : option remote) : M P W Z :=
  with_parcels (
    ensure WriteInterfaceToken or TELEPHONY_ERR_WRITE_DESCRIPTOR_TOKEN_FAIL ;;
    write_data (WriteInt32 slotId) ;;
    if_nonnull callback (fun callback => write_data (WriteRemoteObject callback)) ;;
    require Remote or TELEPHONY_ERR_IPC_CONNECT_STUB_FAIL ;;
    request GET_MANUAL_NETWORK_SCAN_STATE or st => TELEPHONY_ERR_IPC_CONNECT_STUB_FAIL ;;
    read_reply ReadInt32 0).
Definition StartManualNetworkScanCallback (slotId : Z) (callback : option remote) : M P W Z :=
  with_parcels (
    ensure WriteInterfaceToken or TELEPHONY_ERR_WRITE_DESCRIPTOR_TOKEN_FAIL ;;
    write_data (WriteInt32 slotId) ;;
    if_nonnull callback (fun callback => write_data (WriteRemoteObject callback)) ;;
    require Remote or TELEPHONY_ERR_IPC_CONNECT_STUB_FAIL ;;
    request START_MANUAL_NETWORK_SCAN or st => TELEPHONY_ERR_IPC_CONNECT_STUB_FAIL ;;
    read_reply ReadInt32 0).
Definition StopManualNetworkScanCallback (slotId : Z) : M P W Z :=
  with_parcels (
    ensure WriteInterfaceToken or TELEPHONY_ERR_WRITE_DESCRIPTOR_TOKEN_FAIL ;;
    write_data (WriteInt32 slotId) ;;
    require Remote or TELEPHONY_ERR_IPC_CONNECT_STUB_FAIL ;;
    request STOP_MANUAL_NETWORK_SCAN or st => TELEPHONY_ERR_IPC_CONNECT_STUB_FAIL ;;
    read_reply ReadInt32 0).
Definition StartHiddenCameraDetection (callback : option remote) (config : HiddenCameraDetectionConfig) (rawCallback : option remote) : M P W Z :=
  with_parcels (
    ensure WriteInterfaceToken or TELEPHONY_ERR_WRITE_DESCRIPTOR_TOKEN_FAIL ;;
    ensure write_data (WriteUint32 (period config)) or TELEPHONY_ERR_WRITE_DATA_FAIL ;;
    nonnull callback := callback or TELEPHONY_ERR_ARGUMENT_INVALID ;;
    ensure write_data (WriteRemoteObject callback) or TELEPHONY_ERR_WRITE_DATA_FAIL ;;
    nonnull rawCallback := rawCallback or TELEPHONY_ERR_ARGUMENT_INVALID ;;
    ensure write_data (WriteRemoteObject rawCallback) or TELEPHONY_ERR_WRITE_DATA_FAIL ;;
    require Remote or TELEPHONY_ERR_IPC_CONNECT_STUB_FAIL ;;
    request_async START_HIDDEN_CAMERA_DETECTION or st => TELEPHONY_ERR_IPC_CONNECT_STUB_FAIL ;;
    mret TELEPHONY_SUCCESS).
Definition StopHiddenCameraDetection (rawCallback : option remote) : M P W Z :=
  with_parcels (
    ensure WriteInterfaceToken or TELEPHONY_ERR_WRITE_DESCRIPTOR_TOKEN_FAIL ;;
    nonnull rawCallback := rawCallback or TELEPHONY_ERR_ARGUMENT_INVALID ;;
    ensure write_data (WriteRemoteObject rawCallback) or TELEPHONY_ERR_WRITE_DATA_FAIL ;;
    require Remote or TELEPHONY_ERR_IPC_CONNECT_STUB_FAIL ;;
    request_async STOP_HIDDEN_CAMERA_DETECTION or st => TELEPHONY_ERR_IPC_CONNECT_STUB_FAIL ;;
    mret TELEPHONY_SUCCESS).
Definition KeepHiddenCameraDetection (rawCallback : option remote) : M P W Z :=
  with_parcels (
    ensure WriteInterfaceToken or TELEPHONY_ERR_WRITE_DESCRIPTOR_TOKEN_FAIL ;;
    nonnull rawCallback := rawCallback or TELEPHONY_ERR_ARGUMENT_INVALID ;;
    ensure write_data (WriteRemoteObject rawCallback) or TELEPHONY_ERR_WRITE_DATA_FAIL ;;
    require Remote or TELEPHONY_ERR_IPC_CONNECT_STUB_FAIL ;;
    request_async KEEP_HIDDEN_CAMERA_DETECTION or st => TELEPHONY_ERR_IPC_CONNECT_STUB_FAIL ;;
    mret TELEPHONY_SUCCESS).
Definition SetSimLabelIndex (simId simLabelIndex : Z) (callback : option remote) : M P W Z :=
  with_parcels (
    ensure WriteInterfaceToken or TELEPHONY_ERR_WRITE_DESCRIPTOR_TOKEN_FAIL ;;
    ensure write_data (WriteInt32 simId) or TELEPHONY_ERR_WRITE_DATA_FAIL ;;
    ensure write_data (WriteInt32 simLabelIndex) or TELEPHONY_ERR_WRITE_DATA_FAIL ;;
    nonnull callback := callback or TELEPHONY_ERR_ARGUMENT_INVALID ;;
    write_data (WriteRemoteObject callback) ;;
    require Remote or TELEPHONY_ERR_IPC_CONNECT_STUB_FAIL ;;
    request SET_SIM_LABEL_INDEX or st => TELEPHONY_ERR_IPC_CONNECT_STUB_FAIL ;;
    read_reply ReadInt32 0).
Definition IsMultiSimsCapabilitySupported (slotId : Z) : M P W bool :=
  with_parcels (
    ensure WriteInterfaceToken or false ;;
    ensure write_data (WriteInt32 slotId) or false ;;
    require Remote or false ;;
    request IS_MULTI_SIMS_CAPABILITY_SUPPORTED or st => false ;;
    result ← read_reply ReadBool false;
    mret result).
End Proxy.
End CoreServiceProxy.
