(* ===== verification/CoreServiceStub.v ===== *)
(** * [services/core/src/core_service_stub.cpp]: the server side of the core service

    One handler per request: it reads the arguments from [data], calls the method of the service and writes the answer to [reply];
    [OnRemoteRequest] checks the interface descriptor and finds the handler of a code in [memberFuncMap_]. The service itself, [iface_cast]
    and the default handler of the IPC library are parameters. The watchdog timer that [OnRemoteRequest] sets around a handler is not modelled. *)

From S2P Require Import Prelude CxxString Parcel Parcelables OperatorConfig CellInformation NetworkState SignalInformation SignalInfo CoreServiceApi.
Open Scope Z_scope.
Open Scope ipc_scope.

(** [service]: the methods of the core service; [IPCObjectStub_OnRemoteRequest]: the base class's answer to other codes. *)
Class ServerSystem (P W : Type) : Type := {
  service : forall R, coreE R -> W -> R * W;
  iface_cast : remote -> option remote;
  IPCObjectStub_OnRemoteRequest : Z -> P -> P -> Z * P * P
}.

Definition is_null {A} (x : option A) : bool := match x with Some _ => false | None => true end.

Module CoreServiceStub.
Section Stub.
Context {P W : Type} `{ParcelOps P} `{ErrorCodes} `{StringEx} `{!ServerSystem P W}.

(** A call of the service. *)
Definition serve {R} (c : coreE R) : M P W R := fun s => let '(r, w) := service R c (world s) in Ret (r, MkIpc (data s) (reply s) w).
(** [iface_cast<X>(data.ReadRemoteObject())] *)
Definition read_callback : M P W (option remote) := r ← read_data_opt ReadRemoteObject; mret (r ≫= iface_cast).
(** [X::Unmarshalling(data)] *)
Definition data_unmarshal {A} (u : P -> option A * P) : M P W (option A) :=
  fun s => let '(v, p) := u (data s) in Ret (v, MkIpc p (reply s) (world s)).

(** ** Handlers *)

Definition OnGetPsRadioTech : M P W Z :=
  slotId ← read_data ReadInt32 0;
  '(result, radioTech) ← serve (ICoreService.GetPsRadioTech slotId);
  ret ← write_reply (WriteInt32 result);
  ret ← (if result =? TELEPHONY_ERR_SUCCESS then and_write ret (WriteInt32 radioTech) else mret ret);
  require ret or TELEPHONY_ERR_WRITE_DATA_FAIL ;;
  mret NO_ERROR.
Definition OnGetCsRadioTech : M P W Z :=
  slotId ← read_data ReadInt32 0;
  '(result, radioTech) ← serve (ICoreService.GetCsRadioTech slotId);
  ret ← write_reply (WriteInt32 result);
  ret ← (if result =? TELEPHONY_ERR_SUCCESS then and_write ret (WriteInt32 radioTech) else mret ret);
  require ret or TELEPHONY_ERR_WRITE_DATA_FAIL ;;
  mret NO_ERROR.
Definition OnGetOperatorNumeric : M P W Z :=
  slotId ← read_data ReadInt32 0;
  result ← serve (ICoreService.GetOperatorNumeric slotId);
  write_reply (WriteString16 result) ;;
  mret NO_ERROR.
Definition OnGetResidentNetworkNumeric : M P W Z :=
  slotId ← read_data ReadInt32 0;
  result ← serve (ICoreService.GetResidentNetworkNumeric slotId);
  write_reply (WriteString result) ;;
  mret NO_ERROR.
Definition OnGetOperatorName : M P W Z :=
  slotId ← read_data ReadInt32 0;
  '(result, operatorName) ← serve (ICoreService.GetOperatorName slotId);
  ret ← write_reply (WriteInt32 result);
  ret ← (if result =? TELEPHONY_ERR_SUCCESS then and_write ret (WriteString16 operatorName) else mret ret);
  require ret or TELEPHONY_ERR_WRITE_DATA_FAIL ;;
  mret NO_ERROR.
(** The part of [OnGetSignalInfoList] after the call, of SignalInfo.v. *)
Definition reply_signals (result : Z) (signals : list SignalInformation) : M P W bool := write_reply (SignalInfo.OnGetSignalInfoList result signals).
Definition OnGetSignalInfoList : M P W Z :=
  slotId ← read_data ReadInt32 0;
  '(result, signals) ← serve (ICoreService.GetSignalInfoList slotId);
  ensure reply_signals result signals or TELEPHONY_ERR_WRITE_DATA_FAIL ;;
  mret NO_ERROR.
Definition OnGetNetworkState : M P W Z :=
  slotId ← read_data ReadInt32 0;
  '(result, networkState) ← serve (ICoreService.GetNetworkState slotId);
  let result := if is_null networkState && negb (result =? TELEPHONY_ERR_PERMISSION_ERR) then TELEPHONY_ERR_LOCAL_PTR_NULL else result in
  ensure write_reply (WriteInt32 result) or TELEPHONY_ERR_WRITE_DATA_FAIL ;;
  _ ← (if result =? TELEPHONY_ERR_SUCCESS then
         match networkState with Some n => write_reply (NetworkState.Marshalling n) | None => fun _ => Undef end
       else mret true);
  mret NO_ERROR.
Definition OnSetRadioState : M P W Z :=
  slotId ← read_data ReadInt32 0;
  remoteCallback ← read_data_opt ReadRemoteObject;
  require negb (is_null remoteCallback) or TELEPHONY_ERR_IPC_CONNECT_STUB_FAIL ;;
  let callback := remoteCallback ≫= iface_cast in
  require negb (is_null callback) or TELEPHONY_ERR_LOCAL_PTR_NULL ;;
  isOn ← read_data ReadBool false;
  result ← serve (ICoreService.SetRadioState slotId isOn callback);
  ensure write_reply (WriteInt32 result) or TELEPHONY_ERR_WRITE_DATA_FAIL ;;
  mret NO_ERROR.
Definition OnGetRadioState : M P W Z :=
  slotId ← read_data ReadInt32 0;
  remoteCallback ← read_data_opt ReadRemoteObject;
  require negb (is_null remoteCallback) or TELEPHONY_ERR_LOCAL_PTR_NULL ;;
  let callback := remoteCallback ≫= iface_cast in
  require negb (is_null callback) or TELEPHONY_ERR_LOCAL_PTR_NULL ;;
  result ← serve (ICoreService.GetRadioState slotId callback);
  ensure write_reply (WriteInt32 result) or TELEPHONY_ERR_WRITE_DATA_FAIL ;;
  mret NO_ERROR.
Definition OnGetIsoCountryCodeForNetwork : M P W Z :=
  slotId ← read_data ReadInt32 0;
  '(result, countryCode) ← serve (ICoreService.GetIsoCountryCodeForNetwork slotId);
  ret ← write_reply (WriteInt32 result);
  ret ← (if result =? TELEPHONY_ERR_SUCCESS then and_write ret (WriteString16 countryCode) else mret ret);
  require ret or TELEPHONY_ERR_WRITE_DATA_FAIL ;;
  mret NO_ERROR.
Definition OnGetImei : M P W Z :=
  slotId ← read_data ReadInt32 0;
  callback ← read_callback;
  result ← serve (ICoreService.GetImei slotId callback);
  ensure write_reply (WriteInt32 result) or TELEPHONY_ERR_WRITE_REPLY_FAIL ;;
  mret NO_ERROR.
Definition OnGetImeiSv : M P W Z :=
  slotId ← read_data ReadInt32 0;
  callback ← read_callback;
  result ← serve (ICoreService.GetImeiSv slotId callback);
  ensure write_reply (WriteInt32 result) or TELEPHONY_ERR_WRITE_REPLY_FAIL ;;
  mret NO_ERROR.
Definition OnGetMeid : M P W Z :=
  slotId ← read_data ReadInt32 0;
  '(result, meid) ← serve (ICoreService.GetMeid slotId);
  ensure write_reply (WriteInt32 result) or TELEPHONY_ERR_WRITE_REPLY_FAIL ;;
  ok ← (if result =? TELEPHONY_ERR_SUCCESS then write_reply (WriteString16 meid) else mret true);
  require (ok : bool) or TELEPHONY_ERR_WRITE_REPLY_FAIL ;;
  mret NO_ERROR.
Definition OnGetUniqueDeviceId : M P W Z :=
  slotId ← read_data ReadInt32 0;
  '(result, deviceId) ← serve (ICoreService.GetUniqueDeviceId slotId);
  ensure write_reply (WriteInt32 result) or TELEPHONY_ERR_WRITE_REPLY_FAIL ;;
  ok ← (if result =? TELEPHONY_ERR_SUCCESS then write_reply (WriteString16 deviceId) else mret true);
  require (ok : bool) or TELEPHONY_ERR_WRITE_REPLY_FAIL ;;
  mret NO_ERROR.
Definition OnIsNrSupported : M P W Z :=
  slotId ← read_data ReadInt32 0;
  result ← serve (ICoreService.IsNrSupported slotId);
  ret ← write_reply (WriteBool result);
  require ret or ERR_FLATTEN_OBJECT ;;
  mret NO_ERROR.
Definition OnSetNrOptionMode : M P W Z :=
  slotId ← read_data ReadInt32 0;
  nrMode ← read_data ReadInt32 0;
  remoteCallback ← read_data_opt ReadRemoteObject;
  require negb (is_null remoteCallback) or TELEPHONY_ERR_IPC_CONNECT_STUB_FAIL ;;
  let callback := remoteCallback ≫= iface_cast in
  require negb (is_null callback) or TELEPHONY_ERR_LOCAL_PTR_NULL ;;
  result ← serve (ICoreService.SetNrOptionMode slotId nrMode callback);
  ensure write_reply (WriteInt32 result) or TELEPHONY_ERR_WRITE_REPLY_FAIL ;;
  mret NO_ERROR.
Definition OnGetNrOptionMode : M P W Z :=
  slotId ← read_data ReadInt32 0;
  remoteCallback ← read_data_opt ReadRemoteObject;
  require negb (is_null remoteCallback) or TELEPHONY_ERR_IPC_CONNECT_STUB_FAIL ;;
  let callback := remoteCallback ≫= iface_cast in
  require negb (is_null callback) or TELEPHONY_ERR_LOCAL_PTR_NULL ;;
  result ← serve (ICoreService.GetNrOptionMode slotId callback);
  ensure write_reply (WriteInt32 result) or TELEPHONY_ERR_WRITE_REPLY_FAIL ;;
  mret NO_ERROR.
Definition OnHasSimCard : M P W Z :=
  slotId ← read_data ReadInt32 0;
  callback ← read_callback;
  result ← serve (ICoreService.HasSimCard slotId callback);
  ensure write_reply (WriteInt32 result) or TELEPHONY_ERR_WRITE_REPLY_FAIL ;;
  mret NO_ERROR.
Definition OnGetSimState : M P W Z :=
  slotId ← read_data ReadInt32 0;
  callback ← read_callback;
  result ← serve (ICoreService.GetSimState slotId callback);
  ensure write_reply (WriteInt32 result) or TELEPHONY_ERR_WRITE_REPLY_FAIL ;;
  mret NO_ERROR.
Definition OnGetDsdsMode : M P W Z :=
  '(result, dsdsMode) ← serve ICoreService.GetDsdsMode;
  ret ← write_reply (WriteInt32 result);
  ret ← (if result =? TELEPHONY_ERR_SUCCESS then and_write ret (WriteInt32 dsdsMode) else mret ret);
  require ret or TELEPHONY_ERR_WRITE_REPLY_FAIL ;;
  mret NO_ERROR.
Definition OnGetCardType : M P W Z :=
  slotId ← read_data ReadInt32 0;
  '(result, cardType) ← serve (ICoreService.GetCardType slotId);
  ret ← write_reply (WriteInt32 result);
  ret ← (if result =? TELEPHONY_ERR_SUCCESS then and_write ret (WriteInt32 cardType) else mret ret);
  require ret or TELEPHONY_ERR_WRITE_REPLY_FAIL ;;
  mret NO_ERROR.
Definition OnGetISOCountryCodeForSim : M P W Z :=
  slotId ← read_data ReadInt32 0;
  '(result, countryCode) ← serve (ICoreService.GetISOCountryCodeForSim slotId);
  ret ← write_reply (WriteInt32 result);
  ret ← (if result =? TELEPHONY_ERR_SUCCESS then and_write ret (WriteString16 countryCode) else mret ret);
  require ret or TELEPHONY_ERR_WRITE_REPLY_FAIL ;;
  mret NO_ERROR.
Definition OnGetSimSpn : M P W Z :=
  slotId ← read_data ReadInt32 0;
  '(result, spn) ← serve (ICoreService.GetSimSpn slotId);
  ret ← write_reply (WriteInt32 result);
  ret ← (if result =? TELEPHONY_ERR_SUCCESS then and_write ret (WriteString16 spn) else mret ret);
  require ret or TELEPHONY_ERR_WRITE_REPLY_FAIL ;;
  mret NO_ERROR.
Definition OnGetSimIccId : M P W Z :=
  slotId ← read_data ReadInt32 0;
  '(result, iccId) ← serve (ICoreService.GetSimIccId slotId);
  ret ← write_reply (WriteInt32 result);
  ret ← (if result =? TELEPHONY_ERR_SUCCESS then and_write ret (WriteString16 iccId) else mret ret);
  require ret or TELEPHONY_ERR_WRITE_REPLY_FAIL ;;
  mret NO_ERROR.
Definition OnGetSimOperatorNumeric : M P W Z :=
  slotId ← read_data ReadInt32 0;
  '(result, operatorNumeric) ← serve (ICoreService.GetSimOperatorNumeric slotId);
  ret ← write_reply (WriteInt32 result);
  ret ← (if result =? TELEPHONY_ERR_SUCCESS then and_write ret (WriteString16 operatorNumeric) else mret ret);
  require ret or TELEPHONY_ERR_WRITE_REPLY_FAIL ;;
  mret NO_ERROR.
Definition OnGetIMSI : M P W Z :=
  slotId ← read_data ReadInt32 0;
  '(result, imsi) ← serve (ICoreService.GetIMSI slotId);
  ret ← write_reply (WriteInt32 result);
  ret ← (if result =? TELEPHONY_ERR_SUCCESS then and_write ret (WriteString16 imsi) else mret ret);
  require ret or TELEPHONY_ERR_WRITE_REPLY_FAIL ;;
  mret NO_ERROR.
Definition OnIsCTSimCard : M P W Z :=
  slotId ← read_data ReadInt32 0;
  callback ← read_callback;
  result ← serve (ICoreService.IsCTSimCard slotId callback);
  ensure write_reply (WriteInt32 result) or TELEPHONY_ERR_WRITE_REPLY_FAIL ;;
  mret NO_ERROR.
Definition OnIsSimActive : M P W Z :=
  slotId ← read_data ReadInt32 0;
  callback ← read_callback;
  result ← serve (ICoreService.IsSimActive slotId callback);
  ensure write_reply (WriteBool result) or ERR_FLATTEN_OBJECT ;;
  mret NO_ERROR.
Definition OnGetSlotId : M P W Z :=
  simId ← read_data ReadInt32 0;
  result ← serve (ICoreService.GetSlotId simId);
  ret ← write_reply (WriteInt32 result);
  require ret or ERR_FLATTEN_OBJECT ;;
  mret NO_ERROR.
Definition OnGetSimId : M P W Z :=
  slotId ← read_data ReadInt32 0;
  result ← serve (ICoreService.GetSimId slotId);
  ret ← write_reply (WriteInt32 result);
  require ret or ERR_FLATTEN_OBJECT ;;
  mret NO_ERROR.
Definition OnGetNetworkSearchInformation : M P W Z :=
  slotId ← read_data ReadInt32 0;
  remoteCallback ← read_data_opt ReadRemoteObject;
  let callback := remoteCallback ≫= iface_cast in
  require negb (is_null callback) or TELEPHONY_ERR_LOCAL_PTR_NULL ;;
  result ← serve (ICoreService.GetNetworkSearchInformation slotId callback);
  ensure write_reply (WriteInt32 result) or TELEPHONY_ERR_WRITE_REPLY_FAIL ;;
  mret NO_ERROR.
Definition OnGetNetworkSelectionMode : M P W Z :=
  slotId ← read_data ReadInt32 0;
  remoteCallback ← read_data_opt ReadRemoteObject;
  let callback := remoteCallback ≫= iface_cast in
  require negb (is_null callback) or TELEPHONY_ERR_LOCAL_PTR_NULL ;;
  result ← serve (ICoreService.GetNetworkSelectionMode slotId callback);
  ensure write_reply (WriteInt32 result) or TELEPHONY_ERR_WRITE_DATA_FAIL ;;
  mret NO_ERROR.
Definition OnSetNetworkSelectionMode : M P W Z :=
  slotId ← read_data ReadInt32 0;
  selectMode ← read_data ReadInt32 0;
  resumeSelection ← read_data ReadBool false;
  remoteCallback ← read_data_opt ReadRemoteObject;
  let callback := remoteCallback ≫= iface_cast in
  networkState ← data_unmarshal NetworkInformation_Unmarshalling;
  require negb (is_null callback) or TELEPHONY_ERR_LOCAL_PTR_NULL ;;
  result ← serve (ICoreService.SetNetworkSelectionMode slotId selectMode networkState resumeSelection callback);
  ensure write_reply (WriteInt32 result) or TELEPHONY_ERR_WRITE_REPLY_FAIL ;;
  mret NO_ERROR.
Definition OnGetLocaleFromDefaultSim : M P W Z :=
  result ← serve (ICoreService.GetLocaleFromDefaultSim);
  ret ← write_reply (WriteString16 result);
  require ret or ERR_FLATTEN_OBJECT ;;
  mret NO_ERROR.
Definition OnGetSimGid1 : M P W Z :=
  slotId ← read_data ReadInt32 0;
  '(result, gid1) ← serve (ICoreService.GetSimGid1 slotId);
  ret ← write_reply (WriteInt32 result);
  ret ← (if result =? TELEPHONY_ERR_SUCCESS then and_write ret (WriteString16 gid1) else mret ret);
  require ret or TELEPHONY_ERR_WRITE_REPLY_FAIL ;;
  mret NO_ERROR.
Definition OnGetSimGid2 : M P W Z :=
  slotId ← read_data ReadInt32 0;
  result ← serve (ICoreService.GetSimGid2 slotId);
  ret ← write_reply (WriteString16 result);
  require ret or ERR_FLATTEN_OBJECT ;;
  mret NO_ERROR.
Definition OnGetSimEons : M P W Z :=
  slotId ← read_data ReadInt32 0;
  plmn ← read_data ReadString [];
  lac ← read_data ReadInt32 0;
  longNameRequired ← read_data ReadBool false;
  result ← serve (ICoreService.GetSimEons slotId plmn lac longNameRequired);
  ret ← write_reply (WriteString16 result);
  require ret or ERR_FLATTEN_OBJECT ;;
  mret NO_ERROR.
Definition OnGetSimSubscriptionInfo : M P W Z :=
  slotId ← read_data ReadInt32 0;
  '(result, iccAccountInfo) ← serve (ICoreService.GetSimAccountInfo slotId);
  ret ← write_reply (WriteInt32 result);
  ensure write_reply (IccAccountInfo_Marshalling iccAccountInfo) or TELEPHONY_ERR_WRITE_REPLY_FAIL ;;
  require ret or TELEPHONY_ERR_WRITE_REPLY_FAIL ;;
  mret NO_ERROR.
Definition OnSetDefaultVoiceSlotId : M P W Z :=
  slotId ← read_data ReadInt32 0;
  result ← serve (ICoreService.SetDefaultVoiceSlotId slotId);
  ret ← write_reply (WriteInt32 result);
  require ret or TELEPHONY_ERR_WRITE_REPLY_FAIL ;;
  mret NO_ERROR.
Definition OnGetDefaultVoiceSlotId : M P W Z :=
  result ← serve (ICoreService.GetDefaultVoiceSlotId);
  ret ← write_reply (WriteInt32 result);
  require ret or ERR_FLATTEN_OBJECT ;;
  mret NO_ERROR.
Definition OnGetDefaultVoiceSimId : M P W Z :=
  callback ← read_callback;
  result ← serve (ICoreService.GetDefaultVoiceSimId callback);
  ensure write_reply (WriteInt32 result) or TELEPHONY_ERR_WRITE_REPLY_FAIL ;;
  mret NO_ERROR.
Definition OnSetPrimarySlotId : M P W Z :=
  slotId ← read_data ReadInt32 0;
  result ← serve (ICoreService.SetPrimarySlotId slotId);
  ensure write_reply (WriteInt32 result) or TELEPHONY_ERR_WRITE_REPLY_FAIL ;;
  mret NO_ERROR.
Definition OnGetPrimarySlotId : M P W Z :=
  '(result, slotId) ← serve (ICoreService.GetPrimarySlotId);
  ret ← write_reply (WriteInt32 result);
  ret ← (if result =? TELEPHONY_ERR_SUCCESS then and_write ret (WriteInt32 slotId) else mret ret);
  require ret or TELEPHONY_ERR_WRITE_DATA_FAIL ;;
  mret NO_ERROR.
Definition OnUnlockPin : M P W Z :=
  slotId ← read_data ReadInt32 0;
  pin ← read_data ReadString16 [];
  callback ← read_callback;
  result ← serve (ICoreService.UnlockPin slotId pin callback);
  ensure write_reply (WriteInt32 result) or TELEPHONY_ERR_WRITE_REPLY_FAIL ;;
  mret NO_ERROR.
Definition OnUnlockPuk : M P W Z :=
  slotId ← read_data ReadInt32 0;
  newPin ← read_data ReadString16 [];
  puk ← read_data ReadString16 [];
  callback ← read_callback;
  result ← serve (ICoreService.UnlockPuk slotId newPin puk callback);
  ensure write_reply (WriteInt32 result) or TELEPHONY_ERR_WRITE_REPLY_FAIL ;;
  mret NO_ERROR.
Definition OnAlterPin : M P W Z :=
  slotId ← read_data ReadInt32 0;
  newPin ← read_data ReadString16 [];
  oldPin ← read_data ReadString16 [];
  callback ← read_callback;
  result ← serve (ICoreService.AlterPin slotId newPin oldPin callback);
  ensure write_reply (WriteInt32 result) or TELEPHONY_ERR_WRITE_REPLY_FAIL ;;
  mret NO_ERROR.
Definition OnUnlockPin2 : M P W Z :=
  slotId ← read_data ReadInt32 0;
  pin2 ← read_data ReadString16 [];
  callback ← read_callback;
  result ← serve (ICoreService.UnlockPin2 slotId pin2 callback);
  ensure write_reply (WriteInt32 result) or TELEPHONY_ERR_WRITE_REPLY_FAIL ;;
  mret NO_ERROR.
Definition OnUnlockPuk2 : M P W Z :=
  slotId ← read_data ReadInt32 0;
  newPin2 ← read_data ReadString16 [];
  puk2 ← read_data ReadString16 [];
  callback ← read_callback;
  result ← serve (ICoreService.UnlockPuk2 slotId newPin2 puk2 callback);
  ensure write_reply (WriteInt32 result) or TELEPHONY_ERR_WRITE_REPLY_FAIL ;;
  mret NO_ERROR.
Definition OnAlterPin2 : M P W Z :=
  slotId ← read_data ReadInt32 0;
  newPin2 ← read_data ReadString16 [];
  oldPin2 ← read_data ReadString16 [];
  callback ← read_callback;
  result ← serve (ICoreService.AlterPin2 slotId newPin2 oldPin2 callback);
  ensure write_reply (WriteInt32 result) or TELEPHONY_ERR_WRITE_REPLY_FAIL ;;
  mret NO_ERROR.
Definition OnSetLockState : M P W Z :=
  slotId ← read_data ReadInt32 0;
  lockType ← read_data ReadInt32 0;
  lockState ← read_data ReadInt32 0;
  password ← read_data ReadString16 [];
  callback ← read_callback;
  result ← serve (ICoreService.SetLockState slotId (MkLockInfo lockType password lockState) callback);
  ensure write_reply (WriteInt32 result) or TELEPHONY_ERR_WRITE_REPLY_FAIL ;;
  mret NO_ERROR.
Definition OnGetLockState : M P W Z :=
  slotId ← read_data ReadInt32 0;
  lockType ← read_data ReadInt32 0;
  callback ← read_callback;
  result ← serve (ICoreService.GetLockState slotId lockType callback);
  ensure write_reply (WriteInt32 result) or TELEPHONY_ERR_WRITE_REPLY_FAIL ;;
  mret NO_ERROR.
Definition OnRefreshSimState : M P W Z :=
  slotId ← read_data ReadInt32 0;
  result ← serve (ICoreService.RefreshSimState slotId);
  ret ← write_reply (WriteInt32 result);
  require ret or ERR_FLATTEN_OBJECT ;;
  mret NO_ERROR.
Definition OnSetActiveSim : M P W Z :=
  slotId ← read_data ReadInt32 0;
  enable ← read_data ReadInt32 0;
  result ← serve (ICoreService.SetActiveSim slotId enable);
  ret ← write_reply (WriteInt32 result);
  require ret or TELEPHONY_ERR_WRITE_REPLY_FAIL ;;
  mret NO_ERROR.
Definition OnSetActiveSimSatellite : M P W Z :=
  slotId ← read_data ReadInt32 0;
  enable ← read_data ReadInt32 0;
  result ← serve (ICoreService.SetActiveSimSatellite slotId enable);
  ret ← write_reply (WriteInt32 result);
  require ret or TELEPHONY_ERR_WRITE_REPLY_FAIL ;;
  mret NO_ERROR.
Definition OnGetPreferredNetwork : M P W Z :=
  slotId ← read_data ReadInt32 0;
  remoteCallback ← read_data_opt ReadRemoteObject;
  let callback := remoteCallback ≫= iface_cast in
  require negb (is_null callback) or TELEPHONY_ERR_LOCAL_PTR_NULL ;;
  result ← serve (ICoreService.GetPreferredNetwork slotId callback);
  ensure write_reply (WriteInt32 result) or TELEPHONY_ERR_WRITE_REPLY_FAIL ;;
  mret NO_ERROR.
Definition OnGetNetworkCapability : M P W Z :=
  slotId ← read_data ReadInt32 0;
  networkCapabilityType ← read_data ReadInt32 0;
  '(result, networkCapabilityState) ← serve (ICoreService.GetNetworkCapability slotId networkCapabilityType);
  ret ← write_reply (WriteInt32 result);
  ret ← (if result =? TELEPHONY_ERR_SUCCESS then and_write ret (WriteInt32 networkCapabilityState) else mret ret);
  require ret or TELEPHONY_ERR_WRITE_REPLY_FAIL ;;
  mret NO_ERROR.
Definition OnSetNetworkCapability : M P W Z :=
  slotId ← read_data ReadInt32 0;
  networkCapabilityType ← read_data ReadInt32 0;
  networkCapabilityState ← read_data ReadInt32 0;
  result ← serve (ICoreService.SetNetworkCapability slotId networkCapabilityType networkCapabilityState);
  ensure write_reply (WriteInt32 result) or TELEPHONY_ERR_WRITE_REPLY_FAIL ;;
  mret NO_ERROR.
Definition OnSetShowNumber : M P W Z :=
  slotId ← read_data ReadInt32 0;
  number ← read_data ReadString16 [];
  callback ← read_callback;
  result ← serve (ICoreService.SetShowNumber slotId number callback);
  ensure write_reply (WriteInt32 result) or TELEPHONY_ERR_WRITE_REPLY_FAIL ;;
  mret NO_ERROR.
Definition OnGetShowNumber : M P W Z :=
  slotId ← read_data ReadInt32 0;
  callback ← read_callback;
  result ← serve (ICoreService.GetShowNumber slotId callback);
  ensure write_reply (WriteInt32 result) or TELEPHONY_ERR_WRITE_REPLY_FAIL ;;
  mret NO_ERROR.
Definition OnSetShowName : M P W Z :=
  slotId ← read_data ReadInt32 0;
  name ← read_data ReadString16 [];
  callback ← read_callback;
  result ← serve (ICoreService.SetShowName slotId name callback);
  ensure write_reply (WriteInt32 result) or TELEPHONY_ERR_WRITE_REPLY_FAIL ;;
  mret NO_ERROR.
Definition OnSetPreferredNetwork : M P W Z :=
  slotId ← read_data ReadInt32 0;
  networkMode ← read_data ReadInt32 0;
  remoteCallback ← read_data_opt ReadRemoteObject;
  let callback := remoteCallback ≫= iface_cast in
  require negb (is_null callback) or TELEPHONY_ERR_LOCAL_PTR_NULL ;;
  result ← serve (ICoreService.SetPreferredNetwork slotId networkMode callback);
  ensure write_reply (WriteInt32 result) or TELEPHONY_ERR_WRITE_REPLY_FAIL ;;
  mret NO_ERROR.
Definition OnGetShowName : M P W Z :=
  slotId ← read_data ReadInt32 0;
  callback ← read_callback;
  result ← serve (ICoreService.GetShowName slotId callback);
  ensure write_reply (WriteInt32 result) or TELEPHONY_ERR_WRITE_REPLY_FAIL ;;
  mret NO_ERROR.
Definition OnGetActiveSimAccountInfoList : M P W Z :=
  '(result, iccAccountInfoList) ← serve ICoreService.GetActiveSimAccountInfoList;
  ret ← write_reply (WriteInt32 result);
  ret ← and_write ret (WriteInt32 (zlen iccAccountInfoList));
  require ret or TELEPHONY_ERR_WRITE_REPLY_FAIL ;;
  ensure write_reply (Parcel.write_all IccAccountInfo_Marshalling iccAccountInfoList) or TELEPHONY_ERR_WRITE_REPLY_FAIL ;;
  mret NO_ERROR.
Definition OnGetOperatorConfig : M P W Z :=
  slotId ← read_data ReadInt32 0;
  '(result, operatorConfig) ← serve (ICoreService.GetOperatorConfigs slotId);
  ret ← write_reply (WriteInt32 result);
  require ret or TELEPHONY_ERR_WRITE_REPLY_FAIL ;;
  ok ← (if result =? TELEPHONY_ERR_SUCCESS then write_reply (OperatorConfig.Marshalling operatorConfig) else mret true);
  require (ok : bool) or TELEPHONY_ERR_WRITE_REPLY_FAIL ;;
  mret NO_ERROR.
Definition OnGetSimPhoneNumber : M P W Z :=
  slotId ← read_data ReadInt32 0;
  '(result, telephoneNumber) ← serve (ICoreService.GetSimTelephoneNumber slotId);
  ret ← write_reply (WriteInt32 result);
  ret ← (if result =? TELEPHONY_ERR_SUCCESS then and_write ret (WriteString16 telephoneNumber) else mret ret);
  require ret or TELEPHONY_ERR_WRITE_REPLY_FAIL ;;
  mret NO_ERROR.
Definition OnGetSimTeleNumberIdentifier : M P W Z :=
  slotId ← read_data ReadInt32 0;
  result ← serve (ICoreService.GetSimTeleNumberIdentifier slotId);
  ret ← write_reply (WriteString16 result);
  require ret or ERR_FLATTEN_OBJECT ;;
  mret NO_ERROR.
Definition OnGetVoiceMailInfor : M P W Z :=
  slotId ← read_data ReadInt32 0;
  '(result, voiceMailIdentifier) ← serve (ICoreService.GetVoiceMailIdentifier slotId);
  ret ← write_reply (WriteInt32 result);
  ret ← (if result =? TELEPHONY_ERR_SUCCESS then and_write ret (WriteString16 voiceMailIdentifier) else mret ret);
  require ret or TELEPHONY_ERR_WRITE_REPLY_FAIL ;;
  mret NO_ERROR.
Definition OnGetVoiceMailNumber : M P W Z :=
  slotId ← read_data ReadInt32 0;
  '(result, voiceMailNumber) ← serve (ICoreService.GetVoiceMailNumber slotId);
  ret ← write_reply (WriteInt32 result);
  ret ← (if result =? TELEPHONY_ERR_SUCCESS then and_write ret (WriteString16 voiceMailNumber) else mret ret);
  require ret or TELEPHONY_ERR_WRITE_REPLY_FAIL ;;
  mret NO_ERROR.
Definition OnGetVoiceMailCount : M P W Z :=
  slotId ← read_data ReadInt32 0;
  '(result, voiceMailCount) ← serve (ICoreService.GetVoiceMailCount slotId);
  ret ← write_reply (WriteInt32 result);
  ret ← (if result =? TELEPHONY_ERR_SUCCESS then and_write ret (WriteInt32 voiceMailCount) else mret ret);
  require ret or TELEPHONY_ERR_WRITE_REPLY_FAIL ;;
  mret NO_ERROR.
Definition OnSetVoiceMailCount : M P W Z :=
  slotId ← read_data ReadInt32 0;
  voiceMailCount ← read_data ReadInt32 0;
  result ← serve (ICoreService.SetVoiceMailCount slotId voiceMailCount);
  ensure write_reply (WriteInt32 result) or TELEPHONY_ERR_WRITE_REPLY_FAIL ;;
  mret NO_ERROR.
Definition OnSetVoiceCallForwarding : M P W Z :=
  slotId ← read_data ReadInt32 0;
  enable ← read_data ReadBool false;
  number ← read_data ReadString [];
  result ← serve (ICoreService.SetVoiceCallForwarding slotId enable number);
  ensure write_reply (WriteInt32 result) or TELEPHONY_ERR_WRITE_REPLY_FAIL ;;
  mret NO_ERROR.
Definition OnDiallingNumbersGet : M P W Z :=
  slotId ← read_data ReadInt32 0;
  type ← read_data ReadInt32 0;
  '(result, diallingNumbers) ← serve (ICoreService.QueryIccDiallingNumbers slotId type);
  ret ← write_reply (WriteInt32 result);
  require ret or TELEPHONY_ERR_WRITE_REPLY_FAIL ;;
  _ ← (if result =? TELEPHONY_ERR_SUCCESS then
         write_reply (WriteInt32 (zlen diallingNumbers)) ;; write_reply (write_each DiallingNumbersInfo_Marshalling diallingNumbers)
       else mret true);
  mret NO_ERROR.
Definition OnAddIccDiallingNumbers : M P W Z :=
  slotId ← read_data ReadInt32 0;
  type ← read_data ReadInt32 0;
  diallingNumber ← data_unmarshal DiallingNumbersInfo_UnMarshalling;
  require negb (is_null diallingNumber) or TELEPHONY_ERR_READ_DATA_FAIL ;;
  result ← serve (ICoreService.AddIccDiallingNumbers slotId type diallingNumber);
  ret ← write_reply (WriteInt32 result);
  require ret or TELEPHONY_ERR_WRITE_REPLY_FAIL ;;
  mret NO_ERROR.
Definition OnUpdateIccDiallingNumbers : M P W Z :=
  slotId ← read_data ReadInt32 0;
  type ← read_data ReadInt32 0;
  diallingNumber ← data_unmarshal DiallingNumbersInfo_UnMarshalling;
  require negb (is_null diallingNumber) or TELEPHONY_ERR_READ_DATA_FAIL ;;
  result ← serve (ICoreService.UpdateIccDiallingNumbers slotId type diallingNumber);
  ret ← write_reply (WriteInt32 result);
  require ret or TELEPHONY_ERR_WRITE_REPLY_FAIL ;;
  mret NO_ERROR.
Definition OnDelIccDiallingNumbers : M P W Z :=
  slotId ← read_data ReadInt32 0;
  type ← read_data ReadInt32 0;
  diallingNumber ← data_unmarshal DiallingNumbersInfo_UnMarshalling;
  require negb (is_null diallingNumber) or TELEPHONY_ERR_READ_DATA_FAIL ;;
  result ← serve (ICoreService.DelIccDiallingNumbers slotId type diallingNumber);
  ret ← write_reply (WriteInt32 result);
  require ret or TELEPHONY_ERR_WRITE_REPLY_FAIL ;;
  mret NO_ERROR.
Definition OnSetVoiceMailInfo : M P W Z :=
  slotId ← read_data ReadInt32 0;
  name ← read_data ReadString16 [];
  number ← read_data ReadString16 [];
  result ← serve (ICoreService.SetVoiceMailInfo slotId name number);
  ret ← write_reply (WriteInt32 result);
  require ret or TELEPHONY_ERR_WRITE_REPLY_FAIL ;;
  mret NO_ERROR.
Definition OnGetMaxSimCount : M P W Z :=
  result ← serve (ICoreService.GetMaxSimCount);
  ret ← write_reply (WriteInt32 result);
  require ret or ERR_FLATTEN_OBJECT ;;
  mret NO_ERROR.
Definition OnGetOpKey : M P W Z :=
  slotId ← read_data ReadInt32 0;
  '(result, opkey) ← serve (ICoreService.GetOpKey slotId);
  ensure write_reply (WriteInt32 result) or TELEPHONY_ERR_WRITE_REPLY_FAIL ;;
  ok ← (if result =? TELEPHONY_ERR_SUCCESS then write_reply (WriteString16 opkey) else mret true);
  require (ok : bool) or TELEPHONY_ERR_WRITE_REPLY_FAIL ;;
  mret NO_ERROR.
Definition OnGetOpKeyExt : M P W Z :=
  slotId ← read_data ReadInt32 0;
  '(result, opkeyExt) ← serve (ICoreService.GetOpKeyExt slotId);
  ensure write_reply (WriteInt32 result) or TELEPHONY_ERR_WRITE_REPLY_FAIL ;;
  ok ← (if result =? TELEPHONY_ERR_SUCCESS then write_reply (WriteString16 opkeyExt) else mret true);
  require (ok : bool) or TELEPHONY_ERR_WRITE_REPLY_FAIL ;;
  mret NO_ERROR.
Definition OnGetOpName : M P W Z :=
  slotId ← read_data ReadInt32 0;
  '(result, opname) ← serve (ICoreService.GetOpName slotId);
  ensure write_reply (WriteInt32 result) or TELEPHONY_ERR_WRITE_REPLY_FAIL ;;
  ok ← (if result =? TELEPHONY_ERR_SUCCESS then write_reply (WriteString16 opname) else mret true);
  require (ok : bool) or TELEPHONY_ERR_WRITE_REPLY_FAIL ;;
  mret NO_ERROR.
Definition OnSendEnvelopeCmd : M P W Z :=
  slotId ← read_data ReadInt32 0;
  cmd ← read_data ReadString [];
  result ← serve (ICoreService.SendEnvelopeCmd slotId cmd);
  ret ← write_reply (WriteInt32 result);
  require ret or TELEPHONY_ERR_WRITE_REPLY_FAIL ;;
  mret NO_ERROR.
Definition OnSendTerminalResponseCmd : M P W Z :=
  slotId ← read_data ReadInt32 0;
  cmd ← read_data ReadString [];
  result ← serve (ICoreService.SendTerminalResponseCmd slotId cmd);
  ret ← write_reply (WriteInt32 result);
  require ret or TELEPHONY_ERR_WRITE_REPLY_FAIL ;;
  mret NO_ERROR.
Definition OnSendCallSetupRequestResult : M P W Z :=
  slotId ← read_data ReadInt32 0;
  accept ← read_data ReadInt32 0;
  let accept := negb (accept =? 0) in
  result ← serve (ICoreService.SendCallSetupRequestResult slotId accept);
  ret ← write_reply (WriteInt32 result);
  require ret or TELEPHONY_ERR_WRITE_REPLY_FAIL ;;
  mret NO_ERROR.
Definition OnUnlockSimLock : M P W Z :=
  slotId ← read_data ReadInt32 0;
  lockType ← read_data ReadInt32 0;
  password ← read_data ReadString16 [];
  '(result, response) ← serve (ICoreService.UnlockSimLock slotId (MkPersoLock lockType password));
  ret ← write_reply (WriteInt32 result);
  ret ← (if result =? TELEPHONY_ERR_SUCCESS then
           ret ← and_write ret (WriteInt32 (lock_result response)); and_write ret (WriteInt32 (lock_remain response))
         else mret ret);
  require ret or TELEPHONY_ERR_WRITE_REPLY_FAIL ;;
  mret NO_ERROR.
Definition OnGetImsRegStatus : M P W Z :=
  slotId ← read_data ReadInt32 0;
  imsSrvType ← read_data ReadInt32 0;
  '(result, info) ← serve (ICoreService.GetImsRegStatus slotId imsSrvType);
  ret ← write_reply (WriteInt32 result);
  ret ← and_write ret (WriteInt32 (imsRegState info));
  ret ← and_write ret (WriteInt32 (imsRegTech info));
  require ret or ERR_FLATTEN_OBJECT ;;
  mret NO_ERROR.
Definition OnGetCellInfoList : M P W Z :=
  slotId ← read_data ReadInt32 0;
  '(result, cellInfo) ← serve (ICoreService.GetCellInfoList slotId);
  ensure write_reply (WriteInt32 result) or TELEPHONY_ERR_WRITE_REPLY_FAIL ;;
  _ ← (if result =? TELEPHONY_ERR_SUCCESS then
         write_reply (WriteInt32 (zlen cellInfo)) ;; write_reply (write_each CellInformation.Marshalling cellInfo)
       else mret true);
  mret NO_ERROR.
Definition OnGetNeighboringCellInfoList : M P W Z :=
  slotId ← read_data ReadInt32 0;
  '(result, cellInfo) ← serve (ICoreService.GetNeighboringCellInfoList slotId);
  ensure write_reply (WriteInt32 result) or TELEPHONY_ERR_WRITE_REPLY_FAIL ;;
  _ ← (if result =? TELEPHONY_ERR_SUCCESS then
         write_reply (WriteInt32 (zlen cellInfo)) ;; write_reply (write_each CellInformation.Marshalling cellInfo)
       else mret true);
  mret NO_ERROR.
Definition OnGetCellLocation : M P W Z :=
  slotId ← read_data ReadInt32 0;
  result ← serve (ICoreService.SendUpdateCellLocationRequest slotId);
  ensure write_reply (WriteInt32 result) or TELEPHONY_ERR_WRITE_REPLY_FAIL ;;
  mret NO_ERROR.
Definition OnHasOperatorPrivileges : M P W Z :=
  slotId ← read_data ReadInt32 0;
  callback ← read_callback;
  result ← serve (ICoreService.HasOperatorPrivileges slotId callback);
  ensure write_reply (WriteInt32 result) or TELEPHONY_ERR_WRITE_REPLY_FAIL ;;
  mret NO_ERROR.
Definition OnSimAuthentication : M P W Z :=
  slotId ← read_data ReadInt32 0;
  authType ← read_data ReadInt32 0;
  authData ← read_data ReadString [];
  '(result, response) ← serve (ICoreService.SimAuthentication slotId authType authData);
  write_reply (WriteInt32 result) ;;
  write_reply (WriteInt32 (auth_sw1 response)) ;;
  write_reply (WriteInt32 (auth_sw2 response)) ;;
  write_reply (WriteString (auth_response response)) ;;
  mret NO_ERROR.
Definition OnRegisterImsRegInfoCallback : M P W Z :=
  slotId ← read_data ReadInt32 0;
  imsSrvType ← read_data ReadInt32 0;
  callback ← read_callback;
  result ← (if is_null callback then mret TELEPHONY_ERR_ARGUMENT_NULL
            else serve (ICoreService.RegisterImsRegInfoCallback slotId imsSrvType callback));
  ret ← write_reply (WriteInt32 result);
  require ret or TELEPHONY_ERR_WRITE_REPLY_FAIL ;;
  mret NO_ERROR.
Definition OnUnregisterImsRegInfoCallback : M P W Z :=
  slotId ← read_data ReadInt32 0;
  imsSrvType ← read_data ReadInt32 0;
  result ← serve (ICoreService.UnregisterImsRegInfoCallback slotId imsSrvType);
  ret ← write_reply (WriteInt32 result);
  require ret or TELEPHONY_ERR_WRITE_REPLY_FAIL ;;
  mret NO_ERROR.
Definition OnGetBasebandVersion : M P W Z :=
  slotId ← read_data ReadInt32 0;
  '(result, version) ← serve (ICoreService.GetBasebandVersion slotId);
  ensure write_reply (WriteInt32 result) or TELEPHONY_ERR_WRITE_REPLY_FAIL ;;
  ok ← (if result =? TELEPHONY_ERR_SUCCESS then write_reply (WriteString version) else mret true);
  require (ok : bool) or TELEPHONY_ERR_WRITE_REPLY_FAIL ;;
  mret NO_ERROR.
Definition OnGetNrSsbIdInfo : M P W Z :=
  slotId ← read_data ReadInt32 0;
  '(result, nrSsbInformation) ← serve (ICoreService.GetNrSsbIdInfo slotId);
  ensure write_reply (WriteInt32 result) or TELEPHONY_ERR_WRITE_REPLY_FAIL ;;
  ok ← (if result =? TELEPHONY_ERR_SUCCESS then write_reply_o (NrSsb_Marshalling nrSsbInformation) else mret true);
  require (ok : bool) or TELEPHONY_ERR_WRITE_DATA_FAIL ;;
  mret NO_ERROR.
Definition OnFactoryReset : M P W Z :=
  slotId ← read_data ReadInt32 0;
  result ← serve (ICoreService.FactoryReset slotId);
  ensure write_reply (WriteInt32 result) or TELEPHONY_ERR_WRITE_REPLY_FAIL ;;
  mret NO_ERROR.
Definition OnIsAllowedInsertApn : M P W Z :=
  value ← read_data ReadString [];
  result ← serve (ICoreService.IsAllowedInsertApn value);
  ensure write_reply (WriteBool result) or TELEPHONY_ERR_WRITE_REPLY_FAIL ;;
  mret NO_ERROR.
Definition OnGetTargetOpkey : M P W Z :=
  slotId ← read_data ReadInt32 0;
  '(result, opkey) ← serve (ICoreService.GetTargetOpkey slotId);
  ensure write_reply (WriteString16 opkey) or TELEPHONY_ERR_WRITE_REPLY_FAIL ;;
  ensure write_reply (WriteInt32 result) or TELEPHONY_ERR_WRITE_REPLY_FAIL ;;
  mret NO_ERROR.
Definition OnGetOpkeyVersion : M P W Z :=
  '(result, versionInfo) ← serve (ICoreService.GetOpkeyVersion);
  ensure write_reply (WriteString versionInfo) or TELEPHONY_ERR_WRITE_REPLY_FAIL ;;
  ensure write_reply (WriteInt32 result) or TELEPHONY_ERR_WRITE_REPLY_FAIL ;;
  mret NO_ERROR.
Definition OnGetOpnameVersion : M P W Z :=
  '(result, versionInfo) ← serve (ICoreService.GetOpnameVersion);
  ensure write_reply (WriteString versionInfo) or TELEPHONY_ERR_WRITE_REPLY_FAIL ;;
  ensure write_reply (WriteInt32 result) or TELEPHONY_ERR_WRITE_REPLY_FAIL ;;
  mret NO_ERROR.
Definition OnGetSimIO : M P W Z :=
  slotId ← read_data ReadInt32 0;
  command ← read_data ReadInt32 0;
  fileId ← read_data ReadInt32 0;
  dataStr ← read_data ReadString [];
  path ← read_data ReadString [];
  '(result, response) ← serve (ICoreService.GetSimIO slotId command fileId dataStr path);
  ensure write_reply (WriteInt32 result) or TELEPHONY_ERR_WRITE_REPLY_FAIL ;;
  write_reply (WriteInt32 (auth_sw1 response)) ;;
  write_reply (WriteInt32 (auth_sw2 response)) ;;
  write_reply (WriteString (auth_response response)) ;;
  mret NO_ERROR.
Definition OnGetAllSimAccountInfoList : M P W Z :=
  '(result, iccAccountInfoList) ← serve ICoreService.GetAllSimAccountInfoList;
  ret ← write_reply (WriteInt32 result);
  ret ← (if result =? 0 then and_write ret (WriteInt32 (zlen iccAccountInfoList)) else mret false);
  require ret or TELEPHONY_ERR_WRITE_REPLY_FAIL ;;
  ensure write_reply (Parcel.write_all IccAccountInfo_Marshalling iccAccountInfoList) or TELEPHONY_ERR_WRITE_REPLY_FAIL ;;
  mret NO_ERROR.
Definition OnGetSimLabel : M P W Z :=
  slotId ← read_data ReadInt32 0;
  callback ← read_callback;
  require negb (is_null callback) or TELEPHONY_ERR_WRITE_REPLY_FAIL ;;
  '(result, simLabel) ← serve (ICoreService.GetSimLabel slotId callback);
  ret ← write_reply (WriteInt32 result);
  ret ← (if result =? TELEPHONY_ERR_SUCCESS then ret ← and_write ret (WriteInt32 (simType simLabel)); and_write ret (WriteInt32 (label_index simLabel)) else mret ret);
  require ret or TELEPHONY_ERR_WRITE_REPLY_FAIL ;;
  mret NO_ERROR.
Definition OnSendApduData : M P W Z :=
  slotId ← read_data ReadInt32 0;
  aid ← read_data ReadString16 [];
  closeChannelFlag ← read_data ReadBool false;
  unusedDefaultReqHeadFlag ← read_data ReadBool false;
  d ← read_data ReadString16 [];
  instructionType ← read_data ReadInt32 0;
  instruction ← read_data ReadInt32 0;
  p1 ← read_data ReadInt32 0;
  p2 ← read_data ReadInt32 0;
  p3 ← read_data ReadInt32 0;
  let apduData := MkEsimApdu closeChannelFlag unusedDefaultReqHeadFlag d instructionType instruction p1 p2 p3 in
  '(result, responseResult) ← serve (ICoreService.SendApduData slotId aid apduData);
  ret ← write_reply (WriteInt32 result);
  ret ← (if result =? TELEPHONY_ERR_SUCCESS then
           ret ← and_write ret (WriteInt32 (resultCode_ responseResult)); ret ← and_write ret (WriteString16 (response_ responseResult));
           ret ← and_write ret (WriteInt32 (sw1_ responseResult)); and_write ret (WriteInt32 (sw2_ responseResult))
         else mret ret);
  require ret or TELEPHONY_ERR_WRITE_REPLY_FAIL ;;
  mret NO_ERROR.
Definition OnGetRealSimCount : M P W Z :=
  result ← serve (ICoreService.GetRealSimCount);
  ret ← write_reply (WriteInt32 result);
  require ret or ERR_FLATTEN_OBJECT ;;
  mret NO_ERROR.
Definition OnGetManualNetworkScanState : M P W Z :=
  slotId ← read_data ReadInt32 0;
  remoteCallback ← read_data_opt ReadRemoteObject;
  require negb (is_null remoteCallback) or TELEPHONY_ERR_LOCAL_PTR_NULL ;;
  let callback := remoteCallback ≫= iface_cast in
  require negb (is_null callback) or TELEPHONY_ERR_LOCAL_PTR_NULL ;;
  result ← serve (ICoreService.GetManualNetworkScanState slotId callback);
  ensure write_reply (WriteInt32 result) or TELEPHONY_ERR_WRITE_DATA_FAIL ;;
  mret NO_ERROR.
Definition OnStopManualNetworkScan : M P W Z :=
  slotId ← read_data ReadInt32 0;
  result ← serve (ICoreService.StopManualNetworkScanCallback slotId);
  ensure write_reply (WriteInt32 result) or TELEPHONY_ERR_WRITE_DATA_FAIL ;;
  mret NO_ERROR.
Definition OnStartManualNetworkScan : M P W Z :=
  slotId ← read_data ReadInt32 0;
  remoteCallback ← read_data_opt ReadRemoteObject;
  require negb (is_null remoteCallback) or TELEPHONY_ERR_LOCAL_PTR_NULL ;;
  let callback := remoteCallback ≫= iface_cast in
  require negb (is_null callback) or TELEPHONY_ERR_LOCAL_PTR_NULL ;;
  result ← serve (ICoreService.StartManualNetworkScanCallback slotId callback);
  ensure write_reply (WriteInt32 result) or TELEPHONY_ERR_WRITE_DATA_FAIL ;;
  mret NO_ERROR.
Definition OnSetSimLabelIndex : M P W Z :=
  simId ← read_data ReadInt32 0;
  simLabelIndex ← read_data ReadInt32 0;
  remoteObject ← read_data_opt ReadRemoteObject;
  require negb (is_null remoteObject) or TELEPHONY_ERR_LOCAL_PTR_NULL ;;
  let callback := remoteObject ≫= iface_cast in
  require negb (is_null callback) or TELEPHONY_ERR_LOCAL_PTR_NULL ;;
  result ← serve (ICoreService.SetSimLabelIndex simId simLabelIndex callback);
  ret ← write_reply (WriteInt32 result);
  require ret or TELEPHONY_ERR_WRITE_REPLY_FAIL ;;
  mret NO_ERROR.
Definition OnIsMultiSimsCapabilitySupported : M P W Z :=
  slotId ← read_data ReadInt32 0;
  result ← serve (ICoreService.IsMultiSimsCapabilitySupported slotId);
  ret ← write_reply (WriteBool result);
  require ret or ERR_FLATTEN_OBJECT ;;
  mret NO_ERROR.
Definition OnStartHiddenCameraDetection : M P W Z :=
  periodVal ← read_data_opt ReadUint32;
  nonnull periodVal := periodVal or TELEPHONY_ERR_READ_DATA_FAIL ;;
  callbackRemote ← read_data_opt ReadRemoteObject;
  require negb (is_null callbackRemote) or TELEPHONY_ERR_IPC_CONNECT_STUB_FAIL ;;
  let callback := callbackRemote ≫= iface_cast in
  require negb (is_null callback) or TELEPHONY_ERR_LOCAL_PTR_NULL ;;
  rawRemote ← read_data_opt ReadRemoteObject;
  require negb (is_null rawRemote) or TELEPHONY_ERR_IPC_CONNECT_STUB_FAIL ;;
  let rawCallback := rawRemote ≫= iface_cast in
  require negb (is_null rawCallback) or TELEPHONY_ERR_LOCAL_PTR_NULL ;;
  serve (ICoreService.StartHiddenCameraDetection callback (MkHiddenCamera periodVal) rawCallback).
Definition OnStopHiddenCameraDetection : M P W Z :=
  rawRemote ← read_data_opt ReadRemoteObject;
  require negb (is_null rawRemote) or TELEPHONY_ERR_IPC_CONNECT_STUB_FAIL ;;
  let rawCallback := rawRemote ≫= iface_cast in
  require negb (is_null rawCallback) or TELEPHONY_ERR_LOCAL_PTR_NULL ;;
  serve (ICoreService.StopHiddenCameraDetection rawCallback).
Definition OnKeepHiddenCameraDetection : M P W Z :=
  rawRemote ← read_data_opt ReadRemoteObject;
  require negb (is_null rawRemote) or TELEPHONY_ERR_IPC_CONNECT_STUB_FAIL ;;
  let rawCallback := rawRemote ≫= iface_cast in
  require negb (is_null rawCallback) or TELEPHONY_ERR_LOCAL_PTR_NULL ;;
  serve (ICoreService.KeepHiddenCameraDetection rawCallback).

(** ** The handlers by code *)

Definition AddHandlerNetWorkToMap : list (Z * M P W Z) :=
  [(GET_PS_RADIO_TECH, OnGetPsRadioTech);
   (GET_CS_RADIO_TECH, OnGetCsRadioTech);
   (GET_OPERATOR_NUMERIC, OnGetOperatorNumeric);
   (GET_RESIDENT_NETWORK_NUMERIC, OnGetResidentNetworkNumeric);
   (GET_OPERATOR_NAME, OnGetOperatorName);
   (GET_SIGNAL_INFO_LIST, OnGetSignalInfoList);
   (GET_NETWORK_STATE, OnGetNetworkState);
   (SET_RADIO_STATE, OnSetRadioState);
   (GET_RADIO_STATE, OnGetRadioState);
   (GET_NETWORK_SEARCH_RESULT, OnGetNetworkSearchInformation);
   (GET_NETWORK_SELECTION_MODE, OnGetNetworkSelectionMode);
   (SET_NETWORK_SELECTION_MODE, OnSetNetworkSelectionMode);
   (GET_ISO_COUNTRY_CODE_FOR_NETWORK, OnGetIsoCountryCodeForNetwork);
   (GET_CELL_INFO_LIST, OnGetCellInfoList);
   (GET_NEIGHBORING_CELL_INFO_LIST, OnGetNeighboringCellInfoList);
   (GET_CELL_LOCATION, OnGetCellLocation);
   (GET_PREFERRED_NETWORK_MODE, OnGetPreferredNetwork);
   (SET_PREFERRED_NETWORK_MODE, OnSetPreferredNetwork);
   (GET_NETWORK_CAPABILITY, OnGetNetworkCapability);
   (SET_NETWORK_CAPABILITY, OnSetNetworkCapability);
   (SET_NR_OPTION_MODE, OnSetNrOptionMode);
   (GET_NR_OPTION_MODE, OnGetNrOptionMode);
   (GET_NR_SSB_ID_INFO, OnGetNrSsbIdInfo)].
Definition AddHandlerDeviceToMap : list (Z * M P W Z) :=
  [(GET_IMEI, OnGetImei);
   (GET_IMEISV, OnGetImeiSv);
   (GET_MEID, OnGetMeid);
   (GET_UNIQUE_DEVICE_ID, OnGetUniqueDeviceId);
   (GET_BASEBAND_VERSION, OnGetBasebandVersion);
   (FACTORY_RESET, OnFactoryReset)].
Definition AddHandlerImsToMap : list (Z * M P W Z) :=
  [(GET_IMS_REG_STATUS, OnGetImsRegStatus);
   (REG_IMS_CALLBACK, OnRegisterImsRegInfoCallback);
   (UN_REG_IMS_CALLBACK, OnUnregisterImsRegInfoCallback)].
Definition AddHandlerSimToMap : list (Z * M P W Z) :=
  [(HAS_SIM_CARD, OnHasSimCard);
   (GET_SIM_STATE, OnGetSimState);
   (GET_DSDS_MODE, OnGetDsdsMode);
   (GET_SPN, OnGetSimSpn);
   (GET_ICCID, OnGetSimIccId);
   (GET_SIM_OPERATOR_NUMERIC, OnGetSimOperatorNumeric);
   (GET_IMSI, OnGetIMSI);
   (IS_CT_SIM_CARD, OnIsCTSimCard);
   (IS_SIM_ACTIVE, OnIsSimActive);
   (GET_SIM_LANGUAGE, OnGetLocaleFromDefaultSim);
   (GET_SIM_GID1, OnGetSimGid1);
   (GET_SIM_GID2, OnGetSimGid2);
   (GET_SIM_EONS, OnGetSimEons);
   (GET_SIM_SUB_INFO, OnGetSimSubscriptionInfo);
   (SET_DEFAULT_VOICE_SLOTID, OnSetDefaultVoiceSlotId);
   (GET_DEFAULT_VOICE_SLOTID, OnGetDefaultVoiceSlotId);
   (GET_DEFAULT_VOICE_SIMID, OnGetDefaultVoiceSimId);
   (SET_PRIMARY_SLOTID, OnSetPrimarySlotId);
   (GET_PRIMARY_SLOTID, OnGetPrimarySlotId);
   (SET_SHOW_NUMBER, OnSetShowNumber);
   (GET_SHOW_NUMBER, OnGetShowNumber);
   (SET_SHOW_NAME, OnSetShowName);
   (GET_SHOW_NAME, OnGetShowName);
   (GET_REAL_SIM_COUNT, OnGetRealSimCount)].
Definition AddHandlerSimLockToMap : list (Z * M P W Z) :=
  [(UNLOCK_PIN, OnUnlockPin);
   (UNLOCK_PUK, OnUnlockPuk);
   (ALTER_PIN, OnAlterPin);
   (CHECK_LOCK, OnGetLockState);
   (SWITCH_LOCK, OnSetLockState);
   (UNLOCK_PIN2, OnUnlockPin2);
   (UNLOCK_PUK2, OnUnlockPuk2);
   (ALTER_PIN2, OnAlterPin2);
   (UNLOCK_SIMLOCK, OnUnlockSimLock);
   (HAS_OPERATOR_PRIVILEGES, OnHasOperatorPrivileges);
   (SIM_AUTHENTICATION, OnSimAuthentication)].
Definition AddHandlerSimToMapExt : list (Z * M P W Z) :=
  [(GET_ISO_COUNTRY_CODE, OnGetISOCountryCodeForSim);
   (GET_ACTIVE_ACCOUNT_INFO_LIST, OnGetActiveSimAccountInfoList);
   (GET_OPERATOR_CONFIG, OnGetOperatorConfig);
   (REFRESH_SIM_STATE, OnRefreshSimState);
   (SET_SIM_ACTIVE, OnSetActiveSim);
   (SET_SIM_ACTIVE_SATELLITE, OnSetActiveSimSatellite);
   (GET_SIM_PHONE_NUMBER, OnGetSimPhoneNumber);
   (GET_SIM_TELENUMBER_IDENTIFIER, OnGetSimTeleNumberIdentifier);
   (SET_VOICE_CALL_FORWARDING, OnSetVoiceCallForwarding);
   (ICC_DIALLING_NUMBERS_GET, OnDiallingNumbersGet);
   (ICC_DIALLING_NUMBERS_INSERT, OnAddIccDiallingNumbers);
   (ICC_DIALLING_NUMBERS_UPDATE, OnUpdateIccDiallingNumbers);
   (ICC_DIALLING_NUMBERS_DELETE, OnDelIccDiallingNumbers);
   (GET_MAX_SIM_COUNT, OnGetMaxSimCount);
   (STK_CMD_FROM_APP_ENVELOPE, OnSendEnvelopeCmd);
   (STK_CMD_FROM_APP_TERMINAL_RESPONSE, OnSendTerminalResponseCmd);
   (STK_RESULT_FROM_APP_CALL_SETUP_REQUEST, OnSendCallSetupRequestResult);
   (GET_CARD_TYPE, OnGetCardType);
   (IS_NR_SUPPORTED, OnIsNrSupported);
   (GET_SIM_SLOTID, OnGetSlotId);
   (GET_SIM_SIMID, OnGetSimId);
   (GET_SIM_IO_DONE, OnGetSimIO);
   (GET_ALL_ACCOUNT_INFO_LIST, OnGetAllSimAccountInfoList);
   (GET_SIM_LABEL, OnGetSimLabel)].
Definition AddHandlerVoiceMailToMap : list (Z * M P W Z) :=
  [(GET_VOICE_MAIL_TAG, OnGetVoiceMailInfor);
   (GET_VOICE_MAIL_NUMBER, OnGetVoiceMailNumber);
   (GET_VOICE_MAIL_COUNT, OnGetVoiceMailCount);
   (SET_VOICE_MAIL_COUNT, OnSetVoiceMailCount);
   (SET_VOICE_MAIL, OnSetVoiceMailInfo)].
Definition AddHandlerPdpProfileToMap : list (Z * M P W Z) :=
  [(IS_ALLOWED_INSERT_APN, OnIsAllowedInsertApn);
   (GET_TARGET_OPKEY, OnGetTargetOpkey)].
Definition AddHandlerOpkeyVersionToMap : list (Z * M P W Z) :=
  [(GET_OPKEY, OnGetOpKey);
   (GET_OPNAME, OnGetOpName);
   (GET_OPKEY_EXT, OnGetOpKeyExt);
   (GET_OPKEY_VERSION, OnGetOpkeyVersion);
   (GET_OPNAME_VERSION, OnGetOpnameVersion)].
Definition AddHandlerEsimToMap : list (Z * M P W Z) :=
  [(SEND_APDU_DATA, OnSendApduData);
   (SET_SIM_LABEL_INDEX, OnSetSimLabelIndex)].
Definition AddHandlerManualScanToMap : list (Z * M P W Z) :=
  [(GET_MANUAL_NETWORK_SCAN_STATE, OnGetManualNetworkScanState);
   (STOP_MANUAL_NETWORK_SCAN, OnStopManualNetworkScan);
   (START_MANUAL_NETWORK_SCAN, OnStartManualNetworkScan)].
Definition AddHandlerCapabilityToMap : list (Z * M P W Z) :=
  [(IS_MULTI_SIMS_CAPABILITY_SUPPORTED, OnIsMultiSimsCapabilitySupported)].
Definition AddHandlerSenseToMap : list (Z * M P W Z) :=
  [(START_HIDDEN_CAMERA_DETECTION, OnStartHiddenCameraDetection);
   (STOP_HIDDEN_CAMERA_DETECTION, OnStopHiddenCameraDetection);
   (KEEP_HIDDEN_CAMERA_DETECTION, OnKeepHiddenCameraDetection)].
(** The constructor fills the map; no code occurs twice. *)
Definition memberFuncMap_ : list (Z * M P W Z) :=
  AddHandlerNetWorkToMap ++ AddHandlerDeviceToMap ++ AddHandlerImsToMap ++ AddHandlerSimToMap ++ AddHandlerSimLockToMap ++ AddHandlerSimToMapExt ++ AddHandlerVoiceMailToMap ++ AddHandlerPdpProfileToMap ++ AddHandlerOpkeyVersionToMap ++ AddHandlerEsimToMap ++ AddHandlerManualScanToMap ++ AddHandlerCapabilityToMap ++ AddHandlerSenseToMap.
Fixpoint find_in (m : list (Z * M P W Z)) (code : Z) : option (M P W Z) :=
  match m with [] => None | (c, f) :: t => if code =? c then Some f else find_in t code end.
Definition find_handler : Z -> option (M P W Z) := find_in memberFuncMap_.

Definition OnRemoteRequest (code : Z) : M P W Z :=
  remoteDescripter ← read_data ReadInterfaceToken [];
  if negb (bool_decide (Descriptor = remoteDescripter)) then mret TELEPHONY_ERR_DESCRIPTOR_MISMATCH else
  match find_handler code with
  | Some memberFunc => memberFunc
  | None => fun s => let '(r, d, p) := IPCObjectStub_OnRemoteRequest code (data s) (reply s) in Ret (r, MkIpc d p (world s))
  end.
End Stub.
End CoreServiceStub.
