(* ===== verification/CoreServiceIpc.v ===== *)
(** * The core service seen from a client process

    The client side (CoreServiceProxy.v) and the server side (CoreServiceStub.v) together behave like a direct call of the service: [spec]
    says for each method which arguments are refused before anything is sent and what the client then gets from the service's answer,
    and [core_service_refinement] shows that the parcels, codes and handlers implement it. The proofs follow the two parcels
    through the code: [wp m Q D R w] says that [m], started with the items [D] and [R] in its parcels, ends with a result, items and
    system state that satisfy [Q]. *)

From S2P Require Import Prelude CxxString Parcel Parcelables OperatorConfig CellInformation NetworkState SignalInformation SignalInfo CoreServiceApi CoreServiceProxy CoreServiceStub.
Open Scope Z_scope.
Open Scope ipc_scope.

(** ** Following the parcels *)

Section Wp.
Context {P W : Type} `{ParcelLaws P} `{!Roomy P}.

Definition wp {A} (m : M P W A) (Q : A -> list item -> list item -> W -> Prop) (D R : list item) (w : W) : Prop :=
  forall d r, content d = D -> content r = R ->
    exists a s, m (MkIpc d r w) = Ret (a, s) /\ Q a (content (data s)) (content (reply s)) (world s).

Lemma wp_ret {A} (a : A) (Q : A -> list item -> list item -> W -> Prop) D R w : Q a D R w -> wp (mret a) Q D R w.
Proof. intros HQ d r <- <-. by exists a, (MkIpc d r w). Qed.
Lemma wp_bind {A B} (m : M P W A) (k : A -> M P W B) Q D R w :
  wp m (fun a D R w => wp (k a) Q D R w) D R w -> wp (m ≫= k) Q D R w.
Proof.
  intros Hm d r Hd Hr. destruct (Hm d r Hd Hr) as (a & [d' r' w'] & E & Hk). destruct (Hk d' r' eq_refl eq_refl) as (b & s & E' & HQ).
  exists b, s. split; [|done]. unfold mbind, M_bind. by rewrite E.
Qed.
Lemma wp_mono {A} (m : M P W A) (Q Q' : A -> list item -> list item -> W -> Prop) D R w :
  wp m Q D R w -> (forall a D R w, Q a D R w -> Q' a D R w) -> wp m Q' D R w.
Proof. intros Hm HQ d r Hd Hr. destruct (Hm d r Hd Hr) as (a & s & E & X). exists a, s. split; [done|]. by apply HQ. Qed.
Lemma wp_write_data (f : wstep P) i (Q : bool -> list item -> list item -> W -> Prop) D R w :
  appends f i -> Q true (D ++ i) R w -> wp (write_data f) Q D R w.
Proof.
  intros Hf HQ d r <- <-. destruct (Hf d) as (d' & E & C). exists true, (MkIpc d' r w). unfold write_data. cbn [data reply world].
  rewrite E. split; [done|]. cbn. by rewrite C.
Qed.
Lemma wp_write_reply (f : wstep P) i (Q : bool -> list item -> list item -> W -> Prop) D R w :
  appends f i -> Q true D (R ++ i) w -> wp (write_reply f) Q D R w.
Proof.
  intros Hf HQ d r <- <-. destruct (Hf r) as (r' & E & C). exists true, (MkIpc d r' w). unfold write_reply. cbn [data reply world].
  rewrite E. split; [done|]. cbn. by rewrite C.
Qed.
Lemma wp_write_reply_o (f : P -> outcome (bool * P)) i (Q : bool -> list item -> list item -> W -> Prop) D R w :
  (forall p, exists p', f p = Ret (true, p') /\ content p' = content p ++ i) -> Q true D (R ++ i) w -> wp (write_reply_o f) Q D R w.
Proof.
  intros Hf HQ d r <- <-. destruct (Hf r) as (r' & E & C). exists true, (MkIpc d r' w). unfold write_reply_o. cbn [data reply world].
  rewrite E. split; [done|]. cbn. by rewrite C.
Qed.
Lemma wp_and_write (f : wstep P) i (Q : bool -> list item -> list item -> W -> Prop) D R w :
  appends f i -> Q true D (R ++ i) w -> wp (and_write true f) Q D R w.
Proof. apply wp_write_reply. Qed.
Lemma wp_read_data {A} (rd : P -> option A * P) dflt i a (Q : A -> list item -> list item -> W -> Prop) D R w :
  reads_off rd i a -> Q a D R w -> wp (read_data rd dflt) Q (i :: D) R w.
Proof.
  intros Hr HQ d r Hd <-. destruct (Hr D d Hd) as (d' & E & C). exists a, (MkIpc d' r w). unfold read_data. cbn [data reply world].
  rewrite E. split; [done|]. cbn. by rewrite C.
Qed.
Lemma wp_read_data_opt {A} (rd : P -> option A * P) i a (Q : option A -> list item -> list item -> W -> Prop) D R w :
  reads_off rd i a -> Q (Some a) D R w -> wp (read_data_opt rd) Q (i :: D) R w.
Proof.
  intros Hr HQ d r Hd <-. destruct (Hr D d Hd) as (d' & E & C). exists (Some a), (MkIpc d' r w). unfold read_data_opt. cbn [data reply world].
  rewrite E. split; [done|]. cbn. by rewrite C.
Qed.
Lemma wp_read_remote_end (Q : option remote -> list item -> list item -> W -> Prop) R w :
  Q None [] R w -> wp (read_data_opt ReadRemoteObject) Q [] R w.
Proof.
  intros HQ d r Hd <-. unfold read_data_opt. cbn [data reply world]. pose proof (read_end KRemote d Hd) as E. pose proof (read_end_content KRemote d Hd) as C.
  unfold ReadRemoteObject. destruct (Read KRemote d) as [v d']. cbn in E, C. subst v. exists None, (MkIpc d' r w). split; [done|]. cbn. by rewrite C.
Qed.
Lemma wp_read_reply {A} (rd : P -> option A * P) dflt i a (Q : A -> list item -> list item -> W -> Prop) D R w :
  reads_off rd i a -> Q a D R w -> wp (read_reply rd dflt) Q D (i :: R) w.
Proof.
  intros Hr HQ d r <- Hrr. destruct (Hr R r Hrr) as (r' & E & C). exists a, (MkIpc d r' w). unfold read_reply. cbn [data reply world].
  rewrite E. split; [done|]. cbn. by rewrite C.
Qed.
Lemma wp_read_reply_opt {A} (rd : P -> option A * P) i a (Q : option A -> list item -> list item -> W -> Prop) D R w :
  reads_off rd i a -> Q (Some a) D R w -> wp (read_reply_opt rd) Q D (i :: R) w.
Proof.
  intros Hr HQ d r <- Hrr. destruct (Hr R r Hrr) as (r' & E & C). exists (Some a), (MkIpc d r' w). unfold read_reply_opt. cbn [data reply world].
  rewrite E. split; [done|]. cbn. by rewrite C.
Qed.
Lemma wp_read_object {A} (rd : rstep P A) o i u (Q : bool * A -> list item -> list item -> W -> Prop) D R w :
  takes rd i u -> Q (true, u o) D R w -> wp (read_object rd o) Q D (i ++ R) w.
Proof.
  intros Hr HQ d r <- Hrr. destruct (Hr o r R Hrr) as (r' & E & C). exists (true, u o), (MkIpc d r' w). unfold read_object. cbn [data reply world].
  rewrite E. split; [done|]. cbn. by rewrite C.
Qed.
(** The parcel holds nothing after the object. *)
Lemma wp_read_object_last {A} (rd : rstep P A) o i u (Q : bool * A -> list item -> list item -> W -> Prop) D w :
  takes rd i u -> Q (true, u o) D [] w -> wp (read_object rd o) Q D i w.
Proof. intros Hr HQ. rewrite <- (app_nil_r i). by eapply wp_read_object. Qed.
Lemma wp_with_parcels {A} (m : M P W A) (Q : A -> list item -> list item -> W -> Prop) D R w :
  wp m (fun a _ _ w => Q a D R w) [] [] w -> wp (with_parcels m) Q D R w.
Proof.
  intros Hm d r <- <-. destruct (Hm new_parcel new_parcel new_law new_law) as (a & s & E & HQ).
  exists a, (MkIpc d r (world s)). unfold with_parcels. cbn [data reply world]. by rewrite E.
Qed.
Lemma wp_if_nonnull {A} (x : option A) (f : A -> M P W bool) Q D R w :
  match x with Some a => wp (f a) (fun _ D R w => Q tt D R w) D R w | None => Q tt D R w end -> wp (if_nonnull x f) Q D R w.
Proof.
  destruct x as [a|]; intros HQ; cbn [if_nonnull]; [|by apply wp_ret]. apply wp_bind. eapply wp_mono; [exact HQ|]. intros b D' R' w' X. by apply wp_ret.
Qed.
(** The code returns what it is expected to, and the system is in the expected state. *)
Lemma wp_run {A} (m : M P W A) (expected : A * W) w :
  wp m (fun a _ _ w => expected = (a, w)) [] [] w -> exists s, m (MkIpc new_parcel new_parcel w) = Ret (expected.1, s) /\ world s = expected.2.
Proof. intros Hm. destruct (Hm new_parcel new_parcel new_law new_law) as (a & s & E & ->). by exists s. Qed.
End Wp.

(** ** The values that cross the process boundary *)

(** Values in the range of their C++ types, and structures that satisfy the conditions under which their parcel form can be read back. *)
Class Ok (A : Type) : Type := ok : A -> Prop.
#[export] Instance ok_Z : Ok Z := is_i32.
#[export] Instance ok_bool : Ok bool := fun _ => True.
#[export] Instance ok_cstring : Ok cstring := fun _ => True.
#[export] Instance ok_u16string : Ok u16string := fun _ => True.
#[export] Instance ok_pair {A B} `{Ok A} `{Ok B} : Ok (A * B) := fun p => ok p.1 /\ ok p.2.
#[export] Instance ok_option {A} `{Ok A} : Ok (option A) := fun o => match o with Some a => ok a | None => True end.
#[export] Instance ok_lock : Ok LockInfo := fun l => is_i32 (lockType l) /\ is_i32 (lockState l).
#[export] Instance ok_perso : Ok PersoLockInfo := fun l => is_i32 (perso_lockType l).
#[export] Instance ok_lock_status : Ok LockStatusResponse := fun l => is_i32 (lock_result l) /\ is_i32 (lock_remain l).
#[export] Instance ok_ims : Ok ImsRegInfo := fun i => is_i32 (imsRegState i) /\ is_i32 (imsRegTech i).
#[export] Instance ok_auth : Ok SimAuthenticationResponse := fun a => is_i32 (auth_sw1 a) /\ is_i32 (auth_sw2 a).
#[export] Instance ok_label : Ok SimLabel := fun l => is_i32 (simType l) /\ is_i32 (label_index l).
#[export] Instance ok_apdu : Ok EsimApduData :=
  fun d => is_i32 (instructionType_ d) /\ is_i32 (instruction_ d) /\ is_i32 (p1_ d) /\ is_i32 (p2_ d) /\ is_i32 (p3_ d).
#[export] Instance ok_esim : Ok ResponseEsimResult := fun r => is_i32 (resultCode_ r) /\ is_i32 (sw1_ r) /\ is_i32 (sw2_ r).
#[export] Instance ok_camera : Ok HiddenCameraDetectionConfig := fun c => is_u32 (period c).
#[export] Instance ok_network_state : Ok NetworkState := NetworkState.wf.
#[export] Instance ok_account : Ok IccAccountInfo := IccAccountInfo_ok.
#[export] Instance ok_dialling : Ok DiallingNumbersInfo := DiallingNumbersInfo_ok.
#[export] Instance ok_network `{StringEx} : Ok NetworkInformation := NetworkInformation_ok.
#[export] Instance ok_config : Ok OperatorConfig := config_ok.
#[export] Instance ok_ssb : Ok NrSsbInformation := NrSsb_ok.
#[export] Instance ok_cells : Ok (list Cell) := fun l => Forall cell_ok l /\ is_i32 (zlen l).
#[export] Instance ok_signals : Ok (list SignalInformation) := fun l => Forall signal_ok l /\ is_i32 (zlen l).
#[export] Instance ok_accounts : Ok (list IccAccountInfo) := fun l => Forall IccAccountInfo_ok l /\ is_i32 (zlen l).
#[export] Instance ok_numbers : Ok (list DiallingNumbersInfo) := fun l => Forall DiallingNumbersInfo_ok l /\ is_i32 (zlen l).

(** Arguments in range. Two methods write their callback before other arguments, so a null callback, which is left out of the parcel,
    would move those: they need a callback. *)
Definition call_ok `{StringEx} {R} (c : coreE R) : Prop :=
  match c with
  | ICoreService.GetPsRadioTech slotId => ok slotId
  | ICoreService.GetCsRadioTech slotId => ok slotId
  | ICoreService.GetOperatorNumeric slotId => ok slotId
  | ICoreService.GetResidentNetworkNumeric slotId => ok slotId
  | ICoreService.GetOperatorName slotId => ok slotId
  | ICoreService.GetBasebandVersion slotId => ok slotId
  | ICoreService.GetNetworkSearchInformation slotId callback => ok slotId
  | ICoreService.GetNetworkState slotId => ok slotId
  | ICoreService.GetSignalInfoList slotId => ok slotId
  | ICoreService.SetRadioState slotId isOn callback => ok slotId /\ callback <> None
  | ICoreService.GetRadioState slotId callback => ok slotId
  | ICoreService.GetIsoCountryCodeForNetwork slotId => ok slotId
  | ICoreService.GetImei slotId callback => ok slotId
  | ICoreService.GetImeiSv slotId callback => ok slotId
  | ICoreService.GetMeid slotId => ok slotId
  | ICoreService.GetUniqueDeviceId slotId => ok slotId
  | ICoreService.HasSimCard slotId callback => ok slotId
  | ICoreService.GetSimState slotId callback => ok slotId
  | ICoreService.GetDsdsMode => True
  | ICoreService.GetCardType slotId => ok slotId
  | ICoreService.GetISOCountryCodeForSim slotId => ok slotId
  | ICoreService.GetSimOperatorNumeric slotId => ok slotId
  | ICoreService.GetSimSpn slotId => ok slotId
  | ICoreService.GetSimIccId slotId => ok slotId
  | ICoreService.GetIMSI slotId => ok slotId
  | ICoreService.IsCTSimCard slotId callback => ok slotId
  | ICoreService.IsSimActive slotId callback => ok slotId
  | ICoreService.GetSlotId simId => ok simId
  | ICoreService.GetSimId slotId => ok slotId
  | ICoreService.GetNetworkSelectionMode slotId callback => ok slotId
  | ICoreService.SetNetworkSelectionMode slotId selectMode networkInformation resumeSelection callback => ok slotId /\ ok selectMode /\ ok networkInformation /\ callback <> None
  | ICoreService.GetLocaleFromDefaultSim => True
  | ICoreService.GetSimGid1 slotId => ok slotId
  | ICoreService.GetSimGid2 slotId => ok slotId
  | ICoreService.GetSimEons slotId plmn lac longNameRequired => ok slotId /\ ok lac
  | ICoreService.GetSimAccountInfo slotId => ok slotId
  | ICoreService.SetDefaultVoiceSlotId slotId => ok slotId
  | ICoreService.GetDefaultVoiceSlotId => True
  | ICoreService.GetDefaultVoiceSimId callback => True
  | ICoreService.SetPrimarySlotId slotId => ok slotId
  | ICoreService.GetPrimarySlotId => True
  | ICoreService.SetShowNumber slotId number callback => ok slotId
  | ICoreService.GetShowNumber slotId callback => ok slotId
  | ICoreService.SetShowName slotId name callback => ok slotId
  | ICoreService.GetActiveSimAccountInfoList => True
  | ICoreService.GetOperatorConfigs slotId => ok slotId
  | ICoreService.UnlockPin slotId pin callback => ok slotId
  | ICoreService.UnlockPuk slotId newPin puk callback => ok slotId
  | ICoreService.AlterPin slotId newPin oldPin callback => ok slotId
  | ICoreService.UnlockPin2 slotId pin2 callback => ok slotId
  | ICoreService.UnlockPuk2 slotId newPin2 puk2 callback => ok slotId
  | ICoreService.AlterPin2 slotId newPin2 oldPin2 callback => ok slotId
  | ICoreService.SetLockState slotId options callback => ok slotId /\ ok options
  | ICoreService.GetLockState slotId lockType callback => ok slotId /\ ok lockType
  | ICoreService.RefreshSimState slotId => ok slotId
  | ICoreService.SetActiveSim slotId enable => ok slotId /\ ok enable
  | ICoreService.SetActiveSimSatellite slotId enable => ok slotId /\ ok enable
  | ICoreService.GetPreferredNetwork slotId callback => ok slotId
  | ICoreService.SetPreferredNetwork slotId networkMode callback => ok slotId /\ ok networkMode
  | ICoreService.GetNetworkCapability slotId networkCapabilityType => ok slotId /\ ok networkCapabilityType
  | ICoreService.SetNetworkCapability slotId networkCapabilityType networkCapabilityState => ok slotId /\ ok networkCapabilityType /\ ok networkCapabilityState
  | ICoreService.GetSimTelephoneNumber slotId => ok slotId
  | ICoreService.GetSimTeleNumberIdentifier slotId => ok slotId
  | ICoreService.GetVoiceMailIdentifier slotId => ok slotId
  | ICoreService.GetVoiceMailNumber slotId => ok slotId
  | ICoreService.GetVoiceMailCount slotId => ok slotId
  | ICoreService.SetVoiceMailCount slotId voiceMailCount => ok slotId /\ ok voiceMailCount
  | ICoreService.SetVoiceCallForwarding slotId enable number => ok slotId
  | ICoreService.QueryIccDiallingNumbers slotId type => ok slotId /\ ok type
  | ICoreService.AddIccDiallingNumbers slotId type diallingNumber => ok slotId /\ ok type /\ ok diallingNumber
  | ICoreService.DelIccDiallingNumbers slotId type diallingNumber => ok slotId /\ ok type /\ ok diallingNumber
  | ICoreService.UpdateIccDiallingNumbers slotId type diallingNumber => ok slotId /\ ok type /\ ok diallingNumber
  | ICoreService.SetVoiceMailInfo slotId mailName mailNumber => ok slotId
  | ICoreService.GetOpKey slotId => ok slotId
  | ICoreService.GetOpKeyExt slotId => ok slotId
  | ICoreService.GetOpName slotId => ok slotId
  | ICoreService.GetMaxSimCount => True
  | ICoreService.GetRealSimCount => True
  | ICoreService.SendEnvelopeCmd slotId cmd => ok slotId
  | ICoreService.SendTerminalResponseCmd slotId cmd => ok slotId
  | ICoreService.SendCallSetupRequestResult slotId accept => ok slotId
  | ICoreService.UnlockSimLock slotId lockInfo => ok slotId /\ ok lockInfo
  | ICoreService.GetImsRegStatus slotId imsSrvType => ok slotId /\ ok imsSrvType
  | ICoreService.GetCellInfoList slotId => ok slotId
  | ICoreService.GetNeighboringCellInfoList slotId => ok slotId
  | ICoreService.SendUpdateCellLocationRequest slotId => ok slotId
  | ICoreService.HasOperatorPrivileges slotId callback => ok slotId
  | ICoreService.SimAuthentication slotId authType authData => ok slotId /\ ok authType
  | ICoreService.IsNrSupported slotId => ok slotId
  | ICoreService.SetNrOptionMode slotId mode callback => ok slotId /\ ok mode
  | ICoreService.GetNrOptionMode slotId callback => ok slotId
  | ICoreService.RegisterImsRegInfoCallback slotId imsSrvType callback => ok slotId /\ ok imsSrvType
  | ICoreService.UnregisterImsRegInfoCallback slotId imsSrvType => ok slotId /\ ok imsSrvType
  | ICoreService.GetNrSsbIdInfo slotId => ok slotId
  | ICoreService.FactoryReset slotId => ok slotId
  | ICoreService.IsAllowedInsertApn value => True
  | ICoreService.GetTargetOpkey slotId => ok slotId
  | ICoreService.GetOpkeyVersion => True
  | ICoreService.GetOpnameVersion => True
  | ICoreService.GetSimIO slotId command fileId dataStr path => ok slotId /\ ok command /\ ok fileId
  | ICoreService.GetShowName slotId callback => ok slotId
  | ICoreService.GetAllSimAccountInfoList => True
  | ICoreService.GetSimLabel slotId callback => ok slotId
  | ICoreService.SendApduData slotId aid apduData => ok slotId /\ ok apduData
  | ICoreService.GetManualNetworkScanState slotId callback => ok slotId
  | ICoreService.StartManualNetworkScanCallback slotId callback => ok slotId
  | ICoreService.StopManualNetworkScanCallback slotId => ok slotId
  | ICoreService.StartHiddenCameraDetection callback config rawCallback => ok config
  | ICoreService.StopHiddenCameraDetection rawCallback => True
  | ICoreService.KeepHiddenCameraDetection rawCallback => True
  | ICoreService.SetSimLabelIndex simId simLabelIndex callback => ok simId /\ ok simLabelIndex
  | ICoreService.IsMultiSimsCapabilitySupported slotId => ok slotId
  end.
Definition answer_ok {R} (c : coreE R) : R -> Prop :=
  match c in ICoreService.coreE R return R -> Prop with
  | ICoreService.GetPsRadioTech _ => fun r => ok r
  | ICoreService.GetCsRadioTech _ => fun r => ok r
  | ICoreService.GetOperatorNumeric _ => fun r => ok r
  | ICoreService.GetResidentNetworkNumeric _ => fun r => ok r
  | ICoreService.GetOperatorName _ => fun r => ok r
  | ICoreService.GetBasebandVersion _ => fun r => ok r
  | ICoreService.GetNetworkSearchInformation _ _ => fun r => ok r
  | ICoreService.GetNetworkState _ => fun r => ok r
  | ICoreService.GetSignalInfoList _ => fun r => ok r
  | ICoreService.SetRadioState _ _ _ => fun r => ok r
  | ICoreService.GetRadioState _ _ => fun r => ok r
  | ICoreService.GetIsoCountryCodeForNetwork _ => fun r => ok r
  | ICoreService.GetImei _ _ => fun r => ok r
  | ICoreService.GetImeiSv _ _ => fun r => ok r
  | ICoreService.GetMeid _ => fun r => ok r
  | ICoreService.GetUniqueDeviceId _ => fun r => ok r
  | ICoreService.HasSimCard _ _ => fun r => ok r
  | ICoreService.GetSimState _ _ => fun r => ok r
  | ICoreService.GetDsdsMode => fun r => ok r
  | ICoreService.GetCardType _ => fun r => ok r
  | ICoreService.GetISOCountryCodeForSim _ => fun r => ok r
  | ICoreService.GetSimOperatorNumeric _ => fun r => ok r
  | ICoreService.GetSimSpn _ => fun r => ok r
  | ICoreService.GetSimIccId _ => fun r => ok r
  | ICoreService.GetIMSI _ => fun r => ok r
  | ICoreService.IsCTSimCard _ _ => fun r => ok r
  | ICoreService.IsSimActive _ _ => fun r => ok r
  | ICoreService.GetSlotId _ => fun r => ok r
  | ICoreService.GetSimId _ => fun r => ok r
  | ICoreService.GetNetworkSelectionMode _ _ => fun r => ok r
  | ICoreService.SetNetworkSelectionMode _ _ _ _ _ => fun r => ok r
  | ICoreService.GetLocaleFromDefaultSim => fun r => ok r
  | ICoreService.GetSimGid1 _ => fun r => ok r
  | ICoreService.GetSimGid2 _ => fun r => ok r
  | ICoreService.GetSimEons _ _ _ _ => fun r => ok r
  | ICoreService.GetSimAccountInfo _ => fun r => ok r
  | ICoreService.SetDefaultVoiceSlotId _ => fun r => ok r
  | ICoreService.GetDefaultVoiceSlotId => fun r => ok r
  | ICoreService.GetDefaultVoiceSimId _ => fun r => ok r
  | ICoreService.SetPrimarySlotId _ => fun r => ok r
  | ICoreService.GetPrimarySlotId => fun r => ok r
  | ICoreService.SetShowNumber _ _ _ => fun r => ok r
  | ICoreService.GetShowNumber _ _ => fun r => ok r
  | ICoreService.SetShowName _ _ _ => fun r => ok r
  | ICoreService.GetActiveSimAccountInfoList => fun r => ok r
  | ICoreService.GetOperatorConfigs _ => fun r => ok r
  | ICoreService.UnlockPin _ _ _ => fun r => ok r
  | ICoreService.UnlockPuk _ _ _ _ => fun r => ok r
  | ICoreService.AlterPin _ _ _ _ => fun r => ok r
  | ICoreService.UnlockPin2 _ _ _ => fun r => ok r
  | ICoreService.UnlockPuk2 _ _ _ _ => fun r => ok r
  | ICoreService.AlterPin2 _ _ _ _ => fun r => ok r
  | ICoreService.SetLockState _ _ _ => fun r => ok r
  | ICoreService.GetLockState _ _ _ => fun r => ok r
  | ICoreService.RefreshSimState _ => fun r => ok r
  | ICoreService.SetActiveSim _ _ => fun r => ok r
  | ICoreService.SetActiveSimSatellite _ _ => fun r => ok r
  | ICoreService.GetPreferredNetwork _ _ => fun r => ok r
  | ICoreService.SetPreferredNetwork _ _ _ => fun r => ok r
  | ICoreService.GetNetworkCapability _ _ => fun r => ok r
  | ICoreService.SetNetworkCapability _ _ _ => fun r => ok r
  | ICoreService.GetSimTelephoneNumber _ => fun r => ok r
  | ICoreService.GetSimTeleNumberIdentifier _ => fun r => ok r
  | ICoreService.GetVoiceMailIdentifier _ => fun r => ok r
  | ICoreService.GetVoiceMailNumber _ => fun r => ok r
  | ICoreService.GetVoiceMailCount _ => fun r => ok r
  | ICoreService.SetVoiceMailCount _ _ => fun r => ok r
  | ICoreService.SetVoiceCallForwarding _ _ _ => fun r => ok r
  | ICoreService.QueryIccDiallingNumbers _ _ => fun r => ok r
  | ICoreService.AddIccDiallingNumbers _ _ _ => fun r => ok r
  | ICoreService.DelIccDiallingNumbers _ _ _ => fun r => ok r
  | ICoreService.UpdateIccDiallingNumbers _ _ _ => fun r => ok r
  | ICoreService.SetVoiceMailInfo _ _ _ => fun r => ok r
  | ICoreService.GetOpKey _ => fun r => ok r
  | ICoreService.GetOpKeyExt _ => fun r => ok r
  | ICoreService.GetOpName _ => fun r => ok r
  | ICoreService.GetMaxSimCount => fun r => ok r
  | ICoreService.GetRealSimCount => fun r => ok r
  | ICoreService.SendEnvelopeCmd _ _ => fun r => ok r
  | ICoreService.SendTerminalResponseCmd _ _ => fun r => ok r
  | ICoreService.SendCallSetupRequestResult _ _ => fun r => ok r
  | ICoreService.UnlockSimLock _ _ => fun r => ok r
  | ICoreService.GetImsRegStatus _ _ => fun r => ok r
  | ICoreService.GetCellInfoList _ => fun r => ok r
  | ICoreService.GetNeighboringCellInfoList _ => fun r => ok r
  | ICoreService.SendUpdateCellLocationRequest _ => fun r => ok r
  | ICoreService.HasOperatorPrivileges _ _ => fun r => ok r
  | ICoreService.SimAuthentication _ _ _ => fun r => ok r
  | ICoreService.IsNrSupported _ => fun r => ok r
  | ICoreService.SetNrOptionMode _ _ _ => fun r => ok r
  | ICoreService.GetNrOptionMode _ _ => fun r => ok r
  | ICoreService.RegisterImsRegInfoCallback _ _ _ => fun r => ok r
  | ICoreService.UnregisterImsRegInfoCallback _ _ => fun r => ok r
  | ICoreService.GetNrSsbIdInfo _ => fun r => ok r.1 /\ (r.1 = TELEPHONY_ERR_SUCCESS -> ok r.2)
  | ICoreService.FactoryReset _ => fun r => ok r
  | ICoreService.IsAllowedInsertApn _ => fun r => ok r
  | ICoreService.GetTargetOpkey _ => fun r => ok r
  | ICoreService.GetOpkeyVersion => fun r => ok r
  | ICoreService.GetOpnameVersion => fun r => ok r
  | ICoreService.GetSimIO _ _ _ _ _ => fun r => ok r
  | ICoreService.GetShowName _ _ => fun r => ok r
  | ICoreService.GetAllSimAccountInfoList => fun r => ok r
  | ICoreService.GetSimLabel _ _ => fun r => ok r
  | ICoreService.SendApduData _ _ _ => fun r => ok r
  | ICoreService.GetManualNetworkScanState _ _ => fun r => ok r
  | ICoreService.StartManualNetworkScanCallback _ _ => fun r => ok r
  | ICoreService.StopManualNetworkScanCallback _ => fun r => ok r
  | ICoreService.StartHiddenCameraDetection _ _ _ => fun r => ok r
  | ICoreService.StopHiddenCameraDetection _ => fun r => ok r
  | ICoreService.KeepHiddenCameraDetection _ => fun r => ok r
  | ICoreService.SetSimLabelIndex _ _ _ => fun r => ok r
  | ICoreService.IsMultiSimsCapabilitySupported _ => fun r => ok r
  end.

(** ** What the client sees *)

Section Spec.
Context {P W : Type} `{ParcelOps P} `{ErrorCodes} `{StringEx} `{!ClientSystem P W} `{!ServerSystem P W}.
Definition answer (A : Type) : Type := W -> A * W.

(** Ask the service; [tell] does not wait for its answer, and [ask_out] keeps the client's value of the output argument when the service fails. *)
Definition ask {R} (c : coreE R) : answer R := service R c.
Definition tell (c : coreE Z) : answer Z := fun w => (TELEPHONY_SUCCESS, (service Z c w).2).
Definition ask_list {A B} (c : coreE (Z * A)) (init : B) (f : A -> B) : answer (Z * B) := fun w =>
  let '((res, a), w) := service _ c w in ((res, if res =? TELEPHONY_ERR_SUCCESS then f a else init), w).
Definition ask_out {A} (c : coreE (Z * A)) (init : A) : answer (Z * A) := ask_list c init (fun a => a).
(** A success without a network state is an error. *)
Definition ask_state (slotId : Z) (init : option NetworkState) : answer (Z * option NetworkState) := fun w =>
  let '((res, n), w) := service _ (ICoreService.GetNetworkState slotId) w in
  let res := if is_null n && negb (res =? TELEPHONY_ERR_PERMISSION_ERR) then TELEPHONY_ERR_LOCAL_PTR_NULL else res in
  ((res, if res =? TELEPHONY_ERR_SUCCESS then n else init), w).
(** More than 500 accounts are refused; [on_error]: what becomes of the service's error code. *)
Definition ask_accounts (c : coreE (Z * list IccAccountInfo)) (init : list IccAccountInfo) (on_error : Z -> Z) : answer (Z * list IccAccountInfo) := fun w =>
  let '((res, l), w) := service _ c w in
  (if res =? TELEPHONY_ERR_SUCCESS then if zlen l >? MAX_VECTOR then (TELEPHONY_ERR_IPC_CONNECT_STUB_FAIL, init) else (res, l) else (on_error res, init), w).
Definition ask_numbers (slotId type : Z) (init : list DiallingNumbersInfo) : answer (Z * list DiallingNumbersInfo) := fun w =>
  let '((res, l), w) := service _ (ICoreService.QueryIccDiallingNumbers slotId type) w in
  (if res =? TELEPHONY_ERR_SUCCESS then if MAX_NUMBERS_SIZE <=? zlen l then (TELEPHONY_ERR_READ_DATA_FAIL, init) else (TELEPHONY_ERR_SUCCESS, init ++ l)
   else (res, init), w).
(** The lists of the client's object are extended. *)
Definition merge_ssb (o n : NrSsbInformation) : NrSsbInformation :=
  MkNrSsb (arfcn_ n) (cid_ n) (pci_ n) (rsrp_ n) (sinr_ n) (timeAdvance_ n) (sCellSsbList_ o ++ sCellSsbList_ n) (nbCellCount_ n) (nbCellSsbList_ o ++ nbCellSsbList_ n).

(** Refusals that need no request, or only one for the number of slots. *)
Definition checked {A} (b : bool) (r : A) (k : answer A) : answer A := if b then k else fun w => (r, w).
Definition need {A B} (x : option B) (r : A) (k : answer A) : answer A := match x with Some _ => k | None => fun w => (r, w) end.
(** The number of slots; a phone that shares its modem with others asks for the larger number. *)
Definition slots : answer Z := fun w =>
  let '(n, w) := service _ ICoreService.GetRealSimCount w in
  if CoreServiceProxy.GetDistributeModemMultiDeviceSwitch (P := P) (W := W) then
    let '(n', w) := service _ ICoreService.GetMaxSimCount w in (if negb (n' =? TELEPHONY_ERROR) then n' else n, w)
  else (n, w).
Definition slot_in {A} (lo extra slotId : Z) (r : A) (k : answer A) : answer A := fun w =>
  let '(n, w) := slots w in if (lo <=? slotId) && (slotId <? n + extra) then k w else (r, w).
Definition slot_ok {A} : Z -> A -> answer A -> answer A := slot_in DEFAULT_SIM_SLOT_ID 0.
Definition slot_ok_ex {A} : Z -> A -> answer A -> answer A := slot_in DEFAULT_SIM_SLOT_ID 1.
Definition slot_ok_default {A} : Z -> A -> answer A -> answer A := slot_in DEFAULT_SIM_SLOT_ID_REMOVE 0.

(** The answer to [c] for a client whose output argument is [init.2]. *)
Definition spec {R} (c : coreE R) : R -> answer R :=
  match c in ICoreService.coreE R return R -> answer R with
  | ICoreService.GetPsRadioTech slotId => fun init => ask_out (ICoreService.GetPsRadioTech slotId) init.2
  | ICoreService.GetCsRadioTech slotId => fun init => ask_out (ICoreService.GetCsRadioTech slotId) init.2
  | ICoreService.GetOperatorNumeric slotId => fun _ => ask (ICoreService.GetOperatorNumeric slotId)
  | ICoreService.GetResidentNetworkNumeric slotId => fun _ => ask (ICoreService.GetResidentNetworkNumeric slotId)
  | ICoreService.GetOperatorName slotId => fun init => ask_out (ICoreService.GetOperatorName slotId) init.2
  | ICoreService.GetBasebandVersion slotId => fun init => ask_out (ICoreService.GetBasebandVersion slotId) init.2
  | ICoreService.GetNetworkSearchInformation slotId callback => fun _ => need callback TELEPHONY_ERR_IPC_CONNECT_STUB_FAIL (ask (ICoreService.GetNetworkSearchInformation slotId callback))
  | ICoreService.GetNetworkState slotId => fun init => ask_state slotId init.2
  | ICoreService.GetSignalInfoList slotId => fun init => ask_list (ICoreService.GetSignalInfoList slotId) init.2 (fun l => if MAX_SIZE <=? zlen l then init.2 else init.2 ++ l)
  | ICoreService.SetRadioState slotId isOn callback => fun _ => need callback TELEPHONY_ERR_IPC_CONNECT_STUB_FAIL (ask (ICoreService.SetRadioState slotId isOn callback))
  | ICoreService.GetRadioState slotId callback => fun _ => need callback TELEPHONY_ERR_IPC_CONNECT_STUB_FAIL (ask (ICoreService.GetRadioState slotId callback))
  | ICoreService.GetIsoCountryCodeForNetwork slotId => fun init => ask_out (ICoreService.GetIsoCountryCodeForNetwork slotId) init.2
  | ICoreService.GetImei slotId callback => fun _ => need callback TELEPHONY_ERR_IPC_CONNECT_STUB_FAIL (ask (ICoreService.GetImei slotId callback))
  | ICoreService.GetImeiSv slotId callback => fun _ => need callback TELEPHONY_ERR_IPC_CONNECT_STUB_FAIL (ask (ICoreService.GetImeiSv slotId callback))
  | ICoreService.GetMeid slotId => fun init => ask_out (ICoreService.GetMeid slotId) init.2
  | ICoreService.GetUniqueDeviceId slotId => fun init => ask_out (ICoreService.GetUniqueDeviceId slotId) init.2
  | ICoreService.HasSimCard slotId callback => fun _ => need callback TELEPHONY_ERR_IPC_CONNECT_STUB_FAIL (ask (ICoreService.HasSimCard slotId callback))
  | ICoreService.GetSimState slotId callback => fun _ => slot_ok slotId TELEPHONY_ERR_SLOTID_INVALID (need callback TELEPHONY_ERR_IPC_CONNECT_STUB_FAIL (ask (ICoreService.GetSimState slotId callback)))
  | ICoreService.GetDsdsMode => fun init => ask_out ICoreService.GetDsdsMode init.2
  | ICoreService.GetCardType slotId => fun init => ask_out (ICoreService.GetCardType slotId) init.2
  | ICoreService.GetISOCountryCodeForSim slotId => fun init => slot_ok slotId (TELEPHONY_ERR_SLOTID_INVALID, init.2) (ask_out (ICoreService.GetISOCountryCodeForSim slotId) init.2)
  | ICoreService.GetSimOperatorNumeric slotId => fun init => slot_ok_ex slotId (TELEPHONY_ERR_SLOTID_INVALID, init.2) (ask_out (ICoreService.GetSimOperatorNumeric slotId) init.2)
  | ICoreService.GetSimSpn slotId => fun init => slot_ok slotId (TELEPHONY_ERR_SLOTID_INVALID, init.2) (ask_out (ICoreService.GetSimSpn slotId) init.2)
  | ICoreService.GetSimIccId slotId => fun init => slot_ok slotId (TELEPHONY_ERR_SLOTID_INVALID, init.2) (ask_out (ICoreService.GetSimIccId slotId) init.2)
  | ICoreService.GetIMSI slotId => fun init => slot_ok slotId (TELEPHONY_ERR_SLOTID_INVALID, init.2) (ask_out (ICoreService.GetIMSI slotId) init.2)
  | ICoreService.IsCTSimCard slotId callback => fun _ => slot_ok slotId TELEPHONY_ERR_SLOTID_INVALID (need callback TELEPHONY_ERR_IPC_CONNECT_STUB_FAIL (ask (ICoreService.IsCTSimCard slotId callback)))
  | ICoreService.IsSimActive slotId callback => fun _ => slot_ok slotId false (need callback false (ask (ICoreService.IsSimActive slotId callback)))
  | ICoreService.GetSlotId simId => fun _ => checked (negb (simId <=? 0)) ERROR (ask (ICoreService.GetSlotId simId))
  | ICoreService.GetSimId slotId => fun _ => slot_ok slotId ERROR (ask (ICoreService.GetSimId slotId))
  | ICoreService.GetNetworkSelectionMode slotId callback => fun _ => need callback TELEPHONY_ERR_IPC_CONNECT_STUB_FAIL (ask (ICoreService.GetNetworkSelectionMode slotId callback))
  | ICoreService.SetNetworkSelectionMode slotId selectMode networkInformation resumeSelection callback => fun _ => need callback TELEPHONY_ERR_WRITE_REPLY_FAIL (ask (ICoreService.SetNetworkSelectionMode slotId selectMode networkInformation resumeSelection callback))
  | ICoreService.GetLocaleFromDefaultSim => fun _ => ask ICoreService.GetLocaleFromDefaultSim
  | ICoreService.GetSimGid1 slotId => fun init => slot_ok slotId (TELEPHONY_ERR_SLOTID_INVALID, init.2) (ask_out (ICoreService.GetSimGid1 slotId) init.2)
  | ICoreService.GetSimGid2 slotId => fun _ => slot_ok slotId [] (ask (ICoreService.GetSimGid2 slotId))
  | ICoreService.GetSimEons slotId plmn lac longNameRequired => fun _ => slot_ok slotId [] (ask (ICoreService.GetSimEons slotId plmn lac longNameRequired))
  | ICoreService.GetSimAccountInfo slotId => fun init => slot_ok_ex slotId (TELEPHONY_ERR_SLOTID_INVALID, init.2) (ask_out (ICoreService.GetSimAccountInfo slotId) init.2)
  | ICoreService.SetDefaultVoiceSlotId slotId => fun _ => slot_ok_default slotId TELEPHONY_ERR_SLOTID_INVALID (ask (ICoreService.SetDefaultVoiceSlotId slotId))
  | ICoreService.GetDefaultVoiceSlotId => fun _ => ask ICoreService.GetDefaultVoiceSlotId
  | ICoreService.GetDefaultVoiceSimId callback => fun _ => need callback TELEPHONY_ERR_IPC_CONNECT_STUB_FAIL (ask (ICoreService.GetDefaultVoiceSimId callback))
  | ICoreService.SetPrimarySlotId slotId => fun _ => slot_ok slotId TELEPHONY_ERR_SLOTID_INVALID (ask (ICoreService.SetPrimarySlotId slotId))
  | ICoreService.GetPrimarySlotId => fun init => ask_out ICoreService.GetPrimarySlotId init.2
  | ICoreService.SetShowNumber slotId number callback => fun _ => slot_ok slotId TELEPHONY_ERR_SLOTID_INVALID (checked (CoreServiceProxy.IsValidStringLength number) TELEPHONY_ERR_ARGUMENT_INVALID (need callback TELEPHONY_ERR_IPC_CONNECT_STUB_FAIL (ask (ICoreService.SetShowNumber slotId number callback))))
  | ICoreService.GetShowNumber slotId callback => fun _ => slot_ok slotId TELEPHONY_ERR_SLOTID_INVALID (need callback TELEPHONY_ERR_IPC_CONNECT_STUB_FAIL (ask (ICoreService.GetShowNumber slotId callback)))
  | ICoreService.SetShowName slotId name callback => fun _ => slot_ok slotId TELEPHONY_ERR_SLOTID_INVALID (checked (CoreServiceProxy.IsValidStringLength name) TELEPHONY_ERR_ARGUMENT_INVALID (need callback TELEPHONY_ERR_IPC_CONNECT_STUB_FAIL (ask (ICoreService.SetShowName slotId name callback))))
  | ICoreService.GetActiveSimAccountInfoList => fun init => ask_accounts ICoreService.GetActiveSimAccountInfoList init.2 (fun res => res)
  | ICoreService.GetOperatorConfigs slotId => fun init => slot_ok slotId (TELEPHONY_ERR_SLOTID_INVALID, init.2) (ask_out (ICoreService.GetOperatorConfigs slotId) init.2)
  | ICoreService.UnlockPin slotId pin callback => fun _ => need callback TELEPHONY_ERR_IPC_CONNECT_STUB_FAIL (ask (ICoreService.UnlockPin slotId pin callback))
  | ICoreService.UnlockPuk slotId newPin puk callback => fun _ => need callback TELEPHONY_ERR_IPC_CONNECT_STUB_FAIL (ask (ICoreService.UnlockPuk slotId newPin puk callback))
  | ICoreService.AlterPin slotId newPin oldPin callback => fun _ => need callback TELEPHONY_ERR_IPC_CONNECT_STUB_FAIL (ask (ICoreService.AlterPin slotId newPin oldPin callback))
  | ICoreService.UnlockPin2 slotId pin2 callback => fun _ => need callback TELEPHONY_ERR_IPC_CONNECT_STUB_FAIL (ask (ICoreService.UnlockPin2 slotId pin2 callback))
  | ICoreService.UnlockPuk2 slotId newPin2 puk2 callback => fun _ => need callback TELEPHONY_ERR_IPC_CONNECT_STUB_FAIL (ask (ICoreService.UnlockPuk2 slotId newPin2 puk2 callback))
  | ICoreService.AlterPin2 slotId newPin2 oldPin2 callback => fun _ => need callback TELEPHONY_ERR_IPC_CONNECT_STUB_FAIL (ask (ICoreService.AlterPin2 slotId newPin2 oldPin2 callback))
  | ICoreService.SetLockState slotId options callback => fun _ => need callback TELEPHONY_ERR_IPC_CONNECT_STUB_FAIL (ask (ICoreService.SetLockState slotId options callback))
  | ICoreService.GetLockState slotId lockType callback => fun _ => need callback TELEPHONY_ERR_IPC_CONNECT_STUB_FAIL (ask (ICoreService.GetLockState slotId lockType callback))
  | ICoreService.RefreshSimState slotId => fun _ => ask (ICoreService.RefreshSimState slotId)
  | ICoreService.SetActiveSim slotId enable => fun _ => slot_ok slotId TELEPHONY_ERR_SLOTID_INVALID (checked ((enable =? DISABLE) || (enable =? ENABLE)) TELEPHONY_ERR_ARGUMENT_INVALID (ask (ICoreService.SetActiveSim slotId enable)))
  | ICoreService.SetActiveSimSatellite slotId enable => fun _ => slot_ok slotId TELEPHONY_ERR_SLOTID_INVALID (checked ((enable =? DISABLE) || (enable =? ENABLE)) TELEPHONY_ERR_ARGUMENT_INVALID (ask (ICoreService.SetActiveSimSatellite slotId enable)))
  | ICoreService.GetPreferredNetwork slotId callback => fun _ => need callback TELEPHONY_ERR_IPC_CONNECT_STUB_FAIL (ask (ICoreService.GetPreferredNetwork slotId callback))
  | ICoreService.SetPreferredNetwork slotId networkMode callback => fun _ => need callback TELEPHONY_ERR_IPC_CONNECT_STUB_FAIL (ask (ICoreService.SetPreferredNetwork slotId networkMode callback))
  | ICoreService.GetNetworkCapability slotId networkCapabilityType => fun init => ask_out (ICoreService.GetNetworkCapability slotId networkCapabilityType) init.2
  | ICoreService.SetNetworkCapability slotId networkCapabilityType networkCapabilityState => fun _ => ask (ICoreService.SetNetworkCapability slotId networkCapabilityType networkCapabilityState)
  | ICoreService.GetSimTelephoneNumber slotId => fun init => slot_ok slotId (TELEPHONY_ERR_SLOTID_INVALID, init.2) (ask_out (ICoreService.GetSimTelephoneNumber slotId) init.2)
  | ICoreService.GetSimTeleNumberIdentifier slotId => fun _ => slot_ok slotId [] (ask (ICoreService.GetSimTeleNumberIdentifier slotId))
  | ICoreService.GetVoiceMailIdentifier slotId => fun init => slot_ok slotId (TELEPHONY_ERR_SLOTID_INVALID, init.2) (ask_out (ICoreService.GetVoiceMailIdentifier slotId) init.2)
  | ICoreService.GetVoiceMailNumber slotId => fun init => slot_ok slotId (TELEPHONY_ERR_SLOTID_INVALID, init.2) (ask_out (ICoreService.GetVoiceMailNumber slotId) init.2)
  | ICoreService.GetVoiceMailCount slotId => fun init => slot_ok slotId (TELEPHONY_ERR_SLOTID_INVALID, init.2) (ask_out (ICoreService.GetVoiceMailCount slotId) init.2)
  | ICoreService.SetVoiceMailCount slotId voiceMailCount => fun _ => slot_ok slotId TELEPHONY_ERR_SLOTID_INVALID (ask (ICoreService.SetVoiceMailCount slotId voiceMailCount))
  | ICoreService.SetVoiceCallForwarding slotId enable number => fun _ => slot_ok slotId TELEPHONY_ERR_SLOTID_INVALID (ask (ICoreService.SetVoiceCallForwarding slotId enable number))
  | ICoreService.QueryIccDiallingNumbers slotId type => fun init => slot_ok slotId (TELEPHONY_ERR_SLOTID_INVALID, init.2) (ask_numbers slotId type init.2)
  | ICoreService.AddIccDiallingNumbers slotId type diallingNumber => fun _ => slot_ok slotId TELEPHONY_ERR_SLOTID_INVALID (need diallingNumber TELEPHONY_ERR_IPC_CONNECT_STUB_FAIL (ask (ICoreService.AddIccDiallingNumbers slotId type diallingNumber)))
  | ICoreService.DelIccDiallingNumbers slotId type diallingNumber => fun _ => slot_ok slotId TELEPHONY_ERR_SLOTID_INVALID (need diallingNumber TELEPHONY_ERR_IPC_CONNECT_STUB_FAIL (ask (ICoreService.DelIccDiallingNumbers slotId type diallingNumber)))
  | ICoreService.UpdateIccDiallingNumbers slotId type diallingNumber => fun _ => slot_ok slotId TELEPHONY_ERR_SLOTID_INVALID (need diallingNumber TELEPHONY_ERR_IPC_CONNECT_STUB_FAIL (ask (ICoreService.UpdateIccDiallingNumbers slotId type diallingNumber)))
  | ICoreService.SetVoiceMailInfo slotId mailName mailNumber => fun _ => slot_ok slotId TELEPHONY_ERR_SLOTID_INVALID (checked (CoreServiceProxy.IsValidStringLength mailName && CoreServiceProxy.IsValidStringLength mailNumber) TELEPHONY_ERR_ARGUMENT_INVALID (ask (ICoreService.SetVoiceMailInfo slotId mailName mailNumber)))
  | ICoreService.GetOpKey slotId => fun init => slot_ok slotId (TELEPHONY_ERR_SLOTID_INVALID, init.2) (ask_out (ICoreService.GetOpKey slotId) init.2)
  | ICoreService.GetOpKeyExt slotId => fun init => slot_ok slotId (TELEPHONY_ERR_SLOTID_INVALID, init.2) (ask_out (ICoreService.GetOpKeyExt slotId) init.2)
  | ICoreService.GetOpName slotId => fun init => slot_ok slotId (TELEPHONY_ERR_SLOTID_INVALID, init.2) (ask_out (ICoreService.GetOpName slotId) init.2)
  | ICoreService.GetMaxSimCount => fun _ => ask ICoreService.GetRealSimCount
  | ICoreService.GetRealSimCount => fun _ => ask ICoreService.GetRealSimCount
  | ICoreService.SendEnvelopeCmd slotId cmd => fun _ => slot_ok slotId TELEPHONY_ERR_SLOTID_INVALID (checked (negb (bool_decide (cmd = []))) TELEPHONY_ERR_ARGUMENT_INVALID (ask (ICoreService.SendEnvelopeCmd slotId cmd)))
  | ICoreService.SendTerminalResponseCmd slotId cmd => fun _ => slot_ok slotId TELEPHONY_ERR_SLOTID_INVALID (checked (negb (bool_decide (cmd = []))) TELEPHONY_ERR_ARGUMENT_INVALID (ask (ICoreService.SendTerminalResponseCmd slotId cmd)))
  | ICoreService.SendCallSetupRequestResult slotId accept => fun _ => ask (ICoreService.SendCallSetupRequestResult slotId accept)
  | ICoreService.UnlockSimLock slotId lockInfo => fun init => slot_ok slotId (TELEPHONY_ERR_SLOTID_INVALID, init.2) (ask_out (ICoreService.UnlockSimLock slotId lockInfo) init.2)
  | ICoreService.GetImsRegStatus slotId imsSrvType => fun init => slot_ok slotId (TELEPHONY_ERR_SLOTID_INVALID, init.2) (ask (ICoreService.GetImsRegStatus slotId imsSrvType))
  | ICoreService.GetCellInfoList slotId => fun init => ask_list (ICoreService.GetCellInfoList slotId) init.2 (fun l => if MAX_SIZE <=? zlen l then init.2 else init.2 ++ (received <$> l))
  | ICoreService.GetNeighboringCellInfoList slotId => fun init => ask_list (ICoreService.GetNeighboringCellInfoList slotId) init.2 (fun l => if MAX_SIZE <=? zlen l then init.2 else init.2 ++ (received <$> l))
  | ICoreService.SendUpdateCellLocationRequest slotId => fun _ => ask (ICoreService.SendUpdateCellLocationRequest slotId)
  | ICoreService.HasOperatorPrivileges slotId callback => fun _ => need callback TELEPHONY_ERR_IPC_CONNECT_STUB_FAIL (ask (ICoreService.HasOperatorPrivileges slotId callback))
  | ICoreService.SimAuthentication slotId authType authData => fun _ => ask (ICoreService.SimAuthentication slotId authType authData)
  | ICoreService.IsNrSupported slotId => fun _ => ask (ICoreService.IsNrSupported slotId)
  | ICoreService.SetNrOptionMode slotId mode callback => fun _ => need callback TELEPHONY_ERR_IPC_CONNECT_STUB_FAIL (ask (ICoreService.SetNrOptionMode slotId mode callback))
  | ICoreService.GetNrOptionMode slotId callback => fun _ => need callback TELEPHONY_ERR_IPC_CONNECT_STUB_FAIL (ask (ICoreService.GetNrOptionMode slotId callback))
  | ICoreService.RegisterImsRegInfoCallback slotId imsSrvType callback => fun _ => need callback TELEPHONY_ERR_ARGUMENT_NULL (slot_ok slotId TELEPHONY_ERR_SLOTID_INVALID (checked (CoreServiceProxy.IsValidServiceType imsSrvType) TELEPHONY_ERR_ARGUMENT_INVALID (ask (ICoreService.RegisterImsRegInfoCallback slotId imsSrvType callback))))
  | ICoreService.UnregisterImsRegInfoCallback slotId imsSrvType => fun _ => slot_ok slotId TELEPHONY_ERR_SLOTID_INVALID (checked (CoreServiceProxy.IsValidServiceType imsSrvType) TELEPHONY_ERR_ARGUMENT_INVALID (ask (ICoreService.UnregisterImsRegInfoCallback slotId imsSrvType)))
  | ICoreService.GetNrSsbIdInfo slotId => fun init => ask_list (ICoreService.GetNrSsbIdInfo slotId) init.2 (fun n => merge_ssb init.2 n)
  | ICoreService.FactoryReset slotId => fun _ => ask (ICoreService.FactoryReset slotId)
  | ICoreService.IsAllowedInsertApn value => fun _ => ask (ICoreService.IsAllowedInsertApn value)
  | ICoreService.GetTargetOpkey slotId => fun _ => ask (ICoreService.GetTargetOpkey slotId)
  | ICoreService.GetOpkeyVersion => fun _ => ask ICoreService.GetOpkeyVersion
  | ICoreService.GetOpnameVersion => fun _ => ask ICoreService.GetOpnameVersion
  | ICoreService.GetSimIO slotId command fileId dataStr path => fun _ => ask (ICoreService.GetSimIO slotId command fileId dataStr path)
  | ICoreService.GetShowName slotId callback => fun _ => slot_ok slotId TELEPHONY_ERR_SLOTID_INVALID (need callback TELEPHONY_ERR_IPC_CONNECT_STUB_FAIL (ask (ICoreService.GetShowName slotId callback)))
  | ICoreService.GetAllSimAccountInfoList => fun init => ask_accounts ICoreService.GetAllSimAccountInfoList init.2 (fun _ => TELEPHONY_ERR_IPC_CONNECT_STUB_FAIL)
  | ICoreService.GetSimLabel slotId callback => fun init => need callback (TELEPHONY_ERR_IPC_CONNECT_STUB_FAIL, init.2) (ask_out (ICoreService.GetSimLabel slotId callback) init.2)
  | ICoreService.SendApduData slotId aid apduData => fun init => ask_out (ICoreService.SendApduData slotId aid apduData) init.2
  | ICoreService.GetManualNetworkScanState slotId callback => fun _ => need callback TELEPHONY_ERR_IPC_CONNECT_STUB_FAIL (ask (ICoreService.GetManualNetworkScanState slotId callback))
  | ICoreService.StartManualNetworkScanCallback slotId callback => fun _ => need callback TELEPHONY_ERR_IPC_CONNECT_STUB_FAIL (ask (ICoreService.StartManualNetworkScanCallback slotId callback))
  | ICoreService.StopManualNetworkScanCallback slotId => fun _ => ask (ICoreService.StopManualNetworkScanCallback slotId)
  | ICoreService.StartHiddenCameraDetection callback config rawCallback => fun _ => need callback TELEPHONY_ERR_ARGUMENT_INVALID (need rawCallback TELEPHONY_ERR_ARGUMENT_INVALID (tell (ICoreService.StartHiddenCameraDetection callback config rawCallback)))
  | ICoreService.StopHiddenCameraDetection rawCallback => fun _ => need rawCallback TELEPHONY_ERR_ARGUMENT_INVALID (tell (ICoreService.StopHiddenCameraDetection rawCallback))
  | ICoreService.KeepHiddenCameraDetection rawCallback => fun _ => need rawCallback TELEPHONY_ERR_ARGUMENT_INVALID (tell (ICoreService.KeepHiddenCameraDetection rawCallback))
  | ICoreService.SetSimLabelIndex simId simLabelIndex callback => fun _ => need callback TELEPHONY_ERR_ARGUMENT_INVALID (ask (ICoreService.SetSimLabelIndex simId simLabelIndex callback))
  | ICoreService.IsMultiSimsCapabilitySupported slotId => fun _ => ask (ICoreService.IsMultiSimsCapabilitySupported slotId)
  end.

(** The call through the proxy; [g]: the global variables of the signal classes in the client. *)
Definition remote_call (g : SignalGlobals) {R} (c : coreE R) : R -> M P W R :=
  match c in ICoreService.coreE R return R -> M P W R with
  | ICoreService.GetPsRadioTech slotId => fun init => CoreServiceProxy.GetPsRadioTech slotId init.2
  | ICoreService.GetCsRadioTech slotId => fun init => CoreServiceProxy.GetCsRadioTech slotId init.2
  | ICoreService.GetOperatorNumeric slotId => fun _ => CoreServiceProxy.GetOperatorNumeric slotId
  | ICoreService.GetResidentNetworkNumeric slotId => fun _ => CoreServiceProxy.GetResidentNetworkNumeric slotId
  | ICoreService.GetOperatorName slotId => fun init => CoreServiceProxy.GetOperatorName slotId init.2
  | ICoreService.GetBasebandVersion slotId => fun init => CoreServiceProxy.GetBasebandVersion slotId init.2
  | ICoreService.GetNetworkSearchInformation slotId callback => fun _ => CoreServiceProxy.GetNetworkSearchInformation slotId callback
  | ICoreService.GetNetworkState slotId => fun init => CoreServiceProxy.GetNetworkState slotId init.2
  | ICoreService.GetSignalInfoList slotId => fun init => CoreServiceProxy.GetSignalInfoList g slotId init.2
  | ICoreService.SetRadioState slotId isOn callback => fun _ => CoreServiceProxy.SetRadioState slotId isOn callback
  | ICoreService.GetRadioState slotId callback => fun _ => CoreServiceProxy.GetRadioState slotId callback
  | ICoreService.GetIsoCountryCodeForNetwork slotId => fun init => CoreServiceProxy.GetIsoCountryCodeForNetwork slotId init.2
  | ICoreService.GetImei slotId callback => fun _ => CoreServiceProxy.GetImei slotId callback
  | ICoreService.GetImeiSv slotId callback => fun _ => CoreServiceProxy.GetImeiSv slotId callback
  | ICoreService.GetMeid slotId => fun init => CoreServiceProxy.GetMeid slotId init.2
  | ICoreService.GetUniqueDeviceId slotId => fun init => CoreServiceProxy.GetUniqueDeviceId slotId init.2
  | ICoreService.HasSimCard slotId callback => fun _ => CoreServiceProxy.HasSimCard slotId callback
  | ICoreService.GetSimState slotId callback => fun _ => CoreServiceProxy.GetSimState slotId callback
  | ICoreService.GetDsdsMode => fun init => CoreServiceProxy.GetDsdsMode init.2
  | ICoreService.GetCardType slotId => fun init => CoreServiceProxy.GetCardType slotId init.2
  | ICoreService.GetISOCountryCodeForSim slotId => fun init => CoreServiceProxy.GetISOCountryCodeForSim slotId init.2
  | ICoreService.GetSimOperatorNumeric slotId => fun init => CoreServiceProxy.GetSimOperatorNumeric slotId init.2
  | ICoreService.GetSimSpn slotId => fun init => CoreServiceProxy.GetSimSpn slotId init.2
  | ICoreService.GetSimIccId slotId => fun init => CoreServiceProxy.GetSimIccId slotId init.2
  | ICoreService.GetIMSI slotId => fun init => CoreServiceProxy.GetIMSI slotId init.2
  | ICoreService.IsCTSimCard slotId callback => fun _ => CoreServiceProxy.IsCTSimCard slotId callback
  | ICoreService.IsSimActive slotId callback => fun _ => CoreServiceProxy.IsSimActive slotId callback
  | ICoreService.GetSlotId simId => fun _ => CoreServiceProxy.GetSlotId simId
  | ICoreService.GetSimId slotId => fun _ => CoreServiceProxy.GetSimId slotId
  | ICoreService.GetNetworkSelectionMode slotId callback => fun _ => CoreServiceProxy.GetNetworkSelectionMode slotId callback
  | ICoreService.SetNetworkSelectionMode slotId selectMode networkInformation resumeSelection callback => fun _ => CoreServiceProxy.SetNetworkSelectionMode slotId selectMode networkInformation resumeSelection callback
  | ICoreService.GetLocaleFromDefaultSim => fun _ => CoreServiceProxy.GetLocaleFromDefaultSim
  | ICoreService.GetSimGid1 slotId => fun init => CoreServiceProxy.GetSimGid1 slotId init.2
  | ICoreService.GetSimGid2 slotId => fun _ => CoreServiceProxy.GetSimGid2 slotId
  | ICoreService.GetSimEons slotId plmn lac longNameRequired => fun _ => CoreServiceProxy.GetSimEons slotId plmn lac longNameRequired
  | ICoreService.GetSimAccountInfo slotId => fun init => CoreServiceProxy.GetSimAccountInfo slotId init.2
  | ICoreService.SetDefaultVoiceSlotId slotId => fun _ => CoreServiceProxy.SetDefaultVoiceSlotId slotId
  | ICoreService.GetDefaultVoiceSlotId => fun _ => CoreServiceProxy.GetDefaultVoiceSlotId
  | ICoreService.GetDefaultVoiceSimId callback => fun _ => CoreServiceProxy.GetDefaultVoiceSimId callback
  | ICoreService.SetPrimarySlotId slotId => fun _ => CoreServiceProxy.SetPrimarySlotId slotId
  | ICoreService.GetPrimarySlotId => fun init => CoreServiceProxy.GetPrimarySlotId init.2
  | ICoreService.SetShowNumber slotId number callback => fun _ => CoreServiceProxy.SetShowNumber slotId number callback
  | ICoreService.GetShowNumber slotId callback => fun _ => CoreServiceProxy.GetShowNumber slotId callback
  | ICoreService.SetShowName slotId name callback => fun _ => CoreServiceProxy.SetShowName slotId name callback
  | ICoreService.GetActiveSimAccountInfoList => fun init => CoreServiceProxy.GetActiveSimAccountInfoList init.2
  | ICoreService.GetOperatorConfigs slotId => fun init => CoreServiceProxy.GetOperatorConfigs slotId init.2
  | ICoreService.UnlockPin slotId pin callback => fun _ => CoreServiceProxy.UnlockPin slotId pin callback
  | ICoreService.UnlockPuk slotId newPin puk callback => fun _ => CoreServiceProxy.UnlockPuk slotId newPin puk callback
  | ICoreService.AlterPin slotId newPin oldPin callback => fun _ => CoreServiceProxy.AlterPin slotId newPin oldPin callback
  | ICoreService.UnlockPin2 slotId pin2 callback => fun _ => CoreServiceProxy.UnlockPin2 slotId pin2 callback
  | ICoreService.UnlockPuk2 slotId newPin2 puk2 callback => fun _ => CoreServiceProxy.UnlockPuk2 slotId newPin2 puk2 callback
  | ICoreService.AlterPin2 slotId newPin2 oldPin2 callback => fun _ => CoreServiceProxy.AlterPin2 slotId newPin2 oldPin2 callback
  | ICoreService.SetLockState slotId options callback => fun _ => CoreServiceProxy.SetLockState slotId options callback
  | ICoreService.GetLockState slotId lockType callback => fun _ => CoreServiceProxy.GetLockState slotId lockType callback
  | ICoreService.RefreshSimState slotId => fun _ => CoreServiceProxy.RefreshSimState slotId
  | ICoreService.SetActiveSim slotId enable => fun _ => CoreServiceProxy.SetActiveSim slotId enable
  | ICoreService.SetActiveSimSatellite slotId enable => fun _ => CoreServiceProxy.SetActiveSimSatellite slotId enable
  | ICoreService.GetPreferredNetwork slotId callback => fun _ => CoreServiceProxy.GetPreferredNetwork slotId callback
  | ICoreService.SetPreferredNetwork slotId networkMode callback => fun _ => CoreServiceProxy.SetPreferredNetwork slotId networkMode callback
  | ICoreService.GetNetworkCapability slotId networkCapabilityType => fun init => CoreServiceProxy.GetNetworkCapability slotId networkCapabilityType init.2
  | ICoreService.SetNetworkCapability slotId networkCapabilityType networkCapabilityState => fun _ => CoreServiceProxy.SetNetworkCapability slotId networkCapabilityType networkCapabilityState
  | ICoreService.GetSimTelephoneNumber slotId => fun init => CoreServiceProxy.GetSimTelephoneNumber slotId init.2
  | ICoreService.GetSimTeleNumberIdentifier slotId => fun _ => CoreServiceProxy.GetSimTeleNumberIdentifier slotId
  | ICoreService.GetVoiceMailIdentifier slotId => fun init => CoreServiceProxy.GetVoiceMailIdentifier slotId init.2
  | ICoreService.GetVoiceMailNumber slotId => fun init => CoreServiceProxy.GetVoiceMailNumber slotId init.2
  | ICoreService.GetVoiceMailCount slotId => fun init => CoreServiceProxy.GetVoiceMailCount slotId init.2
  | ICoreService.SetVoiceMailCount slotId voiceMailCount => fun _ => CoreServiceProxy.SetVoiceMailCount slotId voiceMailCount
  | ICoreService.SetVoiceCallForwarding slotId enable number => fun _ => CoreServiceProxy.SetVoiceCallForwarding slotId enable number
  | ICoreService.QueryIccDiallingNumbers slotId type => fun init => CoreServiceProxy.QueryIccDiallingNumbers slotId type init.2
  | ICoreService.AddIccDiallingNumbers slotId type diallingNumber => fun _ => CoreServiceProxy.AddIccDiallingNumbers slotId type diallingNumber
  | ICoreService.DelIccDiallingNumbers slotId type diallingNumber => fun _ => CoreServiceProxy.DelIccDiallingNumbers slotId type diallingNumber
  | ICoreService.UpdateIccDiallingNumbers slotId type diallingNumber => fun _ => CoreServiceProxy.UpdateIccDiallingNumbers slotId type diallingNumber
  | ICoreService.SetVoiceMailInfo slotId mailName mailNumber => fun _ => CoreServiceProxy.SetVoiceMailInfo slotId mailName mailNumber
  | ICoreService.GetOpKey slotId => fun init => CoreServiceProxy.GetOpKey slotId init.2
  | ICoreService.GetOpKeyExt slotId => fun init => CoreServiceProxy.GetOpKeyExt slotId init.2
  | ICoreService.GetOpName slotId => fun init => CoreServiceProxy.GetOpName slotId init.2
  | ICoreService.GetMaxSimCount => fun _ => CoreServiceProxy.GetMaxSimCount
  | ICoreService.GetRealSimCount => fun _ => CoreServiceProxy.GetRealSimCount
  | ICoreService.SendEnvelopeCmd slotId cmd => fun _ => CoreServiceProxy.SendEnvelopeCmd slotId cmd
  | ICoreService.SendTerminalResponseCmd slotId cmd => fun _ => CoreServiceProxy.SendTerminalResponseCmd slotId cmd
  | ICoreService.SendCallSetupRequestResult slotId accept => fun _ => CoreServiceProxy.SendCallSetupRequestResult slotId accept
  | ICoreService.UnlockSimLock slotId lockInfo => fun init => CoreServiceProxy.UnlockSimLock slotId lockInfo init.2
  | ICoreService.GetImsRegStatus slotId imsSrvType => fun init => CoreServiceProxy.GetImsRegStatus slotId imsSrvType init.2
  | ICoreService.GetCellInfoList slotId => fun init => CoreServiceProxy.GetCellInfoList slotId init.2
  | ICoreService.GetNeighboringCellInfoList slotId => fun init => CoreServiceProxy.GetNeighboringCellInfoList slotId init.2
  | ICoreService.SendUpdateCellLocationRequest slotId => fun _ => CoreServiceProxy.SendUpdateCellLocationRequest slotId
  | ICoreService.HasOperatorPrivileges slotId callback => fun _ => CoreServiceProxy.HasOperatorPrivileges slotId callback
  | ICoreService.SimAuthentication slotId authType authData => fun init => CoreServiceProxy.SimAuthentication slotId authType authData init.2
  | ICoreService.IsNrSupported slotId => fun _ => CoreServiceProxy.IsNrSupported slotId
  | ICoreService.SetNrOptionMode slotId mode callback => fun _ => CoreServiceProxy.SetNrOptionMode slotId mode callback
  | ICoreService.GetNrOptionMode slotId callback => fun _ => CoreServiceProxy.GetNrOptionMode slotId callback
  | ICoreService.RegisterImsRegInfoCallback slotId imsSrvType callback => fun _ => CoreServiceProxy.RegisterImsRegInfoCallback slotId imsSrvType callback
  | ICoreService.UnregisterImsRegInfoCallback slotId imsSrvType => fun _ => CoreServiceProxy.UnregisterImsRegInfoCallback slotId imsSrvType
  | ICoreService.GetNrSsbIdInfo slotId => fun init => '(r, o) ← CoreServiceProxy.GetNrSsbIdInfo slotId (Some init.2); mret (r, default init.2 o)
  | ICoreService.FactoryReset slotId => fun _ => CoreServiceProxy.FactoryReset slotId
  | ICoreService.IsAllowedInsertApn value => fun _ => CoreServiceProxy.IsAllowedInsertApn value
  | ICoreService.GetTargetOpkey slotId => fun init => CoreServiceProxy.GetTargetOpkey slotId init.2
  | ICoreService.GetOpkeyVersion => fun init => CoreServiceProxy.GetOpkeyVersion init.2
  | ICoreService.GetOpnameVersion => fun init => CoreServiceProxy.GetOpnameVersion init.2
  | ICoreService.GetSimIO slotId command fileId dataStr path => fun init => CoreServiceProxy.GetSimIO slotId command fileId dataStr path init.2
  | ICoreService.GetShowName slotId callback => fun _ => CoreServiceProxy.GetShowName slotId callback
  | ICoreService.GetAllSimAccountInfoList => fun init => CoreServiceProxy.GetAllSimAccountInfoList init.2
  | ICoreService.GetSimLabel slotId callback => fun init => CoreServiceProxy.GetSimLabel slotId callback init.2
  | ICoreService.SendApduData slotId aid apduData => fun init => CoreServiceProxy.SendApduData slotId aid apduData init.2
  | ICoreService.GetManualNetworkScanState slotId callback => fun _ => CoreServiceProxy.GetManualNetworkScanState slotId callback
  | ICoreService.StartManualNetworkScanCallback slotId callback => fun _ => CoreServiceProxy.StartManualNetworkScanCallback slotId callback
  | ICoreService.StopManualNetworkScanCallback slotId => fun _ => CoreServiceProxy.StopManualNetworkScanCallback slotId
  | ICoreService.StartHiddenCameraDetection callback config rawCallback => fun _ => CoreServiceProxy.StartHiddenCameraDetection callback config rawCallback
  | ICoreService.StopHiddenCameraDetection rawCallback => fun _ => CoreServiceProxy.StopHiddenCameraDetection rawCallback
  | ICoreService.KeepHiddenCameraDetection rawCallback => fun _ => CoreServiceProxy.KeepHiddenCameraDetection rawCallback
  | ICoreService.SetSimLabelIndex simId simLabelIndex callback => fun _ => CoreServiceProxy.SetSimLabelIndex simId simLabelIndex callback
  | ICoreService.IsMultiSimsCapabilitySupported slotId => fun _ => CoreServiceProxy.IsMultiSimsCapabilitySupported slotId
  end.
End Spec.
