(* ===== verification/CoreServiceRefinement.v ===== *)
(** * The proxy and the stub implement the direct call of the service

    The hypotheses on the transport, the rules for the steps that CoreServiceIpc.v leaves out (requests, handlers, loops over
    lists of objects) and the theorems: [core_service_refinement] for the 112 methods and
    [request_dispatch] for the dispatch of the stub. *)

From S2P Require Import Prelude CxxString Parcel Parcelables OperatorConfig CellInformation NetworkState SignalInformation SignalInfo CoreServiceApi CoreServiceProxy CoreServiceStub CoreServiceIpc.
Open Scope Z_scope.
Open Scope ipc_scope.

(** ** Hypotheses *)

Section Transport.
Context {P W : Type} `{ParcelOps P} `{ErrorCodes} `{StringEx} `{!ClientSystem P W} `{!ServerSystem P W}.

(** The process is connected to the stub, the IPC library hands the request to [OnRemoteRequest] with the data that was written and an empty
    reply, and its answer to the client: an asynchronous request has no answer, and the reply of a request that failed is not
    specified. Remote objects are of the class they are cast to. The common error codes lie above zero. *)
Class Transport : Prop := {
  connected : Remote = true;
  transported code async (data : P) (w : W) :
    exists d r, content d = content data /\ content r = [] /\
      forall st s, CoreServiceStub.OnRemoteRequest code (MkIpc d r w) = Ret (st, s) ->
        exists reply', SendRequest_ code async data w = (if async then ERR_NONE else st, reply', world s) /\
          (async = false -> st = ERR_NONE -> content reply' = content (reply s));
  casts r : iface_cast r = Some r;
  error_codes : 0 < COMMON_ERR_OFFSET < 2 ^ 30
}.
(** The service answers with values of the types of its methods. *)
Class Typed : Prop := typed R (c : coreE R) (w : W) : answer_ok c (service R c w).1.
End Transport.
Arguments Transport P W {_ _ _ _ _}.
Arguments Typed P W {_}.

(** ** Rules for requests and handlers *)

Section Rules.
Context {P W : Type} `{ParcelLaws P} `{!Roomy P} `{ErrorCodes} `{StringEx} `{!ClientSystem P W} `{!ServerSystem P W}.
Context `{!Transport P W} `{!Typed P W}.

Lemma wp_request {A} code (k : M P W A) (r : Z -> A) (Q : A -> list item -> list item -> W -> Prop) D R w :
  wp (CoreServiceStub.OnRemoteRequest code)
     (fun st _ R' w' => (st = ERR_NONE -> wp k Q D R' w') /\ (st <> ERR_NONE -> forall R', Q (r st) D R' w')) D [] w ->
  wp (mbind (fun st => if st =? ERR_NONE then k else mret (r st)) (CoreServiceProxy.SendRequest code false)) Q D R w.
Proof.
  intros Hs d rp <- <-. destruct (transported code false d w) as (d' & r' & Cd & Cr & T).
  destruct (Hs d' r' Cd Cr) as (st & s & E & K1 & K2). destruct (T st s E) as (reply' & Es & Cs).
  unfold mbind, M_bind, CoreServiceProxy.SendRequest. cbn [data reply world]. rewrite Es.
  destruct (Z.eqb_spec st ERR_NONE) as [->|N].
  - apply (K1 eq_refl); [done|]. by apply Cs.
  - eexists _, _. split; [done|]. apply (K2 N).
Qed.
Lemma wp_request_async {A} code (k : M P W A) (r : Z -> A) (Q : A -> list item -> list item -> W -> Prop) D R w :
  wp (CoreServiceStub.OnRemoteRequest code) (fun _ _ _ w' => forall R', wp k Q D R' w') D [] w ->
  wp (mbind (fun st => if st =? ERR_NONE then k else mret (r st)) (CoreServiceProxy.SendRequest code true)) Q D R w.
Proof.
  intros Hs d rp <- <-. destruct (transported code true d w) as (d' & r' & Cd & Cr & T).
  destruct (Hs d' r' Cd Cr) as (st & s & E & K). destruct (T st s E) as (reply' & Es & _).
  unfold mbind, M_bind, CoreServiceProxy.SendRequest. cbn [data reply world]. rewrite Es. cbn. by apply (K (content reply')).
Qed.
Lemma wp_OnRemoteRequest code h (Q : Z -> list item -> list item -> W -> Prop) D R w :
  CoreServiceStub.find_handler code = Some h -> wp h Q D R w -> wp (CoreServiceStub.OnRemoteRequest code) Q (IToken Descriptor :: D) R w.
Proof.
  intros Hf Hh. unfold CoreServiceStub.OnRemoteRequest. apply wp_bind. eapply wp_read_data; [apply reads_off_token|].
  rewrite bool_decide_eq_true_2 by done. cbn [negb]. by rewrite Hf.
Qed.
Lemma wp_serve {R} (c : coreE R) (Q : R -> list item -> list item -> W -> Prop) D Rp w :
  (forall r w', service R c w = (r, w') -> answer_ok c r -> Q r D Rp w') -> wp (CoreServiceStub.serve c) Q D Rp w.
Proof.
  intros HQ d r <- <-. pose proof (typed R c w) as T. unfold CoreServiceStub.serve. cbn [data reply world].
  destruct (service R c w) as [a w'] eqn:E. eexists _, _. split; [done|]. by apply HQ.
Qed.
Lemma wp_read_callback x (Q : option remote -> list item -> list item -> W -> Prop) D R w :
  Q (Some x) D R w -> wp CoreServiceStub.read_callback Q (IRemote x :: D) R w.
Proof.
  intros HQ. apply wp_bind. eapply wp_read_data_opt; [apply reads_off_remote|]. apply wp_ret. cbn. by rewrite casts.
Qed.
Lemma wp_read_callback_end (Q : option remote -> list item -> list item -> W -> Prop) R w :
  Q None [] R w -> wp CoreServiceStub.read_callback Q [] R w.
Proof. intros HQ. apply wp_bind, wp_read_remote_end. by apply wp_ret. Qed.
Lemma wp_data_unmarshal {A} (rd : rstep P A) new i v (Q : option A -> list item -> list item -> W -> Prop) D R w :
  takes rd i (fun _ => v) -> Q (Some v) D R w -> wp (CoreServiceStub.data_unmarshal (unmarshalling rd new)) Q (i ++ D) R w.
Proof.
  intros T HQ d r Hd <-. destruct (unmarshalling_takes rd new i v d D T Hd) as (d' & E & C). eexists _, _.
  unfold CoreServiceStub.data_unmarshal. cbn [data reply world]. rewrite E. split; [done|]. cbn. by rewrite C.
Qed.
Lemma wp_reply_unmarshal {A} (rd : rstep P A) new i v (Q : option A -> list item -> list item -> W -> Prop) D R w :
  takes rd i (fun _ => v) -> Q (Some v) D R w -> wp (CoreServiceProxy.reply_unmarshal (unmarshalling rd new)) Q D (i ++ R) w.
Proof.
  intros T HQ d r <- Hr. destruct (unmarshalling_takes rd new i v r R T Hr) as (r' & E & C). eexists _, _.
  unfold CoreServiceProxy.reply_unmarshal. cbn [data reply world]. rewrite E. split; [done|]. cbn. by rewrite C.
Qed.
Lemma wp_data_unmarshal_last {A} (rd : rstep P A) new i v (Q : option A -> list item -> list item -> W -> Prop) R w :
  takes rd i (fun _ => v) -> Q (Some v) [] R w -> wp (CoreServiceStub.data_unmarshal (unmarshalling rd new)) Q i R w.
Proof. intros T HQ. rewrite <- (app_nil_r i). by eapply wp_data_unmarshal. Qed.
Lemma wp_reply_unmarshal_last {A} (rd : rstep P A) new i v (Q : option A -> list item -> list item -> W -> Prop) D w :
  takes rd i (fun _ => v) -> Q (Some v) D [] w -> wp (CoreServiceProxy.reply_unmarshal (unmarshalling rd new)) Q D i w.
Proof. intros T HQ. rewrite <- (app_nil_r i). by eapply wp_reply_unmarshal. Qed.
End Rules.

(** ** Objects and lists of objects *)

Section Objects.
Context {P W : Type} `{ParcelLaws P} `{!Roomy P} `{ErrorCodes} `{StringEx} `{!ClientSystem P W} `{!ServerSystem P W}.

Lemma NetworkState_appends n : NetworkState.wf n -> appends (NetworkState.Marshalling n) (NetworkState.items n).
Proof.
  intros Hn. apply writes_appends; [by apply NetworkState.Marshalling_writes|]. unfold NetworkState.Marshalling.
  repeat first [apply fine_seq|apply fine_write].
Qed.
Lemma NetworkState_takes n : takes NetworkState.ReadFromParcel (NetworkState.items n) (fun _ => n).
Proof. apply reads_takes, NetworkState.ReadFromParcel_reads. Qed.
Lemma Cell_appends c : cell_ok c -> appends (CellInformation.Marshalling c) (cell_items c).
Proof. intros Hc. apply writes_appends; [by apply CellInformation.Cell_writes|]. destruct c; repeat first [apply fine_seq|apply fine_write]. Qed.
Lemma Cells_appends l : Forall cell_ok l -> appends (write_each CellInformation.Marshalling l) (l ≫= cell_items).
Proof. intros Hl. apply appends_each. eapply Forall_impl; [exact Hl|]. apply Cell_appends. Qed.
Lemma Accounts_appends l : appends (Parcel.write_all IccAccountInfo_Marshalling l) (l ≫= IccAccountInfo_items).
Proof. apply appends_all, Forall_true. apply IccAccountInfo_appends. Qed.
Lemma Numbers_appends l : appends (write_each DiallingNumbersInfo_Marshalling l) (l ≫= DiallingNumbersInfo_items).
Proof. apply appends_each, Forall_true. apply DiallingNumbersInfo_appends. Qed.
Definition apdu_items (d : EsimApduData) : list item :=
  [IBool (closeChannelFlag_ d); IBool (unusedDefaultReqHeadFlag_ d); IString16 (data_ d); IInt32 (i32 (instructionType_ d)); IInt32 (i32 (instruction_ d));
   IInt32 (i32 (p1_ d)); IInt32 (i32 (p2_ d)); IInt32 (i32 (p3_ d))].
Lemma Apdu_appends d : appends (CoreServiceProxy.WriteEsimApduData d) (apdu_items d).
Proof. unfold CoreServiceProxy.WriteEsimApduData, apdu_items. appends_items. Qed.
Definition signals_items (z : Z) (l : list SignalInformation) : list item :=
  IInt32 z :: if z =? SUCCESS_CODE then IInt32 (zlen l) :: (l ≫= signal_items) else [].
Lemma signals_appends z l : is_i32 z -> Forall signal_ok l -> is_i32 (zlen l) -> appends (SignalInfo.OnGetSignalInfoList z l) (signals_items z l).
Proof.
  intros Hz Hl Hn p. assert (forall z (p : P), (WriteInt32 z p).1 = true) as reliable by (intros; apply roomy).
  unfold SignalInfo.OnGetSignalInfoList, signals_items. pose proof (write_reliable reliable z p Hz) as C.
  pose proof (reliable z p) as R. destruct (WriteInt32 z p) as [b q]. cbn in R, C. subst b. cbn [negb].
  destruct (z =? SUCCESS_CODE); eexists; split; try reflexivity; [|done].
  rewrite (foldl_Marshalling_content reliable) by done. rewrite (write_reliable reliable) by done. rewrite C. by rewrite <- !app_assoc.
Qed.

Lemma to_nat_zlen {A} (l : list A) : Z.to_nat (zlen l) = length l.
Proof. unfold zlen. lia. Qed.
Lemma wp_process_signals g l init (Q : list SignalInformation -> list item -> list item -> W -> Prop) D w :
  (forall R, Q (if MAX_SIZE <=? zlen l then init else init ++ l) D R w) ->
  wp (CoreServiceProxy.process_signal_info g init) Q D (IInt32 (zlen l) :: (l ≫= signal_items)) w.
Proof.
  intros HQ d r <- Hr. unfold CoreServiceProxy.process_signal_info, ProcessSignalInfo. cbn [data reply world].
  destruct (read_int32_item _ _ r Hr) as (q & -> & Cq). destruct (Z.leb_spec MAX_SIZE (zlen l)) as [L|L]; [eexists _, _; split; [done|]; apply HQ|].
  rewrite to_nat_zlen.
  destruct (process_signals_items l [] g q init) as (q' & g' & -> & _); [by rewrite app_nil_r|]. eexists _, _. split; [done|]. apply HQ.
Qed.

Lemma process_cell_default c (k : list Cell) : CellInformation.cell_ok c ->
  forall (Q : list Cell -> list item -> list item -> W -> Prop) D R w, Q (k ++ [received c]) D R w -> wp (CoreServiceProxy.process_cell k) Q D (cell_items c ++ R) w.
Proof.
  intros Hc Q D R w HQ. destruct (ReadFromParcel_default c Hc) as [T _].
  assert (wp (P := P) (CoreServiceProxy.ProcessReply (default_like c) k) Q D (body_items c ++ R) w) as G.
  { intros d r <- Hr. destruct (T r R Hr) as (r' & E & C). unfold CoreServiceProxy.ProcessReply, mbind, M_bind, read_object. cbn [data reply world].
    rewrite E. eexists _, _. split; [done|]. cbn. by rewrite C. }
  unfold CoreServiceProxy.process_cell. apply wp_bind. change (cell_items c ++ R) with (IInt32 (CellInformation.GetNetworkType c) :: (body_items c ++ R)).
  eapply wp_read_reply; [apply reads_off_int32|]. by destruct c.
Qed.
Lemma wp_process_cells l : Forall cell_ok l -> forall k (Q : list Cell -> list item -> list item -> W -> Prop) D R w,
  Q (k ++ (received <$> l)) D R w -> wp (CoreServiceProxy.process_cells (length l) k) Q D ((l ≫= cell_items) ++ R) w.
Proof.
  induction 1 as [|c l Hc Hl IH]; intros k Q D R w HQ; [rewrite app_nil_r in HQ; by apply wp_ret|].
  rewrite bind_cons, <- app_assoc. cbn [length CoreServiceProxy.process_cells]. apply wp_bind, process_cell_default; [done|].
  apply IH. by rewrite <- app_assoc.
Qed.
Lemma wp_ProcessCellInfo l k (Q : list Cell -> list item -> list item -> W -> Prop) D w :
  Forall cell_ok l -> (forall R, Q (if MAX_SIZE <=? zlen l then k else k ++ (received <$> l)) D R w) ->
  wp (CoreServiceProxy.ProcessCellInfo k) Q D (IInt32 (zlen l) :: (l ≫= cell_items)) w.
Proof.
  intros Hl HQ. unfold CoreServiceProxy.ProcessCellInfo. apply wp_bind. eapply wp_read_reply; [apply reads_off_int32|].
  destruct (MAX_SIZE <=? zlen l); [apply wp_ret, HQ|]. rewrite to_nat_zlen.
  rewrite <- (app_nil_r (l ≫= cell_items)). by apply wp_process_cells.
Qed.
Lemma wp_read_accounts l : Forall IccAccountInfo_ok l -> forall k (Q : bool * list IccAccountInfo -> list item -> list item -> W -> Prop) D R w,
  Q (true, k ++ l) D R w -> wp (CoreServiceProxy.read_accounts (length l) k) Q D ((l ≫= IccAccountInfo_items) ++ R) w.
Proof.
  induction 1 as [|a l Ha Hl IH]; intros k Q D R w HQ; [rewrite app_nil_r in HQ; by apply wp_ret|].
  rewrite bind_cons, <- app_assoc. cbn [length CoreServiceProxy.read_accounts]. apply wp_bind.
  eapply wp_read_object; [by apply IccAccountInfo_takes|]. apply IH. by rewrite <- app_assoc.
Qed.
Lemma wp_read_accounts_last l k (Q : bool * list IccAccountInfo -> list item -> list item -> W -> Prop) D w :
  Forall IccAccountInfo_ok l -> Q (true, k ++ l) D [] w -> wp (CoreServiceProxy.read_accounts (Z.to_nat (zlen l)) k) Q D (l ≫= IccAccountInfo_items) w.
Proof. intros Hl HQ. rewrite to_nat_zlen, <- (app_nil_r (l ≫= _)). by apply wp_read_accounts. Qed.
Lemma wp_read_accounts_lax l : Forall IccAccountInfo_ok l -> forall k (Q : list IccAccountInfo -> list item -> list item -> W -> Prop) D R w,
  Q (k ++ l) D R w -> wp (CoreServiceProxy.read_accounts_lax (length l) k) Q D ((l ≫= IccAccountInfo_items) ++ R) w.
Proof.
  induction 1 as [|a l Ha Hl IH]; intros k Q D R w HQ; [rewrite app_nil_r in HQ; by apply wp_ret|].
  rewrite bind_cons, <- app_assoc. cbn [length CoreServiceProxy.read_accounts_lax]. apply wp_bind.
  eapply wp_read_object; [by apply IccAccountInfo_takes|]. apply IH. by rewrite <- app_assoc.
Qed.
Lemma wp_read_accounts_lax_last l k (Q : list IccAccountInfo -> list item -> list item -> W -> Prop) D w :
  Forall IccAccountInfo_ok l -> Q (k ++ l) D [] w -> wp (CoreServiceProxy.read_accounts_lax (Z.to_nat (zlen l)) k) Q D (l ≫= IccAccountInfo_items) w.
Proof. intros Hl HQ. rewrite to_nat_zlen, <- (app_nil_r (l ≫= _)). by apply wp_read_accounts_lax. Qed.
Lemma wp_read_numbers l : Forall DiallingNumbersInfo_ok l -> forall k (Q : list DiallingNumbersInfo -> list item -> list item -> W -> Prop) D R w,
  Q (k ++ l) D R w -> wp (CoreServiceProxy.read_numbers (length l) k) Q D ((l ≫= DiallingNumbersInfo_items) ++ R) w.
Proof.
  induction 1 as [|a l Ha Hl IH]; intros k Q D R w HQ; [rewrite app_nil_r in HQ; by apply wp_ret|].
  rewrite bind_cons, <- app_assoc. cbn [length CoreServiceProxy.read_numbers]. apply wp_bind.
  eapply wp_reply_unmarshal; [by apply DiallingNumbersInfo_takes|]. apply IH. by rewrite <- app_assoc.
Qed.
Lemma wp_read_numbers_last l k (Q : list DiallingNumbersInfo -> list item -> list item -> W -> Prop) D w :
  Forall DiallingNumbersInfo_ok l -> Q (k ++ l) D [] w -> wp (CoreServiceProxy.read_numbers (Z.to_nat (zlen l)) k) Q D (l ≫= DiallingNumbersInfo_items) w.
Proof. intros Hl HQ. rewrite to_nat_zlen, <- (app_nil_r (l ≫= _)). by apply wp_read_numbers. Qed.
(** An object that was not sent is not received. *)
Lemma read_nothing k (p : P) : content p = [] -> exists p', Read k p = (None, p') /\ content p' = [].
Proof.
  intros C. pose proof (read_end k p C) as E. pose proof (read_end_content k p C) as C'. destruct (Read k p) as [v q]. cbn in E, C'. subst v.
  by exists q.
Qed.
Lemma wp_no_network (Q : option NetworkInformation -> list item -> list item -> W -> Prop) R w :
  Q None [] R w -> wp (CoreServiceStub.data_unmarshal NetworkInformation_Unmarshalling) Q [] R w.
Proof.
  intros HQ d r C <-. unfold CoreServiceStub.data_unmarshal, NetworkInformation_Unmarshalling, unmarshalling, NetworkInformation_ReadFromParcel. cbn [data reply world].
  destruct (read_nothing KString16 d C) as (d1 & E1 & C1). destruct (read_nothing KString16 d1 C1) as (d2 & E2 & C2).
  destruct (read_nothing KString16 d2 C2) as (d3 & E3 & C3). destruct (read_nothing KInt32 d3 C3) as (d4 & E4 & C4).
  unfold rseq, read_or, read_into, ReadString16, ReadInt32. rewrite E1, E2, E3, E4. eexists _, _. split; [done|]. cbn. by rewrite C4.
Qed.
Lemma wp_no_numbers (Q : option DiallingNumbersInfo -> list item -> list item -> W -> Prop) R w :
  Q None [] R w -> wp (CoreServiceStub.data_unmarshal DiallingNumbersInfo_UnMarshalling) Q [] R w.
Proof.
  intros HQ d r C <-. unfold CoreServiceStub.data_unmarshal, DiallingNumbersInfo_UnMarshalling, unmarshalling, DiallingNumbersInfo_ReadFromParcel. cbn [data reply world].
  destruct (read_nothing KInt32 d C) as (d1 & E1 & C1). unfold rseq, read_into, ReadInt32. rewrite E1. eexists _, _. split; [done|]. cbn. by rewrite C1.
Qed.
End Objects.
#[local] Hint Resolve IccAccountInfo_appends IccAccountInfo_takes NetworkState_appends Cells_appends Accounts_appends Numbers_appends Apdu_appends signals_appends NetworkInformation_appends
  DiallingNumbersInfo_appends OperatorConfig.Marshalling_appends NrSsb_appends NetworkState_takes NetworkInformation_takes DiallingNumbersInfo_takes
  OperatorConfig.ReadFromParcel_takes NrSsb_takes : parcel.

(** ** Following a method to its end *)

Ltac head_of t := match t with ?f _ => head_of f | _ => t end.
(** A known prefix of a parcel's content, without [i32] around values in range. *)
Ltac tidy := unfold apdu_items; cbn [app]; try change (i32 (Z.b2z true)) with 1; try change (i32 (Z.b2z false)) with 0;
  repeat match goal with E : is_i32 ?z |- context [i32 ?z] => rewrite (i32_small z E) end.
Ltac wp_step :=
  lazymatch goal with
  | |- wp (mbind (fun st => if st =? ERR_NONE then _ else _) (CoreServiceProxy.SendRequest _ false)) _ _ _ _ => apply wp_request
  | |- wp (mbind (fun st => if st =? ERR_NONE then _ else _) (CoreServiceProxy.SendRequest _ true)) _ _ _ _ => apply wp_request_async
  | |- wp (mbind _ _) _ _ _ _ => apply wp_bind
  | |- wp (mret _) _ _ _ _ => apply wp_ret
  | |- wp (write_data _) _ _ _ _ => eapply wp_write_data; [solve [eauto with parcel]|]; tidy
  | |- wp (write_reply (SignalInfo.OnGetSignalInfoList _ _)) _ _ _ _ =>
      eapply wp_write_reply; [solve [eauto with parcel]|]; unfold signals_items; change SUCCESS_CODE with TELEPHONY_ERR_SUCCESS; tidy
  | |- wp (write_reply _) _ _ _ _ => eapply wp_write_reply; [solve [eauto with parcel]|]; tidy
  | |- wp (write_reply_o (NrSsb_Marshalling _)) _ _ _ _ => eapply wp_write_reply_o; [by apply NrSsb_appends|]; tidy
  | |- wp (read_object _ _) _ _ _ _ => eapply wp_read_object_last; [solve [eauto with parcel]|]
  | |- wp (CoreServiceStub.data_unmarshal NetworkInformation_Unmarshalling) _ [] _ _ => apply wp_no_network
  | |- wp (CoreServiceStub.data_unmarshal DiallingNumbersInfo_UnMarshalling) _ [] _ _ => apply wp_no_numbers
  | |- wp (CoreServiceStub.data_unmarshal _) _ _ _ _ => eapply wp_data_unmarshal_last; [solve [eauto with parcel]|]
  | |- wp (CoreServiceProxy.reply_unmarshal NetworkState.Unmarshalling) _ _ _ _ => eapply (wp_reply_unmarshal_last NetworkState.ReadFromParcel Init); [solve [eauto with parcel]|]
  | |- wp (CoreServiceProxy.process_signal_info _ _) _ _ _ _ => apply wp_process_signals; intros
  | |- wp (CoreServiceProxy.read_accounts _ _) _ _ _ _ => apply wp_read_accounts_last; [assumption|]
  | |- wp (CoreServiceProxy.read_accounts_lax _ _) _ _ _ _ => apply wp_read_accounts_lax_last; [assumption|]
  | |- wp (CoreServiceProxy.read_numbers _ _) _ _ _ _ => apply wp_read_numbers_last; [assumption|]
  | |- wp (CoreServiceProxy.ProcessCellInfo _) _ _ _ _ => apply wp_ProcessCellInfo; [assumption|intros]
  | |- wp (and_write true _) _ _ _ _ => eapply wp_and_write; [solve [eauto with parcel]|]; tidy
  | |- wp (read_data _ _) _ _ _ _ => eapply wp_read_data; [solve [eauto with parcel]|]
  | |- wp (read_data_opt ReadRemoteObject) _ [] _ _ => apply wp_read_remote_end
  | |- wp (read_data_opt _) _ _ _ _ => eapply wp_read_data_opt; [solve [eauto with parcel]|]
  | |- wp (read_reply _ _) _ _ _ _ => eapply wp_read_reply; [solve [eauto with parcel]|]
  | |- wp (read_reply_opt _) _ _ _ _ => eapply wp_read_reply_opt; [solve [eauto with parcel]|]
  | |- wp (with_parcels _) _ _ _ _ => apply wp_with_parcels
  | |- wp (if_nonnull _ _) _ _ _ _ => apply wp_if_nonnull
  | |- wp (CoreServiceStub.OnRemoteRequest _) _ _ _ _ => eapply wp_OnRemoteRequest; [reflexivity|]
  | |- wp (CoreServiceStub.serve _) _ _ _ _ => apply wp_serve; intros
  | |- wp CoreServiceStub.read_callback _ [] _ _ => apply wp_read_callback_end
  | |- wp CoreServiceStub.read_callback _ _ _ _ => apply wp_read_callback
  end.

Section Codes.
Context {P W : Type} `{ParcelOps P} `{ErrorCodes} `{StringEx} `{!ClientSystem P W} `{!ServerSystem P W} `{!Transport P W}.
Lemma failure_code k : 0 < k < 2 ^ 30 -> COMMON_ERR_OFFSET + k <> ERR_NONE.
Proof. pose proof error_codes. unfold ERR_NONE. lia. Qed.
Lemma failure_not_success k : 0 < k < 2 ^ 30 -> (COMMON_ERR_OFFSET + k =? TELEPHONY_SUCCESS) = true -> False.
Proof. pose proof error_codes. unfold TELEPHONY_SUCCESS. lia. Qed.
Lemma cast_some (r : remote) : Some r ≫= iface_cast = Some r.
Proof. apply casts. Qed.
End Codes.

(** The head of the program is a method of the proxy or the stub: look into it. *)
Ltac wp_unfold :=
  lazymatch goal with
  | |- wp (mbind _ _) _ _ _ _ => fail
  | |- wp (write_data _) _ _ _ _ => fail
  | |- wp (write_reply _) _ _ _ _ => fail
  | |- wp (write_reply_o _) _ _ _ _ => fail
  | |- wp (and_write _ _) _ _ _ _ => fail
  | |- wp (read_data _ _) _ _ _ _ => fail
  | |- wp (read_data_opt _) _ _ _ _ => fail
  | |- wp (read_reply _ _) _ _ _ _ => fail
  | |- wp (read_reply_opt _) _ _ _ _ => fail
  | |- wp (read_object _ _) _ _ _ _ => fail
  | |- wp (CoreServiceStub.data_unmarshal _) _ _ _ _ => fail
  | |- wp (CoreServiceProxy.reply_unmarshal _) _ _ _ _ => fail
  | |- wp ?m _ _ _ _ => let h := head_of m in is_const h; unfold h
  end.
(** Cases: a pointer that is null or not, a result that is a success or not. *)
Ltac wp_case :=
  match goal with
  | |- wp (if Remote then _ else _) _ _ _ _ => rewrite connected
  | E : ?b = _ |- wp (if ?b then _ else _) _ _ _ _ => rewrite E
  | E : (_ =? TELEPHONY_SUCCESS) = true |- _ => by apply failure_not_success in E
  | N : None <> None |- _ => by destruct N
  | |- context [Some _ ≫= iface_cast] => rewrite cast_some
  | |- wp (if ?b then _ else _) _ _ _ _ => first [progress cbn [negb is_null]|destruct b eqn:?]
  | |- wp (match ?x with Some _ => _ | None => _ end) _ _ _ _ => destruct x
  | |- match ?x with Some _ => _ | None => _ end => destruct x
  | |- wp (let '(_, _) := ?x in _) _ _ _ _ => destruct x
  | |- (NO_ERROR = ERR_NONE -> _) /\ _ => split; [intros _|by intros []]
  | |- (_ = ERR_NONE -> _) /\ _ => split; [intros X; by apply failure_code in X|intros _ ?]
  end.
(** Comparisons of the size of a list with a limit. *)
Ltac wp_sizes :=
  repeat match goal with E : context [zlen ?l] |- _ => lazymatch goal with H : 0 <= zlen l |- _ => fail | _ => pose proof (zlen_nonneg l) end end;
  unfold TELEPHONY_ERR_SUCCESS, MAX_VECTOR, MAX_NUMBERS_SIZE in *;
  repeat match goal with |- context [if ?b then _ else _] => destruct b eqn:? end; first [done|exfalso; lia|repeat f_equal; lia].
(** The answer that was expected. *)
Ltac wp_done :=
  lazymatch goal with
  | |- _ = (_, _) =>
     repeat match goal with
     | x : LockInfo |- _ => destruct x | x : PersoLockInfo |- _ => destruct x | x : LockStatusResponse |- _ => destruct x | x : ImsRegInfo |- _ => destruct x
     | x : SimAuthenticationResponse |- _ => destruct x | x : SimLabel |- _ => destruct x | x : EsimApduData |- _ => destruct x
     | x : ResponseEsimResult |- _ => destruct x | x : HiddenCameraDetectionConfig |- _ => destruct x
     end;
     cbn; repeat match goal with E : service _ _ _ = _ |- _ => cbn in E; rewrite E; clear E end; cbn; repeat match goal with E : _ = true |- _ => rewrite E | E : _ = false |- _ => rewrite E end;
     first [done|wp_sizes]
  end.
Ltac ok_hyps := repeat match goal with
  | E : answer_ok _ _ |- _ => cbn [answer_ok] in E; cbv [ok ok_Z ok_bool ok_cstring ok_u16string ok_pair ok_option ok_lock ok_perso ok_lock_status ok_ims ok_auth
      ok_label ok_apdu ok_esim ok_camera ok_network_state ok_account ok_dialling ok_network ok_config ok_ssb ok_cells ok_signals ok_accounts ok_numbers] in E;
      cbn [fst snd] in E; destruct_and? E
  | E : (?z =? TELEPHONY_ERR_SUCCESS) = true, X : ?z = TELEPHONY_ERR_SUCCESS -> _ |- _ => specialize (X (proj1 (Z.eqb_eq _ _) E))
  | E : context [(_, _).1] |- _ => cbn [fst snd] in E
  | E : context [(_, _).2] |- _ => cbn [fst snd] in E
  end.
Ltac wp_go := repeat (cbn beta iota; first [wp_step|wp_case|wp_unfold]; ok_hyps).

Section Refinement.
Context {P W : Type} `{ParcelLaws P} `{!Roomy P} `{ErrorCodes} `{StringEx} `{!ClientSystem P W} `{!ServerSystem P W}.
Context `{!Transport P W} `{!Typed P W}.
Context (g : SignalGlobals).

(** What a client gets from a call that begins with fresh parcels: the result and the state of the rest of the system. *)
Definition client_sees {R} (c : coreE R) (init : R) (w : W) : outcome (R * W) :=
  '(r, s) ← remote_call g c init (MkIpc new_parcel new_parcel w); Ret (r, world s).



(** ** The number of slots *)

Lemma wp_GetRealSimCount (Q : Z -> list item -> list item -> W -> Prop) D R w :
  (forall n w', service _ ICoreService.GetRealSimCount w = (n, w') -> Q n D R w') -> wp CoreServiceProxy.GetRealSimCount Q D R w.
Proof. intros HQ. wp_go. by apply HQ. Qed.
Lemma wp_GetMaxSimCountExt (Q : Z -> list item -> list item -> W -> Prop) D R w :
  (forall n w', service _ ICoreService.GetMaxSimCount w = (n, w') -> Q n D R w') -> wp CoreServiceProxy.GetMaxSimCountExt Q D R w.
Proof. intros HQ. wp_go. by apply HQ. Qed.
Lemma wp_GetCurMaxSimCount (Q : Z -> list item -> list item -> W -> Prop) D R w :
  (forall n w', slots (P := P) w = (n, w') -> Q n D R w') -> wp CoreServiceProxy.GetCurMaxSimCount Q D R w.
Proof.
  intros HQ. unfold CoreServiceProxy.GetCurMaxSimCount, CoreServiceProxy.GetMaxSimCount. wp_step. apply wp_GetRealSimCount. intros n w1 E1.
  unfold slots in HQ. rewrite E1 in HQ. destruct CoreServiceProxy.GetDistributeModemMultiDeviceSwitch; [|apply wp_ret; by apply HQ].
  wp_step. apply wp_GetMaxSimCountExt. intros n' w2 E2. rewrite E2 in HQ. apply wp_ret. by apply HQ.
Qed.
Lemma wp_IsValidSlotId slotId (Q : bool -> list item -> list item -> W -> Prop) D R w :
  (forall n w', slots (P := P) w = (n, w') -> Q ((DEFAULT_SIM_SLOT_ID <=? slotId) && (slotId <? n + 0)) D R w') -> wp (CoreServiceProxy.IsValidSlotId slotId) Q D R w.
Proof.
  intros HQ. unfold CoreServiceProxy.IsValidSlotId. wp_step. apply wp_GetCurMaxSimCount. intros n w' E. apply wp_ret.
  rewrite <- (Z.add_0_r n) at 1. by apply HQ.
Qed.
Lemma wp_IsValidSlotIdEx slotId (Q : bool -> list item -> list item -> W -> Prop) D R w :
  (forall n w', slots (P := P) w = (n, w') -> Q ((DEFAULT_SIM_SLOT_ID <=? slotId) && (slotId <? n + 1)) D R w') -> wp (CoreServiceProxy.IsValidSlotIdEx slotId) Q D R w.
Proof. intros HQ. unfold CoreServiceProxy.IsValidSlotIdEx. wp_step. apply wp_GetCurMaxSimCount. intros n w' E. apply wp_ret. by apply HQ. Qed.
Lemma wp_IsValidSlotIdForDefault slotId (Q : bool -> list item -> list item -> W -> Prop) D R w :
  (forall n w', slots (P := P) w = (n, w') -> Q ((DEFAULT_SIM_SLOT_ID_REMOVE <=? slotId) && (slotId <? n + 0)) D R w') ->
  wp (CoreServiceProxy.IsValidSlotIdForDefault slotId) Q D R w.
Proof.
  intros HQ. unfold CoreServiceProxy.IsValidSlotIdForDefault. wp_step. apply wp_GetCurMaxSimCount. intros n w' E. apply wp_ret.
  rewrite <- (Z.add_0_r n) at 1. by apply HQ.
Qed.

Ltac wp_slots := first [apply wp_IsValidSlotId; intros|apply wp_IsValidSlotIdEx; intros|apply wp_IsValidSlotIdForDefault; intros].
Ltac slot_hyps := lazymatch goal with E : slots _ = _ |- _ => unfold slot_ok, slot_ok_ex, slot_ok_default, slot_in; rewrite E; clear E end.
Ltac wp_go2 := repeat (cbn beta iota; first [wp_step|wp_slots; slot_hyps|wp_case|wp_unfold]; ok_hyps).


Lemma GetNetworkState_refines slotId init w : is_i32 slotId ->
  wp (CoreServiceProxy.GetNetworkState slotId init) (fun a _ _ w' => ask_state slotId init w = (a, w')) [] [] w.
Proof.
  intros Hs. unfold ask_state. 


  repeat (cbn beta iota; first [wp_step|rewrite connected|wp_unfold]). destruct r as [z [n|]]; ok_hyps; cbn [is_null andb]; cbn beta iota.
  - wp_go2; wp_done.
  - set (res := if negb (z =? TELEPHONY_ERR_PERMISSION_ERR) then TELEPHONY_ERR_LOCAL_PTR_NULL else z). assert (is_i32 res /\ (res =? TELEPHONY_ERR_SUCCESS) = false) as [Hr Nr].
    { pose proof error_codes. unfold res, TELEPHONY_ERR_SUCCESS, TELEPHONY_ERR_LOCAL_PTR_NULL, TELEPHONY_ERR_PERMISSION_ERR, is_i32 in *. repeat case_bool; cbn in *; lia. }
    wp_go2; wp_done.
Qed.
Lemma method_refines R (c : coreE R) init w : call_ok c -> wp (remote_call g c init) (fun a _ _ w' => spec (P := P) c init w = (a, w')) [] [] w.
Proof.
  destruct c; try destruct accept; intros Hc; cbn [call_ok remote_call spec] in *; 
  cbv [ok ok_Z ok_bool ok_cstring ok_u16string ok_pair ok_option ok_lock ok_perso ok_lock_status ok_ims ok_auth
      ok_label ok_apdu ok_esim ok_camera ok_network_state ok_account ok_dialling ok_network ok_config ok_ssb ok_cells ok_signals ok_accounts ok_numbers] in Hc;
  cbn [fst snd] in Hc; destruct_and? Hc; unfold ask, tell, ask_out, ask_list, ask_accounts, ask_numbers, need, checked.
  all: try solve [by apply GetNetworkState_refines].
  all: wp_go2.
  all: wp_done.
Qed.

Lemma client_sees_spec R (c : coreE R) (init : R) (w : W) : call_ok c -> client_sees c init w = Ret (spec (P := P) c init w).
Proof.
  intros Hc. destruct (wp_run _ _ _ (method_refines R c init w Hc)) as (s & E & Ew). unfold client_sees. rewrite E. cbn. rewrite Ew.
  by destruct (spec c init w).
Qed.

(** C2: a call of any of the 112 methods of the core service through the proxy, with arguments in the range of their types and a service whose
    answers are, returns what the specification says and leaves the service in the state that the direct call would: the checks of the proxy
    refuse exactly the arguments that [spec] refuses, after at most a request for the number of slots, and otherwise the service's method is called
    once with the same arguments and its answer comes back, the output argument being replaced on success only. *)
Theorem core_service_refinement R (c : coreE R) (init : R) (w : W) :
  call_ok c -> client_sees c init w = Ret (spec (P := P) c init w).
Proof. apply client_sees_spec. Qed.
End Refinement.

(** ** The dispatch of the stub *)

Section Dispatch.
Context {P W : Type} `{ParcelLaws P} `{ErrorCodes} `{StringEx} `{!ServerSystem P W}.
(** [memberFuncMap_] has the handler [h] for [code], and none. *)
Definition registered (code : Z) (h : M P W Z) : Prop := (code, h) ∈ CoreServiceStub.memberFuncMap_ (P := P) (W := W).
Definition unregistered (code : Z) : Prop := code ∉ (CoreServiceStub.memberFuncMap_ (P := P) (W := W)).*1.

Lemma member_codes : NoDup ((CoreServiceStub.memberFuncMap_ (P := P) (W := W)).*1).
Proof. cbn. by apply (bool_decide_unpack _). Qed.
Lemma find_in_member (m : list (Z * M P W Z)) code h : NoDup (m.*1) -> (code, h) ∈ m -> CoreServiceStub.find_in m code = Some h.
Proof.
  induction m as [|[c f] m IH]; intros N I; [by apply elem_of_nil in I|]. cbn in N. apply NoDup_cons in N as [Nc N].
  cbn [CoreServiceStub.find_in]. apply elem_of_cons in I as [[= -> ->]|I]; [by rewrite Z.eqb_refl|].
  destruct (Z.eqb_spec code c) as [->|_]; [|by apply IH]. destruct Nc. apply list_elem_of_fmap. by exists (c, h).
Qed.
Lemma find_in_none (m : list (Z * M P W Z)) code : code ∉ m.*1 -> CoreServiceStub.find_in m code = None.
Proof.
  induction m as [|[c f] m IH]; intros N; [done|]. cbn in N. apply not_elem_of_cons in N as [Nc N]. cbn [CoreServiceStub.find_in].
  destruct (Z.eqb_spec code c) as [->|_]; [done|]. by apply IH.
Qed.

(** a request whose parcel does not begin with the descriptor of the core service is refused before any handler runs: the service is left as
    it was and the reply is not touched. After the right descriptor, every one of the registered handlers is reached by its own code
    (no code is registered twice), and any other code goes to the base class without calling the service. *)
Theorem request_dispatch code (s : ipc P W) token rest :
  content (data s) = IToken token :: rest ->
  (token <> Descriptor -> exists d, CoreServiceStub.OnRemoteRequest code s = Ret (TELEPHONY_ERR_DESCRIPTOR_MISMATCH, MkIpc d (reply s) (world s))) /\
  (token = Descriptor -> exists d, content d = rest /\
     (forall h, registered code h -> CoreServiceStub.OnRemoteRequest code s = h (MkIpc d (reply s) (world s))) /\
     (unregistered code -> exists r d' p, IPCObjectStub_OnRemoteRequest code d (reply s) = (r, d', p) /\
        CoreServiceStub.OnRemoteRequest code s = Ret (r, MkIpc d' p (world s)))).
Proof.
  intros C. destruct (reads_off_token token rest (data s) C) as (d & E & Cd).
  unfold CoreServiceStub.OnRemoteRequest, mbind, M_bind, read_data. rewrite E. cbn [default data reply world]. split.
  - intros N. exists d. by rewrite bool_decide_eq_false_2 by (intros X; by destruct N).
  - intros ->. exists d. split; [done|]. rewrite bool_decide_eq_true_2 by done. cbn [negb]. unfold CoreServiceStub.find_handler. split.
    + intros h I. by rewrite (find_in_member _ _ _ member_codes I).
    + intros N. rewrite (find_in_none _ _ N). cbn [data reply world]. destruct (IPCObjectStub_OnRemoteRequest code d (reply s)) as [[r d'] p]. by exists r, d', p.
Qed.
End Dispatch.

(** ** A service in the same process *)

Module Loopback.
(** Each method succeeds, answers with a value of its type, and counts the calls. *)
Class Sample (A : Type) : Type := sample : A.
#[export] Instance sample_Z : Sample Z := 2.
#[export] Instance sample_bool : Sample bool := true.
#[export] Instance sample_list {A} `{Sample A} : Sample (list A) := [sample].
#[export] Instance sample_answer {A} `{Sample A} : Sample (Z * A) := (TELEPHONY_ERR_SUCCESS, sample).
#[export] Instance sample_cstring : Sample cstring := str "46000".
#[export] Instance sample_account : Sample IccAccountInfo := IccAccountInfo_new.
#[export] Instance sample_ims : Sample ImsRegInfo := MkImsRegInfo 1 2.
#[export] Instance sample_lock : Sample LockStatusResponse := MkLockStatus 0 3.
#[export] Instance sample_ssb : Sample NrSsbInformation := MkNrSsb 1 2 3 4 5 6 (replicate 8 (MkSsb 1 (-80))) 0 [].
#[export] Instance sample_config : Sample OperatorConfig := OperatorConfig_new.
#[export] Instance sample_esim : Sample ResponseEsimResult := MkEsimResult 0 [] 0x90 0.
#[export] Instance sample_auth : Sample SimAuthenticationResponse := MkSimAuth 0x90 0 [].
#[export] Instance sample_label : Sample SimLabel := MkSimLabel 1 2.
#[export] Instance sample_cell : Sample Cell := GsmCell (MkGsmCell (MkCell (str "460") (str "01") 77 5 (-80) 3 true) 9 2 512).
#[export] Instance sample_number : Sample DiallingNumbersInfo := MkDialling 0x6F3A 1 [65] [49; 50] [] [].
#[export] Instance sample_signal : Sample SignalInformation := SGsm (MkGsm (-90) 0 3).
#[export] Instance sample_state : Sample (option NetworkState) := None.

Definition answer_of R (c : coreE R) : R.
Proof. destruct c; exact sample. Defined.
#[export] Instance errors : ErrorCodes := { COMMON_ERR_OFFSET := 0x7D00000; ERR_FLATTEN_OBJECT := 3 }.
#[export] Instance strings : StringEx := { Str8ToStr16 := fun s => code <$> s; Str16ToStr8 := fun l => chr <$> l }.
#[export] Instance server : ServerSystem (list item) Z := {
  service := fun R c calls => (answer_of R c, calls + 1);
  iface_cast := fun r => Some r;
  IPCObjectStub_OnRemoteRequest := fun _ d p => (305, d, p)
}.
#[export] Instance client : ClientSystem (list item) Z := {
  SendRequest_ := fun code async data w =>
    match CoreServiceStub.OnRemoteRequest code (MkIpc data [] w) with
    | Ret (st, s) => (if async : bool then ERR_NONE else st, reply s, world s) | _ => (TELEPHONY_ERROR, [], w) end;
  Remote := true;
  GetParameter := fun _ d => d
}.
#[export] Instance transport : Transport (list item) Z.
Proof.
  split; [done| |done|split; reflexivity].
  intros code async data w. exists data, []. split; [done|]. split; [done|]. intros st s E. cbn [SendRequest_ client]. rewrite E. by exists (reply s).
Qed.
Class SampleOk (A : Type) `{Sample A} `{Ok A} : Prop := sample_ok : ok (sample : A).
#[export] Instance sample_Z_ok : SampleOk Z.
Proof. by split. Qed.
#[export] Instance sample_bool_ok : SampleOk bool.
Proof. done. Qed.
#[export] Instance sample_cstring_ok : SampleOk cstring.
Proof. done. Qed.
#[export] Instance sample_u16string_ok : SampleOk u16string.
Proof. done. Qed.
#[export] Instance sample_answer_ok {A} `{SampleOk A} : SampleOk (Z * A).
Proof. split; [by split|done]. Qed.
#[export] Instance sample_account_ok : SampleOk IccAccountInfo.
Proof. repeat split; done. Qed.
#[export] Instance sample_ims_ok : SampleOk ImsRegInfo.
Proof. repeat split; done. Qed.
#[export] Instance sample_lock_ok : SampleOk LockStatusResponse.
Proof. repeat split; done. Qed.
#[export] Instance sample_ssb_ok : SampleOk NrSsbInformation.
Proof. split; [repeat split; done|]. split; (split; [repeat constructor; done|done]). Qed.
#[export] Instance sample_config_ok : SampleOk OperatorConfig.
Proof. change (config_ok OperatorConfig_new). unfold config_ok, map_ok, ordered. cbn. repeat match goal with |- _ /\ _ => split end; first [by constructor|done]. Qed.
#[export] Instance sample_esim_ok : SampleOk ResponseEsimResult.
Proof. repeat split; done. Qed.
#[export] Instance sample_auth_ok : SampleOk SimAuthenticationResponse.
Proof. repeat split; done. Qed.
#[export] Instance sample_label_ok : SampleOk SimLabel.
Proof. repeat split; done. Qed.
#[export] Instance sample_cells_ok : SampleOk (list Cell).
Proof. split; [constructor; [|constructor]; repeat split; done|by split]. Qed.
#[export] Instance sample_numbers_ok : SampleOk (list DiallingNumbersInfo).
Proof. split; [constructor; [|constructor]; repeat split; done|by split]. Qed.
#[export] Instance sample_accounts_ok : SampleOk (list IccAccountInfo).
Proof. split; [constructor; [|constructor]; repeat split; done|by split]. Qed.
#[export] Instance sample_signals_ok : SampleOk (list SignalInformation).
Proof. split; [repeat constructor; done|by split]. Qed.
#[export] Instance sample_state_ok : SampleOk (option NetworkState).
Proof. done. Qed.
#[export] Instance answers : Typed (list item) Z.
Proof.
  intros R c w. destruct c; cbn [service server fst answer_of answer_ok]; try apply sample_ok. split; [by split|intros _; apply sample_ok].
Qed.
End Loopback.
Import Loopback.

Lemma core_service_refinement_witness :
  client_sees (P := list item) (InitSignalBar 5) (ICoreService.QueryIccDiallingNumbers 0 5) (0, []) 0 =
    Ret ((TELEPHONY_ERR_SUCCESS, [MkDialling 0x6F3A 1 [65] [49; 50] [] []]), 2).
Proof.
  assert (call_ok (ICoreService.QueryIccDiallingNumbers 0 5)) as Hc by (split; split; done).
  rewrite (core_service_refinement (P := list item) (InitSignalBar 5) _ (ICoreService.QueryIccDiallingNumbers 0 5) (0, []) 0 Hc).
  vm_compute. reflexivity.
Defined.
Lemma request_dispatch_witness :
  exists d, CoreServiceStub.OnRemoteRequest (P := list item) GET_SIM_STATE (MkIpc [IToken [42]; IInt32 0] [] 7) =
    Ret (TELEPHONY_ERR_DESCRIPTOR_MISMATCH, MkIpc d [] 7).
Proof. apply (request_dispatch (P := list item) GET_SIM_STATE (MkIpc [IToken [42]; IInt32 0] [] 7) [42] [IInt32 0]); [reflexivity|discriminate]. Defined.
