(* ===== verification/TelephonyPermission.v ===== *)
(** * [utils/common/src/telephony_permission.cpp], [common/capability_mgr]: who may call the core service

    The access token service of the operating system is a parameter: it knows the token of the process whose request is being handled,
    the kind of a token, the permissions granted to it, and it keeps the record of uses that [CheckPermission] makes for five permissions. *)

From S2P Require Import Prelude CxxString.
Open Scope Z_scope.

Class AccessToken (W : Type) : Type := {
  GetCallingTokenID : W -> Z;
  GetCallingFullTokenID : W -> Z;
  GetTokenTypeFlag : Z -> W -> Z;
  VerifyAccessToken : Z -> cstring -> W -> Z;
  AddPermissionUsedRecord : Z -> cstring -> Z -> Z -> W -> Z * W;
  IsSystemAppByFullTokenID : Z -> W -> bool;
  TOKEN_HAP : Z;
  TOKEN_NATIVE : Z;
  TOKEN_SHELL : Z;
  PERMISSION_GRANTED : Z
}.

(** [namespace Permission] *)
Module Permission.
Definition ANSWER_CALL : cstring := str "ohos.permission.ANSWER_CALL".
Definition READ_CALL_LOG : cstring := str "ohos.permission.READ_CALL_LOG".
Definition WRITE_CONTACTS : cstring := str "ohos.permission.WRITE_CONTACTS".
Definition READ_CONTACTS : cstring := str "ohos.permission.READ_CONTACTS".
Definition SET_TELEPHONY_STATE : cstring := str "ohos.permission.SET_TELEPHONY_STATE".
Definition GET_TELEPHONY_STATE : cstring := str "ohos.permission.GET_TELEPHONY_STATE".
Definition GET_PHONE_NUMBERS : cstring := str "ohos.permission.GET_PHONE_NUMBERS".
Definition GET_NETWORK_INFO : cstring := str "ohos.permission.GET_NETWORK_INFO".
Definition CELL_LOCATION : cstring := str "ohos.permission.LOCATION".
Definition SEND_MESSAGES : cstring := str "ohos.permission.SEND_MESSAGES".
Definition SET_TELEPHONY_ESIM_STATE : cstring := str "ohos.permission.SET_TELEPHONY_ESIM_STATE".
Definition HIDDEN_CAMERA_DETECTION : cstring := str "ohos.permission.HIDDEN_CAMERA_DETECTION".
End Permission.

Module TelephonyPermission.
Section Check.
Context {W : Type} `{AccessToken W}.

Definition records_use (permissionName : cstring) : bool :=
  bool_decide (permissionName = Permission.ANSWER_CALL) || bool_decide (permissionName = Permission.READ_CALL_LOG)
  || bool_decide (permissionName = Permission.READ_CONTACTS) || bool_decide (permissionName = Permission.WRITE_CONTACTS)
  || bool_decide (permissionName = Permission.SEND_MESSAGES).

Definition CheckPermission (permissionName : cstring) : stateful W bool := fun w =>
  if bool_decide (permissionName = []) then (false, w) else
  let callerToken := GetCallingTokenID w in
  let tokenType := GetTokenTypeFlag callerToken w in
  let result := VerifyAccessToken callerToken permissionName w in
  let w :=
    if records_use permissionName && (tokenType =? TOKEN_HAP) then
      let status := result =? PERMISSION_GRANTED in
      let successCount := if status then 1 else 0 in
      let failCount := if status then 0 else 1 in
      (AddPermissionUsedRecord callerToken permissionName successCount failCount w).2
    else w in
  if negb (result =? PERMISSION_GRANTED) then (false, w) else (true, w).

Definition CheckCallerIsSystemApp : stateful W bool := gets (fun w =>
  let callerToken := GetCallingTokenID w in
  let tokenType := GetTokenTypeFlag callerToken w in
  if (tokenType =? TOKEN_NATIVE) || (tokenType =? TOKEN_SHELL) then true else
  let selfToken := GetCallingFullTokenID w in
  IsSystemAppByFullTokenID selfToken w).

(** ** The decision and the record *)

(** The caller was granted the permission. *)
Definition granted (permissionName : cstring) (w : W) : bool :=
  negb (bool_decide (permissionName = [])) && (VerifyAccessToken (GetCallingTokenID w) permissionName w =? PERMISSION_GRANTED).
(** The state after the check: the same, or with one more record of a use. *)
Definition audited (permissionName : cstring) (w : W) : W := (CheckPermission permissionName w).2.

Lemma CheckPermission_granted permissionName w : CheckPermission permissionName w = (granted permissionName w, audited permissionName w).
Proof.
  unfold audited, granted, CheckPermission. destruct (bool_decide (permissionName = [])); [done|]. cbn [negb andb].
  by destruct (VerifyAccessToken _ _ _ =? PERMISSION_GRANTED).
Qed.
Lemma audited_same permissionName w : records_use permissionName = false -> audited permissionName w = w.
Proof.
  intros N. unfold audited, CheckPermission. rewrite N. cbn [andb]. destruct (bool_decide _); [done|]. by destruct (negb _).
Qed.
End Check.
End TelephonyPermission.

Module MultiSimsCapabilityMgr.
Section Capability.
Context {W : Type} `{AccessToken W}.

Definition SLOT_3_INDEX : Z := 3.
(** The fourth slot is for system applications only. *)
Definition IsMultiSimsCapabilitySupported (slotId : Z) : stateful W bool := gets (fun w =>
  if negb (slotId =? SLOT_3_INDEX) then true else
  let callerToken := GetCallingTokenID w in
  let tokenType := GetTokenTypeFlag callerToken w in
  if (tokenType =? TOKEN_NATIVE) || (tokenType =? TOKEN_SHELL) then true else
  let selfToken := GetCallingFullTokenID w in
  IsSystemAppByFullTokenID selfToken w).

Lemma supported_is_system slotId w :
  IsMultiSimsCapabilitySupported slotId w = (negb (slotId =? SLOT_3_INDEX) || (TelephonyPermission.CheckCallerIsSystemApp w).1, w).
Proof.
  unfold IsMultiSimsCapabilitySupported, TelephonyPermission.CheckCallerIsSystemApp, gets. cbn [fst]. by destruct (slotId =? SLOT_3_INDEX).
Qed.
End Capability.
End MultiSimsCapabilityMgr.
