(* ===== verification/CoreManagers.v ===== *)
(** * What the core service calls

    The managers behind the service are reached through three interfaces ([i_network_search.h], [i_sim_manager.h],
    [i_esim_manager.h]): a constructor per method that the service uses, with the arguments as parameters, output arguments with the value they have
    before the call, and the result and the output arguments after it as index. What the managers do is a parameter, as are weak pointers, system parameters and
    the functions of the vendor extension ([telephony_ext_wrapper.h]), which are null when the extension lacks them. *)

From S2P Require Import Prelude CxxString Parcel Parcelables OperatorConfig CellInformation NetworkState SignalInformation CoreServiceApi.
Open Scope Z_scope.

(** [response_esim_result.h] *)
Record ResponseEsimInnerResult : Type := MkEsimInner { inner_resultCode_ : Z; inner_response_ : u16string; inner_sw1_ : Z; inner_sw2_ : Z }.

Module INetworkSearch.
Inductive networkE : Type -> Type :=
| GetPsRadioTech (slotId psRadioTech : Z) : networkE (Z * Z)
| GetCsRadioTech (slotId csRadioTech : Z) : networkE (Z * Z)
| SetNetworkSelectionMode (slotId selectMode : Z) (networkInformation : option NetworkInformation) (resumeSelection : bool) (callback : option remote) : networkE Z
| GetSignalInfoList (slotId : Z) (signals : list SignalInformation) : networkE (Z * list SignalInformation)
| GetOperatorNumeric (slotId : Z) : networkE u16string
| GetResidentNetworkNumeric (slotId : Z) : networkE cstring
| GetOperatorName (slotId : Z) (operatorName : u16string) : networkE (Z * u16string)
| GetNetworkStatus (slotId : Z) (networkState : option NetworkState) : networkE (Z * option NetworkState)
| SetRadioState (slotId : Z) (isOn : bool) (rst : Z) (callback : option remote) : networkE Z
| GetRadioState (slotId : Z) (callback : option remote) : networkE Z
| GetIsoCountryCodeForNetwork (slotId : Z) (countryCode : u16string) : networkE (Z * u16string)
| GetImei (slotId : Z) (imei : u16string) : networkE (Z * u16string)
| GetImeiSv (slotId : Z) (imeiSv : u16string) : networkE (Z * u16string)
| GetMeid (slotId : Z) (meid : u16string) : networkE (Z * u16string)
| GetUniqueDeviceId (slotId : Z) (deviceId : u16string) : networkE (Z * u16string)
| IsNrSupported (slotId : Z) : networkE bool
| SetNrOptionMode (slotId mode : Z) (callback : option remote) : networkE Z
| GetNrOptionMode (slotId : Z) (callback : option remote) : networkE Z
| GetNetworkSearchInformation (slotId : Z) (callback : option remote) : networkE Z
| GetNetworkSelectionMode (slotId : Z) (callback : option remote) : networkE Z
| GetPreferredNetwork (slotId : Z) (callback : option remote) : networkE Z
| SetPreferredNetwork (slotId networkMode : Z) (callback : option remote) : networkE Z
| GetNetworkCapability (slotId networkCapabilityType networkCapabilityState : Z) : networkE (Z * Z)
| SetNetworkCapability (slotId networkCapabilityType networkCapabilityState : Z) : networkE Z
| GetImsRegStatus (slotId imsSrvType : Z) (info : ImsRegInfo) : networkE (Z * ImsRegInfo)
| GetCellInfoList (slotId : Z) (cellInfo : list Cell) : networkE (Z * list Cell)
| GetNeighboringCellInfoList (slotId : Z) (cellInfo : list Cell) : networkE (Z * list Cell)
| SendUpdateCellLocationRequest (slotId : Z) : networkE Z
| RegisterImsRegInfoCallback (slotId imsSrvType tokenId : Z) (callback : option remote) : networkE Z
| UnregisterImsRegInfoCallback (slotId imsSrvType tokenId : Z) : networkE Z
| GetBasebandVersion (slotId : Z) (version : cstring) : networkE (Z * cstring)
| FactoryReset (slotId : Z) : networkE Z
| GetNrSsbId (slotId : Z) (nrSsbInformation : NrSsbInformation) : networkE (Z * NrSsbInformation)
| GetManualNetworkScanState (slotId : Z) (callback : option remote) : networkE Z
| StopManualNetworkScanCallback (slotId : Z) : networkE Z
| StartManualNetworkScanCallback (slotId : Z) (callback : option remote) : networkE Z.
End INetworkSearch.
Module ISimManager.
Inductive simE : Type -> Type :=
| HasSimCard (slotId : Z) (hasSimCard : bool) : simE (Z * bool)
| GetSimState (slotId simState : Z) : simE (Z * Z)
| GetDsdsMode (dsdsMode : Z) : simE (Z * Z)
| GetCardType (slotId cardType : Z) : simE (Z * Z)
| GetISOCountryCodeForSim (slotId : Z) (countryCode : u16string) : simE (Z * u16string)
| GetSimSpn (slotId : Z) (spn : u16string) : simE (Z * u16string)
| GetSimIccId (slotId : Z) (iccId : u16string) : simE (Z * u16string)
| GetSimOperatorNumeric (slotId : Z) (operatorNumeric : u16string) : simE (Z * u16string)
| GetIMSI (slotId : Z) (imsi : u16string) : simE (Z * u16string)
| IsCTSimCard (slotId : Z) (isCTSimCard : bool) : simE (Z * bool)
| IsSimActive (slotId : Z) : simE bool
| GetSlotId (simId : Z) : simE Z
| GetSimId (slotId : Z) : simE Z
| GetPrimarySlotId (slotId : Z) : simE (Z * Z)
| GetLocaleFromDefaultSim (slotId : Z) : simE u16string
| GetSimGid1 (slotId : Z) (gid1 : u16string) : simE (Z * u16string)
| GetSimGid2 (slotId : Z) : simE u16string
| GetSimEons (slotId : Z) (plmn : cstring) (lac : Z) (longNameRequired : bool) : simE u16string
| GetSimAccountInfo (slotId : Z) (denied : bool) (info : IccAccountInfo) : simE (Z * IccAccountInfo)
| SetDefaultVoiceSlotId (slotId : Z) : simE Z
| GetDefaultVoiceSlotId : simE Z
| GetRadioProtocolSlotIdByModemId (modemId : Z) : simE Z
| GetDefaultVoiceSimId (simId : Z) : simE (Z * Z)
| SetPrimarySlotId (slotId : Z) (isUserSet : bool) : simE Z
| SetShowNumber (slotId : Z) (number : u16string) : simE Z
| GetShowNumber (slotId : Z) (showNumber : u16string) : simE (Z * u16string)
| SetShowName (slotId : Z) (name : u16string) : simE Z
| GetShowName (slotId : Z) (showName : u16string) : simE (Z * u16string)
| GetActiveSimAccountInfoList (denied : bool) (iccAccountInfoList : list IccAccountInfo) : simE (Z * list IccAccountInfo)
| GetOperatorConfigs (slotId : Z) (poc : OperatorConfig) : simE (Z * OperatorConfig)
| UnlockPin (slotId : Z) (pin : cstring) (response : LockStatusResponse) : simE (Z * LockStatusResponse)
| UnlockPuk (slotId : Z) (newPin puk : cstring) (response : LockStatusResponse) : simE (Z * LockStatusResponse)
| AlterPin (slotId : Z) (newPin oldPin : cstring) (response : LockStatusResponse) : simE (Z * LockStatusResponse)
| UnlockPin2 (slotId : Z) (pin2 : cstring) (response : LockStatusResponse) : simE (Z * LockStatusResponse)
| UnlockPuk2 (slotId : Z) (newPin2 puk2 : cstring) (response : LockStatusResponse) : simE (Z * LockStatusResponse)
| AlterPin2 (slotId : Z) (newPin2 oldPin2 : cstring) (response : LockStatusResponse) : simE (Z * LockStatusResponse)
| SetLockState (slotId : Z) (options : LockInfo) (response : LockStatusResponse) : simE (Z * LockStatusResponse)
| GetLockState (slotId lockType lockState : Z) : simE (Z * Z)
| RefreshSimState (slotId : Z) : simE Z
| SetActiveSim (slotId enable : Z) : simE Z
| SetActiveSimSatellite (slotId enable : Z) : simE Z
| GetSimTelephoneNumber (slotId : Z) (telephoneNumber : u16string) : simE (Z * u16string)
| GetSimTeleNumberIdentifier (slotId : Z) : simE u16string
| GetVoiceMailIdentifier (slotId : Z) (voiceMailIdentifier : u16string) : simE (Z * u16string)
| GetVoiceMailNumber (slotId : Z) (voiceMailNumber : u16string) : simE (Z * u16string)
| GetVoiceMailCount (slotId voiceMailCount : Z) : simE (Z * Z)
| SetVoiceMailCount (slotId voiceMailCount : Z) : simE Z
| SetVoiceCallForwarding (slotId : Z) (enable : bool) (number : cstring) : simE Z
| QueryIccDiallingNumbers (slotId type : Z) (result : list DiallingNumbersInfo) : simE (Z * list DiallingNumbersInfo)
| AddIccDiallingNumbers (slotId type : Z) (diallingNumber : option DiallingNumbersInfo) : simE Z
| DelIccDiallingNumbers (slotId type : Z) (diallingNumber : option DiallingNumbersInfo) : simE Z
| UpdateIccDiallingNumbers (slotId type : Z) (diallingNumber : option DiallingNumbersInfo) : simE Z
| SetVoiceMailInfo (slotId : Z) (mailName mailNumber : u16string) : simE Z
| GetOpKey (slotId : Z) (opkey : u16string) : simE (Z * u16string)
| GetOpKeyExt (slotId : Z) (opkeyExt : u16string) : simE (Z * u16string)
| GetOpName (slotId : Z) (opname : u16string) : simE (Z * u16string)
| SendEnvelopeCmd (slotId : Z) (cmd : cstring) : simE Z
| SendTerminalResponseCmd (slotId : Z) (cmd : cstring) : simE Z
| SendCallSetupRequestResult (slotId : Z) (accept : bool) : simE Z
| UnlockSimLock (slotId : Z) (lockInfo : PersoLockInfo) (response : LockStatusResponse) : simE (Z * LockStatusResponse)
| HasOperatorPrivileges (slotId : Z) (hasOperatorPrivileges : bool) : simE (Z * bool)
| SimAuthentication (slotId authType : Z) (authData : cstring) (response : SimAuthenticationResponse) : simE (Z * SimAuthenticationResponse)
| GetSimIO (slotId command fileId : Z) (data path : cstring) (response : SimAuthenticationResponse) : simE (Z * SimAuthenticationResponse)
| GetAllSimAccountInfoList (denied : bool) (iccAccountInfoList : list IccAccountInfo) : simE (Z * list IccAccountInfo)
| GetSimLabel (slotId : Z) (simLabel : SimLabel) : simE (Z * SimLabel)
| GetRealSimCount : simE Z
| SetSimLabelIndex (simId simLabelIndex : Z) : simE Z.
End ISimManager.
Module IEsimManager.
Inductive esimE : Type -> Type :=
| SendApduData (slotId : Z) (aid : u16string) (apduData : EsimApduData) (responseResult : ResponseEsimInnerResult) : esimE (Z * ResponseEsimInnerResult).
End IEsimManager.

Export INetworkSearch (networkE).
Export ISimManager (simE).
Export IEsimManager (esimE).

(** A pointer to a manager. *)
Definition pointer : Type := positive.

(** The managers and the rest of the process, with state [W]. *)
Class Managers (W : Type) : Type := {
  network_call : forall R, networkE R -> pointer -> W -> R * W;
  sim_call : forall R, simE R -> pointer -> W -> R * W;
  esim_call : forall R, esimE R -> pointer -> W -> R * W;
  (** [std::weak_ptr<...>(p).lock()]: the manager still exists. *)
  alive : pointer -> W -> bool;
  (** The token of the calling process. *)
  GetTokenID : W -> Z;
  SetParameter : cstring -> cstring -> W -> W;
  SIM_SLOT_COUNT_MD : Z;
  SIM_SLOT_COUNT_REAL : Z;
  isAllowedInsertApn_ : option (cstring -> W -> bool * W);
  getTargetOpkey_ : option (Z -> u16string -> W -> u16string * W);
  getOpkeyVersion_ : option (cstring -> W -> cstring * W);
  getOpnameVersion_ : option (cstring -> W -> cstring * W);
  startHiddenCameraDetectionExt_ : option (option remote -> HiddenCameraDetectionConfig -> remote -> W -> Z * W);
  stopHiddenCameraDetectionExt_ : option (remote -> W -> Z * W);
  keepHiddenCameraDetectionExt_ : option (remote -> W -> Z * W)
}.

(** Starting the process ([OnStart], [Init], [OnStop]): the operating system's service manager, and the creation and initialisation
    of the managers. *)
Class Lifecycle (W : Type) : Type := {
  now_ms : W -> Z;
  Publish : W -> bool * W;
  ffrt_set_cpu_worker_max_num : W -> Z * W;
  InitCommonEventHub : W -> W;
  InitTelephonyExtWrapper : W -> W;
  DeInitTelephonyExtWrapper : W -> W;
  make_TelRilManager : W -> pointer * W;
  TelRilManager_OnInit : pointer -> W -> bool * W;
  TelRilManager_DeInit : pointer -> W -> W;
  make_EsimManager : pointer -> W -> pointer * W;
  EsimManager_OnInit : pointer -> Z -> W -> bool * W;
  make_SimManager : pointer -> W -> pointer * W;
  SimManager_OnInit : pointer -> Z -> W -> bool * W;
  make_NetworkSearchManager : pointer -> pointer -> W -> pointer * W;
  NetworkSearchManager_OnInit : pointer -> W -> bool * W;
  NetworkSearchManager_DeInit : pointer -> W -> W;
  InitAirplaneMode : pointer -> Z -> W -> W;
  ImsCoreServiceClient_Init : W -> W;
  ImsCoreServiceClient_UnInit : W -> W;
  SetTelRilMangerObj : pointer -> W -> W;
  SetEsimManagerObj : pointer -> W -> W;
  CoreManagerInner_OnInit : pointer -> pointer -> pointer -> W -> W;
  PublishCoreServiceReady : W -> bool * W
}.
