(* ===== verification/RawParcelCallback.v ===== *)
(** * Answers through a callback object ([i_raw_parcel_callback.h])

    A method of the service that answers later gets a callback object from the client. [RawParcelCallbackProxy]
    ([services/core/src/raw_parcel_callback_proxy.cpp]) sends the answer as an asynchronous request; [RawParcelCallbackStub]
    ([frameworks/native/src/raw_parcel_callback_stub.cpp]), in the client, hands it to the function that reads it and
    wakes the waiting call. *)

From S2P Require Import Prelude CxxString Parcel CoreServiceApi.
Open Scope Z_scope.

(** The service process: the managers' state, and the asynchronous requests that it handed to the IPC library, with their
    receivers, oldest first. *)
Record system (P W : Type) : Type := MkSystem { managers : W; sent : list (remote * P) }.
Arguments MkSystem {P W}. Arguments managers {P W}. Arguments sent {P W}.

Module IRawParcelCallback.
(** [DECLARE_INTERFACE_DESCRIPTOR(u"OHOS.Telephony.IRawParcelCallback")] *)
Definition Descriptor : u16string := code <$> str "OHOS.Telephony.IRawParcelCallback".
End IRawParcelCallback.

Module RawParcelCallbackProxy.
Section Proxy.
Context {P W : Type} `{ParcelOps P}.

(** [remote->SendRequest(0, data, reply, option)] with [TF_ASYNC]. *)
Definition SendRequest (remote : remote) (data : P) : stateful (system P W) unit :=
  modifies (fun s => MkSystem (managers s) (sent s ++ [(remote, data)])).
Definition Transfer (Remote : option remote) (writer : option (P -> P)) (data : P) : stateful (system P W) unit :=
  match Remote with
  | None => mret tt
  | Some remote =>
      let '(ok, data) := WriteInterfaceToken IRawParcelCallback.Descriptor data in
      if negb ok then mret tt else
      let data := match writer with Some writer => writer data | None => data end in
      SendRequest remote data
  end.
End Proxy.
End RawParcelCallbackProxy.

(** [data.Write...(v)] in a writer, whose result is not looked at. *)
Definition puts {P} (writes : list (wstep P)) (data : P) : P := foldl (fun p f => (f p).2) data writes.
(** The writer of most answers: the result, and the values if it is a success. *)
Definition write_answer {P} `{ParcelOps P} (ret : Z) (values : list (wstep P)) (data : P) : P :=
  let data := puts [WriteInt32 ret] data in
  if ret =? TELEPHONY_ERR_SUCCESS then puts values data else data.

Module RawParcelCallbackStub.
Section Stub.
Context {P : Type} `{ParcelOps P} {C : Type}.

(** The callback object: [reader_] stores what it reads in variables ([cells]) of the waiting call, to which it has weak pointers: [None] when the
    call is over. *)
Record callback : Type := MkCallback { cells : option C; done_ : bool }.
Definition RawParcelCallbackStub (initial : C) : callback := MkCallback (Some initial) false.

Definition CheckCurrentDescriptor (data : P) : bool * P :=
  let myDescriptor := IRawParcelCallback.Descriptor in
  let '(remoteDescriptor, data) := ReadInterfaceToken data in
  (bool_decide (myDescriptor = default [] remoteDescriptor), data).
Definition NotifyReceiveDone (cb : callback) : callback := MkCallback (cells cb) true.
(** The lambda that is [reader_]: it locks its weak pointers first. *)
Definition locked (reader : P -> C -> C) (data : P) (cb : callback) : callback :=
  match cells cb with Some c => MkCallback (Some (reader data c)) (done_ cb) | None => cb end.
Definition Transfer (reader_ : option (P -> C -> C)) (writer : option (P -> P)) (data : P) (cb : callback) : callback :=
  let read data := match reader_ with Some reader => NotifyReceiveDone (locked reader data cb) | None => cb end in
  match writer with
  | Some writer => read (writer data)
  | None => let '(ok, data) := CheckCurrentDescriptor data in if negb ok then cb else read data
  end.
Definition OnRemoteRequest (reader_ : option (P -> C -> C)) (data : P) (cb : callback) : Z * callback :=
  (TELEPHONY_ERR_SUCCESS, Transfer reader_ None data cb).

(** [cv_.wait_for(lock, std::chrono::microseconds(timeoutMs), [this] { return done_; })], begun at the time [start]: [None] while
    it waits. Times are in microseconds. *)
Definition WaitForResult (timeoutMs start now : Z) (cb : callback) : option bool :=
  if done_ cb then Some true else if start + timeoutMs <=? now then Some false else None.
End Stub.
Arguments callback C : clear implicits.
End RawParcelCallbackStub.
