(* ===== verification/CoreService.v ===== *)
(** * The core service process ([services/core/src/core_service.cpp], [core_service_sim.cpp])

    [CoreService] has a method per request: it checks who is calling, that the manager it needs exists and that the caller may use the slot, and calls the manager.
    The methods on the card are those of [CoreServiceSim]. A method with a callback posts a task to one of three event handlers and returns; the task calls the manager later
    and transfers the answer. [OnStart], [Init] and [OnStop] start and stop the process. The managers, the operating system and the vendor extension are
    parameters (TelephonyPermission.v, CoreManagers.v). Left out: the locks around the creation of the handlers, the log and [Dump]. *)

From S2P Require Import Prelude CxxString Parcel Parcelables OperatorConfig CellInformation NetworkState SignalInformation CoreServiceApi CoreServiceProxy CoreServiceStub TelephonyPermission CoreManagers RawParcelCallback.
Open Scope Z_scope.
Open Scope ipc_scope.

(** [if (m == nullptr) { return r; }] for a member [m]. *)
Notation "'deref' x ':=' m 'or' r ';;' k" := (mbind (fun p => match p with Some x => k | None => mret r end) m) (at level 10, x name, m at level 99, r at level 99, k at level 200, format "'deref'  x  ':='  m  'or'  r  ';;' '//' k") : ipc_scope.

Definition INVALID_VALUE : Z := -1.
Definition UNLOCK_FAIL : Z := -2.
Definition LOCK_ERROR : Z := 2.
Definition SIM_STATE_UNKNOWN : Z := 0.
Definition UNKNOWN_CARD : Z := -1.
Definition PSIM : Z := 0.
Definition SimLabel_new : SimLabel := MkSimLabel PSIM 0.
Definition USER_PREFER_PRIMARY_SLOT : cstring := str "persist.telephony.userPreferPrimarySlot".

(** ** Tasks *)

(** A lambda that is posted to a handler: it computes what will be written to the answer, and transfers it to the callback. *)
Record task (P W : Type) : Type := MkTask { compute : stateful W (P -> P); receiver : remote }.
Arguments MkTask {P W}. Arguments compute {P W}. Arguments receiver {P W}.

(** An event handler, null until the first task is posted: the tasks that wait, oldest first. *)
Definition handler (P W : Type) : Type := option (list (task P W)).
Definition PostTask {P W} (t : task P W) (h : handler P W) : handler P W := Some (default [] h ++ [t]).

Section Tasks.
Context {P W : Type} `{ParcelOps P}.
Definition on_managers {A} (m : stateful W A) : stateful (system P W) A :=
  fun s => let '(a, w) := m (managers s) in (a, MkSystem w (sent s)).
Definition run_task (t : task P W) : stateful (system P W) unit :=
  writer ← on_managers (compute t);
  RawParcelCallbackProxy.Transfer (Some (receiver t)) (Some writer) new_parcel.
End Tasks.

(** ** CoreServiceSim *)

Module CoreServiceSim.
Record core_service_sim (P W : Type) : Type := MkCoreServiceSim {
  sim_manager : option pointer;
  simGeneralHandler_ : handler P W;
  simPinHandler_ : handler P W
}.
Arguments MkCoreServiceSim {P W}. Arguments sim_manager {P W}. Arguments simGeneralHandler_ {P W}. Arguments simPinHandler_ {P W}.

Section Sim.
Context {P W : Type} `{ParcelOps P} `{ErrorCodes} `{StringEx} `{AccessToken W} `{!Managers W}.
Definition SimM : Type -> Type := stateful (core_service_sim P W * system P W).

Definition CoreServiceSim_new : core_service_sim P W := MkCoreServiceSim None None None.
Definition simManager_ : SimM (option pointer) := gets (fun s => sim_manager s.1).
Definition SetSimManager (simManager : pointer) : SimM unit :=
  modifies (fun '(o, s) => (MkCoreServiceSim (Some simManager) (simGeneralHandler_ o) (simPinHandler_ o), s)).
Definition AsyncSimGeneralExecute (t : task P W) : SimM unit :=
  modifies (fun '(o, s) => (MkCoreServiceSim (sim_manager o) (PostTask t (simGeneralHandler_ o)) (simPinHandler_ o), s)).
Definition AsyncSimPinExecute (t : task P W) : SimM unit :=
  modifies (fun '(o, s) => (MkCoreServiceSim (sim_manager o) (simGeneralHandler_ o) (PostTask t (simPinHandler_ o)), s)).

(** Calls that leave this object. *)
Definition call {A} (m : stateful W A) : SimM A := fun '(o, s) => let '(a, s) := on_managers m s in (a, (o, s)).
Definition sim {R} (p : pointer) (c : simE R) : SimM R := call (sim_call R c p).
Definition CheckPermission (permissionName : cstring) : SimM bool := call (TelephonyPermission.CheckPermission permissionName).
Definition CheckCallerIsSystemApp : SimM bool := call TelephonyPermission.CheckCallerIsSystemApp.
Definition IsMultiSimsCapabilitySupported (slotId : Z) : SimM bool := call (MultiSimsCapabilityMgr.IsMultiSimsCapabilitySupported slotId).
(** [auto simManager = wp.lock(); if (simManager) { ret = simManager->c; }] with the value [r] otherwise. *)
Definition sim_if_alive {R} (wp : pointer) (c : simE R) (r : R) : stateful W R :=
  fun w => if alive wp w then sim_call R c wp w else (r, w).

(** The loop that erases the accounts of slots that the caller may not use. *)
Fixpoint erase_unsupported (iccAccountInfoList : list IccAccountInfo) : SimM (list IccAccountInfo) :=
  match iccAccountInfoList with
  | [] => mret []
  | it :: rest =>
      supported ← IsMultiSimsCapabilitySupported (slotIndex it);
      rest ← erase_unsupported rest;
      mret (if (supported : bool) then it :: rest else rest)
  end.

Definition HasSimCard (slotId : Z) (callback : option remote) : SimM Z :=
  deref simManager := simManager_ or TELEPHONY_ERR_LOCAL_PTR_NULL ;;
  nonnull callback := callback or TELEPHONY_ERR_LOCAL_PTR_NULL ;;
  ensure IsMultiSimsCapabilitySupported slotId or TELEPHONY_ERR_SLOTID_INVALID ;;
  AsyncSimGeneralExecute (MkTask ('(ret, hasSimCard) ← sim_if_alive simManager (ISimManager.HasSimCard slotId false) (TELEPHONY_ERR_IPC_CONNECT_STUB_FAIL, false);
    mret (write_answer ret [WriteBool hasSimCard])) callback) ;;
  mret TELEPHONY_ERR_SUCCESS.
Definition GetSimState (slotId : Z) (callback : option remote) : SimM Z :=
  deref simManager := simManager_ or TELEPHONY_ERR_LOCAL_PTR_NULL ;;
  nonnull callback := callback or TELEPHONY_ERR_LOCAL_PTR_NULL ;;
  ensure IsMultiSimsCapabilitySupported slotId or TELEPHONY_ERR_SLOTID_INVALID ;;
  AsyncSimGeneralExecute (MkTask ('(ret, simState) ← sim_if_alive simManager (ISimManager.GetSimState slotId SIM_STATE_UNKNOWN) (TELEPHONY_ERR_IPC_CONNECT_STUB_FAIL, SIM_STATE_UNKNOWN);
    mret (write_answer ret [WriteInt32 simState])) callback) ;;
  mret TELEPHONY_ERR_SUCCESS.
Definition GetDsdsMode (dsdsMode : Z) : SimM (Z * Z) :=
  ensure CheckCallerIsSystemApp or (TELEPHONY_ERR_ILLEGAL_USE_OF_SYSTEM_API, dsdsMode) ;;
  ensure CheckPermission Permission.GET_TELEPHONY_STATE or (TELEPHONY_ERR_PERMISSION_ERR, dsdsMode) ;;
  deref simManager := simManager_ or (TELEPHONY_ERR_LOCAL_PTR_NULL, dsdsMode) ;;
  sim simManager (ISimManager.GetDsdsMode dsdsMode).
Definition GetCardType (slotId cardType : Z) : SimM (Z * Z) :=
  deref simManager := simManager_ or (TELEPHONY_ERR_LOCAL_PTR_NULL, cardType) ;;
  ensure IsMultiSimsCapabilitySupported slotId or (TELEPHONY_ERR_SLOTID_INVALID, cardType) ;;
  sim simManager (ISimManager.GetCardType slotId cardType).
Definition GetISOCountryCodeForSim (slotId : Z) (countryCode : u16string) : SimM (Z * u16string) :=
  deref simManager := simManager_ or (TELEPHONY_ERR_LOCAL_PTR_NULL, countryCode) ;;
  ensure IsMultiSimsCapabilitySupported slotId or (TELEPHONY_ERR_SLOTID_INVALID, countryCode) ;;
  sim simManager (ISimManager.GetISOCountryCodeForSim slotId countryCode).
Definition GetSimSpn (slotId : Z) (spn : u16string) : SimM (Z * u16string) :=
  deref simManager := simManager_ or (TELEPHONY_ERR_LOCAL_PTR_NULL, spn) ;;
  ensure IsMultiSimsCapabilitySupported slotId or (TELEPHONY_ERR_SLOTID_INVALID, spn) ;;
  sim simManager (ISimManager.GetSimSpn slotId spn).
Definition GetSimIccId (slotId : Z) (iccId : u16string) : SimM (Z * u16string) :=
  ensure CheckCallerIsSystemApp or (TELEPHONY_ERR_ILLEGAL_USE_OF_SYSTEM_API, iccId) ;;
  ensure CheckPermission Permission.GET_TELEPHONY_STATE or (TELEPHONY_ERR_PERMISSION_ERR, iccId) ;;
  deref simManager := simManager_ or (TELEPHONY_ERR_LOCAL_PTR_NULL, iccId) ;;
  ensure IsMultiSimsCapabilitySupported slotId or (TELEPHONY_ERR_SLOTID_INVALID, iccId) ;;
  sim simManager (ISimManager.GetSimIccId slotId iccId).
Definition GetSimOperatorNumeric (slotId : Z) (operatorNumeric : u16string) : SimM (Z * u16string) :=
  deref simManager := simManager_ or (TELEPHONY_ERR_LOCAL_PTR_NULL, operatorNumeric) ;;
  ensure IsMultiSimsCapabilitySupported slotId or (TELEPHONY_ERR_SLOTID_INVALID, operatorNumeric) ;;
  sim simManager (ISimManager.GetSimOperatorNumeric slotId operatorNumeric).
Definition GetIMSI (slotId : Z) (imsi : u16string) : SimM (Z * u16string) :=
  ensure CheckCallerIsSystemApp or (TELEPHONY_ERR_ILLEGAL_USE_OF_SYSTEM_API, imsi) ;;
  ensure CheckPermission Permission.GET_TELEPHONY_STATE or (TELEPHONY_ERR_PERMISSION_ERR, imsi) ;;
  deref simManager := simManager_ or (TELEPHONY_ERR_LOCAL_PTR_NULL, imsi) ;;
  ensure IsMultiSimsCapabilitySupported slotId or (TELEPHONY_ERR_SLOTID_INVALID, imsi) ;;
  sim simManager (ISimManager.GetIMSI slotId imsi).
Definition IsCTSimCard (slotId : Z) (callback : option remote) : SimM Z :=
  ensure CheckCallerIsSystemApp or TELEPHONY_ERR_ILLEGAL_USE_OF_SYSTEM_API ;;
  deref simManager := simManager_ or TELEPHONY_ERR_LOCAL_PTR_NULL ;;
  nonnull callback := callback or TELEPHONY_ERR_LOCAL_PTR_NULL ;;
  ensure IsMultiSimsCapabilitySupported slotId or TELEPHONY_ERR_SLOTID_INVALID ;;
  AsyncSimGeneralExecute (MkTask ('(ret, isCTSimCard) ← sim_if_alive simManager (ISimManager.IsCTSimCard slotId false) (TELEPHONY_ERR_IPC_CONNECT_STUB_FAIL, false);
    mret (write_answer ret [WriteBool isCTSimCard])) callback) ;;
  mret TELEPHONY_ERR_SUCCESS.
Definition IsSimActive (slotId : Z) (callback : option remote) : SimM bool :=
  deref simManager := simManager_ or false ;;
  nonnull callback := callback or false ;;
  ensure IsMultiSimsCapabilitySupported slotId or (negb (TELEPHONY_ERR_SLOTID_INVALID =? 0)) ;;
  AsyncSimGeneralExecute (MkTask (isSimActive ← sim_if_alive simManager (ISimManager.IsSimActive slotId) false;
    mret (puts [WriteBool isSimActive])) callback) ;;
  mret true.
Definition GetSlotId (simId : Z) : SimM Z :=
  deref simManager := simManager_ or TELEPHONY_ERR_LOCAL_PTR_NULL ;;
  sim simManager (ISimManager.GetSlotId simId).
Definition GetSimId (slotId : Z) : SimM Z :=
  deref simManager := simManager_ or TELEPHONY_ERROR ;;
  sim simManager (ISimManager.GetSimId slotId).
Definition GetLocaleFromDefaultSim : SimM u16string :=
  ensure CheckPermission Permission.GET_TELEPHONY_STATE or [] ;;
  deref simManager := simManager_ or [] ;;
  let slotId := INVALID_VALUE in
  '(_, slotId) ← sim simManager (ISimManager.GetPrimarySlotId slotId);
  let slotId := if slotId <? DEFAULT_SIM_SLOT_ID then DEFAULT_SIM_SLOT_ID else slotId in
  sim simManager (ISimManager.GetLocaleFromDefaultSim slotId).
Definition GetSimGid1 (slotId : Z) (gid1 : u16string) : SimM (Z * u16string) :=
  ensure CheckCallerIsSystemApp or (TELEPHONY_ERR_ILLEGAL_USE_OF_SYSTEM_API, gid1) ;;
  ensure CheckPermission Permission.GET_TELEPHONY_STATE or (TELEPHONY_ERR_PERMISSION_ERR, gid1) ;;
  deref simManager := simManager_ or (TELEPHONY_ERR_LOCAL_PTR_NULL, gid1) ;;
  ensure IsMultiSimsCapabilitySupported slotId or (TELEPHONY_ERR_SLOTID_INVALID, gid1) ;;
  sim simManager (ISimManager.GetSimGid1 slotId gid1).
Definition GetSimGid2 (slotId : Z) : SimM u16string :=
  ensure CheckCallerIsSystemApp or [] ;;
  ensure CheckPermission Permission.GET_TELEPHONY_STATE or [] ;;
  deref simManager := simManager_ or [] ;;
  sim simManager (ISimManager.GetSimGid2 slotId).
Definition GetSimEons (slotId : Z) (plmn : cstring) (lac : Z) (longNameRequired : bool) : SimM u16string :=
  ensure CheckCallerIsSystemApp or [] ;;
  deref simManager := simManager_ or [] ;;
  sim simManager (ISimManager.GetSimEons slotId plmn lac longNameRequired).
Definition GetSimAccountInfo (slotId : Z) (info : IccAccountInfo) : SimM (Z * IccAccountInfo) :=
  granted ← CheckPermission Permission.GET_TELEPHONY_STATE;
  let denied := if negb granted then true else false in
  deref simManager := simManager_ or (TELEPHONY_ERR_LOCAL_PTR_NULL, info) ;;
  ensure IsMultiSimsCapabilitySupported slotId or (TELEPHONY_ERR_SLOTID_INVALID, info) ;;
  sim simManager (ISimManager.GetSimAccountInfo slotId denied info).
Definition SetDefaultVoiceSlotId (slotId : Z) : SimM Z :=
  ensure CheckCallerIsSystemApp or TELEPHONY_ERR_ILLEGAL_USE_OF_SYSTEM_API ;;
  ensure CheckPermission Permission.SET_TELEPHONY_STATE or TELEPHONY_ERR_PERMISSION_ERR ;;
  deref simManager := simManager_ or TELEPHONY_ERR_LOCAL_PTR_NULL ;;
  ensure IsMultiSimsCapabilitySupported slotId or TELEPHONY_ERR_SLOTID_INVALID ;;
  sim simManager (ISimManager.SetDefaultVoiceSlotId slotId).
Definition GetDefaultVoiceSlotId : SimM Z :=
  deref simManager := simManager_ or TELEPHONY_ERROR ;;
  slotId ← sim simManager ISimManager.GetDefaultVoiceSlotId;
  require slotId =? MultiSimsCapabilityMgr.SLOT_3_INDEX or slotId ;;
  ensure IsMultiSimsCapabilitySupported slotId or INVALID_VALUE ;;
  sim simManager (ISimManager.GetRadioProtocolSlotIdByModemId 0).
Definition GetDefaultVoiceSimId (callback : option remote) : SimM Z :=
  deref simManager := simManager_ or TELEPHONY_ERR_LOCAL_PTR_NULL ;;
  nonnull callback := callback or TELEPHONY_ERR_LOCAL_PTR_NULL ;;
  AsyncSimGeneralExecute (MkTask ('(ret, simId) ← sim_if_alive simManager (ISimManager.GetDefaultVoiceSimId 0) (TELEPHONY_ERR_IPC_CONNECT_STUB_FAIL, 0);
    mret (write_answer ret [WriteInt32 simId])) callback) ;;
  mret TELEPHONY_ERR_SUCCESS.
Definition SetPrimarySlotId (slotId : Z) : SimM Z :=
  ensure CheckCallerIsSystemApp or TELEPHONY_ERR_ILLEGAL_USE_OF_SYSTEM_API ;;
  ensure CheckPermission Permission.SET_TELEPHONY_STATE or TELEPHONY_ERR_PERMISSION_ERR ;;
  deref simManager := simManager_ or TELEPHONY_ERR_LOCAL_PTR_NULL ;;
  ensure IsMultiSimsCapabilitySupported slotId or TELEPHONY_ERR_SLOTID_INVALID ;;
  '(_, hasSim) ← sim simManager (ISimManager.HasSimCard slotId false);
  require hasSim or TELEPHONY_ERR_NO_SIM_CARD ;;
  ensure sim simManager (ISimManager.IsSimActive slotId) or TELEPHONY_ERR_SLOTID_INVALID ;;
  call (modifies (SetParameter USER_PREFER_PRIMARY_SLOT (str "true"))) ;;
  sim simManager (ISimManager.SetPrimarySlotId slotId true).
Definition GetPrimarySlotId (slotId : Z) : SimM (Z * Z) :=
  deref simManager := simManager_ or (TELEPHONY_ERR_LOCAL_PTR_NULL, slotId) ;;
  '(ret, slotId) ← sim simManager (ISimManager.GetPrimarySlotId slotId);
  ensure IsMultiSimsCapabilitySupported slotId or (TELEPHONY_ERR_SLOTID_INVALID, slotId) ;;
  mret (ret, slotId).
Definition SetShowNumber (slotId : Z) (number : u16string) (callback : option remote) : SimM Z :=
  ensure CheckCallerIsSystemApp or TELEPHONY_ERR_ILLEGAL_USE_OF_SYSTEM_API ;;
  ensure CheckPermission Permission.SET_TELEPHONY_STATE or TELEPHONY_ERR_PERMISSION_ERR ;;
  deref simManager := simManager_ or TELEPHONY_ERR_LOCAL_PTR_NULL ;;
  nonnull callback := callback or TELEPHONY_ERR_LOCAL_PTR_NULL ;;
  ensure IsMultiSimsCapabilitySupported slotId or TELEPHONY_ERR_SLOTID_INVALID ;;
  AsyncSimGeneralExecute (MkTask (ret ← sim_if_alive simManager (ISimManager.SetShowNumber slotId number) TELEPHONY_ERR_IPC_CONNECT_STUB_FAIL;
    mret (puts [WriteInt32 ret])) callback) ;;
  mret TELEPHONY_ERR_SUCCESS.
Definition GetShowNumber (slotId : Z) (callback : option remote) : SimM Z :=
  ensure CheckCallerIsSystemApp or TELEPHONY_ERR_ILLEGAL_USE_OF_SYSTEM_API ;;
  ensure CheckPermission Permission.GET_TELEPHONY_STATE or TELEPHONY_ERR_PERMISSION_ERR ;;
  deref simManager := simManager_ or TELEPHONY_ERR_LOCAL_PTR_NULL ;;
  nonnull callback := callback or TELEPHONY_ERR_LOCAL_PTR_NULL ;;
  ensure IsMultiSimsCapabilitySupported slotId or TELEPHONY_ERR_SLOTID_INVALID ;;
  AsyncSimGeneralExecute (MkTask ('(ret, showNumber) ← sim_if_alive simManager (ISimManager.GetShowNumber slotId []) (TELEPHONY_ERR_IPC_CONNECT_STUB_FAIL, []);
    mret (write_answer ret [WriteString16 showNumber])) callback) ;;
  mret TELEPHONY_ERR_SUCCESS.
Definition SetShowName (slotId : Z) (name : u16string) (callback : option remote) : SimM Z :=
  ensure CheckCallerIsSystemApp or TELEPHONY_ERR_ILLEGAL_USE_OF_SYSTEM_API ;;
  ensure CheckPermission Permission.SET_TELEPHONY_STATE or TELEPHONY_ERR_PERMISSION_ERR ;;
  deref simManager := simManager_ or TELEPHONY_ERR_LOCAL_PTR_NULL ;;
  nonnull callback := callback or TELEPHONY_ERR_LOCAL_PTR_NULL ;;
  ensure IsMultiSimsCapabilitySupported slotId or TELEPHONY_ERR_SLOTID_INVALID ;;
  AsyncSimGeneralExecute (MkTask (ret ← sim_if_alive simManager (ISimManager.SetShowName slotId name) TELEPHONY_ERR_IPC_CONNECT_STUB_FAIL;
    mret (puts [WriteInt32 ret])) callback) ;;
  mret TELEPHONY_ERR_SUCCESS.
Definition GetShowName (slotId : Z) (callback : option remote) : SimM Z :=
  ensure CheckCallerIsSystemApp or TELEPHONY_ERR_ILLEGAL_USE_OF_SYSTEM_API ;;
  ensure CheckPermission Permission.GET_TELEPHONY_STATE or TELEPHONY_ERR_PERMISSION_ERR ;;
  deref simManager := simManager_ or TELEPHONY_ERR_LOCAL_PTR_NULL ;;
  nonnull callback := callback or TELEPHONY_ERR_LOCAL_PTR_NULL ;;
  ensure IsMultiSimsCapabilitySupported slotId or TELEPHONY_ERR_SLOTID_INVALID ;;
  AsyncSimGeneralExecute (MkTask ('(ret, showName) ← sim_if_alive simManager (ISimManager.GetShowName slotId []) (TELEPHONY_ERR_IPC_CONNECT_STUB_FAIL, []);
    mret (write_answer ret [WriteString16 showName])) callback) ;;
  mret TELEPHONY_ERR_SUCCESS.
Definition GetActiveSimAccountInfoList (iccAccountInfoList : list IccAccountInfo) : SimM (Z * list IccAccountInfo) :=
  granted ← CheckPermission Permission.GET_TELEPHONY_STATE;
  let denied := if negb granted then true else false in
  deref simManager := simManager_ or (TELEPHONY_ERR_LOCAL_PTR_NULL, iccAccountInfoList) ;;
  '(ret, iccAccountInfoList) ← sim simManager (ISimManager.GetActiveSimAccountInfoList denied iccAccountInfoList);
  iccAccountInfoList ← erase_unsupported iccAccountInfoList;
  mret (ret, iccAccountInfoList).
Definition GetOperatorConfigs (slotId : Z) (poc : OperatorConfig) : SimM (Z * OperatorConfig) :=
  ensure CheckCallerIsSystemApp or (TELEPHONY_ERR_ILLEGAL_USE_OF_SYSTEM_API, poc) ;;
  ensure CheckPermission Permission.GET_TELEPHONY_STATE or (TELEPHONY_ERR_PERMISSION_ERR, poc) ;;
  deref simManager := simManager_ or (TELEPHONY_ERR_LOCAL_PTR_NULL, poc) ;;
  ensure IsMultiSimsCapabilitySupported slotId or (TELEPHONY_ERR_SLOTID_INVALID, poc) ;;
  sim simManager (ISimManager.GetOperatorConfigs slotId poc).
Definition UnlockPin (slotId : Z) (pin : u16string) (callback : option remote) : SimM Z :=
  ensure CheckCallerIsSystemApp or TELEPHONY_ERR_ILLEGAL_USE_OF_SYSTEM_API ;;
  ensure CheckPermission Permission.SET_TELEPHONY_STATE or TELEPHONY_ERR_PERMISSION_ERR ;;
  deref simManager := simManager_ or TELEPHONY_ERR_LOCAL_PTR_NULL ;;
  nonnull callback := callback or TELEPHONY_ERR_LOCAL_PTR_NULL ;;
  ensure IsMultiSimsCapabilitySupported slotId or TELEPHONY_ERR_SLOTID_INVALID ;;
  AsyncSimPinExecute (MkTask ('(ret, response) ← sim_if_alive simManager (ISimManager.UnlockPin slotId (Str16ToStr8 pin) (MkLockStatus UNLOCK_FAIL TELEPHONY_ERROR)) (TELEPHONY_ERR_IPC_CONNECT_STUB_FAIL, (MkLockStatus UNLOCK_FAIL TELEPHONY_ERROR));
    mret (write_answer ret [WriteInt32 (lock_result response); WriteInt32 (lock_remain response)])) callback) ;;
  mret TELEPHONY_ERR_SUCCESS.
Definition UnlockPuk (slotId : Z) (newPin puk : u16string) (callback : option remote) : SimM Z :=
  ensure CheckCallerIsSystemApp or TELEPHONY_ERR_ILLEGAL_USE_OF_SYSTEM_API ;;
  ensure CheckPermission Permission.SET_TELEPHONY_STATE or TELEPHONY_ERR_PERMISSION_ERR ;;
  deref simManager := simManager_ or TELEPHONY_ERR_LOCAL_PTR_NULL ;;
  nonnull callback := callback or TELEPHONY_ERR_LOCAL_PTR_NULL ;;
  ensure IsMultiSimsCapabilitySupported slotId or TELEPHONY_ERR_SLOTID_INVALID ;;
  AsyncSimPinExecute (MkTask ('(ret, response) ← sim_if_alive simManager (ISimManager.UnlockPuk slotId (Str16ToStr8 newPin) (Str16ToStr8 puk) (MkLockStatus UNLOCK_FAIL TELEPHONY_ERROR)) (TELEPHONY_ERR_IPC_CONNECT_STUB_FAIL, (MkLockStatus UNLOCK_FAIL TELEPHONY_ERROR));
    mret (write_answer ret [WriteInt32 (lock_result response); WriteInt32 (lock_remain response)])) callback) ;;
  mret TELEPHONY_ERR_SUCCESS.
Definition AlterPin (slotId : Z) (newPin oldPin : u16string) (callback : option remote) : SimM Z :=
  ensure CheckCallerIsSystemApp or TELEPHONY_ERR_ILLEGAL_USE_OF_SYSTEM_API ;;
  ensure CheckPermission Permission.SET_TELEPHONY_STATE or TELEPHONY_ERR_PERMISSION_ERR ;;
  deref simManager := simManager_ or TELEPHONY_ERR_LOCAL_PTR_NULL ;;
  nonnull callback := callback or TELEPHONY_ERR_LOCAL_PTR_NULL ;;
  ensure IsMultiSimsCapabilitySupported slotId or TELEPHONY_ERR_SLOTID_INVALID ;;
  AsyncSimPinExecute (MkTask ('(ret, response) ← sim_if_alive simManager (ISimManager.AlterPin slotId (Str16ToStr8 newPin) (Str16ToStr8 oldPin) (MkLockStatus UNLOCK_FAIL TELEPHONY_ERROR)) (TELEPHONY_ERR_IPC_CONNECT_STUB_FAIL, (MkLockStatus UNLOCK_FAIL TELEPHONY_ERROR));
    mret (write_answer ret [WriteInt32 (lock_result response); WriteInt32 (lock_remain response)])) callback) ;;
  mret TELEPHONY_ERR_SUCCESS.
Definition UnlockPin2 (slotId : Z) (pin2 : u16string) (callback : option remote) : SimM Z :=
  ensure CheckCallerIsSystemApp or TELEPHONY_ERR_ILLEGAL_USE_OF_SYSTEM_API ;;
  ensure CheckPermission Permission.SET_TELEPHONY_STATE or TELEPHONY_ERR_PERMISSION_ERR ;;
  deref simManager := simManager_ or TELEPHONY_ERR_LOCAL_PTR_NULL ;;
  nonnull callback := callback or TELEPHONY_ERR_LOCAL_PTR_NULL ;;
  ensure IsMultiSimsCapabilitySupported slotId or TELEPHONY_ERR_SLOTID_INVALID ;;
  AsyncSimPinExecute (MkTask ('(ret, response) ← sim_if_alive simManager (ISimManager.UnlockPin2 slotId (Str16ToStr8 pin2) (MkLockStatus UNLOCK_FAIL TELEPHONY_ERROR)) (TELEPHONY_ERR_IPC_CONNECT_STUB_FAIL, (MkLockStatus UNLOCK_FAIL TELEPHONY_ERROR));
    mret (write_answer ret [WriteInt32 (lock_result response); WriteInt32 (lock_remain response)])) callback) ;;
  mret TELEPHONY_ERR_SUCCESS.
Definition UnlockPuk2 (slotId : Z) (newPin2 puk2 : u16string) (callback : option remote) : SimM Z :=
  ensure CheckCallerIsSystemApp or TELEPHONY_ERR_ILLEGAL_USE_OF_SYSTEM_API ;;
  ensure CheckPermission Permission.SET_TELEPHONY_STATE or TELEPHONY_ERR_PERMISSION_ERR ;;
  deref simManager := simManager_ or TELEPHONY_ERR_LOCAL_PTR_NULL ;;
  nonnull callback := callback or TELEPHONY_ERR_LOCAL_PTR_NULL ;;
  ensure IsMultiSimsCapabilitySupported slotId or TELEPHONY_ERR_SLOTID_INVALID ;;
  AsyncSimPinExecute (MkTask ('(ret, response) ← sim_if_alive simManager (ISimManager.UnlockPuk2 slotId (Str16ToStr8 newPin2) (Str16ToStr8 puk2) (MkLockStatus UNLOCK_FAIL TELEPHONY_ERROR)) (TELEPHONY_ERR_IPC_CONNECT_STUB_FAIL, (MkLockStatus UNLOCK_FAIL TELEPHONY_ERROR));
    mret (write_answer ret [WriteInt32 (lock_result response); WriteInt32 (lock_remain response)])) callback) ;;
  mret TELEPHONY_ERR_SUCCESS.
Definition AlterPin2 (slotId : Z) (newPin2 oldPin2 : u16string) (callback : option remote) : SimM Z :=
  ensure CheckCallerIsSystemApp or TELEPHONY_ERR_ILLEGAL_USE_OF_SYSTEM_API ;;
  ensure CheckPermission Permission.SET_TELEPHONY_STATE or TELEPHONY_ERR_PERMISSION_ERR ;;
  deref simManager := simManager_ or TELEPHONY_ERR_LOCAL_PTR_NULL ;;
  nonnull callback := callback or TELEPHONY_ERR_LOCAL_PTR_NULL ;;
  ensure IsMultiSimsCapabilitySupported slotId or TELEPHONY_ERR_SLOTID_INVALID ;;
  AsyncSimPinExecute (MkTask ('(ret, response) ← sim_if_alive simManager (ISimManager.AlterPin2 slotId (Str16ToStr8 newPin2) (Str16ToStr8 oldPin2) (MkLockStatus UNLOCK_FAIL TELEPHONY_ERROR)) (TELEPHONY_ERR_IPC_CONNECT_STUB_FAIL, (MkLockStatus UNLOCK_FAIL TELEPHONY_ERROR));
    mret (write_answer ret [WriteInt32 (lock_result response); WriteInt32 (lock_remain response)])) callback) ;;
  mret TELEPHONY_ERR_SUCCESS.
Definition SetLockState (slotId : Z) (options : LockInfo) (callback : option remote) : SimM Z :=
  ensure CheckCallerIsSystemApp or TELEPHONY_ERR_ILLEGAL_USE_OF_SYSTEM_API ;;
  ensure CheckPermission Permission.SET_TELEPHONY_STATE or TELEPHONY_ERR_PERMISSION_ERR ;;
  deref simManager := simManager_ or TELEPHONY_ERR_LOCAL_PTR_NULL ;;
  nonnull callback := callback or TELEPHONY_ERR_LOCAL_PTR_NULL ;;
  ensure IsMultiSimsCapabilitySupported slotId or TELEPHONY_ERR_SLOTID_INVALID ;;
  AsyncSimGeneralExecute (MkTask ('(ret, response) ← sim_if_alive simManager (ISimManager.SetLockState slotId options (MkLockStatus UNLOCK_FAIL TELEPHONY_ERROR)) (TELEPHONY_ERR_IPC_CONNECT_STUB_FAIL, (MkLockStatus UNLOCK_FAIL TELEPHONY_ERROR));
    mret (write_answer ret [WriteInt32 (lock_result response); WriteInt32 (lock_remain response)])) callback) ;;
  mret TELEPHONY_ERR_SUCCESS.
Definition GetLockState (slotId lockType : Z) (callback : option remote) : SimM Z :=
  ensure CheckCallerIsSystemApp or TELEPHONY_ERR_ILLEGAL_USE_OF_SYSTEM_API ;;
  ensure CheckPermission Permission.GET_TELEPHONY_STATE or TELEPHONY_ERR_PERMISSION_ERR ;;
  deref simManager := simManager_ or TELEPHONY_ERR_LOCAL_PTR_NULL ;;
  nonnull callback := callback or TELEPHONY_ERR_LOCAL_PTR_NULL ;;
  ensure IsMultiSimsCapabilitySupported slotId or TELEPHONY_ERR_SLOTID_INVALID ;;
  AsyncSimGeneralExecute (MkTask ('(ret, lockState) ← sim_if_alive simManager (ISimManager.GetLockState slotId lockType LOCK_ERROR) (TELEPHONY_ERR_IPC_CONNECT_STUB_FAIL, LOCK_ERROR);
    mret (write_answer ret [WriteInt32 lockState])) callback) ;;
  mret TELEPHONY_ERR_SUCCESS.
Definition RefreshSimState (slotId : Z) : SimM Z :=
  ensure CheckCallerIsSystemApp or TELEPHONY_ERR_ILLEGAL_USE_OF_SYSTEM_API ;;
  deref simManager := simManager_ or TELEPHONY_ERROR ;;
  sim simManager (ISimManager.RefreshSimState slotId).
Definition SetActiveSim (slotId enable : Z) : SimM Z :=
  ensure CheckCallerIsSystemApp or TELEPHONY_ERR_ILLEGAL_USE_OF_SYSTEM_API ;;
  ensure CheckPermission Permission.SET_TELEPHONY_STATE or TELEPHONY_ERR_PERMISSION_ERR ;;
  deref simManager := simManager_ or TELEPHONY_ERR_LOCAL_PTR_NULL ;;
  ensure IsMultiSimsCapabilitySupported slotId or TELEPHONY_ERR_SLOTID_INVALID ;;
  call (modifies (SetParameter USER_PREFER_PRIMARY_SLOT (str "true"))) ;;
  sim simManager (ISimManager.SetActiveSim slotId enable).
Definition SetActiveSimSatellite (slotId enable : Z) : SimM Z :=
  ensure CheckCallerIsSystemApp or TELEPHONY_ERR_ILLEGAL_USE_OF_SYSTEM_API ;;
  ensure CheckPermission Permission.SET_TELEPHONY_STATE or TELEPHONY_ERR_PERMISSION_ERR ;;
  deref simManager := simManager_ or TELEPHONY_ERR_LOCAL_PTR_NULL ;;
  sim simManager (ISimManager.SetActiveSimSatellite slotId enable).
Definition GetSimTelephoneNumber (slotId : Z) (telephoneNumber : u16string) : SimM (Z * u16string) :=
  ensure CheckCallerIsSystemApp or (TELEPHONY_ERR_ILLEGAL_USE_OF_SYSTEM_API, telephoneNumber) ;;
  state ← CheckPermission Permission.GET_TELEPHONY_STATE;
  granted ← (if negb state then CheckPermission Permission.GET_PHONE_NUMBERS else mret true);
  require granted or (TELEPHONY_ERR_PERMISSION_ERR, telephoneNumber) ;;
  deref simManager := simManager_ or (TELEPHONY_ERR_LOCAL_PTR_NULL, telephoneNumber) ;;
  ensure IsMultiSimsCapabilitySupported slotId or (TELEPHONY_ERR_SLOTID_INVALID, telephoneNumber) ;;
  sim simManager (ISimManager.GetSimTelephoneNumber slotId telephoneNumber).
Definition GetSimTeleNumberIdentifier (slotId : Z) : SimM u16string :=
  ensure CheckPermission Permission.GET_TELEPHONY_STATE or [] ;;
  deref simManager := simManager_ or [] ;;
  sim simManager (ISimManager.GetSimTeleNumberIdentifier slotId).
Definition GetVoiceMailIdentifier (slotId : Z) (voiceMailIdentifier : u16string) : SimM (Z * u16string) :=
  ensure CheckCallerIsSystemApp or (TELEPHONY_ERR_ILLEGAL_USE_OF_SYSTEM_API, voiceMailIdentifier) ;;
  ensure CheckPermission Permission.GET_TELEPHONY_STATE or (TELEPHONY_ERR_PERMISSION_ERR, voiceMailIdentifier) ;;
  deref simManager := simManager_ or (TELEPHONY_ERR_LOCAL_PTR_NULL, voiceMailIdentifier) ;;
  ensure IsMultiSimsCapabilitySupported slotId or (TELEPHONY_ERR_SLOTID_INVALID, voiceMailIdentifier) ;;
  sim simManager (ISimManager.GetVoiceMailIdentifier slotId voiceMailIdentifier).
Definition GetVoiceMailNumber (slotId : Z) (voiceMailNumber : u16string) : SimM (Z * u16string) :=
  ensure CheckCallerIsSystemApp or (TELEPHONY_ERR_ILLEGAL_USE_OF_SYSTEM_API, voiceMailNumber) ;;
  ensure CheckPermission Permission.GET_TELEPHONY_STATE or (TELEPHONY_ERR_PERMISSION_ERR, voiceMailNumber) ;;
  deref simManager := simManager_ or (TELEPHONY_ERR_LOCAL_PTR_NULL, voiceMailNumber) ;;
  ensure IsMultiSimsCapabilitySupported slotId or (TELEPHONY_ERR_SLOTID_INVALID, voiceMailNumber) ;;
  sim simManager (ISimManager.GetVoiceMailNumber slotId voiceMailNumber).
Definition GetVoiceMailCount (slotId voiceMailCount : Z) : SimM (Z * Z) :=
  ensure CheckCallerIsSystemApp or (TELEPHONY_ERR_ILLEGAL_USE_OF_SYSTEM_API, voiceMailCount) ;;
  ensure CheckPermission Permission.GET_TELEPHONY_STATE or (TELEPHONY_ERR_PERMISSION_ERR, voiceMailCount) ;;
  deref simManager := simManager_ or (TELEPHONY_ERR_LOCAL_PTR_NULL, voiceMailCount) ;;
  ensure IsMultiSimsCapabilitySupported slotId or (TELEPHONY_ERR_SLOTID_INVALID, voiceMailCount) ;;
  sim simManager (ISimManager.GetVoiceMailCount slotId voiceMailCount).
Definition SetVoiceMailCount (slotId voiceMailCount : Z) : SimM Z :=
  ensure CheckPermission Permission.SET_TELEPHONY_STATE or TELEPHONY_ERR_PERMISSION_ERR ;;
  deref simManager := simManager_ or TELEPHONY_ERR_LOCAL_PTR_NULL ;;
  sim simManager (ISimManager.SetVoiceMailCount slotId voiceMailCount).
Definition SetVoiceCallForwarding (slotId : Z) (enable : bool) (number : cstring) : SimM Z :=
  ensure CheckPermission Permission.SET_TELEPHONY_STATE or TELEPHONY_ERR_PERMISSION_ERR ;;
  deref simManager := simManager_ or TELEPHONY_ERR_LOCAL_PTR_NULL ;;
  sim simManager (ISimManager.SetVoiceCallForwarding slotId enable number).
Definition QueryIccDiallingNumbers (slotId type : Z) (reslut : list DiallingNumbersInfo) : SimM (Z * list DiallingNumbersInfo) :=
  ensure CheckCallerIsSystemApp or (TELEPHONY_ERR_ILLEGAL_USE_OF_SYSTEM_API, reslut) ;;
  ensure CheckPermission Permission.READ_CONTACTS or (TELEPHONY_ERR_PERMISSION_ERR, reslut) ;;
  deref simManager := simManager_ or (TELEPHONY_ERR_LOCAL_PTR_NULL, reslut) ;;
  ensure IsMultiSimsCapabilitySupported slotId or (TELEPHONY_ERR_SLOTID_INVALID, reslut) ;;
  sim simManager (ISimManager.QueryIccDiallingNumbers slotId type reslut).
Definition AddIccDiallingNumbers (slotId type : Z) (diallingNumber : option DiallingNumbersInfo) : SimM Z :=
  ensure CheckCallerIsSystemApp or TELEPHONY_ERR_ILLEGAL_USE_OF_SYSTEM_API ;;
  ensure CheckPermission Permission.WRITE_CONTACTS or TELEPHONY_ERR_PERMISSION_ERR ;;
  deref simManager := simManager_ or TELEPHONY_ERR_LOCAL_PTR_NULL ;;
  ensure IsMultiSimsCapabilitySupported slotId or TELEPHONY_ERR_SLOTID_INVALID ;;
  sim simManager (ISimManager.AddIccDiallingNumbers slotId type diallingNumber).
Definition DelIccDiallingNumbers (slotId type : Z) (diallingNumber : option DiallingNumbersInfo) : SimM Z :=
  ensure CheckCallerIsSystemApp or TELEPHONY_ERR_ILLEGAL_USE_OF_SYSTEM_API ;;
  ensure CheckPermission Permission.WRITE_CONTACTS or TELEPHONY_ERR_PERMISSION_ERR ;;
  deref simManager := simManager_ or TELEPHONY_ERR_LOCAL_PTR_NULL ;;
  ensure IsMultiSimsCapabilitySupported slotId or TELEPHONY_ERR_SLOTID_INVALID ;;
  sim simManager (ISimManager.DelIccDiallingNumbers slotId type diallingNumber).
Definition UpdateIccDiallingNumbers (slotId type : Z) (diallingNumber : option DiallingNumbersInfo) : SimM Z :=
  ensure CheckCallerIsSystemApp or TELEPHONY_ERR_ILLEGAL_USE_OF_SYSTEM_API ;;
  ensure CheckPermission Permission.WRITE_CONTACTS or TELEPHONY_ERR_PERMISSION_ERR ;;
  deref simManager := simManager_ or TELEPHONY_ERR_LOCAL_PTR_NULL ;;
  ensure IsMultiSimsCapabilitySupported slotId or TELEPHONY_ERR_SLOTID_INVALID ;;
  sim simManager (ISimManager.UpdateIccDiallingNumbers slotId type diallingNumber).
Definition SetVoiceMailInfo (slotId : Z) (mailName mailNumber : u16string) : SimM Z :=
  ensure CheckCallerIsSystemApp or TELEPHONY_ERR_ILLEGAL_USE_OF_SYSTEM_API ;;
  ensure CheckPermission Permission.SET_TELEPHONY_STATE or TELEPHONY_ERR_PERMISSION_ERR ;;
  deref simManager := simManager_ or TELEPHONY_ERR_LOCAL_PTR_NULL ;;
  ensure IsMultiSimsCapabilitySupported slotId or TELEPHONY_ERR_SLOTID_INVALID ;;
  sim simManager (ISimManager.SetVoiceMailInfo slotId mailName mailNumber).
Definition GetOpKey (slotId : Z) (opkey : u16string) : SimM (Z * u16string) :=
  deref simManager := simManager_ or (TELEPHONY_ERR_LOCAL_PTR_NULL, opkey) ;;
  ensure IsMultiSimsCapabilitySupported slotId or (TELEPHONY_ERR_SLOTID_INVALID, opkey) ;;
  sim simManager (ISimManager.GetOpKey slotId opkey).
Definition GetOpKeyExt (slotId : Z) (opkeyExt : u16string) : SimM (Z * u16string) :=
  deref simManager := simManager_ or (TELEPHONY_ERR_LOCAL_PTR_NULL, opkeyExt) ;;
  sim simManager (ISimManager.GetOpKeyExt slotId opkeyExt).
Definition GetOpName (slotId : Z) (opname : u16string) : SimM (Z * u16string) :=
  deref simManager := simManager_ or (TELEPHONY_ERR_LOCAL_PTR_NULL, opname) ;;
  ensure IsMultiSimsCapabilitySupported slotId or (TELEPHONY_ERR_SLOTID_INVALID, opname) ;;
  sim simManager (ISimManager.GetOpName slotId opname).
Definition SendEnvelopeCmd (slotId : Z) (cmd : cstring) : SimM Z :=
  ensure CheckCallerIsSystemApp or TELEPHONY_ERR_ILLEGAL_USE_OF_SYSTEM_API ;;
  deref simManager := simManager_ or TELEPHONY_ERR_LOCAL_PTR_NULL ;;
  ensure CheckPermission Permission.SET_TELEPHONY_STATE or TELEPHONY_ERR_PERMISSION_ERR ;;
  ensure IsMultiSimsCapabilitySupported slotId or TELEPHONY_ERR_SLOTID_INVALID ;;
  sim simManager (ISimManager.SendEnvelopeCmd slotId cmd).
Definition SendTerminalResponseCmd (slotId : Z) (cmd : cstring) : SimM Z :=
  ensure CheckCallerIsSystemApp or TELEPHONY_ERR_ILLEGAL_USE_OF_SYSTEM_API ;;
  deref simManager := simManager_ or TELEPHONY_ERR_LOCAL_PTR_NULL ;;
  ensure CheckPermission Permission.SET_TELEPHONY_STATE or TELEPHONY_ERR_PERMISSION_ERR ;;
  ensure IsMultiSimsCapabilitySupported slotId or TELEPHONY_ERR_SLOTID_INVALID ;;
  sim simManager (ISimManager.SendTerminalResponseCmd slotId cmd).
Definition SendCallSetupRequestResult (slotId : Z) (accept : bool) : SimM Z :=
  ensure CheckCallerIsSystemApp or TELEPHONY_ERR_ILLEGAL_USE_OF_SYSTEM_API ;;
  deref simManager := simManager_ or TELEPHONY_ERR_LOCAL_PTR_NULL ;;
  ensure CheckPermission Permission.SET_TELEPHONY_STATE or TELEPHONY_ERR_PERMISSION_ERR ;;
  ensure IsMultiSimsCapabilitySupported slotId or TELEPHONY_ERR_SLOTID_INVALID ;;
  sim simManager (ISimManager.SendCallSetupRequestResult slotId accept).
Definition UnlockSimLock (slotId : Z) (lockInfo : PersoLockInfo) (response : LockStatusResponse) : SimM (Z * LockStatusResponse) :=
  ensure CheckCallerIsSystemApp or (TELEPHONY_ERR_ILLEGAL_USE_OF_SYSTEM_API, response) ;;
  ensure CheckPermission Permission.SET_TELEPHONY_STATE or (TELEPHONY_ERR_PERMISSION_ERR, response) ;;
  deref simManager := simManager_ or (TELEPHONY_ERR_LOCAL_PTR_NULL, response) ;;
  ensure IsMultiSimsCapabilitySupported slotId or (TELEPHONY_ERR_SLOTID_INVALID, response) ;;
  sim simManager (ISimManager.UnlockSimLock slotId lockInfo response).
Definition HasOperatorPrivileges (slotId : Z) (callback : option remote) : SimM Z :=
  deref simManager := simManager_ or TELEPHONY_ERR_LOCAL_PTR_NULL ;;
  nonnull callback := callback or TELEPHONY_ERR_LOCAL_PTR_NULL ;;
  ensure IsMultiSimsCapabilitySupported slotId or TELEPHONY_ERR_SLOTID_INVALID ;;
  AsyncSimGeneralExecute (MkTask ('(ret, hasOperatorPrivileges) ← sim_if_alive simManager (ISimManager.HasOperatorPrivileges slotId false) (TELEPHONY_ERR_IPC_CONNECT_STUB_FAIL, false);
    mret (write_answer ret [WriteBool hasOperatorPrivileges])) callback) ;;
  mret TELEPHONY_ERR_SUCCESS.
Definition SimAuthentication (slotId authType : Z) (authData : cstring) (response : SimAuthenticationResponse) : SimM (Z * SimAuthenticationResponse) :=
  ensure CheckPermission Permission.GET_TELEPHONY_STATE or (TELEPHONY_ERR_PERMISSION_ERR, response) ;;
  deref simManager := simManager_ or (TELEPHONY_ERR_LOCAL_PTR_NULL, response) ;;
  ensure IsMultiSimsCapabilitySupported slotId or (TELEPHONY_ERR_SLOTID_INVALID, response) ;;
  sim simManager (ISimManager.SimAuthentication slotId authType authData response).
Definition GetSimIO (slotId command fileId : Z) (data path : cstring) (response : SimAuthenticationResponse) : SimM (Z * SimAuthenticationResponse) :=
  ensure CheckPermission Permission.GET_TELEPHONY_STATE or (TELEPHONY_ERR_PERMISSION_ERR, response) ;;
  deref simManager := simManager_ or (TELEPHONY_ERR_LOCAL_PTR_NULL, response) ;;
  sim simManager (ISimManager.GetSimIO slotId command fileId data path response).
Definition GetAllSimAccountInfoList (iccAccountInfoList : list IccAccountInfo) : SimM (Z * list IccAccountInfo) :=
  granted ← CheckPermission Permission.GET_TELEPHONY_STATE;
  let denied := if negb granted then true else false in
  deref simManager := simManager_ or (TELEPHONY_ERR_LOCAL_PTR_NULL, iccAccountInfoList) ;;
  '(ret, iccAccountInfoList) ← sim simManager (ISimManager.GetAllSimAccountInfoList denied iccAccountInfoList);
  iccAccountInfoList ← erase_unsupported iccAccountInfoList;
  mret (ret, iccAccountInfoList).
Definition GetSimLabel (slotId : Z) (simLabel : SimLabel) (callback : remote) : SimM (Z * SimLabel) :=
  deref simManager := simManager_ or (TELEPHONY_ERR_LOCAL_PTR_NULL, simLabel) ;;
  ensure IsMultiSimsCapabilitySupported slotId or (TELEPHONY_ERR_SLOTID_INVALID, simLabel) ;;
  AsyncSimGeneralExecute (MkTask ('(ret, simLabel) ← sim_if_alive simManager (ISimManager.GetSimLabel slotId SimLabel_new) (TELEPHONY_ERR_IPC_CONNECT_STUB_FAIL, SimLabel_new);
    mret (write_answer ret [WriteInt32 (simType simLabel); WriteInt32 (label_index simLabel)])) callback) ;;
  mret (TELEPHONY_ERR_SUCCESS, simLabel).
Definition GetRealSimCount : SimM Z :=
  let realSlotCount := SIM_SLOT_COUNT_REAL in
  deref simManager := simManager_ or realSlotCount ;;
  sim simManager ISimManager.GetRealSimCount.
Definition SetSimLabelIndex (simId simLabelIndex : Z) (callback : option remote) : SimM Z :=
  ensure CheckCallerIsSystemApp or TELEPHONY_ERR_ILLEGAL_USE_OF_SYSTEM_API ;;
  ensure CheckPermission Permission.SET_TELEPHONY_STATE or TELEPHONY_ERR_PERMISSION_ERR ;;
  deref simManager := simManager_ or TELEPHONY_ERR_LOCAL_PTR_NULL ;;
  nonnull callback := callback or TELEPHONY_ERR_LOCAL_PTR_NULL ;;
  AsyncSimGeneralExecute (MkTask (ret ← sim_if_alive simManager (ISimManager.SetSimLabelIndex simId simLabelIndex) TELEPHONY_ERR_IPC_CONNECT_STUB_FAIL;
    mret (puts [WriteInt32 ret])) callback) ;;
  mret TELEPHONY_ERR_SUCCESS.
End Sim.
End CoreServiceSim.
Export CoreServiceSim (core_service_sim).

(** ** CoreService *)

Inductive ServiceRunningState : Type := STATE_NOT_START | STATE_RUNNING.
#[export] Instance ServiceRunningState_eq_dec : EqDecision ServiceRunningState.
Proof. solve_decision. Defined.

Module CoreService.
(** The members of the object, the object of the methods on the card, and the rest of the process. *)
Record core_service (P W : Type) : Type := MkCoreService {
  registerToService_ : bool;
  state_ : ServiceRunningState;
  bindTime_ : Z;
  endTime_ : Z;
  sim_manager : option pointer;
  network_search_manager : option pointer;
  esim_manager : option pointer;
  tel_ril_manager : option pointer;
  networkSearchManagerHandler_ : handler P W;
  simGeneralHandler_ : handler P W;
  simPinHandler_ : handler P W;
  coreServiceSim_ : core_service_sim P W;
  sys : system P W
}.
Arguments MkCoreService {P W}. Arguments registerToService_ {P W}. Arguments state_ {P W}. Arguments bindTime_ {P W}. Arguments endTime_ {P W}.
Arguments sim_manager {P W}. Arguments network_search_manager {P W}. Arguments esim_manager {P W}. Arguments tel_ril_manager {P W}.
Arguments networkSearchManagerHandler_ {P W}. Arguments simGeneralHandler_ {P W}. Arguments simPinHandler_ {P W}.
Arguments coreServiceSim_ {P W}. Arguments sys {P W}.

Section Setters.
Context {P W : Type}.
Implicit Types s : core_service P W.
Definition set_register v s := MkCoreService v (state_ s) (bindTime_ s) (endTime_ s) (sim_manager s) (network_search_manager s) (esim_manager s) (tel_ril_manager s) (networkSearchManagerHandler_ s) (simGeneralHandler_ s) (simPinHandler_ s) (coreServiceSim_ s) (sys s).
Definition set_state v s := MkCoreService (registerToService_ s) v (bindTime_ s) (endTime_ s) (sim_manager s) (network_search_manager s) (esim_manager s) (tel_ril_manager s) (networkSearchManagerHandler_ s) (simGeneralHandler_ s) (simPinHandler_ s) (coreServiceSim_ s) (sys s).
Definition set_bindTime v s := MkCoreService (registerToService_ s) (state_ s) v (endTime_ s) (sim_manager s) (network_search_manager s) (esim_manager s) (tel_ril_manager s) (networkSearchManagerHandler_ s) (simGeneralHandler_ s) (simPinHandler_ s) (coreServiceSim_ s) (sys s).
Definition set_endTime v s := MkCoreService (registerToService_ s) (state_ s) (bindTime_ s) v (sim_manager s) (network_search_manager s) (esim_manager s) (tel_ril_manager s) (networkSearchManagerHandler_ s) (simGeneralHandler_ s) (simPinHandler_ s) (coreServiceSim_ s) (sys s).
Definition set_sim v s := MkCoreService (registerToService_ s) (state_ s) (bindTime_ s) (endTime_ s) v (network_search_manager s) (esim_manager s) (tel_ril_manager s) (networkSearchManagerHandler_ s) (simGeneralHandler_ s) (simPinHandler_ s) (coreServiceSim_ s) (sys s).
Definition set_network v s := MkCoreService (registerToService_ s) (state_ s) (bindTime_ s) (endTime_ s) (sim_manager s) v (esim_manager s) (tel_ril_manager s) (networkSearchManagerHandler_ s) (simGeneralHandler_ s) (simPinHandler_ s) (coreServiceSim_ s) (sys s).
Definition set_esim v s := MkCoreService (registerToService_ s) (state_ s) (bindTime_ s) (endTime_ s) (sim_manager s) (network_search_manager s) v (tel_ril_manager s) (networkSearchManagerHandler_ s) (simGeneralHandler_ s) (simPinHandler_ s) (coreServiceSim_ s) (sys s).
Definition set_telRil v s := MkCoreService (registerToService_ s) (state_ s) (bindTime_ s) (endTime_ s) (sim_manager s) (network_search_manager s) (esim_manager s) v (networkSearchManagerHandler_ s) (simGeneralHandler_ s) (simPinHandler_ s) (coreServiceSim_ s) (sys s).
Definition set_handlers n g p s := MkCoreService (registerToService_ s) (state_ s) (bindTime_ s) (endTime_ s) (sim_manager s) (network_search_manager s) (esim_manager s) (tel_ril_manager s) n g p (coreServiceSim_ s) (sys s).
Definition set_inner o y s := MkCoreService (registerToService_ s) (state_ s) (bindTime_ s) (endTime_ s) (sim_manager s) (network_search_manager s) (esim_manager s) (tel_ril_manager s) (networkSearchManagerHandler_ s) (simGeneralHandler_ s) (simPinHandler_ s) o y.
End Setters.

Section Service.
Context {P W : Type} `{ParcelOps P} `{ErrorCodes} `{StringEx} `{AccessToken W} `{!Managers W}.
Definition CS : Type -> Type := stateful (core_service P W).

(** The constructor. *)
Definition CoreService_new (w : W) : core_service P W :=
  MkCoreService false STATE_NOT_START 0 0 None None None None None None None CoreServiceSim.CoreServiceSim_new (MkSystem w []).

Definition simManager_ : CS (option pointer) := gets sim_manager.
Definition networkSearchManager_ : CS (option pointer) := gets network_search_manager.
Definition esimManager_ : CS (option pointer) := gets esim_manager.
Definition GetServiceRunningState : CS Z := gets (fun s => match state_ s with STATE_NOT_START => 0 | STATE_RUNNING => 1 end).
Definition GetBindTime : CS Z := gets bindTime_.
Definition GetEndTime : CS Z := gets endTime_.
Definition GetSpendTime : CS Z := gets (fun s => endTime_ s - bindTime_ s).

Definition AsyncNetSearchExecute (t : task P W) : CS unit :=
  modifies (fun s => set_handlers (PostTask t (networkSearchManagerHandler_ s)) (simGeneralHandler_ s) (simPinHandler_ s) s).
Definition AsyncSimGeneralExecute (t : task P W) : CS unit :=
  modifies (fun s => set_handlers (networkSearchManagerHandler_ s) (PostTask t (simGeneralHandler_ s)) (simPinHandler_ s) s).
Definition AsyncSimPinExecute (t : task P W) : CS unit :=
  modifies (fun s => set_handlers (networkSearchManagerHandler_ s) (simGeneralHandler_ s) (PostTask t (simPinHandler_ s)) s).

(** Calls that leave this object. *)
Definition on_system {A} (m : stateful (system P W) A) : CS A := fun s => let '(a, y) := m (sys s) in (a, set_inner (coreServiceSim_ s) y s).
Definition call {A} (m : stateful W A) : CS A := on_system (on_managers m).
Definition network {R} (p : pointer) (c : networkE R) : CS R := call (network_call R c p).
Definition esim {R} (p : pointer) (c : esimE R) : CS R := call (esim_call R c p).
Definition coreServiceSim {A} (m : CoreServiceSim.SimM (P := P) (W := W) A) : CS A :=
  fun s => let '(a, (o, y)) := m (coreServiceSim_ s, sys s) in (a, set_inner o y s).
Definition CheckPermission (permissionName : cstring) : CS bool := call (TelephonyPermission.CheckPermission permissionName).
Definition CheckCallerIsSystemApp : CS bool := call TelephonyPermission.CheckCallerIsSystemApp.
Definition network_if_alive {R} (wp : pointer) (c : networkE R) (r : R) : stateful W R :=
  fun w => if alive wp w then network_call R c wp w else (r, w).

Definition GetPsRadioTech (slotId psRadioTech : Z) : CS (Z * Z) :=
  ensure CheckPermission Permission.GET_NETWORK_INFO or (TELEPHONY_ERR_PERMISSION_ERR, psRadioTech) ;;
  deref networkSearchManager := networkSearchManager_ or (TELEPHONY_ERR_LOCAL_PTR_NULL, psRadioTech) ;;
  network networkSearchManager (INetworkSearch.GetPsRadioTech slotId psRadioTech).
Definition GetCsRadioTech (slotId csRadioTech : Z) : CS (Z * Z) :=
  ensure CheckPermission Permission.GET_NETWORK_INFO or (TELEPHONY_ERR_PERMISSION_ERR, csRadioTech) ;;
  deref networkSearchManager := networkSearchManager_ or (TELEPHONY_ERR_LOCAL_PTR_NULL, csRadioTech) ;;
  network networkSearchManager (INetworkSearch.GetCsRadioTech slotId csRadioTech).
Definition SetNetworkSelectionMode (slotId selectMode : Z) (networkInformation : option NetworkInformation) (resumeSelection : bool) (callback : option remote) : CS Z :=
  ensure CheckCallerIsSystemApp or TELEPHONY_ERR_ILLEGAL_USE_OF_SYSTEM_API ;;
  ensure CheckPermission Permission.SET_TELEPHONY_STATE or TELEPHONY_ERR_PERMISSION_ERR ;;
  deref networkSearchManager := networkSearchManager_ or TELEPHONY_ERR_LOCAL_PTR_NULL ;;
  network networkSearchManager (INetworkSearch.SetNetworkSelectionMode slotId selectMode networkInformation resumeSelection callback).
Definition GetSignalInfoList (slotId : Z) (signals : list SignalInformation) : CS (Z * list SignalInformation) :=
  deref networkSearchManager := networkSearchManager_ or (TELEPHONY_ERR_LOCAL_PTR_NULL, signals) ;;
  network networkSearchManager (INetworkSearch.GetSignalInfoList slotId signals).
Definition GetOperatorNumeric (slotId : Z) : CS u16string :=
  deref networkSearchManager := networkSearchManager_ or [] ;;
  network networkSearchManager (INetworkSearch.GetOperatorNumeric slotId).
Definition GetResidentNetworkNumeric (slotId : Z) : CS cstring :=
  deref networkSearchManager := networkSearchManager_ or [] ;;
  network networkSearchManager (INetworkSearch.GetResidentNetworkNumeric slotId).
Definition GetOperatorName (slotId : Z) (operatorName : u16string) : CS (Z * u16string) :=
  deref networkSearchManager := networkSearchManager_ or (TELEPHONY_ERR_LOCAL_PTR_NULL, operatorName) ;;
  network networkSearchManager (INetworkSearch.GetOperatorName slotId operatorName).
Definition GetNetworkState (slotId : Z) (networkState : option NetworkState) : CS (Z * option NetworkState) :=
  ensure CheckPermission Permission.GET_NETWORK_INFO or (TELEPHONY_ERR_PERMISSION_ERR, networkState) ;;
  deref networkSearchManager := networkSearchManager_ or (TELEPHONY_ERR_LOCAL_PTR_NULL, networkState) ;;
  network networkSearchManager (INetworkSearch.GetNetworkStatus slotId networkState).
Definition SetRadioState (slotId : Z) (isOn : bool) (callback : option remote) : CS Z :=
  ensure CheckCallerIsSystemApp or TELEPHONY_ERR_ILLEGAL_USE_OF_SYSTEM_API ;;
  ensure CheckPermission Permission.SET_TELEPHONY_STATE or TELEPHONY_ERR_PERMISSION_ERR ;;
  deref networkSearchManager := networkSearchManager_ or TELEPHONY_ERR_LOCAL_PTR_NULL ;;
  network networkSearchManager (INetworkSearch.SetRadioState slotId isOn 0 callback).
Definition GetRadioState (slotId : Z) (callback : option remote) : CS Z :=
  ensure CheckPermission Permission.GET_NETWORK_INFO or TELEPHONY_ERR_PERMISSION_ERR ;;
  deref networkSearchManager := networkSearchManager_ or TELEPHONY_ERR_LOCAL_PTR_NULL ;;
  network networkSearchManager (INetworkSearch.GetRadioState slotId callback).
Definition GetIsoCountryCodeForNetwork (slotId : Z) (countryCode : u16string) : CS (Z * u16string) :=
  deref networkSearchManager := networkSearchManager_ or (TELEPHONY_ERR_LOCAL_PTR_NULL, countryCode) ;;
  network networkSearchManager (INetworkSearch.GetIsoCountryCodeForNetwork slotId countryCode).
Definition GetImei (slotId : Z) (callback : option remote) : CS Z :=
  ensure CheckCallerIsSystemApp or TELEPHONY_ERR_ILLEGAL_USE_OF_SYSTEM_API ;;
  ensure CheckPermission Permission.GET_TELEPHONY_STATE or TELEPHONY_ERR_PERMISSION_ERR ;;
  deref networkSearchManager := networkSearchManager_ or TELEPHONY_ERR_LOCAL_PTR_NULL ;;
  nonnull callback := callback or TELEPHONY_ERR_LOCAL_PTR_NULL ;;
  AsyncNetSearchExecute (MkTask ('(ret, imei) ← network_if_alive networkSearchManager (INetworkSearch.GetImei slotId []) (TELEPHONY_ERR_IPC_CONNECT_STUB_FAIL, []);
    mret (write_answer ret [WriteString16 imei])) callback) ;;
  mret TELEPHONY_ERR_SUCCESS.
Definition GetImeiSv (slotId : Z) (callback : option remote) : CS Z :=
  ensure CheckCallerIsSystemApp or TELEPHONY_ERR_ILLEGAL_USE_OF_SYSTEM_API ;;
  ensure CheckPermission Permission.GET_TELEPHONY_STATE or TELEPHONY_ERR_PERMISSION_ERR ;;
  deref networkSearchManager := networkSearchManager_ or TELEPHONY_ERR_LOCAL_PTR_NULL ;;
  nonnull callback := callback or TELEPHONY_ERR_LOCAL_PTR_NULL ;;
  AsyncNetSearchExecute (MkTask ('(ret, imeiSv) ← network_if_alive networkSearchManager (INetworkSearch.GetImeiSv slotId []) (TELEPHONY_ERR_IPC_CONNECT_STUB_FAIL, []);
    mret (write_answer ret [WriteString16 imeiSv])) callback) ;;
  mret TELEPHONY_ERR_SUCCESS.
Definition GetMeid (slotId : Z) (meid : u16string) : CS (Z * u16string) :=
  ensure CheckCallerIsSystemApp or (TELEPHONY_ERR_ILLEGAL_USE_OF_SYSTEM_API, meid) ;;
  ensure CheckPermission Permission.GET_TELEPHONY_STATE or (TELEPHONY_ERR_PERMISSION_ERR, meid) ;;
  deref networkSearchManager := networkSearchManager_ or (TELEPHONY_ERR_LOCAL_PTR_NULL, meid) ;;
  network networkSearchManager (INetworkSearch.GetMeid slotId meid).
Definition GetUniqueDeviceId (slotId : Z) (deviceId : u16string) : CS (Z * u16string) :=
  ensure CheckCallerIsSystemApp or (TELEPHONY_ERR_ILLEGAL_USE_OF_SYSTEM_API, deviceId) ;;
  ensure CheckPermission Permission.GET_TELEPHONY_STATE or (TELEPHONY_ERR_PERMISSION_ERR, deviceId) ;;
  deref networkSearchManager := networkSearchManager_ or (TELEPHONY_ERR_LOCAL_PTR_NULL, deviceId) ;;
  network networkSearchManager (INetworkSearch.GetUniqueDeviceId slotId deviceId).
Definition IsNrSupported (slotId : Z) : CS bool :=
  deref networkSearchManager := networkSearchManager_ or false ;;
  network networkSearchManager (INetworkSearch.IsNrSupported slotId).
Definition SetNrOptionMode (slotId mode : Z) (callback : option remote) : CS Z :=
  ensure CheckCallerIsSystemApp or TELEPHONY_ERR_ILLEGAL_USE_OF_SYSTEM_API ;;
  ensure CheckPermission Permission.SET_TELEPHONY_STATE or TELEPHONY_ERR_PERMISSION_ERR ;;
  deref networkSearchManager := networkSearchManager_ or TELEPHONY_ERR_LOCAL_PTR_NULL ;;
  network networkSearchManager (INetworkSearch.SetNrOptionMode slotId mode callback).
Definition GetNrOptionMode (slotId : Z) (callback : option remote) : CS Z :=
  ensure CheckCallerIsSystemApp or TELEPHONY_ERR_ILLEGAL_USE_OF_SYSTEM_API ;;
  deref networkSearchManager := networkSearchManager_ or TELEPHONY_ERR_LOCAL_PTR_NULL ;;
  network networkSearchManager (INetworkSearch.GetNrOptionMode slotId callback).
Definition HasSimCard (slotId : Z) (callback : option remote) : CS Z :=
  coreServiceSim (CoreServiceSim.HasSimCard slotId callback).
Definition GetSimState (slotId : Z) (callback : option remote) : CS Z :=
  coreServiceSim (CoreServiceSim.GetSimState slotId callback).
Definition GetDsdsMode (dsdsMode : Z) : CS (Z * Z) :=
  coreServiceSim (CoreServiceSim.GetDsdsMode dsdsMode).
Definition GetCardType (slotId cardType : Z) : CS (Z * Z) :=
  coreServiceSim (CoreServiceSim.GetCardType slotId cardType).
Definition GetISOCountryCodeForSim (slotId : Z) (countryCode : u16string) : CS (Z * u16string) :=
  coreServiceSim (CoreServiceSim.GetISOCountryCodeForSim slotId countryCode).
Definition GetSimSpn (slotId : Z) (spn : u16string) : CS (Z * u16string) :=
  coreServiceSim (CoreServiceSim.GetSimSpn slotId spn).
Definition GetSimIccId (slotId : Z) (iccId : u16string) : CS (Z * u16string) :=
  coreServiceSim (CoreServiceSim.GetSimIccId slotId iccId).
Definition GetSimOperatorNumeric (slotId : Z) (operatorNumeric : u16string) : CS (Z * u16string) :=
  coreServiceSim (CoreServiceSim.GetSimOperatorNumeric slotId operatorNumeric).
Definition GetIMSI (slotId : Z) (imsi : u16string) : CS (Z * u16string) :=
  coreServiceSim (CoreServiceSim.GetIMSI slotId imsi).
Definition IsCTSimCard (slotId : Z) (callback : option remote) : CS Z :=
  coreServiceSim (CoreServiceSim.IsCTSimCard slotId callback).
Definition IsSimActive (slotId : Z) (callback : option remote) : CS bool :=
  coreServiceSim (CoreServiceSim.IsSimActive slotId callback).
Definition GetSlotId (simId : Z) : CS Z :=
  coreServiceSim (CoreServiceSim.GetSlotId simId).
Definition GetSimId (slotId : Z) : CS Z :=
  coreServiceSim (CoreServiceSim.GetSimId slotId).
Definition GetNetworkSearchInformation (slotId : Z) (callback : option remote) : CS Z :=
  ensure CheckCallerIsSystemApp or TELEPHONY_ERR_ILLEGAL_USE_OF_SYSTEM_API ;;
  ensure CheckPermission Permission.GET_TELEPHONY_STATE or TELEPHONY_ERR_PERMISSION_ERR ;;
  deref networkSearchManager := networkSearchManager_ or TELEPHONY_ERR_LOCAL_PTR_NULL ;;
  network networkSearchManager (INetworkSearch.GetNetworkSearchInformation slotId callback).
Definition GetNetworkSelectionMode (slotId : Z) (callback : option remote) : CS Z :=
  deref networkSearchManager := networkSearchManager_ or TELEPHONY_ERR_LOCAL_PTR_NULL ;;
  network networkSearchManager (INetworkSearch.GetNetworkSelectionMode slotId callback).
Definition GetLocaleFromDefaultSim : CS u16string :=
  coreServiceSim (CoreServiceSim.GetLocaleFromDefaultSim).
Definition GetSimGid1 (slotId : Z) (gid1 : u16string) : CS (Z * u16string) :=
  coreServiceSim (CoreServiceSim.GetSimGid1 slotId gid1).
Definition GetSimGid2 (slotId : Z) : CS u16string :=
  coreServiceSim (CoreServiceSim.GetSimGid2 slotId).
Definition GetSimEons (slotId : Z) (plmn : cstring) (lac : Z) (longNameRequired : bool) : CS u16string :=
  coreServiceSim (CoreServiceSim.GetSimEons slotId plmn lac longNameRequired).
Definition GetSimAccountInfo (slotId : Z) (info : IccAccountInfo) : CS (Z * IccAccountInfo) :=
  coreServiceSim (CoreServiceSim.GetSimAccountInfo slotId info).
Definition SetDefaultVoiceSlotId (slotId : Z) : CS Z :=
  coreServiceSim (CoreServiceSim.SetDefaultVoiceSlotId slotId).
Definition GetDefaultVoiceSlotId : CS Z :=
  coreServiceSim (CoreServiceSim.GetDefaultVoiceSlotId).
Definition GetDefaultVoiceSimId (callback : option remote) : CS Z :=
  coreServiceSim (CoreServiceSim.GetDefaultVoiceSimId callback).
Definition SetPrimarySlotId (slotId : Z) : CS Z :=
  coreServiceSim (CoreServiceSim.SetPrimarySlotId slotId).
Definition GetPrimarySlotId (slotId : Z) : CS (Z * Z) :=
  coreServiceSim (CoreServiceSim.GetPrimarySlotId slotId).
Definition SetShowNumber (slotId : Z) (number : u16string) (callback : option remote) : CS Z :=
  coreServiceSim (CoreServiceSim.SetShowNumber slotId number callback).
Definition GetShowNumber (slotId : Z) (callback : option remote) : CS Z :=
  coreServiceSim (CoreServiceSim.GetShowNumber slotId callback).
Definition SetShowName (slotId : Z) (name : u16string) (callback : option remote) : CS Z :=
  coreServiceSim (CoreServiceSim.SetShowName slotId name callback).
Definition GetShowName (slotId : Z) (callback : option remote) : CS Z :=
  coreServiceSim (CoreServiceSim.GetShowName slotId callback).
Definition GetActiveSimAccountInfoList (iccAccountInfoList : list IccAccountInfo) : CS (Z * list IccAccountInfo) :=
  coreServiceSim (CoreServiceSim.GetActiveSimAccountInfoList iccAccountInfoList).
Definition GetOperatorConfigs (slotId : Z) (poc : OperatorConfig) : CS (Z * OperatorConfig) :=
  coreServiceSim (CoreServiceSim.GetOperatorConfigs slotId poc).
Definition UnlockPin (slotId : Z) (pin : u16string) (callback : option remote) : CS Z :=
  coreServiceSim (CoreServiceSim.UnlockPin slotId pin callback).
Definition UnlockPuk (slotId : Z) (newPin puk : u16string) (callback : option remote) : CS Z :=
  coreServiceSim (CoreServiceSim.UnlockPuk slotId newPin puk callback).
Definition AlterPin (slotId : Z) (newPin oldPin : u16string) (callback : option remote) : CS Z :=
  coreServiceSim (CoreServiceSim.AlterPin slotId newPin oldPin callback).
Definition UnlockPin2 (slotId : Z) (pin2 : u16string) (callback : option remote) : CS Z :=
  coreServiceSim (CoreServiceSim.UnlockPin2 slotId pin2 callback).
Definition UnlockPuk2 (slotId : Z) (newPin2 puk2 : u16string) (callback : option remote) : CS Z :=
  coreServiceSim (CoreServiceSim.UnlockPuk2 slotId newPin2 puk2 callback).
Definition AlterPin2 (slotId : Z) (newPin2 oldPin2 : u16string) (callback : option remote) : CS Z :=
  coreServiceSim (CoreServiceSim.AlterPin2 slotId newPin2 oldPin2 callback).
Definition SetLockState (slotId : Z) (options : LockInfo) (callback : option remote) : CS Z :=
  coreServiceSim (CoreServiceSim.SetLockState slotId options callback).
Definition GetLockState (slotId lockType : Z) (callback : option remote) : CS Z :=
  coreServiceSim (CoreServiceSim.GetLockState slotId lockType callback).
Definition RefreshSimState (slotId : Z) : CS Z :=
  coreServiceSim (CoreServiceSim.RefreshSimState slotId).
Definition SetActiveSim (slotId enable : Z) : CS Z :=
  coreServiceSim (CoreServiceSim.SetActiveSim slotId enable).
Definition SetActiveSimSatellite (slotId enable : Z) : CS Z :=
  coreServiceSim (CoreServiceSim.SetActiveSimSatellite slotId enable).
Definition GetPreferredNetwork (slotId : Z) (callback : option remote) : CS Z :=
  ensure CheckCallerIsSystemApp or TELEPHONY_ERR_ILLEGAL_USE_OF_SYSTEM_API ;;
  ensure CheckPermission Permission.GET_TELEPHONY_STATE or TELEPHONY_ERR_PERMISSION_ERR ;;
  deref networkSearchManager := networkSearchManager_ or TELEPHONY_ERR_LOCAL_PTR_NULL ;;
  network networkSearchManager (INetworkSearch.GetPreferredNetwork slotId callback).
Definition SetPreferredNetwork (slotId networkMode : Z) (callback : option remote) : CS Z :=
  ensure CheckCallerIsSystemApp or TELEPHONY_ERR_ILLEGAL_USE_OF_SYSTEM_API ;;
  ensure CheckPermission Permission.SET_TELEPHONY_STATE or TELEPHONY_ERR_PERMISSION_ERR ;;
  deref networkSearchManager := networkSearchManager_ or TELEPHONY_ERR_LOCAL_PTR_NULL ;;
  network networkSearchManager (INetworkSearch.SetPreferredNetwork slotId networkMode callback).
Definition GetNetworkCapability (slotId networkCapabilityType networkCapabilityState : Z) : CS (Z * Z) :=
  ensure CheckCallerIsSystemApp or (TELEPHONY_ERR_ILLEGAL_USE_OF_SYSTEM_API, networkCapabilityState) ;;
  ensure CheckPermission Permission.GET_TELEPHONY_STATE or (TELEPHONY_ERR_PERMISSION_ERR, networkCapabilityState) ;;
  deref networkSearchManager := networkSearchManager_ or (TELEPHONY_ERR_LOCAL_PTR_NULL, networkCapabilityState) ;;
  network networkSearchManager (INetworkSearch.GetNetworkCapability slotId networkCapabilityType networkCapabilityState).
Definition SetNetworkCapability (slotId networkCapabilityType networkCapabilityState : Z) : CS Z :=
  ensure CheckCallerIsSystemApp or TELEPHONY_ERR_ILLEGAL_USE_OF_SYSTEM_API ;;
  ensure CheckPermission Permission.SET_TELEPHONY_STATE or TELEPHONY_ERR_PERMISSION_ERR ;;
  deref networkSearchManager := networkSearchManager_ or TELEPHONY_ERR_LOCAL_PTR_NULL ;;
  network networkSearchManager (INetworkSearch.SetNetworkCapability slotId networkCapabilityType networkCapabilityState).
Definition GetSimTelephoneNumber (slotId : Z) (telephoneNumber : u16string) : CS (Z * u16string) :=
  coreServiceSim (CoreServiceSim.GetSimTelephoneNumber slotId telephoneNumber).
Definition GetSimTeleNumberIdentifier (slotId : Z) : CS u16string :=
  coreServiceSim (CoreServiceSim.GetSimTeleNumberIdentifier slotId).
Definition GetVoiceMailIdentifier (slotId : Z) (voiceMailIdentifier : u16string) : CS (Z * u16string) :=
  coreServiceSim (CoreServiceSim.GetVoiceMailIdentifier slotId voiceMailIdentifier).
Definition GetVoiceMailNumber (slotId : Z) (voiceMailNumber : u16string) : CS (Z * u16string) :=
  coreServiceSim (CoreServiceSim.GetVoiceMailNumber slotId voiceMailNumber).
Definition GetVoiceMailCount (slotId voiceMailCount : Z) : CS (Z * Z) :=
  coreServiceSim (CoreServiceSim.GetVoiceMailCount slotId voiceMailCount).
Definition SetVoiceMailCount (slotId voiceMailCount : Z) : CS Z :=
  coreServiceSim (CoreServiceSim.SetVoiceMailCount slotId voiceMailCount).
Definition SetVoiceCallForwarding (slotId : Z) (enable : bool) (number : cstring) : CS Z :=
  coreServiceSim (CoreServiceSim.SetVoiceCallForwarding slotId enable number).
Definition QueryIccDiallingNumbers (slotId type : Z) (reslut : list DiallingNumbersInfo) : CS (Z * list DiallingNumbersInfo) :=
  coreServiceSim (CoreServiceSim.QueryIccDiallingNumbers slotId type reslut).
Definition AddIccDiallingNumbers (slotId type : Z) (diallingNumber : option DiallingNumbersInfo) : CS Z :=
  coreServiceSim (CoreServiceSim.AddIccDiallingNumbers slotId type diallingNumber).
Definition DelIccDiallingNumbers (slotId type : Z) (diallingNumber : option DiallingNumbersInfo) : CS Z :=
  coreServiceSim (CoreServiceSim.DelIccDiallingNumbers slotId type diallingNumber).
Definition UpdateIccDiallingNumbers (slotId type : Z) (diallingNumber : option DiallingNumbersInfo) : CS Z :=
  coreServiceSim (CoreServiceSim.UpdateIccDiallingNumbers slotId type diallingNumber).
Definition SetVoiceMailInfo (slotId : Z) (mailName mailNumber : u16string) : CS Z :=
  coreServiceSim (CoreServiceSim.SetVoiceMailInfo slotId mailName mailNumber).
Definition GetMaxSimCount : CS Z :=
  mret SIM_SLOT_COUNT_MD.
Definition GetOpKey (slotId : Z) (opkey : u16string) : CS (Z * u16string) :=
  coreServiceSim (CoreServiceSim.GetOpKey slotId opkey).
Definition GetOpKeyExt (slotId : Z) (opkeyExt : u16string) : CS (Z * u16string) :=
  coreServiceSim (CoreServiceSim.GetOpKeyExt slotId opkeyExt).
Definition GetOpName (slotId : Z) (opname : u16string) : CS (Z * u16string) :=
  coreServiceSim (CoreServiceSim.GetOpName slotId opname).
Definition SendEnvelopeCmd (slotId : Z) (cmd : cstring) : CS Z :=
  coreServiceSim (CoreServiceSim.SendEnvelopeCmd slotId cmd).
Definition SendTerminalResponseCmd (slotId : Z) (cmd : cstring) : CS Z :=
  coreServiceSim (CoreServiceSim.SendTerminalResponseCmd slotId cmd).
Definition SendCallSetupRequestResult (slotId : Z) (accept : bool) : CS Z :=
  coreServiceSim (CoreServiceSim.SendCallSetupRequestResult slotId accept).
Definition UnlockSimLock (slotId : Z) (lockInfo : PersoLockInfo) (response : LockStatusResponse) : CS (Z * LockStatusResponse) :=
  coreServiceSim (CoreServiceSim.UnlockSimLock slotId lockInfo response).
Definition GetImsRegStatus (slotId imsSrvType : Z) (info : ImsRegInfo) : CS (Z * ImsRegInfo) :=
  ensure CheckCallerIsSystemApp or (TELEPHONY_ERR_ILLEGAL_USE_OF_SYSTEM_API, info) ;;
  ensure CheckPermission Permission.GET_TELEPHONY_STATE or (TELEPHONY_ERR_PERMISSION_ERR, info) ;;
  deref networkSearchManager := networkSearchManager_ or (TELEPHONY_ERR_LOCAL_PTR_NULL, info) ;;
  network networkSearchManager (INetworkSearch.GetImsRegStatus slotId imsSrvType info).
Definition GetCellInfoList (slotId : Z) (cellInfo : list Cell) : CS (Z * list Cell) :=
  ensure CheckCallerIsSystemApp or (TELEPHONY_ERR_ILLEGAL_USE_OF_SYSTEM_API, cellInfo) ;;
  ensure CheckPermission Permission.CELL_LOCATION or (TELEPHONY_ERR_PERMISSION_ERR, cellInfo) ;;
  deref networkSearchManager := networkSearchManager_ or (TELEPHONY_ERR_LOCAL_PTR_NULL, cellInfo) ;;
  network networkSearchManager (INetworkSearch.GetCellInfoList slotId cellInfo).
Definition GetNeighboringCellInfoList (slotId : Z) (cellInfo : list Cell) : CS (Z * list Cell) :=
  ensure CheckCallerIsSystemApp or (TELEPHONY_ERR_ILLEGAL_USE_OF_SYSTEM_API, cellInfo) ;;
  ensure CheckPermission Permission.CELL_LOCATION or (TELEPHONY_ERR_PERMISSION_ERR, cellInfo) ;;
  deref networkSearchManager := networkSearchManager_ or (TELEPHONY_ERR_LOCAL_PTR_NULL, cellInfo) ;;
  network networkSearchManager (INetworkSearch.GetNeighboringCellInfoList slotId cellInfo).
Definition SendUpdateCellLocationRequest (slotId : Z) : CS Z :=
  ensure CheckCallerIsSystemApp or TELEPHONY_ERR_ILLEGAL_USE_OF_SYSTEM_API ;;
  ensure CheckPermission Permission.CELL_LOCATION or TELEPHONY_ERR_PERMISSION_ERR ;;
  deref networkSearchManager := networkSearchManager_ or TELEPHONY_ERR_LOCAL_PTR_NULL ;;
  network networkSearchManager (INetworkSearch.SendUpdateCellLocationRequest slotId).
Definition HasOperatorPrivileges (slotId : Z) (callback : option remote) : CS Z :=
  coreServiceSim (CoreServiceSim.HasOperatorPrivileges slotId callback).
Definition SimAuthentication (slotId authType : Z) (authData : cstring) (response : SimAuthenticationResponse) : CS (Z * SimAuthenticationResponse) :=
  coreServiceSim (CoreServiceSim.SimAuthentication slotId authType authData response).
Definition RegisterImsRegInfoCallback (slotId imsSrvType : Z) (callback : option remote) : CS Z :=
  ensure CheckCallerIsSystemApp or TELEPHONY_ERR_ILLEGAL_USE_OF_SYSTEM_API ;;
  ensure CheckPermission Permission.GET_TELEPHONY_STATE or TELEPHONY_ERR_PERMISSION_ERR ;;
  deref networkSearchManager := networkSearchManager_ or TELEPHONY_ERR_LOCAL_PTR_NULL ;;
  tokenId ← call (gets GetTokenID);
  network networkSearchManager (INetworkSearch.RegisterImsRegInfoCallback slotId imsSrvType tokenId callback).
Definition UnregisterImsRegInfoCallback (slotId imsSrvType : Z) : CS Z :=
  ensure CheckCallerIsSystemApp or TELEPHONY_ERR_ILLEGAL_USE_OF_SYSTEM_API ;;
  ensure CheckPermission Permission.GET_TELEPHONY_STATE or TELEPHONY_ERR_PERMISSION_ERR ;;
  deref networkSearchManager := networkSearchManager_ or TELEPHONY_ERR_LOCAL_PTR_NULL ;;
  tokenId ← call (gets GetTokenID);
  network networkSearchManager (INetworkSearch.UnregisterImsRegInfoCallback slotId imsSrvType tokenId).
Definition GetBasebandVersion (slotId : Z) (version : cstring) : CS (Z * cstring) :=
  ensure CheckCallerIsSystemApp or (TELEPHONY_ERR_ILLEGAL_USE_OF_SYSTEM_API, version) ;;
  ensure CheckPermission Permission.GET_TELEPHONY_STATE or (TELEPHONY_ERR_PERMISSION_ERR, version) ;;
  deref networkSearchManager := networkSearchManager_ or (TELEPHONY_ERR_LOCAL_PTR_NULL, version) ;;
  network networkSearchManager (INetworkSearch.GetBasebandVersion slotId version).
Definition FactoryReset (slotId : Z) : CS Z :=
  ensure CheckCallerIsSystemApp or TELEPHONY_ERR_ILLEGAL_USE_OF_SYSTEM_API ;;
  ensure CheckPermission Permission.SET_TELEPHONY_STATE or TELEPHONY_ERR_PERMISSION_ERR ;;
  deref networkSearchManager := networkSearchManager_ or TELEPHONY_ERR_LOCAL_PTR_NULL ;;
  network networkSearchManager (INetworkSearch.FactoryReset slotId).
Definition GetNrSsbIdInfo (slotId : Z) (nrSsbInformation : NrSsbInformation) : CS (Z * NrSsbInformation) :=
  ensure CheckCallerIsSystemApp or (TELEPHONY_ERR_ILLEGAL_USE_OF_SYSTEM_API, nrSsbInformation) ;;
  ensure CheckPermission Permission.CELL_LOCATION or (TELEPHONY_ERR_PERMISSION_ERR, nrSsbInformation) ;;
  deref networkSearchManager := networkSearchManager_ or (TELEPHONY_ERR_LOCAL_PTR_NULL, nrSsbInformation) ;;
  network networkSearchManager (INetworkSearch.GetNrSsbId slotId nrSsbInformation).
Definition IsAllowedInsertApn (value : cstring) : CS bool :=
  ensure CheckCallerIsSystemApp or true ;;
  match isAllowedInsertApn_ with Some isAllowedInsertApn => call (isAllowedInsertApn value) | None => mret true end.
Definition GetTargetOpkey (slotId : Z) (opkey : u16string) : CS (Z * u16string) :=
  ensure CheckCallerIsSystemApp or (TELEPHONY_ERR_ILLEGAL_USE_OF_SYSTEM_API, opkey) ;;
  opkey ← (match getTargetOpkey_ with Some getTargetOpkey => call (getTargetOpkey slotId opkey) | None => mret opkey end);
  mret (TELEPHONY_ERR_SUCCESS, opkey).
Definition GetOpkeyVersion (versionInfo : cstring) : CS (Z * cstring) :=
  match getOpkeyVersion_ with
  | Some getOpkeyVersion => versionInfo ← call (getOpkeyVersion versionInfo); mret (TELEPHONY_ERR_SUCCESS, versionInfo)
  | None => mret (TELEPHONY_ERR_LOCAL_PTR_NULL, versionInfo)
  end.
Definition GetOpnameVersion (versionInfo : cstring) : CS (Z * cstring) :=
  match getOpnameVersion_ with
  | Some getOpnameVersion => versionInfo ← call (getOpnameVersion versionInfo); mret (TELEPHONY_ERR_SUCCESS, versionInfo)
  | None => mret (TELEPHONY_ERR_LOCAL_PTR_NULL, versionInfo)
  end.
Definition GetSimIO (slotId command fileId : Z) (data path : cstring) (response : SimAuthenticationResponse) : CS (Z * SimAuthenticationResponse) :=
  coreServiceSim (CoreServiceSim.GetSimIO slotId command fileId data path response).
Definition GetAllSimAccountInfoList (iccAccountInfoList : list IccAccountInfo) : CS (Z * list IccAccountInfo) :=
  coreServiceSim (CoreServiceSim.GetAllSimAccountInfoList iccAccountInfoList).
Definition GetSimLabel (slotId : Z) (simLabel : SimLabel) (callback : remote) : CS (Z * SimLabel) :=
  coreServiceSim (CoreServiceSim.GetSimLabel slotId simLabel callback).
Definition SendApduData (slotId : Z) (aid : u16string) (apduData : EsimApduData) (responseResult : ResponseEsimResult) : CS (Z * ResponseEsimResult) :=
  ensure CheckCallerIsSystemApp or (TELEPHONY_ERR_ILLEGAL_USE_OF_SYSTEM_API, responseResult) ;;
  ensure CheckPermission Permission.SET_TELEPHONY_ESIM_STATE or (TELEPHONY_ERR_PERMISSION_ERR, responseResult) ;;
  deref esimManager := esimManager_ or (TELEPHONY_ERR_LOCAL_PTR_NULL, responseResult) ;;
  let result := MkEsimInner 0 [] 0 0 in
  '(res, result) ← esim esimManager (IEsimManager.SendApduData slotId aid apduData result);
  let responseResult := MkEsimResult (inner_resultCode_ result) (inner_response_ result) (inner_sw1_ result) (inner_sw2_ result) in
  mret (res, responseResult).
Definition GetRealSimCount : CS Z :=
  coreServiceSim (CoreServiceSim.GetRealSimCount).
Definition GetManualNetworkScanState (slotId : Z) (callback : option remote) : CS Z :=
  ensure CheckPermission Permission.GET_TELEPHONY_STATE or TELEPHONY_ERR_PERMISSION_ERR ;;
  deref networkSearchManager := networkSearchManager_ or TELEPHONY_ERR_LOCAL_PTR_NULL ;;
  network networkSearchManager (INetworkSearch.GetManualNetworkScanState slotId callback).
Definition StopManualNetworkScanCallback (slotId : Z) : CS Z :=
  ensure CheckPermission Permission.GET_TELEPHONY_STATE or TELEPHONY_ERR_PERMISSION_ERR ;;
  deref networkSearchManager := networkSearchManager_ or TELEPHONY_ERR_LOCAL_PTR_NULL ;;
  network networkSearchManager (INetworkSearch.StopManualNetworkScanCallback slotId).
Definition StartManualNetworkScanCallback (slotId : Z) (callback : option remote) : CS Z :=
  ensure CheckPermission Permission.GET_TELEPHONY_STATE or TELEPHONY_ERR_PERMISSION_ERR ;;
  deref networkSearchManager := networkSearchManager_ or TELEPHONY_ERR_LOCAL_PTR_NULL ;;
  network networkSearchManager (INetworkSearch.StartManualNetworkScanCallback slotId callback).
Definition SetSimLabelIndex (simId simLabelIndex : Z) (callback : option remote) : CS Z :=
  coreServiceSim (CoreServiceSim.SetSimLabelIndex simId simLabelIndex callback).
Definition IsMultiSimsCapabilitySupported (slotId : Z) : CS bool :=
  call (MultiSimsCapabilityMgr.IsMultiSimsCapabilitySupported slotId).
Definition StartHiddenCameraDetection (callback : option remote) (config : HiddenCameraDetectionConfig) (rawCallback : remote) : CS Z :=
  ensure CheckPermission Permission.HIDDEN_CAMERA_DETECTION or TELEPHONY_ERR_PERMISSION_ERR ;;
  ret ← (match startHiddenCameraDetectionExt_ with None => mret TELEPHONY_ERR_FAIL | Some ext => call (ext callback config rawCallback) end);
  on_system (RawParcelCallbackProxy.Transfer (Some rawCallback) (Some (puts [WriteInt32 ret])) new_parcel) ;;
  mret ret.
Definition StopHiddenCameraDetection (rawCallback : remote) : CS Z :=
  ensure CheckPermission Permission.HIDDEN_CAMERA_DETECTION or TELEPHONY_ERR_PERMISSION_ERR ;;
  ret ← (match stopHiddenCameraDetectionExt_ with None => mret TELEPHONY_ERR_FAIL | Some ext => call (ext rawCallback) end);
  on_system (RawParcelCallbackProxy.Transfer (Some rawCallback) (Some (puts [WriteInt32 ret])) new_parcel) ;;
  mret ret.
Definition KeepHiddenCameraDetection (rawCallback : remote) : CS Z :=
  ensure CheckPermission Permission.HIDDEN_CAMERA_DETECTION or TELEPHONY_ERR_PERMISSION_ERR ;;
  ret ← (match keepHiddenCameraDetectionExt_ with None => mret TELEPHONY_ERR_FAIL | Some ext => call (ext rawCallback) end);
  on_system (RawParcelCallbackProxy.Transfer (Some rawCallback) (Some (puts [WriteInt32 ret])) new_parcel) ;;
  mret ret.
End Service.

(** ** Starting and stopping *)

Section Lifecycle.
Context {P W : Type} `{ParcelOps P} `{ErrorCodes} `{StringEx} `{AccessToken W} `{!Managers W} `{!Lifecycle W}.
Implicit Types s : core_service P W.

(** [for (slotId = 0; slotId < SIM_SLOT_COUNT_MD; slotId++)] with [n] rounds left. *)
Fixpoint InitAirplaneModes (networkSearchManager : pointer) (slotId : Z) (n : nat) : CS (P := P) (W := W) unit :=
  match n with
  | O => mret tt
  | S n => call (modifies (InitAirplaneMode networkSearchManager slotId)) ;; InitAirplaneModes networkSearchManager (slotId + 1) n
  end.
Definition Init : CS (P := P) (W := W) bool :=
  call (modifies InitCommonEventHub) ;;
  call (modifies InitTelephonyExtWrapper) ;;
  telRilManager ← call make_TelRilManager;
  modifies (set_telRil (Some telRilManager)) ;;
  ensure call (TelRilManager_OnInit telRilManager) or false ;;
  call (modifies (SetTelRilMangerObj telRilManager)) ;;
  let slotCount := SIM_SLOT_COUNT_MD + 1 in
  esimManager ← call (make_EsimManager telRilManager);
  modifies (set_esim (Some esimManager)) ;;
  call (EsimManager_OnInit esimManager slotCount) ;;
  call (modifies (SetEsimManagerObj esimManager)) ;;
  simManager ← call (make_SimManager telRilManager);
  modifies (set_sim (Some simManager)) ;;
  call (SimManager_OnInit simManager slotCount) ;;
  coreServiceSim (CoreServiceSim.SetSimManager simManager) ;;
  call (modifies ImsCoreServiceClient_Init) ;;
  networkSearchManager ← call (make_NetworkSearchManager telRilManager simManager);
  modifies (set_network (Some networkSearchManager)) ;;
  ensure call (NetworkSearchManager_OnInit networkSearchManager) or false ;;
  call (modifies (CoreManagerInner_OnInit networkSearchManager simManager telRilManager)) ;;
  InitAirplaneModes networkSearchManager 0 (Z.to_nat SIM_SLOT_COUNT_MD) ;;
  mret true.
Definition NotifyCoreServiceReady : CS (P := P) (W := W) bool := call PublishCoreServiceReady.
Definition OnStart : CS (P := P) (W := W) unit :=
  now ← call (gets now_ms);
  modifies (set_bindTime now) ;;
  state ← gets state_;
  if bool_decide (state = STATE_RUNNING) then mret tt else
  registered ← gets registerToService_;
  published ← (if registered : bool then mret true else
    ret ← call Publish;
    require ret or false ;;
    modifies (set_register true) ;;
    mret true);
  require published or tt ;;
  call ffrt_set_cpu_worker_max_num ;;
  ensure Init or tt ;;
  modifies (set_state STATE_RUNNING) ;;
  now ← call (gets now_ms);
  modifies (set_endTime now) ;;
  NotifyCoreServiceReady ;;
  mret tt.
Definition OnStop : CS (P := P) (W := W) unit :=
  modifies (set_state STATE_NOT_START) ;;
  modifies (set_register false) ;;
  call (modifies ImsCoreServiceClient_UnInit) ;;
  networkSearchManager ← networkSearchManager_;
  match networkSearchManager with Some m => call (modifies (NetworkSearchManager_DeInit m)) | None => mret tt end ;;
  telRilManager ← gets tel_ril_manager;
  match telRilManager with Some m => call (modifies (TelRilManager_DeInit m)) | None => mret tt end ;;
  call (modifies DeInitTelephonyExtWrapper).
End Lifecycle.

(** ** The service that the stub calls

    The output arguments have the values with which the handlers of CoreServiceStub.v create them; [indeterminate] is what an uninitialised
    variable holds. The four methods that use their callback without a check are only called with one: the handlers refuse a null callback first. *)
Section Service.
Context {P W : Type} `{ParcelOps P} `{ErrorCodes} `{StringEx} `{AccessToken W} `{!Managers W}.
Context (indeterminate : Z).

Definition serve {R} (c : coreE R) : CS (P := P) (W := W) R :=
  match c with
  | ICoreService.GetPsRadioTech slotId => GetPsRadioTech slotId 0
  | ICoreService.GetCsRadioTech slotId => GetCsRadioTech slotId 0
  | ICoreService.GetOperatorNumeric slotId => GetOperatorNumeric slotId
  | ICoreService.GetResidentNetworkNumeric slotId => GetResidentNetworkNumeric slotId
  | ICoreService.GetOperatorName slotId => GetOperatorName slotId []
  | ICoreService.GetBasebandVersion slotId => GetBasebandVersion slotId []
  | ICoreService.GetNetworkSearchInformation slotId callback => GetNetworkSearchInformation slotId callback
  | ICoreService.GetNetworkState slotId => GetNetworkState slotId None
  | ICoreService.GetSignalInfoList slotId => GetSignalInfoList slotId []
  | ICoreService.SetRadioState slotId isOn callback => SetRadioState slotId isOn callback
  | ICoreService.GetRadioState slotId callback => GetRadioState slotId callback
  | ICoreService.GetIsoCountryCodeForNetwork slotId => GetIsoCountryCodeForNetwork slotId []
  | ICoreService.GetImei slotId callback => GetImei slotId callback
  | ICoreService.GetImeiSv slotId callback => GetImeiSv slotId callback
  | ICoreService.GetMeid slotId => GetMeid slotId []
  | ICoreService.GetUniqueDeviceId slotId => GetUniqueDeviceId slotId []
  | ICoreService.HasSimCard slotId callback => HasSimCard slotId callback
  | ICoreService.GetSimState slotId callback => GetSimState slotId callback
  | ICoreService.GetDsdsMode => GetDsdsMode 0
  | ICoreService.GetCardType slotId => GetCardType slotId UNKNOWN_CARD
  | ICoreService.GetISOCountryCodeForSim slotId => GetISOCountryCodeForSim slotId []
  | ICoreService.GetSimOperatorNumeric slotId => GetSimOperatorNumeric slotId []
  | ICoreService.GetSimSpn slotId => GetSimSpn slotId []
  | ICoreService.GetSimIccId slotId => GetSimIccId slotId []
  | ICoreService.GetIMSI slotId => GetIMSI slotId []
  | ICoreService.IsCTSimCard slotId callback => IsCTSimCard slotId callback
  | ICoreService.IsSimActive slotId callback => IsSimActive slotId callback
  | ICoreService.GetSlotId simId => GetSlotId simId
  | ICoreService.GetSimId slotId => GetSimId slotId
  | ICoreService.GetNetworkSelectionMode slotId callback => GetNetworkSelectionMode slotId callback
  | ICoreService.SetNetworkSelectionMode slotId selectMode networkInformation resumeSelection callback => SetNetworkSelectionMode slotId selectMode networkInformation resumeSelection callback
  | ICoreService.GetLocaleFromDefaultSim => GetLocaleFromDefaultSim
  | ICoreService.GetSimGid1 slotId => GetSimGid1 slotId []
  | ICoreService.GetSimGid2 slotId => GetSimGid2 slotId
  | ICoreService.GetSimEons slotId plmn lac longNameRequired => GetSimEons slotId plmn lac longNameRequired
  | ICoreService.GetSimAccountInfo slotId => GetSimAccountInfo slotId IccAccountInfo_new
  | ICoreService.SetDefaultVoiceSlotId slotId => SetDefaultVoiceSlotId slotId
  | ICoreService.GetDefaultVoiceSlotId => GetDefaultVoiceSlotId
  | ICoreService.GetDefaultVoiceSimId callback => GetDefaultVoiceSimId callback
  | ICoreService.SetPrimarySlotId slotId => SetPrimarySlotId slotId
  | ICoreService.GetPrimarySlotId => GetPrimarySlotId INVALID_VALUE
  | ICoreService.SetShowNumber slotId number callback => SetShowNumber slotId number callback
  | ICoreService.GetShowNumber slotId callback => GetShowNumber slotId callback
  | ICoreService.SetShowName slotId name callback => SetShowName slotId name callback
  | ICoreService.GetActiveSimAccountInfoList => GetActiveSimAccountInfoList []
  | ICoreService.GetOperatorConfigs slotId => GetOperatorConfigs slotId OperatorConfig_new
  | ICoreService.UnlockPin slotId pin callback => UnlockPin slotId pin callback
  | ICoreService.UnlockPuk slotId newPin puk callback => UnlockPuk slotId newPin puk callback
  | ICoreService.AlterPin slotId newPin oldPin callback => AlterPin slotId newPin oldPin callback
  | ICoreService.UnlockPin2 slotId pin2 callback => UnlockPin2 slotId pin2 callback
  | ICoreService.UnlockPuk2 slotId newPin2 puk2 callback => UnlockPuk2 slotId newPin2 puk2 callback
  | ICoreService.AlterPin2 slotId newPin2 oldPin2 callback => AlterPin2 slotId newPin2 oldPin2 callback
  | ICoreService.SetLockState slotId options callback => SetLockState slotId options callback
  | ICoreService.GetLockState slotId lockType callback => GetLockState slotId lockType callback
  | ICoreService.RefreshSimState slotId => RefreshSimState slotId
  | ICoreService.SetActiveSim slotId enable => SetActiveSim slotId enable
  | ICoreService.SetActiveSimSatellite slotId enable => SetActiveSimSatellite slotId enable
  | ICoreService.GetPreferredNetwork slotId callback => GetPreferredNetwork slotId callback
  | ICoreService.SetPreferredNetwork slotId networkMode callback => SetPreferredNetwork slotId networkMode callback
  | ICoreService.GetNetworkCapability slotId networkCapabilityType => GetNetworkCapability slotId networkCapabilityType 0
  | ICoreService.SetNetworkCapability slotId networkCapabilityType networkCapabilityState => SetNetworkCapability slotId networkCapabilityType networkCapabilityState
  | ICoreService.GetSimTelephoneNumber slotId => GetSimTelephoneNumber slotId []
  | ICoreService.GetSimTeleNumberIdentifier slotId => GetSimTeleNumberIdentifier slotId
  | ICoreService.GetVoiceMailIdentifier slotId => GetVoiceMailIdentifier slotId []
  | ICoreService.GetVoiceMailNumber slotId => GetVoiceMailNumber slotId []
  | ICoreService.GetVoiceMailCount slotId => GetVoiceMailCount slotId indeterminate
  | ICoreService.SetVoiceMailCount slotId voiceMailCount => SetVoiceMailCount slotId voiceMailCount
  | ICoreService.SetVoiceCallForwarding slotId enable number => SetVoiceCallForwarding slotId enable number
  | ICoreService.QueryIccDiallingNumbers slotId type => QueryIccDiallingNumbers slotId type []
  | ICoreService.AddIccDiallingNumbers slotId type diallingNumber => AddIccDiallingNumbers slotId type diallingNumber
  | ICoreService.DelIccDiallingNumbers slotId type diallingNumber => DelIccDiallingNumbers slotId type diallingNumber
  | ICoreService.UpdateIccDiallingNumbers slotId type diallingNumber => UpdateIccDiallingNumbers slotId type diallingNumber
  | ICoreService.SetVoiceMailInfo slotId mailName mailNumber => SetVoiceMailInfo slotId mailName mailNumber
  | ICoreService.GetOpKey slotId => GetOpKey slotId []
  | ICoreService.GetOpKeyExt slotId => GetOpKeyExt slotId []
  | ICoreService.GetOpName slotId => GetOpName slotId []
  | ICoreService.GetMaxSimCount => GetMaxSimCount
  | ICoreService.GetRealSimCount => GetRealSimCount
  | ICoreService.SendEnvelopeCmd slotId cmd => SendEnvelopeCmd slotId cmd
  | ICoreService.SendTerminalResponseCmd slotId cmd => SendTerminalResponseCmd slotId cmd
  | ICoreService.SendCallSetupRequestResult slotId accept => SendCallSetupRequestResult slotId accept
  | ICoreService.UnlockSimLock slotId lockInfo => UnlockSimLock slotId lockInfo (MkLockStatus UNLOCK_FAIL TELEPHONY_ERROR)
  | ICoreService.GetImsRegStatus slotId imsSrvType => GetImsRegStatus slotId imsSrvType (MkImsRegInfo 0 0)
  | ICoreService.GetCellInfoList slotId => GetCellInfoList slotId []
  | ICoreService.GetNeighboringCellInfoList slotId => GetNeighboringCellInfoList slotId []
  | ICoreService.SendUpdateCellLocationRequest slotId => SendUpdateCellLocationRequest slotId
  | ICoreService.HasOperatorPrivileges slotId callback => HasOperatorPrivileges slotId callback
  | ICoreService.SimAuthentication slotId authType authData => SimAuthentication slotId authType authData (MkSimAuth 0 0 [])
  | ICoreService.IsNrSupported slotId => IsNrSupported slotId
  | ICoreService.SetNrOptionMode slotId mode callback => SetNrOptionMode slotId mode callback
  | ICoreService.GetNrOptionMode slotId callback => GetNrOptionMode slotId callback
  | ICoreService.RegisterImsRegInfoCallback slotId imsSrvType callback => RegisterImsRegInfoCallback slotId imsSrvType callback
  | ICoreService.UnregisterImsRegInfoCallback slotId imsSrvType => UnregisterImsRegInfoCallback slotId imsSrvType
  | ICoreService.GetNrSsbIdInfo slotId => GetNrSsbIdInfo slotId NrSsbInformation_new
  | ICoreService.FactoryReset slotId => FactoryReset slotId
  | ICoreService.IsAllowedInsertApn value => IsAllowedInsertApn value
  | ICoreService.GetTargetOpkey slotId => GetTargetOpkey slotId []
  | ICoreService.GetOpkeyVersion => GetOpkeyVersion []
  | ICoreService.GetOpnameVersion => GetOpnameVersion []
  | ICoreService.GetSimIO slotId command fileId dataStr path => GetSimIO slotId command fileId dataStr path (MkSimAuth 0 0 [])
  | ICoreService.GetShowName slotId callback => GetShowName slotId callback
  | ICoreService.GetAllSimAccountInfoList => GetAllSimAccountInfoList []
  | ICoreService.GetSimLabel slotId callback => match callback with Some callback => GetSimLabel slotId SimLabel_new callback | None => mret (TELEPHONY_ERR_WRITE_REPLY_FAIL, SimLabel_new) end
  | ICoreService.SendApduData slotId aid apduData => SendApduData slotId aid apduData (MkEsimResult indeterminate [] 0 0)
  | ICoreService.GetManualNetworkScanState slotId callback => GetManualNetworkScanState slotId callback
  | ICoreService.StartManualNetworkScanCallback slotId callback => StartManualNetworkScanCallback slotId callback
  | ICoreService.StopManualNetworkScanCallback slotId => StopManualNetworkScanCallback slotId
  | ICoreService.StartHiddenCameraDetection callback config rawCallback => match rawCallback with Some rawCallback => StartHiddenCameraDetection callback config rawCallback | None => mret TELEPHONY_ERR_LOCAL_PTR_NULL end
  | ICoreService.StopHiddenCameraDetection rawCallback => match rawCallback with Some rawCallback => StopHiddenCameraDetection rawCallback | None => mret TELEPHONY_ERR_LOCAL_PTR_NULL end
  | ICoreService.KeepHiddenCameraDetection rawCallback => match rawCallback with Some rawCallback => KeepHiddenCameraDetection rawCallback | None => mret TELEPHONY_ERR_LOCAL_PTR_NULL end
  | ICoreService.SetSimLabelIndex simId simLabelIndex callback => SetSimLabelIndex simId simLabelIndex callback
  | ICoreService.IsMultiSimsCapabilitySupported slotId => IsMultiSimsCapabilitySupported slotId
  end.

(** The process as the stub sees it, with the IPC library's casts and default handler. *)
Definition server (iface_cast : remote -> option remote) (base : Z -> P -> P -> Z * P * P) : ServerSystem P (core_service P W) :=
  Build_ServerSystem P (core_service P W) (fun R c s => serve c s) iface_cast base.
End Service.
End CoreService.
Export CoreService (core_service).
