(* ===== verification/CoreServiceTypes.v ===== *)
(** * The types of the answers of the core service

    The integers and structures that the service returns are in the range of their C++ types when those of the managers are: the IPC layer
    (CoreServiceRefinement.v) relies on it. [returns m Q]: the code [m] can only return values that satisfy [Q]. *)

From S2P Require Import Prelude CxxString Parcel Parcelables OperatorConfig CellInformation NetworkState SignalInformation SignalInfo CoreServiceApi CoreServiceProxy CoreServiceStub CoreServiceIpc CoreServiceRefinement TelephonyPermission CoreManagers RawParcelCallback CoreService.
Open Scope Z_scope.
Open Scope ipc_scope.

#[export] Instance ok_esim_inner : Ok ResponseEsimInnerResult := fun r => is_i32 (inner_resultCode_ r) /\ is_i32 (inner_sw1_ r) /\ is_i32 (inner_sw2_ r).

Definition network_ok {R} (c : networkE R) : R -> Prop :=
  match c in INetworkSearch.networkE R return R -> Prop with
  | INetworkSearch.GetPsRadioTech _ _ | INetworkSearch.GetCsRadioTech _ _ | INetworkSearch.SetNetworkSelectionMode _ _ _ _ _ | INetworkSearch.GetSignalInfoList _ _ | INetworkSearch.GetOperatorNumeric _
  | INetworkSearch.GetResidentNetworkNumeric _ | INetworkSearch.GetOperatorName _ _ | INetworkSearch.GetNetworkStatus _ _ | INetworkSearch.SetRadioState _ _ _ _ | INetworkSearch.GetRadioState _ _
  | INetworkSearch.GetIsoCountryCodeForNetwork _ _ | INetworkSearch.GetImei _ _ | INetworkSearch.GetImeiSv _ _ | INetworkSearch.GetMeid _ _ | INetworkSearch.GetUniqueDeviceId _ _
  | INetworkSearch.IsNrSupported _ | INetworkSearch.SetNrOptionMode _ _ _ | INetworkSearch.GetNrOptionMode _ _ | INetworkSearch.GetNetworkSearchInformation _ _ | INetworkSearch.GetNetworkSelectionMode _ _
  | INetworkSearch.GetPreferredNetwork _ _ | INetworkSearch.SetPreferredNetwork _ _ _ | INetworkSearch.GetNetworkCapability _ _ _ | INetworkSearch.SetNetworkCapability _ _ _ | INetworkSearch.GetImsRegStatus _ _ _
  | INetworkSearch.GetCellInfoList _ _ | INetworkSearch.GetNeighboringCellInfoList _ _ | INetworkSearch.SendUpdateCellLocationRequest _ | INetworkSearch.RegisterImsRegInfoCallback _ _ _ _ | INetworkSearch.UnregisterImsRegInfoCallback _ _ _
  | INetworkSearch.GetBasebandVersion _ _ | INetworkSearch.FactoryReset _ | INetworkSearch.GetManualNetworkScanState _ _ | INetworkSearch.StopManualNetworkScanCallback _
  | INetworkSearch.StartManualNetworkScanCallback _ _ => fun r => ok r
  | INetworkSearch.GetNrSsbId _ _ => fun r => ok r.1 /\ (r.1 = TELEPHONY_ERR_SUCCESS -> ok r.2)
  end.
Definition sim_ok {R} (c : simE R) : R -> Prop :=
  match c in ISimManager.simE R return R -> Prop with
  | ISimManager.HasSimCard _ _ | ISimManager.GetSimState _ _ | ISimManager.GetDsdsMode _ | ISimManager.GetCardType _ _ | ISimManager.GetISOCountryCodeForSim _ _
  | ISimManager.GetSimSpn _ _ | ISimManager.GetSimIccId _ _ | ISimManager.GetSimOperatorNumeric _ _ | ISimManager.GetIMSI _ _ | ISimManager.IsCTSimCard _ _
  | ISimManager.IsSimActive _ | ISimManager.GetSlotId _ | ISimManager.GetSimId _ | ISimManager.GetPrimarySlotId _ | ISimManager.GetLocaleFromDefaultSim _
  | ISimManager.GetSimGid1 _ _ | ISimManager.GetSimGid2 _ | ISimManager.GetSimEons _ _ _ _ | ISimManager.GetSimAccountInfo _ _ _ | ISimManager.SetDefaultVoiceSlotId _
  | ISimManager.GetDefaultVoiceSlotId | ISimManager.GetRadioProtocolSlotIdByModemId _ | ISimManager.GetDefaultVoiceSimId _ | ISimManager.SetPrimarySlotId _ _ | ISimManager.SetShowNumber _ _
  | ISimManager.GetShowNumber _ _ | ISimManager.SetShowName _ _ | ISimManager.GetShowName _ _ | ISimManager.GetActiveSimAccountInfoList _ _ | ISimManager.GetOperatorConfigs _ _
  | ISimManager.UnlockPin _ _ _ | ISimManager.UnlockPuk _ _ _ _ | ISimManager.AlterPin _ _ _ _ | ISimManager.UnlockPin2 _ _ _ | ISimManager.UnlockPuk2 _ _ _ _
  | ISimManager.AlterPin2 _ _ _ _ | ISimManager.SetLockState _ _ _ | ISimManager.GetLockState _ _ _ | ISimManager.RefreshSimState _ | ISimManager.SetActiveSim _ _
  | ISimManager.SetActiveSimSatellite _ _ | ISimManager.GetSimTelephoneNumber _ _ | ISimManager.GetSimTeleNumberIdentifier _ | ISimManager.GetVoiceMailIdentifier _ _ | ISimManager.GetVoiceMailNumber _ _
  | ISimManager.GetVoiceMailCount _ _ | ISimManager.SetVoiceMailCount _ _ | ISimManager.SetVoiceCallForwarding _ _ _ | ISimManager.QueryIccDiallingNumbers _ _ _ | ISimManager.AddIccDiallingNumbers _ _ _
  | ISimManager.DelIccDiallingNumbers _ _ _ | ISimManager.UpdateIccDiallingNumbers _ _ _ | ISimManager.SetVoiceMailInfo _ _ _ | ISimManager.GetOpKey _ _ | ISimManager.GetOpKeyExt _ _
  | ISimManager.GetOpName _ _ | ISimManager.SendEnvelopeCmd _ _ | ISimManager.SendTerminalResponseCmd _ _ | ISimManager.SendCallSetupRequestResult _ _ | ISimManager.UnlockSimLock _ _ _
  | ISimManager.HasOperatorPrivileges _ _ | ISimManager.SimAuthentication _ _ _ _ | ISimManager.GetSimIO _ _ _ _ _ _ | ISimManager.GetAllSimAccountInfoList _ _ | ISimManager.GetSimLabel _ _
  | ISimManager.GetRealSimCount | ISimManager.SetSimLabelIndex _ _ => fun r => ok r
  end.
Definition esim_ok {R} (c : esimE R) : R -> Prop :=
  match c in IEsimManager.esimE R return R -> Prop with
  | IEsimManager.SendApduData _ _ _ _ => fun r => ok r
  end.

(** The managers and the vendor extension answer with values of the types of their methods. *)
Class TypedManagers (W : Type) `{ErrorCodes} `{Managers W} : Prop := {
  network_typed R (c : networkE R) p w : network_ok c (network_call R c p w).1;
  sim_typed R (c : simE R) p w : sim_ok c (sim_call R c p w).1;
  esim_typed R (c : esimE R) p w : esim_ok c (esim_call R c p w).1;
  slots_typed : is_i32 SIM_SLOT_COUNT_MD /\ is_i32 SIM_SLOT_COUNT_REAL;
  start_typed f cb cfg r w : startHiddenCameraDetectionExt_ = Some f -> is_i32 (f cb cfg r w).1;
  stop_typed f r w : stopHiddenCameraDetectionExt_ = Some f -> is_i32 (f r w).1;
  keep_typed f r w : keepHiddenCameraDetectionExt_ = Some f -> is_i32 (f r w).1;
  codes_typed : 0 < COMMON_ERR_OFFSET < 2 ^ 30
}.

(** ** Values that code can return *)

Definition returns {S A} (m : stateful S A) (Q : A -> Prop) : Prop := forall s, Q (m s).1.

Lemma returns_ret {S A} (a : A) (Q : A -> Prop) : Q a -> returns (mret a : stateful S A) Q.
Proof. by intros HQ s. Qed.
Lemma returns_bind {S A B} (m : stateful S A) (k : A -> stateful S B) Q' Q :
  returns m Q' -> (forall a, Q' a -> returns (k a) Q) -> returns (mbind k m) Q.
Proof. intros Hm Hk s. unfold mbind, stateful_bind. specialize (Hm s). destruct (m s) as [a s']. by apply Hk. Qed.
Lemma returns_any {S A} (m : stateful S A) : returns m (fun _ => True).
Proof. done. Qed.

Section Types.
Context {P W : Type} `{ParcelOps P} `{ErrorCodes} `{StringEx} `{AccessToken W} `{!Managers W} `{!TypedManagers W}.

Lemma returns_on_managers {A} (m : stateful W A) (Q : A -> Prop) : returns m Q -> returns (on_managers (P := P) m) Q.
Proof. intros Hm [w t]. unfold on_managers. cbn. specialize (Hm w). by destruct (m w). Qed.
Lemma returns_call {A} (m : stateful W A) (Q : A -> Prop) : returns m Q -> returns (CoreService.call (P := P) m) Q.
Proof.
  intros Hm s. unfold CoreService.call, CoreService.on_system. pose proof (returns_on_managers m Q Hm (CoreService.sys s)) as X.
  by destruct (on_managers m (CoreService.sys s)).
Qed.
Lemma returns_sim_call {A} (m : stateful W A) (Q : A -> Prop) : returns m Q -> returns (CoreServiceSim.call (P := P) m) Q.
Proof. intros Hm [o y]. unfold CoreServiceSim.call. pose proof (returns_on_managers m Q Hm y) as X. by destruct (on_managers m y). Qed.
Lemma returns_network {R} p (c : networkE R) : returns (CoreService.network (P := P) (W := W) p c) (network_ok c).
Proof. apply returns_call. intros w. apply network_typed. Qed.
Lemma returns_esim {R} p (c : esimE R) : returns (CoreService.esim (P := P) (W := W) p c) (esim_ok c).
Proof. apply returns_call. intros w. apply esim_typed. Qed.
Lemma returns_sim {R} p (c : simE R) : returns (CoreServiceSim.sim (P := P) (W := W) p c) (sim_ok c).
Proof. apply returns_sim_call. intros w. apply sim_typed. Qed.
Lemma returns_coreServiceSim {A} (m : CoreServiceSim.SimM (P := P) (W := W) A) (Q : A -> Prop) : returns m Q -> returns (CoreService.coreServiceSim m) Q.
Proof.
  intros Hm s. unfold CoreService.coreServiceSim. specialize (Hm (CoreService.coreServiceSim_ s, CoreService.sys s)). by destruct (m _) as [? []].
Qed.
Lemma returns_erase l : Forall IccAccountInfo_ok l ->
  returns (CoreServiceSim.erase_unsupported (P := P) (W := W) l) (fun l' => Forall IccAccountInfo_ok l' /\ zlen l' <= zlen l).
Proof.
  induction 1 as [|a l Ha Hl IH]; cbn [CoreServiceSim.erase_unsupported]; [by apply returns_ret|].
  eapply returns_bind; [apply returns_any|]. intros supported _. eapply returns_bind; [exact IH|]. intros l' [? ?]. apply returns_ret.
  destruct supported; rewrite ?zlen_cons; (split; [by try constructor|lia]).
Qed.
(** A function of the vendor extension, which can be missing. *)
Lemma returns_ext {F} (o : option F) (f : F -> stateful W Z) :
  (forall e, o = Some e -> returns (f e) is_i32) ->
  returns (match o with None => mret TELEPHONY_ERR_FAIL | Some e => CoreService.call (P := P) (f e) end : CoreService.CS Z) is_i32.
Proof.
  intros Hf. destruct o as [e|]; [by apply returns_call, Hf|]. apply returns_ret. pose proof (codes_typed (W := W)). unfold is_i32, TELEPHONY_ERR_FAIL. lia.
Qed.
Lemma code_typed k : 0 <= k < 2 ^ 30 -> is_i32 (COMMON_ERR_OFFSET + k).
Proof. pose proof (codes_typed (W := W)). unfold is_i32. lia. Qed.
Lemma code_fails k : 0 <= k < 2 ^ 30 -> COMMON_ERR_OFFSET + k = TELEPHONY_ERR_SUCCESS -> False.
Proof. pose proof (codes_typed (W := W)). unfold TELEPHONY_ERR_SUCCESS. lia. Qed.
End Types.

Lemma config_new_ok : config_ok OperatorConfig_new.
Proof. unfold config_ok, map_ok, ordered. cbn. repeat match goal with |- _ /\ _ => split end; first [by constructor|done]. Qed.

Ltac returns_step :=
  lazymatch goal with
  | |- returns (mret _) _ => apply returns_ret
  | |- returns (mbind _ (CoreServiceSim.sim _ _)) _ => eapply returns_bind; [apply returns_sim|intros]
  | |- returns (mbind _ (CoreService.esim _ _)) _ => eapply returns_bind; [apply returns_esim|intros]
  | |- returns (mbind _ (CoreServiceSim.erase_unsupported _)) _ => eapply returns_bind; [apply returns_erase|intros]
  | |- returns (mbind _ (match ?o with None => mret TELEPHONY_ERR_FAIL | Some _ => _ end)) _ =>
      eapply returns_bind; [apply returns_ext; intros ? E w; first [by eapply start_typed|by eapply stop_typed|by eapply keep_typed]|intros]
  | |- returns (mbind _ _) _ => eapply returns_bind; [apply returns_any|intros]
  | |- returns (if ?b then _ else _) _ => destruct b
  | |- returns (match ?o with Some _ => _ | None => _ end) _ => destruct o eqn:?
  | |- returns (let '(_, _) := ?x in _) _ => destruct x
  | |- returns (CoreService.network _ _) _ => refine (returns_network _ _)
  | |- returns (CoreServiceSim.sim _ _) _ => refine (returns_sim _ _)
  | |- returns (CoreService.coreServiceSim _) _ => apply returns_coreServiceSim
  | |- returns ?m _ => let h := head_of m in unfold h
  end.

Ltac ok_value :=
  try done; cbn [fst snd sim_ok network_ok esim_ok] in *;
  cbv [ok ok_Z ok_bool ok_cstring ok_u16string ok_pair ok_option ok_lock ok_perso ok_lock_status ok_ims ok_auth ok_label ok_apdu ok_esim ok_esim_inner ok_camera
    ok_network_state ok_account ok_dialling ok_network ok_config ok_ssb ok_cells ok_signals ok_accounts ok_numbers
    TELEPHONY_ERR_LOCAL_PTR_NULL TELEPHONY_ERR_PERMISSION_ERR TELEPHONY_ERR_ILLEGAL_USE_OF_SYSTEM_API TELEPHONY_ERR_SLOTID_INVALID TELEPHONY_ERR_FAIL TELEPHONY_ERR_NO_SIM_CARD] in *;
  cbn [fst snd] in *; destruct_and?;
  repeat match goal with |- _ /\ _ => split end;
  first [done|eassumption|apply code_typed; lia|by apply config_new_ok|by apply slots_typed
        |intros X; by apply code_fails in X].

Section Answers.
Context {P W : Type} `{ParcelOps P} `{ErrorCodes} `{StringEx} `{AccessToken W} `{!Managers W} `{!TypedManagers W}.
Context (indeterminate : Z) (Hi : is_i32 indeterminate).

Lemma serve_returns {R} (c : coreE R) : returns (CoreService.serve (P := P) (W := W) indeterminate c) (answer_ok c).
Proof.
  destruct c; unfold CoreService.serve; repeat returns_step.
  all: cbn [answer_ok].
  all: try solve [ok_value].
  all: cbn [sim_ok] in H5; destruct H6 as [F L], H5 as [Hz [_ Hl]]; cbn [fst snd] in *.
  all: split; [done|split; [done|]]; pose proof (zlen_nonneg a1); unfold is_i32 in *; cbn [fst snd]; lia.
Qed.

End Answers.

(** ** A core service in the same process

    A concrete instance of the parameters, at which the theorems of this file and of CoreServiceAccess.v are evaluated: managers that answer every call with
    a success and count the calls, a token service with a list of rights, and a client that hands its requests to the stub directly. *)

Module CoreServiceExample.
Export Loopback.

(** The caller's kind and permissions, the uses of permissions that were recorded, and the calls of managers. *)
Record process_state : Type := MkProcess { system_caller : bool; permissions : list cstring; uses : list (cstring * bool); calls : Z }.

#[export] Instance tokens : AccessToken process_state := {
  GetCallingTokenID := fun _ => 7;
  GetCallingFullTokenID := fun _ => 8;
  GetTokenTypeFlag := fun _ _ => 0;
  VerifyAccessToken := fun _ p w => if bool_decide (p ∈ permissions w) then 0 else -1;
  AddPermissionUsedRecord := fun _ p ok _ w => (0, MkProcess (system_caller w) (permissions w) (uses w ++ [(p, ok =? 1)]) (calls w));
  IsSystemAppByFullTokenID := fun _ w => system_caller w;
  TOKEN_HAP := 0;
  TOKEN_NATIVE := 1;
  TOKEN_SHELL := 2;
  PERMISSION_GRANTED := 0
}.

#[export] Instance sample_inner : Sample ResponseEsimInnerResult := MkEsimInner 0 [] 0x90 0.
#[export] Instance sample_inner_ok : SampleOk ResponseEsimInnerResult.
Proof. repeat split; done. Qed.
Definition network_answer R (c : networkE R) : R.
Proof. destruct c; exact sample. Defined.
Definition sim_answer R (c : simE R) : R.
Proof. destruct c; exact sample. Defined.
Definition esim_answer R (c : esimE R) : R.
Proof. destruct c; exact sample. Defined.
Definition one_call {R} (r : R) (w : process_state) : R * process_state := (r, MkProcess (system_caller w) (permissions w) (uses w) (calls w + 1)).

#[export] Instance managers_ : Managers process_state := {
  network_call := fun R c _ => one_call (network_answer R c);
  sim_call := fun R c _ => one_call (sim_answer R c);
  esim_call := fun R c _ => one_call (esim_answer R c);
  alive := fun _ _ => true;
  GetTokenID := fun _ => 7;
  SetParameter := fun _ _ w => w;
  SIM_SLOT_COUNT_MD := 2;
  SIM_SLOT_COUNT_REAL := 2;
  isAllowedInsertApn_ := None;
  getTargetOpkey_ := None;
  getOpkeyVersion_ := None;
  getOpnameVersion_ := None;
  startHiddenCameraDetectionExt_ := Some (fun _ _ _ => one_call 0);
  stopHiddenCameraDetectionExt_ := Some (fun _ => one_call 0);
  keepHiddenCameraDetectionExt_ := None
}.
#[export] Instance typed_managers : TypedManagers process_state.
Proof.
  split; try (intros; split; done); try done.
  - intros R c p w. destruct c; cbn [network_ok network_call managers_ one_call fst network_answer]; try apply sample_ok. split; [by split|intros _; apply sample_ok].
  - intros R c p w. destruct c; cbn [sim_ok sim_call managers_ one_call fst sim_answer]; apply sample_ok.
  - intros R c p w. destruct c; cbn [esim_ok esim_call managers_ one_call fst esim_answer]. apply sample_ok.
  - intros f cb cfg r w [= <-]. by split.
  - intros f r w [= <-]. by split.
Qed.

#[export] Instance server : ServerSystem (list item) (core_service (list item) process_state) := CoreService.server 0 (fun r => Some r) (fun _ d p => (305, d, p)).
#[export] Instance client : ClientSystem (list item) (core_service (list item) process_state) := {
  SendRequest_ := fun code async data w =>
    match CoreServiceStub.OnRemoteRequest code (MkIpc data [] w) with
    | Ret (st, s) => (if async : bool then ERR_NONE else st, reply s, world s) | _ => (TELEPHONY_ERROR, [], w) end;
  Remote := true;
  GetParameter := fun _ d => d
}.
#[export] Instance transport : Transport (list item) (core_service (list item) process_state).
Proof.
  split; [done| |done|split; reflexivity].
  intros code async data w. exists data, []. split; [done|]. split; [done|]. intros st s E. cbn [SendRequest_ client]. rewrite E. by exists (reply s).
Qed.

(** A service that has been started, with a caller of the given kind. *)
Definition started (system : bool) (permissions : list cstring) : core_service (list item) process_state :=
  CoreService.MkCoreService true STATE_RUNNING 0 0 (Some 2%positive) (Some 3%positive) (Some 4%positive) (Some 1%positive) None None None
    (CoreServiceSim.MkCoreServiceSim (Some 2%positive) None None) (MkSystem (MkProcess system permissions [] 0) []).
End CoreServiceExample.


Import CoreServiceExample.
