(* ===== verification/CoreServiceAccess.v ===== *)
(** * Who may use the core service

    [required] states, for each of the 112 methods, the rights that its caller needs. [access_control] shows that CoreService.v enforces it: a caller without one of the rights gets the error
    of the first that is missing, and nothing else happens — no manager is called, no task is posted, no answer is sent; only the record of uses of a
    permission changes. [client_access_control] shows the same for a call from another process, through proxy, parcels and stub. *)

From S2P Require Import Prelude CxxString Parcel Parcelables OperatorConfig CellInformation NetworkState SignalInformation SignalInfo CoreServiceApi CoreServiceProxy CoreServiceStub CoreServiceIpc CoreServiceRefinement TelephonyPermission CoreManagers RawParcelCallback CoreService CoreServiceTypes.
Open Scope Z_scope.

(** ** Rights *)

Inductive right : Type :=
| system_app
| permission (p : cstring)
| one_of (p q : cstring)
| slot (slotId : Z).

(** What the caller needs, in the order of the checks; the methods that are not listed can be called by anyone. *)
Definition required {R} (c : coreE R) : list right :=
  match c with
  | ICoreService.GetPsRadioTech _ | ICoreService.GetCsRadioTech _ | ICoreService.GetNetworkState _ | ICoreService.GetRadioState _ _ => [permission Permission.GET_NETWORK_INFO]
  | ICoreService.GetBasebandVersion _ | ICoreService.GetNetworkSearchInformation _ _ | ICoreService.GetImei _ _ | ICoreService.GetImeiSv _ _ | ICoreService.GetMeid _
  | ICoreService.GetUniqueDeviceId _ | ICoreService.GetDsdsMode | ICoreService.GetSimGid2 _ | ICoreService.GetPreferredNetwork _ _ | ICoreService.GetNetworkCapability _ _
  | ICoreService.GetImsRegStatus _ _ | ICoreService.RegisterImsRegInfoCallback _ _ _ | ICoreService.UnregisterImsRegInfoCallback _ _ => [system_app; permission Permission.GET_TELEPHONY_STATE]
  | ICoreService.SetRadioState _ _ _ | ICoreService.SetNetworkSelectionMode _ _ _ _ _ | ICoreService.SetActiveSimSatellite _ _ | ICoreService.SetPreferredNetwork _ _ _ | ICoreService.SetNetworkCapability _ _ _
  | ICoreService.SetNrOptionMode _ _ _ | ICoreService.FactoryReset _ | ICoreService.SetSimLabelIndex _ _ _ => [system_app; permission Permission.SET_TELEPHONY_STATE]
  | ICoreService.HasSimCard slotId _ | ICoreService.GetSimState slotId _ | ICoreService.GetCardType slotId | ICoreService.GetISOCountryCodeForSim slotId | ICoreService.GetSimOperatorNumeric slotId
  | ICoreService.GetSimSpn slotId | ICoreService.IsSimActive slotId _ | ICoreService.GetSimAccountInfo slotId | ICoreService.GetOpKey slotId | ICoreService.GetOpName slotId
  | ICoreService.HasOperatorPrivileges slotId _ | ICoreService.GetSimLabel slotId _ => [slot slotId]
  | ICoreService.GetSimIccId slotId | ICoreService.GetIMSI slotId | ICoreService.GetSimGid1 slotId | ICoreService.GetShowNumber slotId _ | ICoreService.GetOperatorConfigs slotId
  | ICoreService.GetLockState slotId _ _ | ICoreService.GetVoiceMailIdentifier slotId | ICoreService.GetVoiceMailNumber slotId | ICoreService.GetVoiceMailCount slotId | ICoreService.GetShowName slotId _ => [system_app; permission Permission.GET_TELEPHONY_STATE; slot slotId]
  | ICoreService.IsCTSimCard slotId _ => [system_app; slot slotId]
  | ICoreService.GetLocaleFromDefaultSim | ICoreService.GetSimTeleNumberIdentifier _ | ICoreService.GetSimIO _ _ _ _ _ | ICoreService.GetManualNetworkScanState _ _ | ICoreService.StartManualNetworkScanCallback _ _
  | ICoreService.StopManualNetworkScanCallback _ => [permission Permission.GET_TELEPHONY_STATE]
  | ICoreService.GetSimEons _ _ _ _ | ICoreService.RefreshSimState _ | ICoreService.GetNrOptionMode _ _ | ICoreService.IsAllowedInsertApn _ | ICoreService.GetTargetOpkey _ => [system_app]
  | ICoreService.SetDefaultVoiceSlotId slotId | ICoreService.SetPrimarySlotId slotId | ICoreService.SetShowNumber slotId _ _ | ICoreService.SetShowName slotId _ _ | ICoreService.UnlockPin slotId _ _
  | ICoreService.UnlockPuk slotId _ _ _ | ICoreService.AlterPin slotId _ _ _ | ICoreService.UnlockPin2 slotId _ _ | ICoreService.UnlockPuk2 slotId _ _ _ | ICoreService.AlterPin2 slotId _ _ _
  | ICoreService.SetLockState slotId _ _ | ICoreService.SetActiveSim slotId _ | ICoreService.SetVoiceMailInfo slotId _ _ | ICoreService.SendEnvelopeCmd slotId _ | ICoreService.SendTerminalResponseCmd slotId _
  | ICoreService.SendCallSetupRequestResult slotId _ | ICoreService.UnlockSimLock slotId _ => [system_app; permission Permission.SET_TELEPHONY_STATE; slot slotId]
  | ICoreService.GetSimTelephoneNumber slotId => [system_app; one_of Permission.GET_TELEPHONY_STATE Permission.GET_PHONE_NUMBERS; slot slotId]
  | ICoreService.SetVoiceMailCount _ _ | ICoreService.SetVoiceCallForwarding _ _ _ => [permission Permission.SET_TELEPHONY_STATE]
  | ICoreService.QueryIccDiallingNumbers slotId _ => [system_app; permission Permission.READ_CONTACTS; slot slotId]
  | ICoreService.AddIccDiallingNumbers slotId _ _ | ICoreService.DelIccDiallingNumbers slotId _ _ | ICoreService.UpdateIccDiallingNumbers slotId _ _ => [system_app; permission Permission.WRITE_CONTACTS; slot slotId]
  | ICoreService.GetCellInfoList _ | ICoreService.GetNeighboringCellInfoList _ | ICoreService.SendUpdateCellLocationRequest _ | ICoreService.GetNrSsbIdInfo _ => [system_app; permission Permission.CELL_LOCATION]
  | ICoreService.SimAuthentication slotId _ _ => [permission Permission.GET_TELEPHONY_STATE; slot slotId]
  | ICoreService.SendApduData _ _ _ => [system_app; permission Permission.SET_TELEPHONY_ESIM_STATE]
  | ICoreService.StartHiddenCameraDetection _ _ _ | ICoreService.StopHiddenCameraDetection _ | ICoreService.KeepHiddenCameraDetection _ => [permission Permission.HIDDEN_CAMERA_DETECTION]
  | _ => []
  end.

(** Methods that answer through a callback refuse a null one before they look at the slot. *)
Definition callback_given {R} (c : coreE R) : Prop :=
  match c with
  | ICoreService.GetImei _ callback | ICoreService.GetImeiSv _ callback | ICoreService.HasSimCard _ callback | ICoreService.GetSimState _ callback
  | ICoreService.IsCTSimCard _ callback | ICoreService.IsSimActive _ callback | ICoreService.GetDefaultVoiceSimId callback | ICoreService.SetShowNumber _ _ callback
  | ICoreService.GetShowNumber _ callback | ICoreService.SetShowName _ _ callback | ICoreService.UnlockPin _ _ callback | ICoreService.UnlockPuk _ _ _ callback
  | ICoreService.AlterPin _ _ _ callback | ICoreService.UnlockPin2 _ _ callback | ICoreService.UnlockPuk2 _ _ _ callback | ICoreService.AlterPin2 _ _ _ callback
  | ICoreService.SetLockState _ _ callback | ICoreService.GetLockState _ _ callback | ICoreService.HasOperatorPrivileges _ callback | ICoreService.GetShowName _ callback
  | ICoreService.SetSimLabelIndex _ _ callback | ICoreService.GetSimLabel _ callback | ICoreService.StartHiddenCameraDetection _ _ callback | ICoreService.StopHiddenCameraDetection callback
  | ICoreService.KeepHiddenCameraDetection callback => callback <> None
  | _ => True
  end.

(** The answer to a caller who is refused with the error [err]. *)
Definition refused {R} (c : coreE R) (err : Z) : R -> Prop :=
  match c in ICoreService.coreE R return R -> Prop with
  | ICoreService.GetPsRadioTech _ | ICoreService.GetCsRadioTech _ | ICoreService.GetOperatorName _ | ICoreService.GetBasebandVersion _ | ICoreService.GetNetworkState _ | ICoreService.GetSignalInfoList _
  | ICoreService.GetIsoCountryCodeForNetwork _ | ICoreService.GetMeid _ | ICoreService.GetUniqueDeviceId _ | ICoreService.GetDsdsMode | ICoreService.GetCardType _ | ICoreService.GetISOCountryCodeForSim _
  | ICoreService.GetSimOperatorNumeric _ | ICoreService.GetSimSpn _ | ICoreService.GetSimIccId _ | ICoreService.GetIMSI _ | ICoreService.GetSimGid1 _ | ICoreService.GetSimAccountInfo _
  | ICoreService.GetPrimarySlotId | ICoreService.GetActiveSimAccountInfoList | ICoreService.GetOperatorConfigs _ | ICoreService.GetNetworkCapability _ _ | ICoreService.GetSimTelephoneNumber _ | ICoreService.GetVoiceMailIdentifier _
  | ICoreService.GetVoiceMailNumber _ | ICoreService.GetVoiceMailCount _ | ICoreService.QueryIccDiallingNumbers _ _ | ICoreService.GetOpKey _ | ICoreService.GetOpKeyExt _ | ICoreService.GetOpName _
  | ICoreService.UnlockSimLock _ _ | ICoreService.GetImsRegStatus _ _ | ICoreService.GetCellInfoList _ | ICoreService.GetNeighboringCellInfoList _ | ICoreService.SimAuthentication _ _ _ | ICoreService.GetNrSsbIdInfo _
  | ICoreService.GetTargetOpkey _ | ICoreService.GetOpkeyVersion | ICoreService.GetOpnameVersion | ICoreService.GetSimIO _ _ _ _ _ | ICoreService.GetAllSimAccountInfoList | ICoreService.GetSimLabel _ _
  | ICoreService.SendApduData _ _ _ => fun r => r.1 = err
  | ICoreService.GetOperatorNumeric _ | ICoreService.GetLocaleFromDefaultSim | ICoreService.GetSimGid2 _ | ICoreService.GetSimEons _ _ _ _ | ICoreService.GetSimTeleNumberIdentifier _ => fun r => r = []
  | ICoreService.GetResidentNetworkNumeric _ => fun r => r = []
  | ICoreService.GetNetworkSearchInformation _ _ | ICoreService.SetRadioState _ _ _ | ICoreService.GetRadioState _ _ | ICoreService.GetImei _ _ | ICoreService.GetImeiSv _ _ | ICoreService.HasSimCard _ _
  | ICoreService.GetSimState _ _ | ICoreService.IsCTSimCard _ _ | ICoreService.GetSlotId _ | ICoreService.GetSimId _ | ICoreService.GetNetworkSelectionMode _ _ | ICoreService.SetNetworkSelectionMode _ _ _ _ _
  | ICoreService.SetDefaultVoiceSlotId _ | ICoreService.GetDefaultVoiceSlotId | ICoreService.GetDefaultVoiceSimId _ | ICoreService.SetPrimarySlotId _ | ICoreService.SetShowNumber _ _ _ | ICoreService.GetShowNumber _ _
  | ICoreService.SetShowName _ _ _ | ICoreService.UnlockPin _ _ _ | ICoreService.UnlockPuk _ _ _ _ | ICoreService.AlterPin _ _ _ _ | ICoreService.UnlockPin2 _ _ _ | ICoreService.UnlockPuk2 _ _ _ _
  | ICoreService.AlterPin2 _ _ _ _ | ICoreService.SetLockState _ _ _ | ICoreService.GetLockState _ _ _ | ICoreService.RefreshSimState _ | ICoreService.SetActiveSim _ _ | ICoreService.SetActiveSimSatellite _ _
  | ICoreService.GetPreferredNetwork _ _ | ICoreService.SetPreferredNetwork _ _ _ | ICoreService.SetNetworkCapability _ _ _ | ICoreService.SetVoiceMailCount _ _ | ICoreService.SetVoiceCallForwarding _ _ _ | ICoreService.AddIccDiallingNumbers _ _ _
  | ICoreService.DelIccDiallingNumbers _ _ _ | ICoreService.UpdateIccDiallingNumbers _ _ _ | ICoreService.SetVoiceMailInfo _ _ _ | ICoreService.GetMaxSimCount | ICoreService.GetRealSimCount | ICoreService.SendEnvelopeCmd _ _
  | ICoreService.SendTerminalResponseCmd _ _ | ICoreService.SendCallSetupRequestResult _ _ | ICoreService.SendUpdateCellLocationRequest _ | ICoreService.HasOperatorPrivileges _ _ | ICoreService.SetNrOptionMode _ _ _ | ICoreService.GetNrOptionMode _ _
  | ICoreService.RegisterImsRegInfoCallback _ _ _ | ICoreService.UnregisterImsRegInfoCallback _ _ | ICoreService.FactoryReset _ | ICoreService.GetShowName _ _ | ICoreService.GetManualNetworkScanState _ _ | ICoreService.StartManualNetworkScanCallback _ _
  | ICoreService.StopManualNetworkScanCallback _ | ICoreService.StartHiddenCameraDetection _ _ _ | ICoreService.StopHiddenCameraDetection _ | ICoreService.KeepHiddenCameraDetection _ | ICoreService.SetSimLabelIndex _ _ _ => fun r => r = err
  | ICoreService.IsSimActive _ _ => fun r => r = negb (err =? 0)
  | ICoreService.IsNrSupported _ | ICoreService.IsAllowedInsertApn _ | ICoreService.IsMultiSimsCapabilitySupported _ => fun r => r = true
  end.

Section Rights.
Context {W : Type} `{AccessToken W} `{ErrorCodes}.

Definition is_system_app (w : W) : bool := (TelephonyPermission.CheckCallerIsSystemApp w).1.
(** Whether the caller has the right, and the state with the uses of permissions recorded. *)
Definition has_right (r : right) : stateful W bool := fun w =>
  match r with
  | system_app => (is_system_app w, w)
  | permission p => (TelephonyPermission.granted p w, TelephonyPermission.audited p w)
  | one_of p q =>
      let w' := TelephonyPermission.audited p w in
      if TelephonyPermission.granted p w then (true, w') else (TelephonyPermission.granted q w', TelephonyPermission.audited q w')
  | slot slotId => (negb (slotId =? MultiSimsCapabilityMgr.SLOT_3_INDEX) || is_system_app w, w)
  end.
Definition error_of (r : right) : Z :=
  match r with
  | system_app => TELEPHONY_ERR_ILLEGAL_USE_OF_SYSTEM_API
  | permission _ | one_of _ _ => TELEPHONY_ERR_PERMISSION_ERR
  | slot _ => TELEPHONY_ERR_SLOTID_INVALID
  end.
(** The first right that the caller lacks. *)
Fixpoint missing (l : list right) : stateful W (option right) := fun w =>
  match l with
  | [] => (None, w)
  | r :: l => let '(ok, w) := has_right r w in if ok then missing l w else (Some r, w)
  end.
End Rights.

(** ** Enforcement *)

Section Enforcement.
Context {P W : Type} `{ParcelOps P} `{ErrorCodes} `{StringEx} `{AccessToken W} `{!Managers W}.
Implicit Types s : core_service P W.

(** The managers exist: [Init] has been run. *)
Definition running s : Prop :=
  CoreServiceSim.sim_manager (CoreService.coreServiceSim_ s) <> None /\ CoreService.network_search_manager s <> None /\ CoreService.esim_manager s <> None.
Definition with_managers (w : W) s : core_service P W := CoreService.set_inner (CoreService.coreServiceSim_ s) (MkSystem w (sent (CoreService.sys s))) s.

Lemma with_managers_id s : with_managers (managers (CoreService.sys s)) s = s.
Proof. by destruct s as [????????????[]]. Qed.
Lemma with_managers_twice w w' s : with_managers w (with_managers w' s) = with_managers w s.
Proof. done. Qed.

Lemma ensure_system {A} (k : CoreService.CS A) r s :
  mbind (fun ok : bool => if ok then k else mret r) CoreService.CheckCallerIsSystemApp s = (if is_system_app (managers (CoreService.sys s)) then k s else (r, s)).
Proof.
  unfold mbind, stateful_bind, CoreService.CheckCallerIsSystemApp, CoreService.call, CoreService.on_system, on_managers.
  unfold is_system_app, TelephonyPermission.CheckCallerIsSystemApp, gets. cbn [fst]. fold (with_managers (managers (CoreService.sys s)) s).
  rewrite with_managers_id. by destruct (if _ || _ then _ else _).
Qed.
Lemma bind_permission {A} p (k : bool -> CoreService.CS A) s :
  mbind k (CoreService.CheckPermission p) s =
  (let w := managers (CoreService.sys s) in k (TelephonyPermission.granted p w) (with_managers (TelephonyPermission.audited p w) s)).
Proof.
  unfold mbind, stateful_bind, CoreService.CheckPermission, CoreService.call, CoreService.on_system, on_managers.
  by rewrite TelephonyPermission.CheckPermission_granted.
Qed.
Lemma sim_ensure_system {A} (k : CoreServiceSim.SimM A) r (o : core_service_sim P W) y :
  mbind (fun ok : bool => if ok then k else mret r) CoreServiceSim.CheckCallerIsSystemApp (o, y) = (if is_system_app (managers y) then k (o, y) else (r, (o, y))).
Proof.
  unfold mbind, stateful_bind, CoreServiceSim.CheckCallerIsSystemApp, CoreServiceSim.call, on_managers.
  unfold is_system_app, TelephonyPermission.CheckCallerIsSystemApp, gets. cbn [fst]. destruct y. by destruct (if _ || _ then _ else _).
Qed.
Lemma sim_bind_permission {A} p (k : bool -> CoreServiceSim.SimM A) (o : core_service_sim P W) y :
  mbind k (CoreServiceSim.CheckPermission p) (o, y) =
  (let w := managers y in k (TelephonyPermission.granted p w) (o, MkSystem (TelephonyPermission.audited p w) (sent y))).
Proof.
  unfold mbind, stateful_bind, CoreServiceSim.CheckPermission, CoreServiceSim.call, on_managers.
  by rewrite TelephonyPermission.CheckPermission_granted.
Qed.
Lemma sim_ensure_slot {A} slotId (k : CoreServiceSim.SimM A) r (o : core_service_sim P W) y :
  mbind (fun ok : bool => if ok then k else mret r) (CoreServiceSim.IsMultiSimsCapabilitySupported slotId) (o, y) =
  (if negb (slotId =? MultiSimsCapabilityMgr.SLOT_3_INDEX) || is_system_app (managers y) then k (o, y) else (r, (o, y))).
Proof.
  unfold mbind, stateful_bind, CoreServiceSim.IsMultiSimsCapabilitySupported, CoreServiceSim.call, on_managers.
  rewrite MultiSimsCapabilityMgr.supported_is_system. unfold is_system_app. destruct y. by destruct (_ || _).
Qed.
Lemma deref_network {A} (k : pointer -> CoreService.CS A) r s :
  mbind (fun p => match p with Some x => k x | None => mret r end) CoreService.networkSearchManager_ s =
  (match CoreService.network_search_manager s with Some p => k p s | None => (r, s) end).
Proof. unfold mbind, stateful_bind, CoreService.networkSearchManager_, gets. by destruct (CoreService.network_search_manager s). Qed.
Lemma deref_esim {A} (k : pointer -> CoreService.CS A) r s :
  mbind (fun p => match p with Some x => k x | None => mret r end) CoreService.esimManager_ s =
  (match CoreService.esim_manager s with Some p => k p s | None => (r, s) end).
Proof. unfold mbind, stateful_bind, CoreService.esimManager_, gets. by destruct (CoreService.esim_manager s). Qed.
Lemma deref_sim {A} (k : pointer -> CoreServiceSim.SimM A) r (o : core_service_sim P W) y :
  mbind (fun p => match p with Some x => k x | None => mret r end) CoreServiceSim.simManager_ (o, y) =
  (match CoreServiceSim.sim_manager o with Some p => k p (o, y) | None => (r, (o, y)) end).
Proof. unfold mbind, stateful_bind, CoreServiceSim.simManager_, gets. cbn [fst]. by destruct (CoreServiceSim.sim_manager o). Qed.
Lemma sim_bind_ret {A B} (a : A) (k : A -> CoreServiceSim.SimM B) (x : core_service_sim P W * system P W) : mbind k (mret a : CoreServiceSim.SimM A) x = k a x.
Proof. done. Qed.
End Enforcement.

(** The checks of a method, one after the other. *)
Ltac access_step :=
  first [rewrite ensure_system|rewrite bind_permission|rewrite sim_ensure_system|rewrite sim_bind_permission|rewrite sim_ensure_slot
        |rewrite deref_network|rewrite deref_esim|rewrite deref_sim|rewrite sim_bind_ret].
Ltac access_cbn := cbn [CoreService.sys CoreService.network_search_manager CoreService.esim_manager CoreService.coreServiceSim_ CoreServiceSim.sim_manager
  managers sent with_managers CoreService.set_inner CoreService.registerToService_ CoreService.state_ CoreService.bindTime_ CoreService.endTime_ CoreService.sim_manager
  CoreService.tel_ril_manager CoreService.networkSearchManagerHandler_ CoreService.simGeneralHandler_ CoreService.simPinHandler_].
Ltac access_unfold :=
  lazymatch goal with
  | |- context [(?m {| CoreService.registerToService_ := _ |}).2] => let h := head_of m in unfold h
  end;
  try (unfold CoreService.coreServiceSim; access_cbn;
       lazymatch goal with |- context [let '(_, _) := ?m (_, _) in _] => let h := head_of m in unfold h end).
Ltac access_checks :=
  repeat (first [access_step; access_cbn|match goal with M : (if ?b then _ else _) = _ |- _ => destruct b eqn:? end|
    match goal with |- context [match (if ?b then _ else _) _ with _ => _ end] => destruct b eqn:? end]; try discriminate; cbn [negb orb]);
  try match goal with M : (Some _, _) = (Some _, _) |- _ => injection M as <- <-; split; reflexivity end.

Ltac access_go := access_unfold; access_checks.

Section Access.
Context {P W : Type} `{ParcelOps P} `{ErrorCodes} `{StringEx} `{AccessToken W} `{!Managers W}.
Context (indeterminate : Z).
Implicit Types s : core_service P W.

Lemma serve_refuses {R} (c : coreE R) s r w :
  running s -> callback_given c -> missing (required c) (managers (CoreService.sys s)) = (Some r, w) ->
  (CoreService.serve indeterminate c s).2 = with_managers w s /\ refused c (error_of r) (CoreService.serve indeterminate c s).1.
Proof.
  intros (Rs & Rn & Re) Cb M. destruct s as [a b c0 d e f g h i j k [o1 o2 o3] [v t]]. cbn in Rs, Rn, Re, M.
  destruct o1 as [o1|]; [|done]. destruct f as [f|]; [|done]. destruct g as [g|]; [|done].
  destruct c; try done.
  all: cbn [required missing has_right] in M; unfold CoreService.serve.
  all: cbn in Cb; try (destruct callback as [callback|]; [clear Cb|done]).
  all: try (destruct rawCallback as [rawCallback|]; [clear Cb|done]).
  all: access_go.
  - rewrite TelephonyPermission.audited_same in * by reflexivity. destruct (negb _ || _); [done|]. injection M as <- <-. by split.
  - destruct (TelephonyPermission.granted Permission.GET_TELEPHONY_STATE v); cbn [negb].
    + access_checks.
    + access_checks; destruct (TelephonyPermission.granted Permission.GET_PHONE_NUMBERS _); access_checks.
Qed.

(** C4: the checks of every method of the core service enforce the table of rights: when the caller lacks a right that the method needs, the method
    answers with the error of the first right that is missing and does nothing else: the members of the service, the tasks that wait and the answers that were sent
    are as before, no manager is called, and only the record of uses of a permission may have grown. *)
Theorem access_control {R} (c : coreE R) s r w :
  running s -> callback_given c -> missing (required c) (managers (CoreService.sys s)) = (Some r, w) ->
  (CoreService.serve indeterminate c s).2 = with_managers w s /\ refused c (error_of r) (CoreService.serve indeterminate c s).1.
Proof. apply serve_refuses. Qed.
End Access.

(** ** From another process *)

(** An answer that says that the call failed. A boolean cannot say it; and the three methods on hidden cameras are sent without waiting for the service's answer. *)
Definition failed {R} (c : coreE R) : R -> Prop :=
  match c in ICoreService.coreE R return R -> Prop with
  | ICoreService.GetPsRadioTech _ | ICoreService.GetCsRadioTech _ | ICoreService.GetOperatorName _ | ICoreService.GetBasebandVersion _ | ICoreService.GetNetworkState _ | ICoreService.GetSignalInfoList _
  | ICoreService.GetIsoCountryCodeForNetwork _ | ICoreService.GetMeid _ | ICoreService.GetUniqueDeviceId _ | ICoreService.GetDsdsMode | ICoreService.GetCardType _ | ICoreService.GetISOCountryCodeForSim _
  | ICoreService.GetSimOperatorNumeric _ | ICoreService.GetSimSpn _ | ICoreService.GetSimIccId _ | ICoreService.GetIMSI _ | ICoreService.GetSimGid1 _ | ICoreService.GetSimAccountInfo _
  | ICoreService.GetPrimarySlotId | ICoreService.GetActiveSimAccountInfoList | ICoreService.GetOperatorConfigs _ | ICoreService.GetNetworkCapability _ _ | ICoreService.GetSimTelephoneNumber _ | ICoreService.GetVoiceMailIdentifier _
  | ICoreService.GetVoiceMailNumber _ | ICoreService.GetVoiceMailCount _ | ICoreService.QueryIccDiallingNumbers _ _ | ICoreService.GetOpKey _ | ICoreService.GetOpKeyExt _ | ICoreService.GetOpName _
  | ICoreService.UnlockSimLock _ _ | ICoreService.GetImsRegStatus _ _ | ICoreService.GetCellInfoList _ | ICoreService.GetNeighboringCellInfoList _ | ICoreService.SimAuthentication _ _ _ | ICoreService.GetNrSsbIdInfo _
  | ICoreService.GetTargetOpkey _ | ICoreService.GetOpkeyVersion | ICoreService.GetOpnameVersion | ICoreService.GetSimIO _ _ _ _ _ | ICoreService.GetAllSimAccountInfoList | ICoreService.GetSimLabel _ _
  | ICoreService.SendApduData _ _ _ => fun r => r.1 <> TELEPHONY_ERR_SUCCESS
  | ICoreService.GetOperatorNumeric _ | ICoreService.GetLocaleFromDefaultSim | ICoreService.GetSimGid2 _ | ICoreService.GetSimEons _ _ _ _ | ICoreService.GetSimTeleNumberIdentifier _ => fun r => r = []
  | ICoreService.GetResidentNetworkNumeric _ => fun r => r = []
  | ICoreService.GetNetworkSearchInformation _ _ | ICoreService.SetRadioState _ _ _ | ICoreService.GetRadioState _ _ | ICoreService.GetImei _ _ | ICoreService.GetImeiSv _ _ | ICoreService.HasSimCard _ _
  | ICoreService.GetSimState _ _ | ICoreService.IsCTSimCard _ _ | ICoreService.GetSlotId _ | ICoreService.GetSimId _ | ICoreService.GetNetworkSelectionMode _ _ | ICoreService.SetNetworkSelectionMode _ _ _ _ _
  | ICoreService.SetDefaultVoiceSlotId _ | ICoreService.GetDefaultVoiceSlotId | ICoreService.GetDefaultVoiceSimId _ | ICoreService.SetPrimarySlotId _ | ICoreService.SetShowNumber _ _ _ | ICoreService.GetShowNumber _ _
  | ICoreService.SetShowName _ _ _ | ICoreService.UnlockPin _ _ _ | ICoreService.UnlockPuk _ _ _ _ | ICoreService.AlterPin _ _ _ _ | ICoreService.UnlockPin2 _ _ _ | ICoreService.UnlockPuk2 _ _ _ _
  | ICoreService.AlterPin2 _ _ _ _ | ICoreService.SetLockState _ _ _ | ICoreService.GetLockState _ _ _ | ICoreService.RefreshSimState _ | ICoreService.SetActiveSim _ _ | ICoreService.SetActiveSimSatellite _ _
  | ICoreService.GetPreferredNetwork _ _ | ICoreService.SetPreferredNetwork _ _ _ | ICoreService.SetNetworkCapability _ _ _ | ICoreService.SetVoiceMailCount _ _ | ICoreService.SetVoiceCallForwarding _ _ _ | ICoreService.AddIccDiallingNumbers _ _ _
  | ICoreService.DelIccDiallingNumbers _ _ _ | ICoreService.UpdateIccDiallingNumbers _ _ _ | ICoreService.SetVoiceMailInfo _ _ _ | ICoreService.GetMaxSimCount | ICoreService.GetRealSimCount | ICoreService.SendEnvelopeCmd _ _
  | ICoreService.SendTerminalResponseCmd _ _ | ICoreService.SendCallSetupRequestResult _ _ | ICoreService.SendUpdateCellLocationRequest _ | ICoreService.HasOperatorPrivileges _ _ | ICoreService.SetNrOptionMode _ _ _ | ICoreService.GetNrOptionMode _ _
  | ICoreService.RegisterImsRegInfoCallback _ _ _ | ICoreService.UnregisterImsRegInfoCallback _ _ | ICoreService.FactoryReset _ | ICoreService.GetShowName _ _ | ICoreService.GetManualNetworkScanState _ _ | ICoreService.StartManualNetworkScanCallback _ _
  | ICoreService.StopManualNetworkScanCallback _ | ICoreService.SetSimLabelIndex _ _ _ => fun r => r <> TELEPHONY_ERR_SUCCESS
  | _ => fun _ => True
  end.

(** Nothing happened but calls for the number of cards and records of uses of permissions. *)
Inductive only_counted {W} `{AccessToken W} `{!Managers W} : W -> W -> Prop :=
| counted_none w : only_counted w w
| counted_cards p w w' : only_counted (sim_call Z ISimManager.GetRealSimCount p w).2 w' -> only_counted w w'
| counted_use p w w' : only_counted (TelephonyPermission.audited p w) w' -> only_counted w w'.

Lemma only_counted_trans {W} `{AccessToken W} `{!Managers W} (w1 w2 w3 : W) : only_counted w1 w2 -> only_counted w2 w3 -> only_counted w1 w3.
Proof. induction 1; eauto using only_counted. Qed.
Lemma only_counted_missing {W} `{AccessToken W} `{!Managers W} `{ErrorCodes} l (w : W) : only_counted w (missing l w).2.
Proof.
  revert w. induction l as [|r l IH]; intros w; [constructor|]. cbn [missing].
  assert (only_counted w (has_right r w).2) as Hr.
  { destruct r; cbn [has_right]; try constructor; [by eapply counted_use, counted_none|].
    destruct (TelephonyPermission.granted p w); cbn [snd]; eauto using only_counted. }
  destruct (has_right r w) as [[] w']; cbn [snd] in *; [|done]. eapply only_counted_trans; [exact Hr|apply IH].
Qed.

Section Client.
Context {P W : Type} `{ParcelLaws P} `{!Roomy P} `{ErrorCodes} `{StringEx} `{AccessToken W} `{!Managers W} `{!TypedManagers W}.
Context (indeterminate : Z) (Hi : is_i32 indeterminate) (iface_cast : remote -> option remote) (base : Z -> P -> P -> Z * P * P).
#[local] Instance process : ServerSystem P (core_service P W) := CoreService.server indeterminate iface_cast base.
Context `{!ClientSystem P (core_service P W)} `{!Transport P (core_service P W)}.
Context (g : SignalGlobals).
(** Asking for the number of cards does not change the rights of the caller. *)
Context (count_keeps_rights : forall l p (w : W), (missing l (sim_call Z ISimManager.GetRealSimCount p w).2).1 = (missing l w).1).
Implicit Types s : core_service P W.

#[local] Instance process_typed : Typed P (core_service P W).
Proof. intros R c s. by apply serve_returns. Qed.

Lemma slots_counts s : running s -> exists n w, slots (P := P) s = (n, with_managers w s) /\ only_counted (managers (CoreService.sys s)) w /\
  forall l, (missing l w).1 = (missing l (managers (CoreService.sys s))).1.
Proof.
  intros (Rs & _ & _). destruct s as [a b c d e f h i j k m [o1 o2 o3] [v t]]. cbn in Rs. destruct o1 as [o1|]; [|done].
  destruct (sim_call Z ISimManager.GetRealSimCount o1 v) as [n w] eqn:E.
  assert (forall l, (missing l w).1 = (missing l v).1) as K by (intros l; rewrite <- (count_keeps_rights l o1 v), E; done).
  assert (only_counted v w) as O by (eapply (counted_cards o1); rewrite E; constructor).
  unfold slots, service, process, CoreService.server, CoreService.serve, CoreService.GetRealSimCount, CoreService.coreServiceSim. access_cbn.
  unfold CoreServiceSim.GetRealSimCount. rewrite deref_sim. access_cbn. unfold CoreServiceSim.sim, CoreServiceSim.call, on_managers. access_cbn. rewrite E.
  destruct CoreServiceProxy.GetDistributeModemMultiDeviceSwitch; cbn; eexists _, w; (split; [reflexivity|done]).
Qed.
Lemma refused_answer {R} (c : coreE R) s r :
  running s -> callback_given c -> (missing (required c) (managers (CoreService.sys s))).1 = Some r ->
  exists a w, service R c s = (a, with_managers w s) /\ refused c (error_of r) a /\ only_counted (managers (CoreService.sys s)) w.
Proof.
  intros Hr Cb M. destruct (missing (required c) (managers (CoreService.sys s))) as [o w] eqn:E. cbn in M. subst o.
  destruct (serve_refuses indeterminate c s r w Hr Cb E) as [E1 E2]. exists (CoreService.serve indeterminate c s).1, w.
  split; [cbn; rewrite <- E1; by destruct (CoreService.serve indeterminate c s)|]. split; [done|].
  pose proof (only_counted_missing (required c) (managers (CoreService.sys s))) as O. by rewrite E in O.
Qed.
Lemma not_success k : 0 <= k < 2 ^ 30 -> COMMON_ERR_OFFSET + k <> TELEPHONY_ERR_SUCCESS.
Proof. pose proof error_codes. unfold TELEPHONY_ERR_SUCCESS. lia. Qed.
Lemma error_fails r : error_of r <> TELEPHONY_ERR_SUCCESS.
Proof. pose proof error_codes. destruct r; cbn; unfold TELEPHONY_ERR_SUCCESS, TELEPHONY_ERR_ILLEGAL_USE_OF_SYSTEM_API, TELEPHONY_ERR_PERMISSION_ERR, TELEPHONY_ERR_SLOTID_INVALID; lia. Qed.


(** The client's side of a call whose caller lacks the right [r]: whatever the number of slots is, the service is left alone and the answer satisfies [F]. *)
Definition harmless s {A} (F : A -> Prop) (k : answer A) : Prop :=
  forall w, only_counted (managers (CoreService.sys s)) w -> (forall l, (missing l w).1 = (missing l (managers (CoreService.sys s))).1) ->
  exists w', (k (with_managers w s)).2 = with_managers w' s /\ only_counted (managers (CoreService.sys s)) w' /\ F (k (with_managers w s)).1.

Lemma harmless_return s {A} (F : A -> Prop) r : F r -> harmless s F (fun s => (r, s)).
Proof. intros Hr w O M. by exists w. Qed.
Lemma harmless_checked s {A} (F : A -> Prop) b r k : F r -> harmless s F k -> harmless s F (checked b r k).
Proof. intros Hr Hk. destruct b; [done|]. by apply harmless_return. Qed.
Lemma harmless_need s {A B} (F : A -> Prop) (x : option B) r k : F r -> harmless s F k -> harmless s F (need x r k).
Proof. intros Hr Hk. destruct x; [done|]. by apply harmless_return. Qed.
Lemma harmless_slot s {A} (F : A -> Prop) lo extra slotId r k : running s -> F r -> harmless s F k -> harmless s F (slot_in lo extra slotId r k).
Proof.
  intros R Hr Hk w O M. unfold slot_in. destruct (slots_counts (with_managers w s) R) as (n & w' & -> & O' & M').
  assert (only_counted (managers (CoreService.sys s)) w') as O2 by (by eapply only_counted_trans).
  assert (forall l, (missing l w').1 = (missing l (managers (CoreService.sys s))).1) as M2 by (intros l; rewrite M'; apply M).
  destruct (_ && _); [by apply Hk|]. by exists w'.
Qed.
Lemma harmless_ask s {R B} (c : coreE R) r (F : B -> Prop) (f : R -> B) :
  running s -> callback_given c -> (missing (required c) (managers (CoreService.sys s))).1 = Some r -> (forall a, refused c (error_of r) a -> F (f a)) ->
  harmless s F (fun s => let '(a, s) := service R c s in (f a, s)).
Proof.
  intros Hr Cb Mr HF w O M. destruct (refused_answer c (with_managers w s) r Hr Cb) as (a & w' & -> & Ra & O'); [by rewrite <- Mr, <- M|].
  exists w'. split; [done|]. split; [by eapply only_counted_trans|]. by apply HF.
Qed.
Definition state_result (res : Z) (n : option NetworkState) : Z := if is_null n && negb (res =? TELEPHONY_ERR_PERMISSION_ERR) then TELEPHONY_ERR_LOCAL_PTR_NULL else res.
Definition numbers_result (init : list DiallingNumbersInfo) (a : Z * list DiallingNumbersInfo) : Z * list DiallingNumbersInfo :=
  let '(res, l) := a in
  if res =? TELEPHONY_ERR_SUCCESS then if MAX_NUMBERS_SIZE <=? zlen l then (TELEPHONY_ERR_READ_DATA_FAIL, init) else (TELEPHONY_ERR_SUCCESS, init ++ l) else (res, init).
Lemma state_result_fails r n : state_result (error_of r) n <> TELEPHONY_ERR_SUCCESS.
Proof. unfold state_result. destruct (_ && _); [|apply error_fails]. by apply (not_success 7). Qed.
Lemma numbers_result_fails init r l : (numbers_result init (error_of r, l)).1 <> TELEPHONY_ERR_SUCCESS.
Proof. unfold numbers_result. destruct (Z.eqb_spec (error_of r) TELEPHONY_ERR_SUCCESS) as [E|N]; [by apply error_fails in E|done]. Qed.
Lemma harmless_ext s {A} (F : A -> Prop) k k' : (forall s, k s = k' s) -> harmless s F k' -> harmless s F k.
Proof. intros E Hk w O M. rewrite E. by apply Hk. Qed.

Ltac harmless_step :=
  lazymatch goal with
  | |- harmless _ _ (checked _ _ _) => apply harmless_checked
  | |- harmless _ _ (need _ _ _) => apply harmless_need
  | |- harmless _ _ (slot_ok _ _ _) => apply harmless_slot; [done| |]
  | |- harmless _ _ (slot_ok_ex _ _ _) => apply harmless_slot; [done| |]
  | |- harmless _ _ (slot_ok_default _ _ _) => apply harmless_slot; [done| |]
  | |- harmless _ _ (ask ?c) => eapply harmless_ext; [|eapply (harmless_ask _ c _ _ (fun a => a)); [done|done|eassumption|]]; [intros ?; unfold ask; by destruct (service _ c _)|]
  | |- harmless _ _ (tell ?c) => eapply harmless_ext; [|eapply (harmless_ask _ c _ _ (fun _ => TELEPHONY_SUCCESS)); [done|done|eassumption|]]; [intros ?; unfold tell; by destruct (service _ c _)|]
  | |- harmless _ _ (ask_out ?c ?i) => unfold ask_out
  | |- harmless _ _ (ask_state ?slotId ?i) =>
      eapply harmless_ext; [|eapply (harmless_ask _ (ICoreService.GetNetworkState slotId) _ _ (fun '(res, n) => (state_result res n, if state_result res n =? TELEPHONY_ERR_SUCCESS then n else i)));
        [done|done|eassumption|]]; [intros ?; unfold ask_state; by destruct (service _ _ _) as [[] ?]|intros [? ?] E; cbn in E |- *; subst; by apply state_result_fails]
  | |- harmless _ _ (ask_numbers ?slotId ?type ?i) =>
      eapply harmless_ext; [|eapply (harmless_ask _ (ICoreService.QueryIccDiallingNumbers slotId type) _ _ (numbers_result i)); [done|done|eassumption|]];
      [intros ?; unfold ask_numbers; by destruct (service _ _ _) as [[] ?]|intros [? ?] E; cbn in E; subst; by apply numbers_result_fails]
  | |- harmless _ _ (ask_list ?c ?i ?f) =>
      eapply harmless_ext; [|eapply (harmless_ask _ c _ _ (fun '(res, a) => (res, if res =? TELEPHONY_ERR_SUCCESS then f a else i))); [done|done|eassumption|]];
      [intros ?; unfold ask_list; by destruct (service _ c _) as [[] ?]|intros [? ?] E; cbn in E |- *; subst]
  end.

Lemma client_refused {R} (c : coreE R) (init : R) s r :
  running s -> callback_given c -> (missing (required c) (managers (CoreService.sys s))).1 = Some r ->
  harmless s (failed c) (spec (P := P) c init).
Proof.
  intros Hr Cb M. destruct c; try done; cbn [spec failed]; repeat harmless_step.
  all: try solve [done|apply error_fails|by apply not_success|intros a E; cbn in E |- *; subst; first [done|apply error_fails]].
  all: intros a E; cbn in E |- *; rewrite E; apply error_fails.
Qed.

End Client.

(** ** At concrete inputs *)

Import CoreServiceExample.
(** The rights of the example depend on two components of its state. *)
Definition same_caller (s u : process_state) : Prop := system_caller s = system_caller u /\ permissions s = permissions u.
Lemma same_audited p s u : same_caller s u -> same_caller (TelephonyPermission.audited p s) (TelephonyPermission.audited p u).
Proof.
  assert (forall w, same_caller w (TelephonyPermission.audited p w)) as K.
  { intros w. unfold TelephonyPermission.audited, TelephonyPermission.CheckPermission. repeat case_match; done. }
  intros [E1 E2]. destruct (K s), (K u). split; congruence.
Qed.
Lemma same_granted p s u : same_caller s u -> TelephonyPermission.granted p s = TelephonyPermission.granted p u.
Proof. intros [E1 E2]. unfold TelephonyPermission.granted. cbn. by rewrite E2. Qed.
Lemma same_system s u : same_caller s u -> is_system_app s = is_system_app u.
Proof. by intros [E1 E2]. Qed.
Lemma same_missing l s u : same_caller s u -> (missing l s).1 = (missing l u).1.
Proof.
  revert s u. induction l as [|r l IH]; intros s u E; [done|]. cbn [missing].
  destruct r as [|p|p q|slotId]; cbn [has_right].
  - rewrite (same_system s u E). destruct (is_system_app u); [by apply IH|done].
  - rewrite (same_granted p s u E). destruct (TelephonyPermission.granted p u); [by apply IH, same_audited|done].
  - rewrite (same_granted p s u E). destruct (TelephonyPermission.granted p u); [by apply IH, same_audited|].
    pose proof (same_audited p s u E) as E'. rewrite (same_granted q _ _ E'). destruct (TelephonyPermission.granted q _); [by apply IH, same_audited|done].
  - rewrite (same_system s u E). destruct (_ || _); [by apply IH|done].
Qed.
Lemma example_count l (p : pointer) (w : process_state) : (missing l (sim_call Z ISimManager.GetRealSimCount p w).2).1 = (missing l w).1.
Proof. by apply same_missing. Qed.

Lemma access_control_witness :
  (CoreService.serve (P := list item) 0 (ICoreService.AddIccDiallingNumbers 0 1 None) (started true [Permission.READ_CONTACTS])).2 =
    with_managers (MkProcess true [Permission.READ_CONTACTS] [(Permission.WRITE_CONTACTS, false)] 0) (started true [Permission.READ_CONTACTS]).
Proof.
  apply (access_control 0 (ICoreService.AddIccDiallingNumbers 0 1 None) (started true [Permission.READ_CONTACTS]) (permission Permission.WRITE_CONTACTS));
    [by repeat split|done|vm_compute; reflexivity].
Defined.
