(* ===== verification/CoreServiceClient.v ===== *)
(** * [frameworks/native/src/core_service_client.cpp]: the core service in a client process

    [CoreServiceClient] finds the core service, keeps its proxy until the service dies, and has a method per request. Most methods call the proxy; the methods
    whose answer comes through a callback object make the object, call the proxy and wait until the answer was transferred or the time is over. The service
    manager of the operating system and the death notifications of the IPC library are parameters. Metrics and log are left out, as is the failure
    to allocate an object. *)

From S2P Require Import Prelude CxxString Parcel Parcelables OperatorConfig CellInformation NetworkState SignalInformation SignalInfo CoreServiceApi CoreServiceProxy CoreServiceStub CoreManagers RawParcelCallback CoreService.
Open Scope Z_scope.
Open Scope ipc_scope.

Definition UNLOCK_INCORRECT : Z := -1.
Definition DEFAULT_RAW_CALLBACK_TIMEOUT_MS : Z := 10 * 1000.

(** A death recipient that a client has created, by its number. *)
Definition recipient : Type := nat.

(** The service manager and the remote objects as a client sees them. [iface_cast_core] makes the proxy of a remote object and [AsObject] is
    the remote object of a proxy. *)
Class ServiceRegistry (W : Type) : Type := {
  GetSystemAbilityManager : W -> bool;
  CheckSystemAbility : Z -> W -> option remote * W;
  TELEPHONY_CORE_SERVICE_SYS_ABILITY_ID : Z;
  IsProxyObject : remote -> W -> bool;
  AddDeathRecipient : remote -> recipient -> W -> bool * W;
  RemoveDeathRecipient_ : remote -> option recipient -> W -> W;
  iface_cast_core : remote -> option pointer;
  AsObject : pointer -> option remote
}.

Module CoreServiceClient.
(** The client object; [isValid_] of the recipients it has created, and the rest of the system. *)
Record core_service_client (W : Type) : Type := MkClient {
  proxy_ : option pointer;
  deathRecipient_ : option recipient;
  isValid_ : list bool;
  outside : W
}.
Arguments MkClient {W}. Arguments proxy_ {W}. Arguments deathRecipient_ {W}. Arguments isValid_ {W}. Arguments outside {W}.

Definition CL (W A : Type) : Type := core_service_client W -> outcome (A * core_service_client W).
#[export] Instance CL_ret {W} : MRet (CL W) := fun A a s => Ret (a, s).
#[export] Instance CL_bind {W} : MBind (CL W) := fun A B k m s => match m s with Ret (a, s) => k a s | Exn => Exn | Undef => Undef end.

(** A method that waits for a callback: [variables] are those that the reader of the callback fills; [request] makes the request with the callback object and gives either the
    method's result, when the request failed, or the output arguments as they are then; [timed_out] and [finished] are the results of a wait that failed or did not. *)
Record awaited (P W C O R : Type) : Type := {
  unavailable : R;
  variables : C;
  reader : P -> C -> C;
  request : remote -> M P W (R + O);
  timed_out : O -> R;
  finished : O -> C -> R
}.
Arguments unavailable {P W C O R}. Arguments variables {P W C O R}. Arguments reader {P W C O R}. Arguments request {P W C O R}.
Arguments timed_out {P W C O R}. Arguments finished {P W C O R}.

Section Client.
Context {P W : Type} `{ParcelOps P} `{ErrorCodes} `{StringEx} `{!ClientSystem P W} `{!ServiceRegistry W}.
#[local] Abbreviation CL := (CL W).
#[local] Abbreviation awaited := (awaited P W).

(** [data.Read...()] *)
Definition get {A} (rd : P -> option A * P) (d : A) (data : P) : A * P := let '(v, data) := rd data in (default d v, data).
(** A call of the proxy's method, which begins with fresh parcels. *)
Definition on_proxy {A} (proxy : pointer) (m : M P W A) : CL A :=
  fun s => '(a, t) ← m (MkIpc new_parcel new_parcel (outside s)); Ret (a, MkClient (proxy_ s) (deathRecipient_ s) (isValid_ s) (world t)).

(** ** The proxy and the death of the service *)

Definition CoreServiceClient_new (w : W) : core_service_client W := MkClient None None [] w.

Definition GetProxy : CL (option pointer) := fun s =>
  match proxy_ s with
  | Some proxy => Ret (Some proxy, s)
  | None =>
      if negb (GetSystemAbilityManager (outside s)) then Ret (None, s) else
      let '(obj, w) := CheckSystemAbility TELEPHONY_CORE_SERVICE_SYS_ABILITY_ID (outside s) in
      match obj with
      | None => Ret (None, MkClient None (deathRecipient_ s) (isValid_ s) w)
      | Some obj =>
          let dr := length (isValid_ s) in
          let isValid := isValid_ s ++ [true] in
          let '(added, w) := if IsProxyObject obj w then AddDeathRecipient obj dr w else (true, w) in
          if negb added then Ret (None, MkClient None (deathRecipient_ s) isValid w) else
          let proxy := iface_cast_core obj in
          Ret (proxy, MkClient proxy (Some dr) isValid w)
      end
  end.

Definition RemoveDeathRecipient (remote : option remote) (isRemoteDied : bool) : CL unit := fun s =>
  if isRemoteDied && is_null remote then Ret (tt, s) else
  match proxy_ s with
  | None => Ret (tt, s)
  | Some proxy =>
      match AsObject proxy with
      | None => Ret (tt, s)
      | Some serviceRemote =>
          if isRemoteDied && negb (bool_decide (Some serviceRemote = remote)) then Ret (tt, s) else
          Ret (tt, MkClient None (deathRecipient_ s) (isValid_ s) (RemoveDeathRecipient_ serviceRemote (deathRecipient_ s) (outside s)))
      end
  end.
Definition OnRemoteDied (remote : option remote) : CL unit := RemoveDeathRecipient remote true.
(** [CoreServiceDeathRecipient]: what a death notification of the recipient [dr] does. *)
Definition CoreServiceDeathRecipient_OnRemoteDied (dr : recipient) (remote : option remote) : CL unit := fun s =>
  if default false (isValid_ s !! dr) then OnRemoteDied remote s else Ret (tt, s).
Definition SetValid (dr : recipient) (isValid : bool) : CL unit := fun s => Ret (tt, MkClient (proxy_ s) (deathRecipient_ s) (<[dr := isValid]> (isValid_ s)) (outside s)).
(** The destructor. *)
Definition CoreServiceClient_delete : CL unit := fun s =>
  '(_, s) ← RemoveDeathRecipient None false s;
  match deathRecipient_ s with Some dr => SetValid dr false s | None => Ret (tt, s) end.

(** ** Waiting for a callback *)

(** The beginning of a waiting method, with the callback object that it has created. *)
Definition begin {C O R} (a : awaited C O R) (callback : remote) : CL (R + O) :=
  deref proxy := GetProxy or inl (unavailable a) ;;
  on_proxy proxy (request a callback).
(** Its end: [None] while it waits. *)
Definition conclude {C O R} (a : awaited C O R) (timeoutMs start now : Z) (out : O) (cb : RawParcelCallbackStub.callback C) : option R :=
  waitResult ← RawParcelCallbackStub.WaitForResult timeoutMs start now cb;
  if (waitResult : bool) then finished a out <$> RawParcelCallbackStub.cells cb else Some (timed_out a out).

(** ** Requests *)

Definition GetPsRadioTech (slotId psRadioTech : Z) : CL (Z * Z) :=
  deref proxy := GetProxy or (TELEPHONY_ERR_IPC_CONNECT_STUB_FAIL, psRadioTech) ;;
  on_proxy proxy (CoreServiceProxy.GetPsRadioTech slotId psRadioTech).
Definition GetCsRadioTech (slotId csRadioTech : Z) : CL (Z * Z) :=
  deref proxy := GetProxy or (TELEPHONY_ERR_IPC_CONNECT_STUB_FAIL, csRadioTech) ;;
  on_proxy proxy (CoreServiceProxy.GetCsRadioTech slotId csRadioTech).
Definition GetMeid (slotId : Z) (meid : u16string) : CL (Z * u16string) :=
  deref proxy := GetProxy or (TELEPHONY_ERR_IPC_CONNECT_STUB_FAIL, meid) ;;
  on_proxy proxy (CoreServiceProxy.GetMeid slotId meid).
Definition GetUniqueDeviceId (slotId : Z) (deviceId : u16string) : CL (Z * u16string) :=
  deref proxy := GetProxy or (TELEPHONY_ERR_IPC_CONNECT_STUB_FAIL, deviceId) ;;
  on_proxy proxy (CoreServiceProxy.GetUniqueDeviceId slotId deviceId).
Definition IsNrSupported (slotId : Z) : CL bool :=
  deref proxy := GetProxy or false ;;
  on_proxy proxy (CoreServiceProxy.IsNrSupported slotId).
Definition SetNrOptionMode (slotId mode : Z) (callback : option remote) : CL Z :=
  deref proxy := GetProxy or TELEPHONY_ERR_IPC_CONNECT_STUB_FAIL ;;
  on_proxy proxy (CoreServiceProxy.SetNrOptionMode slotId mode callback).
Definition GetNrOptionMode (slotId : Z) (callback : option remote) : CL Z :=
  deref proxy := GetProxy or TELEPHONY_ERR_IPC_CONNECT_STUB_FAIL ;;
  on_proxy proxy (CoreServiceProxy.GetNrOptionMode slotId callback).
Definition GetSignalInfoList (g : SignalGlobals) (slotId : Z) (signals : list SignalInformation) : CL (Z * list SignalInformation) :=
  let signals := [] in
  deref proxy := GetProxy or (TELEPHONY_ERR_IPC_CONNECT_STUB_FAIL, signals) ;;
  on_proxy proxy (CoreServiceProxy.GetSignalInfoList g slotId signals).
Definition GetOperatorNumeric (slotId : Z) : CL u16string :=
  deref proxy := GetProxy or [] ;;
  on_proxy proxy (CoreServiceProxy.GetOperatorNumeric slotId).
Definition GetResidentNetworkNumeric (slotId : Z) : CL cstring :=
  deref proxy := GetProxy or [] ;;
  on_proxy proxy (CoreServiceProxy.GetResidentNetworkNumeric slotId).
Definition GetOperatorName (slotId : Z) (operatorName : u16string) : CL (Z * u16string) :=
  deref proxy := GetProxy or (TELEPHONY_ERR_IPC_CONNECT_STUB_FAIL, operatorName) ;;
  on_proxy proxy (CoreServiceProxy.GetOperatorName slotId operatorName).
Definition GetNetworkState (slotId : Z) (networkState : option NetworkState) : CL (Z * option NetworkState) :=
  deref proxy := GetProxy or (TELEPHONY_ERR_IPC_CONNECT_STUB_FAIL, networkState) ;;
  on_proxy proxy (CoreServiceProxy.GetNetworkState slotId networkState).
Definition SetRadioState (slotId : Z) (isOn : bool) (callback : option remote) : CL Z :=
  deref proxy := GetProxy or TELEPHONY_ERR_IPC_CONNECT_STUB_FAIL ;;
  on_proxy proxy (CoreServiceProxy.SetRadioState slotId isOn callback).
Definition GetRadioState (slotId : Z) (callback : option remote) : CL Z :=
  deref proxy := GetProxy or TELEPHONY_ERR_IPC_CONNECT_STUB_FAIL ;;
  on_proxy proxy (CoreServiceProxy.GetRadioState slotId callback).
Definition GetImei (slotId : Z) (imei : u16string) : awaited (Z * u16string) u16string (Z * u16string) := {|
  unavailable := (TELEPHONY_ERR_IPC_CONNECT_STUB_FAIL, imei);
  variables := (TELEPHONY_ERR_IPC_CONNECT_STUB_FAIL, []);
  reader := fun data '(result, imeiTmp) => let '(result, data) := get ReadInt32 0 data in 
      if result =? TELEPHONY_ERR_SUCCESS then let '(imeiTmp, data) := get ReadString16 [] data in (result, imeiTmp) else (result, imeiTmp);
  request := fun callback => ret ← CoreServiceProxy.GetImei slotId (Some callback); mret (if negb (ret =? TELEPHONY_ERR_SUCCESS) then inl (ret, imei) else inr imei);
  timed_out := fun imei => (TELEPHONY_ERR_IPC_CONNECT_STUB_FAIL, imei);
  finished := fun imei '(result, imeiTmp) => if result =? TELEPHONY_ERR_SUCCESS then (result, imeiTmp) else (result, imei)
|}.
Definition GetImeiSv (slotId : Z) (imeiSv : u16string) : awaited (Z * u16string) u16string (Z * u16string) := {|
  unavailable := (TELEPHONY_ERR_IPC_CONNECT_STUB_FAIL, imeiSv);
  variables := (TELEPHONY_ERR_IPC_CONNECT_STUB_FAIL, []);
  reader := fun data '(result, imeiSvTmp) => let '(result, data) := get ReadInt32 0 data in 
      if result =? TELEPHONY_ERR_SUCCESS then let '(imeiSvTmp, data) := get ReadString16 [] data in (result, imeiSvTmp) else (result, imeiSvTmp);
  request := fun callback => ret ← CoreServiceProxy.GetImeiSv slotId (Some callback); mret (if negb (ret =? TELEPHONY_ERR_SUCCESS) then inl (ret, imeiSv) else inr imeiSv);
  timed_out := fun imeiSv => (TELEPHONY_ERR_IPC_CONNECT_STUB_FAIL, imeiSv);
  finished := fun imeiSv '(result, imeiSvTmp) => if result =? TELEPHONY_ERR_SUCCESS then (result, imeiSvTmp) else (result, imeiSv)
|}.
Definition HasSimCard (slotId : Z) (hasSimCard : bool) : awaited (Z * bool) bool (Z * bool) := {|
  unavailable := (TELEPHONY_ERR_IPC_CONNECT_STUB_FAIL, hasSimCard);
  variables := (TELEPHONY_ERR_IPC_CONNECT_STUB_FAIL, false);
  reader := fun data '(result, hasSimCardTmp) => let '(result, data) := get ReadInt32 0 data in 
      if result =? TELEPHONY_ERR_SUCCESS then let '(hasSimCardTmp, data) := get ReadBool false data in (result, hasSimCardTmp) else (result, hasSimCardTmp);
  request := fun callback => ret ← CoreServiceProxy.HasSimCard slotId (Some callback); mret (if negb (ret =? TELEPHONY_ERR_SUCCESS) then inl (ret, hasSimCard) else inr hasSimCard);
  timed_out := fun hasSimCard => (TELEPHONY_ERR_IPC_CONNECT_STUB_FAIL, hasSimCard);
  finished := fun hasSimCard '(result, hasSimCardTmp) => if result =? TELEPHONY_ERR_SUCCESS then (result, hasSimCardTmp) else (result, hasSimCard)
|}.
Definition GetSimState (slotId simState : Z) : awaited (Z * Z) Z (Z * Z) := {|
  unavailable := (TELEPHONY_ERR_IPC_CONNECT_STUB_FAIL, simState);
  variables := (TELEPHONY_ERR_IPC_CONNECT_STUB_FAIL, 0);
  reader := fun data '(result, simStateTmp) => let '(result, data) := get ReadInt32 0 data in 
      if result =? TELEPHONY_ERR_SUCCESS then let '(simStateTmp, data) := get ReadInt32 0 data in (result, simStateTmp) else (result, simStateTmp);
  request := fun callback => ret ← CoreServiceProxy.GetSimState slotId (Some callback); mret (if negb (ret =? TELEPHONY_ERR_SUCCESS) then inl (ret, simState) else inr simState);
  timed_out := fun simState => (TELEPHONY_ERR_IPC_CONNECT_STUB_FAIL, simState);
  finished := fun simState '(result, simStateTmp) => if result =? TELEPHONY_ERR_SUCCESS then (result, simStateTmp) else (result, simState)
|}.
Definition GetDsdsMode (dsdsMode : Z) : CL (Z * Z) :=
  deref proxy := GetProxy or (TELEPHONY_ERR_IPC_CONNECT_STUB_FAIL, dsdsMode) ;;
  on_proxy proxy (CoreServiceProxy.GetDsdsMode dsdsMode).
Definition GetSimOperatorNumeric (slotId : Z) (operatorNumeric : u16string) : CL (Z * u16string) :=
  deref proxy := GetProxy or (TELEPHONY_ERR_IPC_CONNECT_STUB_FAIL, operatorNumeric) ;;
  on_proxy proxy (CoreServiceProxy.GetSimOperatorNumeric slotId operatorNumeric).
Definition GetISOCountryCodeForSim (slotId : Z) (countryCode : u16string) : CL (Z * u16string) :=
  deref proxy := GetProxy or (TELEPHONY_ERR_IPC_CONNECT_STUB_FAIL, countryCode) ;;
  on_proxy proxy (CoreServiceProxy.GetISOCountryCodeForSim slotId countryCode).
Definition GetSimSpn (slotId : Z) (spn : u16string) : CL (Z * u16string) :=
  deref proxy := GetProxy or (TELEPHONY_ERR_IPC_CONNECT_STUB_FAIL, spn) ;;
  on_proxy proxy (CoreServiceProxy.GetSimSpn slotId spn).
Definition GetSimIccId (slotId : Z) (iccId : u16string) : CL (Z * u16string) :=
  deref proxy := GetProxy or (TELEPHONY_ERR_IPC_CONNECT_STUB_FAIL, iccId) ;;
  on_proxy proxy (CoreServiceProxy.GetSimIccId slotId iccId).
Definition GetIMSI (slotId : Z) (imsi : u16string) : CL (Z * u16string) :=
  deref proxy := GetProxy or (TELEPHONY_ERR_IPC_CONNECT_STUB_FAIL, imsi) ;;
  on_proxy proxy (CoreServiceProxy.GetIMSI slotId imsi).
Definition IsCTSimCard (slotId : Z) (isCTSimCard : bool) : awaited (Z * bool) bool (Z * bool) := {|
  unavailable := (TELEPHONY_ERR_IPC_CONNECT_STUB_FAIL, isCTSimCard);
  variables := (TELEPHONY_ERR_IPC_CONNECT_STUB_FAIL, false);
  reader := fun data '(result, isCTsimCardTmp) => let '(result, data) := get ReadInt32 0 data in 
      if result =? TELEPHONY_ERR_SUCCESS then let '(isCTsimCardTmp, data) := get ReadBool false data in (result, isCTsimCardTmp) else (result, isCTsimCardTmp);
  request := fun callback => ret ← CoreServiceProxy.IsCTSimCard slotId (Some callback); mret (if negb (ret =? TELEPHONY_ERR_SUCCESS) then inl (ret, isCTSimCard) else inr isCTSimCard);
  timed_out := fun isCTSimCard => (TELEPHONY_ERR_IPC_CONNECT_STUB_FAIL, isCTSimCard);
  finished := fun isCTSimCard '(result, isCTsimCardTmp) => if result =? TELEPHONY_ERR_SUCCESS then (result, isCTsimCardTmp) else (result, isCTSimCard)
|}.
Definition IsSimActive (slotId : Z) : awaited bool unit bool := {|
  unavailable := false;
  variables := false;
  reader := fun data result => let '(result, data) := get ReadBool false data in result;
  request := fun callback => ret ← CoreServiceProxy.IsSimActive slotId (Some callback); mret (if negb ret then inl ret else inr tt);
  timed_out := fun _ => false;
  finished := fun _ result => result
|}.
Definition GetSlotId (simId : Z) : CL Z :=
  deref proxy := GetProxy or TELEPHONY_ERROR ;;
  on_proxy proxy (CoreServiceProxy.GetSlotId simId).
Definition GetSimId (slotId : Z) : CL Z :=
  deref proxy := GetProxy or TELEPHONY_ERROR ;;
  on_proxy proxy (CoreServiceProxy.GetSimId slotId).
Definition GetNetworkSearchInformation (slotId : Z) (callback : option remote) : CL Z :=
  deref proxy := GetProxy or TELEPHONY_ERR_IPC_CONNECT_STUB_FAIL ;;
  on_proxy proxy (CoreServiceProxy.GetNetworkSearchInformation slotId callback).
Definition GetNetworkSelectionMode (slotId : Z) (callback : option remote) : CL Z :=
  deref proxy := GetProxy or TELEPHONY_ERR_IPC_CONNECT_STUB_FAIL ;;
  on_proxy proxy (CoreServiceProxy.GetNetworkSelectionMode slotId callback).
Definition GetLocaleFromDefaultSim : CL u16string :=
  deref proxy := GetProxy or [] ;;
  on_proxy proxy (CoreServiceProxy.GetLocaleFromDefaultSim).
Definition GetSimGid1 (slotId : Z) (gid1 : u16string) : CL (Z * u16string) :=
  deref proxy := GetProxy or (TELEPHONY_ERR_IPC_CONNECT_STUB_FAIL, gid1) ;;
  on_proxy proxy (CoreServiceProxy.GetSimGid1 slotId gid1).
Definition GetSimGid2 (slotId : Z) : CL u16string :=
  deref proxy := GetProxy or [] ;;
  on_proxy proxy (CoreServiceProxy.GetSimGid2 slotId).
Definition GetSimEons (slotId : Z) (plmn : cstring) (lac : Z) (longNameRequired : bool) : CL u16string :=
  deref proxy := GetProxy or [] ;;
  on_proxy proxy (CoreServiceProxy.GetSimEons slotId plmn lac longNameRequired).
Definition SetNetworkSelectionMode (slotId selectMode : Z) (networkInformation : option NetworkInformation) (resumeSelection : bool) (callback : option remote) : CL Z :=
  deref proxy := GetProxy or TELEPHONY_ERR_IPC_CONNECT_STUB_FAIL ;;
  on_proxy proxy (CoreServiceProxy.SetNetworkSelectionMode slotId selectMode networkInformation resumeSelection callback).
Definition GetIsoCountryCodeForNetwork (slotId : Z) (countryCode : u16string) : CL (Z * u16string) :=
  deref proxy := GetProxy or (TELEPHONY_ERR_IPC_CONNECT_STUB_FAIL, countryCode) ;;
  on_proxy proxy (CoreServiceProxy.GetIsoCountryCodeForNetwork slotId countryCode).
Definition GetSimAccountInfo (slotId : Z) (info : IccAccountInfo) : CL (Z * IccAccountInfo) :=
  deref proxy := GetProxy or (TELEPHONY_ERR_IPC_CONNECT_STUB_FAIL, info) ;;
  on_proxy proxy (CoreServiceProxy.GetSimAccountInfo slotId info).
Definition SetDefaultVoiceSlotId (slotId : Z) : CL Z :=
  deref proxy := GetProxy or TELEPHONY_ERR_IPC_CONNECT_STUB_FAIL ;;
  on_proxy proxy (CoreServiceProxy.SetDefaultVoiceSlotId slotId).
Definition GetDefaultVoiceSlotId : CL Z :=
  deref proxy := GetProxy or TELEPHONY_ERR_IPC_CONNECT_STUB_FAIL ;;
  on_proxy proxy (CoreServiceProxy.GetDefaultVoiceSlotId).
Definition GetDefaultVoiceSimId (simId : Z) : awaited (Z * Z) Z (Z * Z) := {|
  unavailable := (TELEPHONY_ERR_IPC_CONNECT_STUB_FAIL, simId);
  variables := (TELEPHONY_ERR_IPC_CONNECT_STUB_FAIL, 0);
  reader := fun data '(result, simIdTmp) => let '(result, data) := get ReadInt32 0 data in 
      if result =? TELEPHONY_ERR_SUCCESS then let '(simIdTmp, data) := get ReadInt32 0 data in (result, simIdTmp) else (result, simIdTmp);
  request := fun callback => ret ← CoreServiceProxy.GetDefaultVoiceSimId (Some callback); mret (if negb (ret =? TELEPHONY_ERR_SUCCESS) then inl (ret, simId) else inr simId);
  timed_out := fun simId => (TELEPHONY_ERR_IPC_CONNECT_STUB_FAIL, simId);
  finished := fun simId '(result, simIdTmp) => if result =? TELEPHONY_ERR_SUCCESS then (result, simIdTmp) else (result, simId)
|}.
Definition SetShowNumber (slotId : Z) (number : u16string) : awaited Z unit Z := {|
  unavailable := TELEPHONY_ERR_IPC_CONNECT_STUB_FAIL;
  variables := TELEPHONY_ERR_IPC_CONNECT_STUB_FAIL;
  reader := fun data result => let '(result, data) := get ReadInt32 0 data in result;
  request := fun callback => ret ← CoreServiceProxy.SetShowNumber slotId number (Some callback); mret (if negb (ret =? TELEPHONY_ERR_SUCCESS) then inl ret else inr tt);
  timed_out := fun _ => TELEPHONY_ERR_IPC_CONNECT_STUB_FAIL;
  finished := fun _ result => result
|}.
Definition GetShowNumber (slotId : Z) (showNumber : u16string) : awaited (Z * u16string) u16string (Z * u16string) := {|
  unavailable := (TELEPHONY_ERR_IPC_CONNECT_STUB_FAIL, showNumber);
  variables := (TELEPHONY_ERR_IPC_CONNECT_STUB_FAIL, []);
  reader := fun data '(result, showNumTmp) => let '(result, data) := get ReadInt32 0 data in 
      if result =? TELEPHONY_ERR_SUCCESS then let '(showNumTmp, data) := get ReadString16 [] data in (result, showNumTmp) else (result, showNumTmp);
  request := fun callback => ret ← CoreServiceProxy.GetShowNumber slotId (Some callback); mret (if negb (ret =? TELEPHONY_ERR_SUCCESS) then inl (ret, showNumber) else inr showNumber);
  timed_out := fun showNumber => (TELEPHONY_ERR_IPC_CONNECT_STUB_FAIL, showNumber);
  finished := fun showNumber '(result, showNumTmp) => if result =? TELEPHONY_ERR_SUCCESS then (result, showNumTmp) else (result, showNumber)
|}.
Definition SetShowName (slotId : Z) (name : u16string) : awaited Z unit Z := {|
  unavailable := TELEPHONY_ERR_IPC_CONNECT_STUB_FAIL;
  variables := TELEPHONY_ERR_IPC_CONNECT_STUB_FAIL;
  reader := fun data result => let '(result, data) := get ReadInt32 0 data in result;
  request := fun callback => ret ← CoreServiceProxy.SetShowName slotId name (Some callback); mret (if negb (ret =? TELEPHONY_ERR_SUCCESS) then inl ret else inr tt);
  timed_out := fun _ => TELEPHONY_ERR_IPC_CONNECT_STUB_FAIL;
  finished := fun _ result => result
|}.
Definition GetShowName (slotId : Z) (showName : u16string) : awaited (Z * u16string) u16string (Z * u16string) := {|
  unavailable := (TELEPHONY_ERR_IPC_CONNECT_STUB_FAIL, showName);
  variables := (TELEPHONY_ERR_IPC_CONNECT_STUB_FAIL, []);
  reader := fun data '(result, showNameTmp) => let '(result, data) := get ReadInt32 0 data in 
      if result =? TELEPHONY_ERR_SUCCESS then let '(showNameTmp, data) := get ReadString16 [] data in (result, showNameTmp) else (result, showNameTmp);
  request := fun callback => ret ← CoreServiceProxy.GetShowName slotId (Some callback); mret (if negb (ret =? TELEPHONY_ERR_SUCCESS) then inl (ret, showName) else inr showName);
  timed_out := fun showName => (TELEPHONY_ERR_IPC_CONNECT_STUB_FAIL, showName);
  finished := fun showName '(result, showNameTmp) => if result =? TELEPHONY_ERR_SUCCESS then (result, showNameTmp) else (result, showName)
|}.
Definition GetActiveSimAccountInfoList (iccAccountInfoList : list IccAccountInfo) : CL (Z * list IccAccountInfo) :=
  deref proxy := GetProxy or (TELEPHONY_ERR_IPC_CONNECT_STUB_FAIL, iccAccountInfoList) ;;
  on_proxy proxy (CoreServiceProxy.GetActiveSimAccountInfoList iccAccountInfoList).
Definition GetOperatorConfigs (slotId : Z) (poc : OperatorConfig) : CL (Z * OperatorConfig) :=
  deref proxy := GetProxy or (TELEPHONY_ERR_IPC_CONNECT_STUB_FAIL, poc) ;;
  on_proxy proxy (CoreServiceProxy.GetOperatorConfigs slotId poc).
Definition UnlockPin (slotId : Z) (pin : u16string) (response : LockStatusResponse) : awaited (Z * Z * Z) LockStatusResponse (Z * LockStatusResponse) := {|
  unavailable := (TELEPHONY_ERR_IPC_CONNECT_STUB_FAIL, response);
  variables := (TELEPHONY_ERR_IPC_CONNECT_STUB_FAIL, 0, 0);
  reader := fun data '(result, resultTmp, reMainTmp) => let '(result, data) := get ReadInt32 0 data in 
      if result =? TELEPHONY_ERR_SUCCESS then let '(resultTmp, data) := get ReadInt32 0 data in let '(reMainTmp, data) := get ReadInt32 0 data in (result, resultTmp, reMainTmp) else (result, resultTmp, reMainTmp);
  request := fun callback => ret ← CoreServiceProxy.UnlockPin slotId pin (Some callback); mret (if negb (ret =? TELEPHONY_ERR_SUCCESS) then inl (ret, response) else inr response);
  timed_out := fun response => (TELEPHONY_ERR_IPC_CONNECT_STUB_FAIL, response);
  finished := fun response '(result, resultTmp, reMainTmp) => if result =? TELEPHONY_ERR_SUCCESS then
      let response := MkLockStatus resultTmp (lock_remain response) in
      let response := if lock_result response =? UNLOCK_INCORRECT then MkLockStatus (lock_result response) reMainTmp else response in
      (result, response)
    else (result, response)
|}.
Definition UnlockPuk (slotId : Z) (newPin puk : u16string) (response : LockStatusResponse) : awaited (Z * Z * Z) LockStatusResponse (Z * LockStatusResponse) := {|
  unavailable := (TELEPHONY_ERR_IPC_CONNECT_STUB_FAIL, response);
  variables := (TELEPHONY_ERR_IPC_CONNECT_STUB_FAIL, 0, 0);
  reader := fun data '(result, resultTmp, reMainTmp) => let '(result, data) := get ReadInt32 0 data in 
      if result =? TELEPHONY_ERR_SUCCESS then let '(resultTmp, data) := get ReadInt32 0 data in let '(reMainTmp, data) := get ReadInt32 0 data in (result, resultTmp, reMainTmp) else (result, resultTmp, reMainTmp);
  request := fun callback => ret ← CoreServiceProxy.UnlockPuk slotId newPin puk (Some callback); mret (if negb (ret =? TELEPHONY_ERR_SUCCESS) then inl (ret, response) else inr response);
  timed_out := fun response => (TELEPHONY_ERR_IPC_CONNECT_STUB_FAIL, response);
  finished := fun response '(result, resultTmp, reMainTmp) => if result =? TELEPHONY_ERR_SUCCESS then
      let response := MkLockStatus resultTmp (lock_remain response) in
      let response := if lock_result response =? UNLOCK_INCORRECT then MkLockStatus (lock_result response) reMainTmp else response in
      (result, response)
    else (result, response)
|}.
Definition AlterPin (slotId : Z) (newPin oldPin : u16string) (response : LockStatusResponse) : awaited (Z * Z * Z) LockStatusResponse (Z * LockStatusResponse) := {|
  unavailable := (TELEPHONY_ERR_IPC_CONNECT_STUB_FAIL, response);
  variables := (TELEPHONY_ERR_IPC_CONNECT_STUB_FAIL, 0, 0);
  reader := fun data '(result, resultTmp, reMainTmp) => let '(result, data) := get ReadInt32 0 data in 
      if result =? TELEPHONY_ERR_SUCCESS then let '(resultTmp, data) := get ReadInt32 0 data in let '(reMainTmp, data) := get ReadInt32 0 data in (result, resultTmp, reMainTmp) else (result, resultTmp, reMainTmp);
  request := fun callback => ret ← CoreServiceProxy.AlterPin slotId newPin oldPin (Some callback); mret (if negb (ret =? TELEPHONY_ERR_SUCCESS) then inl (ret, response) else inr response);
  timed_out := fun response => (TELEPHONY_ERR_IPC_CONNECT_STUB_FAIL, response);
  finished := fun response '(result, resultTmp, reMainTmp) => if result =? TELEPHONY_ERR_SUCCESS then
      let response := MkLockStatus resultTmp (lock_remain response) in
      let response := if lock_result response =? UNLOCK_INCORRECT then MkLockStatus (lock_result response) reMainTmp else response in
      (result, response)
    else (result, response)
|}.
Definition UnlockPin2 (slotId : Z) (pin2 : u16string) (response : LockStatusResponse) : awaited (Z * Z * Z) LockStatusResponse (Z * LockStatusResponse) := {|
  unavailable := (TELEPHONY_ERR_IPC_CONNECT_STUB_FAIL, response);
  variables := (TELEPHONY_ERR_IPC_CONNECT_STUB_FAIL, 0, 0);
  reader := fun data '(result, resultTmp, reMainTmp) => let '(result, data) := get ReadInt32 0 data in 
      if result =? TELEPHONY_ERR_SUCCESS then let '(resultTmp, data) := get ReadInt32 0 data in let '(reMainTmp, data) := get ReadInt32 0 data in (result, resultTmp, reMainTmp) else (result, resultTmp, reMainTmp);
  request := fun callback => ret ← CoreServiceProxy.UnlockPin2 slotId pin2 (Some callback); mret (if negb (ret =? TELEPHONY_ERR_SUCCESS) then inl (ret, response) else inr response);
  timed_out := fun response => (TELEPHONY_ERR_IPC_CONNECT_STUB_FAIL, response);
  finished := fun response '(result, resultTmp, reMainTmp) => if result =? TELEPHONY_ERR_SUCCESS then
      let response := MkLockStatus resultTmp (lock_remain response) in
      let response := if lock_result response =? UNLOCK_INCORRECT then MkLockStatus (lock_result response) reMainTmp else response in
      (result, response)
    else (result, response)
|}.
Definition UnlockPuk2 (slotId : Z) (newPin2 puk2 : u16string) (response : LockStatusResponse) : awaited (Z * Z * Z) LockStatusResponse (Z * LockStatusResponse) := {|
  unavailable := (TELEPHONY_ERR_IPC_CONNECT_STUB_FAIL, response);
  variables := (TELEPHONY_ERR_IPC_CONNECT_STUB_FAIL, 0, 0);
  reader := fun data '(result, resultTmp, reMainTmp) => let '(result, data) := get ReadInt32 0 data in 
      if result =? TELEPHONY_ERR_SUCCESS then let '(resultTmp, data) := get ReadInt32 0 data in let '(reMainTmp, data) := get ReadInt32 0 data in (result, resultTmp, reMainTmp) else (result, resultTmp, reMainTmp);
  request := fun callback => ret ← CoreServiceProxy.UnlockPuk2 slotId newPin2 puk2 (Some callback); mret (if negb (ret =? TELEPHONY_ERR_SUCCESS) then inl (ret, response) else inr response);
  timed_out := fun response => (TELEPHONY_ERR_IPC_CONNECT_STUB_FAIL, response);
  finished := fun response '(result, resultTmp, reMainTmp) => if result =? TELEPHONY_ERR_SUCCESS then
      let response := MkLockStatus resultTmp (lock_remain response) in
      let response := if lock_result response =? UNLOCK_INCORRECT then MkLockStatus (lock_result response) reMainTmp else response in
      (result, response)
    else (result, response)
|}.
Definition AlterPin2 (slotId : Z) (newPin2 oldPin2 : u16string) (response : LockStatusResponse) : awaited (Z * Z * Z) LockStatusResponse (Z * LockStatusResponse) := {|
  unavailable := (TELEPHONY_ERR_IPC_CONNECT_STUB_FAIL, response);
  variables := (TELEPHONY_ERR_IPC_CONNECT_STUB_FAIL, 0, 0);
  reader := fun data '(result, resultTmp, reMainTmp) => let '(result, data) := get ReadInt32 0 data in 
      if result =? TELEPHONY_ERR_SUCCESS then let '(resultTmp, data) := get ReadInt32 0 data in let '(reMainTmp, data) := get ReadInt32 0 data in (result, resultTmp, reMainTmp) else (result, resultTmp, reMainTmp);
  request := fun callback => ret ← CoreServiceProxy.AlterPin2 slotId newPin2 oldPin2 (Some callback); mret (if negb (ret =? TELEPHONY_ERR_SUCCESS) then inl (ret, response) else inr response);
  timed_out := fun response => (TELEPHONY_ERR_IPC_CONNECT_STUB_FAIL, response);
  finished := fun response '(result, resultTmp, reMainTmp) => if result =? TELEPHONY_ERR_SUCCESS then
      let response := MkLockStatus resultTmp (lock_remain response) in
      let response := if lock_result response =? UNLOCK_INCORRECT then MkLockStatus (lock_result response) reMainTmp else response in
      (result, response)
    else (result, response)
|}.
Definition SetLockState (slotId : Z) (options : LockInfo) (response : LockStatusResponse) : awaited (Z * Z * Z) LockStatusResponse (Z * LockStatusResponse) := {|
  unavailable := (TELEPHONY_ERR_IPC_CONNECT_STUB_FAIL, response);
  variables := (TELEPHONY_ERR_IPC_CONNECT_STUB_FAIL, 0, 0);
  reader := fun data '(result, resultTmp, reMainTmp) => let '(result, data) := get ReadInt32 0 data in 
      if resultTmp =? TELEPHONY_ERR_SUCCESS then let '(resultTmp, data) := get ReadInt32 0 data in let '(reMainTmp, data) := get ReadInt32 0 data in (result, resultTmp, reMainTmp) else (result, resultTmp, reMainTmp);
  request := fun callback => ret ← CoreServiceProxy.SetLockState slotId options (Some callback); mret (if negb (ret =? TELEPHONY_ERR_SUCCESS) then inl (ret, response) else inr response);
  timed_out := fun response => (TELEPHONY_ERR_IPC_CONNECT_STUB_FAIL, response);
  finished := fun response '(result, resultTmp, reMainTmp) => if result =? TELEPHONY_ERR_SUCCESS then
      let response := MkLockStatus resultTmp (lock_remain response) in
      let response := if lock_result response =? UNLOCK_INCORRECT then MkLockStatus (lock_result response) reMainTmp else response in
      (result, response)
    else (result, response)
|}.
Definition GetLockState (slotId lockType lockState : Z) : awaited (Z * Z) Z (Z * Z) := {|
  unavailable := (TELEPHONY_ERR_IPC_CONNECT_STUB_FAIL, lockState);
  variables := (TELEPHONY_ERR_IPC_CONNECT_STUB_FAIL, 0);
  reader := fun data '(result, lockStateTmp) => let '(result, data) := get ReadInt32 0 data in 
      if result =? TELEPHONY_ERR_SUCCESS then let '(lockStateTmp, data) := get ReadInt32 0 data in (result, lockStateTmp) else (result, lockStateTmp);
  request := fun callback => ret ← CoreServiceProxy.GetLockState slotId lockType (Some callback); mret (if negb (ret =? TELEPHONY_ERR_SUCCESS) then inl (ret, lockState) else inr lockState);
  timed_out := fun lockState => (TELEPHONY_ERR_IPC_CONNECT_STUB_FAIL, lockState);
  finished := fun lockState '(result, lockStateTmp) => if result =? TELEPHONY_ERR_SUCCESS then (result, lockStateTmp) else (result, lockState)
|}.
Definition RefreshSimState (slotId : Z) : CL Z :=
  deref proxy := GetProxy or TELEPHONY_ERR_IPC_CONNECT_STUB_FAIL ;;
  on_proxy proxy (CoreServiceProxy.RefreshSimState slotId).
Definition SetActiveSim (slotId enable : Z) : CL Z :=
  deref proxy := GetProxy or TELEPHONY_ERR_IPC_CONNECT_STUB_FAIL ;;
  on_proxy proxy (CoreServiceProxy.SetActiveSim slotId enable).
Definition SetActiveSimSatellite (slotId enable : Z) : CL Z :=
  deref proxy := GetProxy or TELEPHONY_ERR_IPC_CONNECT_STUB_FAIL ;;
  on_proxy proxy (CoreServiceProxy.SetActiveSimSatellite slotId enable).
Definition GetPreferredNetwork (slotId : Z) (callback : option remote) : CL Z :=
  deref proxy := GetProxy or TELEPHONY_ERR_IPC_CONNECT_STUB_FAIL ;;
  on_proxy proxy (CoreServiceProxy.GetPreferredNetwork slotId callback).
Definition SetPreferredNetwork (slotId networkMode : Z) (callback : option remote) : CL Z :=
  deref proxy := GetProxy or TELEPHONY_ERR_IPC_CONNECT_STUB_FAIL ;;
  on_proxy proxy (CoreServiceProxy.SetPreferredNetwork slotId networkMode callback).
Definition GetNetworkCapability (slotId networkCapabilityType networkCapabilityState : Z) : CL (Z * Z) :=
  deref proxy := GetProxy or (TELEPHONY_ERR_IPC_CONNECT_STUB_FAIL, networkCapabilityState) ;;
  on_proxy proxy (CoreServiceProxy.GetNetworkCapability slotId networkCapabilityType networkCapabilityState).
Definition SetNetworkCapability (slotId networkCapabilityType networkCapabilityState : Z) : CL Z :=
  deref proxy := GetProxy or TELEPHONY_ERR_IPC_CONNECT_STUB_FAIL ;;
  on_proxy proxy (CoreServiceProxy.SetNetworkCapability slotId networkCapabilityType networkCapabilityState).
Definition GetSimTelephoneNumber (slotId : Z) (telephoneNumber : u16string) : CL (Z * u16string) :=
  deref proxy := GetProxy or (TELEPHONY_ERR_IPC_CONNECT_STUB_FAIL, telephoneNumber) ;;
  on_proxy proxy (CoreServiceProxy.GetSimTelephoneNumber slotId telephoneNumber).
Definition GetVoiceMailIdentifier (slotId : Z) (voiceMailIdentifier : u16string) : CL (Z * u16string) :=
  deref proxy := GetProxy or (TELEPHONY_ERR_IPC_CONNECT_STUB_FAIL, voiceMailIdentifier) ;;
  on_proxy proxy (CoreServiceProxy.GetVoiceMailIdentifier slotId voiceMailIdentifier).
Definition GetVoiceMailNumber (slotId : Z) (voiceMailNumber : u16string) : CL (Z * u16string) :=
  deref proxy := GetProxy or (TELEPHONY_ERR_IPC_CONNECT_STUB_FAIL, voiceMailNumber) ;;
  on_proxy proxy (CoreServiceProxy.GetVoiceMailNumber slotId voiceMailNumber).
Definition GetVoiceMailCount (slotId voiceMailCount : Z) : CL (Z * Z) :=
  deref proxy := GetProxy or (TELEPHONY_ERR_IPC_CONNECT_STUB_FAIL, voiceMailCount) ;;
  on_proxy proxy (CoreServiceProxy.GetVoiceMailCount slotId voiceMailCount).
Definition SetVoiceMailCount (slotId voiceMailCount : Z) : CL Z :=
  deref proxy := GetProxy or TELEPHONY_ERR_IPC_CONNECT_STUB_FAIL ;;
  on_proxy proxy (CoreServiceProxy.SetVoiceMailCount slotId voiceMailCount).
Definition SetVoiceCallForwarding (slotId : Z) (enable : bool) (number : cstring) : CL Z :=
  deref proxy := GetProxy or TELEPHONY_ERR_IPC_CONNECT_STUB_FAIL ;;
  on_proxy proxy (CoreServiceProxy.SetVoiceCallForwarding slotId enable number).
Definition QueryIccDiallingNumbers (slotId type : Z) (result : list DiallingNumbersInfo) : CL (Z * list DiallingNumbersInfo) :=
  deref proxy := GetProxy or (TELEPHONY_ERR_IPC_CONNECT_STUB_FAIL, result) ;;
  on_proxy proxy (CoreServiceProxy.QueryIccDiallingNumbers slotId type result).
Definition AddIccDiallingNumbers (slotId type : Z) (diallingNumber : option DiallingNumbersInfo) : CL Z :=
  deref proxy := GetProxy or TELEPHONY_ERR_IPC_CONNECT_STUB_FAIL ;;
  on_proxy proxy (CoreServiceProxy.AddIccDiallingNumbers slotId type diallingNumber).
Definition DelIccDiallingNumbers (slotId type : Z) (diallingNumber : option DiallingNumbersInfo) : CL Z :=
  deref proxy := GetProxy or TELEPHONY_ERR_IPC_CONNECT_STUB_FAIL ;;
  on_proxy proxy (CoreServiceProxy.DelIccDiallingNumbers slotId type diallingNumber).
Definition UpdateIccDiallingNumbers (slotId type : Z) (diallingNumber : option DiallingNumbersInfo) : CL Z :=
  deref proxy := GetProxy or TELEPHONY_ERR_IPC_CONNECT_STUB_FAIL ;;
  on_proxy proxy (CoreServiceProxy.UpdateIccDiallingNumbers slotId type diallingNumber).
Definition SetVoiceMailInfo (slotId : Z) (mailName mailNumber : u16string) : CL Z :=
  deref proxy := GetProxy or TELEPHONY_ERR_IPC_CONNECT_STUB_FAIL ;;
  on_proxy proxy (CoreServiceProxy.SetVoiceMailInfo slotId mailName mailNumber).
Definition GetImsRegStatus (slotId imsSrvType : Z) (info : ImsRegInfo) : CL (Z * ImsRegInfo) :=
  deref proxy := GetProxy or (TELEPHONY_ERR_IPC_CONNECT_STUB_FAIL, info) ;;
  on_proxy proxy (CoreServiceProxy.GetImsRegStatus slotId imsSrvType info).
Definition GetMaxSimCount : CL Z :=
  deref proxy := GetProxy or 0 ;;
  on_proxy proxy (CoreServiceProxy.GetMaxSimCount).
Definition GetOpKey (slotId : Z) (opkey : u16string) : CL (Z * u16string) :=
  deref proxy := GetProxy or (TELEPHONY_ERR_UNINIT, opkey) ;;
  on_proxy proxy (CoreServiceProxy.GetOpKey slotId opkey).
Definition GetOpKeyExt (slotId : Z) (opkeyExt : u16string) : CL (Z * u16string) :=
  deref proxy := GetProxy or (TELEPHONY_ERR_UNINIT, opkeyExt) ;;
  on_proxy proxy (CoreServiceProxy.GetOpKeyExt slotId opkeyExt).
Definition GetOpName (slotId : Z) (opname : u16string) : CL (Z * u16string) :=
  deref proxy := GetProxy or (TELEPHONY_ERR_UNINIT, opname) ;;
  on_proxy proxy (CoreServiceProxy.GetOpName slotId opname).
Definition GetCardType (slotId cardType : Z) : CL (Z * Z) :=
  deref proxy := GetProxy or (TELEPHONY_ERR_IPC_CONNECT_STUB_FAIL, cardType) ;;
  on_proxy proxy (CoreServiceProxy.GetCardType slotId cardType).
Definition SendEnvelopeCmd (slotId : Z) (cmd : cstring) : CL Z :=
  deref proxy := GetProxy or TELEPHONY_ERR_IPC_CONNECT_STUB_FAIL ;;
  on_proxy proxy (CoreServiceProxy.SendEnvelopeCmd slotId cmd).
Definition SendTerminalResponseCmd (slotId : Z) (cmd : cstring) : CL Z :=
  deref proxy := GetProxy or TELEPHONY_ERR_IPC_CONNECT_STUB_FAIL ;;
  on_proxy proxy (CoreServiceProxy.SendTerminalResponseCmd slotId cmd).
Definition SendCallSetupRequestResult (slotId : Z) (accept : bool) : CL Z :=
  deref proxy := GetProxy or TELEPHONY_ERR_IPC_CONNECT_STUB_FAIL ;;
  on_proxy proxy (CoreServiceProxy.SendCallSetupRequestResult slotId accept).
Definition UnlockSimLock (slotId : Z) (lockInfo : PersoLockInfo) (response : LockStatusResponse) : CL (Z * LockStatusResponse) :=
  deref proxy := GetProxy or (TELEPHONY_ERR_IPC_CONNECT_STUB_FAIL, response) ;;
  on_proxy proxy (CoreServiceProxy.UnlockSimLock slotId lockInfo response).
Definition HasOperatorPrivileges (slotId : Z) (hasOperatorPrivileges : bool) : awaited (Z * bool) bool (Z * bool) := {|
  unavailable := (TELEPHONY_ERR_IPC_CONNECT_STUB_FAIL, hasOperatorPrivileges);
  variables := (TELEPHONY_ERR_IPC_CONNECT_STUB_FAIL, false);
  reader := fun data '(result, hasOpPriTmp) => let '(result, data) := get ReadInt32 0 data in 
      if result =? TELEPHONY_ERR_SUCCESS then let '(hasOpPriTmp, data) := get ReadBool false data in (result, hasOpPriTmp) else (result, hasOpPriTmp);
  request := fun callback => ret ← CoreServiceProxy.HasOperatorPrivileges slotId (Some callback); mret (if negb (ret =? TELEPHONY_ERR_SUCCESS) then inl (ret, hasOperatorPrivileges) else inr hasOperatorPrivileges);
  timed_out := fun hasOperatorPrivileges => (TELEPHONY_ERR_IPC_CONNECT_STUB_FAIL, hasOperatorPrivileges);
  finished := fun hasOperatorPrivileges '(result, hasOpPriTmp) => if result =? TELEPHONY_ERR_SUCCESS then (result, hasOpPriTmp) else (result, hasOperatorPrivileges)
|}.
Definition SimAuthentication (slotId authType : Z) (authData : cstring) (response : SimAuthenticationResponse) : CL (Z * SimAuthenticationResponse) :=
  deref proxy := GetProxy or (TELEPHONY_ERR_IPC_CONNECT_STUB_FAIL, response) ;;
  on_proxy proxy (CoreServiceProxy.SimAuthentication slotId authType authData response).
Definition GetPrimarySlotId (slotId : Z) : CL (Z * Z) :=
  let slotId := INVALID_VALUE in
  deref proxy := GetProxy or (TELEPHONY_ERR_IPC_CONNECT_STUB_FAIL, slotId) ;;
  on_proxy proxy (CoreServiceProxy.GetPrimarySlotId slotId).
Definition SetPrimarySlotId (slotId : Z) : CL Z :=
  deref proxy := GetProxy or TELEPHONY_ERR_IPC_CONNECT_STUB_FAIL ;;
  on_proxy proxy (CoreServiceProxy.SetPrimarySlotId slotId).
Definition GetCellInfoList (slotId : Z) (cellInfo : list Cell) : CL (Z * list Cell) :=
  deref proxy := GetProxy or (TELEPHONY_ERR_IPC_CONNECT_STUB_FAIL, cellInfo) ;;
  on_proxy proxy (CoreServiceProxy.GetCellInfoList slotId cellInfo).
Definition GetNeighboringCellInfoList (slotId : Z) (cellInfo : list Cell) : CL (Z * list Cell) :=
  deref proxy := GetProxy or (TELEPHONY_ERR_IPC_CONNECT_STUB_FAIL, cellInfo) ;;
  on_proxy proxy (CoreServiceProxy.GetNeighboringCellInfoList slotId cellInfo).
Definition SendUpdateCellLocationRequest (slotId : Z) : CL Z :=
  deref proxy := GetProxy or TELEPHONY_ERR_IPC_CONNECT_STUB_FAIL ;;
  on_proxy proxy (CoreServiceProxy.SendUpdateCellLocationRequest slotId).
Definition RegisterImsRegInfoCallback (slotId imsSrvType : Z) (callback : option remote) : CL Z :=
  require negb (is_null callback) or TELEPHONY_ERR_ARGUMENT_NULL ;;
  deref proxy := GetProxy or TELEPHONY_ERR_IPC_CONNECT_STUB_FAIL ;;
  on_proxy proxy (CoreServiceProxy.RegisterImsRegInfoCallback slotId imsSrvType callback).
Definition UnregisterImsRegInfoCallback (slotId imsSrvType : Z) : CL Z :=
  deref proxy := GetProxy or TELEPHONY_ERR_IPC_CONNECT_STUB_FAIL ;;
  on_proxy proxy (CoreServiceProxy.UnregisterImsRegInfoCallback slotId imsSrvType).
Definition GetBasebandVersion (slotId : Z) (version : cstring) : CL (Z * cstring) :=
  deref proxy := GetProxy or (TELEPHONY_ERR_IPC_CONNECT_STUB_FAIL, version) ;;
  on_proxy proxy (CoreServiceProxy.GetBasebandVersion slotId version).
Definition GetNrSsbIdInfo (slotId : Z) (nrSsbInformation : option NrSsbInformation) : CL (Z * option NrSsbInformation) :=
  deref proxy := GetProxy or (TELEPHONY_ERR_IPC_CONNECT_STUB_FAIL, nrSsbInformation) ;;
  on_proxy proxy (CoreServiceProxy.GetNrSsbIdInfo slotId nrSsbInformation).
Definition FactoryReset (slotId : Z) : CL Z :=
  deref proxy := GetProxy or TELEPHONY_ERR_IPC_CONNECT_STUB_FAIL ;;
  on_proxy proxy (CoreServiceProxy.FactoryReset slotId).
Definition IsAllowedInsertApn (value : cstring) : CL bool :=
  deref proxy := GetProxy or true ;;
  on_proxy proxy (CoreServiceProxy.IsAllowedInsertApn value).
Definition GetTargetOpkey (slotId : Z) (opkey : u16string) : CL (Z * u16string) :=
  deref proxy := GetProxy or (TELEPHONY_ERR_IPC_CONNECT_STUB_FAIL, opkey) ;;
  on_proxy proxy (CoreServiceProxy.GetTargetOpkey slotId opkey).
Definition GetOpkeyVersion (versionInfo : cstring) : CL (Z * cstring) :=
  deref proxy := GetProxy or (TELEPHONY_ERR_IPC_CONNECT_STUB_FAIL, versionInfo) ;;
  on_proxy proxy (CoreServiceProxy.GetOpkeyVersion versionInfo).
Definition GetOpnameVersion (versionInfo : cstring) : CL (Z * cstring) :=
  deref proxy := GetProxy or (TELEPHONY_ERR_IPC_CONNECT_STUB_FAIL, versionInfo) ;;
  on_proxy proxy (CoreServiceProxy.GetOpnameVersion versionInfo).
Definition GetSimIO (slotId command fileId : Z) (dataStr path : cstring) (response : SimAuthenticationResponse) : CL (Z * SimAuthenticationResponse) :=
  deref proxy := GetProxy or (TELEPHONY_ERR_IPC_CONNECT_STUB_FAIL, response) ;;
  on_proxy proxy (CoreServiceProxy.GetSimIO slotId command fileId dataStr path response).
Definition GetAllSimAccountInfoList (iccAccountInfoList : list IccAccountInfo) : CL (Z * list IccAccountInfo) :=
  deref proxy := GetProxy or (TELEPHONY_ERR_IPC_CONNECT_STUB_FAIL, iccAccountInfoList) ;;
  on_proxy proxy (CoreServiceProxy.GetAllSimAccountInfoList iccAccountInfoList).
Definition GetSimLabel (slotId : Z) (simLabel : SimLabel) : awaited (Z * SimLabel) SimLabel (Z * SimLabel) := {|
  unavailable := (TELEPHONY_ERR_IPC_CONNECT_STUB_FAIL, simLabel);
  variables := (TELEPHONY_ERR_IPC_CONNECT_STUB_FAIL, SimLabel_new);
  reader := fun data '(result, simLabelTp) => let '(result, data) := get ReadInt32 0 data in 
      if result =? TELEPHONY_ERR_SUCCESS then let '(t, data) := get ReadInt32 0 data in let '(i, data) := get ReadInt32 0 data in (result, MkSimLabel t i) else (result, simLabelTp);
  request := fun callback => '(ret, simLabel) ← CoreServiceProxy.GetSimLabel slotId (Some callback) simLabel; mret (if negb (ret =? TELEPHONY_ERR_SUCCESS) then inl (ret, simLabel) else inr simLabel);
  timed_out := fun simLabel => (TELEPHONY_ERR_IPC_CONNECT_STUB_FAIL, simLabel);
  finished := fun simLabel '(result, simLabelTp) => if result =? TELEPHONY_ERR_SUCCESS then (result, simLabelTp) else (result, simLabel)
|}.
Definition SendApduData (slotId : Z) (aid : u16string) (apduData : EsimApduData) (responseResult : ResponseEsimResult) : CL (Z * ResponseEsimResult) :=
  deref proxy := GetProxy or (TELEPHONY_ERR_IPC_CONNECT_STUB_FAIL, responseResult) ;;
  on_proxy proxy (CoreServiceProxy.SendApduData slotId aid apduData responseResult).
Definition GetManualNetworkScanState (slotId : Z) (callback : option remote) : CL Z :=
  require negb (is_null callback) or TELEPHONY_ERR_ARGUMENT_NULL ;;
  deref proxy := GetProxy or TELEPHONY_ERR_IPC_CONNECT_STUB_FAIL ;;
  on_proxy proxy (CoreServiceProxy.GetManualNetworkScanState slotId callback).
Definition StartManualNetworkScanCallback (slotId : Z) (callback : option remote) : CL Z :=
  require negb (is_null callback) or TELEPHONY_ERR_ARGUMENT_NULL ;;
  deref proxy := GetProxy or TELEPHONY_ERR_IPC_CONNECT_STUB_FAIL ;;
  on_proxy proxy (CoreServiceProxy.StartManualNetworkScanCallback slotId callback).
Definition StopManualNetworkScanCallback (slotId : Z) : CL Z :=
  deref proxy := GetProxy or TELEPHONY_ERR_IPC_CONNECT_STUB_FAIL ;;
  on_proxy proxy (CoreServiceProxy.StopManualNetworkScanCallback slotId).
Definition SetSimLabelIndex (simId simLabelIndex : Z) : awaited Z unit Z := {|
  unavailable := TELEPHONY_ERR_IPC_CONNECT_STUB_FAIL;
  variables := TELEPHONY_ERR_IPC_CONNECT_STUB_FAIL;
  reader := fun data result => let '(result, data) := get ReadInt32 0 data in result;
  request := fun callback => ret ← CoreServiceProxy.SetSimLabelIndex simId simLabelIndex (Some callback); mret (if negb (ret =? TELEPHONY_ERR_SUCCESS) then inl ret else inr tt);
  timed_out := fun _ => TELEPHONY_ERR_IPC_CONNECT_STUB_FAIL;
  finished := fun _ result => result
|}.
Definition IsMultiSimsCapabilitySupported (slotId : Z) : CL bool :=
  deref proxy := GetProxy or false ;;
  on_proxy proxy (CoreServiceProxy.IsMultiSimsCapabilitySupported slotId).
Definition StartHiddenCameraDetection (callback : option remote) (config : HiddenCameraDetectionConfig) : awaited Z unit Z := {|
  unavailable := TELEPHONY_ERR_IPC_CONNECT_STUB_FAIL;
  variables := TELEPHONY_ERR_IPC_CONNECT_STUB_FAIL;
  reader := fun data result => let '(result, data) := get ReadInt32 0 data in result;
  request := fun rawCallback => ret ← CoreServiceProxy.StartHiddenCameraDetection callback config (Some rawCallback); mret (if negb (ret =? TELEPHONY_ERR_SUCCESS) then inl ret else inr tt);
  timed_out := fun _ => TELEPHONY_ERR_IPC_CONNECT_STUB_FAIL;
  finished := fun _ result => result
|}.
Definition StopHiddenCameraDetection : awaited Z unit Z := {|
  unavailable := TELEPHONY_ERR_IPC_CONNECT_STUB_FAIL;
  variables := TELEPHONY_ERR_IPC_CONNECT_STUB_FAIL;
  reader := fun data result => let '(result, data) := get ReadInt32 0 data in result;
  request := fun rawCallback => ret ← CoreServiceProxy.StopHiddenCameraDetection (Some rawCallback); mret (if negb (ret =? TELEPHONY_ERR_SUCCESS) then inl ret else inr tt);
  timed_out := fun _ => TELEPHONY_ERR_IPC_CONNECT_STUB_FAIL;
  finished := fun _ result => result
|}.
Definition KeepHiddenCameraDetection : awaited Z unit Z := {|
  unavailable := TELEPHONY_ERR_IPC_CONNECT_STUB_FAIL;
  variables := TELEPHONY_ERR_IPC_CONNECT_STUB_FAIL;
  reader := fun data result => let '(result, data) := get ReadInt32 0 data in result;
  request := fun rawCallback => ret ← CoreServiceProxy.KeepHiddenCameraDetection (Some rawCallback); mret (if negb (ret =? TELEPHONY_ERR_SUCCESS) then inl ret else inr tt);
  timed_out := fun _ => TELEPHONY_ERR_IPC_CONNECT_STUB_FAIL;
  finished := fun _ result => result
|}.
End Client.
End CoreServiceClient.
