(* ===== verification/CoreServiceCallback.v ===== *)
(** * Calls that wait for an answer: client, service and the messages between them

    Twenty-two methods of the core service answer through a callback object: the client's method ([CoreServiceClient], file CoreServiceClient.v) sends the request with its callback
    object and waits, the service's method posts a task to an event handler and returns, the task asks the manager and sends the answer to the callback object, which stores
    it in the variables of the waiting method and wakes it. This file follows the configuration of client, service, queues and messages through a step
    relation in which other requests, other tasks, the delivery of messages, changes in the managers and the time interleave freely, and proves that
    the waiting method ends with the manager's own answer or with the error of a timeout, and that the answer is never lost. *)

From S2P Require Import Prelude CxxString Parcel Parcelables OperatorConfig CellInformation NetworkState SignalInformation SignalInfo CoreServiceApi CoreServiceProxy CoreServiceStub CoreServiceIpc CoreServiceRefinement TelephonyPermission CoreManagers RawParcelCallback CoreService CoreServiceTypes CoreServiceClient.
Open Scope Z_scope.
Open Scope ipc_scope.

(** ** What concerns one callback object *)

(** The tasks and messages that concern a callback object, and the managers. *)
Record seen (P W G : Type) : Type := MkSeen { tasks : list (task P W); messages : list (remote * P); known : G }.
Arguments MkSeen {P W G}. Arguments tasks {P W G}. Arguments messages {P W G}. Arguments known {P W G}.

Section Observations.
Context {P W : Type} `{ParcelOps P} `{ErrorCodes} `{StringEx} `{AccessToken W} `{!Managers W}.
Context (cb : remote).

Definition waiting_tasks (h : handler P W) : list (task P W) := filter (fun t => receiver t = cb) (default [] h).
#[local] Arguments waiting_tasks : simpl never.
#[local] Arguments PostTask : simpl never.
Definition sent_messages (s : system P W) : list (remote * P) := filter (fun m => m.1 = cb) (sent s).
Definition seen_sim (x : core_service_sim P W * system P W) : seen P W (option pointer) :=
  MkSeen (waiting_tasks (CoreServiceSim.simGeneralHandler_ x.1) ++ waiting_tasks (CoreServiceSim.simPinHandler_ x.1)) (sent_messages x.2) (CoreServiceSim.sim_manager x.1).
Definition seen_core (s : core_service P W) : seen P W (option pointer * option pointer) :=
  let y := seen_sim (CoreService.coreServiceSim_ s, CoreService.sys s) in
  MkSeen (waiting_tasks (CoreService.networkSearchManagerHandler_ s) ++ waiting_tasks (CoreService.simGeneralHandler_ s) ++ waiting_tasks (CoreService.simPinHandler_ s) ++ tasks y)
    (messages y) (CoreService.network_search_manager s, known y).

(** Code that leaves what [obs] observes of the state alone. *)
Definition leaves {S X A} (obs : S -> X) (m : stateful S A) : Prop := forall s, obs (m s).2 = obs s.
(** Code that, where nothing concerns the callback object yet and the managers are [k], either posts one task with [Q] for it, or nothing and does not report success. *)
Definition posts {S G A} (obs : S -> seen P W G) (k : G) (ok : A -> Prop) (Q : task P W -> Prop) (m : stateful S A) : Prop :=
  forall s, obs s = MkSeen [] [] k ->
    (obs (m s).2 = MkSeen [] [] k /\ ~ ok (m s).1) \/ (exists t, Q t /\ obs (m s).2 = MkSeen [t] [] k).

Section Leaves.
Context {S X : Type} (obs : S -> X).
Lemma leaves_ret {A} (a : A) : leaves obs (mret a : stateful S A).
Proof. done. Qed.
Lemma leaves_bind {A B} (m : stateful S A) (k : A -> stateful S B) : leaves obs m -> (forall a, leaves obs (k a)) -> leaves obs (mbind k m).
Proof. intros Hm Hk s. unfold mbind, stateful_bind. specialize (Hm s). destruct (m s) as [a s']. cbn in Hm. rewrite <- Hm. apply Hk. Qed.
Lemma leaves_gets {A} (f : S -> A) : leaves obs (gets f).
Proof. done. Qed.
End Leaves.

Section Logic.
Context {S G : Type} (obs : S -> seen P W G).

Lemma posts_ret {A} k (ok : A -> Prop) Q (a : A) : ~ ok a -> posts obs k ok Q (mret a : stateful S A).
Proof. intros N s E. by left. Qed.
Lemma posts_bind {A B} k (ok : B -> Prop) Q (m : stateful S A) (f : A -> stateful S B) :
  leaves obs m -> (forall a, posts obs k ok Q (f a)) -> posts obs k ok Q (mbind f m).
Proof. intros Hm Hf s E. unfold mbind, stateful_bind. specialize (Hm s). destruct (m s) as [a s']. cbn in Hm. apply Hf. by rewrite Hm. Qed.
(** The task is posted, and success is reported. *)
Lemma posts_post {A} k (ok : A -> Prop) (Q : task P W -> Prop) (t : task P W) (m : stateful S unit) (a : A) :
  (forall s, obs s = MkSeen [] [] k -> obs (m s).2 = MkSeen [t] [] k) -> Q t -> posts obs k ok Q (mbind (fun _ => mret a) m).
Proof. intros Hm HQ s E. right. exists t. split; [done|]. unfold mbind, stateful_bind. specialize (Hm s E). by destruct (m s). Qed.
End Logic.

Lemma leaves_erase l : leaves seen_sim (CoreServiceSim.erase_unsupported (P := P) (W := W) l).
Proof.
  induction l as [|a l IH]; [done|]. cbn [CoreServiceSim.erase_unsupported]. apply leaves_bind; [by intros [? ?]|]. intros b. by apply leaves_bind.
Qed.
Lemma leaves_coreServiceSim {A} (m : CoreServiceSim.SimM (P := P) (W := W) A) : leaves seen_sim m -> leaves seen_core (CoreService.coreServiceSim m).
Proof.
  intros Hm s. unfold CoreService.coreServiceSim. specialize (Hm (CoreService.coreServiceSim_ s, CoreService.sys s)).
  destruct (m _) as [a [o y]]. cbn [snd] in Hm |- *. unfold seen_core. by rewrite <- Hm.
Qed.
Lemma leaves_call {A} (m : stateful W A) : leaves seen_core (CoreService.call (P := P) m).
Proof. intros s. unfold CoreService.call, CoreService.on_system, on_managers. by destruct (m _). Qed.
Lemma leaves_sim_call {A} (m : stateful W A) : leaves seen_sim (CoreServiceSim.call (P := P) m).
Proof. intros [o y]. unfold CoreServiceSim.call, on_managers. by destruct (m _). Qed.
(** A task for another callback object. *)
Lemma waiting_other t (h : handler P W) : receiver t <> cb -> waiting_tasks (PostTask t h) = waiting_tasks h.
Proof. intros N. unfold waiting_tasks, PostTask. cbn. rewrite filter_app, filter_cons_False by done. by rewrite app_nil_r. Qed.
Lemma waiting_mine t (h : handler P W) : receiver t = cb -> waiting_tasks (PostTask t h) = waiting_tasks h ++ [t].
Proof. intros E. unfold waiting_tasks, PostTask. cbn. by rewrite filter_app, filter_cons_True. Qed.
Lemma leaves_general t : receiver t <> cb -> leaves seen_sim (CoreServiceSim.AsyncSimGeneralExecute (P := P) t).
Proof. intros N [o y]. unfold seen_sim. cbn. by rewrite waiting_other. Qed.
Lemma leaves_pin t : receiver t <> cb -> leaves seen_sim (CoreServiceSim.AsyncSimPinExecute (P := P) t).
Proof. intros N [o y]. unfold seen_sim. cbn. by rewrite waiting_other. Qed.
Lemma leaves_net t : receiver t <> cb -> leaves seen_core (CoreService.AsyncNetSearchExecute (P := P) t).
Proof. intros N s. unfold seen_core. cbn. by rewrite waiting_other. Qed.
Lemma post_general t k s : receiver t = cb -> seen_sim s = MkSeen [] [] k -> seen_sim (CoreServiceSim.AsyncSimGeneralExecute t s).2 = MkSeen [t] [] k.
Proof.
  destruct s as [o y]. unfold seen_sim. cbn. intros R [= E ? ?]. apply app_eq_nil in E as [E1 E2]. rewrite waiting_mine, E1, E2 by done. by f_equal.
Qed.
Lemma post_pin t k s : receiver t = cb -> seen_sim s = MkSeen [] [] k -> seen_sim (CoreServiceSim.AsyncSimPinExecute t s).2 = MkSeen [t] [] k.
Proof.
  destruct s as [o y]. unfold seen_sim. cbn. intros R [= E ? ?]. apply app_eq_nil in E as [E1 E2]. rewrite waiting_mine, E1, E2 by done. by f_equal.
Qed.
Lemma post_net t k s : receiver t = cb -> seen_core s = MkSeen [] [] k -> seen_core (CoreService.AsyncNetSearchExecute t s).2 = MkSeen [t] [] k.
Proof.
  unfold seen_core, seen_sim. cbn. intros R [= E ? ?]. repeat (apply app_eq_nil in E as [?E E]). rewrite waiting_mine by done.
  simplify_eq. by rewrite E0, E1, E2, E3, E, H4.
Qed.
Lemma seen_set_inner o y s : seen_core (CoreService.set_inner o y s) =
  MkSeen (waiting_tasks (CoreService.networkSearchManagerHandler_ s) ++ waiting_tasks (CoreService.simGeneralHandler_ s) ++ waiting_tasks (CoreService.simPinHandler_ s) ++ tasks (seen_sim (o, y)))
    (messages (seen_sim (o, y))) (CoreService.network_search_manager s, known (seen_sim (o, y))).
Proof. done. Qed.
Lemma posts_coreServiceSim {A} n k (ok : A -> Prop) Q (m : CoreServiceSim.SimM (P := P) (W := W) A) :
  posts seen_sim k ok Q m -> posts seen_core (n, k) ok Q (CoreService.coreServiceSim m).
Proof.
  intros Hm s E. unfold CoreService.coreServiceSim. specialize (Hm (CoreService.coreServiceSim_ s, CoreService.sys s)). unfold seen_core in E.
  set (x := (CoreService.coreServiceSim_ s, CoreService.sys s)) in *. injection E as Et Em En Ek. repeat (apply app_eq_nil in Et as [?Et Et]).
  destruct Hm as [[E' N]|(t & HQ & E')]; [unfold seen_sim; cbn; by rewrite Et, Et3, Em, Ek| |].
  - left. destruct (m x) as [a [o y]]. cbn [fst snd] in *. split; [|done]. rewrite seen_set_inner, E'. cbn. by rewrite Et0, Et1, Et2, En.
  - right. exists t. split; [done|]. destruct (m x) as [a [o y]]. cbn [fst snd] in *. rewrite seen_set_inner, E'. cbn. by rewrite Et0, Et1, Et2, En.
Qed.
(** [auto p = manager_; if (p == nullptr) { ... }] *)
Lemma posts_simManager {A} k (ok : A -> Prop) Q (f : option pointer -> CoreServiceSim.SimM (P := P) (W := W) A) :
  posts seen_sim k ok Q (f k) -> posts seen_sim k ok Q (mbind f CoreServiceSim.simManager_).
Proof. intros Hf s E. apply (f_equal known) in E as E'. cbn in E'. unfold mbind, stateful_bind, CoreServiceSim.simManager_, gets. rewrite E'. by apply Hf. Qed.
Lemma posts_networkManager {A} k (ok : A -> Prop) Q (f : option pointer -> CoreService.CS (P := P) (W := W) A) :
  posts seen_core k ok Q (f k.1) -> posts seen_core k ok Q (mbind f CoreService.networkSearchManager_).
Proof. intros Hf s E. apply (f_equal (fst ∘ known)) in E as E'. cbn in E'. unfold mbind, stateful_bind, CoreService.networkSearchManager_, gets. rewrite E'. by apply Hf. Qed.
End Observations.

(** ** The methods that wait *)

(** A method of the client that waits, with its arguments (output arguments with their values before the call): the types of its variables, its output arguments, the answer to its request and its result. *)
Inductive waitE : Type -> Type -> Type -> Type -> Type :=
| GetImei (slotId : Z) (imei : u16string) : waitE (Z * u16string) u16string Z (Z * u16string)
| GetImeiSv (slotId : Z) (imeiSv : u16string) : waitE (Z * u16string) u16string Z (Z * u16string)
| HasSimCard (slotId : Z) (hasSimCard : bool) : waitE (Z * bool) bool Z (Z * bool)
| GetSimState (slotId simState : Z) : waitE (Z * Z) Z Z (Z * Z)
| IsCTSimCard (slotId : Z) (isCTSimCard : bool) : waitE (Z * bool) bool Z (Z * bool)
| IsSimActive (slotId : Z) : waitE bool unit bool bool
| GetDefaultVoiceSimId (simId : Z) : waitE (Z * Z) Z Z (Z * Z)
| SetShowNumber (slotId : Z) (number : u16string) : waitE Z unit Z Z
| GetShowNumber (slotId : Z) (showNumber : u16string) : waitE (Z * u16string) u16string Z (Z * u16string)
| SetShowName (slotId : Z) (name : u16string) : waitE Z unit Z Z
| GetShowName (slotId : Z) (showName : u16string) : waitE (Z * u16string) u16string Z (Z * u16string)
| UnlockPin (slotId : Z) (pin : u16string) (response : LockStatusResponse) : waitE (Z * Z * Z) LockStatusResponse Z (Z * LockStatusResponse)
| UnlockPuk (slotId : Z) (newPin puk : u16string) (response : LockStatusResponse) : waitE (Z * Z * Z) LockStatusResponse Z (Z * LockStatusResponse)
| AlterPin (slotId : Z) (newPin oldPin : u16string) (response : LockStatusResponse) : waitE (Z * Z * Z) LockStatusResponse Z (Z * LockStatusResponse)
| UnlockPin2 (slotId : Z) (pin2 : u16string) (response : LockStatusResponse) : waitE (Z * Z * Z) LockStatusResponse Z (Z * LockStatusResponse)
| UnlockPuk2 (slotId : Z) (newPin2 puk2 : u16string) (response : LockStatusResponse) : waitE (Z * Z * Z) LockStatusResponse Z (Z * LockStatusResponse)
| AlterPin2 (slotId : Z) (newPin2 oldPin2 : u16string) (response : LockStatusResponse) : waitE (Z * Z * Z) LockStatusResponse Z (Z * LockStatusResponse)
| SetLockState (slotId : Z) (options : LockInfo) (response : LockStatusResponse) : waitE (Z * Z * Z) LockStatusResponse Z (Z * LockStatusResponse)
| GetLockState (slotId lockType lockState : Z) : waitE (Z * Z) Z Z (Z * Z)
| HasOperatorPrivileges (slotId : Z) (hasOperatorPrivileges : bool) : waitE (Z * bool) bool Z (Z * bool)
| GetSimLabel (slotId : Z) (simLabel : SimLabel) : waitE (Z * SimLabel) SimLabel (Z * SimLabel) (Z * SimLabel)
| SetSimLabelIndex (simId simLabelIndex : Z) : waitE Z unit Z Z.

Section Methods.
Context {P W : Type} `{ParcelOps P} `{ErrorCodes} `{StringEx} `{AccessToken W} `{!Managers W}.

Definition client_method {U} `{!ClientSystem P U} {C O A R} (m : waitE C O A R) : CoreServiceClient.awaited P U C O R :=
  match m in waitE C O A R return CoreServiceClient.awaited P U C O R with
  | GetImei slotId imei => CoreServiceClient.GetImei slotId imei
  | GetImeiSv slotId imeiSv => CoreServiceClient.GetImeiSv slotId imeiSv
  | HasSimCard slotId hasSimCard => CoreServiceClient.HasSimCard slotId hasSimCard
  | GetSimState slotId simState => CoreServiceClient.GetSimState slotId simState
  | IsCTSimCard slotId isCTSimCard => CoreServiceClient.IsCTSimCard slotId isCTSimCard
  | IsSimActive slotId => CoreServiceClient.IsSimActive slotId
  | GetDefaultVoiceSimId simId => CoreServiceClient.GetDefaultVoiceSimId simId
  | SetShowNumber slotId number => CoreServiceClient.SetShowNumber slotId number
  | GetShowNumber slotId showNumber => CoreServiceClient.GetShowNumber slotId showNumber
  | SetShowName slotId name => CoreServiceClient.SetShowName slotId name
  | GetShowName slotId showName => CoreServiceClient.GetShowName slotId showName
  | UnlockPin slotId pin response => CoreServiceClient.UnlockPin slotId pin response
  | UnlockPuk slotId newPin puk response => CoreServiceClient.UnlockPuk slotId newPin puk response
  | AlterPin slotId newPin oldPin response => CoreServiceClient.AlterPin slotId newPin oldPin response
  | UnlockPin2 slotId pin2 response => CoreServiceClient.UnlockPin2 slotId pin2 response
  | UnlockPuk2 slotId newPin2 puk2 response => CoreServiceClient.UnlockPuk2 slotId newPin2 puk2 response
  | AlterPin2 slotId newPin2 oldPin2 response => CoreServiceClient.AlterPin2 slotId newPin2 oldPin2 response
  | SetLockState slotId options response => CoreServiceClient.SetLockState slotId options response
  | GetLockState slotId lockType lockState => CoreServiceClient.GetLockState slotId lockType lockState
  | HasOperatorPrivileges slotId hasOperatorPrivileges => CoreServiceClient.HasOperatorPrivileges slotId hasOperatorPrivileges
  | GetSimLabel slotId simLabel => CoreServiceClient.GetSimLabel slotId simLabel
  | SetSimLabelIndex simId simLabelIndex => CoreServiceClient.SetSimLabelIndex simId simLabelIndex
  end.
(** The request that it makes, and the value of its output argument before it. *)
Definition service_call {C O A R} (m : waitE C O A R) (cb : remote) : coreE A :=
  match m in waitE C O A R return coreE A with
  | GetImei slotId _ => ICoreService.GetImei slotId (Some cb)
  | GetImeiSv slotId _ => ICoreService.GetImeiSv slotId (Some cb)
  | HasSimCard slotId _ => ICoreService.HasSimCard slotId (Some cb)
  | GetSimState slotId _ => ICoreService.GetSimState slotId (Some cb)
  | IsCTSimCard slotId _ => ICoreService.IsCTSimCard slotId (Some cb)
  | IsSimActive slotId => ICoreService.IsSimActive slotId (Some cb)
  | GetDefaultVoiceSimId _ => ICoreService.GetDefaultVoiceSimId (Some cb)
  | SetShowNumber slotId number => ICoreService.SetShowNumber slotId number (Some cb)
  | GetShowNumber slotId _ => ICoreService.GetShowNumber slotId (Some cb)
  | SetShowName slotId name => ICoreService.SetShowName slotId name (Some cb)
  | GetShowName slotId _ => ICoreService.GetShowName slotId (Some cb)
  | UnlockPin slotId pin _ => ICoreService.UnlockPin slotId pin (Some cb)
  | UnlockPuk slotId newPin puk _ => ICoreService.UnlockPuk slotId newPin puk (Some cb)
  | AlterPin slotId newPin oldPin _ => ICoreService.AlterPin slotId newPin oldPin (Some cb)
  | UnlockPin2 slotId pin2 _ => ICoreService.UnlockPin2 slotId pin2 (Some cb)
  | UnlockPuk2 slotId newPin2 puk2 _ => ICoreService.UnlockPuk2 slotId newPin2 puk2 (Some cb)
  | AlterPin2 slotId newPin2 oldPin2 _ => ICoreService.AlterPin2 slotId newPin2 oldPin2 (Some cb)
  | SetLockState slotId options _ => ICoreService.SetLockState slotId options (Some cb)
  | GetLockState slotId lockType _ => ICoreService.GetLockState slotId lockType (Some cb)
  | HasOperatorPrivileges slotId _ => ICoreService.HasOperatorPrivileges slotId (Some cb)
  | GetSimLabel slotId _ => ICoreService.GetSimLabel slotId (Some cb)
  | SetSimLabelIndex simId simLabelIndex => ICoreService.SetSimLabelIndex simId simLabelIndex (Some cb)
  end.
Definition initial {C O A R} (m : waitE C O A R) : A :=
  match m in waitE C O A R return A with
  | GetImei _ _ => 0
  | GetImeiSv _ _ => 0
  | HasSimCard _ _ => 0
  | GetSimState _ _ => 0
  | IsCTSimCard _ _ => 0
  | IsSimActive _ => false
  | GetDefaultVoiceSimId _ => 0
  | SetShowNumber _ _ => 0
  | GetShowNumber _ _ => 0
  | SetShowName _ _ => 0
  | GetShowName _ _ => 0
  | UnlockPin _ _ _ => 0
  | UnlockPuk _ _ _ _ => 0
  | AlterPin _ _ _ _ => 0
  | UnlockPin2 _ _ _ => 0
  | UnlockPuk2 _ _ _ _ => 0
  | AlterPin2 _ _ _ _ => 0
  | SetLockState _ _ _ => 0
  | GetLockState _ _ _ => 0
  | HasOperatorPrivileges _ _ => 0
  | GetSimLabel _ simLabel => (0, simLabel)
  | SetSimLabelIndex _ _ => 0
  end.
(** What it makes of the answer to the request: the result of the method, or the output argument with which it waits. *)
Definition interpret {C O A R} (m : waitE C O A R) : A -> R + O :=
  match m in waitE C O A R return A -> R + O with
  | GetImei _ imei => fun a => if negb (a =? TELEPHONY_ERR_SUCCESS) then inl (a, imei) else inr imei
  | GetImeiSv _ imeiSv => fun a => if negb (a =? TELEPHONY_ERR_SUCCESS) then inl (a, imeiSv) else inr imeiSv
  | HasSimCard _ hasSimCard => fun a => if negb (a =? TELEPHONY_ERR_SUCCESS) then inl (a, hasSimCard) else inr hasSimCard
  | GetSimState _ simState => fun a => if negb (a =? TELEPHONY_ERR_SUCCESS) then inl (a, simState) else inr simState
  | IsCTSimCard _ isCTSimCard => fun a => if negb (a =? TELEPHONY_ERR_SUCCESS) then inl (a, isCTSimCard) else inr isCTSimCard
  | IsSimActive _ => fun a => if negb a then inl a else inr tt
  | GetDefaultVoiceSimId simId => fun a => if negb (a =? TELEPHONY_ERR_SUCCESS) then inl (a, simId) else inr simId
  | SetShowNumber _ _ => fun a => if negb (a =? TELEPHONY_ERR_SUCCESS) then inl a else inr tt
  | GetShowNumber _ showNumber => fun a => if negb (a =? TELEPHONY_ERR_SUCCESS) then inl (a, showNumber) else inr showNumber
  | SetShowName _ _ => fun a => if negb (a =? TELEPHONY_ERR_SUCCESS) then inl a else inr tt
  | GetShowName _ showName => fun a => if negb (a =? TELEPHONY_ERR_SUCCESS) then inl (a, showName) else inr showName
  | UnlockPin _ _ response => fun a => if negb (a =? TELEPHONY_ERR_SUCCESS) then inl (a, response) else inr response
  | UnlockPuk _ _ _ response => fun a => if negb (a =? TELEPHONY_ERR_SUCCESS) then inl (a, response) else inr response
  | AlterPin _ _ _ response => fun a => if negb (a =? TELEPHONY_ERR_SUCCESS) then inl (a, response) else inr response
  | UnlockPin2 _ _ response => fun a => if negb (a =? TELEPHONY_ERR_SUCCESS) then inl (a, response) else inr response
  | UnlockPuk2 _ _ _ response => fun a => if negb (a =? TELEPHONY_ERR_SUCCESS) then inl (a, response) else inr response
  | AlterPin2 _ _ _ response => fun a => if negb (a =? TELEPHONY_ERR_SUCCESS) then inl (a, response) else inr response
  | SetLockState _ _ response => fun a => if negb (a =? TELEPHONY_ERR_SUCCESS) then inl (a, response) else inr response
  | GetLockState _ _ lockState => fun a => if negb (a =? TELEPHONY_ERR_SUCCESS) then inl (a, lockState) else inr lockState
  | HasOperatorPrivileges _ hasOperatorPrivileges => fun a => if negb (a =? TELEPHONY_ERR_SUCCESS) then inl (a, hasOperatorPrivileges) else inr hasOperatorPrivileges
  | GetSimLabel _ _ => fun a => if negb (a.1 =? TELEPHONY_ERR_SUCCESS) then inl a else inr a.2
  | SetSimLabelIndex _ _ => fun a => if negb (a =? TELEPHONY_ERR_SUCCESS) then inl a else inr tt
  end.
(** An answer to a request that says that a task was posted. The answer of [IsSimActive] does not: it is [true] for a slot that the caller may not use. *)
Definition accepted {C O A R} (m : waitE C O A R) : A -> Prop :=
  match m in waitE C O A R return A -> Prop with
  | GetImei _ _ => fun a => a = TELEPHONY_ERR_SUCCESS
  | GetImeiSv _ _ => fun a => a = TELEPHONY_ERR_SUCCESS
  | HasSimCard _ _ => fun a => a = TELEPHONY_ERR_SUCCESS
  | GetSimState _ _ => fun a => a = TELEPHONY_ERR_SUCCESS
  | IsCTSimCard _ _ => fun a => a = TELEPHONY_ERR_SUCCESS
  | IsSimActive _ => fun _ => False
  | GetDefaultVoiceSimId _ => fun a => a = TELEPHONY_ERR_SUCCESS
  | SetShowNumber _ _ => fun a => a = TELEPHONY_ERR_SUCCESS
  | GetShowNumber _ _ => fun a => a = TELEPHONY_ERR_SUCCESS
  | SetShowName _ _ => fun a => a = TELEPHONY_ERR_SUCCESS
  | GetShowName _ _ => fun a => a = TELEPHONY_ERR_SUCCESS
  | UnlockPin _ _ _ => fun a => a = TELEPHONY_ERR_SUCCESS
  | UnlockPuk _ _ _ _ => fun a => a = TELEPHONY_ERR_SUCCESS
  | AlterPin _ _ _ _ => fun a => a = TELEPHONY_ERR_SUCCESS
  | UnlockPin2 _ _ _ => fun a => a = TELEPHONY_ERR_SUCCESS
  | UnlockPuk2 _ _ _ _ => fun a => a = TELEPHONY_ERR_SUCCESS
  | AlterPin2 _ _ _ _ => fun a => a = TELEPHONY_ERR_SUCCESS
  | SetLockState _ _ _ => fun a => a = TELEPHONY_ERR_SUCCESS
  | GetLockState _ _ _ => fun a => a = TELEPHONY_ERR_SUCCESS
  | HasOperatorPrivileges _ _ => fun a => a = TELEPHONY_ERR_SUCCESS
  | GetSimLabel _ _ => fun a => a.1 = TELEPHONY_ERR_SUCCESS
  | SetSimLabelIndex _ _ => fun a => a = TELEPHONY_ERR_SUCCESS
  end.
(** The manager that knows the answer, of the network search manager and the SIM manager. *)
Definition manager_of {C O A R} (m : waitE C O A R) (k : option pointer * option pointer) : option pointer :=
  match m with GetImei _ _ | GetImeiSv _ _ => k.1 | _ => k.2 end.
(** The result of a manager's answer: the output argument is changed by a success only; and of the answer to a PIN or PUK the remaining attempts are kept only where the code was wrong. *)
Definition answered {V} (x : Z * V) (out : V) : Z * V := (x.1, if x.1 =? TELEPHONY_ERR_SUCCESS then x.2 else out).
Definition answered_lock (x : Z * LockStatusResponse) (out : LockStatusResponse) : Z * LockStatusResponse :=
  answered (x.1, MkLockStatus (lock_result x.2) (if lock_result x.2 =? UNLOCK_INCORRECT then lock_remain x.2 else lock_remain out)) out.
(** The method's result if the manager answers in the state [w]. *)
Definition manager_answer {C O A R} (m : waitE C O A R) (p : pointer) (w : W) : O -> R :=
  match m in waitE C O A R return O -> R with
  | GetImei slotId _ => answered (CoreService.network_if_alive p (INetworkSearch.GetImei slotId []) (TELEPHONY_ERR_IPC_CONNECT_STUB_FAIL, []) w).1
  | GetImeiSv slotId _ => answered (CoreService.network_if_alive p (INetworkSearch.GetImeiSv slotId []) (TELEPHONY_ERR_IPC_CONNECT_STUB_FAIL, []) w).1
  | HasSimCard slotId _ => answered (CoreServiceSim.sim_if_alive p (ISimManager.HasSimCard slotId false) (TELEPHONY_ERR_IPC_CONNECT_STUB_FAIL, false) w).1
  | GetSimState slotId _ => answered (CoreServiceSim.sim_if_alive p (ISimManager.GetSimState slotId SIM_STATE_UNKNOWN) (TELEPHONY_ERR_IPC_CONNECT_STUB_FAIL, SIM_STATE_UNKNOWN) w).1
  | IsCTSimCard slotId _ => answered (CoreServiceSim.sim_if_alive p (ISimManager.IsCTSimCard slotId false) (TELEPHONY_ERR_IPC_CONNECT_STUB_FAIL, false) w).1
  | IsSimActive slotId => fun _ => (CoreServiceSim.sim_if_alive p (ISimManager.IsSimActive slotId) false w).1
  | GetDefaultVoiceSimId _ => answered (CoreServiceSim.sim_if_alive p (ISimManager.GetDefaultVoiceSimId 0) (TELEPHONY_ERR_IPC_CONNECT_STUB_FAIL, 0) w).1
  | SetShowNumber slotId number => fun _ => (CoreServiceSim.sim_if_alive p (ISimManager.SetShowNumber slotId number) TELEPHONY_ERR_IPC_CONNECT_STUB_FAIL w).1
  | GetShowNumber slotId _ => answered (CoreServiceSim.sim_if_alive p (ISimManager.GetShowNumber slotId []) (TELEPHONY_ERR_IPC_CONNECT_STUB_FAIL, []) w).1
  | SetShowName slotId name => fun _ => (CoreServiceSim.sim_if_alive p (ISimManager.SetShowName slotId name) TELEPHONY_ERR_IPC_CONNECT_STUB_FAIL w).1
  | GetShowName slotId _ => answered (CoreServiceSim.sim_if_alive p (ISimManager.GetShowName slotId []) (TELEPHONY_ERR_IPC_CONNECT_STUB_FAIL, []) w).1
  | UnlockPin slotId pin _ => answered_lock (CoreServiceSim.sim_if_alive p (ISimManager.UnlockPin slotId (Str16ToStr8 pin) (MkLockStatus UNLOCK_FAIL TELEPHONY_ERROR)) (TELEPHONY_ERR_IPC_CONNECT_STUB_FAIL, (MkLockStatus UNLOCK_FAIL TELEPHONY_ERROR)) w).1
  | UnlockPuk slotId newPin puk _ => answered_lock (CoreServiceSim.sim_if_alive p (ISimManager.UnlockPuk slotId (Str16ToStr8 newPin) (Str16ToStr8 puk) (MkLockStatus UNLOCK_FAIL TELEPHONY_ERROR)) (TELEPHONY_ERR_IPC_CONNECT_STUB_FAIL, (MkLockStatus UNLOCK_FAIL TELEPHONY_ERROR)) w).1
  | AlterPin slotId newPin oldPin _ => answered_lock (CoreServiceSim.sim_if_alive p (ISimManager.AlterPin slotId (Str16ToStr8 newPin) (Str16ToStr8 oldPin) (MkLockStatus UNLOCK_FAIL TELEPHONY_ERROR)) (TELEPHONY_ERR_IPC_CONNECT_STUB_FAIL, (MkLockStatus UNLOCK_FAIL TELEPHONY_ERROR)) w).1
  | UnlockPin2 slotId pin2 _ => answered_lock (CoreServiceSim.sim_if_alive p (ISimManager.UnlockPin2 slotId (Str16ToStr8 pin2) (MkLockStatus UNLOCK_FAIL TELEPHONY_ERROR)) (TELEPHONY_ERR_IPC_CONNECT_STUB_FAIL, (MkLockStatus UNLOCK_FAIL TELEPHONY_ERROR)) w).1
  | UnlockPuk2 slotId newPin2 puk2 _ => answered_lock (CoreServiceSim.sim_if_alive p (ISimManager.UnlockPuk2 slotId (Str16ToStr8 newPin2) (Str16ToStr8 puk2) (MkLockStatus UNLOCK_FAIL TELEPHONY_ERROR)) (TELEPHONY_ERR_IPC_CONNECT_STUB_FAIL, (MkLockStatus UNLOCK_FAIL TELEPHONY_ERROR)) w).1
  | AlterPin2 slotId newPin2 oldPin2 _ => answered_lock (CoreServiceSim.sim_if_alive p (ISimManager.AlterPin2 slotId (Str16ToStr8 newPin2) (Str16ToStr8 oldPin2) (MkLockStatus UNLOCK_FAIL TELEPHONY_ERROR)) (TELEPHONY_ERR_IPC_CONNECT_STUB_FAIL, (MkLockStatus UNLOCK_FAIL TELEPHONY_ERROR)) w).1
  | SetLockState slotId options _ => answered_lock (CoreServiceSim.sim_if_alive p (ISimManager.SetLockState slotId options (MkLockStatus UNLOCK_FAIL TELEPHONY_ERROR)) (TELEPHONY_ERR_IPC_CONNECT_STUB_FAIL, (MkLockStatus UNLOCK_FAIL TELEPHONY_ERROR)) w).1
  | GetLockState slotId lockType _ => answered (CoreServiceSim.sim_if_alive p (ISimManager.GetLockState slotId lockType LOCK_ERROR) (TELEPHONY_ERR_IPC_CONNECT_STUB_FAIL, LOCK_ERROR) w).1
  | HasOperatorPrivileges slotId _ => answered (CoreServiceSim.sim_if_alive p (ISimManager.HasOperatorPrivileges slotId false) (TELEPHONY_ERR_IPC_CONNECT_STUB_FAIL, false) w).1
  | GetSimLabel slotId _ => answered (CoreServiceSim.sim_if_alive p (ISimManager.GetSimLabel slotId SimLabel_new) (TELEPHONY_ERR_IPC_CONNECT_STUB_FAIL, SimLabel_new) w).1
  | SetSimLabelIndex simId simLabelIndex => fun _ => (CoreServiceSim.sim_if_alive p (ISimManager.SetSimLabelIndex simId simLabelIndex) TELEPHONY_ERR_IPC_CONNECT_STUB_FAIL w).1
  end.
End Methods.

(** ** Requests *)

(** The callback object of a call that posts a task for it, or that answers through it at once. *)
Definition waits_with {R} (c : coreE R) : option remote :=
  match c with
  | ICoreService.GetImei _ callback | ICoreService.GetImeiSv _ callback | ICoreService.HasSimCard _ callback | ICoreService.GetSimState _ callback
  | ICoreService.IsCTSimCard _ callback | ICoreService.IsSimActive _ callback | ICoreService.GetDefaultVoiceSimId callback | ICoreService.SetShowNumber _ _ callback
  | ICoreService.GetShowNumber _ callback | ICoreService.SetShowName _ _ callback | ICoreService.GetShowName _ callback | ICoreService.UnlockPin _ _ callback
  | ICoreService.UnlockPuk _ _ _ callback | ICoreService.AlterPin _ _ _ callback | ICoreService.UnlockPin2 _ _ callback | ICoreService.UnlockPuk2 _ _ _ callback
  | ICoreService.AlterPin2 _ _ _ callback | ICoreService.SetLockState _ _ callback | ICoreService.GetLockState _ _ callback | ICoreService.HasOperatorPrivileges _ callback
  | ICoreService.GetSimLabel _ callback | ICoreService.SetSimLabelIndex _ _ callback | ICoreService.StartHiddenCameraDetection _ _ callback | ICoreService.StopHiddenCameraDetection callback | ICoreService.KeepHiddenCameraDetection callback => callback
  | _ => None
  end.

Section Requests.
Context {P W : Type} `{ParcelOps P} `{ErrorCodes} `{StringEx} `{AccessToken W} `{!Managers W}.
Context (cb : remote).

Lemma leaves_transfer r writer p : r <> cb -> leaves (seen_core (P := P) (W := W) cb) (CoreService.on_system (RawParcelCallbackProxy.Transfer (Some r) writer p)).
Proof.
  intros N s. unfold CoreService.on_system, RawParcelCallbackProxy.Transfer. destruct (WriteInterfaceToken _ p) as [[] d]; cbn; [|done].
  rewrite seen_set_inner. unfold seen_core, seen_sim, sent_messages. cbn. by rewrite filter_app, filter_cons_False, app_nil_r.
Qed.
End Requests.

(** Goals of [leaves] and [posts] by the form of the code. *)
Ltac leaves_step :=
  lazymatch goal with
  | |- leaves _ (mret _) => apply leaves_ret
  | |- leaves _ (mbind _ _) => apply leaves_bind; [|intros]
  | |- leaves _ (if ?b then _ else _) => destruct b
  | |- leaves _ (match ?o with Some _ => _ | None => _ end) => destruct o eqn:?
  | |- leaves _ (let '(_, _) := ?x in _) => destruct x
  | |- leaves _ (CoreServiceSim.erase_unsupported _) => apply leaves_erase
  | |- leaves _ (CoreService.coreServiceSim _) => apply leaves_coreServiceSim
  | |- leaves _ (CoreService.call _) => apply leaves_call
  | |- leaves _ (CoreServiceSim.call _) => apply leaves_sim_call
  | |- leaves _ (CoreServiceSim.AsyncSimGeneralExecute _) => apply leaves_general; cbn; congruence
  | |- leaves _ (CoreServiceSim.AsyncSimPinExecute _) => apply leaves_pin; cbn; congruence
  | |- leaves _ (CoreService.AsyncNetSearchExecute _) => apply leaves_net; cbn; congruence
  | |- leaves _ (gets _) => apply leaves_gets
  | |- leaves _ (CoreService.on_system (RawParcelCallbackProxy.Transfer _ _ _)) => apply leaves_transfer; congruence
  | |- leaves _ ?m => let h := head_of m in unfold h
  end.

Lemma serve_leaves {P W} `{ParcelOps P} `{ErrorCodes} `{StringEx} `{AccessToken W} `{!Managers W} (indeterminate : Z) (cb : remote) {R} (c : coreE R) : waits_with c <> Some cb -> leaves (seen_core (P := P) (W := W) cb) (CoreService.serve indeterminate c).
Proof. intros N. destruct c; unfold CoreService.serve; cbn [waits_with] in N; repeat leaves_step. Qed.

(** ** What a task writes is what the client reads *)

Section Answers.
Context {P W : Type} `{ParcelLaws P} `{!Roomy P} `{ErrorCodes} `{StringEx} `{AccessToken W} `{!Managers W} `{!TypedManagers W}.
Context {U : Type} `{!ClientSystem P U}.

(** The task's answer, as the client's method reads it, is the manager's. *)
Definition answers {C O A R} (m : waitE C O A R) (k : option pointer * option pointer) (t : task P W) : Prop :=
  exists p, manager_of m k = Some p /\ forall w p0 token, content p0 = [token] ->
    exists items, content ((compute t w).1 p0) = token :: items /\
      forall data out, content data = items ->
        CoreServiceClient.finished (client_method (U := U) m) out (CoreServiceClient.reader (client_method (U := U) m) data (CoreServiceClient.variables (client_method (U := U) m))) = manager_answer m p w out.

Lemma get_reads {A} (rd : P -> option A * P) d i a rest data : reads_off rd i a -> content data = i :: rest ->
  exists data', CoreServiceClient.get rd d data = (a, data') /\ content data' = rest.
Proof. intros Hr Hd. destruct (Hr rest data Hd) as (data' & E & C). exists data'. unfold CoreServiceClient.get. by rewrite E. Qed.
Lemma puts_content fs items p : Forall2 (fun f i => appends f [i]) fs items -> content (puts fs p) = content p ++ items.
Proof.
  intros HF. revert p. induction HF as [|f i fs items Hf HF IH]; intros p; [by rewrite app_nil_r|]. destruct (Hf p) as (p' & E & C).
  unfold puts in *. cbn. rewrite E, IH. cbn [snd]. by rewrite C, <- app_assoc.
Qed.
Lemma write_answer_content ret fs items p : is_i32 ret -> Forall2 (fun f i => appends f [i]) fs items ->
  content (write_answer ret fs p) = content p ++ IInt32 ret :: (if ret =? TELEPHONY_ERR_SUCCESS then items else []).
Proof.
  intros Hr HF. unfold write_answer. assert (content (puts [WriteInt32 ret] p) = content p ++ [IInt32 ret]) as E.
  { apply puts_content. constructor; [by apply appends_int32_ok|done]. }
  destruct (ret =? TELEPHONY_ERR_SUCCESS); [|done]. by rewrite (puts_content _ items), E, <- app_assoc.
Qed.
Lemma sim_alive_ok {R} p (c : simE R) (r : R) (w : W) : sim_ok c r -> sim_ok c (CoreServiceSim.sim_if_alive p c r w).1.
Proof. intros Hr. unfold CoreServiceSim.sim_if_alive. destruct (alive p w); [apply sim_typed|done]. Qed.
Lemma network_alive_ok {R} p (c : networkE R) (r : R) (w : W) : network_ok c r -> network_ok c (CoreService.network_if_alive p c r w).1.
Proof. intros Hr. unfold CoreService.network_if_alive. destruct (alive p w); [apply network_typed|done]. Qed.

Lemma answers_posted {C O A R} (m : waitE C O A R) k p t : manager_of m k = Some p ->
  (forall w p0 token, content p0 = [token] -> exists items, content ((compute t w).1 p0) = token :: items /\
      forall data out, content data = items ->
        CoreServiceClient.finished (client_method (U := U) m) out (CoreServiceClient.reader (client_method (U := U) m) data (CoreServiceClient.variables (client_method (U := U) m))) = manager_answer m p w out) ->
  answers m k t.
Proof. intros E X. by exists p. Qed.
End Answers.

(** Follow the task and the reader. *)
Ltac default_ok :=
  cbn [sim_ok network_ok]; cbv [ok ok_Z ok_bool ok_cstring ok_u16string ok_pair ok_lock ok_lock_status ok_label]; cbn;
  repeat match goal with |- _ /\ _ => split end; first [done|apply code_typed; lia|unfold is_i32; cbv; by split].
Ltac reads_go :=
  repeat (match goal with |- context [CoreServiceClient.get ?rd ?d ?p] =>
    let q := fresh "q" in let E := fresh "E" in
    edestruct (get_reads rd d) as (q & E & ?); [solve [eauto with parcel]|eassumption|]; rewrite E; clear E end; cbn iota beta).
(** A code of an error is not zero. *)
Ltac not_accepted := cbn [accepted fst]; first [by intros []|let E := fresh in intros E; exfalso; revert E; apply code_fails; lia].
(** The content of the answer, by the function that writes it. *)
Ltac values_written := repeat (first [apply List.Forall2_nil|eapply List.Forall2_cons; [first [apply appends_int32_ok; assumption|apply appends_bool|apply appends_string16]|]]).
Ltac written :=
  lazymatch goal with
  | Hp : content ?p0 = [_] |- content (write_answer _ _ ?p0) = _ =>
      erewrite write_answer_content; [rewrite Hp; reflexivity|done|values_written]
  | Hp : content ?p0 = [_] |- content (puts _ ?p0) = _ =>
      erewrite puts_content; [rewrite Hp; reflexivity|values_written]
  end.
Ltac answer_go :=
  let w := fresh "w" in let p0 := fresh "p0" in let token := fresh "token" in let Hp := fresh "Hp" in let T := fresh "T" in let x := fresh "x" in
  eapply answers_posted; [reflexivity|]; intros w p0 token Hp; cbn [compute manager_answer client_method]; unfold mbind, stateful_bind, mret, stateful_ret;
  lazymatch goal with
  | |- context [CoreServiceSim.sim_if_alive ?p ?c ?r w] =>
      assert (sim_ok c (CoreServiceSim.sim_if_alive p c r w).1) as T by (apply sim_alive_ok; default_ok);
      set (x := CoreServiceSim.sim_if_alive p c r w) in *
  | |- context [CoreService.network_if_alive ?p ?c ?r w] =>
      assert (network_ok c (CoreService.network_if_alive p c r w).1) as T by (apply network_alive_ok; default_ok);
      set (x := CoreService.network_if_alive p c r w) in *
  end;
  clearbody x; destruct x as [x ?]; cbn [sim_ok network_ok] in T; cbv [ok ok_Z ok_bool ok_cstring ok_u16string ok_pair ok_lock ok_lock_status ok_label] in T;
  repeat match type of x with prod _ _ => let e := fresh "e" in let v := fresh "v" in destruct x as [e v] | LockStatusResponse => destruct x | SimLabel => destruct x end; cbn [fst snd] in *;
  repeat match goal with v : LockStatusResponse |- _ => destruct v | v : SimLabel |- _ => destruct v end; cbn [lock_result lock_remain simType label_index] in *; destruct_and?;
  eexists; (split; [solve [written]|]);
  let data := fresh "data" in let out := fresh "out" in let Hd := fresh "Hd" in intros data out Hd;
  lazymatch goal with |- context [CoreServiceClient.reader ?m] => let h := head_of m in unfold h end;
  cbn [CoreServiceClient.reader CoreServiceClient.variables CoreServiceClient.finished]; unfold answered_lock, answered; cbn [fst snd lock_result lock_remain];
  repeat (reads_go; match goal with |- context [if ?b then _ else _] => destruct b eqn:? end; cbn [lock_result lock_remain] in *); reads_go; try done.

Ltac posts_step :=
  lazymatch goal with
  | |- posts _ _ _ _ (CoreService.coreServiceSim _) => apply posts_coreServiceSim
  | |- posts _ _ _ _ (mbind _ CoreServiceSim.simManager_) => apply posts_simManager
  | |- posts _ _ _ _ (mbind _ CoreService.networkSearchManager_) => apply posts_networkManager; cbn [fst]
  | |- posts _ _ _ _ (mbind _ (CoreServiceSim.AsyncSimGeneralExecute ?t)) => apply (posts_post _ _ _ _ t); [by intros; apply post_general|split; [done|]]
  | |- posts _ _ _ _ (mbind _ (CoreServiceSim.AsyncSimPinExecute ?t)) => apply (posts_post _ _ _ _ t); [by intros; apply post_pin|split; [done|]]
  | |- posts _ _ _ _ (mbind _ (CoreService.AsyncNetSearchExecute ?t)) => apply (posts_post _ _ _ _ t); [by intros; apply post_net|split; [done|]]
  | |- posts _ _ _ _ (mbind _ _) => apply posts_bind; [repeat leaves_step|intros]
  | |- posts _ _ _ _ (mret _) => apply posts_ret; not_accepted
  | |- posts _ _ _ _ (if ?b then _ else _) => destruct b
  | |- posts _ _ _ _ (match ?k with Some _ => _ | None => _ end) => destruct k
  | |- posts _ _ _ _ ?m => let h := head_of m in unfold h; cbn iota beta
  end.

Section Posts.
Context {P W : Type} `{ParcelLaws P} `{!Roomy P} `{ErrorCodes} `{StringEx} `{AccessToken W} `{!Managers W} `{!TypedManagers W}.
Context {U : Type} `{!ClientSystem P U}.
Context (indeterminate : Z) (cb : remote).

Lemma posts_call {C O A R} (m : waitE C O A R) k :
  posts (seen_core cb) k (accepted m) (fun t => receiver t = cb /\ answers (U := U) m k t) (CoreService.serve indeterminate (service_call m cb)).
Proof.
  destruct k as [n s], m; unfold CoreService.serve; cbn [service_call]; repeat posts_step.
  all: try solve [answer_go].
  answer_go. repeat match goal with |- context [CoreServiceClient.get ?r ?d ?q] => destruct (CoreServiceClient.get r d q) end.
  by match goal with E : (_ =? TELEPHONY_ERR_SUCCESS) = false |- _ => rewrite E end.
Qed.
End Posts.

(** ** The configuration and its steps *)

(** The event handlers of the service. *)
Inductive queue : Type := NetSearch | SimGeneral | SimPin | CardGeneral | CardPin.

Section Queues.
Context {P W : Type} `{ParcelOps P}.
Implicit Types s : core_service P W.

Definition handler_of (q : queue) s : handler P W :=
  match q with
  | NetSearch => CoreService.networkSearchManagerHandler_ s
  | SimGeneral => CoreService.simGeneralHandler_ s
  | SimPin => CoreService.simPinHandler_ s
  | CardGeneral => CoreServiceSim.simGeneralHandler_ (CoreService.coreServiceSim_ s)
  | CardPin => CoreServiceSim.simPinHandler_ (CoreService.coreServiceSim_ s)
  end.
Definition set_handler (q : queue) (h : handler P W) s : core_service P W :=
  let o := CoreService.coreServiceSim_ s in
  match q with
  | NetSearch => CoreService.set_handlers h (CoreService.simGeneralHandler_ s) (CoreService.simPinHandler_ s) s
  | SimGeneral => CoreService.set_handlers (CoreService.networkSearchManagerHandler_ s) h (CoreService.simPinHandler_ s) s
  | SimPin => CoreService.set_handlers (CoreService.networkSearchManagerHandler_ s) (CoreService.simGeneralHandler_ s) h s
  | CardGeneral => CoreService.set_inner (CoreServiceSim.MkCoreServiceSim (CoreServiceSim.sim_manager o) h (CoreServiceSim.simPinHandler_ o)) (CoreService.sys s) s
  | CardPin => CoreService.set_inner (CoreServiceSim.MkCoreServiceSim (CoreServiceSim.sim_manager o) (CoreServiceSim.simGeneralHandler_ o) h) (CoreService.sys s) s
  end.
(** A handler runs its oldest task. *)
Definition run_first (q : queue) s : option (core_service P W) :=
  match handler_of q s with
  | Some (t :: rest) => Some (CoreService.on_system (run_task t) (set_handler q (Some rest) s)).2
  | _ => None
  end.
Definition set_sys (y : system P W) s : core_service P W := CoreService.set_inner (CoreService.coreServiceSim_ s) y s.
(** The managers do something of their own. *)
Definition set_managers (w : W) s : core_service P W := set_sys (MkSystem w (sent (CoreService.sys s))) s.
Definition set_sent (l : list (remote * P)) s : core_service P W := set_sys (MkSystem (managers (CoreService.sys s)) l) s.
End Queues.

Section Run.
Context {P W : Type} `{ParcelOps P} `{ErrorCodes} `{StringEx} `{AccessToken W} `{!Managers W} {U : Type}.
Context (indeterminate : Z) {C O R : Type} (a : CoreServiceClient.awaited P U C O R) (cb : remote) (timeoutMs : Z).

Inductive phase : Type := Waiting (out : O) (start : Z) | Returned (r : R).
(** The service, the client's callback object, the waiting method and the time in microseconds. *)
Record config : Type := MkConfig { service_ : core_service P W; object : RawParcelCallbackStub.callback C; phase_ : phase; clock : Z }.

(** The steps: another request is served; a handler runs its oldest task; the oldest message to some receiver is delivered, with the content with which it was sent; the managers
    change their state; time passes; the waiting method ends, and its variables with it. *)
Inductive step : config -> config -> Prop :=
| other_request A (c : coreE A) s b ph now : waits_with c <> Some cb ->
    step (MkConfig s b ph now) (MkConfig (CoreService.serve indeterminate c s).2 b ph now)
| handler_runs q s s' b ph now : run_first q s = Some s' -> step (MkConfig s b ph now) (MkConfig s' b ph now)
| message_arrives earlier r p later p' s b ph now : sent (CoreService.sys s) = earlier ++ (r, p) :: later -> Forall (fun m => m.1 <> r) earlier -> content p' = content p ->
    step (MkConfig s b ph now)
      (MkConfig (set_sent (earlier ++ later) s) (if decide (r = cb) then (RawParcelCallbackStub.OnRemoteRequest (Some (CoreServiceClient.reader a)) p' b).2 else b) ph now)
| managers_change w s b ph now : step (MkConfig s b ph now) (MkConfig (set_managers w s) b ph now)
| time_passes now' s b ph now : now <= now' -> step (MkConfig s b ph now) (MkConfig s b ph now')
| wait_ends out start r s b now : CoreServiceClient.conclude a timeoutMs start now out b = Some r ->
    step (MkConfig s b (Waiting out start) now) (MkConfig s (RawParcelCallbackStub.MkCallback None (RawParcelCallbackStub.done_ b)) (Returned r) now).
End Run.

(** ** What a step does to the task and the message *)

Section Effects.
Context {P W : Type} `{ParcelLaws P} `{!Roomy P} (cb : remote).
Implicit Types s : core_service P W.

(** The message of a task that runs in the managers' state [w]. *)
Definition message (t : task P W) (w : W) : P := (compute t w).1 (WriteInterfaceToken IRawParcelCallback.Descriptor new_parcel).2.

Lemma run_task_sends (t : task P W) y : run_task t y = (tt, MkSystem (compute t (managers y)).2 (sent y ++ [(receiver t, message t (managers y))])).
Proof.
  unfold run_task, on_managers, mbind, stateful_bind, message. destruct (compute t (managers y)) as [writer w]. unfold RawParcelCallbackProxy.Transfer.
  destruct (appends_token IRawParcelCallback.Descriptor (new_parcel (P := P))) as (p' & -> & _). done.
Qed.
Definition mine s : list (task P W) * list (remote * P) := (tasks (seen_core cb s), messages (seen_core cb s)).

Lemma set_handler_same q s : set_handler q (handler_of q s) s = s.
Proof. by destruct q, s as [???????????[]]. Qed.
Lemma set_handler_seen q s : exists l1 l2, forall h, seen_core cb (set_handler q h s) = MkSeen (l1 ++ waiting_tasks cb h ++ l2) (messages (seen_core cb s)) (known (seen_core cb s)).
Proof.
  set (x1 := waiting_tasks cb (CoreService.networkSearchManagerHandler_ s)). set (x2 := waiting_tasks cb (CoreService.simGeneralHandler_ s)). set (x3 := waiting_tasks cb (CoreService.simPinHandler_ s)).
  set (x4 := waiting_tasks cb (CoreServiceSim.simGeneralHandler_ (CoreService.coreServiceSim_ s))). set (x5 := waiting_tasks cb (CoreServiceSim.simPinHandler_ (CoreService.coreServiceSim_ s))).
  destruct q; [exists [], (x2 ++ x3 ++ x4 ++ x5)|exists x1, (x3 ++ x4 ++ x5)|exists (x1 ++ x2), (x4 ++ x5)|exists (x1 ++ x2 ++ x3), x5|exists (x1 ++ x2 ++ x3 ++ x4), []];
    intros h; unfold seen_core, seen_sim; cbn; rewrite <- ?app_assoc, ?app_nil_r; done.
Qed.
Lemma seen_set_sys y s : seen_core cb (set_sys y s) = MkSeen (tasks (seen_core cb s)) (sent_messages cb y) (known (seen_core cb s)).
Proof. done. Qed.
Lemma sys_set_handler q h s : CoreService.sys (set_handler q h s) = CoreService.sys s.
Proof. by destruct q. Qed.
Lemma waiting_head (t : task P W) rest : waiting_tasks cb (Some (t :: rest)) = filter (fun t => receiver t = cb) [t] ++ waiting_tasks cb (Some rest).
Proof. unfold waiting_tasks. cbn [default]. by rewrite <- filter_app. Qed.
(** A handler that runs a task: the task is gone, its message is sent. *)
Lemma run_first_mine q s s' : run_first q s = Some s' -> exists t rest l1 l2, let w := managers (CoreService.sys s) in handler_of q s = Some (t :: rest) /\
  (mine s).1 = l1 ++ filter (fun t => receiver t = cb) [t] ++ l2 /\
  mine s' = (l1 ++ l2, (mine s).2 ++ filter (fun m => m.1 = cb) [(receiver t, message t w)]).
Proof.
  unfold run_first. destruct (handler_of q s) as [[|t rest]|] eqn:E; [done| |done]. intros [= <-].
  destruct (set_handler_seen q s) as (l1 & l2 & K). exists t, rest, l1, (waiting_tasks cb (Some rest) ++ l2). split; [done|split].
  - unfold mine. cbn [fst]. rewrite <- (set_handler_same q s) at 1. rewrite E, K, waiting_head. cbn [tasks]. by rewrite <- app_assoc.
  - unfold CoreService.on_system. rewrite run_task_sends. cbn [snd]. fold (set_sys (MkSystem (compute t (managers (CoreService.sys (set_handler q (Some rest) s)))).2
      (sent (CoreService.sys (set_handler q (Some rest) s)) ++ [(receiver t, message t (managers (CoreService.sys (set_handler q (Some rest) s))))])) (set_handler q (Some rest) s)).
    unfold mine. rewrite seen_set_sys, K, sys_set_handler. cbn [tasks messages]. f_equal. unfold sent_messages. cbn [sent]. by rewrite filter_app.
Qed.
(** Delivering a message. *)
Lemma mine_delivered earlier (r : remote) (p : P) later s : sent (CoreService.sys s) = earlier ++ (r, p) :: later -> Forall (fun m => m.1 <> r) earlier ->
  if decide (r = cb) then exists l, (mine s).2 = (cb, p) :: l /\ mine (set_sent (earlier ++ later) s) = ((mine s).1, l)
  else mine (set_sent (earlier ++ later) s) = mine s.
Proof.
  intros E N. unfold mine, set_sent. rewrite seen_set_sys. cbn [tasks messages fst snd].
  assert (messages (seen_core cb s) = sent_messages cb (CoreService.sys s)) as -> by done. unfold sent_messages. cbn [sent]. rewrite E, !filter_app.
  destruct (decide (r = cb)) as [->|D].
  - assert (filter (fun m : remote * P => m.1 = cb) earlier = []) as ->.
    { clear E. induction N as [|m l Hm Hl IH]; [done|]. by rewrite filter_cons_False. }
    exists (filter (fun m => m.1 = cb) later). by rewrite filter_cons_True.
  - by rewrite filter_cons_False.
Qed.
Lemma mine_set_managers w s : mine (set_managers w s) = mine s.
Proof. done. Qed.
End Effects.

(** ** The invariant *)

Section Invariant.
Context {P W : Type} `{ParcelLaws P} `{!Roomy P} `{ErrorCodes} `{StringEx} `{AccessToken W} `{!Managers W} {U : Type}.
Context (indeterminate : Z) {C O R : Type} (a : CoreServiceClient.awaited P U C O R) (cb : remote) (timeoutMs : Z).
Abbreviation step := (step (P := P) (W := W) indeterminate a cb timeoutMs).
Context (first : config (P := P) (W := W) (C := C) (O := O) (R := R)) (out0 : O) (start0 : Z) (posted : option (task P W)) (ans : W -> R).
Abbreviation initial_object := (RawParcelCallbackStub.RawParcelCallbackStub (CoreServiceClient.variables a)).
Context (Hphase : phase_ first = Waiting out0 start0) (Hmine : mine cb (service_ first) = (option_list posted, [])) (Hobject : object first = initial_object).
Context (Hans : forall t, posted = Some t -> receiver t = cb /\ forall w p0 token, content p0 = [token] -> exists items, content ((compute t w).1 p0) = token :: items /\
  forall data, content data = items -> CoreServiceClient.finished a out0 (CoreServiceClient.reader a data (CoreServiceClient.variables a)) = ans w).

(** The managers have been in the state [w] since the request. *)
Definition was cfg (w : W) : Prop := exists mid, rtc step first mid /\ rtc step mid cfg /\ managers (CoreService.sys (service_ mid)) = w.
(** How far the answer has come. *)
Inductive stage cfg : Prop :=
| not_posted : posted = None -> mine cb (service_ cfg) = ([], []) -> object cfg = initial_object -> stage cfg
| pending t : posted = Some t -> mine cb (service_ cfg) = ([t], []) -> object cfg = initial_object -> stage cfg
| travelling t w : posted = Some t -> was cfg w -> mine cb (service_ cfg) = ([], [(cb, message t w)]) -> object cfg = initial_object -> stage cfg
| delivered w v : posted <> None -> was cfg w -> mine cb (service_ cfg) = ([], []) -> object cfg = RawParcelCallbackStub.MkCallback (Some v) true -> CoreServiceClient.finished a out0 v = ans w -> stage cfg.
Definition answer_invariant cfg : Prop :=
  match phase_ cfg with
  | Waiting out start => out = out0 /\ start = start0 /\ stage cfg
  | Returned r => (r = CoreServiceClient.timed_out a out0 /\ start0 + timeoutMs <= clock cfg) \/ posted <> None /\ exists w, was cfg w /\ r = ans w
  end.

Lemma was_step cfg cfg' w : step cfg cfg' -> was cfg w -> was cfg' w.
Proof. intros S (mid & S1 & S2 & E). exists mid. split; [done|]. split; [by eapply rtc_r|done]. Qed.
Lemma was_now cfg cfg' : rtc step first cfg -> step cfg cfg' -> was cfg' (managers (CoreService.sys (service_ cfg))).
Proof. intros S S'. exists cfg. split; [done|]. split; [by apply rtc_once|done]. Qed.
Lemma invariant_first : answer_invariant first.
Proof.
  unfold answer_invariant. rewrite Hphase. split; [done|split; [done|]]. destruct posted as [t|] eqn:E; [by eapply pending|by apply not_posted].
Qed.
(** The same stage, where neither the service's part nor the object has changed. *)
Lemma stage_same cfg cfg' : step cfg cfg' -> mine cb (service_ cfg') = mine cb (service_ cfg) -> object cfg' = object cfg -> stage cfg -> stage cfg'.
Proof.
  intros S E1 E2 []; [eapply not_posted|eapply pending|eapply travelling|eapply delivered]; eauto using was_step; congruence.
Qed.
Lemma stage_runs cfg cfg' q : rtc step first cfg -> step cfg cfg' -> run_first q (service_ cfg) = Some (service_ cfg') -> object cfg' = object cfg -> stage cfg -> stage cfg'.
Proof.
  intros S S' E Eo St. destruct (run_first_mine cb q _ _ E) as (t & rest & l1 & l2 & _ & M1 & M2). cbn zeta in *.
  destruct (decide (receiver t = cb)) as [Et|Et].
  - rewrite filter_cons_True in M1 by done. rewrite filter_cons_True in M2 by done. rewrite Et in M2. cbn [filter list_filter app] in M1, M2.
    destruct St as [N M|t0 N M|t0 w N Hw M|w v Np Hw M]; rewrite M in M1, M2; cbn [fst snd] in M1, M2; try by destruct l1.
    destruct l1 as [|x l1]; [|by destruct l1]. destruct l2; [|done]. injection M1 as ->. eapply travelling; [done|by apply was_now|exact M2|congruence].
  - rewrite filter_cons_False in M1 by done. rewrite filter_cons_False in M2 by done. rewrite app_nil_r in M2. cbn [filter list_filter app] in M1.
    apply (stage_same cfg); [done| |done|done]. rewrite M2, <- M1. by destruct (mine cb (service_ cfg)).
Qed.
Lemma read_message t w p' : posted = Some t -> content p' = content (message t w) -> exists v,
  (RawParcelCallbackStub.OnRemoteRequest (Some (CoreServiceClient.reader a)) p' initial_object).2 = RawParcelCallbackStub.MkCallback (Some v) true /\
  CoreServiceClient.finished a out0 v = ans w.
Proof.
  intros E Ec. destruct (Hans t E) as [_ Ha]. destruct (appends_token IRawParcelCallback.Descriptor (new_parcel (P := P))) as (p0 & E0 & C0). rewrite new_law in C0.
  destruct (Ha w p0 (IToken IRawParcelCallback.Descriptor) C0) as (items & Ei & Hi). unfold message in Ec. rewrite E0 in Ec. cbn [snd] in Ec. rewrite Ei in Ec.
  destruct (reads_off_token IRawParcelCallback.Descriptor items p' Ec) as (d & Ed & Cd). exists (CoreServiceClient.reader a d (CoreServiceClient.variables a)). split; [|by apply Hi].
  unfold RawParcelCallbackStub.OnRemoteRequest, RawParcelCallbackStub.Transfer, RawParcelCallbackStub.CheckCurrentDescriptor. rewrite Ed. cbn [default]. by rewrite bool_decide_true.
Qed.
Lemma stage_arrives cfg cfg' earlier (r : remote) p later p' : step cfg cfg' ->
  sent (CoreService.sys (service_ cfg)) = earlier ++ (r, p) :: later -> Forall (fun m => m.1 <> r) earlier -> content p' = content p ->
  service_ cfg' = set_sent (earlier ++ later) (service_ cfg) ->
  object cfg' = (if decide (r = cb) then (RawParcelCallbackStub.OnRemoteRequest (Some (CoreServiceClient.reader a)) p' (object cfg)).2 else object cfg) -> stage cfg -> stage cfg'.
Proof.
  intros S E N Ec Es Eo St. pose proof (mine_delivered cb earlier r p later (service_ cfg) E N) as M. rewrite <- Es in M. destruct (decide (r = cb)) as [->|D]; [|by apply (stage_same cfg)].
  destruct M as (l & M & M'). destruct St as [? M0|t ? M0|t w Ht Hw M0 Ob|w v ? ? M0]; rewrite M0 in M, M'; cbn [fst snd] in M, M'; try done. injection M as <- <-.
  destruct (read_message t w p' Ht Ec) as (v & Ev & Fv). eapply (delivered _ w v); [congruence|by eapply was_step|done|by rewrite Eo, Ob|done].
Qed.
(** Every step keeps the invariant. *)
Lemma invariant_step cfg cfg' : rtc step first cfg -> answer_invariant cfg -> step cfg cfg' -> answer_invariant cfg'.
Proof.
  intros S I S'. destruct (phase_ cfg) as [out start|r] eqn:Ep.
  - unfold answer_invariant in I. rewrite Ep in I. destruct I as (-> & -> & St). pose proof S' as S2. destruct S' as [A c s b ph now N|q s s' b ph now E|earlier r p later p' s b ph now E N Ec|w s b ph now|now' s b ph now L|out start r s b now E];
      cbn in Ep; try subst ph; try injection Ep as -> ->; unfold answer_invariant; cbn [phase_].
    + split; [done|split; [done|]]. eapply stage_same; [exact S2|unfold mine; cbn [service_]; by rewrite serve_leaves|done|done].
    + split; [done|split; [done|]]. by eapply stage_runs.
    + split; [done|split; [done|]]. by eapply stage_arrives.
    + split; [done|split; [done|]]. by eapply stage_same.
    + split; [done|split; [done|]]. by eapply stage_same.
    + unfold CoreServiceClient.conclude, RawParcelCallbackStub.WaitForResult in E. cbn [object clock] in *.
      destruct St as [_ _ Ob|t _ _ Ob|t w _ _ _ Ob|w v Np Hw _ Ob F]; cbn [object] in Ob; subst b; cbn in E.
      1-3: destruct (Z.leb_spec (start0 + timeoutMs) now); [injection E as <-; by left|done].
      injection E as <-. right. split; [done|]. exists w. split; [by eapply was_step|done].
  - unfold answer_invariant in *. rewrite Ep in I.
    assert (phase_ cfg' = Returned r /\ clock cfg <= clock cfg') as [-> L]. { destruct S'; cbn in *; try done; split; try done; lia. }
    destruct I as [[-> L']|(Np & w & Hw & ->)]; [left; split; [done|lia]|right]. split; [done|]. exists w. split; [by eapply was_step|done].
Qed.
Lemma invariant_always cfg : rtc step first cfg -> answer_invariant cfg.
Proof.
  intros S. assert (forall mid, rtc step first mid -> rtc step mid cfg -> answer_invariant mid -> answer_invariant cfg) as K; [|by eapply K; [reflexivity|exact S|apply invariant_first]].
  intros mid S1 S2. revert S1. induction S2 as [|x y z Sxy S2 IH]; intros S1 I; [done|]. apply IH; [exact S|by eapply rtc_r|by eapply invariant_step].
Qed.

(** ** An answer on its way arrives *)

Lemma reach_invariant cfg cfg' : rtc step first cfg -> rtc step cfg cfg' -> rtc step first cfg' /\ answer_invariant cfg'.
Proof. intros S S'. assert (rtc step first cfg') by (by etrans). split; [done|by apply invariant_always]. Qed.
Lemma run_head q s t rest : handler_of q s = Some (t :: rest) -> exists s' : core_service P W, run_first q s = Some s' /\ handler_of q s' = Some rest.
Proof. intros E. unfold run_first. rewrite E. eexists. split; [done|]. unfold CoreService.on_system. rewrite run_task_sends. by destruct q. Qed.
(** The tasks before it are run first. *)
Lemma run_earlier q earlier t rest s b ph now : handler_of q s = Some (earlier ++ t :: rest) -> exists s' : core_service P W,
  rtc step (MkConfig s b ph now) (MkConfig s' b ph now) /\ handler_of q s' = Some (t :: rest).
Proof.
  revert s. induction earlier as [|x l IH]; intros s E; [by exists s|]. destruct (run_head q s x (l ++ t :: rest) E) as (s1 & E1 & E2).
  destruct (IH s1 E2) as (s2 & S & E3). exists s2. split; [|done]. eapply rtc_l; [by eapply handler_runs|done].
Qed.
Lemma position_of_task (s : core_service P W) t : t ∈ (mine cb s).1 -> exists q earlier rest, handler_of q s = Some (earlier ++ t :: rest).
Proof.
  assert (forall h : handler P W, t ∈ waiting_tasks cb h -> exists earlier rest, h = Some (earlier ++ t :: rest)) as K.
  { intros h. unfold waiting_tasks. intros [_ X]%list_elem_of_filter. destruct h as [l|]; cbn in X; [|by apply not_elem_of_nil in X].
    apply list_elem_of_split in X as (l1 & l2 & ->). by exists l1, l2. }
  unfold mine, seen_core, seen_sim. cbn. rewrite !elem_of_app. intros [X|[X|[X|[X|X]]]]; apply K in X as (l1 & l2 & E);
    [exists NetSearch|exists SimGeneral|exists SimPin|exists CardGeneral|exists CardPin]; by exists l1, l2.
Qed.
Lemma position_of_message (s : core_service P W) p : (mine cb s).2 = [(cb, p)] -> exists earlier later, sent (CoreService.sys s) = earlier ++ (cb, p) :: later /\ Forall (fun m => m.1 <> cb) earlier.
Proof.
  assert (forall l : list (remote * P), filter (fun m => m.1 = cb) l = [(cb, p)] -> exists earlier later, l = earlier ++ (cb, p) :: later /\ Forall (fun m => m.1 <> cb) earlier) as K; [|apply K].
  induction l as [|m l IH]; [done|]. destruct (decide (m.1 = cb)) as [E|N].
  - rewrite filter_cons_True by done. intros [= -> _]. by exists [], l.
  - rewrite filter_cons_False by done. intros X. destruct (IH X) as (e & lt & -> & F). exists (m :: e), lt. split; [done|by constructor].
Qed.
Definition arrives cfg : Prop := exists cfg' r w, rtc step cfg cfg' /\ phase_ cfg' = Returned r /\ was cfg' w /\ r = ans w.
Lemma arrives_later cfg cfg' : rtc step cfg cfg' -> arrives cfg' -> arrives cfg.
Proof. intros S (c & r & w & S' & X). exists c, r, w. split; [by etrans|done]. Qed.
Lemma delivered_arrives cfg w v : phase_ cfg = Waiting out0 start0 -> was cfg w -> object cfg = RawParcelCallbackStub.MkCallback (Some v) true ->
  CoreServiceClient.finished a out0 v = ans w -> arrives cfg.
Proof.
  intros Ep Hw Eo F. destruct cfg as [s b ph now]. cbn in Ep, Eo. subst ph b.
  assert (step (MkConfig s (RawParcelCallbackStub.MkCallback (Some v) true) (Waiting out0 start0) now) (MkConfig s (RawParcelCallbackStub.MkCallback None true) (Returned (ans w)) now)) as S.
  { apply wait_ends with (b := RawParcelCallbackStub.MkCallback (Some v) true). by rewrite <- F. }
  eexists _, (ans w), w. split; [by apply rtc_once|]. split; [done|]. split; [by eapply was_step|done].
Qed.
Lemma travelling_arrives cfg p : rtc step first cfg -> phase_ cfg = Waiting out0 start0 -> posted <> None -> mine cb (service_ cfg) = ([], [(cb, p)]) -> arrives cfg.
Proof.
  intros S Ep N M. destruct (position_of_message (service_ cfg) p) as (e & l & E & F); [by rewrite M|]. destruct cfg as [s b ph now]. cbn [service_ phase_] in *. subst ph.
  pose proof (message_arrives indeterminate a cb timeoutMs e cb p l p s b (Waiting out0 start0) now E F eq_refl) as S1. rewrite decide_True in S1 by done.
  apply (arrives_later _ _ (rtc_once _ _ S1)). destruct (reach_invariant _ _ S (rtc_once _ _ S1)) as [_ (_ & _ & St)].
  pose proof (mine_delivered cb e cb p l s E F) as X. rewrite decide_True, M in X by done. destruct X as (l' & X1 & X2). cbn [fst snd] in *. injection X1 as <-.
  destruct St as [Np _ _|t _ M' _|t w _ _ M' _|w v Np Hw _ Eo Fi]; cbn [service_] in *; [done|by rewrite X2 in M'|by rewrite X2 in M'|]. by eapply delivered_arrives.
Qed.
Lemma pending_arrives cfg t : rtc step first cfg -> phase_ cfg = Waiting out0 start0 -> posted = Some t -> mine cb (service_ cfg) = ([t], []) -> arrives cfg.
Proof.
  intros S Ep Et M. destruct (position_of_task (service_ cfg) t) as (q & e & rest & E); [rewrite M; by apply list_elem_of_singleton|]. destruct cfg as [s b ph now]. cbn [service_ phase_] in *. subst ph.
  destruct (run_earlier q e t rest s b (Waiting out0 start0) now E) as (s1 & S1 & E1). eapply arrives_later; [exact S1|]. destruct (reach_invariant _ _ S S1) as [S1' (_ & _ & St1)].
  destruct (run_head q s1 t rest E1) as (s2 & E2 & _). pose proof (handler_runs indeterminate a cb timeoutMs q s1 s2 b (Waiting out0 start0) now E2) as S2.
  apply (arrives_later _ _ (rtc_once _ _ S2)). destruct (reach_invariant _ _ S1' (rtc_once _ _ S2)) as [S2' (_ & _ & St2)].
  destruct (run_first_mine cb q s1 s2 E2) as (t' & rest' & l1 & l2 & E' & _ & M2). cbn zeta in *. rewrite E1 in E'. injection E' as <- <-.
  rewrite filter_cons_True in M2 by apply (Hans t Et). destruct St2 as [Np _ _|u _ M2' _|u w _ _ M2' _|w v _ _ M2' _ _]; cbn [service_] in *; [congruence| | |].
  1,3: rewrite M2' in M2; by destruct (mine cb s1).2.
  eapply travelling_arrives; [exact S2'|done|congruence|exact M2'].
Qed.
(** From every configuration in which the method still waits, running the tasks before its own, its task, and delivering its message ends the wait with the manager's answer. *)
Lemma answer_arrives cfg out start : rtc step first cfg -> phase_ cfg = Waiting out start -> posted <> None -> arrives cfg.
Proof.
  intros S Ep N. pose proof (invariant_always cfg S) as I. unfold answer_invariant in I. rewrite Ep in I. destruct I as (-> & -> & []); [done| | |].
  - by eapply pending_arrives.
  - by eapply travelling_arrives.
  - by eapply delivered_arrives.
Qed.
End Invariant.

(** ** From the beginning of a call to its end *)

(** Looking for the service and watching its death does not change the service. *)
Class QuietRegistry (W : Type) `{ServiceRegistry W} : Prop := {
  search_quiet id w : (CheckSystemAbility id w).2 = w;
  watch_quiet r d w : (AddDeathRecipient r d w).2 = w
}.

Section Begin.
Context {P W : Type} `{ParcelLaws P} `{!Roomy P} `{ErrorCodes} `{StringEx} `{AccessToken W} `{!Managers W} `{!TypedManagers W}.
Context (indeterminate : Z) (Hi : is_i32 indeterminate) (iface_cast : remote -> option remote) (base : Z -> P -> P -> Z * P * P).
#[local] Instance process : ServerSystem P (core_service P W) := CoreService.server indeterminate iface_cast base.
Context `{!ClientSystem P (core_service P W)} `{!Transport P (core_service P W)} (g : SignalGlobals).
#[local] Instance process_typed : Typed P (core_service P W).
Proof. intros R c s. by apply serve_returns. Qed.

(** Asking for the number of slots and the checks of the proxy leave the callback object alone. *)
Lemma service_leaves {R} (c : coreE R) cb s : waits_with c <> Some cb -> seen_core cb (service R c s).2 = seen_core cb s.
Proof. intros N. by apply (serve_leaves indeterminate). Qed.
Lemma leaves_slots cb : leaves (seen_core cb) (slots (P := P) : stateful (core_service P W) Z).
Proof.
  intros s. unfold slots. pose proof (service_leaves ICoreService.GetRealSimCount cb s ltac:(done)) as E.
  destruct (service Z ICoreService.GetRealSimCount s) as [n s']. destruct CoreServiceProxy.GetDistributeModemMultiDeviceSwitch; [|done].
  pose proof (service_leaves ICoreService.GetMaxSimCount cb s' ltac:(done)) as E'. destruct (service Z ICoreService.GetMaxSimCount s') as [n' s'']. cbn [snd] in *. by rewrite E'.
Qed.
Lemma posts_slot_in {A} cb k (ok : A -> Prop) Q lo extra slotId r (f : stateful (core_service P W) A) :
  ~ ok r -> posts (seen_core cb) k ok Q f -> posts (seen_core cb) k ok Q (slot_in (P := P) lo extra slotId r f : stateful (core_service P W) A).
Proof.
  intros N Hf s E. unfold slot_in. pose proof (leaves_slots cb s) as L. destruct (slots s) as [n s']. cbn in L. rewrite E in L.
  destruct (_ && _); [by apply Hf|by left].
Qed.
Lemma posts_checked {A} cb k (ok : A -> Prop) Q b r (f : stateful (core_service P W) A) :
  ~ ok r -> posts (seen_core cb) k ok Q f -> posts (seen_core cb) k ok Q (checked b r f : stateful (core_service P W) A).
Proof. intros N Hf. destruct b; [done|]. intros s E. by left. Qed.
Lemma posts_ask_out {V} cb k Q (c : coreE (Z * V)) init :
  posts (seen_core cb) k (fun a : Z * V => a.1 = TELEPHONY_ERR_SUCCESS) Q (CoreService.serve indeterminate c) ->
  posts (seen_core cb) k (fun a : Z * V => a.1 = TELEPHONY_ERR_SUCCESS) Q (ask_out c init : stateful (core_service P W) (Z * V)).
Proof. intros Hc s E. specialize (Hc s E). unfold ask_out, ask_list. cbn. by destruct (CoreService.serve indeterminate c s) as [[] ?]. Qed.
Ltac spec_step := first [apply posts_slot_in; [not_accepted|]|apply posts_checked; [not_accepted|]|apply posts_ask_out].
Lemma posts_spec {C O A R} (m : waitE C O A R) (cb : remote) k :
  posts (seen_core cb) k (accepted m) (fun t => receiver t = cb /\ answers (U := core_service P W) m k t) (spec (P := P) (service_call m cb) (initial m) : stateful (core_service P W) A).
Proof.
  pose proof (posts_call (U := core_service P W) indeterminate cb m k) as X. destruct m; cbn [spec service_call need]; repeat spec_step; exact X.
Qed.

(** The client's request is the call of the proxy's method, and an acceptance is a success. *)
Lemma request_is_call {C O A R} (m : waitE C O A R) cb i :
  CoreServiceClient.request (client_method (U := core_service P W) m) cb i = (a ← remote_call g (service_call m cb) (initial m); mret (interpret m a)) i.
Proof. destruct m; try done. cbn. unfold mbind, M_bind. by destruct (CoreServiceProxy.GetSimLabel _ _ _ i) as [[[] ]| |]. Qed.
(** Methods whose request, when it is accepted, is answered. *)
Definition reliable {C O A R} (m : waitE C O A R) : Prop := match m with IsSimActive _ => False | _ => True end.
Lemma interpret_accepted {C O A R} (m : waitE C O A R) a out : reliable m -> interpret m a = inr out -> accepted m a.
Proof. intros N E. destruct m; cbn in *; try done; destruct (_ =? TELEPHONY_ERR_SUCCESS) eqn:X; try done; by apply Z.eqb_eq in X. Qed.
Context `{!ServiceRegistry (core_service P W)} `{!QuietRegistry (core_service P W)}.

Lemma GetProxy_quiet (c c' : CoreServiceClient.core_service_client (core_service P W)) o :
  CoreServiceClient.GetProxy c = Ret (o, c') -> CoreServiceClient.outside c' = CoreServiceClient.outside c.
Proof.
  unfold CoreServiceClient.GetProxy. destruct (CoreServiceClient.proxy_ c); [by intros [= _ <-]|]. destruct (negb _); [by intros [= _ <-]|].
  pose proof (search_quiet TELEPHONY_CORE_SERVICE_SYS_ABILITY_ID (CoreServiceClient.outside c)) as E. destruct (CheckSystemAbility _ _) as [[obj|] w]; cbn in E; subst w; [|by intros [= _ <-]].
  pose proof (watch_quiet obj (length (CoreServiceClient.isValid_ c)) (CoreServiceClient.outside c)) as E. destruct (IsProxyObject obj _).
  - destruct (AddDeathRecipient _ _ _) as [[] w]; cbn in E; subst w; by intros [= _ <-].
  - by intros [= _ <-].
Qed.

(** The configuration in which the call [m] waits. *)
Definition waiting {C O A R} (m : waitE C O A R) (out : O) (now : Z) (s : core_service P W) : config (P := P) (W := W) (C := C) (O := O) (R := R) :=
  MkConfig s (RawParcelCallbackStub.RawParcelCallbackStub (CoreServiceClient.variables (client_method (U := core_service P W) m))) (Waiting out now) now.
Abbreviation steps m cb timeoutMs := (rtc (step (P := P) (W := W) indeterminate (client_method (U := core_service P W) m) cb timeoutMs)).

Lemma begin_waits {C O A R} (m : waitE C O A R) cb c out c' : call_ok (service_call m cb) -> mine cb (CoreServiceClient.outside c) = ([], []) ->
  CoreServiceClient.begin (client_method m) cb c = Ret (inr out, c') ->
  let k := known (seen_core cb (CoreServiceClient.outside c)) in
  (mine cb (CoreServiceClient.outside c') = ([], []) /\ ~ reliable m) \/
  exists t, mine cb (CoreServiceClient.outside c') = ([t], []) /\ receiver t = cb /\ answers (U := core_service P W) m k t.
Proof.
  intros Hc M. unfold CoreServiceClient.begin, mbind, CoreServiceClient.CL_bind. destruct (CoreServiceClient.GetProxy c) as [[[proxy|] c1]| |] eqn:E; try done.
  apply GetProxy_quiet in E. unfold CoreServiceClient.on_proxy. rewrite request_is_call. rewrite <- E in M |- *. clear E.
  pose proof (client_sees_spec g _ (service_call m cb) (initial m) (CoreServiceClient.outside c1) Hc) as V. unfold client_sees in V.
  set (s := CoreServiceClient.outside c1) in *. unfold mbind, outcome_bind, M_bind in *. destruct (remote_call g (service_call m cb) (initial m) _) as [[x t]| |]; try done.
  cbn. intros [= Ex <-]. cbn [CoreServiceClient.outside]. injection V as V. cbn zeta.
  assert (seen_core cb s = MkSeen [] [] (known (seen_core cb s))) as K. { unfold mine in M. destruct (seen_core cb s) as [ts ms k]. cbn in *. injection M as -> ->. done. }
  destruct (posts_spec m cb _ s K) as [[E N]|(u & [Hu Ha] & E)]; rewrite <- V in E; cbn [fst snd] in E.
  - left. rewrite <- V in N. cbn [fst] in N. unfold mine. rewrite E. split; [done|]. intros Rl. apply N. by eapply interpret_accepted.
  - right. exists u. unfold mine. by rewrite E.
Qed.

(** What [answers] says of a task, as the invariant wants it. *)
Lemma task_answers {C O A R} (m : waitE C O A R) cb p out t :
  receiver t = cb -> (forall w p0 token, content p0 = [token] -> exists items, content ((compute t w).1 p0) = token :: items /\
      forall data out, content data = items ->
        CoreServiceClient.finished (client_method (U := core_service P W) m) out (CoreServiceClient.reader (client_method (U := core_service P W) m) data (CoreServiceClient.variables (client_method (U := core_service P W) m))) = manager_answer m p w out) ->
  forall u, Some t = Some u -> receiver u = cb /\ forall w p0 token, content p0 = [token] -> exists items, content ((compute u w).1 p0) = token :: items /\
    forall data, content data = items -> CoreServiceClient.finished (client_method (U := core_service P W) m) out
      (CoreServiceClient.reader (client_method (U := core_service P W) m) data (CoreServiceClient.variables (client_method (U := core_service P W) m))) = manager_answer m p w out.
Proof.
  intros Rt Ha u [= <-]. split; [done|]. intros w p0 token C0. destruct (Ha w p0 token C0) as (items & E & F). exists items. split; [done|]. intros d Hd. by apply F.
Qed.

(** C5: end to end, for each of the twenty-two methods that wait for an answer: whatever the other clients, the other tasks, the managers and the clock do in the meantime, the
    method returns either what it returns when the time is over, and then not before, or the answer that the manager gave in some state after the request — read back from the
    message without loss, with the output argument changed by a success only. *)
Theorem answer_is_managers {C O A R} (m : waitE C O A R) cb timeoutMs c out c' now cfg r :
  call_ok (service_call m cb) -> mine cb (CoreServiceClient.outside c) = ([], []) ->
  CoreServiceClient.begin (client_method m) cb c = Ret (inr out, c') ->
  steps m cb timeoutMs (waiting m out now (CoreServiceClient.outside c')) cfg -> phase_ cfg = Returned r ->
  (r = CoreServiceClient.timed_out (client_method (U := core_service P W) m) out /\ now + timeoutMs <= clock cfg) \/
  exists p w, manager_of m (known (seen_core cb (CoreServiceClient.outside c))) = Some p /\
    was indeterminate (client_method m) cb timeoutMs (waiting m out now (CoreServiceClient.outside c')) cfg w /\ r = manager_answer m p w out.
Proof.
  intros Hc M B S Er. set (first := waiting m out now (CoreServiceClient.outside c')) in *.
  destruct (begin_waits m cb c out c' Hc M B) as [[M' _]|(t & M' & Rt & p & Ep & Ha)].
  - pose proof (invariant_always indeterminate (client_method m) cb timeoutMs first out now None (fun _ => r) eq_refl M' eq_refl ltac:(done) _ S) as I.
    unfold answer_invariant in I. rewrite Er in I. destruct I as [I|[[] _]]; [by left|done].
  - pose proof (invariant_always indeterminate (client_method m) cb timeoutMs first out now (Some t) (fun w => manager_answer m p w out) eq_refl M' eq_refl (task_answers m cb p out t Rt Ha) _ S) as I.
    unfold answer_invariant in I. rewrite Er in I. destruct I as [I|(_ & w & Hw & I)]; [by left|right]. by exists p, w.
Qed.

(** C8: no answer is lost: in every configuration that can be reached while the method waits, there are steps — the handler runs the tasks before its task, then its task, and the message
    is delivered — that end the wait with the manager's answer. ([IsSimActive] is the exception: the service accepts its request also where it then posts no task.) *)
Theorem answer_is_not_lost {C O A R} (m : waitE C O A R) cb timeoutMs c out c' now cfg out' start :
  reliable m -> call_ok (service_call m cb) -> mine cb (CoreServiceClient.outside c) = ([], []) ->
  CoreServiceClient.begin (client_method m) cb c = Ret (inr out, c') ->
  steps m cb timeoutMs (waiting m out now (CoreServiceClient.outside c')) cfg -> phase_ cfg = Waiting out' start ->
  exists cfg' p w, steps m cb timeoutMs cfg cfg' /\ manager_of m (known (seen_core cb (CoreServiceClient.outside c))) = Some p /\
    was indeterminate (client_method m) cb timeoutMs (waiting m out now (CoreServiceClient.outside c')) cfg' w /\ phase_ cfg' = Returned (manager_answer m p w out).
Proof.
  intros Rl Hc M B S Er. set (first := waiting m out now (CoreServiceClient.outside c')) in *.
  destruct (begin_waits m cb c out c' Hc M B) as [[_ []]|(t & M' & Rt & p & Ep & Ha)]; [done|].
  destruct (answer_arrives indeterminate (client_method m) cb timeoutMs first out now (Some t) (fun w => manager_answer m p w out) eq_refl M' eq_refl (task_answers m cb p out t Rt Ha) cfg out' start S Er) as (cfg' & r & w & S' & E & Hw & ->); [done|].
  by exists cfg', p, w.
Qed.
End Begin.

(** ** At concrete inputs *)

Module CoreServiceCallbackExample.
Export CoreServiceExample.

#[export] Instance registry : ServiceRegistry (core_service (list item) process_state) := {
  GetSystemAbilityManager := fun _ => true;
  CheckSystemAbility := fun _ w => (Some 9%positive, w);
  TELEPHONY_CORE_SERVICE_SYS_ABILITY_ID := 4010;
  IsProxyObject := fun _ _ => true;
  AddDeathRecipient := fun _ _ w => (true, w);
  RemoveDeathRecipient_ := fun _ _ w => w;
  iface_cast_core := fun r => Some r;
  AsObject := fun p => Some p
}.
#[export] Instance registry_quiet : QuietRegistry (core_service (list item) process_state).
Proof. done. Qed.

(** A client that may read the IMEI, its callback object and its call. *)
Definition cb : remote := 5%positive.
Definition call : waitE (Z * u16string) u16string Z (Z * u16string) := GetImei 0 [].
Definition client0 : CoreServiceClient.core_service_client (core_service (list item) process_state) :=
  CoreServiceClient.CoreServiceClient_new (started true [Permission.GET_TELEPHONY_STATE]).
Definition client1 := match CoreServiceClient.begin (client_method call) cb client0 with Ret (_, c) => c | _ => client0 end.
Definition service1 := CoreServiceClient.outside client1.
Definition service2 := default service1 (run_first NetSearch service1).
Definition answer_parcel : list item := match sent (CoreService.sys service2) with (_, p) :: _ => p | _ => [] end.
Definition first : config := waiting call [] 0 service1.
Definition sample_text : u16string := (@sample u16string _).
Definition finished : config (C := Z * u16string) (O := u16string) :=
  MkConfig (set_sent [] service2) (RawParcelCallbackStub.MkCallback None true) (Returned (0, sample_text)) 0.

Lemma begun : CoreServiceClient.begin (client_method call) cb client0 = Ret (inr [], client1).
Proof. vm_compute. reflexivity. Qed.
Lemma runs : rtc (step 0 (client_method call) cb 10000) first finished.
Proof.
  eapply rtc_l; [apply (handler_runs _ _ _ _ NetSearch service1 service2); vm_compute; reflexivity|].
  eapply rtc_l; [apply (message_arrives _ _ _ _ [] cb answer_parcel [] answer_parcel service2); [vm_compute; reflexivity|constructor|reflexivity]|].
  eapply rtc_l; [|reflexivity]. apply wait_ends. vm_compute. reflexivity.
Qed.
End CoreServiceCallbackExample.
Import CoreServiceCallbackExample.

Example answer_is_managers_witness :
  ((0, sample_text) = (TELEPHONY_ERR_IPC_CONNECT_STUB_FAIL, []) /\ 0 + 10000 <= 0) \/
  exists p w, manager_of call (known (seen_core cb (CoreServiceClient.outside client0))) = Some p /\
    was 0 (client_method call) cb 10000 first finished w /\ (0, sample_text) = manager_answer call p w [].
Proof.
  apply (answer_is_managers 0 ltac:(by split) (fun r => Some r) (fun _ d p => (305, d, p)) (InitSignalBar 5) call cb 10000 client0 [] client1 0 finished (0, sample_text));
    [by split|reflexivity|apply begun|apply runs|reflexivity].
Defined.
Example answer_is_not_lost_witness :
  exists cfg' p w, rtc (step 0 (client_method call) cb 10000) first cfg' /\ manager_of call (known (seen_core cb (CoreServiceClient.outside client0))) = Some p /\
    was 0 (client_method call) cb 10000 first cfg' w /\ phase_ cfg' = Returned (manager_answer call p w []).
Proof.
  apply (answer_is_not_lost 0 ltac:(by split) (fun r => Some r) (fun _ d p => (305, d, p)) (InitSignalBar 5) call cb 10000 client0 [] client1 0 first [] 0);
    [done|by split|reflexivity|apply begun|reflexivity|reflexivity].
Defined.
