(* ===== verification/CoreServiceLifecycle.v ===== *)
(** * Starting and stopping the core service

    The process starts, serves requests, runs tasks, stops and may start again ([OnStart], [OnStop] in [services/core/src/core_service.cpp]). In every state that it can be in, a
    service that says that it is running is registered and has all its managers, which is what the theorem of CoreServiceAccess.v asks for. *)

From S2P Require Import Prelude CxxString Parcel Parcelables OperatorConfig CellInformation NetworkState SignalInformation SignalInfo CoreServiceApi CoreServiceProxy CoreServiceStub CoreServiceIpc CoreServiceRefinement TelephonyPermission CoreManagers RawParcelCallback CoreService CoreServiceTypes CoreServiceAccess CoreServiceClient CoreServiceCallback.
Open Scope Z_scope.
Open Scope ipc_scope.

Section Life.
Context {P W : Type} `{ParcelOps P} `{ErrorCodes} `{StringEx} `{AccessToken W} `{!Managers W} `{!Lifecycle W} (indeterminate : Z).
Implicit Types s : core_service P W.

(** A state of the process: after its creation, and after what can happen to it. *)
Inductive process_can_be : core_service P W -> Prop :=
| created w : process_can_be (CoreService.CoreService_new w)
| on_start s : process_can_be s -> process_can_be (CoreService.OnStart s).2
| on_stop s : process_can_be s -> process_can_be (CoreService.OnStop s).2
| request {R} (c : coreE R) s : process_can_be s -> process_can_be (CoreService.serve indeterminate c s).2
| handler_task q s s' : run_first q s = Some s' -> process_can_be s -> process_can_be s'
| managers_alone w s : process_can_be s -> process_can_be (set_managers w s).

(** ** The members that matter *)

Record vital : Type := MkVital { registered : bool; state : ServiceRunningState; card : option pointer; radio : option pointer; chip : option pointer }.
Definition vitals s : vital :=
  MkVital (CoreService.registerToService_ s) (CoreService.state_ s) (CoreServiceSim.sim_manager (CoreService.coreServiceSim_ s)) (CoreService.network_search_manager s) (CoreService.esim_manager s).
Definition alive_if_running (v : vital) : Prop := state v = STATE_RUNNING -> registered v = true /\ card v <> None /\ radio v <> None /\ chip v <> None.

(** [ends m v Q]: started where the members are [v], [m] ends with a result and members that satisfy [Q]. *)
Definition ends {A} (m : CoreService.CS (P := P) (W := W) A) (v : vital) (Q : A -> vital -> Prop) : Prop := forall s, vitals s = v -> Q (m s).1 (vitals (m s).2).
Lemma ends_ret {A} (a : A) v (Q : A -> vital -> Prop) : Q a v -> ends (mret a) v Q.
Proof. by intros HQ s <-. Qed.
Lemma ends_bind {A B} (m : CoreService.CS (P := P) (W := W) A) (k : A -> CoreService.CS (P := P) (W := W) B) v Q : ends m v (fun a v => ends (k a) v Q) -> ends (mbind k m) v Q.
Proof. intros Hm s E. unfold mbind, stateful_bind. specialize (Hm s E). destruct (m s) as [a s']. by apply Hm. Qed.
Lemma ends_call {A} (m : stateful W A) v (Q : A -> vital -> Prop) : (forall a, Q a v) -> ends (CoreService.call m) v Q.
Proof. intros HQ s <-. unfold CoreService.call, CoreService.on_system, on_managers. destruct (m _). apply HQ. Qed.
Lemma ends_modifies f v (Q : unit -> vital -> Prop) : (forall s, vitals s = v -> Q tt (vitals (f s))) -> ends (modifies f) v Q.
Proof. done. Qed.
Lemma ends_gets {A} (f : core_service P W -> A) v (Q : A -> vital -> Prop) : (forall s, vitals s = v -> Q (f s) v) -> ends (gets f) v Q.
Proof. intros HQ s E. cbn. rewrite E. by apply HQ. Qed.
Lemma ends_SetSimManager p v (Q : unit -> vital -> Prop) : Q tt (MkVital (registered v) (state v) (Some p) (radio v) (chip v)) -> ends (CoreService.coreServiceSim (CoreServiceSim.SetSimManager p)) v Q.
Proof. by intros HQ s <-. Qed.
Lemma ends_mono {A} (m : CoreService.CS (P := P) (W := W) A) v (Q Q' : A -> vital -> Prop) : ends m v Q -> (forall a v, Q a v -> Q' a v) -> ends m v Q'.
Proof. intros Hm HQ s E. by apply HQ, Hm. Qed.
Lemma ends_InitAirplaneModes p n slotId v : ends (CoreService.InitAirplaneModes p slotId n) v (fun _ v' => v' = v).
Proof. revert slotId. induction n as [|n IH]; intros slotId; [by apply ends_ret|]. cbn [CoreService.InitAirplaneModes]. apply ends_bind, ends_call. intros _. apply IH. Qed.
End Life.

(** Follow the code. *)
Ltac ends_step :=
  lazymatch goal with
  | |- ends (mret _) _ _ => apply ends_ret
  | |- ends (mbind _ (CoreService.InitAirplaneModes _ _ _)) _ _ => apply ends_bind; eapply ends_mono; [apply ends_InitAirplaneModes|intros ? ? ->]
  | |- ends (mbind _ _) _ _ => apply ends_bind
  | |- ends (CoreService.call _) _ _ => apply ends_call; intros
  | |- ends (modifies _) _ _ => apply ends_modifies; let s := fresh "s" in let E := fresh in intros s E; unfold vitals in *; cbn in *; injection E as E; subst
  | |- ends (gets _) _ _ => apply ends_gets; intros
  | |- ends (CoreService.coreServiceSim (CoreServiceSim.SetSimManager _)) _ _ => apply ends_SetSimManager; cbn
  | |- ends (if ?b then _ else _) _ _ => destruct b eqn:?
  | |- ends (match ?o with Some _ => _ | None => _ end) _ _ => destruct o
  end.

Section Proofs.
Context {P W : Type} `{ParcelOps P} `{ErrorCodes} `{StringEx} `{AccessToken W} `{!Managers W} `{!Lifecycle W} (indeterminate : Z).

Lemma Init_ends v : ends (CoreService.Init (P := P) (W := W)) v (fun ok v' => registered v' = registered v /\ state v' = state v /\ (ok = true -> card v' <> None /\ radio v' <> None /\ chip v' <> None)).
Proof. destruct v as [r st c d e]. unfold CoreService.Init. repeat ends_step; cbn; repeat split; congruence. Qed.
Lemma OnStart_ends v : alive_if_running v -> ends (CoreService.OnStart (P := P) (W := W)) v (fun _ => alive_if_running).
Proof.
  destruct v as [r st c d e]. intros A. unfold CoreService.OnStart, CoreService.NotifyCoreServiceReady.
  repeat (lazymatch goal with
          | |- ends (mbind _ CoreService.Init) _ _ => apply ends_bind; eapply ends_mono; [apply Init_ends|intros ? [????? ] (? & ? & ?); cbn in *; subst]
          | |- _ => ends_step end).
  all: unfold alive_if_running, vitals in *; cbn in *; simplify_eq; repeat case_bool_decide; try done; intuition congruence.
Qed.
Lemma OnStop_ends v : ends (CoreService.OnStop (P := P) (W := W)) v (fun _ => alive_if_running).
Proof. destruct v as [r st c d e]. unfold CoreService.OnStop, CoreService.networkSearchManager_. repeat ends_step. all: unfold alive_if_running; cbn; congruence. Qed.

(** Requests and tasks leave the members alone. *)
Definition sim_vitals (x : core_service_sim P W * system P W) : option pointer := CoreServiceSim.sim_manager x.1.
Lemma vitals_sim {A} (m : CoreServiceSim.SimM (P := P) (W := W) A) : leaves sim_vitals m -> leaves vitals (CoreService.coreServiceSim m).
Proof. intros Hm s. unfold CoreService.coreServiceSim. specialize (Hm (CoreService.coreServiceSim_ s, CoreService.sys s)). destruct (m _) as [a [o y]]. cbn in *. unfold sim_vitals in Hm. cbn in Hm. unfold vitals. cbn. by rewrite Hm. Qed.
Lemma vitals_system {A} (m : stateful (system P W) A) : leaves vitals (CoreService.on_system m).
Proof. intros s. unfold CoreService.on_system. by destruct (m _). Qed.
Lemma vitals_sim_call {A} (m : stateful W A) : leaves sim_vitals (CoreServiceSim.call (P := P) m).
Proof. intros [o y]. unfold CoreServiceSim.call. by destruct (on_managers m y). Qed.
Lemma vitals_erase l : leaves sim_vitals (CoreServiceSim.erase_unsupported (P := P) (W := W) l).
Proof.
  induction l as [|a l IH]; [done|]. cbn [CoreServiceSim.erase_unsupported]. apply leaves_bind; [apply vitals_sim_call|]. intros b. by apply leaves_bind.
Qed.
Lemma vitals_general t : leaves sim_vitals (CoreServiceSim.AsyncSimGeneralExecute (P := P) (W := W) t).
Proof. by intros [o y]. Qed.
Lemma vitals_pin t : leaves sim_vitals (CoreServiceSim.AsyncSimPinExecute (P := P) (W := W) t).
Proof. by intros [o y]. Qed.
Lemma vitals_net t : leaves vitals (CoreService.AsyncNetSearchExecute (P := P) (W := W) t).
Proof. done. Qed.
End Proofs.

Ltac vitals_step :=
  lazymatch goal with
  | |- leaves _ (mret _) => apply leaves_ret
  | |- leaves _ (mbind _ _) => apply leaves_bind; [|intros]
  | |- leaves _ (if ?b then _ else _) => destruct b
  | |- leaves _ (match ?o with Some _ => _ | None => _ end) => destruct o
  | |- leaves _ (let '(_, _) := ?x in _) => destruct x
  | |- leaves _ (CoreServiceSim.erase_unsupported _) => apply vitals_erase
  | |- leaves _ (CoreService.coreServiceSim _) => apply vitals_sim
  | |- leaves _ (CoreService.call _) => apply vitals_system
  | |- leaves _ (CoreService.on_system _) => apply vitals_system
  | |- leaves _ (CoreServiceSim.call _) => apply vitals_sim_call
  | |- leaves _ (CoreServiceSim.AsyncSimGeneralExecute _) => apply vitals_general
  | |- leaves _ (CoreServiceSim.AsyncSimPinExecute _) => apply vitals_pin
  | |- leaves _ (CoreService.AsyncNetSearchExecute _) => apply vitals_net
  | |- leaves _ (gets _) => apply leaves_gets
  | |- leaves _ ?m => let h := head_of m in unfold h
  end.

Section Reachable.
Context {P W : Type} `{ParcelOps P} `{ErrorCodes} `{StringEx} `{AccessToken W} `{!Managers W} `{!Lifecycle W} (indeterminate : Z).
Lemma serve_vitals {R} (c : coreE R) : leaves vitals (CoreService.serve (P := P) (W := W) indeterminate c).
Proof. destruct c; unfold CoreService.serve; repeat vitals_step. Qed.
Lemma run_first_vitals q (s s' : core_service P W) : run_first q s = Some s' -> vitals s' = vitals s.
Proof. unfold run_first. destruct (handler_of q s) as [[|t rest]|]; [done| |done]. intros [= <-]. rewrite vitals_system. by destruct q. Qed.

(** C9: In every state of the process, a service that says that it is running is registered with the system, and has its managers: what [answers_typed]
    and [access_control] ask for holds from the end of [OnStart] on, whatever was requested, and also after the process was stopped and started again. *)
Theorem running_has_managers (s : core_service P W) : process_can_be indeterminate s -> CoreService.state_ s = STATE_RUNNING -> CoreService.registerToService_ s = true /\ running s.
Proof.
  intros R. change (alive_if_running (vitals s)). induction R as [w|s _ IH|s _ IH|R c s _ IH|q s s' E _ IH|w s _ IH].
  - done.
  - by apply OnStart_ends with (v := vitals s).
  - by apply OnStop_ends with (v := vitals s).
  - by rewrite serve_vitals.
  - by rewrite (run_first_vitals _ _ _ E).
  - exact IH.
Qed.
End Reachable.

(** ** A process *)

Module CoreServiceLifecycleExample.
Import CoreServiceExample.
(** Each call of the system is counted, and the objects have the numbers 1 to 4; the first initialisation of network search fails. *)
#[export] Instance lifecycle : Lifecycle process_state := {
  now_ms w := calls w;
  Publish w := one_call true w;
  ffrt_set_cpu_worker_max_num w := one_call 0 w;
  InitCommonEventHub w := w;
  InitTelephonyExtWrapper w := w;
  DeInitTelephonyExtWrapper w := w;
  make_TelRilManager w := one_call 1%positive w;
  TelRilManager_OnInit _ w := one_call true w;
  TelRilManager_DeInit _ w := w;
  make_EsimManager _ w := one_call 2%positive w;
  EsimManager_OnInit _ _ w := one_call true w;
  make_SimManager _ w := one_call 3%positive w;
  SimManager_OnInit _ _ w := one_call true w;
  make_NetworkSearchManager _ _ w := one_call 4%positive w;
  NetworkSearchManager_OnInit _ w := one_call (10 <? calls w)%Z w;
  NetworkSearchManager_DeInit _ w := w;
  InitAirplaneMode _ _ w := w;
  ImsCoreServiceClient_Init w := w;
  ImsCoreServiceClient_UnInit w := w;
  SetTelRilMangerObj _ w := w;
  SetEsimManagerObj _ w := w;
  CoreManagerInner_OnInit _ _ _ w := w;
  PublishCoreServiceReady w := one_call true w
}.
Definition at_first : core_service (list item) process_state := CoreService.CoreService_new (MkProcess false [] [] 0).
Definition failed := (CoreService.OnStart at_first).2.
Definition restarted := (CoreService.OnStart failed).2.
Definition asked := (CoreService.serve 0 (ICoreService.HasSimCard 0 (Some 7%positive)) restarted).2.
Definition answered := default asked (run_first CardGeneral asked).
End CoreServiceLifecycleExample.
Import CoreServiceExample CoreServiceLifecycleExample.

Lemma running_has_managers_witness :
  CoreService.state_ failed = STATE_NOT_START /\ CoreService.network_search_manager failed = Some 4%positive /\ (exists m, sent (CoreService.sys answered) = [m]) /\
  CoreService.registerToService_ answered = true /\ running answered.
Proof.
  split; [vm_compute; reflexivity|]. split; [vm_compute; reflexivity|]. split; [eexists; vm_compute; reflexivity|].
  apply (running_has_managers 0); [|vm_compute; reflexivity].
  apply handler_task with (q := CardGeneral) (s := asked); [vm_compute; reflexivity|]. apply request. do 2 apply on_start. apply created.
Defined.
