(* ===== verification/RadioProtocol.v ===== *)
(** * [services/sim/src/radio_protocol_controller.cpp]: switching the radio protocols of the slots

    Two cards exchange their radio technologies and modems in a session with the
    modems: CHECK, UPDATE, a NOTIFY from each, COMPLETE. The controller counts the
    answers of the slots in each phase, gives up when one fails, and is guarded by a
    timeout event. The state is a record; a handler maps it to a new state and the
    list of what it sends. [SetRadioProtocol] blocks until the session is over: its
    beginning and its result are two operations. The connection to the modems
    ([telRilManager_]) may be gone: [alive]. *)

From S2P Require Import Prelude.

Definition DEFAULT_SIM_SLOT_ID : Z := 0.
Definition DUAL_SLOT_COUNT : Z := 2.
Definition SIM_SLOT_2 : Z := 2.
Definition COMMUNICATION_TIMEOUT : Z := 45 * 1000.
Definition WAIT_TIME_LONG_SECOND : Z := 60.

Inductive RadioProtocolPhase : Type :=
| RADIO_PROTOCOL_PHASE_INITIAL
| RADIO_PROTOCOL_PHASE_CHECK
| RADIO_PROTOCOL_PHASE_UPDATE
| RADIO_PROTOCOL_PHASE_NOTIFY
| RADIO_PROTOCOL_PHASE_COMPLETE.

Inductive RadioProtocolStatus : Type :=
| RADIO_PROTOCOL_STATUS_NONE
| RADIO_PROTOCOL_STATUS_SUCCESS
| RADIO_PROTOCOL_STATUS_FAIL.

#[export] Instance RadioProtocolPhase_eq_dec : EqDecision RadioProtocolPhase.
Proof. solve_decision. Defined.
#[export] Instance RadioProtocolStatus_eq_dec : EqDecision RadioProtocolStatus.
Proof. solve_decision. Defined.

Record RadioProtocol : Type := MkProtocol {
  slotId : Z;
  sessionId : Z;
  phase : RadioProtocolPhase;
  technology : Z;
  modemId : Z;
  status : RadioProtocolStatus
}.
#[export] Instance RadioProtocol_eq_dec : EqDecision RadioProtocol.
Proof. solve_decision. Defined.

Inductive event_id : Type :=
| MSG_SIM_TIME_OUT_ACTIVE
| MSG_SIM_SET_ACTIVE
| RADIO_SIM_GET_RADIO_PROTOCOL
| RADIO_SIM_CHECK_RADIO_PROTOCOL
| RADIO_SIM_UPDATE_RADIO_PROTOCOL
| RADIO_SIM_RADIO_PROTOCOL_NOTIFY
| RADIO_SIM_SET_RADIO_PROTOCOL_COMPLETE
| RADIO_SIM_SET_RADIO_PROTOCOL_TIMEOUT.
#[export] Instance event_id_eq_dec : EqDecision event_id.
Proof. solve_decision. Defined.

(** The object an event carries ([GetSharedObject] gives it when the type fits);
    an error code of 0 is [ErrType::NONE]. *)
Inductive payload : Type :=
| PNone
| PProtocol (p : RadioProtocol)
| PResponseInfo (error : Z)
| PErrType (error : Z).

Record event : Type := MkEvent { id : event_id; param : Z; object : payload }.

(** What is sent out. *)
Inductive output : Type :=
| RilSetRadioProtocol (slot : Z) (p : RadioProtocol) (reply : event_id)
| RilGetRadioProtocol (slot : Z)
| RilSetActiveSim (slot type enable : Z)
| RegisterCoreNotify (slot : Z)
| UnRegisterCoreNotify (slot : Z)
| NotifyWaiters
| NotifyActive.

Record Controller : Type := MkController {
  radioProtocol_ : list RadioProtocol;
  oldRadioProtocol_ : list RadioProtocol;
  newRadioProtocol_ : list RadioProtocol;
  slotCount_ : Z;
  sessionId_ : Z;
  communicatingSlotCount_ : Z;
  communicationFailed_ : bool;
  isCommunicating_ : bool;
  communicationResponseResult_ : bool;
  responseReady_ : bool;
  activeResponse_ : Z;
  (** the delayed events in the handler's queue: sessions of the protocol timeouts,
      and whether the activation timeout is there *)
  timeouts : list Z;
  active_timeout : bool
}.

Definition Controller_new : Controller := MkController [] [] [] 0 0 0 false false false false 0 [] false.

Definition set_radio v (c : Controller) : Controller :=
  MkController v (oldRadioProtocol_ c) (newRadioProtocol_ c) (slotCount_ c) (sessionId_ c) (communicatingSlotCount_ c)
    (communicationFailed_ c) (isCommunicating_ c) (communicationResponseResult_ c) (responseReady_ c) (activeResponse_ c) (timeouts c) (active_timeout c).
Definition set_old_new o n (c : Controller) : Controller :=
  MkController (radioProtocol_ c) o n (slotCount_ c) (sessionId_ c) (communicatingSlotCount_ c)
    (communicationFailed_ c) (isCommunicating_ c) (communicationResponseResult_ c) (responseReady_ c) (activeResponse_ c) (timeouts c) (active_timeout c).
Definition set_slotCount v (c : Controller) : Controller :=
  MkController (radioProtocol_ c) (oldRadioProtocol_ c) (newRadioProtocol_ c) v (sessionId_ c) (communicatingSlotCount_ c)
    (communicationFailed_ c) (isCommunicating_ c) (communicationResponseResult_ c) (responseReady_ c) (activeResponse_ c) (timeouts c) (active_timeout c).
Definition set_session v (c : Controller) : Controller :=
  MkController (radioProtocol_ c) (oldRadioProtocol_ c) (newRadioProtocol_ c) (slotCount_ c) v (communicatingSlotCount_ c)
    (communicationFailed_ c) (isCommunicating_ c) (communicationResponseResult_ c) (responseReady_ c) (activeResponse_ c) (timeouts c) (active_timeout c).
Definition set_count v (c : Controller) : Controller :=
  MkController (radioProtocol_ c) (oldRadioProtocol_ c) (newRadioProtocol_ c) (slotCount_ c) (sessionId_ c) v
    (communicationFailed_ c) (isCommunicating_ c) (communicationResponseResult_ c) (responseReady_ c) (activeResponse_ c) (timeouts c) (active_timeout c).
Definition set_failed v (c : Controller) : Controller :=
  MkController (radioProtocol_ c) (oldRadioProtocol_ c) (newRadioProtocol_ c) (slotCount_ c) (sessionId_ c) (communicatingSlotCount_ c)
    v (isCommunicating_ c) (communicationResponseResult_ c) (responseReady_ c) (activeResponse_ c) (timeouts c) (active_timeout c).
Definition set_communicating v (c : Controller) : Controller :=
  MkController (radioProtocol_ c) (oldRadioProtocol_ c) (newRadioProtocol_ c) (slotCount_ c) (sessionId_ c) (communicatingSlotCount_ c)
    (communicationFailed_ c) v (communicationResponseResult_ c) (responseReady_ c) (activeResponse_ c) (timeouts c) (active_timeout c).
Definition set_result v (c : Controller) : Controller :=
  MkController (radioProtocol_ c) (oldRadioProtocol_ c) (newRadioProtocol_ c) (slotCount_ c) (sessionId_ c) (communicatingSlotCount_ c)
    (communicationFailed_ c) (isCommunicating_ c) v (responseReady_ c) (activeResponse_ c) (timeouts c) (active_timeout c).
Definition set_ready v (c : Controller) : Controller :=
  MkController (radioProtocol_ c) (oldRadioProtocol_ c) (newRadioProtocol_ c) (slotCount_ c) (sessionId_ c) (communicatingSlotCount_ c)
    (communicationFailed_ c) (isCommunicating_ c) (communicationResponseResult_ c) v (activeResponse_ c) (timeouts c) (active_timeout c).
Definition set_active v (c : Controller) : Controller :=
  MkController (radioProtocol_ c) (oldRadioProtocol_ c) (newRadioProtocol_ c) (slotCount_ c) (sessionId_ c) (communicatingSlotCount_ c)
    (communicationFailed_ c) (isCommunicating_ c) (communicationResponseResult_ c) (responseReady_ c) v (timeouts c) (active_timeout c).
Definition set_timeouts v (c : Controller) : Controller :=
  MkController (radioProtocol_ c) (oldRadioProtocol_ c) (newRadioProtocol_ c) (slotCount_ c) (sessionId_ c) (communicatingSlotCount_ c)
    (communicationFailed_ c) (isCommunicating_ c) (communicationResponseResult_ c) (responseReady_ c) (activeResponse_ c) v (active_timeout c).
Definition set_active_timeout v (c : Controller) : Controller :=
  MkController (radioProtocol_ c) (oldRadioProtocol_ c) (newRadioProtocol_ c) (slotCount_ c) (sessionId_ c) (communicatingSlotCount_ c)
    (communicationFailed_ c) (isCommunicating_ c) (communicationResponseResult_ c) (responseReady_ c) (activeResponse_ c) (timeouts c) v.

(** ** Parts of a session *)

Definition CleanUpCommunication (c : Controller) : Controller :=
  set_old_new [] [] (set_failed false (set_timeouts [] c)).

Definition ProcessCommunicationResponse (result : bool) (c : Controller) : Controller * list output :=
  (set_communicating false (set_result result c), [NotifyWaiters]).

Definition ResetNextCommunicationSlotCount (c : Controller) : Controller := set_count (slotCount_ c) c.

(** The protocols of the CHECK phase, and the same with technology and modem of the
    slots in reverse order. *)
Definition old_protocol (c : Controller) (ph : RadioProtocolPhase) (st : RadioProtocolStatus) (i : nat) (p : RadioProtocol) :=
  MkProtocol (Z.of_nat i) (sessionId_ c) ph (technology p) (modemId p) st.
Definition swapped (o r : RadioProtocol) : RadioProtocol :=
  MkProtocol (slotId o) (sessionId o) (phase o) (technology r) (modemId r) (status o).
Definition stamp (session : Z) (ph : RadioProtocolPhase) (st : RadioProtocolStatus) (p : RadioProtocol) : RadioProtocol :=
  MkProtocol (slotId p) session ph (technology p) (modemId p) st.

Definition BuildRadioProtocolForCommunication (ph : RadioProtocolPhase) (st : RadioProtocolStatus) (c : Controller) : Controller :=
  let n := slotCount_ c in
  match ph with
  | RADIO_PROTOCOL_PHASE_CHECK =>
      if (zlen (radioProtocol_ c) <? n) || (n <? 0) then c
      else
        let slots := take (Z.to_nat n) (radioProtocol_ c) in
        let built := imap (old_protocol c ph st) slots in
        (* the vectors were emptied by CleanUpCommunication; the second loop writes
           their first [n] elements *)
        let old := oldRadioProtocol_ c ++ built in
        let new := newRadioProtocol_ c ++ built in
        set_old_new old (zip_with swapped (take (Z.to_nat n) new) (rev slots) ++ drop (Z.to_nat n) new) c
  | RADIO_PROTOCOL_PHASE_UPDATE | RADIO_PROTOCOL_PHASE_NOTIFY | RADIO_PROTOCOL_PHASE_COMPLETE =>
      if (n <? 0) || (zlen (oldRadioProtocol_ c) <? n) || (zlen (newRadioProtocol_ c) <? n) then c
      else
        let mark l := (stamp (sessionId_ c) ph st <$> take (Z.to_nat n) l) ++ drop (Z.to_nat n) l in
        set_old_new (mark (oldRadioProtocol_ c)) (mark (newRadioProtocol_ c)) c
  | RADIO_PROTOCOL_PHASE_INITIAL => c
  end.

(** [alive]: the pointer to the RIL manager can be locked. *)
Definition SendRadioProtocolEvent (alive : bool) (protocols : list RadioProtocol) (eventId : event_id) (c : Controller)
  : Controller * list output :=
  let abandon :=
    let '(c, out) := ProcessCommunicationResponse false c in (CleanUpCommunication c, out) in
  if negb alive || (match protocols with [] => true | _ => false end) then abandon
  else if (zlen protocols <? slotCount_ c) || (slotCount_ c <? 0) then abandon
  else
    (c, concat (imap (fun i p => if Z.of_nat i =? SIM_SLOT_2 then [] else [RilSetRadioProtocol (Z.of_nat i) p eventId])
                     (take (Z.to_nat (slotCount_ c)) protocols))).

Definition UpdateRadioProtocol (p : RadioProtocol) (c : Controller) : Controller :=
  if (DEFAULT_SIM_SLOT_ID <=? slotId p) && (slotId p <? zlen (radioProtocol_ c)) then
    set_radio (alter (fun r => MkProtocol (slotId r) (sessionId p) (phase p) (technology p) (modemId p) (status p))
                     (Z.to_nat (slotId p)) (radioProtocol_ c)) c
  else c.

Definition ExecuteCheckCommunication (alive : bool) (c : Controller) : Controller * list output :=
  let c := set_communicating true (set_session (sessionId_ c + 1) c) in
  let c := set_timeouts (timeouts c ++ [sessionId_ c]) c in
  let c := BuildRadioProtocolForCommunication RADIO_PROTOCOL_PHASE_CHECK RADIO_PROTOCOL_STATUS_NONE c in
  let c := ResetNextCommunicationSlotCount c in
  SendRadioProtocolEvent alive (oldRadioProtocol_ c) RADIO_SIM_CHECK_RADIO_PROTOCOL c.

Definition ExecuteUpdateCommunication (alive : bool) (c : Controller) : Controller * list output :=
  let c := BuildRadioProtocolForCommunication RADIO_PROTOCOL_PHASE_UPDATE RADIO_PROTOCOL_STATUS_NONE c in
  let c := ResetNextCommunicationSlotCount c in
  SendRadioProtocolEvent alive (newRadioProtocol_ c) RADIO_SIM_UPDATE_RADIO_PROTOCOL c.

Definition ExecuteCompleteCommunication (alive : bool) (c : Controller) : Controller * list output :=
  let c := BuildRadioProtocolForCommunication RADIO_PROTOCOL_PHASE_COMPLETE
             (if communicationFailed_ c then RADIO_PROTOCOL_STATUS_FAIL else RADIO_PROTOCOL_STATUS_SUCCESS) c in
  let c := ResetNextCommunicationSlotCount c in
  SendRadioProtocolEvent alive (if communicationFailed_ c then oldRadioProtocol_ c else newRadioProtocol_ c)
    RADIO_SIM_SET_RADIO_PROTOCOL_COMPLETE c.

(** ** Events *)

(** Whether the answer counts, and the state. *)
Definition ProcessResponseInfoOfEvent (e : event) (c : Controller) : bool * Controller :=
  match object e with
  | PResponseInfo err => if negb (err =? 0) then (true, set_failed true c) else (false, c)
  | PProtocol p => (sessionId p =? sessionId_ c, c)
  | _ => (false, c)
  end.

Definition ProcessGetRadioProtocol (e : event) (c : Controller) : Controller * list output :=
  match object e with PProtocol p => (UpdateRadioProtocol p c, []) | _ => (c, []) end.

Definition ProcessCheckRadioProtocol (alive : bool) (e : event) (c : Controller) : Controller * list output :=
  let '(valid, c) := ProcessResponseInfoOfEvent e c in
  if negb valid then (c, [])
  else
    let c := set_count (communicatingSlotCount_ c - 1) c in
    if negb (communicatingSlotCount_ c =? 0) then (c, [])
    else if communicationFailed_ c then ExecuteCompleteCommunication alive c
    else ExecuteUpdateCommunication alive c.

Definition ProcessUpdateRadioProtocol (e : event) (c : Controller) : Controller * list output :=
  ((ProcessResponseInfoOfEvent e c).2, []).

Definition ProcessRadioProtocolNotify (alive : bool) (e : event) (c : Controller) : Controller * list output :=
  match object e with
  | PProtocol p =>
      if negb (sessionId p =? sessionId_ c) then (c, [])
      else
        let c := if decide (status p = RADIO_PROTOCOL_STATUS_FAIL) then set_failed true c else UpdateRadioProtocol p c in
        let c := set_count (communicatingSlotCount_ c - 1) c in
        if negb (communicatingSlotCount_ c =? 0) then (c, []) else ExecuteCompleteCommunication alive c
  | _ => (c, [])
  end.

Definition ProcessSetRadioProtocolComplete (e : event) (c : Controller) : Controller * list output :=
  let '(valid, c) := ProcessResponseInfoOfEvent e c in
  if negb valid then (c, [])
  else
    let c := set_count (communicatingSlotCount_ c - 1) c in
    if negb (communicatingSlotCount_ c =? 0) then (c, [])
    else
      let '(c, out) := ProcessCommunicationResponse (negb (communicationFailed_ c)) c in
      (CleanUpCommunication c, out).

Definition ProcessSetRadioProtocolTimeout (alive : bool) (e : event) (c : Controller) : Controller * list output :=
  if negb (param e =? sessionId_ c) then (c, [])
  else
    let '(c, out) := ProcessCommunicationResponse false c in
    let c := CleanUpCommunication c in
    let c := set_failed true (set_count 0 (set_session (sessionId_ c + 1) c)) in
    let '(c, out') := ExecuteCompleteCommunication alive c in
    (c, out ++ out').

Definition RadioProtocolControllerWait (c : Controller) : Controller := set_ready false c.
Definition RadioProtocolControllerContinue (c : Controller) : Controller * list output := (set_ready true c, [NotifyActive]).
Definition RadioProtocolControllerPoll (c : Controller) : bool := responseReady_ c.

Definition ProcessActiveSimTimeOutDone (e : event) (c : Controller) : Controller * list output :=
  RadioProtocolControllerContinue c.

Definition ProcessActiveSimToRilResponse (e : event) (c : Controller) : Controller * list output :=
  match object e with
  | PErrType r | PResponseInfo r => RadioProtocolControllerContinue (set_active r c)
  | _ => RadioProtocolControllerContinue c
  end.

Definition ProcessEvent (alive : bool) (e : event) (c : Controller) : Controller * list output :=
  match id e with
  | MSG_SIM_TIME_OUT_ACTIVE => ProcessActiveSimTimeOutDone e c
  | MSG_SIM_SET_ACTIVE => ProcessActiveSimToRilResponse e c
  | RADIO_SIM_GET_RADIO_PROTOCOL => ProcessGetRadioProtocol e c
  | RADIO_SIM_CHECK_RADIO_PROTOCOL => ProcessCheckRadioProtocol alive e c
  | RADIO_SIM_UPDATE_RADIO_PROTOCOL => ProcessUpdateRadioProtocol e c
  | RADIO_SIM_RADIO_PROTOCOL_NOTIFY => ProcessRadioProtocolNotify alive e c
  | RADIO_SIM_SET_RADIO_PROTOCOL_COMPLETE => ProcessSetRadioProtocolComplete e c
  | RADIO_SIM_SET_RADIO_PROTOCOL_TIMEOUT => ProcessSetRadioProtocolTimeout alive e c
  end.

(** ** Calls *)

(** [SIM_SLOT_COUNT_REAL] is a system parameter. *)
Definition Init (alive : bool) (simSlotCountReal : Z) (c : Controller) : Controller * list output :=
  if negb alive then (c, [])
  else
    let n := if DUAL_SLOT_COUNT <=? simSlotCountReal then DUAL_SLOT_COUNT else simSlotCountReal in
    let c := CleanUpCommunication (set_slotCount n c) in
    let fresh := (fun i => MkProtocol i 0 RADIO_PROTOCOL_PHASE_INITIAL (i32 0xFFFFFFFF) 0 RADIO_PROTOCOL_STATUS_NONE) <$> seqZ 0 n in
    (set_radio (radioProtocol_ c ++ fresh) c, RegisterCoreNotify <$> seqZ 0 n).

Definition bad_slot (slot : Z) (c : Controller) : bool :=
  (slot <? DEFAULT_SIM_SLOT_ID) || (zlen (radioProtocol_ c) <=? slot) || (slot =? SIM_SLOT_2).

Definition GetRadioProtocolTech (slot : Z) (c : Controller) : outcome Z :=
  if bad_slot slot c then Ret 0 else p ← vec_get (radioProtocol_ c) slot; Ret (technology p).
Definition GetRadioProtocolModemId (slot : Z) (c : Controller) : outcome Z :=
  if bad_slot slot c then Ret 0 else p ← vec_get (radioProtocol_ c) slot; Ret (modemId p).

Fixpoint find_modem (modem : Z) (l : list RadioProtocol) (i : Z) : Z :=
  match l with [] => -1 | p :: t => if modemId p =? modem then i else find_modem modem t (i + 1) end.
Definition GetRadioProtocolSlotIdByModemId (modem : Z) (c : Controller) : Z := find_modem modem (radioProtocol_ c) 0.

Definition GetRadioProtocol (alive : bool) (slot : Z) (c : Controller) : list output :=
  if negb alive then [] else [RilGetRadioProtocol slot].

(** [SetRadioProtocol] up to its wait: [None] when a session is under way. When it
    wakes up because [isCommunicating_] is false it returns
    [communicationResponseResult_]; it also stops waiting, with the result so far,
    after [WAIT_TIME_LONG_SECOND] without a wake-up ([timed_out]). *)
Definition SetRadioProtocol (alive : bool) (c : Controller) : option (Controller * list output) :=
  if isCommunicating_ c then None
  else Some (ExecuteCheckCommunication alive (CleanUpCommunication (set_result false c))).
Definition SetRadioProtocol_result (timed_out : bool) (c : Controller) : option bool :=
  if isCommunicating_ c && negb timed_out then None else Some (communicationResponseResult_ c).

Definition UnRegisterEvents (alive : bool) (c : Controller) : list output :=
  if negb alive then [] else UnRegisterCoreNotify <$> seqZ 0 (slotCount_ c).

Definition SetActiveSimToRil (alive : bool) (slot type enable : Z) (c : Controller) : bool * Controller * list output :=
  if negb alive then (false, c, [])
  else (true, set_active_timeout true (set_active 1 c), [RilSetActiveSim slot type enable]).

Definition GetActiveSimToRilResult (c : Controller) : Z * Controller := (activeResponse_ c, set_active_timeout false c).

(** ** Reachable states *)

Definition timeout_event (session : Z) : event := MkEvent RADIO_SIM_SET_RADIO_PROTOCOL_TIMEOUT session PNone.

(** From [Init] on a device with [real] slots: calls, events of the modems in any
    order and with any content, and the delayed events that are in the queue. *)
Inductive reachable (real : Z) : Controller -> Prop :=
| reach_init : reachable real (fst (Init true real Controller_new))
| reach_set c c' out alive :
    reachable real c -> SetRadioProtocol alive c = Some (c', out) -> reachable real c'
| reach_event c alive e :
    reachable real c -> id e <> RADIO_SIM_SET_RADIO_PROTOCOL_TIMEOUT -> reachable real (fst (ProcessEvent alive e c))
| reach_timeout c alive before session after :
    reachable real c -> timeouts c = before ++ session :: after ->
    reachable real (fst (ProcessEvent alive (timeout_event session) (set_timeouts (before ++ after) c)))
| reach_active c alive slot type enable :
    reachable real c -> reachable real (SetActiveSimToRil alive slot type enable c).1.2
| reach_active_result c : reachable real c -> reachable real (GetActiveSimToRilResult c).2
| reach_wait c : reachable real c -> reachable real (RadioProtocolControllerWait c).

(** During a session both lists have one protocol per slot and exactly the timeout of
    this session is queued; outside there is nothing left. *)
Record inv (c : Controller) : Prop := {
  inv_slots : 0 <= slotCount_ c <= DUAL_SLOT_COUNT /\ zlen (radioProtocol_ c) = slotCount_ c;
  inv_session : isCommunicating_ c = true ->
    timeouts c = [sessionId_ c] /\ 0 < slotCount_ c /\
    zlen (oldRadioProtocol_ c) = slotCount_ c /\ zlen (newRadioProtocol_ c) = slotCount_ c;
  inv_idle : isCommunicating_ c = false -> timeouts c = [] /\ oldRadioProtocol_ c = [] /\ newRadioProtocol_ c = []
}.

Lemma zlen_fmap {A B} (f : A -> B) l : zlen (f <$> l) = zlen l.
Proof. unfold zlen. by rewrite length_fmap. Qed.
Lemma zlen_take_all {A} (l : list A) n : n = zlen l -> take (Z.to_nat n) l = l.
Proof. intros ->. unfold zlen. rewrite Nat2Z.id. apply firstn_all. Qed.
Lemma zlen_drop_all {A} (l : list A) n : n = zlen l -> drop (Z.to_nat n) l = [].
Proof. intros ->. unfold zlen. rewrite Nat2Z.id. apply skipn_all. Qed.

(** A change that leaves alone what [inv] speaks of. *)
Definition same_session (c d : Controller) : Prop :=
  slotCount_ c = slotCount_ d /\ zlen (radioProtocol_ c) = zlen (radioProtocol_ d) /\ isCommunicating_ c = isCommunicating_ d /\
  timeouts c = timeouts d /\ sessionId_ c = sessionId_ d /\ zlen (oldRadioProtocol_ c) = zlen (oldRadioProtocol_ d) /\
  zlen (newRadioProtocol_ c) = zlen (newRadioProtocol_ d).

Lemma same_session_inv c d : same_session c d -> inv c -> inv d.
Proof.
  intros (E1 & E2 & E3 & E4 & E5 & E6 & E7) [I1 I2 I3]. split.
  - by rewrite <- E1, <- E2.
  - rewrite <- E1, <- E3, <- E4, <- E5, <- E6, <- E7. exact I2.
  - rewrite <- E3, <- E4. intros F. destruct (I3 F) as (? & Ho & Hn). rewrite Ho in E6. rewrite Hn in E7.
    split; [done|]. split; apply zlen_0_nil; zlen_simpl; lia.
Qed.

Lemma UpdateRadioProtocol_same p c : same_session c (UpdateRadioProtocol p c).
Proof.
  unfold UpdateRadioProtocol. destruct (_ && _); [|done]. unfold same_session. cbn. split_and!; try done.
  unfold zlen. by rewrite length_alter.
Qed.

(** The lists built for a later phase have the same lengths. *)
Lemma Build_same ph st c : ph <> RADIO_PROTOCOL_PHASE_CHECK -> same_session c (BuildRadioProtocolForCommunication ph st c).
Proof.
  intros Hph. unfold BuildRadioProtocolForCommunication. destruct ph; try done.
  all: match goal with |- context [if ?b then _ else _] => destruct b; [done|] end.
  all: unfold same_session; cbn; split_and!; try done.
  all: rewrite zlen_app, zlen_fmap, <- zlen_app, take_drop; done.
Qed.

(** Sending either keeps the state or ends the session cleanly. *)
Definition idle_end (c d : Controller) : Prop :=
  isCommunicating_ d = false /\ communicationResponseResult_ d = false /\ timeouts d = [] /\ oldRadioProtocol_ d = [] /\
  newRadioProtocol_ d = [] /\ slotCount_ d = slotCount_ c /\ radioProtocol_ d = radioProtocol_ c.

Lemma Send_cases alive ps e c :
  (fst (SendRadioProtocolEvent alive ps e c) = c /\ alive = true /\ ps <> []) \/ idle_end c (fst (SendRadioProtocolEvent alive ps e c)).
Proof.
  unfold SendRadioProtocolEvent. destruct alive; cbn [negb orb]; [|right; done].
  destruct ps; [right; done|]. destruct (_ || _); [right; done|left; done].
Qed.

Lemma idle_end_inv c d : inv c -> idle_end c d -> inv d.
Proof.
  intros [I1 _ _] (E1 & _ & E2 & E3 & E4 & E5 & E6). split.
  - by rewrite E5, E6.
  - by rewrite E1.
  - done.
Qed.

Lemma Complete_inv alive c : inv c -> inv (fst (ExecuteCompleteCommunication alive c)).
Proof.
  intros I. unfold ExecuteCompleteCommunication.
  set (d := ResetNextCommunicationSlotCount _).
  assert (inv d) as Id.
  { eapply same_session_inv; [|exact I]. exact (Build_same RADIO_PROTOCOL_PHASE_COMPLETE _ c ltac:(done)). }
  destruct (Send_cases alive (if communicationFailed_ d then oldRadioProtocol_ d else newRadioProtocol_ d)
              RADIO_SIM_SET_RADIO_PROTOCOL_COMPLETE d) as [[-> _]|S]; [done|by eapply idle_end_inv].
Qed.

Lemma Update_inv alive c : inv c -> inv (fst (ExecuteUpdateCommunication alive c)).
Proof.
  intros I. unfold ExecuteUpdateCommunication.
  set (d := ResetNextCommunicationSlotCount _).
  assert (inv d) as Id.
  { eapply same_session_inv; [|exact I]. exact (Build_same RADIO_PROTOCOL_PHASE_UPDATE _ c ltac:(done)). }
  destruct (Send_cases alive (newRadioProtocol_ d) RADIO_SIM_UPDATE_RADIO_PROTOCOL d) as [[-> _]|S]; [done|by eapply idle_end_inv].
Qed.

Lemma Response_same e c : same_session c (ProcessResponseInfoOfEvent e c).2.
Proof. unfold ProcessResponseInfoOfEvent. destruct (object e); try done. by destruct (negb _). Qed.

Lemma set_count_inv v c : inv c -> inv (set_count v c).
Proof. by apply same_session_inv. Qed.

Lemma finish_inv r c : inv c -> inv (CleanUpCommunication (fst (ProcessCommunicationResponse r c))).
Proof. intros [I1 _ _]. by split. Qed.

Lemma event_inv alive e c : id e <> RADIO_SIM_SET_RADIO_PROTOCOL_TIMEOUT -> inv c -> inv (fst (ProcessEvent alive e c)).
Proof.
  intros He I. unfold ProcessEvent. destruct (id e); try done.
  - by apply (same_session_inv c).
  - unfold ProcessActiveSimToRilResponse. destruct (object e); by apply (same_session_inv c).
  - unfold ProcessGetRadioProtocol. destruct (object e); try done. eapply same_session_inv; [apply UpdateRadioProtocol_same|done].
  - unfold ProcessCheckRadioProtocol. pose proof (same_session_inv _ _ (Response_same e c) I) as I'.
    destruct (ProcessResponseInfoOfEvent e c) as [[] d]; [|done]. cbn [negb] in *.
    apply (set_count_inv (communicatingSlotCount_ d - 1)) in I'. destruct (negb _); [done|].
    destruct (communicationFailed_ _); [by apply Complete_inv|by apply Update_inv].
  - unfold ProcessUpdateRadioProtocol. eapply same_session_inv; [apply Response_same|done].
  - unfold ProcessRadioProtocolNotify. destruct (object e) as [|p| |]; try done. destruct (negb _); [done|].
    set (d := if decide _ then _ else _).
    assert (inv d) as Id by (unfold d; destruct (decide _); [by apply (same_session_inv c)|eapply same_session_inv; [apply UpdateRadioProtocol_same|done]]).
    apply (set_count_inv (communicatingSlotCount_ d - 1)) in Id. destruct (negb _); [done|]. by apply Complete_inv.
  - unfold ProcessSetRadioProtocolComplete. pose proof (same_session_inv _ _ (Response_same e c) I) as I'.
    destruct (ProcessResponseInfoOfEvent e c) as [[] d]; [|done]. cbn [negb] in *.
    apply (set_count_inv (communicatingSlotCount_ d - 1)) in I'. destruct (negb _); [done|].
    apply (finish_inv (negb (communicationFailed_ (set_count (communicatingSlotCount_ d - 1) d)))) in I'. exact I'.
Qed.

(** A session that could be started has both lists filled. *)
Lemma set_inv alive c c' out : inv c -> SetRadioProtocol alive c = Some (c', out) -> inv c'.
Proof.
  intros [[Hn Hr] _ _] E. unfold SetRadioProtocol in E. destruct (isCommunicating_ c); [done|]. injection E as E.
  unfold ExecuteCheckCommunication in E. revert E.
  set (d0 := set_timeouts _ _).
  set (d := ResetNextCommunicationSlotCount (BuildRadioProtocolForCommunication _ _ d0)).
  assert (B : slotCount_ d = slotCount_ c /\ radioProtocol_ d = radioProtocol_ c /\ timeouts d = [sessionId_ d] /\
              zlen (oldRadioProtocol_ d) = slotCount_ c /\ zlen (newRadioProtocol_ d) = slotCount_ c /\ isCommunicating_ d = true).
  { unfold d, BuildRadioProtocolForCommunication, ResetNextCommunicationSlotCount.
    change (slotCount_ d0) with (slotCount_ c). change (radioProtocol_ d0) with (radioProtocol_ c).
    destruct (Z.ltb_spec (zlen (radioProtocol_ c)) (slotCount_ c)); [lia|].
    destruct (Z.ltb_spec (slotCount_ c) 0); [lia|]. cbn [orb].
    change (oldRadioProtocol_ d0) with (@nil RadioProtocol). change (newRadioProtocol_ d0) with (@nil RadioProtocol).
    rewrite (zlen_take_all (radioProtocol_ c)) by done. cbn [app].
    set (built := imap _ _).
    assert (zlen built = slotCount_ c) as Lb by (unfold built, zlen in *; rewrite length_imap; lia).
    rewrite (zlen_take_all built), (zlen_drop_all built) by done. cbn. split_and!; try done.
    rewrite app_nil_r. unfold zlen in *. rewrite length_zip_with, length_rev. lia. }
  clearbody d. intros E. destruct B as (B1 & B2 & B3 & B4 & B5 & B6).
  destruct (Send_cases alive (oldRadioProtocol_ d) RADIO_SIM_CHECK_RADIO_PROTOCOL d) as [(F & _ & Hne)|F]; rewrite E in F; cbn [fst] in F.
  - subst c'. split.
    + by rewrite B1, B2.
    + intros _. rewrite B1, B4, B5. split_and!; try done.
      destruct (oldRadioProtocol_ d) as [|o l]; [done|]. rewrite zlen_cons in B4. pose proof (zlen_nonneg l). lia.
    + by rewrite B6.
  - destruct F as (F1 & _ & F2 & F3 & F4 & F5 & F6). split; [by rewrite F5, F6, B1, B2|by rewrite F1|done].
Qed.

(** Without protocols COMPLETE sends nothing to the modems. *)
Lemma Complete_empty alive c :
  0 < slotCount_ c -> oldRadioProtocol_ c = [] -> newRadioProtocol_ c = [] ->
  idle_end c (ExecuteCompleteCommunication alive c).1 /\ (ExecuteCompleteCommunication alive c).2 = [NotifyWaiters] /\
  sessionId_ (ExecuteCompleteCommunication alive c).1 = sessionId_ c.
Proof.
  intros Hn Ho Hw. unfold ExecuteCompleteCommunication.
  assert (forall st, BuildRadioProtocolForCommunication RADIO_PROTOCOL_PHASE_COMPLETE st c = c) as ->.
  { intros st. unfold BuildRadioProtocolForCommunication. rewrite Ho, Hw. change (zlen (@nil RadioProtocol)) with 0.
    destruct (Z.ltb_spec (slotCount_ c) 0); [lia|]. by destruct (Z.ltb_spec 0 (slotCount_ c)); [|lia]. }
  set (d := ResetNextCommunicationSlotCount c).
  assert ((if communicationFailed_ d then oldRadioProtocol_ d else newRadioProtocol_ d) = []) as ->.
  { unfold d. cbn. destruct (communicationFailed_ c); done. }
  unfold SendRadioProtocolEvent. rewrite orb_true_r. done.
Qed.

Lemma timeout_ends alive c :
  isCommunicating_ c = true -> inv c ->
  let '(d, out) := ProcessEvent alive (timeout_event (sessionId_ c)) (set_timeouts [] c) in
  idle_end c d /\ sessionId_ d = sessionId_ c + 1 /\ out = [NotifyWaiters; NotifyWaiters].
Proof.
  intros HC I. destruct (inv_session c I HC) as (_ & Hn & _). cbn [ProcessEvent id timeout_event].
  unfold ProcessSetRadioProtocolTimeout. change (param (MkEvent _ _ _)) with (sessionId_ c).
  change (sessionId_ (set_timeouts [] c)) with (sessionId_ c). rewrite Z.eqb_refl. cbn [negb ProcessCommunicationResponse].
  set (d := set_failed true _).
  destruct (Complete_empty alive d Hn eq_refl eq_refl) as (E1 & E2 & E3).
  destruct (ExecuteCompleteCommunication alive d) as [d' out']. cbn [fst snd] in *. subst out'. done.
Qed.

Lemma timeout_inv c session before after :
  inv c -> timeouts c = before ++ session :: after ->
  isCommunicating_ c = true /\ session = sessionId_ c /\ before = [] /\ after = [].
Proof.
  intros I E. destruct (isCommunicating_ c) eqn:HC.
  - destruct (inv_session c I HC) as (T & _). rewrite T in E. destruct before as [|? [|]]; by simplify_list_eq.
  - destruct (inv_idle c I HC) as (T & _). rewrite T in E. by destruct before.
Qed.

Lemma reachable_inv real c : 0 <= real -> reachable real c -> inv c.
Proof.
  intros Hr. induction 1 as [|c c' out alive _ IH E|c alive e _ IH He|c alive b s a _ IH E|c alive sl ty en _ IH|c _ IH|c _ IH].
  - unfold Init, DUAL_SLOT_COUNT. cbn. set (n := if 2 <=? real then 2 else real).
    assert (0 <= n <= 2) by (unfold n; destruct (Z.leb_spec 2 real); lia).
    split; cbn; [|done|done]. split; [unfold DUAL_SLOT_COUNT; lia|]. unfold zlen. rewrite length_fmap, length_seqZ. lia.
  - by eapply set_inv.
  - by apply event_inv.
  - destruct (timeout_inv c s b a IH E) as (HC & -> & -> & ->). cbn [app].
    pose proof (timeout_ends alive c HC IH) as T. destruct (ProcessEvent _ _ _) as [d out]. by eapply idle_end_inv; [|apply T].
  - unfold SetActiveSimToRil. destruct alive; [by apply (same_session_inv c)|done].
  - by apply (same_session_inv c).
  - by apply (same_session_inv c).
Qed.


Definition started : Controller :=
  match SetRadioProtocol true (fst (Init true 2 Controller_new)) with Some (c, _) => c | None => Controller_new end.


(** ** A complete exchange *)

Fixpoint run (alive : bool) (es : list event) (c : Controller) : Controller * list output :=
  match es with
  | [] => (c, [])
  | e :: t => let '(c, out) := ProcessEvent alive e c in let '(c, out') := run alive t c in (c, out ++ out')
  end.

Lemma run_app alive es fs c :
  run alive (es ++ fs) c =
  let '(d, out) := run alive es c in let '(d', out') := run alive fs d in (d', out ++ out').
Proof.
  revert c. induction es as [|e es IH]; intros c.
  { cbn. by destruct (run alive fs c). }
  cbn [app run]. destruct (ProcessEvent alive e c) as [d out]. rewrite IH. destruct (run alive es d) as [d1 o1].
  destruct (run alive fs d1) as [d2 o2]. by rewrite app_assoc.
Qed.

Lemma run_then alive es fs c d o d' o' : run alive es c = (d, o) -> run alive fs d = (d', o') -> run alive (es ++ fs) c = (d', o ++ o').
Proof. intros E F. by rewrite run_app, E, F. Qed.

(** An answer of this session without error. *)
Definition answer (i : event_id) (session : Z) (e : event) : Prop :=
  id e = i /\ exists p, object e = PProtocol p /\ sessionId p = session.

Lemma answer_valid i session e c : answer i session e -> session = sessionId_ c -> ProcessResponseInfoOfEvent e c = (true, c).
Proof. intros (_ & p & Ho & Hs) ->. unfold ProcessResponseInfoOfEvent. by rewrite Ho, Hs, Z.eqb_refl. Qed.

Lemma run_updates alive session us c :
  Forall (answer RADIO_SIM_UPDATE_RADIO_PROTOCOL session) us -> session = sessionId_ c -> run alive us c = (c, []).
Proof.
  intros H E. induction H as [|e us He _ IH]; [done|]. cbn [run]. unfold ProcessEvent. destruct He as [Hi He].
  rewrite Hi. unfold ProcessUpdateRadioProtocol. rewrite (answer_valid _ session e c (conj Hi He) E). cbn [snd]. by rewrite IH.
Qed.

(** All but the last of the answers of a phase only count down. *)
Lemma run_checks alive session es : forall c,
  Forall (answer RADIO_SIM_CHECK_RADIO_PROTOCOL session) es -> session = sessionId_ c ->
  communicatingSlotCount_ c = zlen es -> es <> [] -> communicationFailed_ c = false ->
  run alive es c = ExecuteUpdateCommunication alive (set_count 0 c).
Proof.
  induction es as [|e es IH]; intros c H E Hc Hne Hf; [done|]. apply Forall_cons in H as [He H].
  cbn [run]. unfold ProcessEvent. rewrite (proj1 He). unfold ProcessCheckRadioProtocol.
  rewrite (answer_valid _ session e c He E). cbn [negb]. rewrite Hc, zlen_cons.
  replace (1 + zlen es - 1) with (zlen es) by lia. change (communicatingSlotCount_ (set_count (zlen es) c)) with (zlen es).
  destruct es as [|e' es].
  - change (zlen (@nil event)) with 0. cbn [Z.eqb negb]. change (communicationFailed_ (set_count 0 c)) with (communicationFailed_ c). rewrite Hf.
    destruct (ExecuteUpdateCommunication alive (set_count 0 c)). cbn. by rewrite app_nil_r.
  - assert (zlen (e' :: es) <> 0) by (rewrite zlen_cons; pose proof (zlen_nonneg es); lia).
    destruct (Z.eqb_spec (zlen (e' :: es)) 0); [done|]. cbn [negb].
    rewrite (IH (set_count (zlen (e' :: es)) c)); try done.
    change (set_count 0 (set_count _ c)) with (set_count 0 c). by destruct (ExecuteUpdateCommunication alive (set_count 0 c)).
Qed.

Lemma run_completes alive session es : forall c,
  Forall (answer RADIO_SIM_SET_RADIO_PROTOCOL_COMPLETE session) es -> session = sessionId_ c ->
  communicatingSlotCount_ c = zlen es -> es <> [] ->
  run alive es c = (CleanUpCommunication (fst (ProcessCommunicationResponse (negb (communicationFailed_ c)) (set_count 0 c))), [NotifyWaiters]).
Proof.
  induction es as [|e es IH]; intros c H E Hc Hne; [done|]. apply Forall_cons in H as [He H].
  cbn [run]. unfold ProcessEvent. rewrite (proj1 He). unfold ProcessSetRadioProtocolComplete.
  rewrite (answer_valid _ session e c He E). cbn [negb]. rewrite Hc, zlen_cons.
  replace (1 + zlen es - 1) with (zlen es) by lia. change (communicatingSlotCount_ (set_count (zlen es) c)) with (zlen es).
  destruct es as [|e' es]; [done|].
  assert (zlen (e' :: es) <> 0) by (rewrite zlen_cons; pose proof (zlen_nonneg es); lia).
  destruct (Z.eqb_spec (zlen (e' :: es)) 0); [done|]. cbn [negb].
  by rewrite (IH (set_count (zlen (e' :: es)) c)).
Qed.

(** What the controller takes over from the notifications. *)
Definition notified (ps : list RadioProtocol) (c : Controller) : Controller := foldl (fun c p => UpdateRadioProtocol p c) c ps.

Lemma notified_fields ps : forall c,
  let d := notified ps c in
  sessionId_ d = sessionId_ c /\ slotCount_ d = slotCount_ c /\ oldRadioProtocol_ d = oldRadioProtocol_ c /\
  newRadioProtocol_ d = newRadioProtocol_ c /\ communicationFailed_ d = communicationFailed_ c /\
  communicatingSlotCount_ d = communicatingSlotCount_ c.
Proof.
  induction ps as [|p ps IH]; intros c; [done|]. cbv zeta.
  change (notified (p :: ps) c) with (notified ps (UpdateRadioProtocol p c)). destruct (IH (UpdateRadioProtocol p c)) as (-> & -> & -> & -> & -> & ->).
  unfold UpdateRadioProtocol. by destruct (_ && _).
Qed.

Lemma update_set_count p v c : UpdateRadioProtocol p (set_count v c) = set_count v (UpdateRadioProtocol p c).
Proof. unfold UpdateRadioProtocol. change (radioProtocol_ (set_count v c)) with (radioProtocol_ c). by destruct (_ && _). Qed.

Lemma notified_set_count ps v : forall c, notified ps (set_count v c) = set_count v (notified ps c).
Proof.
  induction ps as [|p ps IH]; intros c; [done|].
  change (notified (p :: ps) (set_count v c)) with (notified ps (UpdateRadioProtocol p (set_count v c))).
  rewrite update_set_count. apply IH.
Qed.

Lemma run_notifies alive ps : forall c,
  Forall (fun p => sessionId p = sessionId_ c /\ status p <> RADIO_PROTOCOL_STATUS_FAIL) ps ->
  communicatingSlotCount_ c = zlen ps -> ps <> [] ->
  run alive ((fun p => MkEvent RADIO_SIM_RADIO_PROTOCOL_NOTIFY 0 (PProtocol p)) <$> ps) c =
  ExecuteCompleteCommunication alive (set_count 0 (notified ps c)).
Proof.
  induction ps as [|p ps IH]; intros c H Hc Hne; [done|]. apply Forall_cons in H as [[Hs Hst] H].
  rewrite fmap_cons. cbn [run]. cbn [ProcessEvent id]. unfold ProcessRadioProtocolNotify. cbn [object].
  rewrite Hs, Z.eqb_refl. cbn [negb]. rewrite decide_False by done.
  assert (communicatingSlotCount_ (UpdateRadioProtocol p c) = zlen (p :: ps)) as ->.
  { unfold UpdateRadioProtocol. by destruct (_ && _). }
  rewrite zlen_cons. replace (1 + zlen ps - 1) with (zlen ps) by lia.
  change (communicatingSlotCount_ (set_count (zlen ps) (UpdateRadioProtocol p c))) with (zlen ps).
  destruct ps as [|p' ps].
  - change (zlen (@nil RadioProtocol)) with 0. cbn [Z.eqb negb fmap list_fmap run notified foldl].
    destruct (ExecuteCompleteCommunication alive _). cbn. by rewrite app_nil_r.
  - assert (zlen (p' :: ps) <> 0) by (rewrite zlen_cons; pose proof (zlen_nonneg ps); lia).
    destruct (Z.eqb_spec (zlen (p' :: ps)) 0); [done|]. cbn [negb].
    rewrite (IH (set_count (zlen (p' :: ps)) (UpdateRadioProtocol p c))); try done.
    + rewrite notified_set_count. 
      change (notified (p :: p' :: ps) c) with (notified (p' :: ps) (UpdateRadioProtocol p c)).
      by destruct (ExecuteCompleteCommunication alive _).
    + eapply Forall_impl; [exact H|]. intros q [Hq Hq']. split; [|done]. rewrite Hq.
      unfold UpdateRadioProtocol. by destruct (_ && _).
Qed.

(** The requests of a phase: slot [i] gets technology and modem of the [i]-th of [l]. *)
Definition requests (reply : event_id) (session : Z) (ph : RadioProtocolPhase) (st : RadioProtocolStatus) (l : list RadioProtocol)
  : list output :=
  imap (fun i p => RilSetRadioProtocol (Z.of_nat i) (MkProtocol (Z.of_nat i) session ph (technology p) (modemId p) st) reply) l.

(** At most two slots: no request is skipped. *)
Lemma send_two alive e c l :
  alive = true -> zlen l = slotCount_ c -> 0 < slotCount_ c <= 2 ->
  SendRadioProtocolEvent alive l e c = (c, imap (fun i p => RilSetRadioProtocol (Z.of_nat i) p e) l).
Proof.
  intros -> Hl Hn. unfold SendRadioProtocolEvent. rewrite (zlen_take_all l) by done. rewrite <- Hl in *.
  destruct l as [|a [|b [|]]]; zlen_simpl; [lia|done|done|pose proof (zlen_nonneg l); lia].
Qed.

(** What each phase builds when every slot has a protocol. *)
Lemma Build_check c st :
  zlen (radioProtocol_ c) = slotCount_ c -> 0 <= slotCount_ c -> oldRadioProtocol_ c = [] -> newRadioProtocol_ c = [] ->
  BuildRadioProtocolForCommunication RADIO_PROTOCOL_PHASE_CHECK st c =
  set_old_new (imap (old_protocol c RADIO_PROTOCOL_PHASE_CHECK st) (radioProtocol_ c))
    (imap (old_protocol c RADIO_PROTOCOL_PHASE_CHECK st) (rev (radioProtocol_ c))) c.
Proof.
  intros Hr Hn Ho Hw. unfold BuildRadioProtocolForCommunication. rewrite Ho, Hw. cbn [app].
  destruct (Z.ltb_spec (zlen (radioProtocol_ c)) (slotCount_ c)); [lia|]. destruct (Z.ltb_spec (slotCount_ c) 0); [lia|]. cbn [orb].
  rewrite (zlen_take_all (radioProtocol_ c)) by done. set (built := imap _ (radioProtocol_ c)).
  assert (slotCount_ c = zlen built) as Lb by (unfold built, zlen in *; rewrite length_imap; lia).
  rewrite (zlen_take_all built), (zlen_drop_all built), app_nil_r by done. f_equal.
  apply list_eq. intros i. rewrite lookup_zip_with, list_lookup_imap. unfold built. rewrite list_lookup_imap.
  destruct (radioProtocol_ c !! i) as [x|] eqn:E1; destruct (rev (radioProtocol_ c) !! i) as [y|] eqn:E2; cbn; try done.
  apply lookup_ge_None in E1. apply lookup_lt_Some in E2. rewrite length_rev in E2. lia.
Qed.

Lemma Build_later ph st c :
  ph = RADIO_PROTOCOL_PHASE_UPDATE \/ ph = RADIO_PROTOCOL_PHASE_COMPLETE -> 0 <= slotCount_ c ->
  zlen (oldRadioProtocol_ c) = slotCount_ c -> zlen (newRadioProtocol_ c) = slotCount_ c ->
  BuildRadioProtocolForCommunication ph st c =
  set_old_new (stamp (sessionId_ c) ph st <$> oldRadioProtocol_ c) (stamp (sessionId_ c) ph st <$> newRadioProtocol_ c) c.
Proof.
  intros Hph Hn Ho Hw. unfold BuildRadioProtocolForCommunication.
  destruct (Z.ltb_spec (slotCount_ c) 0); [lia|]. destruct (Z.ltb_spec (zlen (oldRadioProtocol_ c)) (slotCount_ c)); [lia|].
  destruct (Z.ltb_spec (zlen (newRadioProtocol_ c)) (slotCount_ c)); [lia|]. cbn [orb].
  rewrite (zlen_take_all (oldRadioProtocol_ c)), (zlen_take_all (newRadioProtocol_ c)), (zlen_drop_all (oldRadioProtocol_ c)),
    (zlen_drop_all (newRadioProtocol_ c)), !app_nil_r by done.
  by destruct Hph as [-> | ->].
Qed.

(** The state of a session whose phase expects an answer of every slot. *)
Record waiting (c : Controller) (s n : Z) (radio old new : list RadioProtocol) : Prop := {
  w_session : sessionId_ c = s;
  w_slots : slotCount_ c = n;
  w_radio : radioProtocol_ c = radio;
  w_failed : communicationFailed_ c = false;
  w_old : oldRadioProtocol_ c = old;
  w_new : newRadioProtocol_ c = new
}.

Lemma SetRadioProtocol_start c :
  inv c -> isCommunicating_ c = false -> 0 < slotCount_ c ->
  let s := sessionId_ c + 1 in
  let built := imap (fun i p => MkProtocol (Z.of_nat i) s RADIO_PROTOCOL_PHASE_CHECK (technology p) (modemId p) RADIO_PROTOCOL_STATUS_NONE) in
  exists c1,
    SetRadioProtocol true c = Some (c1, requests RADIO_SIM_CHECK_RADIO_PROTOCOL s RADIO_PROTOCOL_PHASE_CHECK RADIO_PROTOCOL_STATUS_NONE (radioProtocol_ c)) /\
    waiting c1 s (slotCount_ c) (radioProtocol_ c) (built (radioProtocol_ c)) (built (rev (radioProtocol_ c))) /\
    communicatingSlotCount_ c1 = slotCount_ c.
Proof.
  intros [[Hn Hr] _ _] Hi Hp s built. unfold DUAL_SLOT_COUNT in Hn. unfold SetRadioProtocol. rewrite Hi.
  unfold ExecuteCheckCommunication. set (d := set_timeouts _ _). rewrite (Build_check d) by (done || (cbn; lia)).
  rewrite send_two.
  - set (c1 := ResetNextCommunicationSlotCount _). exists c1. split; [|by split].
    do 2 f_equal. unfold requests. change (oldRadioProtocol_ c1) with (imap (old_protocol d RADIO_PROTOCOL_PHASE_CHECK RADIO_PROTOCOL_STATUS_NONE) (radioProtocol_ c)).
    apply list_eq. intros i. rewrite !list_lookup_imap. by destruct (radioProtocol_ c !! i).
  - done.
  - cbn. unfold zlen in *. rewrite length_imap. exact Hr.
  - cbn. lia.
Qed.

Lemma Update_sends c s n radio old new :
  waiting c s n radio old new -> zlen old = n -> zlen new = n -> 0 < n <= 2 ->
  let mark := fmap (stamp s RADIO_PROTOCOL_PHASE_UPDATE RADIO_PROTOCOL_STATUS_NONE) in
  exists d, ExecuteUpdateCommunication true c =
      (d, imap (fun i p => RilSetRadioProtocol (Z.of_nat i) p RADIO_SIM_UPDATE_RADIO_PROTOCOL) (mark new)) /\
    waiting d s n radio (mark old) (mark new) /\ communicatingSlotCount_ d = n.
Proof.
  intros [<- <- <- Hf <- <-] Ho Hw Hn mark. unfold ExecuteUpdateCommunication.
  rewrite (Build_later RADIO_PROTOCOL_PHASE_UPDATE) by (try (left; done); lia).
  set (d := ResetNextCommunicationSlotCount _). rewrite send_two.
  - exists d. split; [done|]. by split.
  - done.
  - unfold d. cbn. rewrite zlen_fmap. lia.
  - unfold d. cbn. lia.
Qed.

Lemma Complete_sends c s n radio old new :
  waiting c s n radio old new -> zlen old = n -> zlen new = n -> 0 < n <= 2 ->
  let mark := fmap (stamp s RADIO_PROTOCOL_PHASE_COMPLETE RADIO_PROTOCOL_STATUS_SUCCESS) in
  exists d, ExecuteCompleteCommunication true c =
      (d, imap (fun i p => RilSetRadioProtocol (Z.of_nat i) p RADIO_SIM_SET_RADIO_PROTOCOL_COMPLETE) (mark new)) /\
    waiting d s n radio (mark old) (mark new) /\ communicatingSlotCount_ d = n.
Proof.
  intros [<- <- <- Hf <- <-] Ho Hw Hn mark. unfold ExecuteCompleteCommunication. rewrite Hf.
  rewrite (Build_later RADIO_PROTOCOL_PHASE_COMPLETE) by (try (right; done); lia).
  set (d := ResetNextCommunicationSlotCount _). change (communicationFailed_ d) with (communicationFailed_ c). rewrite Hf.
  rewrite send_two.
  - exists d. split; [done|]. by split.
  - done.
  - unfold d. cbn. rewrite zlen_fmap. lia.
  - unfold d. cbn. lia.
Qed.

(** Notifications for slots 0, 1, ... replace technology and modem of every slot. *)
Lemma notified_all ps c :
  zlen (radioProtocol_ c) = zlen ps -> 0 < zlen ps <= 2 -> slotId <$> ps = seqZ 0 (zlen ps) ->
  technology <$> radioProtocol_ (notified ps c) = technology <$> ps /\ modemId <$> radioProtocol_ (notified ps c) = modemId <$> ps.
Proof.
  intros Hr Hn Hs.
  assert (U : forall p d, 0 <= slotId p < zlen (radioProtocol_ d) ->
    radioProtocol_ (UpdateRadioProtocol p d) =
    alter (fun r => MkProtocol (slotId r) (sessionId p) (phase p) (technology p) (modemId p) (status p)) (Z.to_nat (slotId p)) (radioProtocol_ d)).
  { intros p d Hp. unfold UpdateRadioProtocol, DEFAULT_SIM_SLOT_ID.
    destruct (Z.leb_spec 0 (slotId p)); [|lia]. by destruct (Z.ltb_spec (slotId p) (zlen (radioProtocol_ d))); [|lia]. }
  destruct ps as [|p [|q [|]]]; zlen_simpl; [lia| | |pose proof (zlen_nonneg l); lia].
  - change (notified [p] c) with (UpdateRadioProtocol p c). cbn in Hs. injection Hs as E. rewrite U by lia. rewrite E.
    destruct (radioProtocol_ c) as [|x [|]]; zlen_simpl; [lia|done|pose proof (zlen_nonneg l); lia].
  - change (notified [p; q] c) with (UpdateRadioProtocol q (UpdateRadioProtocol p c)). cbn in Hs. injection Hs as E1 E2.
    rewrite U; [|destruct (UpdateRadioProtocol_same p c) as (_ & <- & _); lia]. rewrite U by lia. rewrite E1, E2.
    destruct (radioProtocol_ c) as [|x [|y [|]]]; zlen_simpl; [lia|lia|done|pose proof (zlen_nonneg l); lia].
Qed.

Lemma waiting_notified ps c s n radio old new :
  waiting c s n radio old new -> waiting (set_count 0 (notified ps c)) s n (radioProtocol_ (notified ps c)) old new.
Proof. intros [<- <- <- Hf <- <-]. destruct (notified_fields ps c) as (? & ? & ? & ? & ? & ?). split; cbn; congruence. Qed.

Lemma sent_requests reply s ph st l :
  imap (fun i p => RilSetRadioProtocol (Z.of_nat i) p reply)
    (imap (fun i p => MkProtocol (Z.of_nat i) s ph (technology p) (modemId p) st) l) = requests reply s ph st l.
Proof. apply list_eq. intros i. unfold requests. rewrite !list_lookup_imap. by destruct (l !! i). Qed.

Lemma stamp_built s ph st ph' st' s' l :
  stamp s ph st <$> imap (fun i p => MkProtocol (Z.of_nat i) s' ph' (technology p) (modemId p) st') l =
  imap (fun i p => MkProtocol (Z.of_nat i) s ph (technology p) (modemId p) st) l.
Proof. apply list_eq. intros i. rewrite list_lookup_fmap, !list_lookup_imap. by destruct (l !! i). Qed.

Lemma zlen_imap {A B} (f : nat -> A -> B) l : zlen (imap f l) = zlen l.
Proof. unfold zlen. by rewrite length_imap. Qed.
Lemma zlen_rev {A} (l : list A) : zlen (rev l) = zlen l.
Proof. unfold zlen. by rewrite length_rev. Qed.
Lemma zlen_pos_nil {A} (l : list A) : 0 < zlen l -> l <> [].
Proof. intros H ->. by change (zlen (@nil A)) with 0 in H. Qed.

(** C20: the protocol exchange works: from any reachable idle state of a device with cards,
    [SetRadioProtocol] asks every slot to CHECK its own technology and modem; when
    every slot agrees, every slot is told to UPDATE to those of the slot at the other
    end; when every slot has notified its new values, every slot is told COMPLETE with
    success; when every slot has answered, the caller gets true, the timeout is gone,
    and the technologies and modems of the slots are exchanged. Every answer may carry
    any protocol of the session, and UPDATE answers may come in any number. *)
Theorem protocol_exchange real c checks updates ps completes :
  0 <= real -> reachable real c -> isCommunicating_ c = false -> 0 < slotCount_ c ->
  let s := sessionId_ c + 1 in
  let n := slotCount_ c in
  Forall (answer RADIO_SIM_CHECK_RADIO_PROTOCOL s) checks -> zlen checks = n ->
  Forall (answer RADIO_SIM_UPDATE_RADIO_PROTOCOL s) updates ->
  Forall (fun p => sessionId p = s /\ status p <> RADIO_PROTOCOL_STATUS_FAIL) ps ->
  slotId <$> ps = seqZ 0 n -> technology <$> ps = rev (technology <$> radioProtocol_ c) ->
  modemId <$> ps = rev (modemId <$> radioProtocol_ c) ->
  Forall (answer RADIO_SIM_SET_RADIO_PROTOCOL_COMPLETE s) completes -> zlen completes = n ->
  exists c1 c2,
    SetRadioProtocol true c = Some (c1, requests RADIO_SIM_CHECK_RADIO_PROTOCOL s RADIO_PROTOCOL_PHASE_CHECK RADIO_PROTOCOL_STATUS_NONE (radioProtocol_ c)) /\
    run true (checks ++ updates ++ ((fun p => MkEvent RADIO_SIM_RADIO_PROTOCOL_NOTIFY 0 (PProtocol p)) <$> ps) ++ completes) c1 =
      (c2, requests RADIO_SIM_UPDATE_RADIO_PROTOCOL s RADIO_PROTOCOL_PHASE_UPDATE RADIO_PROTOCOL_STATUS_NONE (rev (radioProtocol_ c)) ++
           requests RADIO_SIM_SET_RADIO_PROTOCOL_COMPLETE s RADIO_PROTOCOL_PHASE_COMPLETE RADIO_PROTOCOL_STATUS_SUCCESS (rev (radioProtocol_ c)) ++
           [NotifyWaiters]) /\
    SetRadioProtocol_result false c2 = Some true /\ timeouts c2 = [] /\
    technology <$> radioProtocol_ c2 = rev (technology <$> radioProtocol_ c) /\
    modemId <$> radioProtocol_ c2 = rev (modemId <$> radioProtocol_ c).
Proof.
  intros Hreal R Hi Hp s n Hchk Hcl Hupd Hps Hslot Htech Hmod Hcmp Hcml.
  pose proof (reachable_inv real c Hreal R) as I. pose proof (inv_slots c I) as [Hn Hr]. unfold DUAL_SLOT_COUNT in Hn.
  destruct (SetRadioProtocol_start c I Hi Hp) as (c1 & E1 & W1 & C1). fold s n in W1, E1, C1.
  assert (Lps : zlen ps = n) by (rewrite <- (zlen_fmap slotId ps), Hslot; unfold zlen, n; rewrite length_seqZ; lia).
  assert (W1' : waiting (set_count 0 c1) s n (radioProtocol_ c) (oldRadioProtocol_ c1) (newRadioProtocol_ c1)) by (destruct W1; by split).
  destruct (Update_sends _ _ _ _ _ _ W1') as (d1 & U1 & V1 & D1).
  { rewrite (w_old _ _ _ _ _ _ W1), zlen_imap. exact Hr. }
  { rewrite (w_new _ _ _ _ _ _ W1), zlen_imap, zlen_rev. exact Hr. }
  { unfold n. lia. }
  destruct (Complete_sends _ _ _ _ _ _ (waiting_notified ps _ _ _ _ _ _ V1)) as (d2 & U2 & V2 & D2).
  { rewrite zlen_fmap, (w_old _ _ _ _ _ _ W1), zlen_imap. exact Hr. }
  { rewrite zlen_fmap, (w_new _ _ _ _ _ _ W1), zlen_imap, zlen_rev. exact Hr. }
  { unfold n. lia. }
  assert (Q1 : run true checks c1 = ExecuteUpdateCommunication true (set_count 0 c1)).
  { apply (run_checks true s); [done|symmetry; apply W1|congruence|apply zlen_pos_nil; unfold n in *; lia|apply W1]. }
  assert (Q2 : run true updates d1 = (d1, [])) by (apply (run_updates true s); [done|symmetry; apply V1]).
  assert (Q3 : run true ((fun p => MkEvent RADIO_SIM_RADIO_PROTOCOL_NOTIFY 0 (PProtocol p)) <$> ps) d1 =
    ExecuteCompleteCommunication true (set_count 0 (notified ps d1))).
  { apply run_notifies; [|congruence|apply zlen_pos_nil; unfold n in *; lia]. rewrite (w_session _ _ _ _ _ _ V1). exact Hps. }
  assert (Q4 := run_completes true s completes d2 Hcmp (eq_sym (w_session _ _ _ _ _ _ V2)) (eq_trans D2 (eq_sym Hcml))
    (zlen_pos_nil completes ltac:(unfold n in *; lia))).
  rewrite U1, (w_new _ _ _ _ _ _ W1), stamp_built, sent_requests in Q1.
  rewrite U2, (w_new _ _ _ _ _ _ W1), stamp_built, stamp_built, sent_requests in Q3.
  exists c1. eexists. split; [exact E1|]. split; [exact (run_then _ _ _ _ _ _ _ _ Q1 (run_then _ _ _ _ _ _ _ _ Q2 (run_then _ _ _ _ _ _ _ _ Q3 Q4)))|].
  unfold SetRadioProtocol_result. rewrite (w_failed _ _ _ _ _ _ V2).
  split; [done|]. split; [done|]. change (radioProtocol_ (CleanUpCommunication _)) with (radioProtocol_ d2).
  rewrite (w_radio _ _ _ _ _ _ V2), <- Htech, <- Hmod. apply notified_all; [|unfold n in *; lia|by rewrite Lps].
  rewrite (w_radio _ _ _ _ _ _ V1), Lps. exact Hr.
Qed.

Lemma run_reachable real alive es : forall c,
  reachable real c -> Forall (fun e => id e <> RADIO_SIM_SET_RADIO_PROTOCOL_TIMEOUT) es -> reachable real (fst (run alive es c)).
Proof.
  induction es as [|e es IH]; intros c R H; [done|]. apply Forall_cons in H as [He H]. cbn [run].
  pose proof (reach_event real c alive e R He) as R'. destruct (ProcessEvent alive e c) as [d o]. specialize (IH d R' H).
  by destruct (run alive es d).
Qed.

(** A device whose two modems have told their technologies. *)
Definition two_modems : Controller :=
  fst (run true [MkEvent RADIO_SIM_GET_RADIO_PROTOCOL 0 (PProtocol (MkProtocol 0 0 RADIO_PROTOCOL_PHASE_INITIAL 31 100 RADIO_PROTOCOL_STATUS_NONE));
                 MkEvent RADIO_SIM_GET_RADIO_PROTOCOL 0 (PProtocol (MkProtocol 1 0 RADIO_PROTOCOL_PHASE_INITIAL 7 101 RADIO_PROTOCOL_STATUS_NONE))]
           (fst (Init true 2 Controller_new))).

Lemma two_modems_reachable : reachable 2 two_modems.
Proof. apply run_reachable; [apply reach_init|]. repeat (apply Forall_cons_2; [done|]). apply Forall_nil_2. Qed.

Definition from_slot (i : event_id) (slot technology modem : Z) : event :=
  MkEvent i 0 (PProtocol (MkProtocol slot 1 RADIO_PROTOCOL_PHASE_NOTIFY technology modem RADIO_PROTOCOL_STATUS_SUCCESS)).

Lemma from_slot_answer i slot t m : answer i 1 (from_slot i slot t m).
Proof. split; [done|]. by eexists. Qed.

Lemma protocol_exchange_witness :
  technology <$> radioProtocol_ two_modems = [31; 7] /\
  exists c1 c2, SetRadioProtocol true two_modems = Some c1 /\ technology <$> radioProtocol_ c2 = [7; 31] /\
    SetRadioProtocol_result false c2 = Some true.
Proof.
  split; [reflexivity|].
  destruct (protocol_exchange 2 two_modems
    [from_slot RADIO_SIM_CHECK_RADIO_PROTOCOL 1 0 0; from_slot RADIO_SIM_CHECK_RADIO_PROTOCOL 0 0 0]
    [from_slot RADIO_SIM_UPDATE_RADIO_PROTOCOL 0 0 0]
    [MkProtocol 0 1 RADIO_PROTOCOL_PHASE_NOTIFY 7 101 RADIO_PROTOCOL_STATUS_SUCCESS;
     MkProtocol 1 1 RADIO_PROTOCOL_PHASE_NOTIFY 31 100 RADIO_PROTOCOL_STATUS_SUCCESS]
    [from_slot RADIO_SIM_SET_RADIO_PROTOCOL_COMPLETE 0 0 0; from_slot RADIO_SIM_SET_RADIO_PROTOCOL_COMPLETE 1 0 0])
    as (c1 & c2 & E1 & _ & E3 & _ & E5 & _).
  - lia.
  - exact two_modems_reachable.
  - reflexivity.
  - vm_compute. reflexivity.
  - repeat (apply Forall_cons_2; [apply from_slot_answer|]). apply Forall_nil_2.
  - reflexivity.
  - repeat (apply Forall_cons_2; [apply from_slot_answer|]). apply Forall_nil_2.
  - repeat (apply Forall_cons_2; [split; [reflexivity|discriminate]|]). apply Forall_nil_2.
  - reflexivity.
  - reflexivity.
  - reflexivity.
  - repeat (apply Forall_cons_2; [apply from_slot_answer|]). apply Forall_nil_2.
  - reflexivity.
  - eexists. exists c2. split; [exact E1|]. split; [exact E5|exact E3].
Defined.

(** ** A refused exchange *)

Definition refusal (i : event_id) (e : event) : Prop := id e = i /\ exists err, object e = PResponseInfo err /\ err <> 0.

Lemma refusal_valid i e c : refusal i e -> ProcessResponseInfoOfEvent e c = (true, set_failed true c).
Proof. intros (_ & err & Ho & Hs). unfold ProcessResponseInfoOfEvent. rewrite Ho. by destruct (Z.eqb_spec err 0). Qed.

Lemma set_failed_id c : communicationFailed_ c = true -> set_failed true c = c.
Proof. destruct c. cbn. by intros ->. Qed.

Lemma refused_step session e es c :
  answer RADIO_SIM_CHECK_RADIO_PROTOCOL session e \/ refusal RADIO_SIM_CHECK_RADIO_PROTOCOL e ->
  communicationFailed_ c = true \/ Exists (refusal RADIO_SIM_CHECK_RADIO_PROTOCOL) (e :: es) -> session = sessionId_ c ->
  exists c', ProcessResponseInfoOfEvent e c = (true, c') /\ set_failed true c' = set_failed true c /\
    sessionId_ c' = sessionId_ c /\ communicatingSlotCount_ c' = communicatingSlotCount_ c /\
    (communicationFailed_ c' = true \/ Exists (refusal RADIO_SIM_CHECK_RADIO_PROTOCOL) es).
Proof.
  intros [He|He] Hx E.
  - exists c. rewrite (answer_valid _ session e c He E). split_and!; try done.
    destruct Hx as [|Hx]; [by left|]. apply Exists_cons in Hx as [(_ & err & Ho & _)|]; [|by right].
    destruct He as (_ & p & Ho' & _). congruence.
  - exists (set_failed true c). rewrite (refusal_valid _ e c He). split_and!; try done. by left.
Qed.

Lemma Complete_fails c :
  zlen (oldRadioProtocol_ c) = slotCount_ c -> zlen (newRadioProtocol_ c) = slotCount_ c -> 0 < slotCount_ c <= 2 ->
  communicationFailed_ c = true ->
  exists d, ExecuteCompleteCommunication true c =
      (d, imap (fun i p => RilSetRadioProtocol (Z.of_nat i) p RADIO_SIM_SET_RADIO_PROTOCOL_COMPLETE)
            (stamp (sessionId_ c) RADIO_PROTOCOL_PHASE_COMPLETE RADIO_PROTOCOL_STATUS_FAIL <$> oldRadioProtocol_ c)) /\
    sessionId_ d = sessionId_ c /\ communicatingSlotCount_ d = slotCount_ c /\ communicationFailed_ d = true /\
    radioProtocol_ d = radioProtocol_ c.
Proof.
  intros Ho Hw Hn Hf. unfold ExecuteCompleteCommunication. rewrite Hf.
  rewrite (Build_later RADIO_PROTOCOL_PHASE_COMPLETE) by (try (right; done); lia).
  set (d := ResetNextCommunicationSlotCount _). change (communicationFailed_ d) with (communicationFailed_ c). rewrite Hf.
  rewrite send_two.
  - exists d. split; [done|]. by split_and!.
  - done.
  - unfold d. cbn. rewrite zlen_fmap. lia.
  - unfold d. cbn. lia.
Qed.

Lemma run_refused alive session es : forall c,
  Forall (fun e => answer RADIO_SIM_CHECK_RADIO_PROTOCOL session e \/ refusal RADIO_SIM_CHECK_RADIO_PROTOCOL e) es ->
  communicationFailed_ c = true \/ Exists (refusal RADIO_SIM_CHECK_RADIO_PROTOCOL) es ->
  session = sessionId_ c -> communicatingSlotCount_ c = zlen es -> es <> [] ->
  run alive es c = ExecuteCompleteCommunication alive (set_count 0 (set_failed true c)).
Proof.
  induction es as [|e es IH]; intros c H Hx E Hc Hne; [done|]. apply Forall_cons in H as [He H].
  destruct (refused_step session e es c He Hx E) as (c' & Er & F1 & F2 & F3 & F4).
  cbn [run]. unfold ProcessEvent.
  assert (id e = RADIO_SIM_CHECK_RADIO_PROTOCOL) as -> by (by destruct He as [[]|[]]).
  unfold ProcessCheckRadioProtocol. rewrite Er. cbn [negb]. rewrite F3, Hc, zlen_cons.
  replace (1 + zlen es - 1) with (zlen es) by lia. change (communicatingSlotCount_ (set_count (zlen es) c')) with (zlen es).
  destruct es as [|e' es].
  - change (zlen (@nil event)) with 0. cbn [Z.eqb negb]. change (communicationFailed_ (set_count 0 c')) with (communicationFailed_ c').
    destruct F4 as [F4|F4]; [|by apply Exists_nil in F4]. rewrite F4. rewrite <- F1, (set_failed_id c' F4).
    destruct (ExecuteCompleteCommunication alive (set_count 0 c')). cbn. by rewrite app_nil_r.
  - assert (zlen (e' :: es) <> 0) by (rewrite zlen_cons; pose proof (zlen_nonneg es); lia).
    destruct (Z.eqb_spec (zlen (e' :: es)) 0); [done|]. cbn [negb].
    rewrite (IH (set_count (zlen (e' :: es)) c')); try done; [|by rewrite E].
    change (set_count 0 (set_failed true (set_count _ c'))) with (set_count 0 (set_failed true c')). rewrite F1.
    by destruct (ExecuteCompleteCommunication alive (set_count 0 (set_failed true c))).
Qed.

(** an exchange that a slot refuses changes nothing: when every slot has answered the
    CHECK and at least one answered with an error, in whatever order, every slot is
    told COMPLETE with failure and its own old technology and modem; when every slot
    has answered that, the caller gets false and the protocols of the slots are as
    they were. *)
Theorem protocol_refused real c checks completes :
  0 <= real -> reachable real c -> isCommunicating_ c = false -> 0 < slotCount_ c ->
  let s := sessionId_ c + 1 in
  let n := slotCount_ c in
  Forall (fun e => answer RADIO_SIM_CHECK_RADIO_PROTOCOL s e \/ refusal RADIO_SIM_CHECK_RADIO_PROTOCOL e) checks ->
  Exists (refusal RADIO_SIM_CHECK_RADIO_PROTOCOL) checks -> zlen checks = n ->
  Forall (answer RADIO_SIM_SET_RADIO_PROTOCOL_COMPLETE s) completes -> zlen completes = n ->
  exists c1 c2,
    SetRadioProtocol true c = Some (c1, requests RADIO_SIM_CHECK_RADIO_PROTOCOL s RADIO_PROTOCOL_PHASE_CHECK RADIO_PROTOCOL_STATUS_NONE (radioProtocol_ c)) /\
    run true (checks ++ completes) c1 =
      (c2, requests RADIO_SIM_SET_RADIO_PROTOCOL_COMPLETE s RADIO_PROTOCOL_PHASE_COMPLETE RADIO_PROTOCOL_STATUS_FAIL (radioProtocol_ c) ++
           [NotifyWaiters]) /\
    SetRadioProtocol_result false c2 = Some false /\ timeouts c2 = [] /\ radioProtocol_ c2 = radioProtocol_ c.
Proof.
  intros Hreal R Hi Hp s n Hchk Hex Hcl Hcmp Hcml.
  pose proof (reachable_inv real c Hreal R) as I. pose proof (inv_slots c I) as [Hn Hr]. unfold DUAL_SLOT_COUNT in Hn.
  destruct (SetRadioProtocol_start c I Hi Hp) as (c1 & E1 & [W1 W2 W3 _ W5 W6] & C1). fold s n in E1, W1, W2, C1, W5, W6.
  assert (Q1 := run_refused true s checks c1 Hchk (or_intror Hex) (eq_sym W1) (eq_trans C1 (eq_sym Hcl))
    (zlen_pos_nil checks ltac:(unfold n in *; lia))).
  destruct (Complete_fails (set_count 0 (set_failed true c1))) as (d & U & D1 & D2 & D3 & D4).
  { cbn. rewrite W5, W2, zlen_imap. exact Hr. }
  { cbn. rewrite W6, W2, zlen_imap, zlen_rev. exact Hr. }
  { cbn. rewrite W2. unfold n. lia. }
  { done. }
  rewrite U in Q1. change (oldRadioProtocol_ (set_count 0 (set_failed true c1))) with (oldRadioProtocol_ c1) in Q1.
  change (sessionId_ (set_count 0 (set_failed true c1))) with (sessionId_ c1) in Q1.
  rewrite W5, W1, stamp_built, sent_requests in Q1.
  assert (Q2 := run_completes true s completes d Hcmp (eq_sym (eq_trans D1 W1)) (eq_trans (eq_trans D2 W2) (eq_sym Hcml))
    (zlen_pos_nil completes ltac:(unfold n in *; lia))).
  exists c1. eexists. split; [exact E1|]. split; [exact (run_then _ _ _ _ _ _ _ _ Q1 Q2)|].
  unfold SetRadioProtocol_result. rewrite D3. split; [done|]. split; [done|].
  change (radioProtocol_ (CleanUpCommunication _)) with (radioProtocol_ d). by rewrite D4.
Qed.

Lemma protocol_refused_witness :
  exists c1 c2, SetRadioProtocol true two_modems = Some c1 /\ SetRadioProtocol_result false c2 = Some false /\
    technology <$> radioProtocol_ c2 = [31; 7].
Proof.
  destruct (protocol_refused 2 two_modems
    [MkEvent RADIO_SIM_CHECK_RADIO_PROTOCOL 0 (PResponseInfo 2); from_slot RADIO_SIM_CHECK_RADIO_PROTOCOL 0 0 0]
    [from_slot RADIO_SIM_SET_RADIO_PROTOCOL_COMPLETE 0 0 0; from_slot RADIO_SIM_SET_RADIO_PROTOCOL_COMPLETE 1 0 0])
    as (c1 & c2 & E1 & _ & E3 & _ & E5).
  - lia.
  - exact two_modems_reachable.
  - reflexivity.
  - vm_compute. reflexivity.
  - apply Forall_cons_2; [right; split; [reflexivity|]; exists 2; split; [reflexivity|lia]|].
    apply Forall_cons_2; [left; apply from_slot_answer|]. apply Forall_nil_2.
  - apply Exists_cons_hd. split; [reflexivity|]. exists 2. split; [reflexivity|lia].
  - reflexivity.
  - repeat (apply Forall_cons_2; [apply from_slot_answer|]). apply Forall_nil_2.
  - reflexivity.
  - eexists. exists c2. split; [exact E1|]. split; [exact E3|]. rewrite E5. reflexivity.
Defined.

(** answers and notifications of another session (late ones, after a timeout) are
    ignored: in any state they change nothing and send nothing. *)
Theorem foreign_session_ignored alive e p c :
  object e = PProtocol p -> sessionId p <> sessionId_ c ->
  id e ∈ [RADIO_SIM_CHECK_RADIO_PROTOCOL; RADIO_SIM_UPDATE_RADIO_PROTOCOL; RADIO_SIM_RADIO_PROTOCOL_NOTIFY; RADIO_SIM_SET_RADIO_PROTOCOL_COMPLETE] ->
  ProcessEvent alive e c = (c, []).
Proof.
  intros Ho Hs Hi. unfold ProcessEvent, ProcessCheckRadioProtocol, ProcessUpdateRadioProtocol, ProcessRadioProtocolNotify,
    ProcessSetRadioProtocolComplete, ProcessResponseInfoOfEvent. rewrite Ho.
  destruct (Z.eqb_spec (sessionId p) (sessionId_ c)); [done|]. cbn [negb snd].
  do 4 (apply elem_of_cons in Hi as [Hi|Hi]; [by rewrite Hi|]). by apply not_elem_of_nil in Hi.
Qed.

Lemma foreign_session_ignored_witness :
  ProcessEvent true (from_slot RADIO_SIM_RADIO_PROTOCOL_NOTIFY 0 31 100) Controller_new = (Controller_new, []).
Proof.
  apply (foreign_session_ignored true (from_slot RADIO_SIM_RADIO_PROTOCOL_NOTIFY 0 31 100)
    (MkProtocol 0 1 RADIO_PROTOCOL_PHASE_NOTIFY 31 100 RADIO_PROTOCOL_STATUS_SUCCESS)).
  - reflexivity.
  - vm_compute. discriminate.
  - right. right. left.
Defined.
