(* ===== verification/NitzUpdate.v ===== *)
(** * [services/network_search/src/nitz_update.cpp]: network time

    The network sends its time in a string such as [24/05/17,08:30:00+32,0;recv]: the
    date and time (UTC), the offset of the time zone in quarters of an hour, daylight
    saving, and the boot time in nanoseconds at which the modem received it.
    [NitzUpdate] sets the clock and the time zone from it, when the user wants that.

    The members shared by the slots ([static]) and those of the slot are two records.
    What the code asks of other services (clocks, settings, the country of the
    network, the vendor library's presence) is the record [Env] of one call, the
    lookup of a time zone of the i18n library a parameter, and so are [SplitStr] and
    [StrToInt] of c_utils, with their documented behaviour in a class. What the code
    tells other services is a list of outputs. The running locks are not modelled. *)

From S2P Require Import Prelude CxxString.

Definition MILLI_TO_BASE : Z := 1000.
Definition NANO_TO_MILLI : Z := 1000000.
Definition MAX_UPDATE_TIME : Z := 5.
Definition TIME_STRING_SPLIT_NUM : Z := 2.
Definition TIME_SPLIT_NUM : Z := 3.
Definition TIMEZONE_SPLIT_NUM : Z := 2.
Definition NITZ_SPLIT_NUM : Z := 3.
Definition YEAR_LENGTH_TWO : Z := 2.
Definition YEAR_LENGTH_FOUR : Z := 4.
Definition CST_YEAR : Z := 1900.
Definition QUARTER_TO_MILLISECOND : Z := 15 * 60 * 1000.
Definition LOCATION_DAY_OR_SEC : Z := 2.
Definition SIM_SLOT_ID_0 : Z := 0.
Definition SIM_SLOT_ID_1 : Z := 1.
Definition INVALID_VALUE : Z := -1.
Definition AUTO_TIME_OFF : cstring := str "0".
Definition AUTO_TIME_ZONE_OFF : cstring := str "0".
Definition AUTO_TIME_STATUS_ON : cstring := str "ON".

(** ** Strings *)

(** [SplitStr(s, sep, strs)] gives the parts between separators, trimmed and without
    empty ones; [StrToInt(s, v)] leaves [v] alone when it fails ([None]). *)
Class StringEx : Type := {
  SplitStr : cstring -> cstring -> list cstring;
  StrToInt : cstring -> option Z
}.

(** No [c] and no white space in [s]. *)
Definition clean (c : ascii) (s : cstring) : Prop := Forall (fun x => x <> c /\ is_space x = false) s.
Definition plain (c : ascii) (p : cstring) : Prop := p <> [] /\ clean c p.

Class StringExLaws `{StringEx} : Prop := {
  split_law c parts : Forall (plain c) parts -> SplitStr (join c parts) [c] = parts;
  str_to_int_law ds : ds <> [] -> Forall is_dec ds -> be_value 10 ds < 2 ^ 31 -> StrToInt (digit_char <$> ds) = Some (be_value 10 ds)
}.

(** [std::istringstream(s) >> v] for an [int64_t]: nothing happens when only white
    space is left; without a digit [v] becomes 0; too large a number is clamped. *)
Definition read_int64 (s : cstring) (v : Z) : Z :=
  match skip_space s with
  | [] => v
  | c :: t =>
      if decide (c = "-"%char) then clamp_long (- be_value 10 (digits_prefix t))
      else if decide (c = "+"%char) then clamp_long (be_value 10 (digits_prefix t))
      else clamp_long (be_value 10 (digits_prefix (c :: t)))
  end.

(** [s.find(c) != npos] for a string of one character. *)
Definition contains (c : ascii) (s : cstring) : bool := bool_decide (c ∈ s).

(** Signed arithmetic that must not overflow. *)
Definition mul_int32 (a b : Z) : outcome Z := if decide (is_i32 (a * b)) then Ret (a * b) else Undef.
Definition sub_int64 (a b : Z) : outcome Z := if decide (- 2 ^ 63 <= a - b < 2 ^ 63) then Ret (a - b) else Undef.

(** [timegm] of the C library: seconds since 1970 of a broken-down UTC time whose
    members may be out of their usual ranges. *)
Definition is_leap (y : Z) : bool := (y mod 4 =? 0) && (negb (y mod 100 =? 0) || (y mod 400 =? 0)).
Definition leaps_through (y : Z) : Z := y / 4 - y / 100 + y / 400.
Definition days_before_month (y m : Z) : Z :=
  nth (Z.to_nat m) [0; 31; 59; 90; 120; 151; 181; 212; 243; 273; 304; 334] 0 + (if is_leap y && (2 <=? m) then 1 else 0).

Record tm : Type := MkTm { tm_year : Z; tm_mon : Z; tm_mday : Z; tm_hour : Z; tm_min : Z; tm_sec : Z }.
Definition timegm (t : tm) : Z :=
  let y := tm_year t + 1900 + tm_mon t / 12 in
  let days := 365 * (y - 1970) + (leaps_through (y - 1) - leaps_through 1969) + days_before_month y (tm_mon t mod 12) + (tm_mday t - 1) in
  ((days * 24 + tm_hour t) * 60 + tm_min t) * 60 + tm_sec t.

(** ** State *)

Record NetworkTime : Type := MkTime {
  year : Z; month : Z; day : Z; hour : Z; minute : Z; second : Z; offset : Z; dst : Z
}.
Definition NetworkTime_zero : NetworkTime := MkTime 0 0 0 0 0 0 0 0.

Record NITZData : Type := MkNitz { isDST : Z; totalOffset : Z; currentMillis : Z }.

Record Statics : Type := MkStatics {
  lastSystemTime_ : Z;
  offset_ : Z;
  lastNetworkTime_ : Z;
  lastOffsetTime_ : Z;
  timeZone_ : cstring
}.
Definition Statics_new : Statics := MkStatics 0 0 0 0 [].

Record NitzUpdate : Type := MkUpdate { slotId_ : Z; nitzRecvTime_ : Z; nitzData_ : NITZData }.
Definition NitzUpdate_new (slotId : Z) : NitzUpdate := MkUpdate slotId 0 (MkNitz 0 0 0).

(** Answers of other services during one call. A query that fails is [None]. *)
Record Env : Type := MkEnv {
  GetBootTimeMs : Z;
  GetBootTimeNs : Z;
  GetWallTimeMs : Z;
  GetRealTimeMs : option Z;
  GetTimeZone : cstring;
  settingHelper : bool;
  query_auto_time : option cstring;
  query_auto_timezone : option cstring;
  auto_time_parameter : cstring;
  networkSearchManager : bool;
  GetPrimarySlotId : Z;
  GetIsoCountryCodeForNetwork : Z -> option cstring;
  updateTimeZoneOffsetExt_ : bool;
  updateCountryCodeExt_ : bool
}.

Inductive output : Type :=
| SetTime (ms : Z)
| PublishTimeChanged (time : Z)
| SetTimeZone (zone : cstring)
| PublishTimeZoneChanged (zone : cstring)
| UpdateTimeZoneOffsetExt (slotId : Z) (d : NITZData)
| UpdateCountryCodeExt (slotId : Z) (countryCode : cstring).

(** ** Parsing *)

Section Nitz.
Context `{StringEx}.

Definition to_int (s : cstring) (v : Z) : Z := default v (StrToInt s).
(** [strsRet\[i\]]. *)
Definition part (strs : list cstring) (i : Z) : outcome cstring := vec_get strs i.

Definition set_clock (h m s : Z) (t : NetworkTime) : NetworkTime := MkTime (year t) (month t) (day t) h m s (offset t) (dst t).
Definition set_date (y m d : Z) (t : NetworkTime) : NetworkTime := MkTime y m d (hour t) (minute t) (second t) (offset t) (dst t).
Definition set_offset v (t : NetworkTime) : NetworkTime := MkTime (year t) (month t) (day t) (hour t) (minute t) (second t) v (dst t).
Definition set_dst v (t : NetworkTime) : NetworkTime := MkTime (year t) (month t) (day t) (hour t) (minute t) (second t) (offset t) v.
Definition set_recv v (n : NitzUpdate) : NitzUpdate := MkUpdate (slotId_ n) v (nitzData_ n).
Definition set_data f (n : NitzUpdate) : NitzUpdate := MkUpdate (slotId_ n) (nitzRecvTime_ n) (f (nitzData_ n)).

Definition NitzTimeParse (strTimeSubs : cstring) (t : NetworkTime) (n : NitzUpdate) : outcome (bool * NetworkTime * NitzUpdate) :=
  let sep := if contains "+" strTimeSubs then Some ("+"%char, 1)
             else if contains "-" strTimeSubs then Some ("-"%char, -1) else None in
  match sep with
  | None => Ret (false, t, n)
  | Some (strSep, flag) =>
      let strsRet := SplitStr strTimeSubs [strSep] in
      if negb (zlen strsRet =? TIMEZONE_SPLIT_NUM) then Ret (false, t, n)
      else
        strTimeSubs ← part strsRet 0;
        off ← part strsRet 1;
        off ← mul_int32 (to_int off (offset t)) flag;
        let t := set_offset off t in
        total ← mul_int32 (offset t) QUARTER_TO_MILLISECOND;
        let n := set_data (fun d => MkNitz (isDST d) total (currentMillis d)) n in
        let strsRet := SplitStr strTimeSubs (str ":") in
        if negb (zlen strsRet =? TIME_SPLIT_NUM) then Ret (false, t, n)
        else
          h ← part strsRet 0; m ← part strsRet 1; s ← part strsRet LOCATION_DAY_OR_SEC;
          Ret (true, set_clock (to_int h (hour t)) (to_int m (minute t)) (to_int s (second t)) t, n)
  end.

Definition NitzParse (nitzStr : cstring) (t : NetworkTime) (n : NitzUpdate) : outcome (bool * NetworkTime * NitzUpdate) :=
  let strs := SplitStr nitzStr (str ";") in
  if negb (zlen strs =? TIME_STRING_SPLIT_NUM) then Ret (false, t, n)
  else
    nitzInfo ← part strs 0;
    time ← part strs 1;
    let n := set_recv (read_int64 time (nitzRecvTime_ n)) n in
    let strsRet := SplitStr nitzInfo (str ",") in
    if zlen strsRet <? NITZ_SPLIT_NUM then Ret (false, t, n)
    else
      strDateSubs ← part strsRet 0; strTimeSubs ← part strsRet 1; strDstSubs ← part strsRet 2;
      let strsRet := SplitStr strDateSubs (str "/") in
      if negb (zlen strsRet =? TIME_SPLIT_NUM) then Ret (false, t, n)
      else
        strYear ← part strsRet 0;
        if negb (zlen strYear =? YEAR_LENGTH_TWO) && negb (zlen strYear =? YEAR_LENGTH_FOUR) then Ret (false, t, n)
        else
          let strYear := if zlen strYear =? YEAR_LENGTH_TWO then str "20" ++ strYear else strYear in
          strMonth ← part strsRet 1; strDay ← part strsRet LOCATION_DAY_OR_SEC;
          let t := set_date (to_int strYear (year t)) (to_int strMonth (month t)) (to_int strDay (day t)) t in
          '(ok, t, n) ← NitzTimeParse strTimeSubs t n;
          if negb ok then Ret (false, t, n)
          else
            let t := set_dst (to_int strDstSubs (dst t)) t in
            Ret (true, t, set_data (fun d => MkNitz (if 0 <? dst t then 1 else 0) (totalOffset d) (currentMillis d)) n).

(** ** Settings *)

Definition IsAutoTimeZone (e : Env) : bool :=
  if negb (settingHelper e) then false
  else match query_auto_timezone e with
       | None => false
       | Some value => negb (bool_decide (value = AUTO_TIME_ZONE_OFF))
       end.

Definition IsAutoTime (e : Env) : bool :=
  if negb (settingHelper e) then false
  else match query_auto_time e with
       | None => bool_decide (auto_time_parameter e = AUTO_TIME_STATUS_ON)
       | Some value => negb (bool_decide (value = AUTO_TIME_OFF))
       end.

(** ** Time *)

Definition SaveTime (e : Env) (networkTime offset : Z) : list output :=
  match GetRealTimeMs e with
  | Some ntpTime => if ntpTime =? 0 then [SetTime (networkTime * MILLI_TO_BASE + offset); PublishTimeChanged networkTime] else []
  | None => [SetTime (networkTime * MILLI_TO_BASE + offset); PublishTimeChanged networkTime]
  end.

Definition ProcessTime (e : Env) (t : NetworkTime) (n : NitzUpdate) (g : Statics) : outcome (Statics * list output) :=
  if (year t <? CST_YEAR) || (month t <? 1) then Ret (g, [])
  else
    let nitzTime := timegm (MkTm (year t - CST_YEAR) (month t - 1) (day t) (hour t) (minute t) (second t)) in
    let currentTime := GetBootTimeNs e in
    age ← sub_int64 currentTime (nitzRecvTime_ n);
    let offset := Z.quot age NANO_TO_MILLI in
    if (offset <? 0) || (2 ^ 63 - 1 <=? offset) then Ret (g, [])
    else
      let g := MkStatics (Z.quot currentTime (NANO_TO_MILLI * MILLI_TO_BASE)) (offset_ g) nitzTime (lastOffsetTime_ g) (timeZone_ g) in
      if negb (IsAutoTime e) then Ret (g, []) else Ret (g, SaveTime e nitzTime offset).

Definition AutoTimeChange (e : Env) (g : Statics) : list output :=
  if negb (IsAutoTime e) then []
  else
    let time := Z.quot (GetBootTimeMs e) MILLI_TO_BASE in
    if (lastNetworkTime_ g =? 0) || (lastSystemTime_ g =? 0) || (time <? lastSystemTime_ g) then []
    else SaveTime e (lastNetworkTime_ g + (time - lastSystemTime_ g)) (lastOffsetTime_ g).

(** ** Time zone *)

Definition SaveTimeZone (e : Env) (timeZone : cstring) (g : Statics) : Statics * list output :=
  if bool_decide (timeZone = GetTimeZone e) then (g, [])
  else (MkStatics (lastSystemTime_ g) (offset_ g) (lastNetworkTime_ g) (lastOffsetTime_ g) timeZone,
        [SetTimeZone timeZone; PublishTimeZoneChanged timeZone]).

(** [LookupTimezoneByCountryAndNITZ] of the i18n library. *)
Context (lookup_timezone : cstring -> NITZData -> cstring).

Definition UpdateCountryCode (e : Env) (countryCode : cstring) (n : NitzUpdate) (g : Statics) : NitzUpdate * Statics * list output :=
  match countryCode with
  | [] => (n, g, [])
  | _ =>
      if negb (IsAutoTimeZone e) then (n, g, [])
      else
        let n := set_data (fun d => MkNitz (isDST d) (totalOffset d) (GetWallTimeMs e)) n in
        let '(g, out) := SaveTimeZone e (lookup_timezone countryCode (nitzData_ n)) g in
        (n, g, out)
  end.

Definition ProcessTimeZone (e : Env) (n : NitzUpdate) (g : Statics) : NitzUpdate * Statics * list output :=
  if negb (networkSearchManager e) then (n, g, [])
  else
    let primarySlotId := GetPrimarySlotId e in
    if primarySlotId =? INVALID_VALUE then (n, g, [])
    else match GetIsoCountryCodeForNetwork e primarySlotId with
         | None => (n, g, [])
         | Some iso =>
             let '(primarySlotId, iso) :=
               match iso with
               | [] =>
                   let otherSlotId := if primarySlotId =? SIM_SLOT_ID_0 then SIM_SLOT_ID_1 else SIM_SLOT_ID_0 in
                   let iso := default [] (GetIsoCountryCodeForNetwork e otherSlotId) in
                   (match iso with [] => primarySlotId | _ => otherSlotId end, iso)
               | _ => (primarySlotId, iso)
               end in
             if updateCountryCodeExt_ e then (n, g, [UpdateCountryCodeExt primarySlotId iso])
             else UpdateCountryCode e iso n g
         end.

Definition AutoTimeZoneChange (e : Env) (g : Statics) : Statics * list output :=
  if negb (IsAutoTimeZone e) then (g, [])
  else match timeZone_ g with [] => (g, []) | _ => SaveTimeZone e (timeZone_ g) g end.

(** ** The event *)

Definition ProcessNitzUpdate (e : Env) (event : option cstring) (n : NitzUpdate) (g : Statics)
  : outcome (NitzUpdate * Statics * list output) :=
  match event with
  | None | Some [] => Ret (n, g, [])
  | Some strTime =>
      if Z.quot (GetBootTimeMs e) MILLI_TO_BASE - lastSystemTime_ g <? MAX_UPDATE_TIME then Ret (n, g, [])
      else
        '(ok, networkTime, n) ← NitzParse strTime NetworkTime_zero n;
        if negb (ok : bool) then Ret (n, g, [])
        else
          '(g, out) ← ProcessTime e networkTime n g;
          if updateTimeZoneOffsetExt_ e then
            Ret (n, g, out ++ [UpdateTimeZoneOffsetExt (slotId_ n)
                                 (MkNitz (isDST (nitzData_ n)) (totalOffset (nitzData_ n)) (GetWallTimeMs e))])
          else
            let g := MkStatics (lastSystemTime_ g) (offset networkTime) (lastNetworkTime_ g) (lastOffsetTime_ g) (timeZone_ g) in
            let '(n, g, out') := ProcessTimeZone e n g in
            Ret (n, g, out ++ out')
  end.
End Nitz.

(** ** An implementation of the string functions *)

Fixpoint split_on (c : ascii) (s cur : cstring) : list cstring :=
  match s with
  | [] => [cur]
  | x :: t => if decide (x = c) then cur :: split_on c t [] else split_on c t (cur ++ [x])
  end.
Definition trim (s : cstring) : cstring := rev (skip_space (rev (skip_space s))).
Definition split_std (s sep : cstring) : list cstring :=
  match sep with
  | [c] => filter (fun p => p <> []) (trim <$> split_on c s [])
  | _ => [s]
  end.
Definition str_to_int_std (s : cstring) : option Z :=
  match mapM digit_value s with
  | Some (d :: ds) => if be_value 10 (d :: ds) <? 2 ^ 31 then Some (be_value 10 (d :: ds)) else None
  | _ => None
  end.
Definition std_strings : StringEx := {| SplitStr := split_std; StrToInt := str_to_int_std |}.

(** ** NITZ strings *)

Definition num (ds : list Z) : cstring := digit_char <$> ds.
Definition val (ds : list Z) : Z := be_value 10 ds.
Definition numeral (bound : Z) (ds : list Z) : Prop := ds <> [] /\ Forall is_dec ds /\ val ds < bound.

(** The digits of the fields of a message; [t_west]: the zone is behind UTC. *)
Record NitzText : Type := MkText {
  t_year : list Z; t_month : list Z; t_day : list Z; t_hour : list Z; t_min : list Z; t_sec : list Z;
  t_west : bool; t_offset : list Z; t_dst : list Z; t_recv : list Z
}.

Definition date_text (x : NitzText) : cstring := join "/" [num (t_year x); num (t_month x); num (t_day x)].
Definition clock_text (x : NitzText) : cstring := join ":" [num (t_hour x); num (t_min x); num (t_sec x)].
Definition sign (x : NitzText) : ascii := if t_west x then "-"%char else "+"%char.
Definition time_text (x : NitzText) : cstring := join (sign x) [clock_text x; num (t_offset x)].
Definition info_text (x : NitzText) : cstring := join "," [date_text x; time_text x; num (t_dst x)].
Definition nitz_text (x : NitzText) : cstring := join ";" [info_text x; num (t_recv x)].

Record nitz_ok (x : NitzText) : Prop := {
  ok_year : numeral (2 ^ 31) (t_year x) /\ (zlen (t_year x) = 2 \/ zlen (t_year x) = 4);
  ok_month : numeral (2 ^ 31) (t_month x);
  ok_day : numeral (2 ^ 31) (t_day x);
  ok_hour : numeral (2 ^ 31) (t_hour x);
  ok_min : numeral (2 ^ 31) (t_min x);
  ok_sec : numeral (2 ^ 31) (t_sec x);
  ok_offset : numeral (2 ^ 31) (t_offset x);
  ok_dst : numeral (2 ^ 31) (t_dst x);
  ok_recv : numeral (2 ^ 63) (t_recv x)
}.

(** What the message means. *)
Definition full_year (x : NitzText) : Z := if zlen (t_year x) =? 2 then 2000 + val (t_year x) else val (t_year x).
Definition quarters (x : NitzText) : Z := if t_west x then - val (t_offset x) else val (t_offset x).
Definition meant (x : NitzText) : NetworkTime :=
  MkTime (full_year x) (val (t_month x)) (val (t_day x)) (val (t_hour x)) (val (t_min x)) (val (t_sec x)) (quarters x) (val (t_dst x)).

Lemma clean_num c ds : Forall is_dec ds -> code c < 48 \/ 57 < code c -> clean c (num ds).
Proof.
  intros Hd Hc. apply Forall_fmap. eapply Forall_impl; [exact Hd|]. intros d H. destruct (digit_char_facts d H) as (? & _ & E).
  split; [|done]. unfold is_dec in H. intros <-. cbn in *. lia.
Qed.

Lemma clean_join c d parts : Forall (clean c) parts -> d <> c -> is_space d = false -> clean c (join d parts).
Proof.
  intros Hp Hd Hs. induction Hp as [|p parts Hp _ IH]; [constructor|]. cbn [join]. destruct parts as [|q parts]; [done|].
  apply Forall_app_2; [done|]. by apply Forall_cons_2.
Qed.

Lemma join_nonempty d p parts : p <> [] -> join d (p :: parts) <> [].
Proof. cbn. destruct parts; [done|]. by destruct p. Qed.

Lemma num_nonempty ds : ds <> [] -> num ds <> [].
Proof. by destruct ds. Qed.

Lemma clean_contains c s : clean c s -> contains c s = false.
Proof.
  intros Hc. apply bool_decide_eq_false. intros Hin. unfold clean in Hc. rewrite Forall_forall in Hc. by destruct (Hc c Hin).
Qed.

Lemma contains_join c a b : contains c (join c [a; b]) = true.
Proof. apply bool_decide_eq_true. apply elem_of_app. right. left. Qed.

(** Digits and the separators of a message are not white space and not each other. *)
Ltac clean_text :=
  repeat match goal with
  | |- plain _ _ => split
  | |- clean _ (num _) => apply clean_num; [naive_solver|vm_compute; by (left + right)]
  | |- clean _ (join _ _) => apply clean_join; [|done|done]
  | |- Forall _ (_ :: _) => apply Forall_cons_2
  | |- Forall _ [] => apply Forall_nil_2
  | |- join _ _ <> [] => apply join_nonempty
  | |- num _ <> [] => apply num_nonempty; naive_solver
  end.

Section Texts.
Context (x : NitzText) (W : nitz_ok x).

Lemma fields_digits :
  Forall (fun ds => ds <> [] /\ Forall is_dec ds)
    [t_year x; t_month x; t_day x; t_hour x; t_min x; t_sec x; t_offset x; t_dst x; t_recv x].
Proof. destruct W as [[[? []] _] [? []] [? []] [? []] [? []] [? []] [? []] [? []] [? []]]. repeat (apply Forall_cons_2; [done|]). apply Forall_nil_2. Qed.

Lemma text_parts :
  Forall (plain "/") [num (t_year x); num (t_month x); num (t_day x)] /\
  Forall (plain ":") [num (t_hour x); num (t_min x); num (t_sec x)] /\
  Forall (plain (sign x)) [clock_text x; num (t_offset x)] /\
  Forall (plain ",") [date_text x; time_text x; num (t_dst x)] /\
  Forall (plain ";") [info_text x; num (t_recv x)] /\
  contains "+" (time_text x) = negb (t_west x) /\ contains "-" (time_text x) = t_west x.
Proof.
  pose proof fields_digits as D. do 9 (apply Forall_cons in D as [[? ?] D]).
  unfold info_text, time_text, date_text, clock_text, sign. destruct (t_west x); cbn [negb].
  - split_and!; clean_text.
    + apply clean_contains. clean_text.
    + apply contains_join.
  - split_and!; clean_text.
    + apply contains_join.
    + apply clean_contains. clean_text.
Qed.
End Texts.

(** ** Parsing a message *)

Section Parse.
Context `{StringExLaws} (x : NitzText) (W : nitz_ok x).

Lemma to_int_num b ds v : numeral b ds -> b <= 2 ^ 31 -> to_int (num ds) v = val ds.
Proof. intros (? & ? & ?) ?. unfold to_int, num. rewrite str_to_int_law; [done|done|done|unfold val in *; lia]. Qed.

Lemma full_year_int v :
  to_int (if zlen (num (t_year x)) =? YEAR_LENGTH_TWO then str "20" ++ num (t_year x) else num (t_year x)) v = full_year x.
Proof.
  destruct W as [[N L] _ _ _ _ _ _ _ _]. unfold full_year, YEAR_LENGTH_TWO.
  assert (zlen (num (t_year x)) = zlen (t_year x)) as -> by (unfold zlen, num; by rewrite length_fmap).
  destruct (Z.eqb_spec (zlen (t_year x)) 2) as [E|E]; [|by eapply to_int_num].
  change (str "20" ++ num (t_year x)) with (num ([2; 0] ++ t_year x)). destruct N as (? & ? & ?).
  assert (val ([2; 0] ++ t_year x) = 2000 + val (t_year x)) as V by (unfold val; rewrite be_value_app, E; reflexivity).
  assert (0 <= val (t_year x) < 10 ^ zlen (t_year x)) by (apply be_value_range; [lia|done]).
  rewrite (to_int_num (2 ^ 31)); [done| |done]. split; [done|]. split.
  - apply Forall_app_2; [|done]. repeat (apply Forall_cons_2; [unfold is_dec; lia|]). apply Forall_nil_2.
  - rewrite V. rewrite E in *. change (10 ^ 2) with 100 in *. lia.
Qed.

Lemma year_length_ok :
  negb (zlen (num (t_year x)) =? YEAR_LENGTH_TWO) && negb (zlen (num (t_year x)) =? YEAR_LENGTH_FOUR) = false.
Proof.
  destruct W as [[_ L] _ _ _ _ _ _ _ _]. unfold YEAR_LENGTH_TWO, YEAR_LENGTH_FOUR.
  assert (zlen (num (t_year x)) = zlen (t_year x)) as -> by (unfold zlen, num; by rewrite length_fmap). by destruct L as [-> | ->].
Qed.

Lemma recv_read v : read_int64 (num (t_recv x)) v = val (t_recv x).
Proof.
  destruct W as [_ _ _ _ _ _ _ _ (Hne & Hd & Hb)]. pose proof (be_value_range 10 ltac:(lia) _ Hd). unfold val in *.
  assert (P : digits_prefix (num (t_recv x)) = t_recv x).
  { clear -Hd. induction Hd as [|d ds Hd _ IH]; [done|]. cbn. destruct (digit_char_facts d Hd) as (_ & E & _). rewrite E. f_equal. exact IH. }
  unfold read_int64. destruct (t_recv x) as [|d ds]; [done|]. apply Forall_cons in Hd as [Hd _].
  destruct (digit_char_facts d Hd) as (E1 & _ & E3). unfold is_dec in Hd. change (num (d :: ds)) with (digit_char d :: num ds) in *.
  assert (code "-" = 45 /\ code "+" = 43) as [? ?] by done.
  cbn [skip_space]. rewrite E1. rewrite !decide_False by (intros E; rewrite E in E3; lia).
  rewrite P. unfold clamp_long. lia.
Qed.

Lemma NitzTimeParse_text t n :
  NitzTimeParse (time_text x) t n =
  if decide (is_i32 (quarters x * QUARTER_TO_MILLISECOND)) then
    Ret (true, set_clock (val (t_hour x)) (val (t_min x)) (val (t_sec x)) (set_offset (quarters x) t),
         set_data (fun d => MkNitz (isDST d) (quarters x * QUARTER_TO_MILLISECOND) (currentMillis d)) n)
  else Undef.
Proof.
  destruct (text_parts x W) as (_ & P2 & P3 & _ & _ & Cp & Cm). destruct W as [_ _ _ Nh Nm Ns No _ _].
  assert (E : (if contains "+" (time_text x) then Some ("+"%char, 1)
               else if contains "-" (time_text x) then Some ("-"%char, -1) else None) = Some (sign x, if t_west x then -1 else 1)).
  { rewrite Cp, Cm. unfold sign. by destruct (t_west x). }
  unfold NitzTimeParse. rewrite E.
  assert (SplitStr (time_text x) [sign x] = [clock_text x; num (t_offset x)]) as -> by exact (split_law _ _ P3).
  change (zlen [clock_text x; num (t_offset x)] =? TIMEZONE_SPLIT_NUM) with true. cbn [negb].
  change (part [clock_text x; num (t_offset x)] 0) with (Ret (clock_text x)). change (part [clock_text x; num (t_offset x)] 1) with (Ret (num (t_offset x))).
  cbn [mbind outcome_bind]. rewrite (to_int_num (2 ^ 31)) by (done || lia).
  assert (val (t_offset x) * (if t_west x then -1 else 1) = quarters x) as Q by (unfold quarters; destruct (t_west x); lia).
  assert (mul_int32 (val (t_offset x)) (if t_west x then -1 else 1) = Ret (quarters x)) as ->.
  { unfold mul_int32. rewrite Q. rewrite decide_True; [done|]. destruct No as (_ & Nd & No).
    pose proof (be_value_range 10 ltac:(lia) (t_offset x) Nd). unfold quarters, is_i32, val in *. destruct (t_west x); lia. }
  cbn [mbind outcome_bind]. change (offset (set_offset (quarters x) t)) with (quarters x). unfold mul_int32.
  destruct (decide _); [|done]. cbn [mbind outcome_bind]. 
  assert (SplitStr (clock_text x) (str ":") = [num (t_hour x); num (t_min x); num (t_sec x)]) as -> by exact (split_law _ _ P2).
  change (zlen [num (t_hour x); num (t_min x); num (t_sec x)] =? TIME_SPLIT_NUM) with true. cbn [negb].
  unfold LOCATION_DAY_OR_SEC.
  change (part [num (t_hour x); num (t_min x); num (t_sec x)] 0) with (Ret (num (t_hour x))).
  change (part [num (t_hour x); num (t_min x); num (t_sec x)] 1) with (Ret (num (t_min x))).
  change (part [num (t_hour x); num (t_min x); num (t_sec x)] 2) with (Ret (num (t_sec x))).
  cbn [mbind outcome_bind]. rewrite !(to_int_num (2 ^ 31)) by (done || lia). done.
Qed.

(** A message is understood, unless its offset overflows. *)
Lemma NitzParse_text t n :
  NitzParse (nitz_text x) t n =
  if decide (is_i32 (quarters x * QUARTER_TO_MILLISECOND)) then
    Ret (true, meant x, MkUpdate (slotId_ n) (val (t_recv x))
      (MkNitz (if 0 <? val (t_dst x) then 1 else 0) (quarters x * QUARTER_TO_MILLISECOND) (currentMillis (nitzData_ n))))
  else Undef.
Proof.
  destruct (text_parts x W) as (P1 & _ & _ & P4 & P5 & _ & _).
  unfold NitzParse.
  assert (SplitStr (nitz_text x) (str ";") = [info_text x; num (t_recv x)]) as -> by exact (split_law _ _ P5).
  change (zlen [info_text x; num (t_recv x)] =? TIME_STRING_SPLIT_NUM) with true. cbn [negb].
  change (part [info_text x; num (t_recv x)] 0) with (Ret (info_text x)). change (part [info_text x; num (t_recv x)] 1) with (Ret (num (t_recv x))).
  cbn [mbind outcome_bind].
  assert (SplitStr (info_text x) (str ",") = [date_text x; time_text x; num (t_dst x)]) as -> by exact (split_law _ _ P4).
  change (zlen [date_text x; time_text x; num (t_dst x)] <? NITZ_SPLIT_NUM) with false.
  change (part [date_text x; time_text x; num (t_dst x)] 0) with (Ret (date_text x)).
  change (part [date_text x; time_text x; num (t_dst x)] 1) with (Ret (time_text x)).
  change (part [date_text x; time_text x; num (t_dst x)] 2) with (Ret (num (t_dst x))).
  cbn [mbind outcome_bind].
  assert (SplitStr (date_text x) (str "/") = [num (t_year x); num (t_month x); num (t_day x)]) as -> by exact (split_law _ _ P1).
  change (zlen [num (t_year x); num (t_month x); num (t_day x)] =? TIME_SPLIT_NUM) with true. cbn [negb].
  unfold LOCATION_DAY_OR_SEC.
  change (part [num (t_year x); num (t_month x); num (t_day x)] 0) with (Ret (num (t_year x))).
  change (part [num (t_year x); num (t_month x); num (t_day x)] 1) with (Ret (num (t_month x))).
  change (part [num (t_year x); num (t_month x); num (t_day x)] 2) with (Ret (num (t_day x))).
  cbn [mbind outcome_bind]. rewrite year_length_ok, full_year_int, recv_read. rewrite NitzTimeParse_text.
  destruct (decide _); [|done]. cbn [mbind outcome_bind negb]. destruct W as [_ ? ? _ _ _ _ ? _].
  rewrite !(to_int_num (2 ^ 31)) by (done || lia). done.
Qed.
End Parse.

(** ** The calendar, by counting *)

Definition sum_Z (l : list Z) : Z := foldr Z.add 0 l.
Definition days_in_year (y : Z) : Z := if is_leap y then 366 else 365.
Definition month_lengths (y : Z) : list Z := [31; if is_leap y then 29 else 28; 31; 30; 31; 30; 31; 31; 30; 31; 30; 31].
(** Days from the first of January 1900 to a date. *)
Definition date_days (y m d : Z) : Z :=
  sum_Z (days_in_year <$> seqZ 1900 (y - 1900)) + sum_Z (take (Z.to_nat (m - 1)) (month_lengths y)) + (d - 1).
(** Seconds from the beginning of 1970. *)
Definition unix_seconds (t : NetworkTime) : Z :=
  (((date_days (year t) (month t) (day t) - date_days 1970 1 1) * 24 + hour t) * 60 + minute t) * 60 + second t.

Lemma leap_counted y : leaps_through y - leaps_through (y - 1) = if is_leap y then 1 else 0.
Proof.
  unfold leaps_through, is_leap.
  destruct (Z.eqb_spec (y mod 4) 0); destruct (Z.eqb_spec (y mod 100) 0); destruct (Z.eqb_spec (y mod 400) 0); cbn [andb orb negb];
    divmod_lia.
Qed.

Lemma years_counted y : 1900 <= y ->
  sum_Z (days_in_year <$> seqZ 1900 (y - 1900)) = 365 * (y - 1900) + (leaps_through (y - 1) - leaps_through 1899).
Proof.
  intros Hy. replace y with (1900 + Z.of_nat (Z.to_nat (y - 1900))) by lia. generalize (Z.to_nat (y - 1900)). clear.
  induction n as [|n IH]; [done|]. replace (1900 + Z.of_nat (S n) - 1900) with (1900 + Z.of_nat n - 1900 + 1) by lia.
  rewrite seqZ_app by lia. rewrite fmap_app. unfold sum_Z in *. rewrite foldr_app.
  assert (A : forall l k, foldr Z.add k l = foldr Z.add 0 l + k) by (induction l as [|a l IHl]; intros k; cbn; [lia|rewrite IHl; lia]).
  rewrite A, IH. pose proof (leap_counted (1900 + Z.of_nat n)) as L.
  replace (1900 + Z.of_nat (S n) - 1) with (1900 + Z.of_nat n) by lia.
  change (seqZ (1900 + (1900 + Z.of_nat n - 1900)) 1) with [1900 + (1900 + Z.of_nat n - 1900)]. cbn.
  replace (1900 + (1900 + Z.of_nat n - 1900)) with (1900 + Z.of_nat n) by lia.
  unfold days_in_year. destruct (is_leap _); lia.
Qed.

Lemma months_counted y m : 1 <= m <= 12 -> sum_Z (take (Z.to_nat (m - 1)) (month_lengths y)) = days_before_month y (m - 1).
Proof.
  intros Hm. unfold days_before_month, month_lengths. destruct (is_leap y).
  all: assert (1 <= m < 13) as Hm' by lia; clear Hm; by enum_Z m.
Qed.

Lemma timegm_counts t : 1900 <= year t -> 1 <= month t <= 12 ->
  timegm (MkTm (year t - CST_YEAR) (month t - 1) (day t) (hour t) (minute t) (second t)) = unix_seconds t.
Proof.
  intros Hy Hm. unfold timegm, unix_seconds, date_days, CST_YEAR. cbn [tm_year tm_mon tm_mday tm_hour tm_min tm_sec].
  rewrite Z.div_small, Z.mod_small by lia. rewrite !years_counted, !months_counted by lia.
  replace (year t - 1900 + 1900 + 0) with (year t) by lia. change (days_before_month 1970 (1 - 1)) with 0.
  change (leaps_through (1970 - 1)) with 477. change (leaps_through 1969) with 477. change (leaps_through 1899) with 460. lia.
Qed.

(** ** Setting the clock *)

Section Clock.
Context `{StringExLaws} (lookup_timezone : cstring -> NITZData -> cstring).

(** The user wants the time of the network and no NTP time is known. *)
Definition network_time_wanted (e : Env) : Prop :=
  IsAutoTime e = true /\ (GetRealTimeMs e = None \/ GetRealTimeMs e = Some 0).

(** The message arrives after the modem received it, both since boot. *)
Definition received_before (e : Env) (x : NitzText) : Prop := val (t_recv x) <= GetBootTimeNs e < 2 ^ 63.

(** Milliseconds between reception and processing. *)
Definition age (e : Env) (x : NitzText) : Z := (GetBootTimeNs e - val (t_recv x)) / 1000000.

Definition date_ok (x : NitzText) : Prop :=
  nitz_ok x /\ 1900 <= full_year x /\ 1 <= val (t_month x) <= 12 /\ is_i32 (quarters x * QUARTER_TO_MILLISECOND).

Definition due (e : Env) (g : Statics) : Prop := lastSystemTime_ g + MAX_UPDATE_TIME <= Z.quot (GetBootTimeMs e) MILLI_TO_BASE.

Lemma SaveTime_wanted e time off : network_time_wanted e ->
  SaveTime e time off = [SetTime (time * 1000 + off); PublishTimeChanged time].
Proof. intros [_ [E|E]]; unfold SaveTime; by rewrite E. Qed.

Lemma ProcessTime_text e x n g :
  date_ok x -> received_before e x -> nitzRecvTime_ n = val (t_recv x) ->
  ProcessTime e (meant x) n g =
  Ret (MkStatics (GetBootTimeNs e / 1000000000) (offset_ g) (unix_seconds (meant x)) (lastOffsetTime_ g) (timeZone_ g),
       if IsAutoTime e then SaveTime e (unix_seconds (meant x)) (age e x) else []).
Proof.
  intros (W & Hy & Hm & _) [Hr Hb] Hn. unfold ProcessTime. rewrite (timegm_counts (meant x)) by done.
  change (year (meant x)) with (full_year x). change (month (meant x)) with (val (t_month x)).
  unfold CST_YEAR at 1. destruct (Z.ltb_spec (full_year x) 1900); [lia|]. destruct (Z.ltb_spec (val (t_month x)) 1); [lia|]. cbn [orb].
  rewrite Hn.
  assert (0 <= val (t_recv x)) by (destruct (ok_recv x W) as (_ & Hd & _); apply be_value_range; [lia|done]).
  unfold sub_int64. rewrite decide_True by lia. cbn [mbind outcome_bind]. unfold NANO_TO_MILLI, MILLI_TO_BASE.
  rewrite !Z.quot_div_nonneg by lia. fold (age e x). assert (0 <= age e x < 2 ^ 63 - 1) by (unfold age; split; [apply Z.div_pos; lia|apply Z.div_lt_upper_bound; lia]).
  destruct (Z.ltb_spec (age e x) 0); [lia|]. destruct (Z.leb_spec (2 ^ 63 - 1) (age e x)); [lia|]. cbn [orb].
  by destruct (IsAutoTime e).
Qed.

(** The clock is one thing, the time zone another. *)
Lemma SaveTimeZone_clock e z g :
  let g' := fst (SaveTimeZone e z g) in
  lastSystemTime_ g' = lastSystemTime_ g /\ lastNetworkTime_ g' = lastNetworkTime_ g /\ lastOffsetTime_ g' = lastOffsetTime_ g.
Proof. unfold SaveTimeZone. by destruct (bool_decide _). Qed.

Lemma UpdateCountryCode_clock e c n g :
  let g' := (UpdateCountryCode lookup_timezone e c n g).1.2 in
  lastSystemTime_ g' = lastSystemTime_ g /\ lastNetworkTime_ g' = lastNetworkTime_ g /\ lastOffsetTime_ g' = lastOffsetTime_ g.
Proof.
  unfold UpdateCountryCode. destruct c; [done|]. destruct (IsAutoTimeZone e); [|done]. cbn [negb].
  set (z := lookup_timezone _ _). pose proof (SaveTimeZone_clock e z g). by destruct (SaveTimeZone e z g).
Qed.

Lemma ProcessTimeZone_clock e n g :
  let g' := (ProcessTimeZone lookup_timezone e n g).1.2 in
  lastSystemTime_ g' = lastSystemTime_ g /\ lastNetworkTime_ g' = lastNetworkTime_ g /\ lastOffsetTime_ g' = lastOffsetTime_ g.
Proof.
  unfold ProcessTimeZone. destruct (networkSearchManager e); [|done]. destruct (_ =? INVALID_VALUE); [done|].
  destruct (GetIsoCountryCodeForNetwork e _) as [iso|]; [|done].
  destruct (match iso with [] => _ | _ => _ end) as [slot iso']. destruct (updateCountryCodeExt_ e); [done|]. apply UpdateCountryCode_clock.
Qed.

(** A message that is due. *)
Lemma ProcessNitzUpdate_text e x n g :
  date_ok x -> received_before e x -> due e g ->
  exists n' g' out,
    ProcessNitzUpdate lookup_timezone e (Some (nitz_text x)) n g =
      Ret (n', g', (if IsAutoTime e then SaveTime e (unix_seconds (meant x)) (age e x) else []) ++ out) /\
    lastSystemTime_ g' = GetBootTimeNs e / 1000000000 /\ lastNetworkTime_ g' = unix_seconds (meant x) /\
    lastOffsetTime_ g' = lastOffsetTime_ g.
Proof.
  intros D Hr Hd. pose proof D as (W & _ & _ & Hq). unfold ProcessNitzUpdate.
  destruct (nitz_text x) as [|c s] eqn:Ex; [exfalso|].
  { destruct (text_parts x W) as (_ & _ & _ & _ & P & _). apply Forall_cons in P as [[P _] _]. by apply (join_nonempty ";" _ [num (t_recv x)] P). }
  unfold due in Hd. destruct (Z.ltb_spec (Z.quot (GetBootTimeMs e) MILLI_TO_BASE - lastSystemTime_ g) MAX_UPDATE_TIME); [lia|].
  rewrite <- Ex, (NitzParse_text x W), decide_True by done. cbn [mbind outcome_bind negb].
  rewrite ProcessTime_text by done. cbn [mbind outcome_bind]. destruct (updateTimeZoneOffsetExt_ e).
  { eexists _, _, _. split; [reflexivity|done]. }
  set (n1 := MkUpdate _ _ _). set (g1 := MkStatics _ _ _ _ _). pose proof (ProcessTimeZone_clock e n1 g1) as C.
  destruct (ProcessTimeZone lookup_timezone e n1 g1) as [[n2 g2] out]. exists n2, g2, out. split; [reflexivity|exact C].
Qed.
End Clock.

(** C23: a time message of the network sets the clock: for every message with a date from
    1900 on, in either form of the year, that arrives at least [MAX_UPDATE_TIME] seconds
    after the last accepted one, with automatic time on and no NTP time, the clock is set
    to the UTC the message states, counted by the calendar, plus the milliseconds since
    the modem received it, and the change is published. A message within five seconds
    after that, of any slot and with any content, has no effect. *)
Theorem nitz_sets_clock `{StringExLaws} lookup_timezone e x n g :
  date_ok x -> received_before e x -> due e g -> network_time_wanted e ->
  exists n' g' out,
    ProcessNitzUpdate lookup_timezone e (Some (nitz_text x)) n g =
      Ret (n', g', SetTime (unix_seconds (meant x) * 1000 + age e x) :: PublishTimeChanged (unix_seconds (meant x)) :: out) /\
    forall e' message slot, GetBootTimeMs e' < (GetBootTimeNs e / 1000000000 + 5) * 1000 -> 0 <= GetBootTimeMs e' ->
      ProcessNitzUpdate lookup_timezone e' message slot g' = Ret (slot, g', []).
Proof.
  intros D Hr Hd Hw. destruct (ProcessNitzUpdate_text lookup_timezone e x n g D Hr Hd) as (n' & g' & out & E & S & _).
  exists n', g', out. rewrite (proj1 Hw), (SaveTime_wanted e _ _ Hw) in E. split; [exact E|].
  intros e' message slot Hb Hp. unfold ProcessNitzUpdate. destruct message as [[|c s]|]; [done| |done].
  unfold MILLI_TO_BASE, MAX_UPDATE_TIME. rewrite Z.quot_div_nonneg by lia. rewrite S.
  destruct (Z.ltb_spec (GetBootTimeMs e' / 1000 - GetBootTimeNs e / 1000000000) 5) as [|G]; [done|].
  exfalso. assert (GetBootTimeMs e' / 1000 < GetBootTimeNs e / 1000000000 + 5) by (apply Z.div_lt_upper_bound; lia). lia.
Qed.

(** ** The string functions can be implemented *)

Lemma split_on_clean c p s cur : clean c p -> split_on c (p ++ s) cur = split_on c s (cur ++ p).
Proof.
  intros Hp. revert cur. induction Hp as [|x p [Hx _] _ IH]; intros cur; [by rewrite app_nil_r|].
  cbn. rewrite decide_False by done. rewrite IH. by rewrite <- app_assoc.
Qed.

Lemma split_on_join c p parts : Forall (clean c) (p :: parts) -> split_on c (join c (p :: parts)) [] = p :: parts.
Proof.
  revert p. induction parts as [|q parts IH]; intros p Hp; apply Forall_cons in Hp as [Hp Hps].
  - cbn [join]. rewrite <- (app_nil_r p) at 1. by rewrite split_on_clean.
  - change (join c (p :: q :: parts)) with (p ++ c :: join c (q :: parts)). rewrite split_on_clean by done. cbn [app split_on].
    rewrite decide_True by done. f_equal. by apply IH.
Qed.

Lemma trim_clean c p : clean c p -> trim p = p.
Proof.
  intros Hp. assert (S : forall q, clean c q -> skip_space q = q).
  { intros [|x q] Hq; [done|]. apply Forall_cons in Hq as [[_ Hx] _]. cbn. by rewrite Hx. }
  unfold trim. rewrite (S p Hp), S, rev_involutive; [done|]. by apply Forall_rev.
Qed.

#[export] Instance std_strings_laws : StringExLaws (H := std_strings).
Proof.
  split.
  - intros c parts Hp. cbn. assert (Forall (clean c) parts) as Hc by (eapply Forall_impl; [exact Hp|by intros ? []]).
    destruct parts as [|p parts]; [done|]. rewrite split_on_join by done.
    assert (trim <$> p :: parts = p :: parts) as ->.
    { clear Hp. induction Hc as [|q qs Hq _ IH]; [done|]. rewrite fmap_cons, IH. by rewrite (trim_clean c). }
    clear Hc. induction Hp as [|q qs [Hq _] _ IH]; [done|]. rewrite filter_cons_True by done. by rewrite IH.
  - intros ds Hne Hd Hb. cbn. unfold str_to_int_std. assert (mapM digit_value (digit_char <$> ds) = Some ds) as ->.
    { clear -Hd. induction Hd as [|d ds Hd _ IH]; [done|]. rewrite fmap_cons. cbn [mapM mbind option_bind].
      destruct (digit_char_facts d Hd) as (_ & E & _). rewrite E. cbn. by rewrite IH. }
    destruct ds; [done|]. by destruct (Z.ltb_spec (be_value 10 (z :: ds)) (2 ^ 31)); [|lia].
Qed.

(** 2024-05-17 08:30:00 UTC, eight hours ahead, received one second after boot. *)
Definition example_text : NitzText := MkText [2; 4] [0; 5] [1; 7] [0; 8] [3; 0] [0; 0] false [3; 2] [0] [1; 0; 0; 0; 0; 0; 0; 0; 0; 0].

Definition example_env (bootMs : Z) : Env :=
  MkEnv bootMs (bootMs * 1000000) 0 None [] true (Some (str "1")) (Some (str "1")) [] true 0 (fun _ => Some (str "cn")) false false.

Ltac numeral_ok := split; [discriminate|split; [repeat (apply Forall_cons_2; [unfold is_dec; lia|]); apply Forall_nil_2|vm_compute; reflexivity]].

Lemma example_ok : date_ok example_text.
Proof.
  split; [|vm_compute; repeat split; discriminate].
  split; cbn; try numeral_ok. split; [numeral_ok|by left].
Qed.

Lemma nitz_sets_clock_witness :
  exists n' g' out, ProcessNitzUpdate (H := std_strings) (fun c d => c) (example_env 60000) (Some (str "24/05/17,08:30:00+32,0;1000000000"))
    (NitzUpdate_new 0) Statics_new = Ret (n', g', SetTime 1715934659000 :: out).
Proof.
  destruct (nitz_sets_clock (H := std_strings) (fun c d => c) (example_env 60000) example_text (NitzUpdate_new 0) Statics_new)
    as (n' & g' & out & E & _).
  - exact example_ok.
  - split; vm_compute; [discriminate|reflexivity].
  - vm_compute. discriminate.
  - split; [vm_compute; reflexivity|left; reflexivity].
  - exists n', g'. eexists. exact E.
Defined.

(** [NitzParse] reads every well-formed message as what it means (two digits of a year
    are of this century, a minus sign makes the zone lie behind UTC), when the offset of
    the zone in milliseconds is an [int32_t]; with a larger offset, which is not
    checked, the multiplication overflows and the behaviour is undefined. *)
Theorem nitz_parsed `{StringExLaws} x t n :
  nitz_ok x ->
  NitzParse (nitz_text x) t n =
  if decide (is_i32 (quarters x * QUARTER_TO_MILLISECOND)) then
    Ret (true, meant x, MkUpdate (slotId_ n) (val (t_recv x))
      (MkNitz (if 0 <? val (t_dst x) then 1 else 0) (quarters x * QUARTER_TO_MILLISECOND) (currentMillis (nitzData_ n))))
  else Undef.
Proof. intros W. exact (NitzParse_text x W t n). Qed.

Definition overflow_text : NitzText := MkText [2; 0; 2; 4] [5] [1; 7] [8] [3; 0] [0] true [2; 3; 8; 7] [1] [1].

Lemma nitz_parsed_witness :
  NitzParse (H := std_strings) (str "24/05/17,08:30:00+32,0;1000000000") NetworkTime_zero (NitzUpdate_new 1) =
    Ret (true, MkTime 2024 5 17 8 30 0 32 0, MkUpdate 1 1000000000 (MkNitz 0 28800000 0)) /\
  NitzParse (H := std_strings) (str "2024/5/17,8:30:0-2387,1;1") NetworkTime_zero (NitzUpdate_new 1) = Undef.
Proof.
  split.
  - exact (nitz_parsed (H := std_strings) example_text NetworkTime_zero (NitzUpdate_new 1) (proj1 example_ok)).
  - refine (nitz_parsed (H := std_strings) overflow_text NetworkTime_zero (NitzUpdate_new 1) _).
    split; cbn; try numeral_ok. split; [numeral_ok|by right].
Defined.

(** ** Switching automatic time on *)

(** The shared members after any calls, of any slots. *)
Inductive reachable `{StringEx} (lookup_timezone : cstring -> NITZData -> cstring) : Statics -> Prop :=
| reach_new : reachable lookup_timezone Statics_new
| reach_nitz e event n g n' g' out :
    reachable lookup_timezone g -> ProcessNitzUpdate lookup_timezone e event n g = Ret (n', g', out) -> reachable lookup_timezone g'
| reach_zone e n g : reachable lookup_timezone g -> reachable lookup_timezone (ProcessTimeZone lookup_timezone e n g).1.2
| reach_country e c n g : reachable lookup_timezone g -> reachable lookup_timezone (UpdateCountryCode lookup_timezone e c n g).1.2
| reach_auto_zone e g : reachable lookup_timezone g -> reachable lookup_timezone (fst (AutoTimeZoneChange e g)).

Lemma ProcessTime_offset e t n g g' out : ProcessTime e t n g = Ret (g', out) -> lastOffsetTime_ g' = lastOffsetTime_ g.
Proof.
  unfold ProcessTime. destruct (_ || _); [by intros [= <- _]|]. unfold sub_int64. destruct (decide _); [|done]. cbn [mbind outcome_bind].
  destruct (_ || _); [by intros [= <- _]|]. destruct (negb _); by intros [= <- _].
Qed.

Lemma reachable_offset `{StringEx} lookup_timezone g : reachable lookup_timezone g -> lastOffsetTime_ g = 0.
Proof.
  induction 1 as [|e event n g n' g' out _ IH E|e n g _ IH|e c n g _ IH|e g _ IH]; [done| | | |].
  - revert E. unfold ProcessNitzUpdate. destruct event as [[|c s]|]; [by intros [= _ <- _]| |by intros [= _ <- _]].
    destruct (_ <? _); [by intros [= _ <- _]|]. destruct (NitzParse _ _ _) as [[[[] t] n1]| |]; try done; cbn [mbind outcome_bind negb].
    2: by intros [= _ <- _].
    destruct (ProcessTime e t n1 g) as [[g1 o]| |] eqn:E1; try done. cbn [mbind outcome_bind]. apply ProcessTime_offset in E1.
    destruct (updateTimeZoneOffsetExt_ e); [intros [= _ <- _]; congruence|].
    set (g2 := MkStatics _ _ _ _ _). pose proof (ProcessTimeZone_clock lookup_timezone e n1 g2) as (_ & _ & C).
    destruct (ProcessTimeZone lookup_timezone e n1 g2) as [[n3 g3] o']. intros [= _ <- _]. cbn in C. congruence.
  - destruct (ProcessTimeZone_clock lookup_timezone e n g) as (_ & _ & C). congruence.
  - destruct (UpdateCountryCode_clock lookup_timezone e c n g) as (_ & _ & C). congruence.
  - unfold AutoTimeZoneChange. destruct (IsAutoTimeZone e); [|done]. destruct (timeZone_ g) as [|c s] eqn:Ez; [done|].
    cbn [negb]. rewrite <- Ez. destruct (SaveTimeZone_clock e (timeZone_ g) g) as (_ & _ & C). congruence.
Qed.

(** [AutoTimeChange] forgets the age of the message: when automatic time is switched on
    after a message was processed (and the date it gave is not the epoch itself), the
    clock is set to the UTC of the message plus the whole seconds since it was
    processed, without the time between its reception and its processing: it ends up
    behind the true network time by that age, up to the rounding to seconds.
    [lastOffsetTime_], which is added instead, is 0 in every reachable state. *)
Theorem auto_time_forgets_age `{StringExLaws} lookup_timezone e x n g n' g' out e' :
  reachable lookup_timezone g -> date_ok x -> received_before e x -> due e g ->
  ProcessNitzUpdate lookup_timezone e (Some (nitz_text x)) n g = Ret (n', g', out) ->
  network_time_wanted e' -> unix_seconds (meant x) <> 0 ->
  1000000000 <= GetBootTimeNs e <= GetBootTimeMs e' * 1000000 ->
  let true_time := unix_seconds (meant x) * 1000 + age e x + (GetBootTimeMs e' - GetBootTimeNs e / 1000000) in
  exists ms, AutoTimeChange e' g' = [SetTime ms; PublishTimeChanged (ms / 1000)] /\
    (true_time - age e x - 1000 < ms < true_time - age e x + 1000).
Proof.
  intros R D Hr Hd E [Ha Hw] Hz Hb true_time.
  destruct (ProcessNitzUpdate_text lookup_timezone e x n g D Hr Hd) as (n1 & g1 & o & E1 & S1 & S2 & S3).
  rewrite E in E1. injection E1 as -> -> _. unfold AutoTimeChange. rewrite Ha, S1, S2, S3, (reachable_offset _ g R). cbn [negb].
  unfold MILLI_TO_BASE. rewrite Z.quot_div_nonneg by lia.
  set (b := GetBootTimeMs e') in *. set (N := GetBootTimeNs e) in *. set (T := unix_seconds (meant x)) in *.
  destruct (Z.eqb_spec T 0); [done|]. assert (1 <= N / 1000000000) by (apply Z.div_le_lower_bound; lia).
  destruct (Z.eqb_spec (N / 1000000000) 0); [lia|]. assert (N / 1000000000 <= b / 1000) by divmod_lia.
  destruct (Z.ltb_spec (b / 1000) (N / 1000000000)); [lia|]. cbn [orb]. rewrite SaveTime_wanted by done.
  exists ((T + (b / 1000 - N / 1000000000)) * 1000 + 0). split; [|unfold true_time; divmod_lia].
  by rewrite Z.add_0_r, Z.div_mul by lia.
Qed.

Definition after_message : NitzUpdate * Statics * list output :=
  match ProcessNitzUpdate (H := std_strings) (fun c d => c) (example_env 60000) (Some (nitz_text example_text)) (NitzUpdate_new 0) Statics_new with
  | Ret r => r
  | _ => (NitzUpdate_new 0, Statics_new, [])
  end.

Lemma auto_time_forgets_age_witness :
  after_message.2 = [SetTime 1715934659000; PublishTimeChanged 1715934600; SetTimeZone (str "cn"); PublishTimeZoneChanged (str "cn")] /\
  exists ms, AutoTimeChange (example_env 60000) after_message.1.2 = [SetTime ms; PublishTimeChanged (ms / 1000)] /\ ms < 1715934659000 - 59000 + 1000.
Proof.
  split; [vm_compute; reflexivity|].
  destruct (auto_time_forgets_age (H := std_strings) (fun c d => c) (example_env 60000) example_text (NitzUpdate_new 0) Statics_new
    after_message.1.1 after_message.1.2 after_message.2 (example_env 60000)) as (ms & E1 & E2).
  - apply reach_new.
  - exact example_ok.
  - split; vm_compute; [discriminate|reflexivity].
  - vm_compute. discriminate.
  - vm_compute. reflexivity.
  - split; [vm_compute; reflexivity|left; reflexivity].
  - vm_compute. discriminate.
  - split; vm_compute; discriminate.
  - exists ms. split; [exact E1|]. exact (proj2 E2).
Defined.
