(* ===== verification/EsimSlot.v ===== *)
(** * [services/sim/src/multi_sim_helper.cpp]: which slot holds the eSIM

    [MultiSimHelper] decides from system parameters and the answer to reset of a card
    (file Apdu) whether the card of a slot is the eSIM. The system parameters are the
    record [SysParam], the buffer filled by [GetParameter] holds the empty string when
    the call fails. Announcing changes of default cards to applications and building
    database rows is left out. *)

From S2P Require Import Prelude CxxString Apdu.

Definition SIM_LABEL_STATE_PROP : cstring := str "persist.ril.sim_switch".
Definition ESIM_LSI_CFG_PROP : cstring := str "persist.ril.esim_lsi_cfg".
Definition TSTS_MODE_PROP : cstring := str "persist.telephony.tsts_mode".
Definition SUPPORT_ESIM_MEP : cstring := str "const.ril.sim.esim_support_mep".
Definition ESIM_SUPPORT_PARAM : cstring := str "const.ril.esim_type".
Definition TYPE_ESIM_3_SEL_2 : cstring := str "3".
Definition ESIM_LSI_CFG_ESIM_SLOTID_COUNT : Z := 1.
Definition ESIM_LSI_CFG_GROUP_COUNT : Z := 4.
Definition ESIM_LSI_CFG_ITEM_PER_GROUP : Z := 2.
Definition ESIM_LSI_CFG_ITEM_COUNT : Z := ESIM_LSI_CFG_ESIM_SLOTID_COUNT + ESIM_LSI_CFG_GROUP_COUNT * ESIM_LSI_CFG_ITEM_PER_GROUP.
Definition ESIM_LSI_CFG_SCI_MIN : Z := 0.
Definition ESIM_LSI_CFG_SCI_MAX : Z := 2.
Definition ESIM_LSI_CFG_SCI_INVALID : Z := 255.
Definition SLOT_ID_0 : Z := 0.
Definition SLOT_ID_1 : Z := 1.
Definition SLOT_ID_2 : Z := 2.
Definition SLOT_ID_3 : Z := 3.
Definition PSIM1 : Z := 1.
Definition PSIM2 : Z := 2.
Definition PSIM1_PSIM2 : Z := 0.
Definition PSIM1_ESIM : Z := 1.
Definition TSTS_MODE_OFF : Z := 0.
Definition TSTS_MODE_ON : Z := 1.
Definition MEP_ESIM_SCI_ID : Z := 1.
Definition TSTS_ESIM_SCI_ID : Z := 2.
Definition GSM_SIM_ATR : cstring := str "gsm.sim.hw_atr".
Definition GSM_SIM_ATR1 : cstring := str "gsm.sim.hw_atr1".
Definition GSM_SIM_ATR2 : cstring := str "gsm.sim.hw_atr2".
Definition GSM_SIM_ATR3 : cstring := str "gsm.sim.hw_atr3".

(** The parameters of the system; [GetParameterBuf] is [None] when it fails. *)
Record SysParam : Type := MkParams {
  GetIntParameter : cstring -> Z -> Z;
  GetBoolParameter : cstring -> bool -> bool;
  GetParameter : cstring -> cstring -> cstring;
  GetParameterBuf : cstring -> option cstring
}.

(** [while (std::getline(ss, item, c))]: a final separator adds no empty item. *)
Fixpoint getline_all (c : ascii) (s cur : cstring) : list cstring :=
  match s with
  | [] => match cur with [] => [] | _ => [cur] end
  | x :: t => if decide (x = c) then cur :: getline_all c t [] else getline_all c t (cur ++ [x])
  end.

Definition IsValidSci (sci : Z) : bool :=
  ((ESIM_LSI_CFG_SCI_MIN <=? sci) && (sci <=? ESIM_LSI_CFG_SCI_MAX)) || (sci =? ESIM_LSI_CFG_SCI_INVALID).

Definition ParseSci (sciStr : cstring) : option Z :=
  let '(value, endPtr, erange) := strtol10 sciStr in
  if (erange : bool) || bool_decide (endPtr = sciStr) || negb (bool_decide (endPtr = [])) then None
  else if (value <? ESIM_LSI_CFG_SCI_MIN) || (ESIM_LSI_CFG_SCI_INVALID <? value) then None
  else if IsValidSci value then Some value else None.

(** The loop over the slots: an invalid entry empties the result. *)
Fixpoint sci_loop (items : list cstring) (slots : list Z) (sci : list Z) : outcome (list Z) :=
  match slots with
  | [] => Ret sci
  | slotId :: t =>
      item ← vec_get items (ESIM_LSI_CFG_ESIM_SLOTID_COUNT + slotId * ESIM_LSI_CFG_ITEM_PER_GROUP);
      match ParseSci item with
      | None => Ret []
      | Some v => sci_loop items t (sci ++ [v])
      end
  end.

Section MultiSimHelper.
Context (p : SysParam).

Definition GetEsimSci : outcome (list Z) :=
  let lsiCfg := default [] (GetParameterBuf p ESIM_LSI_CFG_PROP) in
  match lsiCfg with
  | [] => Ret []
  | _ =>
      let items := getline_all "," lsiCfg [] in
      if negb (zlen items =? ESIM_LSI_CFG_ITEM_COUNT) then Ret []
      else sci_loop items [SLOT_ID_0; SLOT_ID_1; SLOT_ID_2; SLOT_ID_3] []
  end.

Definition IsMff2Esim (slotId : Z) (isTstsMode isSupportEsimMep : bool) : outcome bool :=
  if (slotId <? SLOT_ID_0) || (SLOT_ID_3 <? slotId) then Ret false
  else
    sci ← GetEsimSci;
    if negb (zlen sci =? ESIM_LSI_CFG_GROUP_COUNT) then Ret false
    else
      slotSci ← vec_get sci slotId;
      if isTstsMode then Ret (slotSci =? TSTS_ESIM_SCI_ID)
      else
        let simLabelState := GetIntParameter p SIM_LABEL_STATE_PROP PSIM1_PSIM2 in
        Ret (isSupportEsimMep && negb (simLabelState =? PSIM1_PSIM2) && (slotSci =? MEP_ESIM_SCI_ID)).

Definition IsEsimSlot (slotId : Z) (isEuiccAtr : bool) : outcome bool :=
  let isTstsMode := GetIntParameter p TSTS_MODE_PROP TSTS_MODE_OFF =? TSTS_MODE_ON in
  let isSupportEsimMep := GetBoolParameter p SUPPORT_ESIM_MEP false in
  if isEuiccAtr then
    if isTstsMode || isSupportEsimMep then IsMff2Esim slotId isTstsMode isSupportEsimMep
    else
      let esimType := GetParameter p ESIM_SUPPORT_PARAM [] in
      let simLabelState := GetIntParameter p SIM_LABEL_STATE_PROP PSIM1_PSIM2 in
      if bool_decide (esimType = TYPE_ESIM_3_SEL_2) then
        if simLabelState =? PSIM1_PSIM2 then Ret false else Ret (slotId =? SLOT_ID_1)
      else Ret isEuiccAtr
  else Ret isEuiccAtr.

(** [IsSupported]: the answer of [CoreManagerInner] for the slot. *)
Definition IsEsim (IsSupported : Z -> bool) (slotId : Z) : outcome bool :=
  if negb (IsSupported slotId) then Ret false
  else
    let propAtr := if slotId =? SLOT_ID_0 then GSM_SIM_ATR else [] in
    let propAtr := if slotId =? SLOT_ID_1 then GSM_SIM_ATR1 else propAtr in
    let propAtr := if slotId =? SLOT_ID_2 then GSM_SIM_ATR2 else propAtr in
    let propAtr := if slotId =? SLOT_ID_3 then GSM_SIM_ATR3 else propAtr in
    match propAtr with
    | [] => Ret false
    | _ =>
        match GetParameterBuf p propAtr with
        | None | Some [] => Ret false
        | Some cardAtr =>
            '(ok, r) ← AnalysisAtrData cardAtr (MkReset false 0);
            if negb ok then Ret false else IsEsimSlot slotId (IsEuiccAvailable r)
        end
    end.

(** [ext]: [GetSimLabelIndexFromLsiCfg] of the vendor library, [None] when it fails. *)
Definition GetPsimLabelIndex (IsSupported : Z -> bool) (tstsMode_ : Z) (ext : option Z) (slotId : Z) : outcome Z :=
  esim ← IsEsim IsSupported slotId;
  if esim : bool then Ret PSIM1
  else if negb (tstsMode_ =? 0) then Ret (default PSIM1 ext)
  else
    let simLabelState := GetIntParameter p SIM_LABEL_STATE_PROP PSIM1_PSIM2 in
    if simLabelState =? PSIM1_PSIM2 then Ret (if slotId =? 0 then PSIM1 else PSIM2)
    else Ret (if simLabelState =? PSIM1_ESIM then PSIM1 else PSIM2).
End MultiSimHelper.

Example esim_sci_ex :
  GetEsimSci (MkParams (fun _ d => d) (fun _ d => d) (fun _ d => d) (fun _ => Some (str "4,0,1,1,1,2,0,255,1"))) = Ret [0; 1; 2; 255].
Proof. reflexivity. Qed.

(** ** Parsing the configuration *)

Definition sep_free (c : ascii) (s : cstring) : Prop := Forall (fun x => x <> c) s.

Lemma getline_clean c s t cur : sep_free c s -> getline_all c (s ++ t) cur = getline_all c t (cur ++ s).
Proof.
  intros Hs. revert cur. induction Hs as [|x s Hx _ IH]; intros cur; [by rewrite app_nil_r|].
  cbn. rewrite decide_False by done. rewrite IH. by rewrite <- app_assoc.
Qed.

Lemma getline_join c items last :
  Forall (sep_free c) items -> sep_free c last -> last <> [] -> getline_all c (join c (items ++ [last])) [] = items ++ [last].
Proof.
  intros Hi Hl Hne. induction Hi as [|s items Hs _ IH].
  - cbn [app join]. rewrite <- (app_nil_r last) at 1. rewrite getline_clean by done. cbn. by destruct last.
  - assert (join c ((s :: items) ++ [last]) = s ++ c :: join c (items ++ [last])) as -> by (by destruct items).
    rewrite getline_clean by done. cbn [app getline_all]. rewrite decide_True by done. by rewrite IH.
Qed.

(** A valid sub-card index in decimal. *)
Definition sci_digits (ds : list Z) : Prop := ds <> [] /\ Forall is_dec ds /\ IsValidSci (be_value 10 ds) = true.

Lemma IsValidSci_range v : IsValidSci v = true -> 0 <= v <= 255.
Proof.
  unfold IsValidSci, ESIM_LSI_CFG_SCI_MIN, ESIM_LSI_CFG_SCI_MAX, ESIM_LSI_CFG_SCI_INVALID.
  destruct (Z.leb_spec 0 v); destruct (Z.leb_spec v 2); destruct (Z.eqb_spec v 255); cbn; lia || done.
Qed.

Lemma ParseSci_num ds : sci_digits ds -> ParseSci (digit_char <$> ds) = Some (be_value 10 ds).
Proof.
  intros (Hne & Hd & Hv). pose proof (IsValidSci_range _ Hv). unfold ParseSci. rewrite strtol10_num by (done || lia).
  unfold ESIM_LSI_CFG_SCI_MIN, ESIM_LSI_CFG_SCI_INVALID. rewrite bool_decide_eq_false_2 by (by destruct ds). rewrite bool_decide_eq_true_2 by done.
  cbn [orb negb]. destruct (Z.ltb_spec (be_value 10 ds) 0); [lia|]. destruct (Z.ltb_spec 255 (be_value 10 ds)); [lia|]. cbn [orb]. by rewrite Hv.
Qed.

Lemma sci_digits_sep_free ds : sci_digits ds -> sep_free "," (digit_char <$> ds).
Proof.
  intros (_ & Hd & _). apply Forall_fmap. eapply Forall_impl; [exact Hd|]. intros d H. destruct (digit_char_facts d H) as (_ & _ & E).
  intros E'. cbn in E'. rewrite E' in E. unfold is_dec in H. change (code ",") with 44 in E. lia.
Qed.

(** the configuration of the sub-cards is read as written: for every leading item and
    every four pairs of a valid index and an extra item, with commas in between and in
    none of them, [GetEsimSci] gives the four indices in order of the slots. *)
Theorem esim_sci_parsed p head d0 x0 d1 x1 d2 x2 d3 x3 :
  Forall sci_digits [d0; d1; d2; d3] -> Forall (sep_free ",") [head; x0; x1; x2; x3] -> x3 <> [] ->
  GetParameterBuf p ESIM_LSI_CFG_PROP =
    Some (join "," [head; digit_char <$> d0; x0; digit_char <$> d1; x1; digit_char <$> d2; x2; digit_char <$> d3; x3]) ->
  GetEsimSci p = Ret (be_value 10 <$> [d0; d1; d2; d3]).
Proof.
  intros Hd Hx Hne Hp. do 4 (apply Forall_cons in Hd as [? Hd]). do 5 (apply Forall_cons in Hx as [? Hx]).
  set (items := [head; digit_char <$> d0; x0; digit_char <$> d1; x1; digit_char <$> d2; x2; digit_char <$> d3]).
  change (join _ _) with (join "," (items ++ [x3])) in Hp.
  assert (G : getline_all "," (join "," (items ++ [x3])) [] = items ++ [x3]).
  { apply getline_join; [|done|done]. unfold items. repeat apply Forall_cons_2; try apply Forall_nil_2; try done; by apply sci_digits_sep_free. }
  unfold GetEsimSci. rewrite Hp. cbv zeta. cbn [from_option id]. destruct (join "," (items ++ [x3])) as [|c s] eqn:E.
  { cbn in E. by destruct head. }
  rewrite G. change (zlen (items ++ [x3]) =? ESIM_LSI_CFG_ITEM_COUNT) with true. cbn [negb].
  cbn [sci_loop].
  change (vec_get (items ++ [x3]) (ESIM_LSI_CFG_ESIM_SLOTID_COUNT + SLOT_ID_0 * ESIM_LSI_CFG_ITEM_PER_GROUP)) with (Ret (digit_char <$> d0)).
  change (vec_get (items ++ [x3]) (ESIM_LSI_CFG_ESIM_SLOTID_COUNT + SLOT_ID_1 * ESIM_LSI_CFG_ITEM_PER_GROUP)) with (Ret (digit_char <$> d1)).
  change (vec_get (items ++ [x3]) (ESIM_LSI_CFG_ESIM_SLOTID_COUNT + SLOT_ID_2 * ESIM_LSI_CFG_ITEM_PER_GROUP)) with (Ret (digit_char <$> d2)).
  change (vec_get (items ++ [x3]) (ESIM_LSI_CFG_ESIM_SLOTID_COUNT + SLOT_ID_3 * ESIM_LSI_CFG_ITEM_PER_GROUP)) with (Ret (digit_char <$> d3)).
  cbn [mbind outcome_bind]. by rewrite !ParseSci_num.
Qed.

Definition example_params : SysParam :=
  MkParams (fun k d => if bool_decide (k = SIM_LABEL_STATE_PROP) then 1 else d) (fun _ _ => true) (fun _ d => d)
    (fun k => if bool_decide (k = ESIM_LSI_CFG_PROP) then Some (str "4,0,1,1,1,2,0,255,1")
              else Some (str "3B9F96803FC7828031E073FE2111633F10000A01")).

Ltac sci_ok := split; [discriminate|split; [repeat (apply Forall_cons_2; [unfold is_dec; lia|]); apply Forall_nil_2|vm_compute; reflexivity]].

Lemma esim_sci_parsed_witness : GetEsimSci example_params = Ret [0; 1; 2; 255].
Proof.
  apply (esim_sci_parsed example_params (str "4") [0] (str "1") [1] (str "1") [2] (str "0") [2; 5; 5] (str "1")).
  - repeat (apply Forall_cons_2; [sci_ok|]). apply Forall_nil_2.
  - unfold sep_free. repeat (apply Forall_cons_2; [repeat (apply Forall_cons_2; [discriminate|]); apply Forall_nil_2|]). apply Forall_nil_2.
  - discriminate.
  - vm_compute. reflexivity.
Defined.

(** ** The decision *)

Lemma sci_loop_total items slots : forall sci,
  Forall (fun s => 0 <= ESIM_LSI_CFG_ESIM_SLOTID_COUNT + s * ESIM_LSI_CFG_ITEM_PER_GROUP < zlen items) slots ->
  exists l, sci_loop items slots sci = Ret l.
Proof.
  induction slots as [|s slots IH]; intros sci H; [by exists sci|]. apply Forall_cons in H as [Hs H]. cbn [sci_loop].
  destruct (vec_get_in items _ Hs) as (x & -> & _). cbn [mbind outcome_bind]. destruct (ParseSci x); [by apply IH|by exists []].
Qed.

Lemma GetEsimSci_total p : exists l, GetEsimSci p = Ret l.
Proof.
  unfold GetEsimSci. destruct (default [] _) as [|c s]; [by exists []|].
  destruct (Z.eqb_spec (zlen (getline_all "," (c :: s) [])) ESIM_LSI_CFG_ITEM_COUNT) as [E|]; [|by exists []]. cbn [negb].
  apply sci_loop_total. rewrite E. repeat (apply Forall_cons_2; [vm_compute; split; [discriminate|reflexivity]|]). apply Forall_nil_2.
Qed.

Lemma IsMff2Esim_total p slot tsts mep : exists b, IsMff2Esim p slot tsts mep = Ret b /\ (b = true -> 0 <= slot <= 3).
Proof.
  unfold IsMff2Esim, SLOT_ID_0, SLOT_ID_3. destruct (Z.ltb_spec slot 0); [by exists false|]. destruct (Z.ltb_spec 3 slot); [by exists false|]. cbn [orb].
  destruct (GetEsimSci_total p) as (l & ->). cbn [mbind outcome_bind]. destruct (Z.eqb_spec (zlen l) ESIM_LSI_CFG_GROUP_COUNT) as [E|]; [|by exists false].
  cbn [negb]. unfold ESIM_LSI_CFG_GROUP_COUNT in E. destruct (vec_get_in l slot) as (v & -> & _); [lia|]. cbn [mbind outcome_bind].
  destruct tsts; eexists; (split; [reflexivity|lia]).
Qed.

(** whether a slot holds the eSIM is decided for every slot number, whatever the
    system parameters and the answer to reset are: nothing is read out of bounds and the
    analysis ends. The answer is yes only for a supported slot 0 to 3 whose card's
    answer to reset was analysed and offers the eUICC functions. *)
Theorem IsEsim_decided p IsSupported slotId :
  (forall k a, GetParameterBuf p k = Some a -> zlen a <= 65) ->
  exists b, IsEsim p IsSupported slotId = Ret b /\
    (b = true -> IsSupported slotId = true /\ 0 <= slotId <= 3 /\
       exists k cardAtr f, GetParameterBuf p k = Some cardAtr /\ AnalysisAtrData cardAtr (MkReset false 0) = Ret (true, MkReset true f)).
Proof.
  intros Hatr. unfold IsEsim. destruct (IsSupported slotId); [|by exists false]. cbn [negb].
  set (prop := if slotId =? SLOT_ID_3 then _ else _).
  assert (prop <> [] -> 0 <= slotId <= 3) as Hslot.
  { unfold prop, SLOT_ID_0, SLOT_ID_1, SLOT_ID_2, SLOT_ID_3. repeat case_bool; intros; (lia || done). }
  destruct prop as [|c k] eqn:Ep; [by exists false|]. specialize (Hslot ltac:(done)).
  destruct (GetParameterBuf p (c :: k)) as [[|a atr]|] eqn:Ea; [by exists false| |by exists false].
  destruct (AnalysisAtrData_total (a :: atr) (MkReset false 0)) as ([ok r] & Er); [pose proof (Hatr _ _ Ea); lia|].
  rewrite Er. cbn [mbind outcome_bind]. destruct ok; [|by exists false]. cbn [negb]. destruct r as [avail f]. cbn [IsEuiccAvailable isEuiccAvailable_].
  unfold IsEsimSlot. destruct avail; [|by exists false].
  assert (forall b, b = true -> true = true /\ 0 <= slotId <= 3 /\
       exists k cardAtr f, GetParameterBuf p k = Some cardAtr /\ AnalysisAtrData cardAtr (MkReset false 0) = Ret (true, MkReset true f)) as Y.
  { intros b _. split; [done|]. split; [done|]. by exists (c :: k), (a :: atr), f. }
  destruct (_ || _).
  { destruct (IsMff2Esim_total p slotId (GetIntParameter p TSTS_MODE_PROP TSTS_MODE_OFF =? TSTS_MODE_ON) (GetBoolParameter p SUPPORT_ESIM_MEP false)) as (b & -> & _).
    exists b. split; [done|apply Y]. }
  destruct (bool_decide _); [destruct (_ =? PSIM1_PSIM2); [by exists false|]|]; (eexists; split; [reflexivity|apply Y]).
Qed.

Lemma IsEsim_decided_witness : IsEsim example_params (fun _ => true) 1 = Ret true /\
  exists b, IsEsim example_params (fun _ => true) 1 = Ret b /\ (b = true -> 0 <= 1 <= 3).
Proof.
  split; [vm_compute; reflexivity|].
  destruct (IsEsim_decided example_params (fun _ => true) 1) as (b & E & H).
  - intros k a. unfold example_params. cbn [GetParameterBuf]. case_bool_decide; intros [= <-]; vm_compute; discriminate.
  - exists b. split; [exact E|]. intros Hb. exact (proj1 (proj2 (H Hb))).
Defined.

Lemma IsEsimSlot_total p slot euicc : exists b, IsEsimSlot p slot euicc = Ret b.
Proof.
  unfold IsEsimSlot. destruct euicc; [|by eexists]. destruct (_ || _).
  { destruct (IsMff2Esim_total p slot (GetIntParameter p TSTS_MODE_PROP TSTS_MODE_OFF =? TSTS_MODE_ON) (GetBoolParameter p SUPPORT_ESIM_MEP false)) as (b & -> & _).
    by exists b. }
  destruct (bool_decide _); [destruct (_ =? _)|]; by eexists.
Qed.
