(* ===== verification/SimStateHandle.v ===== *)
(** * [services/sim/src/sim_state_handle.cpp]: the state of the card in a slot

    [SimStateHandle] asks the modem for the status of the card, translates it into the
    card type, card state and lock reason that the rest of the system sees, and tells the
    observers, the state registry and the applications about changes; it also sends
    requests for PIN and lock operations and keeps their answers. [ObserverHandler]
    ([services/tel_ril/src/observer_handler.cpp]) keeps the registered observers.

    The members are grouped in records: those of the card's state, the answers, the rest.
    A handler maps the state to a new one and the list of what it tells others. What the
    code asks during a call is the record [Env]. Handlers of events are pointers,
    numbered here; a null pointer is [None]. Mutexes are not modelled. *)

From S2P Require Import Prelude CxxString Apdu EsimSlot.

(** ** Constants ([icc_state.h], [radio_event.h], [sim_state_handle.h], [sim_constant.h]) *)

Definition ICC_CONTENT_UNKNOWN : Z := -1.
Definition ICC_CARD_ABSENT : Z := 0.
Definition ICC_CONTENT_READY : Z := 1.
Definition ICC_CONTENT_PIN : Z := 2.
Definition ICC_CONTENT_PUK : Z := 3.
Definition ICC_CONTENT_PH_NET_PIN : Z := 6.
Definition ICC_CONTENT_PH_NET_PUK : Z := 7.
Definition ICC_CONTENT_PH_NET_SUB_PIN : Z := 8.
Definition ICC_CONTENT_PH_NET_SUB_PUK : Z := 9.
Definition ICC_CONTENT_PH_SP_PIN : Z := 10.
Definition ICC_CONTENT_PH_SP_PUK : Z := 11.

Definition ICC_UNKNOWN_TYPE : Z := 0.
Definition ICC_SIM_TYPE : Z := 1.
Definition ICC_USIM_TYPE : Z := 2.
Definition ICC_RUIM_TYPE : Z := 4.
Definition ICC_CG_TYPE : Z := 5.
Definition ICC_DUAL_MODE_ROAMING_TYPE : Z := 7.
Definition ICC_UNICOM_DUAL_MODE_TYPE : Z := 8.
Definition ICC_4G_LTE_TYPE : Z := 9.
Definition ICC_UG_TYPE : Z := 10.
Definition ICC_IMS_TYPE : Z := 11.

Definition RADIO_STATE_CHANGED : Z := 0.
Definition RADIO_SIM_STATE_CHANGE : Z := 515.
Definition RADIO_SIM_STATE_READY : Z := 516.
Definition RADIO_SIM_STATE_LOCKED : Z := 517.
Definition RADIO_SIM_STATE_SIMLOCK : Z := 518.
Definition RADIO_SIM_ICCID_LOADED : Z := 530.
Definition RADIO_CARD_TYPE_CHANGE : Z := 553.

Definition MSG_SIM_GET_ICC_STATUS_DONE : Z := 3.
Definition MSG_SIM_UNLOCK_PIN_DONE : Z := 4.
Definition MSG_SIM_UNLOCK_PUK_DONE : Z := 5.
Definition MSG_SIM_CHANGE_PIN_DONE : Z := 6.
Definition MSG_SIM_CHECK_PIN_DONE : Z := 7.
Definition MSG_SIM_ENABLE_PIN_DONE : Z := 8.
Definition MSG_SIM_GET_REALTIME_ICC_STATUS_DONE : Z := 21.
Definition MSG_SIM_UNLOCK_PIN2_DONE : Z := 31.
Definition MSG_SIM_UNLOCK_PUK2_DONE : Z := 32.
Definition MSG_SIM_CHANGE_PIN2_DONE : Z := 33.
Definition MSG_SIM_UNLOCK_SIMLOCK_DONE : Z := 51.
Definition MSG_SIM_AUTHENTICATION_DONE : Z := 61.
Definition MSG_SIM_SEND_NCFG_OPER_INFO_DONE : Z := 62.
Definition MSG_SIM_GET_SIM_IO_DONE : Z := 71.
Definition EVENT_MATCH_SIM_TIMEOUT : Z := 72.

Definition ICC_STATE_NOT_READY : Z := 1.
Definition ICC_STATE_ABSENT : Z := 2.
Definition ICC_STATE_READY : Z := 3.
Definition ICC_STATE_PIN : Z := 6.
Definition ICC_STATE_PUK : Z := 7.
Definition ICC_STATE_SIMLOCK : Z := 8.

Definition UNLOCK_FAIL : Z := -2.
Definition TELEPHONY_ERROR : Z := -1.
Definition LOCK_ERROR : Z := 2.
Definition SIM_AUTH_FAIL : Z := -1.
Definition CORE_SERVICE_POWER_NOT_AVAILABLE : Z := -1.
Definition VSIM_SLOT_ID : Z := 2.
Definition DUAL_SLOT_COUNT : Z := 2.
Definition MAX_INNER_SLOT_NUM : Z := 4.
Definition SIM_SLOT_0 : Z := 0.
Definition SIM_SLOT_1 : Z := 1.
Definition TYPE_ESIM_ONLY : cstring := str "6".
Definition FAC_PIN_LOCK : cstring := str "SC".
Definition FDN_PIN_LOCK : cstring := str "P2".
Definition FDN_PIN2_LOCK : cstring := str "FD".
Definition USIM_AID : cstring := str "USIM_AID".
Definition CDMA_FAKE_AID : cstring := str "CDMA_FAKE_AID".
Definition GSM_FAKE_AID : cstring := str "GSM_FAKE_AID".

(** ** What the rest of the system sees ([sim_state_type.h]) *)

Inductive CardType : Type :=
| UNKNOWN_CARD | SINGLE_MODE_SIM_CARD | SINGLE_MODE_USIM_CARD | SINGLE_MODE_RUIM_CARD | DUAL_MODE_CG_CARD
| CT_NATIONAL_ROAMING_CARD | CU_DUAL_MODE_CARD | DUAL_MODE_TELECOM_LTE_CARD | DUAL_MODE_UG_CARD | SINGLE_MODE_ISIM_CARD.
Inductive SimState : Type :=
| SIM_STATE_UNKNOWN | SIM_STATE_NOT_PRESENT | SIM_STATE_LOCKED | SIM_STATE_NOT_READY | SIM_STATE_READY | SIM_STATE_LOADED.
Inductive LockReason : Type :=
| SIM_NONE | SIM_PIN | SIM_PUK | SIM_PN_PIN | SIM_PN_PUK | SIM_PU_PIN | SIM_PU_PUK | SIM_PP_PIN | SIM_PP_PUK
| SIM_PC_PIN | SIM_PC_PUK | SIM_SIM_PIN | SIM_SIM_PUK.
Inductive LockType : Type := PIN_LOCK | FDN_LOCK.

#[export] Instance CardType_eq_dec : EqDecision CardType.
Proof. solve_decision. Defined.
#[export] Instance SimState_eq_dec : EqDecision SimState.
Proof. solve_decision. Defined.
#[export] Instance LockReason_eq_dec : EqDecision LockReason.
Proof. solve_decision. Defined.

(** [state >= SimState::SIM_STATE_READY]. *)
Definition at_least_ready (s : SimState) : bool :=
  match s with SIM_STATE_READY | SIM_STATE_LOADED => true | _ => false end.

(** The members hold the values the modem reports, of any value. *)
Record IccState : Type := MkIcc { simType_ : Z; simStatus_ : Z; icc_iccid : cstring }.
Definition IccState_new : IccState := MkIcc 0 ICC_CARD_ABSENT [].

Record UnlockData : Type := MkUnlock { result : Z; remain : Z; lockState : Z }.
Record SimAuthenticationResponse : Type := MkAuth { sw1 : Z; sw2 : Z; response : cstring }.
Record LockStatusResponse : Type := MkLockStatus { lock_result : Z; lock_remain : Z }.

(** ** Effects *)

Definition handler : Type := positive.

Inductive RilRequest : Type :=
| UnlockPin_ (slot : Z) (pin : cstring) (reply : Z)
| UnlockPuk_ (slot : Z) (puk newPin : cstring) (reply : Z)
| UnlockPin2_ (slot : Z) (pin2 : cstring) (reply : Z)
| UnlockPuk2_ (slot : Z) (puk2 newPin2 : cstring) (reply : Z)
| ChangeSimPassword (slot length : Z) (fac oldPassword newPassword : cstring) (reply : Z)
| SetSimLock (slot mode : Z) (passwd fac : cstring) (reply : Z)
| UnlockSimLock_ (slot lockType : Z) (password : cstring) (reply : Z)
| GetSimLockStatus (slot : Z) (fac : cstring) (reply : Z)
| GetSimStatus (slot : Z) (reply : Z)
| SimAuthentication_ (slot serial : Z) (aid authData : cstring) (reply : Z)
| SendSimMatchedOperatorInfo_ (slot state : Z) (operName operKey : cstring) (reply : Z)
| GetSimIO_ (slot : Z) (reply : Z)
| RegisterRil (slot what : Z)
| UnRegisterRil (slot what : Z).

Inductive effect : Type :=
| SendTelEvent (h : handler) (what param : Z)
| PublishSimStateEvent (code : Z)
| WriteSimStateBehaviorEvent (slot : Z) (s : SimState)
| UpdateSimState (slot : Z) (t : CardType) (s : SimState) (r : LockReason)
| ResetSimLoadAccount (slot : Z)
| SetVerifyResult (slot : Z) (b : bool)
| CacheAssetPin (slot : Z) (iccid : cstring)
| UpdateHotPlugCardState (slot : Z) (s : SimState)
| PublishContainerDisableHotZone (slot : Z)
| CheckIfNeedSwitchMainSlotId
| InitOperatorConfigHisysevent (slot status : Z)
| StartMatchSimTimeoutTimer
| ReportMatchSimChr (slot : Z)
| SyncSimMatchResponse
| SyncUnlockPinResponse
| SyncCmdResponse
| Ril (r : RilRequest).

(** ** [ObserverHandler] *)

Definition ObserverHandler : Type := gmap Z (list handler).

Definition RegObserver (what : Z) (h : option handler) (o : ObserverHandler) : ObserverHandler :=
  match h with
  | None => o
  | Some h =>
      match o !! what with
      | Some handlers => if decide (h ∈ handlers) then o else <[what := handlers ++ [h]]> o
      | None => <[what := [h]]> o
      end
  end.

(** [handlers.erase(it)] of the first occurrence. *)
Fixpoint erase_first (h : handler) (l : list handler) : list handler :=
  match l with [] => [] | x :: t => if decide (x = h) then t else x :: erase_first h t end.

Definition Remove (what : Z) (h : option handler) (o : ObserverHandler) : ObserverHandler :=
  match h with
  | None => o
  | Some h => match o !! what with Some handlers => <[what := erase_first h handlers]> o | None => o end
  end.

Definition RemoveAll (o : ObserverHandler) : ObserverHandler := ∅.

Definition observers (o : ObserverHandler) (what : Z) : list handler := default [] (o !! what).
Definition NotifyObserver (what param : Z) (o : ObserverHandler) : list effect :=
  (fun h => SendTelEvent h what param) <$> observers o what.
(** Through the pointer, which may be null. *)
Definition notify (o : option ObserverHandler) (what param : Z) : list effect :=
  match o with Some o => NotifyObserver what param o | None => [] end.

(** ** State *)

Record Card : Type := MkCard {
  modemInitDone_ : bool;
  oldSimType_ : Z;
  oldSimStatus_ : Z;
  iccState_ : IccState;
  externalState_ : SimState;
  externalType_ : CardType;
  lockReason_ : LockReason;
  iccid_ : cstring;
  needReupdate_ : bool
}.

Record Answers : Type := MkAnswers {
  unlockRespon_ : UnlockData;
  simAuthRespon_ : SimAuthenticationResponse;
  simIORespon_ : SimAuthenticationResponse;
  sendSimMatchedOperatorInfoResult_ : Z;
  simlockRespon_ : LockStatusResponse
}.

Record SimStateHandle : Type := MkHandle {
  slotId_ : Z;
  card : Card;
  answers : Answers;
  observerHandler_ : option ObserverHandler;
  oldIccid_ : cstring;
  specifiedIccid_ : cstring;
  isInSenseSwitchPhase_ : bool;
  isInitPrimarySlotReady : bool
}.

(** The constructor leaves [externalState_] without a value; [Init] gives it one. *)
Definition Card_new : Card := MkCard false ICC_UNKNOWN_TYPE ICC_CONTENT_UNKNOWN IccState_new SIM_STATE_UNKNOWN UNKNOWN_CARD SIM_NONE [] false.
Definition Answers_new : Answers :=
  MkAnswers (MkUnlock UNLOCK_FAIL TELEPHONY_ERROR LOCK_ERROR) (MkAuth 0 0 []) (MkAuth 0 0 []) 0 (MkLockStatus UNLOCK_FAIL TELEPHONY_ERROR).
Definition SimStateHandle_new : SimStateHandle := MkHandle 0 Card_new Answers_new None [] [] false false.

Definition set_card (c : Card) (h : SimStateHandle) : SimStateHandle :=
  MkHandle (slotId_ h) c (answers h) (observerHandler_ h) (oldIccid_ h) (specifiedIccid_ h) (isInSenseSwitchPhase_ h) (isInitPrimarySlotReady h).
Definition set_answers (a : Answers) (h : SimStateHandle) : SimStateHandle :=
  MkHandle (slotId_ h) (card h) a (observerHandler_ h) (oldIccid_ h) (specifiedIccid_ h) (isInSenseSwitchPhase_ h) (isInitPrimarySlotReady h).
Definition set_observers (o : option ObserverHandler) (h : SimStateHandle) : SimStateHandle :=
  MkHandle (slotId_ h) (card h) (answers h) o (oldIccid_ h) (specifiedIccid_ h) (isInSenseSwitchPhase_ h) (isInitPrimarySlotReady h).

Definition set_iccState v (c : Card) : Card :=
  MkCard (modemInitDone_ c) (oldSimType_ c) (oldSimStatus_ c) v (externalState_ c) (externalType_ c) (lockReason_ c) (iccid_ c) (needReupdate_ c).
Definition set_type old ext (c : Card) : Card :=
  MkCard (modemInitDone_ c) old (oldSimStatus_ c) (iccState_ c) (externalState_ c) ext (lockReason_ c) (iccid_ c) (needReupdate_ c).
Definition set_modemInitDone v (c : Card) : Card :=
  MkCard v (oldSimType_ c) (oldSimStatus_ c) (iccState_ c) (externalState_ c) (externalType_ c) (lockReason_ c) (iccid_ c) (needReupdate_ c).
Definition set_state old st iccid (c : Card) : Card :=
  MkCard (modemInitDone_ c) (oldSimType_ c) old (iccState_ c) st (externalType_ c) (lockReason_ c) iccid (needReupdate_ c).
Definition set_told reason again (c : Card) : Card :=
  MkCard (modemInitDone_ c) (oldSimType_ c) (oldSimStatus_ c) (iccState_ c) (externalState_ c) (externalType_ c) reason (iccid_ c) again.

(** ** What is asked during a call *)

Record Env : Type := MkEnv {
  telRilManager : bool;
  simStateManager : bool;
  operatorConfigHisysevent : bool;
  (** compiled with CORE_SERVICE_SUPPORT_ESIM *)
  support_esim : bool;
  params : SysParam;
  (** [CoreManagerInner::IsEsim] *)
  core_IsEsim : Z -> bool;
  (** [UpdateSimState] returns [TELEPHONY_ERR_IPC_CONNECT_STUB_FAIL] *)
  registry_unreachable : bool;
  publishContainerDisableHotZoneInd : bool;
  updateHotPlugCardState : bool;
  cacheAssetPinForUpgrade : bool;
  (** [isVSimEnabled_], when the vendor library has it *)
  isVSimEnabled : option bool;
  VSIM_MODEM_COUNT : Z;
  (** results of [SimAuthentication] and [GetSimIO] of the RIL manager *)
  ril_result : Z
}.

(** The part without a satellite service. *)
Definition Init (e : Env) (slotId : Z) (h : SimStateHandle) : SimStateHandle * list effect :=
  let h := MkHandle slotId (card h) (answers h) (observerHandler_ h) (oldIccid_ h) (specifiedIccid_ h) (isInSenseSwitchPhase_ h) (isInitPrimarySlotReady h) in
  if negb (telRilManager e) then (h, [])
  else
    let c := card h in
    (set_card (MkCard (modemInitDone_ c) (oldSimType_ c) (oldSimStatus_ c) (iccState_ c) SIM_STATE_UNKNOWN UNKNOWN_CARD (lockReason_ c) (iccid_ c) (needReupdate_ c))
       (set_observers (Some ∅) h),
     [Ril (RegisterRil slotId RADIO_SIM_STATE_CHANGE); Ril (RegisterRil slotId RADIO_STATE_CHANGED); WriteSimStateBehaviorEvent slotId SIM_STATE_UNKNOWN]).

Definition UnInit (e : Env) (h : SimStateHandle) : list effect :=
  if telRilManager e then [Ril (UnRegisterRil (slotId_ h) RADIO_SIM_STATE_CHANGE); Ril (UnRegisterRil (slotId_ h) RADIO_STATE_CHANGED)] else [].

Definition HasSimCard (e : Env) (h : SimStateHandle) : bool :=
  let s := simStatus_ (iccState_ (card h)) in
  negb ((s =? ICC_CARD_ABSENT) || ((s =? ICC_CONTENT_UNKNOWN) && core_IsEsim e (slotId_ h))).

Definition GetSimState (h : SimStateHandle) : SimState := externalState_ (card h).
Definition GetSimIccStatus (h : SimStateHandle) : Z := oldSimStatus_ (card h).
Definition GetCardType (h : SimStateHandle) : CardType := externalType_ (card h).
Definition GetIccid (h : SimStateHandle) : cstring := iccid_ (card h).
Definition GetOldIccid (h : SimStateHandle) : cstring := oldIccid_ h.
Definition IsIccReady (h : SimStateHandle) : bool := at_least_ready (externalState_ (card h)).
Definition IsIccLocked (h : SimStateHandle) : bool := bool_decide (externalState_ (card h) = SIM_STATE_LOCKED).

Definition SetSimState (s : SimState) (h : SimStateHandle) : SimStateHandle :=
  let c := card h in
  set_card (MkCard (modemInitDone_ c) (oldSimType_ c) (oldSimStatus_ c) (iccState_ c) s (externalType_ c) (lockReason_ c) (iccid_ c) (needReupdate_ c)) h.

(** ** The card's state *)

Definition card_type (simType : Z) : CardType :=
  if simType =? ICC_UNKNOWN_TYPE then UNKNOWN_CARD
  else if simType =? ICC_SIM_TYPE then SINGLE_MODE_SIM_CARD
  else if simType =? ICC_USIM_TYPE then SINGLE_MODE_USIM_CARD
  else if simType =? ICC_RUIM_TYPE then SINGLE_MODE_RUIM_CARD
  else if simType =? ICC_CG_TYPE then DUAL_MODE_CG_CARD
  else if simType =? ICC_DUAL_MODE_ROAMING_TYPE then CT_NATIONAL_ROAMING_CARD
  else if simType =? ICC_UNICOM_DUAL_MODE_TYPE then CU_DUAL_MODE_CARD
  else if simType =? ICC_4G_LTE_TYPE then DUAL_MODE_TELECOM_LTE_CARD
  else if simType =? ICC_UG_TYPE then DUAL_MODE_UG_CARD
  else if simType =? ICC_IMS_TYPE then SINGLE_MODE_ISIM_CARD
  else UNKNOWN_CARD.

Definition CardTypeEscape (simType slotId : Z) (o : option ObserverHandler) (externalType : CardType) : CardType * list effect :=
  let t := card_type simType in
  (t, if decide (t = externalType) then [] else notify o RADIO_CARD_TYPE_CHANGE 0).

Definition NotifySimLock (slotId : Z) (o : option ObserverHandler) : SimState * list effect :=
  (SIM_STATE_LOCKED,
   WriteSimStateBehaviorEvent slotId SIM_STATE_LOCKED :: notify o RADIO_SIM_STATE_SIMLOCK 0 ++ [PublishSimStateEvent ICC_STATE_SIMLOCK]).

Definition SimLockStateEscape (simState slotId : Z) (reason : LockReason) (o : option ObserverHandler) : SimState * LockReason * list effect :=
  let locked r := let '(s, out) := NotifySimLock slotId o in (s, r, out) in
  if simState =? ICC_CONTENT_PH_NET_PIN then locked SIM_PN_PIN
  else if simState =? ICC_CONTENT_PH_NET_PUK then locked SIM_PN_PUK
  else if simState =? ICC_CONTENT_PH_NET_SUB_PIN then locked SIM_PU_PIN
  else if simState =? ICC_CONTENT_PH_NET_SUB_PUK then locked SIM_PU_PUK
  else if simState =? ICC_CONTENT_PH_SP_PIN then locked SIM_PP_PIN
  else if simState =? ICC_CONTENT_PH_SP_PUK then locked SIM_PP_PUK
  else (SIM_STATE_UNKNOWN, reason, [WriteSimStateBehaviorEvent slotId SIM_STATE_UNKNOWN; PublishSimStateEvent ICC_STATE_NOT_READY]).

Definition SimStateEscape (simState slotId : Z) (reason : LockReason) (o : option ObserverHandler) : SimState * LockReason * list effect :=
  let '(s, reason, out) :=
    if simState =? ICC_CARD_ABSENT then (SIM_STATE_NOT_PRESENT, reason, [PublishSimStateEvent ICC_STATE_ABSENT])
    else if simState =? ICC_CONTENT_READY then
      (SIM_STATE_READY, reason, notify o RADIO_SIM_STATE_READY slotId ++ [PublishSimStateEvent ICC_STATE_READY])
    else if simState =? ICC_CONTENT_PIN then
      (SIM_STATE_LOCKED, SIM_PIN, notify o RADIO_SIM_STATE_LOCKED slotId ++ [PublishSimStateEvent ICC_STATE_PIN])
    else if simState =? ICC_CONTENT_PUK then
      (SIM_STATE_LOCKED, SIM_PUK, notify o RADIO_SIM_STATE_LOCKED slotId ++ [PublishSimStateEvent ICC_STATE_PUK])
    else SimLockStateEscape simState slotId reason o in
  (s, reason, out ++ [WriteSimStateBehaviorEvent slotId s]).

(** [simIccStatusMap_] of [enum_convert.h]. *)
Definition simIccStatusMap_ (status : Z) : option cstring :=
  if status =? ICC_CONTENT_UNKNOWN then Some (str "ICC_CONTENT_UNKNOWN")
  else if status =? ICC_CARD_ABSENT then Some (str "ICC_CARD_ABSENT")
  else if status =? ICC_CONTENT_READY then Some (str "ICC_CONTENT_READY")
  else if status =? ICC_CONTENT_PIN then Some (str "ICC_CONTENT_PIN")
  else if status =? ICC_CONTENT_PUK then Some (str "ICC_CONTENT_PUK")
  else None.

Definition PublishHotZoneInd (e : Env) (newSimStatus slotId oldSimStatus : Z) : list effect :=
  if negb (newSimStatus =? oldSimStatus) && ((newSimStatus =? ICC_CONTENT_UNKNOWN) || (newSimStatus =? ICC_CARD_ABSENT)) && negb (core_IsEsim e slotId)
  then if publishContainerDisableHotZoneInd e then [PublishContainerDisableHotZone slotId] else []
  else [].

Definition IsSupportedEsim (e : Env) (slotId : Z) : bool :=
  let esimType := GetParameter (params e) ESIM_SUPPORT_PARAM [] in
  let isEsim3Sel2 := bool_decide (esimType = TYPE_ESIM_3_SEL_2) && (slotId =? SIM_SLOT_1) in
  let isEsimOnly := bool_decide (esimType = TYPE_ESIM_ONLY) && (slotId =? SIM_SLOT_0) in
  let isSupportEsimMep := GetBoolParameter (params e) SUPPORT_ESIM_MEP false in
  isEsim3Sel2 || isEsimOnly || isSupportEsimMep.

(** [GSM_SIM_ATR + std::to_string(slotId_)]: the slot is below [MAX_INNER_SLOT_NUM]
    here, and not negative ([CoreManagerInner] checks it before a handle is made). *)
Definition atr_property (slotId : Z) : cstring :=
  if slotId =? SIM_SLOT_0 then GSM_SIM_ATR else GSM_SIM_ATR ++ [digit_char slotId].

Definition IsEsim (e : Env) (slotId : Z) : outcome bool :=
  if negb (support_esim e) then Ret false
  else if (MAX_INNER_SLOT_NUM <=? slotId) || negb (IsSupportedEsim e slotId) then Ret false
  else
    match default [] (GetParameterBuf (params e) (atr_property slotId)) with
    | [] => Ret false
    | cardAtr =>
        '(ok, r) ← AnalysisAtrData cardAtr (MkReset false 0);
        if negb ok then Ret false else IsEsimSlot (params e) slotId (IsEuiccAvailable r)
    end.

Definition ProcessNewSimStatus (e : Env) (newSimStatus slotId : Z) (c : Card) : outcome (Card * list effect) :=
  if newSimStatus =? ICC_CONTENT_UNKNOWN then
    esim ← IsEsim e slotId;
    if (esim : bool) && modemInitDone_ c then
      Ret (c, if oldSimStatus_ c =? ICC_CONTENT_READY then [CheckIfNeedSwitchMainSlotId] else [])
    else Ret (set_modemInitDone false c, [])
  else Ret (c, []).

Definition UpdateSimStateToStateRegistry (e : Env) (slotId : Z) (reason : LockReason) (c : Card) : Card * list effect :=
  (set_told reason (registry_unreachable e) c, [UpdateSimState slotId (externalType_ c) (externalState_ c) reason]).

Definition HandleSimAbsent (e : Env) (slotId : Z) (c : Card) : list effect :=
  [ResetSimLoadAccount slotId] ++ (if support_esim e then [SetVerifyResult slotId false] else [])
  ++ (if cacheAssetPinForUpgrade e then [CacheAssetPin slotId (iccid_ c)] else []).

Definition InitMatchSimInfo (e : Env) (slotId simState : Z) : list effect :=
  if operatorConfigHisysevent e then [InitOperatorConfigHisysevent slotId simState; StartMatchSimTimeoutTimer] else [].

(** [iter->second] is the first thing the log needs: undefined for a status that is not
    in the map. [slot] is the member [slotId_], [slotId] the argument. *)
Definition ProcessIccCardState (e : Env) (ar : IccState) (slotId : Z) (modemInitDone : bool) (h : SimStateHandle)
  : outcome (SimStateHandle * list effect) :=
  let o := observerHandler_ h in
  let newSimType := simType_ ar in
  let newSimStatus := simStatus_ ar in
  let c := set_iccState ar (card h) in
  match simIccStatusMap_ newSimStatus with
  | None => Undef
  | Some _ =>
      let '(c, out1) :=
        if oldSimType_ c =? newSimType then (c, [])
        else let '(t, out) := CardTypeEscape newSimType slotId o (externalType_ c) in (set_type newSimType t c, out) in
      let out2 := PublishHotZoneInd e newSimStatus slotId (oldSimStatus_ c) in
      let c := set_modemInitDone modemInitDone c in
      '(c, out3) ← ProcessNewSimStatus e newSimStatus (slotId_ h) c;
      if negb (oldSimStatus_ c =? newSimStatus) then
        let '(st, reason, out4) := SimStateEscape newSimStatus slotId SIM_NONE o in
        let out5 := InitMatchSimInfo e slotId newSimStatus in
        let c := set_state newSimStatus st (icc_iccid ar) c in
        let out6 := if newSimStatus =? ICC_CARD_ABSENT then HandleSimAbsent e slotId c else [] in
        let out7 := notify o RADIO_SIM_STATE_CHANGE slotId
                    ++ (match iccid_ c with [] => [] | _ => notify o RADIO_SIM_ICCID_LOADED slotId end) in
        let '(c, out8) := UpdateSimStateToStateRegistry e slotId reason c in
        let out9 := if updateHotPlugCardState e then [UpdateHotPlugCardState slotId (externalState_ c)] else [] in
        Ret (set_card c h, out1 ++ out2 ++ out3 ++ out4 ++ out5 ++ out6 ++ out7 ++ out8 ++ out9)
      else if needReupdate_ c then
        let '(c, out4) := UpdateSimStateToStateRegistry e slotId (lockReason_ c) c in
        Ret (set_card c h, out1 ++ out2 ++ out3 ++ out4)
      else Ret (set_card c h, out1 ++ out2 ++ out3)
  end.

(** The member the registry is updated from without arguments. *)
Definition UpdateSimStateToStateRegistry_again (e : Env) (h : SimStateHandle) : SimStateHandle * list effect :=
  let '(c, out) := UpdateSimStateToStateRegistry e (slotId_ h) (lockReason_ (card h)) (card h) in (set_card c h, out).

Definition SetIccCardState (e : Env) (slotId simStatus : Z) (h : SimStateHandle) : outcome (SimStateHandle * list effect) :=
  ProcessIccCardState e (MkIcc ICC_UNKNOWN_TYPE simStatus []) slotId true h.

Definition ProcessRadioStateUnavailable (e : Env) (h : SimStateHandle) : outcome (SimStateHandle * list effect) :=
  let h := set_card (set_modemInitDone false (card h)) h in
  if negb (simStatus_ (iccState_ (card h)) =? ICC_CARD_ABSENT) then
    ProcessIccCardState e (MkIcc ICC_UNKNOWN_TYPE ICC_CONTENT_UNKNOWN []) (slotId_ h) (modemInitDone_ (card h)) h
  else Ret (h, []).

(** ** Requests *)

Section Requests.
Context (e : Env) (slotId : Z).
Definition request (r : RilRequest) : list effect := if telRilManager e then [Ril r] else [].

Definition UnlockPin (pin : cstring) : list effect := request (UnlockPin_ slotId pin MSG_SIM_UNLOCK_PIN_DONE).
Definition UnlockPuk (newPin puk : cstring) : list effect := request (UnlockPuk_ slotId puk newPin MSG_SIM_UNLOCK_PUK_DONE).
Definition UnlockPin2 (pin2 : cstring) : list effect := request (UnlockPin2_ slotId pin2 MSG_SIM_UNLOCK_PIN2_DONE).
Definition UnlockPuk2 (newPin2 puk2 : cstring) : list effect := request (UnlockPuk2_ slotId puk2 newPin2 MSG_SIM_UNLOCK_PUK2_DONE).
Definition AlterPin (newPin oldPin : cstring) : list effect :=
  request (ChangeSimPassword slotId (i32 (zlen newPin)) FAC_PIN_LOCK oldPin newPin MSG_SIM_CHANGE_PIN_DONE).
Definition AlterPin2 (newPin2 oldPin2 : cstring) : list effect :=
  request (ChangeSimPassword slotId (i32 (zlen newPin2)) FDN_PIN_LOCK oldPin2 newPin2 MSG_SIM_CHANGE_PIN2_DONE).
(** The passwords are given after [Str16ToStr8]. *)
Definition SetLockState (lockType : LockType) (lockState : Z) (password : cstring) : list effect :=
  request (SetSimLock slotId lockState password (match lockType with PIN_LOCK => FAC_PIN_LOCK | FDN_LOCK => FDN_PIN2_LOCK end) MSG_SIM_ENABLE_PIN_DONE).
Definition UnlockSimLock (lockType : Z) (password : cstring) : list effect :=
  request (UnlockSimLock_ slotId lockType password MSG_SIM_UNLOCK_SIMLOCK_DONE).
Definition GetLockState (lockType : LockType) : list effect :=
  request (GetSimLockStatus slotId (match lockType with PIN_LOCK => FAC_PIN_LOCK | FDN_LOCK => FDN_PIN2_LOCK end) MSG_SIM_CHECK_PIN_DONE).
Definition ObtainIccStatus (h : SimStateHandle) : list effect :=
  if isInSenseSwitchPhase_ h then [] else request (GetSimStatus slotId MSG_SIM_GET_ICC_STATUS_DONE).
Definition ObtainRealtimeIccStatus : list effect := request (GetSimStatus slotId MSG_SIM_GET_REALTIME_ICC_STATUS_DONE).

Definition GetAidByCardType (t : CardType) : cstring :=
  match t with
  | SINGLE_MODE_RUIM_CARD => CDMA_FAKE_AID
  | SINGLE_MODE_SIM_CARD | DUAL_MODE_CG_CARD | CT_NATIONAL_ROAMING_CARD | CU_DUAL_MODE_CARD
  | DUAL_MODE_TELECOM_LTE_CARD | DUAL_MODE_UG_CARD => GSM_FAKE_AID
  | _ => USIM_AID
  end.

Definition SimAuthentication (authType : Z) (authData : cstring) (h : SimStateHandle) : Z * list effect :=
  if telRilManager e then
    (ril_result e, [Ril (SimAuthentication_ slotId authType (GetAidByCardType (externalType_ (card h))) authData MSG_SIM_AUTHENTICATION_DONE)])
  else (SIM_AUTH_FAIL, []).
Definition SendSimMatchedOperatorInfo (state : Z) (operName operKey : cstring) : list effect :=
  request (SendSimMatchedOperatorInfo_ slotId state operName operKey MSG_SIM_SEND_NCFG_OPER_INFO_DONE).
Definition GetSimIO : Z * list effect :=
  if telRilManager e then (ril_result e, [Ril (GetSimIO_ slotId MSG_SIM_GET_SIM_IO_DONE)]) else (SIM_AUTH_FAIL, []).
End Requests.

Definition SetInSenseSwitchPhase (flag : bool) (h : SimStateHandle) : SimStateHandle :=
  MkHandle (slotId_ h) (card h) (answers h) (observerHandler_ h) (oldIccid_ h) (specifiedIccid_ h) flag (isInitPrimarySlotReady h).
Definition SetInitPrimarySlotReady (isReady : bool) (h : SimStateHandle) : SimStateHandle :=
  MkHandle (slotId_ h) (card h) (answers h) (observerHandler_ h) (oldIccid_ h) (specifiedIccid_ h) (isInSenseSwitchPhase_ h) isReady.
Definition GetInitPrimarySlotReady (h : SimStateHandle) : bool := isInitPrimarySlotReady h.
Definition SetSpecifiedIccidBySlotId (iccid : cstring) (h : SimStateHandle) : SimStateHandle :=
  MkHandle (slotId_ h) (card h) (answers h) (observerHandler_ h) (oldIccid_ h) iccid (isInSenseSwitchPhase_ h) (isInitPrimarySlotReady h).

(** ** Events *)

(** The shared object of an event; [GetSharedObject] gives it when the type fits. *)
Inductive payload : Type :=
| PNone
| PSimCardStatusInfo (simType simState : Z) (iccid : cstring)
| PRadioResponseInfo (error : Z)
| PInt (v : Z)
| PInt32Parcel (v : Z)
| PLockStatusResp (res rem : Z)
| PIccIoResultInfo (s1 s2 : Z) (resp : cstring).
Record event : Type := MkEvent { id : Z; object : payload }.

Definition GetSimCardData (e : Env) (slotId : Z) (ev : event) (h : SimStateHandle) : outcome (SimStateHandle * list effect) :=
  if isInSenseSwitchPhase_ h then Ret (h, [])
  else
    let report :=
      match object ev with
      | PSimCardStatusInfo t s i => Some (MkIcc t s i, true)
      | PRadioResponseInfo _ =>
          if negb (VSIM_MODEM_COUNT e =? DUAL_SLOT_COUNT) then None
          else if default false (isVSimEnabled e) && negb (slotId =? VSIM_SLOT_ID)
          then Some (MkIcc (oldSimType_ (card h)) ICC_CARD_ABSENT (iccid_ (card h)), modemInitDone_ (card h))
          else None
      | _ => None
      end in
    match report with
    | None => Ret (h, [])
    | Some (iccState, modemInitDone) =>
        if negb (bool_decide (specifiedIccid_ h = [])) && negb (bool_decide (specifiedIccid_ h = icc_iccid iccState)) then Ret (h, [])
        else ProcessIccCardState e iccState slotId modemInitDone h
    end.

Definition set_unlock (u : UnlockData) (h : SimStateHandle) : SimStateHandle :=
  let a := answers h in set_answers (MkAnswers u (simAuthRespon_ a) (simIORespon_ a) (sendSimMatchedOperatorInfoResult_ a) (simlockRespon_ a)) h.

Definition GetSimLockState (ev : event) (h : SimStateHandle) : SimStateHandle :=
  let u := unlockRespon_ (answers h) in
  match object ev with
  | PInt v => set_unlock (MkUnlock (result u) (remain u) v) h
  | PRadioResponseInfo _ => set_unlock (MkUnlock (result u) (remain u) LOCK_ERROR) h
  | _ => h
  end.

Definition GetUnlockResult (ev : event) (h : SimStateHandle) : SimStateHandle :=
  let u := unlockRespon_ (answers h) in
  match object ev with
  | PLockStatusResp res rem => set_unlock (MkUnlock res rem (lockState u)) h
  | PRadioResponseInfo err => set_unlock (MkUnlock err (remain u) (lockState u)) h
  | _ => h
  end.
Definition GetSetLockResult (ev : event) (h : SimStateHandle) : SimStateHandle :=
  let u := unlockRespon_ (answers h) in
  match object ev with
  | PLockStatusResp res rem => set_unlock (MkUnlock res rem (lockState u)) h
  | PRadioResponseInfo err => set_unlock (MkUnlock err (remain u) (lockState u)) h
  | _ => h
  end.

Definition GetUnlockSimLockResult (ev : event) (h : SimStateHandle) : SimStateHandle :=
  let a := answers h in
  let set l := set_answers (MkAnswers (unlockRespon_ a) (simAuthRespon_ a) (simIORespon_ a) (sendSimMatchedOperatorInfoResult_ a) l) h in
  match object ev with
  | PLockStatusResp res rem => set (MkLockStatus res rem)
  | PRadioResponseInfo err => set (MkLockStatus err (lock_remain (simlockRespon_ a)))
  | _ => h
  end.

Definition GetSimAuthenticationResult (ev : event) (h : SimStateHandle) : SimStateHandle :=
  let a := answers h in
  match object ev with
  | PIccIoResultInfo s1 s2 resp =>
      set_answers (MkAnswers (unlockRespon_ a) (MkAuth s1 s2 resp) (simIORespon_ a) (sendSimMatchedOperatorInfoResult_ a) (simlockRespon_ a)) h
  | _ => h
  end.
Definition GetSimIOResult (ev : event) (h : SimStateHandle) : SimStateHandle :=
  let a := answers h in
  match object ev with
  | PIccIoResultInfo s1 s2 resp =>
      set_answers (MkAnswers (unlockRespon_ a) (simAuthRespon_ a) (MkAuth s1 s2 resp) (sendSimMatchedOperatorInfoResult_ a) (simlockRespon_ a)) h
  | _ => h
  end.
Definition GetSendSimMatchedOperatorInfoResult (ev : event) (h : SimStateHandle) : SimStateHandle :=
  let a := answers h in
  match object ev with
  | PRadioResponseInfo err =>
      set_answers (MkAnswers (unlockRespon_ a) (simAuthRespon_ a) (simIORespon_ a) err (simlockRespon_ a)) h
  | _ => h
  end.

Definition GetUnlockData (h : SimStateHandle) : UnlockData := unlockRespon_ (answers h).
Definition GetSimlockResponse (h : SimStateHandle) : LockStatusResponse := simlockRespon_ (answers h).
Definition GetSimAuthenticationResponse (h : SimStateHandle) : SimAuthenticationResponse := simAuthRespon_ (answers h).
Definition GetSimIOResponse (h : SimStateHandle) : SimAuthenticationResponse := simIORespon_ (answers h).
Definition GetSendSimMatchedOperatorInfoResponse (h : SimStateHandle) : Z := sendSimMatchedOperatorInfoResult_ (answers h).

Definition ProcessMatchSimTimeoutTimer (e : Env) (slotId : Z) : list effect :=
  if operatorConfigHisysevent e then [ReportMatchSimChr slotId] else [].

Definition IsRadioStateUnavailable (ev : event) : bool :=
  match object ev with PInt32Parcel v => v =? CORE_SERVICE_POWER_NOT_AVAILABLE | _ => false end.

(** [memberFuncMap_]. *)
Definition memberFunc (e : Env) (ev : event) (h : SimStateHandle) : option (outcome (SimStateHandle * list effect)) :=
  let i := id ev in
  let only f := Some (Ret (f, @nil effect)) in
  if (i =? MSG_SIM_UNLOCK_PIN_DONE) || (i =? MSG_SIM_UNLOCK_PUK_DONE) || (i =? MSG_SIM_CHANGE_PIN_DONE)
     || (i =? MSG_SIM_UNLOCK_PIN2_DONE) || (i =? MSG_SIM_UNLOCK_PUK2_DONE) || (i =? MSG_SIM_CHANGE_PIN2_DONE) then only (GetUnlockResult ev h)
  else if i =? MSG_SIM_UNLOCK_SIMLOCK_DONE then only (GetUnlockSimLockResult ev h)
  else if i =? MSG_SIM_ENABLE_PIN_DONE then only (GetSetLockResult ev h)
  else if i =? MSG_SIM_CHECK_PIN_DONE then only (GetSimLockState ev h)
  else if i =? MSG_SIM_GET_REALTIME_ICC_STATUS_DONE then Some (GetSimCardData e (slotId_ h) ev h)
  else if i =? MSG_SIM_AUTHENTICATION_DONE then only (GetSimAuthenticationResult ev h)
  else if i =? MSG_SIM_SEND_NCFG_OPER_INFO_DONE then only (GetSendSimMatchedOperatorInfoResult ev h)
  else if i =? MSG_SIM_GET_SIM_IO_DONE then only (GetSimIOResult ev h)
  else if i =? EVENT_MATCH_SIM_TIMEOUT then Some (Ret (h, ProcessMatchSimTimeoutTimer e (slotId_ h)))
  else None.

Definition ProcessEvent (e : Env) (ev : event) (h : SimStateHandle) : outcome (SimStateHandle * list effect) :=
  match memberFunc e ev h with
  | Some r =>
      '(h, out) ← r;
      let sync :=
        if negb (simStateManager e) then []
        else if id ev =? MSG_SIM_SEND_NCFG_OPER_INFO_DONE then [SyncSimMatchResponse]
        else if id ev =? MSG_SIM_UNLOCK_PIN_DONE then [SyncUnlockPinResponse] else [SyncCmdResponse] in
      Ret (h, out ++ sync)
  | None =>
      if (id ev =? RADIO_STATE_CHANGED) && IsRadioStateUnavailable ev then ProcessRadioStateUnavailable e h
      else if (id ev =? RADIO_STATE_CHANGED) || (id ev =? RADIO_SIM_STATE_CHANGE) then Ret (h, ObtainIccStatus e (slotId_ h) h)
      else if id ev =? MSG_SIM_GET_ICC_STATUS_DONE then GetSimCardData e (slotId_ h) ev h
      else Ret (h, [])
  end.

(** ** Observers *)

Definition registers (what : Z) : bool :=
  (what =? RADIO_SIM_STATE_CHANGE) || (what =? RADIO_SIM_STATE_READY) || (what =? RADIO_SIM_STATE_LOCKED) ||
  (what =? RADIO_SIM_STATE_SIMLOCK) || (what =? RADIO_CARD_TYPE_CHANGE) || (what =? RADIO_SIM_ICCID_LOADED).

Definition RegisterCoreNotify (hd : option handler) (what : Z) (h : SimStateHandle) : SimStateHandle * list effect :=
  match observerHandler_ h with
  | None => (h, [])
  | Some o =>
      if negb (registers what) then (h, [])
      else
        let at_once :=
          if what =? RADIO_SIM_STATE_READY then IsIccReady h
          else if what =? RADIO_SIM_STATE_LOCKED then IsIccLocked h
          else if what =? RADIO_SIM_ICCID_LOADED then negb (bool_decide (iccid_ (card h) = []))
          else false in
        (set_observers (Some (RegObserver what hd o)) h,
         match hd with Some k => if at_once then [SendTelEvent k what (slotId_ h)] else [] | None => [] end)
  end.

(** The same events, without [RADIO_SIM_ICCID_LOADED]. *)
Definition unregisters (what : Z) : bool :=
  (what =? RADIO_SIM_STATE_CHANGE) || (what =? RADIO_SIM_STATE_READY) || (what =? RADIO_SIM_STATE_LOCKED) ||
  (what =? RADIO_SIM_STATE_SIMLOCK) || (what =? RADIO_CARD_TYPE_CHANGE).

Definition UnRegisterCoreNotify (hd : option handler) (what : Z) (h : SimStateHandle) : SimStateHandle :=
  match observerHandler_ h with
  | None => h
  | Some o => if unregisters what then set_observers (Some (Remove what hd o)) h else h
  end.

(** ** Operations in sequence *)

Inductive op : Type :=
| OEvent (ev : event)
| OSetState (s : SimState)
| OSetIccCardState (slotId simStatus : Z)
| ORegister (hd : option handler) (what : Z)
| OUnRegister (hd : option handler) (what : Z)
| OUpdateRegistry
| OSensePhase (flag : bool)
| OSpecifiedIccid (iccid : cstring)
| OPrimarySlotReady (isReady : bool).

Definition exec (e : Env) (o : op) (h : SimStateHandle) : outcome (SimStateHandle * list effect) :=
  match o with
  | OEvent ev => ProcessEvent e ev h
  | OSetState s => Ret (SetSimState s h, [])
  | OSetIccCardState slot st => SetIccCardState e slot st h
  | ORegister hd what => Ret (RegisterCoreNotify hd what h)
  | OUnRegister hd what => Ret (UnRegisterCoreNotify hd what h, [])
  | OUpdateRegistry => Ret (UpdateSimStateToStateRegistry_again e h)
  | OSensePhase flag => Ret (SetInSenseSwitchPhase flag h, [])
  | OSpecifiedIccid i => Ret (SetSpecifiedIccidBySlotId i h, [])
  | OPrimarySlotReady b => Ret (SetInitPrimarySlotReady b h, [])
  end.

(** ** The specification: the card as the last reports describe it *)

Definition state_of (status : Z) : SimState :=
  if status =? 0 then SIM_STATE_NOT_PRESENT
  else if status =? 1 then SIM_STATE_READY
  else if bool_decide (status ∈ [2; 3; 6; 7; 8; 9; 10; 11]) then SIM_STATE_LOCKED
  else SIM_STATE_UNKNOWN.

Definition reason_of (status : Z) : LockReason :=
  if status =? 2 then SIM_PIN else if status =? 3 then SIM_PUK
  else if status =? 6 then SIM_PN_PIN else if status =? 7 then SIM_PN_PUK
  else if status =? 8 then SIM_PU_PIN else if status =? 9 then SIM_PU_PUK
  else if status =? 10 then SIM_PP_PIN else if status =? 11 then SIM_PP_PUK
  else SIM_NONE.

Record Seen : Type := MkSeen { seen_type : Z; seen_status : Z; seen_state : SimState; seen_reason : LockReason; seen_iccid : cstring }.

Inductive action : Type :=
| Report (ar : IccState)
| Force (s : SimState).

(** A new status replaces everything, a repeated one only the type. *)
Definition seen_step (s : Seen) (a : action) : Seen :=
  match a with
  | Report ar =>
      if simStatus_ ar =? seen_status s
      then MkSeen (simType_ ar) (seen_status s) (seen_state s) (seen_reason s) (seen_iccid s)
      else MkSeen (simType_ ar) (simStatus_ ar) (state_of (simStatus_ ar)) (reason_of (simStatus_ ar)) (icc_iccid ar)
  | Force st => MkSeen (seen_type s) (seen_status s) st (seen_reason s) (seen_iccid s)
  end.

Definition seen (h : SimStateHandle) : Seen :=
  let c := card h in MkSeen (oldSimType_ c) (oldSimStatus_ c) (externalState_ c) (lockReason_ c) (iccid_ c).

(** The report in an answer of the modem, when it is not ignored. *)
Definition reported (e : Env) (slotId : Z) (ev : event) (h : SimStateHandle) : list action :=
  if isInSenseSwitchPhase_ h then []
  else
    let accept ar := if bool_decide (specifiedIccid_ h = []) || bool_decide (specifiedIccid_ h = icc_iccid ar) then [Report ar] else [] in
    match object ev with
    | PSimCardStatusInfo t s i => accept (MkIcc t s i)
    | PRadioResponseInfo _ =>
        if (VSIM_MODEM_COUNT e =? 2) && default false (isVSimEnabled e) && negb (slotId =? VSIM_SLOT_ID)
        then accept (MkIcc (oldSimType_ (card h)) ICC_CARD_ABSENT (iccid_ (card h))) else []
    | _ => []
    end.

(** What an operation is for the specification. *)
Definition actions (e : Env) (o : op) (h : SimStateHandle) : list action :=
  match o with
  | OEvent ev =>
      if (id ev =? MSG_SIM_GET_ICC_STATUS_DONE) || (id ev =? MSG_SIM_GET_REALTIME_ICC_STATUS_DONE) then reported e (slotId_ h) ev h
      else if (id ev =? RADIO_STATE_CHANGED) && IsRadioStateUnavailable ev && negb (simStatus_ (iccState_ (card h)) =? ICC_CARD_ABSENT)
      then [Report (MkIcc ICC_UNKNOWN_TYPE ICC_CONTENT_UNKNOWN [])]
      else []
  | OSetState s => [Force s]
  | OSetIccCardState _ st => [Report (MkIcc ICC_UNKNOWN_TYPE st [])]
  | _ => []
  end.

Definition card_ok (h : SimStateHandle) : Prop := externalType_ (card h) = card_type (oldSimType_ (card h)).
Definition env_ok (e : Env) : Prop := forall k a, GetParameterBuf (params e) k = Some a -> zlen a <= 65.

(** ** Processing a report *)

Lemma IsEsim_total e slot : env_ok e -> exists b, IsEsim e slot = Ret b.
Proof.
  intros He. unfold IsEsim. destruct (support_esim e); [|by exists false]. cbn [negb]. destruct (_ || _); [by exists false|].
  destruct (GetParameterBuf _ _) as [[|a atr]|] eqn:Ea; [by exists false| |by exists false].
  unfold default, from_option, Datatypes.id.
  destruct (AnalysisAtrData_total (a :: atr) (MkReset false 0)) as ([ok r] & ->); [pose proof (He _ _ Ea); lia|].
  cbn [mbind outcome_bind]. destruct ok; [|by exists false]. apply IsEsimSlot_total.
Qed.

(** Effects that do not speak of the card's state. *)
Definition quiet (x : effect) : Prop :=
  match x with WriteSimStateBehaviorEvent _ _ | PublishSimStateEvent _ => False | _ => True end.

Lemma ProcessNewSimStatus_cases e s slot c c' out :
  ProcessNewSimStatus e s slot c = Ret (c', out) -> (c' = c \/ c' = set_modemInitDone false c) /\ Forall quiet out.
Proof.
  unfold ProcessNewSimStatus. destruct (s =? _); [|intros [= <- <-]; split; [by left|constructor]].
  destruct (IsEsim e slot) as [b| |]; try done. cbn [mbind outcome_bind]. destruct (b && _).
  - intros [= <- <-]. split; [by left|]. destruct (_ =? _); repeat constructor.
  - intros [= <- <-]. split; [by right|constructor].
Qed.

Lemma ProcessNewSimStatus_total e s slot c : env_ok e -> exists c' out, ProcessNewSimStatus e s slot c = Ret (c', out).
Proof.
  intros He. unfold ProcessNewSimStatus. destruct (s =? _); [|by eexists _, _].
  destruct (IsEsim_total e slot He) as (b & ->). cbn [mbind outcome_bind]. destruct (b && _); by eexists _, _.
Qed.

(** [tells what k out]: the observer [k] of [what] is sent an event. *)
Definition sent (what : Z) (out : list effect) : list handler :=
  omap (fun x => match x with SendTelEvent k w _ => if w =? what then Some k else None | _ => None end) out.
Definition observing (h : SimStateHandle) (what : Z) : list handler :=
  match observerHandler_ h with Some o => observers o what | None => [] end.

Lemma sent_app what l l' : sent what (l ++ l') = sent what l ++ sent what l'.
Proof. apply omap_app. Qed.
Lemma sent_notify what param h : sent what (notify (observerHandler_ h) what param) = observing h what.
Proof.
  unfold notify, observing, NotifyObserver. destruct (observerHandler_ h) as [o|]; [|done].
  induction (observers o what) as [|k l IH]; [done|]. cbn. rewrite Z.eqb_refl. f_equal. exact IH.
Qed.

(** The list [l] is part of what is sent. *)
Definition told_all (what : Z) (h : SimStateHandle) (out : list effect) : Prop := forall k, k ∈ observing h what -> k ∈ sent what out.

Lemma told_all_notify what param h out out' : told_all what h (out ++ notify (observerHandler_ h) what param ++ out').
Proof. intros k Hk. rewrite !sent_app, sent_notify, !elem_of_app. tauto. Qed.
Lemma told_all_app what h out out' : told_all what h out -> told_all what h (out ++ out').
Proof. intros H k Hk. rewrite sent_app, elem_of_app. left. by apply H. Qed.
Lemma told_all_app_r what h out out' : told_all what h out' -> told_all what h (out ++ out').
Proof. intros H k Hk. rewrite sent_app, elem_of_app. right. by apply H. Qed.

Lemma SimStateEscape_spec status slot h :
  exists out, SimStateEscape status slot SIM_NONE (observerHandler_ h) = (state_of status, reason_of status, out)
    /\ (at_least_ready (state_of status) = true -> told_all RADIO_SIM_STATE_READY h out).
Proof.
  unfold SimStateEscape, SimLockStateEscape, NotifySimLock, state_of, reason_of.
  unfold ICC_CARD_ABSENT, ICC_CONTENT_READY, ICC_CONTENT_PIN, ICC_CONTENT_PUK, ICC_CONTENT_PH_NET_PIN, ICC_CONTENT_PH_NET_PUK,
    ICC_CONTENT_PH_NET_SUB_PIN, ICC_CONTENT_PH_NET_SUB_PUK, ICC_CONTENT_PH_SP_PIN, ICC_CONTENT_PH_SP_PUK.
  repeat (match goal with |- context [status =? ?k] => destruct (Z.eqb_spec status k) as [->|] end;
    [eexists; split; [reflexivity|]; cbn; first [done | intros _; apply told_all_app, (told_all_notify _ _ _ [])]|]).
  rewrite bool_decide_eq_false_2 by (rewrite !elem_of_cons, elem_of_nil; lia).
  eexists. split; [reflexivity|done].
Qed.

(** A status the log has a name for. *)
Definition known (status : Z) : bool := match simIccStatusMap_ status with Some _ => true | None => false end.

Lemma ProcessIccCardState_total e ar slot m h :
  env_ok e -> known (simStatus_ ar) = true -> exists h' out, ProcessIccCardState e ar slot m h = Ret (h', out).
Proof.
  intros He. unfold known, ProcessIccCardState. destruct (simIccStatusMap_ _); [intros _|done].
  destruct (if _ =? _ then _ else _) as [c out1]. cbv zeta.
  destruct (ProcessNewSimStatus_total e (simStatus_ ar) (slotId_ h) (set_modemInitDone m c) He) as (c' & out & ->).
  cbn [mbind outcome_bind]. destruct (negb _); [destruct (SimStateEscape _ _ _ _) as [[??]?]|destruct (needReupdate_ _)]; by eexists _, _.
Qed.

(** What a report changes: the members the others are told of, and whom it tells. *)
Lemma ProcessIccCardState_spec e ar slot m h h' out :
  ProcessIccCardState e ar slot m h = Ret (h', out) ->
  observerHandler_ h' = observerHandler_ h /\ seen h' = seen_step (seen h) (Report ar) /\ (card_ok h -> card_ok h')
  /\ (simStatus_ ar <> oldSimStatus_ (card h) ->
      (at_least_ready (state_of (simStatus_ ar)) = true -> told_all RADIO_SIM_STATE_READY h out)
      /\ (icc_iccid ar <> [] -> told_all RADIO_SIM_ICCID_LOADED h out)).
Proof.
  unfold ProcessIccCardState. destruct (simIccStatusMap_ _); [|done].
  set (typed := if _ =? _ then _ else _).
  assert (exists out1 t, typed = (set_type (simType_ ar) t (set_iccState ar (card h)), out1)
          /\ (card_ok h -> t = card_type (simType_ ar))) as (out1 & t & -> & Ht).
  { unfold typed, CardTypeEscape. cbn [set_iccState oldSimType_ externalType_]. destruct (Z.eqb_spec (oldSimType_ (card h)) (simType_ ar)) as [E|E].
    - exists [], (externalType_ (card h)). split; [by rewrite <- E; destruct h as [? []]|]. unfold card_ok. by rewrite E.
    - by eexists _, _. }
  cbv zeta.
  destruct (ProcessNewSimStatus _ _ _ _) as [[c3 out3]| |] eqn:EP; [|done..]. cbn [mbind outcome_bind].
  destruct (ProcessNewSimStatus_cases _ _ _ _ _ _ EP) as [Hc3 _].
  assert (exists m', c3 = set_modemInitDone m' (set_type (simType_ ar) t (set_iccState ar (card h)))) as [m' ->]
    by (destruct Hc3 as [->| ->]; by eexists).
  clear EP Hc3. cbn [set_modemInitDone set_type set_iccState oldSimStatus_ needReupdate_].
  rewrite (Z.eqb_sym (oldSimStatus_ (card h))). unfold seen_step. cbn [seen seen_status].
  destruct (Z.eqb_spec (simStatus_ ar) (oldSimStatus_ (card h))) as [E|E]; cbn [negb].
  - destruct (needReupdate_ (card h)); intros [= <- <-]; unfold card_ok; cbn; (repeat split; auto; by intros []).
  - destruct (SimStateEscape_spec (simStatus_ ar) slot h) as (out4 & -> & Hr). intros [= <- <-]. unfold card_ok. cbn.
    split; [done|]. split; [done|]. split; [done|]. intros _. split.
    + intros Hs. do 3 apply told_all_app_r. by apply told_all_app, Hr.
    + intros Hi. destruct (icc_iccid ar) as [|ch rest]; [done|]. do 6 apply told_all_app_r.
      apply told_all_app, told_all_app_r. rewrite <- (app_nil_r (notify _ _ _)). apply (told_all_notify _ _ _ []).
Qed.

(** ** What an operation amounts to *)

(** The same card and observers, for the others. *)
Definition same (h h' : SimStateHandle) : Prop :=
  seen h' = seen h /\ externalType_ (card h') = externalType_ (card h) /\ observerHandler_ h' = observerHandler_ h.

Lemma same_refl h : same h h.
Proof. done. Qed.
Lemma same_ok h h' : same h h' -> card_ok h -> card_ok h'.
Proof. intros ([= Ht _ _ _ _] & He & _). unfold card_ok. by rewrite He, Ht. Qed.

Definition then_out (r : outcome (SimStateHandle * list effect)) (out' : list effect) : outcome (SimStateHandle * list effect) :=
  '(h', out) ← r; Ret (h', out ++ out').

(** An operation handles one report, or none. *)
Inductive shape (e : Env) (h : SimStateHandle) (r : outcome (SimStateHandle * list effect)) : list action -> Prop :=
| shape_report ar slot m h0 out' : same h h0 -> r = then_out (ProcessIccCardState e ar slot m h0) out' -> shape e h r [Report ar]
| shape_force s : r = Ret (SetSimState s h, []) -> shape e h r [Force s]
| shape_register hd what : r = Ret (RegisterCoreNotify hd what h) -> shape e h r []
| shape_unregister hd what : r = Ret (UnRegisterCoreNotify hd what h, []) -> shape e h r []
| shape_same h' out : same h h' -> r = Ret (h', out) -> shape e h r [].

Lemma then_out_nil r : then_out r [] = r.
Proof. destruct r as [[]| |]; cbn; [by rewrite app_nil_r|done..]. Qed.

Lemma GetSimCardData_shape e slot ev h out' : shape e h (then_out (GetSimCardData e slot ev h) out') (reported e slot ev h).
Proof.
  unfold GetSimCardData, reported. destruct (isInSenseSwitchPhase_ h); [by eapply shape_same|].
  destruct (object ev) as [|t s i| | | | |]; try by eapply shape_same.
  - cbn [icc_iccid]. destruct (bool_decide (specifiedIccid_ h = [])); cbn [negb andb orb]; [by eapply shape_report|].
    destruct (bool_decide (_ = i)); cbn [negb]; [by eapply shape_report|by eapply shape_same].
  - unfold DUAL_SLOT_COUNT. destruct (VSIM_MODEM_COUNT e =? 2); cbn [negb andb]; [|by eapply shape_same].
    destruct (_ && _); [|by eapply shape_same]. cbn [icc_iccid].
    destruct (bool_decide (specifiedIccid_ h = [])); cbn [negb andb orb]; [by eapply shape_report|].
    destruct (bool_decide (_ = iccid_ _)); cbn [negb]; [by eapply shape_report|by eapply shape_same].
Qed.

Lemma answers_same ev h :
  same h (GetUnlockResult ev h) /\ same h (GetUnlockSimLockResult ev h) /\ same h (GetSetLockResult ev h) /\ same h (GetSimLockState ev h)
  /\ same h (GetSimAuthenticationResult ev h) /\ same h (GetSendSimMatchedOperatorInfoResult ev h) /\ same h (GetSimIOResult ev h).
Proof. repeat split; destruct (object ev) eqn:E; cbv [GetUnlockResult GetUnlockSimLockResult GetSetLockResult GetSimLockState
  GetSimAuthenticationResult GetSendSimMatchedOperatorInfoResult GetSimIOResult]; by rewrite E. Qed.

Lemma memberFunc_cases e ev h r :
  memberFunc e ev h = Some r ->
  (id ev = MSG_SIM_GET_REALTIME_ICC_STATUS_DONE /\ r = GetSimCardData e (slotId_ h) ev h)
  \/ (id ev <> RADIO_STATE_CHANGED /\ id ev <> MSG_SIM_GET_ICC_STATUS_DONE /\ id ev <> MSG_SIM_GET_REALTIME_ICC_STATUS_DONE
      /\ exists h' out, r = Ret (h', out) /\ same h h').
Proof.
  pose proof (answers_same ev h) as (? & ? & ? & ? & ? & ? & ?). unfold memberFunc.
  unfold RADIO_STATE_CHANGED, MSG_SIM_GET_ICC_STATUS_DONE, MSG_SIM_GET_REALTIME_ICC_STATUS_DONE.
  destruct (_ || _) eqn:E.
  { intros [= <-]. right. rewrite !orb_true_iff, !Z.eqb_eq in E. unfold MSG_SIM_UNLOCK_PIN_DONE, MSG_SIM_UNLOCK_PUK_DONE, MSG_SIM_CHANGE_PIN_DONE,
      MSG_SIM_UNLOCK_PIN2_DONE, MSG_SIM_UNLOCK_PUK2_DONE, MSG_SIM_CHANGE_PIN2_DONE in E. repeat split; [lia..|by eexists _, _]. }
  clear E.
  repeat (match goal with |- context [id ev =? ?k] => destruct (Z.eqb_spec (id ev) k) as [E|?] end;
    [intros [= <-]; first [left; split; [exact E|reflexivity] | right; rewrite E; split_and!; [done..|by eexists _, _]]|]).
  done.
Qed.

Lemma exec_shape e o h : shape e h (exec e o h) (actions e o h).
Proof.
  destruct o as [ev|s|slot st|hd what|hd what| |f|i|b]; cbn [exec actions UpdateSimStateToStateRegistry_again UpdateSimStateToStateRegistry];
    [|by eapply shape_force| |by eapply shape_register|by eapply shape_unregister|(eapply shape_same; [|reflexivity]; done)..].
  2: { unfold SetIccCardState. rewrite <- (then_out_nil (ProcessIccCardState _ _ _ _ _)). by eapply shape_report. }
  unfold ProcessEvent. destruct (memberFunc e ev h) as [r|] eqn:E.
  - destruct (memberFunc_cases _ _ _ _ E) as [[-> ->]|(H1 & H2 & H3 & h' & out & -> & Hs)].
    + apply GetSimCardData_shape.
    + destruct (Z.eqb_spec (id ev) MSG_SIM_GET_ICC_STATUS_DONE); [done|]. destruct (Z.eqb_spec (id ev) MSG_SIM_GET_REALTIME_ICC_STATUS_DONE); [done|].
      destruct (Z.eqb_spec (id ev) RADIO_STATE_CHANGED); [done|]. by eapply shape_same.
  - destruct (Z.eqb_spec (id ev) MSG_SIM_GET_REALTIME_ICC_STATUS_DONE) as [E1|_].
    { unfold memberFunc in E. rewrite E1 in E. done. }
    rewrite orb_false_r. destruct (Z.eqb_spec (id ev) RADIO_STATE_CHANGED) as [->|_]; cbn [andb orb].
    + change (RADIO_STATE_CHANGED =? MSG_SIM_GET_ICC_STATUS_DONE) with false. cbv iota.
      destruct (IsRadioStateUnavailable ev); cbn [andb]; [|eapply shape_same; [|reflexivity]; done]. unfold ProcessRadioStateUnavailable.
      cbn [set_card card set_modemInitDone iccState_]. destruct (negb _); [|eapply shape_same; [|reflexivity]; done].
      rewrite <- (then_out_nil (ProcessIccCardState _ _ _ _ _)). eapply shape_report; [|reflexivity]; done.
    + destruct (Z.eqb_spec (id ev) RADIO_SIM_STATE_CHANGE) as [->|_]; [by eapply shape_same|].
      destruct (Z.eqb_spec (id ev) MSG_SIM_GET_ICC_STATUS_DONE) as [_|_]; [|by eapply shape_same].
      rewrite <- (then_out_nil (GetSimCardData _ _ _ _)). apply GetSimCardData_shape.
Qed.

(** ** Properties *)

Lemma RegisterCoreNotify_card hd what h : card (fst (RegisterCoreNotify hd what h)) = card h.
Proof. unfold RegisterCoreNotify. destruct (observerHandler_ h); [|done]. by destruct (registers what). Qed.
Lemma UnRegisterCoreNotify_card hd what h : card (UnRegisterCoreNotify hd what h) = card h.
Proof. unfold UnRegisterCoreNotify. destruct (observerHandler_ h); [|done]. by destruct (unregisters what). Qed.

(** C27: As long as the modem reports statuses the log has a name for, every operation
    returns, and the card the rest of the system sees changes exactly as the
    specification says: a new status replaces state, lock reason and ICCID, a repeated
    one only the type. *)
Theorem card_refines e o h :
  env_ok e -> card_ok h -> Forall (fun a => match a with Report ar => known (simStatus_ ar) = true | Force _ => True end) (actions e o h) ->
  exists h' out, exec e o h = Ret (h', out) /\ card_ok h' /\ seen h' = foldl seen_step (seen h) (actions e o h).
Proof.
  intros He Hok Hk. destruct (exec_shape e o h) as [ar slot m h0 out' Hs ->|s ->|hd what ->|hd what ->|h' out Hs ->].
  - apply Forall_cons_1 in Hk as [Hk _]. destruct (ProcessIccCardState_total e ar slot m h0 He Hk) as (h' & out & E).
    rewrite E. destruct (ProcessIccCardState_spec _ _ _ _ _ _ _ E) as (_ & Hseen & Hok' & _).
    eexists _, _. split; [reflexivity|]. split; [by eapply Hok', same_ok|]. rewrite Hseen. by destruct Hs as (-> & _).
  - by eexists _, _.
  - destruct (RegisterCoreNotify hd what h) as [h' out] eqn:E. eexists _, _. split; [reflexivity|].
    pose proof (RegisterCoreNotify_card hd what h) as Hc. rewrite E in Hc. cbn in Hc. unfold card_ok, seen. by rewrite Hc.
  - eexists _, _. split; [reflexivity|]. unfold card_ok, seen. by rewrite UnRegisterCoreNotify_card.
  - eexists _, _. split; [reflexivity|]. split; [by eapply same_ok|]. by destruct Hs.
Qed.

(** A report is processed without undefined behaviour exactly when the log's table of
    names has its status: unknown, absent, ready, PIN or PUK; the report of a network,
    subset or service provider lock, which [SimLockStateEscape] would handle, is not. *)
Theorem card_status_undefined e ar slot m h :
  env_ok e ->
  (ProcessIccCardState e ar slot m h = Undef <-> simStatus_ ar ∉ [-1; 0; 1; 2; 3]).
Proof.
  intros He. destruct (known (simStatus_ ar)) eqn:E.
  - destruct (ProcessIccCardState_total e ar slot m h He E) as (h' & out & ->). split; [done|]. intros []. revert E.
    unfold known, simIccStatusMap_, ICC_CONTENT_UNKNOWN, ICC_CARD_ABSENT, ICC_CONTENT_READY, ICC_CONTENT_PIN, ICC_CONTENT_PUK.
    rewrite !elem_of_cons. repeat case_bool; (lia || done).
  - unfold known in E. unfold ProcessIccCardState. destruct (simIccStatusMap_ _) eqn:E'; [done|]. split; [intros _|done]. revert E'.
    unfold simIccStatusMap_, ICC_CONTENT_UNKNOWN, ICC_CARD_ABSENT, ICC_CONTENT_READY, ICC_CONTENT_PIN, ICC_CONTENT_PUK.
    rewrite !elem_of_cons, elem_of_nil. repeat case_bool; (lia || done).
Qed.

(** ** Observers *)

(** What an observer that registers late is told at once: that the card is ready, or its ICCID. *)
Definition value (what : Z) (h : SimStateHandle) : option cstring :=
  if what =? RADIO_SIM_STATE_READY then if IsIccReady h then Some [] else None
  else if what =? RADIO_SIM_ICCID_LOADED then match iccid_ (card h) with [] => None | i => Some i end
  else None.

(** The observers told of the current value since it is this value. *)
Definition told_step (what : Z) (h h' : SimStateHandle) (out : list effect) (told : list handler) : list handler :=
  (if decide (value what h' = value what h) then told else []) ++ sent what out.

(** [SetSimState] is called to say that a ready card is loaded, not to make it ready. *)
Definition allowed (o : op) (h : SimStateHandle) : Prop :=
  match o with OSetState s => at_least_ready s = true -> IsIccReady h = true | _ => True end.

Inductive reach (e : Env) (what : Z) : SimStateHandle -> list handler -> Prop :=
| reach_init slot : reach e what (fst (Init e slot SimStateHandle_new)) []
| reach_step h told o h' out :
    reach e what h told -> allowed o h -> exec e o h = Ret (h', out) -> reach e what h' (told_step what h h' out told).

Lemma value_same what h h' : seen h' = seen h -> value what h' = value what h.
Proof. intros [= _ _ Hs _ Hi]. unfold value, IsIccReady. by rewrite Hs, Hi. Qed.
Lemma observing_same h h' what : observerHandler_ h' = observerHandler_ h -> observing h' what = observing h what.
Proof. unfold observing. by intros ->. Qed.

Lemma erase_first_subset k x l : k ∈ erase_first x l -> k ∈ l.
Proof.
  induction l as [|y l IH]; [done|]. cbn. destruct (decide (y = x)); rewrite !elem_of_cons; tauto.
Qed.

Lemma observers_insert what w l (o : ObserverHandler) : observers (<[what := l]> o) w = if decide (w = what) then l else observers o w.
Proof. unfold observers, ObserverHandler. destruct (decide (w = what)) as [->|]; [by rewrite lookup_insert_eq|by rewrite lookup_insert_ne]. Qed.

Lemma observers_Reg what k o w :
  observers (RegObserver what (Some k) o) w = observers o w ++ if decide (w = what /\ k ∉ observers o w) then [k] else [].
Proof.
  unfold RegObserver. destruct (o !! what) as [l|] eqn:E.
  - destruct (decide (k ∈ l)) as [Hi|Hi].
    + rewrite decide_False; [by rewrite app_nil_r|]. intros [-> Hn]. apply Hn. unfold observers. by rewrite E.
    + rewrite observers_insert. destruct (decide (w = what)) as [->|Hw].
      * unfold observers. rewrite E. cbn. by rewrite decide_True.
      * rewrite decide_False by tauto. by rewrite app_nil_r.
  - rewrite observers_insert. destruct (decide (w = what)) as [->|Hw].
    + unfold observers. rewrite E. cbn. rewrite decide_True; [done|]. split; [done|apply not_elem_of_nil].
    + rewrite decide_False by tauto. by rewrite app_nil_r.
Qed.

Lemma observers_Remove what k o w :
  observers (Remove what (Some k) o) w = if decide (w = what) then erase_first k (observers o w) else observers o w.
Proof.
  unfold Remove. destruct (o !! what) as [l|] eqn:E.
  - rewrite observers_insert. destruct (decide (w = what)) as [->|]; [|done]. unfold observers. by rewrite E.
  - destruct (decide (w = what)) as [->|]; [|done]. unfold observers. by rewrite E.
Qed.

Lemma erase_first_app k l : k ∉ l -> erase_first k (l ++ [k]) = l.
Proof.
  induction l as [|y l IH]; cbn; [by rewrite decide_True|]. rewrite elem_of_cons. intros Hn.
  rewrite decide_False by (intros ->; tauto). f_equal. apply IH. tauto.
Qed.

Lemma observing_set h o w : observing (set_observers (Some o) h) w = observers o w.
Proof. done. Qed.

(** A new observer was told at once, if there was anything to tell. *)
Lemma RegisterCoreNotify_tells what hd w h h' out k :
  RegisterCoreNotify hd w h = (h', out) -> value what h' <> None -> k ∈ observing h' what ->
  k ∈ observing h what \/ k ∈ sent what out.
Proof.
  unfold RegisterCoreNotify. destruct (observerHandler_ h) as [o|] eqn:Eo; [|intros [= <- <-]; tauto].
  destruct (registers w) eqn:Ew; cbn [negb]; [|intros [= <- <-]; tauto].
  intros [= <- <-]. rewrite observing_set. unfold observing. rewrite Eo. destruct hd as [k'|]; [|tauto].
  rewrite observers_Reg. intros Hv [H|H]%elem_of_app; [by left|]. destruct (decide _) as [[-> _]|]; [|by apply not_elem_of_nil in H].
  apply list_elem_of_singleton in H as ->. right. revert Hv. unfold value, IsIccReady. cbn [set_observers card].
  destruct (Z.eqb_spec w RADIO_SIM_STATE_READY) as [->|_].
  - destruct (at_least_ready _); [|done]. intros _. cbn. constructor.
  - destruct (Z.eqb_spec w RADIO_SIM_ICCID_LOADED) as [->|_]; [|done]. cbn.
    destruct (iccid_ (card h)); [done|]. intros _. cbn. constructor.
Qed.

Lemma UnRegisterCoreNotify_subset hd w what h k : k ∈ observing (UnRegisterCoreNotify hd w h) what -> k ∈ observing h what.
Proof.
  unfold UnRegisterCoreNotify. destruct (observerHandler_ h) as [o|] eqn:Eo; [|done]. destruct (unregisters w); [|done].
  rewrite observing_set. unfold observing. rewrite Eo. destruct hd as [k'|]; [|done].
  rewrite observers_Remove. destruct (decide _); [|done]. apply erase_first_subset.
Qed.

(** An observer was told before the step of the value it has after it, or is told in the step. *)
Lemma step_tells e what o h h' out k :
  what = RADIO_SIM_STATE_READY \/ what = RADIO_SIM_ICCID_LOADED ->
  allowed o h -> exec e o h = Ret (h', out) -> value what h' <> None -> k ∈ observing h' what ->
  (k ∈ observing h what /\ value what h' = value what h) \/ k ∈ sent what out.
Proof.
  intros Hw Ha E Hv Hk. pose proof (exec_shape e o h) as Hsh. rewrite E in Hsh.
  remember (actions e o h) as acts eqn:Eacts. destruct Hsh as [ar slot m h0 out' Hs Hr|s Hr|hd w Hr|hd w Hr|h1 out1 Hs Hr].
  - destruct (ProcessIccCardState e ar slot m h0) as [[h1 out1]| |] eqn:EP; [|done..]. injection Hr as -> ->.
    destruct (ProcessIccCardState_spec _ _ _ _ _ _ _ EP) as (Ho & Hseen & _ & Htell). destruct Hs as (Hs1 & _ & Hs2).
    rewrite (observing_same h0) in Hk by done. rewrite sent_app, elem_of_app, <- (observing_same h h0) by done.
    rewrite <- (value_same what h h0) by done. unfold seen_step in Hseen. cbn [seen seen_status] in Hseen.
    destruct (Z.eqb_spec (simStatus_ ar) (oldSimStatus_ (card h0))) as [Eq|Ne].
    + left. split; [done|]. unfold seen in Hseen. injection Hseen as _ _ Hst _ Hic. unfold value, IsIccReady. by rewrite Hst, Hic.
    + right. left. destruct (Htell Ne) as [Hr Hi]. unfold seen in Hseen. injection Hseen as _ _ Hst _ Hic. revert Hv. unfold value, IsIccReady. rewrite Hst, Hic.
      destruct Hw as [-> | ->]; cbn.
      * destruct (at_least_ready _); [|done]. intros _. by apply Hr.
      * intros Hne. apply Hi; [|done]. by destruct (icc_iccid ar).
  - injection Hr as -> ->. left. split; [done|]. destruct o as [ev| | | | | | | |]; try done; cbn [actions] in Eacts.
    { destruct (_ || _); [|destruct (_ && _); done]. unfold reported in Eacts. destruct (isInSenseSwitchPhase_ h); [done|].
      destruct (object ev); try done; repeat (destruct (_ || _) || destruct (_ && _)); done. }
    injection Eacts as <-. cbn [allowed] in Ha. revert Hv. unfold value. destruct Hw as [-> | ->]; cbn; [|done].
    unfold IsIccReady. cbn. destruct (at_least_ready s) eqn:Es; [|done]. intros _. unfold IsIccReady in Ha. by rewrite (Ha eq_refl).
  - injection Hr as Hr. destruct (RegisterCoreNotify_tells what hd w h h' out k) as [H|H]; [done..|left|by right].
    split; [done|]. apply value_same. pose proof (RegisterCoreNotify_card hd w h) as Hc. rewrite <- Hr in Hc. cbn in Hc. unfold seen. by rewrite Hc.
  - injection Hr as -> ->. left. split; [by eapply UnRegisterCoreNotify_subset|]. apply value_same. unfold seen. by rewrite UnRegisterCoreNotify_card.
  - injection Hr as -> ->. left. rewrite <- (observing_same h h1) by apply Hs. split; [done|]. apply value_same. apply Hs.
Qed.


(** Registering an observer and unregistering it again leaves the observers of every
    event as they were, except for [RADIO_SIM_ICCID_LOADED], which cannot be unregistered:
    the observer stays and is told of every ICCID. *)
Theorem unregister_undoes_register k what h :
  registers what = true -> observerHandler_ h <> None -> k ∉ observing h what ->
  let h' := UnRegisterCoreNotify (Some k) what (fst (RegisterCoreNotify (Some k) what h)) in
  forall w, observing h' w = observing h w ++ if decide (w = what /\ what = RADIO_SIM_ICCID_LOADED) then [k] else [].
Proof.
  intros Hreg Ho Hk. unfold RegisterCoreNotify, UnRegisterCoreNotify. destruct (observerHandler_ h) as [o|] eqn:Eo; [|done].
  rewrite Hreg. cbn [negb fst set_observers observerHandler_]. intros w. unfold observing in *. rewrite Eo in *.
  assert (unregisters what = negb (what =? RADIO_SIM_ICCID_LOADED)) as ->.
  { revert Hreg. unfold registers, unregisters. destruct (Z.eqb_spec what RADIO_SIM_ICCID_LOADED) as [->|]; [done|]. by rewrite orb_false_r. }
  destruct (Z.eqb_spec what RADIO_SIM_ICCID_LOADED) as [E|E]; cbn [negb].
  - cbn [set_observers observerHandler_]. rewrite observers_Reg.
    destruct (decide (w = what)) as [->|Hw]; [by rewrite !decide_True|]. by rewrite !decide_False by tauto.
  - cbn [set_observers observerHandler_]. rewrite observers_Remove, observers_Reg.
    rewrite (decide_False (P := _ /\ what = _)) by tauto. rewrite app_nil_r. destruct (decide (w = what)) as [->|Hw].
    + rewrite decide_True by done. by apply erase_first_app.
    + rewrite decide_False by tauto. apply app_nil_r.
Qed.

(** The external type is that of the reported type; an observer is in the list of an
    event once, and only in those of the events one can register for. *)
Definition well_formed (h : SimStateHandle) : Prop :=
  card_ok h /\ forall what, NoDup (observing h what) /\ (registers what = false -> observing h what = []).

Lemma erase_first_NoDup k l : NoDup l -> NoDup (erase_first k l).
Proof.
  induction 1 as [|x l Hx Hl IH]; cbn; [constructor|]. destruct (decide (x = k)); [done|]. constructor; [|done].
  intros H. by apply Hx, (erase_first_subset _ k).
Qed.

Lemma RegisterCoreNotify_observers hd w h what :
  (NoDup (observing h what) -> NoDup (observing (fst (RegisterCoreNotify hd w h)) what))
  /\ (registers what = false -> observing (fst (RegisterCoreNotify hd w h)) what = observing h what).
Proof.
  unfold RegisterCoreNotify. destruct (observerHandler_ h) as [o|] eqn:Eo; [|done]. destruct (registers w) eqn:Ew; [|done]. cbn [negb fst].
  rewrite observing_set. unfold observing. rewrite Eo. destruct hd as [k|]; [|done]. rewrite observers_Reg. split.
  - intros Hn. destruct (decide _) as [[_ Hk]|]; [|by rewrite app_nil_r]. apply NoDup_app. split; [done|]. split; [|apply NoDup_singleton].
    intros x Hx Hx'. apply list_elem_of_singleton in Hx' as ->. done.
  - intros Hw. rewrite decide_False; [by rewrite app_nil_r|]. intros [-> _]. congruence.
Qed.

Lemma UnRegisterCoreNotify_observers hd w h what :
  (NoDup (observing h what) -> NoDup (observing (UnRegisterCoreNotify hd w h) what))
  /\ (observing h what = [] -> observing (UnRegisterCoreNotify hd w h) what = []).
Proof.
  unfold UnRegisterCoreNotify. destruct (observerHandler_ h) as [o|] eqn:Eo; [|done]. destruct (unregisters w); [|done].
  rewrite observing_set. unfold observing. rewrite Eo. destruct hd as [k|]; [|done]. rewrite observers_Remove. split.
  - destruct (decide _); [apply erase_first_NoDup|done].
  - intros ->. by destruct (decide _).
Qed.

(** The state of a slot stays well-formed from its initialisation through every
    sequence of operations: the card type shown is that of the last report, an observer is
    registered for an event at most once, and only for the six events there are. *)
Theorem handle_well_formed e what h told : reach e what h told -> well_formed h.
Proof.
  induction 1 as [slot|h told o h' out _ [Hc Ho] _ E].
  - unfold Init. destruct (telRilManager e); (split; [done|]); intros w; (split; [constructor|done]).
  - pose proof (exec_shape e o h) as Hsh. rewrite E in Hsh.
    assert (forall h0, same h h0 -> well_formed h0) as Hsame.
    { intros h0 Hs. split; [by eapply same_ok|]. intros w. rewrite (observing_same h h0) by apply Hs. apply Ho. }
    destruct Hsh as [ar slot m h0 out' Hs Hr|s Hr|hd w Hr|hd w Hr|h1 out1 Hs Hr].
    + destruct (ProcessIccCardState e ar slot m h0) as [[h1 out1]| |] eqn:EP; [|done..]. injection Hr as -> ->.
      destruct (ProcessIccCardState_spec _ _ _ _ _ _ _ EP) as (Hobs & _ & Hok & _). destruct (Hsame h0 Hs) as [Hc0 Ho0].
      split; [by apply Hok|]. intros w. rewrite (observing_same h0 h1) by done. apply Ho0.
    + injection Hr as -> ->. split; [exact Hc|exact Ho].
    + injection Hr as Hr. assert (h' = fst (RegisterCoreNotify hd w h)) as -> by (by rewrite <- Hr).
      split; [unfold card_ok; by rewrite RegisterCoreNotify_card|]. intros w'.
      destruct (RegisterCoreNotify_observers hd w h w') as [H1 H2], (Ho w') as [H3 H4]. split; [by apply H1|]. intros Hw. rewrite H2 by done. by apply H4.
    + injection Hr as -> ->. split; [unfold card_ok; by rewrite UnRegisterCoreNotify_card|]. intros w'.
      destruct (UnRegisterCoreNotify_observers hd w h w') as [H1 H2], (Ho w') as [H3 H4]. split; [by apply H1|]. intros Hw. by apply H2, H4.
    + injection Hr as -> ->. by apply Hsame.
Qed.

(** ** Witnesses *)

Definition example_env : Env :=
  MkEnv true true true false (MkParams (fun _ d => d) (fun _ d => d) (fun _ d => d) (fun _ => None)) (fun _ => false)
    false false false false None 2 0.
Definition example_handle : SimStateHandle := fst (Init example_env 0 SimStateHandle_new).
Definition example_report : event := MkEvent MSG_SIM_GET_ICC_STATUS_DONE (PSimCardStatusInfo 2 1 (str "8986")).
Definition ready_history (what : Z) : list op := [ORegister (Some 5%positive) what; OEvent example_report].

(** The state after a sequence of operations. *)
Fixpoint after (e : Env) (ops : list op) (h : SimStateHandle) : SimStateHandle :=
  match ops with
  | [] => h
  | o :: ops => match exec e o h with Ret (h', _) => after e ops h' | _ => h end
  end.

Lemma example_env_ok : env_ok example_env.
Proof. by intros k a. Qed.

Lemma reach_ready what :
  what = RADIO_SIM_STATE_READY \/ what = RADIO_SIM_ICCID_LOADED ->
  reach example_env what (after example_env (ready_history what) example_handle) [5%positive].
Proof.
  intros [-> | ->];
    match goal with |- reach _ ?w _ _ =>
      epose proof (reach_step example_env w _ _ (ORegister (Some 5%positive) w) _ _ (reach_init _ _ 0) I eq_refl) as R end;
    epose proof (reach_step _ _ _ _ (OEvent example_report) _ _ R I eq_refl) as R'; exact R'.
Qed.

Lemma card_refines_witness :
  exists h' out, exec example_env (OEvent example_report) example_handle = Ret (h', out) /\ card_ok h'
    /\ seen h' = MkSeen 2 1 SIM_STATE_READY SIM_NONE (str "8986").
Proof.
  apply (card_refines example_env (OEvent example_report) example_handle example_env_ok); [reflexivity|].
  vm_compute. repeat constructor.
Defined.

Lemma card_status_undefined_witness :
  ProcessIccCardState example_env (MkIcc ICC_USIM_TYPE ICC_CONTENT_PH_NET_PIN (str "8986")) 0 true example_handle = Undef.
Proof. apply (card_status_undefined _ _ _ _ _ example_env_ok). cbn. rewrite !elem_of_cons, elem_of_nil. vm_compute. intuition discriminate. Defined.


Lemma unregister_undoes_register_witness :
  observing (UnRegisterCoreNotify (Some 5%positive) RADIO_SIM_ICCID_LOADED
    (fst (RegisterCoreNotify (Some 5%positive) RADIO_SIM_ICCID_LOADED example_handle))) RADIO_SIM_ICCID_LOADED = [5%positive].
Proof.
  exact (unregister_undoes_register 5%positive RADIO_SIM_ICCID_LOADED example_handle eq_refl
    ltac:(discriminate) (not_elem_of_nil _) RADIO_SIM_ICCID_LOADED).
Defined.

Lemma handle_well_formed_witness : well_formed (after example_env (ready_history RADIO_SIM_STATE_READY) example_handle).
Proof. eapply (handle_well_formed example_env RADIO_SIM_STATE_READY). apply reach_ready. by left. Defined.
