(* ===== verification/StrConvert.v ===== *)
(** * [utils/common/src/str_convert.cpp]: UTF-8 and UTF-16

    [ToUtf16] and [ToUtf8] on [std::u16string] use [std::wstring_convert] with [std::codecvt_utf8_utf16]: they throw [std::range_error] where the input is not well-formed.
    UTF-16 strings are lists of code units, UTF-8 strings lists of characters. *)

From S2P Require Import Prelude CxxString Parcel SimUtils.
Open Scope Z_scope.

(** ** Decoding *)

Definition in_range (lo hi c : Z) : bool := (lo <=? c) && (c <=? hi).
(** The value of a continuation byte between [lo] and [hi]. *)
Definition follow (lo hi : Z) (s : list Z) : option (Z * list Z) :=
  match s with [] => None | b :: s => if in_range lo hi b then Some (b - 0x80, s) else None end.
(** One code point from the front of a UTF-8 string (RFC 3629). *)
Definition utf8_next (b : Z) (s : list Z) : option (Z * list Z) :=
  if b <? 0x80 then Some (b, s)
  else if b <? 0xC2 then None
  else if b <? 0xE0 then '(c1, s) ← follow 0x80 0xBF s; Some ((b - 0xC0) * 64 + c1, s)
  else if b <? 0xF0 then
    '(c1, s) ← follow (if b =? 0xE0 then 0xA0 else 0x80) (if b =? 0xED then 0x9F else 0xBF) s;
    '(c2, s) ← follow 0x80 0xBF s;
    Some ((b - 0xE0) * 4096 + c1 * 64 + c2, s)
  else if b <? 0xF5 then
    '(c1, s) ← follow (if b =? 0xF0 then 0x90 else 0x80) (if b =? 0xF4 then 0x8F else 0xBF) s;
    '(c2, s) ← follow 0x80 0xBF s;
    '(c3, s) ← follow 0x80 0xBF s;
    Some ((b - 0xF0) * 262144 + c1 * 4096 + c2 * 64 + c3, s)
  else None.
(** A code point takes at least one byte: the length of the string is enough fuel ([utf8_points_fuel]). *)
Fixpoint utf8_points (fuel : nat) (s : list Z) : option (list Z) :=
  match s, fuel with
  | [], _ => Some []
  | _, O => None
  | b :: s, S fuel => '(c, s) ← utf8_next b s; cs ← utf8_points fuel s; Some (c :: cs)
  end.
Definition utf16_units (c : Z) : list Z :=
  if c <? 0x10000 then [c] else [0xD800 + (c - 0x10000) / 1024; 0xDC00 + (c - 0x10000) mod 1024].
Fixpoint utf16_points (s : list Z) : option (list Z) :=
  match s with
  | [] => Some []
  | h :: s =>
      if in_range 0xD800 0xDBFF h then
        match s with
        | l :: s => if in_range 0xDC00 0xDFFF l then cs ← utf16_points s; Some (0x10000 + (h - 0xD800) * 1024 + (l - 0xDC00) :: cs) else None
        | [] => None
        end
      else if in_range 0xDC00 0xDFFF h then None
      else cs ← utf16_points s; Some (h :: cs)
  end.

(** ** The conversions *)

Definition ToUtf16 (s : cstring) : outcome u16string :=
  match utf8_points (length s) (code <$> s) with Some cs => Ret (cs ≫= utf16_units) | None => Exn end.
Definition ToUtf8 (s : u16string) : outcome cstring :=
  match utf16_points s with Some cs => Ret (cs ≫= utf8_char) | None => Exn end.

Example ToUtf16_ex : ToUtf16 (chr <$> [0x41; 0xC3; 0xA9; 0xF0; 0x9F; 0x98; 0x80]) = Ret [0x41; 0xE9; 0xD83D; 0xDE00].
Proof. vm_compute. reflexivity. Qed.
Example ToUtf16_bad : ToUtf16 (chr <$> [0xC0; 0x80]) = Exn /\ ToUtf16 (chr <$> [0xE4; 0xBD]) = Exn.
Proof. split; vm_compute; reflexivity. Qed.

(** ** Round trips *)

(** A Unicode scalar value. *)
Definition scalar (c : Z) : Prop := 0 <= c < 0x110000 /\ ~ 0xD800 <= c < 0xE000.

Definition utf8_bytes (c : Z) : list Z :=
  if c <? 0x80 then [c]
  else if c <? 0x800 then [0xC0 + c / 64; 0x80 + c mod 64]
  else if c <? 0x10000 then [0xE0 + c / 4096; 0x80 + (c / 64) mod 64; 0x80 + c mod 64]
  else [0xF0 + c / 262144; 0x80 + (c / 4096) mod 64; 0x80 + (c / 64) mod 64; 0x80 + c mod 64].

Lemma lor_lead hi n q : (hi = 0xC0 /\ n = 32) \/ (hi = 0xE0 /\ n = 16) \/ (hi = 0xF0 /\ n = 8) \/ (hi = 0x80 /\ n = 64) -> 0 <= q < n -> Z.lor hi q = hi + q.
Proof. intros [[-> ->]|[[-> ->]|[[-> ->]|[-> ->]]]] Hq; enum_Z q. Qed.
Lemma low_six c k : 0 <= k -> Z.lor 0x80 (Z.land (Z.shiftr c k) 0x3F) = 0x80 + (c / 2 ^ k) mod 64.
Proof.
  intros Hk. change 0x3F with (Z.ones 6). rewrite Z.land_ones, Z.shiftr_div_pow2 by lia. change (2 ^ 6) with 64.
  apply (lor_lead _ 64); [auto|]. apply Z.mod_pos_bound. lia.
Qed.
Lemma code_chrs (l : list Z) : Forall is_u8 l -> code <$> (chr <$> l) = l.
Proof. induction 1 as [|b l Hb _ IH]; [done|]. cbn. by rewrite IH, code_chr. Qed.
Lemma chr_codes (s : list ascii) : chr <$> (code <$> s) = s.
Proof. induction s as [|b l IH]; [done|]. cbn. by rewrite IH, chr_code. Qed.

Ltac byte_bounds c := pose proof (Z.mod_pos_bound c 64 ltac:(lia)); pose proof (Z.mod_pos_bound (c / 64) 64 ltac:(lia)); pose proof (Z.mod_pos_bound (c / 4096) 64 ltac:(lia)).

Lemma utf8_bytes_ok c : 0 <= c < 0x110000 -> Forall is_u8 (utf8_bytes c).
Proof.
  intros Hc. unfold utf8_bytes, is_u8. byte_bounds c. repeat case_bool; repeat constructor; try lia.
  all: Z.to_euclidean_division_equations; lia.
Qed.
Lemma utf8_char_bytes c : 0 <= c < 0x110000 -> code <$> utf8_char c = utf8_bytes c.
Proof.
  intros Hc. rewrite <- (code_chrs (utf8_bytes c)) by by apply utf8_bytes_ok. unfold utf8_char, utf8_bytes. f_equal. f_equal.
  pose proof (low_six c 0 ltac:(lia)) as H0. rewrite Z.shiftr_0_r, Z.div_1_r in H0.
  rewrite H0, (low_six c 6), (low_six c 12), !Z.shiftr_div_pow2 by lia.
  change (2 ^ 6) with 64. change (2 ^ 12) with 4096. change (2 ^ 18) with 262144.
  repeat case_bool; [done| | |]; f_equal; eapply lor_lead; [by left| |by right; left| |by right; right; left|];
    split; (apply Z.div_pos || apply Z.div_lt_upper_bound); lia.
Qed.

Lemma follow_Some lo hi b s : lo <= b <= hi -> follow lo hi (b :: s) = Some (b - 0x80, s).
Proof. intros H. unfold follow, in_range. by replace ((lo <=? b) && (b <=? hi)) with true by lia. Qed.
Lemma follow_inv lo hi s v t : follow lo hi s = Some (v, t) -> s = (v + 0x80) :: t /\ lo <= v + 0x80 <= hi.
Proof.
  destruct s as [|b s]; [done|]. unfold follow, in_range. destruct (_ && _) eqn:E; [|done]. intros [= <- <-].
  split; [f_equal; lia|lia].
Qed.
Ltac decide_bools := repeat match goal with
  | |- context [?a <? ?b] => first [replace (a <? b) with true by lia | replace (a <? b) with false by lia]
  | |- context [?a =? ?b] => first [replace (a =? b) with true by lia | replace (a =? b) with false by lia] end.

Ltac decide_leb := repeat match goal with |- context [?a <=? ?b] => first [replace (a <=? b) with true by lia | replace (a <=? b) with false by lia] end.

Lemma utf8_next_bytes c rest : scalar c -> exists b t, utf8_bytes c = b :: t /\ utf8_next b (t ++ rest) = Some (c, rest).
Proof.
  intros [Hc Hs]. unfold utf8_bytes. byte_bounds c.
  pose proof (Z.div_mod c 64 ltac:(lia)). pose proof (Z.div_mod (c / 64) 64 ltac:(lia)). pose proof (Z.div_mod (c / 4096) 64 ltac:(lia)).
  rewrite !Z.div_div in * by lia. change (64 * 64) with 4096 in *. change (4096 * 64) with 262144 in *.
  set (q0 := c mod 64) in *. set (q1 := (c / 64) mod 64) in *. set (q2 := (c / 4096) mod 64) in *.
  assert (0 <= c / 262144) by (apply Z.div_pos; lia). assert (0 <= c / 4096) by (apply Z.div_pos; lia). assert (0 <= c / 64) by (apply Z.div_pos; lia).
  repeat case_bool; (eexists _, _; split; [reflexivity|]); unfold utf8_next; cbn [app]; decide_bools; try done.
  - rewrite follow_Some by lia. cbn. do 2 f_equal. lia.
  - rewrite follow_Some by (repeat case_bool; lia). cbn [mbind option_bind]. rewrite follow_Some by lia. cbn. do 2 f_equal. lia.
  - rewrite follow_Some by (repeat case_bool; lia). cbn [mbind option_bind]. rewrite follow_Some by lia. cbn [mbind option_bind]. rewrite follow_Some by lia.
    cbn. do 2 f_equal. lia.
Qed.
Ltac follow_all H := repeat match type of H with
  | (follow ?lo ?hi ?s ≫= _) = Some _ =>
      let v := fresh "v" in let t := fresh "t" in let E := fresh "E" in
      destruct (follow lo hi s) as [[v t]|] eqn:E; [|done]; cbn [mbind option_bind] in H; apply follow_inv in E as [-> E]
  end.
Lemma div_exact q r n : 0 <= r < n -> (n * q + r) / n = q /\ (n * q + r) mod n = r.
Proof. intros H. split; symmetry; [by apply (Z.div_unique _ _ _ r); [left|]|by apply (Z.mod_unique _ _ q _); [left|]]. Qed.
Lemma div_4096 c : c / 4096 = c / 64 / 64.
Proof. by rewrite Z.div_div by lia. Qed.
Lemma div_262144 c : c / 262144 = c / 64 / 64 / 64.
Proof. by rewrite !Z.div_div by lia. Qed.
Lemma utf8_bytes_2 x y : 2 <= x < 32 -> 0 <= y < 64 -> utf8_bytes (x * 64 + y) = [0xC0 + x; 0x80 + y].
Proof.
  intros. destruct (div_exact x y 64) as [Hd Hm]; [lia|]. rewrite Z.mul_comm in Hd, Hm. unfold utf8_bytes. decide_bools. by rewrite Hd, Hm.
Qed.
Lemma utf8_bytes_3 x y z : 0 <= x < 16 -> 0 <= y < 64 -> 0 <= z < 64 -> 0x800 <= x * 4096 + y * 64 + z ->
  utf8_bytes (x * 4096 + y * 64 + z) = [0xE0 + x; 0x80 + y; 0x80 + z].
Proof.
  intros. destruct (div_exact (64 * x + y) z 64) as [Hd Hm]; [lia|]. destruct (div_exact x y 64) as [Hd' Hm']; [lia|].
  replace (64 * (64 * x + y) + z) with (x * 4096 + y * 64 + z) in * by lia. unfold utf8_bytes. decide_bools.
  by rewrite div_4096, Hd, Hm, Hd', Hm'.
Qed.
Lemma utf8_bytes_4 x y z t : 0 <= x -> 0 <= y < 64 -> 0 <= z < 64 -> 0 <= t < 64 -> 0x10000 <= x * 262144 + y * 4096 + z * 64 + t ->
  utf8_bytes (x * 262144 + y * 4096 + z * 64 + t) = [0xF0 + x; 0x80 + y; 0x80 + z; 0x80 + t].
Proof.
  intros. destruct (div_exact (64 * (64 * x + y) + z) t 64) as [Hd Hm]; [lia|]. destruct (div_exact (64 * x + y) z 64) as [Hd' Hm']; [lia|].
  destruct (div_exact x y 64) as [Hd'' Hm'']; [lia|].
  replace (64 * (64 * (64 * x + y) + z) + t) with (x * 262144 + y * 4096 + z * 64 + t) in * by lia. unfold utf8_bytes. decide_bools.
  rewrite div_262144, div_4096. by rewrite Hd, Hm, Hd', Hm', Hd'', Hm''.
Qed.
Lemma utf8_next_inv b s c r : 0 <= b -> utf8_next b s = Some (c, r) -> scalar c /\ b :: s = utf8_bytes c ++ r.
Proof.
  intros Hb. unfold utf8_next, scalar. repeat match goal with |- (if ?a <? ?b then _ else _) = _ -> _ => destruct (Z.ltb_spec a b) end;
    try done; intros Hn; follow_all Hn; injection Hn as <- <-.
  - split; [lia|]. unfold utf8_bytes. by decide_bools.
  - rewrite utf8_bytes_2 by lia. split; [lia|]. cbn. f_equal; [lia|]. f_equal. lia.
  - assert (0x800 <= (b - 0xE0) * 4096 + v * 64 + v0 /\ ~ 0xD800 <= (b - 0xE0) * 4096 + v * 64 + v0 < 0xE000) by
      (revert E; repeat case_bool; lia).
    rewrite utf8_bytes_3 by (try lia; revert E; repeat case_bool; lia). split; [revert E; repeat case_bool; lia|].
    cbn. f_equal; [lia|]. f_equal; [lia|]. f_equal. lia.
  - assert (0 <= v < 64 /\ 0x10000 <= (b - 0xF0) * 262144 + v * 4096 + v0 * 64 + v1 < 0x110000) by (revert E; repeat case_bool; lia).
    rewrite utf8_bytes_4 by lia. split; [lia|]. cbn. f_equal; [lia|]. f_equal; [lia|]. f_equal; [lia|]. f_equal. lia.
Qed.

Lemma utf16_points_units cs : Forall scalar cs -> utf16_points (cs ≫= utf16_units) = Some cs.
Proof.
  induction 1 as [|c cs [Hc Hs] _ IH]; [done|]. cbn [mbind list_bind]. unfold utf16_units at 1. case_bool; cbn [app utf16_points]; unfold in_range.
  - replace ((0xD800 <=? c) && (c <=? 0xDBFF)) with false by lia. replace ((0xDC00 <=? c) && (c <=? 0xDFFF)) with false by lia.
    change (foldr _ _ _) with (cs ≫= utf16_units). by rewrite IH.
  - pose proof (Z.div_mod (c - 0x10000) 1024 ltac:(lia)). pose proof (Z.mod_pos_bound (c - 0x10000) 1024 ltac:(lia)).
    decide_leb. cbn [andb]. fold (mbind utf16_units cs). rewrite IH. cbn. do 2 f_equal. lia.
Qed.
Lemma utf16_points_inv n : forall s cs, (length s <= n)%nat -> Forall is_u16 s -> utf16_points s = Some cs -> Forall scalar cs /\ cs ≫= utf16_units = s.
Proof.
  unfold is_u16. induction n as [|n IH]; intros [|h s] cs Hl Hs; cbn [length] in Hl; try lia; try (cbn; by intros [= <-]).
  apply Forall_cons in Hs as [Hh Hs]. cbn [utf16_points]. destruct (in_range 0xD800 0xDBFF h) eqn:E1; [|destruct (in_range 0xDC00 0xDFFF h) eqn:E2; [done|]].
  - destruct s as [|l s]; [done|]. apply Forall_cons in Hs as [Hl' Hs]. destruct (in_range 0xDC00 0xDFFF l) eqn:E2; [|done]. destruct (utf16_points s) as [cs'|] eqn:Ec; cbn [mbind option_bind]; [|discriminate].
    intros [= <-]. cbn [length] in Hl. apply IH in Ec as [Hc <-]; [|lia|assumption]. split; [constructor; [unfold scalar, in_range in *; lia|done]|].
    cbn [mbind list_bind]. unfold utf16_units at 1. unfold in_range in *. decide_bools. destruct (div_exact (h - 0xD800) (l - 0xDC00) 1024) as [Hd Hm]; [lia|].
    replace (0x10000 + (h - 0xD800) * 1024 + (l - 0xDC00) - 0x10000) with (1024 * (h - 0xD800) + (l - 0xDC00)) by lia. rewrite Hd, Hm.
    cbn. f_equal; [lia|]. f_equal. lia.
  - destruct (utf16_points s) as [cs'|] eqn:Ec; cbn [mbind option_bind]; [|discriminate]. intros [= <-]. apply IH in Ec as [Hc <-]; [|lia|done].
    split; [constructor; [unfold scalar, in_range in *; lia|done]|]. cbn [mbind list_bind]. unfold utf16_units at 1. unfold in_range in *. by decide_bools.
Qed.
Lemma utf8_points_bytes cs fuel : Forall scalar cs -> (length (cs ≫= utf8_bytes) <= fuel)%nat -> utf8_points fuel (cs ≫= utf8_bytes) = Some cs.
Proof.
  intros Hcs. revert fuel. induction Hcs as [|c cs Hc _ IH]; intros fuel Hf; [by destruct fuel|].
  cbn [mbind list_bind] in *. destruct (utf8_next_bytes c (cs ≫= utf8_bytes) Hc) as (b & t & E & Hn). rewrite E in *. cbn [app] in *.
  destruct fuel as [|fuel]; cbn [length] in Hf; [lia|]. cbn [utf8_points]. fold (mbind utf8_bytes cs) in *. rewrite Hn. cbn [mbind option_bind].
  rewrite IH; [done|]. rewrite length_app in Hf. lia.
Qed.
Lemma utf8_points_inv fuel : forall s cs, Forall is_u8 s -> utf8_points fuel s = Some cs -> Forall scalar cs /\ s = cs ≫= utf8_bytes.
Proof.
  induction fuel as [|fuel IH]; intros [|b s] cs Hs; cbn [utf8_points]; [by intros [= <-]|done|by intros [= <-]|].
  apply Forall_cons in Hs as [Hb Hs]. destruct (utf8_next b s) as [[c r]|] eqn:E; [|done]. cbn [mbind option_bind].
  apply utf8_next_inv in E as [Hc E]; [|by destruct Hb]. destruct (utf8_points fuel r) as [cs'|] eqn:Ec; cbn [mbind option_bind]; [|discriminate]. intros [= <-].
  apply IH in Ec as [Hcs ->]; [|]. { split; [by constructor|]. cbn [mbind list_bind]. fold (mbind utf8_bytes cs'). done. }
  assert (Forall is_u8 (utf8_bytes c ++ r)) as Hall by (rewrite <- E; by constructor). by apply Forall_app in Hall as [_ Hr].
Qed.
Lemma codes_u8 (s : cstring) : Forall is_u8 (code <$> s).
Proof. apply Forall_fmap, Forall_true. intros c. apply code_range. Qed.
Lemma code_chars cs : Forall scalar cs -> code <$> (cs ≫= utf8_char) = cs ≫= utf8_bytes.
Proof.
  induction 1 as [|c cs [Hc _] _ IH]; [done|]. cbn [mbind list_bind]. fold (mbind utf8_char cs). fold (mbind utf8_bytes cs).
  by rewrite fmap_app, IH, utf8_char_bytes.
Qed.
Lemma units_u16 cs : Forall scalar cs -> Forall is_u16 (cs ≫= utf16_units).
Proof.
  induction 1 as [|c cs [Hc Hs] _ IH]; [constructor|]. cbn [mbind list_bind]. fold (mbind utf16_units cs). apply Forall_app. split; [|done].
  unfold utf16_units, is_u16. pose proof (Z.mod_pos_bound (c - 0x10000) 1024 ltac:(lia)). case_bool; repeat constructor; try lia.
  all: try (apply Z.add_nonneg_nonneg; [lia|apply Z.div_pos; lia]).
  assert ((c - 0x10000) / 1024 < 1024) by (apply Z.div_lt_upper_bound; lia). lia.
Qed.

(** What is converted to UTF-16 is converted back. *)
Lemma utf16_and_back s w : ToUtf16 s = Ret w -> ToUtf8 w = Ret s /\ Forall is_u16 w.
Proof.
  unfold ToUtf16, ToUtf8. destruct (utf8_points _ _) as [cs|] eqn:E; [|done]. intros [= <-].
  apply utf8_points_inv in E as [Hcs Hs]; [|apply codes_u8]. rewrite utf16_points_units by done. split; [|by apply units_u16].
  f_equal. rewrite <- (chr_codes s), Hs, <- code_chars by done. by rewrite chr_codes.
Qed.
Lemma utf8_and_back w s : Forall is_u16 w -> ToUtf8 w = Ret s -> ToUtf16 s = Ret w.
Proof.
  unfold ToUtf16, ToUtf8. intros Hw. destruct (utf16_points w) as [cs|] eqn:E; [|done]. intros [= <-].
  apply (utf16_points_inv (length w)) in E as [Hcs <-]; [|done..]. rewrite code_chars by done.
  rewrite utf8_points_bytes; [done..|]. rewrite <- code_chars by done. by rewrite length_fmap.
Qed.
(** ASCII characters keep their values. *)
Definition ascii_only (s : cstring) : Prop := Forall (fun c => code c < 0x80) s.
Lemma ToUtf16_ascii s : ascii_only s -> ToUtf16 s = Ret (code <$> s).
Proof.
  intros H. unfold ToUtf16. cut (forall fuel, (length s <= fuel)%nat -> utf8_points fuel (code <$> s) = Some (code <$> s)).
  - intros ->; [|done]. f_equal. induction H as [|c s Hc _ IH]; [done|]. cbn. fold (mbind utf16_units (code <$> s)). rewrite IH.
    unfold utf16_units. by decide_bools.
  - induction H as [|c s Hc _ IH]; intros [|fuel] Hf; cbn [length] in Hf; [done..|lia|]. cbn. unfold utf8_next. decide_bools. cbn. rewrite IH by lia. done.
Qed.
Lemma ToUtf8_ascii s : ascii_only s -> ToUtf8 (code <$> s) = Ret s.
Proof. intros H. apply (utf16_and_back s). by apply ToUtf16_ascii. Qed.
