(* ===== verification/EsimData.v ===== *)
(** * The eSIM of a slot: data and platform

    [services/sim/src/esim_file.cpp] sends the requests of SGP.22 to the eUICC as STORE DATA commands on a logical channel and decodes its responses. This file has the tags,
    messages and structs, the members of [EsimFile], what it uses of the modem and the system (the interface [EsimPlatform]), and the monads of its code. *)

From S2P Require Import Prelude CxxString Parcel Parcelables CoreServiceApi CoreManagers StrConvert Asn1Utils Asn1Node Asn1Builder Apdu.
Open Scope Z_scope.

(** ** Constants ([telephony_tag_def.h], [sim_constant.h], [esim_file.h], [esim_service.h], [esim_state_type.h]) *)

Definition TAG_ESIM_PROFILE_INSTALLATION_RESULT : Z := 0xBF37.
Definition TAG_ESIM_PROFILE_INSTALLATION_RESULT_DATA : Z := 0xBF27.
Definition TAG_ESIM_NOTIFICATION_METADATA : Z := 0xBF2F.
Definition TAG_ESIM_SEQ : Z := 0x80.
Definition TAG_ESIM_TARGET_ADDR : Z := 0x0C.
Definition TAG_ESIM_EVENT : Z := 0x81.
Definition TAG_ESIM_CANCEL_SESSION : Z := 0xBF41.
Definition TAG_ESIM_PROFILE_INFO : Z := 0xE3.
Definition TAG_ESIM_TAG_LIST : Z := 0x5C.
Definition TAG_ESIM_EID : Z := 0x5A.
Definition TAG_ESIM_NICKNAME : Z := 0x90.
Definition TAG_ESIM_ICCID : Z := 0x5A.
Definition TAG_ESIM_PROFILE_STATE : Z := 0x9F70.
Definition TAG_ESIM_OBTAIN_OPERATOR_NAME : Z := 0x91.
Definition TAG_ESIM_PROFILE_CLASS : Z := 0x95.
Definition TAG_ESIM_PROFILE_POLICY_RULE : Z := 0x99.
Definition TAG_ESIM_PROFILE_NAME : Z := 0x92.
Definition TAG_ESIM_OPERATOR_ID : Z := 0xB7.
Definition TAG_ESIM_CARRIER_PRIVILEGE_RULES : Z := 0xBF76.
Definition TAG_ESIM_PORT : Z := 0x9F24.
Definition TAG_ESIM_CTX_COMP_0 : Z := 0xA0.
Definition TAG_ESIM_CTX_COMP_1 : Z := 0xA1.
Definition TAG_ESIM_CTX_COMP_2 : Z := 0xA2.
Definition TAG_ESIM_CTX_COMP_3 : Z := 0xA3.
Definition TAG_ESIM_CTX_COMP_9 : Z := 0xA9.
Definition TAG_ESIM_CTX_COMP_A : Z := 0xAA.
Definition TAG_ESIM_CTX_0 : Z := 0x80.
Definition TAG_ESIM_CTX_1 : Z := 0x81.
Definition TAG_ESIM_CTX_2 : Z := 0x82.
Definition TAG_ESIM_CTX_3 : Z := 0x83.
Definition TAG_ESIM_CTX_4 : Z := 0x84.
Definition TAG_ESIM_CTX_5 : Z := 0x85.
Definition TAG_ESIM_CTX_6 : Z := 0x86.
Definition TAG_ESIM_CTX_7 : Z := 0x87.
Definition TAG_ESIM_CTX_8 : Z := 0x88.
Definition TAG_ESIM_CTX_B : Z := 0x8B.
Definition TAG_ESIM_UNI_2 : Z := 0x02.
Definition TAG_ESIM_SEQUENCE : Z := 0x30.
Definition TAG_ESIM_REF_AR_DO : Z := 0xE2.
Definition TAG_ESIM_OCTET_STRING_TYPE : Z := 0x04.
Definition TAG_ESIM_INTEGER_TYPE : Z := 0x02.
Definition TAG_ESIM_GET_PROFILES : Z := 0xBF2D.
Definition TAG_ESIM_DISABLE_PROFILE : Z := 0xBF32.
Definition TAG_ESIM_ENABLE_PROFILE : Z := 0xBF31.
Definition TAG_ESIM_GET_EID : Z := 0xBF3E.
Definition TAG_ESIM_SET_NICKNAME : Z := 0xBF29.
Definition TAG_ESIM_DELETE_PROFILE : Z := 0xBF33.
Definition TAG_ESIM_GET_CONFIGURED_ADDRESSES : Z := 0xBF3C.
Definition TAG_ESIM_SET_DEFAULT_SMDP_ADDRESS : Z := 0xBF3F.
Definition TAG_ESIM_GET_RAT : Z := 0xBF43.
Definition TAG_ESIM_EUICC_MEMORY_RESET : Z := 0xBF34.
Definition TAG_ESIM_GET_EUICC_CHALLENGE : Z := 0xBF2E.
Definition TAG_ESIM_GET_EUICC_INFO_1 : Z := 0xBF20.
Definition TAG_ESIM_GET_EUICC_INFO_2 : Z := 0xBF22.
Definition TAG_ESIM_LIST_NOTIFICATION : Z := 0xBF28.
Definition TAG_ESIM_RETRIEVE_NOTIFICATIONS_LIST : Z := 0xBF2B.
Definition TAG_ESIM_REMOVE_NOTIFICATION_FROM_LIST : Z := 0xBF30.
Definition TAG_ESIM_AUTHENTICATE_SERVER : Z := 0xBF38.
Definition TAG_ESIM_PREPARE_DOWNLOAD : Z := 0xBF21.
Definition TAG_ESIM_INITIALISE_SECURE_CHANNEL : Z := 0xBF23.
Definition TAG_ESIM_GET_CONTRACT_INFO : Z := 0xBF71.
Definition TAG_ESIM_UNKNOWN_BPP_SEGMENT : Z := 0xC9.
Definition MSG_ESIM_OPEN_CHANNEL_DONE : Z := 1000.
Definition MSG_ESIM_CLOSE_CHANNEL_DONE : Z := 1001.
Definition MSG_ESIM_OBTAIN_EID_DONE : Z := 1002.
Definition MSG_ESIM_OBTAIN_EUICC_CHALLENGE_DONE : Z := 1003.
Definition MSG_ESIM_OBTAIN_EUICC_INFO2_DONE : Z := 1004.
Definition MSG_ESIM_OBTAIN_EUICC_INFO_1_DONE : Z := 1005.
Definition MSG_ESIM_OBTAIN_DEFAULT_SMDP_ADDRESS_DONE : Z := 1006.
Definition MSG_ESIM_ESTABLISH_DEFAULT_SMDP_ADDRESS_DONE : Z := 1007.
Definition MSG_ESIM_DELETE_PROFILE : Z := 1008.
Definition MSG_ESIM_SWITCH_PROFILE : Z := 1009.
Definition MSG_ESIM_DISABLE_PROFILE : Z := 1010.
Definition MSG_ESIM_RESET_MEMORY : Z := 1011.
Definition MSG_ESIM_REMOVE_NOTIFICATION : Z := 1012.
Definition MSG_ESIM_REQUEST_ALL_PROFILES : Z := 1013.
Definition MSG_ESIM_LIST_NOTIFICATION : Z := 1014.
Definition MSG_ESIM_SET_NICK_NAME : Z := 1015.
Definition MSG_ESIM_CANCEL_SESSION : Z := 1016.
Definition MSG_ESIM_OBTAIN_SMDS_ADDRESS : Z := 1017.
Definition MSG_ESIM_GET_PROFILE : Z := 1018.
Definition MSG_ESIM_RETRIEVE_NOTIFICATION_DONE : Z := 1019.
Definition MSG_ESIM_RETRIEVE_NOTIFICATION_LIST : Z := 1020.
Definition MSG_ESIM_AUTHENTICATE_SERVER : Z := 1021.
Definition MSG_ESIM_PREPARE_DOWNLOAD_DONE : Z := 1022.
Definition MSG_ESIM_SEND_APUD_DATA : Z := 1023.
Definition MSG_ESIM_LOAD_BOUND_PROFILE_PACKAGE : Z := 1024.
Definition MSG_ESIM_REQUEST_RULES_AUTH_TABLE : Z := 1025.
Definition MSG_ESIM_CLOSE_SPARE_CHANNEL_DONE : Z := 1026.
Definition MSG_ESIM_GET_CONTRACT_INFO_DONE : Z := 1027.
Definition PARAMETER_TWO : Z := -1.
Definition PROFILE_DEFAULT_NUMBER : Z := 256.
Definition SW1_MORE_RESPONSE : Z := 0x61.
Definition INS_GET_MORE_RESPONSE : Z := 0xC0.
Definition SW1_VALUE_90 : Z := 0x90.
Definition SW2_VALUE_00 : Z := 0.
Definition ATR_LENGTH : Z := 47.
Definition OFFSET_FOUR_BIT : Z := 4.
Definition VERSION_NUMBER : Z := 11.
Definition RESPONS_DATA_FINISH : Z := 0.
Definition RESPONS_DATA_NOT_FINISH : Z := 1.
Definition RESPONS_DATA_ERROR : Z := 2.
Definition GET_BPP_LOAD_ERROR_LENGTH : Z := 2.
Definition CONTRACT_INFO_CONTENT_IDX : Z := 18.
Definition COMMAND_PORT : Z := 0.
Definition NUMBER_TWO : Z := 2.
Definition INT32_MAX : Z := 2147483647.
Definition EUICC_MEMORY_RESET_BIT_STR_FILL_LEN : Z := 5.
Definition EUICC_MEMORY_RESET_BIT_STR_VALUE : Z := 0xA0.
Definition SVN_RAW_LENGTH_MIN : Z := 3.
Definition EUICC_INFO_VERSION_MIN_LENGTH : Z := 3.
Definition VERSION_HIGH : Z := 0.
Definition VERSION_MIDDLE : Z := 1.
Definition VERSION_LOW : Z := 2.
Definition ESIM_PROFILE_STATE_DISABLED : Z := 0.
Definition PROFILE_CLASS_OPERATIONAL : Z := 2.
Definition AUTH_SERVER_TAC_LEN : Z := 4.
Definition AUTH_SERVER_IMEI_LEN : Z := 8.
Definition LAST_BYTE_OF_IMEI : Z := 7.
Definition EVENT_INSTALL : Z := 1152.
Definition SLOT_ID_0 : Z := 0.
Definition SLOT_ID_1 : Z := 1.
Definition RESULT_EUICC_CARD_OK : Z := 0.
Definition RESULT_EUICC_CARD_DEFALUT_ERROR : Z := 10000.
Definition RESULT_EUICC_CARD_CHANNEL_IN_USE : Z := 10001.
Definition RESULT_EUICC_CARD_CHANNEL_OPEN_FAILED : Z := 10002.
Definition RESULT_EUICC_CARD_CHANNEL_OTHER_AID : Z := 10003.
Definition RESULT_EUICC_CARD_CHANNEL_CLOSE_FAILED : Z := 10004.
Definition RESULT_EUICC_CARD_CHANNEL_AID_EMPTY : Z := 10005.
Definition RESULT_EUICC_CARD_DATA_PROCESS_ERROR : Z := 10006.
Definition RESULT_EUICC_CARD_WAIT_TIMEOUT : Z := 10007.
Definition ISDR_AID : cstring := str "A0000005591010FFFFFFFF8900000100".
Definition KEY_IMEI : cstring := str "kIMEI".
Definition KEY_IMEI2 : cstring := str "kIMEI2".
Definition KEY_NONCE : cstring := str "kNonce".
Definition KEY_TIMESTAMP : cstring := str "kTimestamp".
Definition LAST_DEACTIVE_PROFILE_SLOT0 : cstring := str "persist.telephony.last_deactive_profile_slot0".
Definition LAST_DEACTIVE_PROFILE_SLOT1 : cstring := str "persist.telephony.last_deactive_profile_slot1".
Definition SUPPORT_ESIM_MEP : cstring := str "const.ril.sim.esim_support_mep".
Definition TEL_ESIM_SUPPORT : cstring := str "persist.telephony.esim.supported".

(** ** Messages ([sim_data_type.h], [tel_ril_sim_parcel.h]) *)

(** The field [exception] is not used. *)
Record IccFileData : Type := MkIccFileData { sw1 : Z; sw2 : Z; resultData : cstring }.
Definition IccFileData_new : IccFileData := MkIccFileData 0 0 [].
Record ApduSimIORequestInfo : Type := MkRequestInfo { serial : Z; channelId : Z; type : Z; instruction : Z; req_p1 : Z; req_p2 : Z; req_p3 : Z; data : cstring }.
Definition ApduSimIORequestInfo_new : ApduSimIORequestInfo := MkRequestInfo 0 0 0 0 0 0 0 [].
(** What an event of the modem carries: the channel that was opened, a response of the card ([None] when there is no such object). *)
Inductive payload : Type :=
| Opened (channelId : option Z)
| Response (rcvMsg : option IccFileData)
| Nothing.
Record Event : Type := MkEvent { event_id : Z; object : payload }.

Definition ResponseEsimInnerResult_new : ResponseEsimInnerResult := MkEsimInner 0 [] 0 0.
Definition set_inner_resultCode_ (v : Z) (r : ResponseEsimInnerResult) : ResponseEsimInnerResult := MkEsimInner v (inner_response_ r) (inner_sw1_ r) (inner_sw2_ r).
Definition set_inner_response_ (v : u16string) (r : ResponseEsimInnerResult) : ResponseEsimInnerResult := MkEsimInner (inner_resultCode_ r) v (inner_sw1_ r) (inner_sw2_ r).

(** ** The structs ([esim_state_type.h], [euicc_info_parcel.h], [profile_info_list_parcel.h], [esim_service.h]) *)

Record OperatorId : Type := MkOperatorId {
  mcc_ : u16string;
  mnc_ : u16string;
  gid1_ : u16string;
  gid2_ : u16string
}.
Definition OperatorId_new : OperatorId := MkOperatorId [] [] [] [].

(** [accessRules_] is always left empty. *)
Record EuiccProfile : Type := MkEuiccProfile {
  iccId_ : u16string;
  nickName_ : u16string;
  serviceProviderName_ : u16string;
  profileName_ : u16string;
  state_ : Z;
  profileClass_ : Z;
  carrierId_ : OperatorId;
  policyRules_ : Z;
  profile_portIndex : Z
}.
Definition EuiccProfile_new : EuiccProfile := MkEuiccProfile [] [] [] [] (-1) (-1) OperatorId_new (-1) 0.

Record GetEuiccProfileInfoListInnerResult : Type := MkProfileInfoList {
  list_result_ : Z;
  profiles_ : list EuiccProfile;
  isRemovable_ : bool
}.
Definition GetEuiccProfileInfoListInnerResult_new : GetEuiccProfileInfoListInnerResult := MkProfileInfoList 0 [] false.
Definition set_list_result_ (v : Z) (s : GetEuiccProfileInfoListInnerResult) : GetEuiccProfileInfoListInnerResult := MkProfileInfoList v (profiles_ s) (isRemovable_ s).
Definition set_profiles_ (v : list EuiccProfile) (s : GetEuiccProfileInfoListInnerResult) : GetEuiccProfileInfoListInnerResult := MkProfileInfoList (list_result_ s) v (isRemovable_ s).
Definition set_isRemovable_ (v : bool) (s : GetEuiccProfileInfoListInnerResult) : GetEuiccProfileInfoListInnerResult := MkProfileInfoList (list_result_ s) (profiles_ s) v.

Record EuiccInfo : Type := MkEuiccInfo {
  osVersion_ : u16string;
  info_response_ : u16string
}.
Definition EuiccInfo_new : EuiccInfo := MkEuiccInfo [] [].
Definition set_osVersion_ (v : u16string) (s : EuiccInfo) : EuiccInfo := MkEuiccInfo v (info_response_ s).
Definition set_info_response_ (v : u16string) (s : EuiccInfo) : EuiccInfo := MkEuiccInfo (osVersion_ s) v.

(** The fields [spn_], [imsi_], [carrierId_] and [specificCarrierId_] keep their initial values. *)
Record CarrierIdentifier : Type := MkCarrierIdentifier {
  carrier_mcc_ : u16string;
  carrier_mnc_ : u16string;
  carrier_gid1_ : u16string;
  carrier_gid2_ : u16string
}.

Record EuiccRulesAuthTable : Type := MkRulesAuthTable {
  rat_policyRules_ : list Z;
  carrierIds_ : list CarrierIdentifier;
  policyRuleFlags_ : list Z;
  position_ : Z
}.
Definition EuiccRulesAuthTable_new : EuiccRulesAuthTable := MkRulesAuthTable [] [] [] 0.
Definition set_rat_policyRules_ (v : list Z) (s : EuiccRulesAuthTable) : EuiccRulesAuthTable := MkRulesAuthTable v (carrierIds_ s) (policyRuleFlags_ s) (position_ s).
Definition set_carrierIds_ (v : list CarrierIdentifier) (s : EuiccRulesAuthTable) : EuiccRulesAuthTable := MkRulesAuthTable (rat_policyRules_ s) v (policyRuleFlags_ s) (position_ s).
Definition set_policyRuleFlags_ (v : list Z) (s : EuiccRulesAuthTable) : EuiccRulesAuthTable := MkRulesAuthTable (rat_policyRules_ s) (carrierIds_ s) v (position_ s).
Definition set_position_ (v : Z) (s : EuiccRulesAuthTable) : EuiccRulesAuthTable := MkRulesAuthTable (rat_policyRules_ s) (carrierIds_ s) (policyRuleFlags_ s) v.

Record ResponseEsimBppResult : Type := MkBppResult {
  bpp_resultCode_ : Z;
  bpp_response_ : u16string;
  seqNumber_ : Z;
  profileManagementOperation_ : Z;
  notificationAddress_ : u16string;
  bpp_iccId_ : u16string
}.
Definition ResponseEsimBppResult_new : ResponseEsimBppResult := MkBppResult 0 [] 0 0 [] [].
Definition set_bpp_resultCode_ (v : Z) (s : ResponseEsimBppResult) : ResponseEsimBppResult := MkBppResult v (bpp_response_ s) (seqNumber_ s) (profileManagementOperation_ s) (notificationAddress_ s) (bpp_iccId_ s).
Definition set_bpp_response_ (v : u16string) (s : ResponseEsimBppResult) : ResponseEsimBppResult := MkBppResult (bpp_resultCode_ s) v (seqNumber_ s) (profileManagementOperation_ s) (notificationAddress_ s) (bpp_iccId_ s).
Definition set_seqNumber_ (v : Z) (s : ResponseEsimBppResult) : ResponseEsimBppResult := MkBppResult (bpp_resultCode_ s) (bpp_response_ s) v (profileManagementOperation_ s) (notificationAddress_ s) (bpp_iccId_ s).
Definition set_profileManagementOperation_ (v : Z) (s : ResponseEsimBppResult) : ResponseEsimBppResult := MkBppResult (bpp_resultCode_ s) (bpp_response_ s) (seqNumber_ s) v (notificationAddress_ s) (bpp_iccId_ s).
Definition set_notificationAddress_ (v : u16string) (s : ResponseEsimBppResult) : ResponseEsimBppResult := MkBppResult (bpp_resultCode_ s) (bpp_response_ s) (seqNumber_ s) (profileManagementOperation_ s) v (bpp_iccId_ s).
Definition set_bpp_iccId_ (v : u16string) (s : ResponseEsimBppResult) : ResponseEsimBppResult := MkBppResult (bpp_resultCode_ s) (bpp_response_ s) (seqNumber_ s) (profileManagementOperation_ s) (notificationAddress_ s) v.

Record EuiccNotification : Type := MkNotification {
  seq_ : Z;
  targetAddr_ : u16string;
  event_ : Z;
  notif_data_ : u16string
}.
Definition EuiccNotification_new : EuiccNotification := MkNotification 0 [] 0 [].
Definition set_seq_ (v : Z) (s : EuiccNotification) : EuiccNotification := MkNotification v (targetAddr_ s) (event_ s) (notif_data_ s).
Definition set_targetAddr_ (v : u16string) (s : EuiccNotification) : EuiccNotification := MkNotification (seq_ s) v (event_ s) (notif_data_ s).
Definition set_event_ (v : Z) (s : EuiccNotification) : EuiccNotification := MkNotification (seq_ s) (targetAddr_ s) v (notif_data_ s).
Definition set_notif_data_ (v : u16string) (s : EuiccNotification) : EuiccNotification := MkNotification (seq_ s) (targetAddr_ s) (event_ s) v.

(** The fields that are never written are left out. *)
Record EuiccInfo2 : Type := MkEuiccInfo2 {
  svn_ : cstring;
  profileVersion_ : cstring;
  firmwareVer_ : cstring;
  extCardResource_ : cstring;
  uiccCapability_ : cstring;
  ts102241Version_ : cstring;
  globalPlatformVersion_ : cstring;
  rspCapability_ : cstring;
  euiccCiPKIdListForVerification_ : cstring;
  euiccCiPKIdListForSigning_ : cstring;
  euiccCategory_ : Z;
  ppVersion_ : cstring;
  info2_response_ : cstring;
  info2_resultCode_ : Z
}.
Definition EuiccInfo2_new : EuiccInfo2 := MkEuiccInfo2 [] [] [] [] [] [] [] [] [] [] 0 [] [] 0.
Definition set_svn_ (v : cstring) (s : EuiccInfo2) : EuiccInfo2 := MkEuiccInfo2 v (profileVersion_ s) (firmwareVer_ s) (extCardResource_ s) (uiccCapability_ s) (ts102241Version_ s) (globalPlatformVersion_ s) (rspCapability_ s) (euiccCiPKIdListForVerification_ s) (euiccCiPKIdListForSigning_ s) (euiccCategory_ s) (ppVersion_ s) (info2_response_ s) (info2_resultCode_ s).
Definition set_profileVersion_ (v : cstring) (s : EuiccInfo2) : EuiccInfo2 := MkEuiccInfo2 (svn_ s) v (firmwareVer_ s) (extCardResource_ s) (uiccCapability_ s) (ts102241Version_ s) (globalPlatformVersion_ s) (rspCapability_ s) (euiccCiPKIdListForVerification_ s) (euiccCiPKIdListForSigning_ s) (euiccCategory_ s) (ppVersion_ s) (info2_response_ s) (info2_resultCode_ s).
Definition set_firmwareVer_ (v : cstring) (s : EuiccInfo2) : EuiccInfo2 := MkEuiccInfo2 (svn_ s) (profileVersion_ s) v (extCardResource_ s) (uiccCapability_ s) (ts102241Version_ s) (globalPlatformVersion_ s) (rspCapability_ s) (euiccCiPKIdListForVerification_ s) (euiccCiPKIdListForSigning_ s) (euiccCategory_ s) (ppVersion_ s) (info2_response_ s) (info2_resultCode_ s).
Definition set_extCardResource_ (v : cstring) (s : EuiccInfo2) : EuiccInfo2 := MkEuiccInfo2 (svn_ s) (profileVersion_ s) (firmwareVer_ s) v (uiccCapability_ s) (ts102241Version_ s) (globalPlatformVersion_ s) (rspCapability_ s) (euiccCiPKIdListForVerification_ s) (euiccCiPKIdListForSigning_ s) (euiccCategory_ s) (ppVersion_ s) (info2_response_ s) (info2_resultCode_ s).
Definition set_uiccCapability_ (v : cstring) (s : EuiccInfo2) : EuiccInfo2 := MkEuiccInfo2 (svn_ s) (profileVersion_ s) (firmwareVer_ s) (extCardResource_ s) v (ts102241Version_ s) (globalPlatformVersion_ s) (rspCapability_ s) (euiccCiPKIdListForVerification_ s) (euiccCiPKIdListForSigning_ s) (euiccCategory_ s) (ppVersion_ s) (info2_response_ s) (info2_resultCode_ s).
Definition set_ts102241Version_ (v : cstring) (s : EuiccInfo2) : EuiccInfo2 := MkEuiccInfo2 (svn_ s) (profileVersion_ s) (firmwareVer_ s) (extCardResource_ s) (uiccCapability_ s) v (globalPlatformVersion_ s) (rspCapability_ s) (euiccCiPKIdListForVerification_ s) (euiccCiPKIdListForSigning_ s) (euiccCategory_ s) (ppVersion_ s) (info2_response_ s) (info2_resultCode_ s).
Definition set_globalPlatformVersion_ (v : cstring) (s : EuiccInfo2) : EuiccInfo2 := MkEuiccInfo2 (svn_ s) (profileVersion_ s) (firmwareVer_ s) (extCardResource_ s) (uiccCapability_ s) (ts102241Version_ s) v (rspCapability_ s) (euiccCiPKIdListForVerification_ s) (euiccCiPKIdListForSigning_ s) (euiccCategory_ s) (ppVersion_ s) (info2_response_ s) (info2_resultCode_ s).
Definition set_rspCapability_ (v : cstring) (s : EuiccInfo2) : EuiccInfo2 := MkEuiccInfo2 (svn_ s) (profileVersion_ s) (firmwareVer_ s) (extCardResource_ s) (uiccCapability_ s) (ts102241Version_ s) (globalPlatformVersion_ s) v (euiccCiPKIdListForVerification_ s) (euiccCiPKIdListForSigning_ s) (euiccCategory_ s) (ppVersion_ s) (info2_response_ s) (info2_resultCode_ s).
Definition set_euiccCiPKIdListForVerification_ (v : cstring) (s : EuiccInfo2) : EuiccInfo2 := MkEuiccInfo2 (svn_ s) (profileVersion_ s) (firmwareVer_ s) (extCardResource_ s) (uiccCapability_ s) (ts102241Version_ s) (globalPlatformVersion_ s) (rspCapability_ s) v (euiccCiPKIdListForSigning_ s) (euiccCategory_ s) (ppVersion_ s) (info2_response_ s) (info2_resultCode_ s).
Definition set_euiccCiPKIdListForSigning_ (v : cstring) (s : EuiccInfo2) : EuiccInfo2 := MkEuiccInfo2 (svn_ s) (profileVersion_ s) (firmwareVer_ s) (extCardResource_ s) (uiccCapability_ s) (ts102241Version_ s) (globalPlatformVersion_ s) (rspCapability_ s) (euiccCiPKIdListForVerification_ s) v (euiccCategory_ s) (ppVersion_ s) (info2_response_ s) (info2_resultCode_ s).
Definition set_euiccCategory_ (v : Z) (s : EuiccInfo2) : EuiccInfo2 := MkEuiccInfo2 (svn_ s) (profileVersion_ s) (firmwareVer_ s) (extCardResource_ s) (uiccCapability_ s) (ts102241Version_ s) (globalPlatformVersion_ s) (rspCapability_ s) (euiccCiPKIdListForVerification_ s) (euiccCiPKIdListForSigning_ s) v (ppVersion_ s) (info2_response_ s) (info2_resultCode_ s).
Definition set_ppVersion_ (v : cstring) (s : EuiccInfo2) : EuiccInfo2 := MkEuiccInfo2 (svn_ s) (profileVersion_ s) (firmwareVer_ s) (extCardResource_ s) (uiccCapability_ s) (ts102241Version_ s) (globalPlatformVersion_ s) (rspCapability_ s) (euiccCiPKIdListForVerification_ s) (euiccCiPKIdListForSigning_ s) (euiccCategory_ s) v (info2_response_ s) (info2_resultCode_ s).
Definition set_info2_response_ (v : cstring) (s : EuiccInfo2) : EuiccInfo2 := MkEuiccInfo2 (svn_ s) (profileVersion_ s) (firmwareVer_ s) (extCardResource_ s) (uiccCapability_ s) (ts102241Version_ s) (globalPlatformVersion_ s) (rspCapability_ s) (euiccCiPKIdListForVerification_ s) (euiccCiPKIdListForSigning_ s) (euiccCategory_ s) (ppVersion_ s) v (info2_resultCode_ s).
Definition set_info2_resultCode_ (v : Z) (s : EuiccInfo2) : EuiccInfo2 := MkEuiccInfo2 (svn_ s) (profileVersion_ s) (firmwareVer_ s) (extCardResource_ s) (uiccCapability_ s) (ts102241Version_ s) (globalPlatformVersion_ s) (rspCapability_ s) (euiccCiPKIdListForVerification_ s) (euiccCiPKIdListForSigning_ s) (euiccCategory_ s) (ppVersion_ s) (info2_response_ s) v.

(** With the fields of [mapMetaData]. *)
Record GetContractInfoRequest : Type := MkContractInfoRequest {
  contract_euiccCiPkidToBeUsed : u16string;
  contract_nonce : u16string;
  contract_imei : u16string;
  contract_imei2 : u16string;
  contract_timestamp : u16string;
  contract_ePkPosHpke : u16string
}.
Definition GetContractInfoRequest_new : GetContractInfoRequest := MkContractInfoRequest [] [] [] [] [] [].

Record DownLoadConfigInfo : Type := MkDownLoadConfigInfo {
  dl_portIndex_ : Z;
  hashCc_ : u16string;
  smdpSigned2_ : u16string;
  smdpSignature2_ : u16string;
  smdpCertificate_ : u16string
}.

Record AuthenticateConfigInfo : Type := MkAuthenticateConfigInfo {
  auth_portIndex_ : Z;
  matchingId_ : u16string;
  serverSigned1_ : u16string;
  serverSignature1_ : u16string;
  euiccCiPkIdToBeUsed_ : u16string;
  serverCertificate_ : u16string
}.

(** The parameters of the request in progress. *)
Record EsimProfile : Type := MkEsimProfile {
  esim_iccId : u16string;
  esim_portIndex : Z;
  esim_nickname : u16string;
  esim_hashCc : u16string;
  esim_smdpSigned2 : u16string;
  esim_smdpSignature2 : u16string;
  esim_smdpCertificate : u16string;
  esim_seqNumber : Z;
  esim_forceDisableProfile : bool;
  esim_option : Z;
  esim_transactionId : u16string;
  esim_cancelReason : Z;
  esim_serverSigned1 : u16string;
  esim_serverSignature1 : u16string;
  esim_euiccCiPkIdToBeUsed : u16string;
  esim_serverCertificate : u16string;
  esim_matchingId : u16string;
  esim_imei : u16string;
  esim_boundProfilePackage : u16string;
  esim_events : Z;
  esim_defaultSmdpAddress : u16string;
  esim_apduData : EsimApduData
}.
Definition EsimProfile_new : EsimProfile := MkEsimProfile [] 0 [] [] [] [] [] 0 false 1 [] 1 [] [] [] [] [] [] [] 0 [] (MkEsimApdu false false [] 0 0 0 0 0).
Definition set_esim_iccId (v : u16string) (s : EsimProfile) : EsimProfile := MkEsimProfile v (esim_portIndex s) (esim_nickname s) (esim_hashCc s) (esim_smdpSigned2 s) (esim_smdpSignature2 s) (esim_smdpCertificate s) (esim_seqNumber s) (esim_forceDisableProfile s) (esim_option s) (esim_transactionId s) (esim_cancelReason s) (esim_serverSigned1 s) (esim_serverSignature1 s) (esim_euiccCiPkIdToBeUsed s) (esim_serverCertificate s) (esim_matchingId s) (esim_imei s) (esim_boundProfilePackage s) (esim_events s) (esim_defaultSmdpAddress s) (esim_apduData s).
Definition set_esim_portIndex (v : Z) (s : EsimProfile) : EsimProfile := MkEsimProfile (esim_iccId s) v (esim_nickname s) (esim_hashCc s) (esim_smdpSigned2 s) (esim_smdpSignature2 s) (esim_smdpCertificate s) (esim_seqNumber s) (esim_forceDisableProfile s) (esim_option s) (esim_transactionId s) (esim_cancelReason s) (esim_serverSigned1 s) (esim_serverSignature1 s) (esim_euiccCiPkIdToBeUsed s) (esim_serverCertificate s) (esim_matchingId s) (esim_imei s) (esim_boundProfilePackage s) (esim_events s) (esim_defaultSmdpAddress s) (esim_apduData s).
Definition set_esim_nickname (v : u16string) (s : EsimProfile) : EsimProfile := MkEsimProfile (esim_iccId s) (esim_portIndex s) v (esim_hashCc s) (esim_smdpSigned2 s) (esim_smdpSignature2 s) (esim_smdpCertificate s) (esim_seqNumber s) (esim_forceDisableProfile s) (esim_option s) (esim_transactionId s) (esim_cancelReason s) (esim_serverSigned1 s) (esim_serverSignature1 s) (esim_euiccCiPkIdToBeUsed s) (esim_serverCertificate s) (esim_matchingId s) (esim_imei s) (esim_boundProfilePackage s) (esim_events s) (esim_defaultSmdpAddress s) (esim_apduData s).
Definition set_esim_hashCc (v : u16string) (s : EsimProfile) : EsimProfile := MkEsimProfile (esim_iccId s) (esim_portIndex s) (esim_nickname s) v (esim_smdpSigned2 s) (esim_smdpSignature2 s) (esim_smdpCertificate s) (esim_seqNumber s) (esim_forceDisableProfile s) (esim_option s) (esim_transactionId s) (esim_cancelReason s) (esim_serverSigned1 s) (esim_serverSignature1 s) (esim_euiccCiPkIdToBeUsed s) (esim_serverCertificate s) (esim_matchingId s) (esim_imei s) (esim_boundProfilePackage s) (esim_events s) (esim_defaultSmdpAddress s) (esim_apduData s).
Definition set_esim_smdpSigned2 (v : u16string) (s : EsimProfile) : EsimProfile := MkEsimProfile (esim_iccId s) (esim_portIndex s) (esim_nickname s) (esim_hashCc s) v (esim_smdpSignature2 s) (esim_smdpCertificate s) (esim_seqNumber s) (esim_forceDisableProfile s) (esim_option s) (esim_transactionId s) (esim_cancelReason s) (esim_serverSigned1 s) (esim_serverSignature1 s) (esim_euiccCiPkIdToBeUsed s) (esim_serverCertificate s) (esim_matchingId s) (esim_imei s) (esim_boundProfilePackage s) (esim_events s) (esim_defaultSmdpAddress s) (esim_apduData s).
Definition set_esim_smdpSignature2 (v : u16string) (s : EsimProfile) : EsimProfile := MkEsimProfile (esim_iccId s) (esim_portIndex s) (esim_nickname s) (esim_hashCc s) (esim_smdpSigned2 s) v (esim_smdpCertificate s) (esim_seqNumber s) (esim_forceDisableProfile s) (esim_option s) (esim_transactionId s) (esim_cancelReason s) (esim_serverSigned1 s) (esim_serverSignature1 s) (esim_euiccCiPkIdToBeUsed s) (esim_serverCertificate s) (esim_matchingId s) (esim_imei s) (esim_boundProfilePackage s) (esim_events s) (esim_defaultSmdpAddress s) (esim_apduData s).
Definition set_esim_smdpCertificate (v : u16string) (s : EsimProfile) : EsimProfile := MkEsimProfile (esim_iccId s) (esim_portIndex s) (esim_nickname s) (esim_hashCc s) (esim_smdpSigned2 s) (esim_smdpSignature2 s) v (esim_seqNumber s) (esim_forceDisableProfile s) (esim_option s) (esim_transactionId s) (esim_cancelReason s) (esim_serverSigned1 s) (esim_serverSignature1 s) (esim_euiccCiPkIdToBeUsed s) (esim_serverCertificate s) (esim_matchingId s) (esim_imei s) (esim_boundProfilePackage s) (esim_events s) (esim_defaultSmdpAddress s) (esim_apduData s).
Definition set_esim_seqNumber (v : Z) (s : EsimProfile) : EsimProfile := MkEsimProfile (esim_iccId s) (esim_portIndex s) (esim_nickname s) (esim_hashCc s) (esim_smdpSigned2 s) (esim_smdpSignature2 s) (esim_smdpCertificate s) v (esim_forceDisableProfile s) (esim_option s) (esim_transactionId s) (esim_cancelReason s) (esim_serverSigned1 s) (esim_serverSignature1 s) (esim_euiccCiPkIdToBeUsed s) (esim_serverCertificate s) (esim_matchingId s) (esim_imei s) (esim_boundProfilePackage s) (esim_events s) (esim_defaultSmdpAddress s) (esim_apduData s).
Definition set_esim_forceDisableProfile (v : bool) (s : EsimProfile) : EsimProfile := MkEsimProfile (esim_iccId s) (esim_portIndex s) (esim_nickname s) (esim_hashCc s) (esim_smdpSigned2 s) (esim_smdpSignature2 s) (esim_smdpCertificate s) (esim_seqNumber s) v (esim_option s) (esim_transactionId s) (esim_cancelReason s) (esim_serverSigned1 s) (esim_serverSignature1 s) (esim_euiccCiPkIdToBeUsed s) (esim_serverCertificate s) (esim_matchingId s) (esim_imei s) (esim_boundProfilePackage s) (esim_events s) (esim_defaultSmdpAddress s) (esim_apduData s).
Definition set_esim_option (v : Z) (s : EsimProfile) : EsimProfile := MkEsimProfile (esim_iccId s) (esim_portIndex s) (esim_nickname s) (esim_hashCc s) (esim_smdpSigned2 s) (esim_smdpSignature2 s) (esim_smdpCertificate s) (esim_seqNumber s) (esim_forceDisableProfile s) v (esim_transactionId s) (esim_cancelReason s) (esim_serverSigned1 s) (esim_serverSignature1 s) (esim_euiccCiPkIdToBeUsed s) (esim_serverCertificate s) (esim_matchingId s) (esim_imei s) (esim_boundProfilePackage s) (esim_events s) (esim_defaultSmdpAddress s) (esim_apduData s).
Definition set_esim_transactionId (v : u16string) (s : EsimProfile) : EsimProfile := MkEsimProfile (esim_iccId s) (esim_portIndex s) (esim_nickname s) (esim_hashCc s) (esim_smdpSigned2 s) (esim_smdpSignature2 s) (esim_smdpCertificate s) (esim_seqNumber s) (esim_forceDisableProfile s) (esim_option s) v (esim_cancelReason s) (esim_serverSigned1 s) (esim_serverSignature1 s) (esim_euiccCiPkIdToBeUsed s) (esim_serverCertificate s) (esim_matchingId s) (esim_imei s) (esim_boundProfilePackage s) (esim_events s) (esim_defaultSmdpAddress s) (esim_apduData s).
Definition set_esim_cancelReason (v : Z) (s : EsimProfile) : EsimProfile := MkEsimProfile (esim_iccId s) (esim_portIndex s) (esim_nickname s) (esim_hashCc s) (esim_smdpSigned2 s) (esim_smdpSignature2 s) (esim_smdpCertificate s) (esim_seqNumber s) (esim_forceDisableProfile s) (esim_option s) (esim_transactionId s) v (esim_serverSigned1 s) (esim_serverSignature1 s) (esim_euiccCiPkIdToBeUsed s) (esim_serverCertificate s) (esim_matchingId s) (esim_imei s) (esim_boundProfilePackage s) (esim_events s) (esim_defaultSmdpAddress s) (esim_apduData s).
Definition set_esim_serverSigned1 (v : u16string) (s : EsimProfile) : EsimProfile := MkEsimProfile (esim_iccId s) (esim_portIndex s) (esim_nickname s) (esim_hashCc s) (esim_smdpSigned2 s) (esim_smdpSignature2 s) (esim_smdpCertificate s) (esim_seqNumber s) (esim_forceDisableProfile s) (esim_option s) (esim_transactionId s) (esim_cancelReason s) v (esim_serverSignature1 s) (esim_euiccCiPkIdToBeUsed s) (esim_serverCertificate s) (esim_matchingId s) (esim_imei s) (esim_boundProfilePackage s) (esim_events s) (esim_defaultSmdpAddress s) (esim_apduData s).
Definition set_esim_serverSignature1 (v : u16string) (s : EsimProfile) : EsimProfile := MkEsimProfile (esim_iccId s) (esim_portIndex s) (esim_nickname s) (esim_hashCc s) (esim_smdpSigned2 s) (esim_smdpSignature2 s) (esim_smdpCertificate s) (esim_seqNumber s) (esim_forceDisableProfile s) (esim_option s) (esim_transactionId s) (esim_cancelReason s) (esim_serverSigned1 s) v (esim_euiccCiPkIdToBeUsed s) (esim_serverCertificate s) (esim_matchingId s) (esim_imei s) (esim_boundProfilePackage s) (esim_events s) (esim_defaultSmdpAddress s) (esim_apduData s).
Definition set_esim_euiccCiPkIdToBeUsed (v : u16string) (s : EsimProfile) : EsimProfile := MkEsimProfile (esim_iccId s) (esim_portIndex s) (esim_nickname s) (esim_hashCc s) (esim_smdpSigned2 s) (esim_smdpSignature2 s) (esim_smdpCertificate s) (esim_seqNumber s) (esim_forceDisableProfile s) (esim_option s) (esim_transactionId s) (esim_cancelReason s) (esim_serverSigned1 s) (esim_serverSignature1 s) v (esim_serverCertificate s) (esim_matchingId s) (esim_imei s) (esim_boundProfilePackage s) (esim_events s) (esim_defaultSmdpAddress s) (esim_apduData s).
Definition set_esim_serverCertificate (v : u16string) (s : EsimProfile) : EsimProfile := MkEsimProfile (esim_iccId s) (esim_portIndex s) (esim_nickname s) (esim_hashCc s) (esim_smdpSigned2 s) (esim_smdpSignature2 s) (esim_smdpCertificate s) (esim_seqNumber s) (esim_forceDisableProfile s) (esim_option s) (esim_transactionId s) (esim_cancelReason s) (esim_serverSigned1 s) (esim_serverSignature1 s) (esim_euiccCiPkIdToBeUsed s) v (esim_matchingId s) (esim_imei s) (esim_boundProfilePackage s) (esim_events s) (esim_defaultSmdpAddress s) (esim_apduData s).
Definition set_esim_matchingId (v : u16string) (s : EsimProfile) : EsimProfile := MkEsimProfile (esim_iccId s) (esim_portIndex s) (esim_nickname s) (esim_hashCc s) (esim_smdpSigned2 s) (esim_smdpSignature2 s) (esim_smdpCertificate s) (esim_seqNumber s) (esim_forceDisableProfile s) (esim_option s) (esim_transactionId s) (esim_cancelReason s) (esim_serverSigned1 s) (esim_serverSignature1 s) (esim_euiccCiPkIdToBeUsed s) (esim_serverCertificate s) v (esim_imei s) (esim_boundProfilePackage s) (esim_events s) (esim_defaultSmdpAddress s) (esim_apduData s).
Definition set_esim_imei (v : u16string) (s : EsimProfile) : EsimProfile := MkEsimProfile (esim_iccId s) (esim_portIndex s) (esim_nickname s) (esim_hashCc s) (esim_smdpSigned2 s) (esim_smdpSignature2 s) (esim_smdpCertificate s) (esim_seqNumber s) (esim_forceDisableProfile s) (esim_option s) (esim_transactionId s) (esim_cancelReason s) (esim_serverSigned1 s) (esim_serverSignature1 s) (esim_euiccCiPkIdToBeUsed s) (esim_serverCertificate s) (esim_matchingId s) v (esim_boundProfilePackage s) (esim_events s) (esim_defaultSmdpAddress s) (esim_apduData s).
Definition set_esim_boundProfilePackage (v : u16string) (s : EsimProfile) : EsimProfile := MkEsimProfile (esim_iccId s) (esim_portIndex s) (esim_nickname s) (esim_hashCc s) (esim_smdpSigned2 s) (esim_smdpSignature2 s) (esim_smdpCertificate s) (esim_seqNumber s) (esim_forceDisableProfile s) (esim_option s) (esim_transactionId s) (esim_cancelReason s) (esim_serverSigned1 s) (esim_serverSignature1 s) (esim_euiccCiPkIdToBeUsed s) (esim_serverCertificate s) (esim_matchingId s) (esim_imei s) v (esim_events s) (esim_defaultSmdpAddress s) (esim_apduData s).
Definition set_esim_events (v : Z) (s : EsimProfile) : EsimProfile := MkEsimProfile (esim_iccId s) (esim_portIndex s) (esim_nickname s) (esim_hashCc s) (esim_smdpSigned2 s) (esim_smdpSignature2 s) (esim_smdpCertificate s) (esim_seqNumber s) (esim_forceDisableProfile s) (esim_option s) (esim_transactionId s) (esim_cancelReason s) (esim_serverSigned1 s) (esim_serverSignature1 s) (esim_euiccCiPkIdToBeUsed s) (esim_serverCertificate s) (esim_matchingId s) (esim_imei s) (esim_boundProfilePackage s) v (esim_defaultSmdpAddress s) (esim_apduData s).
Definition set_esim_defaultSmdpAddress (v : u16string) (s : EsimProfile) : EsimProfile := MkEsimProfile (esim_iccId s) (esim_portIndex s) (esim_nickname s) (esim_hashCc s) (esim_smdpSigned2 s) (esim_smdpSignature2 s) (esim_smdpCertificate s) (esim_seqNumber s) (esim_forceDisableProfile s) (esim_option s) (esim_transactionId s) (esim_cancelReason s) (esim_serverSigned1 s) (esim_serverSignature1 s) (esim_euiccCiPkIdToBeUsed s) (esim_serverCertificate s) (esim_matchingId s) (esim_imei s) (esim_boundProfilePackage s) (esim_events s) v (esim_apduData s).
Definition set_esim_apduData (v : EsimApduData) (s : EsimProfile) : EsimProfile := MkEsimProfile (esim_iccId s) (esim_portIndex s) (esim_nickname s) (esim_hashCc s) (esim_smdpSigned2 s) (esim_smdpSignature2 s) (esim_smdpCertificate s) (esim_seqNumber s) (esim_forceDisableProfile s) (esim_option s) (esim_transactionId s) (esim_cancelReason s) (esim_serverSigned1 s) (esim_serverSignature1 s) (esim_euiccCiPkIdToBeUsed s) (esim_serverCertificate s) (esim_matchingId s) (esim_imei s) (esim_boundProfilePackage s) (esim_events s) (esim_defaultSmdpAddress s) v.

(** With the fields of [operatorId]. *)
Record EuiccProfileInfo : Type := MkProfileInfo {
  info_iccid : cstring;
  info_nickname : cstring;
  info_serviceProviderName : cstring;
  info_profileName : cstring;
  info_profileClass : Z;
  info_profileState : Z;
  info_mccMnc : cstring;
  info_gid1 : cstring;
  info_gid2 : cstring;
  info_policyRules : Z;
  info_portIndex : Z
}.
Definition EuiccProfileInfo_new : EuiccProfileInfo := MkProfileInfo [] [] [] [] 0 0 [] [] [] 0 0.
Definition set_info_iccid (v : cstring) (s : EuiccProfileInfo) : EuiccProfileInfo := MkProfileInfo v (info_nickname s) (info_serviceProviderName s) (info_profileName s) (info_profileClass s) (info_profileState s) (info_mccMnc s) (info_gid1 s) (info_gid2 s) (info_policyRules s) (info_portIndex s).
Definition set_info_nickname (v : cstring) (s : EuiccProfileInfo) : EuiccProfileInfo := MkProfileInfo (info_iccid s) v (info_serviceProviderName s) (info_profileName s) (info_profileClass s) (info_profileState s) (info_mccMnc s) (info_gid1 s) (info_gid2 s) (info_policyRules s) (info_portIndex s).
Definition set_info_serviceProviderName (v : cstring) (s : EuiccProfileInfo) : EuiccProfileInfo := MkProfileInfo (info_iccid s) (info_nickname s) v (info_profileName s) (info_profileClass s) (info_profileState s) (info_mccMnc s) (info_gid1 s) (info_gid2 s) (info_policyRules s) (info_portIndex s).
Definition set_info_profileName (v : cstring) (s : EuiccProfileInfo) : EuiccProfileInfo := MkProfileInfo (info_iccid s) (info_nickname s) (info_serviceProviderName s) v (info_profileClass s) (info_profileState s) (info_mccMnc s) (info_gid1 s) (info_gid2 s) (info_policyRules s) (info_portIndex s).
Definition set_info_profileClass (v : Z) (s : EuiccProfileInfo) : EuiccProfileInfo := MkProfileInfo (info_iccid s) (info_nickname s) (info_serviceProviderName s) (info_profileName s) v (info_profileState s) (info_mccMnc s) (info_gid1 s) (info_gid2 s) (info_policyRules s) (info_portIndex s).
Definition set_info_profileState (v : Z) (s : EuiccProfileInfo) : EuiccProfileInfo := MkProfileInfo (info_iccid s) (info_nickname s) (info_serviceProviderName s) (info_profileName s) (info_profileClass s) v (info_mccMnc s) (info_gid1 s) (info_gid2 s) (info_policyRules s) (info_portIndex s).
Definition set_info_mccMnc (v : cstring) (s : EuiccProfileInfo) : EuiccProfileInfo := MkProfileInfo (info_iccid s) (info_nickname s) (info_serviceProviderName s) (info_profileName s) (info_profileClass s) (info_profileState s) v (info_gid1 s) (info_gid2 s) (info_policyRules s) (info_portIndex s).
Definition set_info_gid1 (v : cstring) (s : EuiccProfileInfo) : EuiccProfileInfo := MkProfileInfo (info_iccid s) (info_nickname s) (info_serviceProviderName s) (info_profileName s) (info_profileClass s) (info_profileState s) (info_mccMnc s) v (info_gid2 s) (info_policyRules s) (info_portIndex s).
Definition set_info_gid2 (v : cstring) (s : EuiccProfileInfo) : EuiccProfileInfo := MkProfileInfo (info_iccid s) (info_nickname s) (info_serviceProviderName s) (info_profileName s) (info_profileClass s) (info_profileState s) (info_mccMnc s) (info_gid1 s) v (info_policyRules s) (info_portIndex s).
Definition set_info_policyRules (v : Z) (s : EuiccProfileInfo) : EuiccProfileInfo := MkProfileInfo (info_iccid s) (info_nickname s) (info_serviceProviderName s) (info_profileName s) (info_profileClass s) (info_profileState s) (info_mccMnc s) (info_gid1 s) (info_gid2 s) v (info_portIndex s).
Definition set_info_portIndex (v : Z) (s : EuiccProfileInfo) : EuiccProfileInfo := MkProfileInfo (info_iccid s) (info_nickname s) (info_serviceProviderName s) (info_profileName s) (info_profileClass s) (info_profileState s) (info_mccMnc s) (info_gid1 s) (info_gid2 s) (info_policyRules s) v.

(** The flags that waiting threads look at. *)
Inductive Flag : Type :=
| isEidReady_
| isAllProfileInfoReady_
| isEuiccInfo1Ready_
| isDisableProfileReady_
| isSmdsAddressReady_
| isRulesAuthTableReady_
| isEuiccChallengeReady_
| isObtainDefaultSmdpAddressReady_
| isCancelSessionReady_
| isObtainProfileReady_
| isResetMemoryReady_
| isSetDefaultSmdpAddressReady_
| isSendApduDataReady_
| isPrepareDownloadReady_
| isLoadBppReady_
| isListNotificationsReady_
| isRetrieveNotificationListReady_
| isRetrieveNotificationReady_
| isRemoveNotificationReady_
| isDeleteProfileReady_
| isSwitchToProfileReady_
| isSetNicknameReady_
| isEuiccInfo2Ready_
| isAuthenticateServerReady_
| isGetContractInfoReady_.
#[export] Instance Flag_eq_dec : EqDecision Flag.
Proof. solve_decision. Defined.

(** The members of [EsimFile]. [telRilManager_] says that the pointer is not null; [occupyChannelMutex_] that a thread holds the mutex; [ready] are the flags. A list of notifications is the vector in [EuiccNotificationList]. *)
Record esim_file : Type := MkEsimFile {
  nextSerialId_ : Z;
  currentChannelId_ : Z;
  slotId_ : Z;
  esimProfile_ : EsimProfile;
  eid_ : cstring;
  defaultDpAddress_ : cstring;
  delProfile_ : Z;
  setDpAddressResult_ : Z;
  switchResult_ : Z;
  setNicknameResult_ : Z;
  resetResult_ : Z;
  disableProfileResult_ : Z;
  removeNotifResult_ : Z;
  euiccProfileInfoList_ : GetEuiccProfileInfoListInnerResult;
  eUiccInfo_ : EuiccInfo;
  eUiccProfile_ : EuiccProfile;
  smdsAddress_ : cstring;
  eUiccRulesAuthTable_ : EuiccRulesAuthTable;
  responseChallengeResult_ : ResponseEsimInnerResult;
  euiccInfo2Result_ : EuiccInfo2;
  responseAuthenticateResult_ : ResponseEsimInnerResult;
  preDownloadResult_ : ResponseEsimInnerResult;
  loadBPPResult_ : ResponseEsimBppResult;
  cancelSessionResult_ : ResponseEsimInnerResult;
  notification_ : EuiccNotification;
  eUiccNotificationList_ : list EuiccNotification;
  retrieveNotificationList_ : list EuiccNotification;
  transApduDataResponse_ : ResponseEsimInnerResult;
  getContractInfoRequest_ : GetContractInfoRequest;
  getContractInfoResult_ : cstring;
  isSupported_ : bool;
  recvCombineStr_ : cstring;
  newRecvData_ : IccFileData;
  telRilManager_ : bool;
  aidStr_ : u16string;
  occupyChannelMutex_ : bool;
  ready : Flag -> bool
}.
Definition set_nextSerialId_ (v : Z) (s : esim_file) : esim_file := MkEsimFile v (currentChannelId_ s) (slotId_ s) (esimProfile_ s) (eid_ s) (defaultDpAddress_ s) (delProfile_ s) (setDpAddressResult_ s) (switchResult_ s) (setNicknameResult_ s) (resetResult_ s) (disableProfileResult_ s) (removeNotifResult_ s) (euiccProfileInfoList_ s) (eUiccInfo_ s) (eUiccProfile_ s) (smdsAddress_ s) (eUiccRulesAuthTable_ s) (responseChallengeResult_ s) (euiccInfo2Result_ s) (responseAuthenticateResult_ s) (preDownloadResult_ s) (loadBPPResult_ s) (cancelSessionResult_ s) (notification_ s) (eUiccNotificationList_ s) (retrieveNotificationList_ s) (transApduDataResponse_ s) (getContractInfoRequest_ s) (getContractInfoResult_ s) (isSupported_ s) (recvCombineStr_ s) (newRecvData_ s) (telRilManager_ s) (aidStr_ s) (occupyChannelMutex_ s) (ready s).
Definition set_currentChannelId_ (v : Z) (s : esim_file) : esim_file := MkEsimFile (nextSerialId_ s) v (slotId_ s) (esimProfile_ s) (eid_ s) (defaultDpAddress_ s) (delProfile_ s) (setDpAddressResult_ s) (switchResult_ s) (setNicknameResult_ s) (resetResult_ s) (disableProfileResult_ s) (removeNotifResult_ s) (euiccProfileInfoList_ s) (eUiccInfo_ s) (eUiccProfile_ s) (smdsAddress_ s) (eUiccRulesAuthTable_ s) (responseChallengeResult_ s) (euiccInfo2Result_ s) (responseAuthenticateResult_ s) (preDownloadResult_ s) (loadBPPResult_ s) (cancelSessionResult_ s) (notification_ s) (eUiccNotificationList_ s) (retrieveNotificationList_ s) (transApduDataResponse_ s) (getContractInfoRequest_ s) (getContractInfoResult_ s) (isSupported_ s) (recvCombineStr_ s) (newRecvData_ s) (telRilManager_ s) (aidStr_ s) (occupyChannelMutex_ s) (ready s).
Definition set_slotId_ (v : Z) (s : esim_file) : esim_file := MkEsimFile (nextSerialId_ s) (currentChannelId_ s) v (esimProfile_ s) (eid_ s) (defaultDpAddress_ s) (delProfile_ s) (setDpAddressResult_ s) (switchResult_ s) (setNicknameResult_ s) (resetResult_ s) (disableProfileResult_ s) (removeNotifResult_ s) (euiccProfileInfoList_ s) (eUiccInfo_ s) (eUiccProfile_ s) (smdsAddress_ s) (eUiccRulesAuthTable_ s) (responseChallengeResult_ s) (euiccInfo2Result_ s) (responseAuthenticateResult_ s) (preDownloadResult_ s) (loadBPPResult_ s) (cancelSessionResult_ s) (notification_ s) (eUiccNotificationList_ s) (retrieveNotificationList_ s) (transApduDataResponse_ s) (getContractInfoRequest_ s) (getContractInfoResult_ s) (isSupported_ s) (recvCombineStr_ s) (newRecvData_ s) (telRilManager_ s) (aidStr_ s) (occupyChannelMutex_ s) (ready s).
Definition set_esimProfile_ (v : EsimProfile) (s : esim_file) : esim_file := MkEsimFile (nextSerialId_ s) (currentChannelId_ s) (slotId_ s) v (eid_ s) (defaultDpAddress_ s) (delProfile_ s) (setDpAddressResult_ s) (switchResult_ s) (setNicknameResult_ s) (resetResult_ s) (disableProfileResult_ s) (removeNotifResult_ s) (euiccProfileInfoList_ s) (eUiccInfo_ s) (eUiccProfile_ s) (smdsAddress_ s) (eUiccRulesAuthTable_ s) (responseChallengeResult_ s) (euiccInfo2Result_ s) (responseAuthenticateResult_ s) (preDownloadResult_ s) (loadBPPResult_ s) (cancelSessionResult_ s) (notification_ s) (eUiccNotificationList_ s) (retrieveNotificationList_ s) (transApduDataResponse_ s) (getContractInfoRequest_ s) (getContractInfoResult_ s) (isSupported_ s) (recvCombineStr_ s) (newRecvData_ s) (telRilManager_ s) (aidStr_ s) (occupyChannelMutex_ s) (ready s).
Definition set_eid_ (v : cstring) (s : esim_file) : esim_file := MkEsimFile (nextSerialId_ s) (currentChannelId_ s) (slotId_ s) (esimProfile_ s) v (defaultDpAddress_ s) (delProfile_ s) (setDpAddressResult_ s) (switchResult_ s) (setNicknameResult_ s) (resetResult_ s) (disableProfileResult_ s) (removeNotifResult_ s) (euiccProfileInfoList_ s) (eUiccInfo_ s) (eUiccProfile_ s) (smdsAddress_ s) (eUiccRulesAuthTable_ s) (responseChallengeResult_ s) (euiccInfo2Result_ s) (responseAuthenticateResult_ s) (preDownloadResult_ s) (loadBPPResult_ s) (cancelSessionResult_ s) (notification_ s) (eUiccNotificationList_ s) (retrieveNotificationList_ s) (transApduDataResponse_ s) (getContractInfoRequest_ s) (getContractInfoResult_ s) (isSupported_ s) (recvCombineStr_ s) (newRecvData_ s) (telRilManager_ s) (aidStr_ s) (occupyChannelMutex_ s) (ready s).
Definition set_defaultDpAddress_ (v : cstring) (s : esim_file) : esim_file := MkEsimFile (nextSerialId_ s) (currentChannelId_ s) (slotId_ s) (esimProfile_ s) (eid_ s) v (delProfile_ s) (setDpAddressResult_ s) (switchResult_ s) (setNicknameResult_ s) (resetResult_ s) (disableProfileResult_ s) (removeNotifResult_ s) (euiccProfileInfoList_ s) (eUiccInfo_ s) (eUiccProfile_ s) (smdsAddress_ s) (eUiccRulesAuthTable_ s) (responseChallengeResult_ s) (euiccInfo2Result_ s) (responseAuthenticateResult_ s) (preDownloadResult_ s) (loadBPPResult_ s) (cancelSessionResult_ s) (notification_ s) (eUiccNotificationList_ s) (retrieveNotificationList_ s) (transApduDataResponse_ s) (getContractInfoRequest_ s) (getContractInfoResult_ s) (isSupported_ s) (recvCombineStr_ s) (newRecvData_ s) (telRilManager_ s) (aidStr_ s) (occupyChannelMutex_ s) (ready s).
Definition set_delProfile_ (v : Z) (s : esim_file) : esim_file := MkEsimFile (nextSerialId_ s) (currentChannelId_ s) (slotId_ s) (esimProfile_ s) (eid_ s) (defaultDpAddress_ s) v (setDpAddressResult_ s) (switchResult_ s) (setNicknameResult_ s) (resetResult_ s) (disableProfileResult_ s) (removeNotifResult_ s) (euiccProfileInfoList_ s) (eUiccInfo_ s) (eUiccProfile_ s) (smdsAddress_ s) (eUiccRulesAuthTable_ s) (responseChallengeResult_ s) (euiccInfo2Result_ s) (responseAuthenticateResult_ s) (preDownloadResult_ s) (loadBPPResult_ s) (cancelSessionResult_ s) (notification_ s) (eUiccNotificationList_ s) (retrieveNotificationList_ s) (transApduDataResponse_ s) (getContractInfoRequest_ s) (getContractInfoResult_ s) (isSupported_ s) (recvCombineStr_ s) (newRecvData_ s) (telRilManager_ s) (aidStr_ s) (occupyChannelMutex_ s) (ready s).
Definition set_setDpAddressResult_ (v : Z) (s : esim_file) : esim_file := MkEsimFile (nextSerialId_ s) (currentChannelId_ s) (slotId_ s) (esimProfile_ s) (eid_ s) (defaultDpAddress_ s) (delProfile_ s) v (switchResult_ s) (setNicknameResult_ s) (resetResult_ s) (disableProfileResult_ s) (removeNotifResult_ s) (euiccProfileInfoList_ s) (eUiccInfo_ s) (eUiccProfile_ s) (smdsAddress_ s) (eUiccRulesAuthTable_ s) (responseChallengeResult_ s) (euiccInfo2Result_ s) (responseAuthenticateResult_ s) (preDownloadResult_ s) (loadBPPResult_ s) (cancelSessionResult_ s) (notification_ s) (eUiccNotificationList_ s) (retrieveNotificationList_ s) (transApduDataResponse_ s) (getContractInfoRequest_ s) (getContractInfoResult_ s) (isSupported_ s) (recvCombineStr_ s) (newRecvData_ s) (telRilManager_ s) (aidStr_ s) (occupyChannelMutex_ s) (ready s).
Definition set_switchResult_ (v : Z) (s : esim_file) : esim_file := MkEsimFile (nextSerialId_ s) (currentChannelId_ s) (slotId_ s) (esimProfile_ s) (eid_ s) (defaultDpAddress_ s) (delProfile_ s) (setDpAddressResult_ s) v (setNicknameResult_ s) (resetResult_ s) (disableProfileResult_ s) (removeNotifResult_ s) (euiccProfileInfoList_ s) (eUiccInfo_ s) (eUiccProfile_ s) (smdsAddress_ s) (eUiccRulesAuthTable_ s) (responseChallengeResult_ s) (euiccInfo2Result_ s) (responseAuthenticateResult_ s) (preDownloadResult_ s) (loadBPPResult_ s) (cancelSessionResult_ s) (notification_ s) (eUiccNotificationList_ s) (retrieveNotificationList_ s) (transApduDataResponse_ s) (getContractInfoRequest_ s) (getContractInfoResult_ s) (isSupported_ s) (recvCombineStr_ s) (newRecvData_ s) (telRilManager_ s) (aidStr_ s) (occupyChannelMutex_ s) (ready s).
Definition set_setNicknameResult_ (v : Z) (s : esim_file) : esim_file := MkEsimFile (nextSerialId_ s) (currentChannelId_ s) (slotId_ s) (esimProfile_ s) (eid_ s) (defaultDpAddress_ s) (delProfile_ s) (setDpAddressResult_ s) (switchResult_ s) v (resetResult_ s) (disableProfileResult_ s) (removeNotifResult_ s) (euiccProfileInfoList_ s) (eUiccInfo_ s) (eUiccProfile_ s) (smdsAddress_ s) (eUiccRulesAuthTable_ s) (responseChallengeResult_ s) (euiccInfo2Result_ s) (responseAuthenticateResult_ s) (preDownloadResult_ s) (loadBPPResult_ s) (cancelSessionResult_ s) (notification_ s) (eUiccNotificationList_ s) (retrieveNotificationList_ s) (transApduDataResponse_ s) (getContractInfoRequest_ s) (getContractInfoResult_ s) (isSupported_ s) (recvCombineStr_ s) (newRecvData_ s) (telRilManager_ s) (aidStr_ s) (occupyChannelMutex_ s) (ready s).
Definition set_resetResult_ (v : Z) (s : esim_file) : esim_file := MkEsimFile (nextSerialId_ s) (currentChannelId_ s) (slotId_ s) (esimProfile_ s) (eid_ s) (defaultDpAddress_ s) (delProfile_ s) (setDpAddressResult_ s) (switchResult_ s) (setNicknameResult_ s) v (disableProfileResult_ s) (removeNotifResult_ s) (euiccProfileInfoList_ s) (eUiccInfo_ s) (eUiccProfile_ s) (smdsAddress_ s) (eUiccRulesAuthTable_ s) (responseChallengeResult_ s) (euiccInfo2Result_ s) (responseAuthenticateResult_ s) (preDownloadResult_ s) (loadBPPResult_ s) (cancelSessionResult_ s) (notification_ s) (eUiccNotificationList_ s) (retrieveNotificationList_ s) (transApduDataResponse_ s) (getContractInfoRequest_ s) (getContractInfoResult_ s) (isSupported_ s) (recvCombineStr_ s) (newRecvData_ s) (telRilManager_ s) (aidStr_ s) (occupyChannelMutex_ s) (ready s).
Definition set_disableProfileResult_ (v : Z) (s : esim_file) : esim_file := MkEsimFile (nextSerialId_ s) (currentChannelId_ s) (slotId_ s) (esimProfile_ s) (eid_ s) (defaultDpAddress_ s) (delProfile_ s) (setDpAddressResult_ s) (switchResult_ s) (setNicknameResult_ s) (resetResult_ s) v (removeNotifResult_ s) (euiccProfileInfoList_ s) (eUiccInfo_ s) (eUiccProfile_ s) (smdsAddress_ s) (eUiccRulesAuthTable_ s) (responseChallengeResult_ s) (euiccInfo2Result_ s) (responseAuthenticateResult_ s) (preDownloadResult_ s) (loadBPPResult_ s) (cancelSessionResult_ s) (notification_ s) (eUiccNotificationList_ s) (retrieveNotificationList_ s) (transApduDataResponse_ s) (getContractInfoRequest_ s) (getContractInfoResult_ s) (isSupported_ s) (recvCombineStr_ s) (newRecvData_ s) (telRilManager_ s) (aidStr_ s) (occupyChannelMutex_ s) (ready s).
Definition set_removeNotifResult_ (v : Z) (s : esim_file) : esim_file := MkEsimFile (nextSerialId_ s) (currentChannelId_ s) (slotId_ s) (esimProfile_ s) (eid_ s) (defaultDpAddress_ s) (delProfile_ s) (setDpAddressResult_ s) (switchResult_ s) (setNicknameResult_ s) (resetResult_ s) (disableProfileResult_ s) v (euiccProfileInfoList_ s) (eUiccInfo_ s) (eUiccProfile_ s) (smdsAddress_ s) (eUiccRulesAuthTable_ s) (responseChallengeResult_ s) (euiccInfo2Result_ s) (responseAuthenticateResult_ s) (preDownloadResult_ s) (loadBPPResult_ s) (cancelSessionResult_ s) (notification_ s) (eUiccNotificationList_ s) (retrieveNotificationList_ s) (transApduDataResponse_ s) (getContractInfoRequest_ s) (getContractInfoResult_ s) (isSupported_ s) (recvCombineStr_ s) (newRecvData_ s) (telRilManager_ s) (aidStr_ s) (occupyChannelMutex_ s) (ready s).
Definition set_euiccProfileInfoList_ (v : GetEuiccProfileInfoListInnerResult) (s : esim_file) : esim_file := MkEsimFile (nextSerialId_ s) (currentChannelId_ s) (slotId_ s) (esimProfile_ s) (eid_ s) (defaultDpAddress_ s) (delProfile_ s) (setDpAddressResult_ s) (switchResult_ s) (setNicknameResult_ s) (resetResult_ s) (disableProfileResult_ s) (removeNotifResult_ s) v (eUiccInfo_ s) (eUiccProfile_ s) (smdsAddress_ s) (eUiccRulesAuthTable_ s) (responseChallengeResult_ s) (euiccInfo2Result_ s) (responseAuthenticateResult_ s) (preDownloadResult_ s) (loadBPPResult_ s) (cancelSessionResult_ s) (notification_ s) (eUiccNotificationList_ s) (retrieveNotificationList_ s) (transApduDataResponse_ s) (getContractInfoRequest_ s) (getContractInfoResult_ s) (isSupported_ s) (recvCombineStr_ s) (newRecvData_ s) (telRilManager_ s) (aidStr_ s) (occupyChannelMutex_ s) (ready s).
Definition set_eUiccInfo_ (v : EuiccInfo) (s : esim_file) : esim_file := MkEsimFile (nextSerialId_ s) (currentChannelId_ s) (slotId_ s) (esimProfile_ s) (eid_ s) (defaultDpAddress_ s) (delProfile_ s) (setDpAddressResult_ s) (switchResult_ s) (setNicknameResult_ s) (resetResult_ s) (disableProfileResult_ s) (removeNotifResult_ s) (euiccProfileInfoList_ s) v (eUiccProfile_ s) (smdsAddress_ s) (eUiccRulesAuthTable_ s) (responseChallengeResult_ s) (euiccInfo2Result_ s) (responseAuthenticateResult_ s) (preDownloadResult_ s) (loadBPPResult_ s) (cancelSessionResult_ s) (notification_ s) (eUiccNotificationList_ s) (retrieveNotificationList_ s) (transApduDataResponse_ s) (getContractInfoRequest_ s) (getContractInfoResult_ s) (isSupported_ s) (recvCombineStr_ s) (newRecvData_ s) (telRilManager_ s) (aidStr_ s) (occupyChannelMutex_ s) (ready s).
Definition set_eUiccProfile_ (v : EuiccProfile) (s : esim_file) : esim_file := MkEsimFile (nextSerialId_ s) (currentChannelId_ s) (slotId_ s) (esimProfile_ s) (eid_ s) (defaultDpAddress_ s) (delProfile_ s) (setDpAddressResult_ s) (switchResult_ s) (setNicknameResult_ s) (resetResult_ s) (disableProfileResult_ s) (removeNotifResult_ s) (euiccProfileInfoList_ s) (eUiccInfo_ s) v (smdsAddress_ s) (eUiccRulesAuthTable_ s) (responseChallengeResult_ s) (euiccInfo2Result_ s) (responseAuthenticateResult_ s) (preDownloadResult_ s) (loadBPPResult_ s) (cancelSessionResult_ s) (notification_ s) (eUiccNotificationList_ s) (retrieveNotificationList_ s) (transApduDataResponse_ s) (getContractInfoRequest_ s) (getContractInfoResult_ s) (isSupported_ s) (recvCombineStr_ s) (newRecvData_ s) (telRilManager_ s) (aidStr_ s) (occupyChannelMutex_ s) (ready s).
Definition set_smdsAddress_ (v : cstring) (s : esim_file) : esim_file := MkEsimFile (nextSerialId_ s) (currentChannelId_ s) (slotId_ s) (esimProfile_ s) (eid_ s) (defaultDpAddress_ s) (delProfile_ s) (setDpAddressResult_ s) (switchResult_ s) (setNicknameResult_ s) (resetResult_ s) (disableProfileResult_ s) (removeNotifResult_ s) (euiccProfileInfoList_ s) (eUiccInfo_ s) (eUiccProfile_ s) v (eUiccRulesAuthTable_ s) (responseChallengeResult_ s) (euiccInfo2Result_ s) (responseAuthenticateResult_ s) (preDownloadResult_ s) (loadBPPResult_ s) (cancelSessionResult_ s) (notification_ s) (eUiccNotificationList_ s) (retrieveNotificationList_ s) (transApduDataResponse_ s) (getContractInfoRequest_ s) (getContractInfoResult_ s) (isSupported_ s) (recvCombineStr_ s) (newRecvData_ s) (telRilManager_ s) (aidStr_ s) (occupyChannelMutex_ s) (ready s).
Definition set_eUiccRulesAuthTable_ (v : EuiccRulesAuthTable) (s : esim_file) : esim_file := MkEsimFile (nextSerialId_ s) (currentChannelId_ s) (slotId_ s) (esimProfile_ s) (eid_ s) (defaultDpAddress_ s) (delProfile_ s) (setDpAddressResult_ s) (switchResult_ s) (setNicknameResult_ s) (resetResult_ s) (disableProfileResult_ s) (removeNotifResult_ s) (euiccProfileInfoList_ s) (eUiccInfo_ s) (eUiccProfile_ s) (smdsAddress_ s) v (responseChallengeResult_ s) (euiccInfo2Result_ s) (responseAuthenticateResult_ s) (preDownloadResult_ s) (loadBPPResult_ s) (cancelSessionResult_ s) (notification_ s) (eUiccNotificationList_ s) (retrieveNotificationList_ s) (transApduDataResponse_ s) (getContractInfoRequest_ s) (getContractInfoResult_ s) (isSupported_ s) (recvCombineStr_ s) (newRecvData_ s) (telRilManager_ s) (aidStr_ s) (occupyChannelMutex_ s) (ready s).
Definition set_responseChallengeResult_ (v : ResponseEsimInnerResult) (s : esim_file) : esim_file := MkEsimFile (nextSerialId_ s) (currentChannelId_ s) (slotId_ s) (esimProfile_ s) (eid_ s) (defaultDpAddress_ s) (delProfile_ s) (setDpAddressResult_ s) (switchResult_ s) (setNicknameResult_ s) (resetResult_ s) (disableProfileResult_ s) (removeNotifResult_ s) (euiccProfileInfoList_ s) (eUiccInfo_ s) (eUiccProfile_ s) (smdsAddress_ s) (eUiccRulesAuthTable_ s) v (euiccInfo2Result_ s) (responseAuthenticateResult_ s) (preDownloadResult_ s) (loadBPPResult_ s) (cancelSessionResult_ s) (notification_ s) (eUiccNotificationList_ s) (retrieveNotificationList_ s) (transApduDataResponse_ s) (getContractInfoRequest_ s) (getContractInfoResult_ s) (isSupported_ s) (recvCombineStr_ s) (newRecvData_ s) (telRilManager_ s) (aidStr_ s) (occupyChannelMutex_ s) (ready s).
Definition set_euiccInfo2Result_ (v : EuiccInfo2) (s : esim_file) : esim_file := MkEsimFile (nextSerialId_ s) (currentChannelId_ s) (slotId_ s) (esimProfile_ s) (eid_ s) (defaultDpAddress_ s) (delProfile_ s) (setDpAddressResult_ s) (switchResult_ s) (setNicknameResult_ s) (resetResult_ s) (disableProfileResult_ s) (removeNotifResult_ s) (euiccProfileInfoList_ s) (eUiccInfo_ s) (eUiccProfile_ s) (smdsAddress_ s) (eUiccRulesAuthTable_ s) (responseChallengeResult_ s) v (responseAuthenticateResult_ s) (preDownloadResult_ s) (loadBPPResult_ s) (cancelSessionResult_ s) (notification_ s) (eUiccNotificationList_ s) (retrieveNotificationList_ s) (transApduDataResponse_ s) (getContractInfoRequest_ s) (getContractInfoResult_ s) (isSupported_ s) (recvCombineStr_ s) (newRecvData_ s) (telRilManager_ s) (aidStr_ s) (occupyChannelMutex_ s) (ready s).
Definition set_responseAuthenticateResult_ (v : ResponseEsimInnerResult) (s : esim_file) : esim_file := MkEsimFile (nextSerialId_ s) (currentChannelId_ s) (slotId_ s) (esimProfile_ s) (eid_ s) (defaultDpAddress_ s) (delProfile_ s) (setDpAddressResult_ s) (switchResult_ s) (setNicknameResult_ s) (resetResult_ s) (disableProfileResult_ s) (removeNotifResult_ s) (euiccProfileInfoList_ s) (eUiccInfo_ s) (eUiccProfile_ s) (smdsAddress_ s) (eUiccRulesAuthTable_ s) (responseChallengeResult_ s) (euiccInfo2Result_ s) v (preDownloadResult_ s) (loadBPPResult_ s) (cancelSessionResult_ s) (notification_ s) (eUiccNotificationList_ s) (retrieveNotificationList_ s) (transApduDataResponse_ s) (getContractInfoRequest_ s) (getContractInfoResult_ s) (isSupported_ s) (recvCombineStr_ s) (newRecvData_ s) (telRilManager_ s) (aidStr_ s) (occupyChannelMutex_ s) (ready s).
Definition set_preDownloadResult_ (v : ResponseEsimInnerResult) (s : esim_file) : esim_file := MkEsimFile (nextSerialId_ s) (currentChannelId_ s) (slotId_ s) (esimProfile_ s) (eid_ s) (defaultDpAddress_ s) (delProfile_ s) (setDpAddressResult_ s) (switchResult_ s) (setNicknameResult_ s) (resetResult_ s) (disableProfileResult_ s) (removeNotifResult_ s) (euiccProfileInfoList_ s) (eUiccInfo_ s) (eUiccProfile_ s) (smdsAddress_ s) (eUiccRulesAuthTable_ s) (responseChallengeResult_ s) (euiccInfo2Result_ s) (responseAuthenticateResult_ s) v (loadBPPResult_ s) (cancelSessionResult_ s) (notification_ s) (eUiccNotificationList_ s) (retrieveNotificationList_ s) (transApduDataResponse_ s) (getContractInfoRequest_ s) (getContractInfoResult_ s) (isSupported_ s) (recvCombineStr_ s) (newRecvData_ s) (telRilManager_ s) (aidStr_ s) (occupyChannelMutex_ s) (ready s).
Definition set_loadBPPResult_ (v : ResponseEsimBppResult) (s : esim_file) : esim_file := MkEsimFile (nextSerialId_ s) (currentChannelId_ s) (slotId_ s) (esimProfile_ s) (eid_ s) (defaultDpAddress_ s) (delProfile_ s) (setDpAddressResult_ s) (switchResult_ s) (setNicknameResult_ s) (resetResult_ s) (disableProfileResult_ s) (removeNotifResult_ s) (euiccProfileInfoList_ s) (eUiccInfo_ s) (eUiccProfile_ s) (smdsAddress_ s) (eUiccRulesAuthTable_ s) (responseChallengeResult_ s) (euiccInfo2Result_ s) (responseAuthenticateResult_ s) (preDownloadResult_ s) v (cancelSessionResult_ s) (notification_ s) (eUiccNotificationList_ s) (retrieveNotificationList_ s) (transApduDataResponse_ s) (getContractInfoRequest_ s) (getContractInfoResult_ s) (isSupported_ s) (recvCombineStr_ s) (newRecvData_ s) (telRilManager_ s) (aidStr_ s) (occupyChannelMutex_ s) (ready s).
Definition set_cancelSessionResult_ (v : ResponseEsimInnerResult) (s : esim_file) : esim_file := MkEsimFile (nextSerialId_ s) (currentChannelId_ s) (slotId_ s) (esimProfile_ s) (eid_ s) (defaultDpAddress_ s) (delProfile_ s) (setDpAddressResult_ s) (switchResult_ s) (setNicknameResult_ s) (resetResult_ s) (disableProfileResult_ s) (removeNotifResult_ s) (euiccProfileInfoList_ s) (eUiccInfo_ s) (eUiccProfile_ s) (smdsAddress_ s) (eUiccRulesAuthTable_ s) (responseChallengeResult_ s) (euiccInfo2Result_ s) (responseAuthenticateResult_ s) (preDownloadResult_ s) (loadBPPResult_ s) v (notification_ s) (eUiccNotificationList_ s) (retrieveNotificationList_ s) (transApduDataResponse_ s) (getContractInfoRequest_ s) (getContractInfoResult_ s) (isSupported_ s) (recvCombineStr_ s) (newRecvData_ s) (telRilManager_ s) (aidStr_ s) (occupyChannelMutex_ s) (ready s).
Definition set_notification_ (v : EuiccNotification) (s : esim_file) : esim_file := MkEsimFile (nextSerialId_ s) (currentChannelId_ s) (slotId_ s) (esimProfile_ s) (eid_ s) (defaultDpAddress_ s) (delProfile_ s) (setDpAddressResult_ s) (switchResult_ s) (setNicknameResult_ s) (resetResult_ s) (disableProfileResult_ s) (removeNotifResult_ s) (euiccProfileInfoList_ s) (eUiccInfo_ s) (eUiccProfile_ s) (smdsAddress_ s) (eUiccRulesAuthTable_ s) (responseChallengeResult_ s) (euiccInfo2Result_ s) (responseAuthenticateResult_ s) (preDownloadResult_ s) (loadBPPResult_ s) (cancelSessionResult_ s) v (eUiccNotificationList_ s) (retrieveNotificationList_ s) (transApduDataResponse_ s) (getContractInfoRequest_ s) (getContractInfoResult_ s) (isSupported_ s) (recvCombineStr_ s) (newRecvData_ s) (telRilManager_ s) (aidStr_ s) (occupyChannelMutex_ s) (ready s).
Definition set_eUiccNotificationList_ (v : list EuiccNotification) (s : esim_file) : esim_file := MkEsimFile (nextSerialId_ s) (currentChannelId_ s) (slotId_ s) (esimProfile_ s) (eid_ s) (defaultDpAddress_ s) (delProfile_ s) (setDpAddressResult_ s) (switchResult_ s) (setNicknameResult_ s) (resetResult_ s) (disableProfileResult_ s) (removeNotifResult_ s) (euiccProfileInfoList_ s) (eUiccInfo_ s) (eUiccProfile_ s) (smdsAddress_ s) (eUiccRulesAuthTable_ s) (responseChallengeResult_ s) (euiccInfo2Result_ s) (responseAuthenticateResult_ s) (preDownloadResult_ s) (loadBPPResult_ s) (cancelSessionResult_ s) (notification_ s) v (retrieveNotificationList_ s) (transApduDataResponse_ s) (getContractInfoRequest_ s) (getContractInfoResult_ s) (isSupported_ s) (recvCombineStr_ s) (newRecvData_ s) (telRilManager_ s) (aidStr_ s) (occupyChannelMutex_ s) (ready s).
Definition set_retrieveNotificationList_ (v : list EuiccNotification) (s : esim_file) : esim_file := MkEsimFile (nextSerialId_ s) (currentChannelId_ s) (slotId_ s) (esimProfile_ s) (eid_ s) (defaultDpAddress_ s) (delProfile_ s) (setDpAddressResult_ s) (switchResult_ s) (setNicknameResult_ s) (resetResult_ s) (disableProfileResult_ s) (removeNotifResult_ s) (euiccProfileInfoList_ s) (eUiccInfo_ s) (eUiccProfile_ s) (smdsAddress_ s) (eUiccRulesAuthTable_ s) (responseChallengeResult_ s) (euiccInfo2Result_ s) (responseAuthenticateResult_ s) (preDownloadResult_ s) (loadBPPResult_ s) (cancelSessionResult_ s) (notification_ s) (eUiccNotificationList_ s) v (transApduDataResponse_ s) (getContractInfoRequest_ s) (getContractInfoResult_ s) (isSupported_ s) (recvCombineStr_ s) (newRecvData_ s) (telRilManager_ s) (aidStr_ s) (occupyChannelMutex_ s) (ready s).
Definition set_transApduDataResponse_ (v : ResponseEsimInnerResult) (s : esim_file) : esim_file := MkEsimFile (nextSerialId_ s) (currentChannelId_ s) (slotId_ s) (esimProfile_ s) (eid_ s) (defaultDpAddress_ s) (delProfile_ s) (setDpAddressResult_ s) (switchResult_ s) (setNicknameResult_ s) (resetResult_ s) (disableProfileResult_ s) (removeNotifResult_ s) (euiccProfileInfoList_ s) (eUiccInfo_ s) (eUiccProfile_ s) (smdsAddress_ s) (eUiccRulesAuthTable_ s) (responseChallengeResult_ s) (euiccInfo2Result_ s) (responseAuthenticateResult_ s) (preDownloadResult_ s) (loadBPPResult_ s) (cancelSessionResult_ s) (notification_ s) (eUiccNotificationList_ s) (retrieveNotificationList_ s) v (getContractInfoRequest_ s) (getContractInfoResult_ s) (isSupported_ s) (recvCombineStr_ s) (newRecvData_ s) (telRilManager_ s) (aidStr_ s) (occupyChannelMutex_ s) (ready s).
Definition set_getContractInfoRequest_ (v : GetContractInfoRequest) (s : esim_file) : esim_file := MkEsimFile (nextSerialId_ s) (currentChannelId_ s) (slotId_ s) (esimProfile_ s) (eid_ s) (defaultDpAddress_ s) (delProfile_ s) (setDpAddressResult_ s) (switchResult_ s) (setNicknameResult_ s) (resetResult_ s) (disableProfileResult_ s) (removeNotifResult_ s) (euiccProfileInfoList_ s) (eUiccInfo_ s) (eUiccProfile_ s) (smdsAddress_ s) (eUiccRulesAuthTable_ s) (responseChallengeResult_ s) (euiccInfo2Result_ s) (responseAuthenticateResult_ s) (preDownloadResult_ s) (loadBPPResult_ s) (cancelSessionResult_ s) (notification_ s) (eUiccNotificationList_ s) (retrieveNotificationList_ s) (transApduDataResponse_ s) v (getContractInfoResult_ s) (isSupported_ s) (recvCombineStr_ s) (newRecvData_ s) (telRilManager_ s) (aidStr_ s) (occupyChannelMutex_ s) (ready s).
Definition set_getContractInfoResult_ (v : cstring) (s : esim_file) : esim_file := MkEsimFile (nextSerialId_ s) (currentChannelId_ s) (slotId_ s) (esimProfile_ s) (eid_ s) (defaultDpAddress_ s) (delProfile_ s) (setDpAddressResult_ s) (switchResult_ s) (setNicknameResult_ s) (resetResult_ s) (disableProfileResult_ s) (removeNotifResult_ s) (euiccProfileInfoList_ s) (eUiccInfo_ s) (eUiccProfile_ s) (smdsAddress_ s) (eUiccRulesAuthTable_ s) (responseChallengeResult_ s) (euiccInfo2Result_ s) (responseAuthenticateResult_ s) (preDownloadResult_ s) (loadBPPResult_ s) (cancelSessionResult_ s) (notification_ s) (eUiccNotificationList_ s) (retrieveNotificationList_ s) (transApduDataResponse_ s) (getContractInfoRequest_ s) v (isSupported_ s) (recvCombineStr_ s) (newRecvData_ s) (telRilManager_ s) (aidStr_ s) (occupyChannelMutex_ s) (ready s).
Definition set_isSupported_ (v : bool) (s : esim_file) : esim_file := MkEsimFile (nextSerialId_ s) (currentChannelId_ s) (slotId_ s) (esimProfile_ s) (eid_ s) (defaultDpAddress_ s) (delProfile_ s) (setDpAddressResult_ s) (switchResult_ s) (setNicknameResult_ s) (resetResult_ s) (disableProfileResult_ s) (removeNotifResult_ s) (euiccProfileInfoList_ s) (eUiccInfo_ s) (eUiccProfile_ s) (smdsAddress_ s) (eUiccRulesAuthTable_ s) (responseChallengeResult_ s) (euiccInfo2Result_ s) (responseAuthenticateResult_ s) (preDownloadResult_ s) (loadBPPResult_ s) (cancelSessionResult_ s) (notification_ s) (eUiccNotificationList_ s) (retrieveNotificationList_ s) (transApduDataResponse_ s) (getContractInfoRequest_ s) (getContractInfoResult_ s) v (recvCombineStr_ s) (newRecvData_ s) (telRilManager_ s) (aidStr_ s) (occupyChannelMutex_ s) (ready s).
Definition set_recvCombineStr_ (v : cstring) (s : esim_file) : esim_file := MkEsimFile (nextSerialId_ s) (currentChannelId_ s) (slotId_ s) (esimProfile_ s) (eid_ s) (defaultDpAddress_ s) (delProfile_ s) (setDpAddressResult_ s) (switchResult_ s) (setNicknameResult_ s) (resetResult_ s) (disableProfileResult_ s) (removeNotifResult_ s) (euiccProfileInfoList_ s) (eUiccInfo_ s) (eUiccProfile_ s) (smdsAddress_ s) (eUiccRulesAuthTable_ s) (responseChallengeResult_ s) (euiccInfo2Result_ s) (responseAuthenticateResult_ s) (preDownloadResult_ s) (loadBPPResult_ s) (cancelSessionResult_ s) (notification_ s) (eUiccNotificationList_ s) (retrieveNotificationList_ s) (transApduDataResponse_ s) (getContractInfoRequest_ s) (getContractInfoResult_ s) (isSupported_ s) v (newRecvData_ s) (telRilManager_ s) (aidStr_ s) (occupyChannelMutex_ s) (ready s).
Definition set_newRecvData_ (v : IccFileData) (s : esim_file) : esim_file := MkEsimFile (nextSerialId_ s) (currentChannelId_ s) (slotId_ s) (esimProfile_ s) (eid_ s) (defaultDpAddress_ s) (delProfile_ s) (setDpAddressResult_ s) (switchResult_ s) (setNicknameResult_ s) (resetResult_ s) (disableProfileResult_ s) (removeNotifResult_ s) (euiccProfileInfoList_ s) (eUiccInfo_ s) (eUiccProfile_ s) (smdsAddress_ s) (eUiccRulesAuthTable_ s) (responseChallengeResult_ s) (euiccInfo2Result_ s) (responseAuthenticateResult_ s) (preDownloadResult_ s) (loadBPPResult_ s) (cancelSessionResult_ s) (notification_ s) (eUiccNotificationList_ s) (retrieveNotificationList_ s) (transApduDataResponse_ s) (getContractInfoRequest_ s) (getContractInfoResult_ s) (isSupported_ s) (recvCombineStr_ s) v (telRilManager_ s) (aidStr_ s) (occupyChannelMutex_ s) (ready s).
Definition set_telRilManager_ (v : bool) (s : esim_file) : esim_file := MkEsimFile (nextSerialId_ s) (currentChannelId_ s) (slotId_ s) (esimProfile_ s) (eid_ s) (defaultDpAddress_ s) (delProfile_ s) (setDpAddressResult_ s) (switchResult_ s) (setNicknameResult_ s) (resetResult_ s) (disableProfileResult_ s) (removeNotifResult_ s) (euiccProfileInfoList_ s) (eUiccInfo_ s) (eUiccProfile_ s) (smdsAddress_ s) (eUiccRulesAuthTable_ s) (responseChallengeResult_ s) (euiccInfo2Result_ s) (responseAuthenticateResult_ s) (preDownloadResult_ s) (loadBPPResult_ s) (cancelSessionResult_ s) (notification_ s) (eUiccNotificationList_ s) (retrieveNotificationList_ s) (transApduDataResponse_ s) (getContractInfoRequest_ s) (getContractInfoResult_ s) (isSupported_ s) (recvCombineStr_ s) (newRecvData_ s) v (aidStr_ s) (occupyChannelMutex_ s) (ready s).
Definition set_aidStr_ (v : u16string) (s : esim_file) : esim_file := MkEsimFile (nextSerialId_ s) (currentChannelId_ s) (slotId_ s) (esimProfile_ s) (eid_ s) (defaultDpAddress_ s) (delProfile_ s) (setDpAddressResult_ s) (switchResult_ s) (setNicknameResult_ s) (resetResult_ s) (disableProfileResult_ s) (removeNotifResult_ s) (euiccProfileInfoList_ s) (eUiccInfo_ s) (eUiccProfile_ s) (smdsAddress_ s) (eUiccRulesAuthTable_ s) (responseChallengeResult_ s) (euiccInfo2Result_ s) (responseAuthenticateResult_ s) (preDownloadResult_ s) (loadBPPResult_ s) (cancelSessionResult_ s) (notification_ s) (eUiccNotificationList_ s) (retrieveNotificationList_ s) (transApduDataResponse_ s) (getContractInfoRequest_ s) (getContractInfoResult_ s) (isSupported_ s) (recvCombineStr_ s) (newRecvData_ s) (telRilManager_ s) v (occupyChannelMutex_ s) (ready s).
Definition set_occupyChannelMutex_ (v : bool) (s : esim_file) : esim_file := MkEsimFile (nextSerialId_ s) (currentChannelId_ s) (slotId_ s) (esimProfile_ s) (eid_ s) (defaultDpAddress_ s) (delProfile_ s) (setDpAddressResult_ s) (switchResult_ s) (setNicknameResult_ s) (resetResult_ s) (disableProfileResult_ s) (removeNotifResult_ s) (euiccProfileInfoList_ s) (eUiccInfo_ s) (eUiccProfile_ s) (smdsAddress_ s) (eUiccRulesAuthTable_ s) (responseChallengeResult_ s) (euiccInfo2Result_ s) (responseAuthenticateResult_ s) (preDownloadResult_ s) (loadBPPResult_ s) (cancelSessionResult_ s) (notification_ s) (eUiccNotificationList_ s) (retrieveNotificationList_ s) (transApduDataResponse_ s) (getContractInfoRequest_ s) (getContractInfoResult_ s) (isSupported_ s) (recvCombineStr_ s) (newRecvData_ s) (telRilManager_ s) (aidStr_ s) v (ready s).
Definition set_ready (v : Flag -> bool) (s : esim_file) : esim_file := MkEsimFile (nextSerialId_ s) (currentChannelId_ s) (slotId_ s) (esimProfile_ s) (eid_ s) (defaultDpAddress_ s) (delProfile_ s) (setDpAddressResult_ s) (switchResult_ s) (setNicknameResult_ s) (resetResult_ s) (disableProfileResult_ s) (removeNotifResult_ s) (euiccProfileInfoList_ s) (eUiccInfo_ s) (eUiccProfile_ s) (smdsAddress_ s) (eUiccRulesAuthTable_ s) (responseChallengeResult_ s) (euiccInfo2Result_ s) (responseAuthenticateResult_ s) (preDownloadResult_ s) (loadBPPResult_ s) (cancelSessionResult_ s) (notification_ s) (eUiccNotificationList_ s) (retrieveNotificationList_ s) (transApduDataResponse_ s) (getContractInfoRequest_ s) (getContractInfoResult_ s) (isSupported_ s) (recvCombineStr_ s) (newRecvData_ s) (telRilManager_ s) (aidStr_ s) (occupyChannelMutex_ s) v.
Definition ESIM_INIT : esim_file :=
  MkEsimFile 0 0 0 EsimProfile_new [] [] RESULT_EUICC_CARD_DEFALUT_ERROR RESULT_EUICC_CARD_DEFALUT_ERROR RESULT_EUICC_CARD_DEFALUT_ERROR RESULT_EUICC_CARD_DEFALUT_ERROR RESULT_EUICC_CARD_DEFALUT_ERROR RESULT_EUICC_CARD_DEFALUT_ERROR RESULT_EUICC_CARD_DEFALUT_ERROR GetEuiccProfileInfoListInnerResult_new EuiccInfo_new EuiccProfile_new [] EuiccRulesAuthTable_new ResponseEsimInnerResult_new EuiccInfo2_new ResponseEsimInnerResult_new ResponseEsimInnerResult_new ResponseEsimBppResult_new ResponseEsimInnerResult_new EuiccNotification_new [] [] ResponseEsimInnerResult_new GetContractInfoRequest_new [] false [] IccFileData_new false [] false (fun _ => false).

(** [EsimFile::EsimFile]; [currentChannelId_] is 0 after it. *)
Definition EsimFile_new (telRilManager : bool) (slotId : Z) : esim_file := set_telRilManager_ telRilManager (set_slotId_ slotId ESIM_INIT).

(** ** The platform *)

(** The modem ([i_tel_ril_manager.h]) with the message of its answer as last argument, system parameters ([parameters.h]), [CoreManagerInner], and [EVP_DecodeBlock] and
    [EVP_EncodeBlock] of OpenSSL, which return a length and what is in the output buffer then.
    The schedule of the threads is part of the platform: [arrived] gives the next event that the object's handler takes while the calling thread waits, or has sent its request
    and does not wait yet, and [patience] how many it takes at most before the calling thread goes on. *)
Inductive moment : Type := Overtaking | Waiting.
Class EsimPlatform (W : Type) : Type := {
  SimOpenLogicalChannel : Z -> cstring -> Z -> Z -> W -> W;
  SimOpenLogicalChannelWithPort : Z -> cstring -> Z -> Z -> Z -> W -> W;
  SimCloseLogicalChannel : Z -> Z -> Z -> W -> W;
  SimTransmitApduLogicalChannel : Z -> ApduSimIORequestInfo -> Z -> W -> Z * W;
  arrived : moment -> W -> option Event * W;
  patience : W -> nat;
  GetBoolParameter : cstring -> bool -> W -> bool;
  GetParameter : cstring -> cstring -> Z -> W -> cstring;
  SetParameter : cstring -> cstring -> W -> W;
  GetSimId : Z -> W -> Z;
  GetImei : Z -> u16string -> W -> u16string;
  EVP_DecodeBlock : cstring -> Z * list Z;
  EVP_EncodeBlock : cstring -> Z * cstring
}.

Record esim (W : Type) : Type := MkEsim { file : esim_file; world : W }.
Arguments MkEsim {W}. Arguments file {W}. Arguments world {W}.

(** ** The monads *)

(** Code of the object. *)
Definition E (W : Type) : Type -> Type := partial (esim W).
(** Code that reads a response: a pointer to a node is the path to it from the root, and the root is part of the state, because nodes are decoded when they are
    first looked into; [S] is what the code fills in. *)
Definition path : Type := list nat.
Definition reader (S : Type) : Type -> Type := partial (S * Asn1Node).

Section Object.
Context {W : Type}.
Definition member {A} (f : esim_file -> A) : E W A := pure (gets (fun s => f (file s))).
Definition assign (f : esim_file -> esim_file) : E W unit := pure (modifies (fun s => MkEsim (f (file s)) (world s))).
Definition platform {A} (m : stateful W A) : E W A := pure (fun s => let '(a, w) := m (world s) in (a, MkEsim (file s) w)).
Definition lift {A} (o : outcome A) : E W A := attempt (fun _ => o).
(** Read the response [root], filling in the object. *)
Definition in_tree {A} (root : Asn1Node) (m : reader esim_file A) : E W A := fun s =>
  '(a, (f, _)) ← m (file s, root);
  Ret (a, MkEsim f (world s)).
End Object.

Section Reader.
Context {S : Type}.
Fixpoint node_at (n : Asn1Node) (p : path) : option Asn1Node :=
  match p with [] => Some n | i :: p => c ← children_ n !! i; node_at c p end.
Fixpoint replace_at (n : Asn1Node) (p : path) (m : Asn1Node) : Asn1Node :=
  match p with [] => m | i :: p => match children_ n !! i with Some c => update_child n i (replace_at c p m) | None => n end end.
Definition the_node (p : path) : reader S Asn1Node := attempt (fun '(_, root) => the (node_at root p)).
Definition put_node (p : path) (m : Asn1Node) : reader S unit := pure (modifies (fun '(s, root) => (s, replace_at root p m))).
Definition out (f : S -> S) : reader S unit := pure (modifies (fun '(s, root) => (f s, root))).
Definition throws {A} (o : outcome A) : reader S A := attempt (fun _ => o).
(** [p->Asn1GetChild(tag)] and so on, on the node that [p] points to. *)
Definition GetChild (p : path) (tag : Z) : reader S (option path) :=
  n ← the_node p;
  '(n, r) ← throws (Asn1GetChild n tag);
  put_node p n ;;
  mret (match r with Some (i, _) => Some (p ++ [i]) | None => None end).
Definition HasChild (p : path) (tag : Z) : reader S bool :=
  r ← GetChild p tag;
  mret (match r with Some _ => true | None => false end).
Definition GetGrandson (p : path) (firstLevelTag secondLevelTag : Z) : reader S (option path) :=
  n ← the_node p;
  '(n, r) ← throws (Asn1GetGrandson n firstLevelTag secondLevelTag);
  put_node p n ;;
  mret (match r with Some (i, j, _) => Some (p ++ [i; j]) | None => None end).
(** The positions of the children with a tag. *)
Fixpoint positions (i : nat) (tag : Z) (cs : list Asn1Node) : list nat :=
  match cs with [] => [] | c :: cs => if tag_ c =? tag then i :: positions (Datatypes.S i) tag cs else positions (Datatypes.S i) tag cs end.
(** The list is only added to: it is what was in it before, and the children found. *)
Definition GetChildren (p : path) (tag : Z) (before : list path) : reader S (TelErr * list path) :=
  n ← the_node p;
  '(e, n, found) ← throws (Asn1GetChildren n tag);
  put_node p n ;;
  mret (e, before ++ match found with [] => [] | _ => (fun i => p ++ [i]) <$> positions 0 tag (children_ n) end).
Definition read {A} (f : Asn1Node -> A) (p : path) : reader S A := n ← the_node p; mret (f n).
Definition AsBytes (p : path) : reader S (Z * list Z) :=
  n ← the_node p;
  '(len, bytes) ← throws (Asn1AsBytes n);
  mret (len, default [] bytes).
End Reader.

(** A pointer that must not be null. *)
Notation "'given' x := m 'else' k ;; e" := (m ≫= fun o => match o with Some x => e | None => k end)
  (at level 200, x name, m at level 99, k at level 99, e at level 200) : esim_scope.
