(* ===== verification/EsimRequest.v ===== *)
(** * [services/sim/src/esim_file.cpp]: requests to the eUICC

    Opening and closing the logical channel, the commands that requests are made of, and the functions [Process...] that build and send them. *)

From S2P Require Import Prelude CxxString Parcel Parcelables CoreServiceApi CoreManagers StrConvert Asn1Utils Asn1Node Asn1Builder Apdu EsimData.
Open Scope Z_scope.
Open Scope esim_scope.

Module EsimFileRequest.
Section Request.
Context {W : Type} `{ErrorCodes} `{!EsimPlatform W} `{Parcelables.StringEx}.

(** The event that will carry the answer; it is never null here. *)
Definition BuildCallerInfo (eventId : Z) : option Z := Some eventId.
Definition IsLogicChannelOpen : E W bool :=
  currentChannelId ← member currentChannelId_;
  mret (0 <? currentChannelId).
Definition NotifyReady (flag : Flag) (f : esim_file) : esim_file :=
  set_ready (fun g => if decide (g = flag) then true else ready f g) f.
Definition set_flag (flag : Flag) (v : bool) : E W unit :=
  assign (fun f => set_ready (fun g => if decide (g = flag) then v else ready f g) f).
Definition lock_channel : E W unit := assign (set_occupyChannelMutex_ true).
Definition unlock_channel : E W unit := assign (set_occupyChannelMutex_ false).

(** ** The channel *)

Definition ProcessEsimOpenChannel (aid : u16string) : E W unit :=
  appId ← lift (ToUtf8 aid);
  isSupportEsimMEP ← platform (gets (GetBoolParameter SUPPORT_ESIM_MEP false));
  match BuildCallerInfo MSG_ESIM_OPEN_CHANNEL_DONE with
  | None => mret tt
  | Some response =>
      telRilManager ← member telRilManager_;
      if negb telRilManager then mret tt else
      slotId ← member slotId_;
      if negb isSupportEsimMEP then platform (modifies (SimOpenLogicalChannel slotId appId PARAMETER_TWO response))
      else platform (modifies (SimOpenLogicalChannelWithPort slotId appId PARAMETER_TWO COMMAND_PORT response))
  end.
Definition close_request (event : Z) : E W unit :=
  telRilManager ← member telRilManager_;
  if negb telRilManager then mret tt else
  slotId ← member slotId_;
  currentChannelId ← member currentChannelId_;
  platform (modifies (SimCloseLogicalChannel slotId currentChannelId event)).
Definition ProcessEsimCloseChannel : E W unit := close_request MSG_ESIM_CLOSE_CHANNEL_DONE.
Definition ProcessEsimCloseSpareChannel : E W unit := close_request MSG_ESIM_CLOSE_SPARE_CHANNEL_DONE.

(** ** Commands *)

(** [nextSerialId_] is an [atomic_int]: the increment wraps, which the test for [INT32_MAX] prevents. *)
Definition next_serial (f : esim_file) : esim_file :=
  let nextSerialId := i32 (nextSerialId_ f + 1) in
  set_nextSerialId_ (if INT32_MAX <=? nextSerialId then 0 else nextSerialId) f.
Definition CopyApdCmdToReqInfo (apduCommand : ApduCommand) : E W ApduSimIORequestInfo :=
  nextSerialId ← member nextSerialId_;
  assign next_serial ;;
  mret (MkRequestInfo nextSerialId (i32 (channel apduCommand)) (i32 (cla (apdu apduCommand))) (i32 (ins (apdu apduCommand)))
    (i32 (p1 (apdu apduCommand))) (i32 (p2 (apdu apduCommand))) (i32 (p3 (apdu apduCommand))) (cmdHex (apdu apduCommand))).
(** [RequestApduBuild codec(currentChannelId_)]. *)
Definition new_codec : E W RequestApduBuild :=
  currentChannelId ← member currentChannelId_;
  mret (MkRequest currentChannelId []).
Definition BuildStoreData_ (hexStr : cstring) (codec : RequestApduBuild) : E W RequestApduBuild := lift (BuildStoreData hexStr codec).
(** The output argument is unchanged when the builder gives nothing. *)
Definition CommBuildOneApduReqInfo (requestInfo : ApduSimIORequestInfo) (builder : Asn1Builder) : E W ApduSimIORequestInfo :=
  match Asn1BuilderToHexStr builder with
  | (0, _, _) | (_, None, _) => mret requestInfo
  | (_, Some hexStr, _) =>
      codec ← new_codec;
      codec ← BuildStoreData_ hexStr codec;
      match (GetCommands codec).1 with
      | [] => mret requestInfo
      | apduCommand :: _ => CopyApdCmdToReqInfo apduCommand
      end
  end.
Definition transmit (reqInfo : ApduSimIORequestInfo) (responseEvent : Z) : E W Z :=
  slotId ← member slotId_;
  platform (SimTransmitApduLogicalChannel slotId reqInfo responseEvent).
(** The end of most requests: build one command and send it. [ok] says which results of the modem count as success. *)
Definition send_request (ok : Z -> bool) (builder : Asn1Builder) (responseEvent : Z) : E W bool :=
  reqInfo ← CommBuildOneApduReqInfo ApduSimIORequestInfo_new builder;
  telRilManager ← member telRilManager_;
  if negb telRilManager then mret false else
  apduResult ← transmit reqInfo responseEvent;
  mret (ok apduResult).
(** [apduResult == TELEPHONY_ERR_FAIL] and [apduResult != TELEPHONY_ERR_SUCCESS] are failures, or the result is not looked at. *)
Definition not_fail (apduResult : Z) : bool := negb (apduResult =? TELEPHONY_ERR_FAIL).
Definition success (apduResult : Z) : bool := apduResult =? TELEPHONY_ERR_SUCCESS.
Definition any (apduResult : Z) : bool := true.

(** ** Requests *)

(** [if (!IsLogicChannelOpen(...)) return false], then the rest. *)
Definition if_open (request : E W bool) : E W bool :=
  is_open ← IsLogicChannelOpen;
  if negb is_open then mret false else request.
Definition add_bytes (tag : Z) (bytes : list Z) (b : Asn1Builder) : Asn1Builder := (Asn1AddChildAsBytes tag bytes (u32 (zlen bytes)) b).2.
(** [std::string str = ToUtf8(u16); Asn1Utils::BcdToBytes(str, bytes)] *)
Definition bcd_of (s : u16string) : E W (list Z) :=
  str ← lift (ToUtf8 s);
  mret (BcdToBytes str).
Definition param {A} (f : EsimProfile -> A) : E W A := member (fun s => f (esimProfile_ s)).
Definition mep_supported (default : bool) : E W bool := platform (gets (GetBoolParameter SUPPORT_ESIM_MEP default)).

Definition ProcessObtainEid (responseEvent : Z) : E W bool :=
  if_open (send_request any (add_bytes TAG_ESIM_TAG_LIST [u8 TAG_ESIM_EID] (MkBuilder TAG_ESIM_GET_EID [])) responseEvent).
Definition ProcessObtainEuiccInfo1 (responseEvent : Z) : E W bool :=
  if_open (send_request any (MkBuilder TAG_ESIM_GET_EUICC_INFO_1 []) responseEvent).
Definition EUICC_PROFILE_TAGS : list Z :=
  u8 <$> [TAG_ESIM_ICCID; TAG_ESIM_NICKNAME; TAG_ESIM_OBTAIN_OPERATOR_NAME; TAG_ESIM_PROFILE_NAME; TAG_ESIM_OPERATOR_ID;
    TAG_ESIM_PROFILE_STATE / PROFILE_DEFAULT_NUMBER; TAG_ESIM_PROFILE_STATE mod PROFILE_DEFAULT_NUMBER; TAG_ESIM_PROFILE_CLASS; TAG_ESIM_PROFILE_POLICY_RULE;
    TAG_ESIM_CARRIER_PRIVILEGE_RULES / PROFILE_DEFAULT_NUMBER; TAG_ESIM_CARRIER_PRIVILEGE_RULES mod PROFILE_DEFAULT_NUMBER].
Definition GetProfileTagList : E W (list Z) :=
  isSupportEsimMep ← mep_supported false;
  mret (EUICC_PROFILE_TAGS ++ if (isSupportEsimMep : bool) then u8 <$> [TAG_ESIM_PORT / PROFILE_DEFAULT_NUMBER; TAG_ESIM_PORT mod PROFILE_DEFAULT_NUMBER] else []).
Definition ProcessRequestAllProfiles (responseEvent : Z) : E W bool :=
  if_open (
    euiccProfileTags ← GetProfileTagList;
    send_request any (add_bytes TAG_ESIM_TAG_LIST euiccProfileTags (MkBuilder TAG_ESIM_GET_PROFILES [])) responseEvent).
Definition iccid_node (iccid : list Z) : option Asn1Node := (Asn1Build (add_bytes TAG_ESIM_ICCID iccid (MkBuilder TAG_ESIM_CTX_COMP_0 []))).1.
Definition ProcessDisableProfile (responseEvent : Z) : E W bool :=
  if_open (
    iccId ← param esim_iccId;
    iccidBytes ← bcd_of iccId;
    match iccid_node iccidBytes with
    | None => mret false
    | subNode =>
        isSupportEsimMep ← mep_supported false;
        refreshFlag ← (if (isSupportEsimMep : bool) then platform (gets (GetBoolParameter (str "const.ril.sim.esim_mep_refresh_flag") false)) else mret true);
        send_request success (Asn1AddChildAsBoolean TAG_ESIM_CTX_1 refreshFlag (Asn1AddChild subNode (MkBuilder TAG_ESIM_DISABLE_PROFILE []))).2 responseEvent
    end).
Definition ProcessObtainSmdsAddress (responseEvent : Z) : E W bool :=
  if_open (send_request success (MkBuilder TAG_ESIM_GET_CONFIGURED_ADDRESSES []) responseEvent).
Definition ProcessRequestRulesAuthTable (responseEvent : Z) : E W bool :=
  if_open (send_request not_fail (MkBuilder TAG_ESIM_GET_RAT []) responseEvent).
Definition ProcessObtainEuiccChallenge (responseEvent : Z) : E W bool :=
  if_open (send_request not_fail (MkBuilder TAG_ESIM_GET_EUICC_CHALLENGE []) responseEvent).
Definition ProcessObtainDefaultSmdpAddress (responseEvent : Z) : E W bool :=
  if_open (send_request not_fail (MkBuilder TAG_ESIM_GET_CONFIGURED_ADDRESSES []) responseEvent).
Definition ProcessGetProfile (responseEvent : Z) : E W bool :=
  if_open (
    iccId ← param esim_iccId;
    iccidBytes ← bcd_of iccId;
    getProfileTags ← GetProfileTagList;
    send_request not_fail (add_bytes TAG_ESIM_TAG_LIST getProfileTags (Asn1AddChild (iccid_node iccidBytes) (MkBuilder TAG_ESIM_GET_PROFILES []))) responseEvent).
Definition ProcessCancelSession (responseEvent : Z) : E W bool :=
  if_open (
    transactionId ← param esim_transactionId;
    cancelReason ← param esim_cancelReason;
    send_request not_fail (Asn1AddChildAsInteger TAG_ESIM_CTX_1 (u32 cancelReason)
      (add_bytes TAG_ESIM_CTX_0 (HexStrToBytes (Str16ToStr8 transactionId)) (MkBuilder TAG_ESIM_CANCEL_SESSION []))).2 responseEvent).
Definition ProcessEstablishDefaultSmdpAddress (responseEvent : Z) : E W bool :=
  if_open (
    defaultSmdpAddress ← param esim_defaultSmdpAddress;
    address ← lift (ToUtf8 defaultSmdpAddress);
    send_request any (Asn1AddChildAsString TAG_ESIM_TARGET_ADDR address (MkBuilder TAG_ESIM_SET_DEFAULT_SMDP_ADDRESS [])).2 responseEvent).
Definition ProcessResetMemory (responseEvent : Z) : E W bool :=
  if_open (send_request not_fail
    (add_bytes TAG_ESIM_CTX_2 [u8 EUICC_MEMORY_RESET_BIT_STR_FILL_LEN; u8 EUICC_MEMORY_RESET_BIT_STR_VALUE] (MkBuilder TAG_ESIM_EUICC_MEMORY_RESET [])) responseEvent).
Definition ProcessSendApduData (responseEvent : Z) : E W bool :=
  if_open (
    apduData ← param esim_apduData;
    hexStr ← lift (ToUtf8 (data_ apduData));
    codec ← new_codec;
    codec ← BuildStoreData_ hexStr codec;
    match (GetCommands codec).1 with
    | [] => mret false
    | apdCmd :: _ =>
        reqInfo ← CopyApdCmdToReqInfo apdCmd;
        let reqInfo := if unusedDefaultReqHeadFlag_ apduData
          then MkRequestInfo (serial reqInfo) (channelId reqInfo) (instructionType_ apduData) (instruction_ apduData) (p1_ apduData) (p2_ apduData) (p3_ apduData) (data reqInfo)
          else reqInfo in
        telRilManager ← member telRilManager_;
        if negb telRilManager then mret false else
        apduResult ← transmit reqInfo responseEvent;
        mret (not_fail apduResult)
    end).
Definition ProcessListNotifications (events : Z) (responseEvent : Z) : E W bool :=
  if_open (send_request not_fail (Asn1AddChildAsBits TAG_ESIM_CTX_1 events (MkBuilder TAG_ESIM_LIST_NOTIFICATION [])).2 responseEvent).
Definition ProcessRetrieveNotificationList (events : Z) (responseEvent : Z) : E W bool :=
  if_open (send_request not_fail
    (Asn1AddChild (Asn1Build (Asn1AddChildAsBits TAG_ESIM_CTX_1 events (MkBuilder TAG_ESIM_CTX_COMP_0 [])).2).1 (MkBuilder TAG_ESIM_RETRIEVE_NOTIFICATIONS_LIST [])) responseEvent).
Definition ProcessRetrieveNotification (responseEvent : Z) : E W bool :=
  if_open (
    seqNumber ← param esim_seqNumber;
    send_request not_fail (Asn1AddChild (Asn1Build (Asn1AddChildAsSignedInteger TAG_ESIM_CTX_0 seqNumber (MkBuilder TAG_ESIM_CTX_COMP_0 [])).2).1
      (MkBuilder TAG_ESIM_RETRIEVE_NOTIFICATIONS_LIST [])) responseEvent).
Definition ProcessRemoveNotification (responseEvent : Z) : E W bool :=
  if_open (
    seqNumber ← param esim_seqNumber;
    send_request not_fail (Asn1AddChildAsSignedInteger TAG_ESIM_CTX_0 seqNumber (MkBuilder TAG_ESIM_REMOVE_NOTIFICATION_FROM_LIST [])).2 responseEvent).
Definition ProcessDeleteProfile (responseEvent : Z) : E W bool :=
  if_open (
    iccId ← param esim_iccId;
    iccidBytes ← bcd_of iccId;
    send_request not_fail (add_bytes TAG_ESIM_ICCID iccidBytes (MkBuilder TAG_ESIM_DELETE_PROFILE [])) responseEvent).
Definition ProcessSetNickname (responseEvent : Z) : E W bool :=
  if_open (
    iccId ← param esim_iccId;
    strIccId ← lift (ToUtf8 iccId);
    nickname ← param esim_nickname;
    childStr ← lift (ToUtf8 nickname);
    send_request not_fail (Asn1AddChildAsString TAG_ESIM_NICKNAME childStr (add_bytes TAG_ESIM_ICCID (BcdToBytes strIccId) (MkBuilder TAG_ESIM_SET_NICKNAME []))).2 responseEvent).
Definition ProcessSwitchToProfile (responseEvent : Z) : E W bool :=
  if_open (
    iccId ← param esim_iccId;
    iccidBytes ← bcd_of iccId;
    match iccid_node iccidBytes with
    | None => mret false
    | subNode =>
        let builder := Asn1AddChild subNode (MkBuilder TAG_ESIM_ENABLE_PROFILE []) in
        isSupportEsimMep ← mep_supported true;
        if (isSupportEsimMep : bool) then
          refreshFlag ← platform (gets (GetBoolParameter (str "const.ril.sim.esim_mep_refresh_flag") false));
          portIndex ← param esim_portIndex;
          send_request not_fail (Asn1AddChildAsInteger TAG_ESIM_CTX_2 (u32 portIndex) (Asn1AddChildAsBoolean TAG_ESIM_CTX_1 refreshFlag builder).2).2 responseEvent
        else send_request not_fail (Asn1AddChildAsBoolean TAG_ESIM_CTX_1 true builder).2 responseEvent
    end).
Definition ProcessObtainEuiccInfo2 (responseEvent : Z) : E W bool :=
  if_open (
    let '(_, _, builder) := Asn1BuilderToHexStr (MkBuilder TAG_ESIM_GET_EUICC_INFO_2 []) in
    send_request not_fail builder responseEvent).
Definition GetKeyValueSequenceNode (kTag : Z) (key : cstring) (vTag : Z) (value : cstring) : option Asn1Node :=
  let builder := (Asn1AddChildAsString kTag key (MkBuilder TAG_ESIM_SEQUENCE [])).2 in
  (Asn1Build (if vTag =? TAG_ESIM_OCTET_STRING_TYPE then add_bytes vTag (HexStrToBytes value) builder else (Asn1AddChildAsString vTag value builder).2)).1.
Definition GetMapMetaDataNode : E W (option Asn1Node) :=
  request ← member getContractInfoRequest_;
  imeiStr ← lift (ToUtf8 (contract_imei request));
  let imeiNode := GetKeyValueSequenceNode TAG_ESIM_TARGET_ADDR KEY_IMEI TAG_ESIM_TARGET_ADDR imeiStr in
  imei2Str ← lift (ToUtf8 (contract_imei2 request));
  let imei2Node := GetKeyValueSequenceNode TAG_ESIM_TARGET_ADDR KEY_IMEI2 TAG_ESIM_TARGET_ADDR imei2Str in
  nonceStr ← lift (ToUtf8 (contract_nonce request));
  let nonceNode := GetKeyValueSequenceNode TAG_ESIM_TARGET_ADDR KEY_NONCE TAG_ESIM_OCTET_STRING_TYPE nonceStr in
  timestampStr ← lift (ToUtf8 (contract_timestamp request));
  let timestampNode := GetKeyValueSequenceNode TAG_ESIM_TARGET_ADDR KEY_TIMESTAMP TAG_ESIM_TARGET_ADDR timestampStr in
  mret (Asn1Build (Asn1AddChild timestampNode (Asn1AddChild nonceNode (Asn1AddChild imei2Node (Asn1AddChild imeiNode (MkBuilder TAG_ESIM_SEQUENCE [])))))).1.
Definition ProcessGetContractInfo (responseEvent : Z) : E W bool :=
  if_open (
    request ← member getContractInfoRequest_;
    pkidStr ← lift (ToUtf8 (contract_euiccCiPkidToBeUsed request));
    let builder := add_bytes TAG_ESIM_OCTET_STRING_TYPE (HexStrToBytes pkidStr) (MkBuilder TAG_ESIM_GET_CONTRACT_INFO []) in
    given mapMetaDataNode := GetMapMetaDataNode else mret false ;;
    publicKeyStr ← lift (ToUtf8 (contract_ePkPosHpke request));
    send_request not_fail (add_bytes TAG_ESIM_OCTET_STRING_TYPE (HexStrToBytes publicKeyStr) (Asn1AddChild (Some mapMetaDataNode) builder)) responseEvent).

(** ** Long requests *)

(** [Base64::Decode]: the padding is cut off the output. *)
Fixpoint unpad (times : nat) (input_rev : cstring) (outLen : Z) : Z :=
  match times, input_rev with
  | S times, c :: ((_ :: _) as rest) => if Ascii.eqb c "="%char then unpad times rest (outLen - 1) else outLen
  | _, _ => outLen
  end.
Definition MAX_BASE64_BUF_PADDING_SIZE : nat := 2.
(** [resize] throws when the length has become negative. *)
Definition Base64_Decode (input : cstring) : outcome (option (list Z)) :=
  let '(outLen, outBuffer) := EVP_DecodeBlock input in
  if outLen <? 0 then Ret None else
  let outLen := unpad MAX_BASE64_BUF_PADDING_SIZE (rev input) outLen in
  if outLen <? 0 then Exn else
  Ret (Some (take (Z.to_nat outLen) (outBuffer ++ replicate (Z.to_nat outLen) 0))).
(** [VCardUtils::DecodeBase64] and [DecodeBase64NoWrap]. *)
Definition DecodeBase64 (input : cstring) : outcome cstring :=
  bytes ← Base64_Decode input;
  Ret (match bytes with Some bytes => chr <$> bytes | None => [] end).
Definition DecodeBase64NoWrap (input : cstring) : outcome cstring := DecodeBase64 (List.filter (fun c => negb (Ascii.eqb c "010"%char)) input).

(** The first node of what is decoded; null when there is none. *)
Definition base64_node (base64Src : cstring) : outcome (option Asn1Node) :=
  destString ← DecodeBase64NoWrap base64Src;
  let dest := StringToBytes destString in
  r ← Asn1NextNode (Asn1Decoder_new dest 0 (u32 (zlen dest)));
  Ret (match r with Some (n, _) => Some n | None => None end).
Definition Asn1AddChildAsBase64 (base64Src : cstring) (builder : Asn1Builder) : E W Asn1Builder :=
  node ← lift (base64_node base64Src);
  mret (Asn1AddChild node builder).
Definition utf8_param (f : EsimProfile -> u16string) : E W cstring :=
  s ← param f;
  lift (ToUtf8 s).

(** The commands that [ProcessPrepareDownload] sends; [None] where it returns false. *)
Definition prepare_download_codec : E W (option RequestApduBuild) :=
  is_open ← IsLogicChannelOpen;
  if negb is_open then mret None else
  smdpSigned2 ← utf8_param esim_smdpSigned2;
  smdpSignature2 ← utf8_param esim_smdpSignature2;
  smdpCertificate ← utf8_param esim_smdpCertificate;
  hashCc ← utf8_param esim_hashCc;
  builder ← Asn1AddChildAsBase64 smdpSigned2 (MkBuilder TAG_ESIM_PREPARE_DOWNLOAD []);
  builder ← Asn1AddChildAsBase64 smdpSignature2 builder;
  builder ← (if negb (zlen hashCc =? 0)
    then hash ← lift (DecodeBase64NoWrap hashCc); mret (add_bytes TAG_ESIM_OCTET_STRING_TYPE (StringToBytes hash) builder)
    else mret builder);
  builder ← Asn1AddChildAsBase64 smdpCertificate builder;
  match Asn1BuilderToHexStr builder with
  | (0, _, _) => mret None
  | (_, hexStr, _) =>
      codec ← new_codec;
      codec ← BuildStoreData_ (default [] hexStr) codec;
      mret (Some codec)
  end.

Definition AddDeviceCapability (devCapsBuilder : Asn1Builder) : Asn1Builder :=
  let versionBytes := (UintToBytes VERSION_NUMBER).2 ++ [0; 0] in
  add_bytes TAG_ESIM_CTX_5 versionBytes (add_bytes TAG_ESIM_CTX_1 versionBytes (add_bytes TAG_ESIM_CTX_0 versionBytes devCapsBuilder)).
Definition GetImeiBytes (imei : cstring) : list Z :=
  let imeiLen := zlen imei in
  if imeiLen <? AUTH_SERVER_IMEI_LEN * BYTE_TO_HEX_LEN - 1 then []
  else if negb (imeiLen =? AUTH_SERVER_IMEI_LEN * BYTE_TO_HEX_LEN) then
    let imeiBytes := BcdToBytes (imei ++ str "F") in
    if zlen imeiBytes <=? LAST_BYTE_OF_IMEI then imeiBytes else
    let last := nth (Z.to_nat LAST_BYTE_OF_IMEI) imeiBytes 0 in
    <[Z.to_nat LAST_BYTE_OF_IMEI := u8 (Z.lor (Z.shiftl (Z.land last 0xFF) OFFSET_FOUR_BIT) (Z.shiftr (Z.land last 0xFF) OFFSET_FOUR_BIT))]> imeiBytes
  else BcdToBytes imei.
Definition AddCtxParams1 (matchingId imei : cstring) (ctxParams1Builder : Asn1Builder) : Asn1Builder :=
  let ctxParams1Builder := (Asn1AddChildAsString TAG_ESIM_CTX_0 matchingId ctxParams1Builder).2 in
  let tmpBytes := BcdToBytes imei in
  if zlen tmpBytes <? AUTH_SERVER_TAC_LEN then ctxParams1Builder else
  let tacBytes := take (Z.to_nat AUTH_SERVER_TAC_LEN) tmpBytes in
  let imeiBytes := GetImeiBytes imei in
  let subBuilder := add_bytes TAG_ESIM_CTX_0 tacBytes (MkBuilder TAG_ESIM_CTX_COMP_1 []) in
  match (Asn1Build (AddDeviceCapability (MkBuilder TAG_ESIM_CTX_COMP_1 []))).1 with
  | None => ctxParams1Builder
  | devCapNode =>
      let subNode := (Asn1Build (add_bytes TAG_ESIM_CTX_2 imeiBytes (Asn1AddChild devCapNode subBuilder))).1 in
      Asn1AddChild subNode ctxParams1Builder
  end.
Definition authenticate_server_codec : E W (option RequestApduBuild) :=
  is_open ← IsLogicChannelOpen;
  if negb is_open then mret None else
  serverSigned1 ← utf8_param esim_serverSigned1;
  serverSignature1 ← utf8_param esim_serverSignature1;
  euiccCiPKIdToBeUsed ← utf8_param esim_euiccCiPkIdToBeUsed;
  serverCertificate ← utf8_param esim_serverCertificate;
  matchingId ← utf8_param esim_matchingId;
  imei ← utf8_param esim_imei;
  builder ← Asn1AddChildAsBase64 serverSigned1 (MkBuilder TAG_ESIM_AUTHENTICATE_SERVER []);
  builder ← Asn1AddChildAsBase64 serverSignature1 builder;
  builder ← Asn1AddChildAsBase64 euiccCiPKIdToBeUsed builder;
  builder ← Asn1AddChildAsBase64 serverCertificate builder;
  match (Asn1Build (AddCtxParams1 matchingId imei (MkBuilder TAG_ESIM_CTX_COMP_0 []))).1 with
  | None => mret None
  | ctxNode =>
      let '(_, hexStr, _) := Asn1BuilderToHexStr (Asn1AddChild ctxNode builder) in
      codec ← new_codec;
      codec ← BuildStoreData_ (default [] hexStr) codec;
      mret (Some codec)
  end.

(** ** The bound profile package: the codec is filled in while the package is read *)

Definition BPP : Type -> Type := reader RequestApduBuild.
Definition store (hexStr : cstring) : BPP unit := fun '(codec, root) =>
  codec ← BuildStoreData hexStr codec;
  Ret (tt, (codec, root)).
Definition head_hex (p : path) (hexStr : cstring) : BPP cstring :=
  r ← read Asn1GetHeadAsHexStr p;
  mret (match r with inr (_, headHex) => headHex | inl _ => hexStr end).
Definition node_hex (p : path) : BPP cstring := read (fun n => (Asn1NodeToHexStr n).2) p.
Definition BuildApduForInitSecureChannel (bppNode initSecureChannelReq : path) : BPP unit :=
  hexStr ← head_hex bppNode [];
  destStr ← node_hex initSecureChannelReq;
  store (hexStr ++ destStr).
Definition BuildApduForFirstSequenceOf87 (firstSequenceOf87 : path) : BPP unit :=
  hexStr ← node_hex firstSequenceOf87;
  store hexStr.
Fixpoint store_each (nodes : list path) : BPP unit :=
  match nodes with
  | [] => mret tt
  | curNode :: nodes => hexStr ← node_hex curNode; store hexStr ;; store_each nodes
  end.
Definition BuildApduForSequenceOf88 (sequenceOf88 : path) : BPP unit :=
  '(metaDataRes, metaDataSeqs) ← GetChildren sequenceOf88 TAG_ESIM_CTX_8 [];
  if negb (bool_decide (metaDataRes = Prelude.TELEPHONY_ERR_SUCCESS)) then mret tt else
  hexStr ← head_hex sequenceOf88 [];
  store hexStr ;;
  store_each metaDataSeqs.
Definition BuildApduForSequenceOf86 (bppNode sequenceOf86 : path) : BPP unit :=
  '(elementRes, elementSeqs) ← GetChildren sequenceOf86 TAG_ESIM_CTX_6 [];
  if negb (bool_decide (elementRes = Prelude.TELEPHONY_ERR_SUCCESS)) then mret tt else
  second ← HasChild bppNode TAG_ESIM_CTX_COMP_2;
  let rest hexStr :=
    hexStr ← head_hex sequenceOf86 hexStr;
    store hexStr ;;
    store_each elementSeqs in
  if (second : bool) then
    given pGetChild := GetChild bppNode TAG_ESIM_CTX_COMP_2 else mret tt ;;
    hexStr ← node_hex pGetChild;
    store hexStr ;;
    rest hexStr
  else rest [].
(** From the package to the commands; the result says whether they will be sent. *)
Definition load_bpp : BPP bool :=
  let bppNode := [] in
  initSecureChannelReq ← GetChild bppNode TAG_ESIM_INITIALISE_SECURE_CHANNEL;
  match initSecureChannelReq with Some p => BuildApduForInitSecureChannel bppNode p | None => mret tt end ;;
  unknownBppSegment ← HasChild bppNode TAG_ESIM_UNKNOWN_BPP_SEGMENT;
  if (unknownBppSegment : bool) then mret false else
  firstSequenceOf87 ← GetChild bppNode TAG_ESIM_CTX_COMP_0;
  match firstSequenceOf87 with Some p => BuildApduForFirstSequenceOf87 p | None => mret tt end ;;
  sequenceOf88 ← GetChild bppNode TAG_ESIM_CTX_COMP_1;
  match sequenceOf88 with Some p => BuildApduForSequenceOf88 p | None => mret tt end ;;
  given sequenceOf86 := GetChild bppNode TAG_ESIM_CTX_COMP_3 else mret false ;;
  encodedLength ← read encodedLength_ sequenceOf86;
  if encodedLength =? GET_BPP_LOAD_ERROR_LENGTH then mret false else
  BuildApduForSequenceOf86 bppNode sequenceOf86 ;;
  mret true.
(** [DecodeBoundProfilePackage] gives the first node. *)
Definition DecodeBoundProfilePackage (boundProfilePackageStr : cstring) : outcome (option Asn1Node) := base64_node boundProfilePackageStr.
Definition load_bpp_codec : E W (option RequestApduBuild) :=
  is_open ← IsLogicChannelOpen;
  if negb is_open then mret None else
  boundProfilePackage ← utf8_param esim_boundProfilePackage;
  given bppNode := lift (DecodeBoundProfilePackage boundProfilePackage) else mret None ;;
  codec ← new_codec;
  '(sent, (codec, _)) ← lift (load_bpp (codec, bppNode));
  mret (if (sent : bool) then Some codec else None).
End Request.
End EsimFileRequest.
