(* ===== verification/EsimResponse.v ===== *)
(** * [services/sim/src/esim_file.cpp]: responses of the eUICC

    The functions [Process...Done] that the object's event handler calls with what the modem and the card answer, the functions they decode responses with, and the dispatch. *)

From S2P Require Import Prelude CxxString Parcel Parcelables CoreServiceApi CoreManagers StrConvert Asn1Utils Asn1Node Asn1Builder Apdu EsimData EsimRequest.
Open Scope Z_scope.
Open Scope esim_scope.

Module EsimFileDone.
Import EsimFileRequest.
Section Response.
Context {W : Type} `{ErrorCodes} `{!EsimPlatform W} `{Parcelables.StringEx}.

(** ** The channel *)

Definition ProcessEsimOpenChannelDone (event : option Event) : E W bool :=
  match event with
  | Some {| object := Opened (Some channelId) |} =>
      if channelId <=? 0 then mret false else
      assign (set_currentChannelId_ channelId) ;;
      occupied ← member occupyChannelMutex_;
      if negb occupied then
        (* caller exits waiting, thus lock is obtained and the channel needs released *)
        lock_channel ;;
        ProcessEsimCloseSpareChannel ;;
        unlock_channel ;;
        mret false
      else mret true
  | _ => mret false
  end.
Definition ProcessEsimCloseChannelDone (event : option Event) : E W bool :=
  assign (set_currentChannelId_ 0) ;;
  assign (set_aidStr_ []) ;;
  mret true.
Definition ProcessEsimCloseSpareChannelDone (event : option Event) : E W bool :=
  assign (set_aidStr_ []) ;;
  assign (set_currentChannelId_ 0) ;;
  mret true.

(** ** Responses in several parts *)

Definition CombineResponseDataFinish (fileData : IccFileData) : Z :=
  if sw1 fileData =? SW1_MORE_RESPONSE then RESPONS_DATA_NOT_FINISH
  else if (sw1 fileData =? SW1_VALUE_90) && (sw2 fileData =? SW2_VALUE_00) then RESPONS_DATA_FINISH
  else RESPONS_DATA_ERROR.
Definition ProcessIfNeedMoreResponse (fileData : IccFileData) (eventId : Z) : E W unit :=
  if sw1 fileData =? SW1_MORE_RESPONSE then
    codec ← new_codec;
    codec ← BuildStoreData_ [] codec;
    match (GetCommands codec).1 with
    | [] => mret tt
    | apdCmd :: _ =>
        let apdCmd := MkApduCommand (channel apdCmd) (MkApduData 0 INS_GET_MORE_RESPONSE 0 0 (u32 (sw2 fileData)) (cmdHex (apdu apdCmd))) in
        reqInfo ← CopyApdCmdToReqInfo apdCmd;
        match BuildCallerInfo eventId with
        | None => mret tt
        | Some responseEvent =>
            telRilManager ← member telRilManager_;
            if negb telRilManager then mret tt else
            transmit reqInfo responseEvent ;;
            mret tt
        end
    end
  else mret tt.
Definition MergeRecvLongDataComplete (fileData : IccFileData) (eventId : Z) : E W Z :=
  let result := CombineResponseDataFinish fileData in
  if result =? RESPONS_DATA_ERROR then mret result else
  recvCombineStr ← member recvCombineStr_;
  assign (set_recvCombineStr_ (recvCombineStr ++ resultData fileData)) ;;
  if result =? RESPONS_DATA_NOT_FINISH then
    ProcessIfNeedMoreResponse fileData eventId ;;
    mret result
  else mret result.
(** [None] when there is more to do, otherwise what the handler returns at once. *)
Definition CommMergeRecvData (flag : Flag) (eventId : Z) : E W (option bool) :=
  newRecvData ← member newRecvData_;
  mergeResult ← MergeRecvLongDataComplete newRecvData eventId;
  if mergeResult =? RESPONS_DATA_ERROR then
    assign (NotifyReady flag) ;;
    mret (Some false)
  else if (mergeResult =? RESPONS_DATA_FINISH) && (zlen (resultData newRecvData) =? 0) then
    assign (NotifyReady flag) ;;
    mret (Some true)
  else if mergeResult =? RESPONS_DATA_NOT_FINISH then mret (Some true)
  else mret None.

(** ** Decoding *)

Definition Asn1ParseResponse (response : list Z) : outcome (option Asn1Node) :=
  let respLength := u32 (zlen response) in
  if (zlen response =? 0) || (respLength =? 0) then Ret None else
  let decoder := Asn1Decoder_new response 0 respLength in
  if negb (Asn1HasNextNode decoder) then Ret None else
  r ← Asn1NextNode decoder;
  Ret (match r with Some (node, _) => Some node | None => None end).
Definition GetRawDataFromEvent (event : option Event) : option IccFileData :=
  match event with
  | Some {| object := Response rcvMsg |} => rcvMsg
  | _ => None
  end.
Definition ParseEvent (event : option Event) : E W (option Asn1Node) :=
  match GetRawDataFromEvent event with
  | None => mret None
  | Some rawData => lift (Asn1ParseResponse (HexStrToBytes (resultData rawData)))
  end.
(** What was received in parts, as a node. *)
Definition parse_received : E W (option Asn1Node) :=
  recvCombineStr ← member recvCombineStr_;
  lift (Asn1ParseResponse (HexStrToBytes recvCombineStr)).

(** [NotifyReady(...); return ...]. *)
Definition notify {A} (flag : Flag) (a : A) : E W A := assign (NotifyReady flag) ;; mret a.
Definition finish {A} (flag : Flag) (a : A) : reader esim_file A := out (NotifyReady flag) ;; mret a.
(** The beginning of the handlers whose response may come in parts. *)
Definition receive (flag : Flag) (eventId : Z) (event : option Event) (rest : E W bool) : E W bool :=
  match GetRawDataFromEvent event with
  | None => notify flag false
  | Some fileData =>
      assign (set_newRecvData_ fileData) ;;
      handled ← CommMergeRecvData flag eventId;
      match handled with
      | Some retValue => mret retValue
      | None => rest
      end
  end.
Definition local {S T A} (m : reader T A) (t : T) : reader S (A * T) := fun '(s, root) =>
  '(a, (t, root)) ← m (t, root);
  Ret ((a, t), (s, root)).
Definition GetGreatGrandson {S} (p : path) (firstLevelTag secondLevelTag thirdLevelTag : Z) : reader S (option Asn1Node) :=
  n ← the_node p;
  '(n, r) ← throws (Asn1GetGreatGrandson n firstLevelTag secondLevelTag thirdLevelTag);
  put_node p n ;;
  mret r.
(** [node->Asn1AsString(output)] leaves [output] alone when there is nothing to read. *)
Definition as_string {S} (p : path) (assign_to : cstring -> S -> S) : reader S unit :=
  '(_, s) ← read Asn1AsString p;
  match s with Some s => out (assign_to s) | None => mret tt end.

Definition MakeVersionString (versionRaw : list Z) : cstring :=
  if zlen versionRaw <? 3 then [] else
  let part i := put_hex 1 (Z.land (nth (Z.to_nat i) versionRaw 0) MAX_UINT8) in
  part VERSION_HIGH ++ str "." ++ part VERSION_MIDDLE ++ str "." ++ part VERSION_LOW.

Definition ProcessObtainEidDone (event : option Event) : E W bool :=
  given root := ParseEvent event else notify isEidReady_ false ;;
  in_tree root (
    given profileRoot := GetChild [] TAG_ESIM_EID else finish isEidReady_ false ;;
    '(byteLen, outPutBytes) ← AsBytes profileRoot;
    if byteLen =? 0 then finish isEidReady_ false else
    out (set_eid_ (BytesToHexStr outPutBytes)) ;;
    finish isEidReady_ true).
Definition ObtainEuiccInfo1ParseTagCtx2 : reader esim_file bool :=
  given svnNode := GetChild [] TAG_ESIM_CTX_2 else mret false ;;
  '(svnRawlen, svnRaw) ← AsBytes svnNode;
  if svnRawlen <? SVN_RAW_LENGTH_MIN then mret false else
  osVersion ← throws (ToUtf16 (MakeVersionString svnRaw));
  out (fun f => set_eUiccInfo_ (set_osVersion_ osVersion (eUiccInfo_ f)) f) ;;
  mret true.
Definition ProcessObtainEuiccInfo1Done (event : option Event) : E W bool :=
  match GetRawDataFromEvent event with
  | None => notify isEuiccInfo1Ready_ false
  | Some rawData =>
      given root := lift (Asn1ParseResponse (HexStrToBytes (resultData rawData))) else notify isEuiccInfo1Ready_ false ;;
      in_tree root (
        ok ← ObtainEuiccInfo1ParseTagCtx2;
        if negb ok then finish isEuiccInfo1Ready_ false else
        out (fun f => set_eUiccInfo_ (set_info_response_ (Str8ToStr16 (resultData rawData)) (eUiccInfo_ f)) f) ;;
        finish isEuiccInfo1Ready_ true)
  end.

(** ** Profiles *)

(** Characters 0 to 5 of the six, and what [c_str] makes of the third digit of an MNC of two. *)
Definition SplitMccAndMnc (mccMnc : cstring) : option (cstring * cstring) :=
  match mccMnc with
  | c0 :: c1 :: c2 :: c3 :: c4 :: c5 :: _ =>
      Some (c_str [c1; c0; c3], c_str (if Ascii.eqb c2 "F"%char then [c5; c4] else [c5; c4; c2]))
  | _ => None
  end.
Definition ConvertProfileInfoToApiStruct (src : EuiccProfileInfo) : outcome EuiccProfile :=
  iccId ← ToUtf16 (info_iccid src);
  nickName ← ToUtf16 (info_nickname src);
  serviceProviderName ← ToUtf16 (info_serviceProviderName src);
  profileName ← ToUtf16 (info_profileName src);
  let '(mcc, mnc) := default ([], []) (SplitMccAndMnc (info_mccMnc src)) in
  mcc ← ToUtf16 mcc;
  mnc ← ToUtf16 mnc;
  gid1 ← ToUtf16 (info_gid1 src);
  gid2 ← ToUtf16 (info_gid2 src);
  Ret (MkEuiccProfile iccId nickName serviceProviderName profileName (info_profileState src) (info_profileClass src) (MkOperatorId mcc mnc gid1 gid2)
    (info_policyRules src) (info_portIndex src)).
Definition Info : Type -> Type := reader EuiccProfileInfo.
(** [if (node->Asn1HasChild(tag)) { child = node->Asn1GetChild(tag); ... }]; the child is there then, and the return of the code when it is null is never taken. *)
Definition when_child {S} (p : path) (tag : Z) (then_ : path -> reader S unit) (else_ : reader S unit) : reader S unit :=
  found ← HasChild p tag;
  if (found : bool) then
    given c := GetChild p tag else mret tt ;;
    then_ c
  else else_.
Definition text_of (p : path) (assign_to : cstring -> EuiccProfileInfo -> EuiccProfileInfo) : Info unit :=
  '(_, bytes) ← AsBytes p;
  out (assign_to (BytesToString bytes)).
Definition BuildOperatorId (operatorIdNode : path) : Info unit :=
  when_child operatorIdNode TAG_ESIM_CTX_0 (fun p => as_string p set_info_mccMnc) (mret tt) ;;
  when_child operatorIdNode TAG_ESIM_CTX_1 (fun p => as_string p set_info_gid1) (mret tt) ;;
  when_child operatorIdNode TAG_ESIM_CTX_2 (fun p => as_string p set_info_gid2) (mret tt).
Definition BuildAdvancedProfileInfo (profileNode : path) : Info unit :=
  when_child profileNode TAG_ESIM_PROFILE_STATE
    (fun p => ret ← read Asn1AsInteger p; out (set_info_profileState (if ret <? 0 then ESIM_PROFILE_STATE_DISABLED else ret)))
    (out (set_info_profileState ESIM_PROFILE_STATE_DISABLED)) ;;
  when_child profileNode TAG_ESIM_PROFILE_CLASS
    (fun p => ret ← read Asn1AsInteger p; out (set_info_profileClass ret))
    (out (set_info_profileClass PROFILE_CLASS_OPERATIONAL)) ;;
  when_child profileNode TAG_ESIM_PROFILE_POLICY_RULE (fun p => ret ← read Asn1AsBits p; out (set_info_policyRules ret)) (mret tt) ;;
  when_child profileNode TAG_ESIM_CARRIER_PRIVILEGE_RULES (fun p => GetChildren p TAG_ESIM_REF_AR_DO [] ;; mret tt) (mret tt) ;;
  when_child profileNode TAG_ESIM_PORT (fun p => ret ← read Asn1AsInteger p; out (set_info_portIndex ret)) (mret tt).
Definition BuildBasicProfileInfo (profileNode : path) : Info unit :=
  given iccIdNode := GetChild profileNode TAG_ESIM_ICCID else mret tt ;;
  '(_, iccidBytes) ← AsBytes iccIdNode;
  out (set_info_iccid (BchToString iccidBytes)) ;;
  when_child profileNode TAG_ESIM_NICKNAME (fun p => text_of p set_info_nickname) (mret tt) ;;
  when_child profileNode TAG_ESIM_OBTAIN_OPERATOR_NAME (fun p => text_of p set_info_serviceProviderName) (mret tt) ;;
  when_child profileNode TAG_ESIM_PROFILE_NAME (fun p => text_of p set_info_profileName) (mret tt) ;;
  when_child profileNode TAG_ESIM_OPERATOR_ID BuildOperatorId (mret tt) ;;
  BuildAdvancedProfileInfo profileNode.
(** [EuiccProfileInfo euiccProfileInfo = {{0}}]: the first member is a string of one null character. *)
Definition zero_info : EuiccProfileInfo := set_info_iccid [chr 0] EuiccProfileInfo_new.
Definition profile_of (profileNode : path) : reader esim_file EuiccProfile :=
  '(_, euiccProfileInfo) ← local (BuildBasicProfileInfo profileNode) zero_info;
  throws (ConvertProfileInfoToApiStruct euiccProfileInfo).
Fixpoint add_profiles (profileNodes : list path) : reader esim_file unit :=
  match profileNodes with
  | [] => mret tt
  | curNode :: profileNodes =>
      found ← HasChild curNode TAG_ESIM_ICCID;
      (if (found : bool) then
        euiccProfile ← profile_of curNode;
        out (fun f => set_euiccProfileInfoList_ (set_profiles_ (profiles_ (euiccProfileInfoList_ f) ++ [euiccProfile]) (euiccProfileInfoList_ f)) f)
       else mret tt) ;;
      add_profiles profileNodes
  end.
Definition RealProcessRequestAllProfilesDone : E W bool :=
  given root := parse_received else notify isAllProfileInfoReady_ false ;;
  in_tree root (
    given profileRoot := GetChild [] TAG_ESIM_CTX_COMP_0 else finish isAllProfileInfoReady_ false ;;
    '(_, profileNodes) ← GetChildren profileRoot TAG_ESIM_PROFILE_INFO [];
    out (fun f => set_euiccProfileInfoList_ (set_profiles_ [] (euiccProfileInfoList_ f)) f) ;;
    add_profiles profileNodes ;;
    out (fun f => set_euiccProfileInfoList_ (set_list_result_ RESULT_EUICC_CARD_OK (euiccProfileInfoList_ f)) f) ;;
    finish isAllProfileInfoReady_ true).
Definition ProcessRequestAllProfilesDone (event : option Event) : E W bool :=
  receive isAllProfileInfoReady_ MSG_ESIM_REQUEST_ALL_PROFILES event RealProcessRequestAllProfilesDone.
Definition GetProfileDoneParseProfileInfo : reader esim_file bool :=
  given profileInfo := GetGrandson [] TAG_ESIM_CTX_COMP_0 TAG_ESIM_PROFILE_INFO else mret false ;;
  given iccNode := GetChild profileInfo TAG_ESIM_ICCID else mret false ;;
  euiccProfile ← profile_of profileInfo;
  out (set_eUiccProfile_ euiccProfile) ;;
  mret true.
Definition ProcessGetProfileDone (event : option Event) : E W bool :=
  given root := ParseEvent event else notify isObtainProfileReady_ false ;;
  in_tree root (ok ← GetProfileDoneParseProfileInfo; finish isObtainProfileReady_ ok).

(** ** Requests with a result code: the integer in one node *)

Definition code_done (flag : Flag) (assign_to : Z -> esim_file -> esim_file) (event : option Event) : E W bool :=
  given root := ParseEvent event else notify flag false ;;
  in_tree root (
    given node := GetChild [] TAG_ESIM_CTX_0 else finish flag false ;;
    result ← read Asn1AsInteger node;
    out (assign_to result) ;;
    finish flag true).
Definition ProcessDisableProfileDone : option Event -> E W bool := code_done isDisableProfileReady_ set_disableProfileResult_.
Definition ProcessEstablishDefaultSmdpAddressDone : option Event -> E W bool := code_done isSetDefaultSmdpAddressReady_ set_setDpAddressResult_.
Definition ProcessResetMemoryDone : option Event -> E W bool := code_done isResetMemoryReady_ set_resetResult_.
Definition ProcessRemoveNotificationDone : option Event -> E W bool := code_done isRemoveNotificationReady_ set_removeNotifResult_.
Definition ProcessDeleteProfileDone : option Event -> E W bool := code_done isDeleteProfileReady_ set_delProfile_.
Definition ProcessSwitchToProfileDone : option Event -> E W bool := code_done isSwitchToProfileReady_ set_switchResult_.
Definition ProcessSetNicknameDone : option Event -> E W bool := code_done isSetNicknameReady_ set_setNicknameResult_.

(** ** Addresses, challenge, cancelled sessions, data of applications *)

Definition ProcessObtainSmdsAddressDone (event : option Event) : E W bool :=
  given root := ParseEvent event else notify isSmdsAddressReady_ false ;;
  in_tree root (
    given profileRoot := GetChild [] TAG_ESIM_CTX_1 else finish isSmdsAddressReady_ false ;;
    '(_, outPutBytes) ← AsBytes profileRoot;
    out (set_smdsAddress_ (BytesToString outPutBytes)) ;;
    finish isSmdsAddressReady_ true).
Definition ProcessObtainDefaultSmdpAddressDone (event : option Event) : E W bool :=
  given root := ParseEvent event else notify isObtainDefaultSmdpAddressReady_ false ;;
  in_tree root (
    given profileRoot := GetChild [] TAG_ESIM_CTX_0 else finish isObtainDefaultSmdpAddressReady_ false ;;
    '(byteLen, outPutBytes) ← AsBytes profileRoot;
    if byteLen =? 0 then finish isObtainDefaultSmdpAddressReady_ false else
    out (set_defaultDpAddress_ (BytesToHexStr outPutBytes)) ;;
    finish isObtainDefaultSmdpAddressReady_ true).
Definition ok_with (response : u16string) (r : ResponseEsimInnerResult) : ResponseEsimInnerResult := set_inner_response_ response (set_inner_resultCode_ RESULT_EUICC_CARD_OK r).
Definition ProcessObtainEuiccChallengeDone (event : option Event) : E W bool :=
  given root := ParseEvent event else notify isEuiccChallengeReady_ false ;;
  in_tree root (
    given profileRoot := GetChild [] TAG_ESIM_CTX_0 else finish isEuiccChallengeReady_ false ;;
    '(byteLen, profileResponseByte) ← AsBytes profileRoot;
    if byteLen =? 0 then finish isEuiccChallengeReady_ false else
    response ← throws (ToUtf16 (BytesToHexStr profileResponseByte));
    out (fun f => set_responseChallengeResult_ (ok_with response (responseChallengeResult_ f)) f) ;;
    finish isEuiccChallengeReady_ true).
Definition ProcessCancelSessionDone (event : option Event) : E W bool :=
  match GetRawDataFromEvent event with
  | None => notify isCancelSessionReady_ false
  | Some rawData =>
      response ← lift (ToUtf16 (resultData rawData));
      assign (fun f => set_cancelSessionResult_ (ok_with response (cancelSessionResult_ f)) f) ;;
      notify isCancelSessionReady_ true
  end.
Definition ProcessSendApduDataDone (event : option Event) : E W bool :=
  match GetRawDataFromEvent event with
  | None => notify isSendApduDataReady_ false
  | Some result =>
      response ← lift (ToUtf16 (resultData result));
      assign (set_transApduDataResponse_ (MkEsimInner RESULT_EUICC_CARD_OK response (sw1 result) (sw2 result))) ;;
      notify isSendApduDataReady_ true
  end.

(** ** The rules authorisation table *)

(** [strResult] has a character at every index up to its length, where it is the null character. *)
Definition char_at (s : cstring) (i : nat) : outcome ascii := vec_get (s ++ [chr 0]) (Z.of_nat i).
Definition CarrierIdentifiers (mccMncData : list Z) (gid1 gid2 : u16string) : outcome CarrierIdentifier :=
  let strResult := BytesToHexStr mccMncData in
  c1 ← char_at strResult 1;
  c0 ← char_at strResult 0;
  c3 ← char_at strResult 3;
  c5 ← char_at strResult 5;
  c4 ← char_at strResult 4;
  c2 ← char_at strResult 2;
  mcc ← ToUtf16 (c_str [c1; c0; c3]);
  mnc ← ToUtf16 (c_str (if negb (Ascii.eqb c2 "F"%char) then [c5; c4; c2] else [c5; c4]));
  Ret (MkCarrierIdentifier mcc mnc gid1 gid2).
Definition gid_of {S} (p : path) : reader S u16string :=
  '(_, gidByte) ← AsBytes p;
  throws (ToUtf16 (BytesToHexStr gidByte)).
Definition BuildCarrierIdentifiers {S} (root : path) : reader S CarrierIdentifier :=
  defaultCarrier ← throws (CarrierIdentifiers [] [] []);
  found ← HasChild root TAG_ESIM_CTX_1;
  gid1 ← (if (found : bool) then
    node ← GetChild root TAG_ESIM_CTX_1;
    match node with None => mret None | Some node => gid ← gid_of node; mret (Some gid) end else mret (Some []));
  match gid1 with
  | None => mret defaultCarrier
  | Some gid1 =>
      found ← HasChild root TAG_ESIM_CTX_2;
      gid2 ← (if (found : bool) then
        node ← GetChild root TAG_ESIM_CTX_2;
        match node with None => mret None | Some node => gid ← gid_of node; mret (Some gid) end else mret (Some []));
      match gid2 with
      | None => mret defaultCarrier
      | Some gid2 =>
          given ctx0Node := GetChild root TAG_ESIM_CTX_0 else mret defaultCarrier ;;
          '(_, mccMnc) ← AsBytes ctx0Node;
          throws (CarrierIdentifiers mccMnc gid1 gid2)
      end
  end.
Definition on_table (g : EuiccRulesAuthTable -> EuiccRulesAuthTable) : reader esim_file unit := out (fun f => set_eUiccRulesAuthTable_ (g (eUiccRulesAuthTable_ f)) f).
Fixpoint add_carriers (opIdNodes : list path) : reader esim_file unit :=
  match opIdNodes with
  | [] => mret tt
  | curNode :: opIdNodes =>
      carrier ← BuildCarrierIdentifiers curNode;
      on_table (fun t => set_carrierIds_ (carrierIds_ t ++ [carrier]) t) ;;
      add_carriers opIdNodes
  end.
(** [opIdNodes] is declared outside the loop: every round adds to it. *)
Fixpoint add_rules (Nodes opIdNodes : list path) : reader esim_file bool :=
  match Nodes with
  | [] => mret true
  | node :: Nodes =>
      given grandson := GetGrandson node TAG_ESIM_SEQUENCE TAG_ESIM_CTX_COMP_1 else mret false ;;
      '(opIdNodesRes, opIdNodes) ← GetChildren grandson TAG_ESIM_SEQUENCE opIdNodes;
      if negb (bool_decide (opIdNodesRes = Prelude.TELEPHONY_ERR_SUCCESS)) then mret false else
      add_carriers opIdNodes ;;
      given grandson := GetGrandson node TAG_ESIM_SEQUENCE TAG_ESIM_CTX_0 else mret false ;;
      policyRules ← read Asn1AsBits grandson;
      given grandson := GetGrandson node TAG_ESIM_SEQUENCE TAG_ESIM_CTX_2 else mret false ;;
      policyRuleFlags ← read Asn1AsBits grandson;
      on_table (fun t => set_rat_policyRules_ (rat_policyRules_ t ++ [policyRules]) t) ;;
      on_table (fun t => set_policyRuleFlags_ (policyRuleFlags_ t ++ [policyRuleFlags]) t) ;;
      add_rules Nodes opIdNodes
  end.
Definition RequestRulesAuthTableParseTagCtxComp0 : reader esim_file bool :=
  '(_, Nodes) ← GetChildren [] TAG_ESIM_CTX_COMP_0 [];
  add_rules Nodes [].
Definition ProcessRequestRulesAuthTableDone (event : option Event) : E W bool :=
  given root := ParseEvent event else notify isRulesAuthTableReady_ false ;;
  in_tree root (ok ← RequestRulesAuthTableParseTagCtxComp0; finish isRulesAuthTableReady_ ok).

(** ** Notifications *)

Definition Note : Type -> Type := reader EuiccNotification.
Definition CreateNotification (node : path) : Note unit :=
  tag ← read tag_ node;
  metadataNode ← (
    if tag =? TAG_ESIM_NOTIFICATION_METADATA then mret (Some node)
    else if tag =? TAG_ESIM_PROFILE_INSTALLATION_RESULT then GetGrandson node TAG_ESIM_PROFILE_INSTALLATION_RESULT_DATA TAG_ESIM_NOTIFICATION_METADATA
    else GetChild node TAG_ESIM_NOTIFICATION_METADATA);
  match metadataNode with
  | None => mret tt
  | Some metadataNode =>
      given nodeSeq := GetChild metadataNode TAG_ESIM_SEQ else mret tt ;;
      seq ← read Asn1AsInteger nodeSeq;
      out (set_seq_ seq) ;;
      given nodeTargetAddr := GetChild metadataNode TAG_ESIM_TARGET_ADDR else mret tt ;;
      '(_, resultStr) ← AsBytes nodeTargetAddr;
      targetAddr ← throws (ToUtf16 (BytesToString resultStr));
      out (set_targetAddr_ targetAddr) ;;
      given nodeEvent := GetChild metadataNode TAG_ESIM_EVENT else mret tt ;;
      event ← read Asn1AsBits nodeEvent;
      out (set_event_ event) ;;
      '(_, strmData) ← read Asn1NodeToHexStr node;
      out (set_notif_data_ (Str8ToStr16 strmData))
  end.
Fixpoint notifications {S} (ls : list path) : reader S (list EuiccNotification) :=
  match ls with
  | [] => mret []
  | curNode :: ls =>
      '(_, euicc) ← local (CreateNotification curNode) EuiccNotification_new;
      euiccList ← notifications ls;
      mret (euicc :: euiccList)
  end.
(** The notifications among the children of the first node of the response. Both functions that use it assign [eUiccNotificationList_]. *)
Definition parse_notifications (tag : Z) : reader esim_file bool :=
  given compTag := GetChild [] TAG_ESIM_CTX_COMP_0 else mret false ;;
  '(metaDataRes, ls) ← GetChildren compTag tag [];
  if negb (bool_decide (metaDataRes = Prelude.TELEPHONY_ERR_SUCCESS)) then mret false else
  euiccList ← notifications ls;
  out (set_eUiccNotificationList_ euiccList) ;;
  mret true.
Definition ProcessListNotificationsAsn1Response : reader esim_file bool :=
  found ← HasChild [] TAG_ESIM_CTX_1;
  if (found : bool) then mret false else parse_notifications TAG_ESIM_NOTIFICATION_METADATA.
Definition ProcessListNotificationsDone (event : option Event) : E W bool :=
  receive isListNotificationsReady_ MSG_ESIM_LIST_NOTIFICATION event (
    given root := parse_received else notify isListNotificationsReady_ false ;;
    in_tree root (ok ← ProcessListNotificationsAsn1Response; finish isListNotificationsReady_ ok)).
Definition RetrieveNotificationParseCompTag : reader esim_file bool := parse_notifications TAG_ESIM_SEQUENCE.
Definition ProcessRetrieveNotificationListDone (event : option Event) : E W bool :=
  given root := ParseEvent event else notify isRetrieveNotificationListReady_ false ;;
  in_tree root (ok ← RetrieveNotificationParseCompTag; finish isRetrieveNotificationListReady_ ok).
Definition RetrieveNotificatioParseTagCtxComp0 : reader esim_file bool :=
  given compNode := GetChild [] TAG_ESIM_CTX_COMP_0 else mret false ;;
  '(ret, nodes) ← GetChildren compNode TAG_ESIM_SEQUENCE [];
  '(ret, nodes) ← (if negb (bool_decide (ret = Prelude.TELEPHONY_ERR_SUCCESS)) || (zlen nodes =? 0)
    then GetChildren compNode TAG_ESIM_PROFILE_INSTALLATION_RESULT nodes else mret (ret, nodes));
  match nodes with
  | firstNode :: _ =>
      if negb (bool_decide (ret = Prelude.TELEPHONY_ERR_SUCCESS)) then mret false else
      '(_, notification) ← local (CreateNotification firstNode) EuiccNotification_new;
      out (set_notification_ notification) ;;
      mret true
  | [] => mret false
  end.
Definition ResetEuiccNotification : E W unit := assign (set_notification_ EuiccNotification_new).
Definition ProcessRetrieveNotificationDone (event : option Event) : E W bool :=
  ResetEuiccNotification ;;
  receive isRetrieveNotificationReady_ MSG_ESIM_RETRIEVE_NOTIFICATION_DONE event (
    given root := parse_received else notify isRetrieveNotificationReady_ false ;;
    in_tree root (ok ← RetrieveNotificatioParseTagCtxComp0; finish isRetrieveNotificationReady_ ok)).

(** ** Downloads *)

Definition RealProcessPrepareDownloadDone : E W bool :=
  recvCombineStr ← member recvCombineStr_;
  let responseByte := HexStrToBytes recvCombineStr in
  given root := parse_received else notify isPrepareDownloadReady_ false ;;
  in_tree root (
    childNode ← GetChild [] TAG_ESIM_CTX_COMP_1;
    protocolErr ← match childNode with
      | None => mret 0
      | Some childNode =>
          errCodeNode ← GetChild childNode TAG_ESIM_UNI_2;
          match errCodeNode with None => mret 0 | Some errCodeNode => read Asn1AsInteger errCodeNode end
      end;
    if 0 <? protocolErr then
      out (fun f => set_preDownloadResult_ (set_inner_response_ [] (set_inner_resultCode_ protocolErr (preDownloadResult_ f))) f) ;;
      finish isPrepareDownloadReady_ false
    else
      out (fun f => set_preDownloadResult_ (set_inner_resultCode_ RESULT_EUICC_CARD_OK (preDownloadResult_ f)) f) ;;
      let '(actualSize, outStr) := EVP_EncodeBlock (BytesToString responseByte) in
      let destString := if actualSize <? 0 then [] else take (Z.to_nat actualSize) outStr in
      response ← throws (ToUtf16 destString);
      out (fun f => set_preDownloadResult_ (set_inner_response_ response (preDownloadResult_ f)) f) ;;
      finish isPrepareDownloadReady_ true).
Definition ProcessPrepareDownloadDone (event : option Event) : E W bool :=
  receive isPrepareDownloadReady_ MSG_ESIM_PREPARE_DOWNLOAD_DONE event RealProcessPrepareDownloadDone.

Definition on_bpp (g : ResponseEsimBppResult -> ResponseEsimBppResult) (f : esim_file) : esim_file := set_loadBPPResult_ (g (loadBPPResult_ f)) f.
Definition LoadBoundProfilePackageParseNotificationMetadata (notificationMetadata : path) : reader esim_file bool :=
  given sequenceNumberAsn := GetChild notificationMetadata TAG_ESIM_CTX_0 else mret false ;;
  seqNumber ← read Asn1AsInteger sequenceNumberAsn;
  out (on_bpp (set_seqNumber_ seqNumber)) ;;
  given profileManagementOpAsn := GetChild notificationMetadata TAG_ESIM_CTX_1 else mret false ;;
  out (on_bpp (set_profileManagementOperation_ EVENT_INSTALL)) ;;
  given addressAsn := GetChild notificationMetadata TAG_ESIM_TARGET_ADDR else mret false ;;
  '(_, hexString) ← read Asn1AsString addressAsn;
  address ← throws (ToUtf16 (HexStrToString (default [] hexString)));
  out (on_bpp (set_notificationAddress_ address)) ;;
  given iccidAsn := GetChild notificationMetadata TAG_ESIM_EID else mret false ;;
  '(_, iccid) ← AsBytes iccidAsn;
  iccId ← throws (ToUtf16 (BchToString iccid));
  out (on_bpp (set_bpp_iccId_ iccId)) ;;
  mret true.
Definition LoadBoundProfilePackageParseProfileInstallResult : reader esim_file (option path) :=
  given resultData := GetChild [] TAG_ESIM_PROFILE_INSTALLATION_RESULT_DATA else mret None ;;
  errNode ← GetGreatGrandson resultData TAG_ESIM_CTX_COMP_2 TAG_ESIM_CTX_COMP_1 TAG_ESIM_CTX_1;
  match errNode with
  | Some errNode =>
      out (on_bpp (set_bpp_resultCode_ (Asn1AsInteger errNode))) ;;
      mret None
  | None => GetChild resultData TAG_ESIM_NOTIFICATION_METADATA
  end.
Definition RealProcessLoadBoundProfilePackageDone : E W bool :=
  recvCombineStr ← member recvCombineStr_;
  response ← lift (ToUtf16 recvCombineStr);
  assign (on_bpp (set_bpp_response_ response)) ;;
  given root := parse_received else notify isLoadBppReady_ false ;;
  in_tree root (
    given nodeNotificationMetadata := LoadBoundProfilePackageParseProfileInstallResult else finish isLoadBppReady_ false ;;
    ok ← LoadBoundProfilePackageParseNotificationMetadata nodeNotificationMetadata;
    if negb ok then finish isLoadBppReady_ false else
    out (on_bpp (set_bpp_resultCode_ 0)) ;;
    finish isLoadBppReady_ true).
Definition ProcessLoadBoundProfilePackageDone (event : option Event) : E W bool :=
  receive isLoadBppReady_ MSG_ESIM_LOAD_BOUND_PROFILE_PACKAGE event RealProcessLoadBoundProfilePackageDone.

(** The struct [AuthServerResponse]: the code and the response. *)
Definition CovertAuthToApiStruct (errCode : Z) (respStr : list Z) (dst : ResponseEsimInnerResult) : outcome ResponseEsimInnerResult :=
  response ← ToUtf16 (BytesToHexStr respStr);
  Ret (set_inner_response_ response (set_inner_resultCode_ errCode dst)).
Definition auth_answer (errCode : Z) (respStr : list Z) : reader esim_file bool := fun '(f, root) =>
  r ← CovertAuthToApiStruct errCode respStr (responseAuthenticateResult_ f);
  finish isAuthenticateServerReady_ true (set_responseAuthenticateResult_ r f, root).
Definition RealProcessAuthenticateServerDone : E W bool :=
  recvCombineStr ← member recvCombineStr_;
  let responseByte := HexStrToBytes recvCombineStr in
  given responseNode := parse_received else notify isAuthenticateServerReady_ false ;;
  in_tree responseNode (
    failed ← HasChild [] TAG_ESIM_CTX_COMP_1;
    if (failed : bool) then
      given authServerRespNode := GetChild [] TAG_ESIM_CTX_COMP_1 else finish isAuthenticateServerReady_ false ;;
      has_id ← HasChild authServerRespNode TAG_ESIM_CTX_0;
      if negb has_id then finish isAuthenticateServerReady_ false else
      has_code ← HasChild authServerRespNode TAG_ESIM_INTEGER_TYPE;
      if negb has_code then finish isAuthenticateServerReady_ false else
      given transactionIdNode := GetChild authServerRespNode TAG_ESIM_CTX_0 else finish isAuthenticateServerReady_ false ;;
      given errCodeNode := GetChild authServerRespNode TAG_ESIM_INTEGER_TYPE else finish isAuthenticateServerReady_ false ;;
      '(tidByteLen, _) ← read Asn1AsString transactionIdNode;
      if tidByteLen =? 0 then finish isAuthenticateServerReady_ false else
      errCode ← read Asn1AsInteger errCodeNode;
      auth_answer errCode []
    else auth_answer 0 responseByte).
Definition ProcessAuthenticateServerDone (event : option Event) : E W bool :=
  receive isAuthenticateServerReady_ MSG_ESIM_AUTHENTICATE_SERVER event RealProcessAuthenticateServerDone.

Definition ProcessGetContractInfoDone (event : option Event) : E W bool :=
  receive isGetContractInfoReady_ MSG_ESIM_GET_CONTRACT_INFO_DONE event (
    recvCombineStr ← member recvCombineStr_;
    if zlen recvCombineStr <=? CONTRACT_INFO_CONTENT_IDX then notify isGetContractInfoReady_ false else
    getContractInfoResult ← lift (substr_from recvCombineStr CONTRACT_INFO_CONTENT_IDX);
    assign (set_getContractInfoResult_ getContractInfoResult) ;;
    notify isGetContractInfoReady_ true).

(** ** EuiccInfo2 *)

Definition Info2 : Type -> Type := reader EuiccInfo2.
Definition version_of (tag : Z) (assign_to : cstring -> EuiccInfo2 -> EuiccInfo2) : Info2 unit :=
  given node := GetChild [] tag else mret tt ;;
  '(versionLen, versionRaw) ← AsBytes node;
  if versionLen <? EUICC_INFO_VERSION_MIN_LENGTH then mret tt else out (assign_to (MakeVersionString versionRaw)).
Definition string_of (tag : Z) (assign_to : cstring -> EuiccInfo2 -> EuiccInfo2) : Info2 unit :=
  given node := GetChild [] tag else mret tt ;;
  as_string node assign_to.
Definition hex_of_node (tag : Z) (assign_to : cstring -> EuiccInfo2 -> EuiccInfo2) : Info2 unit :=
  given node := GetChild [] tag else mret tt ;;
  '(_, hex) ← read Asn1NodeToHexStr node;
  out (assign_to hex).
Definition EuiccInfo2ParseProfileVersion : Info2 unit := version_of TAG_ESIM_CTX_1 set_profileVersion_.
Definition EuiccInfo2ParseSvn : Info2 unit := version_of TAG_ESIM_CTX_2 set_svn_.
Definition EuiccInfo2ParseEuiccFirmwareVer : Info2 unit := version_of TAG_ESIM_CTX_3 set_firmwareVer_.
Definition EuiccInfo2ParseExtCardResource : Info2 unit := string_of TAG_ESIM_CTX_4 set_extCardResource_.
Definition EuiccInfo2ParseUiccCapability : Info2 unit := string_of TAG_ESIM_CTX_5 set_uiccCapability_.
Definition EuiccInfo2ParseTs102241Version : Info2 unit := version_of TAG_ESIM_CTX_6 set_ts102241Version_.
Definition EuiccInfo2ParseGlobalPlatformVersion : Info2 unit := version_of TAG_ESIM_CTX_7 set_globalPlatformVersion_.
Definition EuiccInfo2ParseRspCapability : Info2 unit := string_of TAG_ESIM_CTX_8 set_rspCapability_.
Definition EuiccInfo2ParseEuiccCiPKIdListForVerification : Info2 unit := hex_of_node TAG_ESIM_CTX_COMP_9 set_euiccCiPKIdListForVerification_.
Definition EuiccInfo2ParseEuiccCiPKIdListForSigning : Info2 unit := hex_of_node TAG_ESIM_CTX_COMP_A set_euiccCiPKIdListForSigning_.
Definition EuiccInfo2ParseEuiccCategory : Info2 unit :=
  given euiccCategoryNode := GetChild [] TAG_ESIM_CTX_B else mret tt ;;
  euiccCategory ← read Asn1AsInteger euiccCategoryNode;
  out (set_euiccCategory_ euiccCategory).
Definition EuiccInfo2ParsePpVersion : Info2 unit := version_of TAG_ESIM_OCTET_STRING_TYPE set_ppVersion_.
Definition ProcessObtainEuiccInfo2Done (event : option Event) : E W bool :=
  receive isEuiccInfo2Ready_ MSG_ESIM_OBTAIN_EUICC_INFO2_DONE event (
    given root := parse_received else notify isEuiccInfo2Ready_ false ;;
    f ← member (fun f => f);
    '(_, (euiccInfo2, _)) ← lift ((
      EuiccInfo2ParseProfileVersion ;;
      EuiccInfo2ParseSvn ;;
      EuiccInfo2ParseEuiccFirmwareVer ;;
      EuiccInfo2ParseExtCardResource ;;
      EuiccInfo2ParseUiccCapability ;;
      EuiccInfo2ParseTs102241Version ;;
      EuiccInfo2ParseGlobalPlatformVersion ;;
      EuiccInfo2ParseRspCapability ;;
      EuiccInfo2ParseEuiccCiPKIdListForVerification ;;
      EuiccInfo2ParseEuiccCiPKIdListForSigning ;;
      EuiccInfo2ParseEuiccCategory ;;
      EuiccInfo2ParsePpVersion) (euiccInfo2Result_ f, root));
    assign (set_euiccInfo2Result_ (set_info2_response_ (resultData (newRecvData_ f)) (set_info2_resultCode_ RESULT_EUICC_CARD_OK euiccInfo2))) ;;
    notify isEuiccInfo2Ready_ true).

(** ** Dispatch *)

(** [InitChanneMemberFunc] and [InitMemberFunc]. *)
Definition memberFuncMap_ : list (Z * (option Event -> E W bool)) := [
  (MSG_ESIM_OPEN_CHANNEL_DONE, ProcessEsimOpenChannelDone);
  (MSG_ESIM_CLOSE_CHANNEL_DONE, ProcessEsimCloseChannelDone);
  (MSG_ESIM_SEND_APUD_DATA, ProcessSendApduDataDone);
  (MSG_ESIM_CLOSE_SPARE_CHANNEL_DONE, ProcessEsimCloseSpareChannelDone);
  (MSG_ESIM_OBTAIN_EID_DONE, ProcessObtainEidDone);
  (MSG_ESIM_OBTAIN_EUICC_INFO_1_DONE, ProcessObtainEuiccInfo1Done);
  (MSG_ESIM_REQUEST_ALL_PROFILES, ProcessRequestAllProfilesDone);
  (MSG_ESIM_OBTAIN_EUICC_CHALLENGE_DONE, ProcessObtainEuiccChallengeDone);
  (MSG_ESIM_REQUEST_RULES_AUTH_TABLE, ProcessRequestRulesAuthTableDone);
  (MSG_ESIM_OBTAIN_SMDS_ADDRESS, ProcessObtainSmdsAddressDone);
  (MSG_ESIM_DISABLE_PROFILE, ProcessDisableProfileDone);
  (MSG_ESIM_OBTAIN_DEFAULT_SMDP_ADDRESS_DONE, ProcessObtainDefaultSmdpAddressDone);
  (MSG_ESIM_CANCEL_SESSION, ProcessCancelSessionDone);
  (MSG_ESIM_GET_PROFILE, ProcessGetProfileDone);
  (MSG_ESIM_ESTABLISH_DEFAULT_SMDP_ADDRESS_DONE, ProcessEstablishDefaultSmdpAddressDone);
  (MSG_ESIM_RESET_MEMORY, ProcessResetMemoryDone);
  (MSG_ESIM_LIST_NOTIFICATION, ProcessListNotificationsDone);
  (MSG_ESIM_LOAD_BOUND_PROFILE_PACKAGE, ProcessLoadBoundProfilePackageDone);
  (MSG_ESIM_PREPARE_DOWNLOAD_DONE, ProcessPrepareDownloadDone);
  (MSG_ESIM_REMOVE_NOTIFICATION, ProcessRemoveNotificationDone);
  (MSG_ESIM_RETRIEVE_NOTIFICATION_DONE, ProcessRetrieveNotificationDone);
  (MSG_ESIM_RETRIEVE_NOTIFICATION_LIST, ProcessRetrieveNotificationListDone);
  (MSG_ESIM_DELETE_PROFILE, ProcessDeleteProfileDone);
  (MSG_ESIM_SWITCH_PROFILE, ProcessSwitchToProfileDone);
  (MSG_ESIM_SET_NICK_NAME, ProcessSetNicknameDone);
  (MSG_ESIM_OBTAIN_EUICC_INFO2_DONE, ProcessObtainEuiccInfo2Done);
  (MSG_ESIM_AUTHENTICATE_SERVER, ProcessAuthenticateServerDone);
  (MSG_ESIM_GET_CONTRACT_INFO_DONE, ProcessGetContractInfoDone)].
Fixpoint find_func (id : Z) (funcs : list (Z * (option Event -> E W bool))) : option (option Event -> E W bool) :=
  match funcs with
  | [] => None
  | (i, func) :: funcs => if i =? id then Some func else find_func id funcs
  end.
Definition ProcessEvent (event : option Event) : E W unit :=
  match event with
  | None => mret tt
  | Some e =>
      match find_func (event_id e) memberFuncMap_ with
      | Some memberFunc => memberFunc event ;; mret tt
      | None => mret tt
      end
  end.
End Response.
End EsimFileDone.
