(* ===== verification/EsimFile.v ===== *)
(** * [services/sim/src/esim_file.cpp]: the operations

    Each operation obtains the channel, sends its request, waits for the handler to announce the answer, and closes the channel.

    A wait is seen as follows: the handler takes the events that arrive meanwhile ([arrivals]); then the thread goes on, because the flag is set or the time is over.
    Events may also be handled between the sending of a request and the point where the thread resets the flag. The locks serialise the operations and the handler's
    access to the flags; only [occupyChannelMutex_], whose state the handler tests, is part of the state. *)

From stdpp Require Import pretty.
From S2P Require Import Prelude CxxString Parcel Parcelables CoreServiceApi CoreManagers StrConvert Asn1Utils Asn1Node Asn1Builder Apdu EsimData EsimRequest EsimResponse.
Open Scope Z_scope.
Open Scope esim_scope.

Module EsimFile.
Import EsimFileRequest EsimFileDone.
Section Operations.
Context {W : Type} `{ErrorCodes} `{!EsimPlatform W} `{Parcelables.StringEx}.

Fixpoint handle (n : nat) (m : moment) : E W unit :=
  match n with
  | O => mret tt
  | S n =>
      event ← platform (arrived m);
      match event with
      | None => mret tt
      | Some _ => ProcessEvent event ;; handle n m
      end
  end.
Definition arrivals (m : moment) : E W unit :=
  n ← platform (gets patience);
  handle n m.
(** [cv.wait_for(lock, ..., flag is set)]. *)
Definition wait_for (flag : Flag) : E W bool :=
  arrivals Waiting ;;
  member (fun f => ready f flag).

(** ** The channel *)

Definition ObtainChannelSuccessExclusive : E W Z :=
  aid ← lift (ToUtf16 ISDR_AID);
  lock_channel ;;
  is_open ← IsLogicChannelOpen;
  if (is_open : bool) then unlock_channel ;; mret RESULT_EUICC_CARD_CHANNEL_IN_USE else
  ProcessEsimOpenChannel aid ;;
  arrivals Waiting ;;
  isOpenChannelSuccess ← IsLogicChannelOpen;
  if (isOpenChannelSuccess : bool) then
    assign (set_aidStr_ aid) ;;
    unlock_channel ;;
    mret RESULT_EUICC_CARD_OK
  else
    unlock_channel ;;
    mret RESULT_EUICC_CARD_CHANNEL_OPEN_FAILED.
Definition IsValidAidForAllowSameAidReuseChannel (aid : u16string) : E W bool :=
  aidStr ← member aidStr_;
  mret (negb (negb (bool_decide (aidStr = aid)) && negb (zlen aidStr =? 0))).
Definition ObtainChannelSuccessAllowSameAidReuse (aid : u16string) : E W Z :=
  lock_channel ;;
  valid ← IsValidAidForAllowSameAidReuseChannel aid;
  if negb valid then unlock_channel ;; mret RESULT_EUICC_CARD_CHANNEL_OTHER_AID else
  is_open ← IsLogicChannelOpen;
  (if negb is_open then ProcessEsimOpenChannel aid ;; arrivals Waiting else mret tt) ;;
  isOpenChannelSuccess ← IsLogicChannelOpen;
  if (isOpenChannelSuccess : bool) then
    assign (set_aidStr_ aid) ;;
    unlock_channel ;;
    mret RESULT_EUICC_CARD_OK
  else
    unlock_channel ;;
    mret RESULT_EUICC_CARD_CHANNEL_OPEN_FAILED.
Definition IsSameAid (aid : u16string) : E W bool :=
  aidStr ← member aidStr_;
  mret (bool_decide (aidStr = aid)).
(** At most [tries] attempts to close the channel. *)
Fixpoint close_loop (tries : nat) : E W unit :=
  match tries with
  | O => mret tt
  | S tries =>
      is_open ← IsLogicChannelOpen;
      if negb is_open then mret tt else
      ProcessEsimCloseChannel ;;
      arrivals Waiting ;;
      is_open ← IsLogicChannelOpen;
      if negb is_open then mret tt else close_loop tries
  end.
Definition SyncCloseChannel : E W unit :=
  lock_channel ;;
  close_loop (Z.to_nat NUMBER_TWO) ;;
  assign (set_currentChannelId_ 0) ;;
  assign (set_aidStr_ []) ;;
  unlock_channel.

(** ** Operations with one command *)

(** How the part common to all of them ends. *)
Inductive ending : Type :=
| NotObtained (resultFlag : Z)
| NotSent
| TimedOut
| Answered.
(** [prepare] is done once the channel is open. *)
Definition request (flag : Flag) (msg : Z) (prepare : E W unit) (process : Z -> E W bool) : E W ending :=
  resultFlag ← ObtainChannelSuccessExclusive;
  if negb (resultFlag =? RESULT_EUICC_CARD_OK) then mret (NotObtained resultFlag) else
  prepare ;;
  match BuildCallerInfo msg with
  | None => mret NotSent
  | Some event =>
      sent ← process event;
      if negb sent then SyncCloseChannel ;; mret NotSent else
      arrivals Overtaking ;;
      set_flag flag false ;;
      answered ← wait_for flag;
      SyncCloseChannel ;;
      mret (if (answered : bool) then Answered else TimedOut)
  end.
Definition nothing : E W unit := mret tt.
Definition on_params (g : EsimProfile -> EsimProfile) : E W unit := assign (fun f => set_esimProfile_ (g (esimProfile_ f)) f).
Definition clear_received : E W unit := assign (set_recvCombineStr_ []).

Definition ObtainEid : E W cstring :=
  eid ← member eid_;
  if negb (zlen eid =? 0) then mret eid else
  e ← request isEidReady_ MSG_ESIM_OBTAIN_EID_DONE nothing ProcessObtainEid;
  match e with Answered => member eid_ | _ => mret [] end.
Definition set_list_result (code : Z) : E W unit := assign (fun f => set_euiccProfileInfoList_ (set_list_result_ code (euiccProfileInfoList_ f)) f).
Definition GetEuiccProfileInfoList : E W GetEuiccProfileInfoListInnerResult :=
  assign (set_euiccProfileInfoList_ (set_list_result_ RESULT_EUICC_CARD_DEFALUT_ERROR GetEuiccProfileInfoListInnerResult_new)) ;;
  e ← request isAllProfileInfoReady_ MSG_ESIM_REQUEST_ALL_PROFILES clear_received ProcessRequestAllProfiles;
  match e with
  | NotObtained resultFlag => set_list_result resultFlag
  | NotSent => set_list_result RESULT_EUICC_CARD_DATA_PROCESS_ERROR
  | TimedOut => set_list_result RESULT_EUICC_CARD_WAIT_TIMEOUT
  | Answered => mret tt
  end ;;
  member euiccProfileInfoList_.
Definition GetEuiccInfo : E W EuiccInfo :=
  assign (set_eUiccInfo_ EuiccInfo_new) ;;
  e ← request isEuiccInfo1Ready_ MSG_ESIM_OBTAIN_EUICC_INFO_1_DONE nothing ProcessObtainEuiccInfo1;
  match e with NotObtained _ | NotSent => mret EuiccInfo_new | TimedOut | Answered => member eUiccInfo_ end.
(** Operations that answer with a code kept in a member. *)
Definition code_request (flag : Flag) (msg : Z) (process : Z -> E W bool) (get : esim_file -> Z) (set : Z -> esim_file -> esim_file) : E W Z :=
  e ← request flag msg nothing process;
  match e with NotObtained resultFlag => assign (set resultFlag) | _ => mret tt end ;;
  member get.
Definition last_profile (slot : Z) (key : cstring) : E W unit :=
  slotId ← member slotId_;
  if slotId =? slot then
    simId ← platform (gets (GetSimId slotId));
    platform (modifies (SetParameter key (str (pretty (simId : Z)))))
  else mret tt.
Definition DisableProfile (portIndex : Z) (iccId : u16string) : E W Z :=
  last_profile SLOT_ID_0 LAST_DEACTIVE_PROFILE_SLOT0 ;;
  last_profile SLOT_ID_1 LAST_DEACTIVE_PROFILE_SLOT1 ;;
  assign (set_disableProfileResult_ RESULT_EUICC_CARD_DEFALUT_ERROR) ;;
  on_params (fun p => set_esim_iccId iccId (set_esim_portIndex portIndex p)) ;;
  code_request isDisableProfileReady_ MSG_ESIM_DISABLE_PROFILE ProcessDisableProfile disableProfileResult_ set_disableProfileResult_.
Definition ObtainSmdsAddress (portIndex : Z) : E W cstring :=
  on_params (set_esim_portIndex portIndex) ;;
  e ← request isSmdsAddressReady_ MSG_ESIM_OBTAIN_SMDS_ADDRESS nothing ProcessObtainSmdsAddress;
  match e with Answered => member smdsAddress_ | _ => mret [] end.
Definition ObtainRulesAuthTable (portIndex : Z) : E W EuiccRulesAuthTable :=
  on_params (set_esim_portIndex portIndex) ;;
  e ← request isRulesAuthTableReady_ MSG_ESIM_REQUEST_RULES_AUTH_TABLE nothing ProcessRequestRulesAuthTable;
  match e with Answered => member eUiccRulesAuthTable_ | _ => mret EuiccRulesAuthTable_new end.
(** Operations that answer with a [ResponseEsimInnerResult]. *)
Definition response_request (flag : Flag) (msg : Z) (prepare : E W unit) (process : Z -> E W bool)
    (get : esim_file -> ResponseEsimInnerResult) (set : ResponseEsimInnerResult -> esim_file -> esim_file) : E W ResponseEsimInnerResult :=
  let set_code code := assign (fun f => set (set_inner_resultCode_ code (get f)) f) in
  e ← request flag msg prepare process;
  match e with
  | NotObtained resultFlag => set_code resultFlag
  | NotSent => set_code RESULT_EUICC_CARD_DATA_PROCESS_ERROR
  | TimedOut => set_code RESULT_EUICC_CARD_WAIT_TIMEOUT
  | Answered => mret tt
  end ;;
  member get.
Definition ObtainEuiccChallenge (portIndex : Z) : E W ResponseEsimInnerResult :=
  assign (set_responseChallengeResult_ ResponseEsimInnerResult_new) ;;
  on_params (set_esim_portIndex portIndex) ;;
  response_request isEuiccChallengeReady_ MSG_ESIM_OBTAIN_EUICC_CHALLENGE_DONE nothing ProcessObtainEuiccChallenge responseChallengeResult_ set_responseChallengeResult_.
Definition ObtainDefaultSmdpAddress : E W cstring :=
  e ← request isObtainDefaultSmdpAddressReady_ MSG_ESIM_OBTAIN_DEFAULT_SMDP_ADDRESS_DONE nothing ProcessObtainDefaultSmdpAddress;
  match e with Answered => member defaultDpAddress_ | _ => mret [] end.
Definition CancelSession (transactionId : u16string) (cancelReason : Z) : E W ResponseEsimInnerResult :=
  assign (set_cancelSessionResult_ ResponseEsimInnerResult_new) ;;
  on_params (fun p => set_esim_cancelReason cancelReason (set_esim_transactionId transactionId p)) ;;
  response_request isCancelSessionReady_ MSG_ESIM_CANCEL_SESSION nothing ProcessCancelSession cancelSessionResult_ set_cancelSessionResult_.
Definition ObtainProfile (portIndex : Z) (iccId : u16string) : E W EuiccProfile :=
  assign (set_eUiccProfile_ EuiccProfile_new) ;;
  on_params (fun p => set_esim_iccId iccId (set_esim_portIndex portIndex p)) ;;
  request isObtainProfileReady_ MSG_ESIM_GET_PROFILE nothing ProcessGetProfile ;;
  member eUiccProfile_.
Definition ResetMemory (resetOption : Z) : E W Z :=
  assign (set_resetResult_ RESULT_EUICC_CARD_DEFALUT_ERROR) ;;
  on_params (set_esim_option resetOption) ;;
  code_request isResetMemoryReady_ MSG_ESIM_RESET_MEMORY ProcessResetMemory resetResult_ set_resetResult_.
Definition SetDefaultSmdpAddress (defaultSmdpAddress : u16string) : E W Z :=
  assign (set_setDpAddressResult_ RESULT_EUICC_CARD_DEFALUT_ERROR) ;;
  on_params (set_esim_defaultSmdpAddress defaultSmdpAddress) ;;
  code_request isSetDefaultSmdpAddressReady_ MSG_ESIM_ESTABLISH_DEFAULT_SMDP_ADDRESS_DONE ProcessEstablishDefaultSmdpAddress setDpAddressResult_ set_setDpAddressResult_.
Definition IsSupported : E W bool :=
  isSupported ← member isSupported_;
  if (isSupported : bool) then mret isSupported else
  atr ← platform (gets (GetParameter TEL_ESIM_SUPPORT [] ATR_LENGTH));
  if zlen (atr : cstring) =? 0 then
    eid ← ObtainEid;
    (if negb (zlen eid =? 0) then assign (set_isSupported_ true) else mret tt) ;;
    member isSupported_
  else
    '(_, resetResponse) ← lift (AnalysisAtrData atr (MkReset false 0));
    assign (set_isSupported_ (IsEuiccAvailable resetResponse)) ;;
    member isSupported_.
Definition ListNotifications (portIndex events : Z) : E W (list EuiccNotification) :=
  on_params (fun p => set_esim_events events (set_esim_portIndex portIndex p)) ;;
  e ← request isListNotificationsReady_ MSG_ESIM_LIST_NOTIFICATION clear_received (ProcessListNotifications events);
  match e with Answered => member eUiccNotificationList_ | _ => mret [] end.
Definition RetrieveNotificationList (portIndex events : Z) : E W (list EuiccNotification) :=
  on_params (fun p => set_esim_events events (set_esim_portIndex portIndex p)) ;;
  e ← request isRetrieveNotificationListReady_ MSG_ESIM_RETRIEVE_NOTIFICATION_LIST clear_received (ProcessRetrieveNotificationList events);
  match e with Answered => member retrieveNotificationList_ | _ => mret [] end.
Definition ObtainRetrieveNotification (portIndex seqNumber : Z) : E W EuiccNotification :=
  on_params (fun p => set_esim_seqNumber seqNumber (set_esim_portIndex portIndex p)) ;;
  e ← request isRetrieveNotificationReady_ MSG_ESIM_RETRIEVE_NOTIFICATION_DONE clear_received ProcessRetrieveNotification;
  match e with Answered => member notification_ | _ => mret EuiccNotification_new end.
Definition RemoveNotificationFromList (portIndex seqNumber : Z) : E W Z :=
  assign (set_removeNotifResult_ RESULT_EUICC_CARD_DEFALUT_ERROR) ;;
  on_params (fun p => set_esim_seqNumber seqNumber (set_esim_portIndex portIndex p)) ;;
  code_request isRemoveNotificationReady_ MSG_ESIM_REMOVE_NOTIFICATION ProcessRemoveNotification removeNotifResult_ set_removeNotifResult_.
Definition DeleteProfile (iccId : u16string) : E W Z :=
  assign (set_delProfile_ RESULT_EUICC_CARD_DEFALUT_ERROR) ;;
  on_params (set_esim_iccId iccId) ;;
  code_request isDeleteProfileReady_ MSG_ESIM_DELETE_PROFILE ProcessDeleteProfile delProfile_ set_delProfile_.
Definition SwitchToProfile (portIndex : Z) (iccId : u16string) (forceDisableProfile : bool) : E W Z :=
  assign (set_switchResult_ RESULT_EUICC_CARD_DEFALUT_ERROR) ;;
  on_params (fun p => set_esim_forceDisableProfile forceDisableProfile (set_esim_iccId iccId (set_esim_portIndex portIndex p))) ;;
  code_request isSwitchToProfileReady_ MSG_ESIM_SWITCH_PROFILE ProcessSwitchToProfile switchResult_ set_switchResult_.
Definition SetProfileNickname (iccId nickname : u16string) : E W Z :=
  assign (set_setNicknameResult_ RESULT_EUICC_CARD_DEFALUT_ERROR) ;;
  on_params (fun p => set_esim_nickname nickname (set_esim_iccId iccId p)) ;;
  code_request isSetNicknameReady_ MSG_ESIM_SET_NICK_NAME ProcessSetNickname setNicknameResult_ set_setNicknameResult_.
Definition ObtainEuiccInfo2 (portIndex : Z) : E W EuiccInfo2 :=
  let set_code code := assign (fun f => set_euiccInfo2Result_ (set_info2_resultCode_ code (euiccInfo2Result_ f)) f) in
  assign (set_euiccInfo2Result_ EuiccInfo2_new) ;;
  on_params (set_esim_portIndex portIndex) ;;
  e ← request isEuiccInfo2Ready_ MSG_ESIM_OBTAIN_EUICC_INFO2_DONE clear_received ProcessObtainEuiccInfo2;
  match e with
  | NotObtained resultFlag => set_code resultFlag
  | NotSent => set_code RESULT_EUICC_CARD_DATA_PROCESS_ERROR
  | TimedOut => set_code RESULT_EUICC_CARD_WAIT_TIMEOUT
  | Answered => mret tt
  end ;;
  member euiccInfo2Result_.
Definition GetContractInfo (getContractInfoRequest : GetContractInfoRequest) : E W cstring :=
  assign (set_getContractInfoResult_ []) ;;
  assign (set_getContractInfoRequest_ getContractInfoRequest) ;;
  request isGetContractInfoReady_ MSG_ESIM_GET_CONTRACT_INFO_DONE clear_received ProcessGetContractInfo ;;
  member getContractInfoResult_.
Definition GetEsimPortIndex : E W Z := param esim_portIndex.

(** ** Data of applications: the channel stays open *)

Definition SendApduData (aid : u16string) (apduData : EsimApduData) : E W ResponseEsimInnerResult :=
  let fail code :=
    assign (fun f => set_transApduDataResponse_ (set_inner_resultCode_ code (transApduDataResponse_ f)) f) ;;
    member transApduDataResponse_ in
  assign (set_transApduDataResponse_ ResponseEsimInnerResult_new) ;;
  if zlen aid =? 0 then fail RESULT_EUICC_CARD_CHANNEL_AID_EMPTY else
  if closeChannelFlag_ apduData then
    same ← IsSameAid aid;
    if (same : bool) then SyncCloseChannel ;; mret ResponseEsimInnerResult_new
    else fail RESULT_EUICC_CARD_CHANNEL_CLOSE_FAILED
  else
    on_params (set_esim_apduData apduData) ;;
    match BuildCallerInfo MSG_ESIM_SEND_APUD_DATA with
    | None => mret ResponseEsimInnerResult_new
    | Some eventSendApduData =>
        resultFlag ← ObtainChannelSuccessAllowSameAidReuse aid;
        if negb (resultFlag =? RESULT_EUICC_CARD_OK) then fail resultFlag else
        set_flag isSendApduDataReady_ false ;;
        sent ← ProcessSendApduData eventSendApduData;
        if negb sent then SyncCloseChannel ;; fail RESULT_EUICC_CARD_DATA_PROCESS_ERROR else
        answered ← wait_for isSendApduDataReady_;
        if negb answered then SyncCloseChannel ;; fail RESULT_EUICC_CARD_WAIT_TIMEOUT else
        member transApduDataResponse_
    end.

(** ** Operations with several commands *)

Fixpoint send_each (flag : Flag) (esimMessageId : Z) (cmds : list ApduCommand) : E W unit :=
  match cmds with
  | [] => mret tt
  | cmd :: cmds =>
      reqInfo ← CopyApdCmdToReqInfo cmd;
      match BuildCallerInfo esimMessageId with
      | None => mret tt
      | Some tmpResponseEvent =>
          telRilManager ← member telRilManager_;
          if negb telRilManager then mret tt else
          set_flag flag false ;;
          transmit reqInfo tmpResponseEvent ;;
          answered ← wait_for flag;
          if negb answered then mret tt else send_each flag esimMessageId cmds
      end
  end.
Definition SplitSendLongData (codec : RequestApduBuild) (esimMessageId : Z) (flag : Flag) : E W unit := send_each flag esimMessageId (GetCommands codec).1.
(** [ProcessPrepareDownload] and its likes. *)
Definition process_long (codec : E W (option RequestApduBuild)) (msg : Z) (flag : Flag) : E W bool :=
  given c := codec else mret false ;;
  SplitSendLongData c msg flag ;;
  mret true.
Definition ProcessPrepareDownload : E W bool := process_long prepare_download_codec MSG_ESIM_PREPARE_DOWNLOAD_DONE isPrepareDownloadReady_.
Definition ProcessLoadBoundProfilePackage : E W bool := process_long load_bpp_codec MSG_ESIM_LOAD_BOUND_PROFILE_PACKAGE isLoadBppReady_.
Definition ProcessAuthenticateServer : E W bool := process_long authenticate_server_codec MSG_ESIM_AUTHENTICATE_SERVER isAuthenticateServerReady_.
Definition long_response (process : E W bool) (get : esim_file -> ResponseEsimInnerResult) (set : ResponseEsimInnerResult -> esim_file -> esim_file) : E W ResponseEsimInnerResult :=
  let set_code code := assign (fun f => set (set_inner_resultCode_ code (get f)) f) in
  resultFlag ← ObtainChannelSuccessExclusive;
  if negb (resultFlag =? RESULT_EUICC_CARD_OK) then set_code resultFlag ;; member get else
  clear_received ;;
  sent ← process;
  SyncCloseChannel ;;
  (if negb sent then set_code RESULT_EUICC_CARD_DATA_PROCESS_ERROR else mret tt) ;;
  member get.
Definition ObtainPrepareDownload (c : DownLoadConfigInfo) : E W ResponseEsimInnerResult :=
  assign (set_preDownloadResult_ ResponseEsimInnerResult_new) ;;
  on_params (fun p => set_esim_smdpCertificate (smdpCertificate_ c) (set_esim_smdpSignature2 (smdpSignature2_ c) (set_esim_smdpSigned2 (smdpSigned2_ c)
    (set_esim_hashCc (hashCc_ c) (set_esim_portIndex (dl_portIndex_ c) p))))) ;;
  long_response ProcessPrepareDownload preDownloadResult_ set_preDownloadResult_.
Definition ObtainLoadBoundProfilePackage (portIndex : Z) (boundProfilePackage : u16string) : E W ResponseEsimBppResult :=
  let set_code code := assign (on_bpp (set_bpp_resultCode_ code)) in
  on_params (fun p => set_esim_boundProfilePackage boundProfilePackage (set_esim_portIndex portIndex p)) ;;
  resultFlag ← ObtainChannelSuccessExclusive;
  if negb (resultFlag =? RESULT_EUICC_CARD_OK) then set_code resultFlag ;; member loadBPPResult_ else
  assign (set_loadBPPResult_ ResponseEsimBppResult_new) ;;
  clear_received ;;
  sent ← ProcessLoadBoundProfilePackage;
  SyncCloseChannel ;;
  (if negb sent then set_code RESULT_EUICC_CARD_DATA_PROCESS_ERROR else mret tt) ;;
  member loadBPPResult_.
Definition AuthenticateServer (c : AuthenticateConfigInfo) : E W ResponseEsimInnerResult :=
  assign (set_responseAuthenticateResult_ ResponseEsimInnerResult_new) ;;
  on_params (fun p => set_esim_serverCertificate (serverCertificate_ c) (set_esim_euiccCiPkIdToBeUsed (euiccCiPkIdToBeUsed_ c)
    (set_esim_serverSignature1 (serverSignature1_ c) (set_esim_serverSigned1 (serverSigned1_ c) (set_esim_matchingId (matchingId_ c)
    (set_esim_portIndex (auth_portIndex_ c) p)))))) ;;
  imei ← platform (gets (GetImei SLOT_ID_1 []));
  on_params (set_esim_imei imei) ;;
  long_response ProcessAuthenticateServer responseAuthenticateResult_ set_responseAuthenticateResult_.
End Operations.
End EsimFile.
