(* ===== verification/EsimBench.v ===== *)
(** * The operations of an eSIM on concrete platforms

    [bench]: a modem that opens the channel, and a card whose answers are given in a list, with the moment when they arrive. [deaf]: a modem that opens and closes channels, and a card
    that never answers. Base64 is what [EVP_DecodeBlock] and [EVP_EncodeBlock] document. *)

From S2P Require Import Prelude CxxString Parcel Parcelables CoreServiceApi CoreManagers StrConvert Asn1Utils Asn1Node Asn1Builder Apdu EsimData EsimRequest EsimResponse EsimFile.
Open Scope Z_scope.
Open Scope esim_scope.
Import EsimFile.

Module EsimBench.
#[export] Instance errors : ErrorCodes := { COMMON_ERR_OFFSET := 0x7D00000; ERR_FLATTEN_OBJECT := 3 }.
#[export] Instance strings : Parcelables.StringEx := { Str8ToStr16 := fun s => code <$> s; Str16ToStr8 := fun l => chr <$> l }.

(** ** Base64 *)

Definition base64_chars : cstring := str "ABCDEFGHIJKLMNOPQRSTUVWXYZabcdefghijklmnopqrstuvwxyz0123456789+/".
Fixpoint index (c : ascii) (l : cstring) : option Z := match l with [] => None | d :: l => if Ascii.eqb c d then Some 0 else Z.succ <$> index c l end.
Definition sextet (c : ascii) : option Z := if Ascii.eqb c "="%char then Some 0 else index c base64_chars.
(** The padding is decoded as zeros. *)
Fixpoint decode_groups (s : cstring) : option (list Z) :=
  match s with
  | [] => Some []
  | a :: b :: c :: d :: s =>
      a ← sextet a; b ← sextet b; c ← sextet c; d ← sextet d;
      rest ← decode_groups s;
      Some (a * 4 + b / 16 :: b mod 16 * 16 + c / 4 :: c mod 4 * 64 + d :: rest)
  | _ => None
  end.
Definition decode_block (s : cstring) : Z * list Z := match decode_groups s with Some bytes => (zlen bytes, bytes) | None => (-1, []) end.
Definition char64 (v : Z) : ascii := nth (Z.to_nat v) base64_chars "A"%char.
Fixpoint encode_groups (bytes : list Z) : cstring :=
  match bytes with
  | [] => []
  | [x] => [char64 (x / 4); char64 (x mod 4 * 16); "="%char; "="%char]
  | [x; y] => [char64 (x / 4); char64 (x mod 4 * 16 + y / 16); char64 (y mod 16 * 4); "="%char]
  | x :: y :: z :: bytes => char64 (x / 4) :: char64 (x mod 4 * 16 + y / 16) :: char64 (y mod 16 * 4 + z / 64) :: char64 (z mod 64) :: encode_groups bytes
  end.
Definition encode_block (s : cstring) : Z * cstring := let out := encode_groups (code <$> s) in (zlen out, out).

(** ** The bench *)

Record bench : Type := MkBench { timing : moment; script : list IccFileData; inbox : list Event; sent : list ApduSimIORequestInfo }.
Definition deliver (e : Event) (b : bench) : bench := MkBench (timing b) (script b) (inbox b ++ [e]) (sent b).
(** The next answer of the script; the card does not answer when there is none. *)
Definition answer (event : Z) (b : bench) : bench :=
  match script b with
  | [] => b
  | d :: rest => MkBench (timing b) rest (inbox b ++ [MkEvent event (Response (Some d))]) (sent b)
  end.
Definition bench_arrived (m : moment) (b : bench) : option Event * bench :=
  match m, timing b, inbox b with
  | Overtaking, Waiting, _ | _, _, [] => (None, b)
  | _, _, e :: rest => (Some e, MkBench (timing b) (script b) rest (sent b))
  end.
#[export] Instance bench_platform : EsimPlatform bench := {
  SimOpenLogicalChannel slotId appId p2 event := deliver (MkEvent event (Opened (Some 1)));
  SimOpenLogicalChannelWithPort slotId appId p2 portIndex event := deliver (MkEvent event (Opened (Some 1)));
  SimCloseLogicalChannel slotId channelId event := deliver (MkEvent event Nothing);
  SimTransmitApduLogicalChannel slotId req event b := (0, answer event (MkBench (timing b) (script b) (inbox b) (sent b ++ [req])));
  arrived := bench_arrived;
  patience b := S (length (inbox b) + length (script b));
  GetBoolParameter _ d _ := d;
  GetParameter _ d _ _ := d;
  SetParameter _ _ b := b;
  GetSimId slotId _ := slotId + 1;
  GetImei _ imei _ := imei;
  EVP_DecodeBlock := decode_block;
  EVP_EncodeBlock := encode_block
}.
(** The object as it is created for a slot, with the modem. *)
Definition start (timing : moment) (script : list IccFileData) : esim bench := MkEsim (EsimFile_new true 0) (MkBench timing script [] []).

(** An EID. *)
Definition eid_answer : IccFileData := MkIccFileData 0x90 0 (str "BF3E125A1089049032123451234512345678901235").
Definition result_of {A} (r : outcome (A * esim bench)) : option A := match r with Ret (a, _) => Some a | _ => None end.
Definition object_of {A} (r : outcome (A * esim bench)) : option esim_file := match r with Ret (_, s) => Some (file s) | _ => None end.
Definition sent_by {A} (r : outcome (A * esim bench)) : list (Z * Z * Z * Z * Z * string) :=
  match r with Ret (_, s) => (fun q => (instruction q, req_p1 q, req_p2 q, req_p3 q, channelId q, string_of_list_ascii (data q))) <$> sent (world s) | _ => [] end.
Example eid_obtained :
  result_of (ObtainEid (start Waiting [eid_answer])) = Some (str "89049032123451234512345678901235") /\
  sent_by (ObtainEid (start Waiting [eid_answer])) = [(0xE2, 0x91, 0, 6, 1, "BF3E035C015A"%string)].
Proof. split; vm_compute; reflexivity. Qed.
(** An answer that is handled before the thread resets the flag is not noticed: the caller is told nothing, after the time has passed, although the EID is there. *)
Example eid_answer_overtakes :
  result_of (ObtainEid (start Overtaking [eid_answer])) = Some [] /\
  eid_ <$> object_of (ObtainEid (start Overtaking [eid_answer])) = Some (str "89049032123451234512345678901235").
Proof. split; vm_compute; reflexivity. Qed.
(** [SendApduData] resets it before it sends. *)
Definition some_apdu : EsimApduData := MkEsimApdu false false (code <$> str "80CA005A00") 0 0 0 0 0.
Example apdu_answer_overtakes :
  inner_response_ <$> result_of (SendApduData (code <$> str "A000") some_apdu (start Overtaking [MkIccFileData 0x90 0 (str "5A01")])) = Some (code <$> str "5A01").
Proof. vm_compute. reflexivity. Qed.
(** A notification that the card returns is stored in the list of [ListNotifications], not where [RetrieveNotificationList] looks for it. *)
Definition notifications_answer : IccFileData := MkIccFileData 0x90 0 (str "BF2B14A0123010BF2F0D8001070C04612E6263810204105A00").
Example retrieved_list_lost :
  let r := RetrieveNotificationList 0 0 (start Waiting [notifications_answer]) in
  result_of r = Some [] /\ (fun f => targetAddr_ <$> eUiccNotificationList_ f) <$> object_of r = Some [code <$> str "a.bc"].
Proof. split; vm_compute; reflexivity. Qed.

(** ** A card that does not answer *)

(** The events that are to come. *)
Inductive notice : Type := ChannelOpened | ChannelClosed (spare : bool).
Definition notice_event (n : notice) : Event :=
  match n with
  | ChannelOpened => MkEvent MSG_ESIM_OPEN_CHANNEL_DONE (Opened (Some 1))
  | ChannelClosed spare => MkEvent (if spare then MSG_ESIM_CLOSE_SPARE_CHANNEL_DONE else MSG_ESIM_CLOSE_CHANNEL_DONE) Nothing
  end.
Definition deaf : Type := list notice.
#[export] Instance deaf_platform : EsimPlatform deaf := {
  SimOpenLogicalChannel _ _ _ _ w := w ++ [ChannelOpened];
  SimOpenLogicalChannelWithPort _ _ _ _ _ w := w ++ [ChannelOpened];
  SimCloseLogicalChannel _ _ event w := w ++ [ChannelClosed (event =? MSG_ESIM_CLOSE_SPARE_CHANNEL_DONE)];
  SimTransmitApduLogicalChannel _ _ _ w := (0, w);
  arrived _ w := match w with [] => (None, w) | n :: w => (Some (notice_event n), w) end;
  patience _ := 5%nat;
  GetBoolParameter _ d _ := d;
  GetParameter _ d _ _ := d;
  SetParameter _ _ w := w;
  GetSimId slotId _ := slotId + 1;
  GetImei _ imei _ := imei;
  EVP_DecodeBlock := decode_block;
  EVP_EncodeBlock := encode_block
}.
End EsimBench.
