(* ===== verification/EsimChannel.v ===== *)
(** * The logical channel is released

    Every operation with one command obtains the logical channel for itself and gives it back, whatever the modem and the card answer, and whether they answer at all. *)

From S2P Require Import Prelude CxxString Parcel Parcelables CoreServiceApi CoreManagers StrConvert Asn1Utils Asn1Node Asn1Builder Apdu EsimData EsimRequest EsimResponse EsimFile EsimBench.
Open Scope Z_scope.
Open Scope esim_scope.
Import EsimFileRequest EsimFileDone EsimFile.

(** ** What the handlers leave alone *)

(** The parameters of the operation in progress, and whether its caller holds the channel. *)
Definition held (f : esim_file) : bool * EsimProfile * GetContractInfoRequest := (occupyChannelMutex_ f, esimProfile_ f, getContractInfoRequest_ f).

Section Keeps.
Context {W : Type} `{ErrorCodes} `{!EsimPlatform W} `{Parcelables.StringEx}.
Definition keeps {A} (m : E W A) : Prop := forall s a s', m s = Ret (a, s') -> held (file s') = held (file s).
Definition rkeeps {A} (m : reader esim_file A) : Prop := forall f root a f' root', m (f, root) = Ret (a, (f', root')) -> held f' = held f.

Lemma keeps_ret {A} (a : A) : keeps (mret a).
Proof. by intros s a' s' [= <- <-]. Qed.
Lemma keeps_bind {A B} (m : E W A) (k : A -> E W B) : keeps m -> (forall a, keeps (k a)) -> keeps (m ≫= k).
Proof.
  intros Hm Hk s b s'. unfold mbind, partial_bind. destruct (m s) as [[a s1]| |] eqn:E; [|done..]. intros Hb. rewrite (Hk _ _ _ _ Hb). by eapply Hm.
Qed.
Lemma keeps_member {A} (g : esim_file -> A) : keeps (member g).
Proof. by intros s a' s' [= <- <-]. Qed.
Lemma keeps_assign g : (forall f, held (g f) = held f) -> keeps (assign g : E W unit).
Proof. intros Hg s a' s' [= <- <-]. apply Hg. Qed.
Lemma keeps_platform {A} (m : stateful W A) : keeps (platform m).
Proof. intros s a s'. unfold platform, pure. destruct (m (world s)). by intros [= <- <-]. Qed.
Lemma keeps_lift {A} (o : outcome A) : keeps (lift o : E W A).
Proof. intros s a s'. unfold lift, attempt. destruct o; [|done..]. by intros [= <- <-]. Qed.
Lemma keeps_in_tree {A} root (m : reader esim_file A) : rkeeps m -> keeps (in_tree root m : E W A).
Proof. intros Hm s a s'. unfold in_tree. destruct (m (file s, root)) as [[a1 [f1 root1]]| |] eqn:E; [|done..]. intros [= <- <-]. by eapply Hm. Qed.

Lemma rkeeps_ret {A} (a : A) : rkeeps (mret a).
Proof. by intros f root a' f' root' [= <- <- <-]. Qed.
Lemma rkeeps_bind {A B} (m : reader esim_file A) (k : A -> reader esim_file B) : rkeeps m -> (forall a, rkeeps (k a)) -> rkeeps (m ≫= k).
Proof.
  intros Hm Hk f root b f' root'. unfold mbind, partial_bind. destruct (m (f, root)) as [[a [f1 root1]]| |] eqn:E; [|done..]. intros Hb.
  rewrite (Hk _ _ _ _ _ _ Hb). by eapply Hm.
Qed.
Lemma rkeeps_out g : (forall f, held (g f) = held f) -> rkeeps (out g).
Proof. intros Hg f root a' f' root' [= <- <- <-]. apply Hg. Qed.
Lemma rkeeps_throws {A} (o : outcome A) : rkeeps (throws o).
Proof. intros f root a f' root'. unfold throws, attempt. destruct o; [|done..]. by intros [= <- <- <-]. Qed.
Lemma rkeeps_the_node p : rkeeps (the_node p).
Proof. intros f root a f' root'. unfold the_node, attempt. destruct (the _); [|done..]. by intros [= <- <- <-]. Qed.
Lemma rkeeps_put_node p n : rkeeps (put_node p n).
Proof. by intros f root a f' root' [= <- <- <-]. Qed.
Lemma rkeeps_local {T A} (m : reader T A) (t : T) : rkeeps (local m t).
Proof. intros f root a f' root'. unfold local. destruct (m (t, root)) as [[? [??]]| |]; [|done..]. by intros [= <- <- <-]. Qed.
End Keeps.

Ltac head t := match t with ?f _ => head f | _ => t end.
Ltac keeps_step := first
  [ apply keeps_ret | apply keeps_member | apply keeps_platform | apply keeps_lift | (apply keeps_assign; intros; reflexivity) | apply keeps_in_tree
  | apply rkeeps_ret | apply rkeeps_throws | apply rkeeps_the_node | apply rkeeps_put_node | apply rkeeps_local | (apply rkeeps_out; intros; reflexivity)
  | (apply keeps_bind; [|intros]) | (apply rkeeps_bind; [|intros])
  | match goal with |- keeps (match ?x with _ => _ end) => destruct x end
  | match goal with |- rkeeps (match ?x with _ => _ end) => destruct x end
  | match goal with |- keeps (let _ := _ in _) => cbv zeta end
  | match goal with |- keeps ?m => let h := head m in unfold h end
  | match goal with |- rkeeps ?m => let h := head m in unfold h end ].

Section Handlers.
Context {W : Type} `{ErrorCodes} `{!EsimPlatform W} `{Parcelables.StringEx}.
Lemma rkeeps_add_profiles ps : rkeeps (add_profiles ps).
Proof. induction ps as [|p ps IH]; cbn [add_profiles]; repeat first [apply IH|keeps_step]. Qed.
Lemma rkeeps_add_carriers ps : rkeeps (add_carriers ps).
Proof. induction ps as [|p ps IH]; cbn [add_carriers]; repeat first [apply IH|keeps_step]. Qed.
Lemma rkeeps_add_rules ps ps' : rkeeps (add_rules ps ps').
Proof. revert ps'; induction ps as [|p ps IH]; intros ps'; cbn [add_rules]; repeat first [apply IH|apply rkeeps_add_carriers|keeps_step]. Qed.
Lemma rkeeps_notifications ps : rkeeps (notifications ps).
Proof. induction ps as [|p ps IH]; cbn [notifications]; repeat first [apply IH|keeps_step]. Qed.
Lemma rkeeps_auth_answer code resp : rkeeps (auth_answer code resp).
Proof.
  intros f root a f' root'. unfold auth_answer. destruct (CovertAuthToApiStruct _ _ _) as [r| |]; [|done..]. cbn. by intros [= <- <- <-].
Qed.
Ltac handler := repeat first [apply rkeeps_add_profiles|apply rkeeps_add_rules|apply rkeeps_notifications|apply rkeeps_auth_answer|keeps_step].

Lemma keeps_send_request ok b r : keeps (send_request ok b r).
Proof. handler. Qed.
(** A handler that holds the channel for a moment. *)
Lemma keeps_locked {A} (m : E W unit) (b : A) s a s' : keeps m -> occupyChannelMutex_ (file s) = false ->
  (lock_channel ;; m ;; unlock_channel ;; mret b) s = Ret (a, s') -> held (file s') = held (file s).
Proof.
  intros Hm Ho. unfold lock_channel, unlock_channel, assign, pure, modifies, mbind, partial_bind. destruct (m _) as [[[] s1]| |] eqn:E; [|done..].
  apply Hm in E. cbn in *. intros [= <- <-]. unfold held in *. cbn in *. congruence.
Qed.
Lemma keeps_opened e : keeps (ProcessEsimOpenChannelDone e).
Proof.
  destruct e as [[id [[c|]| | ]]|]; try apply keeps_ret. unfold ProcessEsimOpenChannelDone. destruct (c <=? 0); [apply keeps_ret|].
  apply keeps_bind; [by apply keeps_assign|]. intros _ s a s'. unfold member, pure, gets, mbind at 1, partial_bind at 1. destruct (occupyChannelMutex_ (file s)) eqn:Eo; cbn [negb].
  - apply keeps_ret.
  - apply keeps_locked; [|done]. handler.
Qed.
Lemma keeps_handlers : Forall (fun '(_, func) => forall e, keeps (func e)) memberFuncMap_.
Proof.
  unfold memberFuncMap_. apply Forall_cons_2; [exact keeps_opened|]. repeat (apply Forall_cons_2; [intros e; handler|]). apply Forall_nil_2.
Qed.
Lemma keeps_find id (funcs : list (Z * (option Event -> E W bool))) func : Forall (fun '(_, func) => forall e, keeps (func e)) funcs -> find_func id funcs = Some func -> forall e, keeps (func e).
Proof. induction 1 as [|[i f] funcs Hf _ IH]; cbn; [done|]. destruct (i =? id); [by intros [= <-]|done]. Qed.
(** No event changes them. *)
Lemma keeps_ProcessEvent e : keeps (ProcessEvent e).
Proof.
  destruct e as [e|]; [|apply keeps_ret]. cbn [ProcessEvent]. destruct (find_func _ _) as [func|] eqn:E; [|apply keeps_ret].
  apply keeps_bind; [|intros; apply keeps_ret]. eapply keeps_find; [exact keeps_handlers|done].
Qed.
End Handlers.

(** ** What code ends with *)

Section Ends.
Context {W : Type}.
(** From the object [f] and the world [w], the code returns, with a result, an object and a world that are in [Q]. *)
Definition ends {A} (m : E W A) (f : esim_file) (w : W) (Q : A -> esim_file -> W -> Prop) : Prop :=
  exists a f' w', m (MkEsim f w) = Ret (a, MkEsim f' w') /\ Q a f' w'.
Lemma op_ends_ret {A} (a : A) f w (Q : A -> esim_file -> W -> Prop) : Q a f w -> ends (mret a) f w Q.
Proof. intros HQ. by exists a, f, w. Qed.
Lemma op_ends_bind {A B} (m : E W A) (k : A -> E W B) f w Q : ends m f w (fun a f' w' => ends (k a) f' w' Q) -> ends (m ≫= k) f w Q.
Proof. intros (a & f1 & w1 & E & b & f2 & w2 & E2 & HQ). exists b, f2, w2. split; [|done]. unfold mbind, partial_bind. by rewrite E. Qed.
Lemma op_ends_mono {A} (m : E W A) f w (P Q : A -> esim_file -> W -> Prop) : ends m f w P -> (forall a f' w', P a f' w' -> Q a f' w') -> ends m f w Q.
Proof. intros (a & f1 & w1 & E & HP) HPQ. exists a, f1, w1. auto. Qed.
Lemma ends_member {A} (g : esim_file -> A) f w (Q : A -> esim_file -> W -> Prop) : Q (g f) f w -> ends (member g) f w Q.
Proof. intros HQ. by exists (g f), f, w. Qed.
Lemma ends_assign g f w (Q : unit -> esim_file -> W -> Prop) : Q tt (g f) w -> ends (assign g) f w Q.
Proof. intros HQ. by exists tt, (g f), w. Qed.
Lemma ends_platform {A} (m : stateful W A) f w (Q : A -> esim_file -> W -> Prop) : (forall a w', m w = (a, w') -> Q a f w') -> ends (platform m) f w Q.
Proof. intros HQ. destruct (m w) as [a w'] eqn:E. exists a, f, w'. split; [|by apply HQ]. unfold platform, pure. cbn. by rewrite E. Qed.
Lemma ends_lift {A} (o : outcome A) a f w (Q : A -> esim_file -> W -> Prop) : o = Ret a -> Q a f w -> ends (lift o) f w Q.
Proof. intros -> HQ. by exists a, f, w. Qed.
End Ends.

(** ** Sending returns *)

Lemma BytesToHexStr_short bs : zlen (BytesToHexStr bs) <= 2 * MAX_BPP_LENGTH.
Proof.
  unfold BytesToHexStr. destruct (Z.ltb_spec MAX_BPP_LENGTH (zlen bs)) as [|Hl]; [done|]. cut (zlen (bs ≫= fun b => put_hex BYTE_TO_HEX_LEN (Z.land b MAX_UINT8)) = 2 * zlen bs); [lia|].
  clear Hl. induction bs as [|b bs IH]; [done|]. rewrite bind_cons, zlen_app, IH, zlen_cons.
  assert (is_u8 (Z.land b MAX_UINT8)) as Hb. { change MAX_UINT8 with (Z.ones 8). rewrite Z.land_ones by lia. apply Z.mod_pos_bound. lia. }
  set (c := Z.land b MAX_UINT8) in *. rewrite <- (land_u8 c Hb), put_hex_byte by done. change (zlen (hex_upper <$> nibbles c)) with 2. lia.
Qed.
Lemma builder_hex_short b n hexStr b' : Asn1BuilderToHexStr b = (n, Some hexStr, b') -> zlen hexStr < 2 ^ 31.
Proof.
  unfold Asn1BuilderToHexStr. destruct (Asn1Build b) as [[node|] b1]; [|done]. unfold Asn1NodeToHexStr. destruct (Asn1NodeToBytes node) as [? bytes].
  intros [= <- <- <-]. pose proof (BytesToHexStr_short bytes). unfold MAX_BPP_LENGTH in *. lia.
Qed.

(** A channel, and who has it. *)
Definition channel_state (f : esim_file) : Z * u16string * (bool * EsimProfile * GetContractInfoRequest) := (currentChannelId_ f, aidStr_ f, held f).

Section Send.
Context {W : Type} `{ErrorCodes} `{!EsimPlatform W} `{Parcelables.StringEx}.
(** Code that returns and leaves the channel as it is. *)
Definition quiet {A} (m : E W A) (f : esim_file) : Prop := forall f0 w, channel_state f0 = channel_state f -> ends m f0 w (fun _ f' _ => channel_state f' = channel_state f).
Lemma quiet_ret {A} (a : A) f : quiet (mret a) f.
Proof. intros f0 w Hf. by apply op_ends_ret. Qed.
Lemma quiet_bind {A B} (m : E W A) (k : A -> E W B) f : quiet m f -> (forall a, quiet (k a) f) -> quiet (m ≫= k) f.
Proof. intros Hm Hk f0 w Hf. apply op_ends_bind. eapply op_ends_mono; [by apply Hm|]. intros a f1 w1 Hf1. by apply Hk. Qed.
Lemma quiet_member {A} (g : esim_file -> A) f : quiet (member g) f.
Proof. intros f0 w Hf. by apply ends_member. Qed.
Lemma quiet_param {A B} (g : EsimProfile -> A) (k : A -> E W B) f : quiet (k (g (esimProfile_ f))) f -> quiet (param g ≫= k) f.
Proof. intros Hk f0 w Hf. apply op_ends_bind, ends_member. assert (esimProfile_ f0 = esimProfile_ f) as -> by (by injection Hf). by apply Hk. Qed.
Lemma quiet_contract {B} (k : GetContractInfoRequest -> E W B) f : quiet (k (getContractInfoRequest_ f)) f -> quiet (member getContractInfoRequest_ ≫= k) f.
Proof. intros Hk f0 w Hf. apply op_ends_bind, ends_member. assert (getContractInfoRequest_ f0 = getContractInfoRequest_ f) as -> by (by injection Hf). by apply Hk. Qed.
Lemma quiet_assign g f : (forall f0, channel_state (g f0) = channel_state f0) -> quiet (assign g : E W unit) f.
Proof. intros Hg f0 w Hf. apply ends_assign. by rewrite Hg. Qed.
Lemma quiet_platform {A} (m : stateful W A) f : quiet (platform m) f.
Proof. intros f0 w Hf. by apply ends_platform. Qed.
Lemma quiet_lift {A} (o : outcome A) a f : o = Ret a -> quiet (lift o : E W A) f.
Proof. intros -> f0 w Hf. by apply (ends_lift _ a). Qed.
Lemma quiet_store hexStr codec f : zlen hexStr < 2 ^ 31 -> quiet (BuildStoreData_ hexStr codec : E W _) f.
Proof. intros Hl. destruct (store_data_chain hexStr codec Hl) as (? & ? & E & _). eapply quiet_lift, E. Qed.
Lemma quiet_build info b f : quiet (CommBuildOneApduReqInfo info b : E W _) f.
Proof.
  unfold CommBuildOneApduReqInfo. destruct (Asn1BuilderToHexStr b) as [[n [hexStr|]] b'] eqn:E; destruct n; try apply quiet_ret;
  (apply quiet_bind; [unfold new_codec; apply quiet_bind; [apply quiet_member|intros; apply quiet_ret]|intros codec]; apply quiet_bind; [apply quiet_store; by eapply builder_hex_short|]; intros codec';
   destruct (GetCommands codec').1; [apply quiet_ret|]; unfold CopyApdCmdToReqInfo; apply quiet_bind; [apply quiet_member|]; intros; apply quiet_bind; [by apply quiet_assign|intros; apply quiet_ret]).
Qed.
Lemma quiet_send ok b r f : quiet (send_request ok b r : E W bool) f.
Proof.
  unfold send_request, transmit. apply quiet_bind; [apply quiet_build|intros info]. apply quiet_bind; [apply quiet_member|]. intros [|]; [|apply quiet_ret]. cbn [negb].
  apply quiet_bind; [apply quiet_bind; [apply quiet_member|intros; apply quiet_platform]|intros; apply quiet_ret].
Qed.
End Send.

(** ** Requests that can be sent *)

Definition converts (w : u16string) : Prop := exists s, ToUtf8 w = Ret s.
Section Requests.
Context {W : Type} `{ErrorCodes} `{!EsimPlatform W} `{Parcelables.StringEx}.
Implicit Types (f : esim_file) (r : Z).
Lemma quiet_utf8 w f : converts w -> quiet (lift (ToUtf8 w) : E W _) f.
Proof. intros [s Hs]. by eapply quiet_lift. Qed.
Lemma quiet_bcd w f : converts w -> quiet (bcd_of w : E W _) f.
Proof. intros Hw. apply quiet_bind; [by apply quiet_utf8|intros; apply quiet_ret]. Qed.
Lemma quiet_if_open (m : E W bool) f : quiet m f -> quiet (if_open m) f.
Proof. intros Hm. apply quiet_bind; [apply quiet_bind; [apply quiet_member|intros; apply quiet_ret]|]. by intros [|]; [|apply quiet_ret]. Qed.
Ltac quiet_step := lazymatch goal with
  | |- quiet (mret _) _ => apply quiet_ret
  | |- quiet (send_request _ _ _) _ => apply quiet_send
  | |- quiet (platform _) _ => apply quiet_platform
  | |- quiet (if_open _) _ => apply quiet_if_open
  | |- quiet (bcd_of _) _ => apply quiet_bcd; assumption
  | |- quiet (lift (ToUtf8 _)) _ => apply quiet_utf8; assumption
  | |- quiet (mbind _ (param _)) _ => apply quiet_param; cbv beta
  | |- quiet (mbind _ (member getContractInfoRequest_)) _ => apply quiet_contract; cbv beta
  | |- quiet (mbind _ _) _ => apply quiet_bind; [|intros ?; cbv beta]
  | |- quiet (match ?x with _ => _ end) _ => destruct x
  | |- quiet ?m _ => let h := head m in unfold h
  end.
Ltac sending := repeat quiet_step.

Lemma sends_ObtainEid r f : quiet (ProcessObtainEid r) f.
Proof. sending. Qed.
Lemma sends_ObtainEuiccInfo1 r f : quiet (ProcessObtainEuiccInfo1 r) f.
Proof. sending. Qed.
Lemma sends_RequestAllProfiles r f : quiet (ProcessRequestAllProfiles r) f.
Proof. sending. Qed.
Lemma sends_DisableProfile r f : converts (esim_iccId (esimProfile_ f)) -> quiet (ProcessDisableProfile r) f.
Proof. intros. sending. Qed.
Lemma sends_ObtainSmdsAddress r f : quiet (ProcessObtainSmdsAddress r) f.
Proof. sending. Qed.
Lemma sends_RequestRulesAuthTable r f : quiet (ProcessRequestRulesAuthTable r) f.
Proof. sending. Qed.
Lemma sends_ObtainEuiccChallenge r f : quiet (ProcessObtainEuiccChallenge r) f.
Proof. sending. Qed.
Lemma sends_ObtainDefaultSmdpAddress r f : quiet (ProcessObtainDefaultSmdpAddress r) f.
Proof. sending. Qed.
Lemma sends_GetProfile r f : converts (esim_iccId (esimProfile_ f)) -> quiet (ProcessGetProfile r) f.
Proof. intros. sending. Qed.
Lemma sends_CancelSession r f : quiet (ProcessCancelSession r) f.
Proof. sending. Qed.
Lemma sends_EstablishDefaultSmdpAddress r f : converts (esim_defaultSmdpAddress (esimProfile_ f)) -> quiet (ProcessEstablishDefaultSmdpAddress r) f.
Proof. intros. sending. Qed.
Lemma sends_ResetMemory r f : quiet (ProcessResetMemory r) f.
Proof. sending. Qed.
Lemma sends_ListNotifications events r f : quiet (ProcessListNotifications events r) f.
Proof. sending. Qed.
Lemma sends_RetrieveNotificationList events r f : quiet (ProcessRetrieveNotificationList events r) f.
Proof. sending. Qed.
Lemma sends_RetrieveNotification r f : quiet (ProcessRetrieveNotification r) f.
Proof. sending. Qed.
Lemma sends_RemoveNotification r f : quiet (ProcessRemoveNotification r) f.
Proof. sending. Qed.
Lemma sends_DeleteProfile r f : converts (esim_iccId (esimProfile_ f)) -> quiet (ProcessDeleteProfile r) f.
Proof. intros. sending. Qed.
Lemma sends_SetNickname r f : converts (esim_iccId (esimProfile_ f)) -> converts (esim_nickname (esimProfile_ f)) -> quiet (ProcessSetNickname r) f.
Proof. intros. sending. Qed.
Lemma sends_SwitchToProfile r f : converts (esim_iccId (esimProfile_ f)) -> quiet (ProcessSwitchToProfile r) f.
Proof. intros. sending. Qed.
Lemma sends_ObtainEuiccInfo2 r f : quiet (ProcessObtainEuiccInfo2 r) f.
Proof. sending. Qed.
Definition contract_texts (c : GetContractInfoRequest) : list u16string :=
  [contract_euiccCiPkidToBeUsed c; contract_nonce c; contract_imei c; contract_imei2 c; contract_timestamp c; contract_ePkPosHpke c].
Lemma sends_GetContractInfo r f : Forall converts (contract_texts (getContractInfoRequest_ f)) -> quiet (ProcessGetContractInfo r) f.
Proof. unfold contract_texts. rewrite !Forall_cons. intros (? & ? & ? & ? & ? & ? & _). sending. Qed.
End Requests.

(** ** The exchange *)

(** An event that the handlers get over, whatever the object's state; they do not when a text of the card is not UTF-8, for example. *)
Definition tolerated {W : Type} `{ErrorCodes} `{!EsimPlatform W} `{Parcelables.StringEx} (e : Event) : Prop := forall s : esim W, exists s', ProcessEvent (Some e) s = Ret (tt, s').
(** The channel is free afterwards. A channel that was in use before, by an application, stays as it was. *)
Definition released (f f' : esim_file) : Prop :=
  occupyChannelMutex_ f' = false /\
  if 0 <? currentChannelId_ f then currentChannelId_ f' = currentChannelId_ f /\ aidStr_ f' = aidStr_ f else currentChannelId_ f' <= 0.

Section Exchange.
Context {W : Type} `{ErrorCodes} `{!EsimPlatform W} `{Parcelables.StringEx}.
Context (Htolerated : forall m (w : W) e w', arrived m w = (Some e, w') -> tolerated e).
Implicit Types (f : esim_file) (w : W).
Lemma ends_handle n m f w : ends (handle n m) f w (fun _ f' _ => held f' = held f).
Proof.
  revert f w; induction n as [|n IH]; intros f w; cbn [handle]; [by apply op_ends_ret|]. apply op_ends_bind, ends_platform. intros [e|] w1 Ha; [|by apply op_ends_ret].
  destruct (Htolerated _ _ _ _ Ha (MkEsim f w1)) as [[f2 w2] E]. apply op_ends_bind. exists tt, f2, w2. split; [done|].
  pose proof (keeps_ProcessEvent (Some e) _ _ _ E) as Hk. cbn in Hk. eapply op_ends_mono; [apply IH|]. intros ? f' w' Hf. cbn beta in Hf. congruence.
Qed.
Lemma ends_arrivals m f w : ends (arrivals m) f w (fun _ f' _ => held f' = held f).
Proof. apply op_ends_bind, ends_platform. intros n w' _. apply ends_handle. Qed.
Lemma ends_wait_for flag f w : ends (wait_for flag) f w (fun _ f' _ => held f' = held f).
Proof. apply op_ends_bind. eapply op_ends_mono; [apply ends_arrivals|]. intros ? f' w' Hf; cbn beta in Hf. by apply ends_member. Qed.
Lemma ISDR_converts : exists aid, ToUtf16 ISDR_AID = Ret aid /\ ToUtf8 aid = Ret ISDR_AID.
Proof.
  assert (ascii_only ISDR_AID) as Ha by (apply (bool_decide_unpack _); vm_compute; exact I).
  exists (code <$> ISDR_AID). split; [by apply ToUtf16_ascii|by apply ToUtf8_ascii].
Qed.
Lemma ends_open aid s f w : ToUtf8 aid = Ret s -> ends (ProcessEsimOpenChannel aid) f w (fun _ f' _ => f' = f).
Proof.
  intros Ha. apply op_ends_bind. eapply ends_lift; [done|]. apply op_ends_bind, ends_platform. intros b w1 _. cbn [BuildCallerInfo].
  apply op_ends_bind, ends_member. destruct (telRilManager_ f); [|by apply op_ends_ret]. cbn [negb]. apply op_ends_bind, ends_member. destruct b; cbn [negb]; by apply ends_platform.
Qed.
Lemma ends_close f w : ends (ProcessEsimCloseChannel) f w (fun _ f' _ => f' = f).
Proof.
  apply op_ends_bind, ends_member. destruct (telRilManager_ f); [|by apply op_ends_ret]. cbn [negb]. apply op_ends_bind, ends_member. apply op_ends_bind, ends_member. by apply ends_platform.
Qed.
Lemma held_occupied f f' b : held f' = held (set_occupyChannelMutex_ b f) -> held (set_occupyChannelMutex_ (occupyChannelMutex_ f) f') = held f.
Proof. unfold held. cbn. congruence. Qed.
(** The channel is obtained, or it was in use, or it could not be opened. *)
Lemma ends_obtain f w : occupyChannelMutex_ f = false -> ends ObtainChannelSuccessExclusive f w (fun r f' _ => held f' = held f /\
  if r =? RESULT_EUICC_CARD_OK then currentChannelId_ f <= 0 else released f f').
Proof.
  intros Ho. destruct ISDR_converts as (aid & Haid & Haid'). apply op_ends_bind. eapply ends_lift; [exact Haid|]. unfold lock_channel, unlock_channel. apply op_ends_bind, ends_assign. unfold IsLogicChannelOpen.
  apply op_ends_bind, op_ends_bind, ends_member, op_ends_ret. cbn [currentChannelId_ set_occupyChannelMutex_]. destruct (0 <? currentChannelId_ f) eqn:Ec.
  - apply op_ends_bind, ends_assign, op_ends_ret. change (RESULT_EUICC_CARD_CHANNEL_IN_USE =? RESULT_EUICC_CARD_OK) with false. unfold released, held. cbn. rewrite Ec, Ho. done.
  - apply op_ends_bind. eapply op_ends_mono; [by eapply ends_open|]. intros ? f1 w1 ->. apply op_ends_bind. eapply op_ends_mono; [apply ends_arrivals|]. intros ? f2 w2 Hf2; cbn beta in Hf2.
    apply op_ends_bind, op_ends_bind, ends_member, op_ends_ret. apply held_occupied in Hf2. rewrite Ho in Hf2. destruct (0 <? currentChannelId_ f2) eqn:Ec2.
    + apply op_ends_bind, ends_assign, op_ends_bind, ends_assign, op_ends_ret. rewrite Z.eqb_refl. split; [|lia]. by rewrite <- Hf2.
    + apply op_ends_bind, ends_assign, op_ends_ret. change (RESULT_EUICC_CARD_CHANNEL_OPEN_FAILED =? RESULT_EUICC_CARD_OK) with false. split; [done|].
      unfold released. cbn. rewrite Ec. split; [done|lia].
Qed.
Lemma ends_close_loop n f w : ends (close_loop n) f w (fun _ f' _ => held f' = held f).
Proof.
  revert f w; induction n as [|n IH]; intros f w; cbn [close_loop]; [by apply op_ends_ret|]. unfold IsLogicChannelOpen. apply op_ends_bind, op_ends_bind, ends_member, op_ends_ret.
  destruct (0 <? currentChannelId_ f); cbn [negb]; [|by apply op_ends_ret]. apply op_ends_bind. eapply op_ends_mono; [apply ends_close|]. intros ? f1 w1 ->.
  apply op_ends_bind. eapply op_ends_mono; [apply ends_arrivals|]. intros ? f2 w2 Hf2; cbn beta in Hf2. apply op_ends_bind, op_ends_bind, ends_member, op_ends_ret. destruct (0 <? currentChannelId_ f2); cbn [negb]; [|by apply op_ends_ret].
  eapply op_ends_mono; [apply IH|]. intros ? f3 w3 Hf3; cbn beta in Hf3. congruence.
Qed.
Lemma ends_sync_close f w : ends SyncCloseChannel f w (fun _ f' _ => occupyChannelMutex_ f' = false /\ currentChannelId_ f' = 0).
Proof.
  apply op_ends_bind, ends_assign, op_ends_bind. eapply op_ends_mono; [apply ends_close_loop|]. intros ? f1 w1 Hf1; cbn beta in Hf1. do 2 apply op_ends_bind, ends_assign. by apply ends_assign.
Qed.
Lemma ends_request flag msg prepare process f w : occupyChannelMutex_ f = false ->
  (forall f1, quiet prepare f1) -> (forall f1 r, held f1 = held f -> quiet (process r) f1) ->
  ends (request flag msg prepare process) f w (fun _ f' _ => released f f').
Proof.
  intros Ho Hprep Hproc. apply op_ends_bind. eapply op_ends_mono; [by apply ends_obtain|]. intros r f1 w1 [Hf1 Hr]. destruct (r =? RESULT_EUICC_CARD_OK); cbn [negb]; [|by apply op_ends_ret].
  assert (forall f2, occupyChannelMutex_ f2 = false /\ currentChannelId_ f2 = 0 -> released f f2) as Hrel.
  { intros f2 [Ho2 Hc2]. unfold released. destruct (Z.ltb_spec 0 (currentChannelId_ f)); [lia|]. split; [done|lia]. }
  apply op_ends_bind. eapply op_ends_mono; [by apply Hprep|]. intros ? f2 w2 Hf2; cbn beta in Hf2. cbn [BuildCallerInfo]. apply op_ends_bind. eapply op_ends_mono; [apply (Hproc f1); [done|exact Hf2]|].
  intros [|] f3 w3 Hf3; cbn [negb].
  - apply op_ends_bind. eapply op_ends_mono; [apply ends_arrivals|]. intros ? f4 w4 _. apply op_ends_bind, ends_assign, op_ends_bind. eapply op_ends_mono; [apply ends_wait_for|]. intros answered f5 w5 ?.
    apply op_ends_bind. eapply op_ends_mono; [apply ends_sync_close|]. intros ? f6 w6 Hf6; cbn beta in Hf6. apply op_ends_ret. auto.
  - apply op_ends_bind. eapply op_ends_mono; [apply ends_sync_close|]. intros ? f6 w6 Hf6; cbn beta in Hf6. apply op_ends_ret. auto.
Qed.
End Exchange.

(** ** The operations *)

(** The operations with one command, and their arguments. *)
Inductive operation : Type :=
| OpObtainEid
| OpGetEuiccProfileInfoList
| OpGetEuiccInfo
| OpDisableProfile (portIndex : Z) (iccId : u16string)
| OpObtainSmdsAddress (portIndex : Z)
| OpObtainRulesAuthTable (portIndex : Z)
| OpObtainEuiccChallenge (portIndex : Z)
| OpObtainDefaultSmdpAddress
| OpCancelSession (transactionId : u16string) (cancelReason : Z)
| OpObtainProfile (portIndex : Z) (iccId : u16string)
| OpResetMemory (resetOption : Z)
| OpSetDefaultSmdpAddress (defaultSmdpAddress : u16string)
| OpListNotifications (portIndex events : Z)
| OpRetrieveNotificationList (portIndex events : Z)
| OpObtainRetrieveNotification (portIndex seqNumber : Z)
| OpRemoveNotificationFromList (portIndex seqNumber : Z)
| OpDeleteProfile (iccId : u16string)
| OpSwitchToProfile (portIndex : Z) (iccId : u16string) (forceDisableProfile : bool)
| OpSetProfileNickname (iccId nickname : u16string)
| OpObtainEuiccInfo2 (portIndex : Z)
| OpGetContractInfo (getContractInfoRequest : GetContractInfoRequest).
(** The texts that are converted to UTF-8. *)
Definition texts (op : operation) : list u16string :=
  match op with
  | OpDisableProfile _ iccId | OpObtainProfile _ iccId | OpDeleteProfile iccId | OpSwitchToProfile _ iccId _ => [iccId]
  | OpSetDefaultSmdpAddress address => [address]
  | OpSetProfileNickname iccId nickname => [iccId; nickname]
  | OpGetContractInfo c => contract_texts c
  | _ => []
  end.
Section Operations.
Context {W : Type} `{ErrorCodes} `{!EsimPlatform W} `{Parcelables.StringEx}.
Definition perform (op : operation) : E W unit :=
  match op with
  | OpObtainEid => ObtainEid ;; mret tt
  | OpGetEuiccProfileInfoList => GetEuiccProfileInfoList ;; mret tt
  | OpGetEuiccInfo => GetEuiccInfo ;; mret tt
  | OpDisableProfile portIndex iccId => DisableProfile portIndex iccId ;; mret tt
  | OpObtainSmdsAddress portIndex => ObtainSmdsAddress portIndex ;; mret tt
  | OpObtainRulesAuthTable portIndex => ObtainRulesAuthTable portIndex ;; mret tt
  | OpObtainEuiccChallenge portIndex => ObtainEuiccChallenge portIndex ;; mret tt
  | OpObtainDefaultSmdpAddress => ObtainDefaultSmdpAddress ;; mret tt
  | OpCancelSession transactionId cancelReason => CancelSession transactionId cancelReason ;; mret tt
  | OpObtainProfile portIndex iccId => ObtainProfile portIndex iccId ;; mret tt
  | OpResetMemory resetOption => ResetMemory resetOption ;; mret tt
  | OpSetDefaultSmdpAddress defaultSmdpAddress => SetDefaultSmdpAddress defaultSmdpAddress ;; mret tt
  | OpListNotifications portIndex events => ListNotifications portIndex events ;; mret tt
  | OpRetrieveNotificationList portIndex events => RetrieveNotificationList portIndex events ;; mret tt
  | OpObtainRetrieveNotification portIndex seqNumber => ObtainRetrieveNotification portIndex seqNumber ;; mret tt
  | OpRemoveNotificationFromList portIndex seqNumber => RemoveNotificationFromList portIndex seqNumber ;; mret tt
  | OpDeleteProfile iccId => DeleteProfile iccId ;; mret tt
  | OpSwitchToProfile portIndex iccId forceDisableProfile => SwitchToProfile portIndex iccId forceDisableProfile ;; mret tt
  | OpSetProfileNickname iccId nickname => SetProfileNickname iccId nickname ;; mret tt
  | OpObtainEuiccInfo2 portIndex => ObtainEuiccInfo2 portIndex ;; mret tt
  | OpGetContractInfo getContractInfoRequest => GetContractInfo getContractInfoRequest ;; mret tt
  end.

Context (Htolerated : forall m (w : W) e w', arrived m w = (Some e, w') -> tolerated e).
Implicit Types (f : esim_file) (w : W).
Definition chan f : Z * u16string * bool := (currentChannelId_ f, aidStr_ f, occupyChannelMutex_ f).
Lemma released_same f f1 f2 : released f f1 -> chan f2 = chan f1 -> released f f2.
Proof. unfold released, chan. intros [Ho Hc] [= -> -> ->]. by split. Qed.
Lemma released_from f0 f1 f : chan f1 = chan f0 -> released f1 f -> released f0 f.
Proof. unfold released, chan. intros [= -> -> _]. done. Qed.
(** Code after the exchange that leaves the channel alone. *)
Definition tail {A} (m : E W A) : Prop := forall f w, ends m f w (fun _ f' _ => chan f' = chan f).
Lemma tail_ret {A} (a : A) : tail (mret a).
Proof. intros f w. by apply op_ends_ret. Qed.
Lemma tail_bind {A B} (m : E W A) (k : A -> E W B) : tail m -> (forall a, tail (k a)) -> tail (m ≫= k).
Proof. intros Hm Hk f w. apply op_ends_bind. eapply op_ends_mono; [apply Hm|]. intros a f1 w1 Hf1. eapply op_ends_mono; [apply Hk|]. intros ? f2 w2 Hf2. cbn beta in *. congruence. Qed.
Lemma tail_member {A} (g : esim_file -> A) : tail (member g).
Proof. intros f w. by apply ends_member. Qed.
Lemma tail_assign g : (forall f, chan (g f) = chan f) -> tail (assign g : E W unit).
Proof. intros Hg f w. by apply ends_assign. Qed.
Lemma tail_platform {A} (m : stateful W A) : tail (platform m).
Proof. intros f w. by apply ends_platform. Qed.
Lemma request_then {A} flag msg prepare process (k : ending -> E W A) f0 f w : chan f = chan f0 -> occupyChannelMutex_ f0 = false ->
  (forall f1, quiet prepare f1) -> (forall f1 r, held f1 = held f -> quiet (process r) f1) -> (forall e, tail (k e)) ->
  ends (request flag msg prepare process ≫= k) f w (fun _ f' _ => released f0 f').
Proof.
  intros Hf Ho Hprep Hproc Hk. assert (occupyChannelMutex_ f = false) by (unfold chan in Hf; congruence).
  apply op_ends_bind. eapply op_ends_mono; [by apply (ends_request Htolerated)|]. intros e f1 w1 Hf1. cbn beta in Hf1.
  eapply op_ends_mono; [apply Hk|]. intros ? f2 w2 Hf2. cbn beta in Hf2. eapply released_from; [done|]. by eapply released_same.
Qed.
Lemma released_refl f : occupyChannelMutex_ f = false -> released f f.
Proof. intros Ho. unfold released. split; [done|]. destruct (Z.ltb_spec 0 (currentChannelId_ f)); [done|lia]. Qed.
Lemma ends_tail {A B} (m : E W A) (k : A -> E W B) f0 f w : ends m f w (fun _ f' _ => released f0 f') -> (forall a, tail (k a)) -> ends (m ≫= k) f w (fun _ f' _ => released f0 f').
Proof. intros Hm Hk. apply op_ends_bind. eapply op_ends_mono; [done|]. intros a f1 w1 Hf1. eapply op_ends_mono; [apply Hk|]. intros ? f2 w2 Hf2. cbn beta in *. by eapply released_same. Qed.
Lemma ends_last_profile slot key f w : ends (last_profile slot key) f w (fun _ f' _ => f' = f).
Proof.
  apply op_ends_bind, ends_member. destruct (slotId_ f =? slot); [|by apply op_ends_ret]. apply op_ends_bind, ends_platform. intros simId w1 _. by apply ends_platform.
Qed.
Lemma quiet_nothing f : quiet (nothing : E W unit) f.
Proof. apply quiet_ret. Qed.
Lemma quiet_clear f : quiet (clear_received : E W unit) f.
Proof. by apply quiet_assign. Qed.
End Operations.
Ltac tail_step := lazymatch goal with
  | |- tail (mret _) => apply tail_ret
  | |- tail (member _) => apply tail_member
  | |- tail (assign _) => apply tail_assign; reflexivity
  | |- tail (mbind _ _) => apply tail_bind; [|intros ?; cbv beta]
  | |- tail (match ?x with _ => _ end) => destruct x
  | |- tail ?m => let h := head m in unfold h
  end.
Ltac tails := intros ?; repeat tail_step.
Ltac prepares := intros ?; first [apply quiet_nothing|apply quiet_clear].
(** The steps before the exchange, and the exchange. *)
Ltac operate sends := cbn [perform]; apply ends_tail; [|tails];
  lazymatch goal with |- ends ?m _ _ _ => let h := head m in unfold h end; unfold code_request, response_request, on_params, set_list_result;
  repeat (apply op_ends_bind, ends_assign);
  apply request_then; [assumption|reflexivity|assumption|prepares|
    let f1 := fresh in let r := fresh in let Hh := fresh in
    intros f1 r Hh; injection Hh as _ Hh ?; apply sends; rewrite ?Hh; try assumption; try congruence|tails].
Section Released.
Context {W : Type} `{ErrorCodes} `{!EsimPlatform W} `{Parcelables.StringEx}.
Context (Htolerated : forall m (w : W) e w', arrived m w = (Some e, w') -> tolerated e).
Lemma operation_releases op f (w : W) : Forall converts (texts op) -> occupyChannelMutex_ f = false -> ends (perform op) f w (fun _ f' _ => released f f').
Proof.
  intros Ht Ho. destruct op; cbn [texts] in Ht; rewrite ?Forall_cons in Ht; destruct_and?.
  - cbn [perform]. apply ends_tail; [|tails]. apply op_ends_bind, ends_member. destruct (negb _); [by apply op_ends_ret, released_refl|].
    apply request_then; [assumption|reflexivity|assumption|prepares|intros; apply sends_ObtainEid|tails].
  - operate @sends_RequestAllProfiles.
  - operate @sends_ObtainEuiccInfo1.
  - cbn [perform]. apply ends_tail; [|tails]. apply op_ends_bind. eapply op_ends_mono; [apply ends_last_profile|]. intros ? f1 w1 ->.
    apply op_ends_bind. eapply op_ends_mono; [apply ends_last_profile|]. intros ? f2 w2 ->. unfold code_request, on_params. repeat (apply op_ends_bind, ends_assign).
    apply request_then; [assumption|reflexivity|assumption|prepares| |tails]. intros f3 r Hh. injection Hh as _ Hh _. apply sends_DisableProfile. by rewrite Hh.
  - operate @sends_ObtainSmdsAddress.
  - operate @sends_RequestRulesAuthTable.
  - operate @sends_ObtainEuiccChallenge.
  - operate @sends_ObtainDefaultSmdpAddress.
  - operate @sends_CancelSession.
  - operate @sends_GetProfile.
  - operate @sends_ResetMemory.
  - operate @sends_EstablishDefaultSmdpAddress.
  - operate @sends_ListNotifications.
  - operate @sends_RetrieveNotificationList.
  - operate @sends_RetrieveNotification.
  - operate @sends_RemoveNotification.
  - operate @sends_DeleteProfile.
  - operate @sends_SwitchToProfile.
  - operate @sends_SetNickname.
  - operate @sends_ObtainEuiccInfo2.
  - operate @sends_GetContractInfo.
Qed.

End Released.

Import EsimBench.
Lemma deaf_tolerated m (w : deaf) e w' : arrived m w = (Some e, w') -> tolerated (W := deaf) e.
Proof.
  cbn. destruct w as [|n w]; [done|]. intros [= <- <-] [f v]. destruct n as [|[|]]; [|by eexists..].
  destruct (occupyChannelMutex_ f) eqn:Ho, (telRilManager_ f) eqn:Ht; destruct f; cbn in Ho, Ht; subst; by eexists.
Qed.
