(* ===== verification/Tlv.v ===== *)
(** * Reading a response as what it encodes

    A response of the card is a tree of tags and values ([tlv]). The program's nodes represent such a tree and are decoded step by step ([repr]); looking into
    a node changes how the tree is represented but not the tree, and never invalidates a pointer. So the code that reads a response can be followed on the tree: the rules
    below say what [GetChild] and its likes (file EsimData.v) give. *)

From S2P Require Import Prelude CxxString Asn1Utils Asn1Node Asn1Builder EsimData.
Open Scope Z_scope.

#[warnings="-register-all"]
Inductive tlv : Type :=
| Leaf (tag : Z) (bytes : list Z)
| Branch (tag : Z) (ts : list tlv).

Section tlv_ind.
Context (P : tlv -> Prop) (HL : forall tag bytes, P (Leaf tag bytes)) (HB : forall tag ts, Forall P ts -> P (Branch tag ts)).
Fixpoint tlv_tree_ind (t : tlv) : P t :=
  match t with
  | Leaf tag bytes => HL tag bytes
  | Branch tag ts => HB tag ts ((fix go ts : Forall P ts := match ts with [] => Forall_nil_2 P | t :: ts => Forall_cons_2 P t ts (tlv_tree_ind t) (go ts) end) ts)
  end.
End tlv_ind.

Definition tag_of (t : tlv) : Z := match t with Leaf tag _ => tag | Branch tag _ => tag end.

(** The node that decoding gives first. *)
Fixpoint node_of (t : tlv) : Asn1Node :=
  match t with
  | Leaf tag bytes => Asn1Node_new tag bytes 0 (zlen bytes)
  | Branch tag ts => let body := concat (map (fun t => Asn1Write (node_of t)) ts) in Asn1Node_new tag body 0 (zlen body)
  end.
(** The encoding (DER). *)
Definition enc (t : tlv) : list Z := Asn1Write (node_of t).
Definition enc_all (ts : list tlv) : list Z := concat (map enc ts).
Definition body_of (t : tlv) : list Z := match t with Leaf _ bytes => bytes | Branch _ ts => enc_all ts end.

(** Trees that can be encoded: tags that the decoder reads back and that say whether there are nodes inside, lengths of 32 bits. *)
#[warnings="-register-all"]
Inductive wf : tlv -> Prop :=
| wf_leaf tag bytes : tag_ok tag = true -> IsConstructedTag tag = false -> bytes_ok bytes -> zlen bytes < 2 ^ 32 - 9 -> wf (Leaf tag bytes)
| wf_branch tag ts : tag_ok tag = true -> IsConstructedTag tag = true -> Forall wf ts -> zlen (enc_all ts) < 2 ^ 32 - 9 -> wf (Branch tag ts).

Lemma node_of_new t : node_of t = Asn1Node_new (tag_of t) (body_of t) 0 (zlen (body_of t)).
Proof. by destruct t. Qed.
Lemma tag_ok_u32 tag : tag_ok tag = true -> is_u32 tag.
Proof. unfold tag_ok, is_u32. intros H. apply andb_prop in H as [H _]. lia. Qed.
Lemma enc_all_map ts : enc_all ts = concat (map Asn1Write (node_of <$> ts)).
Proof. unfold enc_all. induction ts as [|t ts IH]; [done|]. cbn. by rewrite IH. Qed.

Lemma wf_sound t : wf t -> child_ok (node_of t).
Proof.
  induction t as [tag bytes|tag ts IH] using tlv_tree_ind; intros Hw; inversion Hw; subst.
  - split; [|done]. apply sound_new; [by apply tag_ok_u32|done..].
  - rewrite node_of_new. cbn [tag_of body_of]. split; [|done]. apply sound_new; [by apply tag_ok_u32| |done].
    rewrite enc_all_map. apply concat_write_ok, Forall_fmap. rewrite !Forall_forall in *. intros t Ht. apply IH; auto.
Qed.
Lemma wf_children tag ts : wf (Branch tag ts) -> Forall child_ok (node_of <$> ts).
Proof. intros Hw. inversion Hw; subst. apply Forall_fmap. rewrite !Forall_forall in *. intros t Ht. apply wf_sound; auto. Qed.
Lemma raw_node_of t : wf t -> raw (node_of t) = node_of t.
Proof.
  intros Hw. apply wf_sound in Hw as [Hs _]. rewrite node_of_new. unfold raw. f_equal.
  unfold content. cbn. destruct (Z.eqb_spec (zlen (body_of t)) 0) as [Hz|Hz]; [|by rewrite andb_false_r].
  rewrite (zlen_0_nil _ Hz). by destruct (_ && _).
Qed.
Lemma enc_header t : wf t -> enc t = header (tag_of t) (zlen (body_of t)) ++ body_of t.
Proof.
  intros Hw. pose proof (wf_sound t Hw) as [(Ht & Hd & _) _]. pose proof (raw_node_of t Hw) as Hr.
  unfold enc. rewrite Asn1Write_eq by done. rewrite node_of_new at 1 2. cbn [tag_ dataLength_ Asn1Node_new]. f_equal.
  rewrite <- raw_content, Hr, node_of_new. rewrite node_of_new in Hr. unfold raw in Hr. by injection Hr.
Qed.
Lemma enc_ok t : wf t -> bytes_ok (enc t).
Proof. intros Hw. apply sound_write_ok, wf_sound, Hw. Qed.
Lemma enc_zlen t : wf t -> zlen (enc t) = encodedLength_ (node_of t).
Proof. intros Hw. apply sound_write_zlen, wf_sound, Hw. Qed.

(** The same, decided. *)
Definition u8_ok (b : Z) : bool := (0 <=? b) && (b <? 256).
Fixpoint wfb (t : tlv) : bool :=
  match t with
  | Leaf tag bytes => tag_ok tag && negb (IsConstructedTag tag) && forallb u8_ok bytes && (zlen bytes <? 2 ^ 32 - 9)
  | Branch tag ts => tag_ok tag && IsConstructedTag tag && forallb wfb ts && (zlen (enc_all ts) <? 2 ^ 32 - 9)
  end.
Lemma wfb_wf t : wfb t = true -> wf t.
Proof.
  induction t as [tag bytes|tag ts IH] using tlv_tree_ind; cbn [wfb]; intros Hb; apply andb_prop in Hb as [Hb Hl]; apply andb_prop in Hb as [Hb Hc]; apply andb_prop in Hb as [Ht Hk]; constructor; try done; try lia.
  - by apply negb_true_iff.
  - rewrite Forall_forall. intros b Hin. apply list_elem_of_In in Hin. rewrite forallb_forall in Hc. specialize (Hc b Hin). unfold u8_ok, is_u8 in *. lia.
  - rewrite Forall_forall in *. intros t Hin. apply IH; [done|]. rewrite forallb_forall in Hc. by apply Hc, list_elem_of_In.
Qed.

(** ** What a node represents *)

(** A node whose content has been decoded. *)
Definition opened (n : Asn1Node) (cs : list Asn1Node) : Asn1Node := clear_data (set_children cs n).

#[warnings="-register-all"]
Inductive repr : tlv -> Asn1Node -> Prop :=
| repr_raw t : repr t (node_of t)
| repr_opened tag ts cs : Forall2 repr ts cs -> repr (Branch tag ts) (opened (node_of (Branch tag ts)) cs).

Fixpoint tlv_at (t : tlv) (p : path) : option tlv :=
  match p, t with
  | [], _ => Some t
  | i :: p, Branch _ ts => c ← ts !! i; tlv_at c p
  | _, _ => None
  end.
Definition reach (n : Asn1Node) (p : path) : Prop := is_Some (node_at n p).

Lemma repr_leaf tag bytes n : repr (Leaf tag bytes) n -> n = node_of (Leaf tag bytes).
Proof. by inversion 1. Qed.
Lemma repr_fields t n : repr t n -> tag_ n = tag_of t /\ constructed_ n = IsConstructedTag (tag_of t) /\ dataLength_ n = zlen (body_of t) /\ encodedLength_ n = encodedLength_ (node_of t).
Proof. destruct 1; by rewrite ?node_of_new. Qed.
Lemma repr_tags ts cs : Forall2 repr ts cs -> tag_ <$> cs = tag_of <$> ts.
Proof. induction 1 as [|t c ts cs Hr _ IH]; [done|]. cbn. rewrite IH. by destruct (repr_fields _ _ Hr) as (-> & _). Qed.
Lemma repr_at T n p m : repr T n -> node_at n p = Some m -> exists t, tlv_at T p = Some t /\ repr t m.
Proof.
  revert T n. induction p as [|i p IH]; intros T n HT Hp; cbn [node_at] in Hp; [injection Hp as <-; by eauto|].
  inversion HT as [|tag ts cs Hcs]; subst.
  - rewrite node_of_new in Hp. done.
  - cbn in Hp. destruct (cs !! i) as [c|] eqn:E; [|done]. cbn in Hp.
    destruct (Forall2_lookup_r _ _ _ _ _ Hcs E) as (t & Ht & Hr). cbn [tlv_at]. rewrite Ht. cbn. by apply (IH t c).
Qed.
Lemma repr_write t n : wf t -> repr t n -> Asn1Write n = enc t.
Proof.
  revert n. induction t as [tag bytes|tag ts IH] using tlv_tree_ind; intros n Hw Hr; inversion Hr as [|tag' ts' cs Hcs]; subst; try done.
  pose proof (wf_sound _ Hw) as [(Ht & Hd & _) _]. rewrite (enc_header _ Hw).
  rewrite Asn1Write_eq by (by rewrite node_of_new in * ). rewrite node_of_new. unfold content. cbn [tag_ dataLength_ opened clear_data set_children Asn1Node_new constructed_ dataBytes_ children_ tag_of].
  inversion Hw as [|? ? _ Hk Hws _]; subst. rewrite Hk. cbn [andb]. change (zlen [] =? 0) with true. cbn [body_of]. f_equal. unfold enc_all.
  clear - IH Hcs Hws. induction Hcs as [|t c ts cs Hr _ IHcs]; [done|]. apply Forall_cons in IH as [IHt IH]. apply Forall_cons in Hws as [Hw Hws].
  cbn. rewrite IHcs by done. f_equal. by apply IHt.
Qed.
Lemma repr_replace T n p m t : repr T n -> node_at n p = Some m -> tlv_at T p = Some t -> forall m', repr t m' -> repr T (replace_at n p m').
Proof.
  revert T n. induction p as [|i p IH]; intros T n HT Hp Ht m' Hm'; cbn in *; [by injection Ht as ->|].
  inversion HT as [|tag ts cs Hcs]; subst; [by rewrite node_of_new in Hp|]. cbn in Hp. destruct (cs !! i) as [c|] eqn:E; [|done].
  destruct (ts !! i) as [tc|] eqn:Et; [|done]. cbn in *. rewrite E.
  change (repr (Branch tag ts) (opened (node_of (Branch tag ts)) (<[i:=replace_at c p m']> cs))). constructor.
  rewrite <- (list_insert_id ts i tc Et). apply Forall2_insert; [done|]. eapply IH; [|done..]. by eapply Forall2_lookup_lr.
Qed.
Lemma reach_replace n p m m' : node_at n p = Some m -> (forall q, reach m q -> reach m' q) -> forall q, reach n q -> reach (replace_at n p m') q.
Proof.
  revert n. induction p as [|i p IH]; intros n Hp Hm q Hq; cbn in *; [injection Hp as ->; by apply Hm|].
  destruct (children_ n !! i) as [c|] eqn:E; [|done]. cbn in Hp. destruct q as [|j q]; [by eexists|].
  unfold reach in *. cbn in *. destruct (decide (i = j)) as [<-|Hne].
  - rewrite list_lookup_insert_eq by by eapply lookup_lt_Some. rewrite E in Hq. cbn in *. by apply IH.
  - by rewrite list_lookup_insert_ne by done.
Qed.
Lemma node_at_replace n p m m' q : node_at n p = Some m -> node_at (replace_at n p m') (p ++ q) = node_at m' q.
Proof.
  revert n. induction p as [|i p IH]; intros n Hp; cbn in *; [done|]. destruct (children_ n !! i) as [c|] eqn:E; [|done]. cbn in *.
  rewrite list_lookup_insert_eq by by eapply lookup_lt_Some. by apply IH.
Qed.

Lemma raw_nodes ts : Forall wf ts -> raw <$> (node_of <$> ts) = node_of <$> ts.
Proof. induction 1 as [|t ts Hw _ IH]; [done|]. cbn. by rewrite raw_node_of, IH. Qed.
Lemma decode_enc_all tag ts : wf (Branch tag ts) -> decode_children (Asn1Decoder_new (enc_all ts) 0 (zlen (enc_all ts))) = Ret (node_of <$> ts).
Proof.
  intros Hw. pose proof (wf_children _ _ Hw) as Hok. inversion Hw as [|? ? _ _ Hws Hl]; subst. rewrite enc_all_map in *.
  rewrite decode_children_write by (done || lia). by rewrite raw_nodes.
Qed.
Lemma repr_raws ts : Forall2 repr ts (node_of <$> ts).
Proof. induction ts; constructor; [constructor|done]. Qed.
Lemma enc_all_nil ts : Forall wf ts -> zlen (enc_all ts) = 0 -> ts = [].
Proof.
  intros Hws Hz. destruct Hws as [|t ts Hw Hws]; [done|]. unfold enc_all in Hz. cbn in Hz. rewrite zlen_app, enc_zlen in Hz by done.
  pose proof (sound_encoded_pos _ (proj1 (wf_sound t Hw))). pose proof (zlen_nonneg (concat (map enc ts))). lia.
Qed.
(** Looking into a node opens it. *)
Lemma build_repr tag ts n : wf (Branch tag ts) -> repr (Branch tag ts) n ->
  exists n', Asn1BuildChildren n = Ret (Prelude.TELEPHONY_ERR_SUCCESS, n') /\ repr (Branch tag ts) n' /\ Forall2 repr ts (children_ n') /\ forall q, reach n q -> reach n' q.
Proof.
  intros Hw Hr. pose proof (wf_children _ _ Hw) as Hok. inversion Hw as [|? ? Ht Hk Hws Hl]; subst. pose proof (zlen_nonneg (enc_all ts)).
  inversion Hr as [|? ? cs Hcs]; subst.
  - unfold Asn1BuildChildren. rewrite node_of_new. cbn [tag_of body_of constructed_ dataBytes_ dataOffset_ dataLength_ children_ Asn1Node_new]. rewrite Hk. cbn [negb].
    destruct (Z.eqb_spec (zlen (enc_all ts)) 0) as [Hz|Hz].
    + eexists. split; [reflexivity|]. pose proof (enc_all_nil ts Hws Hz) as ->. split_and!; [apply (repr_raw (Branch tag []))|constructor|done].
    + rewrite Z.sub_0_r, u32_small by (unfold is_u32; lia). rewrite (decode_enc_all tag) by done. cbn [mbind outcome_bind app].
      eexists. split; [reflexivity|]. split_and!; [| |].
      * change (repr (Branch tag ts) (opened (node_of (Branch tag ts)) (node_of <$> ts))). constructor. apply repr_raws.
      * apply repr_raws.
      * intros [|i q] Hq; [by eexists|]. unfold reach in Hq. cbn in Hq. by destruct Hq.
  - unfold Asn1BuildChildren. rewrite node_of_new. cbn [tag_of body_of constructed_ dataBytes_ children_ opened clear_data set_children Asn1Node_new]. rewrite Hk. cbn [negb].
    change (zlen [] =? 0) with true. cbn match. eexists. split; [reflexivity|]. split_and!; [|done|done].
    change (repr (Branch tag ts) (opened (node_of (Branch tag ts)) cs)). by constructor.
Qed.

(** ** Positions of children *)

Fixpoint index_of (tag : Z) (tags : list Z) : option nat :=
  match tags with [] => None | t :: tags => if t =? tag then Some O else S <$> index_of tag tags end.
Fixpoint indices (i : nat) (tag : Z) (tags : list Z) : list nat :=
  match tags with [] => [] | t :: tags => if t =? tag then i :: indices (S i) tag tags else indices (S i) tag tags end.
Definition child_index (tag : Z) (t : tlv) : option nat := match t with Branch _ ts => index_of tag (tag_of <$> ts) | Leaf _ _ => None end.
Definition child_indices (tag : Z) (t : tlv) : list nat := match t with Branch _ ts => indices 0 tag (tag_of <$> ts) | Leaf _ _ => [] end.
(** The first child with a tag. *)
Definition child_of (tag : Z) (t : tlv) : option tlv := match t with Branch _ ts => head (List.filter (fun t => tag_of t =? tag) ts) | Leaf _ _ => None end.

Lemma find_child_index cs tag : find_child cs tag = i ← index_of tag (tag_ <$> cs); c ← cs !! i; Some (i, c).
Proof.
  induction cs as [|c cs IH]; [done|]. cbn. destruct (tag_ c =? tag); [done|]. rewrite IH. destruct (index_of tag _) as [i|]; [|done]. cbn.
  by destruct (cs !! i).
Qed.
Lemma positions_indices i tag cs : positions i tag cs = indices i tag (tag_ <$> cs).
Proof. revert i; induction cs as [|c cs IH]; intros i; [done|]. cbn. by rewrite IH. Qed.
Lemma index_of_lt tag tags i : index_of tag tags = Some i -> (i < length tags)%nat.
Proof.
  revert i; induction tags as [|t tags IH]; intros i; cbn; [done|]. destruct (_ =? _); [intros [= <-]; lia|].
  destruct (index_of tag tags); cbn; [|done]. intros [= <-]. specialize (IH _ eq_refl). lia.
Qed.
Lemma indices_lt i tag tags : Forall (fun j => (i <= j < i + length tags)%nat) (indices i tag tags).
Proof.
  revert i; induction tags as [|t tags IH]; intros i; cbn; [constructor|].
  assert (Forall (fun j => (i <= j < i + S (length tags))%nat) (indices (S i) tag tags)) as Hs by (eapply Forall_impl; [apply IH|]; cbn; lia).
  destruct (_ =? _); [constructor; [lia|done]|done].
Qed.
Lemma child_of_index tag t : child_of tag t = i ← child_index tag t; tlv_at t [i].
Proof.
  destruct t as [|tg ts]; [done|]. cbn. induction ts as [|t ts IH]; [done|]. cbn. destruct (tag_of t =? tag); [done|]. rewrite IH.
  by destruct (index_of tag _).
Qed.

(** ** Rules *)

Definition wp {S A} (m : reader S A) (Q : A -> S -> Asn1Node -> Prop) (s : S) (root : Asn1Node) : Prop :=
  match m (s, root) with Ret (a, (s, root)) => Q a s root | _ => False end.
(** The response is [T], and the pointers in [known] are valid. *)
Definition St (T : tlv) (root : Asn1Node) (known : list path) : Prop := wf T /\ repr T root /\ Forall (reach root) known.

Lemma wf_at T p t : wf T -> tlv_at T p = Some t -> wf t.
Proof.
  revert T; induction p as [|i p IH]; intros T Hw Ht; cbn in Ht; [destruct T; by injection Ht as <-|]. destruct T as [|tag ts]; [done|].
  inversion Hw as [|? ? _ _ Hws _]; subst. destruct (ts !! i) as [c|] eqn:E; [|done]. apply (IH c); [|done]. rewrite Forall_lookup in Hws. eauto.
Qed.
Lemma tlv_at_app T p q t : tlv_at T p = Some t -> tlv_at T (p ++ q) = tlv_at t q.
Proof.
  revert T; induction p as [|i p IH]; intros T Ht; cbn in *; [destruct T; by injection Ht as <-|]. destruct T as [|tag ts]; [done|].
  destruct (ts !! i) as [c|]; [|done]. cbn in *. by apply IH.
Qed.
Lemma St_at T root known p t : St T root known -> p ∈ known -> tlv_at T p = Some t -> exists n, node_at root p = Some n /\ repr t n /\ wf t.
Proof.
  intros (Hw & Hr & Hk) Hp Ht. rewrite Forall_forall in Hk. destruct (Hk p Hp) as [n Hn].
  destruct (repr_at T root p n Hr Hn) as (t' & Ht' & Hrt). assert (t' = t) as -> by congruence. exists n. split_and!; [done..|]. by eapply wf_at.
Qed.
Lemma St_weaken T root known known' : St T root known -> known' ⊆ known -> St T root known'.
Proof. intros (? & ? & Hk) Hs. split_and!; [done..|]. rewrite Forall_forall in *. intros q Hq. by apply Hk, Hs. Qed.

Section Rules.
Context {S : Type}.
Implicit Types (s : S) (root : Asn1Node).
Lemma reader_wp_ret {A} (a : A) Q s root : Q a s root -> wp (mret a) Q s root.
Proof. done. Qed.
Lemma reader_wp_bind {A B} (m : reader S A) (f : A -> reader S B) Q s root : wp m (fun a => wp (f a) Q) s root -> wp (m ≫= f) Q s root.
Proof. unfold wp, mbind, partial_bind. by destruct (m (s, root)) as [[a [s' root']]| |]. Qed.
Lemma reader_wp_mono {A} (m : reader S A) (P Q : A -> S -> Asn1Node -> Prop) s root : wp m P s root -> (forall a s' root', P a s' root' -> Q a s' root') -> wp m Q s root.
Proof. unfold wp. destruct (m (s, root)) as [[a [s' root']]| |]; auto. Qed.
Lemma wp_out f Q s root : Q tt (f s) root -> wp (out f) Q s root.
Proof. done. Qed.
Lemma wp_throws {A} (o : outcome A) a Q s root : o = Ret a -> Q a s root -> wp (throws o) Q s root.
Proof. by intros ->. Qed.
Lemma wp_local {T A} (m : reader T A) (t : T) Q s root : wp m (fun a t' => Q (a, t') s) t root -> wp (fun '(s, root) => '(a, (t, root)) ← m (t, root); Ret ((a, t), (s, root))) Q s root.
Proof. unfold wp. cbn. by destruct (m (t, root)) as [[a [t' root']]| |]. Qed.

Lemma wp_read_any {A} (f : Asn1Node -> A) T known p t Q s root :
  St T root known -> p ∈ known -> tlv_at T p = Some t -> (forall n, repr t n -> wf t -> Q (f n) s root) -> wp (read f p) Q s root.
Proof.
  intros HS Hp Ht HQ. destruct (St_at _ _ _ _ _ HS Hp Ht) as (n & Hn & Hr & Hw). unfold wp, read, the_node, attempt, mbind, partial_bind. cbn. rewrite Hn. cbn. by apply HQ.
Qed.
Lemma wp_read {A} (f : Asn1Node -> A) T known p tag bytes Q s root :
  St T root known -> p ∈ known -> tlv_at T p = Some (Leaf tag bytes) -> Q (f (node_of (Leaf tag bytes))) s root -> wp (read f p) Q s root.
Proof. intros HS Hp Ht HQ. eapply wp_read_any; [done..|]. intros n Hr _. by apply repr_leaf in Hr as ->. Qed.

(** A node is replaced by one that represents the same. *)
Lemma St_put T root known p t n n' :
  St T root known -> node_at root p = Some n -> tlv_at T p = Some t -> repr t n' -> (forall q, reach n q -> reach n' q) ->
  St T (replace_at root p n') known /\ forall q, reach n' q -> reach (replace_at root p n') (p ++ q).
Proof.
  intros (HwT & HrT & Hk) Hn Ht Hr Hreach. split; [split_and!; [done| |]|].
  - by eapply repr_replace.
  - eapply Forall_impl; [exact Hk|]. intros q Hq. by eapply reach_replace.
  - intros q Hq. unfold reach. by rewrite (node_at_replace root p n).
Qed.
Ltac run_node Hn := unfold wp, the_node, throws, put_node, pure, modifies, attempt, mbind, partial_bind; cbn; rewrite Hn; cbn.
Lemma reach_index t n tag i : repr t n -> wf t -> (exists tg ts, t = Branch tg ts /\ Forall2 repr ts (children_ n)) -> child_index tag t = Some i -> reach n [i].
Proof.
  intros _ _ (tg & ts & -> & Hcs) Hi. apply index_of_lt in Hi. rewrite length_fmap, (Forall2_length _ _ _ Hcs) in Hi.
  unfold reach. cbn. by destruct (lookup_lt_is_Some_2 (children_ n) i Hi) as [c ->].
Qed.
(** [Asn1GetChild] on a node that represents [t]. *)
Lemma Asn1GetChild_repr t n tag : wf t -> repr t n ->
  exists n' r, Asn1GetChild n tag = Ret (n', r) /\ repr t n' /\ (forall q, reach n q -> reach n' q) /\ fst <$> r = child_index tag t /\
    forall i c, r = Some (i, c) -> node_at n' [i] = Some c.
Proof.
  intros Hw Hr. destruct t as [tg bytes|tg ts].
  - apply repr_leaf in Hr as ->. inversion Hw; subst. exists (node_of (Leaf tg bytes)), None. unfold Asn1GetChild. rewrite node_of_new. cbn [constructed_ Asn1Node_new tag_of].
    rewrite H2. cbn. split_and!; try done. apply (repr_raw (Leaf tg bytes)).
  - destruct (build_repr tg ts n Hw Hr) as (n' & Hb & Hr' & Hcs & Hq). destruct (repr_fields _ _ Hr) as (_ & Hk & _).
    inversion Hw; subst. exists n', (find_child (children_ n') tag). unfold Asn1GetChild. rewrite Hk. cbn [tag_of]. rewrite H2. cbn [negb]. rewrite Hb. cbn [mbind outcome_bind].
    rewrite decide_True by done. split_and!; try done.
    + rewrite find_child_index, (repr_tags _ _ Hcs). cbn [child_index]. destruct (index_of _ _) as [i|] eqn:E; [|done]. cbn.
      pose proof (index_of_lt _ _ _ E) as Hi. rewrite length_fmap, (Forall2_length _ _ _ Hcs) in Hi. by destruct (lookup_lt_is_Some_2 (children_ n') i Hi) as [c ->].
    + intros i c. rewrite find_child_index. destruct (index_of _ _) as [j|]; [|done]. cbn. destruct (children_ n' !! j) as [c'|] eqn:E; [|done]. intros [= <- <-].
      cbn. by rewrite E.
Qed.

(** What a search in a node gives: pointers to the trees of the specification, which stay valid. *)
Definition points (T : tlv) (known : list path) (r : option path) (o : option tlv) : Prop :=
  match r, o with Some q, Some c => q ∈ known /\ tlv_at T q = Some c | None, None => True | _, _ => False end.
Lemma child_reached tag t n' i c p T :
  tlv_at T p = Some t -> child_index tag t = Some i -> node_at n' [i] = Some c -> repr t n' -> reach n' [i] /\ exists tc, tlv_at T (p ++ [i]) = Some tc /\ child_of tag t = Some tc.
Proof.
  intros Ht Hi Hc Hr. split; [by eexists|]. rewrite (tlv_at_app _ _ _ _ Ht), child_of_index, Hi. cbn [mbind option_bind].
  destruct (repr_at t n' [i] c Hr Hc) as (tc & -> & _). by exists tc.
Qed.
Lemma wp_GetChild T known p t tag Q s root :
  St T root known -> p ∈ known -> tlv_at T p = Some t ->
  (forall root' known' r, St T root' known' -> known ⊆ known' -> points T known' r (child_of tag t) -> Q r s root') -> wp (GetChild p tag) Q s root.
Proof.
  intros HS Hp Ht HQ. destruct (St_at _ _ _ _ _ HS Hp Ht) as (n & Hn & Hr & Hw).
  destruct (Asn1GetChild_repr t n tag Hw Hr) as (n' & r & Hg & Hr' & Hq & Hi & Hc). unfold GetChild. run_node Hn. rewrite Hg. cbn.
  destruct (St_put _ _ _ _ _ _ n' HS Hn Ht Hr' Hq) as [HS' Hq']. destruct r as [[i c]|]; cbn [fst fmap option_fmap option_map] in Hi.
  - destruct (child_reached tag t n' i c p T Ht (eq_sym Hi) (Hc i c eq_refl) Hr') as (Hreach & tc & Htc & Ho).
    apply (HQ _ ((p ++ [i]) :: known)); [|set_solver|].
    + destruct HS' as (? & ? & Hk). split_and!; [done..|]. apply Forall_cons_2; [by apply Hq'|done].
    + cbn. rewrite Ho. split; [set_solver|done].
  - apply (HQ _ known None); [done|done|]. cbn. by rewrite child_of_index, <- Hi.
Qed.
Lemma wp_HasChild T known p t tag Q s root :
  St T root known -> p ∈ known -> tlv_at T p = Some t ->
  (forall root' known', St T root' known' -> known ⊆ known' -> Q (bool_decide (is_Some (child_of tag t))) s root') -> wp (HasChild p tag) Q s root.
Proof.
  intros HS Hp Ht HQ. apply reader_wp_bind. eapply wp_GetChild; [done..|]. intros root' known' r HS' Hk Hr. apply reader_wp_ret.
  specialize (HQ root' known' HS' Hk). destruct r, (child_of tag t); cbn in Hr; try done.
Qed.

(** The children with a tag. *)
Definition children_of (tag : Z) (t : tlv) : list tlv := match t with Branch _ ts => List.filter (fun t => tag_of t =? tag) ts | Leaf _ _ => [] end.
Lemma indices_children ts0 ts tag :
  List.Forall2 (fun i t => (ts0 ++ ts) !! i = Some t) (indices (length ts0) tag (tag_of <$> ts)) (List.filter (fun t => tag_of t =? tag) ts).
Proof.
  revert ts0; induction ts as [|t ts IH]; intros ts0; [constructor|]. cbn. specialize (IH (ts0 ++ [t])). rewrite length_app, Nat.add_1_r, <- app_assoc in IH.
  cbn in IH. destruct (tag_of t =? tag); [|done]. constructor; [|done]. by rewrite lookup_app_r, Nat.sub_diag.
Qed.
Definition all_point (T : tlv) (known : list path) : list path -> list tlv -> Prop := Forall2 (fun q c => q ∈ known /\ tlv_at T q = Some c).
Lemma Asn1GetChildren_repr t n tag : wf t -> repr t n -> exists n' found,
  Asn1GetChildren n tag = Ret (Prelude.TELEPHONY_ERR_SUCCESS, n', found) /\ repr t n' /\ (forall q, reach n q -> reach n' q) /\
  match found with [] => children_of tag t = [] | _ => positions 0 tag (children_ n') = child_indices tag t /\ forall i, i ∈ child_indices tag t -> reach n' [i] end.
Proof.
  intros Hw Hr. destruct t as [tg bytes|tg ts]; inversion Hw; subst.
  - apply repr_leaf in Hr as ->. exists (node_of (Leaf tg bytes)), []. unfold Asn1GetChildren. rewrite node_of_new. cbn [constructed_ Asn1Node_new tag_of]. rewrite H2.
    split_and!; try done. apply (repr_raw (Leaf tg bytes)).
  - destruct (build_repr tg ts n Hw Hr) as (n' & Hb & Hr' & Hcs & Hq). destruct (repr_fields _ _ Hr) as (_ & Hk & _).
    exists n', (List.filter (fun c => tag_ c =? tag) (children_ n')). unfold Asn1GetChildren. rewrite Hk. cbn [tag_of]. rewrite H2. cbn [negb]. rewrite Hb. cbn [mbind outcome_bind].
    rewrite decide_True by done. split_and!; try done.
    assert (length (List.filter (fun c => tag_ c =? tag) (children_ n')) = length (children_of tag (Branch tg ts))) as Hlen.
    { cbn. clear - Hcs. induction Hcs as [|t c ts cs Hr _ IH]; [done|]. cbn. destruct (repr_fields _ _ Hr) as (-> & _). destruct (_ =? _); cbn; lia. }
    destruct (List.filter _ _) as [|c cs] eqn:E; [by destruct (children_of tag (Branch tg ts))|]. rewrite positions_indices, (repr_tags _ _ Hcs). split; [done|].
    intros i Hi. cbn in Hi. pose proof (indices_lt 0 tag (tag_of <$> ts)) as Hlt. rewrite Forall_forall in Hlt. specialize (Hlt i Hi).
    rewrite length_fmap, (Forall2_length _ _ _ Hcs) in Hlt. unfold reach. cbn. destruct (lookup_lt_is_Some_2 (children_ n') i) as [c' ->]; [lia|done].
Qed.
Lemma wp_GetChildren T known p t tag before Q s root :
  St T root known -> p ∈ known -> tlv_at T p = Some t ->
  (forall root' known' found, St T root' known' -> known ⊆ known' -> all_point T known' found (children_of tag t) -> Q (Prelude.TELEPHONY_ERR_SUCCESS, before ++ found) s root') ->
  wp (GetChildren p tag before) Q s root.
Proof.
  intros HS Hp Ht HQ. destruct (St_at _ _ _ _ _ HS Hp Ht) as (n & Hn & Hr & Hw).
  destruct (Asn1GetChildren_repr t n tag Hw Hr) as (n' & found & Hg & Hr' & Hq & Hi). unfold GetChildren. run_node Hn. rewrite Hg. cbn.
  destruct (St_put _ _ _ _ _ _ n' HS Hn Ht Hr' Hq) as [HS' Hq']. destruct found as [|c cs].
  - rewrite app_nil_r. specialize (HQ (replace_at root p n') known []). rewrite app_nil_r in HQ. apply HQ; [done|done|]. rewrite Hi. constructor.
  - destruct Hi as [-> Hi]. apply (HQ _ (((fun i => p ++ [i]) <$> child_indices tag t) ++ known)); [|set_solver|].
    + destruct HS' as (? & ? & Hk). split_and!; [done..|]. apply Forall_app. split; [|done]. apply Forall_fmap, Forall_forall. intros i Hin. cbn. by apply Hq', Hi.
    + destruct t as [|tg ts]; cbn; [constructor|]. unfold all_point. apply Forall2_fmap_l. pose proof (indices_children [] ts tag) as Hic. cbn [app length] in Hic.
      apply Forall2_same_length_lookup. split; [by apply Forall2_length in Hic|].
      intros j i c' Hj Hc'. cbn. split.
        * apply elem_of_app. left. apply list_elem_of_fmap. exists i. split; [done|]. by apply list_elem_of_lookup_2 with j.
        * rewrite (tlv_at_app _ _ _ _ Ht). cbn. rewrite (Forall2_lookup_lr _ _ _ _ _ _ Hic Hj Hc'). by destruct c'.
Qed.
Lemma wp_AsBytes T known p tag bytes Q s root :
  St T root known -> p ∈ known -> tlv_at T p = Some (Leaf tag bytes) -> Q (zlen bytes, bytes) s root -> wp (AsBytes p) Q s root.
Proof.
  intros HS Hp Ht HQ. destruct (St_at _ _ _ _ _ HS Hp Ht) as (n & Hn & Hr & Hw). apply repr_leaf in Hr as ->. inversion Hw; subst.
  unfold AsBytes. run_node Hn. unfold Asn1AsBytes. cbn [constructed_ Asn1Node_new tag_of body_of dataBytes_ dataLength_ dataOffset_]. rewrite H2.
  pose proof (zlen_nonneg bytes). rewrite Z.sub_0_r, u32_small by (unfold is_u32; lia). destruct (Z.eqb_spec (zlen bytes) 0) as [Hz|Hz].
  - cbn. rewrite (zlen_0_nil _ Hz) in *. done.
  - rewrite Z.ltb_irrefl. unfold vec_slice. rewrite decide_True by lia. cbn. unfold zlen in *. rewrite Z.sub_0_r, Nat2Z.id, drop_0, take_ge by lia. done.
Qed.
End Rules.

(** ** What code that reads a response gives

    On the response [T], with valid pointers [ps], the code [m] returns [a] and turns [s] into [s']; pointers stay valid. *)
Definition reads {S A} (T : tlv) (ps : list path) (m : reader S A) (s : S) (a : A) (s' : S) : Prop :=
  forall root known, ps ⊆ known -> St T root known ->
  exists root' known', m (s, root) = Ret (a, (s', root')) /\ known ⊆ known' /\ St T root' known'.

Section Reads.
Context {S : Type} (T : tlv).
Implicit Types (s : S) (ps : list path).
Lemma reads_ret {A} ps (a : A) s : reads T ps (mret a) s a s.
Proof. intros root known _ HS. by exists root, known. Qed.
Lemma reads_bind {A B} ps (m : reader S A) (f : A -> reader S B) s b s1 a s' :
  reads T ps m s b s1 -> reads T ps (f b) s1 a s' -> reads T ps (m ≫= f) s a s'.
Proof.
  intros Hm Hf root known Hps HS. destruct (Hm root known Hps HS) as (root1 & known1 & E & Hk & HS1).
  destruct (Hf root1 known1) as (root2 & known2 & E2 & Hk2 & HS2); [set_solver|done|]. exists root2, known2. split; [|split; [set_solver|done]].
  unfold mbind, partial_bind. by rewrite E.
Qed.
Lemma reads_out ps f s : reads T ps (out f) s tt (f s).
Proof. intros root known _ HS. by exists root, known. Qed.
Lemma reads_throws {A} ps (o : outcome A) a s : o = Ret a -> reads T ps (throws o) s a s.
Proof. intros -> root known _ HS. by exists root, known. Qed.
Lemma wp_reads {A} ps (m : reader S A) s a s' :
  (forall root known, ps ⊆ known -> St T root known -> wp m (fun a1 s1 root1 => a1 = a /\ s1 = s' /\ exists known', known ⊆ known' /\ St T root1 known') s root) ->
  reads T ps m s a s'.
Proof.
  intros Hm root known Hps HS. specialize (Hm root known Hps HS). unfold wp in Hm. destruct (m (s, root)) as [[a1 [s1 root1]]| |]; try done.
  destruct Hm as (-> & -> & known' & ? & ?). by exists root1, known'.
Qed.
Lemma reads_then {A B} ps (m : reader S A) (f : A -> reader S B) s a s' :
  (forall root known, ps ⊆ known -> St T root known ->
    wp m (fun b s1 root1 => exists ps1 known1, known ⊆ known1 /\ St T root1 known1 /\ ps1 ⊆ known1 /\ reads T ps1 (f b) s1 a s') s root) ->
  reads T ps (m ≫= f) s a s'.
Proof.
  intros Hm root known Hps HS. specialize (Hm root known Hps HS). unfold wp in Hm. unfold mbind, partial_bind.
  destruct (m (s, root)) as [[b [s1 root1]]| |]; try done. destruct Hm as (ps1 & known1 & Hk & HS1 & Hps1 & Hf).
  destruct (Hf root1 known1 Hps1 HS1) as (root2 & known2 & -> & Hk2 & HS2). exists root2, known2. split; [done|]. split; [set_solver|done].
Qed.
Lemma reads_child {A} ps p t tag (f : option path -> reader S A) s a s' :
  p ∈ ps -> tlv_at T p = Some t ->
  match child_of tag t with
  | Some c => forall q, tlv_at T q = Some c -> reads T (q :: ps) (f (Some q)) s a s'
  | None => reads T ps (f None) s a s'
  end -> reads T ps (GetChild p tag ≫= f) s a s'.
Proof.
  intros Hp Ht Hf. apply reads_then. intros root known Hps HS. eapply wp_GetChild; [done|by apply Hps|done|].
  intros root' known' r HS' Hk Hr. destruct r as [q|], (child_of tag t) as [c|]; try done; cbn in Hr.
  - destruct Hr as [Hq Hc]. exists (q :: ps), known'. split_and!; [done..|set_solver|by apply Hf].
  - exists ps, known'. split_and!; [done..|set_solver|done].
Qed.
Lemma reads_has ps p t tag s : p ∈ ps -> tlv_at T p = Some t -> reads T ps (HasChild p tag) s (bool_decide (is_Some (child_of tag t))) s.
Proof.
  intros Hp Ht. apply wp_reads. intros root known Hps HS. eapply wp_HasChild; [done|by apply Hps|done|]. intros root' known' HS' Hk. split_and!; [done..|]. by exists known'.
Qed.
Lemma reads_children {A} ps p t tag (f : TelErr * list path -> reader S A) s a s' :
  p ∈ ps -> tlv_at T p = Some t ->
  (forall found, Forall2 (fun q c => tlv_at T q = Some c) found (children_of tag t) -> reads T (found ++ ps) (f (Prelude.TELEPHONY_ERR_SUCCESS, found)) s a s') ->
  reads T ps (GetChildren p tag [] ≫= f) s a s'.
Proof.
  intros Hp Ht Hf. apply reads_then. intros root known Hps HS. eapply wp_GetChildren; [done|by apply Hps|done|].
  intros root' known' found HS' Hk Ha. exists (found ++ ps), known'. split_and!; [done..| |].
  - intros q [Hq|Hq]%elem_of_app; [|set_solver]. apply list_elem_of_lookup in Hq as [i Hi]. by destruct (Forall2_lookup_l _ _ _ _ _ Ha Hi) as (c & _ & ? & _).
  - apply Hf. eapply Forall2_impl; [exact Ha|]. by intros q c [_ ?].
Qed.
Lemma reads_read {A} ps (f : Asn1Node -> A) p tag bytes s :
  p ∈ ps -> tlv_at T p = Some (Leaf tag bytes) -> reads T ps (read f p) s (f (node_of (Leaf tag bytes))) s.
Proof. intros Hp Ht. apply wp_reads. intros root known Hps HS. eapply wp_read; [done|by apply Hps|done|]. split_and!; [done..|]. by exists known. Qed.
Lemma reads_AsBytes ps p tag bytes s : p ∈ ps -> tlv_at T p = Some (Leaf tag bytes) -> reads T ps (AsBytes p) s (zlen bytes, bytes) s.
Proof. intros Hp Ht. apply wp_reads. intros root known Hps HS. eapply wp_AsBytes; [done|by apply Hps|done|]. split_and!; [done..|]. by exists known. Qed.
Lemma reads_start {A} (m : reader S A) s a s' : wf T -> reads T [[]] m s a s' -> exists root', m (s, node_of T) = Ret (a, (s', root')).
Proof.
  intros Hw Hm. destruct (Hm (node_of T) [[]]) as (root' & known' & E & _ & _); [done| |by exists root'].
  split; [done|]. split; [constructor|]. apply Forall_cons_2; [by eexists|constructor].
Qed.
End Reads.
