(* ===== verification/EsimProfiles.v ===== *)
(** * The list of profiles

    What a card says of its profiles in an answer to GetProfilesInfo (SGP.22, 5.7.15), and what the handlers of EsimResponse.v make of it. *)

From S2P Require Import Prelude CxxString Parcel Parcelables CoreServiceApi CoreManagers StrConvert Asn1Utils Asn1Node Asn1Builder Apdu EsimData EsimRequest EsimResponse Tlv.
Open Scope Z_scope.
Open Scope esim_scope.

(** ** The answer of the card *)

(** The operator that a profile belongs to: digits of its country and network code, and its group identifiers. *)
Record card_operator : Type := MkCardOperator {
  co_mcc : Z * Z * Z;
  co_mnc : Z * Z * option Z;
  co_gid1 : option (list Z);
  co_gid2 : option (list Z)
}.
(** A profile: the digits of its ICCID (in pairs) and the elements that there are. Other elements may follow. *)
Record card_profile : Type := MkCardProfile {
  cp_iccid : list (Z * Z);
  cp_nickname : option u16string;
  cp_provider : option u16string;
  cp_name : option u16string;
  cp_operator : option card_operator;
  cp_state : option Z;
  cp_class : option Z;
  cp_rules : option Z;
  cp_port : option Z;
  cp_others : list tlv
}.

Definition utf8_of (w : u16string) : list Z := match ToUtf8 w with Ret s => code <$> s | _ => [] end.
(** The digit after is the high half of the byte. *)
Definition bcd (digits : Z * Z) : Z := digits.2 * 16 + digits.1.
Definition operator_bytes (o : card_operator) : list Z :=
  let '(a, b, c) := co_mcc o in
  let '(d, e, f) := co_mnc o in
  [bcd (a, b); bcd (c, default 15 f); bcd (d, e)].
Definition field (tag : Z) (o : option (list Z)) : list tlv := match o with Some bytes => [Leaf tag bytes] | None => [] end.
Definition operator_tlv (o : card_operator) : tlv :=
  Branch TAG_ESIM_OPERATOR_ID (field TAG_ESIM_CTX_0 (Some (operator_bytes o)) ++ field TAG_ESIM_CTX_1 (co_gid1 o) ++ field TAG_ESIM_CTX_2 (co_gid2 o) ++ []).
Definition profile_tlv (c : card_profile) : tlv :=
  Branch TAG_ESIM_PROFILE_INFO (
    field TAG_ESIM_ICCID (Some (bcd <$> cp_iccid c)) ++
    field TAG_ESIM_NICKNAME (utf8_of <$> cp_nickname c) ++
    field TAG_ESIM_OBTAIN_OPERATOR_NAME (utf8_of <$> cp_provider c) ++
    field TAG_ESIM_PROFILE_NAME (utf8_of <$> cp_name c) ++
    match cp_operator c with Some o => [operator_tlv o] | None => [] end ++
    field TAG_ESIM_PROFILE_STATE ((fun v => [v]) <$> cp_state c) ++
    field TAG_ESIM_PROFILE_CLASS ((fun v => [v]) <$> cp_class c) ++
    field TAG_ESIM_PROFILE_POLICY_RULE (bits_bytes <$> cp_rules c) ++
    field TAG_ESIM_PORT ((fun v => [v]) <$> cp_port c) ++
    cp_others c).
Definition profiles_tlv (cs : list card_profile) : tlv := Branch TAG_ESIM_GET_PROFILES [Branch TAG_ESIM_CTX_COMP_0 (profile_tlv <$> cs)].

Definition is_digit (d : Z) : Prop := 0 <= d <= 9.
Definition operator_ok (o : card_operator) : Prop :=
  let '(a, b, c) := co_mcc o in
  let '(d, e, f) := co_mnc o in
  is_digit a /\ is_digit b /\ is_digit c /\ is_digit d /\ is_digit e /\ match f with Some f => is_digit f | None => True end /\
  match co_gid1 o with Some g => bytes_ok g /\ zlen g <= 255 | None => True end /\ match co_gid2 o with Some g => bytes_ok g /\ zlen g <= 255 | None => True end.
(** Texts of at most 64 bytes in UTF-8. *)
Definition text_ok (w : u16string) : Prop := Forall is_u16 w /\ (exists s, ToUtf8 w = Ret s /\ zlen s <= 64).
Definition PROFILE_TAGS : list Z := [TAG_ESIM_ICCID; TAG_ESIM_NICKNAME; TAG_ESIM_OBTAIN_OPERATOR_NAME; TAG_ESIM_PROFILE_NAME; TAG_ESIM_OPERATOR_ID;
  TAG_ESIM_PROFILE_STATE; TAG_ESIM_PROFILE_CLASS; TAG_ESIM_PROFILE_POLICY_RULE; TAG_ESIM_PORT].
Definition opt_ok {A} (P : A -> Prop) (o : option A) : Prop := match o with Some a => P a | None => True end.
Definition card_profile_ok (c : card_profile) : Prop :=
  Forall (fun '(a, b) => 0 <= a < 16 /\ 0 <= b < 16) (cp_iccid c) /\ zlen (cp_iccid c) = 10 /\
  opt_ok text_ok (cp_nickname c) /\ opt_ok text_ok (cp_provider c) /\ opt_ok text_ok (cp_name c) /\ opt_ok operator_ok (cp_operator c) /\
  opt_ok is_u8 (cp_state c) /\ opt_ok is_u8 (cp_class c) /\ opt_ok (fun r => 0 <= r < 2 ^ 24) (cp_rules c) /\ opt_ok is_u8 (cp_port c) /\
  Forall (fun t => tag_of t ∉ PROFILE_TAGS) (cp_others c).

(** ** What applications are told of it *)

Definition digit (d : Z) : Z := code (hex_upper d).
Definition hex16 (bytes : list Z) : u16string := digit <$> (bytes ≫= nibbles).
Definition reported_operator (o : card_operator) : OperatorId :=
  let '(a, b, c) := co_mcc o in
  let '(d, e, f) := co_mnc o in
  MkOperatorId (digit <$> [a; b; c]) (digit <$> [d; e] ++ match f with Some f => [f] | None => [] end) (default [] (hex16 <$> co_gid1 o)) (default [] (hex16 <$> co_gid2 o)).
Definition reported (c : card_profile) : EuiccProfile :=
  MkEuiccProfile (digit <$> (cp_iccid c ≫= fun '(a, b) => [a; b])) (default [] (cp_nickname c)) (default [] (cp_provider c)) (default [] (cp_name c))
    (default ESIM_PROFILE_STATE_DISABLED (cp_state c)) (default PROFILE_CLASS_OPERATIONAL (cp_class c))
    (default OperatorId_new (reported_operator <$> cp_operator c)) (default 0 (cp_rules c)) (default 0 (cp_port c)).

(** ** Searching the elements *)

Lemma head_field tag o ts : head (List.filter (fun t => tag_of t =? tag) (field tag o ++ ts)) =
  match o with Some bytes => Some (Leaf tag bytes) | None => head (List.filter (fun t => tag_of t =? tag) ts) end.
Proof. destruct o; [|done]. cbn. by rewrite Z.eqb_refl. Qed.
Lemma head_other tag tag' o ts : (tag' =? tag) = false -> head (List.filter (fun t => tag_of t =? tag) (field tag' o ++ ts)) = head (List.filter (fun t => tag_of t =? tag) ts).
Proof. intros E. destruct o; [|done]. cbn. by rewrite E. Qed.
Lemma head_operator tag o ts : (TAG_ESIM_OPERATOR_ID =? tag) = false ->
  head (List.filter (fun t => tag_of t =? tag) (match o with Some o => [operator_tlv o] | None => [] end ++ ts)) = head (List.filter (fun t => tag_of t =? tag) ts).
Proof. intros E. destruct o; [|done]. cbn -[Z.eqb]. by rewrite E. Qed.
Lemma head_others tag ts : tag ∈ PROFILE_TAGS -> Forall (fun t => tag_of t ∉ PROFILE_TAGS) ts -> head (List.filter (fun t => tag_of t =? tag) ts) = None.
Proof.
  intros Htag. induction 1 as [|t ts Ht _ IH]; [done|]. cbn. destruct (Z.eqb_spec (tag_of t) tag) as [<-|]; done.
Qed.
Ltac search := unfold profile_tlv, operator_tlv; cbn [child_of];
  repeat first [rewrite head_other by reflexivity|rewrite head_operator by reflexivity|rewrite head_field];
  try (rewrite head_others; [|unfold PROFILE_TAGS; set_solver|assumption]).

Section Card.
Context (c : card_profile) (Hc : card_profile_ok c).
Let Hothers : Forall (fun t => tag_of t ∉ PROFILE_TAGS) (cp_others c).
Proof. apply Hc. Qed.
Lemma child_iccid : child_of TAG_ESIM_ICCID (profile_tlv c) = Some (Leaf TAG_ESIM_ICCID (bcd <$> cp_iccid c)).
Proof. by search. Qed.
Lemma child_nickname : child_of TAG_ESIM_NICKNAME (profile_tlv c) = (fun w => Leaf TAG_ESIM_NICKNAME (utf8_of w)) <$> cp_nickname c.
Proof. search. by destruct (cp_nickname c). Qed.
Lemma child_provider : child_of TAG_ESIM_OBTAIN_OPERATOR_NAME (profile_tlv c) = (fun w => Leaf TAG_ESIM_OBTAIN_OPERATOR_NAME (utf8_of w)) <$> cp_provider c.
Proof. search. by destruct (cp_provider c). Qed.
Lemma child_name : child_of TAG_ESIM_PROFILE_NAME (profile_tlv c) = (fun w => Leaf TAG_ESIM_PROFILE_NAME (utf8_of w)) <$> cp_name c.
Proof. search. by destruct (cp_name c). Qed.
Lemma child_state : child_of TAG_ESIM_PROFILE_STATE (profile_tlv c) = (fun v => Leaf TAG_ESIM_PROFILE_STATE [v]) <$> cp_state c.
Proof. search. by destruct (cp_state c). Qed.
Lemma child_class : child_of TAG_ESIM_PROFILE_CLASS (profile_tlv c) = (fun v => Leaf TAG_ESIM_PROFILE_CLASS [v]) <$> cp_class c.
Proof. search. by destruct (cp_class c). Qed.
Lemma child_rules : child_of TAG_ESIM_PROFILE_POLICY_RULE (profile_tlv c) = (fun v => Leaf TAG_ESIM_PROFILE_POLICY_RULE (bits_bytes v)) <$> cp_rules c.
Proof. search. by destruct (cp_rules c). Qed.
Lemma child_port : child_of TAG_ESIM_PORT (profile_tlv c) = (fun v => Leaf TAG_ESIM_PORT [v]) <$> cp_port c.
Proof. search. by destruct (cp_port c). Qed.
Lemma child_operator : child_of TAG_ESIM_OPERATOR_ID (profile_tlv c) = operator_tlv <$> cp_operator c.
Proof. search. destruct (cp_operator c); [done|]. cbn [app]. search. done. Qed.
End Card.
Lemma child_codes o : child_of TAG_ESIM_CTX_0 (operator_tlv o) = Some (Leaf TAG_ESIM_CTX_0 (operator_bytes o)).
Proof. done. Qed.
Lemma child_gid1 o : child_of TAG_ESIM_CTX_1 (operator_tlv o) = Leaf TAG_ESIM_CTX_1 <$> co_gid1 o.
Proof. search. by destruct (co_gid1 o). Qed.
Lemma child_gid2 o : child_of TAG_ESIM_CTX_2 (operator_tlv o) = Leaf TAG_ESIM_CTX_2 <$> co_gid2 o.
Proof. search. by destruct (co_gid2 o). Qed.

(** ** Texts and numbers *)

Lemma utf8_of_ok w : text_ok w -> exists s, utf8_of w = code <$> s /\ ToUtf16 s = Ret w /\ zlen s <= 64.
Proof. intros (Hw & s & Hs & Hl). exists s. unfold utf8_of. rewrite Hs. split; [done|]. split; [|done]. by apply utf8_and_back. Qed.
Lemma BytesToString_bytes bytes : bytes_ok bytes -> zlen bytes <= MAX_BPP_LENGTH -> BytesToString bytes = chr <$> bytes.
Proof. intros Hb Hl. unfold BytesToString, HexStrToString. by rewrite hex_bytes_roundtrip. Qed.
Lemma BytesToString_codes s : zlen s <= MAX_BPP_LENGTH -> BytesToString (code <$> s) = s.
Proof. intros Hl. rewrite BytesToString_bytes; [apply chr_codes|apply codes_u8|]. unfold zlen in *. by rewrite length_fmap. Qed.
Lemma digits_ascii ds : Forall (fun d => 0 <= d < 16) ds -> ascii_only (hex_upper <$> ds).
Proof. intros Hd. apply Forall_fmap. eapply Forall_impl; [exact Hd|]. intros d Hr. cbn beta in *. enum_Z d. Qed.
Lemma ToUtf16_digits ds : Forall (fun d => 0 <= d < 16) ds -> ToUtf16 (hex_upper <$> ds) = Ret (digit <$> ds).
Proof. intros Hd. rewrite ToUtf16_ascii by by apply digits_ascii. by rewrite <- list_fmap_compose. Qed.
Lemma nibbles_all bytes : bytes_ok bytes -> Forall (fun d => 0 <= d < 16) (bytes ≫= nibbles).
Proof. induction 1 as [|b bytes Hb _ IH]; [constructor|]. rewrite bind_cons. apply Forall_app. split; [by apply nibbles_range|done]. Qed.
Lemma ToUtf16_hex bytes : bytes_ok bytes -> zlen bytes <= MAX_BPP_LENGTH -> ToUtf16 (BytesToHexStr bytes) = Ret (hex16 bytes).
Proof. intros Hb Hl. rewrite BytesToHexStr_nibbles by done. apply ToUtf16_digits. by apply nibbles_all. Qed.

Lemma nibbles_bcd a b : 0 <= a < 16 -> 0 <= b < 16 -> nibbles (bcd (a, b)) = [b; a].
Proof. intros Ha Hb. unfold nibbles, bcd. cbn [fst snd]. f_equal; [|f_equal]; Z.to_euclidean_division_equations; lia. Qed.
Lemma bcd_ok digits : Forall (fun '(a, b) => 0 <= a < 16 /\ 0 <= b < 16) digits -> bytes_ok (bcd <$> digits).
Proof. intros Hd. apply Forall_fmap. eapply Forall_impl; [exact Hd|]. intros [a b] [??]. unfold is_u8, bcd. cbn. lia. Qed.
Lemma swap_bcd digits : Forall (fun '(a, b) => 0 <= a < 16 /\ 0 <= b < 16) digits ->
  swap_pairs (hex_upper <$> ((bcd <$> digits) ≫= nibbles)) = hex_upper <$> (digits ≫= fun '(a, b) => [a; b]).
Proof.
  induction 1 as [|[a b] digits [Ha Hb] _ IH]; [done|]. cbn [fmap list_fmap mbind list_bind]. fold (mbind nibbles). fold (mbind (fun '(a, b) => [a; b] : list Z)).
  rewrite nibbles_bcd by done. cbn. f_equal. f_equal. exact IH.
Qed.
Lemma pairs_range digits : Forall (fun '(a, b) => 0 <= a < 16 /\ 0 <= b < 16) digits -> Forall (fun d => 0 <= d < 16) (digits ≫= fun '(a, b) => [a; b]).
Proof. induction 1 as [|[a b] digits [Ha Hb] _ IH]; [constructor|]. apply Forall_cons_2; [done|]. by apply Forall_cons_2. Qed.
Lemma BchToString_bcd digits : Forall (fun '(a, b) => 0 <= a < 16 /\ 0 <= b < 16) digits -> zlen digits = 10 ->
  BchToString (bcd <$> digits) = hex_upper <$> (digits ≫= fun '(a, b) => [a; b]).
Proof.
  intros Hd Hl. pose proof (bcd_ok _ Hd) as Hb. assert (zlen (bcd <$> digits) = 10) as Hl' by (unfold zlen in *; by rewrite length_fmap).
  unfold BchToString, SwapHexCharPair. rewrite BytesToHexStr_zlen, Hl' by (done || rewrite Hl'; done). cbn [Z.mul Z.ltb]. change (2 * 10 mod BYTE_TO_HEX_LEN =? 0) with true.
  cbn. rewrite BytesToHexStr_nibbles by (done || rewrite Hl'; done). by apply swap_bcd.
Qed.
Lemma ByteOfInteger tag v : IsConstructedTag tag = false -> is_u8 v -> Asn1AsInteger (node_of (Leaf tag [v])) = v.
Proof.
  intros Ht Hv. rewrite node_of_new. cbn [tag_of body_of]. rewrite AsInteger_new; [|done|apply Forall_cons_2; [done|apply Forall_nil_2]|done].
  unfold be_value. cbn. rewrite i32_small; [lia|]. unfold is_u8, is_i32 in *. lia.
Qed.

(** ** Reading a profile *)

Section Reading.
Context {W : Type} `{ErrorCodes} `{!EsimPlatform W} `{Parcelables.StringEx}.
Import EsimFileRequest EsimFileDone.
Lemma reads_weaken {S A} T (ps ps' : list path) (m : reader S A) s a s' : reads T ps m s a s' -> ps ⊆ ps' -> reads T ps' m s a s'.
Proof. intros Hm Hps root known Hk HS. apply Hm; [set_solver|done]. Qed.
Lemma reads_when_child {S} T ps p t tag (then_ : path -> reader S unit) else_ s s' :
  p ∈ ps -> tlv_at T p = Some t ->
  match child_of tag t with Some c => forall q, tlv_at T q = Some c -> reads T [q] (then_ q) s tt s' | None => reads T [] else_ s tt s' end ->
  reads T ps (when_child p tag then_ else_) s tt s'.
Proof.
  intros Hp Ht Hf. unfold when_child. eapply reads_bind; [by eapply reads_has|]. destruct (child_of tag t) as [c|] eqn:E; cbn [is_Some bool_decide].
  - rewrite bool_decide_true by done. eapply reads_child; [done..|]. rewrite E. intros q Hq. eapply reads_weaken; [by apply Hf|set_solver].
  - rewrite bool_decide_false by by intros []. eapply reads_weaken; [done|set_solver].
Qed.
Lemma reads_in_object {S R A} T ps (m : reader R A) (t : R) a t' (s : S) : reads T ps m t a t' -> reads T ps (local m t) s (a, t') s.
Proof.
  intros Hm root known Hps HS. destruct (Hm root known Hps HS) as (root' & known' & E & ? & ?). exists root', known'. split; [|done].
  unfold local. by rewrite E.
Qed.

(** An element that may be missing leaves the field [get] alone then. *)
Lemma reads_element {S A B} T ps p t tag (o : option A) (leaf : A -> tlv) (val : A -> B) then_ (get : S -> B) (set : B -> S -> S) s :
  p ∈ ps -> tlv_at T p = Some t -> child_of tag t = leaf <$> o -> set (get s) s = s ->
  (forall q a, o = Some a -> tlv_at T q = Some (leaf a) -> reads T [q] (then_ q) s tt (set (val a) s)) ->
  reads T ps (when_child p tag then_ (mret tt)) s tt (set (default (get s) (val <$> o)) s).
Proof.
  intros Hp Ht Hchild Hget Hthen. eapply reads_when_child; [done..|]. rewrite Hchild. destruct o as [a|]; cbn.
  - intros q Hq. by apply Hthen.
  - rewrite Hget. apply reads_ret.
Qed.
Lemma reads_text T q tag s set (i : EuiccProfileInfo) : tlv_at T q = Some (Leaf tag (code <$> s)) -> zlen s <= 64 ->
  reads T [q] (text_of q set) i tt (set s i).
Proof.
  intros Hq Hl. eapply reads_bind; [eapply reads_AsBytes; [set_solver|done]|]. cbv beta iota. rewrite BytesToString_codes by (unfold MAX_BPP_LENGTH; lia). apply reads_out.
Qed.
Lemma reads_string_node {S} T q tag bytes set (s : S) get : tlv_at T q = Some (Leaf tag bytes) -> IsConstructedTag tag = false -> set (get s) s = s -> get s = [] ->
  reads T [q] (as_string q set) s tt (set (BytesToHexStr bytes) s).
Proof.
  intros Hq Ht Hget Hempty. eapply reads_bind; [eapply reads_read; [set_solver|done]|]. rewrite node_of_new. unfold Asn1AsString. cbn [constructed_ dataBytes_ Asn1Node_new tag_of body_of].
  rewrite Ht. destruct (Z.eqb_spec (zlen bytes) 0) as [Hz|]; [|apply reads_out]. rewrite (zlen_0_nil _ Hz). change (BytesToHexStr []) with (@nil ascii).
  rewrite <- Hempty, Hget. apply reads_ret.
Qed.

(** The operator, as the code keeps it in between. *)
Lemma reads_operator T q o i : tlv_at T q = Some (operator_tlv o) -> info_mccMnc i = [] -> info_gid1 i = [] -> info_gid2 i = [] ->
  reads T [q] (BuildOperatorId q) i tt
    (set_info_gid2 (default [] (BytesToHexStr <$> co_gid2 o)) (set_info_gid1 (default [] (BytesToHexStr <$> co_gid1 o)) (set_info_mccMnc (BytesToHexStr (operator_bytes o)) i))).
Proof.
  intros Hq Hm Hg1 Hg2. destruct i as [i1 i2 i3 i4 i5 i6 m g1 g2 i7 i8]. cbn in Hm, Hg1, Hg2. subst m g1 g2. unfold BuildOperatorId.
  eapply reads_bind; [|eapply reads_bind].
  - eapply reads_when_child; [set_solver|done|]. rewrite child_codes. intros q' Hq'. by eapply (reads_string_node _ _ _ _ _ _ info_mccMnc).
  - eapply (reads_element _ _ _ _ _ (co_gid1 o) _ BytesToHexStr _ info_gid1 set_info_gid1); [set_solver|done|apply child_gid1|done|].
    intros q' a _ Hq'. by eapply (reads_string_node _ _ _ _ _ _ info_gid1).
  - eapply (reads_element _ _ _ _ _ (co_gid2 o) _ BytesToHexStr _ info_gid2 set_info_gid2); [set_solver|done|apply child_gid2|done|].
    intros q' a _ Hq'. by eapply (reads_string_node _ _ _ _ _ _ info_gid2).
Qed.
Definition text (w : u16string) : cstring := chr <$> utf8_of w.
Lemma reads_text_of T q tag w set (i : EuiccProfileInfo) : text_ok w -> tlv_at T q = Some (Leaf tag (utf8_of w)) -> reads T [q] (text_of q set) i tt (set (text w) i).
Proof. intros Hw Hq. unfold text. destruct (utf8_of_ok w Hw) as (s & E & _ & Hl). rewrite E in *. rewrite chr_codes. by eapply reads_text. Qed.
Lemma reads_integer {S} T q tag v set (s : S) : is_u8 v -> IsConstructedTag tag = false -> tlv_at T q = Some (Leaf tag [v]) ->
  reads T [q] (ret ← read Asn1AsInteger q; out (set ret)) s tt (set v s).
Proof. intros Hv Ht Hq. eapply reads_bind; [eapply reads_read; [set_solver|done]|]. rewrite ByteOfInteger by done. apply reads_out. Qed.

Lemma reads_operators T ps p t o i : p ∈ ps -> tlv_at T p = Some t -> child_of TAG_ESIM_OPERATOR_ID t = operator_tlv <$> o -> info_mccMnc i = [] -> info_gid1 i = [] -> info_gid2 i = [] ->
  reads T ps (when_child p TAG_ESIM_OPERATOR_ID BuildOperatorId (mret tt)) i tt
    (set_info_gid2 (default [] (o ← o; BytesToHexStr <$> co_gid2 o)) (set_info_gid1 (default [] (o ← o; BytesToHexStr <$> co_gid1 o))
      (set_info_mccMnc (default [] ((fun o => BytesToHexStr (operator_bytes o)) <$> o)) i))).
Proof.
  intros Hp Ht Ho Hm Hg1 Hg2. eapply reads_when_child; [done..|]. rewrite Ho. destruct o as [o|]; cbn.
  - intros q Hq. by apply reads_operator.
  - destruct i. cbn in *. subst. apply reads_ret.
Qed.
(** A number, and one with a default. *)
Lemma reads_number {S} T ps p t tag o (get : S -> Z) set s :
  p ∈ ps -> tlv_at T p = Some t -> child_of tag t = (fun v => Leaf tag [v]) <$> o -> opt_ok is_u8 o -> IsConstructedTag tag = false -> set (get s) s = s ->
  reads T ps (when_child p tag (fun p => ret ← read Asn1AsInteger p; out (set ret)) (mret tt)) s tt (set (default (get s) o) s).
Proof.
  intros Hp Ht Hchild Ho Htag Hget. eapply reads_when_child; [done..|]. rewrite Hchild. destruct o as [v|]; cbn.
  - intros q Hq. by apply (reads_integer T q tag).
  - rewrite Hget. apply reads_ret.
Qed.
Lemma reads_default {S} T ps p t tag o (f : Z -> Z) set d (s : S) :
  p ∈ ps -> tlv_at T p = Some t -> child_of tag t = (fun v => Leaf tag [v]) <$> o -> opt_ok is_u8 o -> IsConstructedTag tag = false -> (forall v, 0 <= v -> f v = v) ->
  reads T ps (when_child p tag (fun p => ret ← read Asn1AsInteger p; out (set (f ret))) (out (set d))) s tt (set (default d o) s).
Proof.
  intros Hp Ht Hchild Ho Htag Hf. eapply reads_when_child; [done..|]. rewrite Hchild. destruct o as [v|]; cbn; [|apply reads_out].
  intros q Hq. rewrite <- (Hf v) by apply Ho. by apply (reads_integer T q tag v (fun v => set (f v))).
Qed.
Lemma reads_bits {S} T ps p t tag o (get : S -> Z) set s :
  p ∈ ps -> tlv_at T p = Some t -> child_of tag t = (fun v => Leaf tag (bits_bytes v)) <$> o -> opt_ok (fun r => 0 <= r < 2 ^ 24) o -> IsConstructedTag tag = false -> set (get s) s = s ->
  reads T ps (when_child p tag (fun p => ret ← read Asn1AsBits p; out (set ret)) (mret tt)) s tt (set (default (get s) o) s).
Proof.
  intros Hp Ht Hchild Ho Htag Hget. eapply reads_when_child; [done..|]. rewrite Hchild. destruct o as [v|]; cbn [fmap option_fmap option_map default opt_ok] in *; [|rewrite Hget; apply reads_ret].
  intros q Hq. eapply reads_bind; [eapply reads_read; [set_solver|exact Hq]|]. rewrite node_of_new. cbn [tag_of body_of].
  rewrite AsBits_bits_bytes; [|done|unfold is_u32; lia]. replace (v <? 2 ^ 24) with true by lia. apply reads_out.
Qed.
Lemma reads_ignored {S} T ps p t tag tag' (s : S) : p ∈ ps -> tlv_at T p = Some t -> reads T ps (when_child p tag (fun p => GetChildren p tag' [] ;; mret tt) (mret tt)) s tt s.
Proof.
  intros Hp Ht. eapply reads_when_child; [done..|]. destruct (child_of tag t) as [c|]; [|apply reads_ret].
  intros q Hq. eapply reads_children; [set_solver|done|]. intros. apply reads_ret.
Qed.

Section Profile.
Context (c : card_profile) (Hc : card_profile_ok c).
Lemma reads_advanced T ps p i : p ∈ ps -> tlv_at T p = Some (profile_tlv c) ->
  reads T ps (BuildAdvancedProfileInfo p) i tt
    (set_info_portIndex (default (info_portIndex i) (cp_port c)) (set_info_policyRules (default (info_policyRules i) (cp_rules c))
      (set_info_profileClass (default PROFILE_CLASS_OPERATIONAL (cp_class c)) (set_info_profileState (default ESIM_PROFILE_STATE_DISABLED (cp_state c)) i)))).
Proof.
  intros Hin Hp. destruct Hc as (_ & _ & _ & _ & _ & _ & Hs & Hcl & Hr & Hpo & Hot). unfold BuildAdvancedProfileInfo. destruct i as [i1 i2 i3 i4 i5 i6 i7 i8 i9 i10 i11].
  eapply reads_bind; [|eapply reads_bind; [|eapply reads_bind; [|eapply reads_bind]]].
  - eapply (reads_default _ _ _ _ _ _ (fun ret => if ret <? 0 then _ else ret)); [done|done|by apply child_state|done|done|]. intros v Hv. by replace (v <? 0) with false by lia.
  - eapply (reads_default _ _ _ _ _ _ (fun ret => ret)); [done|done|by apply child_class|done..].
  - eapply (reads_bits _ _ _ _ _ _ info_policyRules); [done|done|by apply child_rules|done..].
  - by eapply reads_ignored.
  - exact (reads_number T ps p (profile_tlv c) TAG_ESIM_PORT (cp_port c) info_portIndex set_info_portIndex _ Hin Hp (child_port c Hc) Hpo eq_refl eq_refl).
Qed.
(** What is read of a profile. *)
Definition info_of : EuiccProfileInfo :=
  let o := cp_operator c in
  MkProfileInfo (hex_upper <$> (cp_iccid c ≫= fun '(a, b) => [a; b])) (default [] (text <$> cp_nickname c)) (default [] (text <$> cp_provider c)) (default [] (text <$> cp_name c))
    (default PROFILE_CLASS_OPERATIONAL (cp_class c)) (default ESIM_PROFILE_STATE_DISABLED (cp_state c))
    (default [] ((fun o => BytesToHexStr (operator_bytes o)) <$> o)) (default [] (o ← o; BytesToHexStr <$> co_gid1 o)) (default [] (o ← o; BytesToHexStr <$> co_gid2 o))
    (default 0 (cp_rules c)) (default 0 (cp_port c)).
Lemma reads_basic T p : tlv_at T p = Some (profile_tlv c) -> reads T [p] (BuildBasicProfileInfo p) zero_info tt info_of.
Proof.
  intros Hp. destruct Hc as (Hi & Hl & Hn & Hpr & Hna & Ho & Hs & Hcl & Hr & Hpo & Hot). unfold BuildBasicProfileInfo.
  eapply reads_child; [set_solver|done|]. rewrite child_iccid. intros q Hq.
  eapply reads_bind; [eapply reads_AsBytes; [set_solver|done]|]. cbv beta iota. rewrite BchToString_bcd by done.
  eapply reads_bind; [apply reads_out|].
  eapply reads_bind.
  { eapply (reads_element _ _ _ _ _ _ _ text _ info_nickname set_info_nickname); [set_solver|done|by apply child_nickname|done|].
    intros q' w E Hq'. rewrite E in Hn. eapply reads_text_of; [done|exact Hq']. }
  eapply reads_bind.
  { eapply (reads_element _ _ _ _ _ _ _ text _ info_serviceProviderName set_info_serviceProviderName); [set_solver|done|by apply child_provider|done|].
    intros q' w E Hq'. rewrite E in Hpr. eapply reads_text_of; [done|exact Hq']. }
  eapply reads_bind.
  { eapply (reads_element _ _ _ _ _ _ _ text _ info_profileName set_info_profileName); [set_solver|done|by apply child_name|done|].
    intros q' w E Hq'. rewrite E in Hna. eapply reads_text_of; [done|exact Hq']. }
  eapply reads_bind; [eapply reads_operators; [set_solver|done|by apply child_operator|done..]|].
  apply (reads_advanced T (q :: [p]) p); [set_solver|done].
Qed.

(** The strings are converted back. *)
Lemma ToUtf16_text o : opt_ok text_ok o -> ToUtf16 (default [] (text <$> o)) = Ret (default [] o).
Proof.
  destruct o as [w|]; [|done]. cbn. intros Hw. destruct (utf8_of_ok w Hw) as (s & E & Hs & _). unfold text. rewrite E. by rewrite chr_codes.
Qed.
Lemma ToUtf16_gid o : opt_ok (fun g => bytes_ok g /\ zlen g <= 255) o -> ToUtf16 (default [] (BytesToHexStr <$> o)) = Ret (default [] (hex16 <$> o)).
Proof. destruct o as [g|]; [|done]. cbn. intros [Hb Hl]. apply ToUtf16_hex; [done|]. unfold MAX_BPP_LENGTH. lia. Qed.
Lemma c_str_digits ds : Forall (fun d => 0 <= d < 16) ds -> c_str (hex_upper <$> ds) = hex_upper <$> ds.
Proof. induction 1 as [|d ds Hd _ IH]; [done|]. cbn [fmap list_fmap c_str]. fold (fmap hex_upper ds). rewrite IH. rewrite decide_False; [done|]. intros E. revert E. enum_Z d; intros Hz; discriminate Hz. Qed.
Lemma text_digits ds : Forall (fun d => 0 <= d < 16) ds -> ToUtf16 (c_str (hex_upper <$> ds)) = Ret (digit <$> ds).
Proof. intros Hd. rewrite c_str_digits by done. by apply ToUtf16_digits. Qed.
Ltac by_digits := repeat (apply Forall_cons_2; [lia|]); apply Forall_nil_2.
Lemma operator_digits o : operator_ok o ->
  exists mcc mnc, SplitMccAndMnc (BytesToHexStr (operator_bytes o)) = Some (mcc, mnc) /\
    ToUtf16 mcc = Ret (mcc_ (reported_operator o)) /\ ToUtf16 mnc = Ret (mnc_ (reported_operator o)).
Proof.
  destruct o as [[[a b] c'] [[d e] f] g1 g2]. unfold operator_ok, is_digit. cbn. intros (Ha & Hb & Hc' & Hd & He & Hf & _).
  assert (bytes_ok (operator_bytes (MkCardOperator (a, b, c') (d, e, f) g1 g2))) as Hok.
  { unfold operator_bytes. cbn. change ([bcd (a, b); bcd (c', default 15 f); bcd (d, e)]) with (bcd <$> [(a, b); (c', default 15 f); (d, e)]). apply bcd_ok.
    repeat (apply Forall_cons_2; [destruct f; cbn; lia|]). apply Forall_nil_2. }
  rewrite BytesToHexStr_nibbles by (exact Hok || done). unfold operator_bytes. cbn [co_mcc co_mnc mbind list_bind app].
  rewrite !nibbles_bcd by (destruct f; cbn; lia). cbn [app fmap list_fmap SplitMccAndMnc].
  destruct f as [f|]; cbn [default from_option id] in *.
  - assert (Ascii.eqb (hex_upper f) "F"%char = false) as -> by (assert (0 <= f < 10) as Hr by lia; clear - Hr; enum_Z f). eexists _, _. split; [reflexivity|].
    split; [apply (text_digits [a; b; c'])|apply (text_digits [d; e; f])]; by_digits.
  - change (Ascii.eqb (hex_upper 15) "F"%char) with true. eexists _, _. split; [reflexivity|].
    split; [apply (text_digits [a; b; c'])|apply (text_digits [d; e])]; by_digits.
Qed.
Lemma converted : ConvertProfileInfoToApiStruct info_of = Ret (reported c).
Proof.
  destruct Hc as (Hi & Hl & Hn & Hpr & Hna & Ho & _). unfold ConvertProfileInfoToApiStruct, info_of. cbn [info_iccid info_nickname info_serviceProviderName info_profileName info_mccMnc info_gid1 info_gid2 info_profileState info_profileClass info_policyRules info_portIndex].
  rewrite ToUtf16_digits by by apply pairs_range. rewrite !ToUtf16_text by done. cbn [mbind outcome_bind]. unfold reported.
  destruct (cp_operator c) as [o|]; [|done]. cbn [fmap option_fmap option_map default from_option id mbind option_bind opt_ok] in *.
  destruct (operator_digits o Ho) as (mcc & mnc & -> & Hmcc & Hmnc). cbn [default from_option id]. rewrite Hmcc, Hmnc. cbn [mbind outcome_bind].
  destruct o as [[[a b] c'] [[d e] f] g1 g2]. unfold operator_ok in Ho. cbn in Ho. destruct Ho as (_ & _ & _ & _ & _ & _ & Hg1 & Hg2).
  rewrite !ToUtf16_gid by done. done.
Qed.
Lemma reads_profile T p (f : esim_file) : tlv_at T p = Some (profile_tlv c) -> reads T [p] (profile_of p) f (reported c) f.
Proof. intros Hp. eapply reads_bind; [apply reads_in_object; by apply reads_basic|]. apply reads_throws, converted. Qed.
End Profile.

(** ** Reading the list *)

Definition with_profiles (ps : list EuiccProfile) (f : esim_file) : esim_file := set_euiccProfileInfoList_ (set_profiles_ ps (euiccProfileInfoList_ f)) f.
Lemma reads_profiles T ps found cs (f : esim_file) : Forall2 (fun q c => tlv_at T q = Some c) found (profile_tlv <$> cs) -> Forall card_profile_ok cs -> found ⊆ ps ->
  reads T ps (add_profiles found) f tt (with_profiles (profiles_ (euiccProfileInfoList_ f) ++ (reported <$> cs)) f).
Proof.
  intros Hf Hcs. revert found f Hf. induction Hcs as [|c cs Hc _ IH]; intros found f Hf Hps; cbn [fmap list_fmap] in Hf.
  - apply Forall2_nil_inv_r in Hf as ->. cbn. rewrite app_nil_r. destruct f as [? ? ? ? ? ? ? ? ? ? ? ? ? [] ? ? ? ? ? ? ? ? ? ? ? ? ? ? ? ? ? ? ? ? ? ? ?]. apply reads_ret.
  - apply Forall2_cons_inv_r in Hf as (q & found' & Hq & Hf & ->). cbn [add_profiles]. eapply reads_bind; [eapply reads_has; [set_solver|done]|].
    rewrite child_iccid, bool_decide_true by done. eapply reads_bind; [eapply reads_bind; [eapply reads_weaken; [by apply (reads_profile c Hc)|set_solver]|apply reads_out]|].
    specialize (IH found' (with_profiles (profiles_ (euiccProfileInfoList_ f) ++ [reported c]) f) Hf ltac:(set_solver)).
    cbn [euiccProfileInfoList_ with_profiles set_euiccProfileInfoList_ profiles_ set_profiles_] in IH. rewrite <- app_assoc in IH. exact IH.
Qed.
Lemma profile_children cs : children_of TAG_ESIM_PROFILE_INFO (Branch TAG_ESIM_CTX_COMP_0 (profile_tlv <$> cs)) = profile_tlv <$> cs.
Proof. unfold children_of. induction cs as [|c cs IH]; [done|]. cbn -[Z.eqb profile_tlv]. change (tag_of (profile_tlv c) =? TAG_ESIM_PROFILE_INFO) with true. cbn iota. by rewrite IH. Qed.

Lemma parse_enc T : wf T -> zlen (enc T) < 2 ^ 32 - 1 -> Asn1ParseResponse (enc T) = Ret (Some (node_of T)).
Proof.
  intros Hw Hl. pose proof (wf_sound T Hw) as [Hs Ht]. pose proof (enc_zlen T Hw) as Hz. pose proof (sound_encoded_pos _ Hs) as Hp. unfold Asn1ParseResponse.
  rewrite u32_small by (unfold is_u32; lia). destruct (Z.eqb_spec (zlen (enc T)) 0); [lia|]. cbn [orb].
  unfold Asn1Decoder_new. rewrite Z.add_0_l, u32_small by (unfold is_u32; lia). replace (_ || _) with false by lia.
  unfold Asn1HasNextNode. cbn [Asn1Node.position_ end_]. replace (0 <? zlen (enc T)) with true by lia. cbn [negb].
  pose proof (decode_one (node_of T) [] [] (zlen (enc T)) Hs Ht) as Hd. rewrite app_nil_r in Hd. cbn [app] in Hd. change (zlen []) with 0 in Hd.
  unfold enc in *. rewrite Hd by lia. cbn [mbind outcome_bind]. fold (raw (node_of T)). by rewrite (raw_node_of T Hw).
Qed.
(** Code that reads what has been received. *)
Lemma read_received {A} T (m : reader esim_file A) (k : E W A) f w a f' : wf T -> zlen (enc T) <= MAX_BPP_LENGTH -> recvCombineStr_ f = BytesToHexStr (enc T) ->
  reads T [[]] m f a f' -> (given root := parse_received else k ;; in_tree root m) (MkEsim f w) = Ret (a, MkEsim f' w).
Proof.
  intros Hw Hl Hr Hm. destruct (reads_start _ _ _ _ _ Hw Hm) as [root' E]. unfold parse_received, member, lift, gets, pure, attempt, mbind, partial_bind. cbn [file].
  rewrite Hr, hex_bytes_roundtrip by (done || by apply enc_ok). unfold MAX_BPP_LENGTH in Hl. rewrite parse_enc by (done || lia). cbn. unfold in_tree. cbn [file world]. by rewrite E.
Qed.
(** What the handler makes of a response that has been received completely. *)
Lemma profiles_received cs f (w : W) : wf (profiles_tlv cs) -> Forall card_profile_ok cs -> zlen (enc (profiles_tlv cs)) <= MAX_BPP_LENGTH ->
  recvCombineStr_ f = BytesToHexStr (enc (profiles_tlv cs)) ->
  RealProcessRequestAllProfilesDone (MkEsim f w) =
  Ret (true, MkEsim (NotifyReady isAllProfileInfoReady_ (set_euiccProfileInfoList_ (MkProfileInfoList RESULT_EUICC_CARD_OK (reported <$> cs) (isRemovable_ (euiccProfileInfoList_ f))) f)) w).
Proof.
  intros Hw Hcs Hl Hr. eapply read_received; [done..|].
  eapply reads_child; [set_solver|done|]. change (child_of TAG_ESIM_CTX_COMP_0 (profiles_tlv cs)) with (Some (Branch TAG_ESIM_CTX_COMP_0 (profile_tlv <$> cs))). intros q Hq.
  eapply reads_children; [set_solver|done|]. intros found Hfound. rewrite profile_children in Hfound.
  eapply reads_bind; [apply reads_out|]. eapply reads_bind; [eapply reads_profiles; [done|done|set_solver]|].
  eapply reads_bind; [apply reads_out|]. eapply reads_bind; [apply reads_out|]. apply reads_ret.
Qed.
End Reading.
