(* ===== verification/EsimProfileList.v ===== *)
(** * Listing the profiles of an eSIM, from the call to the list

    [GetEuiccProfileInfoList] on a bench whose card holds any profiles and sends them in any parts. *)

From S2P Require Import Prelude CxxString Parcel Parcelables CoreServiceApi CoreManagers StrConvert Asn1Utils Asn1Node Asn1Builder Apdu EsimData EsimRequest EsimResponse EsimFile EsimBench EsimChannel Tlv EsimProfiles.
Open Scope Z_scope.
Open Scope esim_scope.
Import EsimFileRequest EsimFileDone EsimFile EsimBench.

(** A part of a response: more follows (of the length [sw2]), or it is the last. *)
Definition more (part : Z * cstring) : IccFileData := MkIccFileData SW1_MORE_RESPONSE part.1 part.2.
Definition final (part : cstring) : IccFileData := MkIccFileData SW1_VALUE_90 SW2_VALUE_00 part.
Definition in_parts (parts : list (Z * cstring)) (last : cstring) : list IccFileData := (more <$> parts) ++ [final last].

Implicit Types (f : esim_file) (w : bench).

(** ** The events of the bench *)

Lemma handle_event n t sc e rest log f Q : ends (ProcessEvent (Some e)) f (MkBench t sc rest log) (fun _ f' w' => ends (handle n Waiting) f' w' Q) -> ends (handle (S n) Waiting) f (MkBench t sc (e :: rest) log) Q.
Proof. intros He. cbn [handle]. apply op_ends_bind, ends_platform. intros a w' [= <- <-]. by apply op_ends_bind. Qed.
Lemma handle_none n t sc log f (Q : unit -> esim_file -> bench -> Prop) : Q tt f (MkBench t sc [] log) -> ends (handle n Waiting) f (MkBench t sc [] log) Q.
Proof. destruct n; [by apply op_ends_ret|]. intros HQ. cbn [handle]. apply op_ends_bind, ends_platform. intros a w' [= <- <-]. by apply op_ends_ret. Qed.
Lemma overtaking_none sc inb log f (Q : unit -> esim_file -> bench -> Prop) : Q tt f (MkBench Waiting sc inb log) -> ends (arrivals Overtaking) f (MkBench Waiting sc inb log) Q.
Proof. intros HQ. apply op_ends_bind, ends_platform. intros n w' [= <- <-]. cbn [handle]. apply op_ends_bind, ends_platform. intros a w' [= <- <-]. by apply op_ends_ret. Qed.
Lemma ends_event id obj func f w Q : find_func id (memberFuncMap_ (W := bench)) = Some func -> ends (func (Some (MkEvent id obj))) f w (fun _ => Q tt) -> ends (ProcessEvent (Some (MkEvent id obj))) f w Q.
Proof. intros Hf Hm. cbn [ProcessEvent event_id]. rewrite Hf. apply op_ends_bind. eapply op_ends_mono; [done|]. intros b f' w' HQ. by apply op_ends_ret. Qed.

(** What of the object the exchange needs. *)
Definition kept f f' : Prop := telRilManager_ f' = telRilManager_ f /\ euiccProfileInfoList_ f' = euiccProfileInfoList_ f.

Lemma bench_obtain sc log f : currentChannelId_ f <= 0 -> telRilManager_ f = true ->
  ends ObtainChannelSuccessExclusive f (MkBench Waiting sc [] log) (fun r f' w' => r = RESULT_EUICC_CARD_OK /\ w' = MkBench Waiting sc [] log /\ currentChannelId_ f' = 1 /\ nextSerialId_ f' = nextSerialId_ f /\ kept f f').
Proof.
  intros Hc Ht. destruct ISDR_converts as (aid & Haid & Haid'). apply op_ends_bind. eapply ends_lift; [exact Haid|]. unfold lock_channel, unlock_channel, IsLogicChannelOpen.
  apply op_ends_bind, ends_assign, op_ends_bind, op_ends_bind, ends_member, op_ends_ret. cbn [currentChannelId_ set_occupyChannelMutex_]. destruct (Z.ltb_spec 0 (currentChannelId_ f)); [lia|].
  apply op_ends_bind, op_ends_bind. eapply ends_lift; [exact Haid'|]. apply op_ends_bind, ends_platform. intros b w' [= <- <-]. cbn [BuildCallerInfo]. apply op_ends_bind, ends_member.
  cbn [telRilManager_ set_occupyChannelMutex_]. rewrite Ht. cbn [negb]. apply op_ends_bind, ends_member, ends_platform. intros [] w' [= <-].
  apply op_ends_bind, op_ends_bind, ends_platform. intros n w' [= <- <-]. apply handle_event. eapply ends_event; [reflexivity|].
  unfold ProcessEsimOpenChannelDone. change (1 <=? 0) with false. cbn iota. apply op_ends_bind, ends_assign, op_ends_bind, ends_member. cbn [occupyChannelMutex_ set_currentChannelId_ set_occupyChannelMutex_ negb].
  apply op_ends_ret, handle_none. apply op_ends_bind, op_ends_bind, ends_member, op_ends_ret. cbn [currentChannelId_ set_currentChannelId_]. change (0 <? 1) with true. cbn iota.
  apply op_ends_bind, ends_assign, op_ends_bind, ends_assign, op_ends_ret. done.
Qed.
Lemma bench_close log f : telRilManager_ f = true -> currentChannelId_ f = 1 ->
  ends SyncCloseChannel f (MkBench Waiting [] [] log) (fun _ f' w' => w' = MkBench Waiting [] [] log /\ kept f f' /\ currentChannelId_ f' = 0 /\ occupyChannelMutex_ f' = false).
Proof.
  intros Ht Hc. unfold SyncCloseChannel, lock_channel, unlock_channel, IsLogicChannelOpen. apply op_ends_bind, ends_assign, op_ends_bind. change (Z.to_nat NUMBER_TWO) with 2%nat. cbn [close_loop]. unfold IsLogicChannelOpen.
  apply op_ends_bind, op_ends_bind, ends_member, op_ends_ret. cbn [currentChannelId_ set_occupyChannelMutex_]. rewrite Hc. change (0 <? 1) with true. cbn [negb].
  apply op_ends_bind, op_ends_bind, ends_member. cbn [telRilManager_ set_occupyChannelMutex_]. rewrite Ht. cbn [negb]. apply op_ends_bind, ends_member, op_ends_bind, ends_member, ends_platform. intros [] w' [= <-].
  apply op_ends_bind, op_ends_bind, ends_platform. intros n w' [= <- <-]. apply handle_event. eapply ends_event; [reflexivity|]. apply op_ends_bind, ends_assign, op_ends_bind, ends_assign, op_ends_ret, handle_none.
  apply op_ends_bind, op_ends_bind, ends_member, op_ends_ret. cbn [currentChannelId_ set_aidStr_ set_currentChannelId_]. change (0 <? 0) with false. cbn [negb]. apply op_ends_ret.
  do 2 apply op_ends_bind, ends_assign. by apply ends_assign.
Qed.

(** ** The request *)

(** GetProfilesInfo with the tags of the elements that are read. *)
Definition profiles_request : cstring := str "BF2D0D5C0B5A909192B79F709599BF76".
Definition store_data (serial channel : Z) (data : cstring) : ApduSimIORequestInfo :=
  MkRequestInfo serial channel CLA_STORE_DATA INS_STORE_DATA P1_STORE_DATA_END 0 (zlen data / 2) data.
Definition get_response (serial channel : Z) (len : Z) : ApduSimIORequestInfo := MkRequestInfo serial channel 0 INS_GET_MORE_RESPONSE 0 0 (i32 (u32 len)) [].

Lemma bench_send d sc log f : currentChannelId_ f = 1 -> telRilManager_ f = true ->
  ends (ProcessRequestAllProfiles MSG_ESIM_REQUEST_ALL_PROFILES) f (MkBench Waiting (d :: sc) [] log) (fun sent f' w' =>
    sent = true /\ w' = MkBench Waiting sc [MkEvent MSG_ESIM_REQUEST_ALL_PROFILES (Response (Some d))] (log ++ [store_data (nextSerialId_ f) 1 profiles_request]) /\ f' = next_serial f).
Proof.
  intros Hc Ht. unfold ProcessRequestAllProfiles, if_open, IsLogicChannelOpen. apply op_ends_bind, op_ends_bind, ends_member, op_ends_ret. rewrite Hc. change (0 <? 1) with true. cbn [negb].
  apply op_ends_bind, op_ends_bind, ends_platform. intros mep w' [= <- <-]. apply op_ends_ret. unfold send_request, CommBuildOneApduReqInfo.
  match goal with |- context [Asn1BuilderToHexStr ?b] => assert (Asn1BuilderToHexStr b = (32, Some profiles_request, MkBuilder TAG_ESIM_GET_PROFILES [])) as -> by (vm_compute; reflexivity) end.
  apply op_ends_bind, op_ends_bind, op_ends_bind, ends_member, op_ends_ret. rewrite Hc.
  apply op_ends_bind. eapply ends_lift; [vm_compute; reflexivity|]. cbn [GetCommands fst apduCommandLst_]. unfold CopyApdCmdToReqInfo. apply op_ends_bind, ends_member, op_ends_bind, ends_assign, op_ends_ret.
  apply op_ends_bind, ends_member. cbn [telRilManager_ next_serial set_nextSerialId_]. rewrite Ht. cbn [negb]. unfold transmit. apply op_ends_bind, op_ends_bind, ends_member, ends_platform. intros a w' [= <- <-]. by apply op_ends_ret.
Qed.

(** ** The parts of the response *)

Definition response (d : IccFileData) : Event := MkEvent MSG_ESIM_REQUEST_ALL_PROFILES (Response (Some d)).
(** The card has the first of [ds] on the way. *)
Definition coming (ds : list IccFileData) (log : list ApduSimIORequestInfo) : bench :=
  match ds with [] => MkBench Waiting [] [] log | d :: ds => MkBench Waiting ds [response d] log end.

Lemma more_received part ds log f : telRilManager_ f = true ->
  ends (ProcessRequestAllProfilesDone (Some (response (more part)))) f (MkBench Waiting ds [] log) (fun _ f' w' =>
    recvCombineStr_ f' = recvCombineStr_ f ++ part.2 /\ kept f f' /\ currentChannelId_ f' = currentChannelId_ f /\ exists req, w' = coming ds (log ++ [req]) /\ instruction req = INS_GET_MORE_RESPONSE).
Proof.
  intros Ht. unfold ProcessRequestAllProfilesDone, receive. cbn [GetRawDataFromEvent response object]. apply op_ends_bind, ends_assign. unfold CommMergeRecvData, MergeRecvLongDataComplete.
  apply op_ends_bind, op_ends_bind, ends_member, op_ends_bind. cbn [newRecvData_ set_newRecvData_]. change (CombineResponseDataFinish (more part)) with RESPONS_DATA_NOT_FINISH.
  change (RESPONS_DATA_NOT_FINISH =? RESPONS_DATA_ERROR) with false. cbv iota zeta. apply op_ends_bind, ends_member, op_ends_bind, ends_assign. rewrite Z.eqb_refl. apply op_ends_bind.
  unfold ProcessIfNeedMoreResponse. cbn [sw1 more]. rewrite Z.eqb_refl. unfold new_codec, BuildStoreData_. apply op_ends_bind, op_ends_bind, ends_member, op_ends_ret. apply op_ends_bind.
  eapply ends_lift; [reflexivity|]. cbn [GetCommands fst apduCommandLst_ AddApdu app]. unfold CopyApdCmdToReqInfo. cbv zeta. apply op_ends_bind, op_ends_bind, ends_member, op_ends_bind, ends_assign, op_ends_ret. cbn [BuildCallerInfo].
  apply op_ends_bind, ends_member. cbn [telRilManager_ next_serial set_nextSerialId_ set_recvCombineStr_ set_newRecvData_]. rewrite Ht. cbn [negb]. apply op_ends_bind. unfold transmit. apply op_ends_bind, ends_member, ends_platform. intros a w' [= <- <-].
  do 2 apply op_ends_ret. change (RESPONS_DATA_NOT_FINISH =? RESPONS_DATA_FINISH) with false. cbn [andb]. apply op_ends_ret, op_ends_ret.
  cbn [recvCombineStr_ next_serial set_nextSerialId_ set_recvCombineStr_ set_newRecvData_ currentChannelId_]. split_and!; [done|done|done|]. eexists. split; [destruct ds; reflexivity|reflexivity].
Qed.
Section Listed.
Context (cs : list card_profile) (Hwf : wf (profiles_tlv cs)) (Hok : Forall card_profile_ok cs) (Hlen : zlen (enc (profiles_tlv cs)) <= MAX_BPP_LENGTH).
Definition listed (f f' : esim_file) : Prop :=
  euiccProfileInfoList_ f' = MkProfileInfoList RESULT_EUICC_CARD_OK (reported <$> cs) (isRemovable_ (euiccProfileInfoList_ f)) /\ telRilManager_ f' = telRilManager_ f /\
  currentChannelId_ f' = currentChannelId_ f /\ ready f' isAllProfileInfoReady_ = true.
Lemma last_received part ds log f : recvCombineStr_ f ++ part = BytesToHexStr (enc (profiles_tlv cs)) -> part <> [] ->
  ends (ProcessRequestAllProfilesDone (Some (response (final part)))) f (MkBench Waiting ds [] log) (fun _ f' w' => w' = MkBench Waiting ds [] log /\ listed f f').
Proof.
  intros Hr Hp. unfold ProcessRequestAllProfilesDone, receive. cbn [GetRawDataFromEvent response object]. apply op_ends_bind, ends_assign. unfold CommMergeRecvData, MergeRecvLongDataComplete.
  apply op_ends_bind, op_ends_bind, ends_member, op_ends_bind. cbn [newRecvData_ set_newRecvData_]. change (CombineResponseDataFinish (final part)) with RESPONS_DATA_FINISH.
  change (RESPONS_DATA_FINISH =? RESPONS_DATA_ERROR) with false. cbv iota zeta. apply op_ends_bind, ends_member, op_ends_bind, ends_assign. change (RESPONS_DATA_FINISH =? RESPONS_DATA_NOT_FINISH) with false. cbv iota. apply op_ends_ret.
  rewrite Z.eqb_refl. cbn [resultData final andb]. destruct (Z.eqb_spec (zlen part) 0) as [Hz|]; [by apply zlen_0_nil in Hz|]. change (RESPONS_DATA_FINISH =? RESPONS_DATA_ERROR) with false. cbv iota. apply op_ends_ret.
  eexists _, _, _. split; [apply (profiles_received cs); [done..|]; exact Hr|]. split; [done|]. unfold listed, NotifyReady. cbn. by rewrite decide_True by done.
Qed.
Lemma parts_received parts : forall last f log n, recvCombineStr_ f ++ concat parts.*2 ++ last = BytesToHexStr (enc (profiles_tlv cs)) -> last <> [] -> telRilManager_ f = true ->
  (length parts < n)%nat ->
  ends (handle n Waiting) f (coming (in_parts parts last) log) (fun _ f' w' => exists reqs, w' = MkBench Waiting [] [] (log ++ reqs) /\ instruction <$> reqs = replicate (length parts) INS_GET_MORE_RESPONSE /\ listed f f').
Proof.
  induction parts as [|part parts IH]; intros last f log n Hr Hl Ht Hn; (destruct n as [|n]; [cbn in Hn; lia|]); cbn [in_parts app fmap list_fmap coming].
  - apply handle_event. eapply ends_event; [reflexivity|]. eapply op_ends_mono; [by apply (last_received last [] log)|]. intros ? f' w' [-> Hf]. apply handle_none. exists []. by rewrite app_nil_r.
  - apply handle_event. eapply ends_event; [reflexivity|]. eapply op_ends_mono; [by apply more_received|]. intros ? f1 w1 (Hr1 & [Ht1 Hl1] & Hc1 & req & -> & Hq).
    eapply op_ends_mono; [apply (IH last f1)|].
    + rewrite Hr1, <- Hr. cbn [fmap list_fmap concat]. by rewrite <- !app_assoc.
    + done.
    + congruence.
    + cbn in Hn. lia.
    + intros ? f' w' (reqs & -> & Hreqs & Hf). exists (req :: reqs). rewrite <- app_assoc. cbn. rewrite Hq, Hreqs. split_and!; [done..|]. unfold listed in *. by rewrite Hl1, Ht1, Hc1 in Hf.
Qed.
End Listed.

(** ** The list *)


Definition str16 (w : u16string) : string := string_of_list_ascii (chr <$> w).
(** Two profiles, the second with its ICCID only, sent in two parts. *)
Definition two_profiles : list card_profile := [
  MkCardProfile [(8, 9); (8, 6); (0, 0); (1, 2); (3, 4); (5, 6); (7, 8); (9, 0); (1, 2); (3, 15)] (Some (code <$> str "Work")) (Some (code <$> str "Operator")) None
    (Some (MkCardOperator (4, 6, 0) (0, 1, None) (Some [0xAB]) None)) (Some 1) (Some 2) (Some 6) (Some 0) [Leaf 0x94 [1; 2; 3]];
  MkCardProfile [(8, 9); (8, 6); (0, 0); (1, 2); (3, 4); (5, 6); (7, 8); (9, 0); (1, 2); (4, 15)] None None None None None None None None []].
Definition two_parts : cstring * cstring := let s := BytesToHexStr (enc (profiles_tlv two_profiles)) in (take 100 s, drop 100 s).
Example two_profiles_reported :
  (fun p => (str16 (iccId_ p), str16 (nickName_ p), str16 (mcc_ (carrierId_ p)), str16 (mnc_ (carrierId_ p)), state_ p)) <$> (reported <$> two_profiles) =
  [("8986001234567890123F", "Work", "460", "01", 1); ("8986001234567890124F", "", "", "", 0)]%string.
Proof. vm_compute. reflexivity. Qed.
