(* ===== verification/TelRilBase.v ===== *)
(** * Requests to the modem

    [services/tel_ril/include/tel_ril_base.h], [tel_ril_base.cpp], and the part of [tel_ril_sim.cpp] that reads and writes files of a card. A request keeps the event of its
    caller under a serial number until the modem answers with this number; the answer, or the error, is then sent to the owner of the event. *)

From S2P Require Import Prelude CxxString Parcel Parcelables CoreServiceApi.
Open Scope Z_scope.

(** A pointer is compared with null. *)
Definition is_null {A} (p : option A) : bool := match p with Some _ => false | None => true end.

(** ** Events

    [AppExecFwk::InnerEvent]: an id, a parameter, the handler that owns it, and an object. *)
Record InnerEvent (P : Type) : Type := MkInnerEvent { GetInnerEventId : Z; GetParam : Z; GetOwner : option Z; GetObject : P }.
Arguments MkInnerEvent {P}. Arguments GetInnerEventId {P}. Arguments GetParam {P}. Arguments GetOwner {P}. Arguments GetObject {P}.
#[global] Instance InnerEvent_eq_dec {P} `{EqDecision P} : EqDecision (InnerEvent P).
Proof. solve_decision. Defined.

(** An event on its way to a handler. *)
Record sending (Q : Type) : Type := MkSending { receiver : Z; sent_id : Z; sent_object : Q }.
Arguments MkSending {Q}. Arguments receiver {Q}. Arguments sent_id {Q}. Arguments sent_object {Q}.

Definition sending_map {Q R} (f : Q -> R) (s : sending Q) : sending R := MkSending (receiver s) (sent_id s) (f (sent_object s)).

Definition as_sent {Q R} (f : Q -> R) (s : Z * option (sending Q)) : Z * option (sending R) := (s.1, sending_map f <$> s.2).

Record RadioResponseInfo : Type := MkRadioResponseInfo { flag : Z; serial : Z; error : Z }.
#[global] Instance RadioResponseInfo_eq_dec : EqDecision RadioResponseInfo.
Proof. solve_decision. Defined.

Module TelRilBase.
Definition INT32_MAX : Z := 2147483647.
Definition ERR_NONE : Z := 0.
Definition ERR_GENERIC_FAILURE : Z := 1.

Section Base.
Context {P : Type} `{ErrorCodes}.

(** [pointer_] is null where the caller gave no event. *)
Record TelRilRequest : Type := MkTelRilRequest { serialId_ : Z; pointer_ : option (InnerEvent P) }.

(** The map and the next serial number are shared by the objects of all slots. *)
Record TelRilBase : Type := MkTelRilBase {
  nextSerialId_ : Z;
  requestMap_ : gmap Z TelRilRequest;
  rilInterface_ : bool;
  slotId_ : Z;
  whiteReqList_ : list cstring }.

Definition GetNextSerialId (b : TelRilBase) : Z * TelRilBase :=
  let n := if INT32_MAX <=? nextSerialId_ b then 1 else nextSerialId_ b in
  (n, MkTelRilBase (n + 1) (requestMap_ b) (rilInterface_ b) (slotId_ b) (whiteReqList_ b)).

Definition set_requestMap (m : gmap Z TelRilRequest) (b : TelRilBase) : TelRilBase :=
  MkTelRilBase (nextSerialId_ b) m (rilInterface_ b) (slotId_ b) (whiteReqList_ b).

(** [std::map::insert] keeps a request that has the number already. *)
Definition CreateTelRilRequest (result : option (InnerEvent P)) (b : TelRilBase) : TelRilRequest * TelRilBase :=
  let '(n, b) := GetNextSerialId b in
  let telRilRequest := MkTelRilRequest n result in
  (telRilRequest, match requestMap_ b !! n with Some _ => b | None => set_requestMap (<[n := telRilRequest]> (requestMap_ b)) b end).

Definition FindTelRilRequest (responseInfo : RadioResponseInfo) (b : TelRilBase) : option TelRilRequest * TelRilBase :=
  match requestMap_ b !! serial responseInfo with
  | None => (None, b)
  | Some r => (Some r, set_requestMap (delete (serial responseInfo) (requestMap_ b)) b)
  end.

(** [GetDynamicPowerOffModeSwitchWithStr] reads a system parameter. *)
Definition IsNeedBlockTelRilRequest (GetDynamicPowerOffModeSwitchWithStr : bool) (funcName : cstring) (b : TelRilBase) : bool :=
  GetDynamicPowerOffModeSwitchWithStr && negb (bool_decide (funcName ∈ whiteReqList_ b)).

(** Either an error code, or the slot and the serial number that the driver is called with; what the driver returns is then returned. *)
Definition Request (switch : bool) (funcName : cstring) (response : option (InnerEvent P)) (b : TelRilBase) : (Z + Z * Z) * TelRilBase :=
  if negb (rilInterface_ b) then (inl TELEPHONY_ERR_LOCAL_PTR_NULL, b)
  else if IsNeedBlockTelRilRequest switch funcName b then (inl TELEPHONY_ERR_PERMISSION_ERR, b)
  else let '(telRilRequest, b) := CreateTelRilRequest response b in (inr (slotId_ b, serialId_ telRilRequest), b).

(** [SendTelEvent] fails without a handler. *)
Definition SendEventData {Q} (eventId : Z) (handler : option Z) (data : Q) : Z * option (sending Q) :=
  match handler with
  | None => (TELEPHONY_ERR_IPC_CONNECT_STUB_FAIL, None)
  | Some h => (TELEPHONY_ERR_SUCCESS, Some (MkSending h eventId data))
  end.

Definition SendHandlerEvent {Q} (funcName : cstring) (r : TelRilRequest) (getDataFunc : TelRilRequest -> Q) : outcome (Z * option (sending Q)) :=
  match pointer_ r with
  | None => Undef
  | Some e =>
      let handler := GetOwner e in
      if is_null handler && negb (bool_decide (funcName = str "SetDeviceStateResponse")) && negb (bool_decide (funcName = str "SetNotificationFilterResponse"))
      then Ret (TELEPHONY_ERR_LOCAL_PTR_NULL, None)
      else Ret (SendEventData (GetInnerEventId e) handler (getDataFunc r))
  end.

Definition ErrorResponse (r : option TelRilRequest) (responseInfo : RadioResponseInfo) : Z * option (sending RadioResponseInfo) :=
  match r ≫= pointer_ with
  | Some e =>
      match GetOwner e with
      | None => (TELEPHONY_ERR_LOCAL_PTR_NULL, None)
      | Some handler =>
          (error responseInfo, Some (MkSending handler (GetInnerEventId e) (MkRadioResponseInfo (i32 (GetParam e)) (serial responseInfo) (error responseInfo))))
      end
  | None => (TELEPHONY_ERR_LOCAL_PTR_NULL, None)
  end.

(** What an answer of the modem becomes: the data on success, the error else. *)
Definition Response {Q} (funcName : cstring) (radioResponseInfo : RadioResponseInfo) (getDataFunc : TelRilRequest -> Q) (b : TelRilBase) :
    outcome (Z * option (sending (RadioResponseInfo + Q)) * TelRilBase) :=
  let '(r, b) := FindTelRilRequest radioResponseInfo b in
  match r with
  | None => Ret (TELEPHONY_ERR_ARGUMENT_INVALID, None, b)
  | Some r =>
      if is_null (pointer_ r) then Ret (TELEPHONY_ERR_ARGUMENT_INVALID, None, b)
      else if negb (error radioResponseInfo =? ERR_NONE) then
        Ret (as_sent inl (ErrorResponse (Some r) radioResponseInfo), b)
      else
        s ← SendHandlerEvent funcName r getDataFunc;
        Ret (as_sent inr s, b)
  end.
End Base.
Arguments TelRilRequest : clear implicits. Arguments TelRilBase : clear implicits.
End TelRilBase.
