(* ===== verification/IccFileController.v ===== *)
(** * Reading and writing the files of a card

    [services/sim/src/icc_file_controller.cpp] and the controllers of the kinds of cards, which know where the files are. A file is read in several exchanges with the card: its size
    first, then its contents, record by record. What is known so far travels with the requests, in an [IccControllerHolder]. *)

From S2P Require Import Prelude CxxString SimUtils Parcel Parcelables CoreServiceApi TelRilBase.
Open Scope Z_scope.

(** ** Constants ([sim_constant.h]) *)

Inductive ElementaryFile : Type :=
| ELEMENTARY_FILE_PL | ELEMENTARY_FILE_VOICE_MAIL_INDICATOR_CPHS | ELEMENTARY_FILE_CFF_CPHS | ELEMENTARY_FILE_SPN_CPHS | ELEMENTARY_FILE_CSP_CPHS
| ELEMENTARY_FILE_INFO_CPHS | ELEMENTARY_FILE_MAILBOX_CPHS | ELEMENTARY_FILE_SPN_SHORT_CPHS | ELEMENTARY_FILE_ICCID | ELEMENTARY_FILE_OPL5G
| ELEMENTARY_FILE_IMG | ELEMENTARY_FILE_HPLMN | ELEMENTARY_FILE_SST | ELEMENTARY_FILE_ADN | ELEMENTARY_FILE_FDN | ELEMENTARY_FILE_SMS
| ELEMENTARY_FILE_GID1 | ELEMENTARY_FILE_GID2 | ELEMENTARY_FILE_MSISDN | ELEMENTARY_FILE_SPN | ELEMENTARY_FILE_SDN | ELEMENTARY_FILE_EXT1
| ELEMENTARY_FILE_EXT2 | ELEMENTARY_FILE_EXT3 | ELEMENTARY_FILE_EXT4 | ELEMENTARY_FILE_PLMN_W_ACT | ELEMENTARY_FILE_OPLMN_W_ACT
| ELEMENTARY_FILE_HPLMN_W_ACT | ELEMENTARY_FILE_FPLMN | ELEMENTARY_FILE_AD | ELEMENTARY_FILE_PNN | ELEMENTARY_FILE_OPL | ELEMENTARY_FILE_MBDN
| ELEMENTARY_FILE_EXT6 | ELEMENTARY_FILE_MBI | ELEMENTARY_FILE_MWIS | ELEMENTARY_FILE_CFIS | ELEMENTARY_FILE_PBR | ELEMENTARY_FILE_LI
| ELEMENTARY_FILE_EXT5 | ELEMENTARY_FILE_SPDI | ELEMENTARY_FILE_EHPLMN | ELEMENTARY_FILE_LRPLMNSI | ELEMENTARY_FILE_HPPLMN | ELEMENTARY_FILE_USIM_ADN
| ELEMENTARY_FILE_USIM_IAP | ELEMENTARY_FILE_CST | ELEMENTARY_FILE_RUIM_SPN | ELEMENTARY_FILE_CSIM_LI | ELEMENTARY_FILE_CSIM_SPN
| ELEMENTARY_FILE_CSIM_MDN | ELEMENTARY_FILE_CSIM_IMSIM | ELEMENTARY_FILE_CSIM_CDMAHOME | ELEMENTARY_FILE_CSIM_EPRL | ELEMENTARY_FILE_CSIM_MIPUPP
| ELEMENTARY_FILE_IMPU | ELEMENTARY_FILE_IMPI | ELEMENTARY_FILE_DOMAIN | ELEMENTARY_FILE_IST | ELEMENTARY_FILE_PCSCF.

Definition ef (f : ElementaryFile) : Z :=
  match f with
| ELEMENTARY_FILE_PL => 0x2F05 | ELEMENTARY_FILE_VOICE_MAIL_INDICATOR_CPHS => 0x6F11 | ELEMENTARY_FILE_CFF_CPHS => 0x6F13
| ELEMENTARY_FILE_SPN_CPHS => 0x6F14 | ELEMENTARY_FILE_CSP_CPHS => 0x6F15 | ELEMENTARY_FILE_INFO_CPHS => 0x6F16
| ELEMENTARY_FILE_MAILBOX_CPHS => 0x6F17 | ELEMENTARY_FILE_SPN_SHORT_CPHS => 0x6F18 | ELEMENTARY_FILE_ICCID => 0x2FE2
| ELEMENTARY_FILE_OPL5G => 0x4F08 | ELEMENTARY_FILE_IMG => 0x4F20 | ELEMENTARY_FILE_HPLMN => 0x6F31 | ELEMENTARY_FILE_SST => 0x6F38
| ELEMENTARY_FILE_ADN => 0x6F3A | ELEMENTARY_FILE_FDN => 0x6F3B | ELEMENTARY_FILE_SMS => 0x6F3C | ELEMENTARY_FILE_GID1 => 0x6F3E
| ELEMENTARY_FILE_GID2 => 0x6F3F | ELEMENTARY_FILE_MSISDN => 0x6F40 | ELEMENTARY_FILE_SPN => 0x6F46 | ELEMENTARY_FILE_SDN => 0x6F49
| ELEMENTARY_FILE_EXT1 => 0x6F4A | ELEMENTARY_FILE_EXT2 => 0x6F4B | ELEMENTARY_FILE_EXT3 => 0x6F4C | ELEMENTARY_FILE_EXT4 => 0x6F4E
| ELEMENTARY_FILE_PLMN_W_ACT => 0x6F60 | ELEMENTARY_FILE_OPLMN_W_ACT => 0x6F61 | ELEMENTARY_FILE_HPLMN_W_ACT => 0x6F62
| ELEMENTARY_FILE_FPLMN => 0x6F7B | ELEMENTARY_FILE_AD => 0x6FAD | ELEMENTARY_FILE_PNN => 0x6FC5 | ELEMENTARY_FILE_OPL => 0x6FC6
| ELEMENTARY_FILE_MBDN => 0x6FC7 | ELEMENTARY_FILE_EXT6 => 0x6FC8 | ELEMENTARY_FILE_MBI => 0x6FC9 | ELEMENTARY_FILE_MWIS => 0x6FCA
| ELEMENTARY_FILE_CFIS => 0x6FCB | ELEMENTARY_FILE_PBR => 0x4F30 | ELEMENTARY_FILE_LI => 0x6F05 | ELEMENTARY_FILE_EXT5 => 0x6F4E
| ELEMENTARY_FILE_SPDI => 0x6FCD | ELEMENTARY_FILE_EHPLMN => 0x6FD9 | ELEMENTARY_FILE_LRPLMNSI => 0x6FDC | ELEMENTARY_FILE_HPPLMN => 0x6F31
| ELEMENTARY_FILE_USIM_ADN => 0x4F3A | ELEMENTARY_FILE_USIM_IAP => 0x4F3B | ELEMENTARY_FILE_CST => 0x6F32 | ELEMENTARY_FILE_RUIM_SPN => 0x6F41
| ELEMENTARY_FILE_CSIM_LI => 0x6F3A | ELEMENTARY_FILE_CSIM_SPN => 0x6F41 | ELEMENTARY_FILE_CSIM_MDN => 0x6F44 | ELEMENTARY_FILE_CSIM_IMSIM => 0x6F22
| ELEMENTARY_FILE_CSIM_CDMAHOME => 0x6F28 | ELEMENTARY_FILE_CSIM_EPRL => 0x6F5A | ELEMENTARY_FILE_CSIM_MIPUPP => 0x6F4D
| ELEMENTARY_FILE_IMPU => 0x6F04 | ELEMENTARY_FILE_IMPI => 0x6F02 | ELEMENTARY_FILE_DOMAIN => 0x6F03 | ELEMENTARY_FILE_IST => 0x6F07
| ELEMENTARY_FILE_PCSCF => 0x6F09
  end.

(** [case f1: case f2: ...] *)
Definition is_ef (efId : Z) (fs : list ElementaryFile) : bool := existsb (fun f => efId =? ef f) fs.

Inductive ControllerRequest : Type :=
| CONTROLLER_REQ_READ_BINARY | CONTROLLER_REQ_UPDATE_BINARY | CONTROLLER_REQ_READ_RECORD | CONTROLLER_REQ_UPDATE_RECORD | CONTROLLER_REQ_SEEK | CONTROLLER_REQ_GET_RESPONSE.
Definition request_code (r : ControllerRequest) : Z :=
  match r with
  | CONTROLLER_REQ_READ_BINARY => 0xb0 | CONTROLLER_REQ_UPDATE_BINARY => 0xd6 | CONTROLLER_REQ_READ_RECORD => 0xb2
  | CONTROLLER_REQ_UPDATE_RECORD => 0xdc | CONTROLLER_REQ_SEEK => 0xa2 | CONTROLLER_REQ_GET_RESPONSE => 0xc0
  end.

Definition ELEMENTARY_FILE_TYPE_TRANSPARENT : Z := 0.
Definition ELEMENTARY_FILE_TYPE_LINEAR_FIXED : Z := 1.
Definition ICC_ELEMENTARY_FILE : Z := 4.
Definition GET_RESPONSE_ELEMENTARY_FILE_SIZE_BYTES : Z := 15.
Definition GET_RESPONSE_ELEMENTARY_FILE_IMG_SIZE_BYTES : Z := 10.
Definition SIZE_ONE_OF_FILE : Z := 2.
Definition SIZE_TWO_OF_FILE : Z := 3.
Definition TYPE_OF_FILE : Z := 6.
Definition STRUCTURE_OF_DATA : Z := 13.
Definition LENGTH_OF_RECORD : Z := 14.
Definition INVALID_VALUE : Z := -1.
Definition ICC_FILE_CURRENT_MODE : Z := 4.

Inductive ControllerMessage : Type :=
| MSG_SIM_OBTAIN_SIZE_OF_FIXED_ELEMENTARY_FILE_DONE | MSG_SIM_OBTAIN_FIXED_ELEMENTARY_FILE_DONE | MSG_SIM_OBTAIN_SIZE_OF_TRANSPARENT_ELEMENTARY_FILE_DONE
| MSG_SIM_OBTAIN_TRANSPARENT_ELEMENTARY_FILE_DONE | MSG_SIM_OBTAIN_SIZE_OF_LINEAR_ELEMENTARY_FILE_DONE | MSG_SIM_UPDATE_TRANSPARENT_ELEMENTARY_FILE_DONE
| MSG_SIM_UPDATE_LINEAR_FIXED_FILE_DONE | MSG_SIM_OBTAIN_INVALID_RECORD_OF_FIXED_ELEMENTARY_FILE_DONE | MSG_SIM_OBTAIN_ICON_DONE.
Definition message_id (m : ControllerMessage) : Z :=
  match m with
  | MSG_SIM_OBTAIN_SIZE_OF_FIXED_ELEMENTARY_FILE_DONE => 1 | MSG_SIM_OBTAIN_FIXED_ELEMENTARY_FILE_DONE => 2 | MSG_SIM_OBTAIN_SIZE_OF_TRANSPARENT_ELEMENTARY_FILE_DONE => 3
  | MSG_SIM_OBTAIN_TRANSPARENT_ELEMENTARY_FILE_DONE => 4 | MSG_SIM_OBTAIN_SIZE_OF_LINEAR_ELEMENTARY_FILE_DONE => 5 | MSG_SIM_UPDATE_TRANSPARENT_ELEMENTARY_FILE_DONE => 6
  | MSG_SIM_UPDATE_LINEAR_FIXED_FILE_DONE => 7 | MSG_SIM_OBTAIN_INVALID_RECORD_OF_FIXED_ELEMENTARY_FILE_DONE => 8 | MSG_SIM_OBTAIN_ICON_DONE => 10
  end.
#[global] Instance ControllerMessage_eq_dec : EqDecision ControllerMessage.
Proof. solve_decision. Defined.
Definition ControllerMessages : list ControllerMessage :=
  [MSG_SIM_OBTAIN_SIZE_OF_FIXED_ELEMENTARY_FILE_DONE; MSG_SIM_OBTAIN_FIXED_ELEMENTARY_FILE_DONE; MSG_SIM_OBTAIN_SIZE_OF_TRANSPARENT_ELEMENTARY_FILE_DONE;
   MSG_SIM_OBTAIN_TRANSPARENT_ELEMENTARY_FILE_DONE; MSG_SIM_OBTAIN_SIZE_OF_LINEAR_ELEMENTARY_FILE_DONE; MSG_SIM_UPDATE_TRANSPARENT_ELEMENTARY_FILE_DONE;
   MSG_SIM_UPDATE_LINEAR_FIXED_FILE_DONE; MSG_SIM_OBTAIN_INVALID_RECORD_OF_FIXED_ELEMENTARY_FILE_DONE; MSG_SIM_OBTAIN_ICON_DONE].
(** The [switch] of the event handler looks for the message that has the id. *)
Definition message_of (id : Z) : option ControllerMessage := List.find (fun m => message_id m =? id) ControllerMessages.
Definition MSG_SIM_OBTAIN_ICC_FILE_DONE : Z := 100.

(** ** Data ([sim_data_type.h], [tel_ril_sim_parcel.h]) *)

Record SimIoRequestInfo : Type := MkSimIoRequestInfo { command : Z; fileId_req : Z; p1 : Z; p2 : Z; p3 : Z; data : cstring; path : cstring; pin2 : cstring }.
Record IccIoResultInfo : Type := MkIccIoResultInfo { io_sw1 : Z; io_sw2 : Z; response : cstring }.
#[global] Instance SimIoRequestInfo_eq_dec : EqDecision SimIoRequestInfo.
Proof. solve_decision. Defined.

Record IccFileData : Type := MkIccFileData { sw1 : Z; sw2 : Z; resultData : cstring; exception : option RadioResponseInfo }.
Definition IccFileData_new : IccFileData := MkIccFileData 0 0 [] None.

Section Data.
(** [L]: what a caller attaches to its request ([iccLoader], a pointer to any object). *)
Context {L : Type}.

Record FileToControllerMsg : Type := MkFileToControllerMsg { arg1 : Z; arg2 : Z; iccLoader : option L }.
Definition FileToControllerMsg_new : FileToControllerMsg := MkFileToControllerMsg INVALID_VALUE INVALID_VALUE None.

(** The structs that are sent to the caller start with the contents of its own message, if it attached one. *)
Definition from_command (cmd : option FileToControllerMsg) : FileToControllerMsg := default FileToControllerMsg_new cmd.
Record ControllerToFileMsg : Type := MkControllerToFileMsg { command_of : FileToControllerMsg; file_data : IccFileData }.
Definition ControllerToFileMsg_new (cmd : option FileToControllerMsg) (fd : option IccFileData) : ControllerToFileMsg :=
  MkControllerToFileMsg (from_command cmd) (default IccFileData_new fd).
Record EfLinearResult : Type := MkEfLinearResult { ef_command : FileToControllerMsg; valueData : Z * Z * Z; ef_exception : option RadioResponseInfo }.
Record MultiRecordResult : Type := MkMultiRecordResult { mr_command : FileToControllerMsg; mr_fileResults : list cstring; resultLength : Z; mr_exception : option RadioResponseInfo }.

(** The events that a caller hands over hold its message, as a unique object, or something else. *)
Definition caller : Type := InnerEvent (option FileToControllerMsg).

Record IccControllerHolder : Type := MkIccControllerHolder {
  fileId : Z; fileNum : Z; fileSize : Z; countFiles : Z; getAllFile : bool; filePath : cstring; invalidRecored : gset Z; isUseSeek : bool;
  fileLoaded : option caller; fileResults : list cstring }.

(** The constructors of the struct. *)
Definition IccControllerHolder_new (efId recordNum : Z) (path : cstring) (all : bool) : IccControllerHolder :=
  MkIccControllerHolder efId recordNum 0 0 all path ∅ false None [].
Definition set_fileLoaded (c : option caller) (hd : IccControllerHolder) : IccControllerHolder :=
  MkIccControllerHolder (fileId hd) (fileNum hd) (fileSize hd) (countFiles hd) (getAllFile hd) (filePath hd) (invalidRecored hd) (isUseSeek hd) c (fileResults hd).
Definition set_isUseSeek (b : bool) (hd : IccControllerHolder) : IccControllerHolder :=
  MkIccControllerHolder (fileId hd) (fileNum hd) (fileSize hd) (countFiles hd) (getAllFile hd) (filePath hd) (invalidRecored hd) b (fileLoaded hd) (fileResults hd).
Definition set_sizes (size count : Z) (hd : IccControllerHolder) : IccControllerHolder :=
  MkIccControllerHolder (fileId hd) (fileNum hd) size count (getAllFile hd) (filePath hd) (invalidRecored hd) (isUseSeek hd) (fileLoaded hd) (fileResults hd).
Definition set_invalidRecored (s : gset Z) (hd : IccControllerHolder) : IccControllerHolder :=
  MkIccControllerHolder (fileId hd) (fileNum hd) (fileSize hd) (countFiles hd) (getAllFile hd) (filePath hd) s (isUseSeek hd) (fileLoaded hd) (fileResults hd).
(** [fileResults.push_back(s); fileNum++] *)
Definition next_result (s : cstring) (hd : IccControllerHolder) : IccControllerHolder :=
  MkIccControllerHolder (fileId hd) (fileNum hd + 1) (fileSize hd) (countFiles hd) (getAllFile hd) (filePath hd) (invalidRecored hd) (isUseSeek hd) (fileLoaded hd) (fileResults hd ++ [s]).

Record IccToRilMsg : Type := MkIccToRilMsg { controlHolder : option IccControllerHolder; to_arg1 : Z; to_arg2 : Z }.
Record IccFromRilMsg : Type := MkIccFromRilMsg { rilMsg : IccToRilMsg; fileData : IccFileData }.

(** What an event from the modem holds: [GetUniqueObject] and [GetSharedObject] find only an object that was stored the same way. *)
Inductive from_ril : Type :=
| UniqueMsg (m : IccFromRilMsg)
| SharedMsg (m : IccFromRilMsg)
| NoMsg.
Definition GetUniqueObject (o : from_ril) : option IccFromRilMsg := match o with UniqueMsg m => Some m | _ => None end.
Definition GetSharedObject (o : from_ril) : option IccFromRilMsg := match o with SharedMsg m => Some m | _ => None end.

(** What is sent to the caller. *)
Inductive to_file : Type :=
| UniqueResult (m : ControllerToFileMsg)
| SharedResult (m : ControllerToFileMsg)
| LinearResult (m : EfLinearResult)
| RecordsResult (m : MultiRecordResult).

(** What the controller does: call [GetSimIO] of the modem, and send events to handlers. *)
Inductive action : Type :=
| GetSimIO (slot : Z) (msg : SimIoRequestInfo) (event : option (InnerEvent IccToRilMsg))
| SendTelEvent (handler : Z) (id param : Z) (object : to_file).
End Data.
Arguments FileToControllerMsg : clear implicits. Arguments ControllerToFileMsg : clear implicits. Arguments EfLinearResult : clear implicits.
Arguments MultiRecordResult : clear implicits. Arguments caller : clear implicits. Arguments IccControllerHolder : clear implicits. Arguments IccToRilMsg : clear implicits.
Arguments IccFromRilMsg : clear implicits. Arguments from_ril : clear implicits. Arguments to_file : clear implicits. Arguments action : clear implicits.

(** ** The controller

    The objects of the class differ in [ObtainElementFilePath], a virtual method. [this_handler] is the handler itself, which owns the events it sends to the modem. *)
Record IccFileController : Type := MkIccFileController { telRilManager_ : bool; slotId_ : Z; ObtainElementFilePath : Z -> cstring; this_handler : Z }.

Definition MASTER_FILE_SIM : cstring := str "3F00".
Definition DEDICATED_FILE_TELECOM : cstring := str "7F10".
Definition DEDICATED_FILE_GSM : cstring := str "7F20".
Definition DEDICATED_FILE_GRAPHICS : cstring := str "5F50".
Definition DEDICATED_FILE_DIALLING_NUMBERS : cstring := str "5F3A".
Definition DEDICATED_FILE_DF5GS : cstring := str "5FC0".
Definition DEDICATED_FILE_ADF : cstring := str "7FFF".
Definition DEDICATED_FILE_CDMA : cstring := str "7F25".

Definition ObtainElementFileForPublic (efId : Z) : cstring :=
  if is_ef efId [ELEMENTARY_FILE_ICCID; ELEMENTARY_FILE_PL] then MASTER_FILE_SIM
  else
    let mf := MASTER_FILE_SIM ++ DEDICATED_FILE_TELECOM in
    if is_ef efId [ELEMENTARY_FILE_ADN; ELEMENTARY_FILE_FDN; ELEMENTARY_FILE_MSISDN; ELEMENTARY_FILE_SDN; ELEMENTARY_FILE_EXT1; ELEMENTARY_FILE_EXT2; ELEMENTARY_FILE_EXT3] then mf
    else if is_ef efId [ELEMENTARY_FILE_PBR] then mf ++ DEDICATED_FILE_DIALLING_NUMBERS
    else if is_ef efId [ELEMENTARY_FILE_IMG] then mf ++ DEDICATED_FILE_GRAPHICS
    else [].

Section Controller.
Context {L : Type}.
Variable ctl : IccFileController.

Definition CheckRightPath (path : cstring) (fileId : Z) : cstring := match path with [] => ObtainElementFilePath ctl fileId | _ => path end.

(** *** Sizes *)

Definition GetFileAndDataSize (data : list Z) : outcome (Z * Z) :=
  fileSize ← vec_get data LENGTH_OF_RECORD;
  one ← vec_get data SIZE_ONE_OF_FILE; two ← vec_get data SIZE_TWO_OF_FILE;
  Ret (Z.land fileSize 0xff, Z.shiftl (Z.land one 0xff) 8 + Z.land two 0xff).
Definition GetDataSize (data : list Z) : outcome Z :=
  one ← vec_get data SIZE_ONE_OF_FILE; two ← vec_get data SIZE_TWO_OF_FILE;
  Ret (Z.shiftl (Z.land one 0xff) 8 + Z.land two 0xff).
(** [val\[0\]], [val\[1\]] and [val\[2\]]; the array starts with zeros. *)
Definition ParseFileSize (data : option (list Z)) : outcome (Z * Z * Z) :=
  match data with
  | None => Ret (0, 0, 0)
  | Some data =>
      '(size, total) ← GetFileAndDataSize data;
      Ret (size, total, if negb (size =? 0) then Z.quot total size else 0)
  end.
Definition is_elementary_file (structure : Z) (data : list Z) : outcome bool :=
  kind ← vec_get data TYPE_OF_FILE;
  if negb (kind =? ICC_ELEMENTARY_FILE) then Ret false
  else s ← vec_get data STRUCTURE_OF_DATA; Ret (s =? structure).
Definition IsValidRecordSizeData : list Z -> outcome bool := is_elementary_file ELEMENTARY_FILE_TYPE_LINEAR_FIXED.
Definition IsValidBinarySizeData : list Z -> outcome bool := is_elementary_file ELEMENTARY_FILE_TYPE_TRANSPARENT.

(** *** Messages *)

(** The event that comes back with the answer of the modem, and the same for a caller's event (null when the caller gave none). *)
Definition event_to_ril (m : ControllerMessage) (a1 a2 : Z) (hd : IccControllerHolder L) : InnerEvent (IccToRilMsg L) :=
  MkInnerEvent (message_id m) 0 (Some (this_handler ctl)) (MkIccToRilMsg (Some hd) a1 a2).
Definition BuildCallerInfo (eventId : ControllerMessage) (hd : IccControllerHolder L) : option (InnerEvent (IccToRilMsg L)) :=
  Some (event_to_ril eventId INVALID_VALUE INVALID_VALUE hd).
Definition BuildCallerInfo_msg (eventId : ControllerMessage) (arg1 arg2 : Z) (msg : option (caller L)) : option (InnerEvent (IccToRilMsg L)) :=
  match msg with
  | None => None
  | Some _ => Some (event_to_ril eventId arg1 arg2 (set_fileLoaded msg (IccControllerHolder_new arg1 1 [] true)))
  end.

(** A request; nothing happens without a modem. *)
Definition to_modem (msg : SimIoRequestInfo) (event : option (InnerEvent (IccToRilMsg L))) : list (action L) :=
  if telRilManager_ ctl then [GetSimIO (slotId_ ctl) msg event] else [].

Definition get_response (fileId : Z) (path : cstring) : SimIoRequestInfo :=
  MkSimIoRequestInfo (request_code CONTROLLER_REQ_GET_RESPONSE) fileId 0 0 GET_RESPONSE_ELEMENTARY_FILE_SIZE_BYTES [] path [].
Definition read_binary (fileId size : Z) (path : cstring) : SimIoRequestInfo :=
  MkSimIoRequestInfo (request_code CONTROLLER_REQ_READ_BINARY) fileId 0 0 size [] path [].
Definition read_record (hd : IccControllerHolder L) : SimIoRequestInfo :=
  MkSimIoRequestInfo (request_code CONTROLLER_REQ_READ_RECORD) (fileId hd) (fileNum hd) ICC_FILE_CURRENT_MODE (fileSize hd) [] (CheckRightPath (filePath hd) (fileId hd)) [].
(** [std::string(fileSize * HEX_TO_BYTES_LEN, 'F')] *)
Definition blank (hd : IccControllerHolder L) : cstring := replicate (Z.to_nat (fileSize hd * 2)) "F"%char.
Definition seek (hd : IccControllerHolder L) : SimIoRequestInfo :=
  MkSimIoRequestInfo (request_code CONTROLLER_REQ_SEEK) (fileId hd) 1 ICC_FILE_CURRENT_MODE (fileSize hd) (blank hd) (CheckRightPath (filePath hd) (fileId hd)) [].

(** *** Operations *)

Definition ObtainBinaryFile (fileId : Z) (event : option (caller L)) : list (action L) :=
  to_modem (get_response fileId (ObtainElementFilePath ctl fileId)) (BuildCallerInfo_msg MSG_SIM_OBTAIN_SIZE_OF_TRANSPARENT_ELEMENTARY_FILE_DONE fileId 0 event).
Definition ObtainBinaryFile_size (fileId size : Z) (event : option (caller L)) : list (action L) :=
  to_modem (read_binary fileId size (ObtainElementFilePath ctl fileId)) (BuildCallerInfo_msg MSG_SIM_OBTAIN_TRANSPARENT_ELEMENTARY_FILE_DONE fileId 0 event).
Definition ObtainLinearFixedFile (fileId : Z) (path : cstring) (fileNum : Z) (event : option (caller L)) : list (action L) :=
  let filePath := CheckRightPath path fileId in
  let ctrlHolder := set_fileLoaded event (IccControllerHolder_new fileId fileNum filePath false) in
  to_modem (get_response fileId filePath) (BuildCallerInfo MSG_SIM_OBTAIN_SIZE_OF_FIXED_ELEMENTARY_FILE_DONE ctrlHolder).
Definition ObtainAllLinearFixedFile (fileId : Z) (path : cstring) (event : option (caller L)) (isUseSeek : bool) : list (action L) :=
  let filePath := CheckRightPath path fileId in
  let ctrlHolder := set_fileLoaded event (set_isUseSeek isUseSeek (IccControllerHolder_new fileId 1 filePath true)) in
  to_modem (get_response fileId filePath) (BuildCallerInfo MSG_SIM_OBTAIN_SIZE_OF_FIXED_ELEMENTARY_FILE_DONE ctrlHolder).
Definition ObtainLinearFileSize (fileId : Z) (path : cstring) (event : option (caller L)) : list (action L) :=
  let filePath := CheckRightPath path fileId in
  let ctrlHolder := set_fileLoaded event (IccControllerHolder_new fileId 1 filePath true) in
  to_modem (get_response fileId filePath) (BuildCallerInfo MSG_SIM_OBTAIN_SIZE_OF_LINEAR_ELEMENTARY_FILE_DONE ctrlHolder).
Definition UpdateLinearFixedFile (fileId : Z) (path : cstring) (fileNum : Z) (data : cstring) (dataLength : Z) (pin2 : cstring) (onComplete : option (caller L)) : list (action L) :=
  let filePath := CheckRightPath path fileId in
  let ctrlHolder := set_fileLoaded onComplete (IccControllerHolder_new fileId 1 [] true) in
  to_modem (MkSimIoRequestInfo (request_code CONTROLLER_REQ_UPDATE_RECORD) fileId fileNum ICC_FILE_CURRENT_MODE dataLength data filePath pin2)
    (BuildCallerInfo MSG_SIM_UPDATE_LINEAR_FIXED_FILE_DONE ctrlHolder).
(** The overloads that take no path. *)
Definition ObtainLinearFixedFile_id (fileId fileNum : Z) (event : option (caller L)) : list (action L) :=
  ObtainLinearFixedFile fileId (ObtainElementFilePath ctl fileId) fileNum event.
Definition ObtainAllLinearFixedFile_id (fileId : Z) (event : option (caller L)) (isUseSeek : bool) : list (action L) :=
  ObtainAllLinearFixedFile fileId (ObtainElementFilePath ctl fileId) event isUseSeek.
Definition ObtainLinearFileSize_id (fileId : Z) (event : option (caller L)) : list (action L) :=
  ObtainLinearFileSize fileId (ObtainElementFilePath ctl fileId) event.
Definition UpdateLinearFixedFile_id (fileId fileNum : Z) (data : cstring) (dataLength : Z) (pin2 : cstring) (onComplete : option (caller L)) : list (action L) :=
  let ctrlHolder := set_fileLoaded onComplete (IccControllerHolder_new fileId 1 [] true) in
  to_modem (MkSimIoRequestInfo (request_code CONTROLLER_REQ_UPDATE_RECORD) fileId fileNum ICC_FILE_CURRENT_MODE dataLength data (ObtainElementFilePath ctl fileId) pin2)
    (BuildCallerInfo MSG_SIM_UPDATE_LINEAR_FIXED_FILE_DONE ctrlHolder).
Definition UpdateBinaryFile (fileId : Z) (data : cstring) (dataLength : Z) (onComplete : option (caller L)) : list (action L) :=
  let ctrlHolder := set_fileLoaded onComplete (IccControllerHolder_new fileId 1 [] true) in
  to_modem (MkSimIoRequestInfo (request_code CONTROLLER_REQ_UPDATE_BINARY) fileId 0 0 dataLength data (ObtainElementFilePath ctl fileId) [])
    (BuildCallerInfo MSG_SIM_UPDATE_TRANSPARENT_ELEMENTARY_FILE_DONE ctrlHolder).

(** *** Answers to the caller *)

Definition SendEvent (handler id : Z) (object : ControllerToFileMsg L) : list (action L) :=
  [SendTelEvent handler id 0 (if id =? MSG_SIM_OBTAIN_ICC_FILE_DONE then SharedResult object else UniqueResult object)].
(** The owner of the caller's event is asked for before the event is compared with null. *)
Definition SendResponse (holder : option (IccControllerHolder L)) (fd : IccFileData) : outcome (list (action L)) :=
  match holder with
  | None => Ret []
  | Some holder =>
      response ← the (fileLoaded holder);
      match GetOwner response with
      | None => Ret []
      | Some owner => Ret (SendEvent owner (GetInnerEventId response) (ControllerToFileMsg_new (GetObject response) (Some fd)))
      end
  end.
Definition SendEfLinearResult (response : option (caller L)) (val : Z * Z * Z) : list (action L) :=
  match response with
  | Some r => match GetOwner r with
              | Some handler => [SendTelEvent handler (GetInnerEventId r) 0 (LinearResult (MkEfLinearResult (from_command (GetObject r)) val None))]
              | None => []
              end
  | None => []
  end.
Definition SendMultiRecordResult (response : option (caller L)) (strValue : list cstring) (fileId : Z) : list (action L) :=
  match response with
  | Some r => match GetOwner r with
              | Some handler => [SendTelEvent handler (GetInnerEventId r) fileId (RecordsResult (MkMultiRecordResult (from_command (GetObject r)) strValue (zlen strValue) None))]
              | None => []
              end
  | None => []
  end.
(** Whether the event was the report of an error, and what is then sent. *)
Definition ProcessErrorResponse (object : from_ril L) : option (list (action L)) :=
  match GetSharedObject object with
  | Some rcvMsg =>
      match controlHolder (rilMsg rcvMsg) ≫= fileLoaded with
      | Some response =>
          match GetOwner response with
          | Some owner =>
              let m := ControllerToFileMsg_new (GetObject response) None in
              Some (SendEvent owner (GetInnerEventId response)
                (MkControllerToFileMsg (command_of m) (MkIccFileData 0 0 [] (exception (fileData rcvMsg)))))
          | None => None
          end
      | None => None
      end
  | None => None
  end.

(** *** The events from the modem *)

(** The message and the holder, or nothing is done. *)
Definition received (object : from_ril L) (f : IccFromRilMsg L -> IccControllerHolder L -> outcome (list (action L))) : outcome (list (action L)) :=
  match GetUniqueObject object with
  | Some rcvMsg => match controlHolder (rilMsg rcvMsg) with Some hd => f rcvMsg hd | None => Ret [] end
  | None => Ret []
  end.

Definition ProcessLinearRecordSize (object : from_ril L) : outcome (list (action L)) :=
  received object (fun rcvMsg hd =>
    let '(rawData, recordLen) := HexStringConvertToBytes (resultData (fileData rcvMsg)) 0 in
    fileSize ← (if LENGTH_OF_RECORD <? recordLen then ParseFileSize rawData else Ret (0, 0, 0));
    Ret (SendEfLinearResult (fileLoaded hd) fileSize)).

Definition SendFixedRecordRequest (hd : IccControllerHolder L) : list (action L) :=
  if isUseSeek hd then to_modem (seek hd) (BuildCallerInfo MSG_SIM_OBTAIN_INVALID_RECORD_OF_FIXED_ELEMENTARY_FILE_DONE hd)
  else to_modem (read_record hd) (BuildCallerInfo MSG_SIM_OBTAIN_FIXED_ELEMENTARY_FILE_DONE hd).

Definition ProcessRecordSize (object : from_ril L) : outcome (list (action L)) :=
  received object (fun rcvMsg hd =>
    let '(rawData, recordLen) := HexStringConvertToBytes (resultData (fileData rcvMsg)) 0 in
    match rawData with
    | None => SendResponse (Some hd) (fileData rcvMsg)
    | Some fileData' =>
        if LENGTH_OF_RECORD <? recordLen then
          valid ← IsValidRecordSizeData fileData';
          if negb valid then SendResponse (Some hd) (fileData rcvMsg)
          else
            '(fileSize, size) ← GetFileAndDataSize fileData';
            Ret (SendFixedRecordRequest (set_sizes fileSize (if negb (fileSize =? 0) then Z.quot size fileSize else countFiles hd) hd))
        else Ret (SendFixedRecordRequest hd)
    end).

(** [while (invalidRecored.find(fileNum) != end) { ... }]; no more steps than the set has elements. *)
Fixpoint skip_invalid (fuel : nat) (hd : IccControllerHolder L) : IccControllerHolder L :=
  match fuel with
  | O => hd
  | S fuel => if decide (fileNum hd ∈ invalidRecored hd) then skip_invalid fuel (next_result (blank hd) hd) else hd
  end.
Definition skip_invalid_records (hd : IccControllerHolder L) : IccControllerHolder L := skip_invalid (size (invalidRecored hd)) hd.

Definition ProcessInvalidRecord (object : from_ril L) : outcome (list (action L)) :=
  received object (fun rcvMsg hd =>
    let '(rawData, recordLen) := HexStringConvertToBytes (resultData (fileData rcvMsg)) 0 in
    let found := match rawData with Some d => list_to_set (take (Z.to_nat recordLen) d) | None => ∅ end in
    let hd := skip_invalid_records (set_invalidRecored (invalidRecored hd ∪ found) hd) in
    Ret (to_modem (read_record hd) (BuildCallerInfo MSG_SIM_OBTAIN_FIXED_ELEMENTARY_FILE_DONE hd))).

Definition ProcessBinarySize (object : from_ril L) : outcome (list (action L)) :=
  received object (fun rcvMsg hd =>
    let '(rawData, binaryLen) := HexStringConvertToBytes (resultData (fileData rcvMsg)) 0 in
    match rawData with
    | None => SendResponse (Some hd) (fileData rcvMsg)
    | Some fileData' =>
        let go size :=
          let fileId := to_arg1 (rilMsg rcvMsg) in
          match fileLoaded hd with
          | None => []
          | evt => to_modem (read_binary fileId size (ObtainElementFilePath ctl fileId)) (BuildCallerInfo_msg MSG_SIM_OBTAIN_TRANSPARENT_ELEMENTARY_FILE_DONE fileId 0 evt)
          end in
        if STRUCTURE_OF_DATA <? binaryLen then
          valid ← IsValidBinarySizeData fileData';
          if negb valid then SendResponse (Some hd) (fileData rcvMsg)
          else size ← GetDataSize fileData'; Ret (go size)
        else Ret (go 0)
    end).

(** The next record is asked for through [telRilManager_], which is not compared with null here. *)
Definition ProcessReadRecord (object : from_ril L) : outcome (list (action L)) :=
  received object (fun rcvMsg hd =>
    if getAllFile hd then
      let hd := skip_invalid_records (next_result (resultData (fileData rcvMsg)) hd) in
      if countFiles hd <? fileNum hd then Ret (SendMultiRecordResult (fileLoaded hd) (fileResults hd) (fileId hd))
      else if telRilManager_ ctl then Ret [GetSimIO (slotId_ ctl) (read_record hd) (BuildCallerInfo MSG_SIM_OBTAIN_FIXED_ELEMENTARY_FILE_DONE hd)]
      else Undef
    else SendResponse (Some hd) (fileData rcvMsg)).

Definition ProcessReadBinary (object : from_ril L) : outcome (list (action L)) :=
  received object (fun rcvMsg hd => SendResponse (Some hd) (fileData rcvMsg)).

Definition ProcessEvent (event : option (InnerEvent (from_ril L))) : outcome (list (action L)) :=
  match event with
  | None => Ret []
  | Some event =>
      let object := GetObject event in
      match ProcessErrorResponse object with
      | Some sent => Ret sent
      | None =>
          match message_of (GetInnerEventId event) with
          | Some MSG_SIM_OBTAIN_SIZE_OF_LINEAR_ELEMENTARY_FILE_DONE => ProcessLinearRecordSize object
          | Some MSG_SIM_OBTAIN_SIZE_OF_FIXED_ELEMENTARY_FILE_DONE => ProcessRecordSize object
          | Some MSG_SIM_OBTAIN_INVALID_RECORD_OF_FIXED_ELEMENTARY_FILE_DONE => ProcessInvalidRecord object
          | Some MSG_SIM_OBTAIN_SIZE_OF_TRANSPARENT_ELEMENTARY_FILE_DONE => ProcessBinarySize object
          | Some MSG_SIM_OBTAIN_FIXED_ELEMENTARY_FILE_DONE => ProcessReadRecord object
          | Some MSG_SIM_OBTAIN_ICON_DONE | Some MSG_SIM_UPDATE_LINEAR_FIXED_FILE_DONE
          | Some MSG_SIM_UPDATE_TRANSPARENT_ELEMENTARY_FILE_DONE | Some MSG_SIM_OBTAIN_TRANSPARENT_ELEMENTARY_FILE_DONE => ProcessReadBinary object
          | None => Ret []
          end
      end
  end.
End Controller.

(** ** The controllers of the kinds of cards *)

Definition ObtainUsimElementFilePathExt (efId : Z) : cstring :=
  let mf := MASTER_FILE_SIM in
  if is_ef efId [ELEMENTARY_FILE_PBR] then mf ++ str "7F10" ++ DEDICATED_FILE_DIALLING_NUMBERS
  else if is_ef efId [ELEMENTARY_FILE_OPL5G] then mf ++ DEDICATED_FILE_ADF ++ DEDICATED_FILE_DF5GS
  else [].
Definition ObtainUsimElementFilePath (efId : Z) : cstring :=
  if is_ef efId [ELEMENTARY_FILE_SMS; ELEMENTARY_FILE_EXT5; ELEMENTARY_FILE_EXT6; ELEMENTARY_FILE_MWIS; ELEMENTARY_FILE_MBI; ELEMENTARY_FILE_SPN; ELEMENTARY_FILE_AD;
      ELEMENTARY_FILE_MBDN; ELEMENTARY_FILE_PNN; ELEMENTARY_FILE_OPL; ELEMENTARY_FILE_SPDI; ELEMENTARY_FILE_SST; ELEMENTARY_FILE_CFIS; ELEMENTARY_FILE_MAILBOX_CPHS;
      ELEMENTARY_FILE_VOICE_MAIL_INDICATOR_CPHS; ELEMENTARY_FILE_CFF_CPHS; ELEMENTARY_FILE_SPN_CPHS; ELEMENTARY_FILE_SPN_SHORT_CPHS; ELEMENTARY_FILE_FDN;
      ELEMENTARY_FILE_SDN; ELEMENTARY_FILE_EXT3; ELEMENTARY_FILE_MSISDN; ELEMENTARY_FILE_EXT2; ELEMENTARY_FILE_INFO_CPHS; ELEMENTARY_FILE_CSP_CPHS;
      ELEMENTARY_FILE_GID1; ELEMENTARY_FILE_GID2; ELEMENTARY_FILE_LI; ELEMENTARY_FILE_PLMN_W_ACT; ELEMENTARY_FILE_OPLMN_W_ACT; ELEMENTARY_FILE_HPLMN_W_ACT;
      ELEMENTARY_FILE_EHPLMN; ELEMENTARY_FILE_FPLMN; ELEMENTARY_FILE_LRPLMNSI; ELEMENTARY_FILE_HPPLMN]
  then MASTER_FILE_SIM ++ DEDICATED_FILE_ADF
  else ObtainUsimElementFilePathExt efId.
Definition Usim_ObtainElementFilePath (efId : Z) : cstring :=
  match ObtainUsimElementFilePath efId with
  | [] => match ObtainElementFileForPublic efId with
          | [] => MASTER_FILE_SIM ++ DEDICATED_FILE_TELECOM ++ DEDICATED_FILE_DIALLING_NUMBERS
          | path => path
          end
  | path => path
  end.
Definition Ruim_ObtainElementFilePath (efId : Z) : cstring :=
  if is_ef efId [ELEMENTARY_FILE_SMS; ELEMENTARY_FILE_CST; ELEMENTARY_FILE_RUIM_SPN; ELEMENTARY_FILE_CSIM_LI; ELEMENTARY_FILE_CSIM_MDN; ELEMENTARY_FILE_CSIM_IMSIM;
      ELEMENTARY_FILE_CSIM_CDMAHOME; ELEMENTARY_FILE_CSIM_EPRL]
  then MASTER_FILE_SIM ++ DEDICATED_FILE_CDMA
  else ObtainElementFileForPublic efId.
Definition Sim_ObtainElementFilePath (efId : Z) : cstring :=
  if is_ef efId [ELEMENTARY_FILE_SMS] then MASTER_FILE_SIM ++ DEDICATED_FILE_TELECOM
  else if is_ef efId [ELEMENTARY_FILE_VOICE_MAIL_INDICATOR_CPHS; ELEMENTARY_FILE_CFF_CPHS; ELEMENTARY_FILE_SPN_CPHS; ELEMENTARY_FILE_INFO_CPHS; ELEMENTARY_FILE_MAILBOX_CPHS;
      ELEMENTARY_FILE_SPN_SHORT_CPHS; ELEMENTARY_FILE_SST; ELEMENTARY_FILE_GID1; ELEMENTARY_FILE_GID2; ELEMENTARY_FILE_SPN; ELEMENTARY_FILE_AD; ELEMENTARY_FILE_PNN; ELEMENTARY_FILE_OPL;
      ELEMENTARY_FILE_MBDN; ELEMENTARY_FILE_EXT6; ELEMENTARY_FILE_MBI; ELEMENTARY_FILE_MWIS; ELEMENTARY_FILE_CFIS; ELEMENTARY_FILE_CSP_CPHS]
  then MASTER_FILE_SIM ++ DEDICATED_FILE_GSM
  else ObtainElementFileForPublic efId.
Definition Isim_ObtainElementFilePath (efId : Z) : cstring :=
  if is_ef efId [ELEMENTARY_FILE_IMPI; ELEMENTARY_FILE_IMPU; ELEMENTARY_FILE_DOMAIN; ELEMENTARY_FILE_IST; ELEMENTARY_FILE_PCSCF]
  then MASTER_FILE_SIM ++ DEDICATED_FILE_ADF
  else ObtainElementFileForPublic efId.
Definition Csim_ObtainElementFilePath (efId : Z) : cstring :=
  if is_ef efId [ELEMENTARY_FILE_SMS; ELEMENTARY_FILE_CST; ELEMENTARY_FILE_FDN; ELEMENTARY_FILE_MSISDN; ELEMENTARY_FILE_RUIM_SPN; ELEMENTARY_FILE_CSIM_LI; ELEMENTARY_FILE_CSIM_MDN;
      ELEMENTARY_FILE_CSIM_IMSIM; ELEMENTARY_FILE_CSIM_CDMAHOME; ELEMENTARY_FILE_CSIM_EPRL; ELEMENTARY_FILE_CSIM_MIPUPP]
  then MASTER_FILE_SIM ++ DEDICATED_FILE_ADF
  else match ObtainElementFileForPublic efId with
       | [] => MASTER_FILE_SIM ++ DEDICATED_FILE_TELECOM ++ DEDICATED_FILE_DIALLING_NUMBERS
       | path => path
       end.

Definition SimFileController (ril : bool) (slotId handler : Z) : IccFileController := MkIccFileController ril slotId Sim_ObtainElementFilePath handler.
Definition UsimFileController (ril : bool) (slotId handler : Z) : IccFileController := MkIccFileController ril slotId Usim_ObtainElementFilePath handler.
Definition RuimFileController (ril : bool) (slotId handler : Z) : IccFileController := MkIccFileController ril slotId Ruim_ObtainElementFilePath handler.
Definition IsimFileController (ril : bool) (slotId handler : Z) : IccFileController := MkIccFileController ril slotId Isim_ObtainElementFilePath handler.
Definition CsimFileController (ril : bool) (slotId handler : Z) : IccFileController := MkIccFileController ril slotId Csim_ObtainElementFilePath handler.

(** [RuimFileController] has one operation more. *)
Definition ObtainTransparentImg {L} (ctl : IccFileController) (fileId : Z) (onLoaded : option (caller L)) : list (action L) :=
  to_modem ctl (MkSimIoRequestInfo (request_code CONTROLLER_REQ_GET_RESPONSE) fileId 0 0 GET_RESPONSE_ELEMENTARY_FILE_IMG_SIZE_BYTES [] (ObtainElementFilePath ctl (ef ELEMENTARY_FILE_IMG)) [])
    (BuildCallerInfo_msg ctl MSG_SIM_OBTAIN_ICON_DONE fileId 0 onLoaded).

(** ** The card's side: [TelRilSim]

    What an answer of the modem to [GetSimIO] becomes: an event for the owner of the request, with the data, or as a shared object with the error. *)
Section IccIo.
Context {L : Type} `{ErrorCodes}.
Definition ErrorIccIoResponse (r : TelRilBase.TelRilRequest (option (IccToRilMsg L))) (responseInfo : RadioResponseInfo) : Z * option (sending (from_ril L)) :=
  match TelRilBase.pointer_ r with
  | Some e =>
      match GetOwner e with
      | None => (TELEPHONY_ERR_LOCAL_PTR_NULL, None)
      | Some handler =>
          let respInfo := MkRadioResponseInfo (i32 (GetParam e)) (serial responseInfo) (error responseInfo) in
          match GetObject e with
          | None => (TELEPHONY_ERR_LOCAL_PTR_NULL, None)
          | Some toMsg =>
              let object := MkIccFromRilMsg (MkIccToRilMsg (controlHolder toMsg) INVALID_VALUE INVALID_VALUE) (MkIccFileData 0 0 [] (Some respInfo)) in
              (TELEPHONY_ERR_SUCCESS, Some (MkSending handler (GetInnerEventId e) (SharedMsg object)))
          end
      end
  | None => (TELEPHONY_ERR_LOCAL_PTR_NULL, None)
  end.
Definition ProcessIccIoInfo (r : TelRilBase.TelRilRequest (option (IccToRilMsg L))) (iccIoResult : IccIoResultInfo) : Z * option (sending (from_ril L)) :=
  match TelRilBase.pointer_ r with
  | Some e =>
      match GetOwner e, GetObject e with
      | Some handler, Some toMsg =>
          let object := MkIccFromRilMsg toMsg (MkIccFileData (io_sw1 iccIoResult) (io_sw2 iccIoResult) (response iccIoResult) None) in
          (TELEPHONY_ERR_SUCCESS, Some (MkSending handler (GetInnerEventId e) (UniqueMsg object)))
      | _, _ => (TELEPHONY_ERR_LOCAL_PTR_NULL, None)
      end
  | None => (TELEPHONY_ERR_LOCAL_PTR_NULL, None)
  end.
Definition ResponseIccIo (radioResponseInfo : RadioResponseInfo) (result : IccIoResultInfo) (b : TelRilBase.TelRilBase (option (IccToRilMsg L))) :
    Z * option (sending (from_ril L)) * TelRilBase.TelRilBase (option (IccToRilMsg L)) :=
  let '(r, b) := TelRilBase.FindTelRilRequest radioResponseInfo b in
  match r with
  | Some r =>
      if is_null (TelRilBase.pointer_ r) then (TELEPHONY_ERR_LOCAL_PTR_NULL, None, b)
      else if negb (error radioResponseInfo =? TelRilBase.ERR_NONE) then (ErrorIccIoResponse r radioResponseInfo, b)
      else (ProcessIccIoInfo r result, b)
  | None => (TELEPHONY_ERR_LOCAL_PTR_NULL, None, b)
  end.
End IccIo.
