(* ===== verification/CardFiles.v ===== *)
(** * Reading the files of a card: the whole path

    Callers, the controller, the requests to the modem and the modem's answers together, as a step relation. Files are read concurrently; the modem answers the requests in any
    order, or reports an error instead. Every caller is told what the card has, or of the error, once. *)

From S2P Require Import Prelude CxxString SimUtils Parcel Parcelables CoreServiceApi TelRilBase IccFileController.
Open Scope Z_scope.

(** ** What the card has *)

(** Contents as the modem reports them, in hexadecimal digits. *)
Inductive card_file : Type :=
| Transparent (text : cstring)
| LinearFixed (size : Z) (records : list cstring).

Definition hex (bytes : list Z) : cstring := bytes ≫= hex_chars.
Lemma hex_converts b bytes : Forall is_u8 (b :: bytes) -> HexStringConvertToBytes (hex (b :: bytes)) 0 = (Some ((b :: bytes) ++ [0]), zlen (b :: bytes)).
Proof.
  intros HB. unfold HexStringConvertToBytes, HALF_LEN, hex. set (l := b :: bytes) in *. assert (zlen (l ≫= hex_chars) = 2 * zlen l) as L.
  { clear. induction l as [|x l IH]; [done|]. rewrite bind_cons. unfold hex_chars at 1. zlen_simpl. lia. }
  rewrite L. assert (0 < zlen l) by (subst l; zlen_simpl; pose proof (zlen_nonneg bytes); lia).
  destruct (Z.eqb_spec (2 * zlen l) 0); [lia|]. rewrite (Z.mul_comm 2), Z.mod_mul, Z.div_mul by lia. change (negb (0 =? 0)) with false. cbv iota.
  pose proof (hex_bytes_app l [] HB) as E. rewrite app_nil_r in E. by rewrite E, app_nil_r.
Qed.

(** The answer to GET RESPONSE (TS 51.011, 9.2.1): total size, type, structure and record length at their places. *)
Definition header_says (structure total : Z) (size : option Z) (header : list Z) : Prop :=
  Forall is_u8 header /\ zlen header = 15 /\ header !! 2%nat = Some (total / 256) /\ header !! 3%nat = Some (total mod 256) /\ header !! 6%nat = Some ICC_ELEMENTARY_FILE /\
  header !! 13%nat = Some structure /\ (forall n, size = Some n -> header !! 14%nat = Some n).

Definition record_request (fileId num size : Z) (path : cstring) : SimIoRequestInfo :=
  MkSimIoRequestInfo (request_code CONTROLLER_REQ_READ_RECORD) fileId num ICC_FILE_CURRENT_MODE size [] path [].
Definition blank_record (size : Z) : cstring := replicate (Z.to_nat (size * 2)) "F"%char.
Definition seek_request (fileId size : Z) (path : cstring) : SimIoRequestInfo :=
  MkSimIoRequestInfo (request_code CONTROLLER_REQ_SEEK) fileId 1 ICC_FILE_CURRENT_MODE size (blank_record size) path [].

(** A modem that answers as the standard has it, for one file. SEEK is answered with the numbers of blank records, but not of all records. *)
Definition serves (answer : SimIoRequestInfo -> IccIoResultInfo) (fileId : Z) (path : cstring) (f : card_file) : Prop :=
  match f with
  | Transparent text =>
      exists size header, 0 <= size < 65536 /\ header_says ELEMENTARY_FILE_TYPE_TRANSPARENT size None header /\
        response (answer (get_response fileId path)) = hex header /\ response (answer (read_binary fileId size path)) = text
  | LinearFixed size records =>
      exists header blanks, 0 < size < 256 /\ size * zlen records < 65536 /\ records <> [] /\
        header_says ELEMENTARY_FILE_TYPE_LINEAR_FIXED (size * zlen records) (Some size) header /\ response (answer (get_response fileId path)) = hex header /\
        (forall k r, records !! k = Some r -> response (answer (record_request fileId (Z.of_nat k + 1) size path)) = r) /\
        response (answer (seek_request fileId size path)) = hex blanks /\
        Forall (fun b => is_u8 b /\ 1 <= b /\ records !! Z.to_nat (b - 1) = Some (blank_record size)) blanks /\
        (exists k, (k < length records)%nat /\ Z.of_nat k + 1 ∉ blanks)
  end.

Section System.
Context {L : Type} `{ErrorCodes}.
Variable ctl : IccFileController.
Variable answer : SimIoRequestInfo -> IccIoResultInfo.

(** ** The system *)

Record system : Type := MkSystem {
  ril : TelRilBase.TelRilBase (option (IccToRilMsg L));
  air : list (Z * SimIoRequestInfo);
  inbox : list (InnerEvent (from_ril L));
  told : list (action L) }.

Definition to_ril (e : InnerEvent (IccToRilMsg L)) : InnerEvent (option (IccToRilMsg L)) := MkInnerEvent (GetInnerEventId e) (GetParam e) (GetOwner e) (Some (GetObject e)).
(** [TelRilSim::GetSimIO], with the modem's power-off switch not set. *)
Definition perform (a : action L) (s : system) : system :=
  match a with
  | GetSimIO _ msg event =>
      match TelRilBase.Request false (str "GetSimIO") (to_ril <$> event) (ril s) with
      | (inr (_, serial), b) => MkSystem b (air s ++ [(serial, msg)]) (inbox s) (told s)
      | (inl _, b) => MkSystem b (air s) (inbox s) (told s)
      end
  | SendTelEvent _ _ _ _ => MkSystem (ril s) (air s) (inbox s) (told s ++ [a])
  end.
Definition perform_all (l : list (action L)) (s : system) : system := foldl (fun s a => perform a s) s l.
Definition next_serial (b : TelRilBase.TelRilBase (option (IccToRilMsg L))) : Z := (TelRilBase.GetNextSerialId b).1.

(** ** Reading *)

Inductive kind : Type := AllRecords (seek : bool) | OneRecord (num : nat) | Contents | Sizes.
Record load : Type := MkLoad { kind_of : kind; file_id : Z; given_path : cstring; from : caller L; file_of : card_file }.
Definition path_of (l : load) : cstring := match kind_of l with Contents => ObtainElementFilePath ctl (file_id l) | _ => CheckRightPath ctl (given_path l) (file_id l) end.

(** The operation of the controller. Records are numbered from 1. *)
Definition begun (l : load) : list (action L) :=
  match kind_of l with
  | AllRecords seek => ObtainAllLinearFixedFile ctl (file_id l) (given_path l) (Some (from l)) seek
  | OneRecord num => ObtainLinearFixedFile ctl (file_id l) (given_path l) (Z.of_nat num + 1) (Some (from l))
  | Contents => ObtainBinaryFile ctl (file_id l) (Some (from l))
  | Sizes => ObtainLinearFileSize ctl (file_id l) (given_path l) (Some (from l))
  end.

(** The file is one that can be read this way and the card has it; the caller can be told. *)
Definition readable (l : load) : Prop :=
  serves answer (file_id l) (path_of l) (file_of l) /\ is_Some (GetOwner (from l)) /\
  match kind_of l, file_of l with
  | AllRecords _, LinearFixed _ _ | Sizes, LinearFixed _ _ | Contents, Transparent _ => True
  | OneRecord num, LinearFixed _ records => (num < length records)%nat
  | _, _ => False
  end.

(** What the caller is to be told: the contents, or an error. *)
Definition data_event (l : load) (d : IccFileData) : list (action L) :=
  match GetOwner (from l) with
  | Some owner => SendEvent owner (GetInnerEventId (from l)) (MkControllerToFileMsg (from_command (GetObject (from l))) d)
  | None => []
  end.
Definition contents_event (l : load) (a : action L) : Prop :=
  match kind_of l, file_of l with
  | AllRecords _, LinearFixed _ records => [a] = SendMultiRecordResult (Some (from l)) records (file_id l)
  | OneRecord num, LinearFixed _ records => exists sw1 sw2 r, records !! num = Some r /\ [a] = data_event l (MkIccFileData sw1 sw2 r None)
  | Contents, Transparent text => exists sw1 sw2, [a] = data_event l (MkIccFileData sw1 sw2 text None)
  | Sizes, LinearFixed size records => [a] = SendEfLinearResult (Some (from l)) (size, size * zlen records, zlen records)
  | _, _ => False
  end.
Definition error_event (l : load) (a : action L) : Prop :=
  exists serial code, code <> TelRilBase.ERR_NONE /\ [a] = data_event l (MkIccFileData 0 0 [] (Some (MkRadioResponseInfo 0 serial code))).

(** Operations begin, requests are answered with the contents or with an error, and events are handled in their order. No request that waits has the serial number that is given out
    next; the numbers start again at 1 after 2^31 - 1 requests. *)
Inductive step : system -> system -> Prop :=
| step_answer s r msg before after code n b :
    air s = before ++ (r, msg) :: after ->
    ResponseIccIo (MkRadioResponseInfo 0 r TelRilBase.ERR_NONE) (answer msg) (ril s) = (code, Some n, b) ->
    step s (MkSystem b (before ++ after) (inbox s ++ [MkInnerEvent (sent_id n) 0 (Some (receiver n)) (sent_object n)]) (told s))
| step_fail s r msg before after err res code n b :
    air s = before ++ (r, msg) :: after -> err <> TelRilBase.ERR_NONE ->
    ResponseIccIo (MkRadioResponseInfo 0 r err) res (ril s) = (code, Some n, b) ->
    step s (MkSystem b (before ++ after) (inbox s ++ [MkInnerEvent (sent_id n) 0 (Some (receiver n)) (sent_object n)]) (told s))
| step_handle s e events actions :
    inbox s = e :: events -> TelRilBase.requestMap_ (ril s) !! next_serial (ril s) = None ->
    ProcessEvent ctl (Some e) = Ret actions ->
    step s (perform_all actions (MkSystem (ril s) (air s) events (told s))).
Inductive reachable (s0 : system) : list load -> system -> Prop :=
| reach_start : reachable s0 [] s0
| reach_begin ls s l : reachable s0 ls s -> readable l -> TelRilBase.requestMap_ (ril s) !! next_serial (ril s) = None -> reachable s0 (l :: ls) (perform_all (begun l) s)
| reach_step ls s s' : reachable s0 ls s -> step s s' -> reachable s0 ls s'.
End System.

(** ** The sizes *)

Lemma land_byte x : is_u8 x -> Z.land x 0xff = x.
Proof. intros [? ?]. change 0xff with (Z.ones 8). rewrite Z.land_ones by lia. apply Z.mod_small. lia. Qed.
Lemma byte_at header i x : Forall is_u8 header -> header !! i = Some x -> vec_get (header ++ [0]) (Z.of_nat i) = Ret x /\ is_u8 x.
Proof.
  intros HB Hx. split; [|by eapply (Forall_lookup_1 is_u8)]. apply vec_get_Ret. split; [lia|]. rewrite Nat2Z.id. apply lookup_app_l_Some, Hx.
Qed.
Lemma two_bytes t : Z.shiftl (t / 256) 8 + t mod 256 = t.
Proof. rewrite Z.shiftl_mul_pow2 by lia. change (2 ^ 8) with 256. pose proof (Z.div_mod t 256). lia. Qed.

Section Headers.
Context structure total size header (Hh : header_says structure total size header).
Lemma header_converts : HexStringConvertToBytes (hex header) 0 = (Some (header ++ [0]), 15).
Proof. destruct Hh as (HB & HL & _). destruct header as [|b bytes]; [done|]. rewrite <- HL. by apply hex_converts. Qed.
Lemma header_elementary : is_elementary_file structure (header ++ [0]) = Ret true.
Proof.
  destruct Hh as (HB & _ & _ & _ & H6 & H13 & _). unfold is_elementary_file. destruct (byte_at header 6 _ HB H6) as [E6 _], (byte_at header 13 _ HB H13) as [E13 _].
  change (Z.of_nat 6) with TYPE_OF_FILE in E6. change (Z.of_nat 13) with STRUCTURE_OF_DATA in E13. rewrite E6. cbn. rewrite E13. cbn. by rewrite Z.eqb_refl.
Qed.
Lemma header_total : GetDataSize (header ++ [0]) = Ret total.
Proof.
  destruct Hh as (HB & _ & H2 & H3 & _). unfold GetDataSize. destruct (byte_at header 2 _ HB H2) as [E2 B2], (byte_at header 3 _ HB H3) as [E3 B3].
  change (Z.of_nat 2) with SIZE_ONE_OF_FILE in E2. change (Z.of_nat 3) with SIZE_TWO_OF_FILE in E3. rewrite E2. cbn [mbind outcome_bind]. rewrite E3. cbn [mbind outcome_bind].
  by rewrite !land_byte, two_bytes.
Qed.
Lemma header_size n : size = Some n -> GetFileAndDataSize (header ++ [0]) = Ret (n, total).
Proof.
  intros Hn. pose proof header_total as HT. destruct Hh as (HB & _ & _ & _ & _ & _ & H14). destruct (byte_at header 14 n HB) as [E14 B14]; [by apply H14|].
  unfold GetFileAndDataSize, GetDataSize in *. change (Z.of_nat 14) with LENGTH_OF_RECORD in E14. rewrite E14. cbn [mbind outcome_bind]. rewrite land_byte by done.
  destruct (vec_get _ SIZE_ONE_OF_FILE); [|done..]. cbn [mbind outcome_bind] in *. destruct (vec_get _ SIZE_TWO_OF_FILE); [|done..]. cbn [mbind outcome_bind] in *. congruence.
Qed.
End Headers.

(** ** Blank records are skipped *)

Lemma skip_invalid_ends {L} fuel (hd : IccControllerHolder L) :
  exists k, (k <= fuel)%nat /\ fileNum (skip_invalid fuel hd) = fileNum hd + Z.of_nat k /\ invalidRecored (skip_invalid fuel hd) = invalidRecored hd /\
    (forall i, 0 <= i < Z.of_nat k -> fileNum hd + i ∈ invalidRecored hd) /\ ((k < fuel)%nat -> fileNum (skip_invalid fuel hd) ∉ invalidRecored hd).
Proof.
  revert hd; induction fuel as [|fuel IH]; intros hd; cbn [skip_invalid].
  - exists 0%nat. split_and!; [lia|lia|done|lia|lia].
  - destruct (decide (fileNum hd ∈ invalidRecored hd)) as [Hi|Hi].
    + destruct (IH (next_result (blank hd) hd)) as (k & Hk & Hn & Hr & Hall & Hend). cbn [fileNum invalidRecored next_result] in *. exists (S k). split_and!; [lia|lia|done|..].
      * intros i Hi'. destruct (decide (i = 0)) as [->|]; [by rewrite Z.add_0_r|]. replace (fileNum hd + i) with (fileNum hd + 1 + (i - 1)) by lia. apply Hall. lia.
      * intros. apply Hend. lia.
    + exists 0%nat. split_and!; [lia|lia|done|lia|done].
Qed.

(** The number of elements of the set is fuel enough: the loop has ended because its condition is false. *)
Lemma skip_invalid_records_done {L} (hd : IccControllerHolder L) : fileNum (skip_invalid_records hd) ∉ invalidRecored hd.
Proof.
  unfold skip_invalid_records. destruct (skip_invalid_ends (size (invalidRecored hd)) hd) as (k & Hk & Hn & _ & Hall & Hend).
  destruct (decide (k = size (invalidRecored hd))) as [->|]; [|apply Hend; lia]. intros Hin. rewrite Hn in Hin.
  set (s := list_to_set (seqZ (fileNum hd) (Z.of_nat (S (size (invalidRecored hd))))) : gset Z). assert (s ⊆ invalidRecored hd) as Hs.
  { intros x. unfold s. rewrite elem_of_list_to_set, elem_of_seqZ. intros Hx. destruct (decide (x = fileNum hd + Z.of_nat (size (invalidRecored hd)))) as [->|]; [done|].
    replace x with (fileNum hd + (x - fileNum hd)) by lia. apply Hall. lia. }
  apply subseteq_size in Hs. unfold s in Hs. rewrite size_list_to_set in Hs by apply NoDup_seqZ. rewrite length_seqZ in Hs. lia.
Qed.

(** ** The stages of a load *)

Section Stages.
Context {L : Type} `{ErrorCodes}.
Variable ctl : IccFileController.
Variable answer : SimIoRequestInfo -> IccIoResultInfo.
Hypothesis modem : telRilManager_ ctl = true.
Implicit Types (l : load (L := L)) (hd : IccControllerHolder L) (a : action L).

Definition start_holder l : IccControllerHolder L :=
  set_fileLoaded (Some (from l))
    match kind_of l with
    | AllRecords seek => set_isUseSeek seek (IccControllerHolder_new (file_id l) 1 (path_of ctl l) true)
    | OneRecord num => IccControllerHolder_new (file_id l) (Z.of_nat num + 1) (path_of ctl l) false
    | Contents => IccControllerHolder_new (file_id l) 1 [] true
    | Sizes => IccControllerHolder_new (file_id l) 1 (path_of ctl l) true
    end.
Definition size_message l : ControllerMessage :=
  match kind_of l with
  | AllRecords _ | OneRecord _ => MSG_SIM_OBTAIN_SIZE_OF_FIXED_ELEMENTARY_FILE_DONE
  | Contents => MSG_SIM_OBTAIN_SIZE_OF_TRANSPARENT_ELEMENTARY_FILE_DONE
  | Sizes => MSG_SIM_OBTAIN_SIZE_OF_LINEAR_ELEMENTARY_FILE_DONE
  end.
Definition arguments l : Z * Z := match kind_of l with Contents => (file_id l, 0) | _ => (INVALID_VALUE, INVALID_VALUE) end.

(** The holder when the first [k] records are known, and the blank records are those in [blanks]. *)
Definition reading l (seek : bool) (size : Z) (records : list cstring) (blanks : gset Z) (k : nat) : IccControllerHolder L :=
  MkIccControllerHolder (file_id l) (Z.of_nat k + 1) size (zlen records) true (path_of ctl l) blanks seek (Some (from l)) (take k records).
Definition blank_set (size : Z) (records : list cstring) (blanks : gset Z) : Prop :=
  forall b, b ∈ blanks -> 1 <= b /\ records !! Z.to_nat (b - 1) = Some (blank_record size).

(** [asks l msg m args hd n]: the load [l] can wait for the answer to [msg], with the message [m] and the holder [hd] in the event that is kept for it; at most [n - 1] requests
    are to follow. *)
Inductive asks l : SimIoRequestInfo -> ControllerMessage -> Z * Z -> IccControllerHolder L -> nat -> Prop :=
| asks_sizes : asks l (get_response (file_id l) (path_of ctl l)) (size_message l) (arguments l) (start_holder l)
    (match file_of l with LinearFixed _ records => length records | Transparent _ => 0 end + 2)
| asks_blanks size records : kind_of l = AllRecords true -> file_of l = LinearFixed size records ->
    asks l (seek_request (file_id l) size (path_of ctl l)) MSG_SIM_OBTAIN_INVALID_RECORD_OF_FIXED_ELEMENTARY_FILE_DONE (INVALID_VALUE, INVALID_VALUE)
      (reading l true size records ∅ 0) (length records + 1)
| asks_record seek size records blanks k : kind_of l = AllRecords seek -> file_of l = LinearFixed size records -> blank_set size records blanks -> (k < length records)%nat ->
    asks l (record_request (file_id l) (Z.of_nat k + 1) size (path_of ctl l)) MSG_SIM_OBTAIN_FIXED_ELEMENTARY_FILE_DONE (INVALID_VALUE, INVALID_VALUE)
      (reading l seek size records blanks k) (length records - k)
| asks_one_record num size records : kind_of l = OneRecord num -> file_of l = LinearFixed size records ->
    asks l (record_request (file_id l) (Z.of_nat num + 1) size (path_of ctl l)) MSG_SIM_OBTAIN_FIXED_ELEMENTARY_FILE_DONE (INVALID_VALUE, INVALID_VALUE)
      (set_sizes size (zlen records) (start_holder l)) 1
| asks_contents text size : kind_of l = Contents -> file_of l = Transparent text -> response (answer (read_binary (file_id l) size (path_of ctl l))) = text ->
    asks l (read_binary (file_id l) size (path_of ctl l)) MSG_SIM_OBTAIN_TRANSPARENT_ELEMENTARY_FILE_DONE (file_id l, 0) (start_holder l) 1.

Definition request_event (m : ControllerMessage) (args : Z * Z) hd : InnerEvent (IccToRilMsg L) := event_to_ril ctl m args.1 args.2 hd.
(** The event with the modem's answer. *)
Definition answered (m : ControllerMessage) (args : Z * Z) hd (d : IccFileData) : InnerEvent (from_ril L) :=
  MkInnerEvent (message_id m) 0 (Some (this_handler ctl)) (UniqueMsg (MkIccFromRilMsg (MkIccToRilMsg (Some hd) args.1 args.2) d)).
Definition as_data (r : IccIoResultInfo) : IccFileData := MkIccFileData (io_sw1 r) (io_sw2 r) (response r) None.

(** What comes next: the caller is told, or a further request is made. *)
Definition goes_on l (n : nat) (actions : list (action L)) : Prop :=
  exists a, actions = [a] /\
    (contents_event l a \/
     exists msg m args hd n', a = GetSimIO (slotId_ ctl) msg (Some (request_event m args hd)) /\ asks l msg m args hd n' /\ (n' < n)%nat).

Lemma message_of_id m : message_of (message_id m) = Some m.
Proof. by destruct m. Qed.
Lemma asks_positive l msg m args hd n : asks l msg m args hd n -> (0 < n)%nat.
Proof. intros []; lia. Qed.
Lemma asks_loaded l msg m args hd n : asks l msg m args hd n -> fileLoaded hd = Some (from l).
Proof. by intros []. Qed.
Lemma to_modem_on msg (e : option (InnerEvent (IccToRilMsg L))) : to_modem ctl msg e = [GetSimIO (slotId_ ctl) msg e].
Proof. unfold to_modem. by rewrite modem. Qed.
Lemma path_again l : kind_of l <> Contents -> CheckRightPath ctl (path_of ctl l) (file_id l) = path_of ctl l.
Proof.
  intros Hk. unfold path_of. destruct (kind_of l); [..|done|]; unfold CheckRightPath; destruct (given_path l); try done; by destruct (ObtainElementFilePath ctl (file_id l)).
Qed.
Lemma read_record_reading l seek size records blanks k : kind_of l = AllRecords seek ->
  read_record ctl (reading l seek size records blanks k) = record_request (file_id l) (Z.of_nat k + 1) size (path_of ctl l).
Proof. intros Hk. unfold read_record. cbn [fileId fileNum fileSize filePath reading]. rewrite path_again by congruence. done. Qed.

(** *** Skipping *)
Lemma skip_reading l seek size records blanks fuel k : blank_set size records blanks -> (k <= length records)%nat ->
  exists k', skip_invalid fuel (reading l seek size records blanks k) = reading l seek size records blanks k' /\ (k <= k' <= length records)%nat /\
    (forall j, (k <= j)%nat -> (Z.of_nat j + 1) ∉ blanks -> (k' <= j)%nat).
Proof.
  intros HB. revert k; induction fuel as [|fuel IH]; intros k Hk; [by exists k|]. cbn [skip_invalid]. cbn [fileNum invalidRecored reading].
  destruct (decide (Z.of_nat k + 1 ∈ blanks)) as [Hi|Hi]; [|by exists k].
  destruct (HB _ Hi) as [_ Hr]. replace (Z.to_nat (Z.of_nat k + 1 - 1)) with k in Hr by lia. pose proof (lookup_lt_Some _ _ _ Hr) as Hlt.
  assert (next_result (blank (reading l seek size records blanks k)) (reading l seek size records blanks k) = reading l seek size records blanks (S k)) as ->.
  { unfold next_result, blank, reading. cbn. erewrite take_S_r by exact Hr. by replace (Z.of_nat (S k) + 1) with (Z.of_nat k + 1 + 1) by lia. }
  destruct (IH (S k)) as (k' & -> & Hk' & Hj); [lia|]. exists k'. split_and!; [done|lia|lia|]. intros j Hle Hn. apply Hj; [|done].
  destruct (decide (j = k)) as [->|]; [done|lia].
Qed.

(** *** The answers *)

Lemma goes_on_ask l n a msg m args hd n' : a = GetSimIO (slotId_ ctl) msg (Some (request_event m args hd)) -> asks l msg m args hd n' -> (n' < n)%nat -> goes_on l n [a].
Proof. intros -> Ha Hn. exists (GetSimIO (slotId_ ctl) msg (Some (request_event m args hd))). split; [done|]. right. by eexists _, _, _, _, _. Qed.
Lemma goes_on_told l n a : contents_event l a -> goes_on l n [a].
Proof. intros Ha. exists a. split; [done|]. by left. Qed.
(** One event for the caller, of whom it is known that it can be told. *)
Lemma data_event_one l d : is_Some (GetOwner (from l)) -> exists a, data_event l d = [a].
Proof. intros [owner Ho]. unfold data_event. rewrite Ho. by eexists. Qed.
Lemma send_response_loaded l hd d : fileLoaded hd = Some (from l) -> SendResponse (Some hd) d = Ret (data_event l d).
Proof. intros Hl. unfold SendResponse, data_event. rewrite Hl. cbn. by destruct (GetOwner (from l)). Qed.

Lemma linear_size_answer l hd d size (records : list cstring) header : header_says ELEMENTARY_FILE_TYPE_LINEAR_FIXED (size * zlen records) (Some size) header -> 0 < size ->
  resultData d = hex header ->
  ProcessRecordSize ctl (UniqueMsg (MkIccFromRilMsg (MkIccToRilMsg (Some hd) INVALID_VALUE INVALID_VALUE) d)) = Ret (SendFixedRecordRequest ctl (set_sizes size (zlen records) hd)) /\
  (fileLoaded hd = Some (from l) ->
   ProcessLinearRecordSize (UniqueMsg (MkIccFromRilMsg (MkIccToRilMsg (Some hd) INVALID_VALUE INVALID_VALUE) d)) = Ret (SendEfLinearResult (Some (from l)) (size, size * zlen records, zlen records))).
Proof.
  intros Hh Hs Hd. assert (Z.quot (size * zlen records) size = zlen records) as Hq by (rewrite Z.mul_comm; apply Z.quot_mul; lia). assert ((size =? 0) = false) as Hz by lia.
  unfold ProcessRecordSize, ProcessLinearRecordSize, received. cbn [GetUniqueObject rilMsg controlHolder fileData]. rewrite Hd, (header_converts _ _ _ _ Hh). change (LENGTH_OF_RECORD <? 15) with true. cbv iota.
  split; [|intros Hl].
  - unfold IsValidRecordSizeData. rewrite (header_elementary _ _ _ _ Hh). cbn [mbind outcome_bind negb]. rewrite (header_size _ _ _ _ Hh size) by done. cbn [mbind outcome_bind]. by rewrite Hz, Hq.
  - cbn [ParseFileSize]. rewrite (header_size _ _ _ _ Hh size) by done. cbn [mbind outcome_bind]. by rewrite Hz, Hq, Hl.
Qed.
Lemma sizes_answered l n : readable ctl answer l -> n = (match file_of l with LinearFixed _ records => length records | Transparent _ => 0 end + 2)%nat ->
  exists actions, ProcessEvent ctl (Some (answered (size_message l) (arguments l) (start_holder l) (as_data (answer (get_response (file_id l) (path_of ctl l)))))) = Ret actions /\ goes_on l n actions.
Proof.
  intros (Hs & [owner Ho] & Hk) ->. unfold ProcessEvent, answered. cbn [GetObject GetInnerEventId ProcessErrorResponse GetSharedObject]. rewrite message_of_id. unfold size_message, arguments.
  destruct (kind_of l) as [seek|num| |] eqn:Ek, (file_of l) as [text|size records] eqn:Ef; try done; cbn [serves] in Hs; cbn [fst snd].
  - destruct Hs as (header & blanks & Hs & Htot & Hne & Hh & Hr & _). destruct (linear_size_answer l (start_holder l) (as_data (answer (get_response (file_id l) (path_of ctl l)))) size records header Hh) as [-> _]; [lia|done|].
    eexists; split; [done|]. assert (set_sizes size (zlen records) (start_holder l) = reading l seek size records ∅ 0) as -> by (unfold start_holder; by rewrite Ek).
    unfold SendFixedRecordRequest. cbn [isUseSeek reading]. rewrite !to_modem_on. destruct seek.
    + eapply goes_on_ask; [|by eapply asks_blanks|lia]. f_equal. unfold IccFileController.seek, seek_request. cbn. by rewrite path_again by congruence.
    + eapply goes_on_ask; [|eapply (asks_record l false size records ∅ 0); [done..|set_solver|]|]; [by rewrite (read_record_reading l false) |destruct records; cbn; [done|lia]|lia].
  - destruct Hs as (header & blanks & Hs & Htot & Hne & Hh & Hr & _). destruct (linear_size_answer l (start_holder l) (as_data (answer (get_response (file_id l) (path_of ctl l)))) size records header Hh) as [-> _]; [lia|done|].
    eexists; split; [done|]. unfold SendFixedRecordRequest. replace (isUseSeek (set_sizes size (zlen records) (start_holder l))) with false by (unfold start_holder; by rewrite Ek). rewrite to_modem_on.
    eapply goes_on_ask; [|by eapply asks_one_record|lia]. f_equal. unfold read_record, start_holder. rewrite Ek. cbn. by rewrite path_again by congruence.
  - destruct Hs as (size & header & Hs & Hh & Hr & Ht). unfold ProcessBinarySize, received. cbn [GetUniqueObject rilMsg controlHolder fileData to_arg1]. unfold as_data. cbn [resultData]. rewrite Hr, (header_converts _ _ _ _ Hh).
    change (STRUCTURE_OF_DATA <? 15) with true. cbv iota. unfold IsValidBinarySizeData. rewrite (header_elementary _ _ _ _ Hh). cbn [mbind outcome_bind negb]. rewrite (header_total _ _ _ _ Hh). cbn [mbind outcome_bind].
    eexists; split; [done|]. assert (start_holder l = set_fileLoaded (Some (from l)) (IccControllerHolder_new (file_id l) 1 [] true)) as E by (unfold start_holder; by rewrite Ek). rewrite E. cbn [fileLoaded set_fileLoaded fst].
    rewrite to_modem_on. replace (ObtainElementFilePath ctl (file_id l)) with (path_of ctl l) by (unfold path_of; by rewrite Ek).
    eapply goes_on_ask; [|by eapply asks_contents|lia]. by rewrite E.
  - destruct Hs as (header & blanks & Hs & Htot & Hne & Hh & Hr & _). destruct (linear_size_answer l (start_holder l) (as_data (answer (get_response (file_id l) (path_of ctl l)))) size records header Hh) as [_ Hl]; [lia|done|].
    rewrite Hl by (unfold start_holder; by rewrite Ek). eexists; split; [done|]. unfold SendEfLinearResult. rewrite Ho. apply goes_on_told. unfold contents_event. rewrite Ek, Ef. unfold SendEfLinearResult. by rewrite Ho.
Qed.
Lemma hex_set bytes : Forall is_u8 bytes -> exists rawData recordLen, HexStringConvertToBytes (hex bytes) 0 = (rawData, recordLen) /\
  (match rawData with Some d => list_to_set (take (Z.to_nat recordLen) d) | None => ∅ end : gset Z) = list_to_set bytes.
Proof.
  intros HB. destruct bytes as [|b bytes]; [by exists None, 0|]. eexists _, _. split; [by apply hex_converts|]. unfold zlen. rewrite Nat2Z.id, take_app_length. done.
Qed.
(** The records that are read after a point where some were skipped. *)
Lemma after_skipping l seek size records blanks k n : kind_of l = AllRecords seek -> file_of l = LinearFixed size records -> is_Some (GetOwner (from l)) ->
  blank_set size records blanks -> (k <= length records)%nat -> (length records - k < n)%nat ->
  let hd := skip_invalid_records (reading l seek size records blanks k) in
  goes_on l n (if countFiles hd <? fileNum hd then SendMultiRecordResult (fileLoaded hd) (fileResults hd) (fileId hd)
               else [GetSimIO (slotId_ ctl) (read_record ctl hd) (BuildCallerInfo ctl MSG_SIM_OBTAIN_FIXED_ELEMENTARY_FILE_DONE hd)]).
Proof.
  intros Ek Ef [owner Ho] HB Hk Hn. cbv zeta. unfold skip_invalid_records. destruct (skip_reading l seek size records blanks (base.size (invalidRecored (reading l seek size records blanks k))) k HB Hk) as (k' & -> & Hk' & _).
  cbn [countFiles fileNum reading fileLoaded fileResults fileId]. unfold zlen. destruct (Z.ltb_spec (Z.of_nat (length records)) (Z.of_nat k' + 1)).
  - assert (take k' records = records) as -> by (apply take_ge; lia). unfold SendMultiRecordResult. rewrite Ho. apply goes_on_told. unfold contents_event. rewrite Ek, Ef. unfold SendMultiRecordResult. by rewrite Ho.
  - eapply goes_on_ask; [|eapply (asks_record l seek size records blanks k'); [done..|lia]|lia]. by rewrite (read_record_reading l seek).
Qed.
Lemma blanks_answered l size records : readable ctl answer l -> kind_of l = AllRecords true -> file_of l = LinearFixed size records ->
  exists actions, ProcessEvent ctl (Some (answered MSG_SIM_OBTAIN_INVALID_RECORD_OF_FIXED_ELEMENTARY_FILE_DONE (INVALID_VALUE, INVALID_VALUE) (reading l true size records ∅ 0)
    (as_data (answer (seek_request (file_id l) size (path_of ctl l)))))) = Ret actions /\ goes_on l (length records + 1) actions.
Proof.
  intros (Hs & Ho & _) Ek Ef. rewrite Ef in Hs. destruct Hs as (header & blanks & _ & _ & _ & _ & _ & _ & Hr & HB & (k & Hk & Hnot)).
  unfold ProcessEvent, answered. cbn [GetObject GetInnerEventId ProcessErrorResponse GetSharedObject]. rewrite message_of_id. unfold ProcessInvalidRecord, received. cbn [GetUniqueObject rilMsg controlHolder fileData as_data resultData].
  unfold as_data. cbn [resultData]. rewrite Hr. destruct (hex_set blanks) as (rawData & recordLen & -> & ->); [by eapply Forall_impl; [exact HB|intros ? [? _]]|].
  eexists; split; [done|]. cbn [invalidRecored reading set_invalidRecored]. rewrite union_empty_l_L. set (bs := list_to_set blanks : gset Z).
  assert (blank_set size records bs) as HBs. { intros b Hb. apply elem_of_list_to_set in Hb. eapply Forall_forall in HB; [|exact Hb]. tauto. }
  change (set_invalidRecored bs (reading l true size records ∅ 0)) with (reading l true size records bs 0). unfold skip_invalid_records.
  destruct (skip_reading l true size records bs (base.size (invalidRecored (reading l true size records bs 0))) 0 HBs) as (k' & -> & Hk' & Hj); [lia|].
  rewrite to_modem_on, (read_record_reading l true) by done. assert (k' <= k)%nat. { apply Hj; [lia|]. unfold bs. by rewrite elem_of_list_to_set. }
  eapply goes_on_ask; [|eapply (asks_record l true size records bs k'); [done..|lia]|lia]. done.
Qed.
Lemma record_answered l seek size records blanks k : readable ctl answer l -> kind_of l = AllRecords seek -> file_of l = LinearFixed size records -> blank_set size records blanks -> (k < length records)%nat ->
  exists actions, ProcessEvent ctl (Some (answered MSG_SIM_OBTAIN_FIXED_ELEMENTARY_FILE_DONE (INVALID_VALUE, INVALID_VALUE) (reading l seek size records blanks k)
    (as_data (answer (record_request (file_id l) (Z.of_nat k + 1) size (path_of ctl l)))))) = Ret actions /\ goes_on l (length records - k) actions.
Proof.
  intros (Hs & Ho & _) Ek Ef HB Hk. rewrite Ef in Hs. destruct Hs as (header & bs & _ & _ & _ & _ & _ & Hrec & _). destruct (lookup_lt_is_Some_2 _ _ Hk) as [r Hr].
  unfold ProcessEvent, answered. cbn [GetObject GetInnerEventId ProcessErrorResponse GetSharedObject]. rewrite message_of_id. unfold ProcessReadRecord, received. cbn [GetUniqueObject rilMsg controlHolder fileData].
  unfold as_data. cbn [resultData getAllFile reading]. rewrite (Hrec k r Hr), modem. assert (next_result r (reading l seek size records blanks k) = reading l seek size records blanks (S k)) as E.
  { unfold next_result, reading. cbn. erewrite take_S_r by exact Hr. by replace (Z.of_nat (S k) + 1) with (Z.of_nat k + 1 + 1) by lia. }
  rewrite E. eexists. split; [|by eapply (after_skipping l seek size records blanks (S k)); [done..|lia|lia]]. by destruct (_ <? _).
Qed.
Lemma last_answered l m num text d : fileLoaded (start_holder l) = Some (from l) -> is_Some (GetOwner (from l)) -> resultData d = text -> exception d = None ->
  kind_of l = OneRecord num /\ (exists size records, file_of l = LinearFixed size records /\ records !! num = Some text) \/ kind_of l = Contents /\ file_of l = Transparent text ->
  SendResponse (Some (start_holder l)) d = Ret (data_event l d) /\ goes_on l m (data_event l d).
Proof.
  intros Hl Ho Hd He Hk. split; [by apply send_response_loaded|]. destruct (data_event_one l d Ho) as [a Ha]. rewrite Ha. apply goes_on_told. unfold contents_event.
  destruct d as [s1 s2 t e]; cbn in Hd, He; subst t e. destruct Hk as [(-> & size & records & -> & Hr)|(-> & ->)]; [by exists s1, s2, text|by exists s1, s2].
Qed.

(** Whatever a load waits for, the answer leads on. *)
Lemma answer_goes_on l msg m args hd n : readable ctl answer l -> asks l msg m args hd n ->
  exists actions, ProcessEvent ctl (Some (answered m args hd (as_data (answer msg)))) = Ret actions /\ goes_on l n actions.
Proof.
  intros HR Ha. destruct Ha as [|size records Ek Ef|seek size records blanks k Ek Ef HB Hk|num size records Ek Ef|text size Ek Ef Ht].
  - by apply sizes_answered.
  - by apply blanks_answered.
  - by apply record_answered.
  - destruct HR as (Hs & Ho & Hn). rewrite Ek, Ef in Hn. rewrite Ef in Hs. destruct Hs as (header & bs & _ & _ & _ & _ & _ & Hrec & _). destruct (lookup_lt_is_Some_2 _ _ Hn) as [r Hr].
    exists (data_event l (as_data (answer (record_request (file_id l) (Z.of_nat num + 1) size (path_of ctl l))))).
    destruct (last_answered l 1 num r (as_data (answer (record_request (file_id l) (Z.of_nat num + 1) size (path_of ctl l))))) as [_ Hgo]; [done..|by apply Hrec|done|by left; eauto|]. split; [|done].
    unfold ProcessEvent, answered. cbn [GetObject GetInnerEventId ProcessErrorResponse GetSharedObject]. rewrite message_of_id. unfold ProcessReadRecord, received. cbn [GetUniqueObject rilMsg controlHolder fileData].
    replace (getAllFile (set_sizes size (zlen records) (start_holder l))) with false by (unfold start_holder; by rewrite Ek). by apply send_response_loaded.
  - destruct HR as (_ & Ho & _). destruct (last_answered l 1 0 text (as_data (answer (read_binary (file_id l) size (path_of ctl l))))) as [Hsend Hgo]; [done..|by right|].
    eexists. split; [|exact Hgo]. unfold ProcessEvent, answered. cbn [GetObject GetInnerEventId ProcessErrorResponse GetSharedObject]. rewrite message_of_id. exact Hsend.
Qed.
(** An error report goes to the caller. *)
Lemma error_goes_on l hd id e : fileLoaded hd = Some (from l) -> is_Some (GetOwner (from l)) -> error e <> TelRilBase.ERR_NONE -> flag e = 0 ->
  exists a, ProcessEvent ctl (Some (MkInnerEvent id 0 (Some (this_handler ctl)) (SharedMsg (MkIccFromRilMsg (MkIccToRilMsg (Some hd) INVALID_VALUE INVALID_VALUE) (MkIccFileData 0 0 [] (Some e)))))) = Ret [a] /\
    error_event l a.
Proof.
  intros Hl [owner Ho] He Hf. unfold ProcessEvent. cbn [GetObject]. unfold ProcessErrorResponse. cbn [GetSharedObject rilMsg controlHolder mbind option_bind]. rewrite Hl, Ho. eexists. split; [done|].
  destruct e as [f s c]; cbn in He, Hf; subst f. exists s, c. split; [done|]. unfold data_event. by rewrite Ho.
Qed.
End Stages.
