(* ===== verification/CardReading.v ===== *)
(** * The files of a card are read

    The theorems about the system of CardFiles.v: whatever the order of events, every caller is told once, of the contents of its file or of an error, and reading ends. *)

From S2P Require Import Prelude CxxString SimUtils Parcel Parcelables CoreServiceApi TelRilBase IccFileController CardFiles.
Open Scope Z_scope.

Lemma Forall2_elem {A B} (P Q : A -> B -> Prop) l k : Forall2 P l k -> (forall x y, x ∈ l -> P x y -> Q x y) -> Forall2 Q l k.
Proof. induction 1; intros HQ; constructor; [apply HQ; [left|done]|apply IHForall2; intros; apply HQ; [by right|done]]. Qed.

Section Invariant.
Context {L : Type} `{ErrorCodes}.
Variable ctl : IccFileController.
Variable answer : SimIoRequestInfo -> IccIoResultInfo.
Hypothesis modem : telRilManager_ ctl = true.
Local Abbreviation asks := (asks ctl answer).
Local Abbreviation readable := (readable ctl answer).
Implicit Types (l : load (L := L)) (s : system (L := L)) (b : TelRilBase.TelRilBase (option (IccToRilMsg L))).

(** ** What every state is like *)

(** A request that the modem has not answered belongs to a load, and so does an event that has not been handled; the numbers bound what is left to do. *)
Definition waits b (x : Z * SimIoRequestInfo) (w : load * nat) : Prop :=
  exists m args hd n, TelRilBase.requestMap_ b !! x.1 = Some (TelRilBase.MkTelRilRequest x.1 (Some (to_ril (request_event ctl m args hd)))) /\
    asks w.1 x.2 m args hd n /\ w.2 = (2 * n)%nat /\ readable w.1.
Definition heard (e : InnerEvent (from_ril L)) (w : load * nat) : Prop :=
  readable w.1 /\
  ((exists msg m args hd n, asks w.1 msg m args hd n /\ e = answered ctl m args hd (as_data (answer msg)) /\ w.2 = (2 * n - 1)%nat) \/
   (exists hd id r, fileLoaded hd = Some (from w.1) /\ error r <> TelRilBase.ERR_NONE /\ flag r = 0 /\ w.2 = 1%nat /\
     e = MkInnerEvent id 0 (Some (this_handler ctl)) (SharedMsg (MkIccFromRilMsg (MkIccToRilMsg (Some hd) INVALID_VALUE INVALID_VALUE) (MkIccFileData 0 0 [] (Some r)))))).
Definition settled (a : action L) l : Prop := contents_event l a \/ error_event l a.

Record inv (ls : list load) s (work : nat) : Prop := MkInv {
  inv_loads : exists la lq ld, Forall2 (waits (ril s)) (air s) la /\ Forall2 heard (inbox s) lq /\ Forall2 settled (told s) ld /\ ls ≡ₚ la.*1 ++ lq.*1 ++ ld /\
    work = sum_list_with snd (la ++ lq);
  inv_serials : NoDup (air s).*1;
  inv_map : forall n r, TelRilBase.requestMap_ (ril s) !! n = Some r -> n ∈ (air s).*1;
  inv_ril : TelRilBase.rilInterface_ (ril s) = true }.

(** ** Requests and answers *)

Lemma perform_request slot msg m args hd s : TelRilBase.rilInterface_ (ril s) = true -> TelRilBase.requestMap_ (ril s) !! next_serial (ril s) = None ->
  exists b, perform (GetSimIO slot msg (Some (request_event ctl m args hd))) s = MkSystem b (air s ++ [(next_serial (ril s), msg)]) (inbox s) (told s) /\ TelRilBase.rilInterface_ b = true /\
    TelRilBase.requestMap_ b = <[next_serial (ril s) := TelRilBase.MkTelRilRequest (next_serial (ril s)) (Some (to_ril (request_event ctl m args hd)))]> (TelRilBase.requestMap_ (ril s)).
Proof.
  intros Hr Hn. unfold perform, TelRilBase.Request. rewrite Hr. cbn [negb TelRilBase.IsNeedBlockTelRilRequest andb]. unfold TelRilBase.IsNeedBlockTelRilRequest, TelRilBase.CreateTelRilRequest. cbn [andb].
  unfold next_serial, TelRilBase.GetNextSerialId in *. cbn [fst] in Hn |- *. cbn [TelRilBase.requestMap_]. rewrite Hn. eexists. by split_and!.
Qed.

(** The answer takes the request out of the map. *)
Lemma answer_found b (x : Z * SimIoRequestInfo) w code info res : TelRilBase.requestMap_ b !! x.1 = Some (TelRilBase.MkTelRilRequest x.1 (Some (to_ril w))) -> serial info = x.1 ->
  ResponseIccIo info res b = code ->
  exists b', code.2 = b' /\ TelRilBase.requestMap_ b' = delete x.1 (TelRilBase.requestMap_ b) /\ TelRilBase.rilInterface_ b' = TelRilBase.rilInterface_ b /\
    code.1 = (if negb (error info =? TelRilBase.ERR_NONE) then ErrorIccIoResponse (TelRilBase.MkTelRilRequest x.1 (Some (to_ril w))) info
              else ProcessIccIoInfo (TelRilBase.MkTelRilRequest x.1 (Some (to_ril w))) res).
Proof.
  intros Hm Hs <-. unfold ResponseIccIo, TelRilBase.FindTelRilRequest. rewrite Hs, Hm. cbn [is_null TelRilBase.pointer_]. destruct (negb _); by eexists.
Qed.
Lemma waits_delete b b' before x after la : NoDup ((before ++ x :: after).*1) -> TelRilBase.requestMap_ b' = delete x.1 (TelRilBase.requestMap_ b) ->
  Forall2 (waits b) (before ++ x :: after) la ->
  exists ws1 w ws2, la = ws1 ++ w :: ws2 /\ waits b x w /\ Forall2 (waits b') (before ++ after) (ws1 ++ ws2).
Proof.
  intros Hnd Hb (l1 & l2 & H1 & H2 & ->)%Forall2_app_inv_l. inversion H2 as [|? w ? l2' Hw H2' E1 E2]; subst. exists l1, w, l2'. split_and!; [done..|].
  rewrite fmap_app, fmap_cons in Hnd. apply NoDup_app in Hnd as (_ & Hn1 & [Hx _]%NoDup_cons).
  assert (forall y v, y.1 <> x.1 -> waits b y v -> waits b' y v) as Hk.
  { intros y v Hy (m & args & hd & n & Hm & Hr). exists m, args, hd, n. by rewrite Hb, lookup_delete_ne by congruence. }
  apply Forall2_app.
  - eapply Forall2_elem; [exact H1|]. intros y v Hy Hv. apply Hk; [|done]. intros E. apply (Hn1 x.1); [rewrite <- E; by apply list_elem_of_fmap_2|set_solver].
  - eapply Forall2_elem; [exact H2'|]. intros y v Hy Hv. apply Hk; [|done]. intros E. apply Hx. rewrite <- E. by apply list_elem_of_fmap_2.
Qed.

Lemma waits_insert b b' n r air la : (forall k q, TelRilBase.requestMap_ b !! k = Some q -> k <> n) -> TelRilBase.requestMap_ b' = <[n := r]> (TelRilBase.requestMap_ b) ->
  Forall2 (waits b) air la -> Forall2 (waits b') air la.
Proof.
  intros Hn Hb Hw. eapply Forall2_impl; [exact Hw|]. intros x w (m & args & hd & k & Hm & Hr). exists m, args, hd, k. split; [|done].
  rewrite Hb, lookup_insert_ne; [done|]. intros E. by eapply (Hn x.1).
Qed.

(** A new request: the number was free. *)
Lemma request_inv ls s slot msg m args hd n l (work : nat) lq ld la : readable l -> asks l msg m args hd n ->
  TelRilBase.requestMap_ (ril s) !! next_serial (ril s) = None ->
  Forall2 (waits (ril s)) (air s) la -> Forall2 heard (inbox s) lq -> Forall2 settled (told s) ld -> ls ≡ₚ l :: la.*1 ++ lq.*1 ++ ld -> work = (2 * n + sum_list_with snd (la ++ lq))%nat ->
  NoDup (air s).*1 -> (forall n r, TelRilBase.requestMap_ (ril s) !! n = Some r -> n ∈ (air s).*1) -> TelRilBase.rilInterface_ (ril s) = true ->
  (forall x, x ∈ air s -> is_Some (TelRilBase.requestMap_ (ril s) !! x.1)) ->
  inv ls (perform (GetSimIO slot msg (Some (request_event ctl m args hd))) s) work.
Proof.
  intros Hl Ha Hn Hla Hlq Hld Hls -> Hnd Hmap Hril Hin. destruct (perform_request slot msg m args hd s Hril Hn) as (b & -> & Hb & Hbm). set (sn := next_serial (ril s)) in *.
  assert (sn ∉ (air s).*1) as Hsn. { intros (x & E & Hx)%list_elem_of_fmap. destruct (Hin x Hx) as [? E']. rewrite <- E in E'. congruence. }
  split; cbn [ril air inbox told].
  - exists (la ++ [(l, (2 * n)%nat)]), lq, ld. split_and!; [|done|done| |].
    + apply Forall2_app; [eapply waits_insert; [|exact Hbm|exact Hla]; intros k q Hk ->; congruence|]. constructor; [|done]. exists m, args, hd, n. by rewrite Hbm, lookup_insert_eq.
    + rewrite Hls, fmap_app, <- app_assoc. cbn. by rewrite Permutation_middle.
    + rewrite !sum_list_with_app. cbn. lia.
  - rewrite fmap_app. apply NoDup_app. split_and!; [done| |apply NoDup_singleton]. intros x Hx. cbn. rewrite list_elem_of_singleton. by intros ->.
  - intros k r. rewrite Hbm, lookup_insert_Some, fmap_app, elem_of_app. intros [[<- _]|[_ Hk]]; [right; cbn; by left|left; by eapply Hmap].
  - done.
Qed.
Lemma waits_found b air la x : Forall2 (waits b) air la -> x ∈ air -> is_Some (TelRilBase.requestMap_ b !! x.1).
Proof. intros Hw Hx. apply list_elem_of_lookup in Hx as [i Hi]. destruct (Forall2_lookup_l _ _ _ _ _ Hw Hi) as (w & _ & m & args & hd & n & E & _). by eexists. Qed.
Lemma perform_told l n a s : goes_on ctl answer l n [a] -> contents_event l a -> perform a s = MkSystem (ril s) (air s) (inbox s) (told s ++ [a]).
Proof.
  destruct a; [|done]. intros _. unfold contents_event, SendMultiRecordResult, SendEfLinearResult, data_event, SendEvent.
  destruct (kind_of l), (file_of l); try done; destruct (GetOwner (from l)); intros; destruct_and?; repeat match goal with He : ex _ |- _ => destruct He end; destruct_and?; done.
Qed.

(** ** Steps keep the invariant and leave less to do *)

Lemma begun_request l : begun ctl l = [GetSimIO (slotId_ ctl) (get_response (file_id l) (path_of ctl l)) (Some (request_event ctl (size_message l) (arguments l) (start_holder ctl l)))].
Proof.
  unfold begun, path_of, request_event, start_holder, arguments, size_message. destruct (kind_of l) eqn:Ek; unfold ObtainAllLinearFixedFile, ObtainLinearFixedFile, ObtainBinaryFile, ObtainLinearFileSize;
    rewrite to_modem_on by done; unfold path_of; by rewrite ?Ek.
Qed.
Lemma begin_inv ls s work l : inv ls s work -> readable l -> TelRilBase.requestMap_ (ril s) !! next_serial (ril s) = None -> exists work', inv (l :: ls) (perform_all (begun ctl l) s) work'.
Proof.
  intros [(la & lq & ld & Hla & Hlq & Hld & Hls & ->) Hnd Hmap Hril] Hl Hn. rewrite begun_request. unfold perform_all. cbn [foldl].
  eexists. eapply request_inv; [exact Hl|apply asks_sizes|exact Hn|exact Hla|exact Hlq|exact Hld|by rewrite Hls|done|done|done|done|]. intros x. by eapply waits_found.
Qed.

Lemma moved ls s work before x after b e : inv ls s work -> air s = before ++ x :: after -> TelRilBase.requestMap_ b = delete x.1 (TelRilBase.requestMap_ (ril s)) ->
  TelRilBase.rilInterface_ b = true -> (forall w, waits (ril s) x w -> exists v, heard e (w.1, v) /\ (v < w.2)%nat) ->
  exists work', (work' < work)%nat /\ inv ls (MkSystem b (before ++ after) (inbox s ++ [e]) (told s)) work'.
Proof.
  intros [(la & lq & ld & Hla & Hlq & Hld & Hls & ->) Hnd Hmap Hril] Ha Hb Hbr He. rewrite Ha in Hla, Hnd. destruct (waits_delete _ b _ _ _ _ Hnd Hb Hla) as (ws1 & w & ws2 & -> & Hw & Hws).
  destruct (He w Hw) as (v & Hv & Hlt). exists (sum_list_with snd ((ws1 ++ ws2) ++ lq ++ [(w.1, v)])). split; [rewrite !sum_list_with_app; cbn; lia|].
  rewrite fmap_app, fmap_cons in Hnd. split; cbn [ril air inbox told].
  - exists (ws1 ++ ws2), (lq ++ [(w.1, v)]), ld. split_and!; [done|apply Forall2_app; [done|by constructor]|done| |done].
    rewrite Hls, !fmap_app. cbn. rewrite <- !app_assoc. cbn. rewrite <- !Permutation_middle. done.
  - rewrite fmap_app. rewrite <- Permutation_middle in Hnd. by apply NoDup_cons in Hnd as [_ ?].
  - intros k r. rewrite Hb, lookup_delete_Some, fmap_app. intros [Hne Hk]. apply Hmap in Hk. rewrite Ha, fmap_app, fmap_cons, elem_of_app, elem_of_cons in Hk. rewrite elem_of_app. destruct Hk as [|[->|]]; [by left|done|by right].
  - done.
Qed.

Lemma handled ls s work e events actions : inv ls s work -> inbox s = e :: events -> TelRilBase.requestMap_ (ril s) !! next_serial (ril s) = None ->
  ProcessEvent ctl (Some e) = Ret actions ->
  exists work', (work' < work)%nat /\ inv ls (perform_all actions (MkSystem (ril s) (air s) events (told s))) work'.
Proof.
  intros [(la & lq & ld & Hla & Hlq & Hld & Hls & ->) Hnd Hmap Hril] Hin Hn Hp. rewrite Hin in Hlq. inversion Hlq as [|? [l v] ? lq' [Hl He] Hlq']; subst; clear Hlq.
  assert (forall a, perform_all [a] (MkSystem (ril s) (air s) events (told s)) = perform a (MkSystem (ril s) (air s) events (told s))) as Hone by done. cbn [fst snd] in *.
  assert (forall a, perform a (MkSystem (ril s) (air s) events (told s)) = MkSystem (ril s) (air s) events (told s ++ [a]) -> settled a l -> (0 < v)%nat ->
    exists work', (work' < sum_list_with snd (la ++ (l, v) :: lq'))%nat /\ inv ls (perform a (MkSystem (ril s) (air s) events (told s))) work') as Htold.
  { intros a -> Ha Hv. exists (sum_list_with snd (la ++ lq')). split; [rewrite !sum_list_with_app; cbn; lia|]. split; [|done..]. exists la, lq', (ld ++ [l]). cbn [ril air inbox told].
    split_and!; [done..|apply Forall2_app; [done|by constructor]| |done]. rewrite Hls. cbn. by rewrite !app_assoc, <- Permutation_cons_append, <- Permutation_middle, <- app_assoc. }
  destruct He as [(msg & m & args & hd & n & Ha & -> & ->)|(hd & id & r & Hhd & Herr & Hflag & -> & ->)].
  - destruct (answer_goes_on ctl answer modem l msg m args hd n Hl Ha) as (actions' & E & a & -> & Hgo). rewrite E in Hp. injection Hp as <-. rewrite Hone. pose proof (asks_positive ctl answer l _ _ _ _ _ Ha) as Hpos.
    destruct Hgo as [Hc|(msg' & m' & args' & hd' & n' & -> & Ha' & Hlt)].
    + apply Htold; [|by left|lia]. rewrite (perform_told l 0); [done|by apply goes_on_told|done].
    + exists (2 * n' + sum_list_with snd (la ++ lq'))%nat. split; [rewrite !sum_list_with_app; cbn; lia|].
      eapply (request_inv _ _ _ _ _ _ _ _ _ _ lq' ld la); [exact Hl|exact Ha'|done..| |done|done|done|done|].
      * rewrite Hls. cbn. by rewrite <- Permutation_middle.
      * intros x. by eapply waits_found.
  - assert (is_Some (GetOwner (from l))) as Ho by apply Hl. destruct (error_goes_on ctl l hd id r Hhd Ho Herr Hflag) as (a & E & Ha). rewrite E in Hp. injection Hp as <-. rewrite Hone.
    apply Htold; [|by right|lia]. destruct Ho as [owner Ho]. destruct Ha as (? & ? & ? & Ha). unfold data_event in Ha. rewrite Ho in Ha. by injection Ha as ->.
Qed.

(** What the modem's driver hands back for a request in the map: the answer, or an error. *)
Lemma waiting_answer s x w c res : waits (ril s) x w -> (c = TelRilBase.ERR_NONE -> res = answer x.2) ->
  exists n b, ResponseIccIo (MkRadioResponseInfo 0 x.1 c) res (ril s) = (TELEPHONY_ERR_SUCCESS, Some n, b) /\
    TelRilBase.requestMap_ b = delete x.1 (TelRilBase.requestMap_ (ril s)) /\ TelRilBase.rilInterface_ b = TelRilBase.rilInterface_ (ril s) /\
    exists v, heard (MkInnerEvent (sent_id n) 0 (Some (receiver n)) (sent_object n)) (w.1, v) /\ (v < w.2)%nat.
Proof.
  intros (m & args & hd & n & Hm & Ha & Hn & Hl) Hres. pose proof (asks_positive ctl answer _ _ _ _ _ _ Ha) as Hpos.
  destruct (answer_found (ril s) x _ _ (MkRadioResponseInfo 0 x.1 c) res Hm eq_refl eq_refl) as (b & Eb & Hb & Hi & Ec).
  destruct (decide (c = TelRilBase.ERR_NONE)) as [->|Hc].
  - rewrite Hres in * by done. eexists _, b. split_and!; [|exact Hb|exact Hi|].
    + rewrite (surjective_pairing (ResponseIccIo _ _ _)), Eb, Ec. cbn. reflexivity.
    + exists (2 * n - 1)%nat. split; [|lia]. split; [done|]. left. by exists x.2, m, args, hd, n.
  - eexists _, b. split_and!; [|exact Hb|exact Hi|].
    + rewrite (surjective_pairing (ResponseIccIo _ _ _)), Eb, Ec. cbn [error]. rewrite (proj2 (Z.eqb_neq _ _) Hc). cbn. reflexivity.
    + exists 1%nat. split; [|lia]. split; [done|]. right. exists hd, (message_id m), (MkRadioResponseInfo 0 x.1 c). split_and!; try done. by eapply (asks_loaded ctl answer).
Qed.
Lemma answer_inv ls s work before x after c res code n b : inv ls s work -> air s = before ++ x :: after -> (c = TelRilBase.ERR_NONE -> res = answer x.2) ->
  ResponseIccIo (MkRadioResponseInfo 0 x.1 c) res (ril s) = (code, Some n, b) ->
  exists work', (work' < work)%nat /\ inv ls (MkSystem b (before ++ after) (inbox s ++ [MkInnerEvent (sent_id n) 0 (Some (receiver n)) (sent_object n)]) (told s)) work'.
Proof.
  intros Hi Ha Hres E. pose proof Hi as [(la & _ & _ & Hla & _) _ _ Hril]. rewrite Ha in Hla. apply Forall2_app_inv_l in Hla as (? & ? & _ & Hla & _). inversion Hla as [|? w ? ? Hw]; subst.
  destruct (waiting_answer s x w c res Hw Hres) as (n' & b' & E' & Hb & Hbi & _). assert (b' = b) as -> by congruence. rewrite Hril in Hbi.
  eapply moved; [done..|]. intros w' Hw'. destruct (waiting_answer s x w' c res Hw' Hres) as (n'' & b'' & E'' & _ & _ & Hv). assert (n'' = n) as -> by congruence. done.
Qed.

Lemma step_inv ls s s' work : inv ls s work -> step ctl answer s s' -> exists work', (work' < work)%nat /\ inv ls s' work'.
Proof.
  intros Hi Hs. destruct Hs as [s r msg before after code n b Ha E|s r msg before after err res code n b Ha Herr E|s e events actions Hin Hn Hp].
  - by eapply (answer_inv _ _ _ _ (r, msg)).
  - by eapply (answer_inv _ _ _ _ (r, msg) _ err res).
  - by eapply handled.
Qed.
(** While anything is left to do, something can happen: requests can always be answered, and once all are, the numbers are free. *)
Lemma inv_progress ls s work : inv ls s work -> air s <> [] \/ inbox s <> [] -> exists s', step ctl answer s s'.
Proof.
  intros [(la & lq & ld & Hla & Hlq & _) _ Hmap _] Hne. destruct (air s) as [|[r msg] after] eqn:Ea.
  - destruct Hne as [|Hne]; [done|]. destruct (inbox s) as [|e events] eqn:Ei; [done|]. inversion Hlq as [|? [l v] ? ? [Hl He]]; subst.
    assert (exists actions, ProcessEvent ctl (Some e) = Ret actions) as [actions Hp].
    { destruct He as [(msg & m & args & hd & n & Ha & -> & _)|(hd & id & r & Hhd & Herr & Hflag & _ & ->)].
      - destruct (answer_goes_on ctl answer modem l msg m args hd n Hl Ha) as (actions & E & _). by exists actions.
      - assert (is_Some (GetOwner (from l))) as Ho by apply Hl. destruct (error_goes_on ctl l hd id r Hhd Ho Herr Hflag) as (a & E & _). by exists [a]. }
    eexists. eapply step_handle; [exact Ei| |exact Hp]. destruct (TelRilBase.requestMap_ (ril s) !! next_serial (ril s)) eqn:E; [|done]. apply Hmap in E. set_solver.
  - inversion Hla as [|? w ? ? Hw]; subst. destruct (waiting_answer s (r, msg) w TelRilBase.ERR_NONE (answer msg) Hw) as (n & b & E & _); [done|]. eexists. by eapply (step_answer _ _ s r msg [] after).
Qed.

Lemma files_reachable_inv s0 ls s work0 : inv [] s0 work0 -> reachable ctl answer s0 ls s -> exists work, inv ls s work.
Proof.
  intros H0. induction 1 as [|ls s l _ [work IH] Hl Hn|ls s s' _ [work IH] Hs]; [by eexists|by eapply begin_inv|]. destruct (step_inv _ _ _ _ IH Hs) as (work' & _ & Hi). by exists work'.
Qed.
Lemma inv_acc ls s work : inv ls s work -> Acc (fun s' s => step ctl answer s s') s.
Proof. revert s; induction work as [work IH] using lt_wf_ind; intros s Hi. constructor. intros s' Hs. destruct (step_inv _ _ _ _ Hi Hs) as (work' & Hlt & Hi'). by eapply IH. Qed.
Lemma rtc_inv ls s s' work : inv ls s work -> rtc (step ctl answer) s s' -> exists work', inv ls s' work'.
Proof. intros Hi Hr. revert work Hi; induction Hr as [|s s1 s' Hs _ IH]; intros work Hi; [by eexists|]. destruct (step_inv _ _ _ _ Hi Hs) as (work' & _ & Hi'). by eapply IH. Qed.
Lemma inv_told ls s work : inv ls s work -> exists waiting done, ls ≡ₚ waiting ++ done /\ Forall2 settled (told s) done /\ length waiting = (length (air s) + length (inbox s))%nat.
Proof.
  intros [(la & lq & ld & Hla & Hlq & Hld & Hls & _) _ _ _]. exists (la.*1 ++ lq.*1), ld. split_and!; [by rewrite Hls, app_assoc|done|].
  apply Forall2_length in Hla, Hlq. rewrite length_app, !length_fmap. lia.
Qed.
End Invariant.

(** A driver with no request that waits, and nothing else going on. *)
Definition idle {L} (b : TelRilBase.TelRilBase (option (IccToRilMsg L))) : system (L := L) := MkSystem b [] [] [].
Lemma idle_inv {L} `{ErrorCodes} ctl answer (b : TelRilBase.TelRilBase (option (IccToRilMsg L))) : TelRilBase.requestMap_ b = ∅ -> TelRilBase.rilInterface_ b = true -> inv ctl answer [] (idle b) 0.
Proof. intros Hb Hr. split; cbn; [|constructor| |done]; [by exists [], [], []|]. intros n r. by rewrite Hb, lookup_empty. Qed.

(** ** The theorems *)


(** C21: Reading ends. From every reachable state the answers and events can only go on for a finite time, in whatever order, and when nothing can happen any more every load is
    settled: its caller has been told. *)
Theorem reading_ends {L} `{ErrorCodes} ctl answer (b : TelRilBase.TelRilBase (option (IccToRilMsg L))) ls s : telRilManager_ ctl = true ->
  TelRilBase.requestMap_ b = ∅ -> TelRilBase.rilInterface_ b = true -> reachable ctl answer (idle b) ls s ->
  Acc (fun s' s => step ctl answer s s') s /\
  forall s', rtc (step ctl answer) s s' -> (forall s'', ~ step ctl answer s' s'') -> exists done, ls ≡ₚ done /\ Forall2 settled (told s') done.
Proof.
  intros Hm Hb Hr Hs. destruct (files_reachable_inv ctl answer Hm _ _ _ _ (idle_inv ctl answer b Hb Hr) Hs) as [work Hi]. split; [by eapply inv_acc|]. intros s' Hss Hstuck.
  destruct (rtc_inv ctl answer Hm _ _ _ _ Hi Hss) as [work' Hi']. destruct (inv_told _ _ _ _ _ Hi') as (waiting & done & Hls & Hd & Hn). exists done. split; [|done].
  assert (waiting = []) as ->; [|done]. destruct (decide (air s' = [] /\ inbox s' = [])) as [[Ea Ei]|Hne]; [rewrite Ea, Ei in Hn; by destruct waiting|].
  destruct (inv_progress ctl answer Hm _ _ _ Hi') as [s'' Hs'']; [destruct (air s'); [right; by intros ?; apply Hne|by left]|]. by destruct (Hstuck s'').
Qed.

(** ** A card *)

Module Card.
(** EF ADN with three records of two bytes, the second of them blank, and EF ICCID. *)
Definition header (structure total size : Z) : list Z := [0; 0; total / 256; total mod 256; 0x6F; 0x3A; 4; 0; 0; 0; 0; 1; 2; structure; size].
Definition adn : list cstring := [str "0102"; str "FFFF"; str "A1B2"].
Definition iccid : cstring := str "98681012345678901234".
Definition ADN : Z := ef ELEMENTARY_FILE_ADN.
Definition ICCID : Z := ef ELEMENTARY_FILE_ICCID.
Definition respond (s : cstring) : IccIoResultInfo := MkIccIoResultInfo 0x90 0 s.
Definition answer (r : SimIoRequestInfo) : IccIoResultInfo :=
  if fileId_req r =? ADN then
    if command r =? request_code CONTROLLER_REQ_GET_RESPONSE then respond (hex (header ELEMENTARY_FILE_TYPE_LINEAR_FIXED 6 2))
    else if command r =? request_code CONTROLLER_REQ_SEEK then respond (hex [2])
    else respond (default [] (adn !! Z.to_nat (p1 r - 1)))
  else if command r =? request_code CONTROLLER_REQ_GET_RESPONSE then respond (hex (header ELEMENTARY_FILE_TYPE_TRANSPARENT 10 0)) else respond iccid.

Definition ctl : IccFileController := UsimFileController true 0 7.
Definition caller_of (id owner : Z) : caller unit := MkInnerEvent id 0 (Some owner) (Some (MkFileToControllerMsg id INVALID_VALUE None)).
Definition all_numbers : load (L := unit) := MkLoad (AllRecords true) ADN [] (caller_of 2 9) (LinearFixed 2 adn).
Definition third_number : load (L := unit) := MkLoad (OneRecord 2) ADN [] (caller_of 1 9) (LinearFixed 2 adn).
Definition card_id : load (L := unit) := MkLoad Contents ICCID [] (caller_of 4 8) (Transparent iccid).

Ltac by_record := match goal with |- forall k r, _ !! k = Some r -> _ => intros [|[|[|k]]] r [= <-]; vm_compute; reflexivity end.
Lemma adn_served : serves answer ADN (CheckRightPath ctl [] ADN) (LinearFixed 2 adn).
Proof.
  exists (header ELEMENTARY_FILE_TYPE_LINEAR_FIXED 6 2), [2]. split_and!; [done..| |done|by_record|done| |].
  - split_and!; [unfold header; repeat (apply Forall_cons_2; [by vm_compute|]); apply Forall_nil_2|done..|by intros ? [= <-]].
  - constructor; [|done]. by split_and!.
  - exists 0%nat. split; [cbn; lia|]. set_solver.
Qed.
Lemma all_numbers_readable : readable ctl answer all_numbers.
Proof. split; [exact adn_served|]. by split; [eexists|]. Qed.
Lemma third_number_readable : readable ctl answer third_number.
Proof. split; [exact adn_served|]. split; [by eexists|]. cbn. lia. Qed.
Lemma card_id_readable : readable ctl answer card_id.
Proof.
  split; [|by split; [eexists|]]. exists 10, (header ELEMENTARY_FILE_TYPE_TRANSPARENT 10 0). split_and!; [done..| |done|done]. split_and!; [unfold header; repeat (apply Forall_cons_2; [by vm_compute|]); apply Forall_nil_2|done..].
Qed.
#[local] Instance errors : ErrorCodes := { COMMON_ERR_OFFSET := 0x7D00000; ERR_FLATTEN_OBJECT := 3 }.

(** Answers come at once, the oldest request first; then the oldest event is handled. *)
Definition driver : TelRilBase.TelRilBase (option (IccToRilMsg unit)) := TelRilBase.MkTelRilBase 1 ∅ true 0 [str "GetSimStatus"].
Definition next (answer : SimIoRequestInfo -> IccIoResultInfo) (s : system (L := unit)) : outcome (system (L := unit)) :=
  match air s with
  | (r, msg) :: after =>
      match ResponseIccIo (MkRadioResponseInfo 0 r TelRilBase.ERR_NONE) (answer msg) (ril s) with
      | (_, Some n, b) => Ret (MkSystem b after (inbox s ++ [MkInnerEvent (sent_id n) 0 (Some (receiver n)) (sent_object n)]) (told s))
      | (_, None, b) => Ret (MkSystem b after (inbox s) (told s))
      end
  | [] =>
      match inbox s with
      | e :: events => actions ← ProcessEvent ctl (Some e); Ret (perform_all actions (MkSystem (ril s) [] events (told s)))
      | [] => Ret s
      end
  end.
Fixpoint run (answer : SimIoRequestInfo -> IccIoResultInfo) (n : nat) (s : system (L := unit)) : outcome (system (L := unit)) :=
  match n with O => Ret s | S n => s ← next answer s; run answer n s end.
Definition read_all (answer : SimIoRequestInfo -> IccIoResultInfo) (loads : list (load (L := unit))) : outcome (list (action unit)) :=
  s ← run answer 40 (foldl (fun s l => perform_all (begun ctl l) s) (idle driver) loads); Ret (told s).

Definition done_with (c : caller unit) (d : cstring) : to_file unit := UniqueResult (MkControllerToFileMsg (from_command (GetObject c)) (MkIccFileData 0x90 0 d None)).
Example three_at_once : read_all answer [all_numbers; card_id; third_number] =
  Ret [SendTelEvent 8 4 0 (done_with (caller_of 4 8) iccid);
       SendTelEvent 9 1 0 (done_with (caller_of 1 9) (str "A1B2"));
       SendTelEvent 9 2 ADN (RecordsResult (MkMultiRecordResult (MkFileToControllerMsg 2 INVALID_VALUE None) adn 3 None))].
Proof. vm_compute. reflexivity. Qed.

(** A phone book that has only blank records: the records that SEEK reports are skipped to one past the end, which is then read, and what the modem says to this becomes a fourth
    record. *)
Definition empty_answer (r : SimIoRequestInfo) : IccIoResultInfo :=
  if command r =? request_code CONTROLLER_REQ_GET_RESPONSE then respond (hex (header ELEMENTARY_FILE_TYPE_LINEAR_FIXED 6 2))
  else if command r =? request_code CONTROLLER_REQ_SEEK then respond (hex [1; 2; 3])
  else if p1 r <=? 3 then respond (str "FFFF") else MkIccIoResultInfo 0x94 0x02 [].
Example empty_phone_book : read_all empty_answer [all_numbers] =
  Ret [SendTelEvent 9 2 ADN (RecordsResult (MkMultiRecordResult (MkFileToControllerMsg 2 INVALID_VALUE None) [str "FFFF"; str "FFFF"; str "FFFF"; []] 4 None))].
Proof. vm_compute. reflexivity. Qed.

(** The same loads in the step relation. *)
Lemma loads_reachable : reachable ctl answer (idle driver) [card_id; all_numbers] (perform_all (begun ctl card_id) (perform_all (begun ctl all_numbers) (idle driver))).
Proof. apply reach_begin; [apply reach_begin; [apply reach_start|exact all_numbers_readable|done]|exact card_id_readable|done]. Qed.
Definition one_answered : system (L := unit) := match next answer (perform_all (begun ctl card_id) (perform_all (begun ctl all_numbers) (idle driver))) with Ret s => s | _ => idle driver end.
Lemma one_answered_reachable : reachable ctl answer (idle driver) [card_id; all_numbers] one_answered.
Proof.
  eapply reach_step; [exact loads_reachable|]. eapply (step_answer _ _ (perform_all (begun ctl card_id) (perform_all (begun ctl all_numbers) (idle driver))) 1 _ []); reflexivity.
Qed.
End Card.

Lemma reading_ends_witness : Acc (fun s' s => step (H := Card.errors) Card.ctl Card.answer s s') Card.one_answered.
Proof. apply (reading_ends Card.ctl Card.answer Card.driver [Card.card_id; Card.all_numbers] Card.one_answered eq_refl eq_refl eq_refl Card.one_answered_reachable). Defined.
