(* ===== verification/DiallingNumbers.v ===== *)
(** * Dialling numbers on a card

    [services/sim/src/icc_dialling_numbers_handler.cpp] and [sim_char_decode.h]: the records of a phone book are read and written through the file controller. Each load has a request in
    a map, under a number that travels with the events; the caller's event is answered when the last of them has come. *)

From S2P Require Import Prelude CxxString SimUtils SimNumberDecode Parcel Parcelables CoreServiceApi TelRilBase IccFileController.
Open Scope Z_scope.

(** ** Encoding of names ([SimCharDecode]) *)

Definition MAX_CHINESE_NAME : Z := 6.
Definition MAX_ENGLISH_NAME : Z := 12.
Definition CHINESE_FLAG : Z := 0x80.
Definition IsChineseString (s : cstring) : bool := existsb (fun c => negb (Z.land (code c) CHINESE_FLAG =? 0)) s.

(** [CharCodeToSequence], for [char] with "%02X" and for [char16_t] with "%04X". *)
Definition flag_of (chinese : bool) : cstring := if chinese then str "80" else [].
Definition max_number (chinese : bool) : nat := Z.to_nat (if chinese then MAX_CHINESE_NAME else MAX_ENGLISH_NAME).
Definition CharCodeToSequence (s : cstring) (chinese : bool) : cstring := flag_of chinese ++ (take (max_number chinese) s ≫= fun c => hex_chars (code c)).
Definition CharCodeToSequence16 (s : list Z) (chinese : bool) : cstring := flag_of chinese ++ (take (max_number chinese) s ≫= fun u => hex_chars (u / 256) ++ hex_chars (u mod 256)).

(** ** Constants *)

Definition MSG_SIM_OBTAIN_ADN_DONE : Z := 1.
Definition MSG_SIM_OBTAIN_ALL_ADN_DONE : Z := 2.
Definition MSG_SIM_OBTAIN_LINEAR_FILE_SIZE_DONE : Z := 3.
Definition MSG_SIM_RENEW_ADN_DONE : Z := 4.
Definition MSG_SIM_EXT_RECORD_LOAD_DONE : Z := 5.
Definition BCD_NUMBER_BYTES : Z := 0.
Definition TON_NPI_NUMBER : Z := 1.
Definition DIALING_NUMBERS_BEGIN : Z := 2.
Definition DIALING_NUMBERS_END : Z := 11.
Definition MORE_FILE_ID : Z := 12.
Definition EXTRA_FILE_ID : Z := 13.
Definition RECORD_LENGTH : Z := 28.
Definition LENGTH_RATE : Z := 2.
Definition INVALID_LENGTH : Z := 49.
Definition PRE_BYTES_NUM : Z := 14.
Definition MAX_NUMBER_SIZE_BYTES : Z := 11.
Definition MAX_EXT_RECORD_LENGTH_BYTES : Z := 13.
Definition MAX_EXT_BCD_LENGTH : Z := 10.
Definition EXT_RECORD_TYPE_ADDITIONAL_DATA : Z := 2.
Definition NAME_CHAR_POS : Z := 36.
Definition PARAMETER_INCORRECT : Z := 201.
Definition MAX_NUMBER_CHAR : Z := 20.

Module DiallingNumbers.
Section Handler.
Context `{!Parcelables.StringEx}.
(** [C]: what the caller keeps in its event ([callerCache]). *)
Context {C : Type}.
Definition info : Type := Parcelables.DiallingNumbersInfo.

(** ** Records *)

(** [record\[pos\] = bytes...], undefined outside the buffer. *)
Definition store_at (buf : list Z) (pos : Z) (bytes : list Z) : outcome (list Z) :=
  if decide (0 <= pos /\ pos + zlen bytes <= zlen buf) then Ret (take (Z.to_nat pos) buf ++ bytes ++ drop (Z.to_nat (pos + zlen bytes)) buf) else Undef.

(** The name, the number and the number of the extension record; nothing is changed where [None]. *)
Definition FetchDiallingNumberContent (diallingNumber : info) (recordData : cstring) : outcome (info * option Z) :=
  let '(data, recordLen) := HexStringConvertToBytes recordData 0 in
  match data with
  | None => Ret (diallingNumber, None)
  | Some record =>
      let length := recordLen - PRE_BYTES_NUM in
      if length <? 0 then Ret (diallingNumber, None)
      else
        tempStrTag ← DiallingNumberStringFieldConvertToString Parcelables.Str16ToStr8 data 0 length NAME_CHAR_POS;
        let diallingNumber := Parcelables.set_name_ (Parcelables.Str8ToStr16 tempStrTag) diallingNumber in
        count ← vec_get record length;
        let count := if MAX_NUMBER_SIZE_BYTES <? count then MAX_NUMBER_SIZE_BYTES else count in
        tempStrNumber ← BCDConvertToString_buf record recordLen (length + 1) count BCD_TYPE_ADN;
        ext ← vec_get record (recordLen - 1);
        Ret (Parcelables.set_number_ (Parcelables.Str8ToStr16 tempStrNumber) diallingNumber, Some ext)
  end.

Definition FetchExtensionContent (diallingNumber : option info) (recordData : cstring) : outcome (option info) :=
  let '(data, recordLen) := HexStringConvertToBytes recordData 0 in
  match diallingNumber, data with
  | Some d, Some record =>
      if negb (recordLen =? MAX_EXT_RECORD_LENGTH_BYTES) then Ret diallingNumber
      else
        kind ← vec_get record 0;
        if negb (kind =? EXT_RECORD_TYPE_ADDITIONAL_DATA) then Ret diallingNumber
        else
          length ← vec_get record 1;
          let length := if MAX_EXT_BCD_LENGTH <? length then MAX_EXT_BCD_LENGTH else length in
          extensionNumber ← ExtensionBCDConvertToString record recordLen 2 length BCD_TYPE_ADN;
          Ret (Some (Parcelables.set_number_ (Parcelables.number_ d ++ Parcelables.Str8ToStr16 extensionNumber) d))
  | _, _ => Ret diallingNumber
  end.

Definition CreateNameSequence (name : list Z) : option (list Z) * Z :=
  let tempTag := Parcelables.Str16ToStr8 name in
  HexStringConvertToBytes (if IsChineseString tempTag then CharCodeToSequence16 name true else CharCodeToSequence tempTag false) 0.

(** A number that has no BCD form leaves the record as it is. *)
Definition FillNumberFiledForDiallingNumber (buf : list Z) (number : cstring) (dataLength : Z) : outcome (list Z) :=
  let offSet := dataLength - PRE_BYTES_NUM in
  let '(ok, bcdCodes) := NumberConvertToBCD number [] false BCD_TYPE_ADN in
  if negb ok then Ret buf
  else
    buf ← store_at buf (offSet + TON_NPI_NUMBER) bcdCodes;
    buf ← store_at buf (offSet + BCD_NUMBER_BYTES) [u8 (zlen bcdCodes)];
    buf ← store_at buf (offSet + MORE_FILE_ID) [BYTE_VALUE];
    store_at buf (offSet + EXTRA_FILE_ID) [BYTE_VALUE].

(** The comparison with null goes on to use the pointer. *)
Definition CreateSavingSequence (diallingNumber : option info) (dataLength : Z) : outcome (option (list Z)) :=
  let offset := dataLength - PRE_BYTES_NUM in
  if dataLength <? 0 then Ret None
  else
    let diallingNumberString := replicate (Z.to_nat dataLength) BYTE_VALUE in
    let maxNumberSize := (DIALING_NUMBERS_END - DIALING_NUMBERS_BEGIN + 1) * LENGTH_RATE in
    d ← the diallingNumber;
    if maxNumberSize <? zlen (Parcelables.number_ d) then Ret None
    else
      let '(byteTag, byteTagLen) := CreateNameSequence (Parcelables.name_ d) in
      if byteTagLen <=? offset then
        buf ← FillNumberFiledForDiallingNumber diallingNumberString (Parcelables.Str16ToStr8 (Parcelables.number_ d)) dataLength;
        if 0 <? byteTagLen then ArrayCopy byteTag 0 (Some buf) 0 byteTagLen else Ret (Some buf)
      else Ret None.

(** Whether the number can be stored, and the object as the function leaves it. *)
Definition FormatNameAndNumber (diallingNumber : option info) (isDel : bool) : outcome (bool * option info) :=
  match diallingNumber with
  | None => Ret (false, None)
  | Some d =>
      if isDel then Ret (true, Some (Parcelables.set_name_ [] (Parcelables.set_number_ [] d)))
      else
        let name := Trim (Parcelables.Str16ToStr8 (Parcelables.name_ d)) in
        let number := Trim (Parcelables.Str16ToStr8 (Parcelables.number_ d)) in
        let nameWide := Parcelables.Str8ToStr16 name in
        let numberWide := Parcelables.Str8ToStr16 number in
        let nameMaxNum := if IsChineseString name then MAX_CHINESE_NAME else MAX_ENGLISH_NAME in
        let d := if nameMaxNum <? zlen nameWide then Parcelables.set_name_ (take (Z.to_nat nameMaxNum) nameWide) d else d in
        if MAX_NUMBER_CHAR <? zlen numberWide then
          tempNum ← substr number 0 MAX_NUMBER_CHAR;
          if IsValidNumberString tempNum then Ret (true, Some (Parcelables.set_number_ (Parcelables.Str8ToStr16 tempNum) d)) else Ret (false, Some d)
        else if negb (IsValidNumberString number) then Ret (false, Some d)
        else Ret (true, Some d)
  end.

(** ** Requests *)

(** What a load gives: a list of numbers, or one number. *)
Inductive result_object : Type := ResultList (l : list info) | ResultOne (d : option info).

(** The message of the caller's event, and the answer, which starts with its contents. *)
Record DiallingNumbersHandleHolder : Type := MkHolder { fileID : Z; holder_index : Z; diallingNumber : option info; callerCache : option C }.
Record DiallingNumbersHandlerResult : Type := MkHandlerResult { holder : DiallingNumbersHandleHolder; result : option result_object; exception : option RadioResponseInfo }.

Record DiallingNumberLoadRequest : Type := MkLoadRequest {
  extensionRecord_ : Z; elementaryFileId : Z; extFileId : Z; moreFileToGet : Z; pin2 : cstring; index : Z; loadId : Z; isDelete : bool;
  request_result : option result_object; request_exception : option RadioResponseInfo; callPointer : option (InnerEvent (option DiallingNumbersHandleHolder)) }.
Definition HasExtendedRecord (r : DiallingNumberLoadRequest) : bool := negb (extensionRecord_ r =? 0) && negb (extensionRecord_ r =? 0xff).
Definition HasCount (r : DiallingNumberLoadRequest) : bool := negb (moreFileToGet r =? 0).
Definition SetResult (v : option result_object) (r : DiallingNumberLoadRequest) : DiallingNumberLoadRequest :=
  MkLoadRequest (extensionRecord_ r) (elementaryFileId r) (extFileId r) (moreFileToGet r) (pin2 r) (index r) (loadId r) (isDelete r) v (request_exception r) (callPointer r).
Definition SetException (v : option RadioResponseInfo) (r : DiallingNumberLoadRequest) : DiallingNumberLoadRequest :=
  MkLoadRequest (extensionRecord_ r) (elementaryFileId r) (extFileId r) (moreFileToGet r) (pin2 r) (index r) (loadId r) (isDelete r) (request_result r) v (callPointer r).
Definition SetCount (n : Z) (r : DiallingNumberLoadRequest) : DiallingNumberLoadRequest :=
  MkLoadRequest (extensionRecord_ r) (elementaryFileId r) (extFileId r) n (pin2 r) (index r) (loadId r) (isDelete r) (request_result r) (request_exception r) (callPointer r).
Definition ClearCount : DiallingNumberLoadRequest -> DiallingNumberLoadRequest := SetCount 0.
Definition InitCount : DiallingNumberLoadRequest -> DiallingNumberLoadRequest := SetCount 1.
Definition SetIsDelete (b : bool) (r : DiallingNumberLoadRequest) : DiallingNumberLoadRequest :=
  MkLoadRequest (extensionRecord_ r) (elementaryFileId r) (extFileId r) (moreFileToGet r) (pin2 r) (index r) (loadId r) b (request_result r) (request_exception r) (callPointer r).
Definition SetExtension (n : Z) (r : DiallingNumberLoadRequest) : DiallingNumberLoadRequest :=
  MkLoadRequest n (elementaryFileId r) (extFileId r) (moreFileToGet r) (pin2 r) (index r) (loadId r) (isDelete r) (request_result r) (request_exception r) (callPointer r).

Record DiallingNumberUpdateInfor : Type := MkUpdateInfor { up_diallingNumber : option info; up_index : Z; up_fileId : Z; up_extFile : Z; up_pin2 : cstring; up_isDel : bool }.

(** What the handler does: file requests, and answers to callers (owner, id and object of the event). *)
Inductive output : Type :=
| FileAction (a : action info)
| Answer (owner id : Z) (object : DiallingNumbersHandlerResult).

(** [this_handler] is the handler itself; the map of requests and the next number are shared by all handlers. *)
Record handler : Type := MkHandler { fileController_ : option IccFileController; this_handler : Z; nextSerialId_ : Z; requestMap_ : gmap Z DiallingNumberLoadRequest; out : list output }.
Definition set_requestMap (m : gmap Z DiallingNumberLoadRequest) (h : handler) : handler := MkHandler (fileController_ h) (this_handler h) (nextSerialId_ h) m (out h).
Definition put (o : list output) (h : handler) : handler := MkHandler (fileController_ h) (this_handler h) (nextSerialId_ h) (requestMap_ h) (out h ++ o).

Definition HM : Type -> Type := partial handler.
Definition files (l : list (action info)) : HM unit := pure (modifies (put (FileAction <$> l))).

Definition GetNextSerialId : stateful handler Z := fun h =>
  (nextSerialId_ h, MkHandler (fileController_ h) (this_handler h) (i32 (nextSerialId_ h + 1)) (requestMap_ h) (out h)).
Definition CreateLoadRequest (fileId exId indexNum : Z) (pin2Str : cstring) (caller : option (InnerEvent (option DiallingNumbersHandleHolder))) : stateful handler DiallingNumberLoadRequest :=
  n ← GetNextSerialId;
  let loadRequest := MkLoadRequest 0 fileId exId 0 pin2Str indexNum n false None None caller in
  modifies (fun h => match requestMap_ h !! n with Some _ => h | None => set_requestMap (<[n := loadRequest]> (requestMap_ h)) h end) ;;
  mret loadRequest.
Definition FindLoadRequest (serial : Z) : stateful handler (option DiallingNumberLoadRequest) := gets (fun h => requestMap_ h !! serial).
Definition ClearLoadRequest (serial : Z) : stateful handler unit := modifies (fun h => set_requestMap (delete serial (requestMap_ h)) h).
(** A change of the request that a shared pointer to it makes; nothing happens to a request that is not in the map. *)
Definition on_request (serial : Z) (f : DiallingNumberLoadRequest -> DiallingNumberLoadRequest) : HM unit := pure (modifies (fun h => set_requestMap (alter f serial (requestMap_ h)) h)).

Definition GetFilePath (elementaryFileId : Z) : cstring := if elementaryFileId =? ef ELEMENTARY_FILE_ADN then MASTER_FILE_SIM ++ DEDICATED_FILE_TELECOM else [].
Definition BuildCallerInfo (eventId : Z) (pobj : option info) (loadId : Z) : stateful handler (option (caller info)) :=
  gets (fun h => Some (MkInnerEvent eventId 0 (Some (this_handler h)) (Some (MkFileToControllerMsg loadId INVALID_VALUE pobj)))).
Definition MakeExceptionResult (code : Z) : RadioResponseInfo := MkRadioResponseInfo (-1) (-1) code.

(** *** Operations *)

Definition with_files (f : IccFileController -> HM unit) : HM unit := c ← pure (gets fileController_); match c with Some ctl => f ctl | None => mret tt end.

Definition GetDiallingNumbers (efId exid index : Z) (caller : option (InnerEvent (option DiallingNumbersHandleHolder))) : HM unit :=
  with_files (fun ctl =>
    loadRequest ← pure (CreateLoadRequest efId exid index [] caller);
    ptDiallingNumberRead ← pure (BuildCallerInfo MSG_SIM_OBTAIN_ADN_DONE None (loadId loadRequest));
    files (ObtainLinearFixedFile ctl efId (GetFilePath efId) index ptDiallingNumberRead)).
Definition GetAllDiallingNumbers (efId exid : Z) (caller : option (InnerEvent (option DiallingNumbersHandleHolder))) : HM unit :=
  with_files (fun ctl =>
    loadRequest ← pure (CreateLoadRequest efId exid 0 [] caller);
    ptDiallingNumberReadAll ← pure (BuildCallerInfo MSG_SIM_OBTAIN_ALL_ADN_DONE None (loadId loadRequest));
    files (ObtainAllLinearFixedFile ctl efId (GetFilePath efId) ptDiallingNumberReadAll true)).
Definition UpdateDiallingNumbers (infor : DiallingNumberUpdateInfor) (caller : option (InnerEvent (option DiallingNumbersHandleHolder))) : HM unit :=
  with_files (fun ctl =>
    loadRequest ← pure (CreateLoadRequest (up_fileId infor) (up_extFile infor) (up_index infor) (up_pin2 infor) caller);
    on_request (loadId loadRequest) (SetIsDelete (up_isDel infor)) ;;
    linearFileSize ← pure (BuildCallerInfo MSG_SIM_OBTAIN_LINEAR_FILE_SIZE_DONE (up_diallingNumber infor) (loadId loadRequest));
    files (ObtainLinearFileSize ctl (up_fileId infor) (GetFilePath (up_fileId infor)) linearFileSize)).

Definition IsAdnHasExtRecord (eventId loadId : Z) : stateful handler bool :=
  if eventId =? MSG_SIM_OBTAIN_ADN_DONE then
    r ← FindLoadRequest loadId;
    mret (match r with Some r => HasExtendedRecord r | None => false end)
  else mret false.

(** *** Events from the file controller; each returns the number of its load, 0 where there is none *)

Definition unique (o : to_file info) : option (ControllerToFileMsg info) := match o with UniqueResult m => Some m | _ => None end.
Definition load_of (m : FileToControllerMsg info) : Z := arg1 m.

Definition SendUpdateCommand (diallingNumber : option info) (length : Z) (loadRequest : DiallingNumberLoadRequest) (loadId : Z) : HM unit :=
  let dataLen := if length =? INVALID_LENGTH then RECORD_LENGTH else length in
  dataDiallingNumber ← attempt (fun _ => if 0 <? dataLen then CreateSavingSequence diallingNumber dataLen else Ret None);
  match dataDiallingNumber with
  | Some bytes =>
      data ← attempt (fun _ => BytesConvertToHexString (Some bytes) dataLen);
      event ← pure (BuildCallerInfo MSG_SIM_RENEW_ADN_DONE diallingNumber loadId);
      ctl ← attempt (fun h => the (fileController_ h));
      files (UpdateLinearFixedFile ctl (elementaryFileId loadRequest) (GetFilePath (elementaryFileId loadRequest)) (index loadRequest) data dataLen (pin2 loadRequest) event) ;;
      on_request loadId InitCount
  | None => on_request loadId (SetException (Some (MakeExceptionResult PARAMETER_INCORRECT)))
  end.

Definition ProcessLinearSizeDone (object : to_file info) : HM Z :=
  match unique object with
  | Some fdError =>
      let loadId := load_of (command_of fdError) in
      on_request loadId (SetException (IccFileController.exception (file_data fdError))) ;;
      mret loadId
  | None =>
      match object with
      | LinearResult object =>
          let loadId := load_of (ef_command object) in
          r ← pure (FindLoadRequest loadId);
          match r with
          | Some loadRequest =>
              match ef_exception object with
              | Some _ => mret loadId
              | None =>
                  '(ok, diallingNumberLoad) ← attempt (fun _ => FormatNameAndNumber (iccLoader (ef_command object)) (isDelete loadRequest));
                  if negb ok then
                    on_request loadId (SetException (Some (MakeExceptionResult PARAMETER_INCORRECT))) ;;
                    mret loadId
                  else
                    SendUpdateCommand diallingNumberLoad (valueData object).1.1 loadRequest loadId ;;
                    mret loadId
              end
          | None => mret loadId
          end
      | _ => mret 0
      end
  end.

Definition ProcessUpdateRecordDone (object : to_file info) : HM Z :=
  match unique object with
  | Some object =>
      let loadId := load_of (command_of object) in
      let e := IccFileController.exception (file_data object) in
      on_request loadId (fun r =>
        let r := SetException e (ClearCount r) in
        match e with None => SetResult (Some (ResultOne (iccLoader (command_of object)))) r | Some _ => r end) ;;
      mret loadId
  | None => mret 0
  end.

(** [int i] counts the records from 0. *)
Fixpoint fetch_all (fileId : Z) (i : Z) (dataList : list cstring) : outcome (list info) :=
  match dataList with
  | [] => Ret []
  | item :: rest =>
      '(d, _) ← FetchDiallingNumberContent (Parcelables.set_index_ (1 + i) (Parcelables.set_elementaryFileId_ fileId Parcelables.DiallingNumbersInfo_new)) item;
      ds ← fetch_all fileId (i + 1) rest;
      Ret (d :: ds)
  end.
Definition ProcessDiallingNumber (loadRequest : DiallingNumberLoadRequest) (object : MultiRecordResult info) : HM unit :=
  l ← attempt (fun _ => fetch_all (elementaryFileId loadRequest) 0 (mr_fileResults object));
  on_request (loadId loadRequest) (fun r => SetResult (Some (ResultList l)) (ClearCount r)).
Definition ProcessDiallingNumberAllLoadDone (object : to_file info) : HM Z :=
  match unique object with
  | Some fdError =>
      let loadId := load_of (command_of fdError) in
      on_request loadId (SetException (IccFileController.exception (file_data fdError))) ;;
      mret loadId
  | None =>
      match object with
      | RecordsResult object =>
          let loadId := load_of (mr_command object) in
          match mr_exception object with
          | Some e => on_request loadId (SetException (Some e)) ;; mret loadId
          | None =>
              r ← pure (FindLoadRequest loadId);
              match r with Some loadRequest => ProcessDiallingNumber loadRequest object | None => mret tt end ;;
              mret loadId
          end
      | _ => mret 0
      end
  end.

(** [std::static_pointer_cast<DiallingNumbersInfo>] of a list of numbers would be undefined. *)
Definition ProcessExtensionRecordNumbers (object : to_file info) : HM Z :=
  match unique object with
  | Some fd =>
      let id := load_of (command_of fd) in
      r ← pure (FindLoadRequest id);
      match r, IccFileController.exception (file_data fd) with
      | Some loadRequest, None =>
          d ← attempt (fun _ => match request_result loadRequest with Some (ResultOne d) => Ret d | Some (ResultList _) => Undef | None => Ret None end);
          d ← attempt (fun _ => FetchExtensionContent d (resultData (file_data fd)));
          on_request id (SetResult (ResultOne ∘ Some <$> d)) ;;
          mret id
      | _, _ => mret id
      end
  | None => mret 0
  end.

Definition ProcessDiallingNumberLoadDone (object : to_file info) : HM Z :=
  match unique object with
  | Some fd =>
      let id := load_of (command_of fd) in
      match IccFileController.exception (file_data fd) with
      | Some e => on_request id (SetException (Some e)) ;; mret id
      | None =>
          r ← pure (FindLoadRequest id);
          match r with
          | None => mret id
          | Some loadRequest =>
              '(d, ext) ← attempt (fun _ => FetchDiallingNumberContent
                 (Parcelables.set_index_ (index loadRequest) (Parcelables.set_elementaryFileId_ (elementaryFileId loadRequest) Parcelables.DiallingNumbersInfo_new)) (resultData (file_data fd)));
              let fetched r := SetResult (Some (ResultOne (Some d))) (match ext with Some n => SetExtension n r | None => r end) in
              on_request id fetched ;;
              let loadRequest := fetched loadRequest in
              (if HasExtendedRecord loadRequest then
                 ptExtensionRecordRead ← pure (BuildCallerInfo MSG_SIM_EXT_RECORD_LOAD_DONE None (loadId loadRequest));
                 ctl ← attempt (fun h => the (fileController_ h));
                 files (ObtainLinearFixedFile ctl (extFileId loadRequest) (GetFilePath (extFileId loadRequest)) (extensionRecord_ loadRequest) ptExtensionRecordRead)
               else mret tt) ;;
              mret id
          end
      end
  | None => mret 0
  end.

Definition SendBackResult (loadId : Z) : stateful handler bool :=
  r ← FindLoadRequest loadId;
  match r with
  | None => mret false
  | Some loadRequest =>
      match callPointer loadRequest with
      | None => mret false
      | Some caller =>
          if HasCount loadRequest then mret false
          else
            match GetObject caller, GetOwner caller with
            | Some fd, Some owner =>
                modifies (put [Answer owner (GetInnerEventId caller) (MkHandlerResult fd (request_result loadRequest) (request_exception loadRequest))]) ;;
                ClearLoadRequest loadId ;;
                mret true
            | _, _ => mret false
            end
      end
  end.

Definition memberFuncMap_ (id : Z) : option (to_file info -> HM Z) :=
  if id =? MSG_SIM_OBTAIN_ADN_DONE then Some ProcessDiallingNumberLoadDone
  else if id =? MSG_SIM_OBTAIN_ALL_ADN_DONE then Some ProcessDiallingNumberAllLoadDone
  else if id =? MSG_SIM_OBTAIN_LINEAR_FILE_SIZE_DONE then Some ProcessLinearSizeDone
  else if id =? MSG_SIM_RENEW_ADN_DONE then Some ProcessUpdateRecordDone
  else if id =? MSG_SIM_EXT_RECORD_LOAD_DONE then Some ProcessExtensionRecordNumbers
  else None.
Definition ProcessEvent (event : option (InnerEvent (to_file info))) : HM unit :=
  match event with
  | None => mret tt
  | Some event =>
      match memberFuncMap_ (GetInnerEventId event) with
      | None => mret tt
      | Some memberFunc =>
          loadId ← memberFunc (GetObject event);
          more ← pure (IsAdnHasExtRecord (GetInnerEventId event) loadId);
          if more : bool then mret tt else pure (SendBackResult loadId) ;; mret tt
      end
  end.
Definition UpdateFileController (ctl : option IccFileController) : stateful handler unit :=
  modifies (fun h => MkHandler ctl (this_handler h) (nextSerialId_ h) (requestMap_ h) (out h)).
End Handler.
End DiallingNumbers.
