(* ===== verification/ContactRecord.v ===== *)
(** * A contact is read back as it was stored

    The two directions of DiallingNumbers.v on one record: what [CreateSavingSequence] writes, [FetchDiallingNumberContent] reads. *)

From S2P Require Import Prelude CxxString SimUtils SimNumberDecode Parcel Parcelables CoreServiceApi TelRilBase IccFileController CardFiles DiallingNumbers.
Open Scope Z_scope.
Import DiallingNumbers.

(** ** The parts of a record *)

Definition padding (n : Z) : list Z := replicate (Z.to_nat n) BYTE_VALUE.
Lemma zlen_padding n : 0 <= n -> zlen (padding n) = n.
Proof. intros. unfold zlen, padding. rewrite length_replicate. lia. Qed.
Lemma padding_app n m : 0 <= n -> 0 <= m -> padding (n + m) = padding n ++ padding m.
Proof. intros. unfold padding. rewrite Z2Nat.inj_add by lia. apply replicate_add. Qed.
(** The name field, filled up, and the number field with its length and the numbers of the extension. *)
Definition contact_record (name bcd : list Z) (size : Z) : list Z :=
  (name ++ padding (size - PRE_BYTES_NUM - zlen name)) ++ [zlen bcd] ++ bcd ++ padding (MAX_NUMBER_SIZE_BYTES - zlen bcd) ++ [BYTE_VALUE; BYTE_VALUE].

Lemma store_at_part a b c b' : zlen b' = zlen b -> store_at (a ++ b ++ c) (zlen a) b' = Ret (a ++ b' ++ c).
Proof.
  intros E. unfold store_at. pose proof (zlen_nonneg a). pose proof (zlen_nonneg b). pose proof (zlen_nonneg c). rewrite decide_True by (zlen_simpl; lia). f_equal. f_equal; [|f_equal].
  - unfold zlen. by rewrite Nat2Z.id, take_app_length.
  - rewrite E. replace (Z.to_nat (zlen a + zlen b)) with (length (a ++ b)) by (unfold zlen; rewrite length_app; lia). by rewrite app_assoc, drop_app_length.
Qed.
Lemma store_at_at buf pos a b c b' : buf = a ++ b ++ c -> pos = zlen a -> zlen b' = zlen b -> store_at buf pos b' = Ret (a ++ b' ++ c).
Proof. intros -> ->. apply store_at_part. Qed.

Section Record.
Context (bcd : list Z) (size : Z) (Hb : 1 <= zlen bcd <= MAX_NUMBER_SIZE_BYTES) (Hs : PRE_BYTES_NUM <= size).
Lemma record_split : padding size = padding (size - PRE_BYTES_NUM) ++ [BYTE_VALUE] ++ padding (zlen bcd) ++ padding (MAX_NUMBER_SIZE_BYTES - zlen bcd) ++ [BYTE_VALUE; BYTE_VALUE].
Proof.
  unfold PRE_BYTES_NUM, MAX_NUMBER_SIZE_BYTES in *. change [BYTE_VALUE; BYTE_VALUE] with (padding 2). change [BYTE_VALUE] with (padding 1). rewrite <- !padding_app by lia. f_equal. lia.
Qed.
Lemma number_filled number : NumberConvertToBCD number [] false BCD_TYPE_ADN = (true, bcd) ->
  FillNumberFiledForDiallingNumber (padding size) number size =
    Ret (padding (size - PRE_BYTES_NUM) ++ [zlen bcd] ++ bcd ++ padding (MAX_NUMBER_SIZE_BYTES - zlen bcd) ++ [BYTE_VALUE; BYTE_VALUE]).
Proof.
  intros E. unfold FillNumberFiledForDiallingNumber. rewrite E. cbn [negb]. rewrite record_split. unfold PRE_BYTES_NUM, MAX_NUMBER_SIZE_BYTES, TON_NPI_NUMBER, BCD_NUMBER_BYTES, MORE_FILE_ID, EXTRA_FILE_ID in *.
  rewrite (store_at_at _ _ (padding (size - 14) ++ [BYTE_VALUE]) (padding (zlen bcd)) (padding (11 - zlen bcd) ++ [BYTE_VALUE; BYTE_VALUE])); [|by rewrite <- !app_assoc|zlen_simpl; rewrite zlen_padding; lia|rewrite zlen_padding; lia].
  cbn [mbind outcome_bind]. rewrite (store_at_at _ _ (padding (size - 14)) [BYTE_VALUE] (bcd ++ padding (11 - zlen bcd) ++ [BYTE_VALUE; BYTE_VALUE])); [|by rewrite <- !app_assoc|rewrite zlen_padding; lia|done].
  cbn [mbind outcome_bind]. rewrite (store_at_at _ _ (padding (size - 14) ++ [u8 (zlen bcd)] ++ bcd ++ padding (11 - zlen bcd)) [BYTE_VALUE] [BYTE_VALUE]); [|by rewrite <- !app_assoc|zlen_simpl; rewrite !zlen_padding; lia|done].
  cbn [mbind outcome_bind]. rewrite (store_at_at _ _ ((padding (size - 14) ++ [u8 (zlen bcd)] ++ bcd ++ padding (11 - zlen bcd)) ++ [BYTE_VALUE]) [BYTE_VALUE] []); [|by rewrite <- !app_assoc|zlen_simpl; rewrite !zlen_padding; lia|done].
  rewrite u8_small by (unfold is_u8; lia). by rewrite <- !app_assoc.
Qed.
Lemma name_filled name rest : zlen name <= size - PRE_BYTES_NUM -> name <> [] ->
  ArrayCopy (Some (name ++ [0])) 0 (Some (padding (size - PRE_BYTES_NUM) ++ rest)) 0 (zlen name) = Ret (Some ((name ++ padding (size - PRE_BYTES_NUM - zlen name)) ++ rest)).
Proof.
  intros Hn Hne. unfold ArrayCopy. assert (0 < zlen name) as Hpos by (destruct name; [done|zlen_simpl; pose proof (zlen_nonneg name); lia]). pose proof (zlen_nonneg rest).
  destruct (Z.leb_spec (zlen name) 0); [lia|]. cbn [orb Z.ltb Z.compare]. rewrite (vec_slice_at _ [] name [0]) by (done || by rewrite Z.add_0_l). cbn [mbind outcome_bind].
  rewrite Z.add_0_l. destruct (Z.leb_spec (zlen name) (zlen (padding (size - PRE_BYTES_NUM) ++ rest))) as [|Hlt]; [|zlen_simpl; rewrite zlen_padding in Hlt; lia].
  assert (padding (size - PRE_BYTES_NUM) = padding (zlen name) ++ padding (size - PRE_BYTES_NUM - zlen name)) as -> by (rewrite <- padding_app by lia; f_equal; lia).
  apply f_equal, f_equal. rewrite <- !app_assoc. change (Z.to_nat 0) with 0%nat. rewrite take_0. cbn [app]. f_equal. replace (Z.to_nat (zlen name)) with (length (padding (zlen name))) by (unfold padding; by rewrite length_replicate).
  by rewrite drop_app_length.
Qed.
End Record.

(** ** What is written *)

(** Characters that stand for themselves in the alphabet of the card: letters, digits and most signs, but not '@', '$', '_', brackets and the like. *)
Definition plain (c : ascii) : bool :=
  (nth (Z.to_nat (code c)) LANGUAGE_TABLE 0 =? code c) && (0 <? code c) && (code c <? 128) && negb (code c =? 0x1B).

Definition codes (s : cstring) : list Z := code <$> s.

Section Texts.
Context `{!Parcelables.StringEx}.

(** The name field for a name in this alphabet, or for at most six UTF-16 units, and the text it stands for. *)
Inductive name_field : list Z -> list Z -> Prop :=
| english_name (s : cstring) : forallb plain s = true -> zlen s <= MAX_ENGLISH_NAME -> Parcelables.Str16ToStr8 (Parcelables.Str8ToStr16 s) = s ->
    name_field (Parcelables.Str8ToStr16 s) (codes s)
| wide_name (us : list Z) : us <> [] -> Forall (fun u => 0 < u < 0xFFFF) us -> zlen us <= MAX_CHINESE_NAME -> IsChineseString (Parcelables.Str16ToStr8 us) = true ->
    Parcelables.Str8ToStr16 (Parcelables.Str16ToStr8 us) = us ->
    name_field us (SimUtils.CHINESE_FLAG :: (us ≫= fun u => [u / 256; u mod 256])).
(** The bytes of a number: digits and signs of the ADN alphabet, or digits after a plus sign. *)
Inductive number_field : list Z -> list Z -> Prop :=
| local_number (s : cstring) bcd : forallb (alphabet BCD_TYPE_ADN) s = true -> NumberConvertToBCD s [] false BCD_TYPE_ADN = (true, bcd) ->
    zlen (Parcelables.Str8ToStr16 s) <= MAX_NUMBER_CHAR -> zlen s <= MAX_NUMBER_CHAR -> Parcelables.Str16ToStr8 (Parcelables.Str8ToStr16 s) = s -> number_field (Parcelables.Str8ToStr16 s) bcd
| international_number (s : cstring) bcd : forallb IsNumber s = true -> s <> [] -> NumberConvertToBCD ("+"%char :: s) [] false BCD_TYPE_ADN = (true, bcd) ->
    zlen (Parcelables.Str8ToStr16 ("+"%char :: s)) <= MAX_NUMBER_CHAR -> zlen s < MAX_NUMBER_CHAR ->
    Parcelables.Str16ToStr8 (Parcelables.Str8ToStr16 ("+"%char :: s)) = "+"%char :: s -> number_field (Parcelables.Str8ToStr16 ("+"%char :: s)) bcd.

Lemma hex_code s : (s ≫= fun c => hex_chars (code c)) = hex (codes s).
Proof. unfold hex, codes. by rewrite list_fmap_bind. Qed.
Lemma hex_app l k : hex (l ++ k) = hex l ++ hex k.
Proof. apply bind_app. Qed.
Lemma plain_codes_u8 s : Forall is_u8 (codes s).
Proof. apply Forall_fmap, Forall_true. intros c. apply code_range. Qed.
Lemma units_u8 us : Forall (fun u => 0 < u < 0xFFFF) us -> Forall is_u8 (us ≫= fun u => [u / 256; u mod 256]).
Proof.
  induction 1 as [|u us Hu _ IH]; [done|]. rewrite bind_cons. repeat (apply Forall_cons_2); [unfold is_u8; divmod_lia..|exact IH].
Qed.
Lemma units_zlen us : zlen (us ≫= fun u => [u / 256; u mod 256]) = 2 * zlen us.
Proof. induction us as [|u us IH]; [done|]. rewrite bind_cons. zlen_simpl. lia. Qed.
(** The name is written with the hexadecimal digits of its field. *)
Lemma name_written name field : name_field name field -> exists buf, CreateNameSequence name = (buf, zlen field) /\ (field = [] \/ buf = Some (field ++ [0])) /\ Forall is_u8 field.
Proof.
  destruct 1 as [s Hp Hl Hs|us Hne Hu Hl Hc Hs]; unfold CreateNameSequence.
  - rewrite Hs. assert (IsChineseString s = false) as ->.
    { clear - Hp. induction s as [|c s IH]; [done|]. cbn in Hp |- *. apply andb_prop in Hp as [Hc Hp]. unfold IsChineseString in IH. rewrite (IH Hp), orb_false_r. unfold plain in Hc. apply negb_false_iff, Z.eqb_eq.
      pose proof (forallb_seqZ (fun z => Z.land z 0x80 =? 0) 0 128 ltac:(vm_compute; reflexivity) (code c)) as H. apply Z.eqb_eq, H. lia. }
    unfold CharCodeToSequence. cbn [flag_of app]. rewrite take_ge by (unfold max_number, zlen, MAX_ENGLISH_NAME in *; lia). rewrite hex_code. destruct s as [|c s]; [eexists; split; [done|]; split; [by left|done]|].
    exists (Some (codes (c :: s) ++ [0])). split; [exact (hex_converts (code c) (codes s) (plain_codes_u8 (c :: s)))|]. split; [by right|exact (plain_codes_u8 (c :: s))].
  - rewrite Hc. unfold CharCodeToSequence16. rewrite take_ge by (unfold max_number, zlen, MAX_CHINESE_NAME in *; lia).
    assert (flag_of true ++ (us ≫= fun u => hex_chars (u / 256) ++ hex_chars (u mod 256)) = hex (SimUtils.CHINESE_FLAG :: (us ≫= fun u => [u / 256; u mod 256]))) as ->.
    { change (SimUtils.CHINESE_FLAG :: (us ≫= fun u => [u / 256; u mod 256])) with ([SimUtils.CHINESE_FLAG] ++ (us ≫= fun u => [u / 256; u mod 256])). rewrite hex_app. f_equal.
      clear. induction us as [|u us IH]; [done|]. rewrite !bind_cons, hex_app, IH. done. }
    assert (Forall is_u8 (SimUtils.CHINESE_FLAG :: (us ≫= fun u => [u / 256; u mod 256]))) as HB by (apply Forall_cons_2; [by vm_compute|by apply units_u8]).
    eexists. split; [by apply hex_converts|]. split; [by right|done].
Qed.
Lemma number_bytes number bcd : number_field number bcd -> NumberConvertToBCD (Parcelables.Str16ToStr8 number) [] false BCD_TYPE_ADN = (true, bcd) /\ zlen number <= MAX_NUMBER_CHAR /\
  1 <= zlen bcd <= MAX_NUMBER_SIZE_BYTES /\ exists text, BCDConvertToString bcd [] BCD_TYPE_ADN = Ret (true, text) /\ Parcelables.Str8ToStr16 text = number.
Proof.
  assert (forall n, n <= MAX_NUMBER_CHAR -> 1 + (n + 1) / 2 <= MAX_NUMBER_SIZE_BYTES) as Hmax by (unfold MAX_NUMBER_CHAR, MAX_NUMBER_SIZE_BYTES; intros; divmod_lia).
  assert (known_type BCD_TYPE_ADN) as Ht by by left.
  destruct 1 as [s bcd Ha E Hl16 Hl Hs|s bcd Hd Hne E Hl16 Hl Hs]; rewrite Hs; split; [done| |done|]; (split; [done|]).
  - destruct (convert_number BCD_TYPE_ADN s false Ht Ha) as (ds & E' & Hds & Hsec). cbv iota in E'. rewrite E in E'. injection E' as ->. split.
    + zlen_simpl. rewrite pack_zlen. pose proof (Hmax (zlen s) Hl). unfold zlen in *. rewrite Hds. divmod_lia.
    + exists s. split; [|done]. unfold BCDConvertToString. by rewrite Hsec.
  - assert (forallb (alphabet BCD_TYPE_ADN) s = true) as Ha.
    { clear - Hd. induction s as [|c s IH]; [done|]. cbn in *. apply andb_prop in Hd as [Hc Hd]. rewrite (IH Hd), andb_true_r. unfold alphabet, CharToBCD. by rewrite Hc. }
    destruct (convert_number BCD_TYPE_ADN s true Ht Ha) as (ds & E' & Hds & Hsec). cbv iota in E'. rewrite E in E'. injection E' as ->. split.
    + zlen_simpl. rewrite pack_zlen. pose proof (Hmax (zlen s) ltac:(lia)). unfold zlen in *. rewrite Hds. divmod_lia.
    + exists ("+"%char :: s). split; [|done]. unfold BCDConvertToString. rewrite Hsec. change (FLAG_INTERNATIONAL =? FLAG_INTERNATIONAL) with true. cbn [negb snd]. destruct s as [|c s]; [done|].
      assert (IsValidNumberString (c :: s) = true) as ->.
      { clear - Hd. unfold IsValidNumberString. induction (c :: s) as [|x l IH]; [done|]. cbn in *. apply andb_prop in Hd as [Hx Hd]. rewrite (IH Hd), andb_true_r. unfold IsValidNumberChar, IsPlusNumber. by rewrite Hx. }
      cbn [negb]. assert (IsSharpStar c = false) as ->; [|done]. cbn in Hd. apply andb_prop in Hd as [Hc _]. unfold IsNumber in Hc. unfold IsSharpStar.
      destruct (Ascii.eqb_spec c "#"%char) as [->|]; [by vm_compute in Hc|]. destruct (Ascii.eqb_spec c "*"%char) as [->|]; [by vm_compute in Hc|done].
Qed.
Lemma record_written d field bcd size : name_field (Parcelables.name_ d) field -> number_field (Parcelables.number_ d) bcd -> zlen field + PRE_BYTES_NUM <= size ->
  CreateSavingSequence (Some d) size = Ret (Some (contact_record field bcd size)).
Proof.
  intros Hname Hnum Hs. destruct (name_written _ _ Hname) as (buf & En & Hbuf & HF). destruct (number_bytes _ _ Hnum) as (Eb & Hl & Hb & _). pose proof (zlen_nonneg field).
  unfold CreateSavingSequence. destruct (Z.ltb_spec size 0); [unfold PRE_BYTES_NUM in *; lia|]. cbn [the mbind outcome_bind]. change ((DIALING_NUMBERS_END - DIALING_NUMBERS_BEGIN + 1) * LENGTH_RATE) with MAX_NUMBER_CHAR.
  destruct (Z.ltb_spec MAX_NUMBER_CHAR (zlen (Parcelables.number_ d))); [lia|]. rewrite En. destruct (Z.leb_spec (zlen field) (size - PRE_BYTES_NUM)); [|lia].
  change (replicate (Z.to_nat size) BYTE_VALUE) with (padding size). rewrite (number_filled bcd) by (done || lia). cbn [mbind outcome_bind]. unfold contact_record.
  destruct Hbuf as [-> | ->].
  - cbn [zlen length Z.of_nat Z.ltb Z.compare app]. by rewrite Z.sub_0_r.
  - destruct field as [|x field]; [by rewrite Z.sub_0_r|]. destruct (Z.ltb_spec 0 (zlen (x :: field))) as [|Hn]; [|zlen_simpl; pose proof (zlen_nonneg field); lia].
    by rewrite name_filled by (done || lia).
Qed.
End Texts.

(** ** What is read *)

Lemma cphs_byte b (t : cstring) : is_u8 b -> exists lo hi, hex_chars b ++ t = lo :: hi :: t /\ HexCharConvertToInt lo * 16 + HexCharConvertToInt hi = b /\ code lo <> 0 /\ code hi <> 0.
Proof.
  intros Hb. unfold hex_chars. eexists _, _. split; [done|].
  pose proof (forallb_seqZ (fun b => match hex_chars b with [lo; hi] => (HexCharConvertToInt lo * 16 + HexCharConvertToInt hi =? b) && negb (code lo =? 0) && negb (code hi =? 0) | _ => false end) 0 256
    ltac:(vm_compute; reflexivity) b ltac:(unfold is_u8 in Hb; lia)) as Hx. unfold hex_chars in Hx. cbv beta iota zeta in Hx. lia.
Qed.
Lemma hex_no_nul l : Forall is_u8 l -> until_nul (hex l) = hex l.
Proof.
  induction 1 as [|b l Hb _ IH]; [done|]. unfold hex in *. rewrite bind_cons. destruct (cphs_byte b (l ≫= hex_chars) Hb) as (lo & hi & -> & _ & Hlo & Hhi). cbn [until_nul].
  destruct (Z.eqb_spec (code lo) 0); [done|]. destruct (Z.eqb_spec (code hi) 0); [done|]. by rewrite IH.
Qed.
Lemma cphs_plain s rest : forallb plain s = true -> cphs_loop (hex (codes s) ++ rest) false = codes s ++ cphs_loop rest false.
Proof.
  induction s as [|c s IH]; [done|]. cbn [forallb]. intros [Hc Hp]%andb_prop. change (codes (c :: s)) with (code c :: codes s). change (hex (code c :: codes s)) with (hex_chars (code c) ++ hex (codes s)).
  rewrite <- app_assoc. destruct (cphs_byte (code c) (hex (codes s) ++ rest) (code_range c)) as (lo & hi & -> & E & _). cbn [cphs_loop]. rewrite E. unfold plain in Hc.
  change (zlen LANGUAGE_TABLE) with 128. destruct (Z.ltb_spec (code c) 0); [lia|]. destruct (Z.leb_spec 128 (code c)); [lia|]. destruct (Z.eqb_spec (code c) 0x1B); [lia|]. cbn [orb negb andb].
  rewrite (IH Hp). cbn [app]. f_equal. lia.
Qed.
Lemma cphs_padding n : cphs_loop (hex (replicate n BYTE_VALUE)) false = [].
Proof. induction n as [|n IH]; [done|]. exact IH. Qed.
Lemma utf8_plain s : forallb plain s = true -> ToUtf8 (codes s) = s.
Proof.
  induction s as [|c s IH]; [done|]. cbn [forallb]. intros [Hc Hp]%andb_prop. unfold ToUtf8, codes in *. rewrite fmap_cons, bind_cons, (IH Hp).
  assert (utf8_char (code c) = [c]) as ->; [|done]. unfold plain in Hc. unfold utf8_char. destruct (Z.ltb_spec (code c) 0x80); [|lia]. cbn. by rewrite chr_code.
Qed.

(** Only the pairs that are asked for are read. *)
Lemma CharsConvertToChar16_more b rest n : 0 <= n <= zlen b -> CharsConvertToChar16 (b ++ rest) n true = CharsConvertToChar16 b n true.
Proof.
  intros Hn. unfold CharsConvertToChar16. destruct (n =? 0); [done|]. destruct (negb _); [done|].
  assert (forall i, 0 <= i < zlen b -> vec_get (b ++ rest) i = vec_get b i) as Hget.
  { intros i Hi. unfold vec_get. destruct (decide (i < 0)); [done|]. unfold zlen in Hi. by rewrite lookup_app_l by lia. }
  assert (Forall (fun i => 0 <= i < Z.quot n HALF_LEN) (seqZ 0 (Z.quot n HALF_LEN))) as Hall by (apply Forall_forall; intros i Hi%elem_of_seqZ; lia). unfold HALF_LEN in *.
  match goal with |- (?x ≫= _) = (?y ≫= _) => assert (x = y) as ->; [|done] end. revert Hall. generalize (seqZ 0 (Z.quot n 2)) as l. induction l as [|i l IH]; [done|]. intros [Hi Hl]%Forall_cons. cbn [foldr].
  rewrite !Hget, IH; [done|exact Hl|..]; rewrite Z.quot_div_nonneg in Hi by lia; divmod_lia.
Qed.
Lemma trim_padding us n : Forall (fun u => 0 < u < 0xFFFF) us -> trim_ffff (us ++ replicate n 0xFFFF) = us.
Proof.
  intros Hu. unfold trim_ffff. rewrite rev_app_distr. assert (rev (replicate n 0xFFFF) = replicate n 0xFFFF) as ->.
  { induction n as [|n IH]; [done|]. cbn [replicate rev]. rewrite IH, <- replicate_S_end. done. }
  match goal with |- rev (?go _) = _ => assert (forall l, go (replicate n 0xFFFF ++ l) = go l) as -> by (intros l; induction n as [|n IH]; [done|exact IH]) end.
  rewrite <- (rev_involutive us) at 2. f_equal. apply Forall_rev in Hu. destruct (rev us) as [|u l]; [done|]. apply Forall_cons in Hu as [Hu _]. destruct (Z.eqb_spec u 0xFFFF); [lia|done].
Qed.

Lemma pair_flatten us : (us ≫= fun u => [u / 256; u mod 256]) = ((fun u => (u / 256, u mod 256)) <$> us) ≫= pair_bytes.
Proof. by rewrite list_fmap_bind. Qed.
Lemma pair_units_back us : Forall (fun u => 0 < u < 0xFFFF) us -> pair_unit <$> ((fun u => (u / 256, u mod 256)) <$> us) = us.
Proof.
  induction 1 as [|u us Hu _ IH]; [done|]. rewrite !fmap_cons, IH. f_equal. apply unit_pair_bytes. unfold is_u16. lia.
Qed.
Lemma padding_pairs m : padding (2 * Z.of_nat m) = replicate m (0xFF, 0xFF) ≫= pair_bytes.
Proof. induction m as [|m IH]; [done|]. cbn [replicate]. rewrite bind_cons, <- IH. unfold pair_bytes. cbn [fst snd app]. unfold padding. replace (Z.to_nat (2 * Z.of_nat (S m))) with (S (S (Z.to_nat (2 * Z.of_nat m)))) by lia. done. Qed.

Section Reading.
Context `{!Parcelables.StringEx}.

(** A wide name: the pairs up to the end of the field, less the filling. *)
Lemma wide_read us space rest : Forall (fun u => 0 < u < 0xFFFF) us -> us <> [] -> 1 + 2 * zlen us <= space -> rest <> [] ->
  DiallingNumberStringFieldConvertToString Parcelables.Str16ToStr8
    (Some (((SimUtils.CHINESE_FLAG :: (us ≫= fun u => [u / 256; u mod 256])) ++ padding (space - (1 + 2 * zlen us))) ++ rest)) 0 space NAME_CHAR_POS = Ret (Parcelables.Str16ToStr8 us).
Proof.
  intros Hu Hne Hs Hr. pose proof (zlen_nonneg us). unfold DiallingNumberStringFieldConvertToString. destruct (Z.leb_spec space 0); [lia|]. cbn [orb Z.ltb Z.compare].
  cbn [app]. rewrite (vec_get_at _ [] SimUtils.CHINESE_FLAG _) by done. cbn [mbind outcome_bind]. change (SimUtils.CHINESE_FLAG =? SimUtils.CHINESE_FLAG) with true.
  change (SimUtils.CHINESE_FLAG =? UCS_FLAG) with false. change (SimUtils.CHINESE_FLAG =? UCS_WIDE_FLAG) with false. rewrite !andb_false_r. cbn [drop]. rewrite drop_0.
  set (n := Z.quot (space - 1) HALF_LEN). assert (n = (space - 1) / 2) as Hn by (unfold n, HALF_LEN; apply Z.quot_div_nonneg; lia). set (m := Z.to_nat (n - zlen us)).
  assert (Z.of_nat m = n - zlen us) as Hm by (unfold m; divmod_lia).
  set (ps := ((fun u => (u / 256, u mod 256)) <$> us) ++ replicate m (0xFF, 0xFF)). assert (zlen ps = n) as Hps.
  { unfold ps, zlen in *. rewrite length_app, length_fmap, length_replicate. lia. }
  assert (exists more, ((us ≫= fun u => [u / 256; u mod 256]) ++ padding (space - (1 + 2 * zlen us))) ++ rest = (ps ≫= pair_bytes) ++ more) as [more ->].
  { exists (padding (space - 1 - 2 * n) ++ rest). unfold ps. rewrite bind_app, <- pair_flatten, <- padding_pairs, !app_assoc. f_equal. rewrite <- app_assoc, <- padding_app by divmod_lia. do 2 f_equal. lia. }
  rewrite CharsConvertToChar16_more by (unfold HALF_LEN; rewrite pair_bytes_length, Hps; divmod_lia).
  rewrite <- Hps, CharsConvertToChar16_pairs by (unfold ps; destruct us; done). cbn [mbind outcome_bind u16string_of].
  assert (pair_unit <$> ps = us ++ replicate m 0xFFFF) as -> by (unfold ps; rewrite fmap_app, pair_units_back, fmap_replicate by done; done).
  rewrite until_zero_all; [|apply Forall_app; split; [eapply Forall_impl; [exact Hu|simpl; lia]|apply Forall_replicate; done]].
  cbn [mbind outcome_bind]. destruct us as [|u us]; [done|]. cbn [app]. change (u :: us ++ replicate m 0xFFFF) with ((u :: us) ++ replicate m 0xFFFF). by rewrite trim_padding.
Qed.
(** A name in the alphabet of the card. *)
Lemma english_read s space rest : forallb plain s = true -> zlen s <= space -> rest <> [] ->
  DiallingNumberStringFieldConvertToString Parcelables.Str16ToStr8 (Some ((codes s ++ padding (space - zlen s)) ++ rest)) 0 space NAME_CHAR_POS = Ret s.
Proof.
  intros Hp Hs Hr. pose proof (zlen_nonneg s). unfold DiallingNumberStringFieldConvertToString. destruct (Z.leb_spec space 0) as [Hz|Hz].
  { cbn [orb]. assert (zlen s = 0) as E%zlen_0_nil by lia. by rewrite E. }
  cbn [orb Z.ltb Z.compare]. set (data := (codes s ++ padding (space - zlen s)) ++ rest).
  assert (exists flag, vec_get data 0 = Ret flag /\ (flag =? SimUtils.CHINESE_FLAG) = false /\ (flag =? UCS_FLAG) = false /\ (flag =? UCS_WIDE_FLAG) = false) as (flag & -> & E1 & E2 & E3).
  { destruct s as [|c s].
    - exists BYTE_VALUE. split; [|done]. unfold data. change (codes []) with (@nil Z). replace (space - zlen []) with (1 + (space - 1)) by (zlen_simpl; lia). rewrite padding_app by lia. done.
    - exists (code c). split; [done|]. cbn [forallb] in Hp. apply andb_prop in Hp as [Hc _]. unfold plain, SimUtils.CHINESE_FLAG, UCS_FLAG, UCS_WIDE_FLAG in *. lia. }
  cbn [mbind outcome_bind]. rewrite E1, E2, E3, !andb_false_r. cbn [mbind outcome_bind].
  assert (zlen (codes s ++ padding (space - zlen s)) = space) as Hsp by (zlen_simpl; rewrite zlen_padding by lia; unfold zlen, codes; rewrite length_fmap; lia).
  rewrite BytesConvertToHexString_bind by (unfold data; zlen_simpl; zlen_simpl; pose proof (zlen_nonneg rest); lia). cbn [mbind outcome_bind].
  assert (take (Z.to_nat space) data = codes s ++ padding (space - zlen s)) as ->.
  { assert (Z.to_nat space = length (codes s ++ padding (space - zlen s))) as -> by (rewrite <- Hsp at 1; unfold zlen at 1; apply Nat2Z.id). apply take_app_length. }
  change ((codes s ++ padding (space - zlen s)) ≫= hex_chars) with (hex (codes s ++ padding (space - zlen s))). f_equal. unfold Cphs7bitConvertToString.
  assert (Forall is_u8 (codes s ++ padding (space - zlen s))) as HB by (apply Forall_app; split; [apply plain_codes_u8|unfold padding; by apply Forall_replicate]).
  rewrite hex_no_nul by done. destruct (hex (codes s ++ padding (space - zlen s))) as [|h hs] eqn:Eh.
  { rewrite <- (utf8_plain s Hp). destruct s as [|c s]; [done|]. by vm_compute in Eh. }
  rewrite <- Eh, hex_app, cphs_plain by done. unfold padding. rewrite cphs_padding, app_nil_r. by apply utf8_plain.
Qed.
Lemma name_read name field space rest : name_field name field -> zlen field <= space -> rest <> [] ->
  exists text, DiallingNumberStringFieldConvertToString Parcelables.Str16ToStr8 (Some ((field ++ padding (space - zlen field)) ++ rest)) 0 space NAME_CHAR_POS = Ret text /\ Parcelables.Str8ToStr16 text = name.
Proof.
  destruct 1 as [s Hp Hl Hs|us Hne Hu Hl Hc Hs]; intros Hsp Hr.
  - exists s. split; [|done]. assert (zlen (codes s) = zlen s) as E by (unfold zlen, codes; by rewrite length_fmap). rewrite E in *. by apply english_read.
  - exists (Parcelables.Str16ToStr8 us). split; [|done].
    rewrite zlen_cons, units_zlen in *. by apply wide_read.
Qed.
End Reading.

Section Records.
Context `{!Parcelables.StringEx}.
Lemma record_size field bcd size : 1 <= zlen bcd <= MAX_NUMBER_SIZE_BYTES -> zlen field + PRE_BYTES_NUM <= size -> zlen (contact_record field bcd size) = size.
Proof. intros Hb Hs. unfold contact_record. zlen_simpl. rewrite !zlen_padding by lia. unfold PRE_BYTES_NUM, MAX_NUMBER_SIZE_BYTES. lia. Qed.
Lemma name_field_u8 name field : name_field name field -> Forall is_u8 field.
Proof. intros Hn. by destruct (name_written _ _ Hn) as (_ & _ & _ & ?). Qed.
Lemma or_back_u8 l v : Forall is_u8 l -> Forall is_u8 (or_back l v).
Proof.
  intros Hl. unfold or_back. apply Forall_app. split; [|apply Forall_cons_2; [apply u8_range|done]]. destruct l as [|x l] using rev_ind; [done|]. rewrite removelast_last. by apply Forall_app in Hl as [? _].
Qed.
Lemma bcd_loop_u8 number t : forall l n, Forall is_u8 l -> Forall is_u8 (bcd_loop number t l n).1.2.
Proof.
  induction number as [|c number IH]; intros l n Hl; [done|]. cbn [bcd_loop]. destruct (Ascii.eqb c "+"%char); [by apply IH|]. destruct (CharToBCD c t) as [b|] eqn:E; [|done].
  destruct (n mod 2 =? 1); apply IH; [by apply or_back_u8|]. apply Forall_app. split; [done|]. apply Forall_cons_2; [|done]. unfold CharToBCD in E. destruct (IsNumber c) eqn:En.
  - injection E as <-. unfold IsNumber in En. unfold is_u8. lia.
  - destruct (chooseExtendedByType t); [|done]. destruct (find_char c _ 0); [|done]. injection E as <-. apply u8_range.
Qed.
Lemma bcd_u8 number t bcd : NumberConvertToBCD number [] false t = (true, bcd) -> Forall is_u8 bcd.
Proof.
  unfold NumberConvertToBCD. cbn [app]. set (flag := if has_plus number then FLAG_INTERNATIONAL else FLAG_UNKNOWN). pose proof (bcd_loop_u8 number t [flag] 0) as HB.
  destruct (bcd_loop number t [flag] 0) as [[ok l] n]. cbn [fst snd] in HB. destruct ok; [|done]. cbn [negb]. intros [= <-]. assert (Forall is_u8 l) as Hl by (apply HB; apply Forall_cons_2; [subst flag; by destruct (has_plus number)|done]).
  destruct (n mod 2 =? 1); [by apply or_back_u8|done].
Qed.
Lemma record_u8 d field bcd size : name_field (Parcelables.name_ d) field -> number_field (Parcelables.number_ d) bcd -> Forall is_u8 (contact_record field bcd size).
Proof.
  intros Hname Hnum. destruct (number_bytes _ _ Hnum) as (Eb & _ & Hb & _). assert (forall n, Forall is_u8 (padding n)) as Hp by (intros n; by apply Forall_replicate).
  unfold contact_record. repeat (apply Forall_app; split); try apply Hp; [by eapply name_field_u8|apply Forall_cons_2; [unfold is_u8, MAX_NUMBER_SIZE_BYTES in *; lia|done]|by eapply bcd_u8|].
  by repeat (apply Forall_cons_2; [done|]).
Qed.

Lemma record_read d d0 field bcd size : name_field (Parcelables.name_ d) field -> number_field (Parcelables.number_ d) bcd -> zlen field + PRE_BYTES_NUM <= size ->
  FetchDiallingNumberContent d0 (hex (contact_record field bcd size)) =
    Ret (Parcelables.set_number_ (Parcelables.number_ d) (Parcelables.set_name_ (Parcelables.name_ d) d0), Some BYTE_VALUE).
Proof.
  intros Hname Hnum Hs. destruct (number_bytes _ _ Hnum) as (Eb & Hl & Hb & text & Hread & Htext). pose proof (record_size field bcd size Hb Hs) as Hsize. pose proof (record_u8 d field bcd size Hname Hnum) as HB.
  pose proof (zlen_nonneg field). set (space := size - PRE_BYTES_NUM). set (number_part := [zlen bcd] ++ bcd ++ padding (MAX_NUMBER_SIZE_BYTES - zlen bcd) ++ [BYTE_VALUE; BYTE_VALUE]).
  assert (contact_record field bcd size = (field ++ padding (space - zlen field)) ++ number_part) as Er by done.
  assert (zlen (field ++ padding (space - zlen field)) = space) as Hspace by (zlen_simpl; rewrite zlen_padding by lia; lia).
  unfold FetchDiallingNumberContent. assert (HexStringConvertToBytes (hex (contact_record field bcd size)) 0 = (Some (contact_record field bcd size ++ [0]), size)) as ->.
  { rewrite <- Hsize at 3. destruct (contact_record field bcd size) as [|b bytes]; [|by apply hex_converts]. by destruct (field ++ padding (space - zlen field)). }
  fold space. destruct (Z.ltb_spec space 0); [lia|]. rewrite Er, <- (app_assoc _ number_part).
  destruct (name_read (Parcelables.name_ d) field space (number_part ++ [0]) Hname) as (tag & -> & Htag); [lia|done|]. cbn [mbind outcome_bind].
  rewrite (vec_get_at _ (field ++ padding (space - zlen field)) (zlen bcd) (bcd ++ padding (MAX_NUMBER_SIZE_BYTES - zlen bcd) ++ [BYTE_VALUE; BYTE_VALUE; 0]) space); [|unfold number_part; by rewrite <- !app_assoc|by rewrite Hspace].
  cbn [mbind outcome_bind]. destruct (Z.ltb_spec MAX_NUMBER_SIZE_BYTES (zlen bcd)); [lia|]. unfold BCDConvertToString_buf. destruct (Z.ltb_spec size (space + 1 + zlen bcd)); [unfold space, PRE_BYTES_NUM, MAX_NUMBER_SIZE_BYTES in *; lia|].
  destruct (Z.leb_spec (zlen bcd) 0); [lia|].
  rewrite (vec_slice_at _ ((field ++ padding (space - zlen field)) ++ [zlen bcd]) bcd (padding (MAX_NUMBER_SIZE_BYTES - zlen bcd) ++ [BYTE_VALUE; BYTE_VALUE; 0]) (space + 1) (space + 1 + zlen bcd)); [|unfold number_part; by rewrite <- !app_assoc|zlen_simpl; rewrite Hspace; lia..].
  cbn [mbind outcome_bind]. rewrite Hread. cbn [mbind outcome_bind].
  rewrite (vec_get_at _ ((field ++ padding (space - zlen field)) ++ [zlen bcd] ++ bcd ++ padding (MAX_NUMBER_SIZE_BYTES - zlen bcd) ++ [BYTE_VALUE]) BYTE_VALUE [0] (size - 1));
    [|unfold number_part; by rewrite <- !app_assoc|rewrite zlen_app, Hspace; zlen_simpl; rewrite zlen_padding by lia; unfold space, PRE_BYTES_NUM, MAX_NUMBER_SIZE_BYTES; lia].
  cbn [mbind outcome_bind]. by rewrite Htag, Htext.
Qed.
End Records.

(** C18: A contact comes back as it was stored. For a name in the characters that stand for themselves on the card, or of one to six wide characters, and a number of digits and signs, or of digits
    after a plus sign, that fit, the record that [CreateSavingSequence] makes has the size of the records of the file, and reading it gives this name and this number and no
    extension, whatever object is read into. *)
Theorem contact_roundtrip `{!Parcelables.StringEx} d d0 field bcd size : name_field (Parcelables.name_ d) field -> number_field (Parcelables.number_ d) bcd -> zlen field + PRE_BYTES_NUM <= size ->
  exists bytes, CreateSavingSequence (Some d) size = Ret (Some bytes) /\ zlen bytes = size /\
    FetchDiallingNumberContent d0 (hex bytes) = Ret (Parcelables.set_number_ (Parcelables.number_ d) (Parcelables.set_name_ (Parcelables.name_ d) d0), Some 0xFF).
Proof.
  intros Hname Hnum Hs. exists (contact_record field bcd size). split; [by apply record_written|]. split; [|by apply record_read]. apply record_size; [|done]. by destruct (number_bytes _ _ Hnum) as (_ & _ & ? & _).
Qed.

Module Contact.
(** Texts of single bytes. *)
#[local] Instance latin : Parcelables.StringEx := { Parcelables.Str8ToStr16 := fun s => code <$> s; Parcelables.Str16ToStr8 := fun l => chr <$> l }.
Definition contact (name number : String.string) : Parcelables.DiallingNumbersInfo :=
  Parcelables.set_number_ (Parcelables.Str8ToStr16 (str number)) (Parcelables.set_name_ (Parcelables.Str8ToStr16 (str name)) Parcelables.DiallingNumbersInfo_new).
Definition stored_and_read (d : Parcelables.DiallingNumbersInfo) (size : Z) : outcome (option (cstring * cstring)) :=
  bytes ← CreateSavingSequence (Some d) size;
  match bytes with
  | Some bytes => '(d, _) ← FetchDiallingNumberContent Parcelables.DiallingNumbersInfo_new (hex bytes); Ret (Some (Parcelables.Str16ToStr8 (Parcelables.name_ d), Parcelables.Str16ToStr8 (Parcelables.number_ d)))
  | None => Ret None
  end.
Example alice : stored_and_read (contact "Alice" "+8613800138000") 28 = Ret (Some (str "Alice", str "+8613800138000")).
Proof. vm_compute. reflexivity. Qed.
(** The name is written in ASCII but read in the alphabet of the card, where '@' has another place. *)
Example at_sign_lost : stored_and_read (contact "a@b" "112") 28 = Ret (Some ((chr <$> [97; 0xC2; 0xA1; 98]), str "112")).
Proof. vm_compute. reflexivity. Qed.
(** A number with a space after it is checked without the space and stored with it: the record is written with an empty number. *)
Example number_lost :
  (r ← FormatNameAndNumber (Some (contact "Bob" "112 ")) false; Ret r.1) = Ret true /\
  stored_and_read (contact "Bob" "112 ") 28 = Ret (Some (str "Bob", [])).
Proof. split; vm_compute; reflexivity. Qed.
End Contact.

Lemma contact_roundtrip_witness :
  zlen (codes (str "Alice")) + PRE_BYTES_NUM <= 28 /\ exists bytes, CreateSavingSequence (H := Contact.latin) (Some (Contact.contact "Alice" "+8613800138000")) 28 = Ret (Some bytes) /\ zlen bytes = 28 /\
    FetchDiallingNumberContent (H := Contact.latin) Parcelables.DiallingNumbersInfo_new (hex bytes) = Ret (Contact.contact "Alice" "+8613800138000", Some 0xFF).
Proof.
  split; [by vm_compute|]. apply (contact_roundtrip (H := Contact.latin) (Contact.contact "Alice" "+8613800138000") Parcelables.DiallingNumbersInfo_new (codes (str "Alice")) [0x91; 0x68; 0x31; 0x08; 0x10; 0x83; 0x00; 0xF0]).
  - apply (english_name (H := Contact.latin) (str "Alice")); [by vm_compute|by vm_compute|by vm_compute].
  - apply (international_number (H := Contact.latin) (str "8613800138000")); [by vm_compute|done|by vm_compute..].
  - by vm_compute.
Defined.
