(* ===== verification/DiallingRequests.v ===== *)
(** * Every load of dialling numbers is answered once

    The map of requests of DiallingNumbers.v and the answers that have been sent. *)

From S2P Require Import Prelude CxxString SimUtils SimNumberDecode Parcel Parcelables CoreServiceApi TelRilBase IccFileController DiallingNumbers.
Open Scope Z_scope.
Import DiallingNumbers.

Section Requests.
Context `{!Parcelables.StringEx} {C : Type}.
Local Abbreviation handler := (handler (C := C)).
Implicit Types (h : handler) (e : InnerEvent (option (DiallingNumbersHandleHolder (C := C)))).

(** What an answer repeats of the caller's event. *)
Definition key : Type := option Z * Z * option (DiallingNumbersHandleHolder (C := C)).
Definition key_of e : key := (GetOwner e, GetInnerEventId e, GetObject e).
Definition answer_key (o : output (C := C)) : option key := match o with Answer owner id r => Some (Some owner, id, Some (holder r)) | FileAction _ => None end.
Definition callers h : gmap Z key := omap (fun r => key_of <$> callPointer r) (requestMap_ h).
Definition waiting h : list key := (map_to_list (callers h)).*2.
Definition answered h : list key := omap answer_key (out h).

(** ** Code that leaves the callers alone *)

Definition same h h' : Prop := callers h' = callers h /\ answered h' = answered h.
Definition leaves {A} (m : HM (C := C) A) : Prop := forall h a h', m h = Ret (a, h') -> same h h'.
Lemma callers_refl h : same h h.
Proof. done. Qed.
Lemma callers_trans h1 h2 h3 : same h1 h2 -> same h2 h3 -> same h1 h3.
Proof. intros [E1 E2] [E3 E4]. split; congruence. Qed.
Lemma callers_ret {A} (a : A) : leaves (mret a).
Proof. by intros h a' h' [= _ <-]. Qed.
Lemma callers_bind {A B} (m : HM A) (f : A -> HM B) : leaves m -> (forall a, leaves (f a)) -> leaves (m ≫= f).
Proof. intros Hm Hf h b h'. unfold mbind, partial_bind. destruct (m h) as [[a h1]| |] eqn:E; [|done..]. intros Hb. eapply callers_trans; [by eapply Hm|by eapply Hf]. Qed.
Lemma leaves_attempt {A} (f : handler -> outcome A) : leaves (attempt f).
Proof. intros h a h'. unfold attempt. destruct (f h); [|done..]. by intros [= _ <-]. Qed.
Lemma callers_gets {A} (f : handler -> A) : leaves (pure (gets f)).
Proof. by intros h a h' [= _ <-]. Qed.
Lemma leaves_request n f : (forall r, callPointer (f r) = callPointer r) -> leaves (on_request n f).
Proof.
  intros Hf h a h' [= _ <-]. split; [|done]. apply map_eq. intros k. unfold callers. cbn [requestMap_ set_requestMap]. rewrite !lookup_omap.
  destruct (decide (k = n)) as [->|Hk]; [|by rewrite lookup_alter_ne by congruence]. rewrite lookup_alter_eq. destruct (requestMap_ h !! n) as [r|]; [|done]. cbn. by rewrite Hf.
Qed.
Lemma leaves_files l : leaves (files l).
Proof.
  intros h a h' [= _ <-]. split; [done|]. unfold answered. cbn [out put]. rewrite omap_app. assert (omap answer_key (FileAction <$> l) = []) as ->; [|by rewrite app_nil_r].
  induction l as [|x l IH]; [done|]. by rewrite fmap_cons.
Qed.
Ltac leave := repeat match goal with
  | |- leaves (_ ≫= _) => apply callers_bind; [|intros ?]
  | |- leaves (mret _) => apply callers_ret
  | |- leaves (attempt _) => apply leaves_attempt
  | |- leaves (pure (FindLoadRequest _)) => apply callers_gets
  | |- leaves (pure (BuildCallerInfo _ _ _)) => apply callers_gets
  | |- leaves (files _) => apply leaves_files
  | |- leaves (on_request _ _) => apply leaves_request; intros ?; try done
  | |- leaves (match ?x with _ => _ end) => destruct x
  | |- leaves (let '(_, _) := ?x in _) => destruct x
  end.

Lemma leaves_SendUpdateCommand d n r id : leaves (SendUpdateCommand d n r id).
Proof. unfold SendUpdateCommand. leave. Qed.
Lemma leaves_member id f o : memberFuncMap_ id = Some f -> leaves (f o).
Proof.
  unfold memberFuncMap_. repeat case_match; intros [= <-];
    unfold ProcessDiallingNumberLoadDone, ProcessDiallingNumberAllLoadDone, ProcessLinearSizeDone, ProcessUpdateRecordDone, ProcessExtensionRecordNumbers, ProcessDiallingNumber; leave; try apply leaves_SendUpdateCommand.
  all: by destruct (IccFileController.exception _) || by case_match.
Qed.

(** ** Answering *)

Lemma omap_delete_request h n : callers (set_requestMap (delete n (requestMap_ h)) h) = delete n (callers h).
Proof. unfold callers. cbn. by rewrite omap_delete. Qed.
(** An answer moves a caller from those who wait to those who have been told. *)
Lemma send_back_moves n h b h' : SendBackResult n h = (b, h') -> waiting h' ++ answered h' ≡ₚ waiting h ++ answered h.
Proof.
  unfold SendBackResult, FindLoadRequest, gets, mbind, stateful_bind. destruct (requestMap_ h !! n) as [r|] eqn:Er; [|by intros [= _ <-]]. destruct (callPointer r) as [e|] eqn:Ee; [|by intros [= _ <-]].
  destruct (HasCount r); [by intros [= _ <-]|]. destruct (GetObject e) as [fd|] eqn:Efd; [|by intros [= _ <-]]. destruct (GetOwner e) as [owner|] eqn:Eo; [|by intros [= _ <-]].
  intros [= _ <-]. unfold waiting, answered. cbn [out put set_requestMap]. rewrite omap_app. cbn [omap list_omap answer_key holder].
  match goal with |- context [callers ?x] => assert (callers x = delete n (callers h)) as -> by (unfold callers; cbn; by rewrite omap_delete) end.
  assert (callers h !! n = Some (key_of e)) as Hk by (unfold callers; rewrite lookup_omap, Er; cbn; by rewrite Ee).
  assert (key_of e = (Some owner, GetInnerEventId e, Some fd)) as <- by (unfold key_of; by rewrite Eo, Efd).
  rewrite <- (insert_delete_id (callers h) n (key_of e)) at 2 by done. rewrite map_to_list_insert by apply lookup_delete_eq. cbn. rewrite app_assoc, <- Permutation_cons_append. done.
Qed.
Lemma extension_asked id n h : exists b, IsAdnHasExtRecord id n h = (b, h).
Proof. unfold IsAdnHasExtRecord, FindLoadRequest, gets, mbind, stateful_bind, mret, stateful_ret. destruct (id =? MSG_SIM_OBTAIN_ADN_DONE); by eexists. Qed.
Lemma event_moves ev h u h' : ProcessEvent ev h = Ret (u, h') -> waiting h' ++ answered h' ≡ₚ waiting h ++ answered h.
Proof.
  unfold ProcessEvent. destruct ev as [ev|]; [|by intros [= _ <-]]. destruct (memberFuncMap_ (GetInnerEventId ev)) as [f|] eqn:Ef; [|by intros [= _ <-]].
  unfold mbind, partial_bind. destruct (f (GetObject ev) h) as [[n h1]| |] eqn:E1; [|done..]. destruct (leaves_member _ _ _ Ef _ _ _ E1) as [Ec Ea].
  assert (waiting h1 ++ answered h1 = waiting h ++ answered h) as <- by (unfold waiting; by rewrite Ec, Ea).
  unfold pure. destruct (extension_asked (GetInnerEventId ev) n h1) as [b ->]. destruct b; [by intros [= _ <-]|].
  destruct (SendBackResult n h1) as [b h2] eqn:E2. intros [= _ <-]. by eapply send_back_moves.
Qed.

(** ** Histories *)

Definition next_free h : Prop := requestMap_ h !! nextSerialId_ h = None.
Lemma create_adds fid exid n p2 e h r h' : next_free h -> CreateLoadRequest fid exid n p2 (Some e) h = (r, h') ->
  waiting h' ++ answered h' ≡ₚ key_of e :: waiting h ++ answered h.
Proof.
  unfold next_free, CreateLoadRequest, GetNextSerialId, modifies, mbind, stateful_bind, mret, stateful_ret. intros Hf. cbn [requestMap_]. rewrite Hf. intros [= _ <-]. unfold waiting, answered, callers. cbn [requestMap_ set_requestMap out].
  erewrite omap_insert_Some by reflexivity. rewrite map_to_list_insert; [done|]. by rewrite lookup_omap, Hf.
Qed.
(** Loads that are begun, with the keys of their callers, and events in any order. *)
Inductive history (h0 : handler) : list key -> handler -> Prop :=
| history_start : history h0 [] h0
| history_one ks h efId exid n e h' : history h0 ks h -> next_free h -> is_Some (fileController_ h) -> GetDiallingNumbers efId exid n (Some e) h = Ret (tt, h') -> history h0 (key_of e :: ks) h'
| history_all ks h efId exid e h' : history h0 ks h -> next_free h -> is_Some (fileController_ h) -> GetAllDiallingNumbers efId exid (Some e) h = Ret (tt, h') -> history h0 (key_of e :: ks) h'
| history_update ks h infor e h' : history h0 ks h -> next_free h -> is_Some (fileController_ h) -> UpdateDiallingNumbers infor (Some e) h = Ret (tt, h') -> history h0 (key_of e :: ks) h'
| history_event ks h ev h' : history h0 ks h -> ProcessEvent ev h = Ret (tt, h') -> history h0 ks h'.

Lemma begun_adds fid exid n p2 e h h' (rest : IccFileController -> DiallingNumberLoadRequest -> HM (C := C) unit) : next_free h -> is_Some (fileController_ h) -> (forall ctl r, leaves (rest ctl r)) ->
  with_files (fun ctl => r ← pure (CreateLoadRequest fid exid n p2 (Some e)); rest ctl r) h = Ret (tt, h') -> waiting h' ++ answered h' ≡ₚ key_of e :: waiting h ++ answered h.
Proof.
  intros Hf [ctl Hc] Hrest. unfold with_files, mbind, partial_bind, pure, gets. rewrite Hc. destruct (CreateLoadRequest fid exid n p2 (Some e) h) as [r h1] eqn:E. intros Hr.
  destruct (Hrest ctl r _ _ _ Hr) as [Ec Ea]. rewrite <- (create_adds _ _ _ _ _ _ _ _ Hf E). unfold waiting. by rewrite Ec, Ea.
Qed.
Lemma history_balanced h0 ks h : requestMap_ h0 = ∅ -> out h0 = [] -> history h0 ks h -> waiting h ++ answered h ≡ₚ ks.
Proof.
  intros Hm Ho. induction 1 as [|ks h efId exid n e h' _ IH Hf Hc E|ks h efId exid e h' _ IH Hf Hc E|ks h infor e h' _ IH Hf Hc E|ks h ev h' _ IH E].
  - unfold waiting, callers, answered. by rewrite Hm, Ho, omap_empty, map_to_list_empty.
  - rewrite <- IH. eapply begun_adds; [done..| |exact E]. intros ctl r. cbv beta. leave.
  - rewrite <- IH. eapply begun_adds; [done..| |exact E]. intros ctl r. cbv beta. leave.
  - rewrite <- IH. eapply begun_adds; [done..| |exact E]. intros ctl r. cbv beta. leave.
  - rewrite <- IH. by eapply event_moves.
Qed.
End Requests.

(** C24: Whatever is read and written, and whatever events come in whatever order, for each load that was begun either its request is still in the map or its caller has been
    answered, and answered only once. *)
Theorem loads_answered_once `{!Parcelables.StringEx} {C} (h0 : handler (C := C)) ks h : requestMap_ h0 = ∅ -> out h0 = [] -> history h0 ks h -> waiting h ++ answered h ≡ₚ ks.
Proof. apply history_balanced. Qed.

(** ** A phone book *)

Module Book.
#[local] Instance latin : Parcelables.StringEx := { Parcelables.Str8ToStr16 := fun s => code <$> s; Parcelables.Str16ToStr8 := fun l => chr <$> l }.
Definition ctl : IccFileController := SimFileController true 0 7.
Definition h0 : handler (C := unit) := MkHandler (Some ctl) 5 1 ∅ [].
Definition caller_of (id : Z) : InnerEvent (option (DiallingNumbersHandleHolder (C := unit))) := MkInnerEvent id 0 (Some 9) (Some (MkHolder (ef ELEMENTARY_FILE_ADN) 0 None None)).
(** What the file controller sends back. *)
Definition back (kind id : Z) (o : FileToControllerMsg info -> to_file info) : option (InnerEvent (to_file info)) := Some (MkInnerEvent kind 0 (Some 5) (o (MkFileToControllerMsg id INVALID_VALUE None))).
Definition two_records : option (InnerEvent (to_file info)) :=
  back MSG_SIM_OBTAIN_ALL_ADN_DONE 1 (fun m => RecordsResult (MkMultiRecordResult m [str "416C696365FF03812143FFFFFFFFFFFFFFFFFFFF"; replicate 40 "F"%char] 2 None)).
Definition loading : handler (C := unit) := match GetAllDiallingNumbers (ef ELEMENTARY_FILE_ADN) (ef ELEMENTARY_FILE_EXT1) (Some (caller_of 2)) h0 with Ret (_, h) => h | _ => h0 end.
Definition loaded : handler (C := unit) := match ProcessEvent two_records loading with Ret (_, h) => h | _ => h0 end.
Lemma loaded_history : history h0 [key_of (caller_of 2)] loaded.
Proof.
  assert (GetAllDiallingNumbers (ef ELEMENTARY_FILE_ADN) (ef ELEMENTARY_FILE_EXT1) (Some (caller_of 2)) h0 = Ret (tt, loading)) as E1 by (vm_compute; reflexivity).
  assert (ProcessEvent two_records loading = Ret (tt, loaded)) as E2 by (vm_compute; reflexivity).
  eapply history_event; [eapply history_all; [apply history_start| | |exact E1]|exact E2]; [reflexivity|eexists; reflexivity].
Qed.
Definition texts (o : output (C := unit)) : option (list (cstring * cstring)) :=
  match o with
  | Answer _ _ r => match result r with Some (ResultList l) => Some ((fun d => (Parcelables.Str16ToStr8 (Parcelables.name_ d), Parcelables.Str16ToStr8 (Parcelables.number_ d))) <$> l) | _ => None end
  | FileAction _ => None
  end.
Example book_loaded : omap texts (out loaded) = [[(str "Alice", str "1234"); ([], [])]].
Proof. vm_compute. reflexivity. Qed.
End Book.

Lemma loads_answered_once_witness : waiting Book.loaded = [] /\ waiting Book.loaded ++ answered Book.loaded ≡ₚ [key_of (Book.caller_of 2)].
Proof. split; [by vm_compute|]. apply (loads_answered_once (H := Book.latin) Book.h0 [key_of (Book.caller_of 2)] Book.loaded eq_refl eq_refl Book.loaded_history). Defined.
